(* ===== verification/_CoqProject ===== *)
-Q . S2P
Prelude.v
AES256.v
SHA512.v
BlockDev.v
Ata.v
CStr.v
VfsTypes.v
TinyFS.v
TinyFSDisk.v
TinyFSBlocks.v
TinyFSIO.v
TinyFSDir.v
VFS.v
VFSProps.v
VfsTinyFS.v
Memory.v
MemoryProps.v
MemoryHeap.v
Asm.v
AsmProps.v
Scheduler.v
SchedProps.v
SchedInv.v
SchedClaims.v
Jobs.v
JobsProps.v
NetPkt.v
Net.v
NetParse.v
NetClients.v
NetCard.v
NetArp.v
NetIp.v
NetUdp.v
NetDns.v
NetDhcp.v
Http.v
NetTcp.v
E1000.v
NetDemo.v
Elf.v
ElfProps.v
ElfLoad.v
Console.v
ConsoleProps.v
ConsoleFmt.v
History.v
Serial.v
Keyboard.v
KeyboardProps.v
StrBuf.v
Paint.v
Desk.v
TextEditor.v
EditorDoc.v
EditorProps.v
EditorFiles.v
Icons.v
IconsProps.v
Taskbar.v
Dialog.v
Gui.v
Tables.v
Interrupts.v
InterruptsProps.v
ExceptionProps.v
Anthropic.v
AnthropicProps.v
AnthropicFiles.v
AC97.v
AC97Props.v
Beep.v
PianoSynth.v
Shell.v
ShellFiles.v
ShellJobs.v
ShellDevs.v
ShellMain.v
Boot.v
ShellProps.v
