(* ===== verification/Prelude.v ===== *)
(** * AMQ-OS: a verification development

    AMQ-OS is a hobby operating system kernel in C (src/src/kernel, headers in
    src/includes, the boot loader in src/bootloader.c). This library models its
    components as Rocq functions, read from the C sources line by line, and
    proves what makes them correct, or, where the code does something else,
    what it does. The components form layers: memory and tables, then drivers
    over port input and output, then file system, scheduler and network, then
    console and input, then desktop, editors, sound and shell, and the start
    code that composes them all.

    ** Conventions

    - A C integer is a [Z]; arithmetic that can overflow is written with the
      wrap-around of its width ([u8], [u16], [u32], [u64], [s32], [s64]).
    - An array is a list; [aget] and [aset] return [OutOfBounds] where C would
      access memory outside it. Loops that are not structural have fuel and
      return [OutOfFuel] when it runs out; the theorems about results show that
      the code returns [Done], so that neither case occurs.
    - State is passed explicitly, or threaded by a small monad: [Sched.M]
      (resumptions, for context switches), [Net.N] (the network stack),
      [Ac97.A] (the sound driver), [Shell.Sh] (commands: they may finish, give
      the processor away, wait, stop or fault).
    - Hardware and other code outside the repository is a parameter, a type
      class of operations ([PortIO], [Nic], [PciPorts], [Image], [BlockDev],
      [Symbols], [Waits], [Uefi]) with its documented behaviour as a class of
      laws ([AtaDrive], [NicLaws], [BlockDevLaws], [Chips], [WaitLaws],
      [HaltLaws]) and a simulated instance that satisfies them.
    - Components that call each other do so through classes as well: [FileApi]
      and [DirApi] with [FileLaws] and [FileMakeLaws], which the VFS over
      TinyFS is proved to satisfy, [TreeApi], [StartFiles], [DeskApi],
      [DesktopApi].
    - Console output is a component of its own; shell commands, interrupts and
      the start code print through it, in the other components messages are
      left out. Delay loops have no effect, or are a parameter.

    ** Files

    Prelude.v: machine integers, arrays, outcomes, little-endian values, and
    the lemmas and hint database [machine] that the components share. CStr.v:
    C strings.

    Cryptography (Network/Cryptography). AES256.v, module [Aes]: key schedule,
    block cipher, CBC, CTR and PKCS#7; decryption inverts encryption for every
    key and block, the modes and the padding round-trip. SHA512.v, module
    [Sha]: SHA-512 and HMAC; the streaming implementation computes SHA-512 of
    FIPS 180-4, written down independently of the code ([fips_sha512], with the
    constants from the roots of primes), for any split into updates, and HMAC
    is RFC 2104 over it.

    Storage. BlockDev.v: the interface of a block device, and ramdisk.c. Ata.v:
    the ATA PIO driver (VFS/ata.c) as another instance, over
    port I/O, with the drive's protocol as its laws; a busy drive ignores
    commands, so nothing is claimed about its cache. VfsTypes.v: the types
    VFS.c and tinyfs.c share. TinyFS.v: all of VFS/tinyfs.c. TinyFSDisk.v:
    formatting, mounting, and that unmounting and mounting again restore the
    file system. TinyFSBlocks.v: block chains in the allocation table.
    TinyFSIO.v: reading and writing refine operations on the file's bytes.
    TinyFSDir.v: creating, finding and removing entries. VFS.v and VFSProps.v:
    descriptors, paths and mount points (VFS/VFS.c) over a record of file
    system operations. VfsTinyFS.v: the two composed: what is written through
    the VFS is read back.

    Memory (memory/memory.c). Memory.v: page allocator and heap on a word
    memory. MemoryProps.v: the page allocator is a stack of free pages.
    MemoryHeap.v: [kmalloc] is first fit on the free list when the block
    found has room for one more header; a block that has not breaks the heap,
    and freeing neighbours in address order makes the list cyclic.

    Programs (elf/elf_load.c). Elf.v: the ELF loader on that memory.
    ElfProps.v: the symbol table gives each name the value of its entry,
    undefined entries included. ElfLoad.v:
    where the segments of files that are not ET_DYN are placed, what
    relocations write, and a small file the
    theorems are applied to; loaded, its entry point is not its code.

    Assembler (assembler/asm.c). Asm.v and AsmProps.v: lexer, parser and
    encoder; encoding and decoding of instructions round-trip, and assembling
    any program terminates and stays inside the buffers.

    Processes (Processes). Scheduler.v: threads, processes, the ready queue,
    context switches and exits (scheduler.c, process.c). SchedProps.v and
    SchedInv.v: the queue and the invariant of the reachable states.
    SchedClaims.v: every operation that is not interrupted refines an abstract
    scheduler; a timer tick inside [ready_queue_add] breaks the queue; round
    robin is fair, a thread switched out and in again has its registers. Jobs.v and
    JobsProps.v: fg.c, sleep.c, threads_init.c and the timer handler of irq.c;
    sleeping jobs wake when the job system is switched on, which the start code
    does not do.

    Network (Network). NetPkt.v: packet memory, byte order, the Internet
    checksum. Net.v: the state of the stack and the mutually recursive send
    and receive paths of net.c, arp.c, udp.c, icmp.c, tcp.c, the parsers of
    dns.c and dhcp.c, and the rings of E1000.c. Each function takes the calls
    back into the stack as arguments, and [stack_at] ties them together with
    the nesting depth as fuel; [spin] bounds busy-waiting on a descriptor.
    NetClients.v: the blocking clients (ping, TCP, DNS, DHCP). Http.v: http.c.
    E1000.v: PCI.h and the card's initialisation. NetCard.v: the card's
    contract, a weakest-precondition calculus and a simulated card.
    NetParse.v, NetUdp.v: no UDP frame with consistent IPv4 lengths does harm,
    and datagrams arrive.
    NetArp.v: the ARP cache refines a bounded map. NetIp.v: IPv4 packets are
    valid, echo requests are answered when the next hop is in the ARP cache,
    and when the answer needs ARP the interrupt handler recurses without end.
    NetTcp.v: what every TCP segment does to the sockets, to the segments sent
    and to the data received, by the socket's state and the segment's flags
    ([react]), and that at any nesting depth sockets move only so. NetDns.v, NetDhcp.v, Http.v: round
    trips of queries and replies, the HTTP request and response buffer.
    NetDemo.v: a concrete host on which the network theorems are run.

    Console and input (Print, Input, Tables/idt.c, command_history.h).
    Console.v: frame buffer, glyphs, scrolling and [printk]. ConsoleProps.v:
    in text mode the console displays a terminal of character cells, on frame
    buffers whose pitch is their width. ConsoleFmt.v: numerals
    read back, format strings, and what a PRINT with its arguments puts on the
    screen. History.v: the command history is a list of the last fifty
    commands. Serial.v: the serial port and the mouse over port input and
    output. Keyboard.v and KeyboardProps.v: the scancode ring is a queue, and
    reading it edits the input line.

    Interrupts (Tables, Interrupts, System). Tables.v: the descriptor tables
    and the task state segment; the processor decodes them from their bytes. Interrupts.v: the interrupt controllers, the timer chip, the
    handler table, the exception stubs and handler, reboot and shutdown.
    InterruptsProps.v: after the boot sequence the timer and the keyboard
    reach their handlers, and the masks are a set of lines; the chips are the
    class [Chips]. ExceptionProps.v: what every exception prints, with the
    processor's own list of the vectors that push an error code.

    Desktop (GUI). StrBuf.v: C strings in fixed arrays. Paint.v: rectangles,
    text and the mouse arrow on the frame buffer, and the automation for "draws
    only inside". Desk.v: the interfaces the parts of the desktop call each
    other through ([FileApi] and [DirApi] to the file system with their laws
    [FileLaws] and [FileMakeLaws], [DeskApi], [DesktopApi]), and the proof that
    the VFS with a mounted TinyFS satisfies the laws; every open of a file
    costs a node of memory that is not returned, so the laws count the opens
    that are left. TextEditor.v: text_editor.c.
    EditorDoc.v: documents of lines with a cursor. EditorProps.v: every key
    refines an operation on a document. EditorFiles.v: saving and opening give
    back the lines, and drawing stays in the window. Icons.v and IconsProps.v:
    icons.c, sorting and clicking. Taskbar.v: taskbar.c and its list of
    entries. Dialog.v: create_dialog.c. Gui.v: gui.c, the event loop and the
    mouse, over all of these. Anthropic.v, AnthropicProps.v, AnthropicFiles.v:
    the full-screen editor; its keys refine the same documents, its files
    round-trip up to what the code loses.

    Sound (Audio). AC97.v: AC97.c, from the search on the PCI bus to playback.
    AC97Props.v: a calculus for the driver, volumes and the device search.
    Beep.v: what a beep puts into the DMA buffers. PianoSynth.v: piano_synth.c,
    its waves and notes, and a simulated card.

    Shell (Shell/shell.c, elf/elf_test.c and the commands other files print).
    Shell.v: strings and numbers, the monad of commands, the state of the
    whole system and the components' views of it. ShellFiles.v: the file
    commands, the assembler commands and their ELF files, loading and listing
    of programs. ShellJobs.v: system checks, process and job tables, background
    commands, the game. ShellDevs.v: network and sound commands. ShellMain.v:
    the 80 branches of process_command in order, and the main loop. Boot.v:
    bootloader.c and the kernel's efi_main (Shell/start.c), which composes the
    components; it never returns, and it leaves the job system switched off.
    ShellProps.v: writing and showing a file by command lines, which branches
    can run, the stack of a program, that assembled files load.

    ** Assumptions

    The scheduler's operations are modelled as they run without an interrupt
    inside them. The code does not guarantee this: [schedule] keeps the tick out of itself
    with a flag and the timer handler starts with interrupts off, but nothing
    protects the queue in the other operations, and
    [SchedClaims.unblock_preempted] shows what a tick inside an operation can
    do. The other theorems about the scheduler hold for the executions in which
    every tick falls between two operations. [kmalloc] succeeds in the network
    stack, where no caller checks it. The card changes memory it shares with
    the driver only when the driver accesses a register or looks at a
    descriptor. The theorems name every other hypothesis.

    ** Fuel

    Loops over linked structures (free list, block chain, ready queue) take
    fuel bounded by the size of the structure in their theorems; name and
    option parsers use the packet length, since every round advances; checksum
    folding takes two rounds. The nesting depth of the network stack is an
    argument, and the theorems hold for every depth that is large enough, or
    for all. Event loops (editors, desktop, shell, get_input_line) take the
    codes that arrive, or a number of rounds; the ring of scancodes has 256
    entries, so draining it takes 256 rounds. process_command calls itself from
    testbg only: two calls are enough ([process_command_depth]). Waits for the
    timer or the sound card take fuel, bounded in the theorems by the laws of
    the waits ([WaitLaws], [HaltLaws]).

    ** Not modelled

    Entry stubs in assembly appear through their effect on the saved registers
    and the stack. Debug messages of the drivers, the file system and the
    network stack, vfs_debug_root, and empty delay functions have no model.
    test_syscall_interface is declared and defined nowhere, so it is a
    parameter of the shell. *)
From Stdlib Require Import ZArith Lia.
From stdpp Require Import base numbers list sets.

(** ** Machine integers

    A C integer of width [w] is a [Z]; unsigned arithmetic wraps modulo [2^w],
    conversion to a signed type takes the two's complement representative. *)
Module Machine.
Local Open Scope Z_scope.

Definition wrap (w z : Z) : Z := z mod 2 ^ w.
Definition swrap (w z : Z) : Z := (z + 2 ^ (w - 1)) mod 2 ^ w - 2 ^ (w - 1).

Abbreviation u8 := (wrap 8).
Abbreviation u16 := (wrap 16).
Abbreviation u32 := (wrap 32).
Abbreviation u64 := (wrap 64).
Abbreviation s8 := (swrap 8).
Abbreviation s32 := (swrap 32).
Abbreviation s64 := (swrap 64).

(** A C truth value. *)
Definition c_true (z : Z) : bool := negb (z =? 0).

Definition is_byte (z : Z) : Prop := 0 <= z < 256.
Definition is_u32 (z : Z) : Prop := 0 <= z < 2 ^ 32.
Definition is_u64 (z : Z) : Prop := 0 <= z < 2 ^ 64.

Lemma wrap_range w z : 0 <= w -> 0 <= wrap w z < 2 ^ w.
Proof. intros Hw. apply Z.mod_pos_bound. by apply Z.pow_pos_nonneg. Qed.

Lemma wrap_small w z : 0 <= z < 2 ^ w -> wrap w z = z.
Proof. apply Z.mod_small. Qed.

Lemma wrap_byte z : is_byte (u8 z).
Proof. apply wrap_range. lia. Qed.

Lemma swrap_small w z : 0 < w -> - 2 ^ (w - 1) <= z < 2 ^ (w - 1) -> swrap w z = z.
Proof.
  intros Hw Hz. unfold swrap.
  assert (2 ^ w = 2 * 2 ^ (w - 1)) as E.
  { rewrite <- Z.pow_succ_r by lia. f_equal. lia. }
  rewrite Z.mod_small; lia.
Qed.

Lemma swrap_range w z : 0 < w -> - 2 ^ (w - 1) <= swrap w z < 2 ^ (w - 1).
Proof.
  intros Hw. unfold swrap.
  assert (2 ^ w = 2 * 2 ^ (w - 1)) as E.
  { rewrite <- Z.pow_succ_r by lia. f_equal. lia. }
  pose proof (Z.mod_pos_bound (z + 2 ^ (w - 1)) (2 ^ w)) as H.
  assert (0 < 2 ^ w) by (apply Z.pow_pos_nonneg; lia). lia.
Qed.

(** Masking with [2^w - 1] is reduction modulo [2^w]. *)
Lemma land_ff z : Z.land z 255 = z mod 256.
Proof. change 255 with (Z.ones 8). by rewrite Z.land_ones. Qed.

(** Bounds of the bitwise operations, through the bits above [w]. *)
Lemma bits_above w z : 0 <= w -> 0 <= z ->
  (forall i, w <= i -> Z.testbit z i = false) -> z < 2 ^ w.
Proof.
  intros Hw Hz Hb. destruct (Z.eq_dec z 0) as [->|Hnz].
  { by apply Z.pow_pos_nonneg. }
  apply Z.log2_lt_pow2; [lia|]. destruct (Z.lt_ge_cases (Z.log2 z) w) as [|Hge]; [done|].
  specialize (Hb _ Hge). rewrite Z.bit_log2 in Hb by lia. done.
Qed.

Lemma bits_above_zero w z i : 0 <= z < 2 ^ w -> w <= i -> Z.testbit z i = false.
Proof.
  intros Hz Hi. destruct (Z.eq_dec z 0) as [->|]; [apply Z.bits_0|].
  apply Z.bits_above_log2; [lia|]. apply Z.lt_le_trans with w; [|done].
  apply Z.log2_lt_pow2; lia.
Qed.

Lemma lxor_range w x y : 0 <= w -> 0 <= x < 2 ^ w -> 0 <= y < 2 ^ w ->
  0 <= Z.lxor x y < 2 ^ w.
Proof.
  intros Hw Hx Hy. assert (0 <= Z.lxor x y) by (apply Z.lxor_nonneg; lia).
  split; [done|]. apply bits_above; [done..|]. intros i Hi.
  rewrite Z.lxor_spec, !(bits_above_zero w) by done. done.
Qed.

Lemma lor_range w x y : 0 <= w -> 0 <= x < 2 ^ w -> 0 <= y < 2 ^ w ->
  0 <= Z.lor x y < 2 ^ w.
Proof.
  intros Hw Hx Hy. assert (0 <= Z.lor x y) by (apply Z.lor_nonneg; lia).
  split; [done|]. apply bits_above; [done..|]. intros i Hi.
  rewrite Z.lor_spec, !(bits_above_zero w) by done. done.
Qed.

Lemma lxor_byte x y : is_byte x -> is_byte y -> is_byte (Z.lxor x y).
Proof. apply (lxor_range 8). lia. Qed.

Lemma land_ff_byte z : is_byte (Z.land z 255).
Proof. rewrite land_ff. apply Z.mod_pos_bound. lia. Qed.

(** The mask of an alignment to [2 ^ k] in a [w]-bit word rounds down. *)
Lemma land_align w k v : 0 <= k <= w -> 0 <= v < 2 ^ w -> Z.land v (2 ^ w - 2 ^ k) = 2 ^ k * (v / 2 ^ k).
Proof.
  intros Hk Hv. replace (2 ^ w - 2 ^ k) with (Z.shiftl (Z.ones (w - k)) k).
  2: { rewrite Z.shiftl_mul_pow2, Z.ones_equiv by lia. rewrite <- Z.sub_1_r, Z.mul_sub_distr_r, <- Z.pow_add_r by lia.
       replace (w - k + k) with w by lia. lia. }
  replace (2 ^ k * (v / 2 ^ k)) with (Z.shiftl (Z.shiftr v k) k)
    by (rewrite Z.shiftl_mul_pow2, Z.shiftr_div_pow2 by lia; lia).
  apply Z.bits_inj'. intros i Hi. rewrite Z.land_spec, !Z.shiftl_spec by done. destruct (Z.lt_ge_cases i k) as [Hlt|Hge].
  { rewrite !(Z.testbit_neg_r _ (i - k)) by lia. apply andb_false_r. }
  rewrite Z.shiftr_spec by lia. replace (i - k + k) with i by lia. rewrite Z.testbit_ones_nonneg by lia.
  destruct (Z.ltb_spec (i - k) (w - k)) as [Hlt|Hge']; [by rewrite andb_true_r|]. rewrite andb_false_r. symmetry.
  apply (bits_above_zero w); lia.
Qed.

(** A single-bit mask tests that bit. *)
Lemma c_true_land_pow2 z n : 0 <= n -> c_true (Z.land z (2 ^ n)) = Z.testbit z n.
Proof.
  intros Hn. unfold c_true. destruct (Z.testbit z n) eqn:E.
  - assert (Z.land z (2 ^ n) <> 0) as H; [|lia].
    intros H. apply (f_equal (fun x => Z.testbit x n)) in H.
    rewrite Z.land_spec, Z.pow2_bits_true, E, Z.bits_0 in H by done. done.
  - assert (Z.land z (2 ^ n) = 0) as ->; [|done].
    apply Z.bits_inj'. intros i Hi. rewrite Z.land_spec, Z.pow2_bits_eqb, Z.bits_0 by done.
    destruct (Z.eqb_spec n i) as [<-|]; [by rewrite E|apply andb_false_r].
Qed.

Lemma wrap_lxor w x y : 0 <= w -> wrap w (Z.lxor x y) = Z.lxor (wrap w x) (wrap w y).
Proof.
  intros Hw. unfold wrap. rewrite <- !Z.land_ones by done.
  apply Z.bits_inj'. intros i Hi. rewrite !Z.land_spec, !Z.lxor_spec, !Z.land_spec.
  by destruct (Z.testbit x i), (Z.testbit y i), (Z.testbit (Z.ones w) i).
Qed.

(** A decidable fact about bytes holds when it holds on the 256 values. *)
Definition all_bytes : list Z := map Z.of_nat (seq 0 256).

Lemma byte_forall (P : Z -> bool) :
  forallb P all_bytes = true -> forall z, is_byte z -> P z = true.
Proof.
  intros H z Hz. rewrite forallb_forall in H. apply H. unfold all_bytes.
  apply in_map_iff. exists (Z.to_nat z). unfold is_byte in Hz. rewrite in_seq. lia.
Qed.

Lemma byte_forall_eq (f g : Z -> Z) :
  forallb (fun z => f z =? g z) all_bytes = true -> forall z, is_byte z -> f z = g z.
Proof. intros H z Hz. apply Z.eqb_eq. exact (byte_forall _ H z Hz). Qed.

Lemma byte_forall2_eq (f g : Z -> Z -> Z) :
  forallb (fun x => forallb (fun y => f x y =? g x y) all_bytes) all_bytes = true ->
  forall x y, is_byte x -> is_byte y -> f x y = g x y.
Proof.
  intros H x y Hx Hy. apply Z.eqb_eq.
  exact (byte_forall (fun y => f x y =? g x y) (byte_forall _ H x Hx) y Hy).
Qed.

Lemma lxor_cancel x y : Z.lxor (Z.lxor x y) y = x.
Proof. by rewrite Z.lxor_assoc, Z.lxor_nilpotent, Z.lxor_0_r. Qed.
End Machine.
Export Machine.

(** ** Hint database of the development *)
Create HintDb machine.
#[export] Hint Resolve wrap_byte lxor_byte land_ff_byte : machine.

(** ** C arrays

    An array is a list read with [l .[ i ]] (0 outside, where the C access
    would be undefined; the theorems carry the bounds) and written with
    [l .[ i <- v ]]. *)
Module Arrays.
Declare Scope arr_scope.
Delimit Scope arr_scope with arr.
Definition get (l : list Z) (i : nat) : Z := nth i l 0%Z.
Notation "l .[ i ]" := (get l i%nat) (at level 1, left associativity, format "l .[ i ]") : arr_scope.
Notation "l .[ i <- v ]" := (<[i%nat := v%Z]> l)
  (at level 1, left associativity, format "l .[ i  <-  v ]") : arr_scope.

(** All indices below [n], for a loop [for (i = 0; i < n; i++)]. *)
Definition for_range {A} (lo hi : nat) (body : nat -> A -> A) (a : A) : A :=
  foldl (fun acc i => body i acc) a (seq lo (hi - lo)).

Lemma for_range_S {A} lo hi body (a : A) : lo <= hi ->
  for_range lo (S hi) body a = body hi (for_range lo hi body a).
Proof.
  intros H. unfold for_range. replace (S hi - lo) with (S (hi - lo)) by lia.
  rewrite seq_S, foldl_app. simpl. f_equal. lia.
Qed.

Lemma for_range_nil {A} lo hi body (a : A) : hi <= lo -> for_range lo hi body a = a.
Proof. intros H. unfold for_range. by replace (hi - lo) with 0 by lia. Qed.

Lemma for_range_inv {A} (P : nat -> A -> Prop) lo hi body a :
  lo <= hi -> P lo a ->
  (forall i x, lo <= i < hi -> P i x -> P (S i) (body i x)) ->
  P hi (for_range lo hi body a).
Proof.
  intros Hle H0 Hs. induction Hle as [|hi Hle IH].
  - by rewrite for_range_nil.
  - rewrite for_range_S by done. apply Hs; [lia|]. apply IH.
    intros. apply Hs; [lia|done].
Qed.

Lemma for_range_ext {A} n (f g : nat -> A -> A) a :
  (forall i x, i < n -> f i x = g i x) -> for_range 0 n f a = for_range 0 n g a.
Proof.
  induction n as [|n IH]; intros H; [done|]. rewrite !for_range_S by lia.
  rewrite IH by (intros; apply H; lia). apply H. lia.
Qed.

Lemma for_range_ext_from {A} lo hi (f g : nat -> A -> A) a :
  (forall i x, lo <= i < hi -> f i x = g i x) -> for_range lo hi f a = for_range lo hi g a.
Proof.
  intros H. destruct (decide (lo <= hi)) as [Hle|]; [|by rewrite !for_range_nil by lia].
  induction Hle as [|hi Hle IH]; [by rewrite !for_range_nil|]. rewrite !for_range_S by lia.
  rewrite IH by (intros; apply H; lia). apply H. lia.
Qed.

Lemma for_range_add {A} n m (f : nat -> A -> A) a :
  for_range 0 (n + m) f a = for_range 0 m (fun k => f (n + k)) (for_range 0 n f a).
Proof.
  induction m as [|m IH]; [by rewrite Nat.add_0_r|].
  rewrite Nat.add_succ_r, !for_range_S by lia. by rewrite IH.
Qed.

(** [for (i = hi; i > 0; i--)]. *)
Fixpoint for_down {A} (body : nat -> A -> A) (hi : nat) (a : A) : A :=
  match hi with
  | O => a
  | S i => for_down body i (body (S i) a)
  end.

Lemma for_down_0 {A} body (a : A) : for_down body 0 a = a.
Proof. done. Qed.

Lemma for_down_S {A} body i (a : A) : for_down body (S i) a = for_down body i (body (S i) a).
Proof. done. Qed.

Lemma get_lookup (l : list Z) i x : l !! i = Some x -> get l i = x.
Proof. intros H. apply (nth_lookup_Some _ _ 0%Z) in H. done. Qed.

Lemma lookup_get (l : list Z) i : i < length l -> l !! i = Some (get l i).
Proof.
  intros H. destruct (lookup_lt_is_Some_2 l i H) as [x Hx].
  by rewrite Hx, (get_lookup _ _ _ Hx).
Qed.

Lemma get_insert_eq (l : list Z) i v : i < length l -> get (<[i := v]> l) i = v.
Proof. intros H. apply get_lookup. by apply list_lookup_insert_eq. Qed.

Lemma get_insert_ne (l : list Z) i j v : i <> j -> get (<[i := v]> l) j = get l j.
Proof.
  intros H. unfold get. rewrite !nth_lookup. by rewrite list_lookup_insert_ne.
Qed.

Lemma list_inserts_prefix {A} (k l : list A) : length k <= length l ->
  list_inserts 0 k l = k ++ drop (length k) l.
Proof.
  intros H. apply list_eq. intros i. destruct (decide (i < length k)).
  - rewrite list_lookup_inserts, lookup_app_l by lia. f_equal. lia.
  - rewrite list_lookup_inserts_ge, lookup_app_r, lookup_drop by lia. f_equal. lia.
Qed.

(** Copying [k] into [l] from index [i] on. *)
Lemma get_inserts_in (l k : list Z) i j : i <= j -> j < i + length k -> i + length k <= length l ->
  get (list_inserts i k l) j = get k (j - i).
Proof.
  intros H1 H2 H3. apply get_lookup. rewrite list_lookup_inserts by lia. apply lookup_get. lia.
Qed.

Lemma get_inserts_out (l k : list Z) i j : j < i \/ i + length k <= j ->
  get (list_inserts i k l) j = get l j.
Proof.
  intros [H|H]; unfold get; rewrite !nth_lookup.
  - by rewrite list_lookup_inserts_lt.
  - by rewrite list_lookup_inserts_ge.
Qed.

Lemma get_map_seq f n j : j < n -> get (map f (seq 0 n)) j = f j.
Proof.
  intros H. apply get_lookup. rewrite list_lookup_fmap, lookup_seq_lt by done. done.
Qed.

Lemma get_app_l (l k : list Z) i : i < length l -> get (l ++ k) i = get l i.
Proof. intros H. unfold get. by rewrite app_nth1. Qed.

Lemma get_app_r (l k : list Z) i : length l <= i -> get (l ++ k) i = get k (i - length l).
Proof. intros H. unfold get. by rewrite app_nth2. Qed.

Lemma get_drop (l : list Z) n i : get (drop n l) i = get l (n + i).
Proof. unfold get. rewrite !nth_lookup. by rewrite lookup_drop. Qed.

Lemma get_take (l : list Z) n i : i < n -> get (take n l) i = get l i.
Proof. intros H. unfold get. rewrite !nth_lookup. by rewrite lookup_take_lt. Qed.

Lemma take_eq_get (l k : list Z) n : n <= length l -> n <= length k ->
  (forall j, j < n -> get l j = get k j) -> take n l = take n k.
Proof.
  intros Hl Hk H. apply list_eq. intros i. destruct (decide (i < n)) as [Hi|Hi].
  - rewrite !lookup_take_lt, !lookup_get by lia. f_equal. by apply H.
  - by rewrite !lookup_take_ge by lia.
Qed.

Lemma list_eq_get (l k : list Z) : length l = length k ->
  (forall i, i < length l -> get l i = get k i) -> l = k.
Proof.
  intros Hlen H. apply list_eq. intros i.
  destruct (decide (i < length l)) as [Hi|Hi].
  - rewrite !lookup_get by lia. f_equal. by apply H.
  - rewrite !lookup_ge_None_2 by lia. done.
Qed.

Lemma Forall_get (P : Z -> Prop) l i : Forall P l -> i < length l -> P (get l i).
Proof. intros H Hi. eapply Forall_lookup_1; [done|]. by apply lookup_get. Qed.
End Arrays.
Export Arrays.

(** ** Outcomes of C code

    [Done a] is a normal return; [OutOfBounds] stands for an array access
    outside the array (undefined in C), [OutOfFuel] for a loop cut by its fuel.
    Theorems about the code show that neither of the last two occurs. *)
Module Outcomes.
Inductive outcome (A : Type) : Type :=
| Done (a : A)
| OutOfBounds
| OutOfFuel.
Arguments Done {A} a.
Arguments OutOfBounds {A}.
Arguments OutOfFuel {A}.

Definition obind {A B} (m : outcome A) (f : A -> outcome B) : outcome B :=
  match m with
  | Done a => f a
  | OutOfBounds => OutOfBounds
  | OutOfFuel => OutOfFuel
  end.
Declare Scope outcome_scope.
Delimit Scope outcome_scope with out.
Notation "'let*' x ':=' m 'in' k" := (obind m (fun x => k))
  (at level 10, x pattern, m at level 100, k at level 200) : outcome_scope.

(** Reading element [i] of an array, a C index. *)
Definition aget {A} (l : list A) (i : Z) : outcome A :=
  if (i <? 0)%Z then OutOfBounds
  else match l !! Z.to_nat i with Some x => Done x | None => OutOfBounds end.

(** Writing element [i]. *)
Definition aset {A} (l : list A) (i : Z) (v : A) : outcome (list A) :=
  if ((0 <=? i) && (i <? Z.of_nat (length l)))%Z
  then Done (<[Z.to_nat i := v]> l) else OutOfBounds.

Lemma aget_lookup {A} (l : list A) i x :
  (0 <= i)%Z -> l !! Z.to_nat i = Some x -> aget l i = Done x.
Proof. intros H1 H2. unfold aget. rewrite H2. destruct (Z.ltb_spec i 0); [lia|done]. Qed.

Lemma aset_done {A} (l : list A) i v : (0 <= i < Z.of_nat (length l))%Z ->
  aset l i v = Done (<[Z.to_nat i := v]> l).
Proof.
  intros H. unfold aset. destruct (Z.leb_spec 0 i), (Z.ltb_spec i (Z.of_nat (length l))); done || lia.
Qed.

(** A loop over [idxs] that stops at the first iteration that fails. *)
Fixpoint for_ok {S} (f : nat -> S -> bool * S) (idxs : list nat) (s : S) : bool * S :=
  match idxs with
  | [] => (true, s)
  | i :: idxs => let '(ok, s) := f i s in if ok then for_ok f idxs s else (false, s)
  end.

Lemma for_ok_ext {S} (f g : nat -> S -> bool * S) l s :
  (forall i x, i ∈ l -> f i x = g i x) -> for_ok f l s = for_ok g l s.
Proof.
  revert s. induction l as [|i l IH]; intros s H; simpl; [done|].
  rewrite (H i s) by set_solver. destruct (g i s) as [[] y]; [|done].
  apply IH. intros. apply H. set_solver.
Qed.

Lemma for_ok_shift {S} (f : nat -> S -> bool * S) b n s :
  for_ok f (seq b n) s = for_ok (fun i => f (b + i)) (seq 0 n) s.
Proof.
  assert (forall l s, for_ok f (map (Nat.add b) l) s = for_ok (fun i => f (b + i)) l s) as E.
  { induction l as [|i l IH]; intros x; simpl; [done|]. destruct (f (b + i) x) as [[] y]; [apply IH|done]. }
  rewrite <- E, <- (Nat.add_0_r b) at 1. f_equal. symmetry. apply fmap_add_seq.
Qed.

Lemma for_ok_inv {S} (P : nat -> S -> Prop) f lo n s :
  P lo s ->
  (forall i x, lo <= i < lo + n -> P i x -> exists y, f i x = (true, y) /\ P (Datatypes.S i) y) ->
  exists y, for_ok f (seq lo n) s = (true, y) /\ P (lo + n) y.
Proof.
  revert lo s. induction n as [|n IH]; intros lo s H0 Hs; simpl.
  - exists s. by rewrite Nat.add_0_r.
  - destruct (Hs lo s) as (y & -> & Hy); [lia|done|].
    destruct (IH (Datatypes.S lo) y Hy) as (z & Hz & HP).
    { intros i x Hi Hx. apply Hs; [lia|done]. }
    exists z. split; [done|]. by rewrite Nat.add_succ_r, <- Nat.add_succ_l.
Qed.

Lemma obind_done {A B} (a : A) (f : A -> outcome B) : obind (Done a) f = f a.
Proof. done. Qed.
End Outcomes.
Export Outcomes.

(** ** Little-endian integers *)
Module LittleEndian.
Local Open Scope Z_scope.

Fixpoint le_bytes (n : nat) (v : Z) : list Z :=
  match n with
  | O => []
  | S n => v mod 256 :: le_bytes n (v / 256)
  end.

Fixpoint le_value (l : list Z) : Z :=
  match l with
  | [] => 0
  | b :: l => b + 256 * le_value l
  end.

Lemma length_le_bytes n v : length (le_bytes n v) = n.
Proof. revert v. induction n as [|n IH]; intros v; simpl; [done|]. by rewrite IH. Qed.

Lemma le_value_bytes n v : le_value (le_bytes n v) = v mod 256 ^ Z.of_nat n.
Proof.
  revert v. induction n as [|n IH]; intros v; cbn [le_bytes le_value]; [by rewrite Z.mod_1_r|].
  rewrite IH, Nat2Z.inj_succ, Z.pow_succ_r by lia.
  rewrite Z.rem_mul_r; [done|lia|]. apply Z.pow_pos_nonneg; lia.
Qed.

Lemma le_value_bytes_u32 v : 0 <= v < 2 ^ 32 -> le_value (le_bytes 4 v) = v.
Proof. intros H. rewrite le_value_bytes. by apply Z.mod_small. Qed.

Lemma le_bytes_byte n v : Forall is_byte (le_bytes n v).
Proof.
  revert v. induction n as [|n IH]; intros v; simpl; constructor; [|done].
  unfold is_byte. apply Z.mod_pos_bound. lia.
Qed.
End LittleEndian.
Export LittleEndian.
