(* ===== verification/AES256.v ===== *)
(** * AES-256 (src/kernel/Network/Cryptography/AES256.c, includes/AES256.h)

    The block cipher, its key schedule, the CBC and CTR modes and PKCS#7
    padding, as functions on byte lists. The theorems: the inverse layers and
    the block decryption undo encryption under every key, CBC and CTR
    decryption recover the plaintext, the CTR counter is a big-endian 128-bit
    increment, unpadding inverts padding; and a FIPS-197 test vector on which
    the code differs from the standard. *)
From Stdlib Require Import ZArith Lia Btauto.
From stdpp Require Import base numbers list.
From S2P Require Import Prelude.
Local Open Scope Z_scope.
Local Open Scope arr_scope.

(** ** Data *)
Module Aes.

Definition AES256_BLOCK_SIZE : nat := 16.
Definition AES256_ROUNDS : nat := 14.

Definition sbox : list Z :=
  [
   99; 124; 119; 123; 242; 107; 111; 197; 48; 1; 103; 43; 254; 215; 171; 118;
   202; 130; 201; 125; 250; 89; 71; 240; 173; 212; 162; 175; 156; 164; 114; 192;
   183; 253; 147; 38; 54; 63; 247; 204; 52; 165; 229; 241; 113; 216; 49; 21;
   4; 199; 35; 195; 24; 150; 5; 154; 7; 18; 128; 226; 235; 39; 178; 117;
   9; 131; 44; 26; 27; 110; 90; 160; 82; 59; 214; 179; 41; 227; 47; 132;
   83; 209; 0; 237; 32; 252; 177; 91; 106; 203; 190; 57; 74; 76; 88; 207;
   208; 239; 170; 251; 67; 77; 51; 133; 69; 249; 2; 127; 80; 60; 159; 168;
   81; 163; 64; 143; 146; 157; 56; 245; 188; 182; 218; 33; 16; 255; 243; 210;
   205; 12; 19; 236; 95; 151; 68; 23; 196; 167; 126; 61; 100; 93; 25; 115;
   96; 129; 79; 220; 34; 42; 144; 136; 70; 238; 184; 20; 222; 94; 11; 219;
   224; 50; 58; 10; 73; 6; 36; 92; 194; 211; 172; 98; 145; 149; 228; 121;
   231; 200; 55; 109; 141; 213; 78; 169; 108; 86; 244; 234; 101; 122; 174; 8;
   186; 120; 37; 46; 28; 166; 180; 198; 232; 221; 116; 31; 75; 189; 139; 138;
   112; 62; 181; 102; 72; 3; 246; 14; 97; 53; 87; 185; 134; 193; 29; 158;
   225; 248; 152; 17; 105; 217; 142; 148; 155; 30; 135; 233; 206; 85; 40; 223;
   140; 161; 137; 13; 191; 230; 66; 104; 65; 153; 45; 15; 176; 84; 187; 22
  ].

Definition inv_sbox : list Z :=
  [
   82; 9; 106; 213; 48; 54; 165; 56; 191; 64; 163; 158; 129; 243; 215; 251;
   124; 227; 57; 130; 155; 47; 255; 135; 52; 142; 67; 68; 196; 222; 233; 203;
   84; 123; 148; 50; 166; 194; 35; 61; 238; 76; 149; 11; 66; 250; 195; 78;
   8; 46; 161; 102; 40; 217; 36; 178; 118; 91; 162; 73; 109; 139; 209; 37;
   114; 248; 246; 100; 134; 104; 152; 22; 212; 164; 92; 204; 93; 101; 182; 146;
   108; 112; 72; 80; 253; 237; 185; 218; 94; 21; 70; 87; 167; 141; 157; 132;
   144; 216; 171; 0; 140; 188; 211; 10; 247; 228; 88; 5; 184; 179; 69; 6;
   208; 44; 30; 143; 202; 63; 15; 2; 193; 175; 189; 3; 1; 19; 138; 107;
   58; 145; 17; 65; 79; 103; 220; 234; 151; 242; 207; 206; 240; 180; 230; 115;
   150; 172; 116; 34; 231; 173; 53; 133; 226; 249; 55; 232; 28; 117; 223; 110;
   71; 241; 26; 113; 29; 41; 197; 137; 111; 183; 98; 14; 170; 24; 190; 27;
   252; 86; 62; 75; 198; 210; 121; 32; 154; 219; 192; 254; 120; 205; 90; 244;
   31; 221; 168; 51; 136; 7; 199; 49; 177; 18; 16; 89; 39; 128; 236; 95;
   96; 81; 127; 169; 25; 181; 74; 13; 45; 229; 122; 159; 147; 201; 156; 239;
   160; 224; 59; 77; 174; 42; 245; 176; 200; 235; 187; 60; 131; 83; 153; 97;
   23; 43; 4; 126; 186; 119; 214; 38; 225; 105; 20; 99; 85; 33; 12; 125
  ].

Definition rcon : list Z :=
  [
   0; 1; 2; 4; 8; 16; 32; 64; 128; 27; 54; 108; 216; 171; 77
  ].

(** [aes256_ctx_t]: 60 round-key words and the number of rounds. *)
Record aes256_ctx := mk_ctx { round_keys : list Z; nr : nat }.

(** Multiplication in GF(2^8): eight rounds of the loop of [gmul]. *)
Fixpoint gmul_loop (n : nat) (p a b : Z) : Z :=
  match n with
  | O => p
  | S n =>
      let p := if c_true (Z.land b 1) then Z.lxor p a else p in
      let hi := Z.land a 128 in
      let a := u8 (Z.shiftl a 1) in
      let a := if c_true hi then Z.lxor a 27 else a in
      gmul_loop n p a (Z.shiftr b 1)
  end.
Definition gmul (a b : Z) : Z := gmul_loop 8 0 a b.

(** ** Key schedule *)
Definition sub_word (t : Z) : Z :=
  Z.lor (Z.lor (Z.lor
    (u32 (Z.shiftl (sbox.[Z.to_nat (Z.land (Z.shiftr t 24) 255)]) 24))
    (u32 (Z.shiftl (sbox.[Z.to_nat (Z.land (Z.shiftr t 16) 255)]) 16)))
    (u32 (Z.shiftl (sbox.[Z.to_nat (Z.land (Z.shiftr t 8) 255)]) 8)))
    (sbox.[Z.to_nat (Z.land t 255)]).

Definition rot_word (t : Z) : Z := Z.lor (u32 (Z.shiftl t 8)) (Z.shiftr t 24).

Definition key_word (key : list Z) (i : nat) : Z :=
  Z.lor (Z.lor (Z.lor
    (u32 (Z.shiftl (key.[4 * i]) 24)) (u32 (Z.shiftl (key.[4 * i + 1]) 16)))
    (u32 (Z.shiftl (key.[4 * i + 2]) 8))) (key.[4 * i + 3]).

Definition expand_step (i : nat) (rk : list Z) : list Z :=
  let temp := rk.[i - 1] in
  let temp :=
    if (i mod 8 =? 0)%nat then
      Z.lxor (sub_word (rot_word temp)) (u32 (Z.shiftl (rcon.[i / 8]) 24))
    else if (i mod 8 =? 4)%nat then sub_word temp
    else temp in
  rk.[i <- Z.lxor (rk.[i - 8]) temp].

Definition aes256_init (ctx : aes256_ctx) (key : list Z) : aes256_ctx :=
  let nr := AES256_ROUNDS in
  let rk := for_range 0 8 (fun i rk => rk.[i <- key_word key i]) (round_keys ctx) in
  let rk := for_range 8 (4 * (nr + 1)) expand_step rk in
  mk_ctx rk nr.

(** ** The round layers, on the 16-byte state *)
Definition sub_bytes (state : list Z) : list Z :=
  for_range 0 16 (fun i st => st.[i <- sbox.[Z.to_nat (st.[i])]]) state.

Definition inv_sub_bytes (state : list Z) : list Z :=
  for_range 0 16 (fun i st => st.[i <- inv_sbox.[Z.to_nat (st.[i])]]) state.

Definition shift_rows (st : list Z) : list Z :=
  let temp := st.[1] in
  let st := st.[1 <- st.[5]] in
  let st := st.[5 <- st.[9]] in
  let st := st.[9 <- st.[13]] in
  let st := st.[13 <- temp] in
  let temp := st.[2] in
  let st := st.[2 <- st.[10]] in
  let st := st.[10 <- temp] in
  let temp := st.[6] in
  let st := st.[6 <- st.[14]] in
  let st := st.[14 <- temp] in
  let temp := st.[15] in
  let st := st.[15 <- st.[11]] in
  let st := st.[11 <- st.[7]] in
  let st := st.[7 <- st.[3]] in
  st.[3 <- temp].

Definition inv_shift_rows (st : list Z) : list Z :=
  let temp := st.[13] in
  let st := st.[13 <- st.[9]] in
  let st := st.[9 <- st.[5]] in
  let st := st.[5 <- st.[1]] in
  let st := st.[1 <- temp] in
  let temp := st.[2] in
  let st := st.[2 <- st.[10]] in
  let st := st.[10 <- temp] in
  let temp := st.[6] in
  let st := st.[6 <- st.[14]] in
  let st := st.[14 <- temp] in
  let temp := st.[3] in
  let st := st.[3 <- st.[7]] in
  let st := st.[7 <- st.[11]] in
  let st := st.[11 <- st.[15]] in
  st.[15 <- temp].

Definition mix_column (i : nat) (st : list Z) : list Z :=
  let a0 := st.[i] in
  let a1 := st.[i + 4] in
  let a2 := st.[i + 8] in
  let a3 := st.[i + 12] in
  let st := st.[i <- Z.lxor (Z.lxor (Z.lxor (gmul a0 2) (gmul a1 3)) a2) a3] in
  let st := st.[i + 4 <- Z.lxor (Z.lxor (Z.lxor a0 (gmul a1 2)) (gmul a2 3)) a3] in
  let st := st.[i + 8 <- Z.lxor (Z.lxor (Z.lxor a0 a1) (gmul a2 2)) (gmul a3 3)] in
  st.[i + 12 <- Z.lxor (Z.lxor (Z.lxor (gmul a0 3) a1) a2) (gmul a3 2)].

Definition mix_columns (st : list Z) : list Z := for_range 0 4 mix_column st.

Definition inv_mix_column (i : nat) (st : list Z) : list Z :=
  let a0 := st.[i] in
  let a1 := st.[i + 4] in
  let a2 := st.[i + 8] in
  let a3 := st.[i + 12] in
  let st := st.[i <-
    Z.lxor (Z.lxor (Z.lxor (gmul a0 14) (gmul a1 11)) (gmul a2 13)) (gmul a3 9)] in
  let st := st.[i + 4 <-
    Z.lxor (Z.lxor (Z.lxor (gmul a0 9) (gmul a1 14)) (gmul a2 11)) (gmul a3 13)] in
  let st := st.[i + 8 <-
    Z.lxor (Z.lxor (Z.lxor (gmul a0 13) (gmul a1 9)) (gmul a2 14)) (gmul a3 11)] in
  st.[i + 12 <-
    Z.lxor (Z.lxor (Z.lxor (gmul a0 11) (gmul a1 13)) (gmul a2 9)) (gmul a3 14)].

Definition inv_mix_columns (st : list Z) : list Z := for_range 0 4 inv_mix_column st.

(** [key] is the round-key array from word [k] on. *)
Definition add_round_key_col (rk : list Z) (k i : nat) (st : list Z) : list Z :=
  let w := rk.[k + i] in
  let st := st.[i <- Z.lxor (st.[i]) (Z.land (Z.shiftr w 24) 255)] in
  let st := st.[i + 4 <- Z.lxor (st.[i + 4]) (Z.land (Z.shiftr w 16) 255)] in
  let st := st.[i + 8 <- Z.lxor (st.[i + 8]) (Z.land (Z.shiftr w 8) 255)] in
  st.[i + 12 <- Z.lxor (st.[i + 12]) (Z.land w 255)].

Definition add_round_key (rk : list Z) (k : nat) (st : list Z) : list Z :=
  for_range 0 4 (add_round_key_col rk k) st.

(** ** Block encryption and decryption; [inp] is read through its first 16 bytes *)
Definition load_block (inp : list Z) : list Z := map (fun i => inp.[i]) (seq 0 16).

Definition enc_round (ctx : aes256_ctx) (round : nat) (st : list Z) : list Z :=
  add_round_key (round_keys ctx) (round * 4) (mix_columns (shift_rows (sub_bytes st))).

Definition aes256_encrypt_block (ctx : aes256_ctx) (inp : list Z) : list Z :=
  let st := add_round_key (round_keys ctx) 0 (load_block inp) in
  let st := for_range 1 (nr ctx) (enc_round ctx) st in
  add_round_key (round_keys ctx) (nr ctx * 4) (shift_rows (sub_bytes st)).

Definition dec_round (ctx : aes256_ctx) (round : nat) (st : list Z) : list Z :=
  inv_mix_columns
    (add_round_key (round_keys ctx) (round * 4) (inv_sub_bytes (inv_shift_rows st))).

Definition aes256_decrypt_block (ctx : aes256_ctx) (inp : list Z) : list Z :=
  let st := add_round_key (round_keys ctx) (nr ctx * 4) (load_block inp) in
  let st := for_down (dec_round ctx) (nr ctx - 1) st in
  add_round_key (round_keys ctx) 0 (inv_sub_bytes (inv_shift_rows st)).

(** ** Modes of operation

    [inp] and [out] are distinct buffers. *)
Definition sub_block (l : list Z) (i : nat) : list Z := map (fun j => l.[i + j]) (seq 0 16).

(** Iterations of [for (i = 0; i < len; i += AES256_BLOCK_SIZE)]. *)
Definition blocks (len : nat) : nat := (len + 15) / 16.

Definition cbc_encrypt_step (ctx : aes256_ctx) (inp : list Z) (k : nat)
    (s : list Z * list Z) : list Z * list Z :=
  let '(prev, out) := s in
  let i := (16 * k)%nat in
  let block := map (fun j => Z.lxor (inp.[i + j]) (prev.[j])) (seq 0 16) in
  let out := list_inserts i (aes256_encrypt_block ctx block) out in
  (sub_block out i, out).

Definition aes256_cbc_encrypt (ctx : aes256_ctx) (iv inp out : list Z) (len : nat) : list Z :=
  snd (for_range 0 (blocks len) (cbc_encrypt_step ctx inp) (sub_block iv 0, out)).

Definition cbc_decrypt_step (ctx : aes256_ctx) (inp : list Z) (k : nat)
    (s : list Z * list Z) : list Z * list Z :=
  let '(prev, out) := s in
  let i := (16 * k)%nat in
  let block := aes256_decrypt_block ctx (sub_block inp i) in
  let out := list_inserts i (map (fun j => Z.lxor (block.[j]) (prev.[j])) (seq 0 16)) out in
  (sub_block inp i, out).

Definition aes256_cbc_decrypt (ctx : aes256_ctx) (iv inp out : list Z) (len : nat) : list Z :=
  snd (for_range 0 (blocks len) (cbc_decrypt_step ctx inp) (sub_block iv 0, out)).

(** [for (i = 15; i >= 0; i--) if (++counter[i] != 0) break;] from index [i]. *)
Fixpoint incr_counter (i : nat) (counter : list Z) : list Z :=
  let v := u8 (counter.[i] + 1) in
  let counter := counter.[i <- v] in
  if c_true v then counter
  else match i with O => counter | S i => incr_counter i counter end.

(** The [while (offset < len)] loop; it advances [offset] by at least one byte,
    so [len] iterations are enough. *)
Fixpoint ctr_loop (fuel : nat) (ctx : aes256_ctx) (inp : list Z) (len offset : nat)
    (counter out : list Z) : list Z :=
  match fuel with
  | O => out
  | S fuel =>
      if (offset <? len)%nat then
        let keystream := aes256_encrypt_block ctx counter in
        let n := if (len - offset <? 16)%nat then (len - offset)%nat else 16%nat in
        let out := list_inserts offset
          (map (fun i => Z.lxor (inp.[offset + i]) (keystream.[i])) (seq 0 n)) out in
        ctr_loop fuel ctx inp len (offset + n) (incr_counter 15 counter) out
      else out
  end.

Definition aes256_ctr (ctx : aes256_ctx) (nonce inp out : list Z) (len : nat) : list Z :=
  ctr_loop (S len) ctx inp len 0 (sub_block nonce 0) out.

(** ** PKCS#7 padding; [size_t] arithmetic wraps at 64 bits *)
Definition aes256_pad_pkcs7 (data : list Z) (len max_len : Z) : list Z * Z :=
  let pad := 16 - len mod 16 in
  if u64 (len + pad) >? max_len then (data, 0)
  else (list_inserts (Z.to_nat len) (replicate (Z.to_nat pad) (u8 pad)) data, u64 (len + pad)).

Definition aes256_unpad_pkcs7 (data : list Z) (len : Z) : Z :=
  if (len =? 0) || negb (len mod 16 =? 0) then 0
  else
    let pad := data.[Z.to_nat (len - 1)] in
    if (pad =? 0) || (pad >? 16) then 0
    else if forallb (fun i => data.[i] =? pad)
                    (seq (Z.to_nat (len - pad)) (Z.to_nat pad))
    then len - pad
    else 0.

(** ** Well-formed states *)
Definition is_state (st : list Z) : Prop := length st = 16%nat /\ Forall is_byte st.

Ltac explode st :=
  destruct st as [|? [|? [|? [|? [|? [|? [|? [|? [|? [|? [|? [|? [|? [|? [|? [|? [|? ?]]]]]]]]]]]]]]]]];
  try discriminate.

Ltac state_cases st H :=
  let L := fresh "Hlen" in let F := fresh "Hbytes" in
  destruct H as [L F]; explode st; clear L;
  repeat match goal with
  | F : Forall _ (_ :: _) |- _ => apply List.Forall_cons_iff in F; destruct F as [? F]
  end; clear F.

#[local] Opaque sbox inv_sbox gmul.

Ltac forall_bytes :=
  repeat (apply List.Forall_cons; [solve [auto with machine]|]); apply List.Forall_nil.

(** ** The layers and their inverses *)
Definition sbox_at (x : Z) : Z := sbox.[Z.to_nat x].
Definition inv_sbox_at (x : Z) : Z := inv_sbox.[Z.to_nat x].

Lemma inv_sbox_sbox x : is_byte x -> inv_sbox_at (sbox_at x) = x.
Proof. revert x. apply (byte_forall_eq (fun x => inv_sbox_at (sbox_at x)) (fun x => x)). by vm_compute. Qed.

Lemma sbox_byte x : is_byte x -> is_byte (sbox_at x).
Proof.
  intros Hx. assert ((0 <=? sbox_at x) && (sbox_at x <? 256) = true) as H.
  { revert x Hx. apply (byte_forall (fun x => (0 <=? sbox_at x) && (sbox_at x <? 256))). by vm_compute. }
  unfold is_byte. lia.
Qed.

Lemma sub_bytes_map st : length st = 16%nat -> sub_bytes st = map sbox_at st.
Proof. intros H. explode st. reflexivity. Qed.

Lemma inv_sub_bytes_map st : length st = 16%nat -> inv_sub_bytes st = map inv_sbox_at st.
Proof. intros H. explode st. reflexivity. Qed.

Lemma sub_bytes_state st : is_state st -> is_state (sub_bytes st).
Proof.
  intros [Hl Hb]. rewrite sub_bytes_map by done. split; [by rewrite length_map|].
  apply Forall_map. eapply List.Forall_impl; [|exact Hb]. apply sbox_byte.
Qed.

Lemma inv_sub_bytes_sub_bytes st : is_state st -> inv_sub_bytes (sub_bytes st) = st.
Proof.
  intros [Hl Hb]. rewrite sub_bytes_map, inv_sub_bytes_map by (rewrite ?length_map; done).
  rewrite map_map. rewrite <- (map_id st) at 2. apply map_ext_Forall.
  eapply List.Forall_impl; [|exact Hb]. apply inv_sbox_sbox.
Qed.

Lemma shift_rows_state st : is_state st -> is_state (shift_rows st).
Proof. intros H. state_cases st H. split; [reflexivity|]. cbn. forall_bytes. Qed.

Lemma inv_shift_rows_shift_rows st : is_state st -> inv_shift_rows (shift_rows st) = st.
Proof. intros H. state_cases st H. reflexivity. Qed.

Lemma add_round_key_state rk k st : is_state st -> is_state (add_round_key rk k st).
Proof.
  intros H. state_cases st H. split; [reflexivity|]. cbn. forall_bytes.
Qed.

Lemma add_round_key_involutive rk k st :
  is_state st -> add_round_key rk k (add_round_key rk k st) = st.
Proof.
  intros H. state_cases st H.
  cbv [add_round_key for_range add_round_key_col foldl seq get nth insert list_insert Nat.add Nat.sub].
  by rewrite !lxor_cancel.
Qed.

(** Multiplication by a constant is linear over XOR. *)
Definition xtime (a : Z) : Z :=
  let b := u8 (Z.shiftl a 1) in if c_true (Z.land a 128) then Z.lxor b 27 else b.

Ltac xor_solve :=
  apply Z.bits_inj'; intros ? _; rewrite ?Z.lxor_spec, ?Z.bits_0; btauto.

Lemma xtime_lxor a b : xtime (Z.lxor a b) = Z.lxor (xtime a) (xtime b).
Proof.
  unfold xtime. change 128 with (2 ^ 7). rewrite !c_true_land_pow2, Z.lxor_spec by done.
  rewrite Z.shiftl_lxor, wrap_lxor by done.
  destruct (Z.testbit a 7), (Z.testbit b 7); simpl xorb; cbv iota; xor_solve.
Qed.

Lemma gmul_loop_lxor n p p' a a' b :
  gmul_loop n (Z.lxor p p') (Z.lxor a a') b =
  Z.lxor (gmul_loop n p a b) (gmul_loop n p' a' b).
Proof.
  revert p p' a a' b. induction n as [|n IH]; intros; [done|]. simpl.
  fold (xtime (Z.lxor a a')) (xtime a) (xtime a'). rewrite xtime_lxor, <- IH.
  f_equal. destruct (c_true _); [xor_solve|done].
Qed.

Lemma gmul_lxor a a' b : gmul (Z.lxor a a') b = Z.lxor (gmul a b) (gmul a' b).
Proof. exact (gmul_loop_lxor 8 0 0 a a' b). Qed.

Lemma gmul_byte a b : is_byte a -> is_byte (gmul a b).
Proof.
  intros Ha. assert (forall n p a b, is_byte p -> is_byte a -> is_byte (gmul_loop n p a b)) as H.
  { clear. induction n as [|n IH]; intros p a b Hp Ha; [done|]. simpl.
    apply IH; [destruct (c_true _)|destruct (c_true _)]; auto with machine.
    apply lxor_byte; [auto with machine|done]. }
  refine (H 8%nat 0 a b _ Ha). unfold is_byte. lia.
Qed.

(** The product of the MixColumns matrices, coefficient by coefficient: the
    contribution of one input byte to the four output bytes. *)
Lemma mix_coeff_0 a : is_byte a ->
  Z.lxor (Z.lxor (Z.lxor (gmul (gmul a 2) 14) (gmul a 11)) (gmul a 13)) (gmul (gmul a 3) 9) = a.
Proof. revert a. apply (byte_forall_eq (fun a => Z.lxor (Z.lxor (Z.lxor _ _) _) _) (fun a => a)). by vm_compute. Qed.

Lemma mix_coeff_1 a : is_byte a ->
  Z.lxor (Z.lxor (Z.lxor (gmul (gmul a 3) 14) (gmul (gmul a 2) 11)) (gmul a 13)) (gmul a 9) = 0.
Proof. revert a. apply (byte_forall_eq (fun a => Z.lxor (Z.lxor (Z.lxor _ _) _) _) (fun a => 0)). by vm_compute. Qed.

Lemma mix_coeff_2 a : is_byte a ->
  Z.lxor (Z.lxor (Z.lxor (gmul a 14) (gmul (gmul a 3) 11)) (gmul (gmul a 2) 13)) (gmul a 9) = 0.
Proof. revert a. apply (byte_forall_eq (fun a => Z.lxor (Z.lxor (Z.lxor _ _) _) _) (fun a => 0)). by vm_compute. Qed.

Lemma mix_coeff_3 a : is_byte a ->
  Z.lxor (Z.lxor (Z.lxor (gmul a 14) (gmul a 11)) (gmul (gmul a 3) 13)) (gmul (gmul a 2) 9) = 0.
Proof. revert a. apply (byte_forall_eq (fun a => Z.lxor (Z.lxor (Z.lxor _ _) _) _) (fun a => 0)). by vm_compute. Qed.

(** One row of the inverse matrix applied to one mixed column. *)
Lemma inv_mix_row a0 a1 a2 a3 :
  is_byte a0 -> is_byte a1 -> is_byte a2 -> is_byte a3 ->
  Z.lxor (Z.lxor (Z.lxor
    (gmul (Z.lxor (Z.lxor (Z.lxor (gmul a0 2) (gmul a1 3)) a2) a3) 14)
    (gmul (Z.lxor (Z.lxor (Z.lxor a0 (gmul a1 2)) (gmul a2 3)) a3) 11))
    (gmul (Z.lxor (Z.lxor (Z.lxor a0 a1) (gmul a2 2)) (gmul a3 3)) 13))
    (gmul (Z.lxor (Z.lxor (Z.lxor (gmul a0 3) a1) a2) (gmul a3 2)) 9) = a0.
Proof.
  intros H0 H1 H2 H3. rewrite !gmul_lxor.
  transitivity (Z.lxor (Z.lxor (Z.lxor a0 0) 0) 0); [|by rewrite !Z.lxor_0_r].
  rewrite <- (mix_coeff_0 a0) at 5 by done. rewrite <- (mix_coeff_1 a1) at 1 by done.
  rewrite <- (mix_coeff_2 a2) at 1 by done. rewrite <- (mix_coeff_3 a3) at 1 by done.
  xor_solve.
Qed.

(** The other three rows are the same identity with the column rotated. *)
Ltac by_rotation H :=
  etransitivity; [|exact H]; rewrite !gmul_lxor; xor_solve.

Lemma mix_column_inverse a0 a1 a2 a3 :
  is_byte a0 -> is_byte a1 -> is_byte a2 -> is_byte a3 ->
  let b0 := Z.lxor (Z.lxor (Z.lxor (gmul a0 2) (gmul a1 3)) a2) a3 in
  let b1 := Z.lxor (Z.lxor (Z.lxor a0 (gmul a1 2)) (gmul a2 3)) a3 in
  let b2 := Z.lxor (Z.lxor (Z.lxor a0 a1) (gmul a2 2)) (gmul a3 3) in
  let b3 := Z.lxor (Z.lxor (Z.lxor (gmul a0 3) a1) a2) (gmul a3 2) in
  Z.lxor (Z.lxor (Z.lxor (gmul b0 14) (gmul b1 11)) (gmul b2 13)) (gmul b3 9) = a0 /\
  Z.lxor (Z.lxor (Z.lxor (gmul b0 9) (gmul b1 14)) (gmul b2 11)) (gmul b3 13) = a1 /\
  Z.lxor (Z.lxor (Z.lxor (gmul b0 13) (gmul b1 9)) (gmul b2 14)) (gmul b3 11) = a2 /\
  Z.lxor (Z.lxor (Z.lxor (gmul b0 11) (gmul b1 13)) (gmul b2 9)) (gmul b3 14) = a3.
Proof.
  intros H0 H1 H2 H3. cbv zeta. split; [|split; [|split]].
  - by apply inv_mix_row.
  - by_rotation (inv_mix_row a1 a2 a3 a0 H1 H2 H3 H0).
  - by_rotation (inv_mix_row a2 a3 a0 a1 H2 H3 H0 H1).
  - by_rotation (inv_mix_row a3 a0 a1 a2 H3 H0 H1 H2).
Qed.

#[export] Hint Resolve gmul_byte : machine.

Lemma mix_columns_state st : is_state st -> is_state (mix_columns st).
Proof. intros H. state_cases st H. split; [reflexivity|]. cbn. forall_bytes. Qed.

Lemma inv_mix_columns_mix_columns st : is_state st -> inv_mix_columns (mix_columns st) = st.
Proof.
  intros H. destruct st as [|x0 [|x1 [|x2 [|x3 [|x4 [|x5 [|x6 [|x7 [|x8 [|x9 [|x10
    [|x11 [|x12 [|x13 [|x14 [|x15 [|? ?]]]]]]]]]]]]]]]]]; try by destruct H.
  destruct H as [_ H].
  repeat match goal with
  | F : Forall _ (_ :: _) |- _ => apply List.Forall_cons_iff in F; destruct F as [? F]
  end.
  destruct (mix_column_inverse x0 x4 x8 x12) as (E0 & E4 & E8 & E12); [done..|].
  destruct (mix_column_inverse x1 x5 x9 x13) as (E1 & E5 & E9 & E13); [done..|].
  destruct (mix_column_inverse x2 x6 x10 x14) as (E2 & E6 & E10 & E14); [done..|].
  destruct (mix_column_inverse x3 x7 x11 x15) as (E3 & E7 & E11 & E15); [done..|].
  lazy -[gmul Z.lxor]. repeat (apply (f_equal2 cons); [assumption|]). reflexivity.
Qed.

(** ** Block round trip *)
#[local] Opaque sub_bytes inv_sub_bytes shift_rows inv_shift_rows mix_columns
  inv_mix_columns add_round_key.

Create HintDb aes.
#[local] Hint Resolve sub_bytes_state shift_rows_state mix_columns_state
  add_round_key_state : aes.

Lemma enc_round_state ctx r st : is_state st -> is_state (enc_round ctx r st).
Proof. unfold enc_round. auto with aes. Qed.

#[local] Hint Resolve enc_round_state : aes.

Lemma enc_rounds_state ctx hi st : is_state st -> is_state (for_range 1 hi (enc_round ctx) st).
Proof.
  intros H. destruct hi; [by rewrite for_range_nil by lia|].
  apply (for_range_inv (fun _ => is_state)); auto with aes lia.
Qed.

(** The decryption state before an [inv_shift_rows; inv_sub_bytes] step of the
    last encryption round. *)
Lemma unshift_unsub st : is_state st -> inv_sub_bytes (inv_shift_rows (shift_rows (sub_bytes st))) = st.
Proof.
  intros H. rewrite inv_shift_rows_shift_rows by auto with aes.
  by apply inv_sub_bytes_sub_bytes.
Qed.

(** Undoing the rounds: the decryption loop runs on the state before the key addition
    of each round, so the invariant is stated on [shift_rows (sub_bytes st)]. *)
Lemma dec_rounds_enc_rounds ctx hi st : is_state st ->
  for_down (dec_round ctx) hi (shift_rows (sub_bytes (for_range 1 (S hi) (enc_round ctx) st))) =
  shift_rows (sub_bytes st).
Proof.
  intros H. induction hi as [|hi IH]; [by rewrite for_range_nil, for_down_0 by lia|].
  rewrite for_down_S. rewrite for_range_S by lia. unfold dec_round.
  pose proof (enc_rounds_state ctx (S hi) st H) as Hs.
  rewrite unshift_unsub by auto with aes. unfold enc_round at 1.
  rewrite add_round_key_involutive, inv_mix_columns_mix_columns by auto with aes.
  exact IH.
Qed.

Lemma load_block_state inp : length inp = 16%nat -> load_block inp = inp.
Proof. intros H. explode inp. reflexivity. Qed.

Lemma encrypt_block_state ctx inp : is_state inp -> is_state (aes256_encrypt_block ctx inp).
Proof.
  intros H. unfold aes256_encrypt_block. rewrite load_block_state by apply H.
  pose proof (enc_rounds_state ctx (nr ctx) (add_round_key (round_keys ctx) 0 inp)).
  auto 6 with aes.
Qed.

Lemma decrypt_encrypt_block ctx inp : (0 < nr ctx)%nat -> is_state inp ->
  aes256_decrypt_block ctx (aes256_encrypt_block ctx inp) = inp.
Proof.
  intros Hnr H. pose proof (encrypt_block_state ctx inp H) as He.
  unfold aes256_decrypt_block. rewrite load_block_state by apply He.
  unfold aes256_encrypt_block. rewrite load_block_state by apply H.
  set (st0 := add_round_key (round_keys ctx) 0 inp).
  assert (is_state st0) as H0 by (apply add_round_key_state; done).
  pose proof (enc_rounds_state ctx (nr ctx) st0 H0) as Hr.
  rewrite add_round_key_involutive by auto with aes.
  replace (nr ctx) with (S (nr ctx - 1)) at 2 by lia.
  rewrite dec_rounds_enc_rounds, unshift_unsub by done.
  by apply add_round_key_involutive.
Qed.

(** ** Sample data of the witnesses *)
Definition test_key : list Z := map Z.of_nat (seq 0 32).
Definition test_plain : list Z := map (fun i => 17 * Z.of_nat i) (seq 0 16).
Definition test_ctx : aes256_ctx := aes256_init (mk_ctx (replicate 60 0) 0) test_key.

Lemma test_plain_state : is_state test_plain.
Proof.
  split; [reflexivity|]. unfold test_plain. simpl map.
  repeat (apply List.Forall_cons; [unfold is_byte; lia|]). apply List.Forall_nil.
Qed.

(** ** CBC *)
#[local] Opaque aes256_encrypt_block aes256_decrypt_block.

Lemma get_sub_block l i j : (j < 16)%nat -> (sub_block l i).[j] = l.[i + j].
Proof. intros H. unfold sub_block. by rewrite get_map_seq. Qed.

Lemma length_sub_block l i : length (sub_block l i) = 16%nat.
Proof. unfold sub_block. by rewrite length_map, length_seq. Qed.

Lemma sub_block_ext l k i i' :
  (forall j, (j < 16)%nat -> l.[i + j] = k.[i' + j]) -> sub_block l i = sub_block k i'.
Proof. intros H. apply map_ext_in. intros j Hj. apply in_seq in Hj. apply H. lia. Qed.

Lemma sub_block_state l i : Forall is_byte l -> (i + 16 <= length l)%nat -> is_state (sub_block l i).
Proof.
  intros Hb Hl. split; [apply length_sub_block|]. apply Forall_map, Forall_forall.
  intros j Hj%elem_of_seq. apply Forall_get; [done|lia].
Qed.

Lemma xor_block_state f g : (forall j, (j < 16)%nat -> is_byte (f j)) ->
  (forall j, (j < 16)%nat -> is_byte (g j)) ->
  is_state (map (fun j => Z.lxor (f j) (g j)) (seq 0 16)).
Proof.
  intros Hf Hg. split; [by rewrite length_map, length_seq|].
  apply Forall_map, Forall_forall. intros j Hj%elem_of_seq. apply lxor_byte; [apply Hf|apply Hg]; lia.
Qed.

(** The previous ciphertext block seen by block [k]. *)
Definition prev_block (iv c : list Z) (k : nat) : list Z :=
  match k with O => sub_block iv 0 | S k => sub_block c (16 * k) end.

(** The CBC equation of block [b] between plaintext [inp] and ciphertext [c]. *)
Definition cbc_eq (ctx : aes256_ctx) (iv inp c : list Z) (b : nat) : Prop :=
  sub_block c (16 * b) = aes256_encrypt_block ctx
    (map (fun j => Z.lxor (inp.[16 * b + j]) ((prev_block iv c b).[j])) (seq 0 16)).

Lemma sub_block_inserts_eq out i blk : length blk = 16%nat -> (i + 16 <= length out)%nat ->
  sub_block (list_inserts i blk out) i = blk.
Proof.
  intros Hb Hl. apply list_eq_get; [by rewrite length_sub_block|].
  intros j Hj. rewrite length_sub_block in Hj. rewrite get_sub_block by done.
  rewrite get_inserts_in by lia. f_equal. lia.
Qed.

Lemma sub_block_inserts_before out i blk b : (b + 16 <= i)%nat ->
  sub_block (list_inserts i blk out) b = sub_block out b.
Proof. intros H. apply sub_block_ext. intros j Hj. apply get_inserts_out. lia. Qed.

Lemma prev_block_inserts iv out k blk b : (b <= k)%nat ->
  prev_block iv (list_inserts (16 * k) blk out) b = prev_block iv out b.
Proof. intros H. destruct b; [done|]. apply sub_block_inserts_before. lia. Qed.

Lemma cbc_encrypt_step_inv ctx iv inp out k prev n :
  Forall is_byte inp -> (16 * n <= length inp)%nat -> (16 * n <= length out)%nat -> (k < n)%nat ->
  prev = prev_block iv out k -> is_state prev ->
  (forall b, (b < k)%nat -> cbc_eq ctx iv inp out b /\ is_state (prev_block iv out b)) ->
  let '(prev', out') := cbc_encrypt_step ctx inp k (prev, out) in
  length out' = length out /\ prev' = prev_block iv out' (S k) /\ is_state prev' /\
  (forall b, (b < S k)%nat -> cbc_eq ctx iv inp out' b /\ is_state (prev_block iv out' b)).
Proof.
  intros Hbytes Hin Hout Hk -> Hprev Hbs. cbn [cbc_encrypt_step].
  set (blk := map _ _). assert (is_state blk) as Hblk.
  { apply xor_block_state; intros j Hj; apply Forall_get; try lia; [done|apply Hprev|].
    destruct Hprev as [-> _]. lia. }
  pose proof (encrypt_block_state ctx blk Hblk) as He.
  pose proof (sub_block_inserts_eq out (16 * k) _ (proj1 He) ltac:(lia)) as Heq.
  split; [by rewrite length_inserts|]. split; [done|]. split; [by rewrite Heq|].
  intros b Hb. unfold cbc_eq. rewrite !prev_block_inserts by lia.
  destruct (decide (b = k)) as [->|Hne]; [by rewrite Heq|].
  rewrite sub_block_inserts_before by lia. apply Hbs. lia.
Qed.

Lemma cbc_encrypt_spec ctx iv inp out len :
  Forall is_byte inp -> is_state iv -> (16 * blocks len <= length inp)%nat ->
  (16 * blocks len <= length out)%nat ->
  let c := aes256_cbc_encrypt ctx iv inp out len in
  length c = length out /\
  (forall b, (b < blocks len)%nat -> cbc_eq ctx iv inp c b /\ is_state (prev_block iv c b)).
Proof.
  intros Hbytes Hiv Hin Hout. unfold aes256_cbc_encrypt.
  set (n := blocks len) in *.
  assert (let '(prev, c) := for_range 0 n (cbc_encrypt_step ctx inp) (sub_block iv 0, out) in
    length c = length out /\ prev = prev_block iv c n /\ is_state prev /\
    (forall b, (b < n)%nat -> cbc_eq ctx iv inp c b /\ is_state (prev_block iv c b))) as H.
  { apply (for_range_inv (fun k '(prev, c) =>
      length c = length out /\ prev = prev_block iv c k /\ is_state prev /\
      (forall b, (b < k)%nat -> cbc_eq ctx iv inp c b /\ is_state (prev_block iv c b)))); [lia|..].
    - split_and!; [done..| |intros; lia]. destruct Hiv. apply sub_block_state; [done|lia].
    - intros k [prev c] Hk (Hlen & Hp & Hs & Hbs). rewrite <- Hlen in Hout |- *.
      apply (cbc_encrypt_step_inv ctx iv inp c k prev n); done || lia. }
  destruct (for_range _ _ _ _) as [prev c]. destruct H as (? & _ & _ & ?). done.
Qed.

Lemma cbc_decrypt_step_inv ctx iv inp c out k prev :
  (0 < nr ctx)%nat -> Forall is_byte inp -> (16 * S k <= length inp)%nat ->
  (16 * S k <= length out)%nat -> prev = prev_block iv c k ->
  cbc_eq ctx iv inp c k -> is_state prev ->
  (forall b, (b < k)%nat -> sub_block out (16 * b) = sub_block inp (16 * b)) ->
  let '(prev', out') := cbc_decrypt_step ctx c k (prev, out) in
  length out' = length out /\ prev' = prev_block iv c (S k) /\
  (forall b, (b < S k)%nat -> sub_block out' (16 * b) = sub_block inp (16 * b)).
Proof.
  intros Hnr Hbytes Hin Hout -> Hc Hprev Hbs. cbn [cbc_decrypt_step].
  split; [by rewrite length_inserts|]. split; [done|]. intros b Hb.
  destruct (decide (b = k)) as [->|Hne]; [|rewrite sub_block_inserts_before by lia; apply Hbs; lia].
  rewrite sub_block_inserts_eq by (rewrite ?length_map, ?length_seq; lia).
  rewrite Hc, decrypt_encrypt_block; [|done|].
  - apply map_ext_in. intros j Hj%in_seq. rewrite get_map_seq by lia. apply lxor_cancel.
  - apply xor_block_state; intros j Hj; apply Forall_get; try lia; [done|apply Hprev|].
    destruct Hprev as [-> _]. lia.
Qed.

Lemma sub_blocks_eq_take l k n : (16 * n <= length l)%nat -> (16 * n <= length k)%nat ->
  (forall b, (b < n)%nat -> sub_block l (16 * b) = sub_block k (16 * b)) ->
  take (16 * n) l = take (16 * n) k.
Proof.
  intros Hl Hk H. apply take_eq_get; [done..|]. intros j Hj.
  pose proof (Nat.div_mod_eq j 16) as E. pose proof (Nat.mod_upper_bound j 16 ltac:(lia)) as Hm.
  rewrite E, <- !get_sub_block, H by lia. done.
Qed.

(** CBC round trip. Decrypting, with the same key schedule and IV, what [aes256_cbc_encrypt]
    wrote gives back the plaintext, for every message of whole blocks. *)
Theorem aes256_cbc_round_trip ctx iv inp out out' len :
  (0 < nr ctx)%nat -> is_state iv -> Forall is_byte inp -> (len mod 16 = 0)%nat ->
  (len <= length inp)%nat -> (len <= length out)%nat -> (len <= length out')%nat ->
  take len (aes256_cbc_decrypt ctx iv (aes256_cbc_encrypt ctx iv inp out len) out' len) =
  take len inp.
Proof.
  intros Hnr Hiv Hbytes Hmod Hin Hout Hout'.
  assert (len = 16 * blocks len)%nat as Hlen.
  { unfold blocks. pose proof (Nat.div_mod_eq len 16) as E. rewrite Hmod, Nat.add_0_r in E.
    rewrite E at 2. replace (16 * (len / 16) + 15)%nat with (15 + (len / 16) * 16)%nat by lia.
    rewrite Nat.div_add by lia. simpl (15 / 16)%nat. lia. }
  set (n := blocks len) in *. rewrite Hlen in Hin, Hout, Hout'.
  destruct (cbc_encrypt_spec ctx iv inp out len Hbytes Hiv Hin Hout) as [Hcl Hcs]. fold n in Hcs.
  set (c := aes256_cbc_encrypt ctx iv inp out len) in *.
  unfold aes256_cbc_decrypt. fold n. rewrite Hlen.
  assert (let '(prev, o) := for_range 0 n (cbc_decrypt_step ctx c) (sub_block iv 0, out') in
    length o = length out' /\ prev = prev_block iv c n /\
    (forall b, (b < n)%nat -> sub_block o (16 * b) = sub_block inp (16 * b))) as H.
  { apply (for_range_inv (fun k '(prev, o) => length o = length out' /\ prev = prev_block iv c k /\
      (forall b, (b < k)%nat -> sub_block o (16 * b) = sub_block inp (16 * b)))); [lia|..].
    - split_and!; [done..|intros; lia].
    - intros k [prev o] Hk (Hl & -> & Hbs). rewrite <- Hl in Hout' |- *. destruct (Hcs k ltac:(lia)).
      apply (cbc_decrypt_step_inv ctx iv inp c o k); done || lia. }
  destruct (for_range _ _ _ _) as [prev o]. destruct H as (Hl & _ & Hbs). simpl.
  apply sub_blocks_eq_take; [lia..|done].
Qed.

Lemma aes256_cbc_round_trip_witness :
  take 16 (aes256_cbc_decrypt test_ctx test_plain
    (aes256_cbc_encrypt test_ctx test_plain test_plain (replicate 16 0) 16) (replicate 16 0) 16) =
  take 16 test_plain.
Proof.
  apply (aes256_cbc_round_trip test_ctx test_plain test_plain (replicate 16 0) (replicate 16 0) 16).
  - vm_compute. lia.
  - exact test_plain_state.
  - exact (proj2 test_plain_state).
  - reflexivity.
  - vm_compute. lia.
  - vm_compute. lia.
  - vm_compute. lia.
Defined.

(** ** CTR *)

(** Counter block of block [b], and byte [j] of the key stream. *)
Definition ctr_counter (nonce : list Z) (b : nat) : list Z :=
  Nat.iter b (incr_counter 15) (sub_block nonce 0).
Definition keystream_byte (ctx : aes256_ctx) (nonce : list Z) (j : nat) : Z :=
  (aes256_encrypt_block ctx (ctr_counter nonce (j / 16))).[j mod 16].

Lemma ctr_counter_S nonce b : ctr_counter nonce (S b) = incr_counter 15 (ctr_counter nonce b).
Proof. apply Nat.iter_succ. Qed.

Lemma ctr_loop_S fuel ctx inp len offset counter out :
  ctr_loop (S fuel) ctx inp len offset counter out =
  if (offset <? len)%nat then
    let n := if (len - offset <? 16)%nat then (len - offset)%nat else 16%nat in
    ctr_loop fuel ctx inp len (offset + n) (incr_counter 15 counter)
      (list_inserts offset
        (map (fun i => Z.lxor (inp.[offset + i]) ((aes256_encrypt_block ctx counter).[i])) (seq 0 n)) out)
  else out.
Proof. reflexivity. Qed.

Lemma ctr_loop_done fuel ctx inp len offset counter out : (len <= offset)%nat ->
  ctr_loop fuel ctx inp len offset counter out = out.
Proof.
  intros H. destruct fuel; [done|]. rewrite ctr_loop_S.
  by rewrite (proj2 (Nat.ltb_ge offset len) H).
Qed.

Lemma div_mod_block b i : (i < 16)%nat -> ((16 * b + i) / 16 = b)%nat /\ ((16 * b + i) mod 16 = i)%nat.
Proof.
  intros H. replace (16 * b + i)%nat with (i + b * 16)%nat by lia.
  rewrite Nat.div_add, Nat.Div0.mod_add, Nat.div_small, Nat.mod_small by lia. lia.
Qed.

Lemma ctr_loop_spec ctx nonce inp len fuel b out :
  (len <= length out)%nat -> (len - 16 * b < fuel)%nat ->
  let r := ctr_loop fuel ctx inp len (16 * b) (ctr_counter nonce b) out in
  length r = length out /\
  forall j, r.[j] = if (16 * b <=? j)%nat && (j <? len)%nat
                    then Z.lxor (inp.[j]) (keystream_byte ctx nonce j) else out.[j].
Proof.
  revert b out. induction fuel as [|fuel IH]; intros b out Hlen Hfuel; [lia|]. cbv zeta.
  rewrite ctr_loop_S. destruct (Nat.ltb_spec (16 * b) len) as [Hlt|Hge]; cbv zeta.
  2: { split; [done|]. intros j. destruct (Nat.leb_spec (16 * b) j), (Nat.ltb_spec j len); done || lia. }
  set (n := if (len - 16 * b <? 16)%nat then (len - 16 * b)%nat else 16%nat).
  set (blk := map _ (seq 0 n)).
  assert (length blk = n) as Hblk by (unfold blk; by rewrite length_map, length_seq).
  assert ((n = len - 16 * b /\ n < 16) \/ (n = 16 /\ 16 <= len - 16 * b))%nat as Hn.
  { unfold n. destruct (Nat.ltb_spec (len - 16 * b) 16); lia. }
  clearbody n.
  assert (forall j, (16 * b <= j < 16 * b + n)%nat ->
    (list_inserts (16 * b) blk out).[j] = Z.lxor (inp.[j]) (keystream_byte ctx nonce j)) as Hnew.
  { intros j Hj. rewrite get_inserts_in by lia. unfold blk. rewrite get_map_seq by lia.
    replace (16 * b + (j - 16 * b))%nat with j by lia. f_equal. unfold keystream_byte.
    replace j with (16 * b + (j - 16 * b))%nat at 2 3 by lia.
    by destruct (div_mod_block b (j - 16 * b)) as [-> ->]; [lia|]. }
  destruct Hn as [[En Hs]|[En Hs]].
  - rewrite ctr_loop_done by lia. split; [apply length_inserts|]. intros j.
    destruct (Nat.leb_spec (16 * b) j), (Nat.ltb_spec j len); simpl;
      first [by apply Hnew; lia | by rewrite get_inserts_out by lia].
  - rewrite En. replace (16 * b + 16)%nat with (16 * S b)%nat by lia.
    rewrite <- ctr_counter_S.
    destruct (IH (S b) (list_inserts (16 * b) blk out)) as [Hl Hr];
      [rewrite length_inserts; lia|lia|].
    rewrite length_inserts in Hl. split; [done|]. intros j. rewrite Hr.
    destruct (Nat.leb_spec (16 * S b) j), (Nat.leb_spec (16 * b) j), (Nat.ltb_spec j len);
      simpl; first [done | lia | by apply Hnew; lia | by rewrite get_inserts_out by lia].
Qed.

Lemma aes256_ctr_spec ctx nonce inp out len : (len <= length out)%nat ->
  length (aes256_ctr ctx nonce inp out len) = length out /\
  forall j, (aes256_ctr ctx nonce inp out len).[j] =
    if (j <? len)%nat then Z.lxor (inp.[j]) (keystream_byte ctx nonce j) else out.[j].
Proof.
  intros H. pose proof (ctr_loop_spec ctx nonce inp len (S len) 0 out H ltac:(lia)) as [Hl Hr].
  split; [exact Hl|exact Hr].
Qed.

(** CTR mode is an involution: applying [aes256_ctr] to its own output, with the same nonce and
    key schedule, recovers the [len] input bytes, for every length (partial last
    block included); bytes past [len] of the output buffer are untouched. *)
Theorem aes256_ctr_involutive ctx nonce inp out out' len :
  (len <= length inp)%nat -> (len <= length out)%nat -> (len <= length out')%nat ->
  take len (aes256_ctr ctx nonce (aes256_ctr ctx nonce inp out len) out' len) = take len inp /\
  drop len (aes256_ctr ctx nonce inp out len) = drop len out.
Proof.
  intros Hin Hout Hout'.
  destruct (aes256_ctr_spec ctx nonce inp out len Hout) as [Hl Hr].
  destruct (aes256_ctr_spec ctx nonce (aes256_ctr ctx nonce inp out len) out' len Hout') as [Hl' Hr'].
  split.
  - apply take_eq_get; [lia..|]. intros j Hj.
    rewrite Hr', Hr, (proj2 (Nat.ltb_lt _ _) Hj). apply lxor_cancel.
  - apply list_eq. intros i. rewrite !lookup_drop.
    destruct (decide (len + i < length out)%nat) as [Hi|Hi].
    + rewrite !lookup_get by lia. f_equal. by rewrite Hr, (proj2 (Nat.ltb_ge (len + i) len) ltac:(lia)).
    + by rewrite !lookup_ge_None_2 by lia.
Qed.

Lemma aes256_ctr_involutive_witness :
  take 5 (aes256_ctr test_ctx test_plain
    (aes256_ctr test_ctx test_plain [1; 2; 3; 4; 5] (replicate 7 9) 5) (replicate 5 0) 5) =
  take 5 [1; 2; 3; 4; 5] /\
  drop 5 (aes256_ctr test_ctx test_plain [1; 2; 3; 4; 5] (replicate 7 9) 5) = drop 5 (replicate 7 9).
Proof.
  apply (aes256_ctr_involutive test_ctx test_plain [1; 2; 3; 4; 5] (replicate 7 9) (replicate 5 0) 5);
    vm_compute; lia.
Defined.

(** The value of a big-endian byte string. *)
Definition be_value (l : list Z) : Z := foldl (fun acc b => acc * 256 + b) 0 l.

Lemma be_value_snoc l x : be_value (l ++ [x]) = be_value l * 256 + x.
Proof. unfold be_value. by rewrite foldl_app. Qed.

Lemma be_value_range l : Forall is_byte l -> 0 <= be_value l < 256 ^ Z.of_nat (length l).
Proof.
  induction l as [|x l IH] using rev_ind; [done|]. intros [Hl Hx]%Forall_app.
  apply Forall_cons in Hx as [Hx _]. specialize (IH Hl). rewrite be_value_snoc, length_app. simpl length.
  rewrite Nat2Z.inj_add, Z.pow_add_r by lia. unfold is_byte in Hx. lia.
Qed.

Lemma take_S_get (l : list Z) i : (i < length l)%nat -> take (S i) l = take i l ++ [l.[i]].
Proof. intros H. apply take_S_r. by apply lookup_get. Qed.

Lemma incr_counter_shape i c : (i < length c)%nat ->
  length (incr_counter i c) = length c /\
  (forall j, (i < j)%nat -> (incr_counter i c).[j] = c.[j]).
Proof.
  revert c. induction i as [|i IH]; intros c Hi; simpl; destruct (c_true _).
  1-3: split; [apply length_insert|]; intros j Hj; apply get_insert_ne; lia.
  specialize (IH (c.[S i <- u8 (c.[S i] + 1)])). rewrite length_insert in IH.
  destruct (IH ltac:(lia)) as [Hl Hg]. split; [done|].
  intros j Hj. rewrite Hg by lia. apply get_insert_ne. lia.
Qed.

Lemma byte_succ_cases x : is_byte x ->
  (x = 255 /\ (x + 1) mod 2 ^ 8 = 0) \/ (x < 255 /\ (x + 1) mod 2 ^ 8 = x + 1).
Proof.
  unfold is_byte. intros H. destruct (Z.eq_dec x 255) as [->|]; [by left|].
  right. rewrite Z.mod_small; lia.
Qed.

Lemma incr_counter_prefix i c : Forall is_byte c -> (i < length c)%nat ->
  be_value (take (S i) (incr_counter i c)) =
  (be_value (take (S i) c) + 1) mod 256 ^ Z.of_nat (S i).
Proof.
  revert c. induction i as [|i IH]; intros c Hc Hi; rewrite (take_S_get c) by done;
    rewrite be_value_snoc; simpl incr_counter; unfold c_true, wrap.
  - pose proof (Forall_get _ c 0 Hc Hi) as Hb. set (x := get c 0) in *.
    destruct (byte_succ_cases x Hb) as [[-> E]|[Hx E]]; rewrite E;
      [|rewrite (proj2 (Z.eqb_neq (x + 1) 0)) by (unfold is_byte in Hb; lia)]; simpl negb; cbv iota;
      rewrite take_S_get by (rewrite length_insert; lia); rewrite get_insert_eq by done; [done|].
    rewrite be_value_snoc, !take_0. change (be_value []) with 0.
    change (256 ^ Z.of_nat 1) with 256. unfold is_byte in Hb. rewrite Z.mod_small; lia.
  - pose proof (Forall_get _ c (S i) Hc Hi) as Hb. set (x := get c (S i)) in *.
    pose proof (be_value_range (take (S i) c) ltac:(by apply Forall_take)) as Hv.
    rewrite length_take_le in Hv by lia.
    destruct (byte_succ_cases x Hb) as [[-> E]|[Hx E]]; rewrite E;
      [|rewrite (proj2 (Z.eqb_neq (x + 1) 0)) by (unfold is_byte in Hb; lia)]; simpl negb; cbv iota.
    + set (c' := c.[S i <- 0]). assert (length c' = length c) as Hl by apply length_insert.
      assert (Forall is_byte c') as Hc' by (apply Forall_insert; done).
      destruct (incr_counter_shape i c') as [Hl' Hg']; [lia|].
      rewrite take_S_get, be_value_snoc, IH, Hg' by (done || lia).
      unfold c' at 2. rewrite get_insert_eq by done.
      unfold c'. rewrite take_insert_ge by lia.
      rewrite (Nat2Z.inj_succ (S i)), Z.pow_succ_r by lia.
      rewrite (Z.mul_comm 256), Z.add_0_r, <- Z.mul_mod_distr_r by (try apply Z.pow_nonzero; lia).
      f_equal. lia.
    + rewrite take_S_get by (rewrite length_insert; lia). rewrite get_insert_eq by done.
      rewrite be_value_snoc, take_insert_ge by lia.
      rewrite (Nat2Z.inj_succ (S i)), Z.pow_succ_r by lia. unfold is_byte in Hb. rewrite Z.mod_small; lia.
Qed.

(** The CTR counter block is incremented as one 128-bit big-endian integer: the carry loop adds
    one modulo 2^128. *)
Theorem incr_counter_be counter : is_state counter ->
  be_value (incr_counter 15 counter) = (be_value counter + 1) mod 2 ^ 128.
Proof.
  intros [Hl Hb]. pose proof (incr_counter_prefix 15 counter Hb ltac:(lia)) as H.
  destruct (incr_counter_shape 15 counter) as [Hl' _]; [lia|].
  rewrite !take_ge in H by lia. exact H.
Qed.

Lemma incr_counter_be_witness :
  be_value (incr_counter 15 test_plain) = (be_value test_plain + 1) mod 2 ^ 128.
Proof. apply (incr_counter_be test_plain). exact test_plain_state. Defined.

(** ** PKCS#7 *)

(** PKCS#7 round trip: when the buffer has room, [aes256_unpad_pkcs7] returns the length before
    padding, and padding leaves the message bytes in place. *)
Theorem aes256_pkcs7_round_trip data len max_len :
  0 <= len -> len + 16 < 2 ^ 64 -> len + (16 - len mod 16) <= max_len ->
  max_len <= Z.of_nat (length data) ->
  let '(data', n) := aes256_pad_pkcs7 data len max_len in
  aes256_unpad_pkcs7 data' n = len /\ n mod 16 = 0 /\ len < n /\
  take (Z.to_nat len) data' = take (Z.to_nat len) data.
Proof.
  intros Hlen Hov Hmax Hcap. unfold aes256_pad_pkcs7.
  pose proof (Z.mod_pos_bound len 16 ltac:(lia)) as Hm.
  set (pad := 16 - len mod 16) in *.
  rewrite wrap_small by lia. destruct (Z.gtb_spec (len + pad) max_len) as [|_]; [lia|].
  assert (u8 pad = pad) as -> by (apply wrap_small; lia).
  assert ((len + pad) mod 16 = 0) as Hmod.
  { unfold pad. rewrite (Z.div_mod len 16) at 1 by lia.
    replace (16 * (len / 16) + len mod 16 + (16 - len mod 16)) with ((len / 16 + 1) * 16) by lia.
    apply Z.mod_mul. lia. }
  assert (forall i, (Z.to_nat len <= i < Z.to_nat (len + pad))%nat ->
    get (list_inserts (Z.to_nat len) (replicate (Z.to_nat pad) pad) data) i = pad) as Hget.
  { intros i Hi. rewrite get_inserts_in by (rewrite ?length_replicate; lia).
    apply get_lookup, lookup_replicate_2. lia. }
  split_and!; [|done|lia|].
  - unfold aes256_unpad_pkcs7. destruct (Z.eqb_spec (len + pad) 0) as [|_]; [lia|].
    rewrite Hmod. simpl. rewrite Hget by lia.
    destruct (Z.eqb_spec pad 0) as [|_]; [lia|]. destruct (Z.gtb_spec pad 16) as [|_]; [lia|]. simpl.
    assert (forallb (fun i => get (list_inserts (Z.to_nat len) (replicate (Z.to_nat pad) pad) data) i
      =? pad) (seq (Z.to_nat (len + pad - pad)) (Z.to_nat pad)) = true) as ->; [|lia].
    apply forallb_forall. intros i Hi%in_seq. apply Z.eqb_eq, Hget. lia.
  - apply list_eq. intros i. destruct (decide (i < Z.to_nat len)%nat).
    + rewrite !lookup_take_lt by done. by apply list_lookup_inserts_lt.
    + by rewrite !lookup_take_ge by lia.
Qed.

Lemma aes256_pkcs7_round_trip_witness :
  let '(data', n) := aes256_pad_pkcs7 (replicate 32 7) 20 32 in
  aes256_unpad_pkcs7 data' n = 20 /\ n mod 16 = 0 /\ 20 < n /\
  take 20 data' = take 20 (replicate 32 7).
Proof.
  apply (aes256_pkcs7_round_trip (replicate 32 7) 20 32).
  - lia.
  - reflexivity.
  - vm_compute. discriminate.
  - vm_compute. discriminate.
Defined.

(** C6: Block round trip: for every key schedule with at least one round, decrypting an encrypted
    16-byte block returns it. *)
Theorem aes256_block_round_trip ctx inp : (0 < nr ctx)%nat -> is_state inp ->
  aes256_decrypt_block ctx (aes256_encrypt_block ctx inp) = inp.
Proof. apply decrypt_encrypt_block. Qed.

Lemma aes256_block_round_trip_witness :
  aes256_decrypt_block test_ctx (aes256_encrypt_block test_ctx test_plain) = test_plain.
Proof.
  apply (aes256_block_round_trip test_ctx test_plain); [vm_compute; lia|exact test_plain_state].
Defined.

(** ** The FIPS-197 vector *)
(** The ciphertext FIPS-197, appendix C.3 gives for [test_key] and [test_plain]. *)
Definition fips197_c3 : list Z :=
  [0x8e; 0xa2; 0xb7; 0xca; 0x51; 0x67; 0x45; 0xbf; 0xea; 0xfc; 0x49; 0x90; 0x4b; 0x49; 0x60; 0x89].

(** The round layers use two layouts of the state: [shift_rows] treats it as column-major,
    [mix_columns] and [add_round_key] as row-major. On the FIPS-197 C.3 vector the key schedule ends
    in the standard's last round key, but the ciphertext is not the standard's (it still
    decrypts). *)
Theorem aes256_not_fips197 :
  take 4 (drop 56 (round_keys test_ctx)) = [0x24fc79cc; 0xbf0979e9; 0x371ac23c; 0x6d68de36] /\
  aes256_encrypt_block test_ctx test_plain <> fips197_c3 /\
  aes256_decrypt_block test_ctx (aes256_encrypt_block test_ctx test_plain) = test_plain.
Proof. split; [by vm_compute|]. split; [by vm_compute|by vm_compute]. Qed.

End Aes.
