(* ===== verification/SHA512.v ===== *)
(** * SHA-512 and HMAC-SHA-512 (src/kernel/Network/Cryptography/SHA512.c, includes/sha512.h)

    The streaming hash context ([sha512_init], [sha512_update], [sha512_final])
    and HMAC. The theorems: the context after any sequence of updates depends
    only on the concatenation of the data (representation invariant
    [represents]), [sha512_hash] is SHA-512 as FIPS 180-4 states it ([fips_sha512],
    written from the standard and not from the code), and [hmac_sha512] is the
    RFC 2104 composition of it. *)
From Stdlib Require Import ZArith Lia.
From stdpp Require Import base numbers list.
From S2P Require Import Prelude.
Local Open Scope Z_scope.
Local Open Scope arr_scope.

Module Sha.

Definition SHA512_BLOCK_SIZE : nat := 128.
Definition SHA512_DIGEST_SIZE : nat := 64.

Definition K : list Z :=
  [
   0x428a2f98d728ae22; 0x7137449123ef65cd; 0xb5c0fbcfec4d3b2f; 0xe9b5dba58189dbbc;
   0x3956c25bf348b538; 0x59f111f1b605d019; 0x923f82a4af194f9b; 0xab1c5ed5da6d8118;
   0xd807aa98a3030242; 0x12835b0145706fbe; 0x243185be4ee4b28c; 0x550c7dc3d5ffb4e2;
   0x72be5d74f27b896f; 0x80deb1fe3b1696b1; 0x9bdc06a725c71235; 0xc19bf174cf692694;
   0xe49b69c19ef14ad2; 0xefbe4786384f25e3; 0x0fc19dc68b8cd5b5; 0x240ca1cc77ac9c65;
   0x2de92c6f592b0275; 0x4a7484aa6ea6e483; 0x5cb0a9dcbd41fbd4; 0x76f988da831153b5;
   0x983e5152ee66dfab; 0xa831c66d2db43210; 0xb00327c898fb213f; 0xbf597fc7beef0ee4;
   0xc6e00bf33da88fc2; 0xd5a79147930aa725; 0x06ca6351e003826f; 0x142929670a0e6e70;
   0x27b70a8546d22ffc; 0x2e1b21385c26c926; 0x4d2c6dfc5ac42aed; 0x53380d139d95b3df;
   0x650a73548baf63de; 0x766a0abb3c77b2a8; 0x81c2c92e47edaee6; 0x92722c851482353b;
   0xa2bfe8a14cf10364; 0xa81a664bbc423001; 0xc24b8b70d0f89791; 0xc76c51a30654be30;
   0xd192e819d6ef5218; 0xd69906245565a910; 0xf40e35855771202a; 0x106aa07032bbd1b8;
   0x19a4c116b8d2d0c8; 0x1e376c085141ab53; 0x2748774cdf8eeb99; 0x34b0bcb5e19b48a8;
   0x391c0cb3c5c95a63; 0x4ed8aa4ae3418acb; 0x5b9cca4f7763e373; 0x682e6ff3d6b2b8a3;
   0x748f82ee5defb2fc; 0x78a5636f43172f60; 0x84c87814a1f0ab72; 0x8cc702081a6439ec;
   0x90befffa23631e28; 0xa4506cebde82bde9; 0xbef9a3f7b2c67915; 0xc67178f2e372532b;
   0xca273eceea26619c; 0xd186b8c721c0c207; 0xeada7dd6cde0eb1e; 0xf57d4f7fee6ed178;
   0x06f067aa72176fba; 0x0a637dc5a2c898a6; 0x113f9804bef90dae; 0x1b710b35131c471b;
   0x28db77f523047d84; 0x32caab7b40c72493; 0x3c9ebe0a15c9bebc; 0x431d67c49c100d4c;
   0x4cc5d4becb3e42b6; 0x597f299cfc657e2a; 0x5fcb6fab3ad6faec; 0x6c44198c4a475817
  ].

(** [sha512_ctx_t]. *)
Record sha512_ctx := mk_sha { state : list Z; count0 : Z; count1 : Z; buffer : list Z }.

(** ** The compression function, with the macros of the source *)
Definition ROR64 (x n : Z) : Z := Z.lor (Z.shiftr x n) (u64 (Z.shiftl x (64 - n))).
Definition CH (x y z : Z) : Z := Z.lxor (Z.land x y) (Z.land (u64 (Z.lnot x)) z).
Definition MAJ (x y z : Z) : Z := Z.lxor (Z.lxor (Z.land x y) (Z.land x z)) (Z.land y z).
Definition SIGMA0 (x : Z) : Z := Z.lxor (Z.lxor (ROR64 x 28) (ROR64 x 34)) (ROR64 x 39).
Definition SIGMA1 (x : Z) : Z := Z.lxor (Z.lxor (ROR64 x 14) (ROR64 x 18)) (ROR64 x 41).
Definition GAMMA0 (x : Z) : Z := Z.lxor (Z.lxor (ROR64 x 1) (ROR64 x 8)) (Z.shiftr x 7).
Definition GAMMA1 (x : Z) : Z := Z.lxor (Z.lxor (ROR64 x 19) (ROR64 x 61)) (Z.shiftr x 6).

Definition load_word (data : list Z) (i : nat) : Z :=
  Z.lor (Z.lor (Z.lor (Z.lor (Z.lor (Z.lor (Z.lor
    (Z.shiftl (data.[i * 8 + 0]) 56) (Z.shiftl (data.[i * 8 + 1]) 48))
    (Z.shiftl (data.[i * 8 + 2]) 40)) (Z.shiftl (data.[i * 8 + 3]) 32))
    (Z.shiftl (data.[i * 8 + 4]) 24)) (Z.shiftl (data.[i * 8 + 5]) 16))
    (Z.shiftl (data.[i * 8 + 6]) 8)) (data.[i * 8 + 7]).

Definition schedule_word (i : nat) (W : list Z) : list Z :=
  W.[i <- u64 (GAMMA1 (W.[i - 2]) + W.[i - 7] + GAMMA0 (W.[i - 15]) + W.[i - 16])].

Definition message_schedule (data : list Z) : list Z :=
  let W := for_range 0 16 (fun i W => W.[i <- load_word data i]) (replicate 80 0) in
  for_range 16 80 schedule_word W.

(** The working variables [a..h]. *)
Record working := mk_w { wa : Z; wb : Z; wc : Z; wd : Z; we : Z; wf : Z; wg : Z; wh : Z }.

Definition sha_round (W : list Z) (i : nat) (v : working) : working :=
  let T1 := u64 (wh v + SIGMA1 (we v) + CH (we v) (wf v) (wg v) + K.[i] + W.[i]) in
  let T2 := u64 (SIGMA0 (wa v) + MAJ (wa v) (wb v) (wc v)) in
  mk_w (u64 (T1 + T2)) (wa v) (wb v) (wc v) (u64 (wd v + T1)) (we v) (wf v) (wg v).

(** [sha512_transform]: the new [ctx->state] after the block at the head of [data]. *)
Definition sha512_transform (st data : list Z) : list Z :=
  let W := message_schedule data in
  let v := for_range 0 80 (sha_round W)
             (mk_w (st.[0]) (st.[1]) (st.[2]) (st.[3]) (st.[4]) (st.[5]) (st.[6]) (st.[7])) in
  [u64 (st.[0] + wa v); u64 (st.[1] + wb v); u64 (st.[2] + wc v); u64 (st.[3] + wd v);
   u64 (st.[4] + we v); u64 (st.[5] + wf v); u64 (st.[6] + wg v); u64 (st.[7] + wh v)].

(** ** The streaming interface; [buffer] keeps what it held before [sha512_init] *)
Definition initial_state : list Z :=
  [0x6a09e667f3bcc908; 0xbb67ae8584caa73b; 0x3c6ef372fe94f82b; 0xa54ff53a5f1d36f1;
   0x510e527fade682d1; 0x9b05688c2b3e6c1f; 0x1f83d9abfb41bd6b; 0x5be0cd19137e2179].

Definition sha512_init (ctx : sha512_ctx) : sha512_ctx := mk_sha initial_state 0 0 (buffer ctx).

(** [for (; i + SHA512_BLOCK_SIZE <= len; i += SHA512_BLOCK_SIZE)]: at most [len] iterations. *)
Fixpoint update_blocks (fuel : nat) (st data : list Z) (i len : nat) : list Z * nat :=
  match fuel with
  | O => (st, i)
  | S fuel =>
      if (i + 128 <=? len)%nat
      then update_blocks fuel (sha512_transform st (drop i data)) data (i + 128) len
      else (st, i)
  end.

(** [while (i < len) ctx->buffer[index++] = data[i++];] *)
Definition copy_tail (buf : list Z) (index : nat) (data : list Z) (i len : nat) : list Z :=
  list_inserts index (map (fun j => data.[i + j]) (seq 0 (len - i))) buf.

Definition sha512_update (ctx : sha512_ctx) (data : list Z) (len : nat) : sha512_ctx :=
  let index := Z.to_nat (Z.shiftr (count0 ctx) 3 mod 128) in
  let bits := u64 (Z.shiftl (Z.of_nat len) 3) in
  let c0 := u64 (count0 ctx + bits) in
  let c1 := if c0 <? bits then u64 (count1 ctx + 1) else count1 ctx in
  let c1 := u64 (c1 + Z.shiftr (Z.of_nat len) 61) in
  let part_len := (128 - index)%nat in
  if (part_len <=? len)%nat then
    let buf := copy_tail (buffer ctx) index data 0 part_len in
    let st := sha512_transform (state ctx) buf in
    let '(st, i) := update_blocks len st data part_len len in
    mk_sha st c0 c1 (copy_tail buf 0 data i len)
  else
    mk_sha (state ctx) c0 c1 (copy_tail (buffer ctx) index data 0 len).

Definition bits_field (c0 c1 : Z) : list Z :=
  map (fun i => Z.land (Z.shiftr c1 (56 - Z.of_nat i * 8)) 255) (seq 0 8) ++
  map (fun i => Z.land (Z.shiftr c0 (56 - Z.of_nat i * 8)) 255) (seq 0 8).

Definition word_bytes (w : Z) : list Z :=
  [Z.land (Z.shiftr w 56) 255; Z.land (Z.shiftr w 48) 255; Z.land (Z.shiftr w 40) 255;
   Z.land (Z.shiftr w 32) 255; Z.land (Z.shiftr w 24) 255; Z.land (Z.shiftr w 16) 255;
   Z.land (Z.shiftr w 8) 255; Z.land w 255].

Definition digest_bytes (st : list Z) : list Z := concat (map (fun i => word_bytes (st.[i])) (seq 0 8)).

(** [sha512_final] writes 64 bytes of [digest]. *)
Definition sha512_final (ctx : sha512_ctx) : sha512_ctx * list Z :=
  let bits := bits_field (count0 ctx) (count1 ctx) in
  let index := Z.to_nat (Z.shiftr (count0 ctx) 3 mod 128) in
  let pad_len := if (index <? 112)%nat then (112 - index)%nat else (240 - index)%nat in
  let padding := 128 :: replicate (pad_len - 1) 0 in
  let ctx := sha512_update ctx padding pad_len in
  let ctx := sha512_update ctx bits 16 in
  (ctx, digest_bytes (state ctx)).

(** The stack context of [sha512_hash] is uninitialised: [garbage]. *)
Definition sha512_hash (garbage : sha512_ctx) (data : list Z) (len : nat) : list Z :=
  let ctx := sha512_init garbage in
  let ctx := sha512_update ctx data len in
  snd (sha512_final ctx).

(** ** HMAC *)
Definition hmac_pad (k : list Z) (k_len : nat) (b : Z) : list Z :=
  map (fun i => Z.lxor (k.[i]) b) (seq 0 k_len) ++ replicate (128 - k_len) b.

Definition hmac_sha512 (garbage : sha512_ctx) (key : list Z) (key_len : nat)
    (data : list Z) (data_len : nat) : list Z :=
  let '(k, k_len) :=
    if (128 <? key_len)%nat then (sha512_hash garbage key key_len, 64%nat) else (key, key_len) in
  let k_pad := hmac_pad k k_len 0x36 in
  let ctx := sha512_init garbage in
  let ctx := sha512_update ctx k_pad 128 in
  let ctx := sha512_update ctx data data_len in
  let '(ctx, hmac) := sha512_final ctx in
  let k_pad := hmac_pad k k_len 0x5c in
  let ctx := sha512_init ctx in
  let ctx := sha512_update ctx k_pad 128 in
  let ctx := sha512_update ctx hmac 64 in
  snd (sha512_final ctx).

(** ** Reference: the fold of the compression function over whole blocks *)
Definition process (msg : list Z) : list Z :=
  for_range 0 (length msg / 128) (fun k st => sha512_transform st (drop (128 * k) msg)) initial_state.

(** [ctx] stands for the message [msg] hashed so far. *)
Definition represents (ctx : sha512_ctx) (msg : list Z) : Prop :=
  length (buffer ctx) = 128%nat /\
  count0 ctx = (8 * Z.of_nat (length msg)) mod 2 ^ 64 /\
  count1 ctx = (8 * Z.of_nat (length msg) / 2 ^ 64) mod 2 ^ 64 /\
  state ctx = process msg /\
  (forall j, (j < length msg mod 128)%nat ->
     (buffer ctx).[j] = msg.[128 * (length msg / 128) + j]).

(** ** The compression function reads one block *)
Lemma transform_ext st d d' :
  (forall j, (j < 128)%nat -> d.[j] = d'.[j]) -> sha512_transform st d = sha512_transform st d'.
Proof.
  intros H. assert (message_schedule d = message_schedule d') as E.
  { apply (f_equal (for_range 16 80 schedule_word)).
    apply (for_range_ext 16). intros i W Hi. apply (f_equal (fun x => W.[i <- x])).
    unfold load_word. rewrite !H by lia. reflexivity. }
  unfold sha512_transform. by rewrite E.
Qed.

#[local] Opaque sha512_transform.

Lemma process_ext msg msg' : length msg = length msg' ->
  (forall j, (j < 128 * (length msg / 128))%nat -> msg.[j] = msg'.[j]) -> process msg = process msg'.
Proof.
  intros Hl H. unfold process. rewrite <- Hl. apply for_range_ext. intros k st Hk.
  apply transform_ext. intros j Hj. rewrite !get_drop. apply H. nia.
Qed.

(** Adding bytes that do not complete a block, or completing [1 + n] blocks. *)
Lemma process_app_blocks msg d n :
  (length (msg ++ d) / 128 = length msg / 128 + n)%nat ->
  process (msg ++ d) =
  for_range 0 n (fun k st => sha512_transform st (drop (128 * (length msg / 128 + k)) (msg ++ d)))
    (process msg).
Proof.
  intros Hn. unfold process at 1. rewrite Hn, for_range_add.
  apply (f_equal (for_range 0 n (fun k st => sha512_transform st (drop (128 * (length msg / 128 + k)) (msg ++ d))))).
  apply for_range_ext. intros k st Hk. apply transform_ext. intros j Hj.
  rewrite !get_drop. apply get_app_l. pose proof (Nat.Div0.mul_div_le (length msg) 128). nia.
Qed.

Lemma update_blocks_spec fuel st data i len : (i <= len)%nat -> ((len - i) / 128 <= fuel)%nat ->
  update_blocks fuel st data i len =
  (for_range 0 ((len - i) / 128) (fun k st => sha512_transform st (drop (i + 128 * k) data)) st,
   (i + 128 * ((len - i) / 128))%nat).
Proof.
  revert st i. induction fuel as [|fuel IH]; intros st i Hi Hf; cbn [update_blocks].
  { assert ((len - i) / 128 = 0)%nat as -> by lia. rewrite for_range_nil by lia. apply (f_equal (pair st)). lia. }
  destruct (Nat.leb_spec (i + 128) len) as [Hle|Hgt].
  - assert ((len - i) / 128 = 1 + (len - (i + 128)) / 128)%nat as E.
    { replace (len - i)%nat with (len - (i + 128) + 1 * 128)%nat by lia.
      rewrite Nat.div_add by lia. lia. }
    rewrite IH by lia. rewrite E, for_range_add. apply (f_equal2 pair); [|lia].
    rewrite (for_range_S 0 0), (for_range_nil 0 0) by lia.
    replace (i + 128 * 0)%nat with i by lia.
    apply for_range_ext. intros k x Hk. apply (f_equal (fun n => sha512_transform x (drop n data))). lia.
  - rewrite Nat.div_small by lia. rewrite for_range_nil by lia. apply (f_equal (pair st)). lia.
Qed.

(** ** The bit counter *)
Lemma count_index n : Z.to_nat (Z.shiftr ((8 * Z.of_nat n) mod 2 ^ 64) 3 mod 128) = (n mod 128)%nat.
Proof.
  rewrite Z.shiftr_div_pow2 by lia. change (2 ^ 3) with 8. change (2 ^ 64) with (8 * 2 ^ 61).
  rewrite Z.mul_mod_distr_l by done. rewrite Z.mul_comm, Z.div_mul by lia.
  change (2 ^ 61) with (128 * 2 ^ 54). rewrite Z.rem_mul_r by done.
  rewrite (Z.mul_comm 128), Z.mod_add, Z.mod_mod by done.
  change 128 with (Z.of_nat 128). rewrite <- Nat2Z.inj_mod. apply Nat2Z.id.
Qed.

Lemma count_add N L : 0 <= N -> 0 <= L ->
  let M := 2 ^ 64 in
  let c0 := (N mod M + L mod M) mod M in
  let carry := if c0 <? L mod M then 1 else 0 in
  c0 = (N + L) mod M /\ ((N / M) mod M + carry + L / M) mod M = ((N + L) / M) mod M.
Proof.
  intros HN HL M c0 carry. assert (0 < M) as HM by done.
  pose proof (Z.mod_pos_bound N M HM) as H1. pose proof (Z.mod_pos_bound L M HM) as H2.
  pose proof (Z.div_mod N M ltac:(lia)) as E1. pose proof (Z.div_mod L M ltac:(lia)) as E2.
  assert (c0 = (N + L) mod M) as Hc0 by (unfold c0; by rewrite <- Z.add_mod by lia).
  split; [done|]. assert ((N + L) / M = N / M + L / M + carry) as ->.
  { unfold carry, c0. destruct (Z.lt_ge_cases (N mod M + L mod M) M) as [Hs|Hs].
    - rewrite Z.mod_small by lia. destruct (Z.ltb_spec (N mod M + L mod M) (L mod M)); [lia|].
      symmetry. apply (Z.div_unique_pos _ _ _ (N mod M + L mod M)); lia.
    - assert ((N mod M + L mod M) mod M = N mod M + L mod M - M) as ->.
      { symmetry. apply (Z.mod_unique_pos _ _ 1); lia. }
      destruct (Z.ltb_spec (N mod M + L mod M - M) (L mod M)); [|lia].
      symmetry. apply (Z.div_unique_pos _ _ _ (N mod M + L mod M - M)); lia. }
  rewrite <- (Z.add_assoc ((N / M) mod M)), Z.add_mod_idemp_l by lia. f_equal. lia.
Qed.

(** ** One update *)
Lemma get_copy_tail buf index data i len j :
  (index + (len - i) <= length buf)%nat ->
  (copy_tail buf index data i len).[j] =
  if (index <=? j)%nat && (j <? index + (len - i))%nat then data.[i + (j - index)] else buf.[j].
Proof.
  intros H. unfold copy_tail.
  destruct (Nat.leb_spec index j), (Nat.ltb_spec j (index + (len - i))); simpl.
  - rewrite get_inserts_in by (rewrite ?length_map, ?length_seq; lia).
    rewrite get_map_seq by lia. done.
  - apply get_inserts_out. rewrite length_map, length_seq. lia.
  - apply get_inserts_out. lia.
  - apply get_inserts_out. lia.
Qed.

Lemma length_copy_tail buf index data i len : length (copy_tail buf index data i len) = length buf.
Proof. apply length_inserts. Qed.

Lemma update_counts (msg : list Z) len c0 c1 :
  c0 = (8 * Z.of_nat (length msg)) mod 2 ^ 64 ->
  c1 = (8 * Z.of_nat (length msg) / 2 ^ 64) mod 2 ^ 64 ->
  let bits := u64 (Z.shiftl (Z.of_nat len) 3) in
  let c0' := u64 (c0 + bits) in
  let c1' := if c0' <? bits then u64 (c1 + 1) else c1 in
  c0' = (8 * Z.of_nat (length msg + len)) mod 2 ^ 64 /\
  u64 (c1' + Z.shiftr (Z.of_nat len) 61) = (8 * Z.of_nat (length msg + len) / 2 ^ 64) mod 2 ^ 64.
Proof.
  intros -> ->. cbv zeta. rewrite Z.shiftl_mul_pow2 by lia. change (2 ^ 3) with 8.
  rewrite (Z.mul_comm (Z.of_nat len)). set (N := 8 * Z.of_nat (length msg)). set (L := 8 * Z.of_nat len).
  assert (Z.shiftr (Z.of_nat len) 61 = L / 2 ^ 64) as ->.
  { unfold L. rewrite Z.shiftr_div_pow2 by lia. change (2 ^ 64) with (8 * 2 ^ 61).
    by rewrite Z.div_mul_cancel_l by done. }
  replace (8 * Z.of_nat (length msg + len)) with (N + L) by (unfold N, L; lia).
  destruct (count_add N L) as [E1 E2]; [unfold N; lia|unfold L; lia|]. cbv zeta in E1, E2.
  unfold wrap. split; [exact E1|]. rewrite <- E2.
  destruct (_ <? _); [|by rewrite Z.add_0_r].
  by rewrite Z.add_mod_idemp_l by done.
Qed.

Lemma represents_buffer_block ctx msg data :
  let q := (length msg / 128)%nat in
  let idx := (length msg mod 128)%nat in
  represents ctx msg -> (128 - idx <= length data)%nat ->
  forall j, (j < 128)%nat ->
  (copy_tail (buffer ctx) idx data 0 (128 - idx)).[j] = (drop (128 * q) (msg ++ data)).[j].
Proof.
  intros q idx (Hb & _ & _ & _ & Hbuf) Hd j Hj.
  pose proof (Nat.div_mod_eq (length msg) 128) as E.
  pose proof (Nat.mod_upper_bound (length msg) 128 ltac:(lia)) as Hm. fold q idx in E, Hm, Hbuf.
  rewrite get_copy_tail, get_drop by lia.
  destruct (Nat.leb_spec idx j); simpl.
  - rewrite (proj2 (Nat.ltb_lt _ _)) by lia. rewrite get_app_r by lia. f_equal. lia.
  - rewrite Hbuf, get_app_l by lia. done.
Qed.

Lemma update_represents ctx msg data len : represents ctx msg -> length data = len ->
  represents (sha512_update ctx data len) (msg ++ data).
Proof.
  intros Hrep Hlen. pose proof Hrep as (Hb & Hc0 & Hc1 & Hst & Hbuf).
  destruct (update_counts msg len _ _ Hc0 Hc1) as [Hc0' Hc1']. cbv zeta in Hc0', Hc1'.
  pose proof (count_index (length msg)) as Hidx. rewrite <- Hc0 in Hidx.
  unfold sha512_update. cbv zeta. rewrite !Hidx.
  pose proof (Nat.div_mod_eq (length msg) 128) as E.
  pose proof (Nat.mod_upper_bound (length msg) 128 ltac:(lia)) as Hm.
  set (q := (length msg / 128)%nat) in *. set (idx := (length msg mod 128)%nat) in *.
  destruct (Nat.leb_spec (128 - idx) len) as [Hge|Hlt]; cbv zeta.
  - rewrite update_blocks_spec by first [done | apply Nat.Div0.div_le_upper_bound; lia].
    set (n := ((len - (128 - idx)) / 128)%nat).
    assert (length (msg ++ data) = 128 * (q + (1 + n)) + (len - (128 - idx)) mod 128)%nat as Etot.
    { rewrite length_app. pose proof (Nat.div_mod_eq (len - (128 - idx)) 128). fold n in H. lia. }
    pose proof (Nat.mod_upper_bound (len - (128 - idx)) 128 ltac:(lia)) as Hr.
    assert (length (msg ++ data) / 128 = q + (1 + n))%nat as Eq.
    { symmetry. eapply Nat.div_unique; [exact Hr|exact Etot]. }
    assert (length (msg ++ data) mod 128 = (len - (128 - idx)) mod 128)%nat as Em.
    { symmetry. eapply Nat.mod_unique; [exact Hr|exact Etot]. }
    assert (len - (128 - idx) = 128 * n + (len - (128 - idx)) mod 128)%nat as En by apply Nat.div_mod_eq.
    unfold represents. cbn [buffer count0 count1 state]. split_and!.
    + by rewrite !length_copy_tail.
    + rewrite length_app, Hlen. exact Hc0'.
    + rewrite length_app, Hlen. exact Hc1'.
    + rewrite (process_app_blocks msg data (1 + n) Eq), for_range_add, Hst. fold q.
      rewrite (for_range_S 0 0), (for_range_nil 0 0) by lia.
      rewrite (transform_ext _ (copy_tail _ _ _ _ _) (drop (128 * (q + 0)) (msg ++ data))).
      2: { rewrite Nat.add_0_r. intros j Hj. apply represents_buffer_block; [done|fold idx; lia|done]. }
      apply for_range_ext. intros k x Hk. apply transform_ext. intros j Hj.
      rewrite !get_drop, get_app_r by lia. f_equal. lia.
    + intros j Hj. rewrite Em in Hj. rewrite get_copy_tail by (rewrite length_copy_tail; lia).
      rewrite Nat.add_0_l, (proj2 (Nat.ltb_lt _ _)) by lia. rewrite (proj2 (Nat.leb_le 0 j)) by lia. simpl andb.
      cbv iota. rewrite Eq, get_app_r by lia. f_equal. lia.
  - assert (length (msg ++ data) = 128 * q + (idx + len))%nat as Etot by (rewrite length_app; lia).
    assert (length (msg ++ data) / 128 = q + 0)%nat as Eq.
    { rewrite Nat.add_0_r. symmetry. eapply Nat.div_unique; [|exact Etot]. lia. }
    assert (length (msg ++ data) mod 128 = idx + len)%nat as Em.
    { symmetry. eapply Nat.mod_unique; [|exact Etot]. lia. }
    unfold represents. cbn [buffer count0 count1 state]. split_and!.
    + by rewrite length_copy_tail.
    + rewrite length_app, Hlen. exact Hc0'.
    + rewrite length_app, Hlen. exact Hc1'.
    + rewrite (process_app_blocks msg data 0 Eq), for_range_nil by lia. exact Hst.
    + intros j Hj. rewrite Em in Hj. rewrite get_copy_tail by lia. rewrite Eq, Nat.add_0_r.
      destruct (Nat.leb_spec idx j); simpl.
      * rewrite (proj2 (Nat.ltb_lt _ _)) by lia. rewrite get_app_r by lia. f_equal. lia.
      * rewrite Hbuf, get_app_l by lia. done.
Qed.

Lemma init_represents ctx : length (buffer ctx) = 128%nat -> represents (sha512_init ctx) [].
Proof. intros H. split_and!; [done..|]. intros j Hj. change (j < 0)%nat in Hj. lia. Qed.

(** ** Finalisation: the padded message of FIPS 180-4 *)
Definition be_bytes (n : nat) (v : Z) : list Z :=
  map (fun i => (v / 2 ^ (8 * (Z.of_nat n - 1 - Z.of_nat i))) mod 256) (seq 0 n).

(** Zero bytes between the 0x80 byte and the 16-byte length. *)
Definition zero_count (n : nat) : nat := ((239 - n mod 128) mod 128)%nat.

Definition sha_pad (msg : list Z) : list Z :=
  (msg ++ 128 :: replicate (zero_count (length msg)) 0) ++ be_bytes 16 (8 * Z.of_nat (length msg)).

(** The digest as the fold of the code's compression function over the padded message. *)
Definition sha512_fold (msg : list Z) : list Z := digest_bytes (process (sha_pad msg)).

Lemma byte_of_word N s k : 0 <= s -> 0 <= k -> s + 8 <= 64 ->
  Z.land (Z.shiftr ((N / 2 ^ k) mod 2 ^ 64) s) 255 = (N / 2 ^ (k + s)) mod 256.
Proof.
  intros Hs Hk H64. change 255 with (Z.ones 8). change 256 with (2 ^ 8).
  rewrite <- (Z.land_ones _ 8) by lia.
  apply Z.bits_inj'. intros i Hi. rewrite !Z.land_spec, Z.shiftr_spec by done.
  destruct (Z.lt_ge_cases i 8) as [Hlt|Hge]; [|by rewrite Z.ones_spec_high, !andb_false_r by lia].
  rewrite Z.mod_pow2_bits_low, !Z.div_pow2_bits by lia. f_equal. f_equal. lia.
Qed.

Lemma bits_field_be N : bits_field (N mod 2 ^ 64) ((N / 2 ^ 64) mod 2 ^ 64) = be_bytes 16 N.
Proof.
  unfold bits_field, be_bytes. change (seq 0 16) with (seq 0 8 ++ seq 8 8). rewrite map_app.
  replace (N mod 2 ^ 64) with ((N / 2 ^ 0) mod 2 ^ 64) by (by rewrite Z.div_1_r).
  apply (f_equal2 app).
  - apply map_ext_in. intros i Hi%in_seq. rewrite byte_of_word by lia. do 3 f_equal. lia.
  - change (seq 8 8) with (map (Nat.add 8) (seq 0 8)). rewrite map_map.
    apply map_ext_in. intros i Hi%in_seq. rewrite byte_of_word by lia. do 3 f_equal. lia.
Qed.

Lemma pad_len_spec n :
  (if (n mod 128 <? 112) then 112 - n mod 128 else 240 - n mod 128)%nat = S (zero_count n).
Proof.
  unfold zero_count. pose proof (Nat.mod_upper_bound n 128 ltac:(lia)) as H.
  set (i := (n mod 128)%nat) in *. destruct (Nat.ltb_spec i 112).
  - assert ((239 - i) mod 128 = 111 - i)%nat as ->; [|lia].
    symmetry. apply (Nat.mod_unique _ _ 1); lia.
  - rewrite Nat.mod_small; lia.
Qed.

Lemma final_spec ctx msg : represents ctx msg -> snd (sha512_final ctx) = sha512_fold msg.
Proof.
  intros Hrep. pose proof Hrep as (_ & Hc0 & Hc1 & _). unfold sha512_final, sha512_fold, sha_pad.
  pose proof (count_index (length msg)) as Hidx. rewrite <- Hc0 in Hidx. cbv zeta. rewrite Hidx, pad_len_spec.
  cbn [snd]. rewrite Hc0, Hc1, bits_field_be. cbn [Nat.sub]. rewrite Nat.sub_0_r.
  set (padding := 128 :: replicate (zero_count (length msg)) 0).
  assert (represents (sha512_update ctx padding (S (zero_count (length msg)))) (msg ++ padding)) as H1.
  { apply update_represents; [done|]. unfold padding. simpl. by rewrite length_replicate. }
  pose proof (update_represents _ _ (be_bytes 16 (8 * Z.of_nat (length msg))) 16 H1) as H2.
  destruct H2 as (_ & _ & _ & -> & _); [|reflexivity].
  unfold be_bytes. by rewrite length_map, length_seq.
Qed.

Lemma sha512_hash_take g data len : length (buffer g) = 128%nat -> length data = len ->
  sha512_hash g data len = sha512_fold data.
Proof.
  intros Hg Hl. unfold sha512_hash. apply final_spec.
  apply (update_represents (sha512_init g) []); [by apply init_represents|done].
Qed.

(** ** FIPS 180-4

    The standard, written from its text and not from the code: 64-bit words are
    numbers, rotations and shifts are divisions, the constants are computed from
    the primes. *)
Definition ROTR (n x : Z) : Z := x / 2 ^ n + (x mod 2 ^ n) * 2 ^ (64 - n).
Definition SHR (n x : Z) : Z := x / 2 ^ n.
Definition Ch (x y z : Z) : Z := Z.lxor (Z.land x y) (Z.ldiff z x).
Definition Maj (x y z : Z) : Z := Z.lxor (Z.lxor (Z.land x y) (Z.land x z)) (Z.land y z).
Definition Sum0 (x : Z) : Z := Z.lxor (Z.lxor (ROTR 28 x) (ROTR 34 x)) (ROTR 39 x).
Definition Sum1 (x : Z) : Z := Z.lxor (Z.lxor (ROTR 14 x) (ROTR 18 x)) (ROTR 41 x).
Definition sigma0 (x : Z) : Z := Z.lxor (Z.lxor (ROTR 1 x) (ROTR 8 x)) (SHR 7 x).
Definition sigma1 (x : Z) : Z := Z.lxor (Z.lxor (ROTR 19 x) (ROTR 61 x)) (SHR 6 x).

(** The largest [r < 2^bits] with [r^3 <= n]. *)
Fixpoint cube_root (bits : nat) (r n : Z) : Z :=
  match bits with
  | O => r
  | S bits => let r' := r + 2 ^ Z.of_nat bits in cube_root bits (if r' ^ 3 <=? n then r' else r) n
  end.
Definition is_prime (p : nat) : bool := (2 <=? p)%nat && forallb (fun d => negb (p mod d =? 0)%nat) (seq 2 (p - 2)).
Definition primes : list Z := Z.of_nat <$> base.filter (fun p => Is_true (is_prime p)) (seq 0 410).

(** The first 64 bits of the fractional parts of the cube roots of the first 80 primes (section 4.2.3), and of the
    square roots of the first 8 (section 5.3.5). *)
Definition fips_K : list Z := map (fun p => cube_root 68 0 (p * 2 ^ 192) mod 2 ^ 64) primes.
Definition fips_H0 : list Z := map (fun p => Z.sqrt (p * 2 ^ 128) mod 2 ^ 64) (take 8 primes).

Definition be_value (l : list Z) : Z := foldl (fun v b => v * 256 + b) 0 l.

(** The schedule grows word by word (section 6.4.2, step 1). *)
Definition schedule_next (W : list Z) : list Z :=
  let t := length W in
  W ++ [(sigma1 (W.[t - 2]) + W.[t - 7] + sigma0 (W.[t - 15]) + W.[t - 16]) mod 2 ^ 64].
Definition block_words (M : list Z) : list Z := map (fun t => be_value (take 8 (drop (8 * t) M))) (seq 0 16).
Definition fips_schedule (M : list Z) : list Z := Nat.iter 64 schedule_next (block_words M).

(** Step 3, for one pair of a constant and a schedule word. *)
Definition fips_round (v : list Z) (kw : Z * Z) : list Z :=
  match v with
  | [a; b; c; d; e; f; g; h] =>
      let T1 := h + Sum1 e + Ch e f g + fst kw + snd kw in
      let T2 := Sum0 a + Maj a b c in
      [(T1 + T2) mod 2 ^ 64; a; b; c; (d + T1) mod 2 ^ 64; e; f; g]
  | _ => v
  end.

Definition fips_block (H M : list Z) : list Z :=
  zip_with (fun x y => (x + y) mod 2 ^ 64) H (foldl fips_round H (zip fips_K (fips_schedule M))).

Definition fips_sha512 (msg : list Z) : list Z :=
  let P := sha_pad msg in
  let H := foldl (fun H i => fips_block H (take 128 (drop (128 * i) P))) fips_H0 (seq 0 (length P / 128)) in
  concat (map (be_bytes 8) H).

(** *** The constants of the code are the standard's *)
Lemma cube_root_spec bits : forall r n, 0 <= r -> r ^ 3 <= n < (r + 2 ^ Z.of_nat bits) ^ 3 ->
  let c := cube_root bits r n in 0 <= c /\ c ^ 3 <= n < (c + 1) ^ 3.
Proof.
  induction bits as [|bits IH]; intros r n Hr Hn; cbn [cube_root]; [split; [done|exact Hn]|].
  rewrite Nat2Z.inj_succ, Z.pow_succ_r in Hn by lia. pose proof (Z.pow_pos_nonneg 2 (Z.of_nat bits) ltac:(lia) ltac:(lia)).
  cbv zeta. destruct (Z.leb_spec ((r + 2 ^ Z.of_nat bits) ^ 3) n) as [Hle|Hgt]; apply IH; lia.
Qed.

Lemma K_fips : K = fips_K.
Proof. vm_compute. reflexivity. Qed.

Lemma H0_fips : initial_state = fips_H0.
Proof. vm_compute. reflexivity. Qed.

(** *** Words *)
Lemma lor_disjoint q b k : 0 <= k -> 0 <= b < 2 ^ k -> Z.lor b (q * 2 ^ k) = b + q * 2 ^ k.
Proof.
  intros Hk Hb. assert (Z.land b (q * 2 ^ k) = 0) as Hl.
  { apply Z.bits_inj'. intros i Hi. rewrite Z.land_spec, Z.bits_0. destruct (Z.lt_ge_cases i k).
    - by rewrite (Z.mul_pow2_bits_low q k i), andb_false_r by lia.
    - by rewrite (bits_above_zero k b i) by lia. }
  by rewrite <- Z.lxor_lor, Z.add_nocarry_lxor by done.
Qed.

Lemma ROR64_ROTR n x : 0 < n < 64 -> is_u64 x -> ROR64 x n = ROTR n x.
Proof.
  intros Hn Hx. unfold ROR64, ROTR. rewrite Z.shiftr_div_pow2, Z.shiftl_mul_pow2 by lia.
  assert (wrap 64 (x * 2 ^ (64 - n)) = (x mod 2 ^ n) * 2 ^ (64 - n)) as ->.
  { unfold wrap. replace 64 with (n + (64 - n)) at 2 by lia. rewrite Z.pow_add_r by lia.
    apply Z.mul_mod_distr_r; apply Z.pow_nonzero; lia. }
  apply lor_disjoint; [lia|]. split; [apply Z.div_pos; [apply Hx|lia]|].
  apply Z.div_lt_upper_bound; [lia|]. rewrite <- Z.pow_add_r by lia. replace (n + (64 - n)) with 64 by lia. apply Hx.
Qed.

Lemma CH_Ch x y z : is_u64 z -> CH x y z = Ch x y z.
Proof.
  intros Hz. unfold CH, Ch. f_equal. apply Z.bits_inj'. intros i Hi. rewrite Z.land_spec, Z.ldiff_spec.
  destruct (Z.lt_ge_cases i 64); [|by rewrite (bits_above_zero 64 z i), andb_false_r by (done || lia)].
  unfold wrap. rewrite Z.mod_pow2_bits_low, Z.lnot_spec by lia. apply andb_comm.
Qed.

(** The code's functions on 64-bit words. *)
Lemma SIGMA0_Sum0 x : is_u64 x -> SIGMA0 x = Sum0 x.
Proof. intros H. unfold SIGMA0, Sum0. by rewrite !ROR64_ROTR by (done || lia). Qed.
Lemma SIGMA1_Sum1 x : is_u64 x -> SIGMA1 x = Sum1 x.
Proof. intros H. unfold SIGMA1, Sum1. by rewrite !ROR64_ROTR by (done || lia). Qed.
Lemma GAMMA0_sigma0 x : is_u64 x -> GAMMA0 x = sigma0 x.
Proof. intros H. unfold GAMMA0, sigma0, SHR. by rewrite !ROR64_ROTR, Z.shiftr_div_pow2 by (done || lia). Qed.
Lemma GAMMA1_sigma1 x : is_u64 x -> GAMMA1 x = sigma1 x.
Proof. intros H. unfold GAMMA1, sigma1, SHR. by rewrite !ROR64_ROTR, Z.shiftr_div_pow2 by (done || lia). Qed.

Lemma lor_byte a b k m : m = k + 8 -> 0 <= k -> is_byte b -> Z.lor (a * 2 ^ m) (Z.shiftl b k) = (a * 256 + b) * 2 ^ k.
Proof.
  intros -> Hk [Hb1 Hb2]. rewrite Z.shiftl_mul_pow2, Z.lor_comm by done. rewrite lor_disjoint; [|lia|].
  - rewrite Z.pow_add_r by lia. lia.
  - rewrite Z.pow_add_r by lia. pose proof (Z.pow_pos_nonneg 2 k). nia.
Qed.

Lemma lor_bytes b0 b1 b2 b3 b4 b5 b6 b7 : Forall is_byte [b0; b1; b2; b3; b4; b5; b6; b7] ->
  Z.lor (Z.lor (Z.lor (Z.lor (Z.lor (Z.lor (Z.lor (Z.shiftl b0 56) (Z.shiftl b1 48)) (Z.shiftl b2 40)) (Z.shiftl b3 32))
    (Z.shiftl b4 24)) (Z.shiftl b5 16)) (Z.shiftl b6 8)) b7 = be_value [b0; b1; b2; b3; b4; b5; b6; b7].
Proof.
  intros Hb. repeat match goal with H : Forall _ (_ :: _) |- _ => apply Forall_cons in H as [? H] end.
  rewrite (Z.shiftl_mul_pow2 b0) by lia.
  rewrite (lor_byte b0 b1 48), (lor_byte _ b2 40), (lor_byte _ b3 32), (lor_byte _ b4 24), (lor_byte _ b5 16), (lor_byte _ b6 8) by (done || lia).
  rewrite <- (Z.shiftl_0_r b7) at 1. rewrite (lor_byte _ b7 0) by (done || lia). unfold be_value. cbn [foldl]. lia.
Qed.

(** *** The schedule *)
Definition words (l : list Z) : Prop := Forall is_u64 l.

Lemma words_get l i : words l -> is_u64 (l.[i]).
Proof.
  intros H. destruct (decide (i < length l)%nat) as [Hi|Hi]; [by apply Forall_get|].
  unfold get. rewrite nth_overflow by lia. unfold is_u64. lia.
Qed.

Lemma take_insert_last (W : list Z) t v : (t < length W)%nat -> take (S t) (W.[t <- v]) = take t W ++ [v].
Proof. intros H. erewrite take_S_r by (by apply list_lookup_insert_eq). by rewrite take_insert_ge by lia. Qed.

Lemma load_word_value data t : length data = 128%nat -> Forall is_byte data -> (t < 16)%nat ->
  load_word data t = be_value (take 8 (drop (8 * t) data)).
Proof.
  intros Hl Hb Ht. assert (take 8 (drop (8 * t) data) = map (fun j => data.[t * 8 + j]) (seq 0 8)) as ->.
  { apply list_eq_get; [rewrite length_take, length_drop, length_map, length_seq; lia|]. intros j Hj.
    rewrite length_take, length_drop in Hj. rewrite get_take, get_drop, get_map_seq by lia. f_equal. lia. }
  apply lor_bytes. apply (Forall_fmap (fun j => data.[t * 8 + j]) is_byte (seq 0 8)), Forall_forall.
  intros j Hj%elem_of_seq. apply (Forall_get is_byte); [done|lia].
Qed.

Lemma be_word_range l : Forall is_byte l -> 0 <= be_value l < 256 ^ Z.of_nat (length l).
Proof.
  induction l as [|b l IH] using rev_ind; [done|]. intros [Hl [[H1 H2] _]%Forall_cons]%Forall_app.
  unfold be_value in *. rewrite foldl_app, length_app. cbn [foldl length]. specialize (IH Hl).
  rewrite Nat2Z.inj_add, Z.pow_add_r by lia. change (256 ^ Z.of_nat 1) with 256. lia.
Qed.

Lemma block_words_words M : Forall is_byte M -> words (block_words M).
Proof.
  intros Hb. apply (Forall_fmap (fun t => be_value (take 8 (drop (8 * t) M))) is_u64), Forall_forall. intros t _. cbn. set (l := take 8 (drop (8 * t) M)).
  destruct (be_word_range l) as [H1 H2]; [by apply Forall_take, Forall_drop|]. split; [done|].
  eapply Z.lt_le_trans; [exact H2|]. change (2 ^ 64) with (256 ^ 8). apply Z.pow_le_mono_r; [lia|].
  unfold l. rewrite length_take. lia.
Qed.

Lemma loaded_words data : length data = 128%nat -> Forall is_byte data ->
  let W := for_range 0 16 (fun i W => W.[i <- load_word data i]) (replicate 80 0) in
  length W = 80%nat /\ take 16 W = block_words data.
Proof.
  intros Hl Hb. cbv zeta.
  apply (for_range_inv (fun t W => length W = 80%nat /\ take t W = map (fun t => be_value (take 8 (drop (8 * t) data))) (seq 0 t)));
    [lia|done|]. intros t W Ht [HW1 HW2]. rewrite length_insert. split; [done|].
  rewrite take_insert_last, HW2, load_word_value by (done || lia). by rewrite seq_S, map_app.
Qed.

Lemma length_schedule_next W : length (schedule_next W) = S (length W).
Proof. unfold schedule_next. rewrite length_app. cbn [length]. lia. Qed.

Lemma schedule_fips data : length data = 128%nat -> Forall is_byte data ->
  message_schedule data = fips_schedule data /\ words (fips_schedule data).
Proof.
  intros Hl Hb. destruct (loaded_words data Hl Hb) as [HW1 HW2]. unfold message_schedule, fips_schedule.
  set (W0 := for_range 0 16 _ _) in *. clearbody W0. pose proof (block_words_words data Hb) as Hw.
  assert (let W := for_range 16 80 schedule_word W0 in
    length W = 80%nat /\ take 80 W = Nat.iter (80 - 16) schedule_next (block_words data) /\
    words (take 80 W)) as (E1 & E2 & E3).
  { cbv zeta. apply (for_range_inv (fun t W => length W = 80%nat /\
      take t W = Nat.iter (t - 16) schedule_next (block_words data) /\ words (take t W))); [lia|by rewrite HW2|].
    intros t W Ht (H1 & H2 & H3). unfold schedule_word. rewrite length_insert, take_insert_last by lia.
    assert (forall j, (0 < j <= t)%nat -> W.[t - j] = (take t W).[t - j]) as Hg by (intros j Hj; by rewrite get_take by lia).
    rewrite !Hg by lia. rewrite GAMMA0_sigma0, GAMMA1_sigma1 by by apply words_get. split_and!; [done| |].
    - replace (S t - 16)%nat with (S (t - 16)) by lia. rewrite Nat.iter_succ, <- H2. unfold schedule_next.
      rewrite length_take_le by lia. done.
    - apply Forall_app. split; [done|]. repeat constructor; apply Z.mod_pos_bound; lia. }
  rewrite take_ge in E2, E3 by lia. change (80 - 16)%nat with 64%nat in E2. rewrite <- E2. done.
Qed.

(** *** The rounds *)
Definition vars (v : working) : list Z := [wa v; wb v; wc v; wd v; we v; wf v; wg v; wh v].

Lemma add_mod_sum a b : u64 (u64 a + u64 b) = (a + b) mod 2 ^ 64.
Proof. unfold wrap. by rewrite <- Z.add_mod. Qed.

Lemma round_fips W i v : words (vars v) ->
  vars (sha_round W i v) = fips_round (vars v) (K.[i], W.[i]) /\ words (vars (sha_round W i v)).
Proof.
  intros Hv. destruct v as [a b c d e f g h]. unfold vars in *. cbn [wa wb wc wd we wf wg wh] in *.
  assert (forall j, is_u64 ([a; b; c; d; e; f; g; h].[j])) as Hj by (intros j; by apply words_get).
  unfold sha_round, fips_round. cbn [wa wb wc wd we wf wg wh fst snd].
  rewrite SIGMA0_Sum0, SIGMA1_Sum1, CH_Ch by (apply (Hj 0%nat) || apply (Hj 4%nat) || apply (Hj 6%nat)).
  change (MAJ a b c) with (Maj a b c). set (T1 := h + _ + _ + _ + _). set (T2 := Sum0 a + _). clearbody T1 T2.
  assert (u64 (d + u64 T1) = (d + T1) mod 2 ^ 64) as -> by (unfold wrap; by rewrite Z.add_mod_idemp_r).
  rewrite add_mod_sum. split; [done|]. repeat (apply Forall_cons in Hv as [? Hv]).
  repeat (apply Forall_cons_2; [first [done|apply Z.mod_pos_bound; lia]|]). apply Forall_nil_2.
Qed.

Lemma zip_take_S (k W : list Z) i : length k = length W -> (i < length W)%nat ->
  take (S i) (zip k W) = take i (zip k W) ++ [(k.[i], W.[i])].
Proof.
  intros Hl Hi. apply take_S_r. apply lookup_zip_with_Some. exists (k.[i]), (W.[i]).
  split_and!; [done|apply lookup_get; lia|by apply lookup_get].
Qed.

Lemma rounds_fips W v : words (vars v) -> length W = 80%nat ->
  vars (for_range 0 80 (sha_round W) v) = foldl fips_round (vars v) (zip fips_K W) /\
  words (vars (for_range 0 80 (sha_round W) v)).
Proof.
  intros Hv HW. rewrite <- K_fips. assert (length K = 80%nat) as HK by reflexivity.
  assert (vars (for_range 0 80 (sha_round W) v) = foldl fips_round (vars v) (take 80 (zip K W)) /\
    words (vars (for_range 0 80 (sha_round W) v))) as H.
  { apply (for_range_inv (fun i v' => vars v' = foldl fips_round (vars v) (take i (zip K W)) /\ words (vars v'))); [lia|done|].
    intros i v' Hi [H1 H2]. destruct (round_fips W i v' H2) as [R1 R2]. split; [|done].
    rewrite zip_take_S, foldl_app by lia. by rewrite <- H1, R1. }
  by rewrite take_ge in H by (rewrite length_zip_with; lia).
Qed.

#[local] Transparent sha512_transform.
Lemma length_transform st data : length (sha512_transform st data) = 8%nat.
Proof. reflexivity. Qed.

Lemma transform_fips st data : length st = 8%nat -> words st -> length data = 128%nat -> Forall is_byte data ->
  sha512_transform st data = fips_block st data /\ words (fips_block st data).
Proof.
  intros Hl Hst Hd Hb. destruct (schedule_fips data Hd Hb) as [Es _].
  assert (length (fips_schedule data) = 80%nat) as HW.
  { unfold fips_schedule. assert (forall n, length (Nat.iter n schedule_next (block_words data)) = (n + 16)%nat) as H; [|apply H].
    induction n as [|n IH]; [done|]. by rewrite Nat.iter_succ, length_schedule_next, IH. }
  unfold sha512_transform, fips_block. rewrite Es. set (W := fips_schedule data) in *. clearbody W.
  destruct st as [|a [|b [|c [|d [|e [|f [|g [|h [|]]]]]]]]]; try done.
  destruct (rounds_fips W (mk_w a b c d e f g h)) as [Er _]; [done|done|].
  change (vars (mk_w a b c d e f g h)) with [a; b; c; d; e; f; g; h] in Er. rewrite <- Er. clear Er.
  change (get [a; b; c; d; e; f; g; h] 0) with a. change (get [a; b; c; d; e; f; g; h] 1) with b.
  change (get [a; b; c; d; e; f; g; h] 2) with c. change (get [a; b; c; d; e; f; g; h] 3) with d.
  change (get [a; b; c; d; e; f; g; h] 4) with e. change (get [a; b; c; d; e; f; g; h] 5) with f.
  change (get [a; b; c; d; e; f; g; h] 6) with g. change (get [a; b; c; d; e; f; g; h] 7) with h.
  set (v := for_range _ _ _ _). clearbody v. destruct v. split; [reflexivity|].
  repeat (apply Forall_cons_2; [apply Z.mod_pos_bound; lia|]). apply Forall_nil_2.
Qed.
#[local] Opaque sha512_transform.

(** *** The digest *)
Lemma word_bytes_be w : word_bytes w = be_bytes 8 w.
Proof.
  unfold word_bytes. rewrite !land_ff, !Z.shiftr_div_pow2 by lia. assert (w mod 256 = (w / 2 ^ 0) mod 256) as -> by (by rewrite Z.div_1_r).
  reflexivity.
Qed.

Lemma digest_be st : length st = 8%nat -> digest_bytes st = concat (map (be_bytes 8) st).
Proof.
  intros Hl. destruct st as [|a [|b [|c [|d [|e [|f [|g [|h [|]]]]]]]]]; try done.
  unfold digest_bytes. cbn [seq map get nth]. by rewrite !word_bytes_be.
Qed.

Lemma fips_pad_bytes msg : Forall is_byte msg -> Forall is_byte (sha_pad msg).
Proof.
  intros H. unfold sha_pad. rewrite !Forall_app, Forall_cons. split_and!; [done|by unfold is_byte|apply Forall_replicate; by unfold is_byte|].
  apply (Forall_fmap (fun i => (8 * Z.of_nat (length msg) / 2 ^ (8 * (Z.of_nat 16 - 1 - Z.of_nat i))) mod 256) is_byte), Forall_forall.
  intros i _. apply Z.mod_pos_bound. lia.
Qed.

Lemma process_fips msg : Forall is_byte msg ->
  process msg = foldl (fun H i => fips_block H (take 128 (drop (128 * i) msg))) fips_H0 (seq 0 (length msg / 128)).
Proof.
  intros Hb. unfold process. rewrite H0_fips.
  set (F := fun n => foldl (fun H i => fips_block H (take 128 (drop (128 * i) msg))) fips_H0 (seq 0 n)).
  change (for_range 0 (length msg / 128) (fun k st => sha512_transform st (drop (128 * k) msg)) fips_H0 = F (length msg / 128)%nat).
  assert (let st := for_range 0 (length msg / 128) (fun k st => sha512_transform st (drop (128 * k) msg)) fips_H0 in
    st = F (length msg / 128)%nat /\ length st = 8%nat /\ words st) as H; [|apply H].
  cbv zeta. apply (for_range_inv (fun k st => st = F k /\ length st = 8%nat /\ words st)); [lia| |].
  - split; [reflexivity|]. rewrite <- H0_fips. split; [reflexivity|]. repeat (apply Forall_cons_2; [by unfold is_u64|]). apply Forall_nil_2.
  - intros k st Hk (E & Hl & Hw). pose proof (Nat.Div0.mul_div_le (length msg) 128) as Hd.
    rewrite (transform_ext st (drop (128 * k) msg) (take 128 (drop (128 * k) msg))) by (intros j Hj; by rewrite get_take).
    destruct (transform_fips st (take 128 (drop (128 * k) msg))) as [Et Hw'];
      [done|done|rewrite length_take, length_drop; nia|by apply Forall_take, Forall_drop|].
    split_and!; [|apply length_transform|by rewrite Et]. rewrite Et, E. unfold F. by rewrite seq_S, foldl_app.
Qed.

Lemma sha512_fold_fips data : Forall is_byte data -> sha512_fold data = fips_sha512 data.
Proof.
  intros Hb. unfold sha512_fold, fips_sha512.
  assert (length (process (sha_pad data)) = 8%nat) as Hl.
  { unfold process. apply (for_range_inv (fun _ st => length st = 8%nat)); [lia|done|]. intros; apply length_transform. }
  rewrite digest_be by done. by rewrite process_fips by by apply fips_pad_bytes.
Qed.

Lemma fips_bytes msg : Forall is_byte (fips_sha512 msg).
Proof.
  unfold fips_sha512. set (H := foldl _ _ _). clearbody H. induction H as [|w H IH]; cbn [map concat]; [constructor|].
  apply Forall_app. split; [|done]. unfold be_bytes. apply Forall_map, Forall_true. intros i. apply Z.mod_pos_bound. lia.
Qed.

(** C7: [sha512_hash] computes SHA-512 (FIPS 180-4) of any byte string, whatever the uninitialised context on the stack
    holds: padding, message schedule, the 80 rounds, the constants (the fractional parts of cube and square roots of
    primes), the chaining over blocks and the big-endian digest are those of the standard, stated independently of the
    code in [fips_sha512]. *)
Theorem sha512_hash_correct g data : length (buffer g) = 128%nat -> Forall is_byte data ->
  sha512_hash g data (length data) = fips_sha512 data.
Proof.
  intros Hg Hb. rewrite sha512_hash_take by done. by apply sha512_fold_fips.
Qed.

Lemma sha512_hash_correct_witness :
  sha512_hash (mk_sha [] 5 7 (replicate 128 9)) [97; 98; 99] 3 = fips_sha512 [97; 98; 99].
Proof.
  apply (sha512_hash_correct (mk_sha [] 5 7 (replicate 128 9)) [97; 98; 99]); [reflexivity|].
  repeat constructor; discriminate.
Defined.

Lemma updates_represent chunks : forall ctx msg, represents ctx msg ->
  represents (foldl (fun c d => sha512_update c d (length d)) ctx chunks) (msg ++ concat chunks).
Proof.
  induction chunks as [|d chunks IH]; intros ctx msg H; simpl; [by rewrite app_nil_r|].
  rewrite app_assoc. apply IH, update_represents; done.
Qed.

(** Streaming: the digest after any sequence of [sha512_update] calls is the digest of the
    concatenated data, however it was cut. *)
Theorem sha512_streaming g chunks : length (buffer g) = 128%nat ->
  snd (sha512_final (foldl (fun c d => sha512_update c d (length d)) (sha512_init g) chunks)) =
  sha512_hash g (concat chunks) (length (concat chunks)).
Proof.
  intros Hg. rewrite sha512_hash_take by done.
  apply final_spec, (updates_represent chunks _ []), init_represents, Hg.
Qed.

Lemma sha512_streaming_witness :
  snd (sha512_final (foldl (fun c d => sha512_update c d (length d))
    (sha512_init (mk_sha [] 1 2 (replicate 128 3))) [[97]; []; [98; 99]])) =
  sha512_hash (mk_sha [] 1 2 (replicate 128 3)) [97; 98; 99] 3.
Proof. apply (sha512_streaming (mk_sha [] 1 2 (replicate 128 3)) [[97]; []; [98; 99]]). reflexivity. Defined.

(** The compression function, constants and padding are SHA-512's: on the message "abc" the
    code computes the digest of FIPS 180-4, appendix C.1. *)
Theorem sha512_abc :
  sha512_hash (mk_sha [] 0 0 (replicate 128 0)) [97; 98; 99] 3 =
  concat (map word_bytes
    [0xddaf35a193617aba; 0xcc417349ae204131; 0x12e6fa4e89a97ea2; 0x0a9eeee64b55d39a;
     0x2192992a274fc1a8; 0x36ba3c23a3feebbd; 0x454d4423643ce80e; 0x2a9ac94fa54ca49f]).
Proof. vm_compute. reflexivity. Qed.

(** ** HMAC *)
Lemma length_sha512_fold msg : length (sha512_fold msg) = 64%nat.
Proof. reflexivity. Qed.

Lemma length_hmac_pad k n b : (n <= 128)%nat -> length (hmac_pad k n b) = 128%nat.
Proof. intros H. unfold hmac_pad. rewrite length_app, length_map, length_seq, length_replicate. lia. Qed.

(** The 128-byte key block of RFC 2104: the key, hashed when longer than a
    block, followed by zeros. *)
Definition hmac_key_block (key : list Z) : list Z :=
  let k := if (128 <? length key)%nat then sha512_fold key else key in
  k ++ replicate (128 - length k) 0.

Definition xor_with (b : Z) (l : list Z) : list Z := map (fun x => Z.lxor x b) l.

Lemma hmac_pad_xor k b : hmac_pad k (length k) b = xor_with b (k ++ replicate (128 - length k) 0).
Proof.
  unfold hmac_pad, xor_with. rewrite map_app. apply (f_equal2 app).
  - apply list_eq_get; [by rewrite !length_map, length_seq|]. intros i Hi.
    rewrite length_map, length_seq in Hi. rewrite get_map_seq by done.
    symmetry. apply get_lookup. rewrite list_lookup_fmap, lookup_get by done. done.
  - induction (128 - length k)%nat as [|n IH]; simpl; [done|]. by rewrite IH, Z.lxor_0_l.
Qed.

Lemma final_update_init g pad data : length (buffer g) = 128%nat -> length pad = 128%nat ->
  snd (sha512_final (sha512_update (sha512_update (sha512_init g) pad 128) data (length data))) =
  sha512_fold (pad ++ data).
Proof.
  intros Hg Hp. apply final_spec, update_represents; [|done].
  apply (update_represents _ [] pad 128); [by apply init_represents|done].
Qed.

Lemma final_buffer ctx msg : represents ctx msg -> length (buffer (fst (sha512_final ctx))) = 128%nat.
Proof.
  intros H. pose proof H as (_ & Hc0 & _). unfold sha512_final.
  pose proof (count_index (length msg)) as Hidx. rewrite <- Hc0 in Hidx. cbv zeta. rewrite Hidx, pad_len_spec.
  cbn [fst Nat.sub]. rewrite Nat.sub_0_r.
  eapply (update_represents _ _ (bits_field (count0 ctx) (count1 ctx)) 16); [|done].
  eapply update_represents; [done|]. simpl. by rewrite length_replicate.
Qed.

Lemma hmac_fold g key data : length (buffer g) = 128%nat ->
  hmac_sha512 g key (length key) data (length data) =
  sha512_fold (xor_with 0x5c (hmac_key_block key) ++
    sha512_fold (xor_with 0x36 (hmac_key_block key) ++ data)).
Proof.
  intros Hg. unfold hmac_sha512, hmac_key_block. rewrite (sha512_hash_take g key) by done.
  set (k := if (128 <? length key)%nat then sha512_fold key else key).
  replace (if (128 <? length key)%nat then (sha512_fold key, 64%nat) else (key, length key))
    with (k, length k) by (unfold k; by destruct (128 <? length key)%nat).
  assert (length k <= 128)%nat as Hk.
  { unfold k. destruct (Nat.ltb_spec 128 (length key)); [rewrite length_sha512_fold; lia|lia]. }
  cbv beta iota zeta. pose proof (length_hmac_pad k (length k) 0x36 Hk) as L1.
  pose proof (length_hmac_pad k (length k) 0x5c Hk) as L2.
  pose proof (final_update_init g (hmac_pad k (length k) 0x36) data Hg L1) as E1.
  assert (represents (sha512_update (sha512_update (sha512_init g) (hmac_pad k (length k) 0x36) 128)
    data (length data)) (hmac_pad k (length k) 0x36 ++ data)) as Hr.
  { apply update_represents; [|done].
    apply (update_represents _ [] _ 128); [by apply init_represents|done]. }
  pose proof (final_buffer _ _ Hr) as Hb. destruct (sha512_final _) as [ctx' mac]. simpl in E1, Hb. subst mac.
  rewrite <- !hmac_pad_xor.
  pose proof (final_update_init ctx' _ (sha512_fold (hmac_pad k (length k) 0x36 ++ data)) Hb L2) as E2.
  rewrite length_sha512_fold in E2. exact E2.
Qed.

(** HMAC of RFC 2104 over a hash function with blocks of [B] bytes. *)
Definition rfc2104_hmac (hash : list Z -> list Z) (B : nat) (key text : list Z) : list Z :=
  let k := if (B <? length key)%nat then hash key else key in
  let K := k ++ replicate (B - length k) 0 in
  hash (xor_with 0x5c K ++ hash (xor_with 0x36 K ++ text)).

Lemma xor_bytes b l : is_byte b -> Forall is_byte l -> Forall is_byte (xor_with b l).
Proof. intros Hb Hl. unfold xor_with. apply Forall_map. eapply Forall_impl; [exact Hl|]. intros x Hx. by apply lxor_byte. Qed.

(** C23: [hmac_sha512] is HMAC (RFC 2104) over the standard's SHA-512 with its 128-byte blocks, for keys and data of any
    length: long keys are hashed first, and the tag is H((K xor opad) ++ H((K xor ipad) ++ data)). *)
Theorem hmac_sha512_correct g key data : length (buffer g) = 128%nat -> Forall is_byte key -> Forall is_byte data ->
  hmac_sha512 g key (length key) data (length data) = rfc2104_hmac fips_sha512 128 key data.
Proof.
  intros Hg Hk Hd. rewrite hmac_fold by done. unfold rfc2104_hmac, hmac_key_block. rewrite (sha512_fold_fips key) by done.
  set (k := if (128 <? length key)%nat then _ else _). set (K := k ++ _).
  assert (Forall is_byte K) as HK.
  { apply Forall_app. split; [unfold k; destruct (128 <? length key)%nat; [apply fips_bytes|done]|].
    apply Forall_replicate. unfold is_byte. lia. }
  assert (forall b l, is_byte b -> Forall is_byte l -> sha512_fold (xor_with b K ++ l) = fips_sha512 (xor_with b K ++ l)) as E.
  { intros b l Hb Hl. apply sha512_fold_fips, Forall_app. split; [by apply xor_bytes|done]. }
  rewrite (E 0x36) by (done || unfold is_byte; lia). apply E; [unfold is_byte; lia|apply fips_bytes].
Qed.

Lemma hmac_sha512_correct_witness :
  hmac_sha512 (mk_sha [] 0 0 (replicate 128 0)) [1; 2] 2 [3] 1 = rfc2104_hmac fips_sha512 128 [1; 2] [3].
Proof.
  apply (hmac_sha512_correct (mk_sha [] 0 0 (replicate 128 0)) [1; 2] [3]); [reflexivity|repeat constructor; discriminate..].
Defined.

End Sha.
