(* ===== verification/BlockDev.v ===== *)
(** * Block devices

    What the file system needs from the disk driver, as a type class
    ([BlockDev], [BlockDevLaws]), and the RAM disk (src/kernel/memory/ramdisk.c)
    as an implementation that discharges it. *)
From Stdlib Require Import ZArith Lia.
From stdpp Require Import base numbers list.
From S2P Require Import Prelude.
Local Open Scope Z_scope.

Definition SECTOR_SIZE : nat := 512.

(** ** The interface

    [bd_read lba buf d] is [x_read_sectors(lba, 1, buffer)] with [buf] the
    contents of the caller's buffer: success flag, new buffer, device.
    [bd_write lba buf d] is [x_write_sectors(lba, 1, buffer)]. *)
Class BlockDev (D : Type) := {
  bd_read : Z -> list Z -> D -> bool * list Z * D;
  bd_write : Z -> list Z -> D -> bool * D;
}.

(** [bd_ready d]: a working device with [bd_sectors] sectors; [bd_sector d lba]
    is the 512 bytes of sector [lba]. *)
Class BlockDevLaws (D : Type) `{BlockDev D} := {
  bd_ready : D -> Prop;
  bd_sectors : Z;
  bd_sector : D -> Z -> list Z;
  bd_sector_length : forall d lba, bd_ready d -> 0 <= lba < bd_sectors ->
    length (bd_sector d lba) = SECTOR_SIZE;
  bd_read_ok : forall d lba buf, bd_ready d -> 0 <= lba < bd_sectors -> length buf = SECTOR_SIZE ->
    exists d', bd_read lba buf d = (true, bd_sector d lba, d') /\ bd_ready d' /\
      forall l, bd_sector d' l = bd_sector d l;
  bd_write_ok : forall d lba buf, bd_ready d -> 0 <= lba < bd_sectors -> length buf = SECTOR_SIZE ->
    exists d', bd_write lba buf d = (true, d') /\ bd_ready d' /\
      bd_sector d' lba = buf /\
      forall l, 0 <= l < bd_sectors -> l <> lba -> bd_sector d' l = bd_sector d l;
}.

(** ** The RAM disk *)
Module Ramdisk.

Definition RAMDISK_SIZE : Z := 1024 * 512.

(** [ramdisk_data] and [ramdisk_initialized]. *)
Record ramdisk := mk_rd { ramdisk_data : list Z; ramdisk_initialized : bool }.

(** [alloc] is the result of [kmalloc(RAMDISK_SIZE)]: the memory obtained, or NULL. *)
Definition ramdisk_init (alloc : option (list Z)) (rd : ramdisk) : ramdisk :=
  if ramdisk_initialized rd then rd
  else match alloc with
       | None => mk_rd [] (ramdisk_initialized rd)
       | Some mem => mk_rd (map (fun _ => 0) (take (Z.to_nat RAMDISK_SIZE) mem)) true
       end.

Definition ramdisk_is_available (rd : ramdisk) : bool := ramdisk_initialized rd.

(** The bounds test shared by both transfers, with its [uint32_t] arithmetic:
    the byte offset and the size when the transfer is allowed. *)
Definition transfer_range (rd : ramdisk) (lba sector_count : Z) : option (Z * Z) :=
  if negb (ramdisk_initialized rd) || (sector_count =? 0) then None
  else
    let offset := u32 (lba * 512) in
    let size := u32 (sector_count * 512) in
    if u32 (offset + size) >? RAMDISK_SIZE then None else Some (offset, size).

(** [buffer] is not NULL. *)
Definition ramdisk_read_sectors (lba sector_count : Z) (buffer : list Z) (rd : ramdisk)
    : bool * list Z * ramdisk :=
  match transfer_range rd lba sector_count with
  | None => (false, buffer, rd)
  | Some (offset, size) =>
      (true, list_inserts 0 (take (Z.to_nat size) (drop (Z.to_nat offset) (ramdisk_data rd))) buffer, rd)
  end.

Definition ramdisk_write_sectors (lba sector_count : Z) (buffer : list Z) (rd : ramdisk)
    : bool * ramdisk :=
  match transfer_range rd lba sector_count with
  | None => (false, rd)
  | Some (offset, size) =>
      (true, mk_rd (list_inserts (Z.to_nat offset) (take (Z.to_nat size) buffer) (ramdisk_data rd))
                   (ramdisk_initialized rd))
  end.

#[global] Instance ramdisk_dev : BlockDev ramdisk := {
  bd_read lba buf rd := ramdisk_read_sectors lba 1 buf rd;
  bd_write lba buf rd := ramdisk_write_sectors lba 1 buf rd;
}.

(** ** The RAM disk keeps the promise of the interface *)
Definition rd_ready (rd : ramdisk) : Prop :=
  ramdisk_initialized rd = true /\ length (ramdisk_data rd) = Z.to_nat RAMDISK_SIZE.

Definition rd_sector (rd : ramdisk) (lba : Z) : list Z :=
  take 512 (drop (Z.to_nat (512 * lba)) (ramdisk_data rd)).

Lemma transfer_range_ok rd lba : rd_ready rd -> 0 <= lba < 1024 ->
  transfer_range rd lba 1 = Some (512 * lba, 512).
Proof.
  intros [Hi Hl] Hlba. unfold transfer_range. rewrite Hi. cbn [negb orb Z.eqb].
  rewrite (wrap_small 32 (lba * 512)), (wrap_small 32 (1 * 512)), (wrap_small 32) by lia.
  unfold RAMDISK_SIZE. destruct (Z.gtb_spec (lba * 512 + 1 * 512) (1024 * 512)); [lia|].
  f_equal. f_equal. lia.
Qed.

Lemma rd_sector_length rd lba : rd_ready rd -> 0 <= lba < 1024 -> length (rd_sector rd lba) = 512%nat.
Proof.
  intros [_ Hl] H. unfold rd_sector. rewrite length_take, length_drop, Hl. unfold RAMDISK_SIZE. lia.
Qed.

Lemma list_inserts_all {A} (k l : list A) : length k = length l -> list_inserts 0 k l = k.
Proof.
  intros H. apply list_eq. intros i. destruct (decide (i < length k)%nat).
  - rewrite list_lookup_inserts by lia. f_equal. lia.
  - rewrite !lookup_ge_None_2; [done|lia|rewrite length_inserts; lia].
Qed.

Lemma ramdisk_read_ok rd lba buf : rd_ready rd -> 0 <= lba < 1024 -> length buf = 512%nat ->
  ramdisk_read_sectors lba 1 buf rd = (true, rd_sector rd lba, rd).
Proof.
  intros Hr Hl Hb. unfold ramdisk_read_sectors. rewrite transfer_range_ok by done.
  do 2 f_equal. change (Z.to_nat 512) with 512%nat. fold (rd_sector rd lba).
  apply list_inserts_all. by rewrite rd_sector_length.
Qed.

Lemma sector_inserts (data buf : list Z) (o o' : nat) : length buf = 512%nat ->
  (o + 512 <= length data)%nat ->
  (o' + 512 <= o \/ o + 512 <= o')%nat ->
  take 512 (drop o' (list_inserts o buf data)) = take 512 (drop o' data).
Proof.
  intros Hb Hd Ho. apply list_eq. intros i.
  destruct (decide (i < 512)%nat); [|by rewrite !lookup_take_ge by lia].
  rewrite !lookup_take_lt, !lookup_drop by done.
  destruct Ho; [apply list_lookup_inserts_lt|apply list_lookup_inserts_ge]; lia.
Qed.

Lemma sector_inserts_eq (data buf : list Z) (o : nat) : length buf = 512%nat ->
  (o + 512 <= length data)%nat -> take 512 (drop o (list_inserts o buf data)) = buf.
Proof.
  intros Hb Hd. apply list_eq. intros i. destruct (decide (i < 512)%nat).
  - rewrite lookup_take_lt, lookup_drop, list_lookup_inserts by lia. f_equal. lia.
  - rewrite lookup_take_ge, lookup_ge_None_2 by lia. done.
Qed.

Lemma ramdisk_write_ok rd lba buf : rd_ready rd -> 0 <= lba < 1024 -> length buf = 512%nat ->
  exists rd', ramdisk_write_sectors lba 1 buf rd = (true, rd') /\ rd_ready rd' /\
    rd_sector rd' lba = buf /\
    forall l, 0 <= l < 1024 -> l <> lba -> rd_sector rd' l = rd_sector rd l.
Proof.
  intros Hr Hl Hb. unfold ramdisk_write_sectors. rewrite transfer_range_ok by done.
  change (Z.to_nat 512) with 512%nat. rewrite take_ge by lia. pose proof Hr as [Hi Hd].
  unfold RAMDISK_SIZE in Hd. eexists. split; [done|]. split; [|split].
  - split; [done|]. simpl. by rewrite length_inserts.
  - unfold rd_sector. simpl. apply sector_inserts_eq; [done|lia].
  - intros l Hl' Hne. unfold rd_sector. simpl. apply sector_inserts; [done|lia|lia].
Qed.

Lemma ramdisk_bd_read_ok rd lba buf : rd_ready rd -> 0 <= lba < 1024 -> length buf = SECTOR_SIZE ->
  exists rd', bd_read lba buf rd = (true, rd_sector rd lba, rd') /\ rd_ready rd' /\
    forall l, rd_sector rd' l = rd_sector rd l.
Proof. intros Hr Hl Hb. exists rd. split; [by apply ramdisk_read_ok|done]. Qed.

#[global] Instance ramdisk_laws : BlockDevLaws ramdisk := {
  bd_ready := rd_ready;
  bd_sectors := 1024;
  bd_sector := rd_sector;
  bd_sector_length := rd_sector_length;
  bd_read_ok := ramdisk_bd_read_ok;
  bd_write_ok := ramdisk_write_ok;
}.

(** RAM disk read-after-write: writing a sector and reading it back returns what was written,
    and the write changes no other sector; both transfers succeed on every sector of the disk. *)
Theorem ramdisk_read_after_write rd lba buf buf' :
  rd_ready rd -> 0 <= lba < 1024 -> length buf = 512%nat -> length buf' = 512%nat ->
  exists rd', ramdisk_write_sectors lba 1 buf rd = (true, rd') /\
    ramdisk_read_sectors lba 1 buf' rd' = (true, buf, rd') /\
    forall l, 0 <= l < 1024 -> l <> lba ->
      ramdisk_read_sectors l 1 buf' rd' = (true, rd_sector rd l, rd').
Proof.
  intros Hr Hl Hb Hb'. destruct (ramdisk_write_ok rd lba buf Hr Hl Hb) as (rd' & Hw & Hr' & Hs & Ho).
  exists rd'. split; [done|]. split.
  - by rewrite ramdisk_read_ok, Hs.
  - intros l Hl' Hne. by rewrite ramdisk_read_ok, Ho.
Qed.

Definition fresh_ramdisk : ramdisk :=
  ramdisk_init (Some (replicate (Z.to_nat RAMDISK_SIZE) 0xAA)) (mk_rd [] false).

Lemma fresh_ramdisk_ready : rd_ready fresh_ramdisk.
Proof.
  split; [done|]. unfold fresh_ramdisk, ramdisk_init. cbn [ramdisk_initialized ramdisk_data].
  by rewrite length_map, length_take, length_replicate, Nat.min_id.
Qed.

Lemma ramdisk_read_after_write_witness :
  exists rd', ramdisk_write_sectors 7 1 (replicate 512 3) fresh_ramdisk = (true, rd') /\
    ramdisk_read_sectors 7 1 (replicate 512 0) rd' = (true, replicate 512 3, rd') /\
    forall l, 0 <= l < 1024 -> l <> 7 ->
      ramdisk_read_sectors l 1 (replicate 512 0) rd' = (true, rd_sector fresh_ramdisk l, rd').
Proof.
  apply (ramdisk_read_after_write fresh_ramdisk 7 (replicate 512 3) (replicate 512 0)).
  - exact fresh_ramdisk_ready.
  - lia.
  - reflexivity.
  - reflexivity.
Defined.

(** The RAM disk's [uint32_t] bounds test is unsound for large sector numbers: [lba * 512] wraps, so
    sector 2^23 aliases sector 0 instead of being refused. *)
Theorem ramdisk_bounds_wrap rd buf :
  ramdisk_write_sectors (2 ^ 23) 1 buf rd = ramdisk_write_sectors 0 1 buf rd.
Proof. reflexivity. Qed.

End Ramdisk.
