(* ===== verification/Ata.v ===== *)
(** * The ATA disk driver (src/kernel/VFS/ata.c)

    The driver talks to the drive through I/O ports, a parameter ([PortIO]): a
    16-bit word is the pair of its low and high byte. What the driver relies on
    is the PIO protocol of the ATA standard, stated as the class [AtaDrive]; the
    driver then keeps the promise of the block-device interface the file system
    is verified against. Delay loops are not modelled. *)
From Stdlib Require Import ZArith Lia.
From stdpp Require Import base numbers list.
From S2P Require Import Prelude BlockDev.

Local Open Scope Z_scope.

Module Ata.

Class PortIO (D : Type) := {
  inb : Z -> D -> Z * D;
  outb : Z -> Z -> D -> D;
  inw : Z -> D -> (Z * Z) * D;
  outw : Z -> Z * Z -> D -> D }.

Definition ATA_PRIMARY_DATA : Z := 0x1F0.
Definition ATA_PRIMARY_ERROR : Z := 0x1F1.
Definition ATA_PRIMARY_SECCOUNT : Z := 0x1F2.
Definition ATA_PRIMARY_LBA_LO : Z := 0x1F3.
Definition ATA_PRIMARY_LBA_MID : Z := 0x1F4.
Definition ATA_PRIMARY_LBA_HI : Z := 0x1F5.
Definition ATA_PRIMARY_DRIVE : Z := 0x1F6.
Definition ATA_PRIMARY_COMMAND : Z := 0x1F7.
Definition ATA_PRIMARY_STATUS : Z := 0x1F7.
Definition ATA_PRIMARY_CONTROL : Z := 0x3F6.
Definition ATA_CMD_READ_SECTORS : Z := 0x20.
Definition ATA_CMD_WRITE_SECTORS : Z := 0x30.
Definition ATA_CMD_IDENTIFY : Z := 0xEC.
Definition ATA_CMD_FLUSH_CACHE : Z := 0xE7.
Definition ATA_TIMEOUT : positive := 5000000.

(** Status bits. *)
Definition err (status : Z) : bool := c_true (Z.land status 0x01).
Definition drq (status : Z) : bool := c_true (Z.land status 0x08).
Definition rdy (status : Z) : bool := c_true (Z.land status 0x40).
Definition bsy (status : Z) : bool := c_true (Z.land status 0x80).

(** [while (timeout > 0) { ...; timeout--; }] with [timeout] rounds: [inl] leaves the loop, [inr] is the next round. *)
Fixpoint rounds {S R} (timeout : positive) (body : S -> R + S) (s : S) : R + S :=
  match timeout with
  | xH => body s
  | xO p => match rounds p body s with inl r => inl r | inr s => rounds p body s end
  | xI p => match body s with
            | inl r => inl r
            | inr s => match rounds p body s with inl r => inl r | inr s => rounds p body s end
            end
  end.

Section Driver.
Context {D : Type} `{PortIO D}.

(** [true] is the code's 0, [false] its -1. *)
Definition ata_wait_ready (d : D) : bool * D :=
  match rounds ATA_TIMEOUT (fun d =>
          let '(status, d) := inb ATA_PRIMARY_STATUS d in
          if negb (bsy status) && rdy status then inl (true, d)
          else if err status then inl (false, d) else inr d) d with
  | inl r => r
  | inr d => (false, d)
  end.

Definition ata_wait_drq (d : D) : bool * D :=
  match rounds ATA_TIMEOUT (fun d =>
          let '(status, d) := inb ATA_PRIMARY_STATUS d in if negb (bsy status) then inl d else inr d) d with
  | inr d => (false, d)
  | inl d =>
      match rounds ATA_TIMEOUT (fun d =>
              let '(status, d) := inb ATA_PRIMARY_STATUS d in
              if drq status then inl (true, d) else if err status then inl (false, d) else inr d) d with
      | inl r => r
      | inr d => (false, d)
      end
  end.

Definition ata_soft_reset (d : D) : D := outb ATA_PRIMARY_CONTROL 0x00 (outb ATA_PRIMARY_CONTROL 0x04 d).

(** [for (j = 0; j < n; j++) buf16[j] = inw(ATA_PRIMARY_DATA);] *)
Fixpoint read_words (n : nat) (d : D) : list Z * D :=
  match n with
  | O => ([], d)
  | S n => let '((lo, hi), d) := inw ATA_PRIMARY_DATA d in let '(l, d) := read_words n d in (lo :: hi :: l, d)
  end.

Fixpoint write_words (n : nat) (buf : list Z) (d : D) : D :=
  match n, buf with
  | S n, lo :: hi :: buf => write_words n buf (outw ATA_PRIMARY_DATA (lo, hi) d)
  | _, _ => d
  end.

Definition ata_init (d : D) : D :=
  let d := ata_soft_reset d in
  let '(status, d) := inb ATA_PRIMARY_STATUS d in
  if status =? 0xFF then d else
  let d := outb ATA_PRIMARY_COMMAND ATA_CMD_WRITE_SECTORS d in
  let '(ok, d) := ata_wait_ready d in
  if negb ok then d else
  let d := outb ATA_PRIMARY_COMMAND 0xEC d in
  let '(status, d) := inb ATA_PRIMARY_STATUS d in
  if status =? 0 then d else
  let '(ok, d) := ata_wait_drq d in
  if ok then snd (read_words 256 d) else d.

(** The task-file registers of a transfer. *)
Definition select (lba : Z) (d : D) : D := outb ATA_PRIMARY_DRIVE (Z.lor 0xE0 (Z.land (Z.shiftr lba 24) 0x0F)) d.
Definition task_file (lba sector_count : Z) (d : D) : D :=
  outb ATA_PRIMARY_LBA_HI (u8 (Z.shiftr lba 16))
    (outb ATA_PRIMARY_LBA_MID (u8 (Z.shiftr lba 8))
      (outb ATA_PRIMARY_LBA_LO (u8 lba)
        (outb ATA_PRIMARY_SECCOUNT sector_count d))).

(** Sectors [i], ..., [i + n - 1] of a read. *)
Fixpoint read_sectors (n i : nat) (buffer : list Z) (d : D) : bool * list Z * D :=
  match n with
  | O => (true, buffer, d)
  | S n =>
      let '(ok, d) := ata_wait_drq d in
      if negb ok then (false, buffer, d) else
      let '(status, d) := inb ATA_PRIMARY_STATUS d in
      if err status then (false, buffer, d) else
      let '(sector, d) := read_words 256 d in
      read_sectors n (S i) (list_inserts (i * SECTOR_SIZE) sector buffer) d
  end.

(** [buffer] is not NULL. *)
Definition ata_read_sectors (lba sector_count : Z) (buffer : list Z) (d : D) : bool * list Z * D :=
  if sector_count =? 0 then (false, buffer, d) else
  let '(ok, d) := ata_wait_ready d in
  if negb ok then (false, buffer, d) else
  let d := task_file lba sector_count (select lba d) in
  let d := outb ATA_PRIMARY_COMMAND ATA_CMD_READ_SECTORS d in
  read_sectors (Z.to_nat sector_count) 0 buffer d.

Fixpoint write_sectors (n i : nat) (buffer : list Z) (d : D) : bool * D :=
  match n with
  | O => (true, d)
  | S n =>
      let '(ok, d) := ata_wait_drq d in
      if negb ok then (false, d) else
      let '(status, d) := inb ATA_PRIMARY_STATUS d in
      if err status then let '(_, d) := inb ATA_PRIMARY_ERROR d in (false, d) else
      write_sectors n (S i) buffer (write_words 256 (drop (i * SECTOR_SIZE) buffer) d)
  end.

Definition ata_write_sectors (lba sector_count : Z) (buffer : list Z) (d : D) : bool * D :=
  if sector_count =? 0 then (false, d) else
  let '(ok, d) := ata_wait_ready d in
  if negb ok then (false, d) else
  let d := select lba d in
  let '(ok, d) := ata_wait_ready d in
  if negb ok then (false, d) else
  let d := task_file lba sector_count d in
  let d := outb ATA_PRIMARY_COMMAND ATA_CMD_WRITE_SECTORS d in
  let '(ok, d) := write_sectors (Z.to_nat sector_count) 0 buffer d in
  if negb ok then (false, d) else
  let d := outb ATA_PRIMARY_COMMAND 0xE7 d in
  ata_wait_ready d.

#[global] Instance ata_dev : BlockDev D := {
  bd_read lba buf d := ata_read_sectors lba 1 buf d;
  bd_write lba buf d := ata_write_sectors lba 1 buf d }.
End Driver.
End Ata.

(** * The ATA driver is a block device

    [AtaDrive] is the PIO protocol of the ATA standard seen from the ports: the
    task-file registers, a status register that shows BSY for a while after
    every command and then the drive's phase, and the data register through
    which the sectors pass. For every drive that keeps it (and is busy for less
    than the driver's timeout) the driver discharges [BlockDevLaws], so the file
    system's theorems hold on it. *)
Local Open Scope Z_scope.

Module AtaProps.
Import Ata.

(** ** The protocol *)
Record regs := mk_regs { g_drive : Z; g_count : Z; g_lo : Z; g_mid : Z; g_hi : Z }.

Definition reg_set (port v : Z) (r : regs) : option regs :=
  if port =? 0x1F2 then Some (mk_regs (g_drive r) v (g_lo r) (g_mid r) (g_hi r))
  else if port =? 0x1F3 then Some (mk_regs (g_drive r) (g_count r) v (g_mid r) (g_hi r))
  else if port =? 0x1F4 then Some (mk_regs (g_drive r) (g_count r) (g_lo r) v (g_hi r))
  else if port =? 0x1F5 then Some (mk_regs (g_drive r) (g_count r) (g_lo r) (g_mid r) v)
  else if port =? 0x1F6 then Some (mk_regs v (g_count r) (g_lo r) (g_mid r) (g_hi r))
  else None.

Definition lba_of (r : regs) : Z := g_lo r + 2 ^ 8 * g_mid r + 2 ^ 16 * g_hi r + 2 ^ 24 * Z.land (g_drive r) 0x0F.
(** A count of 0 asks for 256 sectors. *)
Definition count_of (r : regs) : Z := if g_count r =? 0 then 256 else g_count r.

(** Idle, sending sector [lba] of which [todo] is left, or receiving sector [lba] of which [got] has come; [more] sectors
    follow. *)
Inductive phase := PIdle | PRead (lba : Z) (more : nat) (todo : list Z) | PWrite (lba : Z) (more : nat) (got : list Z).

Class AtaDrive (D : Type) `{PortIO D} := {
  drive_sectors : Z;
  drive_sectors_max : drive_sectors <= 2 ^ 28;
  disk_of : D -> Z -> list Z;
  (** [drive d k p r]: the drive is in phase [p] with registers [r] and shows BSY for the next [k] looks at its status. *)
  drive : D -> nat -> phase -> regs -> Prop;
  drive_busy : forall d k p r, drive d k p r -> Z.of_nat k < Z.pos ATA_TIMEOUT;
  drive_length : forall d k p r lba, drive d k p r -> 0 <= lba < drive_sectors -> length (disk_of d lba) = SECTOR_SIZE;
  status_busy : forall d k p r, drive d (S k) p r ->
    let '(v, d') := inb ATA_PRIMARY_STATUS d in bsy v = true /\ err v = false /\ drive d' k p r /\ disk_of d' = disk_of d;
  status_idle : forall d r, drive d 0 PIdle r ->
    let '(v, d') := inb ATA_PRIMARY_STATUS d in
    bsy v = false /\ rdy v = true /\ err v = false /\ drive d' 0 PIdle r /\ disk_of d' = disk_of d;
  status_data : forall d p r, drive d 0 p r -> p <> PIdle ->
    let '(v, d') := inb ATA_PRIMARY_STATUS d in
    bsy v = false /\ drq v = true /\ err v = false /\ drive d' 0 p r /\ disk_of d' = disk_of d;
  write_reg : forall d r port v r', drive d 0 PIdle r -> reg_set port v r = Some r' ->
    drive (outb port v d) 0 PIdle r' /\ disk_of (outb port v d) = disk_of d;
  cmd_read : forall d r, drive d 0 PIdle r -> 0 <= lba_of r -> lba_of r + count_of r <= drive_sectors ->
    let d' := outb ATA_PRIMARY_COMMAND ATA_CMD_READ_SECTORS d in
    exists k, drive d' k (PRead (lba_of r) (Z.to_nat (count_of r - 1)) (disk_of d (lba_of r))) r /\ disk_of d' = disk_of d;
  cmd_write : forall d r, drive d 0 PIdle r -> 0 <= lba_of r -> lba_of r + count_of r <= drive_sectors ->
    let d' := outb ATA_PRIMARY_COMMAND ATA_CMD_WRITE_SECTORS d in
    exists k, drive d' k (PWrite (lba_of r) (Z.to_nat (count_of r - 1)) []) r /\ disk_of d' = disk_of d;
  cmd_flush : forall d r, drive d 0 PIdle r ->
    let d' := outb ATA_PRIMARY_COMMAND ATA_CMD_FLUSH_CACHE d in exists k', drive d' k' PIdle r /\ disk_of d' = disk_of d;
  (** The driver may send FLUSH CACHE while the drive still shows BSY; a busy drive ignores commands. *)
  cmd_busy : forall d k r c, drive d (S k) PIdle r ->
    let d' := outb ATA_PRIMARY_COMMAND c d in drive d' (S k) PIdle r /\ disk_of d' = disk_of d;
  data_in : forall d r lba more b0 b1 todo, drive d 0 (PRead lba more (b0 :: b1 :: todo)) r ->
    let '(w, d') := inw ATA_PRIMARY_DATA d in
    w = (b0, b1) /\ disk_of d' = disk_of d /\
    match todo, more with
    | [], O => exists k, drive d' k PIdle r
    | [], S more => exists k, drive d' k (PRead (lba + 1) more (disk_of d (lba + 1))) r
    | _, _ => drive d' 0 (PRead lba more todo) r
    end;
  data_out : forall d r lba more got b0 b1, drive d 0 (PWrite lba more got) r -> (length got + 2 <= SECTOR_SIZE)%nat ->
    let d' := outw ATA_PRIMARY_DATA (b0, b1) d in
    if decide (length got + 2 = SECTOR_SIZE)%nat then
      disk_of d' lba = got ++ [b0; b1] /\ (forall l, l <> lba -> disk_of d' l = disk_of d l) /\
      match more with
      | O => exists k, drive d' k PIdle r
      | S more => exists k, drive d' k (PWrite (lba + 1) more []) r
      end
    else drive d' 0 (PWrite lba more (got ++ [b0; b1])) r /\ disk_of d' = disk_of d }.

(** ** Loops with a timeout *)
Section Rounds.
Context {S R : Type} (body : S -> R + S).

Fixpoint nrounds (n : nat) (s : S) : R + S :=
  match n with
  | O => inr s
  | Datatypes.S n => match body s with inl r => inl r | inr s => nrounds n s end
  end.

Lemma nrounds_add n m s : nrounds (n + m) s = match nrounds n s with inl r => inl r | inr s => nrounds m s end.
Proof. revert s. induction n as [|n IH]; intros s; cbn; [done|]. destruct (body s); [done|apply IH]. Qed.

Lemma rounds_nat p : forall s, rounds p body s = nrounds (Pos.to_nat p) s.
Proof.
  induction p as [p IH|p IH|]; intros s; cbn [rounds].
  - rewrite Pos2Nat.inj_xI. replace (Datatypes.S (2 * Pos.to_nat p)) with (1 + (Pos.to_nat p + Pos.to_nat p))%nat by lia.
    rewrite nrounds_add. cbn [nrounds]. destruct (body s) as [r|s']; [done|]. rewrite nrounds_add, IH. destruct (nrounds _ s'); [done|apply IH].
  - rewrite Pos2Nat.inj_xO. replace (2 * Pos.to_nat p)%nat with (Pos.to_nat p + Pos.to_nat p)%nat by lia.
    rewrite nrounds_add, IH. destruct (nrounds _ s); [done|apply IH].
  - change (Pos.to_nat 1) with 1%nat. cbn. by destruct (body s).
Qed.

(** The loop is left in round [k] if the [k] rounds before went on. *)
Lemma rounds_exit (p : positive) (P : nat -> S -> Prop) (Q : R -> Prop) :
  (forall k s, P (Datatypes.S k) s -> exists s', body s = inr s' /\ P k s') ->
  (forall s, P O s -> exists r, body s = inl r /\ Q r) ->
  forall k s, P k s -> Z.of_nat k < Z.pos p -> exists r, rounds p body s = inl r /\ Q r.
Proof.
  intros HS HO k s Hk Hlt. rewrite rounds_nat. assert (k < Pos.to_nat p)%nat as Hn by lia. revert Hn. generalize (Pos.to_nat p) as n.
  revert s Hk. clear Hlt p. induction k as [|k IH]; intros s Hk [|n] Hn; [lia| |lia|]; cbn [nrounds].
  - destruct (HO s Hk) as (r & -> & Hq). eauto.
  - destruct (HS k s Hk) as (s' & -> & Hk'). apply IH; [done|lia].
Qed.
End Rounds.

Section Proofs.
Context {D : Type} `{AtaDrive D}.

Lemma wait_ready_spec d k r : drive d k PIdle r ->
  exists d', ata_wait_ready d = (true, d') /\ drive d' 0 PIdle r /\ disk_of d' = disk_of d.
Proof.
  intros Hd. unfold ata_wait_ready.
  destruct (rounds_exit (fun d => let '(status, d) := inb ATA_PRIMARY_STATUS d in
          if negb (bsy status) && rdy status then inl (true, d) else if err status then inl (false, d) else inr d) ATA_TIMEOUT
    (fun k d' => drive d' k PIdle r /\ disk_of d' = disk_of d)
    (fun x => fst x = true /\ drive (snd x) 0 PIdle r /\ disk_of (snd x) = disk_of d)) with (k := k) (s := d) as ([b d'] & -> & Hb & Hd' & He).
  - intros j s [Hs He]. pose proof (status_busy _ _ _ _ Hs) as Hst. destruct (inb ATA_PRIMARY_STATUS s) as [v s'].
    destruct Hst as (-> & -> & ? & Heq). exists s'. cbn. split_and!; [done|done|congruence].
  - intros s [Hs He]. pose proof (status_idle _ _ Hs) as Hst. destruct (inb ATA_PRIMARY_STATUS s) as [v s'].
    destruct Hst as (-> & -> & _ & ? & Heq). exists (true, s'). cbn. split_and!; [done|done|done|congruence].
  - done.
  - by eapply drive_busy.
  - cbn in *. subst b. by exists d'.
Qed.

Lemma wait_drq_spec d k p r : drive d k p r -> p <> PIdle ->
  exists d', ata_wait_drq d = (true, d') /\ drive d' 0 p r /\ disk_of d' = disk_of d.
Proof.
  intros Hd Hp. unfold ata_wait_drq.
  destruct (rounds_exit (R := D) (fun d => let '(status, d) := inb ATA_PRIMARY_STATUS d in if negb (bsy status) then inl d else inr d) ATA_TIMEOUT
    (fun k d' => drive d' k p r /\ disk_of d' = disk_of d) (fun d' => drive d' 0 p r /\ disk_of d' = disk_of d)) with (k := k) (s := d)
    as (d1 & -> & Hd1 & He1).
  - intros j s [Hs He]. pose proof (status_busy _ _ _ _ Hs) as Hst. destruct (inb ATA_PRIMARY_STATUS s) as [v s'].
    destruct Hst as (-> & _ & ? & Heq). exists s'. split_and!; [done|done|congruence].
  - intros s [Hs He]. pose proof (status_data _ _ _ Hs Hp) as Hst. destruct (inb ATA_PRIMARY_STATUS s) as [v s'].
    destruct Hst as (-> & _ & _ & ? & Heq). exists s'. split_and!; [done|done|congruence].
  - done.
  - by eapply drive_busy.
  - destruct (rounds_exit (fun d => let '(status, d) := inb ATA_PRIMARY_STATUS d in
              if drq status then inl (true, d) else if err status then inl (false, d) else inr d) ATA_TIMEOUT
      (fun k d' => k = O /\ drive d' 0 p r /\ disk_of d' = disk_of d)
      (fun x => fst x = true /\ drive (snd x) 0 p r /\ disk_of (snd x) = disk_of d)) with (k := O) (s := d1) as ([b d'] & -> & Hb & Hd' & He);
      [by intros j s [? _]| |done|done|cbn in *; subst b; by exists d'].
    intros s (_ & Hs & He). pose proof (status_data _ _ _ Hs Hp) as Hst. destruct (inb ATA_PRIMARY_STATUS s) as [v s'].
    destruct Hst as (_ & -> & _ & ? & Heq). exists (true, s'). cbn. split_and!; [done|done|done|congruence].
Qed.

(** ** Transfers *)
Lemma read_words_spec n : forall d r lba more todo, drive d 0 (PRead lba more todo) r -> length todo = (2 * S n)%nat ->
  exists d', read_words (S n) d = (todo, d') /\ disk_of d' = disk_of d /\
    match more with
    | O => exists k, drive d' k PIdle r
    | S more => exists k, drive d' k (PRead (lba + 1) more (disk_of d (lba + 1))) r
    end.
Proof.
  induction n as [|n IH]; intros d r lba more todo Hd Hl; (destruct todo as [|b0 [|b1 todo]]; [done|done|]);
    pose proof (data_in _ _ _ _ _ _ _ Hd) as Hin; cbn [length] in Hl.
  - destruct todo; [|cbn in Hl; lia]. cbn [read_words]. destruct (inw ATA_PRIMARY_DATA d) as [w d']. destruct Hin as (-> & Hdisk & Hm).
    exists d'. split_and!; [done|done|]. by destruct more.
  - destruct todo as [|c todo]; [cbn in Hl; lia|].
    change (read_words (S (S n)) d) with (let '((lo, hi), d) := inw ATA_PRIMARY_DATA d in let '(l, d) := read_words (S n) d in (lo :: hi :: l, d)).
    destruct (inw ATA_PRIMARY_DATA d) as [w d1]. destruct Hin as (-> & Hdisk & Hm).
    assert (drive d1 0 (PRead lba more (c :: todo)) r) as Hd1 by by destruct more.
    destruct (IH d1 r lba more (c :: todo) Hd1) as (d' & -> & Hdisk' & Hm'); [cbn [length] in *; lia|].
    exists d'. split_and!; [done|congruence|]. by rewrite Hdisk in Hm'.
Qed.

(** The [n] sectors from [lba] on. *)
Definition sectors_from (disk : Z -> list Z) (lba : Z) (n : nat) : list Z := concat (map (fun i => disk (lba + Z.of_nat i)) (seq 0 n)).

Lemma sectors_from_S disk lba n : sectors_from disk lba (S n) = disk lba ++ sectors_from disk (lba + 1) n.
Proof.
  unfold sectors_from. cbn [seq map concat]. f_equal; [f_equal; lia|]. rewrite <- seq_shift, map_map. f_equal. apply map_ext.
  intros i. f_equal. lia.
Qed.

Lemma length_sectors_from disk lba n : (forall l, lba <= l < lba + Z.of_nat n -> length (disk l) = SECTOR_SIZE) ->
  length (sectors_from disk lba n) = (n * SECTOR_SIZE)%nat.
Proof.
  revert lba. induction n as [|n IH]; intros lba Hl; [done|]. rewrite sectors_from_S, length_app, Hl, IH; [by rewrite Nat.mul_succ_l, Nat.add_comm|intros l Hb; apply Hl; lia|lia].
Qed.

Lemma read_sectors_spec n : forall i d k r lba buffer, drive d k (PRead lba n (disk_of d lba)) r ->
  0 <= lba -> lba + Z.of_nat (S n) <= drive_sectors ->
  exists d' k', read_sectors (S n) i buffer d = (true, list_inserts (i * SECTOR_SIZE) (sectors_from (disk_of d) lba (S n)) buffer, d') /\
    drive d' k' PIdle r /\ disk_of d' = disk_of d.
Proof.
  induction n as [|n IH]; intros i d k r lba buffer Hd Hlo Hb;
    (destruct (wait_drq_spec _ _ _ _ Hd) as (d1 & E1 & Hd1 & Q1); [done|]);
    pose proof (status_data _ _ _ Hd1 ltac:(done)) as Hst;
    assert (length (disk_of d lba) = (2 * 256)%nat) as Hlen by (eapply drive_length; [exact Hd|lia]).
  - cbn [read_sectors]. rewrite E1. cbn [negb]. destruct (inb ATA_PRIMARY_STATUS d1) as [v d2]. destruct Hst as (_ & _ & -> & Hd2 & Q2).
    destruct (read_words_spec 255 d2 r lba O (disk_of d lba) Hd2) as (d3 & E3 & Q3 & k3 & Hd3); [done|].
    rewrite E3. exists d3, k3. split_and!; [|done|congruence]. do 2 f_equal. by rewrite sectors_from_S, app_nil_r.
  - change (read_sectors (S (S n)) i buffer d) with (
      let '(ok, d) := ata_wait_drq d in
      if negb ok then (false, buffer, d) else
      let '(status, d) := inb ATA_PRIMARY_STATUS d in
      if err status then (false, buffer, d) else
      let '(sector, d) := read_words 256 d in
      read_sectors (S n) (S i) (list_inserts (i * SECTOR_SIZE) sector buffer) d).
    rewrite E1. cbn [negb]. destruct (inb ATA_PRIMARY_STATUS d1) as [v d2]. destruct Hst as (_ & _ & -> & Hd2 & Q2).
    destruct (read_words_spec 255 d2 r lba (S n) (disk_of d lba) Hd2) as (d3 & E3 & Q3 & k3 & Hd3); [done|]. rewrite E3.
    rewrite <- Q3 in Hd3. destruct (IH (S i) d3 k3 r (lba + 1) (list_inserts (i * SECTOR_SIZE) (disk_of d lba) buffer) Hd3) as (d4 & k4 & E4 & Hd4 & Q4);
      [lia|lia|]. assert (disk_of d3 = disk_of d) as Q by congruence. rewrite Q in E4.
    exists d4, k4. rewrite E4. split_and!; [|done|congruence]. do 2 f_equal.
    rewrite (sectors_from_S _ lba (S n)), list_inserts_app_l. f_equal. rewrite Hlen. unfold SECTOR_SIZE. lia.
Qed.

(** ** The task file *)
Lemma lba_bytes lba : 0 <= lba < 2 ^ 28 ->
  lba = u8 lba + 2 ^ 8 * u8 (Z.shiftr lba 8) + 2 ^ 16 * u8 (Z.shiftr lba 16) +
        2 ^ 24 * Z.land (Z.lor 0xE0 (Z.land (Z.shiftr lba 24) 0x0F)) 0x0F.
Proof.
  intros Hl. assert (Z.land (Z.lor 0xE0 (Z.land (Z.shiftr lba 24) 0x0F)) 0x0F = Z.shiftr lba 24) as ->.
  { rewrite Z.land_lor_distr_l. change (Z.land 0xE0 0x0F) with 0. rewrite Z.lor_0_l, <- Z.land_assoc. change (Z.land 15 15) with (Z.ones 4).
    rewrite Z.land_ones by lia. rewrite Z.shiftr_div_pow2 by lia. apply Z.mod_small. split; [apply Z.div_pos; lia|].
    apply Z.div_lt_upper_bound; lia. }
  unfold wrap. rewrite !Z.shiftr_div_pow2 by lia. change (2 ^ 8) with 256. change (2 ^ 16) with 65536. change (2 ^ 24) with 16777216.
  pose proof (Z.div_mod lba 256). pose proof (Z.div_mod (lba / 256) 256). pose proof (Z.div_mod (lba / 65536) 256).
  assert (lba / 256 / 256 = lba / 65536) by (rewrite Z.div_div by lia; done).
  assert (lba / 65536 / 256 = lba / 16777216) by (rewrite Z.div_div by lia; done). lia.
Qed.

(** The registers that ask for [count] sectors from [lba]. *)
Definition regs_for (lba count : Z) : regs :=
  mk_regs (Z.lor 0xE0 (Z.land (Z.shiftr lba 24) 0x0F)) count (u8 lba) (u8 (Z.shiftr lba 8)) (u8 (Z.shiftr lba 16)).

Lemma regs_for_spec lba count : 0 <= lba < 2 ^ 28 -> 0 < count < 256 ->
  lba_of (regs_for lba count) = lba /\ count_of (regs_for lba count) = count.
Proof.
  intros Hl Hc. split; [symmetry; by apply lba_bytes|]. unfold count_of, regs_for. cbn [g_count]. by rewrite (proj2 (Z.eqb_neq _ _)) by lia.
Qed.

Lemma select_spec d r lba : drive d 0 PIdle r ->
  drive (select lba d) 0 PIdle (mk_regs (g_drive (regs_for lba 0)) (g_count r) (g_lo r) (g_mid r) (g_hi r)) /\ disk_of (select lba d) = disk_of d.
Proof. intros Hd. by apply (write_reg _ _ ATA_PRIMARY_DRIVE _ _ Hd). Qed.

Lemma task_file_spec d r lba count : drive d 0 PIdle r -> g_drive r = g_drive (regs_for lba 0) ->
  drive (task_file lba count d) 0 PIdle (regs_for lba count) /\ disk_of (task_file lba count d) = disk_of d.
Proof.
  intros Hd Hg. unfold task_file.
  destruct (write_reg _ _ ATA_PRIMARY_SECCOUNT count _ Hd eq_refl) as [D1 Q1].
  destruct (write_reg _ _ ATA_PRIMARY_LBA_LO (u8 lba) _ D1 eq_refl) as [D2 Q2].
  destruct (write_reg _ _ ATA_PRIMARY_LBA_MID (u8 (Z.shiftr lba 8)) _ D2 eq_refl) as [D3 Q3].
  destruct (write_reg _ _ ATA_PRIMARY_LBA_HI (u8 (Z.shiftr lba 16)) _ D3 eq_refl) as [D4 Q4].
  cbn [g_drive g_count g_lo g_mid g_hi] in D4. rewrite Hg in D4. split; [exact D4|congruence].
Qed.

Lemma ata_read_spec d k r lba count buffer : drive d k PIdle r -> 0 <= lba -> 0 < count < 256 -> lba + count <= drive_sectors ->
  exists d' k' r', ata_read_sectors lba count buffer d = (true, list_inserts 0 (sectors_from (disk_of d) lba (Z.to_nat count)) buffer, d') /\
    drive d' k' PIdle r' /\ disk_of d' = disk_of d.
Proof.
  intros Hd Hlo Hc Hb. pose proof drive_sectors_max as Hmax. unfold ata_read_sectors. rewrite (proj2 (Z.eqb_neq _ _)) by lia.
  destruct (wait_ready_spec _ _ _ Hd) as (d1 & -> & Hd1 & Q1). cbn [negb].
  destruct (select_spec _ _ lba Hd1) as [Hd2 Q2]. destruct (task_file_spec _ _ lba count Hd2 eq_refl) as [Hd3 Q3].
  destruct (regs_for_spec lba count) as [Hl3 Hc3]; [lia|lia|].
  destruct (cmd_read _ _ Hd3) as (k4 & Hd4 & Q4); [lia|lia|]. rewrite Hl3, Hc3, <- Q4 in Hd4.
  assert (Z.to_nat count = S (Z.to_nat (count - 1))) as Hcn by lia.
  destruct (read_sectors_spec _ 0 _ _ _ _ buffer Hd4) as (d5 & k5 & E5 & Hd5 & Q5); [lia|lia|].
  assert (disk_of (outb ATA_PRIMARY_COMMAND ATA_CMD_READ_SECTORS (task_file lba count (select lba d1))) = disk_of d) as Q by congruence.
  rewrite Q in E5. rewrite Hcn. exists d5, k5, (regs_for lba count). split_and!; [exact E5|done|congruence].
Qed.

Lemma write_words_spec n : forall d r lba more got buf, drive d 0 (PWrite lba more got) r ->
  (length got + 2 * S n = SECTOR_SIZE)%nat -> (2 * S n <= length buf)%nat ->
  let d' := write_words (S n) buf d in
  disk_of d' lba = got ++ take (2 * S n) buf /\ (forall l, l <> lba -> disk_of d' l = disk_of d l) /\
  match more with
  | O => exists k, drive d' k PIdle r
  | S more => exists k, drive d' k (PWrite (lba + 1) more []) r
  end.
Proof.
  induction n as [|n IH]; intros d r lba more got buf Hd Hg Hb; (destruct buf as [|b0 [|b1 buf]]; [cbn in Hb; lia|cbn in Hb; lia|]);
    (pose proof (data_out _ _ _ _ _ b0 b1 Hd) as Ho); specialize (Ho ltac:(lia)); cbv zeta in Ho.
  - rewrite decide_True in Ho by lia. cbn [write_words]. destruct buf as [|? [|? ?]]; cbn; exact Ho.
  - rewrite decide_False in Ho by lia. destruct Ho as [Hd1 Q1].
    destruct (IH _ _ _ _ (got ++ [b0; b1]) buf Hd1) as (W1 & W2 & W3); [rewrite length_app; cbn; lia|cbn [length] in Hb; lia|].
    change (write_words (S (S n)) (b0 :: b1 :: buf) d) with (write_words (S n) buf (outw ATA_PRIMARY_DATA (b0, b1) d)).
    split_and!; [|intros l Hl; rewrite (W2 l Hl); congruence|done].
    rewrite W1, <- app_assoc. f_equal. replace (2 * S (S n))%nat with (S (S (2 * S n))) by lia. done.
Qed.

Lemma write_sectors_spec n : forall i d k r lba buffer, drive d k (PWrite lba n []) r -> ((i + S n) * 512 <= length buffer)%nat ->
  exists d' k', write_sectors (S n) i buffer d = (true, d') /\ drive d' k' PIdle r /\
    (forall j, (j <= n)%nat -> disk_of d' (lba + Z.of_nat j) = take 512 (drop ((i + j) * 512) buffer)) /\
    (forall l, l < lba \/ lba + Z.of_nat (S n) <= l -> disk_of d' l = disk_of d l).
Proof.
  induction n as [|n IH]; intros i d k r lba buffer Hd Hb;
    (destruct (wait_drq_spec _ _ _ _ Hd) as (d1 & E1 & Hd1 & Q1); [done|]);
    pose proof (status_data _ _ _ Hd1 ltac:(done)) as Hst.
  - cbn [write_sectors]. rewrite E1. cbn [negb]. destruct (inb ATA_PRIMARY_STATUS d1) as [v d2]. destruct Hst as (_ & _ & -> & Hd2 & Q2).
    destruct (write_words_spec 255 _ _ _ _ _ (drop (i * SECTOR_SIZE) buffer) Hd2) as (W1 & W2 & k3 & Hd3);
      [done|rewrite length_drop; unfold SECTOR_SIZE; lia|].
    eexists _, k3. split_and!; [done|exact Hd3| |].
    + intros j Hj. assert (j = O) as -> by lia. rewrite Z.add_0_r, Nat.add_0_r. exact W1.
    + intros l Hl. rewrite W2 by lia. congruence.
  - change (write_sectors (S (S n)) i buffer d) with (
      let '(ok, d) := ata_wait_drq d in
      if negb ok then (false, d) else
      let '(status, d) := inb ATA_PRIMARY_STATUS d in
      if err status then let '(_, d) := inb ATA_PRIMARY_ERROR d in (false, d) else
      write_sectors (S n) (S i) buffer (write_words 256 (drop (i * SECTOR_SIZE) buffer) d)).
    rewrite E1. cbn [negb]. destruct (inb ATA_PRIMARY_STATUS d1) as [v d2]. destruct Hst as (_ & _ & -> & Hd2 & Q2).
    destruct (write_words_spec 255 _ _ _ _ _ (drop (i * SECTOR_SIZE) buffer) Hd2) as (W1 & W2 & k3 & Hd3);
      [done|rewrite length_drop; unfold SECTOR_SIZE; lia|].
    set (d3 := write_words 256 _ d2) in *. clearbody d3.
    destruct (IH (S i) d3 k3 r (lba + 1) buffer Hd3) as (d4 & k4 & E4 & Hd4 & R1 & R2); [lia|].
    exists d4, k4. split_and!; [exact E4|exact Hd4| |].
    + intros [|j] Hj.
      * rewrite Z.add_0_r, Nat.add_0_r, R2 by lia. exact W1.
      * replace (lba + Z.of_nat (S j)) with (lba + 1 + Z.of_nat j) by lia. rewrite R1 by lia. by replace (S i + j)%nat with (i + S j)%nat by lia.
    + intros l Hl. rewrite R2, W2 by lia. congruence.
Qed.

(** FLUSH CACHE, taken or ignored, leaves the sectors as they are. *)
Lemma flush_spec d k r : drive d k PIdle r ->
  let d' := outb ATA_PRIMARY_COMMAND ATA_CMD_FLUSH_CACHE d in exists k', drive d' k' PIdle r /\ disk_of d' = disk_of d.
Proof. destruct k as [|k]; intros Hd; [by apply cmd_flush|]. exists (S k). by apply cmd_busy. Qed.

Lemma ata_write_spec d k r lba count buffer : drive d k PIdle r -> 0 <= lba -> 0 < count < 256 -> lba + count <= drive_sectors ->
  (Z.to_nat count * 512 <= length buffer)%nat ->
  exists d' k' r', ata_write_sectors lba count buffer d = (true, d') /\ drive d' k' PIdle r' /\
    (forall j, (j < Z.to_nat count)%nat -> disk_of d' (lba + Z.of_nat j) = take 512 (drop (j * 512) buffer)) /\
    (forall l, l < lba \/ lba + count <= l -> disk_of d' l = disk_of d l).
Proof.
  intros Hd Hlo Hc Hb Hlen. pose proof drive_sectors_max as Hmax. unfold ata_write_sectors. rewrite (proj2 (Z.eqb_neq _ _)) by lia.
  destruct (wait_ready_spec _ _ _ Hd) as (d1 & -> & Hd1 & Q1). cbn [negb].
  destruct (select_spec _ _ lba Hd1) as [Hd2 Q2].
  destruct (wait_ready_spec _ _ _ Hd2) as (d3 & -> & Hd3 & Q3). cbn [negb].
  destruct (task_file_spec _ _ lba count Hd3 eq_refl) as [Hd4 Q4].
  destruct (regs_for_spec lba count) as [Hl5 Hc5]; [lia|lia|].
  destruct (cmd_write _ _ Hd4) as (k5 & Hd5 & Q5); [lia|lia|]. rewrite Hl5, Hc5 in Hd5.
  assert (Z.to_nat count = S (Z.to_nat (count - 1))) as Hcn by lia. rewrite Hcn in *.
  destruct (write_sectors_spec _ 0 _ _ _ _ buffer Hd5) as (d6 & k6 & -> & Hd6 & R1 & R2); [lia|]. cbn [negb].
  destruct (flush_spec _ _ _ Hd6) as (k7 & Hd7 & Q7). destruct (wait_ready_spec _ _ _ Hd7) as (d8 & E8 & Hd8 & Q8).
  exists d8, O, (regs_for lba count). split_and!; [exact E8|done| |].
  - intros j Hj. rewrite Q8, Q7, R1 by lia. done.
  - intros l Hl. rewrite Q8, Q7, R2 by lia. congruence.
Qed.

(** The driver keeps the promise of the block-device interface. *)
#[global] Program Instance ata_laws : BlockDevLaws D := {
  bd_ready d := exists k r, drive d k PIdle r;
  bd_sectors := drive_sectors;
  bd_sector d lba := disk_of d lba }.
Next Obligation. intros d lba (k & r & Hd) Hl. by eapply drive_length. Qed.
Next Obligation.
  intros d lba buf (k & r & Hd) Hl Hb. destruct (ata_read_spec d k r lba 1 buf Hd) as (d' & k' & r' & He & Hd' & Q); [lia..|].
  exists d'. split_and!; [|eauto|intros l; by rewrite Q].
  change (bd_read lba buf d) with (ata_read_sectors lba 1 buf d). rewrite He. do 2 f_equal.
  change (Z.to_nat 1) with 1%nat. rewrite sectors_from_S, app_nil_r. apply Ramdisk.list_inserts_all. rewrite Hb. by eapply drive_length.
Qed.
Next Obligation.
  intros d lba buf (k & r & Hd) Hl Hb. destruct (ata_write_spec d k r lba 1 buf Hd) as (d' & k' & r' & He & Hd' & R1 & R2); [lia..| |].
  { rewrite Hb. done. }
  exists d'. split_and!; [exact He|eauto| |].
  - specialize (R1 O ltac:(lia)). rewrite Z.add_0_r in R1. rewrite R1. cbn [Nat.mul drop]. apply take_ge. by rewrite Hb.
  - intros l Hx Hne. apply R2. lia.
Qed.

Lemma sectors_of_buffer (disk : Z -> list Z) n : forall lba o buf,
  (forall j, (j < n)%nat -> disk (lba + Z.of_nat j) = take 512 (drop (o + j * 512) buf)) -> length buf = (o + n * 512)%nat ->
  sectors_from disk lba n = drop o buf.
Proof.
  induction n as [|n IH]; intros lba o buf Hd Hl.
  - rewrite drop_ge by lia. done.
  - rewrite sectors_from_S. rewrite (IH (lba + 1) (o + 512)%nat buf).
    + specialize (Hd O ltac:(lia)). rewrite Z.add_0_r, Nat.add_0_r in Hd. rewrite Hd, <- drop_drop. apply take_drop.
    + intros j Hj. specialize (Hd (S j) ltac:(lia)). replace (lba + 1 + Z.of_nat j) with (lba + Z.of_nat (S j)) by lia. rewrite Hd.
      do 2 f_equal. lia.
    + lia.
Qed.

(** C38: On a drive that keeps the PIO protocol ([AtaDrive]: it is busy for fewer looks at its status than the driver's
    timeout, reports no errors, and ignores a command sent while it is busy), reading back sectors that were written
    returns what was written: both transfers, of up to 255 sectors inside the drive, succeed, and every other sector
    keeps its contents. The theorem is about what the drive returns on a read; whether its cache has been flushed is not
    part of it, and the driver's FLUSH CACHE may have been ignored. *)
Theorem ata_read_after_write d k r lba count data buf : drive d k PIdle r -> 0 <= lba -> 0 < count < 256 -> lba + count <= drive_sectors ->
  length data = (Z.to_nat count * 512)%nat -> length buf = (Z.to_nat count * 512)%nat ->
  exists d1 d2, ata_write_sectors lba count data d = (true, d1) /\ ata_read_sectors lba count buf d1 = (true, data, d2) /\
    (exists k' r', drive d2 k' PIdle r') /\ forall l, l < lba \/ lba + count <= l -> disk_of d2 l = disk_of d l.
Proof.
  intros Hd Hlo Hc Hb Hdl Hbl. destruct (ata_write_spec d k r lba count data Hd) as (d1 & k1 & r1 & E1 & Hd1 & R1 & R2); [lia..|].
  destruct (ata_read_spec d1 k1 r1 lba count buf Hd1) as (d2 & k2 & r2 & E2 & Hd2 & Q2); [lia..|].
  exists d1, d2. split_and!; [done| |eauto|intros l Hl; rewrite Q2; by apply R2].
  rewrite E2. do 2 f_equal. assert (sectors_from (disk_of d1) lba (Z.to_nat count) = data) as ->.
  { by rewrite (sectors_of_buffer (disk_of d1) (Z.to_nat count) lba 0 data). }
  apply Ramdisk.list_inserts_all. congruence.
Qed.
End Proofs.

(** ** A drive that keeps the protocol *)
Record sim := mk_sim { s_busy : nat; s_phase : phase; s_regs : regs; s_disk : Z -> list Z }.

Definition sim_in (port : Z) (d : sim) : Z * sim :=
  if port =? ATA_PRIMARY_STATUS then
    match s_busy d with
    | S k => (0x80, mk_sim k (s_phase d) (s_regs d) (s_disk d))
    | O => (match s_phase d with PIdle => 0x40 | _ => 0x48 end, d)
    end
  else (0, d).
Definition sim_out (port v : Z) (d : sim) : sim :=
  match reg_set port v (s_regs d) with
  | Some r => mk_sim (s_busy d) (s_phase d) r (s_disk d)
  | None =>
      if negb (port =? ATA_PRIMARY_COMMAND) then d else
      if (0 <? s_busy d)%nat then d else
      let lba := lba_of (s_regs d) in
      let more := Z.to_nat (count_of (s_regs d) - 1) in
      if v =? ATA_CMD_READ_SECTORS then mk_sim 2 (PRead lba more (s_disk d lba)) (s_regs d) (s_disk d)
      else if v =? ATA_CMD_WRITE_SECTORS then mk_sim 1 (PWrite lba more []) (s_regs d) (s_disk d)
      else mk_sim 1 PIdle (s_regs d) (s_disk d)
  end.
Definition sim_inw (port : Z) (d : sim) : (Z * Z) * sim :=
  match s_phase d with
  | PRead lba more (b0 :: b1 :: todo) =>
      ((b0, b1), mk_sim 0 (match todo, more with
                           | [], O => PIdle
                           | [], S more => PRead (lba + 1) more (s_disk d (lba + 1))
                           | _, _ => PRead lba more todo
                           end) (s_regs d) (s_disk d))
  | _ => ((0, 0), d)
  end.
Definition sim_outw (port : Z) (w : Z * Z) (d : sim) : sim :=
  match s_phase d with
  | PWrite lba more got =>
      let got := got ++ [fst w; snd w] in
      if decide (length got = SECTOR_SIZE) then
        mk_sim 1 (match more with O => PIdle | S more => PWrite (lba + 1) more [] end) (s_regs d)
          (fun l => if decide (l = lba) then got else s_disk d l)
      else mk_sim 0 (PWrite lba more got) (s_regs d) (s_disk d)
  | _ => d
  end.
#[global] Instance sim_ports : PortIO sim := { inb := sim_in; outb := sim_out; inw := sim_inw; outw := sim_outw }.

Definition sim_drive (d : sim) (k : nat) (p : phase) (r : regs) : Prop :=
  s_busy d = k /\ (k <= 2)%nat /\ s_phase d = p /\ s_regs d = r /\ forall l, length (s_disk d l) = SECTOR_SIZE.

#[global] Program Instance sim_ata : AtaDrive sim := { drive_sectors := 64; disk_of := s_disk; drive := sim_drive }.
Next Obligation. lia. Qed.
Next Obligation. intros d k p r (_ & Hk & _). unfold ATA_TIMEOUT. lia. Qed.
Next Obligation. intros d k p r lba (_ & _ & _ & _ & Hl) _. apply Hl. Qed.
Next Obligation.
  intros d k p r (Hb & Hk & Hp & Hr & Hl). cbn. unfold sim_in. cbn. rewrite Hb. split_and!; [done|done| |done]. split_and!; [done|lia|done..].
Qed.
Next Obligation. intros d r (Hb & Hk & Hp & Hr & Hl). cbn. unfold sim_in. cbn. rewrite Hb, Hp. done. Qed.
Next Obligation. intros d p r (Hb & Hk & Hp & Hr & Hl) Hn. cbn. unfold sim_in. cbn. rewrite Hb, Hp. destruct p; done. Qed.
Next Obligation. intros d r port v r' (Hb & Hk & Hp & Hr & Hl) Hs. cbn. unfold sim_out. rewrite Hr, Hs. done. Qed.
Next Obligation. intros d r (Hb & Hk & Hp & Hr & Hl) _ _. exists 2%nat. subst r. cbn. unfold sim_out. cbn. rewrite Hb. by split_and!. Qed.
Next Obligation.
  intros d r (Hb & Hk & Hp & Hr & Hl) _ _. exists 1%nat. subst r. cbn. unfold sim_out. cbn. rewrite Hb. split; [|done]. split_and!; [done|lia|done..].
Qed.
Next Obligation.
  intros d r (Hb & Hk & Hp & Hr & Hl). exists 1%nat. cbn. unfold sim_out. cbn. rewrite Hb. split; [|done]. split_and!; [done|lia|done..].
Qed.
Next Obligation. intros d k r c (Hb & Hk & Hp & Hr & Hl). cbn. unfold sim_out. cbn. rewrite Hb. by split. Qed.
Next Obligation.
  intros d r lba more b0 b1 todo (Hb & Hk & Hp & Hr & Hl). cbn. unfold sim_inw. rewrite Hp. split_and!; [done|done|].
  destruct todo, more; [exists O|exists O| |]; (split_and!; [done|lia|done..]).
Qed.
Next Obligation.
  intros d r lba more got b0 b1 (Hb & Hk & Hp & Hr & Hl) Hg. cbn. unfold sim_outw. rewrite Hp. cbn [fst snd].
  rewrite length_app. change (length [b0; b1]) with 2%nat. case_decide as Hd.
  - cbn. rewrite decide_True by done. split_and!; [done|intros l Hne; by rewrite decide_False|].
    assert (forall l, length (if decide (l = lba) then got ++ [b0; b1] else s_disk d l) = SECTOR_SIZE) as Hlen.
    { intros l. case_decide; [by rewrite length_app|apply Hl]. }
    destruct more; exists 1%nat; (split_and!; [done|lia|done|done|exact Hlen]).
  - cbn. split; [|done]. by split_and!.
Qed.

Definition sim_fresh : sim := mk_sim 2 PIdle (mk_regs 0 0 0 0 0) (fun _ => replicate 512 0).
Lemma ata_read_after_write_witness : exists d1 d2,
  ata_write_sectors 5 2 (replicate 1024 7) sim_fresh = (true, d1) /\ ata_read_sectors 5 2 (replicate 1024 0) d1 = (true, replicate 1024 7, d2).
Proof.
  destruct (ata_read_after_write sim_fresh 2 (mk_regs 0 0 0 0 0) 5 2 (replicate 1024 7) (replicate 1024 0)) as (d1 & d2 & E1 & E2 & _);
    [split_and!; done || (intros l; apply length_replicate)|lia|lia|cbn; lia|apply length_replicate|apply length_replicate|].
  exists d1, d2. split; [exact E1|exact E2].
Defined.
End AtaProps.
