(* ===== verification/CStr.v ===== *)
(** * C strings

    A [char] buffer is a list of bytes; its string is the prefix before the
    first NUL (a buffer without one is read as if a NUL followed it). The
    copy and compare loops that VFS.c ([str_cpy], [str_cmp], [str_len]) and
    tinyfs.c ([strcpy_safe], [strcmp_safe]) both define. *)
From Stdlib Require Import ZArith Lia.
From stdpp Require Import base numbers list.
From S2P Require Import Prelude.
Local Open Scope Z_scope.
Local Open Scope arr_scope.

(** The string a buffer holds. *)
Fixpoint cstr (l : list Z) : list Z :=
  match l with
  | [] => []
  | c :: l => if c =? 0 then [] else c :: cstr l
  end.

(** [while (str[len]) len++;] *)
Definition str_len (s : list Z) : nat := length (cstr s).

(** [for (; i < max_len - 1 && src[i]; i++) dest[i] = src[i]; dest[i] = 0]
    with [n] iterations left before [max_len - 1]. *)
Fixpoint strcpy_from (n i : nat) (dest src : list Z) : list Z :=
  match n with
  | O => dest.[i <- 0]
  | S n => if c_true (src.[i]) then strcpy_from n (S i) (dest.[i <- src.[i]]) src
           else dest.[i <- 0]
  end.
Definition strcpy_safe (dest src : list Z) (max_len : nat) : list Z :=
  strcpy_from (max_len - 1) 0 dest src.

(** [while ( *s1 && *s1 == *s2) s1++, s2++; return *s1 - *s2], as unsigned chars. *)
Fixpoint strcmp_safe (s1 s2 : list Z) : Z :=
  match s1 with
  | [] => 0 - s2.[0]
  | c :: s1 => if c_true c && (c =? s2.[0]) then strcmp_safe s1 (drop 1 s2) else c - s2.[0]
  end.

(** ** Their specifications *)
Lemma cstr_nonzero l : Forall (fun c => c <> 0) (cstr l).
Proof.
  induction l as [|c l IH]; simpl; [done|]. destruct (Z.eqb_spec c 0); [done|]. by constructor.
Qed.

Lemma cstr_id l : Forall (fun c => c <> 0) l -> cstr l = l.
Proof.
  induction 1 as [|c l Hc Hl IH]; simpl; [done|]. destruct (Z.eqb_spec c 0); [done|]. by rewrite IH.
Qed.

Lemma cstr_idemp l : cstr (cstr l) = cstr l.
Proof. apply cstr_id, cstr_nonzero. Qed.

Lemma cstr_app_zero l k : Forall (fun c => c <> 0) l -> cstr (l ++ 0 :: k) = l.
Proof.
  induction 1 as [|c l Hc Hl IH]; simpl; [done|]. destruct (Z.eqb_spec c 0); [done|]. by rewrite IH.
Qed.

Lemma drop_hd (l : list Z) i : (i < length l)%nat -> drop i l = l.[i] :: drop (S i) l.
Proof. intros H. apply drop_S. by apply lookup_get. Qed.

Lemma get_ge (l : list Z) i : (length l <= i)%nat -> l.[i] = 0.
Proof. apply nth_overflow. Qed.

Lemma strcpy_from_spec n i dest src : (i + n < length dest)%nat ->
  exists rest, strcpy_from n i dest src = take i dest ++ take n (cstr (drop i src)) ++ 0 :: rest /\
    length (strcpy_from n i dest src) = length dest.
Proof.
  revert i dest. induction n as [|n IH]; intros i dest Hl; cbn [strcpy_from].
  - exists (drop (S i) dest). rewrite take_0. split; [|apply length_insert].
    rewrite insert_take_drop by lia. done.
  - unfold c_true. destruct (Z.eqb_spec (src.[i]) 0) as [E|E]; simpl negb; cbv iota.
    + exists (drop (S i) dest). split; [|apply length_insert].
      assert (cstr (drop i src) = []) as ->.
      { destruct (decide (i < length src)%nat) as [Hi|Hi].
        - rewrite drop_hd by done. simpl. by rewrite E.
        - by rewrite drop_ge by lia. }
      rewrite insert_take_drop by lia. by rewrite take_nil.
    + assert (i < length src)%nat as Hi.
      { destruct (decide (i < length src)%nat); [done|]. destruct E. apply get_ge. lia. }
      destruct (IH (S i) (dest.[i <- src.[i]])) as (rest & Hr & Hlen); [rewrite length_insert; lia|].
      exists rest. rewrite Hlen, length_insert. split; [|done]. rewrite Hr, (drop_hd src i) by done. simpl.
      destruct (Z.eqb_spec (src.[i]) 0); [done|]. simpl.
      rewrite (take_S_r _ _ (src.[i])) by (apply list_lookup_insert_eq; lia).
      rewrite take_insert_ge by lia. by rewrite <- app_assoc.
Qed.

(** The copy holds the source string cut to [max_len - 1] characters. *)
Lemma strcpy_safe_cstr dest src max_len : (0 < max_len <= length dest)%nat ->
  cstr (strcpy_safe dest src max_len) = take (max_len - 1) (cstr src) /\
  length (strcpy_safe dest src max_len) = length dest.
Proof.
  intros H. unfold strcpy_safe.
  destruct (strcpy_from_spec (max_len - 1) 0 dest src) as (rest & E & L); [lia|].
  split; [|done]. rewrite E, take_0. simpl. apply cstr_app_zero, Forall_take, cstr_nonzero.
Qed.

Lemma strcpy_from_bytes n i dest src : Forall is_byte dest -> Forall is_byte src ->
  Forall is_byte (strcpy_from n i dest src).
Proof.
  intros Hd Hs. revert i dest Hd. induction n as [|n IH]; intros i dest Hd; cbn [strcpy_from].
  - by apply Forall_insert.
  - unfold c_true. destruct (Z.eqb_spec (src.[i]) 0) as [|E]; simpl; [by apply Forall_insert|].
    apply IH, Forall_insert; [done|]. apply Forall_get; [done|].
    destruct (decide (i < length src)%nat); [done|]. destruct E. apply get_ge. lia.
Qed.

Lemma strcmp_safe_eq s1 s2 : strcmp_safe s1 s2 = 0 <-> cstr s1 = cstr s2.
Proof.
  revert s2. induction s1 as [|c s1 IH]; intros s2; cbn [strcmp_safe cstr].
  - destruct s2 as [|d s2]; cbn; [done|]. destruct (Z.eqb_spec d 0) as [->|]; [done|]. split; [lia|done].
  - unfold c_true. destruct (Z.eqb_spec c 0) as [->|Hc]; simpl.
    + destruct s2 as [|d s2]; cbn; [done|]. destruct (Z.eqb_spec d 0) as [->|]; [done|]. split; [lia|done].
    + destruct s2 as [|d s2]; cbn [get nth].
      * unfold get. simpl nth. destruct (Z.eqb_spec c 0); [done|]. simpl. split; [lia|done].
      * change (get (d :: s2) 0) with d. destruct (Z.eqb_spec c d) as [<-|Hd].
        -- simpl drop. rewrite drop_0, IH. simpl. destruct (Z.eqb_spec c 0); [done|]. split; congruence.
        -- split; [lia|]. simpl. destruct (Z.eqb_spec d 0); [done|]. congruence.
Qed.
