(* ===== verification/VfsTypes.v ===== *)
(** * The VFS data types (includes/vfs.h)

    The records of includes/vfs.h, the allocator interface the file system
    code calls, and the operation tables through which VFS.c reaches a
    concrete file system, as a record of functions on a shared world. *)
From Stdlib Require Import ZArith Lia.
From stdpp Require Import base numbers list gmap.
From S2P Require Import Prelude CStr.
Local Open Scope Z_scope.

Definition MAX_FILENAME : nat := 256.
Definition MAX_OPEN_FILES : nat := 256.
Definition FILE_TYPE_REGULAR : Z := 1.
Definition FILE_TYPE_DIRECTORY : Z := 2.
Definition FILE_READ : Z := 1.
Definition FILE_WRITE : Z := 2.
Definition SEEK_SET : Z := 0.
Definition SEEK_CUR : Z := 1.
Definition SEEK_END : Z := 2.

(** The allocator, as its clients see it: [hp_alloc size h] is [kmalloc(size)]
    ([None] for NULL), [hp_free p h] is [kfree(p)]. *)
Class Heap (H : Type) := {
  hp_alloc : Z -> H -> option Z * H;
  hp_free : Z -> H -> H;
}.

(** A bump allocator, the simplest heap; used by the examples. *)
Definition bump_heap : Heap Z := {|
  hp_alloc size h := (Some h, h + size);
  hp_free _ h := h |}.

(** [struct vfs_node]. [n_fs] is the address of the file system; [n_ops] says
    whether the operation table pointer is set (there is one table per file
    system); [n_private] is [private_data], for TinyFS a pointer into the
    directory table, represented by the entry's index ([None] is NULL). *)
Record vfs_node := mk_node {
  n_name : list Z; n_type : Z; n_permissions : Z; n_size : Z; n_inode : Z;
  n_fs : option Z; n_ops : bool; n_private : option nat }.

(** [struct fs_stats]. *)
Record fs_stats := mk_stats { st_total_blocks : Z; st_free_blocks : Z; st_block_size : Z }.

(** [struct file_descriptor]. *)
Record file_descriptor := mk_fd { fd_used : Z; fd_node : option Z; fd_position : Z; fd_flags : Z }.

(** [struct filesystem]; the private data of a mounted file system is its
    address and its contents. *)
Record filesystem (P : Type) := mk_fs { fs_name : list Z; fs_private : option (Z * P) }.
Arguments mk_fs {P} _ _.
Arguments fs_name {P} _.
Arguments fs_private {P} _.

(** Memory shared by the VFS and the file system: the node objects and the
    file system objects by address, the allocator, the disk. *)
Record world (P H D : Type) := mk_world {
  w_nodes : gmap Z vfs_node; w_fs : gmap Z (filesystem P); w_heap : H; w_disk : D }.
Arguments mk_world {P H D} _ _ _ _.
Arguments w_nodes {P H D} _.
Arguments w_fs {P H D} _.
Arguments w_heap {P H D} _.
Arguments w_disk {P H D} _.

(** [vfs_operations_t] and [filesystem_operations_t]: functions of the world.
    A node or file system argument is its address; a buffer is passed by
    contents and returned updated. [None] is a NULL function pointer. *)
Record vfs_operations (W : Type) := mk_vops {
  op_open : option (Z -> Z -> W -> outcome (Z * W));
  op_close : option (Z -> W -> outcome (Z * W));
  op_read : option (Z -> list Z -> Z -> Z -> W -> outcome (Z * list Z * W));
  op_write : option (Z -> list Z -> Z -> Z -> W -> outcome (Z * W));
  op_readdir : option (Z -> Z -> W -> outcome (option Z * W));
  op_finddir : option (Z -> list Z -> W -> outcome (option Z * W));
  op_create : option (Z -> list Z -> Z -> Z -> W -> outcome (Z * W));
  op_unlink : option (Z -> list Z -> W -> outcome (Z * W)) }.
Arguments op_open {W} _.
Arguments op_close {W} _.
Arguments op_read {W} _.
Arguments op_write {W} _.
Arguments op_readdir {W} _.
Arguments op_finddir {W} _.
Arguments op_create {W} _.
Arguments op_unlink {W} _.

Record filesystem_operations (W : Type) := mk_fops {
  op_mount : Z -> list Z -> W -> outcome (Z * W);
  op_unmount : Z -> W -> outcome (Z * W);
  op_get_root : Z -> W -> outcome (option Z * W);
  op_get_stats : option (Z -> W -> outcome (Z * option fs_stats * W)) }.
Arguments op_mount {W} _.
Arguments op_unmount {W} _.
Arguments op_get_root {W} _.
Arguments op_get_stats {W} _.
