(* ===== verification/TinyFS.v ===== *)
(** * TinyFS: data and operations (src/kernel/VFS/tinyfs.c, includes/tinyfs.h)

    The on-disk structures with their byte layout, the in-memory file system
    [tinyfs_data] and every operation of tinyfs.c as a function of the file
    system data, the allocator and the block device. An array access outside
    the 1024-entry FAT gives [OutOfBounds]; the theorems of TinyFSProps show
    that well-formed file systems never reach one. *)
From Stdlib Require Import ZArith Lia.
From stdpp Require Import base numbers list gmap.
From S2P Require Import Prelude CStr BlockDev VfsTypes.
Local Open Scope Z_scope.
Local Open Scope arr_scope.
Local Open Scope outcome_scope.

Module Tinyfs.

(** ** Constants and records *)
Definition TINYFS_MAGIC : Z := 0x54494E59.
Definition TINYFS_BLOCK_SIZE : nat := 512.
Definition TINYFS_MAX_FILENAME : nat := 32.
Definition TINYFS_MAX_FILES : nat := 256.

(** [#define EOF WHITE]: the end-of-chain marker is the colour white. *)
Definition EOF : Z := 0xFFFFFF.

Record superblock := mk_sb {
  magic : Z; total_blocks : Z; fat_start : Z; dir_start : Z; data_start : Z; free_blocks : Z }.

Record dirent := mk_dirent {
  d_name : list Z; first_block : Z; d_size : Z; is_directory : Z; d_used : Z;
  parent_inode : Z; d_padding : list Z }.

Record tinyfs_data := mk_data {
  sb : superblock; fat : list Z; dirents : list dirent; device : list Z }.

Definition null_dirent : dirent := mk_dirent (replicate 32 0) 0 0 0 0 0 [0; 0].
Definition dirent_at (data : tinyfs_data) (i : nat) : dirent := nth i (dirents data) null_dirent.

Definition set_fat (data : tinyfs_data) (f : list Z) : tinyfs_data :=
  mk_data (sb data) f (dirents data) (device data).
Definition set_free_blocks (data : tinyfs_data) (n : Z) : tinyfs_data :=
  mk_data (mk_sb (magic (sb data)) (total_blocks (sb data)) (fat_start (sb data))
             (dir_start (sb data)) (data_start (sb data)) n)
          (fat data) (dirents data) (device data).
Definition set_dirent (data : tinyfs_data) (i : nat) (de : dirent) : tinyfs_data :=
  mk_data (sb data) (fat data) (<[i := de]> (dirents data)) (device data).

(** ** Byte layout (x86-64 ABI): the superblock is six words; a directory entry
    is 52 bytes (name at 0, first block at 32, size at 36, the two flag bytes
    at 40 and 41, the parent at 44, padding at 48). *)
Definition word_at (b : list Z) (o : nat) : Z := le_value (take 4 (drop o b)).

Definition sb_bytes (s : superblock) : list Z :=
  le_bytes 4 (magic s) ++ le_bytes 4 (total_blocks s) ++ le_bytes 4 (fat_start s) ++
  le_bytes 4 (dir_start s) ++ le_bytes 4 (data_start s) ++ le_bytes 4 (free_blocks s).

Definition sb_of_bytes (b : list Z) : superblock :=
  mk_sb (word_at b 0) (word_at b 4) (word_at b 8) (word_at b 12) (word_at b 16) (word_at b 20).

Definition dirent_bytes (d : dirent) : list Z :=
  d_name d ++ le_bytes 4 (first_block d) ++ le_bytes 4 (d_size d) ++
  [is_directory d; d_used d; 0; 0] ++ le_bytes 4 (parent_inode d) ++ d_padding d ++ [0; 0].

Definition dirent_of_bytes (b : list Z) : dirent :=
  mk_dirent (take 32 b) (word_at b 32) (word_at b 36) (b.[40]) (b.[41]) (word_at b 44)
    (take 2 (drop 48 b)).

Definition entries_per_block : nat := 512 / 52.
Definition fat_entries_per_block : nat := 512 / 4.

Section Operations.
Context {H D : Type} `{Heap H} `{BlockDev D}.

(** ** Writing the metadata back *)
Definition write_superblock (data : tinyfs_data) (d : D) : Z * D :=
  let buffer := list_inserts 0 (sb_bytes (sb data)) (replicate 512 0) in
  let '(ok, d) := bd_write 0 buffer d in
  if ok then (0, d) else (-1, d).

Definition fat_sector (data : tinyfs_data) (i : nat) : list Z :=
  for_range 0 fat_entries_per_block (fun j buffer =>
    let idx := (i * fat_entries_per_block + j)%nat in
    if (idx <? 1024)%nat
    then list_inserts (4 * j) (le_bytes 4 ((fat data).[idx])) buffer else buffer)
    (replicate 512 0).

Definition write_fat (data : tinyfs_data) (d : D) : Z * D :=
  let '(ok, d) := for_ok (fun i d =>
    bd_write (u32 (fat_start (sb data) + Z.of_nat i)) (fat_sector data i) d) (seq 0 10) d in
  if ok then (0, d) else (-1, d).

Definition dir_sector (data : tinyfs_data) (i : nat) : list Z :=
  for_range 0 entries_per_block (fun j buffer =>
    let idx := (i * entries_per_block + j)%nat in
    if (idx <? TINYFS_MAX_FILES)%nat
    then list_inserts (52 * j) (dirent_bytes (dirent_at data idx)) buffer else buffer)
    (replicate 512 0).

Definition write_directory (data : tinyfs_data) (d : D) : Z * D :=
  let '(ok, d) := for_ok (fun i d =>
    bd_write (u32 (dir_start (sb data) + Z.of_nat i)) (dir_sector data i) d) (seq 0 90) d in
  if ok then (0, d) else (-1, d).

(** ** Blocks and directory entries *)

(** The scan of [allocate_block] from block [i], [n] blocks before [total_blocks]. *)
Fixpoint allocate_from (n : nat) (i : Z) (data : tinyfs_data) : outcome (Z * tinyfs_data) :=
  match n with
  | O => Done (-1, data)
  | S n =>
      let* f := aget (fat data) i in
      if f =? 0 then
        let* f' := aset (fat data) i EOF in
        Done (i, set_free_blocks (set_fat data f') (u32 (free_blocks (sb data) - 1)))
      else allocate_from n (i + 1) data
  end.

Definition allocate_block (data : tinyfs_data) : outcome (Z * tinyfs_data) :=
  allocate_from (Z.to_nat (total_blocks (sb data) - data_start (sb data))) (data_start (sb data)) data.

(** [while (current != EOF && current != 0)]; a chain of the 1024-entry FAT
    has at most 1024 blocks. *)
Fixpoint free_chain_loop (fuel : nat) (current : Z) (data : tinyfs_data) : outcome tinyfs_data :=
  if (current =? EOF) || (current =? 0) then Done data
  else match fuel with
       | O => OutOfFuel
       | S fuel =>
           let* next := aget (fat data) current in
           let* f := aset (fat data) current 0 in
           free_chain_loop fuel next
             (set_free_blocks (set_fat data f) (u32 (free_blocks (sb data) + 1)))
       end.

Definition free_block_chain (data : tinyfs_data) (first : Z) : outcome tinyfs_data :=
  free_chain_loop 1024 first data.

(** First index of [l] in the given order that satisfies [P]. *)
Definition find_index (P : nat -> bool) (l : list nat) : option nat := List.find P l.

Definition find_free_dirent (data : tinyfs_data) : Z :=
  match find_index (fun i => negb (c_true (d_used (dirent_at data i)))) (seq 1 (TINYFS_MAX_FILES - 1)) with
  | Some i => Z.of_nat i
  | None => -1
  end.

(** ** Formatting *)
Definition format_superblock : superblock := mk_sb TINYFS_MAGIC 1024 1 11 101 (1024 - 101).

Definition format_fat_sector (i : nat) : list Z :=
  for_range 0 fat_entries_per_block (fun j buffer =>
    let block_num := ((i - 1) * fat_entries_per_block + j)%nat in
    if (block_num <? 1024)%nat then
      if (block_num <? 101)%nat then list_inserts (4 * j) (le_bytes 4 EOF) buffer
      else list_inserts (4 * j) (le_bytes 4 0) buffer
    else buffer) (replicate 512 0).

Definition tinyfs_format (d : D) : Z * D :=
  let '(ok, d) := bd_write 0 (list_inserts 0 (sb_bytes format_superblock) (replicate 512 0)) d in
  if negb ok then (-1, d) else
  let '(ok, d) := for_ok (fun i d => bd_write (Z.of_nat i) (format_fat_sector i) d) (seq 1 10) d in
  if negb ok then (-1, d) else
  let '(ok, d) := for_ok (fun i d => bd_write (Z.of_nat i) (replicate 512 0) d) (seq 11 90) d in
  if negb ok then (-1, d) else (0, d).

(** ** Mounting *)

(** Copying one FAT sector, one directory sector into the in-memory tables. *)
Definition load_fat_sector (i : nat) (buffer : list Z) (f : list Z) : list Z :=
  for_range 0 fat_entries_per_block (fun j f =>
    let idx := (i * fat_entries_per_block + j)%nat in
    if (idx <? 1024)%nat then f.[idx <- word_at buffer (4 * j)] else f) f.

Definition load_dir_sector (i : nat) (buffer : list Z) (ds : list dirent) : list dirent :=
  for_range 0 entries_per_block (fun j ds =>
    let idx := (i * entries_per_block + j)%nat in
    if (idx <? TINYFS_MAX_FILES)%nat
    then <[idx := dirent_of_bytes (take 52 (drop (52 * j) buffer))]> ds else ds) ds.

Definition read_fat (s : superblock) (st : list Z * list Z * D) : bool * (list Z * list Z * D) :=
  for_ok (fun i '(f, buffer, d) =>
    let '(ok, buffer, d) := bd_read (u32 (fat_start s + Z.of_nat i)) buffer d in
    if ok then (true, (load_fat_sector i buffer f, buffer, d)) else (false, (f, buffer, d)))
    (seq 0 10) st.

Definition read_dir (s : superblock) (st : list dirent * list Z * D) : bool * (list dirent * list Z * D) :=
  for_ok (fun i '(ds, buffer, d) =>
    let '(ok, buffer, d) := bd_read (u32 (dir_start s + Z.of_nat i)) buffer d in
    if ok then (true, (load_dir_sector i buffer ds, buffer, d)) else (false, (ds, buffer, d)))
    (seq 0 90) st.

(** [garbage] is the uninitialised memory [kmalloc] returns for the file
    system data, [stack] the uninitialised sector buffer. *)
Definition tinyfs_mount (garbage : tinyfs_data) (stack : list Z) (fs : filesystem tinyfs_data)
    (dev : list Z) (h : H) (d : D) : Z * filesystem tinyfs_data * H * D :=
  let '(p, h) := hp_alloc 17464 h in
  match p with
  | None => (-1, fs, h, d)
  | Some p =>
      let dev_name := strcpy_safe (device garbage) dev 32 in
      let '(ok, buffer, d) := bd_read 0 stack d in
      if negb ok then (-1, fs, hp_free p h, d) else
      let s := sb_of_bytes buffer in
      if negb (magic s =? TINYFS_MAGIC) then (-1, fs, hp_free p h, d) else
      let '(ok, (f, buffer, d)) := read_fat s (fat garbage, buffer, d) in
      if negb ok then (-1, fs, hp_free p h, d) else
      let '(ok, (ds, buffer, d)) := read_dir s (dirents garbage, buffer, d) in
      if negb ok then (-1, fs, hp_free p h, d) else
      (0, mk_fs (fs_name fs) (Some (p, mk_data s f ds dev_name)), h, d)
  end.

Definition tinyfs_unmount (fs : filesystem tinyfs_data) (h : H) (d : D)
    : Z * filesystem tinyfs_data * H * D :=
  match fs_private fs with
  | Some (p, data) =>
      let '(_, d) := write_superblock data d in
      let '(_, d) := write_fat data d in
      let '(_, d) := write_directory data d in
      (0, mk_fs (fs_name fs) None, hp_free p h, d)
  | None => (0, fs, h, d)
  end.

(** ** Nodes; [garbage] is the memory [kmalloc] returns for the node *)
Definition tinyfs_get_root (garbage : vfs_node) (fs : Z) (h : H) : option (Z * vfs_node) * H :=
  let '(p, h) := hp_alloc 296 h in
  match p with
  | None => (None, h)
  | Some p =>
      (Some (p, mk_node (strcpy_safe (n_name garbage) [47] MAX_FILENAME) FILE_TYPE_DIRECTORY
                  (Z.lor FILE_READ FILE_WRITE) 0 0 (Some fs) true None), h)
  end.

Definition tinyfs_get_stats (fs : filesystem tinyfs_data) : Z * option fs_stats :=
  match fs_private fs with
  | None => (-1, None)
  | Some (_, data) => (0, Some (mk_stats (total_blocks (sb data)) (free_blocks (sb data)) 512))
  end.

Definition tinyfs_open (node : vfs_node) (flags : Z) : Z := 0.
Definition tinyfs_close (node : vfs_node) : Z := 0.

(** ** Reading *)

(** [for (i = 0; i < block_offset && current_block != EOF; i++)]. *)
Fixpoint skip_blocks (n : nat) (f : list Z) (current : Z) : outcome Z :=
  match n with
  | O => Done current
  | S n => if current =? EOF then Done current
           else let* next := aget f current in skip_blocks n f next
  end.

(** The copy loop: every iteration copies at least one byte, so [size] + 1
    iterations are enough. [buffer] is the caller's buffer, [bb] the block buffer. *)
Fixpoint read_loop (fuel : nat) (f : list Z) (size : Z) (buffer bb : list Z)
    (bytes_read byte_offset current : Z) (d : D) : outcome (Z * list Z * D) :=
  match fuel with
  | O => OutOfFuel
  | S fuel =>
      if (bytes_read <? size) && negb (current =? EOF) then
        let '(ok, bb, d) := bd_read current bb d in
        if negb ok then Done (-1, buffer, d) else
        let to_copy := u32 (512 - byte_offset) in
        let to_copy := if to_copy >? u32 (size - bytes_read) then u32 (size - bytes_read) else to_copy in
        let buffer := list_inserts (Z.to_nat bytes_read)
          (take (Z.to_nat to_copy) (drop (Z.to_nat byte_offset) bb)) buffer in
        let* next := aget f current in
        read_loop fuel f size buffer bb (u32 (bytes_read + to_copy)) 0 next d
      else Done (s32 bytes_read, buffer, d)
  end.

(** [fs] is the file system object [node->fs] points to, [None] for NULL. *)
Definition tinyfs_read (stack : list Z) (fs : option (filesystem tinyfs_data)) (node : vfs_node)
    (buffer : list Z) (size offset : Z) (d : D) : outcome (Z * list Z * D) :=
  match fs with
  | None => Done (-1, buffer, d)
  | Some fs =>
    match fs_private fs with
    | None => Done (-1, buffer, d)
    | Some (_, data) =>
      match n_private node with
      | None => Done (0, buffer, d)
      | Some i =>
          let de := dirent_at data i in
          if offset >=? d_size de then Done (0, buffer, d) else
          let size := if u32 (offset + size) >? d_size de then u32 (d_size de - offset) else size in
          let* current := skip_blocks (Z.to_nat (offset / 512)) (fat data) (first_block de) in
          read_loop (S (Z.to_nat size)) (fat data) size buffer stack 0 (offset mod 512) current d
      end
    end
  end.

(** ** Writing *)

(** [for (i = 0; i < block_offset; i++)]: walk the chain, extending it. The
    flag is false when a block could not be allocated. *)
Fixpoint seek_blocks (n : nat) (current : Z) (data : tinyfs_data) : outcome (bool * Z * tinyfs_data) :=
  match n with
  | O => Done (true, current, data)
  | S n =>
      let* next := aget (fat data) current in
      if next =? EOF then
        let* (nb, data) := allocate_block data in
        if nb <? 0 then Done (false, current, data) else
        let* f := aset (fat data) current nb in
        seek_blocks n nb (set_fat data f)
      else seek_blocks n next data
  end.

(** How the copy loop of [tinyfs_write] ends: normally or by [break] with the
    number of bytes written, or by [return -1]. *)
Inductive write_end := WroteBytes (n : Z) | WriteError.

Fixpoint write_loop (fuel : nat) (buffer : list Z) (size : Z) (bb : list Z)
    (bytes_written byte_offset current : Z) (data : tinyfs_data) (d : D)
    : outcome (write_end * tinyfs_data * D) :=
  match fuel with
  | O => OutOfFuel
  | S fuel =>
      if bytes_written <? size then
        let '(bb, d) :=
          if (byte_offset >? 0) || (u32 (size - bytes_written) <? 512)
          then let '(_, bb, d) := bd_read current bb d in (bb, d) else (bb, d) in
        let to_write := u32 (512 - byte_offset) in
        let to_write := if to_write >? u32 (size - bytes_written) then u32 (size - bytes_written) else to_write in
        let bb := list_inserts (Z.to_nat byte_offset)
          (take (Z.to_nat to_write) (drop (Z.to_nat bytes_written) buffer)) bb in
        let '(ok, d) := bd_write current bb d in
        if negb ok then Done (WriteError, data, d) else
        let bytes_written := u32 (bytes_written + to_write) in
        if bytes_written <? size then
          let* next := aget (fat data) current in
          if next =? EOF then
            let* (nb, data) := allocate_block data in
            if nb <? 0 then Done (WroteBytes bytes_written, data, d) else
            let* f := aset (fat data) current nb in
            write_loop fuel buffer size bb bytes_written 0 nb (set_fat data f) d
          else write_loop fuel buffer size bb bytes_written 0 next data d
        else write_loop fuel buffer size bb bytes_written 0 current data d
      else Done (WroteBytes bytes_written, data, d)
  end.

(** The end of [tinyfs_write]: the new size, then the metadata to disk. *)
Definition finish_write (data : tinyfs_data) (node : vfs_node) (i : nat) (offset n : Z) (d : D)
    : vfs_node * tinyfs_data * D :=
  let de := dirent_at data i in
  let '(node, data) :=
    if u32 (offset + n) >? d_size de then
      (mk_node (n_name node) (n_type node) (n_permissions node) (u32 (offset + n)) (n_inode node)
         (n_fs node) (n_ops node) (n_private node),
       set_dirent data i (mk_dirent (d_name de) (first_block de) (u32 (offset + n)) (is_directory de)
         (d_used de) (parent_inode de) (d_padding de)))
    else (node, data) in
  let '(_, d) := write_directory data d in
  let '(_, d) := write_fat data d in
  let '(_, d) := write_superblock data d in
  (node, data, d).

(** [if (dirent->first_block == 0)]: the first block of an empty file. *)
Definition first_block_alloc (data : tinyfs_data) (i : nat) : outcome (bool * tinyfs_data) :=
  let de := dirent_at data i in
  if first_block de =? 0 then
    let* (b, data) := allocate_block data in
    if b <? 0 then Done (false, data)
    else Done (true, set_dirent data i (mk_dirent (d_name de) b (d_size de) (is_directory de)
                 (d_used de) (parent_inode de) (d_padding de)))
  else Done (true, data).

Definition tinyfs_write (stack : list Z) (fs : option (filesystem tinyfs_data)) (node : vfs_node)
    (buffer : list Z) (size offset : Z) (d : D)
    : outcome (Z * vfs_node * option (filesystem tinyfs_data) * D) :=
  match fs with
  | None => Done (-1, node, fs, d)
  | Some fs0 =>
    match fs_private fs0 with
    | None => Done (-1, node, fs, d)
    | Some (p, data) =>
      match n_private node with
      | None => Done (-1, node, fs, d)
      | Some i =>
          let put data := Some (mk_fs (fs_name fs0) (Some (p, data))) in
          let* (ok, data) := first_block_alloc data i in
          if negb ok then Done (-1, node, put data, d) else
          let* (ok, current, data) := seek_blocks (Z.to_nat (offset / 512))
                                        (first_block (dirent_at data i)) data in
          if negb ok then Done (0, node, put data, d) else
          let* (e, data, d) := write_loop (S (Z.to_nat size)) buffer size stack 0 (offset mod 512)
                                 current data d in
          match e with
          | WriteError => Done (-1, node, put data, d)
          | WroteBytes n =>
              let '(node, data, d) := finish_write data node i offset n d in
              Done (s32 n, node, put data, d)
          end
      end
    end
  end.

(** ** Directories *)

(** The node built for directory entry [i]. *)
Definition entry_node (garbage node : vfs_node) (data : tinyfs_data) (i : nat) : vfs_node :=
  let de := dirent_at data i in
  mk_node (strcpy_safe (n_name garbage) (d_name de) MAX_FILENAME)
    (if c_true (is_directory de) then FILE_TYPE_DIRECTORY else FILE_TYPE_REGULAR)
    (Z.lor FILE_READ FILE_WRITE) (d_size de) (Z.of_nat i) (n_fs node) true (Some i).

Definition in_dir (data : tinyfs_data) (inode : Z) (i : nat) : bool :=
  c_true (d_used (dirent_at data i)) && (parent_inode (dirent_at data i) =? inode).

Definition named (data : tinyfs_data) (name : list Z) (i : nat) : bool :=
  strcmp_safe (d_name (dirent_at data i)) name =? 0.

Definition alloc_entry (garbage node : vfs_node) (data : tinyfs_data) (i : nat) (h : H)
    : option (Z * vfs_node) * H :=
  let '(p, h) := hp_alloc 296 h in
  match p with
  | None => (None, h)
  | Some p => (Some (p, entry_node garbage node data i), h)
  end.

(** The [count] loop of [tinyfs_readdir]: the [index]-th entry of the directory. *)
Fixpoint nth_entry (data : tinyfs_data) (inode index count : Z) (l : list nat) : option nat :=
  match l with
  | [] => None
  | i :: l =>
      if in_dir data inode i then
        if count =? index then Some i else nth_entry data inode index (u32 (count + 1)) l
      else nth_entry data inode index count l
  end.

Definition tinyfs_readdir (garbage : vfs_node) (fs : option (filesystem tinyfs_data)) (node : vfs_node)
    (index : Z) (h : H) : option (Z * vfs_node) * H :=
  if negb (n_type node =? FILE_TYPE_DIRECTORY) then (None, h) else
  match fs with
  | None => (None, h)
  | Some fs =>
    match fs_private fs with
    | None => (None, h)
    | Some (_, data) =>
        match nth_entry data (n_inode node) index 0 (seq 0 TINYFS_MAX_FILES) with
        | None => (None, h)
        | Some i => alloc_entry garbage node data i h
        end
    end
  end.

Definition lookup_entry (data : tinyfs_data) (inode : Z) (name : list Z) : option nat :=
  find_index (fun i => in_dir data inode i && named data name i) (seq 0 TINYFS_MAX_FILES).

Definition tinyfs_finddir (garbage : vfs_node) (fs : option (filesystem tinyfs_data)) (node : vfs_node)
    (name : list Z) (h : H) : option (Z * vfs_node) * H :=
  if negb (n_type node =? FILE_TYPE_DIRECTORY) then (None, h) else
  match fs with
  | None => (None, h)
  | Some fs =>
    match fs_private fs with
    | None => (None, h)
    | Some (_, data) =>
        match lookup_entry data (n_inode node) name with
        | None => (None, h)
        | Some i => alloc_entry garbage node data i h
        end
    end
  end.

(** The new entry of [tinyfs_create_node], in slot [i]. *)
Definition new_dirent (data : tinyfs_data) (i : nat) (name : list Z) (type parent : Z) : dirent :=
  mk_dirent (strcpy_safe (d_name (dirent_at data i)) name TINYFS_MAX_FILENAME) 0 0
    (if type =? FILE_TYPE_DIRECTORY then 1 else 0) 1 parent (d_padding (dirent_at data i)).

Definition clear_used (de : dirent) : dirent :=
  mk_dirent (d_name de) (first_block de) (d_size de) (is_directory de) 0 (parent_inode de) (d_padding de).

Definition tinyfs_create_node (fs : option (filesystem tinyfs_data)) (parent : vfs_node)
    (name : list Z) (type permissions : Z) (d : D) : Z * option (filesystem tinyfs_data) * D :=
  match fs with
  | None => (-1, fs, d)
  | Some fs0 =>
    match fs_private fs0 with
    | None => (-1, fs, d)
    | Some (p, data) =>
        if negb (n_type parent =? FILE_TYPE_DIRECTORY) then (-1, fs, d) else
        match lookup_entry data (n_inode parent) name with
        | Some _ => (-1, fs, d)
        | None =>
            let free_idx := find_free_dirent data in
            if free_idx <? 0 then (-1, fs, d) else
            let i := Z.to_nat free_idx in
            let data := set_dirent data i (new_dirent data i name type (n_inode parent)) in
            let '(r, d) := write_directory data d in
            if negb (r =? 0)
            then (-1, Some (mk_fs (fs_name fs0)
                   (Some (p, set_dirent data i (clear_used (dirent_at data i))))), d)
            else (0, Some (mk_fs (fs_name fs0) (Some (p, data))), d)
        end
    end
  end.

(** The scan of [tinyfs_unlink]: used entries by name, in any directory. *)
Definition unlink_target (data : tinyfs_data) (name : list Z) : option nat :=
  find_index (fun i => c_true (d_used (dirent_at data i)) && named data name i) (seq 0 TINYFS_MAX_FILES).

Definition cleared_dirent (de : dirent) : dirent :=
  mk_dirent (<[0%nat := 0]> (d_name de)) 0 0 (is_directory de) 0 (parent_inode de) (d_padding de).

Definition tinyfs_unlink (fs : option (filesystem tinyfs_data)) (parent : vfs_node) (name : list Z) (d : D)
    : outcome (Z * option (filesystem tinyfs_data) * D) :=
  match fs with
  | None => Done (-1, fs, d)
  | Some fs0 =>
    match fs_private fs0 with
    | None => Done (-1, fs, d)
    | Some (p, data) =>
        if negb (n_type parent =? FILE_TYPE_DIRECTORY) then Done (-1, fs, d) else
        match unlink_target data name with
        | None => Done (-1, fs, d)
        | Some i =>
            let de := dirent_at data i in
            let* data := if negb (first_block de =? 0) then free_block_chain data (first_block de)
                         else Done data in
            let data := set_dirent data i (cleared_dirent de) in
            let '(_, d) := write_fat data d in
            let '(_, d) := write_directory data d in
            let '(_, d) := write_superblock data d in
            Done (0, Some (mk_fs (fs_name fs0) (Some (p, data))), d)
        end
    end
  end.

(** [tinyfs_create]: a new, unmounted file system object named "tinyfs". *)
Definition tinyfs_create (h : H) : option (Z * filesystem tinyfs_data) * H :=
  let '(p, h) := hp_alloc 48 h in
  match p with
  | None => (None, h)
  | Some p =>
      (Some (p, mk_fs (strcpy_safe (replicate 32 0) [116; 105; 110; 121; 102; 115] 32) None), h)
  end.

End Operations.
End Tinyfs.
