(* ===== verification/TinyFSDisk.v ===== *)
(** * TinyFS: the on-disk format

    The byte layout of TinyFS.v is lossless and the metadata writers and the
    mount code are inverse: what [write_superblock], [write_fat] and
    [write_directory] leave on a working device is what [tinyfs_mount] reads
    back. Formatting followed by mounting gives the empty file system. *)
From Stdlib Require Import ZArith Lia.
From stdpp Require Import base numbers list gmap.
From S2P Require Import Prelude CStr BlockDev VfsTypes TinyFS.
Import Tinyfs.
Local Open Scope Z_scope.
Local Open Scope arr_scope.

Module TinyfsDisk.

(** ** Fields that fit their width *)
Definition sb_fits (s : superblock) : Prop :=
  is_u32 (magic s) /\ is_u32 (total_blocks s) /\ is_u32 (fat_start s) /\ is_u32 (dir_start s) /\
  is_u32 (data_start s) /\ is_u32 (free_blocks s).

Definition dirent_fits (de : dirent) : Prop :=
  length (d_name de) = 32%nat /\ is_u32 (first_block de) /\ is_u32 (d_size de) /\
  is_u32 (parent_inode de) /\ length (d_padding de) = 2%nat.

Definition data_fits (data : tinyfs_data) : Prop :=
  sb_fits (sb data) /\ length (fat data) = 1024%nat /\ Forall is_u32 (fat data) /\
  length (dirents data) = 256%nat /\ Forall dirent_fits (dirents data).

(** ** Records and bytes *)
Lemma word_at_le_bytes v pre post o : is_u32 v -> length pre = o ->
  word_at (pre ++ le_bytes 4 v ++ post) o = v.
Proof.
  intros Hv <-. unfold word_at. rewrite drop_app_length.
  rewrite take_app_le by (rewrite length_le_bytes; lia). rewrite take_ge by (rewrite length_le_bytes; lia).
  by apply le_value_bytes_u32.
Qed.

Lemma length_sb_bytes s : length (sb_bytes s) = 24%nat.
Proof. unfold sb_bytes. rewrite !length_app, !length_le_bytes. done. Qed.

Lemma length_dirent_bytes de : dirent_fits de -> length (dirent_bytes de) = 52%nat.
Proof.
  intros (H1 & _ & _ & _ & H2). unfold dirent_bytes. rewrite !length_app, !length_le_bytes, H1, H2. done.
Qed.

Lemma sb_bytes_inv s rest : sb_fits s -> sb_of_bytes (sb_bytes s ++ rest) = s.
Proof.
  intros (H1 & H2 & H3 & H4 & H5 & H6). destruct s as [a b c e f g].
  cbn [magic total_blocks fat_start dir_start data_start free_blocks] in H1, H2, H3, H4, H5, H6.
  unfold sb_of_bytes, sb_bytes. cbn [magic total_blocks fat_start dir_start data_start free_blocks].
  rewrite <- !app_assoc. f_equal.
  - exact (word_at_le_bytes a [] (le_bytes 4 b ++ le_bytes 4 c ++ le_bytes 4 e ++ le_bytes 4 f ++ le_bytes 4 g ++ rest) 0 H1 eq_refl).
  - exact (word_at_le_bytes b [] (le_bytes 4 c ++ le_bytes 4 e ++ le_bytes 4 f ++ le_bytes 4 g ++ rest) 0 H2 eq_refl).
  - exact (word_at_le_bytes c [] (le_bytes 4 e ++ le_bytes 4 f ++ le_bytes 4 g ++ rest) 0 H3 eq_refl).
  - exact (word_at_le_bytes e [] (le_bytes 4 f ++ le_bytes 4 g ++ rest) 0 H4 eq_refl).
  - exact (word_at_le_bytes f [] (le_bytes 4 g ++ rest) 0 H5 eq_refl).
  - exact (word_at_le_bytes g [] (rest) 0 H6 eq_refl).
Qed.

Lemma dirent_bytes_inv de : dirent_fits de -> dirent_of_bytes (dirent_bytes de) = de.
Proof.
  destruct de as [nm fb sz dir us par pad]. intros (H1 & H2 & H3 & H4 & H5).
  cbn [d_name first_block d_size is_directory d_used parent_inode d_padding] in H1, H2, H3, H4, H5.
  unfold dirent_of_bytes, dirent_bytes. cbn [d_name first_block d_size is_directory d_used parent_inode d_padding].
  destruct pad as [|p0 [|p1 [|? ?]]]; try discriminate. f_equal.
  - rewrite take_app_le by lia. apply take_ge. lia.
  - by apply word_at_le_bytes.
  - rewrite (app_assoc nm). apply word_at_le_bytes; [done|]. rewrite length_app, length_le_bytes. lia.
  - do 2 (rewrite get_app_r by (rewrite ?length_le_bytes; lia); rewrite ?length_le_bytes).
    rewrite get_app_r by (rewrite ?length_le_bytes; lia). rewrite H1, !length_le_bytes. done.
  - do 2 (rewrite get_app_r by (rewrite ?length_le_bytes; lia); rewrite ?length_le_bytes).
    rewrite get_app_r by (rewrite ?length_le_bytes; lia). rewrite H1, !length_le_bytes. done.
  - rewrite (app_assoc nm), (app_assoc (nm ++ _)), (app_assoc ((nm ++ _) ++ _)).
    apply word_at_le_bytes; [done|]. rewrite !length_app, !length_le_bytes, H1. done.
  - rewrite (app_assoc nm), (app_assoc (nm ++ _)), (app_assoc ((nm ++ _) ++ _)), (app_assoc (((nm ++ _) ++ _) ++ _)).
    rewrite drop_app_ge by (rewrite !length_app, !length_le_bytes, H1; simpl; lia).
    rewrite !length_app, !length_le_bytes, H1. done.
Qed.

(** ** A sector as an array of [n] fields of [w] bytes *)
Lemma fields_spec (w n : nat) (P : nat -> bool) (g : nat -> list Z) :
  (n * w <= 512)%nat -> (forall j, (j < n)%nat -> P j = true -> length (g j) = w) ->
  let s := for_range 0 n (fun j buf => if P j then list_inserts (w * j) (g j) buf else buf)
             (replicate 512 0) in
  length s = 512%nat /\
  forall j, (j < n)%nat -> P j = true -> take w (drop (w * j) s) = g j.
Proof.
  intros Hn Hg. cbv zeta.
  apply (for_range_inv (fun k s => length s = 512%nat /\
    forall j, (j < k)%nat -> P j = true -> take w (drop (w * j) s) = g j)); [lia|split; [done|lia]|].
  intros k s Hk [Hl Hs]. destruct (P k) eqn:EP.
  2: { split; [done|]. intros j Hj HP. destruct (decide (j = k)) as [->|]; [congruence|]. apply Hs; [lia|done]. }
  split; [by rewrite length_inserts|]. intros j Hj HP.
  assert (length (g k) = w) as Hgk by (apply Hg; [lia|done]).
  apply list_eq. intros i. destruct (decide (i < w)%nat) as [Hi|Hi].
  - rewrite lookup_take_lt, lookup_drop by done. destruct (decide (j = k)) as [->|Hne].
    + rewrite list_lookup_inserts by nia. f_equal. lia.
    + rewrite list_lookup_inserts_lt by nia. rewrite <- (Hs j) by (done || lia).
      by rewrite lookup_take_lt, lookup_drop by done.
  - rewrite lookup_take_ge by lia. symmetry. apply lookup_ge_None_2.
    rewrite (Hg j) by (done || lia). lia.
Qed.

(** ** Copying a sector into a table *)
Lemma load_spec {A} (i epb N : nat) (h : nat -> A) (l : list A) : length l = N ->
  let r := for_range 0 epb (fun j l => if (i * epb + j <? N)%nat then <[(i * epb + j)%nat := h j]> l else l) l in
  length r = N /\
  forall k, (k < N)%nat ->
    r !! k = if (i * epb <=? k)%nat && (k <? i * epb + epb)%nat then Some (h (k - i * epb)%nat) else l !! k.
Proof.
  intros Hl. cbv zeta.
  apply (for_range_inv (fun m r => length r = N /\ forall k, (k < N)%nat ->
    r !! k = if (i * epb <=? k)%nat && (k <? i * epb + m)%nat then Some (h (k - i * epb)%nat) else l !! k)); [lia|..].
  - split; [done|]. intros k Hk. destruct (Nat.leb_spec (i * epb) k), (Nat.ltb_spec k (i * epb + 0)); done || lia.
  - intros m r Hm [Hr Hlk]. destruct (Nat.ltb_spec (i * epb + m) N) as [Hlt|Hge].
    + split; [by rewrite length_insert|]. intros k Hk.
      destruct (decide (k = i * epb + m)%nat) as [->|Hne].
      * rewrite list_lookup_insert_eq by lia.
        destruct (Nat.leb_spec (i * epb) (i * epb + m)), (Nat.ltb_spec (i * epb + m) (i * epb + S m)); try lia.
        simpl. do 2 f_equal. lia.
      * rewrite list_lookup_insert_ne, Hlk by lia.
        destruct (Nat.leb_spec (i * epb) k), (Nat.ltb_spec k (i * epb + m)), (Nat.ltb_spec k (i * epb + S m));
          done || lia.
    + split; [done|]. intros k Hk. rewrite Hlk by done.
      destruct (Nat.leb_spec (i * epb) k), (Nat.ltb_spec k (i * epb + m)), (Nat.ltb_spec k (i * epb + S m));
        done || lia.
Qed.

Lemma dirent_at_lookup data i de : dirents data !! i = Some de -> dirent_at data i = de.
Proof. intros H. unfold dirent_at. by rewrite (nth_lookup_Some _ _ null_dirent de). Qed.

Lemma lookup_dirent_at data i : (i < length (dirents data))%nat ->
  dirents data !! i = Some (dirent_at data i).
Proof.
  intros H. destruct (lookup_lt_is_Some_2 _ _ H) as [de E]. by rewrite E, (dirent_at_lookup _ _ _ E).
Qed.

Lemma dirent_at_fits data i : data_fits data -> (i < 256)%nat -> dirent_fits (dirent_at data i).
Proof.
  intros (_ & _ & _ & Hl & Hd) Hi. eapply Forall_lookup_1; [exact Hd|]. apply lookup_dirent_at. lia.
Qed.

(** ** The sectors the writers produce *)
Lemma fat_sector_spec data i : (i < 10)%nat ->
  length (fat_sector data i) = 512%nat /\
  forall j, (j < 128)%nat -> (i * 128 + j < 1024)%nat ->
    take 4 (drop (4 * j) (fat_sector data i)) = le_bytes 4 ((fat data).[i * 128 + j]).
Proof.
  intros Hi. unfold fat_sector. change fat_entries_per_block with 128%nat.
  destruct (fields_spec 4 128 (fun j => (i * 128 + j <? 1024)%nat)
    (fun j => le_bytes 4 ((fat data).[i * 128 + j]))) as [Hl Hf]; [lia|intros; apply length_le_bytes|].
  split; [exact Hl|]. intros j Hj Hb. apply Hf; [done|]. by apply Nat.ltb_lt.
Qed.

Lemma dir_sector_spec data i : data_fits data -> (i < 90)%nat ->
  length (dir_sector data i) = 512%nat /\
  forall j, (j < 9)%nat -> (i * 9 + j < 256)%nat ->
    take 52 (drop (52 * j) (dir_sector data i)) = dirent_bytes (dirent_at data (i * 9 + j)).
Proof.
  intros Hfit Hi. unfold dir_sector. change entries_per_block with 9%nat.
  destruct (fields_spec 52 9 (fun j => (i * 9 + j <? 256)%nat)
    (fun j => dirent_bytes (dirent_at data (i * 9 + j)))) as [Hl Hf]; [lia| |].
  { intros j Hj HP%Nat.ltb_lt. apply length_dirent_bytes, dirent_at_fits; done. }
  split; [exact Hl|]. intros j Hj Hb. apply Hf; [done|]. by apply Nat.ltb_lt.
Qed.

(** The layout [tinyfs_format] chooses; the rest of the code assumes its sizes. *)
Definition std_geometry (s : superblock) : Prop :=
  magic s = TINYFS_MAGIC /\ total_blocks s = 1024 /\ fat_start s = 1 /\ dir_start s = 11 /\
  data_start s = 101.

Section Device.
Context {H D : Type} `{Heap H} `{BlockDevLaws D}.
Hypothesis sectors_enough : 1024 <= bd_sectors (D:=D) < 2 ^ 32.

(** A run of sector writes. *)
Lemma write_run (start : Z) (n : nat) (g : nat -> list Z) (d : D) :
  bd_ready d -> 0 <= start -> start + Z.of_nat n <= 1024 ->
  (forall i, (i < n)%nat -> length (g i) = SECTOR_SIZE) ->
  exists d', for_ok (fun i d => bd_write (u32 (start + Z.of_nat i)) (g i) d) (seq 0 n) d = (true, d') /\
    bd_ready d' /\
    (forall i, (i < n)%nat -> bd_sector d' (start + Z.of_nat i) = g i) /\
    (forall l, 0 <= l < bd_sectors -> l < start \/ start + Z.of_nat n <= l -> bd_sector d' l = bd_sector d l).
Proof.
  intros Hd Hs Hn Hg.
  destruct (for_ok_inv (fun k x => bd_ready x /\
    (forall i, (i < k)%nat -> bd_sector x (start + Z.of_nat i) = g i) /\
    (forall l, 0 <= l < bd_sectors -> l < start \/ start + Z.of_nat n <= l -> bd_sector x l = bd_sector d l))
    (fun i d => bd_write (u32 (start + Z.of_nat i)) (g i) d) 0 n d) as (y & Hy & Hr & Hw & Ho).
  - split; [done|]. split; [lia|done].
  - intros i x Hi (Hr & Hw & Ho). rewrite wrap_small by lia.
    destruct (bd_write_ok x (start + Z.of_nat i) (g i)) as (y & Hy & Hr' & Hs' & Ho');
      [done|lia|apply Hg; lia|].
    exists y. split; [done|]. split; [done|]. split.
    + intros j Hj. destruct (decide (j = i)) as [->|]; [done|].
      rewrite Ho' by lia. apply Hw. lia.
    + intros l Hl Hout. rewrite Ho' by lia. by apply Ho.
  - exists y. auto.
Qed.

(** The metadata area of the device holds [data]. *)
Definition on_disk (data : tinyfs_data) (d : D) : Prop :=
  bd_sector d 0 = list_inserts 0 (sb_bytes (sb data)) (replicate 512 0) /\
  (forall i, (i < 10)%nat -> bd_sector d (1 + Z.of_nat i) = fat_sector data i) /\
  (forall i, (i < 90)%nat -> bd_sector d (11 + Z.of_nat i) = dir_sector data i).

(** Data sectors, those past the metadata. *)
Definition same_data (d d' : D) : Prop := forall l, 101 <= l < bd_sectors -> bd_sector d' l = bd_sector d l.

Lemma write_superblock_spec data d : bd_ready d ->
  exists d', write_superblock data d = (0, d') /\ bd_ready d' /\
    bd_sector d' 0 = list_inserts 0 (sb_bytes (sb data)) (replicate 512 0) /\
    (forall l, 1 <= l < bd_sectors -> bd_sector d' l = bd_sector d l).
Proof.
  intros Hd. unfold write_superblock.
  destruct (bd_write_ok d 0 (list_inserts 0 (sb_bytes (sb data)) (replicate 512 0))) as (d' & E & Hr & Hs & Ho);
    [done|lia|by rewrite length_inserts|].
  rewrite E. exists d'. split_and!; [done..|]. intros l Hl. apply Ho; lia.
Qed.

Lemma write_fat_spec data d : bd_ready d -> std_geometry (sb data) ->
  exists d', write_fat data d = (0, d') /\ bd_ready d' /\
    (forall i, (i < 10)%nat -> bd_sector d' (1 + Z.of_nat i) = fat_sector data i) /\
    (forall l, 0 <= l < bd_sectors -> l < 1 \/ 11 <= l -> bd_sector d' l = bd_sector d l).
Proof.
  intros Hd (_ & _ & Hf & _). unfold write_fat. rewrite Hf.
  destruct (write_run 1 10 (fat_sector data) d) as (d' & E & Hr & Hw & Ho); [done|lia|lia| |].
  { intros i Hi. by apply fat_sector_spec. }
  rewrite E. exists d'. split_and!; done.
Qed.

Lemma write_directory_spec data d : bd_ready d -> data_fits data -> std_geometry (sb data) ->
  exists d', write_directory data d = (0, d') /\ bd_ready d' /\
    (forall i, (i < 90)%nat -> bd_sector d' (11 + Z.of_nat i) = dir_sector data i) /\
    (forall l, 0 <= l < bd_sectors -> l < 11 \/ 101 <= l -> bd_sector d' l = bd_sector d l).
Proof.
  intros Hd Hfit (_ & _ & _ & Hf & _). unfold write_directory. rewrite Hf.
  destruct (write_run 11 90 (dir_sector data) d) as (d' & E & Hr & Hw & Ho); [done|lia|lia| |].
  { intros i Hi. by apply dir_sector_spec. }
  rewrite E. exists d'. split_and!; done.
Qed.

(** The three orders in which the code flushes its metadata all leave the
    device holding [data] and the data sectors as they were. *)
Lemma flush_unmount data d : bd_ready d -> data_fits data -> std_geometry (sb data) ->
  exists d1 d2 d3, write_superblock data d = (0, d1) /\ write_fat data d1 = (0, d2) /\
    write_directory data d2 = (0, d3) /\ bd_ready d3 /\ on_disk data d3 /\ same_data d d3.
Proof.
  intros Hd Hfit Hg.
  destruct (write_superblock_spec data d) as (d1 & E1 & R1 & S1 & O1); [done|].
  destruct (write_fat_spec data d1) as (d2 & E2 & R2 & S2 & O2); [done..|].
  destruct (write_directory_spec data d2) as (d3 & E3 & R3 & S3 & O3); [done..|].
  exists d1, d2, d3. split_and!; [done..| |].
  - split_and!; [rewrite O3, O2 by lia; done| |done]. intros i Hi. rewrite O3 by lia. by apply S2.
  - intros l Hl. rewrite O3, O2, O1 by lia. done.
Qed.

Lemma flush_write data d : bd_ready d -> data_fits data -> std_geometry (sb data) ->
  exists d1 d2 d3, write_directory data d = (0, d1) /\ write_fat data d1 = (0, d2) /\
    write_superblock data d2 = (0, d3) /\ bd_ready d3 /\ on_disk data d3 /\ same_data d d3.
Proof.
  intros Hd Hfit Hg.
  destruct (write_directory_spec data d) as (d1 & E1 & R1 & S1 & O1); [done..|].
  destruct (write_fat_spec data d1) as (d2 & E2 & R2 & S2 & O2); [done..|].
  destruct (write_superblock_spec data d2) as (d3 & E3 & R3 & S3 & O3); [done|].
  exists d1, d2, d3. split_and!; [done..| |].
  - split_and!; [done| |].
    + intros i Hi. rewrite O3 by lia. by apply S2.
    + intros i Hi. rewrite O3, O2 by lia. by apply S1.
  - intros l Hl. rewrite O3, O2, O1 by lia. done.
Qed.

Lemma flush_unlink data d : bd_ready d -> data_fits data -> std_geometry (sb data) ->
  exists d1 d2 d3, write_fat data d = (0, d1) /\ write_directory data d1 = (0, d2) /\
    write_superblock data d2 = (0, d3) /\ bd_ready d3 /\ on_disk data d3 /\ same_data d d3.
Proof.
  intros Hd Hfit Hg.
  destruct (write_fat_spec data d) as (d1 & E1 & R1 & S1 & O1); [done..|].
  destruct (write_directory_spec data d1) as (d2 & E2 & R2 & S2 & O2); [done..|].
  destruct (write_superblock_spec data d2) as (d3 & E3 & R3 & S3 & O3); [done|].
  exists d1, d2, d3. split_and!; [done..| |].
  - split_and!; [done| |].
    + intros i Hi. rewrite O3, O2 by lia. by apply S1.
    + intros i Hi. rewrite O3 by lia. by apply S2.
  - intros l Hl. rewrite O3, O2, O1 by lia. done.
Qed.

(** ** Mounting what was flushed *)
Lemma read_fat_spec data buf d f0 : bd_ready d -> data_fits data -> std_geometry (sb data) ->
  on_disk data d -> length buf = SECTOR_SIZE -> length f0 = 1024%nat ->
  exists buf' d', read_fat (sb data) (f0, buf, d) = (true, (fat data, buf', d')) /\
    length buf' = SECTOR_SIZE /\ bd_ready d' /\ forall l, bd_sector d' l = bd_sector d l.
Proof.
  intros Hd (_ & Hfl & Hfu & _) (_ & _ & Hs & _) (_ & Hdf & _) Hb Hf0. unfold read_fat.
  edestruct (for_ok_inv (fun k (st : list Z * list Z * D) => let '(f, b, x) := st in length f = 1024%nat /\ length b = SECTOR_SIZE /\ bd_ready x /\
      (forall l, bd_sector x l = bd_sector d l) /\
      forall j, (j < k * 128)%nat -> (j < 1024)%nat -> f !! j = fat data !! j)) as ([[f b] x] & E & Hl & Hbl & Hr & Hsec & Hlk).
  3: { exists b, x. split_and!; [|done..]. rewrite E. do 3 f_equal. apply list_eq. intros j.
       destruct (decide (j < 1024)%nat); [apply Hlk; lia|]. by rewrite !lookup_ge_None_2 by lia. }
  - split_and!; [done..|lia].
  - intros i [[f' b'] x'] Hi (Hl' & Hbl' & Hr' & Hsec' & Hlk').
    rewrite Hs, wrap_small by lia.
    destruct (bd_read_ok x' (1 + Z.of_nat i) b') as (y & -> & Hry & Hsy); [done|lia|done|].
    eexists. split; [done|]. rewrite Hsec', Hdf by lia.
    destruct (load_spec i 128 1024 (fun j => word_at (fat_sector data i) (4 * j)) f' Hl') as [HL HK].
    destruct (fat_sector_spec data i) as [Hlen Hfs]; [lia|].
    split_and!; [exact HL|done|done|by intros; rewrite Hsy, Hsec'|].
    intros j Hj Hj2. unfold load_fat_sector. change fat_entries_per_block with 128%nat. rewrite HK by done.
    destruct (Nat.leb_spec (i * 128) j), (Nat.ltb_spec j (i * 128 + 128)); cbn [andb]; try (apply Hlk'; lia); try lia.
    unfold word_at. rewrite Hfs by lia. replace (i * 128 + (j - i * 128))%nat with j by lia.
    rewrite lookup_get by lia. f_equal. apply le_value_bytes_u32.
    exact (Forall_get _ _ j Hfu ltac:(lia)).
Qed.

Lemma read_dir_spec data buf d ds0 : bd_ready d -> data_fits data -> std_geometry (sb data) ->
  on_disk data d -> length buf = SECTOR_SIZE -> length ds0 = 256%nat ->
  exists buf' d', read_dir (sb data) (ds0, buf, d) = (true, (dirents data, buf', d')) /\
    bd_ready d' /\ forall l, bd_sector d' l = bd_sector d l.
Proof.
  intros Hd Hfit (_ & _ & _ & Hs & _) (_ & _ & Hdd) Hb Hf0. unfold read_dir.
  pose proof Hfit as (_ & _ & _ & Hdl & _).
  edestruct (for_ok_inv (fun k (st : list dirent * list Z * D) => let '(f, b, x) := st in length f = 256%nat /\ length b = SECTOR_SIZE /\ bd_ready x /\
      (forall l, bd_sector x l = bd_sector d l) /\
      forall j, (j < k * 9)%nat -> (j < 256)%nat -> f !! j = dirents data !! j)) as ([[f b] x] & E & Hl & Hbl & Hr & Hsec & Hlk).
  3: { exists b, x. split_and!; [|done..]. rewrite E. do 3 f_equal. apply list_eq. intros j.
       destruct (decide (j < 256)%nat); [apply Hlk; lia|]. by rewrite !lookup_ge_None_2 by lia. }
  - split_and!; [done..|lia].
  - intros i [[f' b'] x'] Hi (Hl' & Hbl' & Hr' & Hsec' & Hlk').
    rewrite Hs, wrap_small by lia.
    destruct (bd_read_ok x' (11 + Z.of_nat i) b') as (y & -> & Hry & Hsy); [done|lia|done|].
    eexists. split; [done|]. rewrite Hsec', Hdd by lia.
    destruct (load_spec i 9 256 (fun j => dirent_of_bytes (take 52 (drop (52 * j) (dir_sector data i)))) f' Hl') as [HL HK].
    destruct (dir_sector_spec data i Hfit) as [Hlen Hfs]; [lia|].
    split_and!; [exact HL|done|done|by intros; rewrite Hsy, Hsec'|].
    intros j Hj Hj2. unfold load_dir_sector. change entries_per_block with 9%nat. rewrite HK by done.
    destruct (Nat.leb_spec (i * 9) j), (Nat.ltb_spec j (i * 9 + 9)); cbn [andb]; try (apply Hlk'; lia); try lia.
    rewrite Hfs by lia. replace (i * 9 + (j - i * 9))%nat with j by lia.
    rewrite dirent_bytes_inv by (apply dirent_at_fits; done). symmetry. apply lookup_dirent_at. lia.
Qed.

Lemma mount_on_disk garbage stack fs dev (h : H) (d : D) p h' data :
  bd_ready d -> data_fits data -> std_geometry (sb data) -> on_disk data d ->
  hp_alloc 17464 h = (Some p, h') -> length stack = SECTOR_SIZE ->
  length (fat garbage) = 1024%nat -> length (dirents garbage) = 256%nat ->
  exists d', tinyfs_mount garbage stack fs dev h d =
    (0, mk_fs (fs_name fs) (Some (p, mk_data (sb data) (fat data) (dirents data)
          (strcpy_safe (device garbage) dev 32))), h', d') /\
    bd_ready d' /\ forall l, bd_sector d' l = bd_sector d l.
Proof.
  intros Hd Hfit Hg Hdisk Ha Hst Hgf Hgd. unfold tinyfs_mount. rewrite Ha.
  destruct (bd_read_ok d 0 stack) as (d1 & -> & Hr1 & Hs1); [done|lia|done|].
  cbn [negb]. cbv iota. pose proof Hdisk as (Hsb & HF & HD).
  assert (sb_of_bytes (bd_sector d 0) = sb data) as ->.
  { rewrite Hsb, list_inserts_prefix by (rewrite length_sb_bytes, length_replicate; lia).
    apply sb_bytes_inv, Hfit. }
  destruct Hg as (Hm & Hg). rewrite Hm, Z.eqb_refl. cbn [negb]. cbv iota.
  assert (on_disk data d1) as Hd1.
  { split_and!; intros; rewrite Hs1; [done|by apply HF|by apply HD]. }
  destruct (read_fat_spec data (bd_sector d 0) d1 (fat garbage)) as (b2 & d2 & -> & Hb2 & Hr2 & Hs2);
    [done|done|by split|done|apply bd_sector_length; [done|lia]|done|].
  cbn [negb]. cbv iota. assert (on_disk data d2) as Hd2.
  { split_and!; intros; rewrite Hs2, Hs1; [done|by apply HF|by apply HD]. }
  destruct (read_dir_spec data b2 d2 (dirents garbage)) as (b3 & d3 & -> & Hr3 & Hs3);
    [done|done|by split|done|done|done|].
  cbn [negb]. cbv iota. exists d3. split; [done|]. split; [done|]. intros l. by rewrite Hs3, Hs2, Hs1.
Qed.

(** C21: Unmount/mount round trip: on a working device, unmounting a file system and mounting the device
    again restores the superblock, the FAT and the whole directory table, and keeps the data sectors. *)
Theorem tinyfs_unmount_mount garbage stack fs dev (h : H) (d : D) p data p' h' :
  bd_ready d -> data_fits data -> std_geometry (sb data) -> fs_private fs = Some (p, data) ->
  hp_alloc 17464 (hp_free p h) = (Some p', h') -> length stack = SECTOR_SIZE ->
  length (fat garbage) = 1024%nat -> length (dirents garbage) = 256%nat ->
  exists fs1 h1 d1 d2,
    tinyfs_unmount fs h d = (0, fs1, h1, d1) /\ fs_private fs1 = None /\
    tinyfs_mount garbage stack fs1 dev h1 d1 =
      (0, mk_fs (fs_name fs) (Some (p', mk_data (sb data) (fat data) (dirents data)
            (strcpy_safe (device garbage) dev 32))), h', d2) /\
    same_data d d2.
Proof.
  intros Hd Hfit Hg Hp Ha Hst Hgf Hgd.
  destruct (flush_unmount data d) as (d1 & d2 & d3 & E1 & E2 & E3 & Hr & Hdisk & Hsame); [done..|].
  destruct (mount_on_disk garbage stack (mk_fs (fs_name fs) None) dev (hp_free p h) d3 p' h' data)
    as (d4 & E4 & Hr4 & Hs4); [done..|].
  unfold tinyfs_unmount. rewrite Hp, E1, E2, E3.
  exists (mk_fs (fs_name fs) None), (hp_free p h), d3, d4. split; [done|]. split; [done|].
  split; [exact E4|]. intros l Hl. rewrite Hs4. by apply Hsame.
Qed.

(** ** A formatted device *)
Definition format_data (dev : list Z) : tinyfs_data :=
  mk_data format_superblock (replicate 101 EOF ++ replicate 923 0) (replicate 256 null_dirent) dev.

Lemma format_fat_sectors dev i : (i < 10)%nat -> format_fat_sector (S i) = fat_sector (format_data dev) i.
Proof. intros Hi. do 10 (destruct i as [|i]; [vm_compute; reflexivity|]). lia. Qed.

Lemma format_dir_sectors dev i : (i < 90)%nat -> replicate 512 0 = dir_sector (format_data dev) i.
Proof.
  intros Hi. assert (forallb (fun i => bool_decide (dir_sector (format_data dev) i = replicate 512 0))
    (seq 0 90) = true) as Hall by (vm_compute; reflexivity).
  rewrite forallb_forall in Hall. specialize (Hall i). rewrite in_seq, bool_decide_eq_true in Hall.
  symmetry. apply Hall. lia.
Qed.

Lemma null_dirent_fits : dirent_fits null_dirent.
Proof. unfold dirent_fits, is_u32. cbn. split_and!; done || lia. Qed.

Lemma format_data_fits dev : data_fits (format_data dev).
Proof.
  unfold data_fits. cbn [sb fat dirents format_data]. split_and!.
  - unfold sb_fits, is_u32. cbn -[Z.pow]. unfold TINYFS_MAGIC. split_and!; lia.
  - by rewrite length_app, !length_replicate.
  - apply Forall_app. split; apply Forall_replicate; unfold is_u32, EOF; lia.
  - by rewrite length_replicate.
  - apply Forall_replicate, null_dirent_fits.
Qed.

Lemma tinyfs_format_spec dev (d : D) : bd_ready d ->
  exists d', tinyfs_format d = (0, d') /\ bd_ready d' /\ on_disk (format_data dev) d' /\ same_data d d'.
Proof.
  intros Hd. unfold tinyfs_format.
  destruct (bd_write_ok d 0 (list_inserts 0 (sb_bytes format_superblock) (replicate 512 0)))
    as (d1 & -> & R1 & S1 & O1); [done|lia|by rewrite length_inserts|]. cbn [negb]. cbv iota.
  destruct (write_run 1 10 (fun i => format_fat_sector (S i)) d1) as (d2 & E2 & R2 & S2 & O2); [done|lia|lia| |].
  { intros i Hi. rewrite (format_fat_sectors dev) by done. by apply fat_sector_spec. }
  rewrite (for_ok_shift _ 1), (for_ok_ext _ (fun i d => bd_write (u32 (1 + Z.of_nat i)) (format_fat_sector (S i)) d)).
  2: { intros i x Hi%elem_of_seq. rewrite wrap_small by lia. do 2 f_equal. lia. }
  rewrite E2. cbn [negb]. cbv iota.
  destruct (write_run 11 90 (fun _ => replicate 512 0) d2) as (d3 & E3 & R3 & S3 & O3); [done|lia|lia|done|].
  rewrite (for_ok_shift _ 11), (for_ok_ext _ (fun i d => bd_write (u32 (11 + Z.of_nat i)) (replicate 512 0) d)).
  2: { intros i x Hi%elem_of_seq. rewrite wrap_small by lia. do 2 f_equal. lia. }
  rewrite E3. cbn [negb]. cbv iota.
  exists d3. split; [done|]. split; [done|]. split.
  - split_and!.
    + rewrite O3, O2 by lia. exact S1.
    + intros i Hi. rewrite O3, S2 by lia. by apply format_fat_sectors.
    + intros i Hi. rewrite S3 by done. by apply format_dir_sectors.
  - intros l Hl. rewrite O3, O2, O1 by lia. done.
Qed.

(** Formatting then mounting a working device succeeds and gives the empty file system: every FAT
    entry of the 923 data blocks is free, the 101 metadata blocks are reserved and no directory
    entry is in use. *)
Theorem tinyfs_format_mount garbage stack fs dev (h : H) (d : D) p h' :
  bd_ready d -> hp_alloc 17464 h = (Some p, h') -> length stack = SECTOR_SIZE ->
  length (fat garbage) = 1024%nat -> length (dirents garbage) = 256%nat ->
  exists d1 d2, tinyfs_format d = (0, d1) /\
    tinyfs_mount garbage stack fs dev h d1 =
      (0, mk_fs (fs_name fs) (Some (p, format_data (strcpy_safe (device garbage) dev 32))), h', d2) /\
    same_data d d2.
Proof.
  intros Hd Ha Hst Hgf Hgd.
  destruct (tinyfs_format_spec (strcpy_safe (device garbage) dev 32) d Hd) as (d1 & E & Hr & Hdisk & Hsame).
  destruct (mount_on_disk garbage stack fs dev h d1 p h' (format_data (strcpy_safe (device garbage) dev 32)))
    as (d2 & E2 & Hr2 & Hs2); [done|apply format_data_fits|done|done|done|done|done|done|].
  exists d1, d2. split; [done|]. split; [exact E2|]. intros l Hl. rewrite Hs2. by apply Hsame.
Qed.

End Device.

(** ** Witnesses: the RAM disk and a bump allocator *)
Definition blank_data : tinyfs_data :=
  mk_data (mk_sb 0 0 0 0 0 0) (replicate 1024 7) (replicate 256 null_dirent) (replicate 32 0).

Lemma ramdisk_sectors : 1024 <= bd_sectors (D := Ramdisk.ramdisk) < 2 ^ 32.
Proof. cbn. lia. Qed.

Lemma tinyfs_format_mount_witness :
  exists d1 d2, tinyfs_format Ramdisk.fresh_ramdisk = (0, d1) /\
    @tinyfs_mount Z Ramdisk.ramdisk bump_heap _ blank_data (replicate 512 0)
      (mk_fs [] None) [104] 4096 d1 =
      (0, mk_fs [] (Some (4096, format_data (strcpy_safe (replicate 32 0) [104] 32))), 4096 + 17464, d2) /\
    same_data Ramdisk.fresh_ramdisk d2.
Proof.
  apply (@tinyfs_format_mount Z Ramdisk.ramdisk bump_heap _ _ ramdisk_sectors blank_data
    (replicate 512 0) (mk_fs [] None) [104] 4096 Ramdisk.fresh_ramdisk 4096 (4096 + 17464)).
  - exact Ramdisk.fresh_ramdisk_ready.
  - reflexivity.
  - reflexivity.
  - reflexivity.
  - reflexivity.
Defined.

Lemma tinyfs_unmount_mount_witness :
  exists fs1 h1 d1 d2,
    @tinyfs_unmount Z Ramdisk.ramdisk bump_heap _
      (mk_fs [] (Some (64, format_data [1]))) 4096 Ramdisk.fresh_ramdisk = (0, fs1, h1, d1) /\
    fs_private fs1 = None /\
    @tinyfs_mount Z Ramdisk.ramdisk bump_heap _ blank_data (replicate 512 0) fs1 [104] h1 d1 =
      (0, mk_fs [] (Some (4096, mk_data format_superblock (fat (format_data [1]))
         (dirents (format_data [1])) (strcpy_safe (replicate 32 0) [104] 32))), 4096 + 17464, d2) /\
    same_data Ramdisk.fresh_ramdisk d2.
Proof.
  apply (@tinyfs_unmount_mount Z Ramdisk.ramdisk bump_heap _ _ ramdisk_sectors blank_data
    (replicate 512 0) (mk_fs [] (Some (64, format_data [1]))) [104] 4096 Ramdisk.fresh_ramdisk
    64 (format_data [1]) 4096 (4096 + 17464)).
  - exact Ramdisk.fresh_ramdisk_ready.
  - exact (format_data_fits [1]).
  - unfold std_geometry. cbn. repeat split.
  - reflexivity.
  - reflexivity.
  - reflexivity.
  - reflexivity.
  - reflexivity.
Defined.

End TinyfsDisk.
