(* ===== verification/TinyFSBlocks.v ===== *)
(** * TinyFS: blocks and chains

    The chains of the file allocation table ([chain]), the part [blocks_ok] of
    the invariant that concerns the FAT and the free counter, and the two
    operations that change them: the block allocator and the release of a chain. *)
From Stdlib Require Import ZArith Lia.
From stdpp Require Import base numbers list gmap.
From S2P Require Import Prelude CStr BlockDev VfsTypes TinyFS TinyFSDisk.
Import Tinyfs TinyfsDisk.
Local Open Scope Z_scope.
Local Open Scope arr_scope.
Local Open Scope outcome_scope.

Module TinyfsBlocks.

(** ** Chains of the FAT *)
Definition in_data (b : Z) : Prop := 101 <= b < 1024.

(** [chain f b l]: following the FAT [f] from block [b] visits the data blocks [l]. *)
Inductive chain (f : list Z) : Z -> list Z -> Prop :=
| chain_last b : in_data b -> f !! Z.to_nat b = Some EOF -> chain f b [b]
| chain_next b b' l : in_data b -> f !! Z.to_nat b = Some b' -> chain f b' l -> chain f b (b :: l).

Lemma chain_in_data f b l : chain f b l -> Forall in_data l.
Proof. induction 1; auto using Forall_cons_2, Forall_nil_2. Qed.

Lemma chain_head f b l : chain f b l -> l !! 0%nat = Some b.
Proof. by destruct 1. Qed.

(** The successor of the [k]-th block. *)
Lemma chain_succ f b l k x : chain f b l -> l !! k = Some x ->
  in_data x /\ f !! Z.to_nat x = Some (default EOF (l !! S k)).
Proof.
  intros Hc. revert k. induction Hc as [b Hb Hf|b b' l Hb Hf Hc IH]; intros k Hk.
  - destruct k; simpl in Hk; [|done]. by simplify_eq.
  - destruct k as [|k]; simpl in Hk; [|by apply IH]. simplify_eq. split; [done|].
    simpl. by rewrite (chain_head _ _ _ Hc).
Qed.

Lemma chain_not_free f b l x : chain f b l -> x ∈ l -> f !! Z.to_nat x <> Some 0.
Proof.
  intros Hc [k Hk]%list_elem_of_lookup. destruct (chain_succ _ _ _ _ _ Hc Hk) as [_ ->].
  destruct (l !! S k) as [y|] eqn:E; simpl; [|done].
  destruct (chain_succ _ _ _ _ _ Hc E) as [Hy _]. unfold in_data in Hy. intros [=]. lia.
Qed.

Lemma chain_frame f f' b l : chain f b l ->
  (forall x, x ∈ l -> f' !! Z.to_nat x = f !! Z.to_nat x) -> chain f' b l.
Proof.
  induction 1 as [b Hb Hf|b b' l Hb Hf Hc IH]; intros He.
  - constructor; [done|]. rewrite He by set_solver. done.
  - econstructor; [done| |].
    + rewrite He by set_solver. exact Hf.
    + apply IH. set_solver.
Qed.

Lemma chain_EOF f l : ~ chain f EOF l.
Proof. intros Hc. inversion Hc; unfold in_data, EOF in *; lia. Qed.

(** A chain determines its blocks, so it cannot visit one twice. *)
Lemma chain_fun f b l l' : chain f b l -> chain f b l' -> l = l'.
Proof.
  intros Hc. revert l'. induction Hc as [b Hb Hf|b b' l Hb Hf Hc IH]; intros l' Hc'; inversion Hc'; subst.
  - done.
  - exfalso. eapply chain_EOF. match goal with H : chain f ?x _ |- _ =>
      replace x with EOF in H by congruence; exact H end.
  - exfalso. eapply chain_EOF. replace b' with EOF in Hc by congruence. exact Hc.
  - f_equal. apply IH. congruence.
Qed.

Lemma chain_suffix f b l x : chain f b l -> x ∈ l -> exists l1 l2, l = l1 ++ l2 /\ chain f x l2.
Proof.
  induction 1 as [b Hb Hf|b b' l Hb Hf Hc IH]; intros Hx.
  - assert (x = b) as -> by (by apply list_elem_of_singleton in Hx). exists [], [b]. split; [done|]. by constructor.
  - destruct (decide (x = b)) as [->|Hne].
    + exists [], (b :: l). split; [done|]. by econstructor.
    + destruct IH as (l1 & l2 & -> & Hc2); [set_solver|]. by exists (b :: l1), l2.
Qed.

Lemma chain_NoDup f b l : chain f b l -> NoDup l.
Proof.
  induction 1 as [b Hb Hf|b b' l Hb Hf Hc IH]; [apply NoDup_singleton|].
  apply NoDup_cons. split; [|done]. intros Hin.
  destruct (chain_suffix _ _ _ _ Hc Hin) as (l1 & l2 & -> & Hc2).
  assert (chain f b (b :: l1 ++ l2)) as Hc3 by (by econstructor).
  pose proof (chain_fun _ _ _ _ Hc2 Hc3) as E. apply (f_equal length) in E. simpl in E.
  rewrite length_app in E. lia.
Qed.

Lemma chain_length f b l : chain f b l -> (length l <= 923)%nat.
Proof.
  intros Hc. assert (length l <= length (seqZ 101 923))%nat as Hle; [|by rewrite length_seqZ in Hle].
  apply submseteq_length, NoDup_submseteq; [by eapply chain_NoDup|].
  intros x Hx. apply chain_in_data in Hc. rewrite Forall_forall in Hc. apply Hc in Hx.
  apply elem_of_seqZ. unfold in_data in Hx. lia.
Qed.

(** Appending a free block at the end of a chain. *)
Lemma chain_snoc f b l c n : chain f b l -> last l = Some c -> n ∉ l -> in_data n ->
  (Z.to_nat n < length f)%nat ->
  chain (<[Z.to_nat c := n]> (<[Z.to_nat n := EOF]> f)) b (l ++ [n]).
Proof.
  intros Hc. induction Hc as [b Hb Hf|b b' l Hb Hf Hc IH]; intros Hlast Hn Hnd Hlen.
  - simpl in Hlast. simplify_eq. assert (c <> n) by set_solver.
    assert (Z.to_nat c <> Z.to_nat n) by (unfold in_data in *; lia).
    apply (chain_next _ c n [n]); [done| |constructor; [done|]].
    + rewrite list_lookup_insert_eq; [done|]. rewrite length_insert. by eapply lookup_lt_Some.
    + rewrite list_lookup_insert_ne by done. by rewrite list_lookup_insert_eq.
  - assert (b <> c) as Hbc.
    { intros ->. assert (NoDup (c :: l)) as HN by (eapply chain_NoDup; by econstructor).
      apply NoDup_cons in HN as [HN _]. apply HN. destruct l as [|y l]; [inversion Hc|].
      rewrite last_cons_cons in Hlast. by apply last_Some_elem_of. }
    assert (in_data c) as Hcd.
    { assert (c ∈ l) as Hcl.
      { destruct l as [|y l]; [inversion Hc|]. rewrite last_cons_cons in Hlast. by apply last_Some_elem_of. }
      apply chain_in_data in Hc. rewrite Forall_forall in Hc. by apply Hc. }
    assert (b <> n) by set_solver. simpl. econstructor; [done| |].
    + rewrite !list_lookup_insert_ne by (unfold in_data in *; lia). exact Hf.
    + apply IH; [|set_solver|done|done]. destruct l; [inversion Hc|]. by rewrite last_cons_cons in Hlast.
Qed.

(** ** Free blocks *)
Definition free_count (f : list Z) : Z := Z.of_nat (length (filter (fun x => x = 0) (drop 101 f))).

Lemma filter_zero_insert (l : list Z) k v : (k < length l)%nat ->
  Z.of_nat (length (filter (fun x => x = 0) (<[k := v]> l))) =
  Z.of_nat (length (filter (fun x => x = 0) l))
  - (if decide (l.[k] = 0) then 1 else 0) + (if decide (v = 0) then 1 else 0).
Proof.
  revert k. induction l as [|y l IH]; intros k Hk; [simpl in Hk; lia|].
  destruct k as [|k]; simpl.
  - change (get (y :: l) 0) with y. rewrite !filter_cons. repeat case_decide; simpl; lia.
  - change (get (y :: l) (S k)) with (get l k). rewrite !filter_cons.
    specialize (IH k ltac:(simpl in Hk; lia)). repeat case_decide; simpl; lia.
Qed.

Lemma free_count_insert f b v : length f = 1024%nat -> in_data b ->
  free_count (<[Z.to_nat b := v]> f) =
  free_count f - (if decide (f.[Z.to_nat b] = 0) then 1 else 0) + (if decide (v = 0) then 1 else 0).
Proof.
  intros Hl Hb. unfold free_count, in_data in *. rewrite drop_insert_ge by lia.
  rewrite filter_zero_insert by (rewrite length_drop; lia).
  rewrite get_drop. replace (101 + (Z.to_nat b - 101))%nat with (Z.to_nat b) by lia. done.
Qed.

Lemma free_count_bound f : length f = 1024%nat -> 0 <= free_count f <= 923.
Proof.
  intros Hl. unfold free_count. pose proof (length_filter (fun x : Z => x = 0) (drop 101 f)) as Hf.
  rewrite length_drop in Hf. lia.
Qed.

(** The part of the invariant about blocks: geometry, FAT size and the free counter. *)
Definition blocks_ok (data : tinyfs_data) : Prop :=
  std_geometry (sb data) /\ length (fat data) = 1024%nat /\ Forall is_u32 (fat data) /\
  free_blocks (sb data) = free_count (fat data).

(** [allocate_block] took block [b]. *)
Definition took_block (data : tinyfs_data) (b : Z) : tinyfs_data :=
  set_free_blocks (set_fat data (<[Z.to_nat b := EOF]> (fat data))) (u32 (free_blocks (sb data) - 1)).

Lemma aget_fat (f : list Z) b x : in_data b -> f !! Z.to_nat b = Some x -> aget f b = Done x.
Proof. intros Hb. apply aget_lookup. unfold in_data in Hb. lia. Qed.

Lemma aset_fat (f : list Z) b x : length f = 1024%nat -> in_data b -> aset f b x = Done (<[Z.to_nat b := x]> f).
Proof. intros Hl Hb. apply aset_done. unfold in_data in Hb. lia. Qed.

Lemma allocate_from_spec n i data : length (fat data) = 1024%nat -> 101 <= i -> i + Z.of_nat n <= 1024 ->
  (exists b, allocate_from n i data = Done (b, took_block data b) /\ i <= b < i + Z.of_nat n /\
     fat data !! Z.to_nat b = Some 0 /\
     forall j, i <= j < b -> fat data !! Z.to_nat j <> Some 0) \/
  (allocate_from n i data = Done (-1, data) /\
     forall j, i <= j < i + Z.of_nat n -> fat data !! Z.to_nat j <> Some 0).
Proof.
  intros Hl. revert i. induction n as [|n IH]; intros i Hi Hn; cbn [allocate_from].
  { right. split; [done|]. lia. }
  assert (in_data i) as Hid by (unfold in_data; lia).
  destruct (lookup_lt_is_Some_2 (fat data) (Z.to_nat i)) as [x Hx]; [lia|].
  rewrite (aget_fat _ _ _ Hid Hx). cbn [obind]. destruct (Z.eqb_spec x 0) as [->|Hx0].
  - left. exists i. rewrite aset_fat by done. cbn [obind]. split_and!; [done|lia|lia|done|lia].
  - destruct (IH (i + 1)) as [(b & E & Hb & Hf & Hmin)|(E & Hno)]; [lia|lia|left|right].
    + exists b. split_and!; [done|lia|lia|done|]. intros j Hj.
      destruct (decide (j = i)) as [->|]; [congruence|]. apply Hmin. lia.
    + split; [done|]. intros j Hj. destruct (decide (j = i)) as [->|]; [congruence|]. apply Hno. lia.
Qed.

(** What [allocate_block] does: the first free data block, or -1 when there is none. *)
Lemma allocate_block_cases data : blocks_ok data ->
  (exists b, allocate_block data = Done (b, took_block data b) /\ in_data b /\
     fat data !! Z.to_nat b = Some 0 /\ forall j, 101 <= j < b -> fat data !! Z.to_nat j <> Some 0) \/
  (allocate_block data = Done (-1, data) /\ forall j, in_data j -> fat data !! Z.to_nat j <> Some 0).
Proof.
  intros ((_ & Ht & _ & _ & Hs) & Hl & _). unfold allocate_block. rewrite Ht, Hs.
  destruct (allocate_from_spec (Z.to_nat (1024 - 101)) 101 data Hl) as [(b & E & Hb & Hf & Hmin)|(E & Hno)];
    [lia|lia|left|right].
  - exists b. split_and!; [done|unfold in_data; lia|done|done].
  - split; [done|]. intros j Hj. apply Hno. unfold in_data in Hj. lia.
Qed.

Lemma took_block_ok data b : blocks_ok data -> in_data b -> fat data !! Z.to_nat b = Some 0 ->
  blocks_ok (took_block data b).
Proof.
  intros (Hg & Hl & Hu & Hf) Hb H0. unfold took_block, set_free_blocks, set_fat.
  split_and!; cbn [sb fat free_blocks].
  - exact Hg.
  - by rewrite length_insert.
  - apply Forall_insert; [done|]. unfold is_u32, EOF. lia.
  - rewrite free_count_insert by done. rewrite (get_lookup _ _ _ H0).
    pose proof (free_count_insert (fat data) b EOF Hl Hb) as HF. rewrite (get_lookup _ _ _ H0) in HF.
    rewrite decide_True in HF |- * by done. rewrite decide_False in HF |- * by done.
    pose proof (free_count_bound (<[Z.to_nat b := EOF]> (fat data)) ltac:(by rewrite length_insert)).
    pose proof (free_count_bound (fat data) Hl). rewrite Hf, wrap_small; lia.
Qed.

Lemma set_fat_ok data b v : blocks_ok data -> in_data b -> is_u32 v -> v <> 0 ->
  fat data !! Z.to_nat b <> Some 0 -> blocks_ok (set_fat data (<[Z.to_nat b := v]> (fat data))).
Proof.
  intros (Hg & Hl & Hu & Hf) Hb Hv Hv0 H0. unfold set_fat. split_and!; cbn [sb fat]; [done| | |].
  - by rewrite length_insert.
  - by apply Forall_insert.
  - rewrite free_count_insert by done. rewrite (decide_False (P := v = 0)) by done.
    rewrite decide_False; [lia|]. intros E. apply H0.
    rewrite lookup_get by (unfold in_data in Hb; lia). by rewrite E.
Qed.

(** ** Releasing a chain *)
Lemma free_chain_loop_spec fuel b l data : blocks_ok data -> chain (fat data) b l -> (length l <= fuel)%nat ->
  exists data', free_chain_loop fuel b data = Done data' /\ blocks_ok data' /\
    dirents data' = dirents data /\ device data' = device data /\
    free_blocks (sb data') = free_blocks (sb data) + Z.of_nat (length l) /\
    (forall x, 0 <= x -> fat data' !! Z.to_nat x = if decide (x ∈ l) then Some 0 else fat data !! Z.to_nat x).
Proof.
  revert b l data. induction fuel as [|fuel IH]; intros b l data Hok Hc Hlen.
  { pose proof (chain_head _ _ _ Hc). destruct l; [done|]. simpl in Hlen. lia. }
  pose proof Hok as (Hg & Hl & Hu & Hf). pose proof (chain_NoDup _ _ _ Hc) as Hnd.
  pose proof (chain_head _ _ _ Hc) as Hhead. destruct l as [|b0 l]; [done|]. simpl in Hhead. simplify_eq.
  destruct (chain_succ _ _ _ 0 b Hc eq_refl) as [Hb Hnext]. cbn [free_chain_loop].
  destruct (Z.eqb_spec b EOF) as [->|_]; [unfold in_data, EOF in Hb; lia|].
  destruct (Z.eqb_spec b 0) as [->|_]; [unfold in_data in Hb; lia|]. cbn [orb].
  rewrite (aget_fat _ _ _ Hb Hnext), aset_fat by done. cbn [obind].
  set (data1 := set_free_blocks _ _).
  assert (fat data !! Z.to_nat b <> Some 0) as Hnz by (apply (chain_not_free _ _ _ _ Hc); set_solver).
  assert (free_count (<[Z.to_nat b := 0]> (fat data)) = free_count (fat data) + 1) as Hfc.
  { rewrite free_count_insert by done. rewrite decide_False, decide_True; [lia|done|].
    intros E. apply Hnz. rewrite lookup_get by (unfold in_data in Hb; lia). by rewrite E. }
  pose proof (free_count_bound (<[Z.to_nat b := 0]> (fat data)) ltac:(by rewrite length_insert)) as Hbd.
  pose proof (free_count_bound (fat data) Hl) as Hbd0.
  assert (free_blocks (sb data1) = free_blocks (sb data) + 1) as Hfb.
  { unfold data1. cbn. rewrite Hf. apply wrap_small. lia. }
  assert (blocks_ok data1) as Hok1.
  { split_and!; [exact Hg|unfold data1; cbn [fat set_free_blocks set_fat]; by rewrite length_insert| |].
    - unfold data1; cbn [fat set_free_blocks set_fat]. apply Forall_insert; [done|]. unfold is_u32. lia.
    - rewrite Hfb. unfold data1; cbn [fat set_free_blocks set_fat]. lia. }
  apply NoDup_cons in Hnd as [Hnin Hnd].
  assert (forall x, 0 <= x -> x <> b -> fat data1 !! Z.to_nat x = fat data !! Z.to_nat x) as Hsame.
  { intros x Hx Hne. unfold data1. cbn [fat set_free_blocks set_fat].
    apply list_lookup_insert_ne. unfold in_data in Hb. lia. }
  assert (fat data1 !! Z.to_nat b = Some 0) as Hz.
  { unfold data1. cbn [fat set_free_blocks set_fat]. apply list_lookup_insert_eq. unfold in_data in Hb. lia. }
  inversion Hc as [|? b' ? _ Hb' Hc']; subst.
  - simpl. exists data1. destruct fuel; cbn [free_chain_loop];
      (split_and!; [done|done|done|done|rewrite Hfb; cbn [length]; lia|]; intros x Hx; case_decide as Hd;
       [assert (x = b) as -> by set_solver; done|apply Hsame; set_solver]).
  - assert (default EOF ((b :: l) !! 1%nat) = b') as -> by (change ((b :: l) !! 1%nat) with (l !! 0%nat); by rewrite (chain_head _ _ _ Hc')).
    assert (chain (fat data1) b' l) as Hc1.
    { eapply chain_frame; [done|]. intros x Hx. apply Hsame; [|set_solver].
      apply chain_in_data in Hc'. rewrite Forall_forall in Hc'. apply Hc' in Hx. unfold in_data in Hx. lia. }
    destruct (IH b' l data1 Hok1 Hc1) as (data' & E & Hok' & Hd' & Hv' & Hfb' & Hx'); [simpl in Hlen; lia|].
    exists data'. split_and!; [done|done|by rewrite Hd'|by rewrite Hv'|simpl; lia|].
    intros x Hx. rewrite Hx' by done. destruct (decide (x = b)) as [->|Hne].
    + rewrite decide_False, decide_True by set_solver. done.
    + rewrite Hsame by done. repeat case_decide; set_solver.
Qed.

(** ** Growing a chain *)

(** [grown data b l data' l']: [data'] is [data] with the chain of [b] extended
    from [l] to [l'] by blocks that were free. *)
Record grown (data : tinyfs_data) (b : Z) (l : list Z) (data' : tinyfs_data) (l' : list Z) : Prop := {
  gr_blocks : blocks_ok data';
  gr_chain : chain (fat data') b l';
  gr_prefix : l `prefix_of` l';
  gr_free : forall x, x ∈ l' -> x ∈ l \/ fat data !! Z.to_nat x = Some 0;
  gr_frame : forall x, 0 <= x -> x ∉ l' -> fat data' !! Z.to_nat x = fat data !! Z.to_nat x;
  gr_dirents : dirents data' = dirents data;
  gr_device : device data' = device data;
  gr_count : free_blocks (sb data') + Z.of_nat (length l') = free_blocks (sb data) + Z.of_nat (length l) }.

Lemma grown_refl data b l : blocks_ok data -> chain (fat data) b l -> grown data b l data l.
Proof. split; auto. Qed.

Lemma grown_trans data b l data1 l1 data2 l2 :
  grown data b l data1 l1 -> grown data1 b l1 data2 l2 -> grown data b l data2 l2.
Proof.
  intros [B1 C1 P1 F1 R1 D1 V1 N1] [B2 C2 P2 F2 R2 D2 V2 N2].
  assert (forall x, x ∈ l1 -> x ∈ l2) as Hsub.
  { intros x Hx. destruct P2 as [k ->]. apply elem_of_app. by left. }
  split; [done|done|by etrans| | |congruence|congruence|lia].
  - intros x Hx. destruct (F2 x Hx) as [Hx1|Hx1]; [by apply F1|].
    destruct (decide (x ∈ l1)) as [Hin|Hin]; [by apply F1|]. right. rewrite <- R1; [done| |done].
    apply chain_in_data in C2. rewrite Forall_forall in C2. apply C2 in Hx. unfold in_data in Hx. lia.
  - intros x Hx Hn. rewrite R2, R1; [done..| |done|done]. intros Hx1. by apply Hn, Hsub.
Qed.

Lemma free_count_pos data b : blocks_ok data -> in_data b -> fat data !! Z.to_nat b = Some 0 ->
  0 < free_blocks (sb data) /\ free_blocks (sb (took_block data b)) = free_blocks (sb data) - 1.
Proof.
  intros Hok Hb H0. pose proof (took_block_ok _ _ Hok Hb H0) as (_ & Hl' & _ & E').
  pose proof Hok as (_ & Hl & _ & E). pose proof (free_count_bound _ Hl').
  rewrite E', E. cbn [fat took_block set_free_blocks set_fat] in *. rewrite free_count_insert in * by done.
  rewrite (get_lookup _ _ _ H0) in *. rewrite decide_True, decide_False in * by done. lia.
Qed.

Lemma grow_one data b l c nb : blocks_ok data -> chain (fat data) b l -> last l = Some c ->
  in_data nb -> fat data !! Z.to_nat nb = Some 0 ->
  grown data b l (set_fat (took_block data nb) (<[Z.to_nat c := nb]> (fat (took_block data nb)))) (l ++ [nb]).
Proof.
  intros Hok Hc Hlast Hnb H0. pose proof Hok as (_ & Hl & _).
  assert (nb ∉ l) as Hnin by (intros Hin; by apply (chain_not_free _ _ _ _ Hc) in Hin).
  assert (c ∈ l) as Hcl by (by apply last_Some_elem_of).
  assert (in_data c) as Hcd.
  { pose proof (chain_in_data _ _ _ Hc) as HF. rewrite Forall_forall in HF. by apply HF. }
  assert (Z.to_nat nb <> Z.to_nat c) as Hne.
  { unfold in_data in *. intros E. assert (nb = c) by lia. congruence. }
  split; [| |by apply prefix_app_r| | |done|done|].
  - apply set_fat_ok; [by apply took_block_ok|done|unfold in_data in Hnb; unfold is_u32; lia|unfold in_data in Hnb; lia|].
    cbn [fat took_block set_free_blocks set_fat]. rewrite list_lookup_insert_ne by done.
    by apply (chain_not_free _ _ _ _ Hc).
  - apply (chain_snoc _ _ _ _ _ Hc Hlast Hnin Hnb). unfold in_data in Hnb. lia.
  - intros x [Hx|Hx]%elem_of_app; [by left|]. apply list_elem_of_singleton in Hx as ->. by right.
  - intros x Hx Hn. rewrite not_elem_of_app, list_elem_of_singleton in Hn. destruct Hn as [Hn1 Hn2].
    cbn [fat took_block set_free_blocks set_fat].
    rewrite !list_lookup_insert_ne; [done| |]; unfold in_data in *; intros E.
    + assert (nb = x) by lia. done.
    + assert (c = x) by lia. by subst.
  - destruct (free_count_pos data nb Hok Hnb H0) as [_ E]. cbn [sb set_fat]. rewrite E, length_app. cbn [length]. lia.
Qed.

Lemma free_count_zero data : blocks_ok data -> (forall j, in_data j -> fat data !! Z.to_nat j <> Some 0) ->
  free_blocks (sb data) = 0.
Proof.
  intros (_ & Hl & _ & ->) Hno. unfold free_count.
  destruct (filter (fun x => x = 0) (drop 101 (fat data))) as [|x r] eqn:E; [done|exfalso].
  assert (x ∈ filter (fun x => x = 0) (drop 101 (fat data))) as Hx by (rewrite E; set_solver).
  apply list_elem_of_filter in Hx as [-> [i Hi]%list_elem_of_lookup]. rewrite lookup_drop in Hi.
  apply lookup_lt_Some in Hi as Hlt. apply (Hno (Z.of_nat (101 + i))); [unfold in_data; lia|].
  by rewrite Nat2Z.id.
Qed.

(** Stepping from the [k]-th block of a chain to the next, as both loops of
    [tinyfs_write] do. *)
Lemma next_block data b l k cur : blocks_ok data -> chain (fat data) b l -> l !! k = Some cur ->
  (exists nx, l !! S k = Some nx /\ aget (fat data) cur = Done nx /\ (nx =? EOF) = false) \/
  (aget (fat data) cur = Done EOF /\ length l = S k /\
   ((allocate_block data = Done (-1, data) /\ free_blocks (sb data) = 0) \/
    (exists nb data1 f, allocate_block data = Done (nb, data1) /\ (nb <? 0) = false /\
       aset (fat data1) cur nb = Done f /\ grown data b l (set_fat data1 f) (l ++ [nb])))).
Proof.
  intros Hok Hc Hk. destruct (chain_succ _ _ _ _ _ Hc Hk) as [Hcur Hnext].
  rewrite (aget_fat _ _ _ Hcur Hnext). pose proof (lookup_lt_Some _ _ _ Hk) as Hlt.
  destruct (l !! S k) as [nx|] eqn:E; [left|right].
  - exists nx. destruct (chain_succ _ _ _ _ _ Hc E) as [Hnx _]. split_and!; [done..|].
    apply Z.eqb_neq. unfold in_data, EOF in *. lia.
  - apply lookup_ge_None in E. assert (length l = S k) as Hlen by lia. split_and!; [done..|].
    assert (last l = Some cur) as Hlast by (by rewrite last_lookup, Hlen).
    destruct (allocate_block_cases data Hok) as [(nb & E1 & Hnb & H0 & _)|(E1 & Hno)]; [right|left].
    + eexists nb, _, _. split_and!; [exact E1|unfold in_data in Hnb; lia| |by apply grow_one].
      apply aset_fat; [|done]. cbn [fat took_block set_free_blocks set_fat]. rewrite length_insert. apply Hok.
    + split; [done|]. by apply free_count_zero.
Qed.

(** ** The two operations, as their callers see them *)

(** The block allocator is first fit and the free counter is exact: while [free_blocks] is positive
    [allocate_block] returns the lowest free data block, marks it as a one-block chain and decrements the
    counter; when the counter is 0 it returns -1 and changes nothing. It never leaves the FAT. *)
Theorem allocate_block_first_fit data : blocks_ok data ->
  (0 < free_blocks (sb data) ->
     exists b data', allocate_block data = Done (b, data') /\ in_data b /\
       fat data !! Z.to_nat b = Some 0 /\ (forall j, 101 <= j < b -> fat data !! Z.to_nat j <> Some 0) /\
       fat data' = <[Z.to_nat b := EOF]> (fat data) /\ blocks_ok data' /\
       free_blocks (sb data') = free_blocks (sb data) - 1) /\
  (free_blocks (sb data) = 0 -> allocate_block data = Done (-1, data)).
Proof.
  intros Hok. destruct (allocate_block_cases data Hok) as [(b & E & Hb & H0 & Hmin)|(E & Hno)].
  - destruct (free_count_pos _ _ Hok Hb H0) as [Hpos Hdec]. split; [intros _|lia].
    exists b, (took_block data b). split_and!; [done..|by apply took_block_ok|done].
  - pose proof (free_count_zero _ Hok Hno) as Hz. split; [lia|done].
Qed.

(** Releasing a file: on a chain of the FAT [free_block_chain] terminates within its 1024 steps, marks
    exactly the blocks of the chain free, adds their number to [free_blocks] and touches nothing else. *)
Theorem free_block_chain_releases data b l : blocks_ok data -> chain (fat data) b l ->
  exists data', free_block_chain data b = Done data' /\ blocks_ok data' /\
    dirents data' = dirents data /\ device data' = device data /\
    free_blocks (sb data') = free_blocks (sb data) + Z.of_nat (length l) /\
    (forall x, 0 <= x -> fat data' !! Z.to_nat x = if decide (x ∈ l) then Some 0 else fat data !! Z.to_nat x).
Proof.
  intros Hok Hc. apply free_chain_loop_spec; [done..|]. pose proof (chain_length _ _ _ Hc). lia.
Qed.

(** A file system with one two-block file, 105 -> 103. *)
Definition two_block_fat : list Z := <[105%nat := 103]> (<[103%nat := EOF]> (replicate 101 EOF ++ replicate 923 0)).
Definition two_block_data : tinyfs_data :=
  mk_data (mk_sb TINYFS_MAGIC 1024 1 11 101 921) two_block_fat
    (<[1%nat := mk_dirent (strcpy_safe (replicate 32 0) [97] 32) 105 700 0 1 0 [0; 0]]> (replicate 256 null_dirent))
    (replicate 32 0).

Lemma two_block_ok : blocks_ok two_block_data.
Proof.
  split_and!; [by vm_compute..| |by vm_compute].
  apply Forall_insert; [apply Forall_insert; [apply Forall_app; split; apply Forall_replicate|]|];
    unfold is_u32, EOF; lia.
Qed.

Lemma two_block_chain : chain two_block_fat 105 [105; 103].
Proof.
  apply (chain_next _ _ 103); [unfold in_data; lia|reflexivity|].
  apply chain_last; [unfold in_data; lia|reflexivity].
Qed.

Lemma allocate_block_first_fit_witness : blocks_ok two_block_data /\
  (0 < free_blocks (sb two_block_data) ->
     exists b data', allocate_block two_block_data = Done (b, data') /\ in_data b /\
       fat two_block_data !! Z.to_nat b = Some 0 /\
       (forall j, 101 <= j < b -> fat two_block_data !! Z.to_nat j <> Some 0) /\
       fat data' = <[Z.to_nat b := EOF]> (fat two_block_data) /\ blocks_ok data' /\
       free_blocks (sb data') = free_blocks (sb two_block_data) - 1).
Proof. split; [exact two_block_ok|]. apply (allocate_block_first_fit two_block_data). exact two_block_ok. Defined.

Lemma free_block_chain_releases_witness :
  exists data', free_block_chain two_block_data 105 = Done data' /\ blocks_ok data' /\
    dirents data' = dirents two_block_data /\ device data' = device two_block_data /\
    free_blocks (sb data') = free_blocks (sb two_block_data) + Z.of_nat (length [105; 103]) /\
    (forall x, 0 <= x -> fat data' !! Z.to_nat x =
       if decide (x ∈ [105; 103]) then Some 0 else fat two_block_data !! Z.to_nat x).
Proof.
  apply (free_block_chain_releases two_block_data 105 [105; 103]).
  - exact two_block_ok.
  - exact two_block_chain.
Defined.

End TinyfsBlocks.
