(* ===== verification/TinyFSIO.v ===== *)
(** * TinyFS: reading and writing files

    A file is the concatenation of the sectors of its chain ([file_bytes]), cut
    at its size. [tinyfs_read] returns the requested part of it and
    [tinyfs_write] splices the buffer into it, extending the chain with free
    blocks; both keep the invariant [fs_inv] of the mounted file system and
    leave every other file as it was. *)
From Stdlib Require Import ZArith Lia.
From stdpp Require Import base numbers list gmap.
From S2P Require Import Prelude CStr BlockDev VfsTypes TinyFS TinyFSDisk TinyFSBlocks.
Import Tinyfs TinyfsDisk TinyfsBlocks.
Local Open Scope Z_scope.
Local Open Scope arr_scope.
Local Open Scope outcome_scope.

Module TinyfsIO.

(** ** The invariant of a mounted file system

    [ch i] is the chain of entry [i]. *)
Definition entry_ok (f : list Z) (de : dirent) (l : list Z) : Prop :=
  (first_block de = 0 /\ l = [] /\ d_size de = 0) \/
  (chain f (first_block de) l /\ d_size de <= 512 * Z.of_nat (length l)).

Definition used (data : tinyfs_data) (i : nat) : Prop := (i < 256)%nat /\ d_used (dirent_at data i) <> 0.

Record fs_inv (data : tinyfs_data) (ch : nat -> list Z) : Prop := {
  inv_fits : data_fits data;
  inv_blocks : blocks_ok data;
  inv_entries : forall i, used data i -> entry_ok (fat data) (dirent_at data i) (ch i);
  inv_disjoint : forall i j, used data i -> used data j -> i <> j -> ch i ## ch j }.

(** Two adjacent copies are one. *)
Lemma list_inserts_split {A} (x y l : list A) r : (r + length x + length y <= length l)%nat ->
  list_inserts (r + length x) y (list_inserts r x l) = list_inserts r (x ++ y) l.
Proof.
  intros Hl. apply list_eq. intros i. destruct (decide (i < r)%nat).
  { rewrite !list_lookup_inserts_lt by lia. done. }
  destruct (decide (i < r + length x)%nat).
  { rewrite list_lookup_inserts_lt, !list_lookup_inserts, lookup_app_l
      by (rewrite ?length_app; lia). done. }
  destruct (decide (i < r + length x + length y)%nat).
  { rewrite !list_lookup_inserts, lookup_app_r
      by (rewrite ?length_inserts, ?length_app; lia). f_equal; lia. }
  rewrite !list_lookup_inserts_ge by (rewrite ?length_app; lia). done.
Qed.

Lemma take_take_drop {A} (l : list A) t n p : (t <= n)%nat ->
  take n (drop p l) = take t (drop p l) ++ take (n - t) (drop (p + t) l).
Proof.
  intros Ht. rewrite <- drop_drop. rewrite <- (take_drop t (take n (drop p l))) at 1.
  rewrite take_take, Nat.min_l by done. f_equal. by rewrite <- skipn_firstn_comm.
Qed.

Lemma used_fits data ch i : fs_inv data ch -> used data i -> dirent_fits (dirent_at data i).
Proof. intros Hi [Hu _]. apply dirent_at_fits; [apply Hi|done]. Qed.

(** ** Changing one file keeps the invariant *)
Definition chains_upd (ch : nat -> list Z) (i : nat) (l : list Z) : nat -> list Z :=
  fun j => if decide (j = i) then l else ch j.

Lemma chains_upd_eq ch i l : chains_upd ch i l i = l.
Proof. unfold chains_upd. by rewrite decide_True. Qed.

Lemma chains_upd_ne ch i j l : j <> i -> chains_upd ch i l j = ch j.
Proof. intros Hne. unfold chains_upd. by rewrite decide_False. Qed.

Lemma chains_upd_twice ch i l l' j : chains_upd (chains_upd ch i l) i l' j = chains_upd ch i l' j.
Proof. unfold chains_upd. by case_decide. Qed.

(** Entry [de] with another first block and size. *)
Definition with_block_size (de : dirent) (b size : Z) : dirent :=
  mk_dirent (d_name de) b size (is_directory de) (d_used de) (parent_inode de) (d_padding de).

Lemma with_block_size_id de : with_block_size de (first_block de) (d_size de) = de.
Proof. by destruct de. Qed.

Lemma dirent_at_insert data data' i de j : (i < length (dirents data))%nat ->
  dirents data' = <[i := de]> (dirents data) ->
  dirent_at data' j = if decide (j = i) then de else dirent_at data j.
Proof.
  intros Hi E. unfold dirent_at. rewrite !nth_lookup, E. case_decide as Hj.
  - subst. by rewrite list_lookup_insert_eq.
  - by rewrite list_lookup_insert_ne.
Qed.

Lemma entry_blocks f de l x : entry_ok f de l -> x ∈ l -> in_data x /\ f !! Z.to_nat x <> Some 0.
Proof.
  intros [(_ & -> & _)|[Hc _]] Hx; [by apply not_elem_of_nil in Hx|]. split.
  - apply chain_in_data in Hc. rewrite Forall_forall in Hc. by apply Hc.
  - by apply (chain_not_free _ _ _ _ Hc).
Qed.

Lemma entry_frame f f' de l : entry_ok f de l ->
  (forall x, x ∈ l -> f' !! Z.to_nat x = f !! Z.to_nat x) -> entry_ok f' de l.
Proof. intros [?|[Hc Hs]] Hf; [by left|right]. split; [by eapply chain_frame|done]. Qed.

(** The new chain of entry [i] may take over blocks that were free. *)
Lemma inv_update data ch i data' de' l' : fs_inv data ch -> used data i -> blocks_ok data' ->
  dirents data' = <[i := de']> (dirents data) -> dirent_fits de' -> d_used de' = d_used (dirent_at data i) ->
  entry_ok (fat data') de' l' ->
  (forall x, x ∈ l' -> x ∈ ch i \/ fat data !! Z.to_nat x = Some 0) ->
  (forall x, 0 <= x -> x ∉ l' -> fat data' !! Z.to_nat x = fat data !! Z.to_nat x) ->
  fs_inv data' (chains_upd ch i l') /\ used data' i.
Proof.
  intros Hinv [Hi Hu] Hok Hd Hfit Hused Hent Hfree Hframe.
  pose proof (inv_fits _ _ Hinv) as (_ & _ & _ & Hdl & Hdf).
  assert (forall j, dirent_at data' j = if decide (j = i) then de' else dirent_at data j) as Hat.
  { intros j. apply dirent_at_insert; [lia|done]. }
  assert (forall j, used data' j -> used data j) as Hback.
  { intros j [Hj Hju]. split; [done|]. rewrite Hat in Hju. case_decide; [subst; by rewrite <- Hused|done]. }
  assert (forall j, used data j -> j <> i -> ch j ## l') as Hdis.
  { intros j Hj Hne x Hx Hx'. destruct (Hfree x Hx') as [Hxi|Hx0].
    - by apply (inv_disjoint _ _ Hinv j i Hj (conj Hi Hu) Hne x).
    - by apply (entry_blocks _ _ _ _ (inv_entries _ _ Hinv j Hj) Hx). }
  split; [split|].
  - pose proof Hok as (Hg & Hl & Hf & Hfb). destruct Hg as (Hg1 & Hg2 & Hg3 & Hg4 & Hg5).
    pose proof (free_count_bound _ Hl). unfold data_fits, sb_fits.
    rewrite Hg1, Hg2, Hg3, Hg4, Hg5, Hfb, Hd, length_insert. unfold is_u32, TINYFS_MAGIC.
    split_and!; [lia..|done|done|done|by apply Forall_insert].
  - done.
  - intros j Hj. rewrite Hat. destruct (decide (j = i)) as [->|Hne]; [by rewrite chains_upd_eq|].
    rewrite chains_upd_ne by done. pose proof (inv_entries _ _ Hinv j (Hback j Hj)) as Hej.
    eapply entry_frame; [exact Hej|]. intros x Hx. apply Hframe.
    + destruct (entry_blocks _ _ _ _ Hej Hx) as [Hxd _]. unfold in_data in Hxd. lia.
    + intros Hx'. by apply (Hdis j (Hback j Hj) Hne x).
  - intros j k Hj%Hback Hk%Hback Hne. unfold chains_upd. repeat case_decide; subst; [done|..].
    + intros x Hx Hx'. by apply (Hdis k Hk ltac:(done) x).
    + by apply Hdis.
    + by apply (inv_disjoint _ _ Hinv).
  - split; [done|]. rewrite Hat, decide_True by done. by rewrite Hused.
Qed.

Lemma dirents_insert_id data i : (i < length (dirents data))%nat ->
  <[i := dirent_at data i]> (dirents data) = dirents data.
Proof. intros Hi. apply list_insert_id. by apply lookup_dirent_at. Qed.

(** The first block of the file that is about to be written. *)
Lemma first_block_alloc_spec data ch i : fs_inv data ch -> used data i ->
  (first_block_alloc data i = Done (false, data) /\ free_blocks (sb data) = 0 /\ ch i = []) \/
  (exists data1 b l1, first_block_alloc data i = Done (true, data1) /\
     dirents data1 = <[i := with_block_size (dirent_at data i) b (d_size (dirent_at data i))]> (dirents data) /\
     fs_inv data1 (chains_upd ch i l1) /\ used data1 i /\ chain (fat data1) b l1 /\ ch i `prefix_of` l1 /\
     (forall x, x ∈ l1 -> x ∈ ch i \/ fat data !! Z.to_nat x = Some 0) /\
     free_blocks (sb data1) + Z.of_nat (length l1) = free_blocks (sb data) + Z.of_nat (length (ch i))).
Proof.
  intros Hinv Hu. pose proof Hu as [Hi _]. pose proof (inv_blocks _ _ Hinv) as Hok.
  pose proof (inv_fits _ _ Hinv) as (_ & Hfl & _ & Hdl & _).
  pose proof (used_fits _ _ _ Hinv Hu) as (Hf1 & Hf2 & Hf3 & Hf4 & Hf5).
  unfold first_block_alloc. destruct (inv_entries _ _ Hinv i Hu) as [(Hz & Hnil & Hsz)|[Hc Hle]].
  - rewrite Hz. cbn [Z.eqb]. destruct (allocate_block_cases data Hok) as [(b & -> & Hb & H0 & _)|(-> & Hno)]; cbn [obind].
    2: { left. split; [done|]. split; [by apply free_count_zero|done]. }
    right. rewrite (proj2 (Z.ltb_ge b 0)) by (unfold in_data in Hb; lia).
    exists (set_dirent (took_block data b) i (with_block_size (dirent_at data i) b (d_size (dirent_at data i)))), b, [b].
    assert (chain (<[Z.to_nat b := EOF]> (fat data)) b [b]) as Hcb.
    { constructor; [done|]. apply list_lookup_insert_eq. unfold in_data in Hb. lia. }
    assert (forall x, x ∈ [b] -> x ∈ ch i \/ fat data !! Z.to_nat x = Some 0) as Hfree.
    { intros x ->%list_elem_of_singleton. by right. }
    apply and_assoc. split; [done|]. apply and_assoc. split.
    + apply (inv_update data ch i _ (with_block_size (dirent_at data i) b (d_size (dirent_at data i))));
        [done|done|exact (took_block_ok _ _ Hok Hb H0)|done| |done| |done|].
      * split_and!; [done| |done..]. cbn. unfold in_data in Hb. unfold is_u32. lia.
      * right. split; [exact Hcb|]. cbn [d_size with_block_size length]. lia.
      * intros x Hx Hn. apply list_lookup_insert_ne. rewrite list_elem_of_singleton in Hn. unfold in_data in Hb. lia.
    + split_and!; [exact Hcb|rewrite Hnil; apply prefix_nil|done|].
      destruct (free_count_pos data b Hok Hb H0) as [_ E]. cbn [sb set_dirent]. rewrite E, Hnil. cbn [length]. lia.
  - destruct (Z.eqb_spec (first_block (dirent_at data i)) 0) as [E|_].
    { exfalso. apply chain_head in Hc as Hh. pose proof (chain_succ _ _ _ _ _ Hc Hh) as [Hd _]. unfold in_data in Hd. lia. }
    right. exists data, (first_block (dirent_at data i)), (ch i).
    rewrite with_block_size_id, dirents_insert_id by lia. apply and_assoc. split; [done|].
    apply and_assoc. split; [|split_and!; [done..|by left|done]].
    apply (inv_update data ch i _ (dirent_at data i)); [done..|by rewrite dirents_insert_id by lia|done|done|by right|by left|done].
Qed.

(** [take off c ++ chunk ++ drop (off + length chunk) c]: [chunk] written over [c] at [off]. *)
Definition splice (c : list Z) (off : nat) (chunk : list Z) : list Z :=
  take off c ++ chunk ++ drop (off + length chunk) c.

Lemma take_inserts_splice (c : list Z) (size off : nat) chunk :
  (off <= size)%nat -> (size <= length c)%nat -> (off + length chunk <= length c)%nat ->
  take (Nat.max size (off + length chunk)) (list_inserts off chunk c) = splice (take size c) off chunk.
Proof.
  intros H1 H2 H3. apply list_eq. intros j. unfold splice.
  rewrite take_take, Nat.min_l by lia. destruct (decide (j < off)%nat).
  { rewrite lookup_take_lt, list_lookup_inserts_lt, lookup_app_l, lookup_take_lt by (rewrite ?length_take; lia). done. }
  rewrite lookup_app_r by (rewrite length_take; lia). rewrite length_take, Nat.min_l by lia.
  destruct (decide (j < off + length chunk)%nat).
  { rewrite lookup_take_lt, list_lookup_inserts, lookup_app_l by lia. done. }
  rewrite lookup_app_r, lookup_drop by lia.
  replace (off + length chunk + (j - off - length chunk))%nat with j by lia.
  destruct (decide (j < size)%nat).
  - rewrite !lookup_take_lt, list_lookup_inserts_ge by lia. done.
  - rewrite !lookup_take_ge by lia. done.
Qed.

Section Device.
Context {H D : Type} `{Heap H} `{BlockDevLaws D}.
Hypothesis sectors_enough : 1024 <= bd_sectors (D:=D) < 2 ^ 32.

(** ** The bytes of a chain *)
Definition file_bytes (d : D) (l : list Z) : list Z := mjoin (bd_sector d <$> l).

Definition contents (d : D) (de : dirent) (l : list Z) : list Z := take (Z.to_nat (d_size de)) (file_bytes d l).

Lemma sector_length (d : D) b : bd_ready d -> in_data b -> length (bd_sector d b) = 512%nat.
Proof. intros Hr Hb. apply bd_sector_length; [done|]. unfold in_data in Hb. lia. Qed.

Lemma file_bytes_cons (d : D) b l : file_bytes d (b :: l) = bd_sector d b ++ file_bytes d l.
Proof. done. Qed.

Lemma length_file_bytes (d : D) l : bd_ready d -> Forall in_data l -> length (file_bytes d l) = (512 * length l)%nat.
Proof.
  intros Hr Hl. induction Hl as [|b l Hb Hl IH]; [done|].
  rewrite file_bytes_cons, length_app, IH, sector_length by done. cbn [length]. lia.
Qed.

Lemma lookup_file_bytes (d : D) l k b o : bd_ready d -> Forall in_data l -> l !! k = Some b -> (o < 512)%nat ->
  file_bytes d l !! (512 * k + o)%nat = bd_sector d b !! o.
Proof.
  intros Hr Hl. revert k. induction Hl as [|b0 l Hb Hl IH]; intros k Hk Ho; [done|].
  rewrite file_bytes_cons. destruct k as [|k]; simpl in Hk.
  - simplify_eq. rewrite lookup_app_l by (rewrite sector_length by done; lia). f_equal; lia.
  - rewrite lookup_app_r by (rewrite sector_length by done; lia). rewrite sector_length by done.
    replace (512 * S k + o - 512)%nat with (512 * k + o)%nat by lia. by apply IH.
Qed.

(** Part of one sector. *)
Lemma file_bytes_part (d : D) l k b o t : bd_ready d -> Forall in_data l -> l !! k = Some b -> (o + t <= 512)%nat ->
  take t (drop (512 * k + o) (file_bytes d l)) = take t (drop o (bd_sector d b)).
Proof.
  intros Hr Hl Hk Ho. apply list_eq. intros i. destruct (decide (i < t)%nat); [|by rewrite !lookup_take_ge by lia].
  rewrite !lookup_take_lt, !lookup_drop, <- Nat.add_assoc by done. apply lookup_file_bytes; [done..|lia].
Qed.

Lemma file_bytes_ext (d d' : D) l : (forall b, b ∈ l -> bd_sector d' b = bd_sector d b) ->
  file_bytes d' l = file_bytes d l.
Proof.
  intros He. unfold file_bytes. f_equal. apply list_fmap_ext. intros i b Hb.
  apply He. by eapply list_elem_of_lookup_2.
Qed.

(** ** Reading *)
Definition same_disk (d d' : D) : Prop := bd_ready d' /\ forall l, bd_sector d' l = bd_sector d l.

Lemma skip_blocks_spec f b l n : chain f b l -> (n <= length l)%nat ->
  skip_blocks n f b = Done (default EOF (l !! n)).
Proof.
  intros Hc Hn.
  assert (forall m k, (k + m <= length l)%nat ->
    skip_blocks m f (default EOF (l !! k)) = Done (default EOF (l !! (k + m)%nat))) as Hgen.
  { induction m as [|m IH]; intros k Hk; cbn [skip_blocks]; [by rewrite Nat.add_0_r|].
    destruct (lookup_lt_is_Some_2 l k) as [x Hx]; [lia|]. rewrite Hx. change (default EOF (Some x)) with x.
    destruct (chain_succ _ _ _ _ _ Hc Hx) as [Hxd Hnext].
    destruct (Z.eqb_spec x EOF) as [->|_]; [unfold in_data, EOF in Hxd; lia|].
    rewrite (aget_fat _ _ _ Hxd Hnext). cbn [obind]. rewrite IH by lia. do 3 f_equal. lia. }
  specialize (Hgen n 0%nat Hn). by rewrite (chain_head _ _ _ Hc) in Hgen.
Qed.

(** One step of the copy loop, in naturals: [r] bytes done, position [512 k + o]. *)
Lemma read_loop_spec f b l fuel : chain f b l -> forall (size r k o : nat) buffer bb (d : D),
  bd_ready d -> length bb = 512%nat -> (size <= length buffer)%nat -> Z.of_nat size < 2 ^ 31 ->
  (r <= size)%nat -> (o < 512)%nat -> (size - r < fuel)%nat ->
  (512 * k + o + (size - r) <= 512 * length l)%nat ->
  exists d', read_loop fuel f (Z.of_nat size) buffer bb (Z.of_nat r) (Z.of_nat o) (default EOF (l !! k)) d =
    Done (Z.of_nat size,
          list_inserts r (take (size - r) (drop (512 * k + o) (file_bytes d l))) buffer, d') /\
    same_disk d d'.
Proof.
  intros Hc. pose proof (chain_in_data _ _ _ Hc) as Hl.
  induction fuel as [|fuel IH]; intros size r k o buffer bb d Hr Hbb Hbuf Hsz Hrs Ho Hfuel Hpos; [lia|].
  cbn [read_loop]. destruct (Z.ltb_spec (Z.of_nat r) (Z.of_nat size)) as [Hlt|Hge]; cbn [andb].
  2: { assert (size = r) as -> by lia. rewrite Nat.sub_diag. exists d.
       rewrite swrap_small by lia. split; [done|]. by split. }
  destruct (lookup_lt_is_Some_2 l k) as [x Hx]; [lia|]. rewrite Hx. change (default EOF (Some x)) with x.
  destruct (chain_succ _ _ _ _ _ Hc Hx) as [Hxd Hnext].
  destruct (Z.eqb_spec x EOF) as [->|_]; [unfold in_data, EOF in Hxd; lia|]. cbn [negb].
  destruct (bd_read_ok d x bb) as (d1 & -> & Hr1 & Hs1); [done|unfold in_data in Hxd; lia|done|].
  pose proof (lookup_lt_Some _ _ _ Hx) as Hk. cbn [negb]. remember (Nat.min (512 - o) (size - r)) as t eqn:Ht.
  assert ((if u32 (512 - Z.of_nat o) >? u32 (Z.of_nat size - Z.of_nat r)
           then u32 (Z.of_nat size - Z.of_nat r) else u32 (512 - Z.of_nat o)) = Z.of_nat t) as ->.
  { rewrite !wrap_small by lia. destruct (Z.gtb_spec (512 - Z.of_nat o) (Z.of_nat size - Z.of_nat r)); lia. }
  rewrite (aget_fat _ _ _ Hxd Hnext). cbn [obind]. rewrite wrap_small by lia.
  replace (Z.of_nat r + Z.of_nat t) with (Z.of_nat (r + t)) by lia. change 0 with (Z.of_nat 0).
  rewrite !Nat2Z.id.
  destruct (IH size (r + t)%nat (S k) 0%nat (list_inserts r (take t (drop o (bd_sector d x))) buffer) (bd_sector d x) d1)
    as (d' & -> & Hr' & Hs'); [done|by rewrite sector_length|by rewrite length_inserts|done|lia|lia|lia|lia|].
  exists d'. split; [|split; [done|]; intros; by rewrite Hs', Hs1].
  f_equal. f_equal. f_equal. rewrite (file_bytes_ext d d1) by (intros; apply Hs1).
  rewrite (take_take_drop _ t (size - r)) by lia. rewrite (file_bytes_part d l k x o t) by (done || lia).
  assert (length (take t (drop o (bd_sector d x))) = t) as Hlen.
  { rewrite length_take, length_drop, sector_length by done. lia. }
  rewrite <- list_inserts_split, Hlen.
  - destruct (decide (t = size - r)%nat) as [E|E].
    + replace (size - (r + t))%nat with 0%nat by lia. by rewrite E, Nat.sub_diag.
    + replace (512 * S k + 0)%nat with (512 * k + o + t)%nat by lia.
      by replace (size - (r + t))%nat with (size - r - t)%nat by lia.
  - rewrite Hlen, length_take. lia.
Qed.

(** How many bytes a read of [size] bytes at [offset] returns. *)
Definition readable (de : dirent) (size offset : Z) : nat := Z.to_nat (Z.min size (d_size de - offset)).

Lemma take_drop_contents (d : D) de l size offset : 0 <= offset -> 0 <= size ->
  take (readable de size offset) (drop (Z.to_nat offset) (contents d de l)) =
  take (readable de size offset) (drop (Z.to_nat offset) (file_bytes d l)).
Proof.
  intros Ho Hs. unfold contents. rewrite skipn_firstn_comm, take_take. f_equal. unfold readable. lia.
Qed.

Lemma tinyfs_read_effect stack fs node buffer size offset (d : D) p data ch i :
  fs_inv data ch -> bd_ready d -> fs_private fs = Some (p, data) -> n_private node = Some i ->
  used data i -> length stack = 512%nat -> 0 <= offset -> 0 <= size -> offset + size < 2 ^ 32 ->
  let n := readable (dirent_at data i) size offset in
  (n <= length buffer)%nat ->
  exists d', tinyfs_read stack (Some fs) node buffer size offset d =
    Done (Z.of_nat n, list_inserts 0 (take n (drop (Z.to_nat offset)
            (contents d (dirent_at data i) (ch i)))) buffer, d') /\
    same_disk d d'.
Proof.
  intros Hinv Hr Hfs Hnode Hu Hst Ho Hs Hos n Hbuf. unfold n. rewrite take_drop_contents by done. fold n.
  destruct (used_fits _ _ _ Hinv Hu) as (_ & _ & Hsz & _). unfold is_u32 in Hsz.
  unfold tinyfs_read. rewrite Hfs, Hnode. cbv zeta.
  destruct (Z.geb_spec offset (d_size (dirent_at data i))) as [Hge|Hlt].
  { exists d. assert (n = 0%nat) as -> by (unfold n, readable; lia). split; [done|]. by split. }
  destruct (inv_entries _ _ Hinv i Hu) as [(_ & _ & Hz)|[Hc Hle]]; [lia|].
  pose proof (chain_length _ _ _ Hc) as Hlen.
  assert ((if u32 (offset + size) >? d_size (dirent_at data i)
           then u32 (d_size (dirent_at data i) - offset) else size) = Z.of_nat n) as ->.
  { unfold n, readable. rewrite !wrap_small by lia.
    destruct (Z.gtb_spec (offset + size) (d_size (dirent_at data i))); lia. }
  pose proof (Z.div_mod offset 512 ltac:(lia)) as Hdm. pose proof (Z.mod_pos_bound offset 512 ltac:(lia)) as Hm.
  rewrite (skip_blocks_spec _ _ _ _ Hc) by lia. cbn [obind].
  replace (offset mod 512) with (Z.of_nat (Z.to_nat (offset mod 512))) by lia.
  destruct (read_loop_spec _ _ _ (S (Z.to_nat (Z.of_nat n))) Hc n 0 (Z.to_nat (offset / 512))
    (Z.to_nat (offset mod 512)) buffer stack d) as (d' & E & Hd'); [done|done|done|unfold n, readable; lia..|].
  change (Z.of_nat 0) with 0 in E. rewrite E. exists d'. split; [|done]. rewrite Nat.sub_0_r.
  replace (512 * Z.to_nat (offset / 512) + Z.to_nat (offset mod 512))%nat with (Z.to_nat offset) by lia.
  done.
Qed.

(** ** Writing *)

(** The walk to the first block of the write, extending the chain. *)
Lemma seek_blocks_spec b n : forall data l k cur, blocks_ok data -> chain (fat data) b l -> l !! k = Some cur ->
  exists ok cur' data' l', seek_blocks n cur data = Done (ok, cur', data') /\ grown data b l data' l' /\
    (ok = true -> l' !! (k + n)%nat = Some cur') /\
    (ok = false -> free_blocks (sb data') = 0 /\ (length l' <= k + n)%nat).
Proof.
  induction n as [|n IH]; intros data l k cur Hok Hc Hk; cbn [seek_blocks].
  { exists true, cur, data, l. split_and!; [done|by apply grown_refl|by rewrite Nat.add_0_r|done]. }
  destruct (next_block _ _ _ _ _ Hok Hc Hk) as
    [(nx & Hnx & -> & Hne)|(-> & Hlen & [[-> Hz]|(nb & data1 & f & -> & Hnb & Hf & Hg)])]; cbn [obind].
  - rewrite Hne. destruct (IH _ _ _ _ Hok Hc Hnx) as (ok & cur' & data' & l' & E & Hg & Ht & Hfl).
    exists ok, cur', data', l'. rewrite <- Nat.add_succ_comm. done.
  - cbn. exists false, cur, data, l. split_and!; [done|by apply grown_refl|done|]. intros _. split; [done|lia].
  - rewrite Z.eqb_refl, Hnb. cbn [obind]. rewrite Hf. cbn [obind].
    destruct (IH (set_fat data1 f) (l ++ [nb]) (S k) nb) as (ok & cur' & data' & l' & E & Hg' & Ht & Hfl).
    + apply Hg.
    + apply Hg.
    + rewrite lookup_app_r, Hlen, Nat.sub_diag by lia. done.
    + exists ok, cur', data', l'. rewrite <- Nat.add_succ_comm. split_and!; [done|by eapply grown_trans|done..].
Qed.

(** Writing part of one sector of a chain splices into its bytes. *)
Lemma file_bytes_write (d d1 : D) l k cur o chunk : bd_ready d -> bd_ready d1 -> Forall in_data l -> NoDup l ->
  l !! k = Some cur -> (o + length chunk <= 512)%nat ->
  bd_sector d1 cur = list_inserts o chunk (bd_sector d cur) ->
  (forall x, in_data x -> x <> cur -> bd_sector d1 x = bd_sector d x) ->
  file_bytes d1 l = list_inserts (512 * k + o) chunk (file_bytes d l).
Proof.
  intros Hr Hr1 Hl Hnd Hk Ho Hcur Hother. apply list_eq. intros i.
  pose proof (lookup_lt_Some _ _ _ Hk) as Hlt. rewrite Forall_forall in Hl.
  pose proof Hl as HlF. rewrite <- Forall_forall in HlF.
  destruct (decide (i < 512 * length l)%nat) as [Hi|Hi].
  2: { rewrite !lookup_ge_None_2; rewrite ?length_inserts, ?length_file_bytes; done || lia. }
  pose proof (Nat.div_mod_eq i 512) as Hdm. pose proof (Nat.mod_upper_bound i 512 ltac:(lia)) as Hm.
  remember (i / 512)%nat as q eqn:Eq. remember (i mod 512)%nat as m eqn:Em. clear Eq Em. subst i.
  destruct (lookup_lt_is_Some_2 l q) as [x Hx]; [lia|].
  rewrite (lookup_file_bytes d1 l q x m) by done. destruct (decide (x = cur)) as [->|Hne].
  - assert (q = k) as -> by (by eapply NoDup_lookup). rewrite Hcur.
    assert (length (bd_sector d cur) = 512%nat) as Hsl.
    { apply sector_length; [done|]. apply Hl. by eapply list_elem_of_lookup_2. }
    pose proof (length_file_bytes d l Hr HlF) as Hfl. destruct (decide (m < o)%nat).
    { rewrite !list_lookup_inserts_lt, (lookup_file_bytes d l k cur m) by (done || lia). done. }
    destruct (decide (m < o + length chunk)%nat).
    { rewrite !list_lookup_inserts by lia. f_equal. lia. }
    rewrite !list_lookup_inserts_ge, (lookup_file_bytes d l k cur m) by (done || lia). done.
  - assert (q <> k) by congruence. rewrite Hother; [|apply Hl; by eapply list_elem_of_lookup_2|done].
    rewrite <- (lookup_file_bytes d l q x m) by done.
    destruct (decide (q < k)%nat); [rewrite list_lookup_inserts_lt by lia|rewrite list_lookup_inserts_ge by lia]; done.
Qed.

(** The block buffer of the write loop is loaded when the block is not
    overwritten whole; either way the sector written is the old one with the
    chunk in place. *)
Lemma load_block (d : D) cur bb o rem (chunk : list Z) : bd_ready d -> in_data cur -> length bb = 512%nat ->
  (o < 512)%nat -> length chunk = Nat.min (512 - o) rem ->
  exists bb1 d0, (if (Z.of_nat o >? 0) || (Z.of_nat rem <? 512)
                  then let '(_, bb, d) := bd_read cur bb d in (bb, d) else (bb, d)) = (bb1, d0) /\
    length bb1 = 512%nat /\ same_disk d d0 /\
    list_inserts o chunk bb1 = list_inserts o chunk (bd_sector d cur).
Proof.
  intros Hr Hcur Hbb Ho Hch. destruct (Z.gtb_spec (Z.of_nat o) 0) as [Hpos|Hpos]; cbn [orb].
  2: destruct (Z.ltb_spec (Z.of_nat rem) 512) as [Hrem|Hrem].
  3: { exists bb, d. split_and!; [done..|by split|]. assert (o = 0%nat) as -> by lia.
       rewrite !Ramdisk.list_inserts_all; [done|rewrite sector_length by done; lia|lia]. }
  all: destruct (bd_read_ok d cur bb) as (d0 & -> & Hr0 & Hs0); [done|unfold in_data in Hcur; lia|done|].
  all: exists (bd_sector d cur), d0; split_and!; [done|by rewrite sector_length|by split|done].
Qed.

Definition sectors_kept (d d' : D) (l : list Z) : Prop :=
  forall x, 0 <= x < bd_sectors -> x ∉ l -> bd_sector d' x = bd_sector d x.

(** What the copy loop achieves from [w] bytes written at position [512 k + o]:
    [n] bytes in all, on the chain [l']. *)
Definition wrote (b : Z) (data : tinyfs_data) (l : list Z) (d : D) (buffer : list Z) (size w pos n : nat)
    (data' : tinyfs_data) (l' : list Z) (d' : D) : Prop :=
  (w <= n <= size)%nat /\ grown data b l data' l' /\ bd_ready d' /\
  (pos + (n - w) <= 512 * length l')%nat /\
  file_bytes d' l' = list_inserts pos (take (n - w) (drop w buffer)) (file_bytes d l') /\
  sectors_kept d d' l' /\
  ((n < size)%nat -> free_blocks (sb data') = 0 /\ (pos + (n - w) = 512 * length l')%nat).

Lemma wrote_chunk b data l (d d1 : D) buffer size w k o cur t chunk : blocks_ok data -> chain (fat data) b l ->
  bd_ready d -> bd_ready d1 -> l !! k = Some cur -> (o < 512)%nat -> (size <= length buffer)%nat -> (w < size)%nat ->
  t = Nat.min (512 - o) (size - w) -> chunk = take t (drop w buffer) ->
  bd_sector d1 cur = list_inserts o chunk (bd_sector d cur) ->
  (forall x, 0 <= x < bd_sectors -> x <> cur -> bd_sector d1 x = bd_sector d x) ->
  (forall data1 l1, (w + t < size)%nat -> grown data b l data1 l1 -> (S k < length l1)%nat ->
     forall n data' l' d', wrote b data1 l1 d1 buffer size (w + t) (512 * S k) n data' l' d' ->
     wrote b data l d buffer size w (512 * k + o) n data' l' d') /\
  ((w + t = size)%nat \/ ((512 * k + o + t = 512 * length l)%nat /\ free_blocks (sb data) = 0) ->
     wrote b data l d buffer size w (512 * k + o) (w + t) data l d1).
Proof.
  intros Hok Hc Hr Hr1 Hk Ho Hbuf Hw Ht Hch Hcur Hother.
  pose proof (lookup_lt_Some _ _ _ Hk) as Hlt.
  assert (length chunk = t) as Hlen by (rewrite Hch, length_take, length_drop; lia).
  assert (forall l', l `prefix_of` l' -> Forall in_data l' -> NoDup l' ->
    file_bytes d1 l' = list_inserts (512 * k + o) chunk (file_bytes d l')) as Hfb.
  { intros l' Hp Hd Hnd. apply (file_bytes_write d d1 l' k cur); [done..| |lia|done|].
    - by eapply prefix_lookup_Some.
    - intros x Hx. apply Hother. unfold in_data in Hx. lia. }
  assert (cur ∈ l) as Hcl by (by eapply list_elem_of_lookup_2).
  split.
  - intros data1 l1 Hwt Hg Hsk n data' l' d' (Hn & Hg' & Hr' & Hpos & Hfile & Hkept & Hshort).
    pose proof (grown_trans _ _ _ _ _ _ _ Hg Hg') as Hg2. pose proof (gr_chain _ _ _ _ _ Hg2) as Hc2.
    pose proof (chain_in_data _ _ _ Hc2) as Hd2.
    split_and!; [lia|lia|done|done|lia| | |intros; destruct Hshort; [done|lia]].
    + rewrite Hfile, (Hfb l' (gr_prefix _ _ _ _ _ Hg2) Hd2 (chain_NoDup _ _ _ Hc2)).
      assert (512 * S k = 512 * k + o + length chunk)%nat as -> by lia.
      rewrite list_inserts_split.
      * f_equal. rewrite (take_take_drop _ t (n - w)) by lia. rewrite <- Hch. by replace (n - (w + t))%nat with (n - w - t)%nat by lia.
      * rewrite length_take, length_file_bytes, length_drop by done. lia.
    + intros x Hx Hxl. rewrite Hkept by done. apply Hother; [done|]. intros ->. apply Hxl.
      destruct (gr_prefix _ _ _ _ _ Hg2) as [k2 ->]. apply elem_of_app. by left.
  - intros Hend. split_and!; [lia|lia|by apply grown_refl|done|lia| | |].
    + replace (w + t - w)%nat with t by lia. rewrite <- Hch. apply Hfb; [done|by eapply chain_in_data|by eapply chain_NoDup].
    + intros x Hx Hxl. apply Hother; [done|]. by intros ->.
    + intros Hn. destruct Hend as [|[Hend Hz]]; [lia|]. split; [done|lia].
Qed.

Lemma write_loop_spec b buffer (size : nat) : (size <= length buffer)%nat -> Z.of_nat size < 2 ^ 31 ->
  forall fuel data l w k o bb (d : D) cur, blocks_ok data -> chain (fat data) b l -> bd_ready d ->
  length bb = 512%nat -> (w <= size)%nat -> (o < 512)%nat -> (size - w < fuel)%nat -> l !! k = Some cur ->
  exists n data' l' d', write_loop fuel buffer (Z.of_nat size) bb (Z.of_nat w) (Z.of_nat o) cur data d =
      Done (WroteBytes (Z.of_nat n), data', d') /\
    wrote b data l d buffer size w (512 * k + o) n data' l' d'.
Proof.
  intros Hbuf Hsz. induction fuel as [|fuel IH]; intros data l w k o bb d cur Hok Hc Hr Hbb Hw Ho Hfuel Hk; [lia|].
  pose proof (lookup_lt_Some _ _ _ Hk) as Hlt. cbn [write_loop].
  destruct (Z.ltb_spec (Z.of_nat w) (Z.of_nat size)) as [Hlt'|Hge].
  2: { exists w, data, l, d. split; [done|]. split_and!; [lia..|by apply grown_refl|done|lia| |done|lia].
       by rewrite Nat.sub_diag. }
  remember (Nat.min (512 - o) (size - w)) as t eqn:Ht.
  remember (take t (drop w buffer)) as chunk eqn:Hch.
  assert (length chunk = t) as Hlen by (rewrite Hch, length_take, length_drop; lia).
  destruct (chain_succ _ _ _ _ _ Hc Hk) as [Hcur _].
  rewrite (wrap_small 32 (Z.of_nat size - Z.of_nat w)), (wrap_small 32 (512 - Z.of_nat o)) by lia.
  replace (Z.of_nat size - Z.of_nat w) with (Z.of_nat (size - w)) by lia.
  destruct (load_block d cur bb o (size - w) chunk) as (bb1 & d0 & -> & Hbb1 & [Hr0 Hs0] & Hins); [done..|lia|].
  cbv beta iota zeta.
  assert ((if 512 - Z.of_nat o >? Z.of_nat (size - w) then Z.of_nat (size - w) else 512 - Z.of_nat o) = Z.of_nat t) as ->.
  { destruct (Z.gtb_spec (512 - Z.of_nat o) (Z.of_nat (size - w))); lia. }
  rewrite !Nat2Z.id, <- Hch, Hins.
  destruct (bd_write_ok d0 cur (list_inserts o chunk (bd_sector d cur))) as (d1 & -> & Hr1 & Hs1 & Ho1);
    [done|unfold in_data in Hcur; lia|by rewrite length_inserts, sector_length|]. cbn [negb].
  rewrite (wrap_small 32 (Z.of_nat w + Z.of_nat t)) by lia.
  replace (Z.of_nat w + Z.of_nat t) with (Z.of_nat (w + t)) by lia.
  destruct (wrote_chunk b data l d d1 buffer size w k o cur t chunk) as [Hmore Hend];
    [done..|lia|done|done|done| |].
  { intros x Hx Hne. rewrite Ho1 by done. apply Hs0. }
  destruct (Z.ltb_spec (Z.of_nat (w + t)) (Z.of_nat size)) as [Hwt|Hwt].
  - destruct (next_block _ _ _ _ _ Hok Hc Hk) as
      [(nx & Hnx & -> & Hne)|(-> & Hll & [[-> Hz]|(nb & data1 & f & -> & Hnb & Hf & Hg)])]; cbn [obind].
    + rewrite Hne. destruct (IH data l (w + t)%nat (S k) 0%nat (list_inserts o chunk (bd_sector d cur)) d1 nx)
        as (n & data' & l' & d' & E & HW); [done..|by rewrite length_inserts, sector_length|lia|lia|lia|done|].
      exists n, data', l', d'. split; [exact E|]. rewrite Nat.add_0_r in HW.
      eapply Hmore; [lia|by apply grown_refl| |exact HW]. by eapply lookup_lt_Some.
    + cbn. exists (w + t)%nat, data, l, d1. split; [done|]. apply Hend. right. split; [lia|done].
    + rewrite Z.eqb_refl, Hnb. cbn [obind]. rewrite Hf. cbn [obind].
      destruct (IH (set_fat data1 f) (l ++ [nb]) (w + t)%nat (S k) 0%nat (list_inserts o chunk (bd_sector d cur)) d1 nb)
        as (n & data' & l' & d' & E & HW);
        [apply Hg|apply Hg|done|by rewrite length_inserts, sector_length|lia|lia|lia|
         by rewrite lookup_app_r, Hll, Nat.sub_diag by lia|].
      exists n, data', l', d'. split; [exact E|]. rewrite Nat.add_0_r in HW.
      eapply Hmore; [lia|exact Hg| |exact HW]. rewrite length_app. cbn [length]. lia.
  - exists (w + t)%nat, data, l, d1. split; [|apply Hend; left; lia]. destruct fuel as [|fuel]; [lia|]. cbn [write_loop].
    destruct (Z.ltb_spec (Z.of_nat (w + t)) (Z.of_nat size)); [lia|done].
Qed.

(** The end of a write: the size is raised to the end of the written range and
    the metadata reaches the disk; the data sectors stay. *)
Lemma finish_write_spec data node i offset (n : nat) (d : D) : data_fits data -> std_geometry (sb data) -> bd_ready d ->
  (i < 256)%nat -> 0 <= offset -> offset + Z.of_nat n < 2 ^ 31 ->
  let de := dirent_at data i in
  exists node' d', finish_write data node i offset (Z.of_nat n) d =
      (node', set_dirent data i (with_block_size de (first_block de) (Z.max (d_size de) (offset + Z.of_nat n))), d') /\
    bd_ready d' /\ same_data d d' /\
    on_disk (set_dirent data i (with_block_size de (first_block de) (Z.max (d_size de) (offset + Z.of_nat n)))) d'.
Proof.
  intros Hfit Hg Hr Hi Ho Hn de. pose proof (dirent_at_fits _ _ Hfit Hi) as (F1 & F2 & F3 & F4 & F5). fold de in F1, F2, F3, F4, F5.
  set (data' := set_dirent data i (with_block_size de (first_block de) (Z.max (d_size de) (offset + Z.of_nat n)))).
  assert (data_fits data') as Hfit'.
  { destruct Hfit as (B1 & B2 & B3 & B4 & B5). split_and!; [done..|cbn [dirents data' set_dirent]; by rewrite length_insert|].
    apply Forall_insert; [done|]. split_and!; [done..| |done|done]. cbn. unfold is_u32 in *. lia. }
  assert (exists node', (if u32 (offset + Z.of_nat n) >? d_size de then
      (mk_node (n_name node) (n_type node) (n_permissions node) (u32 (offset + Z.of_nat n)) (n_inode node)
         (n_fs node) (n_ops node) (n_private node),
       set_dirent data i (mk_dirent (d_name de) (first_block de) (u32 (offset + Z.of_nat n)) (is_directory de)
         (d_used de) (parent_inode de) (d_padding de)))
    else (node, data)) = (node', data')) as [node' E].
  { rewrite wrap_small by lia. destruct (Z.gtb_spec (offset + Z.of_nat n) (d_size de)).
    - eexists. unfold data', with_block_size. rewrite Z.max_r by lia. done.
    - exists node. unfold data'. rewrite Z.max_l, with_block_size_id by lia. unfold set_dirent, de.
      rewrite dirents_insert_id; [by destruct data|]. destruct Hfit as (_ & _ & _ & -> & _). done. }
  unfold finish_write. fold de. rewrite E.
  destruct (flush_write sectors_enough data' d Hr Hfit' Hg) as (d1 & d2 & d3 & -> & -> & -> & R3 & O3 & S3).
  exists node', d3. done.
Qed.

Lemma contents_kept data ch i data' l' (d d' : D) j : fs_inv data ch -> fs_inv data' (chains_upd ch i l') ->
  used data' i -> used data j -> used data' j -> j <> i ->
  (forall x, in_data x -> x ∉ l' -> bd_sector d' x = bd_sector d x) ->
  contents d' (dirent_at data j) (ch j) = contents d (dirent_at data j) (ch j).
Proof.
  intros Hinv Hinv' Hui Huj Huj' Hne Hs. unfold contents. f_equal. apply file_bytes_ext. intros b Hb.
  destruct (entry_blocks _ _ _ _ (inv_entries _ _ Hinv j Huj) Hb) as [Hbd _]. apply Hs; [done|].
  intros Hbl. pose proof (inv_disjoint _ _ Hinv' j i Huj' Hui Hne b) as Hd.
  rewrite chains_upd_eq, chains_upd_ne in Hd by done. by apply Hd.
Qed.

(** The result of a write at [offset] to entry [i]: return value [r], new data,
    new chain, new disk. *)
Record write_effect (data : tinyfs_data) (ch : nat -> list Z) (i : nat) (d : D) (buffer : list Z) (size offset : Z)
    (r : Z) (data' : tinyfs_data) (l' : list Z) (d' : D) : Prop := {
  we_inv : fs_inv data' (chains_upd ch i l');
  we_ready : bd_ready d';
  we_prefix : ch i `prefix_of` l';
  we_used : used data' i;
  we_count : free_blocks (sb data') + Z.of_nat (length l') = free_blocks (sb data) + Z.of_nat (length (ch i));
  we_entry : exists b sz, dirents data' = <[i := with_block_size (dirent_at data i) b sz]> (dirents data);
  we_full : r < size -> 512 * Z.of_nat (length l') <= offset + Z.max 0 r;
  we_others : forall j, used data j -> j <> i -> used data' j /\ dirent_at data' j = dirent_at data j /\
    contents d' (dirent_at data' j) (ch j) = contents d (dirent_at data j) (ch j);
  (** either no block was left for the start of the range and nothing was written ... *)
  we_result : ((r = 0 \/ r = -1 /\ l' = []) /\ free_blocks (sb data') = 0 /\ d' = d /\
      d_size (dirent_at data' i) = d_size (dirent_at data i)) \/
  (** ... or [r] bytes were, all of them unless the disk is full *)
    (0 <= r <= size /\ (r < size -> free_blocks (sb data') = 0) /\ on_disk data' d' /\
     d_size (dirent_at data' i) = Z.max (d_size (dirent_at data i)) (offset + r) /\
     contents d' (dirent_at data' i) l' = take (Z.to_nat (d_size (dirent_at data' i)))
       (list_inserts (Z.to_nat offset) (take (Z.to_nat r) buffer) (file_bytes d l')) /\
     (offset <= d_size (dirent_at data i) ->
      contents d' (dirent_at data' i) l' =
        splice (contents d (dirent_at data i) (ch i)) (Z.to_nat offset) (take (Z.to_nat r) buffer))) }.

Lemma prefix_file_bytes (d : D) l l' : l `prefix_of` l' -> file_bytes d l = take (length (file_bytes d l)) (file_bytes d l').
Proof. intros [k ->]. unfold file_bytes. rewrite fmap_app, join_app, take_app_length. done. Qed.

(** The size cut and the splice commute, for a write that starts inside the file. *)
Lemma contents_splice (d d' : D) de de' l l' buffer (offset : Z) (n : nat) : bd_ready d -> Forall in_data l' ->
  l `prefix_of` l' -> 0 <= offset <= d_size de -> d_size de <= 512 * Z.of_nat (length l) ->
  (n <= length buffer)%nat -> (Z.to_nat offset + n <= 512 * length l')%nat ->
  d_size de' = Z.max (d_size de) (offset + Z.of_nat n) ->
  file_bytes d' l' = list_inserts (Z.to_nat offset) (take n buffer) (file_bytes d l') ->
  contents d' de' l' = splice (contents d de l) (Z.to_nat offset) (take n buffer).
Proof.
  intros Hr Hl Hp Ho Hsz Hn Hpos Hsz' Hfb. unfold contents. rewrite Hfb, Hsz'.
  assert (Forall in_data l) as Hl0 by (destruct Hp as [k ->]; by apply Forall_app in Hl as [? _]).
  assert (length l <= length l')%nat as Hpl by (by apply prefix_length).
  assert (length (take n buffer) = n) as Hlen by (rewrite length_take; lia).
  rewrite (prefix_file_bytes d l l' Hp), take_take.
  rewrite !length_file_bytes, Nat.min_l by (done || lia).
  rewrite <- (take_inserts_splice _ _ _ (take n buffer)); [|lia|rewrite length_file_bytes by done; lia|].
  - f_equal. rewrite Hlen. lia.
  - rewrite Hlen, length_file_bytes by done. lia.
Qed.

Lemma grown_update ch i data1 b l1 data2 l2 size : fs_inv data1 (chains_upd ch i l1) -> used data1 i ->
  first_block (dirent_at data1 i) = b -> grown data1 b l1 data2 l2 ->
  is_u32 size -> size <= 512 * Z.of_nat (length l2) ->
  fs_inv (set_dirent data2 i (with_block_size (dirent_at data1 i) b size)) (chains_upd ch i l2) /\
  used (set_dirent data2 i (with_block_size (dirent_at data1 i) b size)) i.
Proof.
  intros Hinv Hu Hb Hg Hsz Hle. pose proof Hu as [Hi _].
  destruct (used_fits _ _ _ Hinv Hu) as (F1 & F2 & F3 & F4 & F5).
  assert (fs_inv (set_dirent data2 i (with_block_size (dirent_at data1 i) b size))
            (chains_upd (chains_upd ch i l1) i l2) /\
          used (set_dirent data2 i (with_block_size (dirent_at data1 i) b size)) i) as [H1' H2'].
  { apply (inv_update data1 _ i _ (with_block_size (dirent_at data1 i) b size)); [done|done|apply Hg| | |done| | |apply Hg].
    - cbn [dirents set_dirent]. by rewrite (gr_dirents _ _ _ _ _ Hg).
    - split_and!; [done|by rewrite <- Hb|done..].
    - right. split; [apply Hg|done].
    - rewrite chains_upd_eq. apply Hg. }
  split; [|done]. split; [apply H1'|apply H1'| |].
  - intros j Hj. rewrite <- (chains_upd_twice ch i l1). by apply H1'.
  - intros j k Hj Hk Hne. rewrite <- !(chains_upd_twice ch i l1). by apply H1'.
Qed.

(** The entries other than [i] after the write. *)
Lemma others_kept data ch i data' de' l' (d d' : D) : fs_inv data ch -> used data i ->
  dirents data' = <[i := de']> (dirents data) -> fs_inv data' (chains_upd ch i l') -> used data' i ->
  (forall x, in_data x -> x ∉ l' -> bd_sector d' x = bd_sector d x) ->
  forall j, used data j -> j <> i -> used data' j /\ dirent_at data' j = dirent_at data j /\
    contents d' (dirent_at data' j) (ch j) = contents d (dirent_at data j) (ch j).
Proof.
  intros Hinv [Hi Hu] Hd Hinv' Hu' Hs j Hj Hne.
  assert (dirent_at data' j = dirent_at data j) as E.
  { rewrite (dirent_at_insert data data' i de'), decide_False; [done|done| |done].
    destruct (inv_fits _ _ Hinv) as (_ & _ & _ & -> & _). done. }
  assert (used data' j) as Hj' by (destruct Hj; split; [done|by rewrite E]).
  split_and!; [done|done|]. rewrite E. by eapply contents_kept.
Qed.

(** Growing the chain of entry [i] alone. *)
Lemma grown_inv ch i data1 b l1 data2 l2 : fs_inv data1 (chains_upd ch i l1) -> used data1 i ->
  first_block (dirent_at data1 i) = b -> grown data1 b l1 data2 l2 ->
  fs_inv data2 (chains_upd ch i l2) /\ used data2 i.
Proof.
  intros Hinv Hu Hb Hg. pose proof Hu as [Hi _]. pose proof (inv_fits _ _ Hinv) as (_ & _ & _ & Hdl & _).
  destruct (used_fits _ _ _ Hinv Hu) as (F1 & F2 & F3 & F4 & F5).
  pose proof (prefix_length _ _ (gr_prefix _ _ _ _ _ Hg)) as Hpl.
  pose proof (inv_entries _ _ Hinv i Hu) as He. rewrite chains_upd_eq in He.
  destruct (grown_update ch i data1 b l1 data2 l2 (d_size (dirent_at data1 i)) Hinv Hu Hb Hg F3) as [H1' H2'].
  { destruct He as [(_ & _ & ->)|[_ Hle]]; lia. }
  assert (set_dirent data2 i (with_block_size (dirent_at data1 i) b (d_size (dirent_at data1 i))) = data2) as E.
  { rewrite <- Hb, with_block_size_id. unfold set_dirent.
    rewrite (gr_dirents _ _ _ _ _ Hg), dirents_insert_id by lia. rewrite <- (gr_dirents _ _ _ _ _ Hg). by destruct data2. }
  by rewrite E in H1', H2'.
Qed.

(** The first half of [tinyfs_write]: the first block, then the walk to the
    block of [offset]. *)
Lemma write_start data ch i n : fs_inv data ch -> used data i ->
  (first_block_alloc data i = Done (false, data) /\ free_blocks (sb data) = 0 /\ ch i = []) \/
  exists data1 ok cur data2 b l2, first_block_alloc data i = Done (true, data1) /\
    seek_blocks n (first_block (dirent_at data1 i)) data1 = Done (ok, cur, data2) /\
    dirents data2 = <[i := with_block_size (dirent_at data i) b (d_size (dirent_at data i))]> (dirents data) /\
    fs_inv data2 (chains_upd ch i l2) /\ used data2 i /\ chain (fat data2) b l2 /\ ch i `prefix_of` l2 /\
    (ok = true -> l2 !! n = Some cur) /\ (ok = false -> free_blocks (sb data2) = 0 /\ (length l2 <= n)%nat) /\
    free_blocks (sb data2) + Z.of_nat (length l2) = free_blocks (sb data) + Z.of_nat (length (ch i)).
Proof.
  intros Hinv Hu. pose proof (inv_fits _ _ Hinv) as (_ & _ & _ & Hdl & _). pose proof Hu as [Hi _].
  destruct (first_block_alloc_spec data ch i Hinv Hu) as
    [(-> & Hz & Hnil)|(data1 & b & l1 & -> & Hd1 & Hinv1 & Hu1 & Hc1 & Hp1 & _ & Hcnt1)]; [by left|right].
  assert (first_block (dirent_at data1 i) = b) as Hb.
  { rewrite (dirent_at_insert data data1 i _ i ltac:(lia) Hd1). by rewrite decide_True. }
  destruct (seek_blocks_spec b n data1 l1 0 b (inv_blocks _ _ Hinv1) Hc1 (chain_head _ _ _ Hc1))
    as (ok & cur & data2 & l2 & E & Hg2 & Htrue & Hfalse).
  destruct (grown_inv ch i data1 b l1 data2 l2 Hinv1 Hu1 Hb Hg2) as [Hinv2 Hu2].
  exists data1, ok, cur, data2, b, l2. rewrite Hb.
  split_and!; [done|done|by rewrite (gr_dirents _ _ _ _ _ Hg2)|done|done|apply Hg2|by etrans; [|apply Hg2]|done| |].
  - intros Hk. by apply Hfalse.
  - pose proof (gr_count _ _ _ _ _ Hg2). lia.
Qed.

(** The second half: the copy loop and the metadata. *)
Lemma write_rest stack node buffer size offset (d : D) data ch i data2 b l2 cur :
  fs_inv data ch -> used data i -> bd_ready d -> length stack = 512%nat ->
  0 <= offset -> 0 <= size -> offset + size < 2 ^ 31 -> size <= Z.of_nat (length buffer) ->
  dirents data2 = <[i := with_block_size (dirent_at data i) b (d_size (dirent_at data i))]> (dirents data) ->
  fs_inv data2 (chains_upd ch i l2) -> used data2 i -> chain (fat data2) b l2 -> ch i `prefix_of` l2 ->
  l2 !! Z.to_nat (offset / 512) = Some cur ->
  free_blocks (sb data2) + Z.of_nat (length l2) = free_blocks (sb data) + Z.of_nat (length (ch i)) ->
  exists n data3 d3 node' data' l' d',
    write_loop (S (Z.to_nat size)) buffer size stack 0 (offset mod 512) cur data2 d =
      Done (WroteBytes (Z.of_nat n), data3, d3) /\
    finish_write data3 node i offset (Z.of_nat n) d3 = (node', data', d') /\
    write_effect data ch i d buffer size offset (Z.of_nat n) data' l' d'.
Proof.
  intros Hinv Hu Hr Hst Ho Hs Hos Hbuf Hd2 Hinv2 Hu2 Hc2 Hp2 Hcur Hcnt. pose proof Hu as [Hi _].
  pose proof (inv_fits _ _ Hinv) as (_ & _ & _ & Hdl & _). destruct (used_fits _ _ _ Hinv Hu) as (_ & _ & F3 & _).
  pose proof (Z.div_mod offset 512 ltac:(lia)) as Hdm. pose proof (Z.mod_pos_bound offset 512 ltac:(lia)) as Hm.
  destruct (write_loop_spec b buffer (Z.to_nat size) ltac:(lia) ltac:(lia) (S (Z.to_nat size)) data2 l2 0
    (Z.to_nat (offset / 512)) (Z.to_nat (offset mod 512)) stack d cur (inv_blocks _ _ Hinv2) Hc2 Hr Hst
    ltac:(lia) ltac:(lia) ltac:(lia) Hcur)
    as (n & data3 & l3 & d3 & E & Hn & Hg3 & Hr3 & Hpos & Hfile & Hkept & Hshort).
  rewrite !Z2Nat.id in E by lia. change (Z.of_nat 0) with 0 in E. rewrite Nat.sub_0_r in *. rewrite drop_0 in Hfile.
  replace (512 * Z.to_nat (offset / 512) + Z.to_nat (offset mod 512))%nat with (Z.to_nat offset) in * by lia.
  assert (dirent_at data2 i = with_block_size (dirent_at data i) b (d_size (dirent_at data i))) as Hde2.
  { rewrite (dirent_at_insert data data2 i _ i ltac:(lia) Hd2). by rewrite decide_True. }
  assert (first_block (dirent_at data2 i) = b) as Hb2 by (by rewrite Hde2).
  assert (dirent_at data3 i = dirent_at data2 i) as Hde3 by (unfold dirent_at; by rewrite (gr_dirents _ _ _ _ _ Hg3)).
  destruct (grown_inv ch i data2 b l2 data3 l3 Hinv2 Hu2 Hb2 Hg3) as [Hinv3 Hu3].
  pose proof (inv_blocks _ _ Hinv3) as (Hgeo3 & _).
  destruct (finish_write_spec data3 node i offset n d3 (inv_fits _ _ Hinv3) Hgeo3 Hr3 Hi Ho ltac:(lia))
    as (node' & d' & Efin & Hr' & Hsame & Hdisk).
  rewrite Hde3, Hb2 in *. pose proof (gr_prefix _ _ _ _ _ Hg3) as Hp3.
  assert (d_size (dirent_at data2 i) = d_size (dirent_at data i)) as Hsz2 by (by rewrite Hde2). rewrite Hsz2 in *.
  set (size' := Z.max (d_size (dirent_at data i)) (offset + Z.of_nat n)) in *.
  assert (d_size (dirent_at data i) <= 512 * Z.of_nat (length (ch i))) as Hszl.
  { destruct (inv_entries _ _ Hinv i Hu) as [(_ & -> & ->)|[_ Hle]]; [cbn [length]; lia|done]. }
  pose proof (prefix_length _ _ Hp2) as Hpl2. pose proof (prefix_length _ _ Hp3) as Hpl3.
  destruct (grown_update ch i data2 b l2 data3 l3 size' Hinv2 Hu2 Hb2 Hg3) as [Hinv' Hu'];
    [unfold size', is_u32 in *; lia|unfold size'; lia|].
  set (data' := set_dirent data3 i _) in *.
  assert (dirents data' = <[i := with_block_size (dirent_at data2 i) b size']> (dirents data)) as Hd'.
  { unfold data'. cbn [dirents set_dirent]. by rewrite (gr_dirents _ _ _ _ _ Hg3), Hd2, list_insert_insert_eq. }
  assert (dirent_at data' i = with_block_size (dirent_at data2 i) b size') as Hde'.
  { rewrite (dirent_at_insert data data' i _ i ltac:(lia) Hd'). by rewrite decide_True. }
  exists n, data3, d3, node', data', l3, d'. split; [done|]. split; [done|].
  pose proof (chain_in_data _ _ _ (gr_chain _ _ _ _ _ Hg3)) as Hid.
  assert (forall x, in_data x -> bd_sector d' x = bd_sector d3 x) as Hsd.
  { intros x Hx. apply Hsame. unfold in_data in Hx. lia. }
  assert (file_bytes d' l3 = list_inserts (Z.to_nat offset) (take n buffer) (file_bytes d l3)) as Hfb.
  { rewrite <- Hfile. apply file_bytes_ext. intros x Hx. apply Hsd. rewrite Forall_forall in Hid. by apply Hid. }
  assert (with_block_size (dirent_at data2 i) b size' = with_block_size (dirent_at data i) b size') as Hwb by (by rewrite Hde2).
  split; [done|done|by etrans|done| |by rewrite Hwb in Hd'; eauto| | |right].
  - pose proof (gr_count _ _ _ _ _ Hg3). unfold data'. cbn [sb set_dirent]. lia.
  - intros Hlt. destruct Hshort as [_ Hsh]; lia.
  - eapply others_kept; [done..|]. intros x Hx Hxl. rewrite Hsd by done. apply Hkept; [unfold in_data in Hx; lia|done].
  - split_and!; [lia|lia|intros Hlt; apply Hshort; lia|done|by rewrite Hde'|by rewrite Nat2Z.id, <- Hfb|].
    intros Hoff. rewrite Nat2Z.id. apply contents_splice; [done|done|by etrans|lia|done|lia|lia|by rewrite Hde'|done].
Qed.

Lemma tinyfs_write_effect stack fs node buffer size offset (d : D) p data ch i :
  fs_inv data ch -> bd_ready d -> fs_private fs = Some (p, data) -> n_private node = Some i ->
  used data i -> length stack = 512%nat -> 0 <= offset -> 0 <= size -> offset + size < 2 ^ 31 ->
  size <= Z.of_nat (length buffer) ->
  exists r node' data' l' d', tinyfs_write stack (Some fs) node buffer size offset d =
      Done (r, node', Some (mk_fs (fs_name fs) (Some (p, data'))), d') /\
    write_effect data ch i d buffer size offset r data' l' d'.
Proof.
  intros Hinv Hr Hfs Hnode Hu Hst Ho Hs Hos Hbuf. unfold tinyfs_write. rewrite Hfs, Hnode. cbv zeta.
  pose proof (inv_fits _ _ Hinv) as (_ & _ & _ & Hdl & _). pose proof Hu as [Hi _].
  destruct (write_start data ch i (Z.to_nat (offset / 512)) Hinv Hu) as
    [(-> & Hz & Hnil)|(data1 & ok & cur & data2 & b & l2 & -> & E2 & Hd2 & Hinv2 & Hu2 & Hc2 & Hp2 & Htrue & Hfalse & Hcnt)];
    cbn [obind negb].
  { exists (-1), node, data, (ch i), d. split; [done|].
    split; [|done|done|done|done| |rewrite Hnil; cbn [length]; lia|done|left; split_and!; [by right|done..]].
    2: { exists (first_block (dirent_at data i)), (d_size (dirent_at data i)). by rewrite with_block_size_id, dirents_insert_id by lia. }
    apply (inv_update data ch i _ (dirent_at data i)); [done..|apply Hinv|by rewrite dirents_insert_id by lia|
      by eapply used_fits|done|by apply Hinv|by left|done]. }
  rewrite E2. cbn [obind]. destruct ok; cbn [negb].
  - destruct (write_rest stack node buffer size offset d data ch i data2 b l2 cur) as
      (n & data3 & d3 & node' & data' & l' & d' & -> & Efin & Heff); [done..|by apply Htrue|done|]. cbn [obind].
    rewrite Efin. assert (Z.of_nat n <= size).
    { destruct (we_result _ _ _ _ _ _ _ _ _ _ _ Heff) as [?|?]; lia. }
    rewrite swrap_small by lia. by exists (Z.of_nat n), node', data', l', d'.
  - exists 0, node, data2, l2, d. split; [done|]. split; [done|done|done|done|done|by eauto| | |].
    + intros _. destruct Hfalse as [_ Hle]; [done|]. pose proof (Z.div_mod offset 512 ltac:(lia)).
      pose proof (Z.mod_pos_bound offset 512 ltac:(lia)). lia.
    + by eapply others_kept.
    + left. split_and!; [by left|by apply Hfalse|done|].
      rewrite (dirent_at_insert data data2 i _ i ltac:(lia) Hd2). by rewrite decide_True.
Qed.

(** ** The specification *)

(** C8: Reading: [tinyfs_read] on a well-formed file system terminates without leaving the FAT, returns
    the number of bytes of the file that lie in the requested window, puts exactly those bytes at the
    front of the caller's buffer and leaves the disk unchanged. *)
Theorem tinyfs_read_spec stack fs node buffer size offset (d : D) p data ch i :
  fs_inv data ch -> bd_ready d -> fs_private fs = Some (p, data) -> n_private node = Some i ->
  used data i -> length stack = 512%nat -> 0 <= offset -> 0 <= size -> offset + size < 2 ^ 32 ->
  (readable (dirent_at data i) size offset <= length buffer)%nat ->
  let c := take (readable (dirent_at data i) size offset)
             (drop (Z.to_nat offset) (contents d (dirent_at data i) (ch i))) in
  exists d', tinyfs_read stack (Some fs) node buffer size offset d =
    Done (Z.of_nat (length c), c ++ drop (length c) buffer, d') /\ same_disk d d'.
Proof.
  intros Hinv Hr Hfs Hnode Hu Hst Ho Hs Hos Hbuf c.
  assert (length c = readable (dirent_at data i) size offset) as Hlen.
  { unfold c. rewrite length_take, length_drop. unfold contents. rewrite length_take.
    destruct (inv_entries _ _ Hinv i Hu) as [(_ & Hn & Hz)|[Hc Hle]].
    - rewrite Hz. unfold readable. lia.
    - rewrite length_file_bytes by (done || by eapply chain_in_data). unfold readable. lia. }
  destruct (tinyfs_read_effect stack fs node buffer size offset d p data ch i) as (d' & -> & Hd'); [done..|].
  exists d'. split; [|done]. rewrite Hlen, list_inserts_prefix by (fold c; lia). fold c. by rewrite Hlen.
Qed.

(** C1: Writing: [tinyfs_write] terminates without leaving the FAT, keeps the file system invariant and
    changes one file only. It returns the number of bytes written, all of them unless the disk is full;
    the file's contents become the old ones with the written bytes spliced in at [offset], its size is
    raised to the end of the range, its chain grows by free blocks only, and the metadata is on disk. *)
Theorem tinyfs_write_spec stack fs node buffer size offset (d : D) p data ch i :
  fs_inv data ch -> bd_ready d -> fs_private fs = Some (p, data) -> n_private node = Some i ->
  used data i -> length stack = 512%nat -> 0 <= offset -> 0 <= size -> offset + size < 2 ^ 31 ->
  size <= Z.of_nat (length buffer) ->
  exists r node' data' l' d', tinyfs_write stack (Some fs) node buffer size offset d =
      Done (r, node', Some (mk_fs (fs_name fs) (Some (p, data'))), d') /\
    write_effect data ch i d buffer size offset r data' l' d'.
Proof. apply tinyfs_write_effect. Qed.

Lemma length_contents data ch i (d : D) : fs_inv data ch -> bd_ready d -> used data i ->
  length (contents d (dirent_at data i) (ch i)) = Z.to_nat (d_size (dirent_at data i)).
Proof.
  intros Hinv Hr Hu. unfold contents. rewrite length_take.
  destruct (inv_entries _ _ Hinv i Hu) as [(_ & Hn & Hz)|[Hc Hle]]; [by rewrite Hz|].
  rewrite length_file_bytes by (done || by eapply chain_in_data). lia.
Qed.

Lemma window_inserts (f chunk : list Z) s off : (off + length chunk <= s)%nat -> (off + length chunk <= length f)%nat ->
  take (length chunk) (drop off (take s (list_inserts off chunk f))) = chunk.
Proof.
  intros Hs Hf. apply list_eq. intros j. destruct (decide (j < length chunk)%nat).
  - rewrite lookup_take_lt, lookup_drop, lookup_take_lt, list_lookup_inserts by lia. f_equal. lia.
  - rewrite lookup_take_ge, lookup_ge_None_2 by lia. done.
Qed.

(** A read of the range a write reports written sees the written bytes. *)
Lemma written_window data ch i (d : D) buffer size offset r data' l' d' into :
  write_effect data ch i d buffer size offset r data' l' d' -> 0 <= r -> 0 <= offset ->
  size <= Z.of_nat (length buffer) -> r <= Z.of_nat (length into) ->
  let m := readable (dirent_at data' i) r offset in
  Z.of_nat m = r /\
  list_inserts 0 (take m (drop (Z.to_nat offset) (contents d' (dirent_at data' i) l'))) into =
    take (Z.to_nat r) buffer ++ drop (Z.to_nat r) into.
Proof.
  intros [Hinv' Hr' _ Hu' _ _ _ _ Hres] Hr0 Ho Hbuf Hinto m.
  pose proof (length_contents _ _ _ d' Hinv' Hr' Hu') as Hlen. rewrite chains_upd_eq in Hlen.
  destruct Hres as [(Hle & _)|(Hle & _ & _ & Hsz & Hc & _)].
  - assert (r = 0) as -> by lia. unfold m, readable. destruct (Z.to_nat (Z.min 0 _)) eqn:E; [done|lia].
  - assert (m = Z.to_nat r) as -> by (unfold m, readable; lia). split; [lia|].
    assert (length (take (Z.to_nat r) buffer) = Z.to_nat r) as Htl by (rewrite length_take; lia).
    rewrite Hc in *. rewrite length_take, length_inserts in Hlen.
    rewrite <- Htl at 1. rewrite window_inserts, list_inserts_prefix, Htl by lia. done.
Qed.

(** Write then read: the bytes a write reports written are what a read of that range returns
    afterwards, whatever the offset, through the same node. *)
Theorem tinyfs_write_read stack fs node buffer size offset (d : D) p data ch i :
  fs_inv data ch -> bd_ready d -> fs_private fs = Some (p, data) -> n_private node = Some i ->
  used data i -> length stack = 512%nat -> 0 <= offset -> 0 <= size -> offset + size < 2 ^ 31 ->
  size <= Z.of_nat (length buffer) ->
  exists r node' fs' d', tinyfs_write stack (Some fs) node buffer size offset d = Done (r, node', Some fs', d') /\
    (0 <= r -> forall into, r <= Z.of_nat (length into) ->
       exists d2, tinyfs_read stack (Some fs') node into r offset d' =
         Done (r, take (Z.to_nat r) buffer ++ drop (Z.to_nat r) into, d2)).
Proof.
  intros Hinv Hr Hfs Hnode Hu Hst Ho Hs Hos Hbuf.
  destruct (tinyfs_write_effect stack fs node buffer size offset d p data ch i) as
    (r & node' & data' & l' & d' & E & Heff); [done..|].
  eexists r, node', _, d'. split; [exact E|]. intros Hr0 into Hinto.
  destruct (written_window _ _ _ _ _ _ _ _ _ _ _ into Heff Hr0 Ho Hbuf Hinto) as [Hm Hw].
  assert (offset + r < 2 ^ 32) by (destruct (we_result _ _ _ _ _ _ _ _ _ _ _ Heff); lia).
  destruct Heff as [Hinv' Hr' _ Hu' _ _].
  destruct (tinyfs_read_effect stack (mk_fs (fs_name fs) (Some (p, data'))) node into r offset d' p data' _ i
    Hinv' Hr' eq_refl Hnode Hu' Hst Ho Hr0) as (d2 & E2 & _); [lia|lia|].
  exists d2. by rewrite E2, chains_upd_eq, Hw, Hm.
Qed.

(** A write that starts past the end of the file does not clear the gap: the bytes between the old
    end and [offset] are whatever the disk held in those blocks before, for instance the contents of a
    file deleted earlier. *)
Theorem tinyfs_write_gap_stale stack fs node buffer size offset (d : D) p data ch i :
  fs_inv data ch -> bd_ready d -> fs_private fs = Some (p, data) -> n_private node = Some i ->
  used data i -> length stack = 512%nat -> 0 <= offset -> 0 < size -> offset + size < 2 ^ 31 ->
  size <= Z.of_nat (length buffer) -> d_size (dirent_at data i) < offset ->
  exists r node' data' l' d', tinyfs_write stack (Some fs) node buffer size offset d =
      Done (r, node', Some (mk_fs (fs_name fs) (Some (p, data'))), d') /\
    (0 < r -> forall q, d_size (dirent_at data i) <= q < offset ->
       contents d' (dirent_at data' i) l' !! Z.to_nat q = file_bytes d l' !! Z.to_nat q).
Proof.
  intros Hinv Hr Hfs Hnode Hu Hst Ho Hs Hos Hbuf Hgap.
  destruct (tinyfs_write_effect stack fs node buffer size offset d p data ch i) as
    (r & node' & data' & l' & d' & E & Heff); [done..|lia|done|done|].
  exists r, node', data', l', d'. split; [exact E|]. intros Hr0 q Hq.
  destruct Heff as [_ _ _ _ _ _ _ _ [(Hle & _)|(Hle & _ & _ & Hsz & -> & _)]]; [lia|].
  destruct (used_fits _ _ _ Hinv Hu) as (_ & _ & F3 & _). unfold is_u32 in F3.
  rewrite lookup_take_lt, list_lookup_inserts_lt by lia. done.
Qed.

End Device.

(** ** The hypotheses hold: one file of 700 bytes on a RAM disk *)
Definition two_block_chains (i : nat) : list Z := if decide (i = 1%nat) then [105; 103] else [].

Lemma two_block_used i : used two_block_data i -> i = 1%nat.
Proof.
  intros [Hi Hu]. destruct (decide (i = 1%nat)) as [->|Hne]; [done|exfalso]. apply Hu.
  unfold dirent_at. rewrite nth_lookup. unfold two_block_data. cbn [dirents].
  rewrite list_lookup_insert_ne by done. rewrite lookup_replicate_2 by done. done.
Qed.

Lemma two_block_inv : fs_inv two_block_data two_block_chains.
Proof.
  split.
  - destruct two_block_ok as (_ & Hl & Hf & _). split_and!; [|done|done|by vm_compute|].
    + unfold sb_fits, is_u32. cbn. unfold TINYFS_MAGIC. lia.
    + apply Forall_insert; [apply Forall_replicate, null_dirent_fits|].
      unfold dirent_fits, is_u32. cbn. split_and!; done || lia.
  - exact two_block_ok.
  - intros i ->%two_block_used. right. split; [exact two_block_chain|]. vm_compute. discriminate.
  - intros i j ->%two_block_used ->%two_block_used. done.
Qed.

Lemma two_block_entry : used two_block_data 1.
Proof. split; [lia|]. vm_compute. done. Qed.

Definition one_file_node : vfs_node := mk_node [] FILE_TYPE_REGULAR 3 700 1 (Some 0) true (Some 1%nat).
Definition one_file_fs : filesystem tinyfs_data := mk_fs [] (Some (64, two_block_data)).

Ltac two_block_hyps :=
  first [exact ramdisk_sectors | exact two_block_inv | exact Ramdisk.fresh_ramdisk_ready | exact two_block_entry
        | reflexivity | vm_compute; discriminate | lia].

Lemma tinyfs_read_spec_witness :
  let c := take (readable (dirent_at two_block_data 1) 20 690)
     (drop (Z.to_nat 690) (contents Ramdisk.fresh_ramdisk (dirent_at two_block_data 1) (two_block_chains 1))) in
  exists d', tinyfs_read (replicate 512 0) (Some one_file_fs) one_file_node (replicate 20 9) 20 690 Ramdisk.fresh_ramdisk =
    Done (Z.of_nat (length c), c ++ drop (length c) (replicate 20 9), d') /\ same_disk Ramdisk.fresh_ramdisk d'.
Proof.
  apply (tinyfs_read_spec ramdisk_sectors (replicate 512 0) one_file_fs one_file_node (replicate 20 9) 20 690
    Ramdisk.fresh_ramdisk 64 two_block_data two_block_chains 1); try two_block_hyps.
  apply Nat.leb_le. vm_compute. reflexivity.
Defined.

Lemma tinyfs_write_spec_witness :
  exists r node' data' l' d', tinyfs_write (replicate 512 0) (Some one_file_fs) one_file_node (replicate 600 7) 600 500
      Ramdisk.fresh_ramdisk = Done (r, node', Some (mk_fs [] (Some (64, data'))), d') /\
    write_effect two_block_data two_block_chains 1 Ramdisk.fresh_ramdisk (replicate 600 7) 600 500 r data' l' d'.
Proof.
  apply (tinyfs_write_spec ramdisk_sectors (replicate 512 0) one_file_fs one_file_node (replicate 600 7) 600 500
    Ramdisk.fresh_ramdisk 64 two_block_data two_block_chains 1); two_block_hyps.
Defined.

Lemma tinyfs_write_read_witness :
  exists r node' fs' d', tinyfs_write (replicate 512 0) (Some one_file_fs) one_file_node (replicate 600 7) 600 500
      Ramdisk.fresh_ramdisk = Done (r, node', Some fs', d') /\
    (0 <= r -> forall into, r <= Z.of_nat (length into) ->
       exists d2, tinyfs_read (replicate 512 0) (Some fs') one_file_node into r 500 d' =
         Done (r, take (Z.to_nat r) (replicate 600 7) ++ drop (Z.to_nat r) into, d2)).
Proof.
  apply (tinyfs_write_read ramdisk_sectors (replicate 512 0) one_file_fs one_file_node (replicate 600 7) 600 500
    Ramdisk.fresh_ramdisk 64 two_block_data two_block_chains 1); two_block_hyps.
Defined.

Lemma tinyfs_write_gap_stale_witness :
  exists r node' data' l' d', tinyfs_write (replicate 512 0) (Some one_file_fs) one_file_node [1] 1 2000
      Ramdisk.fresh_ramdisk = Done (r, node', Some (mk_fs [] (Some (64, data'))), d') /\
    (0 < r -> forall q, 700 <= q < 2000 ->
       contents d' (dirent_at data' 1) l' !! Z.to_nat q = file_bytes Ramdisk.fresh_ramdisk l' !! Z.to_nat q).
Proof.
  apply (tinyfs_write_gap_stale ramdisk_sectors (replicate 512 0) one_file_fs one_file_node [1] 1 2000
    Ramdisk.fresh_ramdisk 64 two_block_data two_block_chains 1); two_block_hyps.
Defined.

End TinyfsIO.
