(* ===== verification/TinyFSDir.v ===== *)
(** * TinyFS: directories

    Creating, finding and removing entries of a well-formed file system: the
    entry created is the one found afterwards, a second one of that name is
    refused, removal releases the blocks; every operation keeps [fs_inv] and
    leaves the other entries alone. Two flaws of tinyfs.c are proved too: names
    longer than 31 characters, and [tinyfs_unlink] ignoring its directory. *)
From Stdlib Require Import ZArith Lia.
From stdpp Require Import base numbers list gmap.
From S2P Require Import Prelude CStr BlockDev VfsTypes TinyFS TinyFSDisk TinyFSBlocks TinyFSIO.
Import Tinyfs TinyfsDisk TinyfsBlocks TinyfsIO.
Local Open Scope Z_scope.
Local Open Scope arr_scope.
Local Open Scope outcome_scope.

Module TinyfsDir.

(** ** Searching the directory table *)
Lemma find_index_Some P l i : find_index P l = Some i -> i ∈ l /\ P i = true.
Proof.
  unfold find_index. intros E. apply List.find_some in E as [Hi HP]. split; [|done]. by apply list_elem_of_In.
Qed.

Lemma find_index_None P l : find_index P l = None -> forall i, i ∈ l -> P i = false.
Proof. unfold find_index. intros E i Hi. apply (List.find_none P l E). by apply list_elem_of_In. Qed.

Lemma named_spec data name i : named data name i = true <-> cstr (d_name (dirent_at data i)) = cstr name.
Proof. unfold named. rewrite Z.eqb_eq. apply strcmp_safe_eq. Qed.

Lemma in_dir_spec data inode i : in_dir data inode i = true <->
  d_used (dirent_at data i) <> 0 /\ parent_inode (dirent_at data i) = inode.
Proof.
  unfold in_dir, c_true. rewrite andb_true_iff, Z.eqb_eq, negb_true_iff, Z.eqb_neq. done.
Qed.

(** [entry_is data inode name i]: slot [i] holds [name] in directory [inode]. *)
Definition entry_is (data : tinyfs_data) (inode : Z) (name : list Z) (i : nat) : Prop :=
  used data i /\ parent_inode (dirent_at data i) = inode /\ cstr (d_name (dirent_at data i)) = cstr name.

Lemma lookup_entry_Some data inode name i : lookup_entry data inode name = Some i -> entry_is data inode name i.
Proof.
  intros [Hi%elem_of_seq [Hd Hn]%andb_true_iff]%find_index_Some.
  apply in_dir_spec in Hd as [Hu Hp]. apply named_spec in Hn. unfold TINYFS_MAX_FILES in Hi.
  split_and!; [split; [lia|done]|done|done].
Qed.

Lemma lookup_entry_None data inode name : lookup_entry data inode name = None ->
  forall i, ~ entry_is data inode name i.
Proof.
  intros E i ([Hi Hu] & Hp & Hn). apply (find_index_None _ _) with (i := i) in E; [|apply elem_of_seq; unfold TINYFS_MAX_FILES; lia].
  cbv beta in E. apply andb_false_iff in E as [E|E].
  - assert (in_dir data inode i = true) as E' by (by apply in_dir_spec). congruence.
  - assert (named data name i = true) as E' by (by apply named_spec). congruence.
Qed.

(** At most one entry matches: the lookup finds it. *)
Lemma lookup_entry_unique data inode name i : entry_is data inode name i ->
  (forall j, entry_is data inode name j -> j = i) -> lookup_entry data inode name = Some i.
Proof.
  intros Hi Hun. destruct (lookup_entry data inode name) as [j|] eqn:E.
  - f_equal. by apply Hun, lookup_entry_Some.
  - by destruct (lookup_entry_None _ _ _ E i).
Qed.

Lemma find_free_dirent_cases data :
  (exists i, find_free_dirent data = Z.of_nat i /\ (1 <= i < 256)%nat /\ d_used (dirent_at data i) = 0) \/
  (find_free_dirent data = -1 /\ forall i, (1 <= i < 256)%nat -> d_used (dirent_at data i) <> 0).
Proof.
  unfold find_free_dirent. destruct (find_index _ _) as [i|] eqn:E; [left|right].
  - apply find_index_Some in E as [Hi%elem_of_seq HP]. exists i. unfold TINYFS_MAX_FILES, c_true in *.
    split_and!; [done|lia|lia|]. destruct (Z.eqb_spec (d_used (dirent_at data i)) 0); done.
  - split; [done|]. intros i Hi. apply (find_index_None _ _) with (i := i) in E; [|apply elem_of_seq; unfold TINYFS_MAX_FILES; lia].
    unfold c_true in E. destruct (Z.eqb_spec (d_used (dirent_at data i)) 0); done.
Qed.

(** ** Occupying and releasing a slot keep the invariant *)

(** Slot [i], unused in [data], becomes an empty entry. *)
Lemma inv_occupy data ch i de' : fs_inv data ch -> (i < 256)%nat -> d_used (dirent_at data i) = 0 ->
  dirent_fits de' -> first_block de' = 0 -> d_size de' = 0 ->
  fs_inv (set_dirent data i de') (chains_upd ch i []).
Proof.
  intros Hinv Hi Hu Hfit Hb Hs. pose proof (inv_fits _ _ Hinv) as (F1 & F2 & F3 & F4 & F5).
  assert (forall j, dirent_at (set_dirent data i de') j = if decide (j = i) then de' else dirent_at data j) as Hat.
  { intros j. apply dirent_at_insert; [lia|done]. }
  assert (forall j, used (set_dirent data i de') j -> j <> i -> used data j) as Hback.
  { intros j [Hj Hju] Hne. split; [done|]. rewrite Hat, decide_False in Hju by done. done. }
  split.
  - split_and!; [done..|cbn [dirents set_dirent]; by rewrite length_insert|by apply Forall_insert].
  - apply Hinv.
  - intros j Hj. rewrite Hat. destruct (decide (j = i)) as [->|Hne].
    + rewrite chains_upd_eq. by left.
    + rewrite chains_upd_ne by done. by apply Hinv, Hback.
  - intros j k Hj Hk Hne. unfold chains_upd. repeat case_decide; subst; [done|set_solver..|].
    by apply (inv_disjoint _ _ Hinv); [apply Hback|apply Hback|].
Qed.

(** Slot [i] becomes unused and the blocks of its chain free. *)
Lemma inv_release data ch i data' de' : fs_inv data ch -> used data i -> blocks_ok data' -> dirent_fits de' ->
  d_used de' = 0 -> dirents data' = dirents data ->
  (forall x, 0 <= x -> fat data' !! Z.to_nat x = if decide (x ∈ ch i) then Some 0 else fat data !! Z.to_nat x) ->
  fs_inv (set_dirent data' i de') (chains_upd ch i []).
Proof.
  intros Hinv [Hi Hu] Hok Hfit Hu' Hd Hfat. pose proof (inv_fits _ _ Hinv) as (F1 & F2 & F3 & F4 & F5).
  assert (forall j, dirent_at (set_dirent data' i de') j = if decide (j = i) then de' else dirent_at data j) as Hat.
  { intros j. apply dirent_at_insert; [lia|]. cbn [dirents set_dirent]. by rewrite Hd. }
  assert (forall j, used (set_dirent data' i de') j -> used data j /\ j <> i) as Hback.
  { intros j [Hj Hju]. rewrite Hat in Hju. case_decide; [done|]. done. }
  pose proof Hok as (Hg & Hl & Hf & Hfb). destruct Hg as (Hg1 & Hg2 & Hg3 & Hg4 & Hg5).
  pose proof (free_count_bound _ Hl). split.
  - unfold data_fits, sb_fits. cbn [sb fat dirents set_dirent].
    rewrite Hg1, Hg2, Hg3, Hg4, Hg5, Hfb, Hd, length_insert. unfold is_u32, TINYFS_MAGIC.
    split_and!; [lia..|done|done|done|by apply Forall_insert].
  - exact Hok.
  - intros j [Hj Hne]%Hback. rewrite Hat, decide_False, chains_upd_ne by done.
    pose proof (inv_entries _ _ Hinv j Hj) as Hej. eapply entry_frame; [exact Hej|]. intros x Hx.
    destruct (entry_blocks _ _ _ _ Hej Hx) as [Hxd _]. cbn [fat set_dirent].
    rewrite Hfat by (unfold in_data in Hxd; lia). rewrite decide_False; [done|].
    intros Hxi. by apply (inv_disjoint _ _ Hinv j i Hj (conj Hi Hu) Hne x).
  - intros j k [Hj Hnj]%Hback [Hk Hnk]%Hback Hne. rewrite !chains_upd_ne by done.
    by apply (inv_disjoint _ _ Hinv).
Qed.

Section Device.
Context {H D : Type} `{Heap H} `{BlockDevLaws D}.
Hypothesis sectors_enough : 1024 <= bd_sectors (D:=D) < 2 ^ 32.

Lemma same_data_contents data ch (d d' : D) j : fs_inv data ch -> used data j -> same_data d d' ->
  contents d' (dirent_at data j) (ch j) = contents d (dirent_at data j) (ch j).
Proof.
  intros Hinv Hj Hs. unfold contents. f_equal. apply file_bytes_ext. intros b Hb. apply Hs.
  destruct (entry_blocks _ _ _ _ (inv_entries _ _ Hinv j Hj) Hb) as [Hbd _]. unfold in_data in Hbd. lia.
Qed.

(** ** Creating *)

(** Slot [i] of [data'] is the new entry; everything else is as in [data]. *)
Record created (data : tinyfs_data) (ch : nat -> list Z) (d : D) (inode : Z) (name : list Z) (type : Z) (i : nat)
    (data' : tinyfs_data) (d' : D) : Prop := {
  cr_inv : fs_inv data' (chains_upd ch i []);
  cr_was_free : (1 <= i < 256)%nat /\ d_used (dirent_at data i) = 0;
  cr_used : d_used (dirent_at data' i) = 1;
  cr_name : cstr (d_name (dirent_at data' i)) = take 31 (cstr name);
  cr_parent : parent_inode (dirent_at data' i) = inode;
  cr_size : d_size (dirent_at data' i) = 0;
  cr_dir : is_directory (dirent_at data' i) = if type =? FILE_TYPE_DIRECTORY then 1 else 0;
  cr_others : forall j, j <> i -> dirent_at data' j = dirent_at data j;
  cr_blocks : fat data' = fat data /\ sb data' = sb data;
  cr_disk : bd_ready d' /\ same_data d d' }.

Lemma tinyfs_create_effect fs parent name type perm (d : D) p data ch : fs_inv data ch -> bd_ready d ->
  fs_private fs = Some (p, data) -> n_type parent = FILE_TYPE_DIRECTORY -> is_u32 (n_inode parent) ->
  lookup_entry data (n_inode parent) name = None -> (exists k, (1 <= k < 256)%nat /\ d_used (dirent_at data k) = 0) ->
  exists i data' d', tinyfs_create_node (Some fs) parent name type perm d =
      (0, Some (mk_fs (fs_name fs) (Some (p, data'))), d') /\
    created data ch d (n_inode parent) name type i data' d'.
Proof.
  intros Hinv Hr Hfs Ht Hin Hl (k & Hk & Hku). unfold tinyfs_create_node. rewrite Hfs, Ht, Hl. cbn [negb Z.eqb FILE_TYPE_DIRECTORY Pos.eqb].
  destruct (find_free_dirent_cases data) as [(i & -> & Hi & Hiu)|[_ Hno]]; [|by destruct (Hno k)].
  destruct (Z.ltb_spec (Z.of_nat i) 0) as [|_]; [lia|]. rewrite Nat2Z.id.
  pose proof (inv_fits _ _ Hinv) as Hfit. destruct (dirent_at_fits data i Hfit ltac:(lia)) as (F1 & _ & _ & _ & F5).
  destruct (strcpy_safe_cstr (d_name (dirent_at data i)) name 32 ltac:(lia)) as [Hcs Hcl].
  set (de := new_dirent data i name type (n_inode parent)).
  assert (dirent_fits de) as Hde.
  { split_and!; [unfold de, new_dirent; cbn [d_name]; unfold TINYFS_MAX_FILENAME; lia|unfold is_u32; cbn; lia..|done|done]. }
  assert (fs_inv (set_dirent data i de) (chains_upd ch i [])) as Hinv' by (apply inv_occupy; (done || lia)).
  pose proof (inv_blocks _ _ Hinv') as (Hg & _).
  destruct (write_directory_spec sectors_enough (set_dirent data i de) d Hr (inv_fits _ _ Hinv') Hg)
    as (d' & -> & Hr' & _ & Hkeep). cbn [negb Z.eqb].
  assert (forall j, dirent_at (set_dirent data i de) j = if decide (j = i) then de else dirent_at data j) as Hat.
  { intros j. apply dirent_at_insert; [|done]. destruct Hfit as (_ & _ & _ & -> & _). lia. }
  eexists i, _, d'. split; [done|]. split; [done|done|..]; rewrite ?Hat, ?decide_True by done; [done|done|done|done|done| | |].
  - intros j Hne. by rewrite Hat, decide_False.
  - done.
  - split; [done|]. intros l Hll. apply Hkeep; lia.
Qed.

(** ** Removing *)
Record unlinked (data : tinyfs_data) (ch : nat -> list Z) (d : D) (i : nat) (data' : tinyfs_data) (d' : D) : Prop := {
  ul_inv : fs_inv data' (chains_upd ch i []);
  ul_gone : d_used (dirent_at data' i) = 0;
  ul_others : forall j, j <> i -> dirent_at data' j = dirent_at data j;
  ul_contents : forall j, used data j -> j <> i ->
    contents d' (dirent_at data' j) (ch j) = contents d (dirent_at data j) (ch j);
  ul_free : free_blocks (sb data') = free_blocks (sb data) + Z.of_nat (length (ch i));
  ul_disk : bd_ready d' /\ on_disk data' d' }.

Lemma unlink_target_Some data name i : unlink_target data name = Some i ->
  used data i /\ cstr (d_name (dirent_at data i)) = cstr name.
Proof.
  intros [Hi%elem_of_seq [Hu Hn]%andb_true_iff]%find_index_Some. apply named_spec in Hn.
  unfold TINYFS_MAX_FILES, c_true in *. split; [|done]. split; [lia|].
  destruct (Z.eqb_spec (d_used (dirent_at data i)) 0); done.
Qed.

Lemma release_blocks data ch i : fs_inv data ch -> used data i ->
  exists data', (if negb (first_block (dirent_at data i) =? 0)
     then free_block_chain data (first_block (dirent_at data i)) else Done data) = Done data' /\
    blocks_ok data' /\ dirents data' = dirents data /\
    free_blocks (sb data') = free_blocks (sb data) + Z.of_nat (length (ch i)) /\
    (forall x, 0 <= x -> fat data' !! Z.to_nat x = if decide (x ∈ ch i) then Some 0 else fat data !! Z.to_nat x).
Proof.
  intros Hinv Hu. destruct (inv_entries _ _ Hinv i Hu) as [(-> & -> & _)|[Hc _]].
  - exists data. cbn. split_and!; [done|apply Hinv|done|lia|]. intros x _. rewrite decide_False; [done|set_solver].
  - destruct (Z.eqb_spec (first_block (dirent_at data i)) 0) as [E|_]; cbn [negb].
    { exfalso. pose proof (chain_succ _ _ _ _ _ Hc (chain_head _ _ _ Hc)) as [Hd _]. unfold in_data in Hd. lia. }
    destruct (free_chain_loop_spec 1024 _ _ data (inv_blocks _ _ Hinv) Hc) as (data' & E & R1 & R2 & _ & R3 & R4).
    { pose proof (chain_length _ _ _ Hc). lia. }
    exists data'. unfold free_block_chain. by rewrite E.
Qed.

Lemma tinyfs_unlink_effect fs parent name (d : D) p data ch i : fs_inv data ch -> bd_ready d ->
  fs_private fs = Some (p, data) -> n_type parent = FILE_TYPE_DIRECTORY -> unlink_target data name = Some i ->
  exists data' d', tinyfs_unlink (Some fs) parent name d =
      Done (0, Some (mk_fs (fs_name fs) (Some (p, data'))), d') /\
    unlinked data ch d i data' d'.
Proof.
  intros Hinv Hr Hfs Ht Hl. destruct (unlink_target_Some _ _ _ Hl) as [Hu _]. pose proof Hu as [Hi _].
  unfold tinyfs_unlink. rewrite Hfs, Ht, Hl. cbn [negb Z.eqb FILE_TYPE_DIRECTORY Pos.eqb].
  destruct (release_blocks data ch i Hinv Hu) as (data1 & -> & Hok1 & Hd1 & Hfree1 & Hfat1). cbn [obind].
  set (de := cleared_dirent (dirent_at data i)).
  destruct (used_fits _ _ _ Hinv Hu) as (F1 & F2 & F3 & F4 & F5).
  assert (dirent_fits de) as Hde.
  { split_and!; [unfold de, cleared_dirent; cbn [d_name]; by rewrite length_insert|unfold is_u32; cbn; lia..|done|done]. }
  assert (fs_inv (set_dirent data1 i de) (chains_upd ch i [])) as Hinv' by (by eapply inv_release).
  pose proof (inv_blocks _ _ Hinv') as (Hg & _).
  destruct (flush_unlink sectors_enough (set_dirent data1 i de) d Hr (inv_fits _ _ Hinv') Hg)
    as (d1 & d2 & d3 & -> & -> & -> & Hr3 & Hod & Hsd).
  assert (forall j, dirent_at (set_dirent data1 i de) j = if decide (j = i) then de else dirent_at data j) as Hat.
  { intros j. apply dirent_at_insert; [|cbn [dirents set_dirent]; by rewrite Hd1].
    destruct (inv_fits _ _ Hinv) as (_ & _ & _ & -> & _). lia. }
  eexists _, d3. split; [done|]. split; [done|by rewrite Hat, decide_True| | |done|done].
  - intros j Hne. by rewrite Hat, decide_False.
  - intros j Hj Hne. rewrite Hat, decide_False by done. by apply same_data_contents.
Qed.

(** ** The specification *)

(** Create then find: when the directory has no entry of that name and a slot is free,
    [tinyfs_create_node] succeeds, keeps the invariant and every other entry, [tinyfs_finddir] then finds
    the new entry (empty, of the requested type, with that name), and creating it again is refused
    without a change. *)
Theorem tinyfs_create_finddir fs parent name type perm (d : D) p data ch : fs_inv data ch -> bd_ready d ->
  fs_private fs = Some (p, data) -> n_type parent = FILE_TYPE_DIRECTORY -> is_u32 (n_inode parent) ->
  (length (cstr name) < 32)%nat ->
  lookup_entry data (n_inode parent) name = None -> (exists k, (1 <= k < 256)%nat /\ d_used (dirent_at data k) = 0) ->
  exists i data' d', let fs' := mk_fs (fs_name fs) (Some (p, data')) in
    tinyfs_create_node (Some fs) parent name type perm d = (0, Some fs', d') /\
    created data ch d (n_inode parent) name type i data' d' /\
    (forall garbage (h : H) q h', hp_alloc 296 h = (Some q, h') -> length (n_name garbage) = MAX_FILENAME ->
       exists node, tinyfs_finddir garbage (Some fs') parent name h = (Some (q, node), h') /\
         n_private node = Some i /\ n_size node = 0 /\ cstr (n_name node) = cstr name /\
         n_type node = if type =? FILE_TYPE_DIRECTORY then FILE_TYPE_DIRECTORY else FILE_TYPE_REGULAR) /\
    (forall type perm, tinyfs_create_node (Some fs') parent name type perm d' = (-1, Some fs', d')).
Proof.
  intros Hinv Hr Hfs Ht Hin Hlen Hl Hk.
  destruct (tinyfs_create_effect fs parent name type perm d p data ch) as (i & data' & d' & E & Hc); [done..|].
  exists i, data', d'. cbv zeta. split; [done|]. split; [done|].
  destruct Hc as [_ [Hi Hfree] Hu Hn Hp Hs Hd Ho _ _]. rewrite take_ge in Hn by lia.
  assert (lookup_entry data' (n_inode parent) name = Some i) as Hl'.
  { apply lookup_entry_unique; [split_and!; [split; [lia|by rewrite Hu]|done|done]|].
    intros j Hj. destruct (decide (j = i)) as [|Hne]; [done|exfalso]. apply (lookup_entry_None _ _ _ Hl j).
    destruct Hj as ([Hj1 Hj2] & Hj3 & Hj4). rewrite Ho in * by done. by split_and!. }
  split.
  - intros garbage h q h' Ha Hg. unfold tinyfs_finddir. rewrite Ht. cbn [negb Z.eqb FILE_TYPE_DIRECTORY Pos.eqb fs_private].
    rewrite Hl'. unfold alloc_entry. rewrite Ha. eexists. split; [done|]. unfold entry_node. cbn [n_private n_size n_name n_type].
    split_and!; [done|done| |].
    + destruct (strcpy_safe_cstr (n_name garbage) (d_name (dirent_at data' i)) MAX_FILENAME) as [-> _];
        [rewrite Hg; unfold MAX_FILENAME; lia|]. rewrite Hn. apply take_ge. unfold MAX_FILENAME. lia.
    + rewrite Hd. by destruct (type =? FILE_TYPE_DIRECTORY).
  - intros type' perm'. unfold tinyfs_create_node. cbn [fs_private]. rewrite Ht, Hl'. done.
Qed.

(** Every stored name is terminated inside its 32-byte field, as [strcpy_safe] leaves it. *)
Definition names_terminated (data : tinyfs_data) : Prop :=
  forall i, used data i -> (length (cstr (d_name (dirent_at data i))) < 32)%nat.

(** A name of 32 characters or more is cut to 31 when it is stored but compared whole when it is
    looked up: [tinyfs_create_node] reports success for it, yet the file can never be found (so it can
    neither be opened nor detected as a duplicate). *)
Theorem tinyfs_long_name_lost fs parent name type perm (d : D) p data ch : fs_inv data ch -> bd_ready d ->
  names_terminated data ->
  fs_private fs = Some (p, data) -> n_type parent = FILE_TYPE_DIRECTORY -> is_u32 (n_inode parent) ->
  (32 <= length (cstr name))%nat -> (exists k, (1 <= k < 256)%nat /\ d_used (dirent_at data k) = 0) ->
  exists data' d', let fs' := mk_fs (fs_name fs) (Some (p, data')) in
    tinyfs_create_node (Some fs) parent name type perm d = (0, Some fs', d') /\
    names_terminated data' /\
    forall garbage (h : H), tinyfs_finddir garbage (Some fs') parent name h = (None, h).
Proof.
  intros Hinv Hr Hterm Hfs Ht Hin Hlen Hk.
  assert (forall dt, names_terminated dt -> lookup_entry dt (n_inode parent) name = None) as Hnone.
  { intros dt Hdt. destruct (lookup_entry dt (n_inode parent) name) as [j|] eqn:E; [exfalso|done].
    apply lookup_entry_Some in E as (Hj & _ & Hn). specialize (Hdt j Hj). rewrite Hn in Hdt. lia. }
  destruct (tinyfs_create_effect fs parent name type perm d p data ch) as (i & data' & d' & E & Hc);
    [done..|by apply Hnone|done|].
  assert (names_terminated data') as Hterm'.
  { intros j Hj. destruct (decide (j = i)) as [->|Hne].
    - rewrite (cr_name _ _ _ _ _ _ _ _ _ Hc), length_take. lia.
    - destruct Hj as [Hj Hju]. rewrite (cr_others _ _ _ _ _ _ _ _ _ Hc) in * by done. by apply Hterm. }
  exists data', d'. cbv zeta. split_and!; [done|done|]. intros garbage h. unfold tinyfs_finddir.
  rewrite Ht. cbn [negb Z.eqb FILE_TYPE_DIRECTORY Pos.eqb fs_private]. by rewrite Hnone.
Qed.

(** C20: Removing: [tinyfs_unlink] of an existing name terminates without leaving the FAT, frees exactly
    the blocks of the file it removes, keeps the invariant and the entry and contents of every other
    file, and writes the metadata to disk. *)
Theorem tinyfs_unlink_spec fs parent name (d : D) p data ch i : fs_inv data ch -> bd_ready d ->
  fs_private fs = Some (p, data) -> n_type parent = FILE_TYPE_DIRECTORY -> unlink_target data name = Some i ->
  exists data' d', tinyfs_unlink (Some fs) parent name d =
      Done (0, Some (mk_fs (fs_name fs) (Some (p, data'))), d') /\
    unlinked data ch d i data' d'.
Proof. apply tinyfs_unlink_effect. Qed.

(** [tinyfs_unlink] does not look at which directory it was asked about: unlinking a name that the
    given directory does not contain still succeeds and removes a file of that name from elsewhere. *)
Theorem tinyfs_unlink_any_directory fs parent name (d : D) p data ch i : fs_inv data ch -> bd_ready d ->
  fs_private fs = Some (p, data) -> n_type parent = FILE_TYPE_DIRECTORY ->
  lookup_entry data (n_inode parent) name = None -> unlink_target data name = Some i ->
  exists data' d', tinyfs_unlink (Some fs) parent name d =
      Done (0, Some (mk_fs (fs_name fs) (Some (p, data'))), d') /\
    parent_inode (dirent_at data i) <> n_inode parent /\ used data i /\ ~ used data' i.
Proof.
  intros Hinv Hr Hfs Ht Hno Hl. destruct (unlink_target_Some _ _ _ Hl) as [Hu Hn].
  destruct (tinyfs_unlink_effect fs parent name d p data ch i) as (data' & d' & E & Hun); [done..|].
  exists data', d'. split_and!; [done| |done|].
  - intros Hp. by apply (lookup_entry_None _ _ _ Hno i).
  - intros [_ Hu']. by apply Hu', Hun.
Qed.

End Device.

(** ** The hypotheses hold: the 700-byte file "a" of the root directory *)
Definition root_node : vfs_node := mk_node [47] FILE_TYPE_DIRECTORY 3 0 0 (Some 0) true None.
Definition other_dir : vfs_node := mk_node [98] FILE_TYPE_DIRECTORY 3 0 5 (Some 0) true (Some 5%nat).

Lemma slot_two_free : exists k, (1 <= k < 256)%nat /\ d_used (dirent_at two_block_data k) = 0.
Proof. exists 2%nat. split; [lia|reflexivity]. Qed.

Ltac dir_hyps := first [two_block_hyps | exact slot_two_free | unfold is_u32; cbn; lia | cbn; lia].

Lemma tinyfs_create_finddir_witness :
  exists i data' d', let fs' := mk_fs [] (Some (64, data')) in
    tinyfs_create_node (Some one_file_fs) root_node [98] FILE_TYPE_REGULAR 3 Ramdisk.fresh_ramdisk = (0, Some fs', d') /\
    created two_block_data two_block_chains Ramdisk.fresh_ramdisk 0 [98] FILE_TYPE_REGULAR i data' d' /\
    (forall garbage (h : Z) q h', @hp_alloc Z bump_heap 296 h = (Some q, h') -> length (n_name garbage) = MAX_FILENAME ->
       exists node, @tinyfs_finddir Z bump_heap garbage (Some fs') root_node [98] h = (Some (q, node), h') /\
         n_private node = Some i /\ n_size node = 0 /\ cstr (n_name node) = cstr [98] /\
         n_type node = FILE_TYPE_REGULAR) /\
    (forall type perm, tinyfs_create_node (Some fs') root_node [98] type perm d' = (-1, Some fs', d')).
Proof.
  apply (@tinyfs_create_finddir Z Ramdisk.ramdisk bump_heap _ _ ramdisk_sectors one_file_fs root_node [98] FILE_TYPE_REGULAR 3
    Ramdisk.fresh_ramdisk 64 two_block_data two_block_chains); dir_hyps.
Defined.

Lemma two_block_names : names_terminated two_block_data.
Proof. intros i ->%two_block_used. apply Nat.ltb_lt. reflexivity. Qed.

Lemma tinyfs_long_name_lost_witness :
  exists data' d', let fs' := mk_fs [] (Some (64, data')) in
    tinyfs_create_node (Some one_file_fs) root_node (replicate 40 98) FILE_TYPE_REGULAR 3 Ramdisk.fresh_ramdisk
      = (0, Some fs', d') /\
    names_terminated data' /\
    forall garbage (h : Z), @tinyfs_finddir Z bump_heap garbage (Some fs') root_node (replicate 40 98) h = (None, h).
Proof.
  apply (@tinyfs_long_name_lost Z Ramdisk.ramdisk bump_heap _ _ ramdisk_sectors one_file_fs root_node (replicate 40 98)
    FILE_TYPE_REGULAR 3 Ramdisk.fresh_ramdisk 64 two_block_data two_block_chains);
    first [exact two_block_names | dir_hyps].
Defined.

Lemma tinyfs_unlink_spec_witness :
  exists data' d', tinyfs_unlink (Some one_file_fs) root_node [97] Ramdisk.fresh_ramdisk =
      Done (0, Some (mk_fs [] (Some (64, data'))), d') /\
    unlinked two_block_data two_block_chains Ramdisk.fresh_ramdisk 1 data' d'.
Proof.
  apply (tinyfs_unlink_spec ramdisk_sectors one_file_fs root_node [97]
    Ramdisk.fresh_ramdisk 64 two_block_data two_block_chains 1); dir_hyps.
Defined.

Lemma tinyfs_unlink_any_directory_witness :
  exists data' d', tinyfs_unlink (Some one_file_fs) other_dir [97] Ramdisk.fresh_ramdisk =
      Done (0, Some (mk_fs [] (Some (64, data'))), d') /\
    parent_inode (dirent_at two_block_data 1) <> 5 /\ used two_block_data 1 /\ ~ used data' 1.
Proof.
  apply (tinyfs_unlink_any_directory ramdisk_sectors one_file_fs other_dir [97]
    Ramdisk.fresh_ramdisk 64 two_block_data two_block_chains 1); dir_hyps.
Defined.

End TinyfsDir.
