(* ===== verification/VFS.v ===== *)
(** * The virtual file system (src/kernel/VFS/VFS.c)

    The VFS state (root, working directory, descriptor table, registered file
    systems) and every operation of VFS.c, over the operation tables of
    includes/vfs.h as records of functions on the shared [world]. Path strings
    are non-NULL; a store past a fixed buffer or a dangling node gives
    [OutOfBounds]. *)
From Stdlib Require Import ZArith Lia.
From stdpp Require Import base numbers list gmap.
From S2P Require Import Prelude CStr VfsTypes.
Local Open Scope Z_scope.
Local Open Scope arr_scope.
Local Open Scope outcome_scope.

Module Vfs.

Definition SLASH : Z := 47.

(** The static variables of VFS.c. *)
Record vfs_state := mk_vfs {
  root_node : option Z; current_dir : option Z; current_path : list Z;
  vfs_fd_table : list file_descriptor;
  registered_filesystems : list (option Z); num_filesystems : Z }.

Definition set_fds (v : vfs_state) (t : list file_descriptor) : vfs_state :=
  mk_vfs (root_node v) (current_dir v) (current_path v) t (registered_filesystems v) (num_filesystems v).

Definition null_fd : file_descriptor := mk_fd 0 None 0 0.
Definition fd_at (v : vfs_state) (fd : Z) : file_descriptor := nth (Z.to_nat fd) (vfs_fd_table v) null_fd.
Definition set_fd (v : vfs_state) (fd : Z) (e : file_descriptor) : vfs_state :=
  set_fds v (<[Z.to_nat fd := e]> (vfs_fd_table v)).

(** [fd < 0 || fd >= MAX_OPEN_FILES || !vfs_fd_table[fd].used]. *)
Definition bad_fd (v : vfs_state) (fd : Z) : bool :=
  (fd <? 0) || (fd >=? Z.of_nat MAX_OPEN_FILES) || negb (c_true (fd_used (fd_at v fd))).

Definition vfs_init (v : vfs_state) : vfs_state :=
  mk_vfs None (current_dir v) (current_path v) (replicate MAX_OPEN_FILES null_fd) (replicate 16 None) 0.

Definition vfs_register_filesystem (fs : option Z) (v : vfs_state) : Z * vfs_state :=
  match fs with
  | None => (-1, v)
  | Some a =>
      if num_filesystems v >=? 16 then (-1, v) else
      (0, mk_vfs (root_node v) (current_dir v) (current_path v) (vfs_fd_table v)
            (<[Z.to_nat (num_filesystems v) := Some a]> (registered_filesystems v)) (num_filesystems v + 1))
  end.

Definition vfs_get_root (v : vfs_state) : option Z := root_node v.

(** [for (i = 3; i < MAX_OPEN_FILES; i++) if (!used) ...]. *)
Definition allocate_fd (v : vfs_state) : Z * vfs_state :=
  match List.find (fun i => negb (c_true (fd_used (fd_at v (Z.of_nat i))))) (seq 3 (MAX_OPEN_FILES - 3)) with
  | None => (-1, v)
  | Some i =>
      let e := fd_at v (Z.of_nat i) in
      (Z.of_nat i, set_fd v (Z.of_nat i) (mk_fd 1 (fd_node e) (fd_position e) (fd_flags e)))
  end.

(** ** Paths *)

(** The loop of [tokenize_path] on the characters left; [toks] are the finished
    tokens, [cur] the characters of [tokens[token_idx]] so far. The array has 32
    rows: a store to another row is out of bounds. *)
Fixpoint tokenize_loop (chars : list Z) (toks : list (list Z)) (cur : list Z) : outcome (list (list Z)) :=
  match chars with
  | [] =>
      if (0 <? length cur)%nat then
        if (length toks <? 32)%nat then Done (toks ++ [cur]) else OutOfBounds
      else Done toks
  | c :: chars =>
      if c =? SLASH then
        if (0 <? length cur)%nat then
          if (length toks <? 32)%nat then tokenize_loop chars (toks ++ [cur]) [] else OutOfBounds
        else tokenize_loop chars toks cur
      else if (length cur <? MAX_FILENAME - 1)%nat then
        if (length toks <? 32)%nat then tokenize_loop chars toks (cur ++ [c]) else OutOfBounds
      else tokenize_loop chars toks cur
  end.

Definition tokenize_path (path : list Z) : outcome (list (list Z)) :=
  let start := if path.[0] =? SLASH then 1%nat else 0%nat in
  tokenize_loop (cstr (drop start path)) [] [].

(** [for (i = 0; path[i]; i++) if (path[i] == '/') last_slash = i;] *)
Fixpoint last_slash_loop (chars : list Z) (i last : Z) : Z :=
  match chars with
  | [] => last
  | c :: chars => last_slash_loop chars (i + 1) (if c =? SLASH then i else last)
  end.
Definition last_slash (path : list Z) : Z := last_slash_loop (cstr path) 0 (-1).

(** [parent_path] (256 bytes) and the last component, as [vfs_create],
    [vfs_mkdir] and [vfs_unlink] compute them; [None] when there is no slash. *)
Definition split_path (path : list Z) : outcome (option (list Z * list Z)) :=
  let ls := last_slash path in
  if ls <? 0 then Done None else
  let* parent := if ls =? 0 then Done [SLASH]
                 else if ls <? 256 then Done (take (Z.to_nat ls) path) else OutOfBounds in
  Done (Some (parent, take (MAX_FILENAME - 1) (cstr (drop (Z.to_nat (ls + 1)) path)))).

Section Operations.
Context {P H D : Type} `{Heap H}.
Notation W := (world P H D).
Context (vops : vfs_operations W) (fops : filesystem_operations W).

Definition set_nodes (w : W) (ns : gmap Z vfs_node) : W := mk_world ns (w_fs w) (w_heap w) (w_disk w).
Definition set_heap (w : W) (h : H) : W := mk_world (w_nodes w) (w_fs w) h (w_disk w).

Definition node_of (w : W) (a : Z) : outcome vfs_node :=
  match w_nodes w !! a with Some n => Done n | None => OutOfBounds end.

Definition fs_of (w : W) (a : Z) : outcome (filesystem P) :=
  match w_fs w !! a with Some f => Done f | None => OutOfBounds end.

(** [node->ops && node->ops->op]. *)
Definition node_op {A} (n : vfs_node) (op : option A) : option A := if n_ops n then op else None.

(** ** Mounting *)

(** The search of [vfs_mount] among the registered file systems from index [i]. *)
Fixpoint find_fs (n : nat) (i : nat) (fs_type : list Z) (v : vfs_state) (w : W) : outcome (option Z) :=
  match n with
  | O => Done None
  | S n =>
      match registered_filesystems v !! i with
      | Some (Some a) =>
          let* fs := fs_of w a in
          if strcmp_safe fs_type (fs_name fs) =? 0 then Done (Some a) else find_fs n (S i) fs_type v w
      | _ => OutOfBounds
      end
  end.

Definition set_root (v : vfs_state) (root cwd : option Z) : vfs_state :=
  mk_vfs root cwd (current_path v) (vfs_fd_table v) (registered_filesystems v) (num_filesystems v).

Definition with_fs (n : vfs_node) (fs : Z) : vfs_node :=
  mk_node (n_name n) (n_type n) (n_permissions n) (n_size n) (n_inode n) (Some fs) (n_ops n) (n_private n).

Definition vfs_mount (fs_type device mountpoint : list Z) (v : vfs_state) (w : W) : outcome (Z * vfs_state * W) :=
  let* found := find_fs (Z.to_nat (num_filesystems v)) 0 fs_type v w in
  match found with
  | None => Done (-1, v, w)
  | Some fs =>
      let* (r, w) := op_mount fops fs device w in
      if negb (r =? 0) then Done (-1, v, w) else
      if (mountpoint.[0] =? SLASH) && (mountpoint.[1] =? 0) then
        let* (root, w) := op_get_root fops fs w in
        match root with
        | None => Done (-1, set_root v None (current_dir v), w)
        | Some a =>
            let* n := node_of w a in
            Done (0, set_root v (Some a) (Some a), set_nodes w (<[a := with_fs n fs]> (w_nodes w)))
        end
      else Done (0, v, w)
  end.

(** ** Looking nodes up *)
Definition vfs_readdir (node : option Z) (index : Z) (w : W) : outcome (option Z * W) :=
  match node with
  | None => Done (None, w)
  | Some a =>
      let* n := node_of w a in
      if negb (n_type n =? FILE_TYPE_DIRECTORY) then Done (None, w) else
      match node_op n (op_readdir vops) with
      | None => Done (None, w)
      | Some f => f a index w
      end
  end.

Definition vfs_finddir (node : option Z) (name : list Z) (w : W) : outcome (option Z * W) :=
  match node with
  | None => Done (None, w)
  | Some a =>
      let* n := node_of w a in
      if negb (n_type n =? FILE_TYPE_DIRECTORY) then Done (None, w) else
      match node_op n (op_finddir vops) with
      | None => Done (None, w)
      | Some f => f a name w
      end
  end.

(** The component loop of [vfs_resolve_path]. *)
Fixpoint resolve_tokens (current : Z) (tokens : list (list Z)) (w : W) : outcome (option Z * W) :=
  match tokens with
  | [] => Done (Some current, w)
  | t :: tokens =>
      let* n := node_of w current in
      if negb (n_type n =? FILE_TYPE_DIRECTORY) then Done (None, w) else
      let* (next, w) := vfs_finddir (Some current) t w in
      match next with
      | None => Done (None, w)
      | Some a => resolve_tokens a tokens w
      end
  end.

Definition vfs_resolve_path (path : list Z) (v : vfs_state) (w : W) : outcome (option Z * W) :=
  match root_node v with
  | None => Done (None, w)
  | Some root =>
      if (path.[0] =? SLASH) && (path.[1] =? 0) then Done (Some root, w) else
      if negb (path.[0] =? SLASH) then Done (None, w) else
      let* tokens := tokenize_path path in
      resolve_tokens root tokens w
  end.

(** ** Descriptors *)
Definition vfs_open (path : list Z) (flags : Z) (v : vfs_state) (w : W) : outcome (Z * vfs_state * W) :=
  let* (node, w) := vfs_resolve_path path v w in
  match node with
  | None => Done (-1, v, w)
  | Some a =>
      let '(fd, v) := allocate_fd v in
      if fd <? 0 then Done (-1, v, w) else
      let v := set_fd v fd (mk_fd (fd_used (fd_at v fd)) (Some a) 0 flags) in
      let* n := node_of w a in
      match node_op n (op_open vops) with
      | None => Done (fd, v, w)
      | Some f => let* (_, w) := f a flags w in Done (fd, v, w)
      end
  end.

Definition vfs_close (fd : Z) (v : vfs_state) (w : W) : outcome (Z * vfs_state * W) :=
  if bad_fd v fd then Done (-1, v, w) else
  let e := fd_at v fd in
  let* w := match fd_node e with
            | None => Done w
            | Some a =>
                let* n := node_of w a in
                match node_op n (op_close vops) with
                | None => Done w
                | Some f => let* (_, w) := f a w in Done w
                end
            end in
  Done (0, set_fd v fd (mk_fd 0 None 0 (fd_flags e)), w).

Definition advance (v : vfs_state) (fd : Z) (n : Z) : vfs_state :=
  let e := fd_at v fd in
  if n >? 0 then set_fd v fd (mk_fd (fd_used e) (fd_node e) (u32 (fd_position e + n)) (fd_flags e)) else v.

Definition vfs_read (fd : Z) (buffer : list Z) (size : Z) (v : vfs_state) (w : W)
    : outcome (Z * list Z * vfs_state * W) :=
  if bad_fd v fd then Done (-1, buffer, v, w) else
  match fd_node (fd_at v fd) with
  | None => Done (-1, buffer, v, w)
  | Some a =>
      let* n := node_of w a in
      match node_op n (op_read vops) with
      | None => Done (-1, buffer, v, w)
      | Some f =>
          let* (r, buffer, w) := f a buffer size (fd_position (fd_at v fd)) w in
          Done (r, buffer, advance v fd r, w)
      end
  end.

Definition vfs_write (fd : Z) (buffer : list Z) (size : Z) (v : vfs_state) (w : W) : outcome (Z * vfs_state * W) :=
  if bad_fd v fd then Done (-1, v, w) else
  match fd_node (fd_at v fd) with
  | None => Done (-1, v, w)
  | Some a =>
      let* n := node_of w a in
      match node_op n (op_write vops) with
      | None => Done (-1, v, w)
      | Some f =>
          let* (r, w) := f a buffer size (fd_position (fd_at v fd)) w in
          Done (r, advance v fd r, w)
      end
  end.

Definition vfs_seek (fd offset whence : Z) (v : vfs_state) (w : W) : outcome (Z * vfs_state) :=
  if bad_fd v fd then Done (-1, v) else
  let e := fd_at v fd in
  let* new_pos :=
    if whence =? SEEK_SET then Done (Some (u32 offset))
    else if whence =? SEEK_CUR then Done (Some (u32 (fd_position e + offset)))
    else if whence =? SEEK_END then
      match fd_node e with
      | None => OutOfBounds
      | Some a => let* n := node_of w a in Done (Some (u32 (n_size n + offset)))
      end
    else Done None in
  match new_pos with
  | None => Done (-1, v)
  | Some p => Done (s32 p, set_fd v fd (mk_fd (fd_used e) (fd_node e) p (fd_flags e)))
  end.

(** ** Creating and removing *)

(** The parent directory and the last component of [path]. *)
Definition resolve_parent (path : list Z) (v : vfs_state) (w : W) : outcome (option (Z * vfs_node * list Z) * W) :=
  if negb (path.[0] =? SLASH) then Done (None, w) else
  let* split := split_path path in
  match split with
  | None => Done (None, w)
  | Some (parent_path, name) =>
      let* (parent, w) := vfs_resolve_path parent_path v w in
      match parent with
      | None => Done (None, w)
      | Some a =>
          let* n := node_of w a in
          if negb (n_type n =? FILE_TYPE_DIRECTORY) then Done (None, w) else Done (Some (a, n, name), w)
      end
  end.

Definition vfs_create_type (type : Z) (path : list Z) (permissions : Z) (v : vfs_state) (w : W) : outcome (Z * W) :=
  let* (parent, w) := resolve_parent path v w in
  match parent with
  | None => Done (-1, w)
  | Some (a, n, name) =>
      match node_op n (op_create vops) with
      | None => Done (-1, w)
      | Some f => f a name type permissions w
      end
  end.

Definition vfs_create := vfs_create_type FILE_TYPE_REGULAR.
Definition vfs_mkdir := vfs_create_type FILE_TYPE_DIRECTORY.

Definition vfs_unlink (path : list Z) (v : vfs_state) (w : W) : outcome (Z * W) :=
  let* (parent, w) := resolve_parent path v w in
  match parent with
  | None => Done (-1, w)
  | Some (a, n, name) =>
      match node_op n (op_unlink vops) with
      | None => Done (-1, w)
      | Some f => f a name w
      end
  end.

(** The lines [vfs_list_directory] prints: type letter, name, size. *)
Definition dir_line : Type := Z * list Z * Z.

(** [while ((entry = vfs_readdir(dir, i++)) != NULL)], freeing each entry. *)
Fixpoint list_loop (fuel : nat) (dir i : Z) (w : W) : outcome (list dir_line * W) :=
  match fuel with
  | O => OutOfFuel
  | S fuel =>
      let* (entry, w) := vfs_readdir (Some dir) i w in
      match entry with
      | None => Done ([], w)
      | Some a =>
          let* n := node_of w a in
          let line := ((if n_type n =? FILE_TYPE_DIRECTORY then 100 else 102), cstr (n_name n), n_size n) in
          let w := mk_world (delete a (w_nodes w)) (w_fs w) (hp_free a (w_heap w)) (w_disk w) in
          let* (lines, w) := list_loop fuel dir (u32 (i + 1)) w in
          Done (line :: lines, w)
      end
  end.

Definition vfs_list_directory (fuel : nat) (path : list Z) (v : vfs_state) (w : W)
    : outcome (option (list dir_line) * W) :=
  let* (dir, w) := vfs_resolve_path path v w in
  match dir with
  | None => Done (None, w)
  | Some a =>
      let* n := node_of w a in
      if negb (n_type n =? FILE_TYPE_DIRECTORY) then Done (None, w) else
      let* (lines, w) := list_loop fuel a 0 w in
      Done (Some lines, w)
  end.

Definition vfs_statfs (path : list Z) (v : vfs_state) (w : W) : outcome (Z * option fs_stats * W) :=
  let* (node, w) := vfs_resolve_path path v w in
  match node with
  | None => Done (-1, None, w)
  | Some a =>
      let* n := node_of w a in
      match n_fs n with
      | None => Done (-1, None, w)
      | Some fs =>
          match op_get_stats fops with
          | None => Done (-1, None, w)
          | Some f => f fs w
          end
      end
  end.

(** ** The working directory *)
Definition vfs_get_cwd (v : vfs_state) : option Z :=
  match current_dir v with Some a => Some a | None => root_node v end.

Definition vfs_get_cwd_path (v : vfs_state) : list Z := current_path v.

(** [full_path] for a relative path: the working directory, a slash, the path,
    in a buffer of 256 bytes. *)
Definition relative_path (cwd path : list Z) : outcome (list Z) :=
  let p := take 255 (cstr cwd) in
  let p := match last p with Some c => if c =? SLASH then p else p ++ [SLASH] | None => p end in
  let full := p ++ take (255 - length p) (cstr path) in
  if (length full <? 256)%nat then Done full else OutOfBounds.

(** Copying [full_path] to [current_path] and dropping a trailing slash. *)
Definition set_current_path (full cwd : list Z) : list Z :=
  let i := length (take 255 full) in
  let cwd := list_inserts 0 (take 255 full ++ [0]) cwd in
  if (1 <? i)%nat && (cwd.[i - 1] =? SLASH) then cwd.[i - 1 <- 0] else cwd.

Definition vfs_chdir (path : list Z) (v : vfs_state) (w : W) : outcome (Z * vfs_state * W) :=
  let* (full, target, w) :=
    if path.[0] =? SLASH then
      let* (t, w) := vfs_resolve_path path v w in Done (take 255 (cstr path), t, w)
    else
      let* full := relative_path (current_path v) path in
      let* (t, w) := vfs_resolve_path full v w in Done (full, t, w) in
  match target with
  | None => Done (-1, v, w)
  | Some a =>
      let* n := node_of w a in
      if negb (n_type n =? FILE_TYPE_DIRECTORY) then Done (-1, v, w) else
      Done (0, mk_vfs (root_node v) (Some a) (set_current_path full (current_path v)) (vfs_fd_table v)
                 (registered_filesystems v) (num_filesystems v), w)
  end.

End Operations.
End Vfs.
