(* ===== verification/VFSProps.v ===== *)
(** * Properties of the VFS

    Path splitting against its specification, and the descriptor table. *)
From Stdlib Require Import ZArith Lia.
From stdpp Require Import base numbers list gmap.
From S2P Require Import Prelude CStr VfsTypes VFS.
Import Vfs.
Local Open Scope Z_scope.
Local Open Scope arr_scope.
Local Open Scope outcome_scope.

Module VfsProps.

(** ** Paths *)

(** The pieces of a string between slashes, empty ones included. *)
Fixpoint split_slash (l : list Z) : list (list Z) :=
  match l with
  | [] => [[]]
  | c :: l =>
      if c =? SLASH then [] :: split_slash l
      else match split_slash l with [] => [[c]] | h :: t => (c :: h) :: t end
  end.

(** The path components: the non-empty pieces, each cut to 255 characters. *)
Definition components (l : list Z) : list (list Z) :=
  take 255 <$> filter (fun t => t <> []) (split_slash l).

(** The token array has 32 rows. *)
Definition fits_tokens (toks : list (list Z)) : outcome (list (list Z)) :=
  if (length toks <=? 32)%nat then Done toks else OutOfBounds.

Lemma split_slash_cons l : exists h t, split_slash l = h :: t.
Proof.
  destruct l as [|c l]; cbn; [eauto|]. destruct (c =? SLASH); [eauto|]. destruct (split_slash l); eauto.
Qed.

Lemma fits_tokens_full toks rest : length toks = 32%nat -> rest <> [] -> fits_tokens (toks ++ rest) = OutOfBounds.
Proof.
  intros Hl Hr. unfold fits_tokens. rewrite length_app. destruct rest; [done|]. cbn [length].
  destruct (Nat.leb_spec (length toks + S (length rest)) 32); [lia|done].
Qed.

(** The pieces that remain when [cur] has been collected for the current one. *)
Definition remaining (cur chars : list Z) : list (list Z) :=
  match split_slash chars with
  | [] => []
  | h :: t => take 255 <$> filter (fun t => t <> []) ((cur ++ h) :: t)
  end.

Lemma remaining_nil chars : remaining [] chars = components chars.
Proof. unfold remaining, components. by destruct (split_slash_cons chars) as (h & t & ->). Qed.

Lemma filter_nonempty_cons (x : list Z) l : x <> [] ->
  filter (fun t => t <> []) (x :: l) = x :: filter (fun t => t <> []) l.
Proof. intros Hx. by rewrite filter_cons_True. Qed.

Lemma remaining_slash cur chars : (length cur <= 255)%nat ->
  remaining cur (SLASH :: chars) = (if decide (cur = []) then [] else [cur]) ++ components chars.
Proof.
  intros Hl. unfold remaining. cbn [split_slash Z.eqb SLASH Pos.eqb]. rewrite app_nil_r. case_decide as Hc.
  - subst. by rewrite filter_cons_False by naive_solver.
  - rewrite filter_nonempty_cons, fmap_cons by done. by rewrite take_ge by done.
Qed.

Lemma remaining_char cur c chars : c <> SLASH ->
  remaining cur (c :: chars) = remaining (cur ++ [c]) chars.
Proof.
  intros Hc. unfold remaining. cbn [split_slash]. destruct (Z.eqb_spec c SLASH) as [|_]; [done|].
  destruct (split_slash_cons chars) as (h & t & ->). by rewrite <- app_assoc.
Qed.

(** Characters past the 255th of a piece are dropped. *)
Lemma remaining_cut cur c chars : length cur = 255%nat ->
  remaining (cur ++ [c]) chars = remaining cur chars.
Proof.
  intros Hl. unfold remaining. destruct (split_slash_cons chars) as (h & t & ->).
  rewrite !filter_nonempty_cons, !fmap_cons by (destruct cur; done).
  by rewrite <- app_assoc, !take_app_le by lia.
Qed.

Lemma remaining_nonempty cur chars : cur <> [] -> remaining cur chars <> [].
Proof.
  intros Hc. unfold remaining. destruct (split_slash_cons chars) as (h & t & ->).
  rewrite filter_nonempty_cons, fmap_cons by (destruct cur; done). done.
Qed.

Lemma tokenize_loop_spec chars : forall toks cur, (length toks <= 32)%nat -> (length cur <= 255)%nat ->
  tokenize_loop chars toks cur = fits_tokens (toks ++ remaining cur chars).
Proof.
  induction chars as [|c chars IH]; intros toks cur Ht Hc; cbn [tokenize_loop].
  - unfold remaining. cbn [split_slash]. rewrite app_nil_r. destruct cur as [|x cur];
      [change (0 <? @length Z [])%nat with false|change (0 <? length (x :: cur))%nat with true]; cbv iota.
    + rewrite filter_cons_False, app_nil_r by naive_solver. unfold fits_tokens.
      by destruct (Nat.leb_spec (length toks) 32); [|lia].
    + rewrite filter_nonempty_cons, filter_nil, fmap_cons, fmap_nil, take_ge by done.
      destruct (Nat.ltb_spec (length toks) 32) as [Hlt|Hge]; [|symmetry; apply fits_tokens_full; [lia|done]].
      unfold fits_tokens. rewrite length_app. cbn [length]. by destruct (Nat.leb_spec (length toks + 1) 32); [|lia].
  - destruct (Z.eqb_spec c SLASH) as [->|Hs].
    + rewrite remaining_slash by done. destruct cur as [|x cur];
      [change (0 <? @length Z [])%nat with false|change (0 <? length (x :: cur))%nat with true]; cbv iota.
      * rewrite decide_True by done. rewrite IH, remaining_nil by done. done.
      * rewrite decide_False by done. destruct (Nat.ltb_spec (length toks) 32) as [Hlt|Hge].
        -- rewrite IH, remaining_nil, app_assoc; [done| |cbn; lia]. rewrite length_app. cbn. lia.
        -- symmetry. apply fits_tokens_full; [lia|done].
    + rewrite remaining_char by done. change (MAX_FILENAME - 1)%nat with 255%nat.
      destruct (Nat.ltb_spec (length cur) 255) as [Hlt|Hge].
      * destruct (Nat.ltb_spec (length toks) 32) as [Hlt'|Hge'].
        -- apply IH; [done|]. rewrite length_app. cbn. lia.
        -- symmetry. apply fits_tokens_full; [lia|]. apply remaining_nonempty. by destruct cur.
      * rewrite remaining_cut by lia. by apply IH.
Qed.

(** [tokenize_path] yields exactly the non-empty components of the path, each cut to 255 characters,
    when there are at most 32 of them; with more it stores past its caller's 32-row token array. *)
Theorem tokenize_path_spec path :
  tokenize_path path =
    fits_tokens (components (cstr (drop (if path.[0] =? SLASH then 1 else 0) path))).
Proof. unfold tokenize_path. rewrite tokenize_loop_spec, remaining_nil by (cbn; lia). done. Qed.

Lemma tokenize_components path : tokenize_path path =
  fits_tokens (components (cstr (drop (if path.[0] =? SLASH then 1 else 0) path))).
Proof. unfold tokenize_path. rewrite tokenize_loop_spec, remaining_nil by (cbn; lia). done. Qed.

(** One component. *)
Definition plain_name (name : list Z) : Prop :=
  name <> [] /\ Forall (fun c => c <> 0 /\ c <> SLASH) name /\ (length name <= 255)%nat.

Lemma plain_cstr name : plain_name name -> cstr name = name.
Proof. intros (_ & Hn & _). apply cstr_id. eapply List.Forall_impl; [|exact Hn]. by intros c [? _]. Qed.

Lemma split_slash_plain name : Forall (fun c => c <> 0 /\ c <> SLASH) name -> split_slash name = [name].
Proof.
  induction 1 as [|c name [_ Hc] Hn IH]; cbn [split_slash]; [done|].
  destruct (Z.eqb_spec c SLASH); [done|]. by rewrite IH.
Qed.

Lemma tokenize_plain name : plain_name name -> tokenize_path (SLASH :: name) = Done [name].
Proof.
  intros Hp. rewrite tokenize_components. change ((SLASH :: name).[0]) with SLASH. cbn [Z.eqb SLASH Pos.eqb drop].
  rewrite drop_0, (plain_cstr _ Hp). destruct Hp as (Hne & Hn & Hl). unfold components.
  rewrite (split_slash_plain _ Hn), filter_nonempty_cons, fmap_cons, take_ge by done. done.
Qed.

Lemma last_slash_loop_plain name i last : Forall (fun c => c <> 0 /\ c <> SLASH) name ->
  last_slash_loop name i last = last.
Proof.
  intros Hn. revert i. induction Hn as [|c name [_ Hc] Hn IH]; intros i; cbn [last_slash_loop]; [done|].
  destruct (Z.eqb_spec c SLASH); [done|]. apply IH.
Qed.

Lemma split_path_plain name : plain_name name -> split_path (SLASH :: name) = Done (Some ([SLASH], name)).
Proof.
  intros Hp. pose proof (plain_cstr _ Hp) as Hc. destruct Hp as (Hne & Hn & Hl).
  unfold split_path, last_slash. cbn [cstr SLASH Z.eqb]. rewrite Hc. cbn [last_slash_loop SLASH Z.eqb Pos.eqb].
  rewrite last_slash_loop_plain by done. cbn [Z.ltb Z.compare Z.eqb obind]. 
  change (Z.to_nat (0 + 1)) with 1%nat. cbn [drop]. rewrite drop_0, Hc, take_ge by (unfold MAX_FILENAME; lia). done.
Qed.

(** ** The descriptor table *)
Definition fd_free (v : vfs_state) (fd : Z) : Prop := fd_used (fd_at v fd) = 0.

Lemma fd_at_set_eq v fd e : length (vfs_fd_table v) = 256%nat -> 0 <= fd < 256 -> fd_at (set_fd v fd e) fd = e.
Proof.
  intros Hl Hfd. unfold fd_at, set_fd, set_fds. cbn [vfs_fd_table]. rewrite nth_lookup, list_lookup_insert_eq by lia. done.
Qed.

Lemma fd_at_set_ne v fd fd' e : 0 <= fd -> 0 <= fd' -> fd <> fd' -> fd_at (set_fd v fd e) fd' = fd_at v fd'.
Proof.
  intros H1 H2 Hne. unfold fd_at, set_fd, set_fds. cbn [vfs_fd_table]. rewrite !nth_lookup, list_lookup_insert_ne by lia. done.
Qed.

Lemma length_set_fd v fd e : length (vfs_fd_table (set_fd v fd e)) = length (vfs_fd_table v).
Proof. unfold set_fd, set_fds. cbn [vfs_fd_table]. apply length_insert. Qed.

Lemma bad_fd_false v fd : 0 <= fd < 256 -> fd_used (fd_at v fd) <> 0 -> bad_fd v fd = false.
Proof.
  intros Hfd Hu. unfold bad_fd, c_true. change (Z.of_nat MAX_OPEN_FILES) with 256. destruct (Z.ltb_spec fd 0), (Z.geb_spec fd 256); try lia;
    by destruct (Z.eqb_spec (fd_used (fd_at v fd)) 0).
Qed.

(** The lowest free descriptor from 3 on. *)
Lemma find_seq_first (P : nat -> bool) lo n i : List.find P (seq lo n) = Some i ->
  (lo <= i < lo + n)%nat /\ P i = true /\ forall j, (lo <= j < i)%nat -> P j = false.
Proof.
  revert lo. induction n as [|n IH]; intros lo E; cbn in E; [done|]. destruct (P lo) eqn:EP.
  - simplify_eq. split_and!; [lia|lia|done|lia].
  - apply IH in E as (Hi & HP & Hmin). split_and!; [lia|lia|done|]. intros j Hj.
    destruct (decide (j = lo)) as [->|]; [done|]. apply Hmin. lia.
Qed.

Lemma allocate_fd_cases v : length (vfs_fd_table v) = 256%nat ->
  (exists fd, allocate_fd v = (fd, set_fd v fd (mk_fd 1 (fd_node (fd_at v fd)) (fd_position (fd_at v fd)) (fd_flags (fd_at v fd)))) /\
     3 <= fd < 256 /\ fd_free v fd /\ forall k, 3 <= k < fd -> ~ fd_free v k) \/
  (allocate_fd v = (-1, v) /\ forall k, 3 <= k < 256 -> ~ fd_free v k).
Proof.
  intros Hl. unfold allocate_fd, fd_free, c_true. destruct (List.find _ _) as [i|] eqn:E; [left|right].
  - apply find_seq_first in E as (Hi & HP & Hmin). change (3 + (MAX_OPEN_FILES - 3))%nat with 256%nat in Hi.
    exists (Z.of_nat i). split_and!; [done|lia|lia| |].
    + destruct (Z.eqb_spec (fd_used (fd_at v (Z.of_nat i))) 0); done.
    + intros k Hk E. specialize (Hmin (Z.to_nat k) ltac:(lia)). rewrite Z2Nat.id, E in Hmin by lia. done.
  - split; [done|]. intros k Hk E0. apply (List.find_none _ _) with (x := Z.to_nat k) in E.
    + rewrite Z2Nat.id, E0 in E by lia. done.
    + apply in_seq. change (3 + (MAX_OPEN_FILES - 3))%nat with 256%nat. lia.
Qed.

(** What the descriptor operations need of a file system's [open] and [close]:
    they return, and do not destroy the node. *)
Class OpenClose {P H D : Type} (vops : vfs_operations (world P H D)) : Prop := {
  open_total : forall f a n flags w, op_open vops = Some f -> w_nodes w !! a = Some n ->
    exists r w', f a flags w = Done (r, w') /\ is_Some (w_nodes w' !! a);
  close_total : forall f a n w, op_close vops = Some f -> w_nodes w !! a = Some n ->
    exists r w', f a w = Done (r, w') }.

Section Descriptors.
Context {P H D : Type} (vops : vfs_operations (world P H D)) `{OpenClose P H D vops}.

Lemma vfs_open_effect path flags v (w w1 : world P H D) a n : length (vfs_fd_table v) = 256%nat ->
  vfs_resolve_path vops path v w = Done (Some a, w1) -> w_nodes w1 !! a = Some n ->
  (exists fd v' w2, vfs_open vops path flags v w = Done (fd, v', w2) /\ 3 <= fd < 256 /\ fd_free v fd /\
     (forall k, 3 <= k < fd -> ~ fd_free v k) /\ v' = set_fd v fd (mk_fd 1 (Some a) 0 flags) /\
     is_Some (w_nodes w2 !! a)) \/
  (vfs_open vops path flags v w = Done (-1, v, w1) /\ forall k, 3 <= k < 256 -> ~ fd_free v k).
Proof.
  intros Hl Hres Hn. unfold vfs_open. rewrite Hres. cbn [obind].
  destruct (allocate_fd_cases v Hl) as [(fd & -> & Hfd & Hfree & Hmin)|[-> Hno]]; [left|right; by split].
  destruct (Z.ltb_spec fd 0); [lia|]. rewrite fd_at_set_eq by (done || lia). cbn [fd_used].
  unfold node_of. rewrite Hn. cbn [obind].
  assert (forall e e', set_fd (set_fd v fd e) fd e' = set_fd v fd e') as Hss.
  { intros e e'. unfold set_fd, set_fds. cbn [vfs_fd_table root_node current_dir current_path registered_filesystems num_filesystems].
    by rewrite list_insert_insert_eq. }
  rewrite Hss. unfold node_op. destruct (n_ops n); [destruct (op_open vops) as [f|] eqn:Eo|].
  - destruct (open_total f a n flags w1 Eo Hn) as (r & w2 & -> & Hw2). cbn [obind]. eexists fd, _, w2. split_and!; first [done | lia].
  - eexists fd, _, w1. split_and!; first [done | lia].
  - eexists fd, _, w1. split_and!; first [done | lia].
Qed.

(** Descriptor life cycle: [vfs_open] of an existing path hands out the lowest free descriptor from 3
    on, positioned at 0, or -1 when all are in use; [vfs_close] of it succeeds, frees it and leaves every
    other descriptor as it was before the open; a second close is refused. *)
Theorem vfs_open_close path flags v (w w1 : world P H D) a n : length (vfs_fd_table v) = 256%nat ->
  vfs_resolve_path vops path v w = Done (Some a, w1) -> w_nodes w1 !! a = Some n ->
  (exists fd v' w2, vfs_open vops path flags v w = Done (fd, v', w2) /\ 3 <= fd < 256 /\ fd_free v fd /\
     (forall k, 3 <= k < fd -> ~ fd_free v k) /\ fd_at v' fd = mk_fd 1 (Some a) 0 flags /\
     (forall k, 0 <= k -> k <> fd -> fd_at v' k = fd_at v k) /\
     exists v'' w3, vfs_close vops fd v' w2 = Done (0, v'', w3) /\ fd_free v'' fd /\
       (forall k, 0 <= k -> k <> fd -> fd_at v'' k = fd_at v k) /\
       forall w4, vfs_close vops fd v'' w4 = Done (-1, v'', w4)) \/
  (vfs_open vops path flags v w = Done (-1, v, w1) /\ forall k, 3 <= k < 256 -> ~ fd_free v k).
Proof.
  intros Hl Hres Hn.
  destruct (vfs_open_effect path flags v w w1 a n Hl Hres Hn) as
    [(fd & v' & w2 & -> & Hfd & Hfree & Hmin & -> & [n2 Hn2])|?]; [left|by right].
  set (v' := set_fd v fd _). assert (length (vfs_fd_table v') = 256%nat) as Hl' by (unfold v'; by rewrite length_set_fd).
  assert (fd_at v' fd = mk_fd 1 (Some a) 0 flags) as Hat by (apply fd_at_set_eq; [done|lia]).
  assert (exists w3, vfs_close vops fd v' w2 = Done (0, set_fd v' fd (mk_fd 0 None 0 flags), w3)) as [w3 Hclose].
  { unfold vfs_close. rewrite bad_fd_false, Hat by (rewrite ?Hat; done || lia). cbn [fd_node fd_flags].
    unfold node_of. rewrite Hn2. cbn [obind]. unfold node_op. destruct (n_ops n2); [destruct (op_close vops) as [f|] eqn:Ec|];
      cbn [obind]; [|by eexists..]. destruct (close_total f a n2 w2 Ec Hn2) as (r & w3 & ->). cbn [obind]. by eexists. }
  exists fd, v', w2. split_and!; [done|lia|lia|done|done|done| |].
  { intros k Hk Hne. unfold v'. apply fd_at_set_ne; lia. }
  eexists _, w3. split; [exact Hclose|]. unfold fd_free. rewrite fd_at_set_eq by (done || lia). split_and!; [done| |].
  - intros k Hk Hne. rewrite fd_at_set_ne by lia. unfold v'. apply fd_at_set_ne; lia.
  - intros w4. unfold vfs_close, bad_fd. rewrite fd_at_set_eq by (done || lia). by rewrite orb_true_r.
Qed.

End Descriptors.

End VfsProps.
