(* ===== verification/VfsTinyFS.v ===== *)
(** * TinyFS behind the VFS

    The operation tables [tinyfs_vfs_ops] and [tinyfs_fs_ops] of tinyfs.c as
    functions of the shared world, and what a program that uses the VFS calls
    on a mounted TinyFS observes: a file created, opened and written reads back
    as written, and listing the root prints its entries. *)
From Stdlib Require Import ZArith Lia.
From stdpp Require Import base numbers list gmap.
From S2P Require Import Prelude CStr BlockDev VfsTypes TinyFS TinyFSDisk TinyFSBlocks TinyFSIO TinyFSDir VFS VFSProps.
Import Tinyfs TinyfsDisk TinyfsBlocks TinyfsIO TinyfsDir Vfs VfsProps.
Local Open Scope Z_scope.
Local Open Scope arr_scope.
Local Open Scope outcome_scope.

Module VfsTinyfs.

Section Tables.
Context {H D : Type} `{Heap H} `{BlockDev D}.
Notation W := (world tinyfs_data H D).

(** Uninitialised memory: a file system object and a node from [kmalloc], the
    sector buffer on the stack. *)
Context (garbage_data : tinyfs_data) (garbage_node : vfs_node) (stack : list Z).

Definition set_disk (w : W) (d : D) : W := mk_world (w_nodes w) (w_fs w) (w_heap w) d.

(** The file system object [node->fs] points to; [None] for NULL. *)
Definition node_fs (w : W) (n : vfs_node) : outcome (option (filesystem tinyfs_data)) :=
  match n_fs n with
  | None => Done None
  | Some a => let* f := fs_of w a in Done (Some f)
  end.

Definition put_fs (w : W) (n : vfs_node) (fs : option (filesystem tinyfs_data)) : W :=
  match n_fs n, fs with
  | Some a, Some f => mk_world (w_nodes w) (<[a := f]> (w_fs w)) (w_heap w) (w_disk w)
  | _, _ => w
  end.

(** A new node returned by [readdir] or [finddir]. *)
Definition new_node (w : W) (res : option (Z * vfs_node) * H) : option Z * W :=
  match res with
  | (None, h) => (None, set_heap w h)
  | (Some (p, n), h) => (Some p, mk_world (<[p := n]> (w_nodes w)) (w_fs w) h (w_disk w))
  end.

Definition t_read (a : Z) (buffer : list Z) (size offset : Z) (w : W) : outcome (Z * list Z * W) :=
  let* n := node_of w a in
  let* fs := node_fs w n in
  let* (r, buffer, d) := tinyfs_read stack fs n buffer size offset (w_disk w) in
  Done (r, buffer, set_disk w d).

Definition t_write (a : Z) (buffer : list Z) (size offset : Z) (w : W) : outcome (Z * W) :=
  let* n := node_of w a in
  let* fs := node_fs w n in
  let* (r, n', fs, d) := tinyfs_write stack fs n buffer size offset (w_disk w) in
  Done (r, set_disk (put_fs (set_nodes w (<[a := n']> (w_nodes w))) n fs) d).

Definition t_readdir (a index : Z) (w : W) : outcome (option Z * W) :=
  let* n := node_of w a in
  let* fs := node_fs w n in
  Done (new_node w (tinyfs_readdir garbage_node fs n index (w_heap w))).

Definition t_finddir (a : Z) (name : list Z) (w : W) : outcome (option Z * W) :=
  let* n := node_of w a in
  let* fs := node_fs w n in
  Done (new_node w (tinyfs_finddir garbage_node fs n name (w_heap w))).

Definition t_create (a : Z) (name : list Z) (type permissions : Z) (w : W) : outcome (Z * W) :=
  let* n := node_of w a in
  let* fs := node_fs w n in
  let '(r, fs, d) := tinyfs_create_node fs n name type permissions (w_disk w) in
  Done (r, set_disk (put_fs w n fs) d).

Definition t_unlink (a : Z) (name : list Z) (w : W) : outcome (Z * W) :=
  let* n := node_of w a in
  let* fs := node_fs w n in
  let* (r, fs, d) := tinyfs_unlink fs n name (w_disk w) in
  Done (r, set_disk (put_fs w n fs) d).

Definition tinyfs_vfs_ops : vfs_operations W := mk_vops W
  (Some (fun a flags w => let* n := node_of w a in Done (tinyfs_open n flags, w)))
  (Some (fun a w => let* n := node_of w a in Done (tinyfs_close n, w)))
  (Some t_read) (Some t_write) (Some t_readdir) (Some t_finddir) (Some t_create) (Some t_unlink).

Definition t_mount (fs : Z) (device : list Z) (w : W) : outcome (Z * W) :=
  let* f := fs_of w fs in
  let '(r, f, h, d) := tinyfs_mount garbage_data stack f device (w_heap w) (w_disk w) in
  Done (r, mk_world (w_nodes w) (<[fs := f]> (w_fs w)) h d).

Definition t_unmount (fs : Z) (w : W) : outcome (Z * W) :=
  let* f := fs_of w fs in
  let '(r, f, h, d) := tinyfs_unmount f (w_heap w) (w_disk w) in
  Done (r, mk_world (w_nodes w) (<[fs := f]> (w_fs w)) h d).

Definition t_get_root (fs : Z) (w : W) : outcome (option Z * W) :=
  Done (new_node w (tinyfs_get_root garbage_node fs (w_heap w))).

Definition t_get_stats (fs : Z) (w : W) : outcome (Z * option fs_stats * W) :=
  let* f := fs_of w fs in
  let '(r, st) := tinyfs_get_stats f in
  Done (r, st, w).

Definition tinyfs_fs_ops : filesystem_operations W := mk_fops W t_mount t_unmount t_get_root (Some t_get_stats).

#[global] Instance tinyfs_open_close : OpenClose tinyfs_vfs_ops.
Proof.
  split.
  - intros f a n flags w [= <-] Hn. unfold node_of. rewrite Hn. cbn [obind]. eexists _, w. by split.
  - intros f a n w [= <-] Hn. unfold node_of. rewrite Hn. cbn [obind]. by eexists _, w.
Qed.

End Tables.

Section Mounted.
Context {H D : Type} `{Heap H} `{BlockDevLaws D}.
Hypothesis sectors_enough : 1024 <= bd_sectors (D:=D) < 2 ^ 32.
Notation W := (world tinyfs_data H D).
Context (garbage_node : vfs_node) (stack : list Z).
Hypothesis garbage_name : length (n_name garbage_node) = MAX_FILENAME.
Hypothesis stack_length : length stack = 512%nat.
Notation ops := (tinyfs_vfs_ops garbage_node stack).

(** TinyFS is mounted at the root. *)
Record mounted (v : vfs_state) (w : W) (root fs p : Z) (data : tinyfs_data) (ch : nat -> list Z) : Prop := {
  mt_root : root_node v = Some root;
  mt_node : exists n, w_nodes w !! root = Some n /\ n_type n = FILE_TYPE_DIRECTORY /\ n_ops n = true /\
    n_fs n = Some fs /\ n_inode n = 0;
  mt_fs : exists f, w_fs w !! fs = Some f /\ fs_private f = Some (p, data);
  mt_inv : fs_inv data ch;
  mt_disk : bd_ready (w_disk w);
  mt_fds : length (vfs_fd_table v) = 256%nat }.

Lemma resolve_root v (w : W) root : root_node v = Some root -> vfs_resolve_path ops [SLASH] v w = Done (Some root, w).
Proof. intros Hr. unfold vfs_resolve_path. by rewrite Hr. Qed.

(** Creating a file in the root directory through its path. *)
Lemma vfs_create_effect v (w : W) root fs p data ch name perm : mounted v w root fs p data ch -> plain_name name ->
  lookup_entry data 0 name = None -> (exists k, (1 <= k < 256)%nat /\ d_used (dirent_at data k) = 0) ->
  exists w1 i data1 d1, vfs_create ops (SLASH :: name) perm v w = Done (0, w1) /\
    created data ch (w_disk w) 0 name FILE_TYPE_REGULAR i data1 d1 /\
    w_nodes w1 = w_nodes w /\ w_heap w1 = w_heap w /\ w_disk w1 = d1 /\
    mounted v w1 root fs p data1 (chains_upd ch i []).
Proof.
  intros [Hroot (n & Hn & Ht & Hops & Hnf & Hino) (f & Hf & Hpriv) Hinv Hr Hl] Hp Hlook Hfree.
  destruct (tinyfs_create_effect sectors_enough f n name FILE_TYPE_REGULAR perm (w_disk w) p data ch)
    as (i & data1 & d1 & E & Hc); [done..|rewrite Hino; unfold is_u32; lia|by rewrite Hino|done|].
  rewrite Hino in Hc.
  exists (mk_world (w_nodes w) (<[fs := mk_fs (fs_name f) (Some (p, data1))]> (w_fs w)) (w_heap w) d1), i, data1, d1.
  split_and!; [|done..|].
  - unfold vfs_create, vfs_create_type, resolve_parent. change ((SLASH :: name).[0]) with SLASH.
    rewrite Z.eqb_refl. cbn [negb]. rewrite split_path_plain by done. cbn [obind].
    rewrite (resolve_root _ _ _ Hroot). cbn [obind]. unfold node_of. rewrite Hn. cbn [obind]. rewrite Ht. cbn [negb FILE_TYPE_DIRECTORY Z.eqb Pos.eqb].
    cbn [obind]. unfold node_op. rewrite Hops. cbn [op_create tinyfs_vfs_ops]. unfold t_create, node_of. rewrite Hn. cbn [obind].
    unfold node_fs. rewrite Hnf. unfold fs_of. rewrite Hf. cbn [obind]. rewrite E. unfold put_fs. rewrite Hnf. done.
  - split; [done|by exists n|eexists; split; [apply lookup_insert_eq|done]|apply Hc|apply Hc|done].
Qed.

(** Finding a file of the root directory: a fresh node for its entry. *)
Lemma vfs_resolve_effect v (w : W) root fs p data ch name i q h' : mounted v w root fs p data ch -> plain_name name ->
  lookup_entry data 0 name = Some i -> hp_alloc 296 (w_heap w) = (Some q, h') ->
  exists n, n_private n = Some i /\ n_fs n = Some fs /\ n_ops n = true /\
    vfs_resolve_path ops (SLASH :: name) v w =
      Done (Some q, mk_world (<[q := n]> (w_nodes w)) (w_fs w) h' (w_disk w)).
Proof.
  intros [Hroot (n & Hn & Ht & Hops & Hnf & Hino) (f & Hf & Hpriv) Hinv Hr Hl] Hp Hlook Ha.
  exists (entry_node garbage_node n data i). split_and!; [done|done|done|].
  unfold vfs_resolve_path. rewrite Hroot. change ((SLASH :: name).[0]) with SLASH. rewrite Z.eqb_refl. cbn [negb andb].
  change ((SLASH :: name).[1]) with (name.[0]).
  assert (name.[0] <> 0) as H0'.
  { destruct Hp as (Hne & Hall & _). destruct name as [|c name]; [done|]. apply Forall_cons in Hall as [[Hc _] _]. exact Hc. }
  destruct (Z.eqb_spec (name.[0]) 0) as [|_]; [done|]. rewrite (tokenize_plain _ Hp). cbn [obind resolve_tokens].
  unfold node_of. rewrite Hn. cbn [obind]. rewrite Ht. cbn [negb FILE_TYPE_DIRECTORY Z.eqb Pos.eqb].
  unfold vfs_finddir, node_of. rewrite Hn. cbn [obind]. rewrite Ht. cbn [negb FILE_TYPE_DIRECTORY Z.eqb Pos.eqb].
  unfold node_op. rewrite Hops. cbn [op_finddir tinyfs_vfs_ops]. unfold t_finddir, node_of. rewrite Hn. cbn [obind].
  unfold node_fs. rewrite Hnf. unfold fs_of. rewrite Hf. cbn [obind].
  unfold tinyfs_finddir. rewrite Ht. cbn [negb FILE_TYPE_DIRECTORY Z.eqb Pos.eqb]. rewrite Hpriv, Hino, Hlook.
  unfold alloc_entry. rewrite Ha. done.
Qed.

(** A write changes nothing of the node but its size. *)
Definition same_handle (n n' : vfs_node) : Prop :=
  n_private n' = n_private n /\ n_fs n' = n_fs n /\ n_ops n' = n_ops n /\ n_type n' = n_type n /\ n_inode n' = n_inode n.

Lemma tinyfs_write_handle (stk : list Z) f (n : vfs_node) buffer size offset (d : D) r n' f' d' :
  tinyfs_write stk f n buffer size offset d = Done (r, n', f', d') -> same_handle n n'.
Proof.
  unfold tinyfs_write. destruct f as [f|]; [|by intros [= <- <- <- <-]].
  destruct (fs_private f) as [[p data]|]; [|by intros [= <- <- <- <-]].
  destruct (n_private n) as [i|]; [|by intros [= <- <- <- <-]]. cbv zeta.
  destruct (first_block_alloc data i) as [[[] data1]| |]; cbn [obind negb]; try (by intros [= <- <- <- <-]); [|done..].
  destruct (seek_blocks _ _ _) as [[[[] cur] data2]| |]; cbn [obind negb]; try (by intros [= <- <- <- <-]); [|done..].
  destruct (write_loop _ _ _ _ _ _ _ _ _) as [[[e data3] d3]| |]; cbn [obind]; [|done..].
  destruct e as [m|]; [|by intros [= <- <- <- <-]]. unfold finish_write. cbv zeta.
  destruct (u32 (offset + m) >? _).
  all: destruct (write_directory _ _) as [? ?], (write_fat _ _) as [? ?], (write_superblock _ _) as [? ?];
    by intros [= <- <- <- <-].
Qed.

Lemma vfs_write_effect v (w : W) root fs p data ch fd q n pos flags i buffer size :
  mounted v w root fs p data ch -> 0 <= fd < 256 -> fd_at v fd = mk_fd 1 (Some q) pos flags -> q <> root ->
  w_nodes w !! q = Some n -> n_private n = Some i -> n_fs n = Some fs -> n_ops n = true -> used data i ->
  0 <= pos -> 0 <= size -> pos + size < 2 ^ 31 -> size <= Z.of_nat (length buffer) ->
  exists r n' data' l' w', vfs_write ops fd buffer size v w = Done (r, advance v fd r, w') /\
    write_effect data ch i (w_disk w) buffer size pos r data' l' (w_disk w') /\
    w_nodes w' !! q = Some n' /\ same_handle n n' /\ mounted v w' root fs p data' (chains_upd ch i l') /\
    w_nodes w' = <[q := n']> (w_nodes w) /\ w_heap w' = w_heap w.
Proof.
  intros [Hroot (rn & Hn & Ht & Hops & Hnf & Hino) (f & Hf & Hpriv) Hinv Hr Hl] Hfd Hat Hq Hqn Hqp Hqf Hqo Hu Hpos Hs Hps Hbuf.
  destruct (tinyfs_write_effect sectors_enough stack f n buffer size pos (w_disk w) p data ch i)
    as (r & n' & data' & l' & d' & E & Heff); [done..|].
  pose proof (tinyfs_write_handle _ _ _ _ _ _ _ _ _ _ _ E) as Hsame.
  exists r, n', data', l', (mk_world (<[q := n']> (w_nodes w)) (<[fs := mk_fs (fs_name f) (Some (p, data'))]> (w_fs w)) (w_heap w) d').
  split_and!; [|done|apply lookup_insert_eq|done| |done|done].
  - unfold vfs_write. rewrite bad_fd_false by (rewrite ?Hat; done || lia). rewrite Hat. cbn [fd_node fd_position].
    unfold node_of. rewrite Hqn. cbn [obind]. unfold node_op. rewrite Hqo. cbn [op_write tinyfs_vfs_ops].
    unfold t_write, node_of. rewrite Hqn. cbn [obind]. unfold node_fs. rewrite Hqf. unfold fs_of. rewrite Hf. cbn [obind].
    rewrite E. cbn [obind]. unfold put_fs. rewrite Hqf. done.
  - split; [done| |eexists; split; [apply lookup_insert_eq|done]|apply Heff|apply Heff|done].
    exists rn. cbn [w_nodes]. by rewrite lookup_insert_ne.
Qed.

Lemma vfs_read_effect v (w : W) root fs p data ch fd q n pos flags i into size :
  mounted v w root fs p data ch -> 0 <= fd < 256 -> fd_at v fd = mk_fd 1 (Some q) pos flags ->
  w_nodes w !! q = Some n -> n_private n = Some i -> n_fs n = Some fs -> n_ops n = true -> used data i ->
  0 <= pos -> 0 <= size -> pos + size < 2 ^ 32 -> size <= Z.of_nat (length into) ->
  let m := readable (dirent_at data i) size pos in
  exists w', vfs_read ops fd into size v w =
    Done (Z.of_nat m, list_inserts 0 (take m (drop (Z.to_nat pos) (contents (w_disk w) (dirent_at data i) (ch i)))) into,
          advance v fd (Z.of_nat m), w') /\
    mounted v w' root fs p data ch /\ w_nodes w' = w_nodes w /\ w_heap w' = w_heap w /\ same_disk (w_disk w) (w_disk w').
Proof.
  intros [Hroot Hrn (f & Hf & Hpriv) Hinv Hr Hl] Hfd Hat Hqn Hqp Hqf Hqo Hu Hpos Hs Hps Hbuf m.
  destruct (tinyfs_read_effect sectors_enough stack f n into size pos (w_disk w) p data ch i) as (d' & E & Hd');
    [done..|unfold readable; lia|].
  exists (mk_world (w_nodes w) (w_fs w) (w_heap w) d').
  split; [|split_and!; [|done|done|done]]; [|split; [done|done|by exists f|done|apply Hd'|done]].
  unfold vfs_read. rewrite bad_fd_false by (rewrite ?Hat; done || lia). rewrite Hat. cbn [fd_node fd_position].
  unfold node_of. rewrite Hqn. cbn [obind]. unfold node_op. rewrite Hqo. cbn [op_read tinyfs_vfs_ops].
  unfold t_read, node_of. rewrite Hqn. cbn [obind]. unfold node_fs. rewrite Hqf. unfold fs_of. rewrite Hf. cbn [obind].
  rewrite E. done.
Qed.

(** Opening a file of the root directory. *)
Lemma vfs_open_file v (w : W) root fs p data ch name i flags q h' : mounted v w root fs p data ch -> plain_name name ->
  lookup_entry data 0 name = Some i -> hp_alloc 296 (w_heap w) = (Some q, h') -> w_nodes w !! q = None ->
  (exists k, 3 <= k < 256 /\ fd_free v k) ->
  exists fd v1 w2 n, vfs_open ops (SLASH :: name) flags v w = Done (fd, v1, w2) /\ 3 <= fd < 256 /\ q <> root /\
    fd_at v1 fd = mk_fd 1 (Some q) 0 flags /\ w_nodes w2 !! q = Some n /\
    n_private n = Some i /\ n_fs n = Some fs /\ n_ops n = true /\ mounted v1 w2 root fs p data ch /\
    w_nodes w2 = <[q := n]> (w_nodes w) /\ w_heap w2 = h' /\ w_disk w2 = w_disk w.
Proof.
  intros Hm Hp Hlook Ha Hq (k & Hk & Hkf). pose proof (mt_fds _ _ _ _ _ _ _ Hm) as Hfds.
  destruct (vfs_resolve_effect v w root fs p data ch name i q h' Hm Hp Hlook Ha) as (n & Hnp & Hnf & Hno & Eres).
  set (w2 := mk_world _ _ _ _) in Eres.
  assert (w_nodes w2 !! q = Some n) as Hqn by apply lookup_insert_eq.
  assert (q <> root) as Hqr by (intros ->; destruct (mt_node _ _ _ _ _ _ _ Hm) as (? & ? & _); congruence).
  unfold vfs_open. rewrite Eres. cbn [obind].
  destruct (allocate_fd_cases v Hfds) as [(fd & -> & Hfd & _)|[_ Hnone]]; [|by destruct (Hnone k Hk)].
  destruct (Z.ltb_spec fd 0); [lia|]. rewrite fd_at_set_eq by (done || lia). cbn [fd_used].
  unfold node_of. rewrite Hqn. cbn [obind]. unfold node_op. rewrite Hno. cbn [op_open tinyfs_vfs_ops].
  unfold node_of. rewrite Hqn. cbn [obind].
  eexists fd, _, w2, n. split; [done|]. split_and!; [lia|lia|done| |done|done|done|done| |done|done|done].
  - apply fd_at_set_eq; [by rewrite length_set_fd|lia].
  - destruct Hm as [M1 (rn & M2 & M3) M4 M5 M6 M7].
    split; [done|exists rn|done|done|done|by rewrite !length_set_fd]. unfold w2. cbn [w_nodes]. by rewrite lookup_insert_ne.
Qed.

(** A new entry is found by its name. *)
Lemma created_lookup data ch (d : D) name type i data1 d1 : created data ch d 0 name type i data1 d1 -> plain_name name ->
  (length name < 32)%nat -> lookup_entry data 0 name = None -> lookup_entry data1 0 name = Some i.
Proof.
  intros [_ [Hi _] Hcu Hcn Hcp _ _ Hco _ _] Hp Hlen Hlook. rewrite (plain_cstr _ Hp), take_ge in Hcn by lia.
  apply lookup_entry_unique; [split_and!; [split; [lia|by rewrite Hcu]|done|by rewrite (plain_cstr _ Hp)]|]. intros j Hj.
  destruct (decide (j = i)) as [|Hne]; [done|]. destruct (lookup_entry_None _ _ _ Hlook j).
  unfold entry_is, used in *. by rewrite Hco in Hj.
Qed.

(** Rewinding a descriptor. *)
Lemma vfs_rewind v (w : W) fd q pos flags : length (vfs_fd_table v) = 256%nat -> 0 <= fd < 256 ->
  fd_at v fd = mk_fd 1 (Some q) pos flags ->
  vfs_seek fd 0 SEEK_SET v w = Done (0, set_fd v fd (mk_fd 1 (Some q) 0 flags)).
Proof.
  intros Hl Hfd Hat. unfold vfs_seek. rewrite bad_fd_false by (rewrite ?Hat; done || lia). by rewrite Hat.
Qed.

Lemma fd_at_advance v fd q flags r : length (vfs_fd_table v) = 256%nat -> 0 <= fd < 256 ->
  fd_at v fd = mk_fd 1 (Some q) 0 flags -> exists pos, fd_at (advance v fd r) fd = mk_fd 1 (Some q) pos flags.
Proof.
  intros Hl Hfd Hat. unfold advance. destruct (r >? 0); [|by exists 0]. rewrite fd_at_set_eq, Hat by done. by eexists.
Qed.

Lemma length_advance v fd r : length (vfs_fd_table (advance v fd r)) = length (vfs_fd_table v).
Proof. unfold advance. destruct (r >? 0); [apply length_set_fd|done]. Qed.

Lemma mounted_fds v v' (w : W) root fs p data ch : mounted v w root fs p data ch ->
  root_node v' = root_node v -> length (vfs_fd_table v') = length (vfs_fd_table v) -> mounted v' w root fs p data ch.
Proof. intros [M1 M2 M3 M4 M5 M6] Hr Hl. split; [congruence|done..|congruence]. Qed.

(** C4: End to end: on a mounted TinyFS, [vfs_create] of a new name in the root, [vfs_open], [vfs_write] of a
    buffer, [vfs_seek] to the start and [vfs_read] all succeed and the read returns the bytes written;
    fewer bytes than asked are written only when the disk is full. *)
Theorem vfs_file_round_trip v (w : W) root fs p data ch name perm flags q h' buffer size :
  mounted v w root fs p data ch -> plain_name name -> (length name < 32)%nat ->
  lookup_entry data 0 name = None -> (exists k, (1 <= k < 256)%nat /\ d_used (dirent_at data k) = 0) ->
  (exists k, 3 <= k < 256 /\ fd_free v k) ->
  hp_alloc 296 (w_heap w) = (Some q, h') -> w_nodes w !! q = None ->
  0 <= size < 2 ^ 31 -> size <= Z.of_nat (length buffer) ->
  exists w1 fd v1 w2 r v2 w3,
    vfs_create ops (SLASH :: name) perm v w = Done (0, w1) /\
    vfs_open ops (SLASH :: name) flags v w1 = Done (fd, v1, w2) /\ 3 <= fd < 256 /\
    vfs_write ops fd buffer size v1 w2 = Done (r, v2, w3) /\
    (r = size \/ exists f data', w_fs w3 !! fs = Some f /\ fs_private f = Some (p, data') /\ free_blocks (sb data') = 0) /\
    (0 <= r -> exists v3, vfs_seek fd 0 SEEK_SET v2 w3 = Done (0, v3) /\
       forall into, r <= Z.of_nat (length into) -> exists v4 w4,
         vfs_read ops fd into r v3 w3 = Done (r, take (Z.to_nat r) buffer ++ drop (Z.to_nat r) into, v4, w4)).
Proof.
  intros Hm Hp Hlen Hlook Hslot Hfdfree Ha Hq Hs Hbuf.
  destruct (vfs_create_effect v w root fs p data ch name perm Hm Hp Hlook Hslot)
    as (w1 & i & data1 & d1 & E1 & Hc & Hw1n & Hw1h & Hw1d & Hm1).
  pose proof Hc as [_ [Hi _] Hcu Hcn Hcp _ _ Hco _ _]. rewrite (plain_cstr _ Hp), take_ge in Hcn by lia.
  assert (used data1 i) as Hu by (split; [lia|by rewrite Hcu]).
  pose proof (created_lookup _ _ _ _ _ _ _ _ Hc Hp Hlen Hlook) as Hlook1.
  rewrite <- Hw1h in Ha. rewrite <- Hw1n in Hq.
  destruct (vfs_open_file v w1 root fs p data1 _ name i flags q h' Hm1 Hp Hlook1 Ha Hq Hfdfree)
    as (fd & v1 & w2 & n & E2 & Hfd & Hqr & Hat & Hqn & Hnp & Hnf & Hno & Hm2 & _).
  destruct (vfs_write_effect v1 w2 root fs p data1 _ fd q n 0 flags i buffer size Hm2 ltac:(lia) Hat Hqr
    Hqn Hnp Hnf Hno Hu ltac:(lia) ltac:(lia) ltac:(lia) Hbuf)
    as (r & n' & data' & l' & w3 & E3 & Heff & Hn' & (Hnp' & Hnf' & Hno' & _) & Hm3 & _).
  pose proof (mt_fds _ _ _ _ _ _ _ Hm2) as Hfds.
  exists w1, fd, v1, w2, r, (advance v1 fd r), w3. split_and!; [done|done|lia|lia|done| |].
  { destruct (mt_fs _ _ _ _ _ _ _ Hm3) as (f & Hf & Hpf).
    destruct (we_result _ _ _ _ _ _ _ _ _ _ _ Heff) as [(Hr0 & Hz & _)|(Hr0 & Hz & _)]; [right; by exists f, data'|].
    destruct (decide (r = size)); [by left|right]. exists f, data'. split_and!; [done..|]. apply Hz. lia. }
  intros Hr0. destruct (fd_at_advance v1 fd q flags r Hfds ltac:(lia) Hat) as (pos & Hat2).
  eexists. split; [apply (vfs_rewind (advance v1 fd r) w3 fd q pos flags ltac:(by rewrite length_advance) ltac:(lia) Hat2)|].
  intros into Hinto. set (v3 := set_fd _ _ _).
  destruct (written_window sectors_enough _ _ _ _ _ _ _ _ _ _ _ into Heff Hr0 ltac:(lia) Hbuf Hinto) as [Hmr Hwin].
  assert (mounted v3 w3 root fs p data' (chains_upd (chains_upd ch i []) i l')) as Hm4.
  { eapply mounted_fds; [exact Hm3| |]; unfold v3; [|by rewrite length_set_fd, length_advance].
    unfold advance. by destruct (r >? 0). }
  destruct (vfs_read_effect v3 w3 root fs p data' _ fd q n' 0 flags i into r Hm4 ltac:(lia)) as (w4 & E4 & _);
    [apply fd_at_set_eq; [by rewrite length_advance|lia]|done|congruence|congruence|congruence|apply Heff|lia|done| |done|].
  { destruct (we_result _ _ _ _ _ _ _ _ _ _ _ Heff); lia. }
  eexists _, w4. rewrite E4, chains_upd_eq. change (Z.to_nat 0) with 0%nat in Hwin |- *. by rewrite Hwin, Hmr.
Qed.

(** ** Paths in buffers: what comes after the terminator does not matter *)
Lemma cstr_slash path name : cstr path = SLASH :: name -> exists rest, path = SLASH :: rest /\ cstr rest = name.
Proof.
  destruct path as [|c rest]; cbn [cstr]; [done|]. destruct (c =? 0); [done|]. intros [= -> <-]. by exists rest.
Qed.

Lemma resolve_cstr v (w : W) path name : cstr path = SLASH :: name ->
  vfs_resolve_path ops path v w = vfs_resolve_path ops (SLASH :: name) v w.
Proof.
  intros (rest & -> & <-)%cstr_slash. unfold vfs_resolve_path. destruct (root_node v); [|done].
  assert ((SLASH :: rest).[1] = (SLASH :: cstr rest).[1]) as ->.
  { destruct rest as [|c rest]; [done|]. cbn [cstr]. by destruct (Z.eqb_spec c 0) as [->|]. }
  change ((SLASH :: rest).[0]) with ((SLASH :: cstr rest).[0]). destruct (_ && _); [done|]. destruct (negb _); [done|].
  unfold tokenize_path. change ((SLASH :: rest).[0]) with SLASH. change ((SLASH :: cstr rest).[0]) with SLASH. cbn [Z.eqb Pos.eqb SLASH drop].
  by rewrite ?drop_0, cstr_idemp.
Qed.

Lemma open_cstr v (w : W) path name flags : cstr path = SLASH :: name ->
  vfs_open ops path flags v w = vfs_open ops (SLASH :: name) flags v w.
Proof. intros Hp. unfold vfs_open. by rewrite (resolve_cstr _ _ _ _ Hp). Qed.

Lemma parent_cstr v (w : W) path name : cstr path = SLASH :: name -> plain_name name ->
  resolve_parent ops path v w = resolve_parent ops (SLASH :: name) v w.
Proof.
  intros Hp Hpl. unfold resolve_parent. rewrite (split_path_plain name Hpl).
  assert (split_path path = Done (Some ([SLASH], name))) as ->.
  { pose proof (cstr_slash _ _ Hp) as (rest & -> & Hrest). destruct Hpl as (Hne & Hn & Hl). unfold split_path, last_slash. rewrite Hp.
    cbn [last_slash_loop SLASH Z.eqb Pos.eqb]. rewrite last_slash_loop_plain by done. cbn [Z.ltb Z.compare Z.eqb obind].
    change (Z.to_nat (0 + 1)) with 1%nat. cbn [drop]. rewrite drop_0, Hrest, take_ge by (unfold MAX_FILENAME; lia). done. }
  pose proof (cstr_slash _ _ Hp) as (rest & -> & _). done.
Qed.

Lemma create_cstr v (w : W) path name perm : cstr path = SLASH :: name -> plain_name name ->
  vfs_create ops path perm v w = vfs_create ops (SLASH :: name) perm v w.
Proof. intros Hp Hpl. unfold vfs_create, vfs_create_type. by rewrite (parent_cstr _ _ _ _ Hp Hpl). Qed.

(** Removing a name through its path in the root directory. *)
Lemma vfs_unlink_effect v (w : W) root fs p data ch path name : mounted v w root fs p data ch -> cstr path = SLASH :: name ->
  plain_name name -> exists r w1 data1 ch1, vfs_unlink ops path v w = Done (r, w1) /\ mounted v w1 root fs p data1 ch1 /\
    w_nodes w1 = w_nodes w /\ w_heap w1 = w_heap w /\
    match unlink_target data name with
    | None => data1 = data /\ ch1 = ch
    | Some i => ch1 = chains_upd ch i [] /\ unlinked data ch (w_disk w) i data1 (w_disk w1)
    end.
Proof.
  intros Hm Hp Hpl. pose proof Hm as [Hroot (n & Hn & Ht & Hops & Hnf & Hino) (f & Hf & Hpriv) Hinv Hr Hl].
  assert (vfs_unlink ops path v w = t_unlink root name w) as ->.
  { unfold vfs_unlink. rewrite (parent_cstr _ _ _ _ Hp Hpl). unfold resolve_parent. change ((SLASH :: name).[0]) with SLASH.
    rewrite Z.eqb_refl. cbn [negb]. rewrite split_path_plain by done. cbn [obind]. rewrite (resolve_root _ _ _ Hroot). cbn [obind].
    unfold node_of. rewrite Hn. cbn [obind]. rewrite Ht. cbn [negb FILE_TYPE_DIRECTORY Z.eqb Pos.eqb obind]. unfold node_op. by rewrite Hops. }
  unfold t_unlink, node_of. rewrite Hn. cbn [obind]. unfold node_fs. rewrite Hnf. unfold fs_of. rewrite Hf. cbn [obind].
  unfold put_fs. rewrite Hnf. destruct (unlink_target data name) as [i|] eqn:Eu.
  - destruct (tinyfs_unlink_effect sectors_enough f n name (w_disk w) p data ch i) as (data1 & d1 & -> & Hun); [done..|]. cbn [obind].
    eexists _, _, data1, _. split; [reflexivity|]. split; [|by split_and!].
    split; [done|by exists n|eexists; split; [apply lookup_insert_eq|done]|apply Hun|apply Hun|done].
  - unfold tinyfs_unlink. rewrite Hpriv, Ht, Eu. cbn [negb FILE_TYPE_DIRECTORY Z.eqb Pos.eqb obind].
    eexists _, _, data, ch. split; [reflexivity|]. split; [|by split_and!].
    split; [done|by exists n|eexists; split; [apply lookup_insert_eq|done]|done..].
Qed.

(** ** Listing *)

(** The slots of directory [inode], in table order. *)
Definition dir_slots (data : tinyfs_data) (inode : Z) : list nat :=
  filter (fun i => in_dir data inode i = true) (seq 0 256).

(** The line printed for slot [i]. *)
Definition slot_line (data : tinyfs_data) (i : nat) : dir_line :=
  ((if c_true (is_directory (dirent_at data i)) then 100 else 102),
   cstr (d_name (dirent_at data i)), d_size (dirent_at data i)).

Lemma nth_entry_filter data inode (k : nat) : forall (l : list nat) (count : nat),
  (count <= k)%nat -> Z.of_nat (count + length l) < 2 ^ 32 ->
  nth_entry data inode (Z.of_nat k) (Z.of_nat count) l =
    filter (fun i => in_dir data inode i = true) l !! (k - count)%nat.
Proof.
  induction l as [|i l IH]; intros count Hc Hl; cbn [nth_entry]; [done|]. cbn [length] in Hl.
  destruct (in_dir data inode i) eqn:E.
  - rewrite filter_cons_True by done. destruct (Z.eqb_spec (Z.of_nat count) (Z.of_nat k)) as [Ek|Hne].
    + by replace (k - count)%nat with 0%nat by lia.
    + rewrite wrap_small by lia. replace (Z.of_nat count + 1) with (Z.of_nat (S count)) by lia. rewrite IH by lia.
      by replace (k - count)%nat with (S (k - S count)) by lia.
  - rewrite filter_cons_False by congruence. apply IH; lia.
Qed.

Lemma readdir_slot data inode (k : nat) :
  nth_entry data inode (Z.of_nat k) 0 (seq 0 TINYFS_MAX_FILES) = dir_slots data inode !! k.
Proof.
  change 0 with (Z.of_nat 0). rewrite nth_entry_filter, Nat.sub_0_r by (rewrite ?length_seq; unfold TINYFS_MAX_FILES; lia). done.
Qed.

Lemma length_dir_slots data inode : (length (dir_slots data inode) <= 256)%nat.
Proof. unfold dir_slots. etrans; [apply length_filter|]. by rewrite length_seq. Qed.

(** The printed line of the node built for slot [i]. *)
Lemma entry_line data n i : data_fits data -> (i < 256)%nat ->
  let e := entry_node garbage_node n data i in
  ((if n_type e =? FILE_TYPE_DIRECTORY then 100 else 102), cstr (n_name e), n_size e) = slot_line data i.
Proof.
  intros Hfit Hi e. unfold e, entry_node, slot_line. cbn [n_type n_name n_size].
  destruct (strcpy_safe_cstr (n_name garbage_node) (d_name (dirent_at data i)) MAX_FILENAME) as [-> _];
    [rewrite garbage_name; unfold MAX_FILENAME; lia|].
  destruct (dirent_at_fits _ _ Hfit Hi) as (Hl & _). rewrite take_ge.
  - by destruct (c_true (is_directory (dirent_at data i))).
  - assert (forall l : list Z, (length (cstr l) <= length l)%nat) as Hcl.
    { induction l as [|c l IH]; cbn; [lia|]. destruct (c =? 0); cbn; lia. }
    specialize (Hcl (d_name (dirent_at data i))). unfold MAX_FILENAME. lia.
Qed.

Lemma list_loop_spec v (w0 : W) root fs p data ch : mounted v w0 root fs p data ch ->
  (forall h : H, exists a h', hp_alloc 296 h = (Some a, h') /\ w_nodes w0 !! a = None) ->
  forall fuel k (w : W), w_nodes w = w_nodes w0 -> w_fs w = w_fs w0 -> w_disk w = w_disk w0 ->
  (k <= length (dir_slots data 0))%nat -> (length (dir_slots data 0) - k < fuel)%nat ->
  exists w', list_loop ops fuel root (Z.of_nat k) w = Done (slot_line data <$> drop k (dir_slots data 0), w') /\
    w_nodes w' = w_nodes w0 /\ w_fs w' = w_fs w0 /\ w_disk w' = w_disk w0.
Proof.
  intros [Hroot (n & Hn & Ht & Hops & Hnf & Hino) (f & Hf & Hpriv) Hinv Hr Hl] Halloc.
  pose proof (length_dir_slots data 0) as Hmax.
  induction fuel as [|fuel IH]; intros k w Hwn Hwf Hwd Hk Hfuel; [lia|]. cbn [list_loop].
  unfold vfs_readdir, node_of. rewrite Hwn, Hn. cbn [obind]. rewrite Ht. cbn [negb FILE_TYPE_DIRECTORY Z.eqb Pos.eqb].
  unfold node_op. rewrite Hops. cbn [op_readdir tinyfs_vfs_ops]. unfold t_readdir, node_of. rewrite Hwn, Hn. cbn [obind].
  unfold node_fs. rewrite Hnf. unfold fs_of. rewrite Hwf, Hf. cbn [obind].
  unfold tinyfs_readdir. rewrite Ht. cbn [negb FILE_TYPE_DIRECTORY Z.eqb Pos.eqb]. rewrite Hpriv, Hino, readdir_slot.
  destruct (dir_slots data 0 !! k) as [i|] eqn:Ek.
  - destruct (Halloc (w_heap w)) as (a & h' & Ea & Hfresh). unfold alloc_entry. rewrite Ea. cbn [new_node obind].
    unfold node_of. cbn [w_nodes]. rewrite lookup_insert_eq. cbn [obind].
    pose proof (lookup_lt_Some _ _ _ Ek) as Hlt. rewrite wrap_small by lia.
    replace (Z.of_nat k + 1) with (Z.of_nat (S k)) by lia.
    destruct (IH (S k) (mk_world (delete a (<[a := entry_node garbage_node n data i]> (w_nodes w))) (w_fs w)
        (hp_free a h') (w_disk w))) as (w' & E & Hw'); [|done|done|lia|lia|].
    { cbn [w_nodes]. rewrite delete_insert_eq, Hwn. by apply delete_id. }
    cbn [w_nodes w_fs w_heap w_disk] in E |- *. rewrite ?Hwn, ?Hwf in E |- *. rewrite E. cbn [obind]. exists w'. split; [|done].
    rewrite (drop_S (dir_slots data 0) i k) by done. rewrite fmap_cons. rewrite entry_line; [done|apply Hinv|].
    assert (i ∈ dir_slots data 0) as Hi by (by eapply list_elem_of_lookup_2).
    apply list_elem_of_filter in Hi as [_ Hi%elem_of_seq]. lia.
  - cbn [new_node obind]. exists (set_heap w (w_heap w)). split; [|done].
    apply lookup_ge_None in Ek. by rewrite drop_ge.
Qed.

(** Listing the root directory terminates and prints one line per entry of it, in slot order, with the
    entry's kind, name and size; nodes, file systems and disk are as before (every node allocated on the
    way is freed). *)
Theorem vfs_list_root v (w : W) root fs p data ch : mounted v w root fs p data ch ->
  (forall h : H, exists a h', hp_alloc 296 h = (Some a, h') /\ w_nodes w !! a = None) ->
  exists w', vfs_list_directory ops 257 [SLASH] v w = Done (Some (slot_line data <$> dir_slots data 0), w') /\
    w_nodes w' = w_nodes w /\ w_fs w' = w_fs w /\ w_disk w' = w_disk w.
Proof.
  intros Hm Halloc. pose proof Hm as [Hroot (n & Hn & Ht & _) _ _ _ _].
  unfold vfs_list_directory. rewrite (resolve_root _ _ _ Hroot). cbn [obind]. unfold node_of. rewrite Hn. cbn [obind].
  rewrite Ht. cbn [negb FILE_TYPE_DIRECTORY Z.eqb Pos.eqb]. pose proof (length_dir_slots data 0).
  destruct (list_loop_spec v w root fs p data ch Hm Halloc 257 0 w) as (w' & E & Hw'); [done..|lia|lia|].
  change (Z.of_nat 0) with 0 in E. rewrite E. cbn [obind]. by exists w'.
Qed.

End Mounted.
(** ** The hypotheses hold: one file on a RAM disk, mounted at address 8 *)

(** A heap with one reusable slot at address 4096. *)
Definition slot_heap : Heap unit := {| hp_alloc size h := (Some 4096, h); hp_free a h := h |}.
#[local] Existing Instance slot_heap.

Definition ex_vfs : vfs_state :=
  mk_vfs (Some 16) (Some 16) (replicate 256 0) (replicate 256 null_fd) (replicate 16 None) 0.
Definition ex_root : vfs_node := mk_node [47] FILE_TYPE_DIRECTORY 3 0 0 (Some 8) true None.
Definition ex_world : world tinyfs_data unit Ramdisk.ramdisk :=
  mk_world {[ 16 := ex_root ]} {[ 8 := one_file_fs ]} tt Ramdisk.fresh_ramdisk.
Definition ex_garbage : vfs_node := mk_node (replicate 256 0) 0 0 0 0 None false None.
Notation ex_ops := (@tinyfs_vfs_ops unit Ramdisk.ramdisk slot_heap _ ex_garbage (replicate 512 0)).

Lemma ex_mounted : mounted ex_vfs ex_world 16 8 64 two_block_data two_block_chains.
Proof.
  split; [done|exists ex_root; by split_and!|exists one_file_fs; by split|exact two_block_inv
         |exact Ramdisk.fresh_ramdisk_ready|done].
Qed.

Lemma ex_name : plain_name [98; 99].
Proof. split_and!; [done| |cbn; lia]. repeat constructor; unfold SLASH; lia. Qed.

Lemma ex_fd_free : exists k, 3 <= k < 256 /\ fd_free ex_vfs k.
Proof. exists 3. split; [lia|reflexivity]. Qed.

Lemma vfs_file_round_trip_witness :
  exists w1 fd v1 w2 r v2 w3,
    vfs_create ex_ops [47; 98; 99] 3 ex_vfs ex_world = Done (0, w1) /\
    vfs_open ex_ops [47; 98; 99] 3 ex_vfs w1 = Done (fd, v1, w2) /\ 3 <= fd < 256 /\
    vfs_write ex_ops fd (replicate 1000 5) 1000 v1 w2 = Done (r, v2, w3) /\
    (r = 1000 \/ exists f data', w_fs w3 !! 8 = Some f /\ fs_private f = Some (64, data') /\ free_blocks (sb data') = 0) /\
    (0 <= r -> exists v3, vfs_seek fd 0 SEEK_SET v2 w3 = Done (0, v3) /\
       forall into, r <= Z.of_nat (length into) -> exists v4 w4,
         vfs_read ex_ops fd into r v3 w3 =
           Done (r, take (Z.to_nat r) (replicate 1000 5) ++ drop (Z.to_nat r) into, v4, w4)).
Proof.
  apply (@vfs_file_round_trip unit Ramdisk.ramdisk slot_heap _ _ ramdisk_sectors ex_garbage (replicate 512 0) eq_refl eq_refl
    ex_vfs ex_world 16 8 64 two_block_data two_block_chains [98; 99] 3 3 4096 tt (replicate 1000 5) 1000);
    first [exact ex_mounted | exact ex_name | exact ex_fd_free | dir_hyps].
Defined.

Lemma vfs_list_root_witness :
  exists w', vfs_list_directory ex_ops 257 [SLASH] ex_vfs ex_world =
      Done (Some (slot_line two_block_data <$> dir_slots two_block_data 0), w') /\
    w_nodes w' = w_nodes ex_world /\ w_fs w' = w_fs ex_world /\ w_disk w' = w_disk ex_world.
Proof.
  apply (@vfs_list_root unit Ramdisk.ramdisk slot_heap _ _ ex_garbage (replicate 512 0) eq_refl eq_refl
    ex_vfs ex_world 16 8 64 two_block_data two_block_chains).
  - exact ex_mounted.
  - intros h. exists 4096, h. split; reflexivity.
Defined.

Lemma vfs_open_close_witness :
  (exists fd v' w2, vfs_open ex_ops [SLASH] 1 ex_vfs ex_world = Done (fd, v', w2) /\ 3 <= fd < 256 /\ fd_free ex_vfs fd /\
     (forall k, 3 <= k < fd -> ~ fd_free ex_vfs k) /\ fd_at v' fd = mk_fd 1 (Some 16) 0 1 /\
     (forall k, 0 <= k -> k <> fd -> fd_at v' k = fd_at ex_vfs k) /\
     exists v'' w3, vfs_close ex_ops fd v' w2 = Done (0, v'', w3) /\ fd_free v'' fd /\
       (forall k, 0 <= k -> k <> fd -> fd_at v'' k = fd_at ex_vfs k) /\
       forall w4, vfs_close ex_ops fd v'' w4 = Done (-1, v'', w4)) \/
  (vfs_open ex_ops [SLASH] 1 ex_vfs ex_world = Done (-1, ex_vfs, ex_world) /\ forall k, 3 <= k < 256 -> ~ fd_free ex_vfs k).
Proof. apply (vfs_open_close ex_ops [SLASH] 1 ex_vfs ex_world ex_world 16 ex_root); reflexivity. Defined.

End VfsTinyfs.
