(* ===== verification/Memory.v ===== *)
(** * Physical pages and the kernel heap (src/kernel/memory/memory.c)

    Memory is a map from addresses to bytes, so that a header written over
    another one is seen as the C code would see it; pointers are 64-bit
    addresses with NULL = 0. The static variables of memory.c are the record
    [mm] and each function is a function of it. Loops over pointers that the
    code chases through memory take fuel. *)
From Stdlib Require Import ZArith Lia.
From stdpp Require Import base numbers list gmap.
From S2P Require Import Prelude.
Local Open Scope Z_scope.
Local Open Scope outcome_scope.

Module Mem.

(** ** Byte memory *)
Abbreviation bytes := (gmap Z Z).
Definition peek (b : bytes) (a : Z) : Z := default 0 (b !! a).

Fixpoint store (b : bytes) (a : Z) (l : list Z) : bytes :=
  match l with
  | [] => b
  | x :: l => store (<[a := x]> b) (a + 1) l
  end.

Definition load (b : bytes) (a : Z) (n : nat) : Z := le_value (map (fun i => peek b (a + Z.of_nat i)) (seq 0 n)).
Definition load64 (b : bytes) (a : Z) : Z := load b a 8.
Definition load32 (b : bytes) (a : Z) : Z := load b a 4.
Definition store64 (b : bytes) (a v : Z) : bytes := store b a (le_bytes 8 v).
Definition store32 (b : bytes) (a v : Z) : bytes := store b a (le_bytes 4 v).

(** ** State *)
Record mm := mk_mm {
  mem : bytes;
  free_list : Z; total_pages : Z; used_pages : Z;
  kernel_heap_base : Z; kernel_heap_size : Z; kernel_heap_used : Z; heap_free_list : Z;
  kernel_stack_base : Z; kernel_stack_top : Z; rsp : Z;
  alloc_count : Z; free_count : Z; split_count : Z; coalesce_count : Z }.

Definition set_mem (m : mm) (b : bytes) : mm :=
  mk_mm b (free_list m) (total_pages m) (used_pages m) (kernel_heap_base m) (kernel_heap_size m) (kernel_heap_used m)
    (heap_free_list m) (kernel_stack_base m) (kernel_stack_top m) (rsp m) (alloc_count m) (free_count m) (split_count m)
    (coalesce_count m).
Definition set_pages (m : mm) (fl total used : Z) : mm :=
  mk_mm (mem m) fl total used (kernel_heap_base m) (kernel_heap_size m) (kernel_heap_used m)
    (heap_free_list m) (kernel_stack_base m) (kernel_stack_top m) (rsp m) (alloc_count m) (free_count m) (split_count m)
    (coalesce_count m).
Definition set_heap (m : mm) (base size used fl : Z) : mm :=
  mk_mm (mem m) (free_list m) (total_pages m) (used_pages m) base size used fl
    (kernel_stack_base m) (kernel_stack_top m) (rsp m) (alloc_count m) (free_count m) (split_count m) (coalesce_count m).
Definition set_stack (m : mm) (base top sp : Z) : mm :=
  mk_mm (mem m) (free_list m) (total_pages m) (used_pages m) (kernel_heap_base m) (kernel_heap_size m) (kernel_heap_used m)
    (heap_free_list m) base top sp (alloc_count m) (free_count m) (split_count m) (coalesce_count m).
Definition set_counts (m : mm) (a f s c : Z) : mm :=
  mk_mm (mem m) (free_list m) (total_pages m) (used_pages m) (kernel_heap_base m) (kernel_heap_size m) (kernel_heap_used m)
    (heap_free_list m) (kernel_stack_base m) (kernel_stack_top m) (rsp m) a f s c.

(** ** Physical pages *)

(** A UEFI memory descriptor, the fields the code reads. *)
Record memory_descriptor := mk_desc { Type_ : Z; PhysicalStart : Z; NumberOfPages : Z }.
Definition EfiConventionalMemory : Z := 7.

(** The body of the page loop: push page [base + p * 4096]. *)
Definition push_page (base : Z) (p : nat) (m : mm) : mm :=
  let page := u64 (base + Z.of_nat p * 4096) in
  let m := set_mem m (store64 (mem m) page (free_list m)) in
  set_pages m page (u64 (total_pages m + 1)) (used_pages m).

Definition add_region (d : memory_descriptor) (m : mm) : mm :=
  if Type_ d =? EfiConventionalMemory
  then for_range 0 (Z.to_nat (NumberOfPages d)) (push_page (PhysicalStart d)) m else m.

Definition pmm_init (map : list memory_descriptor) (m : mm) : mm :=
  foldl (fun m d => add_region d m) (set_pages m 0 0 0) map.

Definition pmm_alloc_page (m : mm) : Z * mm :=
  if free_list m =? 0 then (0, m) else
  let page := free_list m in
  let m := set_pages m (load64 (mem m) page) (total_pages m) (u64 (used_pages m + 1)) in
  (page, set_mem m (store (mem m) page (replicate 4096 0))).

Definition pmm_free_page (addr : Z) (m : mm) : mm :=
  if addr =? 0 then m else
  let m := set_mem m (store64 (mem m) addr (free_list m)) in
  set_pages m addr (total_pages m) (u64 (used_pages m - 1)).

(** [for (i = 1; i < count; i++) if (!pmm_alloc_page()) return NULL;] *)
Fixpoint alloc_rest (n : nat) (m : mm) : bool * mm :=
  match n with
  | O => (true, m)
  | S n => let '(p, m) := pmm_alloc_page m in if p =? 0 then (false, m) else alloc_rest n m
  end.

Definition pmm_alloc_pages (count : Z) (m : mm) : Z * mm :=
  if count =? 0 then (0, m) else
  let '(first_page, m) := pmm_alloc_page m in
  if first_page =? 0 then (0, m) else
  let '(ok, m) := alloc_rest (Z.to_nat (count - 1)) m in
  if ok then (first_page, m) else (0, m).

Definition pmm_get_total_pages (m : mm) : Z := total_pages m.
Definition pmm_get_used_pages (m : mm) : Z := used_pages m.
Definition pmm_get_free_pages (m : mm) : Z := u64 (total_pages m - used_pages m).

(** [stackalloc]: 0 for EXIT_SUCCESS, 1 for EXIT_FAILURE; [pages] and [page_size] are ints. *)
Definition stackalloc (pages page_size : Z) (m : mm) : Z * mm :=
  if (pages <=? 0) || (page_size <=? 0) then (1, m) else
  let '(base, m) := pmm_alloc_pages pages m in
  if base =? 0 then (1, set_stack m base (kernel_stack_top m) (rsp m)) else
  let top := u64 (base + pages * page_size) in
  (0, set_stack m base top (Z.land top (2 ^ 64 - 16))).

(** ** The heap: block headers *)
Definition HEAP_MAGIC : Z := 0xDEADBEEF.
Definition HEAP_BLOCK_HEADER_SIZE : Z := 24.
Definition MIN_BLOCK_SIZE : Z := 32.
Definition HEAP_ALIGN : Z := 16.

(** [struct HeapBlock]: size at 0, next at 8, is_free at 16, magic at 20. *)
Definition hb_size (m : mm) (a : Z) : Z := load64 (mem m) a.
Definition hb_next (m : mm) (a : Z) : Z := load64 (mem m) (a + 8).
Definition hb_is_free (m : mm) (a : Z) : Z := load32 (mem m) (a + 16).
Definition hb_magic (m : mm) (a : Z) : Z := load32 (mem m) (a + 20).
Definition set_size (m : mm) (a v : Z) : mm := set_mem m (store64 (mem m) a v).
Definition set_next (m : mm) (a v : Z) : mm := set_mem m (store64 (mem m) (a + 8) v).
Definition set_is_free (m : mm) (a v : Z) : mm := set_mem m (store32 (mem m) (a + 16) v).
Definition set_magic (m : mm) (a v : Z) : mm := set_mem m (store32 (mem m) (a + 20) v).

(** A whole new header. *)
Definition new_header (m : mm) (a size next : Z) : mm :=
  let m := set_size m a size in
  let m := set_next m a next in
  let m := set_is_free m a 1 in
  set_magic m a HEAP_MAGIC.

Definition init_kernel_heap (m : mm) : mm :=
  let '(base, m) := pmm_alloc_pages 16 m in
  if base =? 0 then m else
  let m := set_heap m base (16 * 4096) 0 base in
  new_header m base (u64 (kernel_heap_size m - HEAP_BLOCK_HEADER_SIZE)) 0.

Definition align_size (size : Z) : Z := Z.land (u64 (size + HEAP_ALIGN - 1)) (2 ^ 64 - 16).

(** ** Allocation *)
Definition split_block (block size : Z) (m : mm) : mm :=
  let remaining := u64 (hb_size m block - size - HEAP_BLOCK_HEADER_SIZE) in
  if remaining >=? MIN_BLOCK_SIZE then
    let new_block := u64 (block + HEAP_BLOCK_HEADER_SIZE + size) in
    let m := new_header m new_block remaining (hb_next m block) in
    let m := set_size m block size in
    let m := set_next m block new_block in
    set_counts m (alloc_count m) (free_count m) (u64 (split_count m + 1)) (coalesce_count m)
  else m.

(** How the scan of the free list ends. *)
Inductive search := Found (p : Z) | Corrupt | Exhausted.

(** Taking block [current] for [size] bytes. *)
Definition take_block (current prev size : Z) (m : mm) : Z * mm :=
  let m := split_block current size m in
  let m := set_is_free m current 0 in
  let m := if c_true prev then set_next m prev (hb_next m current)
           else set_heap m (kernel_heap_base m) (kernel_heap_size m) (kernel_heap_used m) (hb_next m current) in
  let m := set_heap m (kernel_heap_base m) (kernel_heap_size m)
             (u64 (kernel_heap_used m + HEAP_BLOCK_HEADER_SIZE + size)) (heap_free_list m) in
  (u64 (current + HEAP_BLOCK_HEADER_SIZE),
   set_counts m (u64 (alloc_count m + 1)) (free_count m) (split_count m) (coalesce_count m)).

Fixpoint kmalloc_search (fuel : nat) (size current prev : Z) (m : mm) : outcome (search * mm) :=
  match fuel with
  | O => OutOfFuel
  | S fuel =>
      if current =? 0 then Done (Exhausted, m)
      else if negb (hb_magic m current =? HEAP_MAGIC) then Done (Corrupt, m)
      else if c_true (hb_is_free m current) && (hb_size m current >=? size) then
        let '(p, m) := take_block current prev size m in Done (Found p, m)
      else kmalloc_search fuel size (hb_next m current) current m
  end.

(** The heap grows by whole pages, then the allocation is tried again. *)
Fixpoint kmalloc (fuel : nat) (size : Z) (m : mm) : outcome (Z * mm) :=
  match fuel with
  | O => OutOfFuel
  | S fuel' =>
      if size =? 0 then Done (0, m) else
      let size := align_size size in
      let* (r, m) := kmalloc_search fuel size (heap_free_list m) 0 m in
      match r with
      | Found p => Done (p, m)
      | Corrupt => Done (0, m)
      | Exhausted =>
          let new_pages := u64 (size + HEAP_BLOCK_HEADER_SIZE + 4095) / 4096 in
          let '(new_mem, m) := pmm_alloc_pages new_pages m in
          if new_mem =? 0 then Done (0, m) else
          let m := new_header m new_mem (u64 (new_pages * 4096 - HEAP_BLOCK_HEADER_SIZE)) (heap_free_list m) in
          let m := set_heap m (kernel_heap_base m) (u64 (kernel_heap_size m + new_pages * 4096))
                     (kernel_heap_used m) new_mem in
          kmalloc fuel' size m
      end
  end.

(** ** Release *)
Fixpoint coalesce_loop (fuel : nat) (current : Z) (m : mm) : outcome mm :=
  match fuel with
  | O => OutOfFuel
  | S fuel =>
      let limit := u64 (kernel_heap_base m + kernel_heap_used m) in
      if current <? limit then
        if negb (hb_magic m current =? HEAP_MAGIC) then Done m else
        let next := u64 (current + HEAP_BLOCK_HEADER_SIZE + hb_size m current) in
        if c_true (hb_is_free m current) &&
           ((next <? limit) && (hb_magic m next =? HEAP_MAGIC) && c_true (hb_is_free m next)) then
          let m := set_size m current (u64 (hb_size m current + HEAP_BLOCK_HEADER_SIZE + hb_size m next)) in
          let m := set_next m current (hb_next m next) in
          coalesce_loop fuel current
            (set_counts m (alloc_count m) (free_count m) (split_count m) (u64 (coalesce_count m + 1)))
        else coalesce_loop fuel next m
      else Done m
  end.

Definition coalesce_blocks (fuel : nat) (m : mm) : outcome mm := coalesce_loop fuel (kernel_heap_base m) m.

Definition kfree (fuel : nat) (ptr : Z) (m : mm) : outcome mm :=
  if ptr =? 0 then Done m else
  let block := u64 (ptr - HEAP_BLOCK_HEADER_SIZE) in
  if negb (hb_magic m block =? HEAP_MAGIC) then Done m else
  if c_true (hb_is_free m block) then Done m else
  let m := set_is_free m block 1 in
  let m := set_next m block (heap_free_list m) in
  let m := set_heap m (kernel_heap_base m) (kernel_heap_size m)
             (u64 (kernel_heap_used m - (HEAP_BLOCK_HEADER_SIZE + hb_size m block))) block in
  coalesce_blocks fuel
    (set_counts m (alloc_count m) (u64 (free_count m + 1)) (split_count m) (coalesce_count m)).

Definition kcalloc (fuel : nat) (num size : Z) (m : mm) : outcome (Z * mm) :=
  let total := u64 (num * size) in
  let* (ptr, m) := kmalloc fuel total m in
  if ptr =? 0 then Done (ptr, m)
  else Done (ptr, set_mem m (store (mem m) ptr (replicate (Z.to_nat total) 0))).

(** [for (i = 0; i < block->size; i++) dst[i] = src[i];] *)
Fixpoint copy_loop (fuel : nat) (i block src dst : Z) (m : mm) : outcome mm :=
  match fuel with
  | O => OutOfFuel
  | S fuel =>
      if i <? hb_size m block
      then copy_loop fuel (i + 1) block src dst (set_mem m (<[dst + i := peek (mem m) (src + i)]> (mem m)))
      else Done m
  end.

Definition krealloc (fuel : nat) (ptr new_size : Z) (m : mm) : outcome (Z * mm) :=
  if ptr =? 0 then kmalloc fuel new_size m else
  if new_size =? 0 then let* m := kfree fuel ptr m in Done (0, m) else
  let block := u64 (ptr - HEAP_BLOCK_HEADER_SIZE) in
  if negb (hb_magic m block =? HEAP_MAGIC) then Done (0, m) else
  if hb_size m block >=? new_size then Done (ptr, m) else
  let* (new_ptr, m) := kmalloc fuel new_size m in
  if new_ptr =? 0 then Done (0, m) else
  let* m := copy_loop fuel 0 block ptr new_ptr m in
  let* m := kfree fuel ptr m in
  Done (new_ptr, m).

(** ** The rest of the file *)
Definition identity_map_addresses (m : mm) : mm := snd (pmm_alloc_page m).

(** The characters [print_ptr] prints: 16 hexadecimal digits. *)
Definition hex_digit (nibble : Z) : Z := if nibble <? 10 then 48 + nibble else 65 + (nibble - 10).
Definition print_ptr (addr : Z) : list Z :=
  map (fun i => hex_digit (Z.land (Z.shiftr addr (Z.of_nat (15 - i) * 4)) 0xF)) (seq 0 16).

Definition mmset (ptr value : Z) (num : nat) (b : bytes) : bytes := store b ptr (replicate num (u8 value)).

Definition mmcpy (dest src : Z) (n : nat) (b : bytes) : bytes :=
  for_range 0 n (fun i b => <[dest + Z.of_nat i := peek b (src + Z.of_nat i)]> b) b.

(** [memory_test]: the sequence of calls it makes, 1 when it prints "All tests PASSED!". *)
Fixpoint kfree_all (fuel : nat) (ptrs : list Z) (m : mm) : outcome mm :=
  match ptrs with
  | [] => Done m
  | p :: ptrs => let* m := kfree fuel p m in kfree_all fuel ptrs m
  end.

Definition memory_test (fuel : nat) (m : mm) : outcome (Z * mm) :=
  let* (p1, m) := kmalloc fuel 100 m in
  if p1 =? 0 then Done (0, m) else
  let* m := kfree fuel p1 m in
  let* (p2, m) := kmalloc fuel 50 m in
  let* (p3, m) := kmalloc fuel 200 m in
  let* (p4, m) := kmalloc fuel 1000 m in
  if (p2 =? 0) || (p3 =? 0) || (p4 =? 0) then Done (0, m) else
  let* m := kfree_all fuel [p3; p2; p4] m in
  let* (p5, m) := kmalloc fuel 100 m in
  let* (p6, m) := kmalloc fuel 100 m in
  let* (p7, m) := kmalloc fuel 100 m in
  let* m := kfree_all fuel [p5; p7; p6] m in
  let* (p8, m) := kmalloc fuel 10000 m in
  if p8 =? 0 then Done (0, m) else
  let* m := kfree fuel p8 m in
  let* (p9, m) := kmalloc fuel 0 m in
  if negb (p9 =? 0) then Done (0, m) else
  let* (p10, m) := kcalloc fuel 100 1 m in
  if p10 =? 0 then Done (0, m) else
  let all_zero := forallb (fun i => peek (mem m) (p10 + Z.of_nat i) =? 0) (seq 0 100) in
  let* m := kfree fuel p10 m in
  if negb all_zero then Done (0, m) else
  let* (p11, m) := kmalloc fuel 50 m in
  let* (p12, m) := krealloc fuel p11 200 m in
  if p12 =? 0 then Done (0, m) else
  let* m := kfree fuel p12 m in
  Done (1, m).

End Mem.
