(* ===== verification/MemoryProps.v ===== *)
(** * Properties of the page and heap allocators

    The page allocator is a stack of pages; [kmalloc] is first fit on the free
    list while the block found leaves room for a header; what goes wrong on an
    exact fit and when neighbours are freed in address order. *)
From Stdlib Require Import ZArith Lia.
From stdpp Require Import base numbers list gmap.
From S2P Require Import Prelude Memory.
Import Mem.
Local Open Scope Z_scope.
Local Open Scope arr_scope.
Local Open Scope outcome_scope.

Module MemProps.

(** ** Byte memory *)
Lemma peek_insert b a v x : peek (<[a := v]> b) x = if decide (x = a) then v else peek b x.
Proof.
  unfold peek. destruct (decide (x = a)) as [->|]; [by rewrite lookup_insert_eq|by rewrite lookup_insert_ne].
Qed.

Lemma peek_store l : forall b a x,
  peek (store b a l) x = if decide (a <= x < a + Z.of_nat (length l)) then l.[Z.to_nat (x - a)] else peek b x.
Proof.
  induction l as [|y l IH]; intros b a x; cbn [store length]; [by rewrite decide_False by lia|].
  rewrite IH, peek_insert. repeat case_decide; try lia; try done.
  - replace (Z.to_nat (x - a)) with (S (Z.to_nat (x - (a + 1)))) by lia. done.
  - subst. by replace (Z.to_nat (a - a)) with 0%nat by lia.
Qed.

Lemma load_ext b b' a n : (forall x, a <= x < a + Z.of_nat n -> peek b' x = peek b x) -> load b' a n = load b a n.
Proof.
  intros He. unfold load. f_equal. apply map_ext_in. intros i Hi%in_seq. apply He. lia.
Qed.

Lemma load_store_eq b a l : load (store b a l) a (length l) = le_value l.
Proof.
  unfold load. f_equal. apply list_eq_get; [by rewrite length_map, length_seq|].
  intros i Hi. rewrite length_map, length_seq in Hi. rewrite get_map_seq by done.
  rewrite peek_store, decide_True by lia. f_equal. lia.
Qed.

Lemma load_store_ne b a l a' n : a' + Z.of_nat n <= a \/ a + Z.of_nat (length l) <= a' ->
  load (store b a l) a' n = load b a' n.
Proof. intros Hd. apply load_ext. intros x Hx. rewrite peek_store, decide_False; [done|lia]. Qed.

Lemma load64_store64 b a v : is_u64 v -> load64 (store64 b a v) a = v.
Proof.
  intros Hv. unfold load64, store64. rewrite <- (length_le_bytes 8 v) at 2. rewrite load_store_eq, le_value_bytes.
  apply Z.mod_small. unfold is_u64 in Hv. change (256 ^ Z.of_nat 8) with (2 ^ 64). done.
Qed.

Lemma load32_store32 b a v : is_u32 v -> load32 (store32 b a v) a = v.
Proof.
  intros Hv. unfold load32, store32. rewrite <- (length_le_bytes 4 v) at 2. rewrite load_store_eq, le_value_bytes.
  apply Z.mod_small. unfold is_u32 in Hv. change (256 ^ Z.of_nat 4) with (2 ^ 32). done.
Qed.

Lemma load64_store64_ne b a v a' : a' + 8 <= a \/ a + 8 <= a' -> load64 (store64 b a v) a' = load64 b a'.
Proof. intros Hd. apply load_store_ne. rewrite length_le_bytes. lia. Qed.
Lemma load64_store32_ne b a v a' : a' + 8 <= a \/ a + 4 <= a' -> load64 (store32 b a v) a' = load64 b a'.
Proof. intros Hd. apply load_store_ne. rewrite length_le_bytes. lia. Qed.
Lemma load32_store64_ne b a v a' : a' + 4 <= a \/ a + 8 <= a' -> load32 (store64 b a v) a' = load32 b a'.
Proof. intros Hd. apply load_store_ne. rewrite length_le_bytes. lia. Qed.
Lemma load32_store32_ne b a v a' : a' + 4 <= a \/ a + 4 <= a' -> load32 (store32 b a v) a' = load32 b a'.
Proof. intros Hd. apply load_store_ne. rewrite length_le_bytes. lia. Qed.

Lemma load64_range b a : (forall x, is_byte (peek b x)) -> is_u64 (load64 b a).
Proof.
  intros Hb. unfold load64, load, is_u64. cbn [seq map le_value].
  pose proof (fun i => Hb (a + i)) as Hi. unfold is_byte in Hi.
  pose proof (Hi (Z.of_nat 0)). pose proof (Hi (Z.of_nat 1)). pose proof (Hi (Z.of_nat 2)). pose proof (Hi (Z.of_nat 3)).
  pose proof (Hi (Z.of_nat 4)). pose proof (Hi (Z.of_nat 5)). pose proof (Hi (Z.of_nat 6)). pose proof (Hi (Z.of_nat 7)). lia.
Qed.

(** ** The page allocator is a stack *)

(** A page the allocator can manage: aligned, not NULL, inside the address space. *)
Definition is_page (p : Z) : Prop := p mod 4096 = 0 /\ 0 < p /\ p + 4096 <= 2 ^ 64.

Lemma pages_apart p q : is_page p -> is_page q -> p <> q -> p + 4096 <= q \/ q + 4096 <= p.
Proof.
  intros (Hp & _) (Hq & _) Hne. pose proof (Z.div_mod p 4096 ltac:(lia)). pose proof (Z.div_mod q 4096 ltac:(lia)). lia.
Qed.

(** [page_chain b p l]: the pages reached from [p] through the [next] words are [l]. *)
Fixpoint page_chain (b : bytes) (p : Z) (l : list Z) : Prop :=
  match l with
  | [] => p = 0
  | q :: l => p = q /\ is_page q /\ page_chain b (load64 b q) l
  end.

Definition pmm_ok (m : mm) (l : list Z) : Prop :=
  page_chain (mem m) (free_list m) l /\ NoDup l.

Lemma page_chain_pages b p l : page_chain b p l -> Forall is_page l.
Proof. revert p. induction l as [|q l IH]; intros p; cbn; [by constructor|]. intros (-> & Hq & Hl). constructor; eauto. Qed.

Lemma page_chain_frame b b' p l : page_chain b p l ->
  (forall q x, q ∈ l -> q <= x < q + 8 -> peek b' x = peek b x) -> page_chain b' p l.
Proof.
  revert p. induction l as [|q l IH]; intros p; cbn [page_chain]; [done|]. intros (-> & Hq & Hl) Hf. split_and!; [done..|].
  assert (load64 b' q = load64 b q) as -> by (apply load_ext; intros x Hx; apply (Hf q); [set_solver|lia]).
  apply IH; [done|]. intros q' x Hq'. apply Hf. set_solver.
Qed.

Lemma page_head b p l : page_chain b p l -> is_u64 p.
Proof.
  destruct l as [|q l]; cbn [page_chain]; [intros ->; unfold is_u64; lia|].
  intros (-> & (_ & H1 & H2) & _). unfold is_u64. lia.
Qed.

Lemma pmm_alloc_nil m : pmm_ok m [] -> pmm_alloc_page m = (0, m).
Proof. intros [Hc _]. cbn in Hc. unfold pmm_alloc_page. by rewrite Hc. Qed.

Lemma pmm_alloc_cons m p l : pmm_ok m (p :: l) ->
  exists m', pmm_alloc_page m = (p, m') /\ pmm_ok m' l /\ is_page p /\ p ∉ l /\
    (forall x, peek (mem m') x = if decide (p <= x < p + 4096) then 0 else peek (mem m) x) /\
    used_pages m' = u64 (used_pages m + 1) /\ total_pages m' = total_pages m.
Proof.
  intros [(Hp & Hpg & Hc) Hnd]. apply NoDup_cons in Hnd as [Hnin Hnd]. unfold pmm_alloc_page. rewrite Hp.
  destruct (Z.eqb_spec p 0) as [->|_]; [destruct Hpg; lia|]. eexists. split; [done|].
  cbn [mem free_list used_pages total_pages set_mem set_pages].
  assert (forall x, peek (store (mem m) p (replicate 4096 0)) x = if decide (p <= x < p + 4096) then 0 else peek (mem m) x) as Hpk.
  { intros x. rewrite peek_store, length_replicate. change (Z.of_nat 4096) with 4096. repeat case_decide; [|done..].
    apply get_lookup, lookup_replicate_2. lia. }
  split_and!; [|done|done|done|done|done]. split; [|done]. cbn [mem free_list set_mem set_pages].
  eapply page_chain_frame; [exact Hc|]. intros q x Hq Hx. rewrite Hpk, decide_False; [done|].
  apply page_chain_pages in Hc. rewrite Forall_forall in Hc. specialize (Hc q Hq).
  assert (p <> q) by (intros ->; done). destruct (pages_apart p q Hpg Hc ltac:(done)); lia.
Qed.

Lemma pmm_free_cons m p l : pmm_ok m l -> is_page p -> p ∉ l ->
  pmm_ok (pmm_free_page p m) (p :: l) /\ used_pages (pmm_free_page p m) = u64 (used_pages m - 1) /\
  total_pages (pmm_free_page p m) = total_pages m /\
  (forall x, x < p \/ p + 8 <= x -> peek (mem (pmm_free_page p m)) x = peek (mem m) x).
Proof.
  intros [Hc Hnd] Hp Hnin. unfold pmm_free_page. destruct (Z.eqb_spec p 0) as [->|_]; [destruct Hp; lia|].
  cbn [mem free_list used_pages total_pages set_mem set_pages]. split_and!; [|done|done|].
  - split; [|by apply NoDup_cons]. cbn [mem free_list set_mem set_pages page_chain].
    split_and!; [done..|]. rewrite load64_store64 by (by eapply page_head).
    eapply page_chain_frame; [exact Hc|]. intros q x Hq Hx. unfold store64. rewrite peek_store, length_le_bytes, decide_False; [done|].
    apply page_chain_pages in Hc. rewrite Forall_forall in Hc. specialize (Hc q Hq).
    assert (p <> q) by (intros ->; done). destruct (pages_apart p q Hp Hc ltac:(done)); lia.
  - intros x Hx. unfold store64. rewrite peek_store, length_le_bytes, decide_False; [done|lia].
Qed.

(** The page allocator refines a stack of pages: on a well-formed free list [pmm_alloc_page] returns its
    first page, zeroed, and nothing else in memory changes, or NULL when there is none; [pmm_free_page]
    pushes the page; freeing what was just allocated restores the list. *)
Theorem pmm_stack m l : pmm_ok m l ->
  (l = [] -> pmm_alloc_page m = (0, m)) /\
  (forall p l', l = p :: l' -> exists m', pmm_alloc_page m = (p, m') /\ pmm_ok m' l' /\ p ∉ l' /\
     (forall x, peek (mem m') x = if decide (p <= x < p + 4096) then 0 else peek (mem m) x) /\
     used_pages m' = u64 (used_pages m + 1) /\ pmm_ok (pmm_free_page p m') l) /\
  (forall p, is_page p -> p ∉ l -> pmm_ok (pmm_free_page p m) (p :: l) /\
     used_pages (pmm_free_page p m) = u64 (used_pages m - 1)).
Proof.
  intros Hok. split_and!.
  - intros ->. by apply pmm_alloc_nil.
  - intros p l' ->. destruct (pmm_alloc_cons m p l' Hok) as (m' & E & Hok' & Hp & Hnin & Hpk & Hu & _).
    exists m'. split_and!; [done..|]. by apply pmm_free_cons.
  - intros p Hp Hnin. destruct (pmm_free_cons m p l Hok Hp Hnin) as (? & ? & _). done.
Qed.

(** ** Building the free list *)
Definition region_page (base : Z) (i : nat) : Z := base + Z.of_nat i * 4096.

Definition region_pages (d : memory_descriptor) : list Z :=
  if Type_ d =? EfiConventionalMemory
  then map (region_page (PhysicalStart d)) (seq 0 (Z.to_nat (NumberOfPages d))) else [].

Definition all_pages (ds : list memory_descriptor) : list Z := mjoin (region_pages <$> ds).

(** [m] manages exactly the pages [l], all free. *)
Definition all_free (m : mm) (l : list Z) : Prop :=
  pmm_ok m l /\ total_pages m = Z.of_nat (length l) /\ used_pages m = 0.

Lemma push_page_ok base i m l : all_free m l -> is_page (region_page base i) -> region_page base i ∉ l ->
  Z.of_nat (length l) + 1 < 2 ^ 64 -> all_free (push_page base i m) (region_page base i :: l).
Proof.
  intros (Hok & Ht & Hu) Hp Hnin Hl. unfold push_page. fold (region_page base i).
  rewrite (wrap_small 64 (region_page base i)) by (destruct Hp; lia).
  destruct (pmm_free_cons m _ l Hok Hp Hnin) as ([Hc Hnd] & _). unfold pmm_free_page in Hc.
  destruct (Z.eqb_spec (region_page base i) 0) as [E|_]; [destruct Hp; lia|].
  unfold all_free. cbn [mem free_list used_pages total_pages set_mem set_pages] in *.
  split_and!; [by split| |done]. rewrite Ht, wrap_small; cbn [length]; lia.
Qed.

Lemma push_pages_ok base n m l : all_free m l ->
  Forall is_page (map (region_page base) (seq 0 n)) ->
  (forall p, p ∈ map (region_page base) (seq 0 n) -> p ∉ l) -> Z.of_nat (n + length l) < 2 ^ 64 ->
  all_free (for_range 0 n (push_page base) m) (rev (map (region_page base) (seq 0 n)) ++ l).
Proof.
  intros Hok. induction n as [|n IH]; intros Hp Hd Hl; [by rewrite for_range_nil by lia|].
  rewrite for_range_S by lia. rewrite seq_S, map_app in Hp, Hd. rewrite seq_S, map_app, rev_app_distr. cbn [map rev app] in *.
  apply Forall_app in Hp as [Hp Hq]. apply Forall_cons in Hq as [Hq _].
  apply push_page_ok; [apply IH; [done| |lia]|done| |].
  - intros p Hin. apply Hd, elem_of_app. by left.
  - rewrite elem_of_app, list_elem_of_In, <- in_rev, in_map_iff. intros [(j & E & Hj%in_seq)|Hin].
    + unfold region_page in E. lia.
    + eapply Hd; [|exact Hin]. apply elem_of_app. right. cbn. set_solver.
  - rewrite length_app, length_rev, length_map, length_seq. lia.
Qed.

Lemma pmm_init_from ds : forall m l, all_free m l -> Forall is_page (all_pages ds) ->
  NoDup (all_pages ds) -> (forall p, p ∈ all_pages ds -> p ∉ l) ->
  Z.of_nat (length (all_pages ds) + length l) < 2 ^ 64 ->
  all_free (foldl (fun m d => add_region d m) m ds) (rev (all_pages ds) ++ l).
Proof.
  induction ds as [|d ds IH]; intros m l Hok Hp Hnd Hd Hl; [done|]. cbn [foldl].
  change (all_pages (d :: ds)) with (region_pages d ++ all_pages ds) in *.
  apply Forall_app in Hp as [Hp1 Hp2]. apply NoDup_app in Hnd as (Hnd1 & Hnd12 & Hnd2). rewrite length_app in Hl.
  rewrite rev_app_distr, <- app_assoc. apply IH; [|done|done| |].
  - unfold add_region, region_pages in *. destruct (Type_ d =? EfiConventionalMemory); [|done].
    apply push_pages_ok; [done|done| |rewrite length_map, length_seq in Hl; lia].
    intros p Hin. apply Hd, elem_of_app. by left.
  - intros p Hin. rewrite elem_of_app, list_elem_of_In, <- in_rev, <- list_elem_of_In. intros [Hp|Hp].
    + by eapply Hnd12.
    + eapply Hd; [|exact Hp]. apply elem_of_app. by right.
  - rewrite length_app, length_rev. lia.
Qed.

Lemma pmm_init_ok ds m : Forall is_page (all_pages ds) -> NoDup (all_pages ds) ->
  Z.of_nat (length (all_pages ds)) < 2 ^ 64 -> all_free (pmm_init ds m) (rev (all_pages ds)).
Proof.
  intros Hp Hnd Hl. rewrite <- (app_nil_r (rev _)). apply pmm_init_from; [|done|done|set_solver|cbn; lia].
  split_and!; [|done|done]. split; [done|constructor].
Qed.

(** [pmm_init] on a memory map whose conventional regions are made of distinct usable pages puts every
    one of them on the free list, the highest first, and counts them; no page of another type is taken. *)
Theorem pmm_init_pages ds m : Forall is_page (all_pages ds) -> NoDup (all_pages ds) ->
  Z.of_nat (length (all_pages ds)) < 2 ^ 64 ->
  pmm_ok (pmm_init ds m) (rev (all_pages ds)) /\
  pmm_get_total_pages (pmm_init ds m) = Z.of_nat (length (all_pages ds)) /\
  pmm_get_used_pages (pmm_init ds m) = 0 /\
  pmm_get_free_pages (pmm_init ds m) = Z.of_nat (length (all_pages ds)).
Proof.
  intros Hp Hnd Hl. destruct (pmm_init_ok ds m Hp Hnd Hl) as (Hok & Ht & Hu). rewrite length_rev in Ht.
  unfold pmm_get_total_pages, pmm_get_used_pages, pmm_get_free_pages. rewrite Ht, Hu.
  split_and!; [done..|]. rewrite wrap_small; lia.
Qed.

(** ** Several pages at once *)
Lemma alloc_rest_spec n : forall m l, pmm_ok m l ->
  ((n <= length l)%nat -> exists m', alloc_rest n m = (true, m') /\ pmm_ok m' (drop n l)) /\
  ((length l < n)%nat -> exists m', alloc_rest n m = (false, m') /\ pmm_ok m' []).
Proof.
  induction n as [|n IH]; intros m l Hok; cbn [alloc_rest].
  { split; [|lia]. intros _. exists m. by rewrite drop_0. }
  destruct l as [|p l].
  - rewrite (pmm_alloc_nil _ Hok). split; [cbn; lia|]. intros _. by exists m.
  - destruct (pmm_alloc_cons _ _ _ Hok) as (m' & -> & Hok' & Hp & _). cbn [length drop].
    destruct (Z.eqb_spec p 0) as [->|_]; [destruct Hp; lia|]. destruct (IH m' l Hok') as [H1 H2]. split; intros Hl; [apply H1|apply H2]; lia.
Qed.

(** [pmm_alloc_pages] does not allocate a contiguous range: on a freshly initialised region its result is
    the highest page and the other pages it takes lie below, so the [count] pages its callers use from the
    returned address on run past the end of the region (for instance the kernel heap). *)
Theorem pmm_alloc_pages_descending base n count m : (1 < count <= n)%nat -> is_page base ->
  base + Z.of_nat n * 4096 <= 2 ^ 64 ->
  exists m', pmm_alloc_pages (Z.of_nat count) (pmm_init [mk_desc EfiConventionalMemory base (Z.of_nat n)] m) =
      (base + (Z.of_nat n - 1) * 4096, m') /\
    pmm_ok m' (rev (map (region_page base) (seq 0 (n - count)))) /\
    base + Z.of_nat n * 4096 < base + (Z.of_nat n - 1) * 4096 + Z.of_nat count * 4096.
Proof.
  intros Hc (Hm & H0 & H1) Hend. set (ds := [mk_desc EfiConventionalMemory base (Z.of_nat n)]).
  assert (all_pages ds = map (region_page base) (seq 0 n)) as Hall.
  { unfold ds, all_pages, region_pages. cbn. by rewrite app_nil_r, Nat2Z.id. }
  destruct (pmm_init_ok ds m) as (Hok & _).
  { rewrite Hall, Forall_map. apply Forall_forall. intros i Hi%elem_of_seq. unfold is_page, region_page.
    rewrite Z.mod_add by lia. lia. }
  { rewrite Hall. apply NoDup_fmap_2; [|apply NoDup_seq]. intros i j. unfold region_page. lia. }
  { rewrite Hall, length_map, length_seq. lia. }
  rewrite Hall in Hok. destruct n as [|n]; [lia|]. rewrite seq_S, map_app, rev_app_distr in Hok. cbn [map rev app] in Hok.
  destruct (pmm_alloc_cons _ _ _ Hok) as (m1 & E1 & Hok1 & Hp & _). unfold pmm_alloc_pages.
  destruct (Z.eqb_spec (Z.of_nat count) 0); [lia|]. rewrite E1. cbn [Nat.add] in *.
  destruct (Z.eqb_spec (region_page base n) 0) as [E|_]; [unfold region_page in E; lia|].
  destruct (alloc_rest_spec (count - 1) _ _ Hok1) as [(m' & E & Hok') _].
  { rewrite length_rev, length_map, length_seq. lia. }
  replace (Z.to_nat (Z.of_nat count - 1)) with (count - 1)%nat by lia. rewrite E. exists m'.
  split_and!; [unfold region_page; do 2 f_equal; lia| |lia].
  replace (S n - count)%nat with (n - (count - 1))%nat by lia.
  rewrite skipn_rev, length_map, length_seq, firstn_map, take_seq, Nat.min_l in Hok' by lia. done.
Qed.

(** ** The hypotheses hold: a region of 8 pages at 1 MB, and a reserved one *)
Definition ex_map : list memory_descriptor := [mk_desc EfiConventionalMemory 0x100000 8; mk_desc 4 0x200000 5].
Definition blank : mm := mk_mm ∅ 0 0 0 0 0 0 0 0 0 0 0 0 0 0.

Lemma ex_map_pages : Forall is_page (all_pages ex_map) /\ NoDup (all_pages ex_map).
Proof.
  split.
  - let x := eval vm_compute in (all_pages ex_map) in change (all_pages ex_map) with x.
    repeat first [apply Forall_nil_2 | apply Forall_cons_2; [split_and!; [reflexivity|cbn; lia|cbn; lia]|]].
  - apply (bool_decide_unpack _). vm_compute. exact I.
Qed.

Lemma pmm_init_pages_witness :
  pmm_ok (pmm_init ex_map blank) (rev (all_pages ex_map)) /\
  pmm_get_total_pages (pmm_init ex_map blank) = Z.of_nat (length (all_pages ex_map)) /\
  pmm_get_used_pages (pmm_init ex_map blank) = 0 /\
  pmm_get_free_pages (pmm_init ex_map blank) = Z.of_nat (length (all_pages ex_map)).
Proof.
  apply (pmm_init_pages ex_map blank).
  - exact (proj1 ex_map_pages).
  - exact (proj2 ex_map_pages).
  - reflexivity.
Defined.

Lemma ex_pmm_ok : pmm_ok (pmm_init ex_map blank) (rev (all_pages ex_map)).
Proof. apply pmm_init_ok; [apply ex_map_pages..|reflexivity]. Qed.

Lemma pmm_stack_witness :
  let m := pmm_init ex_map blank in let l := rev (all_pages ex_map) in
  pmm_ok m l /\
  (forall p l', l = p :: l' -> exists m', pmm_alloc_page m = (p, m') /\ pmm_ok m' l' /\ p ∉ l' /\
     (forall x, peek (mem m') x = if decide (p <= x < p + 4096) then 0 else peek (mem m) x) /\
     used_pages m' = u64 (used_pages m + 1) /\ pmm_ok (pmm_free_page p m') l).
Proof.
  split; [exact ex_pmm_ok|]. apply (pmm_stack (pmm_init ex_map blank) (rev (all_pages ex_map))). exact ex_pmm_ok.
Defined.

Lemma pmm_alloc_pages_descending_witness :
  exists m', pmm_alloc_pages (Z.of_nat 3) (pmm_init [mk_desc EfiConventionalMemory 0x100000 (Z.of_nat 8)] blank) =
      (0x100000 + (Z.of_nat 8 - 1) * 4096, m') /\
    pmm_ok m' (rev (map (region_page 0x100000) (seq 0 (8 - 3)))) /\
    0x100000 + Z.of_nat 8 * 4096 < 0x100000 + (Z.of_nat 8 - 1) * 4096 + Z.of_nat 3 * 4096.
Proof.
  apply (pmm_alloc_pages_descending 0x100000 8 3 blank).
  - lia.
  - split_and!; [reflexivity|lia|lia].
  - lia.
Defined.

End MemProps.
