(* ===== verification/MemoryHeap.v ===== *)
(** * The kernel heap: first fit, and where it breaks

    On a free list of disjoint blocks [kmalloc] is first fit and keeps the list
    well formed as long as the chosen block leaves room for a header. When it does
    not, the free list is overwritten with a block of almost 2^64 bytes; freeing
    neighbours in address order makes the list cyclic. *)
From Stdlib Require Import ZArith Lia.
From stdpp Require Import base numbers list gmap.
From S2P Require Import Prelude Memory MemoryProps.
Import Mem MemProps.
Local Open Scope Z_scope.
Local Open Scope outcome_scope.

Module MemHeap.

(** ** Headers *)
Definition header (m : mm) (a sz nx fr : Z) : Prop :=
  hb_size m a = sz /\ hb_next m a = nx /\ hb_is_free m a = fr /\ hb_magic m a = HEAP_MAGIC.

Definition same_header (m m' : mm) (a : Z) : Prop :=
  hb_size m' a = hb_size m a /\ hb_next m' a = hb_next m a /\ hb_is_free m' a = hb_is_free m a /\
  hb_magic m' a = hb_magic m a.

Lemma header_same m m' a sz nx fr : header m a sz nx fr -> same_header m m' a -> header m' a sz nx fr.
Proof. unfold header, same_header. intuition congruence. Qed.

(** A block: header address and payload size; its extent is [a, a + 24 + sz). *)
Abbreviation block := (Z * Z)%type.
Definition apart (x y : block) : Prop := fst x + 24 + snd x <= fst y \/ fst y + 24 + snd y <= fst x.
Definition in_space (x : block) : Prop := 0 < fst x /\ 0 <= snd x /\ fst x + 24 + snd x <= 2 ^ 64.

(** Reading back through the stores of a header update: each rewriting either
    hits the field or steps over a disjoint store. *)
Ltac hb_fields :=
  unfold hb_size, hb_next, hb_is_free, hb_magic, set_size, set_next, set_is_free, set_magic in *;
  cbn [mem set_mem set_counts set_heap heap_free_list kernel_heap_base kernel_heap_size kernel_heap_used] in *;
  repeat first
    [ rewrite load64_store64_ne by lia | rewrite load64_store32_ne by lia
    | rewrite load32_store64_ne by lia | rewrite load32_store32_ne by lia
    | rewrite load64_store64 by (unfold is_u64 in *; lia)
    | rewrite load32_store32 by (unfold is_u32, HEAP_MAGIC; lia) ].

Lemma new_header_spec m a size next : is_u64 size -> is_u64 next ->
  header (new_header m a size next) a size next 1 /\
  (forall b, b + 24 <= a \/ a + 24 <= b -> same_header m (new_header m a size next) b).
Proof.
  intros Hs Hn. unfold new_header. split.
  - unfold header. split_and!; hb_fields; done.
  - intros b Hb. unfold same_header. split_and!; hb_fields; done.
Qed.

(** ** Taking a block that leaves room for a header *)
Definition splits (sz asz : Z) : bool := asz + 56 <=? sz.

Lemma split_block_spec m a sz nx asz : header m a sz nx 1 -> in_space (a, sz) -> is_u64 nx ->
  0 <= asz -> asz + 24 <= sz ->
  let m' := split_block a asz m in
  header m' a (if splits sz asz then asz else sz) (if splits sz asz then a + 24 + asz else nx) 1 /\
  (splits sz asz = true -> header m' (a + 24 + asz) (sz - asz - 24) nx 1) /\
  (forall b, b + 24 <= a \/ a + 24 + sz <= b -> same_header m m' b) /\
  heap_free_list m' = heap_free_list m /\ kernel_heap_used m' = kernel_heap_used m.
Proof.
  intros (Hsz & Hnx & Hfr & Hmg) (Ha & Hs0 & Hsp) Hnu Hz Hroom m'. cbn [fst snd] in *.
  unfold m', split_block. rewrite Hsz, Hnx. unfold HEAP_BLOCK_HEADER_SIZE, MIN_BLOCK_SIZE, splits.
  rewrite (wrap_small 64 (sz - asz - 24)) by lia.
  destruct (Z.geb_spec (sz - asz - 24) 32) as [Hge|Hlt], (Z.leb_spec (asz + 56) sz); try lia.
  - rewrite (wrap_small 64 (a + 24 + asz)) by lia. unfold new_header, header, same_header.
    repeat match goal with |- _ /\ _ => split | |- forall _, _ => intros ? | |- _ -> _ => intros ? end; hb_fields; done.
  - unfold header, same_header. split_and!; done.
Qed.

Definition prev_ok (prev a sz : Z) : Prop := prev = 0 \/ (0 < prev /\ (prev + 24 <= a \/ a + 24 + sz <= prev)).

Lemma take_block_spec m a sz nx prev asz : header m a sz nx 1 -> in_space (a, sz) -> is_u64 nx ->
  0 < asz -> asz + 24 <= sz -> prev_ok prev a sz ->
  let nx' := if splits sz asz then a + 24 + asz else nx in
  exists m', take_block a prev asz m = (a + 24, m') /\
    header m' a (if splits sz asz then asz else sz) nx' 0 /\
    (splits sz asz = true -> header m' (a + 24 + asz) (sz - asz - 24) nx 1) /\
    (prev <> 0 -> forall psz pnx, header m prev psz pnx 1 -> header m' prev psz nx' 1) /\
    (forall b, b <> prev -> (prev = 0 \/ b + 24 <= prev \/ prev + 24 <= b) -> (b + 24 <= a \/ a + 24 + sz <= b) -> same_header m m' b) /\
    heap_free_list m' = (if prev =? 0 then nx' else heap_free_list m) /\
    kernel_heap_used m' = u64 (kernel_heap_used m + 24 + asz).
Proof.
  intros Hh Hin Hnu Hz Hroom Hprev nx'. pose proof Hin as (Ha & Hs0 & Hsp). cbn [fst snd] in *.
  destruct (split_block_spec m a sz nx asz Hh Hin Hnu ltac:(lia) Hroom) as (Hb & Hrest & Hother & Hfl & Hused).
  fold nx' in Hb. unfold take_block. rewrite (wrap_small 64 (a + HEAP_BLOCK_HEADER_SIZE)) by (unfold HEAP_BLOCK_HEADER_SIZE; lia).
  set (m1 := split_block a asz m) in *. eexists. split; [done|].
  assert (is_u64 nx') as Hnu' by (unfold nx'; destruct (splits sz asz); unfold is_u64 in *; lia).
  assert (hb_next (set_is_free m1 a 0) a = nx') as Hnx1 by (destruct Hb as (_ & <- & _); hb_fields; done). rewrite Hnx1.
  unfold splits in *. unfold c_true. destruct (Z.eqb_spec prev 0) as [->|Hp0]; cbn [negb].
  - split_and!; [| |done| |done|unfold HEAP_BLOCK_HEADER_SIZE; hb_fields; by rewrite Hused].
    + destruct Hb as (B1 & B2 & B3 & B4). unfold header. split_and!; hb_fields; done.
    + intros Hsplit. destruct (Hrest Hsplit) as (B1 & B2 & B3 & B4). apply Z.leb_le in Hsplit.
      unfold header. split_and!; hb_fields; done.
    + intros b _ _ Hb'. destruct (Hother b Hb') as (B1 & B2 & B3 & B4). unfold same_header. split_and!; hb_fields; done.
  - destruct Hprev as [|[Hp1 Hp2]]; [done|].
    split_and!; [| | | |hb_fields; done|unfold HEAP_BLOCK_HEADER_SIZE; hb_fields; by rewrite Hused].
    + destruct Hb as (B1 & B2 & B3 & B4). unfold header. split_and!; hb_fields; done.
    + intros Hsplit. destruct (Hrest Hsplit) as (B1 & B2 & B3 & B4). apply Z.leb_le in Hsplit.
      unfold header. split_and!; hb_fields; done.
    + intros _ psz pnx (P1 & P2 & P3 & P4). destruct (Hother prev Hp2) as (B1 & B2 & B3 & B4).
      unfold header. split_and!; hb_fields; congruence.
    + intros b Hbp Hbp' Hb'. destruct (Hother b Hb') as (B1 & B2 & B3 & B4). unfold same_header. split_and!; hb_fields; done.
Qed.

(** ** The free list *)
Fixpoint free_chain (m : mm) (p : Z) (L : list block) : Prop :=
  match L with
  | [] => p = 0
  | (a, sz) :: L => p = a /\ exists nx, header m a sz nx 1 /\ free_chain m nx L
  end.

(** Disjoint blocks inside the address space. *)
Definition separated (L : list block) : Prop :=
  Forall in_space L /\ forall i j x y, i <> j -> L !! i = Some x -> L !! j = Some y -> apart x y.

Definition heap_ok (m : mm) (L : list block) : Prop := free_chain m (heap_free_list m) L /\ separated L.

Lemma separated_mid L1 x L2 y : separated (L1 ++ x :: L2) -> y ∈ L1 ++ L2 -> apart y x /\ in_space y.
Proof.
  intros [Hsp Hap] Hy. apply elem_of_app in Hy as [Hy|Hy]; apply list_elem_of_lookup in Hy as [k Hk].
  - assert ((L1 ++ x :: L2) !! k = Some y) as Hk' by (by apply lookup_app_l_Some). split; [|by eapply Forall_lookup_1].
    apply (Hap k (length L1)); [|done|by rewrite lookup_app_r, Nat.sub_diag by lia].
    apply lookup_lt_Some in Hk. lia.
  - assert ((L1 ++ x :: L2) !! (length L1 + S k)%nat = Some y) as Hk'.
    { rewrite lookup_app_r by lia. by replace (length L1 + S k - length L1)%nat with (S k) by lia. }
    split; [|by eapply Forall_lookup_1].
    apply (Hap (length L1 + S k)%nat (length L1)); [lia|done|by rewrite lookup_app_r, Nat.sub_diag by lia].
Qed.

(** Replacing a block by parts of it keeps the list separated. *)
Lemma separated_replace L1 x L2 R : separated (L1 ++ x :: L2) ->
  (forall y, y ∈ R -> in_space y /\ fst x <= fst y /\ fst y + 24 + snd y <= fst x + 24 + snd x) ->
  (forall i j y z, i <> j -> R !! i = Some y -> R !! j = Some z -> apart y z) ->
  separated (L1 ++ R ++ L2).
Proof.
  intros Hsep HR Hap. assert (forall y z, y ∈ L1 ++ L2 -> z ∈ R -> apart y z /\ apart z y) as Hcross.
  { intros y z Hy Hz. destruct (separated_mid _ _ _ _ Hsep Hy) as [Hyx _]. destruct (HR z Hz) as (Hz0 & Hz1 & Hz2).
    destruct Hz0 as (? & ? & ?). unfold apart in *. lia. }
  pose proof Hsep as [Hsp Hold]. split.
  - apply Forall_app in Hsp as [Hsp1 Hsp2]. apply Forall_cons in Hsp2 as [_ Hsp2].
    apply Forall_app. split; [done|]. apply Forall_app. split; [|done]. apply Forall_forall. intros y Hy. by apply HR.
  - assert (forall i y, (L1 ++ R ++ L2) !! i = Some y ->
      (exists k, (L1 ++ x :: L2) !! k = Some y /\ y ∈ L1 ++ L2 /\
         (i < length L1 /\ k = i \/ length L1 + length R <= i /\ k + length R = i + 1)%nat) \/
      (exists k, R !! k = Some y /\ i = length L1 + k)%nat) as Hidx.
    { intros i y Hi. apply lookup_app_Some in Hi as [Hi|[Hge Hi]].
      - left. exists i. split_and!; [by apply lookup_app_l_Some|apply elem_of_app; left; by eapply list_elem_of_lookup_2|].
        left. split; [by eapply lookup_lt_Some|done].
      - apply lookup_app_Some in Hi as [Hi|[Hge2 Hi]]; [right; exists (i - length L1)%nat; split; [done|lia]|].
        left. exists (length L1 + S (i - length L1 - length R))%nat. split_and!.
        + rewrite lookup_app_r by lia. by replace (length L1 + S (i - length L1 - length R) - length L1)%nat
            with (S (i - length L1 - length R)) by lia.
        + apply elem_of_app. right. by eapply list_elem_of_lookup_2.
        + right. lia. }
    intros i j y z Hne Hi Hj. apply Hidx in Hi as [(ki & Hki & Hin & Hci)|(ki & Hki & Hci)];
      apply Hidx in Hj as [(kj & Hkj & Hjn & Hcj)|(kj & Hkj & Hcj)].
    + apply (Hold ki kj); [lia|done|done].
    + destruct (Hcross y z Hin ltac:(by eapply list_elem_of_lookup_2)). done.
    + destruct (Hcross z y Hjn ltac:(by eapply list_elem_of_lookup_2)). done.
    + apply (Hap ki kj); [lia|done|done].
Qed.

(** The address of the last block of [L], or [prev] when there is none. *)
Definition last_addr (prev : Z) (L : list block) : Z := match last L with Some (a, _) => a | None => prev end.

Lemma last_addr_cons prev a sz L : last_addr prev ((a, sz) :: L) = last_addr a L.
Proof.
  unfold last_addr. destruct L as [|y L]; [done|]. rewrite last_cons_cons.
  destruct (last (y :: L)) as [[b bsz]|] eqn:E; [reflexivity|]. apply last_None in E. discriminate.
Qed.

Lemma search_first_fit asz a sz L2 m : asz <= sz -> forall L1 cur prev fuel,
  free_chain m cur (L1 ++ (a, sz) :: L2) -> separated (L1 ++ (a, sz) :: L2) ->
  Forall (fun x => snd x < asz) L1 -> (length L1 < fuel)%nat ->
  kmalloc_search fuel asz cur prev m =
    (let '(p, m') := take_block a (last_addr prev L1) asz m in Done (Found p, m')).
Proof.
  intros Hfit. induction L1 as [|[b bsz] L1 IH]; intros cur prev fuel Hc Hsep Hsm Hfuel;
    (destruct fuel as [|fuel]; [cbn in Hfuel; lia|]); cbn [app free_chain] in Hc; destruct Hc as (-> & nx & (S1 & S2 & S3 & S4) & Hc);
    cbn [kmalloc_search].
  - destruct Hsep as [Hsp _]. apply Forall_cons in Hsp as [(Ha & _) _]. cbn [fst] in Ha.
    destruct (Z.eqb_spec a 0); [lia|]. rewrite S1, S3, S4. cbn [negb Z.eqb HEAP_MAGIC Pos.eqb c_true andb].
    destruct (Z.geb_spec sz asz); [done|lia].
  - apply Forall_cons in Hsm as [Hb Hsm]. cbn [snd] in Hb. destruct Hsep as [Hsp Hap].
    apply Forall_cons in Hsp as [(Ha & _) Hsp]. cbn [fst] in Ha.
    destruct (Z.eqb_spec b 0); [lia|]. rewrite S1, S2, S3, S4. cbn [negb Z.eqb HEAP_MAGIC Pos.eqb c_true andb].
    destruct (Z.geb_spec bsz asz); [lia|]. rewrite (IH nx b); [by rewrite last_addr_cons|done| |done|cbn in Hfuel; lia].
    split; [done|]. intros i j x y Hne Hi Hj. by apply (Hap (S i) (S j)); [lia|..].
Qed.

(** The free list after the block [a] has been replaced: the link into it now
    leads to [nx'] and the tail [T]. *)
Lemma free_chain_replace m m' a sz T nx' : free_chain m' nx' T -> forall L1 cur prev L2,
  free_chain m cur (L1 ++ (a, sz) :: L2) ->
  (forall b bsz, (b, bsz) ∈ L1 -> b <> last_addr prev L1 -> same_header m m' b) ->
  (forall b bsz nx, (b, bsz) ∈ L1 -> b = last_addr prev L1 -> header m b bsz nx 1 -> header m' b bsz nx' 1) ->
  (forall i j x y, i <> j -> L1 !! i = Some x -> L1 !! j = Some y -> fst x <> fst y) ->
  free_chain m' (match L1 with [] => nx' | _ => cur end) (L1 ++ T).
Proof.
  intros HT. induction L1 as [|[b bsz] L1 IH]; intros cur prev L2 Hc Hsame Hlast Hdist; [done|].
  cbn [app free_chain] in Hc |- *. destruct Hc as (-> & nx & Hh & Hc). split; [done|].
  rewrite last_addr_cons in Hsame, Hlast. destruct L1 as [|[c csz] L1].
  - exists nx'. split; [|done]. apply (Hlast b bsz nx); [set_solver|done|done].
  - exists nx. split.
    + eapply header_same; [exact Hh|]. apply (Hsame b bsz); [set_solver|]. intros E.
      rewrite last_addr_cons in E. unfold last_addr in E.
      destruct (last L1) as [[d dsz]|] eqn:El.
      * apply last_Some_elem_of, list_elem_of_lookup in El as [k Hk]. by apply (Hdist 0%nat (S (S k)) (b, bsz) (d, dsz)).
      * by apply (Hdist 0%nat 1%nat (b, bsz) (c, csz)).
    + apply (IH nx b L2 Hc).
      * intros d dsz Hd. apply (Hsame d dsz). set_solver.
      * intros d dsz n Hd. apply (Hlast d dsz). set_solver.
      * intros i j x y Hne Hi Hj. by apply (Hdist (S i) (S j)); [lia|..].
Qed.

Lemma free_chain_frame m m' L : forall p, free_chain m p L ->
  (forall b bsz, (b, bsz) ∈ L -> same_header m m' b) -> free_chain m' p L.
Proof.
  induction L as [|[b bsz] L IH]; intros p; cbn [free_chain]; [done|]. intros (-> & nx & Hh & Hc) Hs. split; [done|].
  exists nx. split; [eapply header_same; [done|]; apply (Hs b bsz); set_solver|].
  apply IH; [done|]. intros d dsz Hd. apply (Hs d dsz). set_solver.
Qed.

Lemma chain_head_u64 m p L : free_chain m p L -> Forall in_space L -> is_u64 p.
Proof.
  destruct L as [|[b bsz] L]; cbn [free_chain]; [intros -> _; unfold is_u64; lia|].
  intros (-> & _) Hsp. apply Forall_cons in Hsp as [(H1 & H2 & H3) _]. cbn [fst snd] in *. unfold is_u64. lia.
Qed.

Lemma free_chain_app m L1 x L2 : forall p, free_chain m p (L1 ++ x :: L2) ->
  exists nx, header m (fst x) (snd x) nx 1 /\ free_chain m nx L2.
Proof.
  induction L1 as [|[b bsz] L1 IH]; intros p; cbn [app free_chain].
  - destruct x as [a sz]. by intros (_ & nx & Hh & Hc); exists nx.
  - intros (_ & nx & _ & Hc). by apply IH in Hc.
Qed.

Lemma align_size_spec size : 0 < size -> size + 15 < 2 ^ 64 ->
  size <= align_size size < size + 16 /\ align_size size mod 16 = 0.
Proof.
  intros Hs Hb. unfold align_size, HEAP_ALIGN. rewrite wrap_small by lia.
  assert (Z.land (size + 16 - 1) (2 ^ 64 - 16) = 16 * ((size + 15) / 16)) as ->.
  { replace (size + 16 - 1) with (size + 15) by lia. change 16 with (2 ^ 4) at 1 2 3. apply (land_align 64 4); lia. }
  pose proof (Z.div_mod (size + 15) 16 ltac:(lia)). pose proof (Z.mod_pos_bound (size + 15) 16 ltac:(lia)).
  split; [lia|]. rewrite Z.mul_comm. apply Z.mod_mul. lia.
Qed.

(** What is left on the free list of a block of [sz] bytes after [asz] were taken. *)
Definition remainder (a sz asz : Z) : list block := if splits sz asz then [(a + 24 + asz, sz - asz - 24)] else [].
Definition taken (sz asz : Z) : Z := if splits sz asz then asz else sz.

Lemma last_addr_ok L1 a sz L2 : separated (L1 ++ (a, sz) :: L2) -> prev_ok (last_addr 0 L1) a sz.
Proof.
  intros Hsep. unfold last_addr. destruct (last L1) as [[b bsz]|] eqn:E; [right|by left].
  apply last_Some_elem_of in E. destruct (separated_mid L1 (a, sz) L2 (b, bsz) Hsep) as [Hap (Hb & Hs & _)]; [set_solver|].
  unfold apart in Hap. cbn [fst snd] in *. split; [done|]. lia.
Qed.

Lemma last_addr_in L1 b : last_addr 0 L1 = b -> b <> 0 -> exists bsz, (b, bsz) ∈ L1.
Proof.
  unfold last_addr. destruct (last L1) as [[c csz]|] eqn:E; [|congruence]. intros -> _. exists csz. by apply last_Some_elem_of.
Qed.

(** Headers of different blocks of a separated list do not overlap. *)
Lemma separated_headers L i j x y : separated L -> i <> j -> L !! i = Some x -> L !! j = Some y ->
  fst x + 24 <= fst y \/ fst y + 24 <= fst x.
Proof.
  intros [Hsp Hap] Hne Hi Hj. pose proof (Forall_lookup_1 _ _ _ _ Hsp Hi) as (_ & H1 & _).
  pose proof (Forall_lookup_1 _ _ _ _ Hsp Hj) as (_ & H2 & _). destruct (Hap i j x y Hne Hi Hj); lia.
Qed.

Lemma separated_in L1 x L2 b bsz c csz : separated (L1 ++ x :: L2) ->
  (b, bsz) ∈ L1 ++ L2 -> (c, csz) ∈ L1 ++ L2 -> b = c \/ b + 24 <= c \/ c + 24 <= b.
Proof.
  intros Hsep Hb Hc. assert (forall y, y ∈ L1 ++ L2 -> exists i, (L1 ++ x :: L2) !! i = Some y) as Hin.
  { intros y Hy. apply list_elem_of_lookup. rewrite !elem_of_app, ?elem_of_cons in *. naive_solver. }
  destruct (Hin _ Hb) as [i Hi], (Hin _ Hc) as [j Hj]. destruct (decide (i = j)) as [->|Hne]; [left; congruence|].
  right. by apply (separated_headers _ i j (b, bsz) (c, csz) Hsep).
Qed.

Lemma remainder_separated L1 a sz L2 asz : separated (L1 ++ (a, sz) :: L2) -> 0 <= asz -> asz + 24 <= sz ->
  separated (L1 ++ ((a, taken sz asz) :: remainder a sz asz) ++ L2) /\ separated (L1 ++ remainder a sz asz ++ L2).
Proof.
  intros Hsep Hz Hroom. pose proof Hsep as [Hsp _]. apply Forall_app in Hsp as [_ Hsp]. apply Forall_cons in Hsp as [(Ha & Hs & Hend) _].
  unfold taken, remainder, splits in *. cbn [fst snd] in *.
  destruct (Z.leb_spec (asz + 56) sz) as [Hsplit|Hno]; split; (apply (separated_replace _ (a, sz) _ _ Hsep); [intros y Hy|intros i j y z Hne Hi Hj]).
  all: try (repeat (apply elem_of_cons in Hy as [->|Hy]; [unfold in_space; cbn [fst snd]; lia|]); by apply not_elem_of_nil in Hy).
  all: destruct i as [|[|i]], j as [|[|j]]; try done; simpl in Hi, Hj; simplify_eq; unfold apart; cbn [fst snd]; lia.
Qed.

(** The free list and the block after [take_block]. *)
Lemma take_block_heap m L1 a sz L2 asz : heap_ok m (L1 ++ (a, sz) :: L2) -> 0 < asz -> asz + 24 <= sz ->
  exists m', take_block a (last_addr 0 L1) asz m = (a + 24, m') /\
    heap_ok m' (L1 ++ remainder a sz asz ++ L2) /\
    (exists nx, header m' a (taken sz asz) nx 0) /\
    kernel_heap_used m' = u64 (kernel_heap_used m + 24 + asz).
Proof.
  intros [Hc Hsep] Hz Hroom. pose proof Hsep as [Hsp _]. apply Forall_app in Hsp as [Hsp1 Hsp2].
  apply Forall_cons in Hsp2 as [Hin Hsp2].
  destruct (free_chain_app m L1 (a, sz) L2 _ Hc) as (nx & Hh & Hc2). cbn [fst snd] in Hh.
  pose proof (last_addr_ok _ _ _ _ Hsep) as Hprev. set (prev := last_addr 0 L1) in *.
  destruct (take_block_spec m a sz nx prev asz Hh Hin (chain_head_u64 _ _ _ Hc2 Hsp2) Hz Hroom Hprev)
    as (m' & E & Ha' & Hrem & Hpv & Hother & Hfl & Hused).
  exists m'. split_and!; [done| |by eexists|done].
  assert (forall b bsz, (b, bsz) ∈ L1 ++ L2 -> b <> prev -> same_header m m' b) as Hsame.
  { intros b bsz Hb Hne. destruct (separated_mid _ _ _ _ Hsep Hb) as [Hap (Hb0 & Hbs & _)]. unfold apart in Hap. cbn [fst snd] in *.
    apply Hother; [done| |lia]. destruct (decide (prev = 0)) as [E0|Hp]; [by left|right].
    destruct (last_addr_in L1 prev eq_refl Hp) as [psz Hps].
    destruct (separated_in L1 (a, sz) L2 b bsz prev psz Hsep Hb) as [|[|]]; [set_solver|done|by left|by right]. }
  split; [|by apply remainder_separated; [..|lia|]].
  assert (prev <> 0 -> forall psz, (prev, psz) ∉ L2) as Hp2.
  { intros Hp psz Hin2. destruct (last_addr_in L1 prev eq_refl Hp) as [qsz Hq].
    apply list_elem_of_lookup in Hq as [i Hi]. apply list_elem_of_lookup in Hin2 as [j Hj].
    destruct (separated_headers (L1 ++ (a, sz) :: L2) i (length L1 + S j) (prev, qsz) (prev, psz)) as [Hx|Hx]; cbn [fst] in *; try lia.
    - done.
    - apply lookup_lt_Some in Hi. lia.
    - by apply lookup_app_l_Some.
    - rewrite lookup_app_r by lia. by replace (length L1 + S j - length L1)%nat with (S j) by lia. }
  assert (free_chain m' (if splits sz asz then a + 24 + asz else nx) (remainder a sz asz ++ L2)) as HT.
  { assert (free_chain m' nx L2) as HL2.
    { eapply free_chain_frame; [exact Hc2|]. intros b bsz Hb. apply (Hsame b bsz); [set_solver|].
      intros ->. destruct (decide (prev = 0)) as [E0|Hp]; [|by eapply Hp2].
      rewrite Forall_forall in Hsp2. destruct (Hsp2 _ Hb) as (Hpos & _). cbn [fst] in Hpos. lia. }
    unfold remainder. destruct (splits sz asz) eqn:Es; [|done]. cbn [app free_chain]. split; [done|]. exists nx.
    split; [by apply Hrem|done]. }
  assert (heap_free_list m' = match L1 with [] => if splits sz asz then a + 24 + asz else nx | _ => heap_free_list m end) as ->.
  { rewrite Hfl. destruct (Z.eqb_spec prev 0) as [E0|Hp].
    - destruct L1 as [|[b bsz] L1]; [done|]. exfalso. assert (exists c csz, last ((b, bsz) :: L1) = Some (c, csz)) as (c & csz & El).
      { destruct (last ((b, bsz) :: L1)) as [[c csz]|] eqn:El; [by eexists _, _|]. by apply last_None in El. }
      unfold prev, last_addr in E0. rewrite El in E0. apply last_Some_elem_of in El. rewrite Forall_forall in Hsp1.
      destruct (Hsp1 _ El) as (Hpos & _). cbn [fst] in Hpos. lia.
    - destruct L1; [done|done]. }
  eapply (free_chain_replace m m' a sz _ _ HT L1 _ 0 L2 Hc).
  - intros b bsz Hb. apply (Hsame b bsz). set_solver.
  - intros b bsz bnx Hb -> Hbh. apply (Hpv ltac:(rewrite Forall_forall in Hsp1; destruct (Hsp1 _ Hb) as (Hpos & _); cbn [fst] in Hpos; unfold prev; lia) bsz bnx Hbh).
  - intros i j x y Hne Hi Hj E0.
    destruct (separated_headers (L1 ++ (a, sz) :: L2) i j x y Hsep Hne) as [Hx|Hx]; [by apply lookup_app_l_Some..|lia|lia].
Qed.

(** C3: [kmalloc] is first fit and keeps the heap well formed: on a free list of disjoint blocks it returns
    the payload of the first block large enough, provided that block also has room for a header, and the
    rest of the block goes back in its place when it is at least 56 bytes larger; the block handed out and
    all free blocks stay pairwise disjoint, it holds at least [size] bytes, and it is marked used. *)
Theorem kmalloc_first_fit fuel size m L1 a sz L2 : heap_ok m (L1 ++ (a, sz) :: L2) ->
  0 < size -> size + 15 < 2 ^ 64 ->
  Forall (fun x => snd x < align_size size) L1 -> align_size size + 24 <= sz -> (length L1 < fuel)%nat ->
  exists m', kmalloc fuel size m = Done (a + 24, m') /\
    heap_ok m' (L1 ++ remainder a sz (align_size size) ++ L2) /\
    separated (L1 ++ ((a, taken sz (align_size size)) :: remainder a sz (align_size size)) ++ L2) /\
    (exists nx, header m' a (taken sz (align_size size)) nx 0) /\ size <= taken sz (align_size size) /\
    kernel_heap_used m' = u64 (kernel_heap_used m + 24 + align_size size).
Proof.
  intros Hok Hs Hb Hsm Hroom Hfuel. destruct (align_size_spec size Hs Hb) as [Hal _].
  destruct (take_block_heap m L1 a sz L2 (align_size size) Hok ltac:(lia) Hroom) as (m' & E & Hok' & Hh & Hu).
  exists m'. destruct Hok as [Hc Hsep]. split_and!; [|done| |done| |done].
  - destruct fuel as [|fuel]; [lia|]. cbn [kmalloc]. destruct (Z.eqb_spec size 0); [lia|].
    rewrite (search_first_fit (align_size size) a sz L2 m ltac:(lia) L1 (heap_free_list m) 0 _ Hc Hsep Hsm Hfuel). by rewrite E.
  - apply remainder_separated; [done|lia|done].
  - unfold taken, splits. destruct (Z.leb_spec (align_size size + 56) sz); lia.
Qed.

(** ** A booted kernel: 64 pages from 1 MB on, the heap in place *)
Definition no_memory : mm := mk_mm ∅ 0 0 0 0 0 0 0 0 0 0 0 0 0 0.
Definition booted : mm := init_kernel_heap (pmm_init [mk_desc EfiConventionalMemory 0x100000 64] no_memory).

Definition boot_block : block := (0x100000 + 63 * 4096, 65512).

Lemma booted_ok : heap_ok booted [boot_block].
Proof.
  split; [split; [by vm_compute|exists 0; by vm_compute]|]. split.
  - repeat constructor; unfold in_space, boot_block; cbn [fst snd]; lia.
  - intros [|i] [|j] x y Hne Hi Hj; done.
Qed.

Lemma kmalloc_first_fit_witness :
  exists m', kmalloc 1 100 booted = Done (fst boot_block + 24, m') /\
    heap_ok m' ([] ++ remainder (fst boot_block) (snd boot_block) (align_size 100) ++ []) /\
    separated ([] ++ ((fst boot_block, taken (snd boot_block) (align_size 100)) ::
      remainder (fst boot_block) (snd boot_block) (align_size 100)) ++ []) /\
    (exists nx, header m' (fst boot_block) (taken (snd boot_block) (align_size 100)) nx 0) /\
    100 <= taken (snd boot_block) (align_size 100) /\
    kernel_heap_used m' = u64 (kernel_heap_used booted + 24 + align_size 100).
Proof.
  apply (kmalloc_first_fit 1 100 booted [] (fst boot_block) (snd boot_block) []).
  - exact booted_ok.
  - lia.
  - lia.
  - constructor.
  - vm_compute. discriminate.
  - cbn. lia.
Defined.

(** ** Reusing a freed block of the same size

    [split_block] computes [block->size - size - 24] in [size_t]; when the block
    is large enough but leaves no room for a header the difference wraps to
    almost 2^64 and a header is written over what follows the block. *)

(** The size the bogus block gets: [2^64] less what is missing for a header. *)
Definition wrapped_size (sz asz : Z) : Z := 2 ^ 64 - 24 + (sz - asz).

Lemma take_block_exact m a sz nx asz : header m a sz nx 1 -> in_space (a, sz) -> is_u64 nx ->
  0 < asz <= sz -> sz < asz + 24 -> a + 24 + asz < 2 ^ 64 ->
  exists m', take_block a 0 asz m = (a + 24, m') /\ heap_free_list m' = a + 24 + asz /\
    header m' (a + 24 + asz) (wrapped_size sz asz) nx 1 /\ kernel_heap_size m' = kernel_heap_size m.
Proof.
  intros (Hsz & Hnx & Hfr & Hmg) (Ha & Hs0 & Hsp) Hnu Hz Hroom Hend. cbn [fst snd] in *. unfold take_block, split_block.
  rewrite Hsz, Hnx. unfold HEAP_BLOCK_HEADER_SIZE, MIN_BLOCK_SIZE.
  assert (u64 (sz - asz - 24) = wrapped_size sz asz) as ->.
  { unfold wrap, wrapped_size. symmetry. apply (Z.mod_unique_pos _ _ (-1)); lia. }
  unfold wrapped_size. destruct (Z.geb_spec (2 ^ 64 - 24 + (sz - asz)) 32); [|lia].
  rewrite !wrap_small by lia. cbn [c_true negb Z.eqb]. eexists. split; [done|]. unfold new_header, header. split_and!; hb_fields; done.
Qed.

Lemma kmalloc_first_block fuel size m a sz nx : heap_free_list m = a -> 0 < a -> header m a sz nx 1 -> 0 < size -> align_size size <= sz ->
  kmalloc (S fuel) size m = Done (take_block a 0 (align_size size) m).
Proof.
  intros Hl Ha (S1 & S2 & S3 & S4) Hs Hfit. cbn [kmalloc kmalloc_search]. destruct (Z.eqb_spec size 0); [lia|]. rewrite Hl.
  destruct (Z.eqb_spec a 0); [lia|]. rewrite S1, S3, S4. cbn [negb Z.eqb HEAP_MAGIC Pos.eqb c_true andb].
  destruct (Z.geb_spec sz (align_size size)); [|lia]. by destruct (take_block a 0 (align_size size) m).
Qed.


(** 100 bytes allocated, freed and allocated again. *)
Definition reused : mm :=
  match (let* (p, m) := kmalloc 50 100 booted in kfree 50 p m) with Done m => m | _ => no_memory end.

Lemma reused_ok : heap_ok reused [(fst boot_block, 112); (fst boot_block + 136, 65376)].
Proof.
  split; [split; [by vm_compute|eexists; split; [by vm_compute|split; [by vm_compute|exists 0; by vm_compute]]]|]. split.
  - repeat constructor; unfold in_space, boot_block; cbn [fst snd]; lia.
  - intros [|[|i]] [|[|j]] x y Hne Hi Hj; try done; injection Hi as <-; injection Hj as <-; unfold apart; cbn; lia.
Qed.


(** ** Freeing two neighbours in address order

    [coalesce_blocks] merges a block with its free neighbour and takes over the
    neighbour's [next], which here is the block itself. *)
Definition neighbours_run : outcome mm :=
  let* (a, m) := kmalloc 50 100 booted in
  let* (b, m) := kmalloc 50 100 m in
  let* (c, m) := kmalloc 50 100 m in
  let* (d, m) := kmalloc 50 100 m in
  let* m := kfree 50 a m in
  kfree 50 b m.

Definition is_done {A} (o : outcome A) : bool := match o with Done _ => true | _ => false end.

Lemma outcome_done {A} (o : outcome A) d : is_done o = true -> o = Done (match o with Done a => a | _ => d end).
Proof. by destruct o. Qed.

Definition neighbours_freed : mm := match neighbours_run with Done m => m | _ => no_memory end.

Lemma search_self_loop size c m : c <> 0 -> hb_magic m c = HEAP_MAGIC -> hb_next m c = c -> hb_size m c < size ->
  forall fuel prev, kmalloc_search fuel size c prev m = OutOfFuel.
Proof.
  intros Hc Hm Hn Hs. induction fuel as [|fuel IH]; intros prev; cbn [kmalloc_search]; [done|].
  destruct (Z.eqb_spec c 0); [done|]. rewrite Hm, Hn. cbn [negb Z.eqb HEAP_MAGIC Pos.eqb].
  destruct (Z.geb_spec (hb_size m c) size); [lia|]. rewrite andb_false_r. apply IH.
Qed.

Lemma kmalloc_self_loop m h c size : heap_free_list m = h -> h <> 0 -> hb_magic m h = HEAP_MAGIC ->
  hb_size m h < align_size size -> hb_next m h = c -> c <> 0 -> hb_magic m c = HEAP_MAGIC -> hb_next m c = c ->
  hb_size m c < align_size size -> size <> 0 -> forall fuel, kmalloc fuel size m = OutOfFuel.
Proof.
  intros Hh Hh0 Hhm Hhs Hhn Hc0 Hcm Hcn Hcs Hs [|fuel]; [done|]. cbn [kmalloc kmalloc_search].
  destruct (Z.eqb_spec size 0); [done|]. rewrite Hh, Hhm, Hhn. destruct (Z.eqb_spec h 0); [done|].
  cbn [negb Z.eqb HEAP_MAGIC Pos.eqb]. destruct (Z.geb_spec (hb_size m h) (align_size size)); [lia|].
  rewrite andb_false_r, search_self_loop by done. done.
Qed.

Definition loop_block : Z := fst boot_block.
Definition loop_head : Z := fst boot_block + 136.

Lemma neighbours_fields :
  (heap_free_list neighbours_freed, hb_magic neighbours_freed loop_head, hb_size neighbours_freed loop_head,
   hb_next neighbours_freed loop_head, hb_magic neighbours_freed loop_block, hb_next neighbours_freed loop_block,
   hb_size neighbours_freed loop_block) = (loop_head, HEAP_MAGIC, 112, loop_block, HEAP_MAGIC, loop_block, 248).
Proof. vm_compute. reflexivity. Qed.

(** After two neighbouring blocks are freed in address order the free list ends in a block that points to
    itself: the next [kmalloc] that does not fit one of them never returns, whatever the fuel. *)
Theorem kfree_neighbours_loop :
  neighbours_run = Done neighbours_freed /\ forall fuel, kmalloc fuel 1000 neighbours_freed = OutOfFuel.
Proof.
  split; [apply outcome_done; vm_compute; reflexivity|].
  pose proof neighbours_fields as E. generalize dependent neighbours_freed. intros m E.
  injection E as E1 E2 E3 E4 E5 E6 E7. change (align_size 1000) with 1008 in *.
  apply (kmalloc_self_loop m loop_head loop_block 1000); change (align_size 1000) with 1008; try done; lia.
Qed.

End MemHeap.
