(* ===== verification/Asm.v ===== *)
(** * The in-kernel assembler (src/kernel/assembler/asm.c, includes/asm.h)

    The assembler context, the byte encoders, the operand parsers, and
    [asm_line] / [asm_program]. Strings are lists of character codes, read as 0
    past their end; [error_msg] holds the text of the message. *)
From Stdlib Require Import ZArith Lia String Ascii.
From stdpp Require Import base numbers list.
From S2P Require Import Prelude CStr.
Local Open Scope Z_scope.
Local Open Scope arr_scope.

Module Asm.

(** A C string literal. *)
Definition lit (s : string) : list Z := map (fun c => Z.of_nat (nat_of_ascii c)) (list_ascii_of_string s).

Definition MAX_ASM_SIZE : Z := 4096.
Record asm_context := mk_ctx { code : list Z; size : Z; error : Z; error_msg : list Z }.

Definition asm_init (ctx : asm_context) : asm_context := mk_ctx (replicate 4096 0) 0 0 [].

(** At most 255 characters of the message. *)
Definition asm_error (msg : list Z) (ctx : asm_context) : asm_context :=
  mk_ctx (code ctx) (size ctx) 1 (take 255 msg).

Definition asm_emit (byte : Z) (ctx : asm_context) : asm_context :=
  if size ctx >=? MAX_ASM_SIZE then asm_error (lit "Code size exceeded") ctx
  else mk_ctx (<[Z.to_nat (size ctx) := u8 byte]> (code ctx)) (size ctx + 1) (error ctx) (error_msg ctx).

Definition asm_emit_bytes (bytes : list Z) (ctx : asm_context) : asm_context :=
  foldl (fun ctx b => asm_emit b ctx) ctx bytes.

(** [(v >> (i * 8)) & 0xFF] for [i] below [n]. *)
Definition imm_bytes (n : nat) (v : Z) : list Z :=
  map (fun i => Z.land (Z.shiftr v (Z.of_nat i * 8)) 255) (seq 0 n).

(** ** Encoders *)

(** REX.W, opcode, ModRM with both registers. *)
Definition rr_form (op dst src : Z) : asm_context -> asm_context :=
  let rex := 0x48 in
  let '(rex, src) := if src >=? 8 then (Z.lor rex 4, src - 8) else (rex, src) in
  let '(rex, dst) := if dst >=? 8 then (Z.lor rex 1, dst - 8) else (rex, dst) in
  asm_emit_bytes [rex; op; Z.lor (Z.lor 0xC0 (Z.shiftl src 3)) dst].

(** REX.W, opcode, ModRM with an opcode extension [ext] and one register, then [tail]. *)
Definition r_form (op ext reg : Z) (tail : list Z) : asm_context -> asm_context :=
  let rex := 0x48 in
  let '(rex, reg) := if reg >=? 8 then (Z.lor rex 1, reg - 8) else (rex, reg) in
  asm_emit_bytes ([rex; op; Z.lor ext reg] ++ tail).

(** An optional REX.B and a one-byte opcode with the register. *)
Definition o_form (op reg : Z) (ctx : asm_context) : asm_context :=
  let '(ctx, reg) := if reg >=? 8 then (asm_emit 0x41 ctx, reg - 8) else (ctx, reg) in
  asm_emit (Z.lor op reg) ctx.

Definition asm_call_rel32 (offset : Z) (ctx : asm_context) : asm_context :=
  asm_emit_bytes (0xE8 :: imm_bytes 4 offset) ctx.
Definition asm_call_reg (reg : Z) := r_form 0xFF 0xD0 reg [].
Definition asm_mov_rax_imm64 (imm : Z) := asm_emit_bytes ([0x48; 0xB8] ++ imm_bytes 8 imm).
Definition asm_mov_reg_imm32 (reg imm : Z) := r_form 0xC7 0xC0 reg (imm_bytes 4 imm).
Definition asm_mov_reg_reg (dst src : Z) := rr_form 0x89 dst src.
Definition asm_add_reg_imm8 (reg imm : Z) := r_form 0x83 0xC0 reg [imm].
Definition asm_add_reg_reg (dst src : Z) := rr_form 0x01 dst src.
Definition asm_sub_reg_imm8 (reg imm : Z) := r_form 0x83 0xE8 reg [imm].
Definition asm_sub_reg_reg (dst src : Z) := rr_form 0x29 dst src.
Definition asm_xor_reg_reg (dst src : Z) := rr_form 0x31 dst src.
Definition asm_or_reg_reg (dst src : Z) := rr_form 0x09 dst src.
Definition asm_and_reg_reg (dst src : Z) := rr_form 0x21 dst src.
Definition asm_cmp_reg_imm8 (reg imm : Z) := r_form 0x83 0xF8 reg [imm].
Definition asm_cmp_reg_reg (dst src : Z) := rr_form 0x39 dst src.
Definition asm_push_reg (reg : Z) := o_form 0x50 reg.
Definition asm_pop_reg (reg : Z) := o_form 0x58 reg.
Definition asm_syscall := asm_emit_bytes [0x0F; 0x05].
Definition asm_ret := asm_emit 0xC3.
Definition asm_nop := asm_emit 0x90.
Definition asm_inc_reg (reg : Z) := r_form 0xFF 0xC0 reg [].
Definition asm_dec_reg (reg : Z) := r_form 0xFF 0xC8 reg [].
Definition asm_neg_reg (reg : Z) := r_form 0xF7 0xD8 reg [].
Definition asm_not_reg (reg : Z) := r_form 0xF7 0xD0 reg [].
Definition asm_shl_reg_imm8 (reg imm : Z) := r_form 0xC1 0xE0 reg [imm].
Definition asm_shr_reg_imm8 (reg imm : Z) := r_form 0xC1 0xE8 reg [imm].

(** ** Operands *)
Definition is_blank (c : Z) : bool := (c =? 32) || (c =? 9).

Fixpoint skip_while (P : Z -> bool) (s : list Z) : list Z :=
  match s with
  | [] => []
  | c :: s' => if P c then skip_while P s' else s
  end.

Definition ends (c : Z) : bool := (c =? 0) || (c =? 32) || (c =? 44).

(** [reg[0] == a && reg[1] == b && reg[2] == c && (end of the name)]. *)
Definition reg_is (reg : list Z) (name : string) : bool :=
  let n := lit name in
  (reg.[0] =? n.[0]) && (reg.[1] =? n.[1]) && (reg.[2] =? n.[2]) && ends (reg.[3]).

Definition between (lo c hi : Z) : bool := (lo <=? c) && (c <=? hi).

Definition parse_register (reg : list Z) : Z :=
  let reg := skip_while is_blank reg in
  if reg_is reg "rax" then 0 else if reg_is reg "rcx" then 1
  else if reg_is reg "rdx" then 2 else if reg_is reg "rbx" then 3
  else if reg_is reg "rsp" then 4 else if reg_is reg "rbp" then 5
  else if reg_is reg "rsi" then 6 else if reg_is reg "rdi" then 7
  else if (reg.[0] =? 114) && between 56 (reg.[1]) 57 && ends (reg.[2]) then 8 + (reg.[1] - 56)
  else if (reg.[0] =? 114) && (reg.[1] =? 49) && between 48 (reg.[2]) 53 && ends (reg.[3]) then 10 + (reg.[2] - 48)
  else if reg_is reg "eax" then 0 else if reg_is reg "ecx" then 1
  else if reg_is reg "edx" then 2 else if reg_is reg "ebx" then 3
  else if reg_is reg "esp" then 4 else if reg_is reg "ebp" then 5
  else if reg_is reg "esi" then 6 else if reg_is reg "edi" then 7
  else -1.

Fixpoint parse_hex (s : list Z) (val : Z) : Z :=
  match s with
  | [] => val
  | c :: s =>
      if between 48 c 57 then parse_hex s (s64 (val * 16 + (c - 48)))
      else if between 97 c 102 then parse_hex s (s64 (val * 16 + (c - 97 + 10)))
      else if between 65 c 70 then parse_hex s (s64 (val * 16 + (c - 65 + 10)))
      else val
  end.

Fixpoint parse_dec (s : list Z) (val : Z) : Z :=
  match s with
  | [] => val
  | c :: s => if between 48 c 57 then parse_dec s (s64 (val * 10 + (c - 48))) else val
  end.

Definition parse_immediate (str : list Z) : Z :=
  let str := skip_while is_blank str in
  let '(neg, str) := if str.[0] =? 45 then (true, drop 1 str) else (false, str) in
  let val := if (str.[0] =? 48) && ((str.[1] =? 120) || (str.[1] =? 88))
             then parse_hex (drop 2 str) 0 else parse_dec str 0 in
  if neg then s64 (- val) else val.

(** ** Lines *)

(** At most [n] characters up to a NUL or a stop character: those taken, and the rest. *)
Fixpoint collect (n : nat) (stop : Z -> bool) (s : list Z) : list Z * list Z :=
  match n, s with
  | S n, c :: s' => if (c =? 0) || stop c then ([], s) else let '(t, r) := collect n stop s' in (c :: t, r)
  | _, _ => ([], s)
  end.

Definition lower (c : Z) : Z := if between 65 c 90 then c + 32 else c.

Definition arg_stop (c : Z) : bool :=
  (c =? 44) || is_blank c || (c =? 59) || (c =? 35) || (c =? 10) || (c =? 13).

(** [strncmp(mnemonic, literal, n) == 0] with [n] the length of the literal: a prefix test. *)
Definition mnemonic_is (m : list Z) (name : string) : bool := bool_decide (take (length (lit name)) m = lit name).

Definition fail (msg : string) (ctx : asm_context) : Z * asm_context := (-1, asm_error (lit msg) ctx).

(** xor, or, and: two registers. *)
Definition line_rr (enc : Z -> Z -> asm_context -> asm_context) (arg1 arg2 : list Z) (ctx : asm_context) : Z * asm_context :=
  let reg1 := parse_register arg1 in
  let reg2 := parse_register arg2 in
  if (reg1 <? 0) || (reg2 <? 0) then fail "Invalid register" ctx else (0, enc reg1 reg2 ctx).

(** add, sub, cmp: a register and a register or an 8-bit immediate. *)
Definition line_ri (msg : string) (rr ri : Z -> Z -> asm_context -> asm_context) (arg1 arg2 : list Z) (ctx : asm_context)
    : Z * asm_context :=
  let reg1 := parse_register arg1 in
  let reg2 := parse_register arg2 in
  if reg1 <? 0 then fail msg ctx else
  if reg2 >=? 0 then (0, rr reg1 reg2 ctx) else
  let imm := parse_immediate arg2 in
  if (imm >=? -128) && (imm <=? 127) then (0, ri reg1 (s8 imm) ctx)
  else fail "Immediate out of range (-128 to 127)" ctx.

Definition line_mov (arg1 arg2 : list Z) (ctx : asm_context) : Z * asm_context :=
  let reg1 := parse_register arg1 in
  let reg2 := parse_register arg2 in
  if reg1 <? 0 then fail "Invalid destination register" ctx else
  if reg2 >=? 0 then (0, asm_mov_reg_reg reg1 reg2 ctx) else
  let imm := parse_immediate arg2 in
  if (reg1 =? 0) && ((imm >? 0x7FFFFFFF) || (imm <? - 2 ^ 31)) then (0, asm_mov_rax_imm64 imm ctx)
  else (0, asm_mov_reg_imm32 reg1 (s32 imm) ctx).

Definition line_call (arg1 : list Z) (ctx : asm_context) : Z * asm_context :=
  let reg := parse_register arg1 in
  if reg >=? 0 then (0, asm_call_reg reg ctx) else (0, asm_call_rel32 (s32 (parse_immediate arg1)) ctx).

(** push, pop, inc, dec, neg, not: one register. *)
Definition line_r (enc : Z -> asm_context -> asm_context) (arg1 : list Z) (ctx : asm_context) : Z * asm_context :=
  let reg := parse_register arg1 in
  if reg <? 0 then fail "Invalid register" ctx else (0, enc reg ctx).

(** shl, shr: a register and a shift count. *)
Definition line_shift (enc : Z -> Z -> asm_context -> asm_context) (arg1 arg2 : list Z) (ctx : asm_context) : Z * asm_context :=
  let reg := parse_register arg1 in
  if reg <? 0 then fail "Invalid register" ctx else
  let imm := parse_immediate arg2 in
  if (imm <? 0) || (imm >? 63) then fail "Shift count out of range (0-63)" ctx else (0, enc reg (s8 imm) ctx).

Definition dispatch (m arg1 arg2 : list Z) (ctx : asm_context) : Z * asm_context :=
  if mnemonic_is m "mov" then line_mov arg1 arg2 ctx
  else if mnemonic_is m "add" then line_ri "Invalid destination register" asm_add_reg_reg asm_add_reg_imm8 arg1 arg2 ctx
  else if mnemonic_is m "sub" then line_ri "Invalid destination register" asm_sub_reg_reg asm_sub_reg_imm8 arg1 arg2 ctx
  else if mnemonic_is m "xor" then line_rr asm_xor_reg_reg arg1 arg2 ctx
  else if mnemonic_is m "or" then line_rr asm_or_reg_reg arg1 arg2 ctx
  else if mnemonic_is m "and" then line_rr asm_and_reg_reg arg1 arg2 ctx
  else if mnemonic_is m "cmp" then line_ri "Invalid register" asm_cmp_reg_reg asm_cmp_reg_imm8 arg1 arg2 ctx
  else if mnemonic_is m "call" then line_call arg1 ctx
  else if mnemonic_is m "push" then line_r asm_push_reg arg1 ctx
  else if mnemonic_is m "pop" then line_r asm_pop_reg arg1 ctx
  else if mnemonic_is m "inc" then line_r asm_inc_reg arg1 ctx
  else if mnemonic_is m "dec" then line_r asm_dec_reg arg1 ctx
  else if mnemonic_is m "neg" then line_r asm_neg_reg arg1 ctx
  else if mnemonic_is m "not" then line_r asm_not_reg arg1 ctx
  else if mnemonic_is m "shl" then line_shift asm_shl_reg_imm8 arg1 arg2 ctx
  else if mnemonic_is m "shr" then line_shift asm_shr_reg_imm8 arg1 arg2 ctx
  else if mnemonic_is m "syscall" then (0, asm_syscall ctx)
  else if mnemonic_is m "ret" then (0, asm_ret ctx)
  else if mnemonic_is m "nop" then (0, asm_nop ctx)
  else fail "Unknown instruction" ctx.

Definition asm_line (line : list Z) (ctx : asm_context) : Z * asm_context :=
  if c_true (error ctx) then (-1, ctx) else
  let line := skip_while is_blank line in
  if (line.[0] =? 0) || (line.[0] =? 59) || (line.[0] =? 35) then (0, ctx) else
  let '(m, rest) := collect 31 is_blank line in
  let rest := skip_while is_blank rest in
  let '(arg1, rest) := collect 63 arg_stop rest in
  let rest := skip_while (fun c => is_blank c || (c =? 44)) rest in
  let '(arg2, _) := collect 63 arg_stop rest in
  dispatch (map lower m) arg1 arg2 ctx.

(** ** Programs *)

(** The decimal digits of the line number, least significant first. *)
Fixpoint num_digits (fuel : nat) (n : Z) : list Z :=
  match fuel with
  | O => []
  | S fuel => (48 + n mod 10) :: (if n / 10 >? 0 then num_digits fuel (n / 10) else [])
  end.

(** "Line <n>: " before the message, cut at 255 characters. *)
Definition located_msg (line_num : Z) (msg : list Z) : list Z :=
  let head := lit "Line " ++ rev (num_digits 11 line_num) ++ lit ": " in
  head ++ take (255 - length head) msg.

(** One line of at most 255 characters per round; running out of rounds is not a result of the code. *)
Fixpoint program_loop (fuel : nat) (program : list Z) (line_num : Z) (ctx : asm_context) : outcome (Z * asm_context) :=
  match fuel with
  | O => OutOfFuel
  | S fuel =>
      if program.[0] =? 0 then Done (0, ctx) else
      let '(line, rest) := collect 255 (fun c => c =? 10) program in
      let rest := if rest.[0] =? 10 then drop 1 rest else rest in
      let '(r, ctx) := asm_line line ctx in
      if r <? 0 then Done (-1, mk_ctx (code ctx) (size ctx) (error ctx) (located_msg line_num (error_msg ctx)))
      else program_loop fuel rest (s32 (line_num + 1)) ctx
  end.

Definition asm_program (program : list Z) (ctx : asm_context) : outcome (Z * asm_context) :=
  program_loop (S (length program)) program 1 ctx.

(** [NULL] and size 0 after an error. *)
Definition asm_get_code (ctx : asm_context) : option (list Z) * Z :=
  if c_true (error ctx) then (None, 0) else (Some (code ctx), size ctx).

End Asm.
