(* ===== verification/AsmProps.v ===== *)
(** * Properties of the assembler

    The encoders against an instruction decoder written from the x86-64
    encoding rules, the invariant of the context under every line and program,
    and where immediates are silently cut. *)
From Stdlib Require Import ZArith Lia String.
From stdpp Require Import base numbers list sets.
From S2P Require Import Prelude CStr Asm.
Import Asm.
Local Open Scope Z_scope.
Local Open Scope arr_scope.

Module AsmProps.

(** ** Instructions and their decoder *)
Inductive alu := MOV | ADD | SUB | XOR | OR | AND | CMP.

Inductive instr :=
| Alu_rr (o : alu) (dst src : Z)
| Alu_ri8 (o : alu) (dst imm : Z)
| Mov_ri32 (dst imm : Z)
| Mov_ri64 (dst imm : Z)
| Call_r (reg : Z)
| Call_rel (offset : Z)
| Push_r (reg : Z) | Pop_r (reg : Z)
| Inc_r (reg : Z) | Dec_r (reg : Z) | Neg_r (reg : Z) | Not_r (reg : Z)
| Shl_ri (reg imm : Z) | Shr_ri (reg imm : Z)
| Syscall | Ret | Nop.

(** A little-endian immediate of [n] bytes, sign extended. *)
Definition take_imm (n : nat) (bs : list Z) (k : Z -> instr) : option (instr * list Z) :=
  if (n <=? length bs)%nat
  then Some (k (swrap (8 * Z.of_nat n) (le_value (take n bs))), drop n bs) else None.

(** Opcode with a ModRM byte in register mode: [reg] is the reg field extended by
    REX.R, [ext] the bare field (an opcode extension), [rm] extended by REX.B. *)
Definition decode_modrm (op reg ext rm : Z) (bs : list Z) : option (instr * list Z) :=
  if op =? 0x89 then Some (Alu_rr MOV rm reg, bs) else if op =? 0x01 then Some (Alu_rr ADD rm reg, bs)
  else if op =? 0x29 then Some (Alu_rr SUB rm reg, bs) else if op =? 0x31 then Some (Alu_rr XOR rm reg, bs)
  else if op =? 0x09 then Some (Alu_rr OR rm reg, bs) else if op =? 0x21 then Some (Alu_rr AND rm reg, bs)
  else if op =? 0x39 then Some (Alu_rr CMP rm reg, bs)
  else if op =? 0x83 then
    if ext =? 0 then take_imm 1 bs (Alu_ri8 ADD rm) else if ext =? 5 then take_imm 1 bs (Alu_ri8 SUB rm)
    else if ext =? 7 then take_imm 1 bs (Alu_ri8 CMP rm) else None
  else if op =? 0xC7 then if ext =? 0 then take_imm 4 bs (Mov_ri32 rm) else None
  else if op =? 0xFF then
    if ext =? 0 then Some (Inc_r rm, bs) else if ext =? 1 then Some (Dec_r rm, bs)
    else if ext =? 2 then Some (Call_r rm, bs) else None
  else if op =? 0xF7 then
    if ext =? 2 then Some (Not_r rm, bs) else if ext =? 3 then Some (Neg_r rm, bs) else None
  else if op =? 0xC1 then
    if ext =? 4 then take_imm 1 bs (Shl_ri rm) else if ext =? 5 then take_imm 1 bs (Shr_ri rm) else None
  else None.

(** After a REX prefix with W set. *)
Definition decode_rex (rex : Z) (bs : list Z) : option (instr * list Z) :=
  let r := 8 * (rex / 4 mod 2) in
  let b := 8 * (rex mod 2) in
  match bs with
  | op :: bs =>
      if between 0xB8 op 0xBF then take_imm 8 bs (Mov_ri64 (op - 0xB8 + b)) else
      match bs with
      | modrm :: bs =>
          if modrm / 64 =? 3
          then decode_modrm op (modrm / 8 mod 8 + r) (modrm / 8 mod 8) (modrm mod 8 + b) bs else None
      | [] => None
      end
  | [] => None
  end.

Definition decode_push (b : Z) (hi : Z) (bs : list Z) : option (instr * list Z) :=
  if between 0x50 b 0x57 then Some (Push_r (b - 0x50 + hi), bs)
  else if between 0x58 b 0x5F then Some (Pop_r (b - 0x58 + hi), bs) else None.

Definition decode (bs : list Z) : option (instr * list Z) :=
  match bs with
  | [] => None
  | b :: bs =>
      if between 0x48 b 0x4F then decode_rex b bs
      else if b =? 0xC3 then Some (Ret, bs) else if b =? 0x90 then Some (Nop, bs)
      else if b =? 0xE8 then take_imm 4 bs Call_rel
      else match bs with
           | c :: rest =>
               if (b =? 0x0F) && (c =? 0x05) then Some (Syscall, rest)
               else if b =? 0x41 then decode_push c 8 rest else decode_push b 0 bs
           | [] => decode_push b 0 bs
           end
  end.

(** ** The encoder of each instruction *)
Definition encoder (i : instr) : asm_context -> asm_context :=
  match i with
  | Alu_rr MOV d s => asm_mov_reg_reg d s
  | Alu_rr ADD d s => asm_add_reg_reg d s
  | Alu_rr SUB d s => asm_sub_reg_reg d s
  | Alu_rr XOR d s => asm_xor_reg_reg d s
  | Alu_rr OR d s => asm_or_reg_reg d s
  | Alu_rr AND d s => asm_and_reg_reg d s
  | Alu_rr CMP d s => asm_cmp_reg_reg d s
  | Alu_ri8 ADD d v => asm_add_reg_imm8 d v
  | Alu_ri8 SUB d v => asm_sub_reg_imm8 d v
  | Alu_ri8 _ d v => asm_cmp_reg_imm8 d v
  | Mov_ri32 d v => asm_mov_reg_imm32 d v
  | Mov_ri64 _ v => asm_mov_rax_imm64 v
  | Call_r r => asm_call_reg r
  | Call_rel o => asm_call_rel32 o
  | Push_r r => asm_push_reg r
  | Pop_r r => asm_pop_reg r
  | Inc_r r => asm_inc_reg r
  | Dec_r r => asm_dec_reg r
  | Neg_r r => asm_neg_reg r
  | Not_r r => asm_not_reg r
  | Shl_ri r v => asm_shl_reg_imm8 r v
  | Shr_ri r v => asm_shr_reg_imm8 r v
  | Syscall => asm_syscall
  | Ret => asm_ret
  | Nop => asm_nop
  end.

Definition is_reg (r : Z) : Prop := 0 <= r < 16.
Definition fits_s (w v : Z) : Prop := - 2 ^ (w - 1) <= v < 2 ^ (w - 1).

(** The instructions the assembler can produce. *)
Definition valid (i : instr) : Prop :=
  match i with
  | Alu_rr _ d s => is_reg d /\ is_reg s
  | Alu_ri8 o d v => (o = ADD \/ o = SUB \/ o = CMP) /\ is_reg d /\ fits_s 8 v
  | Mov_ri32 d v => is_reg d /\ fits_s 32 v
  | Mov_ri64 d v => d = 0 /\ fits_s 64 v
  | Call_rel o => fits_s 32 o
  | Call_r r | Push_r r | Pop_r r | Inc_r r | Dec_r r | Neg_r r | Not_r r => is_reg r
  | Shl_ri r v | Shr_ri r v => is_reg r /\ 0 <= v <= 63
  | Syscall | Ret | Nop => True
  end.

(** ** Emission *)
Record ctx_ok (ctx : asm_context) : Prop := {
  ok_length : length (code ctx) = 4096%nat;
  ok_size : 0 <= size ctx <= 4096;
  ok_bytes : Forall is_byte (code ctx) }.

Lemma emit_ok b ctx : ctx_ok ctx -> ctx_ok (asm_emit b ctx).
Proof.
  intros [H1 H2 H3]. unfold asm_emit, MAX_ASM_SIZE. destruct (Z.geb_spec (size ctx) 4096); [by split|].
  split; cbn [code size]; [by rewrite length_insert|lia|]. apply Forall_insert; [done|]. apply wrap_byte.
Qed.

Lemma emit_bytes_ok bs : forall ctx, ctx_ok ctx -> ctx_ok (asm_emit_bytes bs ctx).
Proof. induction bs as [|b bs IH]; intros ctx Hok; [done|]. apply IH. by apply emit_ok. Qed.

Lemma emit_bytes_spec bs : forall ctx, ctx_ok ctx -> size ctx + Z.of_nat (length bs) <= 4096 ->
  asm_emit_bytes bs ctx =
    mk_ctx (list_inserts (Z.to_nat (size ctx)) (map u8 bs) (code ctx)) (size ctx + Z.of_nat (length bs))
      (error ctx) (error_msg ctx).
Proof.
  induction bs as [|b bs IH]; intros ctx Hok Hl; unfold asm_emit_bytes; cbn [foldl map list_inserts length] in *.
  { destruct ctx. cbn. f_equal. lia. }
  fold (asm_emit_bytes bs (asm_emit b ctx)). rewrite IH; [|by apply emit_ok|].
  - unfold asm_emit, MAX_ASM_SIZE. destruct (Z.geb_spec (size ctx) 4096); [lia|]. cbn [code size error error_msg].
    f_equal; [|lia]. replace (Z.to_nat (size ctx + 1)) with (S (Z.to_nat (size ctx))) by (destruct Hok; lia).
    symmetry. apply list_insert_inserts_lt. lia.
  - unfold asm_emit, MAX_ASM_SIZE. destruct (Z.geb_spec (size ctx) 4096); cbn [size]; lia.
Qed.

(** The bytes of each form. *)
Definition rr_bytes (op dst src : Z) : list Z :=
  [0x48 + (if src >=? 8 then 4 else 0) + (if dst >=? 8 then 1 else 0); op;
   0xC0 + 8 * (if src >=? 8 then src - 8 else src) + (if dst >=? 8 then dst - 8 else dst)].
Definition r_bytes (op ext reg : Z) (tail : list Z) : list Z :=
  [0x48 + (if reg >=? 8 then 1 else 0); op; ext + (if reg >=? 8 then reg - 8 else reg)] ++ tail.
Definition o_bytes (op reg : Z) : list Z := if reg >=? 8 then [0x41; op + (reg - 8)] else [op + reg].

Definition bytes (i : instr) : list Z :=
  match i with
  | Alu_rr MOV d s => rr_bytes 0x89 d s
  | Alu_rr ADD d s => rr_bytes 0x01 d s
  | Alu_rr SUB d s => rr_bytes 0x29 d s
  | Alu_rr XOR d s => rr_bytes 0x31 d s
  | Alu_rr OR d s => rr_bytes 0x09 d s
  | Alu_rr AND d s => rr_bytes 0x21 d s
  | Alu_rr CMP d s => rr_bytes 0x39 d s
  | Alu_ri8 ADD d v => r_bytes 0x83 0xC0 d [v]
  | Alu_ri8 SUB d v => r_bytes 0x83 0xE8 d [v]
  | Alu_ri8 _ d v => r_bytes 0x83 0xF8 d [v]
  | Mov_ri32 d v => r_bytes 0xC7 0xC0 d (imm_bytes 4 v)
  | Mov_ri64 _ v => [0x48; 0xB8] ++ imm_bytes 8 v
  | Call_r r => r_bytes 0xFF 0xD0 r []
  | Call_rel o => 0xE8 :: imm_bytes 4 o
  | Push_r r => o_bytes 0x50 r
  | Pop_r r => o_bytes 0x58 r
  | Inc_r r => r_bytes 0xFF 0xC0 r []
  | Dec_r r => r_bytes 0xFF 0xC8 r []
  | Neg_r r => r_bytes 0xF7 0xD8 r []
  | Not_r r => r_bytes 0xF7 0xD0 r []
  | Shl_ri r v => r_bytes 0xC1 0xE0 r [v]
  | Shr_ri r v => r_bytes 0xC1 0xE8 r [v]
  | Syscall => [0x0F; 0x05]
  | Ret => [0xC3]
  | Nop => [0x90]
  end.

(** A property of registers holds when it holds of the sixteen of them. *)
Lemma reg_cases (P : Z -> Prop) : P 0 -> P 1 -> P 2 -> P 3 -> P 4 -> P 5 -> P 6 -> P 7 -> P 8 -> P 9 -> P 10 -> P 11 ->
  P 12 -> P 13 -> P 14 -> P 15 -> forall r, is_reg r -> P r.
Proof.
  intros H0 H1 H2 H3 H4 H5 H6 H7 H8 H9 H10 H11 H12 H13 H14 H15 r [Hlo Hhi].
  assert (r = 0 \/ r = 1 \/ r = 2 \/ r = 3 \/ r = 4 \/ r = 5 \/ r = 6 \/ r = 7 \/ r = 8 \/ r = 9 \/ r = 10 \/ r = 11 \/
    r = 12 \/ r = 13 \/ r = 14 \/ r = 15) as Hr by lia. naive_solver.
Qed.

Ltac each_reg r := pattern r; apply reg_cases; [..|assumption].

Lemma rr_form_bytes op d s ctx : is_reg d -> is_reg s -> rr_form op d s ctx = asm_emit_bytes (rr_bytes op d s) ctx.
Proof. intros Hd Hs. each_reg d; each_reg s; reflexivity. Qed.

Lemma r_form_bytes op ext r tail ctx : ext ∈ [0xC0; 0xC8; 0xD0; 0xD8; 0xE0; 0xE8; 0xF8] -> is_reg r ->
  r_form op ext r tail ctx = asm_emit_bytes (r_bytes op ext r tail) ctx.
Proof.
  intros He Hr. repeat (apply elem_of_cons in He as [->|He]; [each_reg r; reflexivity|]). by apply not_elem_of_nil in He.
Qed.

Lemma o_form_bytes op r ctx : op ∈ [0x50; 0x58] -> is_reg r -> o_form op r ctx = asm_emit_bytes (o_bytes op r) ctx.
Proof.
  intros He Hr. repeat (apply elem_of_cons in He as [->|He]; [each_reg r; reflexivity|]). by apply not_elem_of_nil in He.
Qed.

Lemma encoder_bytes i ctx : valid i -> encoder i ctx = asm_emit_bytes (bytes i) ctx.
Proof.
  destruct i as [[] d s|o d v|d v|d v|r|o|r|r|r|r|r|r|r v|r v| | |]; cbn [valid encoder bytes]; intros Hv;
    try (destruct Hv as [Hd Hs]; exact (rr_form_bytes _ _ _ ctx Hd Hs));
    try done.
  1: destruct Hv as ([->|[->| ->]] & Hd & _).
  all: first [apply r_form_bytes; [set_solver|first [done|apply Hv]] | apply o_form_bytes; [set_solver|done]].
Qed.

(** ** Immediates *)
Lemma imm_bytes_le n : forall v, imm_bytes n v = le_bytes n v.
Proof.
  unfold imm_bytes. induction n as [|n IH]; intros v; [done|]. cbn [seq map le_bytes]. f_equal.
  - change (Z.of_nat 0 * 8) with 0. rewrite Z.shiftr_0_r. apply land_ff.
  - rewrite <- IH, <- fmap_S_seq, map_map. apply map_ext. intros i. f_equal.
    rewrite Nat2Z.inj_succ. replace (Z.succ (Z.of_nat i) * 8) with (8 + Z.of_nat i * 8) by lia.
    rewrite <- Z.shiftr_shiftr by lia. f_equal. rewrite Z.shiftr_div_pow2 by lia. done.
Qed.

Lemma map_u8_bytes l : Forall is_byte l -> map u8 l = l.
Proof.
  induction 1 as [|b l Hb Hl IH]; cbn [map]; [done|]. rewrite IH. f_equal. apply wrap_small. exact Hb.
Qed.

Lemma swrap_wrap w v : 0 < w -> swrap w (v mod 2 ^ w) = swrap w v.
Proof. intros Hw. unfold swrap. by rewrite Zplus_mod_idemp_l. Qed.

Lemma take_imm_le n v k : fits_s (8 * Z.of_nat n) v -> (0 < n)%nat -> take_imm n (le_bytes n v) k = Some (k v, []).
Proof.
  intros Hv Hn. unfold take_imm. rewrite length_le_bytes, Nat.leb_refl.
  rewrite take_ge, drop_ge by (by rewrite length_le_bytes). do 2 f_equal. f_equal. rewrite le_value_bytes.
  replace (256 ^ Z.of_nat n) with (2 ^ (8 * Z.of_nat n)) by (rewrite Z.pow_mul_r by lia; done).
  rewrite swrap_wrap by lia. apply swrap_small; [lia|exact Hv].
Qed.

Lemma take_imm1 v k : fits_s 8 v -> take_imm 1 [u8 v] k = Some (k v, []).
Proof. intros Hv. exact (take_imm_le 1 v k Hv ltac:(lia)). Qed.

Lemma map_u8_r_bytes op ext r tail : map u8 (r_bytes op ext r tail) = map u8 (r_bytes op ext r []) ++ map u8 tail.
Proof. unfold r_bytes. by rewrite !map_app, app_nil_r. Qed.

Lemma map_u8_imm n v : map u8 (imm_bytes n v) = le_bytes n v.
Proof. rewrite imm_bytes_le. apply map_u8_bytes, le_bytes_byte. Qed.

(** A form with a ModRM extension decodes to what its opcode and tail say. *)
Lemma decode_r_bytes op ext r tail x : (op, ext, x) ∈
    [(0x83, 0xC0, 0); (0x83, 0xE8, 5); (0x83, 0xF8, 7); (0xC7, 0xC0, 0); (0xFF, 0xC0, 0); (0xFF, 0xC8, 1);
     (0xFF, 0xD0, 2); (0xF7, 0xD0, 2); (0xF7, 0xD8, 3); (0xC1, 0xE0, 4); (0xC1, 0xE8, 5)] -> is_reg r ->
  decode (map u8 (r_bytes op ext r tail)) = decode_modrm op x x r (map u8 tail).
Proof.
  intros He Hr. rewrite map_u8_r_bytes.
  repeat (apply elem_of_cons in He as [He|He]; [injection He as -> -> ->; each_reg r; reflexivity|]).
  by apply not_elem_of_nil in He.
Qed.

Lemma decode_bytes i : valid i -> decode (map u8 (bytes i)) = Some (i, []).
Proof.
  destruct i as [[] d s|o d v|d v|d v|r|o|r|r|r|r|r|r|r v|r v| | |]; cbn [valid bytes]; intros Hv;
    try (destruct Hv as [Hd Hs]; each_reg d; each_reg s; reflexivity); try (each_reg r; reflexivity); try reflexivity.
  - destruct Hv as ([->|[->| ->]] & Hd & Hv).
    + rewrite (decode_r_bytes _ _ _ _ 0) by (done || set_solver). by apply take_imm1.
    + rewrite (decode_r_bytes _ _ _ _ 5) by (done || set_solver). by apply take_imm1.
    + rewrite (decode_r_bytes _ _ _ _ 7) by (done || set_solver). by apply take_imm1.
  - destruct Hv as [Hd Hv]. rewrite (decode_r_bytes _ _ _ _ 0) by (done || set_solver). rewrite map_u8_imm.
    apply (take_imm_le 4); [exact Hv|lia].
  - destruct Hv as [-> Hv]. rewrite map_app, map_u8_imm. apply (take_imm_le 8); [exact Hv|lia].
  - cbn [map]. rewrite map_u8_imm. apply (take_imm_le 4); [exact Hv|lia].
  - destruct Hv as [Hr Hv]. rewrite (decode_r_bytes _ _ _ _ 4) by (done || set_solver). apply take_imm1. unfold fits_s. lia.
  - destruct Hv as [Hr Hv]. rewrite (decode_r_bytes _ _ _ _ 5) by (done || set_solver). apply take_imm1. unfold fits_s. lia.
Qed.

Lemma length_bytes i : (1 <= length (bytes i) <= 10)%nat.
Proof.
  destruct i as [[] d s|[] d v|d v|d v|r|o|r|r|r|r|r|r|r v|r v| | |]; cbn [bytes]; try (cbn; lia);
    unfold o_bytes; destruct (r >=? 8); cbn; lia.
Qed.

(** C19: The encoders are right: for every instruction the assembler supports, the bytes its encoder appends
    decode, by the x86-64 encoding rules, to that instruction and nothing more; code already emitted and
    the error state do not change. *)
Theorem asm_encode_decode i ctx : valid i -> ctx_ok ctx -> size ctx + 10 <= 4096 ->
  let ctx' := encoder i ctx in
  ctx_ok ctx' /\ size ctx < size ctx' <= size ctx + 10 /\ error ctx' = error ctx /\
  take (Z.to_nat (size ctx)) (code ctx') = take (Z.to_nat (size ctx)) (code ctx) /\
  decode (take (Z.to_nat (size ctx' - size ctx)) (drop (Z.to_nat (size ctx)) (code ctx'))) = Some (i, []).
Proof.
  intros Hv Hok Hl ctx'. unfold ctx'. rewrite encoder_bytes by done. pose proof (length_bytes i) as Hlen.
  pose proof (emit_bytes_ok (bytes i) ctx Hok) as Hok'. rewrite emit_bytes_spec in * by (done || lia). cbn [code size error].
  destruct Hok as [Hc Hs Hb]. split_and!; [done|lia|lia|done| |].
  - apply take_eq_get; [rewrite length_inserts; lia|lia|]. intros j Hj. apply get_inserts_out. lia.
  - rewrite <- (decode_bytes i Hv). f_equal.
    replace (Z.to_nat (size ctx + Z.of_nat (length (bytes i)) - size ctx)) with (length (bytes i)) by lia.
    apply list_eq. intros j. destruct (decide (j < length (bytes i))%nat).
    + rewrite lookup_take_lt, lookup_drop, list_lookup_inserts by (rewrite ?length_map; lia). f_equal. lia.
    + rewrite lookup_take_ge, lookup_ge_None_2 by (rewrite ?length_map; lia). done.
Qed.

(** ** What any line or program does to the context *)

(** Code is only appended, inside the buffer, and an error is never cleared. *)
Record extends (ctx ctx' : asm_context) : Prop := {
  ex_ok : ctx_ok ctx';
  ex_size : size ctx <= size ctx';
  ex_code : take (Z.to_nat (size ctx)) (code ctx') = take (Z.to_nat (size ctx)) (code ctx);
  ex_error : error ctx <> 0 -> error ctx' <> 0 }.

Lemma extends_refl ctx : ctx_ok ctx -> extends ctx ctx.
Proof. by split. Qed.

Lemma extends_trans ctx1 ctx2 ctx3 : ctx_ok ctx1 -> extends ctx1 ctx2 -> extends ctx2 ctx3 -> extends ctx1 ctx3.
Proof.
  intros [_ Hs1 _] [O2 S2 C2 E2] [O3 S3 C3 E3]. split; [done|lia| |auto].
  assert (Z.to_nat (size ctx1) <= Z.to_nat (size ctx2))%nat as Hle by lia. rewrite <- C2.
  rewrite <- (Nat.min_l _ _ Hle), <- !take_take. by rewrite C3.
Qed.

Lemma error_extends msg ctx : ctx_ok ctx -> extends ctx (asm_error msg ctx).
Proof. intros [H1 H2 H3]. split; [by split|done|done|done]. Qed.

Lemma emit_extends b ctx : ctx_ok ctx -> extends ctx (asm_emit b ctx).
Proof.
  intros Hok. pose proof (emit_ok b ctx Hok) as Hok'. destruct Hok as [H1 H2 H3]. revert Hok'.
  unfold asm_emit, MAX_ASM_SIZE. destruct (Z.geb_spec (size ctx) 4096); intros Hok'.
  - by apply error_extends.
  - split; [done|cbn; lia| |done]. cbn [code]. apply take_insert_ge. lia.
Qed.

Lemma emit_bytes_extends bs : forall ctx, ctx_ok ctx -> extends ctx (asm_emit_bytes bs ctx).
Proof.
  induction bs as [|b bs IH]; intros ctx Hok; [by apply extends_refl|]. change (asm_emit_bytes (b :: bs) ctx)
    with (asm_emit_bytes bs (asm_emit b ctx)). eapply extends_trans; [done|by apply emit_extends|]. by apply IH, emit_ok.
Qed.

(** The shape of every result of a line: the error flag follows the return value. *)
Definition line_result (ctx : asm_context) (res : Z * asm_context) : Prop :=
  extends ctx (snd res) /\ (fst res = 0 \/ fst res = -1 /\ error (snd res) <> 0).

Lemma fail_result msg ctx : ctx_ok ctx -> line_result ctx (fail msg ctx).
Proof. intros Hok. split; [by apply error_extends|]. by right. Qed.

Lemma emit_result ctx ctx' : extends ctx ctx' -> line_result ctx (0, ctx').
Proof. intros He. split; [done|by left]. Qed.

Lemma rr_form_extends op d s ctx : ctx_ok ctx -> extends ctx (rr_form op d s ctx).
Proof. intros Hok. unfold rr_form. destruct (s >=? 8), (d >=? 8); by apply emit_bytes_extends. Qed.

Lemma r_form_extends op e r t ctx : ctx_ok ctx -> extends ctx (r_form op e r t ctx).
Proof. intros Hok. unfold r_form. destruct (r >=? 8); by apply emit_bytes_extends. Qed.

Lemma o_form_extends op r ctx : ctx_ok ctx -> extends ctx (o_form op r ctx).
Proof.
  intros Hok. unfold o_form. destruct (r >=? 8); [|by apply emit_extends].
  eapply extends_trans; [done|by apply emit_extends|]. by apply emit_extends, emit_ok.
Qed.

Create HintDb asm.
#[local] Hint Resolve fail_result emit_result rr_form_extends r_form_extends o_form_extends emit_extends emit_bytes_extends
  extends_refl : asm.

Lemma dispatch_result m a1 a2 ctx : ctx_ok ctx -> line_result ctx (dispatch m a1 a2 ctx).
Proof.
  intros Hok. unfold dispatch, line_mov, line_ri, line_rr, line_call, line_r, line_shift.
  unfold asm_mov_reg_reg, asm_mov_rax_imm64, asm_mov_reg_imm32, asm_add_reg_reg, asm_add_reg_imm8, asm_sub_reg_reg,
    asm_sub_reg_imm8, asm_xor_reg_reg, asm_or_reg_reg, asm_and_reg_reg, asm_cmp_reg_reg, asm_cmp_reg_imm8, asm_call_reg,
    asm_call_rel32, asm_push_reg, asm_pop_reg, asm_inc_reg, asm_dec_reg, asm_neg_reg, asm_not_reg, asm_shl_reg_imm8,
    asm_shr_reg_imm8, asm_syscall, asm_ret, asm_nop.
  repeat match goal with |- line_result _ (if ?b then _ else _) => destruct b end; auto with asm.
Qed.

Lemma asm_line_result line ctx : ctx_ok ctx -> line_result ctx (asm_line line ctx).
Proof.
  intros Hok. unfold asm_line, c_true. destruct (Z.eqb_spec (error ctx) 0) as [He|He]; cbn [negb].
  2: { split; [by apply extends_refl|]. by right. }
  destruct (_ || _ || _); [by apply emit_result, extends_refl|].
  destruct (collect 31 _ _) as [m rest], (collect 63 _ _) as [arg1 rest1], (collect 63 _ _) as [arg2 rest2].
  by apply dispatch_result.
Qed.

Lemma collect_rest n stop s : (length (collect n stop s).2 <= length s)%nat.
Proof.
  revert s. induction n as [|n IH]; intros [|c s]; cbn [collect]; [done..|]. destruct (_ || _); [done|].
  specialize (IH s). destruct (collect n stop s). cbn in *. lia.
Qed.

(** A round takes at least one character: the line's first, or the newline it starts with. *)
Lemma line_consumed program : program.[0] <> 0 ->
  let rest := (collect 255 (fun c => c =? 10) program).2 in
  (length (if (rest.[0] =? 10)%Z then drop 1 rest else rest) < length program)%nat.
Proof.
  destruct program as [|c s]; [done|]. intros Hc. change ((c :: s).[0]) with c in Hc. change 255%nat with (S 254). generalize 254%nat. intros n. cbn [collect].
  destruct (Z.eqb_spec c 0); [done|]. cbn [orb]. destruct (Z.eqb_spec c 10) as [->|].
  { cbn [snd]. change ((10 :: s).[0] =? 10) with true. cbn. rewrite drop_0. lia. }
  pose proof (collect_rest n (fun c => c =? 10) s) as Hl. destruct (collect n _ s) as [t r]. cbn [snd length] in *.
  destruct (_ =? 10); rewrite ?length_drop; lia.
Qed.

Lemma program_loop_result fuel : forall program n ctx, ctx_ok ctx -> (length program < fuel)%nat ->
  exists r, program_loop fuel program n ctx = Done r /\ line_result ctx r.
Proof.
  induction fuel as [|fuel IH]; intros program n ctx Hok Hf; cbn [program_loop]; [lia|].
  destruct (Z.eqb_spec (program.[0]) 0) as [|H0]; [eexists; split; [done|]; by apply emit_result, extends_refl|].
  pose proof (line_consumed program H0) as Hdec. destruct (collect 255 _ _) as [line rest]. cbn [snd] in Hdec.
  pose proof (asm_line_result line ctx Hok) as [He Hr]. destruct (asm_line line ctx) as [r ctx1]. cbn [fst snd] in *.
  destruct (Z.ltb_spec r 0).
  - eexists. split; [done|]. destruct Hr as [->|[_ Herr]]; [lia|]. destruct He as [[O1 O2 O3] S C E]. split; [by split|]. by right.
  - assert (ctx_ok ctx1) as Hok1 by apply He. cbv zeta in *.
    destruct (IH (if rest.[0] =? 10 then drop 1 rest else rest) (s32 (n + 1)) ctx1 Hok1) as (x & Ex & He2 & Hr2); [lia|].
    exists x. split; [done|]. split; [by eapply extends_trans|done].
Qed.

Lemma asm_program_result program ctx : ctx_ok ctx -> exists r, asm_program program ctx = Done r /\ line_result ctx r.
Proof. intros Hok. apply program_loop_result; [done|lia]. Qed.

(** C24: Assembling terminates on every source text and stays inside the 4096-byte buffer: code already emitted is
    kept, the size only grows and never passes 4096, the result is 0 or -1, a failing line leaves the error
    flag set, an error is never cleared, and [asm_get_code] then hands out no code. *)
Theorem asm_program_safe program ctx : ctx_ok ctx ->
  exists r ctx', asm_program program ctx = Done (r, ctx') /\
  extends ctx ctx' /\ (r = 0 \/ r = -1 /\ asm_get_code ctx' = (None, 0)) /\
  (error ctx <> 0 -> asm_get_code ctx' = (None, 0)).
Proof.
  intros Hok. destruct (asm_program_result program ctx Hok) as ([r ctx'] & Er & He & Hr). exists r, ctx'. cbn [fst snd] in *.
  assert (error ctx' <> 0 -> asm_get_code ctx' = (None, 0)) as Hg.
  { intros Hn. unfold asm_get_code, c_true. by destruct (Z.eqb_spec (error ctx') 0). }
  split_and!; [done|done| |].
  - destruct Hr as [->|[-> Hn]]; [by left|right; auto].
  - intros Hn. apply Hg. by apply He.
Qed.

Definition fresh_ctx : asm_context := asm_init (mk_ctx [] 0 0 []).

Lemma fresh_ctx_ok : ctx_ok fresh_ctx.
Proof. split; [done|cbn; lia|]. apply Forall_replicate. unfold is_byte. lia. Qed.

Lemma asm_encode_decode_witness :
  valid (Alu_ri8 CMP 9 (-5)) /\
  let ctx' := encoder (Alu_ri8 CMP 9 (-5)) fresh_ctx in
  ctx_ok ctx' /\ size fresh_ctx < size ctx' <= size fresh_ctx + 10 /\ error ctx' = error fresh_ctx /\
  take (Z.to_nat (size fresh_ctx)) (code ctx') = take (Z.to_nat (size fresh_ctx)) (code fresh_ctx) /\
  decode (take (Z.to_nat (size ctx' - size fresh_ctx)) (drop (Z.to_nat (size fresh_ctx)) (code ctx'))) =
    Some (Alu_ri8 CMP 9 (-5), []).
Proof.
  assert (valid (Alu_ri8 CMP 9 (-5))) as Hv by (cbn; unfold is_reg, fits_s; intuition lia).
  split; [exact Hv|]. apply (asm_encode_decode (Alu_ri8 CMP 9 (-5)) fresh_ctx Hv fresh_ctx_ok). cbn. lia.
Defined.

Lemma asm_program_safe_witness :
  exists r ctx', asm_program (lit "add rax, 500") fresh_ctx = Done (r, ctx') /\
  extends fresh_ctx ctx' /\ (r = 0 \/ r = -1 /\ asm_get_code ctx' = (None, 0)) /\
  (error fresh_ctx <> 0 -> asm_get_code ctx' = (None, 0)).
Proof. apply (asm_program_safe (lit "add rax, 500") fresh_ctx). exact fresh_ctx_ok. Defined.

(** An immediate that does not fit is cut without a message, except for rax: the line
    [mov rcx, 0x123456789] assembles successfully to [mov rcx, 0x23456789]. *)
Theorem asm_mov_imm_truncated :
  let '(r, ctx) := asm_line (lit "mov rcx, 0x123456789") fresh_ctx in
  r = 0 /\ error ctx = 0 /\ parse_immediate (lit "0x123456789") = 0x123456789 /\
  decode (take (Z.to_nat (size ctx)) (code ctx)) = Some (Mov_ri32 1 0x23456789, []).
Proof. vm_compute. repeat split. Qed.

End AsmProps.
