(* ===== verification/Scheduler.v ===== *)
(** * Processes and threads (src/kernel/Processes/scheduler.c, process.c)

    The static tables and variables of the process code are the record
    [kernel]; a pointer to a thread or a process is the index of its slot and
    NULL is [None]. A function that can leave the thread that called it is a
    resumption: [Switched k] has saved the calling thread's context and [k] is
    what the caller still has to do when it is switched to again, [Gone] has
    left without saving it, [Idle k] waits for an interrupt and then goes on
    with [k]. Thread stacks are in the byte memory of Memory.v. *)
From Stdlib Require Import ZArith Lia.
From stdpp Require Import base numbers list.
From S2P Require Import Prelude Memory.
Local Open Scope Z_scope.
Local Open Scope arr_scope.
Local Open Scope outcome_scope.

Module Sched.

(** ** Data *)
Inductive thread_state := THREAD_STATE_READY | THREAD_STATE_RUNNING | THREAD_STATE_BLOCKED | THREAD_STATE_TERMINATED.
Inductive process_state := PROCESS_STATE_READY | PROCESS_STATE_RUNNING | PROCESS_STATE_BLOCKED | PROCESS_STATE_TERMINATED.
#[export] Instance thread_state_eq_dec : EqDecision thread_state.
Proof. solve_decision. Defined.

Definition MAX_PROCESSES : nat := 64.
Definition MAX_THREADS_PER_PROCESS : nat := 16.
Definition MAX_THREADS_GLOBAL : nat := 256.

Record cpu_context := mk_context {
  c_rsp : Z; c_rbp : Z; c_rbx : Z; c_r12 : Z; c_r13 : Z; c_r14 : Z; c_r15 : Z; c_rip : Z; c_rflags : Z; c_cs : Z; c_ss : Z }.
Record deadline_params := mk_deadline {
  runtime : Z; deadline : Z; period : Z; absolute_deadline : Z; remaining_runtime : Z }.
Record thread := mk_thread {
  tid : Z; parent : option nat; state : thread_state; context : cpu_context; stack_base : Z; stack_size : Z;
  stack_pointer : Z; sched : deadline_params; last_scheduled : Z; next : option nat; used : Z; private_data : Z;
  entry_point : Z; sleep_until : Z }.
Record process := mk_process {
  pid : Z; memory_space : Z; pstate : process_state; threads : list (option nat); thread_count : Z; pused : Z; name : list Z }.

(** The registers a context switch saves and restores. *)
Record cpu := mk_cpu { rsp : Z; rbp : Z; rbx : Z; r12 : Z; r13 : Z; r14 : Z; r15 : Z; rflags : Z; rip : Z }.

Inductive job_state := JOB_RUNNING | JOB_STOPPED | JOB_SLEEPING | JOB_DONE.
#[export] Instance job_state_eq_dec : EqDecision job_state.
Proof. solve_decision. Defined.
Record job := mk_job {
  jused : Z; job_id : Z; jpid : Z; jtid : Z; jstate : job_state; is_background : Z; jsleep_until : Z; command : list Z }.

Record kernel := mk_kernel {
  thread_table : list thread; process_table : list process;
  current_thread : option nat; idle_thread : option nat; next_tid : Z; next_pid : Z;
  scheduler_enabled : Z; in_scheduler : Z; ready_queue_head : option nat; ready_queue_tail : option nat;
  kmm : Mem.mm; regs : cpu;
  job_table : list job; next_job_id : Z; jobs_enabled : Z; timer_ticks : Z }.

(** ** Assignments *)
Definition set_threads (v : list thread) (s : kernel) : kernel :=
  mk_kernel v (process_table s) (current_thread s) (idle_thread s) (next_tid s) (next_pid s) (scheduler_enabled s)
    (in_scheduler s) (ready_queue_head s) (ready_queue_tail s) (kmm s) (regs s) (job_table s) (next_job_id s)
    (jobs_enabled s) (timer_ticks s).
Definition set_processes (v : list process) (s : kernel) : kernel :=
  mk_kernel (thread_table s) v (current_thread s) (idle_thread s) (next_tid s) (next_pid s) (scheduler_enabled s)
    (in_scheduler s) (ready_queue_head s) (ready_queue_tail s) (kmm s) (regs s) (job_table s) (next_job_id s)
    (jobs_enabled s) (timer_ticks s).
Definition set_current (v : option nat) (s : kernel) : kernel :=
  mk_kernel (thread_table s) (process_table s) v (idle_thread s) (next_tid s) (next_pid s) (scheduler_enabled s)
    (in_scheduler s) (ready_queue_head s) (ready_queue_tail s) (kmm s) (regs s) (job_table s) (next_job_id s)
    (jobs_enabled s) (timer_ticks s).
Definition set_idle (v : option nat) (s : kernel) : kernel :=
  mk_kernel (thread_table s) (process_table s) (current_thread s) v (next_tid s) (next_pid s) (scheduler_enabled s)
    (in_scheduler s) (ready_queue_head s) (ready_queue_tail s) (kmm s) (regs s) (job_table s) (next_job_id s)
    (jobs_enabled s) (timer_ticks s).
Definition set_next_tid (v : Z) (s : kernel) : kernel :=
  mk_kernel (thread_table s) (process_table s) (current_thread s) (idle_thread s) v (next_pid s) (scheduler_enabled s)
    (in_scheduler s) (ready_queue_head s) (ready_queue_tail s) (kmm s) (regs s) (job_table s) (next_job_id s)
    (jobs_enabled s) (timer_ticks s).
Definition set_next_pid (v : Z) (s : kernel) : kernel :=
  mk_kernel (thread_table s) (process_table s) (current_thread s) (idle_thread s) (next_tid s) v (scheduler_enabled s)
    (in_scheduler s) (ready_queue_head s) (ready_queue_tail s) (kmm s) (regs s) (job_table s) (next_job_id s)
    (jobs_enabled s) (timer_ticks s).
Definition set_enabled (v : Z) (s : kernel) : kernel :=
  mk_kernel (thread_table s) (process_table s) (current_thread s) (idle_thread s) (next_tid s) (next_pid s) v
    (in_scheduler s) (ready_queue_head s) (ready_queue_tail s) (kmm s) (regs s) (job_table s) (next_job_id s)
    (jobs_enabled s) (timer_ticks s).
Definition set_in_scheduler (v : Z) (s : kernel) : kernel :=
  mk_kernel (thread_table s) (process_table s) (current_thread s) (idle_thread s) (next_tid s) (next_pid s)
    (scheduler_enabled s) v (ready_queue_head s) (ready_queue_tail s) (kmm s) (regs s) (job_table s) (next_job_id s)
    (jobs_enabled s) (timer_ticks s).
Definition set_head (v : option nat) (s : kernel) : kernel :=
  mk_kernel (thread_table s) (process_table s) (current_thread s) (idle_thread s) (next_tid s) (next_pid s)
    (scheduler_enabled s) (in_scheduler s) v (ready_queue_tail s) (kmm s) (regs s) (job_table s) (next_job_id s)
    (jobs_enabled s) (timer_ticks s).
Definition set_tail (v : option nat) (s : kernel) : kernel :=
  mk_kernel (thread_table s) (process_table s) (current_thread s) (idle_thread s) (next_tid s) (next_pid s)
    (scheduler_enabled s) (in_scheduler s) (ready_queue_head s) v (kmm s) (regs s) (job_table s) (next_job_id s)
    (jobs_enabled s) (timer_ticks s).
Definition set_kmm (v : Mem.mm) (s : kernel) : kernel :=
  mk_kernel (thread_table s) (process_table s) (current_thread s) (idle_thread s) (next_tid s) (next_pid s)
    (scheduler_enabled s) (in_scheduler s) (ready_queue_head s) (ready_queue_tail s) v (regs s) (job_table s)
    (next_job_id s) (jobs_enabled s) (timer_ticks s).
Definition set_regs (v : cpu) (s : kernel) : kernel :=
  mk_kernel (thread_table s) (process_table s) (current_thread s) (idle_thread s) (next_tid s) (next_pid s)
    (scheduler_enabled s) (in_scheduler s) (ready_queue_head s) (ready_queue_tail s) (kmm s) v (job_table s)
    (next_job_id s) (jobs_enabled s) (timer_ticks s).
Definition set_jobs (v : list job) (s : kernel) : kernel :=
  mk_kernel (thread_table s) (process_table s) (current_thread s) (idle_thread s) (next_tid s) (next_pid s)
    (scheduler_enabled s) (in_scheduler s) (ready_queue_head s) (ready_queue_tail s) (kmm s) (regs s) v
    (next_job_id s) (jobs_enabled s) (timer_ticks s).
Definition set_next_job_id (v : Z) (s : kernel) : kernel :=
  mk_kernel (thread_table s) (process_table s) (current_thread s) (idle_thread s) (next_tid s) (next_pid s)
    (scheduler_enabled s) (in_scheduler s) (ready_queue_head s) (ready_queue_tail s) (kmm s) (regs s) (job_table s) v
    (jobs_enabled s) (timer_ticks s).
Definition set_jobs_enabled (v : Z) (s : kernel) : kernel :=
  mk_kernel (thread_table s) (process_table s) (current_thread s) (idle_thread s) (next_tid s) (next_pid s)
    (scheduler_enabled s) (in_scheduler s) (ready_queue_head s) (ready_queue_tail s) (kmm s) (regs s) (job_table s)
    (next_job_id s) v (timer_ticks s).
Definition set_timer_ticks (v : Z) (s : kernel) : kernel :=
  mk_kernel (thread_table s) (process_table s) (current_thread s) (idle_thread s) (next_tid s) (next_pid s)
    (scheduler_enabled s) (in_scheduler s) (ready_queue_head s) (ready_queue_tail s) (kmm s) (regs s) (job_table s)
    (next_job_id s) (jobs_enabled s) v.

Definition set_state (v : thread_state) (t : thread) : thread :=
  mk_thread (tid t) (parent t) v (context t) (stack_base t) (stack_size t) (stack_pointer t) (sched t)
    (last_scheduled t) (next t) (used t) (private_data t) (entry_point t) (sleep_until t).
Definition set_context (v : cpu_context) (t : thread) : thread :=
  mk_thread (tid t) (parent t) (state t) v (stack_base t) (stack_size t) (stack_pointer t) (sched t)
    (last_scheduled t) (next t) (used t) (private_data t) (entry_point t) (sleep_until t).
Definition set_stack (base size : Z) (t : thread) : thread :=
  mk_thread (tid t) (parent t) (state t) (context t) base size (stack_pointer t) (sched t) (last_scheduled t) (next t)
    (used t) (private_data t) (entry_point t) (sleep_until t).
Definition set_sched (v : deadline_params) (last : Z) (t : thread) : thread :=
  mk_thread (tid t) (parent t) (state t) (context t) (stack_base t) (stack_size t) (stack_pointer t) v last (next t)
    (used t) (private_data t) (entry_point t) (sleep_until t).
Definition set_next (v : option nat) (t : thread) : thread :=
  mk_thread (tid t) (parent t) (state t) (context t) (stack_base t) (stack_size t) (stack_pointer t) (sched t)
    (last_scheduled t) v (used t) (private_data t) (entry_point t) (sleep_until t).
Definition set_used (v : Z) (t : thread) : thread :=
  mk_thread (tid t) (parent t) (state t) (context t) (stack_base t) (stack_size t) (stack_pointer t) (sched t)
    (last_scheduled t) (next t) v (private_data t) (entry_point t) (sleep_until t).
Definition set_rsp (v : Z) (c : cpu_context) : cpu_context :=
  mk_context v (c_rbp c) (c_rbx c) (c_r12 c) (c_r13 c) (c_r14 c) (c_r15 c) (c_rip c) (c_rflags c) (c_cs c) (c_ss c).

(** [table[i].field = ...] for a slot of the table. *)
Definition upd (i : nat) (f : thread -> thread) (s : kernel) : kernel := set_threads (alter f i (thread_table s)) s.
Definition updp (i : nat) (f : process -> process) (s : kernel) : kernel := set_processes (alter f i (process_table s)) s.

(** ** Control *)
Inductive res (A : Type) : Type :=
| Ret (a : A)
| Switched (k : kernel -> kernel * res A)
| Idle (k : kernel -> kernel * res A)
| Gone
| Halted
| Fault
| Unfinished.
Arguments Ret {A} a.
Arguments Switched {A} k.
Arguments Idle {A} k.
Arguments Gone {A}.
Arguments Halted {A}.
Arguments Fault {A}.
Arguments Unfinished {A}.

Definition M (A : Type) : Type := kernel -> kernel * res A.

(** What follows a call that may suspend. *)
Fixpoint after {A B} (r : res A) (f : A -> M B) (s : kernel) : kernel * res B :=
  match r with
  | Ret a => f a s
  | Switched k => (s, Switched (fun s => let '(s, r) := k s in after r f s))
  | Idle k => (s, Idle (fun s => let '(s, r) := k s in after r f s))
  | Gone => (s, Gone)
  | Halted => (s, Halted)
  | Fault => (s, Fault)
  | Unfinished => (s, Unfinished)
  end.
Definition ret {A} (a : A) : M A := fun s => (s, Ret a).
Definition bind {A B} (m : M A) (f : A -> M B) : M B := fun s => let '(s, r) := m s in after r f s.
Definition modify (f : kernel -> kernel) : M unit := fun s => (f s, Ret tt).
Definition halt {A} : M A := fun s => (s, Halted).
Definition lift {A} (f : Mem.mm -> outcome (A * Mem.mm)) : M A := fun s =>
  match f (kmm s) with
  | Done (a, m) => (set_kmm m s, Ret a)
  | OutOfBounds => (s, Fault)
  | OutOfFuel => (s, Unfinished)
  end.
Declare Scope sched_scope.
Notation "'let!' x ':=' m 'in' k" := (bind m (fun x => k))
  (at level 10, x pattern, m at level 100, k at level 200) : sched_scope.
Notation "m ;;; k" := (bind m (fun _ => k)) (at level 100, right associativity) : sched_scope.
Local Open Scope sched_scope.

(** The thread a pointer refers to; using NULL is a fault. *)
Definition deref (p : option nat) : M (nat * thread) := fun s =>
  match p with
  | Some i => match thread_table s !! i with Some t => (s, Ret (i, t)) | None => (s, Fault) end
  | None => (s, Fault)
  end.

Fixpoint first_index {A} (P : A -> bool) (l : list A) : option nat :=
  match l with
  | [] => None
  | x :: l => if P x then Some 0%nat else S <$> first_index P l
  end.

(** ** Processes (process.c) *)
Definition process_init (s : kernel) : kernel :=
  set_processes (replicate MAX_PROCESSES
    (mk_process 0 0 PROCESS_STATE_TERMINATED (replicate MAX_THREADS_PER_PROCESS None) 0 0 (replicate 64 0))) s.

(** [None] is the code's -1. *)
Definition find_free_process (s : kernel) : option nat := first_index (fun p => pused p =? 0) (process_table s).

(** The name, cut at 63 characters and its NUL, written over the old one. *)
Definition copy_name (src old : list Z) : list Z :=
  let k := take 63 src in k ++ 0 :: drop (S (length k)) old.

Definition process_create (n : list Z) (ms : Z) (s : kernel) : Z * kernel :=
  match find_free_process s with
  | None => (-1, s)
  | Some i =>
      let p := next_pid s in
      let s := set_next_pid (u32 (p + 1)) s in
      (s32 p, updp i (fun q => mk_process p ms PROCESS_STATE_READY (threads q) 0 1 (copy_name n (name q))) s)
  end.

Definition get_process (p : Z) (s : kernel) : option nat :=
  first_index (fun q => c_true (pused q) && (pid q =? p)) (process_table s).

(** ** The ready queue *)
Definition null_thread (t : thread) : thread :=
  mk_thread 0 None THREAD_STATE_TERMINATED (context t) 0 0 0 (sched t) (last_scheduled t) None 0 0 0 (sleep_until t).

Definition scheduler_init (s : kernel) : kernel :=
  let s := set_threads (map null_thread (thread_table s)) s in
  let s := set_tail None (set_head None s) in
  set_in_scheduler 0 (set_enabled 0 (set_idle None (set_current None s))).

Definition get_scheduler_enabled (s : kernel) : Z := scheduler_enabled s.
Definition scheduler_disable (s : kernel) : kernel := set_enabled 0 s.
Definition get_current_thread (s : kernel) : option nat := current_thread s.

(** [None] is the code's -1. *)
Definition find_free_thread_slot (s : kernel) : option nat := first_index (fun t => used t =? 0) (thread_table s).

Definition get_thread (i : Z) (s : kernel) : option nat :=
  first_index (fun t => c_true (used t) && (tid t =? i)) (thread_table s).

Definition ready_queue_add (p : option nat) : M unit := fun s =>
  match p with
  | None => (s, Ret tt)
  | Some i =>
      let s := upd i (set_next None) s in
      match ready_queue_head s with
      | None => (set_tail (Some i) (set_head (Some i) s), Ret tt)
      | Some _ =>
          (deref (ready_queue_tail s) ;;; fun s =>
             match ready_queue_tail s with
             | Some l => (set_tail (Some i) (upd l (set_next (Some i)) s), Ret tt)
             | None => (s, Fault)
             end) s
      end
  end.

(** [while (current->next) { ... current = current->next; }] *)
Fixpoint remove_loop (fuel : nat) (i : nat) (p : option nat) : M unit :=
  match fuel with
  | O => fun s => (s, Unfinished)
  | S fuel =>
      let! (c, ct) := deref p in
      match next ct with
      | None => ret tt
      | Some n =>
          if decide (n = i) then
            let! (_, t) := deref (Some i) in
            modify (upd c (set_next (next t))) ;;;
            modify (fun s => if decide (ready_queue_tail s = Some i) then set_tail (Some c) s else s) ;;;
            modify (upd i (set_next None))
          else remove_loop fuel i (Some n)
      end
  end.

Definition ready_queue_remove (p : option nat) : M unit := fun s =>
  match p, ready_queue_head s with
  | Some i, Some h =>
      if decide (h = i) then
        (let! (_, t) := deref (Some i) in
         modify (set_head (next t)) ;;;
         modify (fun s => if decide (ready_queue_tail s = Some i) then set_tail None s else s) ;;;
         modify (upd i (set_next None))) s
      else remove_loop (S MAX_THREADS_GLOBAL) i (Some h) s
  | _, _ => (s, Ret tt)
  end.

(** ** The context switch *)

(** Addresses the linker gives, and what the code at an entry point does. *)
Class Image := {
  thread_wrapper_addr : Z;
  after_switch : Z;
  code_at : Z -> M unit }.

Definition with_rsp (sp : Z) (c : cpu) : cpu :=
  mk_cpu sp (rbp c) (rbx c) (r12 c) (r13 c) (r14 c) (r15 c) (rflags c) (rip c).
Definition push (v : Z) (s : kernel) : kernel :=
  let sp := u64 (rsp (regs s) - 8) in
  set_regs (with_rsp sp (regs s)) (set_kmm (Mem.set_mem (kmm s) (Mem.store64 (Mem.mem (kmm s)) sp v)) s).

(** [mov sp, %rsp; popfq; pop rbx, rbp, r12, r13, r14, r15; ret] *)
Definition restore_frame (sp : Z) (s : kernel) : kernel :=
  let w i := Mem.load64 (Mem.mem (kmm s)) (u64 (sp + 8 * i)) in
  set_regs (mk_cpu (u64 (sp + 64)) (w 2) (w 1) (w 3) (w 4) (w 5) (w 6) (w 0) (w 7)) s.

(** [sti]: the interrupt flag is bit 9. *)
Definition sti (s : kernel) : kernel :=
  let c := regs s in
  set_regs (mk_cpu (rsp c) (rbp c) (rbx c) (r12 c) (r13 c) (r14 c) (r15 c) (Z.lor (rflags c) 0x200) (rip c)) s.

(** The return address of the call and the registers the routine pushes, in that order. *)
Definition frame_words `{Image} (c : cpu) : list Z := [after_switch; r15 c; r14 c; r13 c; r12 c; rbp c; rbx c; rflags c].
Definition save_frame `{Image} (s : kernel) : kernel := foldl (fun s v => push v s) s (frame_words (regs s)).

(** [mov %rsp, 0(%rdi); mov 0(%rsi), %rsp] and the pops. *)
Definition load_context (old new : nat) (s : kernel) : kernel :=
  let s := upd old (fun t => set_context (set_rsp (rsp (regs s)) (context t)) t) s in
  match thread_table s !! new with
  | Some t => restore_frame (c_rsp (context t)) s
  | None => s
  end.

Definition switch_to_thread `{Image} (old new : nat) (s : kernel) : kernel := load_context old new (save_frame s).

(** The frame a new thread starts from: flags, six zero registers and [thread_wrapper] as return address. *)
Definition setup_thread_context `{Image} (i : nat) (s : kernel) : kernel :=
  match thread_table s !! i with
  | None => s
  | Some t =>
      let top := Z.land (u64 (stack_base t + stack_size t)) (2 ^ 64 - 16) in
      let words := [thread_wrapper_addr; 0; 0; 0; 0; 0; 0; 0x202] in
      let '(sp, b) := foldl (fun '(sp, b) v => (u64 (sp - 8), Mem.store64 b (u64 (sp - 8)) v)) (top, Mem.mem (kmm s)) words in
      let s := set_kmm (Mem.set_mem (kmm s) b) s in
      upd i (set_context (mk_context sp 0 0 0 0 0 0 thread_wrapper_addr 0x202 0x08 0x10)) s
  end.

(** ** Scheduling *)
Definition state_is (st : thread_state) (p : option nat) (s : kernel) : bool :=
  match p with
  | Some i => match thread_table s !! i with Some t => bool_decide (state t = st) | None => false end
  | None => false
  end.

(** [if (prev && prev->state == THREAD_STATE_RUNNING) { ... }] *)
Definition requeue (prev : option nat) : M unit := fun s =>
  match prev with
  | Some p => if state_is THREAD_STATE_RUNNING prev s
              then ready_queue_add prev (upd p (set_state THREAD_STATE_READY) s) else (s, Ret tt)
  | None => (s, Ret tt)
  end.

(** Taking the head of the queue. *)
Definition dequeue (n : nat) (t : thread) (s : kernel) : kernel :=
  let s := set_head (next t) s in
  let s := if decide (ready_queue_tail s = Some n) then set_tail None s else s in
  upd n (set_state THREAD_STATE_RUNNING) (upd n (set_next None) s).

Fixpoint schedule `{Image} (fuel : nat) (s : kernel) : kernel * res unit :=
  if scheduler_enabled s =? 0 then (s, Ret tt) else
  if c_true (in_scheduler s) then (s, Ret tt) else
  let s := set_in_scheduler 1 s in
  let prev := current_thread s in
  (requeue prev ;;; fun s =>
   match ready_queue_head s with
   | None =>
       let s := set_in_scheduler 0 s in
       if state_is THREAD_STATE_BLOCKED prev s then
         (set_current None s,
          Idle (fun s => match fuel with
                         | O => (s, Unfinished)
                         | S fuel => schedule fuel (set_in_scheduler 0 s)
                         end))
       else (s, Ret tt)
   | Some n =>
       (let! (n, t) := deref (Some n) in fun s =>
        let s := dequeue n t s in
        match prev with
        | None =>
            let s := set_in_scheduler 0 (set_current (Some n) s) in
            (sti (restore_frame (c_rsp (context t)) s), Gone)
        | Some p =>
            if decide (p = n) then (set_in_scheduler 0 s, Ret tt)
            else
              let s := set_in_scheduler 0 (set_current (Some n) s) in
              (switch_to_thread p n s, Switched (fun s => (sti s, Ret tt)))
        end) s
   end) s.

Definition scheduler_enable `{Image} (fuel : nat) : M unit := fun s =>
  let s := set_enabled 1 s in
  if bool_decide (current_thread s = None /\ ready_queue_head s <> None) then schedule fuel s else (s, Ret tt).

Definition scheduler_tick `{Image} (fuel : nat) : M unit := fun s =>
  if scheduler_enabled s =? 0 then (s, Ret tt) else
  if c_true (in_scheduler s) then (s, Ret tt) else
  match ready_queue_head s with Some _ => schedule fuel s | None => (s, Ret tt) end.

Definition thread_yield `{Image} (fuel : nat) : M unit := fun s =>
  if scheduler_enabled s =? 0 then (s, Ret tt) else
  match current_thread s with
  | None => match ready_queue_head s with Some _ => schedule fuel s | None => (s, Ret tt) end
  | Some _ => schedule fuel s
  end.

(** ** Thread operations *)

(** The fields [thread_create] sets once the stack is there. *)
Definition init_thread (t : Z) (proc : nat) (entry : Z) (th : thread) : thread :=
  mk_thread t (Some proc) THREAD_STATE_READY (context th) (stack_base th) (stack_size th) (stack_pointer th)
    (sched th) (last_scheduled th) None 1 0 entry (sleep_until th).

(** [proc->threads[proc->thread_count++] = thread;] *)
Definition add_thread (i : nat) (p : process) : process :=
  mk_process (pid p) (memory_space p) (pstate p) (<[Z.to_nat (thread_count p) := Some i]> (threads p))
    (u32 (thread_count p + 1)) (pused p) (name p).

Definition thread_create `{Image} (fuel : nat) (pd entry size rt dl per : Z) : M Z := fun s =>
  if entry =? 0 then (s, Ret (-1)) else
  match get_process pd s with
  | None => (s, Ret (-1))
  | Some proc =>
      match process_table s !! proc with
      | None => (s, Fault)
      | Some p =>
          if thread_count p >=? Z.of_nat MAX_THREADS_PER_PROCESS then (s, Ret (-1)) else
          match find_free_thread_slot s with
          | None => (s, Ret (-1))
          | Some slot =>
              (let! base := lift (Mem.kmalloc fuel size) in
               modify (upd slot (set_stack base size)) ;;;
               if base =? 0 then ret (-1) else
               modify (fun s => set_kmm (Mem.set_mem (kmm s) (Mem.store (Mem.mem (kmm s)) base (replicate (Z.to_nat size) 0xCC))) s) ;;;
               (fun s => let t := next_tid s in (upd slot (init_thread t proc entry) (set_next_tid (u32 (t + 1)) s), Ret tt)) ;;;
               modify (setup_thread_context slot) ;;;
               modify (upd slot (set_sched (mk_deadline rt dl per 0 rt) 0)) ;;;
               modify (updp proc (add_thread slot)) ;;;
               ready_queue_add (Some slot) ;;;
               (fun s => if c_true (scheduler_enabled s) && bool_decide (current_thread s = None) then schedule fuel s else (s, Ret tt)) ;;;
               let! (_, t) := deref (Some slot) in
               ret (s32 (tid t))) s
          end
      end
  end.

Definition thread_block `{Image} (fuel : nat) (t : Z) : M unit := fun s =>
  match get_thread t s with
  | None => (s, Ret tt)
  | Some i =>
      if state_is THREAD_STATE_BLOCKED (Some i) s then (s, Ret tt) else
      (modify (upd i (set_state THREAD_STATE_BLOCKED)) ;;;
       ready_queue_remove (Some i) ;;;
       (fun s => if decide (current_thread s = Some i) then schedule fuel s else (s, Ret tt))) s
  end.

Definition thread_unblock (t : Z) : M unit := fun s =>
  match get_thread t s with
  | None => (s, Ret tt)
  | Some i =>
      if state_is THREAD_STATE_BLOCKED (Some i) s
      then ready_queue_add (Some i) (upd i (set_state THREAD_STATE_READY) s) else (s, Ret tt)
  end.

(** The thread leaves its process' list, the later ones move down; an empty process is terminated. *)
Definition drop_thread (c : nat) (p : process) : process :=
  let n := Z.to_nat (thread_count p) in
  let p := match first_index (fun x => bool_decide (x = Some c)) (take n (threads p)) with
           | None => p
           | Some i =>
               let l := for_range i (n - 1) (fun j l => <[j := default None (l !! S j)]> l) (threads p) in
               mk_process (pid p) (memory_space p) (pstate p) (<[(n - 1)%nat := None]> l) (thread_count p - 1) (pused p) (name p)
           end in
  if thread_count p =? 0
  then mk_process (pid p) (memory_space p) PROCESS_STATE_TERMINATED (threads p) (thread_count p) (pused p) (name p)
  else p.

Definition thread_exit `{Image} (fuel : nat) : M unit := fun s =>
  match current_thread s with
  | None => (s, Halted)
  | Some c =>
      (let! (_, t) := deref (Some c) in
       modify (upd c (set_state THREAD_STATE_TERMINATED)) ;;;
       modify (upd c (set_used 0)) ;;;
       (if c_true (stack_base t)
        then lift (fun m => let* m := Mem.kfree fuel (stack_base t) m in Done (tt, m)) ;;;
             modify (upd c (set_stack 0 (stack_size t)))
        else ret tt) ;;;
       modify (match parent t with Some p => updp p (drop_thread c) | None => id end) ;;;
       modify (set_current None) ;;;
       schedule fuel ;;;
       halt) s
  end.

(** The first code a thread runs: its entry point, then [thread_exit]. *)
Definition thread_wrapper `{Image} (fuel : nat) : M unit := fun s =>
  match current_thread s with
  | None => (s, Halted)
  | Some c =>
      (let! (_, t) := deref (Some c) in
       modify sti ;;;
       modify (fun s => set_regs (with_rsp (u64 (Z.land (rsp (regs s)) (2 ^ 64 - 16) - 8)) (regs s)) s) ;;;
       (if c_true (entry_point t) then code_at (entry_point t) else ret tt) ;;;
       thread_exit fuel) s
  end.

End Sched.
