(* ===== verification/SchedProps.v ===== *)
(** * The scheduler keeps a FIFO ready queue (scheduler.c, process.c)

    The abstract scheduler is a list of ready threads and the thread that
    runs. [wf] relates it to the linked list in the thread table, the thread
    states, the thread ids and the processes' thread lists; every operation
    keeps it, and the operations act on the list as a round-robin queue. *)
From Stdlib Require Import ZArith Lia.
From stdpp Require Import base numbers list sets.
From S2P Require Import Prelude Memory Scheduler.
Local Open Scope Z_scope.

Module SchedProps.
Import Sched.

(** ** The linked list *)
Definition nx (tt : list thread) (i : nat) : option nat := tt !! i ≫= next.

Fixpoint chain (tt : list thread) (p : option nat) (q : list nat) : Prop :=
  match q with
  | [] => p = None
  | i :: q => p = Some i /\ is_Some (tt !! i) /\ chain tt (nx tt i) q
  end.

Lemma chain_ext tt tt' p q :
  (forall i, i ∈ q -> is_Some (tt !! i) -> is_Some (tt' !! i) /\ nx tt' i = nx tt i) -> chain tt p q -> chain tt' p q.
Proof.
  revert p. induction q as [|i q IH]; intros p Hx; [done|]. intros (-> & Hi & Hc). cbn.
  destruct (Hx i) as [H1 H2]; [set_solver|done|]. rewrite H2. split_and!; [done..|]. apply IH; [|done]. set_solver.
Qed.

Lemma nx_alter f i j tt : nx (alter f i tt) j = if decide (i = j) then (f <$> tt !! j) ≫= next else nx tt j.
Proof. unfold nx. case_decide; [subst; by rewrite list_lookup_alter_eq|by rewrite list_lookup_alter_ne]. Qed.

Lemma nx_set_next v i j tt : is_Some (tt !! i) ->
  nx (alter (set_next v) i tt) j = if decide (i = j) then v else nx tt j.
Proof. intros [t Ht]. rewrite nx_alter. case_decide; [subst; by rewrite Ht|done]. Qed.

Lemma alter_is_Some (f : thread -> thread) (i j : nat) (tt : list thread) : is_Some (alter f i tt !! j) <-> is_Some (tt !! j).
Proof. rewrite !lookup_lt_is_Some, length_alter. done. Qed.

Lemma chain_set_next_out v i tt p q : i ∉ q -> chain tt p q -> chain (alter (set_next v) i tt) p q.
Proof.
  intros Hi. apply chain_ext. intros j Hj Hs. split; [by apply alter_is_Some|].
  rewrite nx_alter, decide_False; [done|]. intros ->. done.
Qed.

(** Changes of the table that leave the links alone. *)
Lemma chain_alter f i tt p q : (forall t, next (f t) = next t) -> chain tt p q -> chain (alter f i tt) p q.
Proof.
  intros Hf. apply chain_ext. intros j Hj Hs. split; [by apply alter_is_Some|].
  rewrite nx_alter. case_decide; [|done]. unfold nx. destruct (tt !! j); cbn; by rewrite ?Hf.
Qed.

Lemma queue_chain_snoc tt p q l i : NoDup (q ++ [l]) -> is_Some (tt !! i) -> i ∉ q ++ [l] -> nx tt i = None ->
  chain tt p (q ++ [l]) -> chain (alter (set_next (Some i)) l tt) p (q ++ [l; i]).
Proof.
  revert p. induction q as [|j q IH]; intros p Hn Hi Hx Hni; cbn [app chain].
  - intros (-> & Hl & _). assert (l <> i) by set_solver.
    rewrite !nx_set_next, decide_True, decide_False, !alter_is_Some by done. done.
  - intros (-> & Hj & Hc). apply NoDup_cons in Hn as [Hjn Hn].
    rewrite nx_set_next, decide_False, alter_is_Some.
    + split_and!; [done..|]. apply IH; [done..|set_solver|done|done].
    + set_solver.
    + assert (forall p q, chain tt p q -> l ∈ q -> is_Some (tt !! l)) as Hin; [|eapply Hin; [done|set_solver]].
      clear. intros p q. revert p. induction q as [|k q IH]; intros p Hc Hl; [set_solver|].
      destruct Hc as (_ & ? & Hc). apply elem_of_cons in Hl as [->|Hl]; [done|eauto].
Qed.

Lemma chain_in tt p q i : chain tt p q -> i ∈ q -> is_Some (tt !! i).
Proof.
  revert p. induction q as [|k q IH]; intros p Hc Hl; [set_solver|].
  destruct Hc as (_ & ? & Hc). apply elem_of_cons in Hl as [->|Hl]; [done|eauto].
Qed.

(** Tables equal but for the links. *)
Definition same_but_next (tt tt' : list thread) : Prop := set_next None <$> tt = set_next None <$> tt'.

Lemma sbn_alter v i tt : same_but_next tt (alter (set_next v) i tt).
Proof.
  unfold same_but_next. apply list_eq. intros j. rewrite !list_lookup_fmap. destruct (decide (i = j)) as [->|].
  - rewrite list_lookup_alter_eq. by destruct (tt !! j) as [[]|].
  - by rewrite list_lookup_alter_ne.
Qed.

Lemma sbn_trans a b c : same_but_next a b -> same_but_next b c -> same_but_next a c.
Proof. unfold same_but_next. congruence. Qed.

(** ** Adding to and removing from the queue *)

(** The state with another table, head and tail. *)
Definition with_queue (tt : list thread) (hd tl : option nat) (s : kernel) : kernel :=
  set_tail tl (set_head hd (set_threads tt s)).

(** Two states built by assignments from one state are compared field by field. *)
Ltac kfields := unfold with_queue, upd, updp, set_threads, set_processes, set_current, set_idle, set_next_tid, set_next_pid,
  set_enabled, set_in_scheduler, set_head, set_tail, set_kmm, set_regs, set_jobs, set_next_job_id, set_jobs_enabled, set_timer_ticks in *.
Ltac kcbn := cbn [thread_table process_table current_thread idle_thread next_tid next_pid scheduler_enabled in_scheduler
  ready_queue_head ready_queue_tail kmm regs job_table next_job_id jobs_enabled timer_ticks] in *.
Ltac keq := kfields; kcbn.

Record queue_ok (s : kernel) (q : list nat) : Prop := {
  q_chain : chain (thread_table s) (ready_queue_head s) q;
  q_tail : ready_queue_tail s = last q;
  q_nodup : NoDup q }.

Lemma deref_some s i t : thread_table s !! i = Some t -> deref (Some i) s = (s, Ret (i, t)).
Proof. intros Ht. unfold deref. by rewrite Ht. Qed.

Lemma ready_queue_add_spec s q i : queue_ok s q -> is_Some (thread_table s !! i) -> i ∉ q -> exists tt',
  let s' := with_queue tt' (head (q ++ [i])) (Some i) s in
  ready_queue_add (Some i) s = (s', Ret tt) /\ queue_ok s' (q ++ [i]) /\ same_but_next (thread_table s) tt'.
Proof.
  intros [Hc Ht Hn] Hi Hq. unfold ready_queue_add. cbn [upd ready_queue_head set_threads].
  assert (is_Some (alter (set_next None) i (thread_table s) !! i)) as Hi' by by apply alter_is_Some.
  destruct q as [|h q].
  - cbn in Hc. rewrite Hc. eexists. cbn. split; [reflexivity|]. split; [|apply sbn_alter].
    split; [|done|apply NoDup_singleton]. cbn. rewrite nx_set_next, decide_True by done. done.
  - assert (chain (thread_table s) (Some h) (h :: q)) as Hc' by (destruct Hc; done).
    destruct Hc as [Hh _]. rewrite Hh. destruct (exists_last (l := h :: q)) as (q' & l & Hl); [done|].
    rewrite Hl in *. rewrite last_snoc in Ht.
    assert (is_Some (thread_table s !! l)) as Hls by (eapply chain_in; [exact Hc'|set_solver]).
    assert (is_Some (alter (set_next None) i (thread_table s) !! l)) as [tl Htl] by by apply alter_is_Some.
    eexists (alter (set_next (Some i)) l (alter (set_next None) i (thread_table s))). cbv zeta.
    unfold bind, deref. cbn [upd ready_queue_tail set_threads thread_table]. rewrite Ht, Htl.
    cbn [after upd ready_queue_tail set_threads]. rewrite Ht. assert (head ((q' ++ [l]) ++ [i]) = Some h) as Hd by (by rewrite <- Hl).
    rewrite Hd. split; [keq; by rewrite Hh|]. split.
    + split.
      * cbn. rewrite <- app_assoc. cbn. apply queue_chain_snoc; [done|done|done| |].
        { rewrite nx_set_next, decide_True by done. done. }
        { by apply chain_set_next_out. }
      * cbn. by rewrite last_snoc.
      * apply NoDup_app. split_and!; [done|set_solver|apply NoDup_singleton].
    + eapply sbn_trans; apply sbn_alter.
Qed.

Lemma chain_bound tt p q : chain tt p q -> NoDup q -> (length q <= length tt)%nat.
Proof.
  intros Hc Hn. rewrite <- (length_seq (length tt) 0). apply submseteq_length, NoDup_submseteq; [done|].
  intros i Hi. apply elem_of_seq. destruct (chain_in _ _ _ _ Hc Hi) as [t ?%lookup_lt_Some]. lia.
Qed.

Lemma chain_unlink tt p q1 l i q2 : NoDup (q1 ++ l :: i :: q2) -> chain tt p (q1 ++ l :: i :: q2) ->
  chain (alter (set_next None) i (alter (set_next (nx tt i)) l tt)) p (q1 ++ l :: q2).
Proof.
  revert p. induction q1 as [|j q1 IH]; intros p Hn; cbn [app chain].
  - intros (-> & Hl & Hnl & Hi & Hc). assert (l <> i) by (apply NoDup_cons in Hn; set_solver).
    rewrite nx_set_next, decide_False, nx_set_next, decide_True, !alter_is_Some by (done || by apply alter_is_Some).
    split_and!; [done..|]. apply NoDup_cons in Hn as [Hn1 Hn]. apply NoDup_cons in Hn as [Hn2 _].
    apply chain_set_next_out; [done|]. apply chain_set_next_out; [set_solver|done].
  - intros (-> & Hj & Hc). apply NoDup_cons in Hn as [Hjn Hn].
    assert (is_Some (tt !! l)) by (eapply chain_in; [done|set_solver]).
    assert (is_Some (tt !! i)) by (eapply chain_in; [done|set_solver]).
    rewrite nx_set_next, decide_False, nx_set_next, decide_False, !alter_is_Some by (done || (by apply alter_is_Some) || set_solver).
    split_and!; [done..|]. by apply IH.
Qed.

Lemma remove_loop_in s i q2 q1 : forall c fuel, chain (thread_table s) (Some c) (c :: q1 ++ i :: q2) -> i ∉ q1 ->
  (length q1 < fuel)%nat -> exists l, last (c :: q1) = Some l /\
  remove_loop fuel i (Some c) s =
    (with_queue (alter (set_next None) i (alter (set_next (nx (thread_table s) i)) l (thread_table s))) (ready_queue_head s)
       (if decide (ready_queue_tail s = Some i) then Some l else ready_queue_tail s) s, Ret tt).
Proof.
  induction q1 as [|d q1 IH]; intros c fuel (_ & [ct Hct] & Hc) Hq Hf; (destruct fuel as [|fuel]; [lia|]); cbn [remove_loop].
  - exists c. split; [done|]. unfold bind at 1. rewrite (deref_some _ _ _ Hct). cbn [after].
    destruct Hc as (Hn & [t Ht] & _). unfold nx in Hn. rewrite Hct in Hn. cbn in Hn. rewrite Hn, decide_True by done.
    unfold bind at 1. rewrite (deref_some _ _ _ Ht). cbn [after]. unfold bind, modify. cbn [after].
    unfold nx. rewrite Ht. cbn [mbind option_bind]. kfields. kcbn. by case_decide.
  - destruct Hc as (Hn & Hd & Hc). unfold nx in Hn. rewrite Hct in Hn. cbn in Hn.
    destruct (IH d fuel) as (l & Hl & He); [by split_and!|set_solver|cbn in Hf; lia|].
    exists l. split; [done|]. unfold bind at 1. rewrite (deref_some _ _ _ Hct). cbn [after]. rewrite Hn, decide_False by set_solver.
    done.
Qed.

Lemma remove_loop_out s i q : forall c fuel, chain (thread_table s) (Some c) (c :: q) -> i ∉ q ->
  (length q < fuel)%nat -> remove_loop fuel i (Some c) s = (s, Ret tt).
Proof.
  induction q as [|d q IH]; intros c fuel (_ & [ct Hct] & Hc) Hq Hf; (destruct fuel as [|fuel]; [lia|]); cbn [remove_loop];
    unfold bind at 1; rewrite (deref_some _ _ _ Hct); cbn [after].
  - cbn in Hc. unfold nx in Hc. rewrite Hct in Hc. cbn in Hc. by rewrite Hc.
  - destruct Hc as (Hn & Hd & Hc). unfold nx in Hn. rewrite Hct in Hn. cbn in Hn. rewrite Hn, decide_False by set_solver.
    apply IH; [by split_and!|set_solver|cbn in Hf; lia].
Qed.

Lemma last_unlink (q1 q2 : list nat) l i : NoDup (q1 ++ l :: i :: q2) ->
  (if decide (last (q1 ++ l :: i :: q2) = Some i) then Some l else last (q1 ++ l :: i :: q2)) = last (q1 ++ l :: q2).
Proof.
  intros Hn. rewrite !last_app_cons. destruct q2 as [|a q2]; [by rewrite decide_True|].
  rewrite !last_cons_cons. rewrite decide_False; [done|]. intros Hl%last_Some_elem_of.
  apply NoDup_app in Hn as (_ & _ & Hn). apply NoDup_cons in Hn as [_ Hn]. apply NoDup_cons in Hn. set_solver.
Qed.

Lemma nodup_unlink (q1 q2 : list nat) i : NoDup (q1 ++ i :: q2) -> NoDup (q1 ++ q2) /\ i ∉ q1 ++ q2.
Proof.
  intros Hn. assert (NoDup (i :: (q1 ++ q2))) as Hn'%NoDup_cons; [|tauto].
  eapply NoDup_Permutation_proper; [|exact Hn]. by rewrite Permutation_middle.
Qed.

Lemma ready_queue_remove_in s q1 i q2 : queue_ok s (q1 ++ i :: q2) -> length (thread_table s) = 256%nat -> exists tt',
  let s' := with_queue tt' (head (q1 ++ q2)) (last (q1 ++ q2)) s in
  ready_queue_remove (Some i) s = (s', Ret tt) /\ queue_ok s' (q1 ++ q2) /\ same_but_next (thread_table s) tt'.
Proof.
  intros [Hc Ht Hn] Hlen. pose proof (chain_bound _ _ _ Hc Hn) as Hb. destruct (nodup_unlink _ _ _ Hn) as [Hn' Hi].
  unfold ready_queue_remove. destruct q1 as [|h q1]; cbn [app] in *.
  - destruct Hc as (Hh & [t Hit] & Hc). rewrite Hh, decide_True by done.
    exists (alter (set_next None) i (thread_table s)). cbv zeta.
    unfold bind at 1. rewrite (deref_some _ _ _ Hit). cbn [after]. unfold bind, modify. cbn [after].
    unfold nx in Hc. rewrite Hit in Hc. cbn [mbind option_bind] in Hc.
    assert (next t = head q2) as Hnt. { destruct q2; cbn in Hc; [done|]. by destruct Hc. }
    assert ((if decide (ready_queue_tail s = Some i) then None else ready_queue_tail s) = last q2) as Htl.
    { rewrite Ht. destruct q2 as [|a q2]; [by rewrite decide_True|]. rewrite last_cons_cons, decide_False; [done|].
      intros Hl%last_Some_elem_of. done. }
    split; [|split].
    + rewrite <- Htl, Hnt. kfields. kcbn. by case_decide.
    + split; [|done|done]. kfields. kcbn. rewrite <- Hnt. by apply chain_set_next_out.
    + apply sbn_alter.
  - destruct Hc as (Hh & Hhs & Hc). rewrite Hh, decide_False by set_solver.
    destruct (remove_loop_in s i q2 q1 h (S MAX_THREADS_GLOBAL)) as (l & Hl & ->);
      [by split_and!|set_solver|cbn in Hb; rewrite length_app in Hb; cbn in Hb; unfold MAX_THREADS_GLOBAL; lia|].
    eexists. cbv zeta. apply last_Some in Hl as [q' Hl].
    assert (h :: q1 ++ i :: q2 = q' ++ l :: i :: q2) as Heq by (change (h :: q1 ++ i :: q2) with ((h :: q1) ++ i :: q2); rewrite Hl; by rewrite <- app_assoc).
    assert (h :: q1 ++ q2 = q' ++ l :: q2) as Heq' by (change (h :: q1 ++ q2) with ((h :: q1) ++ q2); rewrite Hl; by rewrite <- app_assoc).
    split; [|split].
    + rewrite Ht. rewrite Heq, Heq'. rewrite last_unlink by by rewrite <- Heq. rewrite <- Heq'. cbn [head]. by rewrite Hh.
    + split; [|done|done]. kfields. kcbn. change (head (h :: q1 ++ q2)) with (Some h). rewrite Heq'. apply chain_unlink; [by rewrite <- Heq|]. rewrite <- Heq. by split_and!.
    + eapply sbn_trans; apply sbn_alter.
Qed.

Lemma ready_queue_remove_out s q i : queue_ok s q -> length (thread_table s) = 256%nat -> i ∉ q ->
  ready_queue_remove (Some i) s = (s, Ret tt).
Proof.
  intros [Hc Ht Hn] Hlen Hi. pose proof (chain_bound _ _ _ Hc Hn) as Hb. unfold ready_queue_remove.
  destruct q as [|h q]; cbn in Hc; [by rewrite Hc|]. destruct Hc as (Hh & Hhs & Hc). rewrite Hh, decide_False by set_solver.
  eapply remove_loop_out; [by split_and!|set_solver|]. cbn in Hb. unfold MAX_THREADS_GLOBAL. lia.
Qed.

(** ** The invariant *)
Definition st (tt : list thread) (i : nat) : option thread_state := state <$> tt !! i.
Lemma sbn_st a b i : same_but_next a b -> st a i = st b i.
Proof.
  intros Hs. apply (f_equal (fun l => state <$> l !! i)) in Hs. rewrite !list_lookup_fmap in Hs. unfold st.
  destruct (a !! i), (b !! i); naive_solver.
Qed.
Lemma sbn_length a b : same_but_next a b -> length a = length b.
Proof. intros Hs. apply (f_equal length) in Hs. by rewrite !length_fmap in Hs. Qed.

Lemma st_alter f i j tt : st (alter f i tt) j = if decide (i = j) then (state ∘ f) <$> tt !! j else st tt j.
Proof. unfold st. case_decide; [subst; rewrite list_lookup_alter_eq; by destruct (tt !! j)|by rewrite list_lookup_alter_ne]. Qed.
Lemma st_set_state v i j tt : st (alter (set_state v) i tt) j = if decide (i = j) then (fun _ => v) <$> tt !! j else st tt j.
Proof. rewrite st_alter. case_decide; [|done]. by destruct (tt !! j). Qed.
Lemma st_same f i j tt : (forall t, state (f t) = state t) -> st (alter f i tt) j = st tt j.
Proof. intros Hf. rewrite st_alter. case_decide; [|done]. unfold st. destruct (tt !! j); cbn; by rewrite ?Hf. Qed.
Lemma fmap_alter_same {A} (g : thread -> A) f (i : nat) (tt : list thread) : (forall t, g (f t) = g t) -> g <$> alter f i tt = g <$> tt.
Proof. intros Hf. revert i. induction tt as [|t tt IH]; intros [|i]; f_equal/=; auto. Qed.

(** Tables equal but for links and states. *)
Definition scrub (t : thread) : thread := set_state THREAD_STATE_READY (set_next None t).
Definition still (tt tt' : list thread) : Prop := scrub <$> tt = scrub <$> tt'.

Lemma still_sbn a b : same_but_next a b -> still a b.
Proof.
  intros Hs. apply (f_equal (fmap (set_state THREAD_STATE_READY))) in Hs. rewrite <- !list_fmap_compose in Hs. exact Hs.
Qed.
Lemma still_alter f i tt : (forall t, scrub (f t) = scrub t) -> still tt (alter f i tt).
Proof. intros Hf. symmetry. by apply fmap_alter_same. Qed.
Lemma still_trans a b c : still a b -> still b c -> still a c.
Proof. unfold still. congruence. Qed.
Lemma still_proj {A} (g : thread -> A) a b : (forall t, g (scrub t) = g t) -> still a b -> g <$> a = g <$> b.
Proof.
  intros Hg Hs. apply (f_equal (fmap g)) in Hs. rewrite <- !list_fmap_compose in Hs.
  etrans; [|etrans; [exact Hs|]]; apply list_fmap_ext; intros; cbn; by rewrite Hg.
Qed.
Lemma still_lookup {A} (g : thread -> A) a b i t : (forall t, g (scrub t) = g t) -> still a b -> b !! i = Some t ->
  exists t', a !! i = Some t' /\ g t' = g t.
Proof.
  intros Hg Hs Ht. apply (still_proj g _ _ Hg) in Hs. apply (f_equal (lookup i)) in Hs. rewrite !list_lookup_fmap, Ht in Hs.
  destruct (a !! i) as [t'|]; [|done]. exists t'. cbn in Hs. split; [done|congruence].
Qed.

(** The queue holds exactly the READY threads; [run] is the thread that runs. *)
Record ready_inv (s : kernel) (q : list nat) (run : option nat) : Prop := {
  r_len : length (thread_table s) = 256%nat;
  r_queue : queue_ok s q;
  r_ready : forall i, i ∈ q <-> st (thread_table s) i = Some THREAD_STATE_READY;
  r_run : forall i, st (thread_table s) i = Some THREAD_STATE_RUNNING <-> run = Some i;
  r_used : forall i t, thread_table s !! i = Some t -> used t = 0 <-> state t = THREAD_STATE_TERMINATED }.

Lemma requeue_spec s q run : ready_inv s q run ->
  (run = current_thread s \/ run = None /\ forall c, current_thread s = Some c -> st (thread_table s) c <> Some THREAD_STATE_RUNNING) ->
  exists tt' tl, let s' := with_queue tt' (head (q ++ option_list run)) tl s in
  requeue (current_thread s) s = (s', Ret tt) /\ ready_inv s' (q ++ option_list run) None /\ still (thread_table s) tt' /\
  (run = None -> tt' = thread_table s).
Proof.
  intros [Hl Hq Hr Hrun Hu] Hcur.
  assert (run = None -> requeue (current_thread s) s = (s, Ret tt)) as Hno.
  { intros ->. unfold requeue, state_is. destruct (current_thread s) as [c|] eqn:Ec; [|done].
    destruct Hcur as [|[_ Hcur]]; [done|]. specialize (Hcur c eq_refl). unfold st in Hcur.
    destruct (thread_table s !! c); [|done]. rewrite bool_decide_eq_false_2; [done|]. cbn in Hcur. congruence. }
  destruct run as [p|]; cbn [option_list].
  - destruct Hcur as [<-|[? _]]; [|done]. clear Hno. assert (st (thread_table s) p = Some THREAD_STATE_RUNNING) as Hp by by apply Hrun.
    assert (exists t, thread_table s !! p = Some t /\ state t = THREAD_STATE_RUNNING) as (t & Ht & Hst).
    { unfold st in Hp. destruct (thread_table s !! p); [|done]. eexists; split; [done|]. cbn in Hp. congruence. }
    unfold requeue, state_is. rewrite Ht, bool_decide_eq_true_2 by done.
    destruct (ready_queue_add_spec (upd p (set_state THREAD_STATE_READY) s) q p) as (tt' & He & Hq' & Hs).
    { destruct Hq as [H1 H2 H3]. split; [|done|done]. keq. by apply chain_alter. }
    { keq. apply alter_is_Some. eauto. }
    { rewrite Hr, Hp. done. }
    kfields. kcbn. exists tt', (Some p). split; [exact He|]. split.
    + split; kcbn.
      * rewrite <- (sbn_length _ _ Hs). by rewrite length_alter.
      * exact Hq'.
      * intros i. rewrite <- (sbn_st _ _ _ Hs), st_set_state. case_decide as Hi; [subst; rewrite Ht; set_solver|].
        rewrite elem_of_app, Hr. set_solver.
      * intros i. rewrite <- (sbn_st _ _ _ Hs), st_set_state. case_decide as Hi; [subst; by rewrite Ht|]. rewrite Hrun. naive_solver.
      * intros i t' Ht'. pose proof (sbn_st _ _ i Hs) as Hst'. rewrite st_set_state in Hst'. unfold st in Hst'. rewrite Ht' in Hst'.
        destruct (still_lookup used _ _ i t' (fun _ => eq_refl) (still_trans _ _ _ (still_alter (set_state THREAD_STATE_READY) p _ (fun _ => eq_refl)) (still_sbn _ _ Hs)) Ht') as (t0 & Ht0 & <-).
        rewrite (Hu _ _ Ht0). case_decide; [subst|]; rewrite Ht0 in Hst'; cbn in Hst'; split; intros; congruence.
    + split; [|done]. eapply still_trans; [|by apply still_sbn]. by apply still_alter.
  - rewrite app_nil_r. exists (thread_table s), (ready_queue_tail s). rewrite Hno by done.
    assert (head q = ready_queue_head s) as Hh by (destruct Hq as [Hc _ _]; destruct q; cbn in Hc; naive_solver).
    rewrite Hh. assert (with_queue (thread_table s) (ready_queue_head s) (ready_queue_tail s) s = s) as -> by (by destruct s).
    done.
Qed.

(** The queue, states and use flags are all the invariant reads. *)
Definition links (t : thread) : option nat * thread_state * Z := (next t, state t, used t).
Lemma links_lookup {A} (g : option nat * thread_state * Z -> A) (tt tt' : list thread) (i : nat) : links <$> tt' = links <$> tt ->
  (g ∘ links) <$> tt' !! i = (g ∘ links) <$> tt !! i.
Proof.
  intros Hs. apply (f_equal (fun l => g <$> l !! i)) in Hs. rewrite !list_lookup_fmap, <- !option_fmap_compose in Hs. done.
Qed.

Lemma ready_inv_ext s s' q run : links <$> thread_table s' = links <$> thread_table s ->
  ready_queue_head s' = ready_queue_head s -> ready_queue_tail s' = ready_queue_tail s ->
  ready_inv s q run -> ready_inv s' q run.
Proof.
  intros Hs Hh Ht [Hl [Hc Hlast Hn] Hr Hrun Hu].
  assert (forall i, st (thread_table s') i = st (thread_table s) i) as Hst by (intros i; exact (links_lookup (snd ∘ fst) _ _ i Hs)).
  split.
  - apply (f_equal length) in Hs. rewrite !length_fmap in Hs. congruence.
  - split; rewrite ?Hh, ?Ht; [|done|done]. eapply chain_ext; [|exact Hc]. intros i Hi Hsi.
    pose proof (links_lookup id _ _ i Hs) as Hli. unfold nx.
    destruct (thread_table s !! i) as [t|], (thread_table s' !! i) as [t'|]; try done.
    split; [done|]. cbn in Hli. unfold links in Hli. cbn. congruence.
  - intros i. by rewrite Hst.
  - intros i. by rewrite Hst.
  - intros i t' Ht'. pose proof (links_lookup id _ _ i Hs) as Hli. rewrite Ht' in Hli. destruct (thread_table s !! i) as [t|] eqn:Et; [|done].
    cbn in Hli. unfold links in Hli. injection Hli as H1 H2 H3. rewrite H2, H3. by apply (Hu i).
Qed.

Lemma dequeue_spec s n q t : ready_inv s (n :: q) None -> thread_table s !! n = Some t ->
  ready_inv (dequeue n t s) q (Some n) /\ exists tt' hd tl, dequeue n t s = with_queue tt' hd tl s /\ still (thread_table s) tt'.
Proof.
  intros [Hl [Hc Ht Hn] Hr Hrun Hu] Hnt. destruct Hc as (Hh & _ & Hc). unfold nx in Hc. rewrite Hnt in Hc.
  cbn in Hc. apply NoDup_cons in Hn as [Hnq Hn].
  assert (still (thread_table s) (alter (set_state THREAD_STATE_RUNNING) n (alter (set_next None) n (thread_table s)))) as Hs.
  { eapply still_trans; by apply still_alter. }
  assert ((if decide (ready_queue_tail s = Some n) then None else ready_queue_tail s) = last q) as Htl.
  { rewrite Ht. destruct q as [|a q]; [by rewrite decide_True|]. rewrite last_cons_cons, decide_False; [done|].
    intros Hx%last_Some_elem_of. done. }
  assert (forall j, st (alter (set_state THREAD_STATE_RUNNING) n (alter (set_next None) n (thread_table s))) j
            = if decide (n = j) then Some THREAD_STATE_RUNNING else st (thread_table s) j) as Hst.
  { intros j. rewrite st_set_state, st_same by done. destruct (decide (n = j)); [|done]. subst.
    by rewrite list_lookup_alter_eq, Hnt. }
  assert (dequeue n t s = with_queue (alter (set_state THREAD_STATE_RUNNING) n (alter (set_next None) n (thread_table s)))
                            (next t) (last q) s) as ->.
  { rewrite <- Htl. unfold dequeue. kfields. kcbn. by case_decide. }
  revert Hs Hst. generalize (chain_alter (set_state THREAD_STATE_RUNNING) n _ _ _ (fun _ => eq_refl) (chain_set_next_out None n _ _ _ Hnq Hc)).
  set (T := alter _ n _). intros HT Hs Hst. split; [|by exists T, (next t), (last q)]. split.
  - keq. unfold T. by rewrite !length_alter.
  - by split.
  - intros i. keq. rewrite Hst. destruct (decide (n = i)); [subst; naive_solver|]. rewrite <- Hr. set_solver.
  - intros i. keq. rewrite Hst. destruct (decide (n = i)); [naive_solver|]. rewrite Hrun. naive_solver.
  - intros i t'. keq. intros Ht'. specialize (Hst i). unfold st in Hst. rewrite Ht' in Hst. cbn in Hst.
    destruct (still_lookup used _ _ i t' (fun _ => eq_refl) Hs Ht') as (t0 & Ht0 & <-). rewrite (Hu _ _ Ht0).
    destruct (decide (n = i)); [subst i|rewrite Ht0 in Hst; cbn in Hst; split; congruence].
    assert (state t0 = THREAD_STATE_READY). { assert (st (thread_table s) n = Some THREAD_STATE_READY) as Hx by (apply Hr; set_solver).
      unfold st in Hx. rewrite Ht0 in Hx. cbn in Hx. congruence. }
    split; congruence.
Qed.

(** ** Scheduling *)

(** Only registers and memory differ. *)
Definition machine (s s' : kernel) : Prop := exists r m, s' = set_regs r (set_kmm m s).
Lemma machine_trans a b c : machine a b -> machine b c -> machine a c.
Proof. intros (r & m & ->) (r' & m' & ->). by exists r', m'. Qed.
Lemma machine_refl s : machine s s.
Proof. exists (regs s), (kmm s). by destruct s. Qed.
Lemma machine_push v s : machine s (push v s).
Proof. unfold push. eexists _, _. reflexivity. Qed.
Lemma machine_pushes l s : machine s (foldl (fun s v => push v s) s l).
Proof. revert s. induction l as [|v l IH]; intros s; [apply machine_refl|]. cbn. eapply machine_trans; [apply machine_push|apply IH]. Qed.
Lemma machine_restore sp s : machine s (restore_frame sp s).
Proof. exists (regs (restore_frame sp s)), (kmm s). by destruct s. Qed.
Lemma machine_sti s : machine s (sti s).
Proof. exists (regs (sti s)), (kmm s). by destruct s. Qed.

(** ** Threads entering and leaving the queue *)
Lemma st_lookup tt i t : tt !! i = Some t -> st tt i = Some (state t).
Proof. intros Ht. unfold st. by rewrite Ht. Qed.

Lemma enqueue_inv s q run i f t : ready_inv s q run -> thread_table s !! i = Some t -> i ∉ q -> run <> Some i ->
  state (f t) = THREAD_STATE_READY -> used (f t) <> 0 -> exists tt' hd tl,
  ready_queue_add (Some i) (upd i f s) = (with_queue tt' hd tl s, Ret tt) /\ ready_inv (with_queue tt' hd tl s) (q ++ [i]) run /\
  same_but_next (alter f i (thread_table s)) tt'.
Proof.
  intros [Hl [Hc Ht Hn] Hr Hrun Hu] Hti Hiq Hri Hsf Huf.
  destruct (ready_queue_add_spec (upd i f s) q i) as (tt' & He & Hq' & Hs); [|keq; apply alter_is_Some; eauto|done|].
  { split; [|done|done]. keq. eapply chain_ext; [|exact Hc]. intros j Hj Hsj. split; [by apply alter_is_Some|].
    rewrite nx_alter, decide_False; [done|]. set_solver. }
  assert (forall j, st tt' j = if decide (i = j) then Some THREAD_STATE_READY else st (thread_table s) j) as Hst.
  { intros j. rewrite <- (sbn_st _ _ j Hs). keq. rewrite st_alter. case_decide; [|done]. subst. rewrite Hti. cbn. by rewrite Hsf. }
  eexists tt', _, _. split; [exact He|]. split; [|done]. split.
  - keq. rewrite <- (sbn_length _ _ Hs). by rewrite length_alter.
  - exact Hq'.
  - intros j. keq. rewrite Hst, elem_of_app, Hr. case_decide; set_solver.
  - intros j. keq. rewrite Hst. case_decide; [naive_solver|]. apply Hrun.
  - intros j t' Ht'. keq. specialize (Hst j). rewrite (st_lookup _ _ _ Ht') in Hst.
    destruct (still_lookup used _ _ j t' (fun _ => eq_refl) (still_sbn _ _ Hs) Ht') as (t0 & Ht0 & <-). keq.
    case_decide as Hij; [subst j|].
    + rewrite list_lookup_alter_eq, Hti in Ht0. injection Ht0 as <-. split; [done|congruence].
    + rewrite list_lookup_alter_ne in Ht0 by done. rewrite (Hu _ _ Ht0). rewrite (st_lookup _ _ _ Ht0) in Hst. split; congruence.
Qed.

Lemma retag_inv s q run i t f : ready_inv s q run -> thread_table s !! i = Some t -> i ∉ q ->
  state (f t) = THREAD_STATE_BLOCKED \/ state (f t) = THREAD_STATE_TERMINATED ->
  (used (f t) = 0 <-> state (f t) = THREAD_STATE_TERMINATED) ->
  ready_inv (upd i f s) q (if decide (run = Some i) then None else run).
Proof.
  intros [Hl [Hc Ht Hn] Hr Hrun Hu] Hti Hiq Hsf Huf.
  assert (forall j, st (alter f i (thread_table s)) j = if decide (i = j) then Some (state (f t)) else st (thread_table s) j) as Hst.
  { intros j. rewrite st_alter. case_decide; [|done]. subst. by rewrite Hti. }
  split.
  - keq. by rewrite length_alter.
  - split; [|done|done]. keq. eapply chain_ext; [|exact Hc]. intros j Hj Hsj. split; [by apply alter_is_Some|].
    rewrite nx_alter, decide_False; [done|]. set_solver.
  - intros j. keq. rewrite Hst, Hr. destruct (decide (i = j)) as [->|]; [|done]. rewrite <- Hr. destruct Hsf as [-> | ->]; naive_solver.
  - intros j. keq. rewrite Hst. destruct (decide (i = j)) as [->|].
    + destruct Hsf as [-> | ->]; case_decide; naive_solver.
    + rewrite Hrun. case_decide; naive_solver.
  - intros j t' Ht'. keq. destruct (decide (i = j)) as [->|].
    + rewrite list_lookup_alter_eq, Hti in Ht'. by injection Ht' as <-.
    + rewrite list_lookup_alter_ne in Ht' by done. by apply (Hu j).
Qed.

(** [thread_block]'s first half: the thread leaves the queue wherever it is. *)
Definition without (i : nat) (q : list nat) : list nat := filter (fun j => j <> i) q.

Lemma without_out i q : i ∉ q -> without i q = q.
Proof.
  intros Hi. unfold without. induction q as [|j q IH]; [done|]. rewrite filter_cons, decide_True by set_solver. f_equal. set_solver.
Qed.
Lemma without_in i q1 q2 : i ∉ q1 -> i ∉ q2 -> without i (q1 ++ i :: q2) = q1 ++ q2.
Proof.
  intros H1 H2. assert (without i (q1 ++ i :: q2) = without i q1 ++ without i q2) as ->.
  { unfold without. rewrite filter_app, filter_cons, decide_False by naive_solver. done. }
  by rewrite !without_out.
Qed.

Lemma block_inv s q run i t : ready_inv s q run -> thread_table s !! i = Some t -> used t <> 0 -> exists tt' hd tl,
  ready_queue_remove (Some i) (upd i (set_state THREAD_STATE_BLOCKED) s) = (with_queue tt' hd tl s, Ret tt) /\
  ready_inv (with_queue tt' hd tl s) (without i q) (if decide (run = Some i) then None else run) /\
  same_but_next (alter (set_state THREAD_STATE_BLOCKED) i (thread_table s)) tt'.
Proof.
  intros Hi Hti Hused. destruct (decide (i ∈ q)) as [Hin|Hout].
  - pose proof Hi as [Hl [Hc Ht Hn] Hr Hrun Hu]. apply list_elem_of_split in Hin as (q1 & q2 & ->).
    destruct (nodup_unlink _ _ _ Hn) as [Hn' Hnin].
    destruct (ready_queue_remove_in (upd i (set_state THREAD_STATE_BLOCKED) s) q1 i q2) as (tt' & He & Hq' & Hs).
    { split; [|done|done]. keq. by apply chain_alter. }
    { keq. by rewrite length_alter. }
    assert (run <> Some i) as Hri.
    { intros Hx. apply Hrun in Hx. assert (st (thread_table s) i = Some THREAD_STATE_READY) by (apply Hr, elem_of_app; right; left). congruence. }
    assert (forall j, st tt' j = if decide (i = j) then Some THREAD_STATE_BLOCKED else st (thread_table s) j) as Hst.
    { intros j. rewrite <- (sbn_st _ _ j Hs). keq. rewrite st_set_state. case_decide; [|done]. subst. by rewrite Hti. }
    rewrite decide_False by done. apply not_elem_of_app in Hnin as [Hn1 Hn2]. rewrite without_in by done. eexists tt', _, _. split; [exact He|]. split; [|done]. split.
    + keq. rewrite <- (sbn_length _ _ Hs). by rewrite length_alter.
    + exact Hq'.
    + intros j. keq. rewrite Hst. destruct (decide (i = j)) as [<-|Hij].
      { split; [intros [?|?]%elem_of_app; done|done]. }
      rewrite <- Hr, !elem_of_app, elem_of_cons. clear -Hij. naive_solver.
    + intros j. keq. rewrite Hst. destruct (decide (i = j)) as [<-|]; [split; [done|intros ?; by destruct Hri]|]. apply Hrun.
    + intros j t' Ht'. keq. specialize (Hst j). rewrite (st_lookup _ _ _ Ht') in Hst.
      destruct (still_lookup used _ _ j t' (fun _ => eq_refl) (still_sbn _ _ Hs) Ht') as (t0 & Ht0 & <-). keq.
      case_decide as Hij; [subst j|].
      * rewrite list_lookup_alter_eq, Hti in Ht0. injection Ht0 as <-. split; [done|congruence].
      * rewrite list_lookup_alter_ne in Ht0 by done. rewrite (Hu _ _ Ht0). rewrite (st_lookup _ _ _ Ht0) in Hst. split; congruence.
  - rewrite without_out by done. pose proof (retag_inv s q run i t (set_state THREAD_STATE_BLOCKED) Hi Hti Hout) as Hr.
    specialize (Hr (or_introl eq_refl)). specialize (Hr ltac:(split; [done|discriminate])).
    exists (alter (set_state THREAD_STATE_BLOCKED) i (thread_table s)), (ready_queue_head s), (ready_queue_tail s).
    assert (with_queue (alter (set_state THREAD_STATE_BLOCKED) i (thread_table s)) (ready_queue_head s) (ready_queue_tail s) s
            = upd i (set_state THREAD_STATE_BLOCKED) s) as -> by (by destruct s).
    split; [|split; done]. eapply ready_queue_remove_out; [apply Hr|apply Hr|done].
Qed.

Section WithImage.
Context `{Image}.

Definition ident (t : thread) : Z * Z * option nat * Z := (tid t, used t, parent t, entry_point t).

(** What scheduling leaves alone. *)
Record keeps (s s' : kernel) : Prop := {
  k_ident : ident <$> thread_table s' = ident <$> thread_table s;
  k_procs : process_table s' = process_table s;
  k_tid : next_tid s' = next_tid s;
  k_pid : next_pid s' = next_pid s;
  k_enabled : scheduler_enabled s' = scheduler_enabled s;
  k_jobs : job_table s' = job_table s;
  k_ticks : timer_ticks s' = timer_ticks s }.

Lemma switch_frame p n s : exists f, (forall t, links (f t) = links t) /\ (forall t, ident (f t) = ident t) /\
  machine (upd p f s) (switch_to_thread p n s).
Proof.
  unfold switch_to_thread, save_frame. destruct (machine_pushes (frame_words (regs s)) s) as (r & m & ->). unfold load_context.
  exists (fun t => set_context (set_rsp (rsp r) (context t)) t). split_and!; [done..|].
  eapply (machine_trans _ (upd p (fun t => set_context (set_rsp (rsp r) (context t)) t) (set_regs r (set_kmm m s))));
    [by exists r, m|]. destruct (_ !! n); [apply machine_restore|apply machine_refl].
Qed.

(** The body of [schedule]; [k] is what an interrupt that ends the wait goes on with. *)
Definition sched_pick (k : M unit) (prev : option nat) : M unit := fun s =>
  match ready_queue_head s with
  | None =>
      if state_is THREAD_STATE_BLOCKED prev s then (set_current None (set_in_scheduler 0 s), Idle k)
      else (set_in_scheduler 0 s, Ret tt)
  | Some n =>
      match thread_table s !! n with
      | None => (s, Fault)
      | Some t =>
          match prev with
          | None => (sti (restore_frame (c_rsp (context t)) (set_in_scheduler 0 (set_current (Some n) (dequeue n t s)))), Gone)
          | Some p => if decide (p = n) then (set_in_scheduler 0 (dequeue n t s), Ret tt)
                      else (switch_to_thread p n (set_in_scheduler 0 (set_current (Some n) (dequeue n t s))),
                            Switched (fun s => (sti s, Ret tt)))
          end
      end
  end.

Lemma schedule_eq fuel s s2 : scheduler_enabled s <> 0 -> in_scheduler s = 0 ->
  requeue (current_thread s) (set_in_scheduler 1 s) = (s2, Ret tt) ->
  exists k, schedule fuel s = sched_pick k (current_thread s) s2.
Proof.
  intros He Hi Hr. assert (c_true (in_scheduler s) = false) as Hin' by (by rewrite Hi).
  assert ((scheduler_enabled s =? 0) = false) as He' by (by apply Z.eqb_neq).
  exists (fun s => match fuel with O => (s, Unfinished) | S fuel => schedule fuel (set_in_scheduler 0 s) end).
  assert (forall (f : unit -> M unit), bind (requeue (current_thread s)) f (set_in_scheduler 1 s) = f tt s2) as Hb
    by (intros f; unfold bind; by rewrite Hr).
  destruct fuel as [|fuel]; cbn [schedule]; rewrite He', Hin', Hb; unfold sched_pick; (destruct (ready_queue_head s2) as [n|]; [|done]);
    unfold bind, deref; destruct (thread_table s2 !! n) as [t|]; try done; cbn [after]; by destruct (current_thread s).
Qed.

Lemma keeps_still s s' : still (thread_table s) (thread_table s') -> process_table s' = process_table s ->
  next_tid s' = next_tid s -> next_pid s' = next_pid s -> scheduler_enabled s' = scheduler_enabled s ->
  job_table s' = job_table s -> timer_ticks s' = timer_ticks s -> keeps s s'.
Proof. intros Hs. intros. split; [|done..]. symmetry. by apply still_proj. Qed.

Lemma keeps_trans a b c : keeps a b -> keeps b c -> keeps a c.
Proof. intros [] []. split; congruence. Qed.

Lemma keeps_machine s s' : machine s s' -> keeps s s'.
Proof. intros (r & m & ->). done. Qed.

Lemma ready_inv_machine s s' q run : machine s s' -> ready_inv s q run -> ready_inv s' q run.
Proof. intros (r & m & ->). by apply ready_inv_ext. Qed.

Lemma switch_inv p n s q run : ready_inv s q run -> ready_inv (switch_to_thread p n s) q run /\ keeps s (switch_to_thread p n s) /\
  current_thread (switch_to_thread p n s) = current_thread s /\ in_scheduler (switch_to_thread p n s) = in_scheduler s.
Proof.
  intros Hi. destruct (switch_frame p n s) as (f & Hl & Hid & r & m & ->). split_and!; [|split|done|done]; try done.
  - eapply ready_inv_ext; [..|exact Hi]; [|done..]. keq. by apply fmap_alter_same.
  - keq. by apply fmap_alter_same.
Qed.

(** [schedule] appends the thread that runs to the ready threads and runs the first of them; [r] tells how it returned. *)
Lemma schedule_spec fuel s q run : ready_inv s q run ->
  (run = current_thread s \/ run = None /\ forall c, current_thread s = Some c -> st (thread_table s) c = Some THREAD_STATE_BLOCKED) ->
  scheduler_enabled s <> 0 -> in_scheduler s = 0 ->
  let '(s', r) := schedule fuel s in
  keeps s s' /\ in_scheduler s' = 0 /\
  match q ++ option_list run with
  | [] => ready_inv s' [] None /\ current_thread s' = None /\
          match current_thread s with None => r = Ret tt | Some _ => exists k, r = Idle k end
  | n :: q' => ready_inv s' q' (Some n) /\ current_thread s' = Some n /\
          match current_thread s with
          | None => r = Gone
          | Some c => if decide (c = n) then r = Ret tt else r = Switched (fun s => (sti s, Ret tt))
          end
  end.
Proof.
  intros Hi Hcur He Hin. destruct (schedule fuel s) as [s' r] eqn:Es.
  assert (ready_inv (set_in_scheduler 1 s) q run) as Hi1 by (eapply ready_inv_ext; [..|exact Hi]; done).
  destruct (requeue_spec _ _ _ Hi1) as (tt' & tl & Hrq & Hri & Hst & Hsame).
  { destruct Hcur as [->|[-> Hc]]; [by left|right]. split; [done|]. intros c Hcc. keq. rewrite (Hc c Hcc). done. }
  destruct (schedule_eq fuel s _ He Hin Hrq) as [k Hk]. rewrite Hk in Es. clear Hk Hrq.
  cbv zeta in *. set (s2 := with_queue _ _ _ _) in *.
  assert (keeps s s2) as Hk2 by (by apply keeps_still).
  unfold sched_pick in Es. replace (ready_queue_head s2) with (head (q ++ option_list run)) in Es by done.
  destruct (q ++ option_list run) as [|n q'] eqn:Eq; cbn [hd_error] in Es.
  - apply app_eq_nil in Eq as [-> Hrun0]. destruct run; [done|].
    assert (thread_table s2 = thread_table s) as Htt by by apply Hsame.
    assert (state_is THREAD_STATE_BLOCKED (current_thread s) s2 = bool_decide (current_thread s <> None)) as Hb.
    { unfold state_is. destruct (current_thread s) as [c|] eqn:Ec; [|done]. destruct Hcur as [|[_ Hc]]; [done|].
      specialize (Hc c eq_refl). rewrite Htt. unfold st in Hc. destruct (thread_table s !! c) as [t|]; [|done]. cbn in Hc.
      rewrite !bool_decide_eq_true_2; [done|done|congruence]. }
    assert (current_thread s2 = current_thread s) as Hcs by done. rewrite Hb in Es. clear Hb Htt Hsame. clearbody s2.
    destruct (current_thread s) as [c|] eqn:Ec; cbn in Es; injection Es as <- <-.
    + split_and!; [split; apply Hk2|done| |done|eauto]. by eapply ready_inv_ext; [..|exact Hri].
    + split_and!; [split; apply Hk2|done| | |done]; [by eapply ready_inv_ext; [..|exact Hri]|].
      keq. by rewrite Hcs.
  - assert (exists t, thread_table s2 !! n = Some t) as [t Ht].
    { destruct Hri as [_ [Hc _ _] _ _ _]. destruct Hc as (_ & [t Ht] & _). eauto. }
    rewrite Ht in Es. destruct (dequeue_spec _ _ _ _ Hri Ht) as (Hd & tt3 & hd3 & tl3 & Hdq & Hst3).
    assert (keeps s2 (dequeue n t s2)) as Hk3 by (rewrite Hdq; by apply keeps_still).
    assert (current_thread (dequeue n t s2) = current_thread s) as Hc3 by (by rewrite Hdq).
    clear Hdq. set (s3 := dequeue n t s2) in *. clearbody s3.
    assert (forall v, keeps s (set_in_scheduler 0 (set_current v s3)) /\ ready_inv (set_in_scheduler 0 (set_current v s3)) q' (Some n)) as Hfin.
    { intros v. split; [eapply keeps_trans; [exact Hk2|]; split; apply Hk3|]. by eapply ready_inv_ext; [..|exact Hd]. }
    destruct (current_thread s) as [c|] eqn:Ec; [destruct (decide (c = n)) as [->|Hcn]|]; injection Es as <- <-.
    + destruct (Hfin (Some n)) as [H1 H2]. split_and!; [split; apply H1|done| |done|done]. by eapply ready_inv_ext; [..|exact H2].
    + destruct (Hfin (Some n)) as [H1 H2]. destruct (switch_inv c n _ _ _ H2) as (H3 & H4 & H5 & H6).
      split_and!; [by eapply keeps_trans|by rewrite H6|done|by rewrite H5|done].
    + destruct (Hfin (Some n)) as [H1 H2].
      set (s4 := set_in_scheduler 0 (set_current (Some n) s3)) in *.
      assert (machine s4 (sti (restore_frame (c_rsp (context t)) s4))) as Hm by (eapply machine_trans; [apply machine_restore|apply machine_sti]).
      split_and!; [eapply keeps_trans; [done|by apply keeps_machine]|by destruct Hm as (? & ? & ->)|by eapply ready_inv_machine|
        by destruct Hm as (? & ? & ->)|done].
Qed.
End WithImage.
End SchedProps.
