(* ===== verification/SchedInv.v ===== *)
(** * The scheduler's invariant and its refinement of a round-robin queue

    [wf] is the whole invariant of the thread and process tables; [abs_step]
    says what each operation does to the ready list and the running thread;
    the operations implement it ([op_refines]). *)
From Stdlib Require Import ZArith Lia.
From stdpp Require Import base numbers list sets relations.
From S2P Require Import Prelude Memory Scheduler SchedProps.
Local Open Scope Z_scope.

Module SchedInv.
Import Sched SchedProps.

(** Fields of a state built by many assignments. *)
Ltac kproj := cbn [with_queue upd updp set_threads set_processes set_current set_idle set_next_tid set_next_pid set_enabled
  set_in_scheduler set_head set_tail set_kmm set_regs thread_table process_table current_thread idle_thread next_tid next_pid
  scheduler_enabled in_scheduler ready_queue_head ready_queue_tail kmm regs] in *.

(** ** Searching the tables *)
Lemma first_index_Some {A} (P : A -> bool) l i : first_index P l = Some i -> exists x, l !! i = Some x /\ P x = true.
Proof.
  revert i. induction l as [|x l IH]; intros i Hi; cbn in Hi; [done|]. destruct (P x) eqn:Ep; [injection Hi as <-; eauto|].
  destruct (first_index P l) as [k|]; [|done]. injection Hi as <-. destruct (IH k eq_refl) as (y & ? & ?). by exists y.
Qed.

Lemma first_index_here {A} (P : A -> bool) l1 x l2 : P x = true -> (forall y, y ∈ l1 -> P y = false) ->
  first_index P (l1 ++ x :: l2) = Some (length l1).
Proof.
  intros Hx. induction l1 as [|y l1 IH]; intros Hl; cbn; [by rewrite Hx|]. rewrite Hl by set_solver.
  rewrite IH; [done|]. intros z Hz. apply Hl. set_solver.
Qed.

(** ** Thread ids and process lists *)
Definition tids_ok (tt : list thread) (nt : Z) : Prop :=
  1 <= nt /\
  (forall i t, tt !! i = Some t -> used t <> 0 -> 1 <= tid t < nt) /\
  (forall i j t u, tt !! i = Some t -> tt !! j = Some u -> used t <> 0 -> used u <> 0 -> tid t = tid u -> i = j).

(** The thread list of process slot [p] is the list of its live threads, without repetition. *)
Record proc_ok (tt : list thread) (p : nat) (P : process) : Prop := {
  p_len : length (threads P) = 16%nat;
  p_count : 0 <= thread_count P <= 16;
  p_unused : pused P = 0 -> thread_count P = 0;
  p_list : exists l, take (Z.to_nat (thread_count P)) (threads P) = Some <$> l /\ NoDup l /\
    forall i, i ∈ l <-> exists t, tt !! i = Some t /\ used t <> 0 /\ parent t = Some p }.
Definition procs_ok (tt : list thread) (pt : list process) : Prop :=
  length pt = 64%nat /\ (forall p P, pt !! p = Some P -> proc_ok tt p P) /\
  (forall i t, tt !! i = Some t -> used t <> 0 -> exists p, parent t = Some p /\ (p < 64)%nat).

Lemma ident_lookup (tt tt' : list thread) i t : ident <$> tt' = ident <$> tt -> tt' !! i = Some t ->
  exists t', tt !! i = Some t' /\ ident t' = ident t.
Proof.
  intros Hs Ht. apply (f_equal (lookup i)) in Hs. rewrite !list_lookup_fmap, Ht in Hs.
  destruct (tt !! i) as [t'|]; [|done]. exists t'. cbn in Hs. split; congruence.
Qed.

Lemma tids_ident tt tt' nt : ident <$> tt' = ident <$> tt -> tids_ok tt nt -> tids_ok tt' nt.
Proof.
  intros Hs (H0 & H1 & H2). split_and!; [done| |].
  - intros i t Ht Hu. destruct (ident_lookup _ _ _ _ Hs Ht) as (t' & Ht' & He). injection He as E1 E2 E3 E4.
    rewrite <- E1. apply (H1 i); congruence.
  - intros i j t u Ht Hu Hut Huu He. destruct (ident_lookup _ _ _ _ Hs Ht) as (t' & Ht' & E), (ident_lookup _ _ _ _ Hs Hu) as (u' & Hu' & F).
    injection E as E1 E2 E3 E4. injection F as F1 F2 F3 F4. apply (H2 i j t' u'); congruence.
Qed.

Lemma live_ident (tt tt' : list thread) p (i : nat) : ident <$> tt' = ident <$> tt ->
  (exists t, tt' !! i = Some t /\ used t <> 0 /\ parent t = p) <-> (exists t, tt !! i = Some t /\ used t <> 0 /\ parent t = p).
Proof.
  intros Hs. split; intros (t & Ht & Hu & Hp).
  - destruct (ident_lookup _ _ _ _ Hs Ht) as (t' & Ht' & E). injection E as E1 E2 E3 E4. exists t'. split_and!; congruence.
  - destruct (ident_lookup _ _ _ _ (eq_sym Hs) Ht) as (t' & Ht' & E). injection E as E1 E2 E3 E4. exists t'. split_and!; congruence.
Qed.

Lemma procs_ident tt tt' pt : ident <$> tt' = ident <$> tt -> procs_ok tt pt -> procs_ok tt' pt.
Proof.
  intros Hs (H1 & H2 & H3). split_and!; [done| |].
  - intros p P HP. destruct (H2 p P HP) as [? ? ? (l & Hl & Hn & Hi)]. split; [done..|]. exists l. split_and!; [done..|].
    intros i. rewrite Hi. by rewrite (live_ident _ _ _ _ Hs).
  - intros i t Ht Hu. destruct (ident_lookup _ _ _ _ Hs Ht) as (t' & Ht' & E). injection E as E1 E2 E3 E4.
    rewrite <- E3. apply (H3 i); congruence.
Qed.

(** ** A thread leaving its process *)
Lemma shift_loop (L : list (option nat)) i m : (m < length L)%nat ->
  let L' := for_range i m (fun j l => <[j := default None (l !! S j)]> l) L in
  length L' = length L /\ forall j, L' !! j = if decide (i <= j < m)%nat then L !! S j else L !! j.
Proof.
  intros Hm. destruct (decide (i <= m)%nat) as [Him|Him].
  2: { rewrite for_range_nil by lia. split; [done|]. intros j. by rewrite decide_False by lia. }
  pose (Q := fun (k : nat) (L' : list (option nat)) =>
    length L' = length L /\ forall j, L' !! j = if decide (i <= j < k)%nat then L !! S j else L !! j).
  apply (for_range_inv Q);
    [lia|split; [done|intros j; by rewrite decide_False by lia]|].
  intros k L' Hk [Hlen HL]. unfold Q. rewrite length_insert. split; [done|]. intros j. destruct (decide (k = j)) as [<-|Hkj].
  - rewrite list_lookup_insert_eq, decide_True, HL, decide_False by lia.
    destruct (lookup_lt_is_Some_2 L (S k)) as [x ->]; [lia|done].
  - rewrite list_lookup_insert_ne, HL by done. repeat case_decide; done || lia.
Qed.

Lemma drop_thread_ok tt p P c t f : proc_ok tt p P -> tt !! c = Some t -> used t <> 0 -> parent t = Some p ->
  used (f t) = 0 -> proc_ok (alter f c tt) p (drop_thread c P).
Proof.
  intros [Hl Hc Hu (l & Ht & Hn & Hi)] Htc Hut Hp Hf.
  assert (c ∈ l) as Hcl by (apply Hi; eauto). apply list_elem_of_split in Hcl as (l1 & l2 & ->).
  destruct (nodup_unlink _ _ _ Hn) as [Hn' Hnin]. unfold drop_thread.
  rewrite Ht, fmap_app, fmap_cons, first_index_here;
    [|by apply bool_decide_eq_true_2|intros y (z & -> & Hz)%list_elem_of_fmap; apply bool_decide_eq_false_2; intros [=->]; set_solver].
  rewrite length_fmap. set (n := Z.to_nat (thread_count P)) in *.
  assert (length (l1 ++ c :: l2) = n) as Hlen.
  { apply (f_equal length) in Ht. rewrite length_fmap, length_take in Ht. lia. }
  rewrite length_app in Hlen. cbn [length] in Hlen.
  destruct (shift_loop (threads P) (length l1) (n - 1)) as [HL1 HL2]; [lia|]. set (L' := for_range _ _ _ _) in *. clearbody L'.
  assert (proc_ok (alter f c tt) p (mk_process (pid P) (memory_space P) (pstate P) (<[(n - 1)%nat := None]> L') (thread_count P - 1) (pused P) (name P))) as Hok.
  { split; cbn [threads thread_count pused].
    - rewrite length_insert. lia.
    - lia.
    - intros Hpu. specialize (Hu Hpu). lia.
    - exists (l1 ++ l2). split_and!; [|done|].
      + rewrite take_insert_ge by lia. replace (Z.to_nat (thread_count P - 1)) with (n - 1)%nat by lia.
        apply list_eq. intros j. destruct (decide (j < n - 1)%nat) as [Hj|Hj].
        2: { rewrite lookup_take_ge by lia. symmetry. apply lookup_ge_None. rewrite length_fmap, length_app. lia. }
        rewrite lookup_take_lt, HL2 by lia.
        assert (forall k, (k < n)%nat -> threads P !! k = (Some <$> (l1 ++ c :: l2)) !! k) as Hk by (intros k Hk; by rewrite <- Ht, lookup_take_lt).
        rewrite fmap_app. case_decide.
        * rewrite Hk, fmap_app, fmap_cons by lia. rewrite !lookup_app_r by (rewrite length_fmap; lia). rewrite !length_fmap.
          by replace (S j - length l1)%nat with (S (j - length l1)) by lia.
        * rewrite Hk, fmap_app by lia. by rewrite !lookup_app_l by (rewrite length_fmap; lia).
      + intros i. assert (i ∈ l1 ++ l2 <-> i <> c /\ i ∈ l1 ++ c :: l2) as ->.
        { rewrite !elem_of_app, elem_of_cons. rewrite elem_of_app in Hnin. clear -Hnin. naive_solver. }
        rewrite Hi. destruct (decide (c = i)) as [<-|Hci].
        * split; [naive_solver|]. intros (t' & Ht' & Hut' & _). rewrite list_lookup_alter_eq, Htc in Ht'. injection Ht' as <-. done.
        * rewrite list_lookup_alter_ne by done. naive_solver. }
  cbv zeta. case_match; [|done]. destruct Hok as [? ? ? ?]. by split.
Qed.

(** A process the thread does not belong to. *)
Lemma drop_other_ok tt p P c t f : proc_ok tt p P -> tt !! c = Some t -> parent t <> Some p ->
  used (f t) = 0 -> proc_ok (alter f c tt) p P.
Proof.
  intros [Hl Hc Hu (l & Ht & Hn & Hi)] Htc Hp Hf. split; [done..|]. exists l. split_and!; [done..|]. intros i. rewrite Hi.
  destruct (decide (c = i)) as [<-|Hci]; [|by rewrite list_lookup_alter_ne].
  rewrite list_lookup_alter_eq, Htc. split; intros (t' & Ht' & Hx); naive_solver.
Qed.

(** ** A thread joining its process *)
Lemma add_thread_ok tt p P c t f : proc_ok tt p P -> thread_count P < 16 -> pused P <> 0 -> tt !! c = Some t -> used t = 0 ->
  used (f t) <> 0 -> parent (f t) = Some p -> proc_ok (alter f c tt) p (add_thread c P).
Proof.
  intros [Hl Hc Hu (l & Ht & Hn & Hi)] Hlt Hpu Htc Hut Hf Hp. unfold add_thread.
  assert (length l = Z.to_nat (thread_count P)) as Hlen.
  { apply (f_equal length) in Ht. rewrite length_fmap, length_take in Ht. lia. }
  assert (u32 (thread_count P + 1) = thread_count P + 1) as -> by (apply wrap_small; lia).
  split; cbn [threads thread_count pused]; [by rewrite length_insert|lia|done|].
  exists (l ++ [c]). split_and!.
  - replace (Z.to_nat (thread_count P + 1)) with (S (Z.to_nat (thread_count P))) by lia.
    erewrite take_S_r by (apply list_lookup_insert_eq; lia). by rewrite take_insert_ge, Ht, fmap_app by lia.
  - apply NoDup_app. split_and!; [done| |apply NoDup_singleton]. intros x Hx ->%list_elem_of_singleton.
    apply Hi in Hx as (t' & Ht' & Hx & _). congruence.
  - intros i. rewrite elem_of_app, list_elem_of_singleton, Hi. destruct (decide (c = i)) as [<-|Hci].
    + rewrite list_lookup_alter_eq, Htc. cbn. split; [eauto|by right].
    + rewrite list_lookup_alter_ne by done. naive_solver.
Qed.

Lemma add_other_ok tt p P c t f : proc_ok tt p P -> tt !! c = Some t -> used t = 0 -> parent (f t) <> Some p ->
  proc_ok (alter f c tt) p P.
Proof.
  intros [Hl Hc Hu (l & Ht & Hn & Hi)] Htc Hut Hp. split; [done..|]. exists l. split_and!; [done..|]. intros i. rewrite Hi.
  destruct (decide (c = i)) as [<-|Hci]; [|by rewrite list_lookup_alter_ne].
  rewrite list_lookup_alter_eq, Htc. cbn. split; intros (t' & Ht' & Hx); naive_solver.
Qed.

(** ** The invariant and the abstract scheduler *)
Record wf (s : kernel) (q : list nat) : Prop := {
  w_ready : ready_inv s q (current_thread s);
  w_in : in_scheduler s = 0;
  w_off : scheduler_enabled s = 0 -> current_thread s = None;
  w_tids : tids_ok (thread_table s) (next_tid s);
  w_procs : procs_ok (thread_table s) (process_table s) }.

Inductive op :=
| OpTick | OpYield | OpSchedule | OpEnable | OpExit
| OpBlock (t : Z) | OpUnblock (t : Z)
| OpCreateThread (pd entry size rt dl per : Z)
| OpCreateProcess (n : list Z) (ms : Z).

(** The thread that runs goes to the end of the queue, the first of the queue runs. *)
Definition a_next (q : list nat) (run : option nat) : list nat * option nat :=
  match q ++ option_list run with
  | [] => ([], None)
  | n :: q' => (q', Some n)
  end.

Section WithImage.
Context `{Image}.

Definition as_int (m : M unit) : M Z := bind m (fun _ => ret 0).
Definition run_op (fuel : nat) (o : op) : M Z :=
  match o with
  | OpTick => as_int (scheduler_tick fuel)
  | OpYield => as_int (thread_yield fuel)
  | OpSchedule => as_int (schedule fuel)
  | OpEnable => as_int (scheduler_enable fuel)
  | OpExit => as_int (thread_exit fuel)
  | OpBlock t => as_int (thread_block fuel t)
  | OpUnblock t => as_int (thread_unblock t)
  | OpCreateThread pd entry size rt dl per => thread_create fuel pd entry size rt dl per
  | OpCreateProcess n ms => fun s => let '(r, s) := process_create n ms s in (s, Ret r)
  end.

(** What a new thread needs: an entry point, a process with room, a free slot and a stack from the allocator. *)
Definition has_room (pd : Z) (s : kernel) : bool :=
  match get_process pd s with
  | Some p => match process_table s !! p with Some P => thread_count P <? 16 | None => false end
  | None => false
  end.
Definition has_stack (fuel : nat) (size : Z) (s : kernel) : bool :=
  match Mem.kmalloc fuel size (kmm s) with Done (base, _) => negb (base =? 0) | _ => false end.
Definition creates (fuel : nat) (pd entry size : Z) (s : kernel) : option nat :=
  if negb (entry =? 0) && has_room pd s && has_stack fuel size s then find_free_thread_slot s else None.

(** The call of the allocator an operation makes comes back ([kfree] may not, see [MemHeap.kfree_neighbours_loop]). *)
Definition allocator_returns (fuel : nat) (o : op) (s : kernel) : Prop :=
  match o with
  | OpExit => forall c t, current_thread s = Some c -> thread_table s !! c = Some t -> stack_base t <> 0 ->
      Mem.kfree fuel (stack_base t) (kmm s) <> OutOfFuel
  | OpCreateThread _ _ size _ _ _ => Mem.kmalloc fuel size (kmm s) <> OutOfFuel
  | _ => True
  end.

(** What an operation that answers [r] does to the ready list and the running thread; [s] is the state it starts in. *)
Definition abs_step (fuel : nat) (o : op) (s : kernel) (r : res Z) (a a' : list nat * option nat) : Prop :=
  let '(q, run) := a in
  let on := negb (scheduler_enabled s =? 0) in
  match o with
  | OpTick => a' = if on && bool_decide (q <> []) then a_next q run else a
  | OpYield | OpSchedule => a' = if on then a_next q run else a
  | OpEnable => a' = if decide (run = None) then a_next q None else a
  | OpExit => (forall v, r <> Ret v) /\ a' = match run with Some _ => a_next q None | None => a end
  | OpBlock t => a' = match get_thread t s with
                      | Some i => if state_is THREAD_STATE_BLOCKED (Some i) s then a
                                  else if decide (run = Some i) then a_next q None else (without i q, run)
                      | None => a
                      end
  | OpUnblock t => a' = match get_thread t s with
                        | Some i => if state_is THREAD_STATE_BLOCKED (Some i) s then (q ++ [i], run) else a
                        | None => a
                        end
  | OpCreateThread pd entry size _ _ _ =>
      match creates fuel pd entry size s with
      | None => r = Ret (-1) /\ a' = a
      | Some i => if on && bool_decide (run = None) then r = Gone /\ a' = a_next (q ++ [i]) None
                  else r = Ret (s32 (next_tid s)) /\ a' = (q ++ [i], run)
      end
  | OpCreateProcess _ _ =>
      r = Ret (match find_free_process s with Some _ => s32 (next_pid s) | None => -1 end) /\ a' = a
  end.

Lemma wf_keeps s s' q : keeps s s' -> ready_inv s' q (current_thread s') -> in_scheduler s' = 0 ->
  (scheduler_enabled s = 0 -> current_thread s' = None) ->
  tids_ok (thread_table s) (next_tid s) -> procs_ok (thread_table s) (process_table s) -> wf s' q.
Proof.
  intros [Hid Hp Ht _ He _ _] Hr Hi Ho Hti Hpr. split; [done|done|by rewrite He| |].
  - rewrite Ht. by eapply tids_ident.
  - rewrite Hp. by eapply procs_ident.
Qed.

Definition fine {A} (r : res A) : Prop := r <> Fault /\ r <> Unfinished.

(** From a state whose current thread runs, is blocked or has ended. *)
Lemma schedule_next fuel s q run : ready_inv s q run ->
  (run = current_thread s \/ run = None /\ forall c, current_thread s = Some c -> st (thread_table s) c = Some THREAD_STATE_BLOCKED) ->
  scheduler_enabled s <> 0 -> in_scheduler s = 0 ->
  tids_ok (thread_table s) (next_tid s) -> procs_ok (thread_table s) (process_table s) ->
  let '(s', r) := schedule fuel s in
  wf s' (a_next q run).1 /\ current_thread s' = (a_next q run).2 /\ fine r /\ scheduler_enabled s' = scheduler_enabled s /\ keeps s s'.
Proof.
  intros Hr Hc He Hi Ht Hp. pose proof (schedule_spec fuel s q run Hr Hc He Hi) as Hs. destruct (schedule fuel s) as [s' r].
  destruct Hs as (Hk & Hi' & Hs). pose proof (k_enabled _ _ Hk) as He'. unfold a_next.
  destruct (q ++ option_list run) as [|n q']; cbn [fst snd]; destruct Hs as (Hr' & Hcur & Hres).
  - split_and!; [eapply wf_keeps; try done; by rewrite Hcur|done| |done|done].
    destruct (current_thread s); [destruct Hres as [k ->]|rewrite Hres]; done.
  - split_and!; [eapply wf_keeps; try done; by rewrite Hcur|done| |done|done].
    destruct (current_thread s); [case_decide|]; rewrite Hres; done.
Qed.

(** Running [m] in [s] gives a well-formed state with the abstract state [a]. *)
Definition goes {A} (m : M A) (s : kernel) (a : list nat * option nat) : Prop :=
  let '(s', r) := m s in fine r /\ wf s' a.1 /\ current_thread s' = a.2.

Lemma goes_as_int (m : M unit) s a : goes m s a -> goes (as_int m) s a.
Proof. unfold goes, as_int, bind. destruct (m s) as [s' r]. intros ([H1 H2] & Hw & Hc). destruct r; done. Qed.

Lemma goes_ret s q : wf s q -> goes (ret tt) s (q, current_thread s).
Proof. done. Qed.

Lemma schedule_goes fuel s q : wf s q ->
  goes (schedule fuel) s (if negb (scheduler_enabled s =? 0) then a_next q (current_thread s) else (q, current_thread s)).
Proof.
  intros Hw. pose proof Hw as [Hr Hi Ho Ht Hp]. unfold goes. destruct (Z.eqb_spec (scheduler_enabled s) 0) as [He|He]; cbn [negb].
  - destruct fuel; cbn [schedule]; rewrite He; done.
  - pose proof (schedule_next fuel s q _ Hr (or_introl eq_refl) He Hi Ht Hp) as Hs. destruct (schedule fuel s). tauto.
Qed.

Lemma wf_head s q : wf s q -> ready_queue_head s = head q.
Proof. intros [[_ [Hc _ _] _ _ _] _ _ _ _]. destruct q; [done|]. by destruct Hc. Qed.

Lemma tick_goes fuel s q : wf s q -> goes (scheduler_tick fuel) s
  (if negb (scheduler_enabled s =? 0) && bool_decide (q <> []) then a_next q (current_thread s) else (q, current_thread s)).
Proof.
  intros Hw. pose proof (schedule_goes fuel s q Hw) as Hs. unfold goes, scheduler_tick in *.
  destruct (scheduler_enabled s =? 0); [done|]. rewrite (w_in _ _ Hw), (wf_head _ _ Hw). cbn. by destruct q.
Qed.

Lemma yield_goes fuel s q : wf s q -> goes (thread_yield fuel) s
  (if negb (scheduler_enabled s =? 0) then a_next q (current_thread s) else (q, current_thread s)).
Proof.
  intros Hw. pose proof (schedule_goes fuel s q Hw) as Hs. unfold goes, thread_yield in *.
  destruct (scheduler_enabled s =? 0); [done|]. rewrite (wf_head _ _ Hw). cbn in *.
  destruct (current_thread s) eqn:Ec; [done|]. destruct q; [|done]. split_and!; [done|done|done].
Qed.

Lemma enable_goes fuel s q : wf s q -> goes (scheduler_enable fuel) s
  (if decide (current_thread s = None) then a_next q None else (q, current_thread s)).
Proof.
  intros [Hr Hi Ho Ht Hp]. unfold goes, scheduler_enable. pose proof (wf_head s q ltac:(by split)) as Hh.
  assert (wf (set_enabled 1 s) q) as Hw by (split; [by eapply ready_inv_ext; [..|exact Hr]|done..]).
  case_decide as Hc; [|rewrite bool_decide_eq_false_2; [done|naive_solver]].
  destruct q as [|n q].
  - rewrite bool_decide_eq_false_2; [|keq; naive_solver]. done.
  - rewrite bool_decide_eq_true_2; [|keq; rewrite Hh; done].
    pose proof (schedule_goes fuel _ _ Hw) as Hs. unfold goes in Hs.
    change (negb (scheduler_enabled (set_enabled 1 s) =? 0)) with true in Hs.
    change (current_thread (set_enabled 1 s)) with (current_thread s) in Hs. by rewrite Hc in Hs.
Qed.

Lemma get_thread_Some x s i : get_thread x s = Some i -> exists t, thread_table s !! i = Some t /\ used t <> 0 /\ tid t = x.
Proof.
  intros (t & Ht & Hb)%first_index_Some. exists t. apply andb_true_iff in Hb as [Hu He]. split_and!; [done| |lia].
  unfold c_true in Hu. by destruct (Z.eqb_spec (used t) 0).
Qed.

Lemma state_is_st v i s : state_is v (Some i) s = bool_decide (st (thread_table s) i = Some v).
Proof.
  unfold state_is, st. destruct (thread_table s !! i) as [t|]; cbn; [|done]. apply bool_decide_ext. split; congruence.
Qed.

Lemma unblock_goes x s q : wf s q -> goes (thread_unblock x) s
  match get_thread x s with
  | Some i => if state_is THREAD_STATE_BLOCKED (Some i) s then (q ++ [i], current_thread s) else (q, current_thread s)
  | None => (q, current_thread s)
  end.
Proof.
  intros Hw. unfold goes, thread_unblock. destruct (get_thread x s) as [i|] eqn:Eg; [|done].
  destruct (get_thread_Some _ _ _ Eg) as (t & Ht & Hu & _).
  rewrite state_is_st. case_bool_decide as Hb; [|done]. destruct Hw as [Hr Hi Ho Hti Hpr].
  destruct (enqueue_inv s q (current_thread s) i (set_state THREAD_STATE_READY) t Hr Ht) as (tt' & hd & tl & -> & Hr' & Hs);
    [rewrite (r_ready _ _ _ Hr); congruence|rewrite <- (r_run _ _ _ Hr); congruence|done|done|].
  split; [done|]. split; [|done]. eapply (wf_keeps s); [|done..]. apply keeps_still; [|done..].
  eapply still_trans; [by apply (still_alter (set_state THREAD_STATE_READY) i)|]. by apply still_sbn.
Qed.

(** [thread_block] up to its call of [schedule]. *)
Lemma block_half fuel x s q i : wf s q -> get_thread x s = Some i -> st (thread_table s) i <> Some THREAD_STATE_BLOCKED -> exists s1,
  thread_block fuel x s = (if decide (current_thread s = Some i) then schedule fuel s1 else (s1, Ret tt)) /\
  ready_inv s1 (without i q) (if decide (current_thread s = Some i) then None else current_thread s) /\ keeps s s1 /\
  current_thread s1 = current_thread s /\ in_scheduler s1 = 0 /\ st (thread_table s1) i = Some THREAD_STATE_BLOCKED.
Proof.
  intros [Hr Hi Ho Hti Hpr] Hg Hb. destruct (get_thread_Some _ _ _ Hg) as (t & Ht & Hu & _).
  destruct (block_inv s q (current_thread s) i t Hr Ht Hu) as (tt' & hd & tl & He & Hr' & Hs).
  exists (with_queue tt' hd tl s). split_and!; [|done| |done|done|].
  - unfold thread_block. rewrite Hg, state_is_st, bool_decide_eq_false_2 by done.
    unfold bind at 1, modify at 1. cbn [after]. unfold bind at 1. rewrite He. done.
  - apply keeps_still; [|done..]. eapply still_trans; [by apply (still_alter (set_state THREAD_STATE_BLOCKED) i)|]. by apply still_sbn.
  - keq. by rewrite <- (sbn_st _ _ i Hs), st_set_state, decide_True, Ht by done.
Qed.

(** When the current thread blocks, control leaves it. *)
Lemma block_current fuel x s q i : wf s q -> get_thread x s = Some i -> current_thread s = Some i ->
  let '(s', r) := thread_block fuel x s in
  wf s' (a_next q None).1 /\ current_thread s' = (a_next q None).2 /\ keeps s s' /\
  match q with [] => exists k, r = Idle k | _ => exists k, r = Switched k end.
Proof.
  intros Hw Hg Hc. pose proof Hw as [Hr Hi Ho Hti Hpr].
  assert (st (thread_table s) i = Some THREAD_STATE_RUNNING) as Hst by by apply (r_run _ _ _ Hr).
  destruct (block_half fuel x s q i Hw Hg) as (s1 & -> & Hr1 & Hk & Hc1 & Hi1 & Hb1); [congruence|].
  assert (i ∉ q) as Hiq by (rewrite (r_ready _ _ _ Hr); congruence).
  rewrite decide_True in Hr1 by done. rewrite decide_True by done. rewrite without_out in Hr1 by done.
  pose proof (schedule_spec fuel s1 q None Hr1) as Hn. rewrite Hc1, Hc in Hn.
  specialize (Hn ltac:(right; split; [done|]; by intros c [= <-]) ltac:(rewrite (k_enabled _ _ Hk); intros Hx; specialize (Ho Hx); congruence) Hi1).
  destruct (schedule fuel s1) as [s' r]. destruct Hn as (Hk' & Hi' & Hn). assert (keeps s s') as Hk2 by by eapply keeps_trans.
  unfold a_next. rewrite app_nil_r in *. destruct q as [|n q']; cbn [fst snd]; destruct Hn as (Hr2 & Hc2 & Hres).
  - split_and!; [eapply (wf_keeps s); try done; by rewrite Hc2|done|done|done].
  - rewrite decide_False in Hres by set_solver.
    split_and!; [eapply (wf_keeps s); try done; [by rewrite Hc2|intros Hx; specialize (Ho Hx); congruence]|done|done|eauto].
Qed.

Lemma block_goes fuel x s q : wf s q -> goes (thread_block fuel x) s
  match get_thread x s with
  | Some i => if state_is THREAD_STATE_BLOCKED (Some i) s then (q, current_thread s)
              else if decide (current_thread s = Some i) then a_next q None else (without i q, current_thread s)
  | None => (q, current_thread s)
  end.
Proof.
  intros Hw. unfold goes. destruct (get_thread x s) as [i|] eqn:Eg; [|unfold thread_block; by rewrite Eg].
  rewrite state_is_st. case_bool_decide as Hb; [unfold thread_block; by rewrite Eg, state_is_st, bool_decide_eq_true_2|].
  case_decide as Hc.
  - pose proof (block_current fuel x s q i Hw Eg Hc) as Hn. destruct (thread_block fuel x s) as [s' r].
    destruct Hn as (? & ? & _ & Hr). split_and!; [|done|done]. destruct q; destruct Hr as [k ->]; done.
  - destruct (block_half fuel x s q i Hw Eg Hb) as (s1 & -> & Hr1 & Hk & Hc1 & Hi1 & _). rewrite decide_False in Hr1 by done.
    rewrite decide_False by done. split_and!; [done| |by rewrite Hc1]. destruct Hw as [Hr Hi Ho Hti Hpr].
    eapply (wf_keeps s); try done; by rewrite Hc1.
Qed.

(** *** thread_exit *)
Lemma kfree_in_bounds fuel p m : Mem.kfree fuel p m <> OutOfBounds.
Proof.
  assert (forall c m, Mem.coalesce_loop fuel c m <> OutOfBounds) as Hc.
  { clear. induction fuel as [|fuel IH]; intros c m; cbn [Mem.coalesce_loop]; [done|]. cbv zeta. repeat case_match; try done; apply IH. }
  unfold Mem.kfree, Mem.coalesce_blocks. cbv zeta. repeat case_match; try done; apply Hc.
Qed.

Lemma tids_gone tt nt c f : (forall t, used (f t) = 0) -> tids_ok tt nt -> tids_ok (alter f c tt) nt.
Proof.
  intros Hf (H0 & H1 & H2).
  assert (forall i t, alter f c tt !! i = Some t -> used t <> 0 -> tt !! i = Some t) as Hl.
  { intros i t Ht Hu. destruct (decide (c = i)) as [<-|]; [|by rewrite list_lookup_alter_ne in Ht].
    rewrite list_lookup_alter_eq in Ht. destruct (tt !! c); [|done]. injection Ht as <-. by rewrite Hf in Hu. }
  split_and!; [done| |].
  - intros i t Ht Hu. apply (H1 i); auto.
  - intros i j t u Ht Hu Hut Huu. apply H2; auto.
Qed.

Lemma procs_gone tt pt c t p f : (forall t, used (f t) = 0) -> tt !! c = Some t -> used t <> 0 -> parent t = Some p ->
  procs_ok tt pt -> procs_ok (alter f c tt) (alter (drop_thread c) p pt).
Proof.
  intros Hf Ht Hu Hp (H1 & H2 & H3). split_and!.
  - by rewrite length_alter.
  - intros p' P HP. destruct (decide (p = p')) as [<-|Hne].
    + rewrite list_lookup_alter_eq in HP. destruct (pt !! p) as [P0|] eqn:E; [|done]. injection HP as <-. by eapply drop_thread_ok; eauto.
    + rewrite list_lookup_alter_ne in HP by done. eapply drop_other_ok; eauto. congruence.
  - intros i t' Ht' Hu'. destruct (decide (c = i)) as [<-|Hci].
    + rewrite list_lookup_alter_eq, Ht in Ht'. injection Ht' as <-. by rewrite Hf in Hu'.
    + rewrite list_lookup_alter_ne in Ht' by done. by apply (H3 i).
Qed.

Lemma exit_schedule fuel s0 s q c t p f : wf s q -> current_thread s = Some c -> thread_table s !! c = Some t -> parent t = Some p ->
  (forall t, used (f t) = 0 /\ state (f t) = THREAD_STATE_TERMINATED) ->
  thread_table s0 = alter f c (thread_table s) -> process_table s0 = alter (drop_thread c) p (process_table s) ->
  current_thread s0 = None -> ready_queue_head s0 = ready_queue_head s -> ready_queue_tail s0 = ready_queue_tail s ->
  scheduler_enabled s0 = scheduler_enabled s -> in_scheduler s0 = in_scheduler s -> next_tid s0 = next_tid s ->
  goes (bind (schedule fuel) (fun _ => halt (A := unit))) s0 (a_next q None).
Proof.
  intros [Hr Hi Ho Hti Hpr] Hc Ht Hp Hf E1 E2 E3 E4 E5 E6 E7 E8.
  assert (st (thread_table s) c = Some THREAD_STATE_RUNNING) as Hrun by by apply (r_run _ _ _ Hr).
  rewrite (st_lookup _ _ _ Ht) in Hrun.
  assert (used t <> 0) as Hu by (intros Hx; apply (r_used _ _ _ Hr c t Ht) in Hx; congruence).
  assert (c ∉ q) as Hcq by (rewrite (r_ready _ _ _ Hr), (st_lookup _ _ _ Ht); congruence).
  pose proof (retag_inv s q _ c t f Hr Ht Hcq (or_intror (proj2 (Hf t)))) as Hr'.
  specialize (Hr' ltac:(split; intros; apply Hf)). rewrite Hc, decide_True in Hr' by done.
  assert (ready_inv s0 q None) as Hr0 by (eapply ready_inv_ext; [..|exact Hr']; keq; by rewrite ?E1).
  pose proof (schedule_next fuel s0 q None Hr0) as Hn. rewrite E3, E6, E7, E8, E1, E2 in Hn.
  specialize (Hn ltac:(by left) ltac:(intros Hx; specialize (Ho Hx); congruence) Hi).
  specialize (Hn ltac:(apply tids_gone; [apply Hf|done])).
  specialize (Hn ltac:(eapply procs_gone; [apply Hf|done..])).
  unfold goes, bind. destruct (schedule fuel s0) as [s' r]. destruct Hn as (Hw & Hcur & [F1 F2] & _). by destruct r.
Qed.

Lemma exit_goes fuel s q : wf s q -> allocator_returns fuel OpExit s ->
  goes (thread_exit fuel) s (match current_thread s with Some _ => a_next q None | None => (q, None) end).
Proof.
  intros Hw Hal. unfold goes. unfold thread_exit. destruct (current_thread s) as [c|] eqn:Ec; [|done].
  pose proof Hw as [Hr Hi Ho Hti (_ & _ & Hpar)].
  assert (st (thread_table s) c = Some THREAD_STATE_RUNNING) as Hrun by by apply (r_run _ _ _ Hr).
  destruct (thread_table s !! c) as [t|] eqn:Ht; [|unfold st in Hrun; by rewrite Ht in Hrun].
  rewrite (st_lookup _ _ _ Ht) in Hrun.
  assert (used t <> 0) as Hu by (intros Hx; apply (r_used _ _ _ Hr c t Ht) in Hx; congruence).
  destruct (Hpar c t Ht Hu) as (p & Hp & _).
  unfold bind at 1. rewrite (deref_some _ _ _ Ht). cbn [after]. rewrite Hp. unfold bind at 1, modify at 1. cbn [after].
  unfold bind at 1, modify at 1. cbn [after].
  destruct (c_true (stack_base t)) eqn:Eb.
  - assert (Mem.kfree fuel (stack_base t) (kmm s) <> OutOfFuel) as Hfu.
    { apply (Hal c t Ec Ht). unfold c_true in Eb. by destruct (Z.eqb_spec (stack_base t) 0). }
    unfold bind at 1. unfold bind at 1. unfold lift. change (kmm (upd c _ _)) with (kmm s).
    pose proof (kfree_in_bounds fuel (stack_base t) (kmm s)) as Hnb.
    destruct (Mem.kfree fuel (stack_base t) (kmm s)) as [m| |]; cbn [obind after]; [|done|done].
    unfold modify at 1. cbn [after]. do 2 (unfold bind at 1, modify at 1; cbn [after]).
    set (s0 := set_current None (updp p (drop_thread c) (upd c (set_stack 0 (stack_size t))
      (set_kmm m (upd c (set_used 0) (upd c (set_state THREAD_STATE_TERMINATED) s)))))).
    pose proof (exit_schedule fuel s0 s q c t p
      (fun t0 => set_stack 0 (stack_size t) (set_used 0 (set_state THREAD_STATE_TERMINATED t0))) Hw Ec Ht Hp) as He.
    assert (thread_table s0 = alter (fun t0 => set_stack 0 (stack_size t) (set_used 0 (set_state THREAD_STATE_TERMINATED t0))) c (thread_table s)) as E1
      by (unfold s0; kproj; by rewrite !list_alter_alter_eq).
    specialize (He ltac:(done) E1). clear E1. unfold s0 in He at 1 2 3 4 5 6 7. kproj.
    specialize (He eq_refl eq_refl eq_refl eq_refl eq_refl eq_refl eq_refl).
    exact He.
  - unfold bind at 1. cbn [ret after]. do 2 (unfold bind at 1, modify at 1; cbn [after]).
    set (s0 := set_current None (updp p (drop_thread c) (upd c (set_used 0) (upd c (set_state THREAD_STATE_TERMINATED) s)))).
    pose proof (exit_schedule fuel s0 s q c t p
      (fun t0 => set_used 0 (set_state THREAD_STATE_TERMINATED t0)) Hw Ec Ht Hp) as He.
    assert (thread_table s0 = alter (fun t0 => set_used 0 (set_state THREAD_STATE_TERMINATED t0)) c (thread_table s)) as E1
      by (unfold s0; kproj; by rewrite !list_alter_alter_eq).
    specialize (He ltac:(done) E1). clear E1. unfold s0 in He at 1 2 3 4 5 6 7. kproj.
    specialize (He eq_refl eq_refl eq_refl eq_refl eq_refl eq_refl eq_refl).
    exact He.
Qed.

(** [thread_exit] does not come back. *)
Definition stays {A} (m : M A) : Prop := forall s v, (m s).2 <> Ret v.
Lemma stays_bind {A B} (m : M A) (f : A -> M B) : (forall a, stays (f a)) -> stays (bind m f).
Proof. intros Hf s v. unfold bind. destruct (m s) as [s1 r]. destruct r; cbn; done || apply Hf. Qed.

Lemma exit_no_return fuel : stays (thread_exit fuel).
Proof.
  intros s. unfold thread_exit. destruct (current_thread s) as [c|]; [|done].
  revert s. apply stays_bind. intros [_ t]. repeat (apply stays_bind; intros _). done.
Qed.

(** *** process_create *)
Lemma process_create_wf n ms s q : wf s q -> let '(r, s') := process_create n ms s in
  r = (match find_free_process s with Some _ => s32 (next_pid s) | None => -1 end) /\ wf s' q /\ current_thread s' = current_thread s.
Proof.
  intros [Hr Hi Ho Hti (H1 & H2 & H3)]. unfold process_create. destruct (find_free_process s) as [i|] eqn:Ef; [|done].
  apply first_index_Some in Ef as (P & HP & Hu%Z.eqb_eq). split; [done|]. split; [|done]. split; kproj; [|done..|].
  { by eapply ready_inv_ext; [..|exact Hr]. }
  split_and!; [by rewrite length_alter| |done].
  intros p P' HP'. destruct (decide (i = p)) as [<-|Hne]; [|rewrite list_lookup_alter_ne in HP' by done; by apply H2].
  rewrite list_lookup_alter_eq, HP in HP'. injection HP' as <-.
  destruct (H2 _ _ HP) as [L1 L2 L3 (l & Hl & Hn & Hx)]. rewrite (L3 Hu) in Hl.
  destruct l; [|done]. split; cbn [threads thread_count pused]; [done|lia|done|]. by exists [].
Qed.

(** *** thread_create *)
Lemma kmalloc_in_bounds fuel n m : Mem.kmalloc fuel n m <> OutOfBounds.
Proof.
  assert (forall fuel n c p m, Mem.kmalloc_search fuel n c p m <> OutOfBounds) as Hs.
  { clear. induction fuel as [|fuel IH]; intros n c p m; cbn [Mem.kmalloc_search]; [done|]. repeat case_match; try done; apply IH. }
  revert n m. induction fuel as [|fuel IH]; intros n m; cbn [Mem.kmalloc]; [done|]. destruct (n =? 0); [done|]. cbv zeta.
  specialize (Hs (S fuel) (Mem.align_size n) (Mem.heap_free_list m) 0 m).
  destruct (Mem.kmalloc_search (S fuel) (Mem.align_size n) (Mem.heap_free_list m) 0 m) as [[r m']| |]; cbn [obind]; [|done|done].
  destruct r; [done|done|]. destruct (Mem.pmm_alloc_pages _ m') as [nm m'']. case_match; [done|]. apply IH.
Qed.

Lemma tids_new tt nt c t f : tids_ok tt nt -> tt !! c = Some t -> used t = 0 -> tid (f t) = nt ->
  tids_ok (alter f c tt) (nt + 1).
Proof.
  intros (H0 & H1 & H2) Ht Hu Hf.
  assert (forall i u, alter f c tt !! i = Some u -> used u <> 0 -> i = c /\ tid u = nt \/ i <> c /\ tt !! i = Some u) as Hl.
  { intros i u Hiu Huu. destruct (decide (c = i)) as [<-|Hci]; [|rewrite list_lookup_alter_ne in Hiu by done; auto].
    rewrite list_lookup_alter_eq, Ht in Hiu. injection Hiu as <-. auto. }
  split_and!; [lia| |].
  - intros i u Hiu Huu. destruct (Hl i u Hiu Huu) as [[_ ->]|[_ Hx]]; [lia|]. specialize (H1 i u Hx Huu). lia.
  - intros i j u v Hiu Hjv Huu Huv He. destruct (Hl i u Hiu Huu) as [[-> E]|[_ Hx]], (Hl j v Hjv Huv) as [[-> E']|[_ Hy]]; [done| | |].
    + specialize (H1 j v Hy Huv). lia.
    + specialize (H1 i u Hx Huu). lia.
    + by apply (H2 i j u v).
Qed.

Lemma procs_new tt pt c t p P f : procs_ok tt pt -> pt !! p = Some P -> pused P <> 0 -> thread_count P < 16 ->
  tt !! c = Some t -> used t = 0 -> used (f t) <> 0 -> parent (f t) = Some p ->
  procs_ok (alter f c tt) (alter (add_thread c) p pt).
Proof.
  intros (H1 & H2 & H3) HP Hpu Hcnt Ht Hu Hf Hpar. split_and!.
  - by rewrite length_alter.
  - intros p' P' HP'. destruct (decide (p = p')) as [<-|Hne].
    + rewrite list_lookup_alter_eq, HP in HP'. injection HP' as <-. by eapply add_thread_ok; eauto.
    + rewrite list_lookup_alter_ne in HP' by done. eapply add_other_ok; eauto. congruence.
  - intros i u Hiu Huu. destruct (decide (c = i)) as [<-|Hci].
    + rewrite list_lookup_alter_eq, Ht in Hiu. injection Hiu as <-. exists p. split; [done|]. apply lookup_lt_Some in HP. lia.
    + rewrite list_lookup_alter_ne in Hiu by done. by apply (H3 i).
Qed.

(** The queue and the tables once the new thread's slot is filled in: [f] is what the slot becomes. *)
Lemma create_enqueue s s0 q i t p P f : wf s q -> thread_table s !! i = Some t -> used t = 0 ->
  process_table s !! p = Some P -> pused P <> 0 -> thread_count P < 16 -> next_tid s < 2 ^ 32 - 1 ->
  state (f t) = THREAD_STATE_READY -> used (f t) = 1 -> tid (f t) = next_tid s -> parent (f t) = Some p ->
  thread_table s0 = alter f i (thread_table s) -> process_table s0 = alter (add_thread i) p (process_table s) ->
  next_tid s0 = u32 (next_tid s + 1) ->
  current_thread s0 = current_thread s -> ready_queue_head s0 = ready_queue_head s -> ready_queue_tail s0 = ready_queue_tail s ->
  scheduler_enabled s0 = scheduler_enabled s -> in_scheduler s0 = in_scheduler s ->
  exists s' t', ready_queue_add (Some i) s0 = (s', Ret tt) /\ wf s' (q ++ [i]) /\ current_thread s' = current_thread s /\
    scheduler_enabled s' = scheduler_enabled s /\ thread_table s' !! i = Some t' /\ tid t' = next_tid s.
Proof.
  intros [Hr Hi Ho Hti Hpr] Ht Hu HP Hpu Hcnt Hnt F1 F2 F3 F4 E1 E2 E3 E4 E5 E6 E7 E8.
  assert (state t = THREAD_STATE_TERMINATED) as Hst by by apply (r_used _ _ _ Hr i t Ht).
  set (s1 := set_threads (thread_table s) s0).
  assert (upd i f s1 = s0) as Hs1 by (unfold s1, upd; destruct s0; cbn in *; by rewrite E1).
  assert (ready_inv s1 q (current_thread s)) as Hr1 by (eapply ready_inv_ext; [..|exact Hr]; unfold s1; by kproj).
  destruct (enqueue_inv s1 q (current_thread s) i f t Hr1 Ht) as (tt' & hd & tl & He & Hr' & Hs).
  { rewrite (r_ready _ _ _ Hr), (st_lookup _ _ _ Ht). congruence. }
  { rewrite <- (r_run _ _ _ Hr), (st_lookup _ _ _ Ht). congruence. }
  { done. }
  { by rewrite F2. }
  rewrite Hs1 in He.
  assert (ident <$> tt' = ident <$> alter f i (thread_table s)) as Hid by (symmetry; by apply still_proj, still_sbn).
  assert (alter f i (thread_table s) !! i = Some (f t)) as Hfi by (by rewrite list_lookup_alter_eq, Ht).
  destruct (ident_lookup _ _ _ _ (eq_sym Hid) Hfi) as (t' & Ht' & Hid'). injection Hid' as Htid _ _ _.
  eexists _, t'. split; [exact He|]. split; [|split_and!; [by unfold s1; kproj..|exact Ht'|congruence]].
  assert (u32 (next_tid s + 1) = next_tid s + 1) as Hw by (apply wrap_small; destruct Hti as [? _]; lia).
  split; unfold s1; kproj; rewrite ?E2, ?E3, ?E4, ?E7, ?E8, ?Hw.
  - unfold s1 in Hr'. exact Hr'.
  - done.
  - done.
  - eapply tids_ident; [exact Hid|]. eapply tids_new; eauto.
  - eapply procs_ident; [exact Hid|]. eapply procs_new; eauto. by rewrite F2.
Qed.

Lemma get_process_Some x s p : get_process x s = Some p -> exists P, process_table s !! p = Some P /\ pused P <> 0 /\ pid P = x.
Proof.
  intros (P & HP & Hb)%first_index_Some. exists P. apply andb_true_iff in Hb as [Hu He]. split_and!; [done| |lia].
  unfold c_true in Hu. by destruct (Z.eqb_spec (pused P) 0).
Qed.

(** A new thread may start at once; in the end its id is returned. *)
Lemma create_finish fuel s q i t : wf s q -> i ∈ q -> thread_table s !! i = Some t ->
  let '(s', r) := bind (fun s => if c_true (scheduler_enabled s) && bool_decide (current_thread s = None) then schedule fuel s else (s, Ret tt))
    (fun _ => bind (deref (Some i)) (fun '(_, t) => ret (s32 (tid t)))) s in
  if negb (scheduler_enabled s =? 0) && bool_decide (current_thread s = None)
  then r = Gone /\ wf s' (a_next q None).1 /\ current_thread s' = (a_next q None).2
  else r = Ret (s32 (tid t)) /\ wf s' q /\ current_thread s' = current_thread s.
Proof.
  intros Hw Hin Ht. unfold bind at 1, c_true. destruct (Z.eqb_spec (scheduler_enabled s) 0) as [He|He]; cbn [negb andb];
    [|case_bool_decide as Hc]; [cbn [after]; unfold bind; by rewrite (deref_some _ _ _ Ht)| |cbn [after]; unfold bind; by rewrite (deref_some _ _ _ Ht)].
  pose proof Hw as [Hr Hi Ho Hti Hpr]. rewrite Hc in Hr. pose proof (schedule_spec fuel s q None Hr) as Hs.
  pose proof (schedule_next fuel s q None Hr) as Hn. rewrite Hc in Hs, Hn. specialize (Hs ltac:(by left) He Hi).
  specialize (Hn ltac:(by left) He Hi Hti Hpr). destruct (schedule fuel s) as [s' r]. destruct Hs as (_ & _ & Hs), Hn as (Hw' & Hc' & _).
  destruct q as [|n q]; [by apply elem_of_nil in Hin|]. destruct Hs as (_ & _ & ->). done.
Qed.

Lemma setup_frame i s : is_Some (thread_table s !! i) ->
  exists c m, setup_thread_context i s = upd i (set_context c) (set_kmm m s).
Proof.
  intros [t Ht]. unfold setup_thread_context. rewrite Ht. destruct (foldl _ _ _) as [sp b]. eexists _, _. reflexivity.
Qed.

(** Every reason to fail. *)
Lemma creates_None fuel pd entry size s : creates fuel pd entry size s = None <->
  entry = 0 \/ has_room pd s = false \/ has_stack fuel size s = false \/ find_free_thread_slot s = None.
Proof.
  unfold creates. destruct (Z.eqb_spec entry 0); cbn [negb andb]; [naive_solver|].
  destruct (has_room pd s), (has_stack fuel size s); cbn; naive_solver.
Qed.

Lemma create_goes fuel pd entry size rt dl per s q : wf s q -> next_tid s < 2 ^ 32 - 1 -> Mem.kmalloc fuel size (kmm s) <> OutOfFuel ->
  let o := OpCreateThread pd entry size rt dl per in
  let '(s', r) := thread_create fuel pd entry size rt dl per s in fine r /\
  exists a', abs_step fuel o s r (q, current_thread s) a' /\ wf s' a'.1 /\ current_thread s' = a'.2.
Proof.
  intros Hw Hnt Hal o. assert (forall s', creates fuel pd entry size s = None -> wf s' q -> current_thread s' = current_thread s ->
    fine (Ret (-1)) /\ exists a', abs_step fuel o s (Ret (-1)) (q, current_thread s) a' /\
      wf s' a'.1 /\ current_thread s' = a'.2) as Hfail.
  { intros s' Hn Hw' Hc. split; [done|]. exists (q, current_thread s). cbn [abs_step o]. by rewrite Hn. }
  unfold thread_create. destruct (Z.eqb_spec entry 0) as [He|He]; [apply Hfail; [apply creates_None; auto|done..]|].
  assert (has_room pd s = false -> creates fuel pd entry size s = None) as Hroom by (intros; apply creates_None; auto).
  unfold has_room in Hroom. destruct (get_process pd s) as [p|] eqn:Egp; [|by auto].
  destruct (get_process_Some _ _ _ Egp) as (P & HP & Hpu & _). rewrite HP in *.
  destruct (Z.geb_spec (thread_count P) (Z.of_nat MAX_THREADS_PER_PROCESS)) as [Hfull|Hcnt].
  { apply Hfail; [apply Hroom, Z.ltb_ge; unfold MAX_THREADS_PER_PROCESS in Hfull; lia|done..]. }
  destruct (find_free_thread_slot s) as [i|] eqn:Ef; [|apply Hfail; [apply creates_None; auto|done..]].
  pose proof Ef as (t & Ht & Hu%Z.eqb_eq)%first_index_Some.
  unfold bind at 1, lift. pose proof (kmalloc_in_bounds fuel size (kmm s)) as Hnb.
  assert (has_stack fuel size s = match Mem.kmalloc fuel size (kmm s) with Done (base, _) => negb (base =? 0) | _ => false end) as Hst by done.
  destruct (Mem.kmalloc fuel size (kmm s)) as [[base m]| |] eqn:Em; [|done|done]. cbn [after]. unfold bind at 1, modify at 1. cbn [after].
  destruct (base =? 0).
  - apply Hfail; [apply creates_None; auto| |done].
    eapply (wf_keeps s); [..|apply Hw|apply Hw]; [|by eapply ready_inv_ext; [..|apply Hw]; [apply fmap_alter_same|..]|apply Hw|apply Hw].
    split; [|done..]. by apply fmap_alter_same.
  - assert (creates fuel pd entry size s = Some i) as Hcr.
    { unfold creates. rewrite (proj2 (Z.eqb_neq _ _) He), Hst. unfold has_room. rewrite Egp, HP, (proj2 (Z.ltb_lt _ _)); [done|].
      unfold MAX_THREADS_PER_PROCESS in Hcnt. lia. }
    unfold bind at 1, modify at 1. cbn [after]. unfold bind at 1. cbn [after]. unfold bind at 1, modify at 1. cbn [after].
    match goal with |- context [setup_thread_context i ?x] => destruct (setup_frame i x) as (cx & m' & ->) end.
    { kproj. rewrite !list_lookup_alter_eq, Ht. done. }
    do 2 (unfold bind at 1, modify at 1; cbn [after]). kproj.
    match goal with |- context [bind (ready_queue_add (Some i)) _ ?x] => set (s0 := x) end.
    set (f := fun t => set_sched (mk_deadline rt dl per 0 rt) 0 (set_context cx (init_thread (next_tid s) p entry (set_stack base size t)))).
    assert (thread_table s0 = alter f i (thread_table s)) as E1 by (unfold s0; kproj; by rewrite !list_alter_alter_eq).
    destruct (create_enqueue s s0 q i t p P f Hw Ht Hu HP Hpu Hcnt Hnt eq_refl eq_refl eq_refl eq_refl E1) as (s1 & t1 & Hq & Hw1 & Hc1 & He1 & Ht1 & Htid);
      [unfold s0; kproj; reflexivity..|].
    unfold bind at 1. rewrite Hq. cbn [after]. pose proof (create_finish fuel s1 (q ++ [i]) i t1 Hw1 ltac:(set_solver) Ht1) as Hfin.
    rewrite Hc1, He1, Htid in Hfin. destruct (bind _ _ s1) as [s' r]. cbn [abs_step o]. rewrite Hcr.
    destruct (negb (scheduler_enabled s =? 0) && bool_decide (current_thread s = None)); destruct Hfin as (-> & Hw' & Hc');
      (split; [done|eexists; split; [split; reflexivity|done]]).
Qed.

(** ** All operations *)
Lemma op_refines fuel o s q s' r : wf s q -> next_tid s < 2 ^ 32 - 1 -> allocator_returns fuel o s -> run_op fuel o s = (s', r) ->
  fine r /\ exists q', wf s' q' /\ abs_step fuel o s r (q, current_thread s) (q', current_thread s').
Proof.
  intros Hw Hnt Hal He. assert (forall a, goes (run_op fuel o) s a -> abs_step fuel o s r (q, current_thread s) a ->
    fine r /\ exists q', wf s' q' /\ abs_step fuel o s r (q, current_thread s) (q', current_thread s')) as Hgo.
  { intros [q' run'] Hg Ha. unfold goes in Hg. rewrite He in Hg. destruct Hg as (? & Hw' & Hc). cbn in Hw', Hc. split; [done|].
    exists q'. by rewrite Hc. }
  destruct o; cbn [run_op] in *.
  - eapply Hgo; [by apply goes_as_int, tick_goes|done].
  - eapply Hgo; [by apply goes_as_int, yield_goes|done].
  - eapply Hgo; [by apply goes_as_int, schedule_goes|done].
  - eapply Hgo; [by apply goes_as_int, enable_goes|done].
  - eapply Hgo; [by apply goes_as_int, exit_goes|]. split; [|by destruct (current_thread s)].
    pose proof (exit_no_return fuel s) as Hx. unfold as_int, bind in He. destruct (thread_exit fuel s) as [s1 r1]. cbn in Hx.
    intros v ->. destruct r1 as [[]| | | | | |]; [by destruct (Hx tt)|done..].
  - eapply Hgo; [by apply goes_as_int, block_goes|done].
  - eapply Hgo; [by apply goes_as_int, unblock_goes|done].
  - clear Hgo. pose proof (create_goes fuel pd entry size rt dl per s q Hw Hnt Hal) as Hx. cbv zeta in Hx. rewrite He in Hx.
    destruct Hx as (Hf & [q' run'] & Ha & Hw' & Hc). split; [done|]. exists q'. cbn in Hw', Hc. by rewrite Hc.
  - clear Hgo. pose proof (process_create_wf n ms s q Hw) as Hx. destruct (process_create n ms s) as [r1 s1]. injection He as <- <-.
    split; [done|]. exists q. destruct Hx as (-> & ? & ->). done.
Qed.

End WithImage.
End SchedInv.
