(* ===== verification/SchedClaims.v ===== *)
(** * What the scheduler guarantees

    Refinement of the abstract round-robin scheduler and the invariant of the
    states reached by operations that are not interrupted, what a timer tick
    inside [ready_queue_add] does, fairness, and the context switch: what it
    saves and restores, and the one path that loses a thread's registers. *)
From Stdlib Require Import ZArith Lia.
From stdpp Require Import base numbers list sets relations.
From S2P Require Import Prelude Memory MemoryProps Scheduler SchedProps SchedInv.
Local Open Scope Z_scope.

Module SchedClaims.
Import Sched SchedProps SchedInv.
Local Open Scope sched_scope.

Section WithImage.
Context `{Image}.

(** C2: The scheduler implements a round-robin queue, as long as no timer interrupt arrives inside an operation: from a
    well-formed state every operation (timer tick, yield, block, unblock, creating and ending threads, enabling,
    creating a process) that runs to its end uninterrupted, and whose call of the allocator comes back, leads to a
    well-formed state without following a bad pointer, and changes the ready list and the running thread exactly as
    the abstract scheduler [abs_step] says; creating a thread fails with -1 exactly when there is no entry point, no
    such process, no room in the process, no free slot or no stack, and otherwise answers the next thread id, unless
    the processor goes straight to the new thread. *)
Theorem sched_refines fuel o s q s' r : wf s q -> next_tid s < 2 ^ 32 - 1 -> allocator_returns fuel o s -> run_op fuel o s = (s', r) ->
  r <> Fault /\ r <> Unfinished /\ exists q', wf s' q' /\ abs_step fuel o s r (q, current_thread s) (q', current_thread s').
Proof. intros Hw Hn Ha He. destruct (op_refines fuel o s q s' r Hw Hn Ha He) as ([? ?] & Hx). auto. Qed.

(** The kernel runs operations from beginning to end, and between them the current thread computes: registers and memory
    change as it likes. *)
Inductive kstep : kernel -> kernel -> Prop :=
| step_op fuel o s s' r : next_tid s < 2 ^ 32 - 1 -> allocator_returns fuel o s -> run_op fuel o s = (s', r) -> kstep s s'
| step_compute r m s : kstep s (set_regs r (set_kmm m s)).

(** After [process_init] and [scheduler_init]. *)
Definition booted (s : kernel) : Prop :=
  exists s0, length (thread_table s0) = 256%nat /\ next_tid s0 = 1 /\ s = scheduler_init (process_init s0).

Lemma wf_machine s s' q : machine s s' -> wf s q -> wf s' q /\ current_thread s' = current_thread s.
Proof.
  intros Hm [Hr Hi Ho Ht Hp]. pose proof (ready_inv_machine _ _ _ _ Hm Hr) as Hr'. destruct Hm as (r & m & ->). by split.
Qed.

Lemma booted_wf s : booted s -> wf s [].
Proof.
  intros (s0 & Hl & Hn & ->).
  assert (forall i t, map null_thread (thread_table s0) !! i = Some t -> exists t0, t = null_thread t0) as Hnull.
  { intros i t Ht. change (map null_thread) with (fmap (M := list) null_thread) in Ht. rewrite list_lookup_fmap in Ht.
    destruct (thread_table s0 !! i) as [t0|]; [|done]. injection Ht as <-. by exists t0. }
  assert (forall i, st (map null_thread (thread_table s0)) i <> Some THREAD_STATE_READY /\
                    st (map null_thread (thread_table s0)) i <> Some THREAD_STATE_RUNNING) as Hst.
  { intros i. unfold st. destruct (map null_thread (thread_table s0) !! i) as [t|] eqn:Et; [|done].
    destruct (Hnull i t Et) as [t0 ->]. done. }
  unfold scheduler_init, process_init. split; kproj; [|done|done| |].
  - split; kproj.
    + by rewrite length_map.
    + split; [done|done|apply NoDup_nil_2].
    + intros i. split; [by intros ?%elem_of_nil|]. intros Hx. by destruct (Hst i).
    + intros i. split; [|done]. intros Hx. by destruct (Hst i).
    + intros i t Ht. destruct (Hnull i t Ht) as [t0 ->]. done.
  - rewrite Hn. split_and!; [lia| |]; [intros i t Ht|intros i j t u Ht _]; destruct (Hnull i t Ht) as [t0 ->]; done.
  - split_and!; [done| |intros i t Ht; destruct (Hnull i t Ht) as [t0 ->]; done].
    intros p P HP. apply lookup_replicate in HP as [-> _]. split; cbn; [done|lia|done|]. exists []. split_and!; [done|apply NoDup_nil_2|].
    intros i. split; [by intros ?%elem_of_nil|]. intros (t & Ht & Hu & _). destruct (Hnull i t Ht) as [t0 ->]. done.
Qed.

(** Every state the kernel reaches from boot by operations that are not interrupted keeps the scheduler's invariant:
    the ready queue is a list without repetition of exactly the READY threads, at most one thread is RUNNING and it is
    the current one, a slot is free exactly when its thread is terminated, live thread ids are distinct, and every
    process lists exactly its live threads. The code does not keep interrupts out of the operations: what a tick inside
    one of them does is [unblock_preempted]. *)
Theorem sched_reachable_wf s0 s : booted s0 -> rtc kstep s0 s -> exists q, wf s q.
Proof.
  intros Hb Hs. assert (exists q, wf s0 q) as Hw by (eexists; by apply booted_wf). clear Hb.
  induction Hs as [|s0 s1 s Hstep _ IH]; [done|]. apply IH. clear IH. destruct Hw as [q Hw].
  destruct Hstep as [fuel o s0 s1 r Hnt Ha He|r m s0].
  - destruct (op_refines fuel o s0 q s1 r Hw Hnt Ha He) as (_ & q' & Hw' & _). eauto.
  - exists q. apply (wf_machine s0); [by exists r, m|done].
Qed.

(** ** A timer interrupt in the middle of [ready_queue_add] *)

(** [ready_queue_add] of a thread with [irq] served between the two assignments of the branch taken. *)
Definition ready_queue_add_irq (irq : M unit) (i : nat) : M unit := fun s =>
  let s := upd i (set_next None) s in
  match ready_queue_head s with
  | None => (modify (set_head (Some i)) ;;; irq ;;; modify (set_tail (Some i))) s
  | Some _ => (let! (l, _) := deref (ready_queue_tail s) in
               modify (upd l (set_next (Some i))) ;;; irq ;;; modify (set_tail (Some i))) s
  end.
Definition thread_unblock_irq (irq : M unit) (t : Z) : M unit := fun s =>
  match get_thread t s with
  | None => (s, Ret tt)
  | Some i =>
      if state_is THREAD_STATE_BLOCKED (Some i) s
      then ready_queue_add_irq irq i (upd i (set_state THREAD_STATE_READY) s) else (s, Ret tt)
  end.

(** Without an interrupt they are the functions of the code. *)
Lemma unblock_irq_none t s : thread_unblock_irq (ret tt) t s = thread_unblock t s.
Proof.
  unfold thread_unblock_irq, thread_unblock. destruct (get_thread t s) as [i|]; [|done]. destruct (state_is _ _ s); [|done].
  unfold ready_queue_add_irq, ready_queue_add. destruct (ready_queue_head _); [|done].
  unfold bind, deref. destruct (ready_queue_tail _) as [l|] eqn:El; [|done]. destruct (_ !! l); cbn [after]; [|done].
  cbn [upd ready_queue_tail set_threads] in *. by rewrite El.
Qed.

Lemma queue_chain_fun tt q1 : forall p q2, chain tt p q1 -> chain tt p q2 -> q1 = q2.
Proof.
  induction q1 as [|i q1 IH]; intros p [|j q2] H1 H2; cbn in *; [done|naive_solver..|].
  destruct H1 as (-> & _ & H1), H2 as ([= <-] & _ & H2). f_equal. eauto.
Qed.

Lemma alter_overwrite a b (l c : nat) (f g : thread -> thread) (tt : list thread) : l <> c ->
  alter (set_next a) l (alter f c (alter g c (alter (set_next b) l tt))) = alter (set_next a) l (alter f c (alter g c tt)).
Proof.
  intros Hlc. apply list_eq. intros j. destruct (decide (j = l)) as [->|Hj].
  - rewrite !list_lookup_alter_eq, !(list_lookup_alter_ne _ _ c l), list_lookup_alter_eq by done. by destruct (tt !! l).
  - rewrite !(list_lookup_alter_ne _ _ l j) by done. destruct (decide (j = c)) as [->|Hjc].
    + rewrite !list_lookup_alter_eq, list_lookup_alter_ne by done. done.
    + by rewrite !list_lookup_alter_ne by done.
Qed.

(** A thread that runs goes back to the end of the queue. *)
Lemma requeue_running c s : st (thread_table s) c = Some THREAD_STATE_RUNNING ->
  requeue (Some c) s = ready_queue_add (Some c) (upd c (set_state THREAD_STATE_READY) s).
Proof. intros Hc. unfold requeue. rewrite state_is_st, bool_decide_eq_true_2 by done. done. Qed.

(** The tick inside sees a tail that is NULL. *)
Lemma preempted_empty fuel i c s : st (thread_table s) c = Some THREAD_STATE_RUNNING -> current_thread s = Some c ->
  scheduler_enabled s <> 0 -> in_scheduler s = 0 -> ready_queue_head s = Some i -> ready_queue_tail s = None ->
  (scheduler_tick fuel s).2 = Fault.
Proof.
  intros Hc Hcur He Hi Hh Ht. unfold scheduler_tick. rewrite (proj2 (Z.eqb_neq _ _) He), Hi, Hh. cbn [c_true negb Z.eqb].
  assert (requeue (Some c) (set_in_scheduler 1 s) = (upd c (set_next None) (upd c (set_state THREAD_STATE_READY) (set_in_scheduler 1 s)), Fault)) as Hr.
  { rewrite requeue_running by done. unfold ready_queue_add. kproj. rewrite Hh. unfold bind, deref. kproj. by rewrite Ht. }
  destruct fuel; cbn [schedule]; rewrite (proj2 (Z.eqb_neq _ _) He), Hi; cbn [c_true negb Z.eqb]; kproj; rewrite Hcur; unfold bind at 1;
    rewrite Hr; done.
Qed.

(** The tick overwrites the link to the thread that is being added. *)
Lemma preempted_requeue c i l q s T : queue_ok (set_threads T s) (q ++ [l]) -> c ∉ q ++ [l] ->
  st T c = Some THREAD_STATE_RUNNING ->
  exists tt', let s' := with_queue tt' (head ((q ++ [l]) ++ [c])) (Some c) s in
  requeue (Some c) (set_threads (alter (set_next (Some i)) l T) s) = (s', Ret tt) /\ queue_ok s' ((q ++ [l]) ++ [c]) /\
  same_but_next (alter (set_state THREAD_STATE_READY) c T) tt'.
Proof.
  intros Hq Hc Hst. assert (l <> c) as Hlc by set_solver.
  assert (is_Some (T !! c)) as HTc by (unfold st in Hst; destruct (T !! c); by eauto).
  assert (is_Some (T !! l)) as HTl by (eapply chain_in; [apply (q_chain _ _ Hq)|set_solver]).
  assert (queue_ok (upd c (set_state THREAD_STATE_READY) (set_threads T s)) (q ++ [l])) as Hq'.
  { destruct Hq as [H1 H2 H3]. split; kproj; [by apply chain_alter|done|done]. }
  destruct (ready_queue_add_spec _ _ c Hq') as (tt' & He & Hok & Hs); [kproj; by apply alter_is_Some|done|].
  exists tt'. cbv zeta. split; [|split; [exact Hok|exact Hs]].
  rewrite requeue_running by (kproj; by rewrite st_same).
  transitivity (ready_queue_add (Some c) (upd c (set_state THREAD_STATE_READY) (set_threads T s))); [|exact He].
  clear He Hok. unfold ready_queue_add. kproj. pose proof (q_tail _ _ Hq) as Ht. rewrite last_snoc in Ht. kproj.
  destruct (ready_queue_head s) as [h|] eqn:Eh.
  2: { pose proof (q_chain _ _ Hq) as Hx. kproj. rewrite Eh in Hx. destruct q; cbn in Hx; naive_solver. }
  unfold bind, deref. kproj. rewrite Ht.
  assert (forall X, is_Some (X !! l) -> is_Some (alter (set_next None) c (alter (set_state THREAD_STATE_READY) c X) !! l)) as Hl
    by (intros X HX; by rewrite !alter_is_Some).
  destruct (Hl T HTl) as [t1 ->]. destruct (Hl (alter (set_next (Some i)) l T)) as [t2 ->]; [by apply alter_is_Some|].
  cbn [after]. kproj. rewrite Ht. unfold upd. kproj. by rewrite alter_overwrite.
Qed.

Lemma preempted_switch fuel c i l q s T : queue_ok (set_threads T s) (q ++ [l]) -> c ∉ q ++ [l] -> i <> c -> i ∉ q ++ [l] ->
  st T c = Some THREAD_STATE_RUNNING -> st T i = Some THREAD_STATE_READY -> current_thread s = Some c ->
  scheduler_enabled s <> 0 -> in_scheduler s = 0 ->
  exists n q' s', q ++ [l] = n :: q' /\
  scheduler_tick fuel (set_threads (alter (set_next (Some i)) l T) s) = (s', Switched (fun s => (sti s, Ret tt))) /\
  current_thread s' = Some n /\ chain (thread_table s') (ready_queue_head s') (q' ++ [c]) /\
  st (thread_table s') i = Some THREAD_STATE_READY.
Proof.
  intros Hq Hc Hic Hiq Hst Hsti Hcur He Hi.
  destruct (preempted_requeue c i l q (set_in_scheduler 1 s) T) as (tt' & Hrq & Hok & Hs); [by destruct Hq|done..|].
  destruct (q ++ [l]) as [|n q'] eqn:Eq; [by destruct q|]. exists n, q'. cbn [app hd_error] in Hrq, Hok. cbv zeta in *.
  destruct (schedule_eq fuel (set_threads (alter (set_next (Some i)) l T) s)
    (with_queue tt' (Some n) (Some c) (set_in_scheduler 1 s))) as [k Hk]; [done..|by kproj; rewrite Hcur|].
  pose proof (q_chain _ _ Hok) as Hch. pose proof (q_nodup _ _ Hok) as Hnd. kproj. destruct Hch as (_ & [t Ht] & Hch).
  apply NoDup_cons in Hnd as [Hn Hnd].
  assert (scheduler_tick fuel (set_threads (alter (set_next (Some i)) l T) s) = schedule fuel (set_threads (alter (set_next (Some i)) l T) s)) as Htick.
  { unfold scheduler_tick. kproj. rewrite (proj2 (Z.eqb_neq _ _) He), Hi. cbn [c_true negb Z.eqb].
    pose proof (q_chain _ _ Hq) as (Hx & _). kproj. by rewrite Hx. }
  rewrite Htick, Hk. unfold sched_pick. kproj. rewrite Ht, Hcur, decide_False by set_solver.
  match goal with |- context [switch_to_thread c n ?x] => set (s1 := x) end. exists (switch_to_thread c n s1).
  destruct (switch_frame c n s1) as (f & Hf & _ & r & m & ->). split_and!; [done|done|done| |].
  - unfold s1, dequeue. case_decide; kproj; (apply chain_alter; [intros t0; specialize (Hf t0); unfold links in Hf; congruence|]);
      (apply chain_alter; [done|]); (apply chain_set_next_out; [done|]); unfold nx in Hch; rewrite Ht in Hch; exact Hch.
  - assert (st tt' i = Some THREAD_STATE_READY) as Hi' by (by rewrite <- (sbn_st _ _ i Hs), st_set_state, decide_False by congruence).
    assert (st (alter f c (alter (set_state THREAD_STATE_RUNNING) n (alter (set_next None) n tt'))) i = Some THREAD_STATE_READY) as Hx.
    { rewrite st_alter, decide_False, st_set_state, decide_False, st_same; [done|done|set_solver|congruence]. }
    unfold s1, dequeue. case_decide; kproj; exact Hx.
Qed.

(** C5: The scheduler's queue is not safe against the timer: [ready_queue_add] has no interrupt protection, and a tick
    between its two assignments while a thread unblocks another one (as the [fg] command does) writes through the NULL
    tail pointer when the queue was empty, and otherwise overwrites the link to the unblocked thread: another thread
    runs, the unblocked thread is READY but not on the queue, so the invariant is gone, and when the interrupted
    thread goes on it makes the lost thread the tail, behind which all threads added later are lost too. *)
Theorem unblock_preempted fuel x s q c i : wf s q -> current_thread s = Some c -> get_thread x s = Some i ->
  st (thread_table s) i = Some THREAD_STATE_BLOCKED ->
  let '(s', r) := thread_unblock_irq (scheduler_tick fuel) x s in
  match q with
  | [] => r = Fault
  | n :: q' => current_thread s' = Some n /\ chain (thread_table s') (ready_queue_head s') (q' ++ [c]) /\ i ∉ q' ++ [c] /\
      st (thread_table s') i = Some THREAD_STATE_READY /\ (forall q2, ~ wf s' q2) /\
      exists k, r = Switched k /\ forall s2, k s2 = (set_tail (Some i) (sti s2), Ret tt)
  end.
Proof.
  intros Hw Hcur Hg Hb. pose proof Hw as [Hr Hin Ho _ _]. pose proof Hr as [_ [Hch Htl Hnd] Hrd Hrn _].
  assert (st (thread_table s) c = Some THREAD_STATE_RUNNING) as Hc by by apply Hrn.
  assert (i <> c) as Hic by congruence. assert (i ∉ q) as Hiq by (rewrite Hrd; congruence).
  assert (c ∉ q) as Hcq by (rewrite Hrd; congruence).
  assert (scheduler_enabled s <> 0) as He by (intros Hx; specialize (Ho Hx); congruence).
  unfold thread_unblock_irq. rewrite Hg, state_is_st, bool_decide_eq_true_2 by done. unfold ready_queue_add_irq.
  set (T := alter (set_next None) i (alter (set_state THREAD_STATE_READY) i (thread_table s))).
  assert (forall j, st T j = if decide (i = j) then Some THREAD_STATE_READY else st (thread_table s) j) as HT.
  { intros j. unfold T. rewrite st_same, st_set_state by done. case_decide; [|done]. subst. unfold st in Hb. by destruct (_ !! j). }
  assert (st T c = Some THREAD_STATE_RUNNING) as HTc by (by rewrite HT, decide_False).
  assert (st T i = Some THREAD_STATE_READY) as HTi by (by rewrite HT, decide_True).
  pose proof (wf_head _ _ Hw) as Hh. destruct (decide (q = [])) as [->|Hq].
  - kproj. rewrite Hh. cbn [hd_error]. unfold bind at 1, modify at 1. cbn [after]. unfold bind at 1.
    match goal with |- context [scheduler_tick fuel ?z] => pose proof (preempted_empty fuel i c z HTc) as Hp end. kproj.
    specialize (Hp Hcur He Hin eq_refl Htl). destruct (scheduler_tick fuel _) as [s' r]. cbn in Hp. by subst r.
  - destruct (exists_last Hq) as (q0 & l & El). rewrite El in Htl. rewrite last_snoc in Htl.
    assert (queue_ok (set_threads T s) (q0 ++ [l])) as Hqok.
    { rewrite <- El. split; kproj; [|by rewrite El, last_snoc|done]. by apply chain_set_next_out, chain_alter. }
    destruct (preempted_switch fuel c i l q0 s T) as (n & q' & s' & Eq & Ht & Hc' & Hch' & Hi'); [done|by rewrite <- El|done|by rewrite <- El|done..|].
    rewrite <- El in Eq. kproj. rewrite Hh, Eq. cbn [hd_error]. unfold bind at 1. rewrite Htl.
    destruct (chain_in _ _ _ l (q_chain _ _ Hqok) ltac:(set_solver)) as [tl Etl]. rewrite (deref_some _ _ tl) by exact Etl. cbn [after].
    unfold bind at 1, modify at 1. cbn [after]. unfold bind at 1. unfold upd. kproj. fold T.
    match goal with |- context [scheduler_tick fuel ?z] => change z with (set_threads (alter (set_next (Some i)) l T) s) end.
    rewrite Ht. cbn [after]. assert (i ∉ q' ++ [c]) as Hout by (rewrite Eq in Hiq; clear -Hiq Hic; set_solver). split_and!; [done|done|done|done| |].
    + intros q2 [[_ [Hch2 _ _] Hrd2 _ _] _ _ _ _]. apply Hout. rewrite (queue_chain_fun _ _ _ _ Hch' Hch2). by apply Hrd2.
    + eexists. split; [reflexivity|]. done.
Qed.

(** [n] timer ticks; after each of them the thread that runs computes. *)
Inductive ticks (fuel : nat) : nat -> kernel -> kernel -> Prop :=
| ticks_0 s : ticks fuel 0 s s
| ticks_S n s s1 r s2 s3 : scheduler_tick fuel s = (s1, r) -> machine s1 s2 -> ticks fuel n s2 s3 -> ticks fuel (S n) s s3.

(** C9: Round robin is fair: with the timer ticking, the thread at position [k] of the ready queue is the running one
    after [k + 1] ticks, whatever the threads compute in between; the threads that ran meanwhile are behind the
    others in the queue. *)
Theorem round_robin fuel q1 i q2 s s' : wf s (q1 ++ i :: q2) -> scheduler_enabled s <> 0 ->
  ticks fuel (S (length q1)) s s' ->
  wf s' (q2 ++ option_list (current_thread s) ++ q1) /\ current_thread s' = Some i /\
  st (thread_table s') i = Some THREAD_STATE_RUNNING.
Proof.
  revert q2 s. induction q1 as [|n q1 IH]; intros q2 s Hw He Hs; inversion Hs as [|k a s1 r s2 b Ht Hm Hrest]; subst; clear Hs;
    pose proof (tick_goes fuel s _ Hw) as Hg; unfold goes in Hg; rewrite Ht in Hg;
    rewrite (proj2 (Z.eqb_neq _ _) He), bool_decide_eq_true_2 in Hg by done; cbn in Hg; destruct Hg as (_ & Hw1 & Hc1);
    destruct (wf_machine _ _ _ Hm Hw1) as [Hw2 Hc2].
  - inversion Hrest; subst. rewrite app_nil_r. split_and!; [done|congruence|]. apply (r_run _ _ _ (w_ready _ _ Hw2)). congruence.
  - assert (scheduler_enabled s2 <> 0) as He2 by (intros Hx; apply (w_off _ _ Hw2) in Hx; congruence).
    destruct (IH (q2 ++ option_list (current_thread s)) s2) as (H1 & H2 & H3); [by rewrite <- app_assoc in Hw2|done|done|].
    rewrite Hc2, Hc1 in H1. cbn in H1. split_and!; [|done|done]. by rewrite <- app_assoc in H1.
Qed.

(** ** The context switch *)
Definition memory (s : kernel) : Mem.bytes := Mem.mem (kmm s).
Definition word_regs (c : cpu) : Prop :=
  is_u64 (rsp c) /\ is_u64 (rbp c) /\ is_u64 (rbx c) /\ is_u64 (r12 c) /\ is_u64 (r13 c) /\ is_u64 (r14 c) /\ is_u64 (r15 c) /\ is_u64 (rflags c).

Lemma push_rsp v s : 8 <= rsp (regs s) < 2 ^ 64 -> rsp (regs (push v s)) = rsp (regs s) - 8 /\
  memory (push v s) = Mem.store64 (memory s) (rsp (regs s) - 8) v.
Proof.
  intros Hs. unfold push, memory. kproj. cbn [rsp with_rsp Mem.mem Mem.set_mem].
  assert (u64 (rsp (regs s) - 8) = rsp (regs s) - 8) as -> by (apply wrap_small; lia). done.
Qed.

(** Pushed words lie below each other; the rest of memory is untouched. *)
Lemma pushes_spec l : forall s, 8 * Z.of_nat (length l) <= rsp (regs s) < 2 ^ 64 -> Forall is_u64 l ->
  let s' := foldl (fun s v => push v s) s l in
  rsp (regs s') = rsp (regs s) - 8 * Z.of_nat (length l) /\ thread_table s' = thread_table s /\
  (forall j v, l !! j = Some v -> Mem.load64 (memory s') (rsp (regs s) - 8 * (Z.of_nat j + 1)) = v) /\
  (forall a, a < rsp (regs s) - 8 * Z.of_nat (length l) \/ rsp (regs s) <= a -> Mem.peek (memory s') a = Mem.peek (memory s) a).
Proof.
  induction l as [|v l IH]; intros s Hs Hl; cbn [foldl length]; [split_and!; [cbn; lia|done|done|done]|].
  apply Forall_cons in Hl as [Hv Hl]. cbn [length] in Hs. destruct (push_rsp v s) as [H1 H2]; [lia|].
  destruct (IH (push v s)) as (I1 & I2 & I3 & I4); [rewrite H1; lia|done|]. rewrite H1 in *. split_and!.
  - rewrite I1. lia.
  - by rewrite I2.
  - intros [|j] w Hw.
    + injection Hw as <-. transitivity (Mem.load64 (memory (push v s)) (rsp (regs s) - 8 * (0 + 1))).
      * apply MemProps.load_ext. intros x Hx. apply I4. lia.
      * rewrite H2. replace (rsp (regs s) - 8 * (0 + 1)) with (rsp (regs s) - 8) by lia. by apply MemProps.load64_store64.
    + rewrite <- (I3 j w Hw). f_equal. lia.
  - intros a Ha. rewrite I4 by lia. rewrite H2. unfold Mem.store64.
    rewrite MemProps.peek_store, length_le_bytes, decide_False; [done|lia].
Qed.

Lemma load_context_memory a b s : memory (load_context a b s) = memory s.
Proof. unfold load_context. destruct (_ !! b); done. Qed.

Lemma load_context_context a b s t : thread_table s !! a = Some t ->
  exists t1, thread_table (load_context a b s) !! a = Some t1 /\ c_rsp (context t1) = rsp (regs s).
Proof.
  intros Ht. set (f := fun t => set_context (set_rsp (rsp (regs s)) (context t)) t).
  exists (f t). split; [|done]. unfold load_context. fold f. kproj.
  assert (alter f a (thread_table s) !! a = Some (f t)) as Hf by (by rewrite list_lookup_alter_eq, Ht).
  destruct (alter f a (thread_table s) !! b); exact Hf.
Qed.

Lemma load_context_regs a b s t : thread_table s !! b = Some t -> a <> b ->
  regs (load_context a b s) = regs (restore_frame (c_rsp (context t)) s).
Proof. intros Ht Hab. unfold load_context. kproj. by rewrite list_lookup_alter_ne, Ht by done. Qed.

Lemma restore_regs sp s : regs (restore_frame sp s) =
  let w i := Mem.load64 (memory s) (u64 (sp + 8 * i)) in mk_cpu (u64 (sp + 64)) (w 2) (w 1) (w 3) (w 4) (w 5) (w 6) (w 0) (w 7).
Proof. reflexivity. Qed.

Lemma frame_pushed s : word_regs (regs s) -> is_u64 after_switch -> 64 <= rsp (regs s) ->
  let s1 := save_frame s in
  rsp (regs s1) = rsp (regs s) - 64 /\ thread_table s1 = thread_table s /\
  (forall j v, frame_words (regs s) !! j = Some v -> Mem.load64 (memory s1) (rsp (regs s) - 8 * (Z.of_nat j + 1)) = v) /\
  (forall x, x < rsp (regs s) - 64 \/ rsp (regs s) <= x -> Mem.peek (memory s1) x = Mem.peek (memory s) x).
Proof.
  intros (W1 & W2 & W3 & W4 & W5 & W6 & W7 & W8) Ha Hs. apply pushes_spec; [cbn; unfold is_u64 in *; lia|].
  repeat (apply Forall_cons_2; [done|]). apply Forall_nil_2.
Qed.

(** Popping the frame [c] was pushed as. *)
Lemma restore_saved (s : kernel) (c : cpu) : 64 <= rsp c < 2 ^ 64 ->
  (forall j v, frame_words c !! j = Some v -> Mem.load64 (memory s) (rsp c - 8 * (Z.of_nat j + 1)) = v) ->
  regs (restore_frame (rsp c - 64) s) =
    mk_cpu (rsp c) (rbp c) (rbx c) (r12 c) (r13 c) (r14 c) (r15 c) (rflags c) after_switch.
Proof.
  intros Hb Hld. rewrite restore_regs. cbv beta zeta.
  assert (forall i j v, frame_words c !! j = Some v -> i = 7 - Z.of_nat j -> Mem.load64 (memory s) (u64 (rsp c - 64 + 8 * i)) = v) as Hwd.
  { intros i j v Hj ->. pose proof (lookup_lt_Some _ _ _ Hj) as Hlt. cbn in Hlt. rewrite <- (Hld j v Hj). f_equal.
    rewrite wrap_small by lia. lia. }
  rewrite (Hwd 0 7%nat (rflags c)), (Hwd 1 6%nat (rbx c)), (Hwd 2 5%nat (rbp c)), (Hwd 3 4%nat (r12 c)), (Hwd 4 3%nat (r13 c)),
    (Hwd 5 2%nat (r14 c)), (Hwd 6 1%nat (r15 c)), (Hwd 7 0%nat after_switch) by (done || lia).
  f_equal. rewrite wrap_small; lia.
Qed.

Lemma resume_saved a b x (s s1 s2 s3 : kernel) t c :
  rsp (regs s1) = rsp c - 64 -> thread_table s1 !! a = Some t -> thread_table s3 = thread_table s2 -> a <> x ->
  64 <= rsp c < 2 ^ 64 ->
  c_rsp <$> (context <$> thread_table s2 !! a) = c_rsp <$> (context <$> thread_table (load_context a b s1) !! a) ->
  (forall j v, frame_words c !! j = Some v -> Mem.load64 (memory s1) (rsp c - 8 * (Z.of_nat j + 1)) = v) ->
  (forall y, rsp c - 64 <= y < rsp c -> Mem.peek (memory s3) y = Mem.peek (memory (load_context a b s1)) y) ->
  regs (load_context x a s3) =
    mk_cpu (rsp c) (rbp c) (rbx c) (r12 c) (r13 c) (r14 c) (r15 c) (rflags c) after_switch.
Proof.
  intros P1 Ht Q2 Hax Hb Hctx P3 Hmem.
  destruct (load_context_context a b s1 t Ht) as (t1 & Ht1 & Hr1). rewrite Ht1 in Hctx.
  destruct (thread_table s2 !! a) as [t2|] eqn:Et2; [|done]. cbn in Hctx. injection Hctx as Hctx.
  rewrite (load_context_regs x a s3 t2) by (done || by rewrite Q2). rewrite Hctx, Hr1, P1.
  apply restore_saved; [done|]. intros j v Hj. rewrite <- (P3 j v Hj). pose proof (lookup_lt_Some _ _ _ Hj) as Hlt. cbn in Hlt.
  apply MemProps.load_ext. intros y Hy. change (Z.of_nat 8) with 8 in Hy. rewrite Hmem, load_context_memory by lia. done.
Qed.

#[local] Opaque save_frame.

(** C22: A context switch loses nothing: if thread [a] switches to [b] and later thread [x] switches back to [a], then [a]
    goes on with the stack pointer, the callee-saved registers and the flags it had and at the instruction after its
    call, provided nobody wrote to the 64 bytes of its frame or changed its saved stack pointer meanwhile and
    the frame [x] pushes does not overlap it. *)
Theorem switch_round_trip a b x s s2 t : word_regs (regs s) -> is_u64 after_switch -> 64 <= rsp (regs s) ->
  thread_table s !! a = Some t -> a <> x ->
  c_rsp <$> (context <$> thread_table s2 !! a) = c_rsp <$> (context <$> thread_table (switch_to_thread a b s) !! a) ->
  (forall y, rsp (regs s) - 64 <= y < rsp (regs s) -> Mem.peek (memory s2) y = Mem.peek (memory (switch_to_thread a b s)) y) ->
  word_regs (regs s2) -> 64 <= rsp (regs s2) -> rsp (regs s2) <= rsp (regs s) - 64 \/ rsp (regs s) <= rsp (regs s2) - 64 ->
  let c := regs s in
  regs (switch_to_thread x a s2) = mk_cpu (rsp c) (rbp c) (rbx c) (r12 c) (r13 c) (r14 c) (r15 c) (rflags c) after_switch.
Proof.
  intros Hw Ha Hs Ht Hax Hctx Hmem Hw2 Hs2 Hdis. cbv zeta. unfold switch_to_thread in *.
  destruct (frame_pushed s Hw Ha Hs) as (P1 & P2 & P3 & P4), (frame_pushed s2 Hw2 Ha Hs2) as (Q1 & Q2 & Q3 & Q4).
  eapply (resume_saved a b x s (save_frame s) s2 (save_frame s2) t (regs s)); [exact P1|by rewrite P2|exact Q2|done| |exact Hctx|exact P3|].
  - split; [done|apply Hw].
  - intros y Hy. rewrite Q4 by lia. by apply Hmem.
Qed.

(** ** Blocking the only thread *)
Lemma first_index_fmap {A} (P : A -> bool) (f : A -> A) (i : nat) l : (forall x, P (f x) = P x) ->
  first_index P (alter f i l) = first_index P l.
Proof.
  intros Hf. revert i. induction l as [|y l IH]; intros [|i]; cbn; rewrite ?Hf; [done..|].
  change (list_alter f i l) with (alter f i l). by rewrite IH.
Qed.

Lemma get_thread_upd x i v s : get_thread x (upd i (set_state v) s) = get_thread x s.
Proof. unfold get_thread. kproj. by apply first_index_fmap. Qed.

Lemma block_alone fuel x s c : wf s [] -> current_thread s = Some c -> get_thread x s = Some c -> exists k,
  thread_block fuel x s = (set_current None (set_in_scheduler 0 (set_in_scheduler 1 (upd c (set_state THREAD_STATE_BLOCKED) s))), Idle k).
Proof.
  intros Hw Hc Hg. pose proof Hw as [Hr Hi Ho _ _]. assert (st (thread_table s) c = Some THREAD_STATE_RUNNING) as Hst by by apply Hr.
  unfold thread_block. rewrite Hg, state_is_st, bool_decide_eq_false_2 by (rewrite Hst; congruence).
  unfold bind at 1, modify. cbn [after].
  assert (ready_queue_remove (Some c) (upd c (set_state THREAD_STATE_BLOCKED) s) = (upd c (set_state THREAD_STATE_BLOCKED) s, Ret tt)) as Hrm.
  { unfold ready_queue_remove. kproj. by rewrite (wf_head _ _ Hw). }
  unfold bind at 1. rewrite Hrm. cbn [after]. change (current_thread (upd c _ s)) with (current_thread s). rewrite decide_True by done.
  set (s1 := upd c (set_state THREAD_STATE_BLOCKED) s).
  assert (forall v, state_is v (Some c) (set_in_scheduler 1 s1) = bool_decide (THREAD_STATE_BLOCKED = v)) as Hs1.
  { intros v. rewrite state_is_st. unfold s1. kproj. rewrite st_set_state, decide_True by done. unfold st in Hst.
    destruct (thread_table s !! c); [|done]. cbn. apply bool_decide_ext. split; congruence. }
  destruct (schedule_eq fuel s1 (set_in_scheduler 1 s1)) as [k Hk].
  { intros Hx. specialize (Ho Hx). congruence. }
  { done. }
  { change (current_thread s1) with (current_thread s). rewrite Hc. unfold requeue. by rewrite Hs1. }
  exists k. rewrite Hk. unfold sched_pick. change (current_thread s1) with (current_thread s).
  change (ready_queue_head (set_in_scheduler 1 s1)) with (ready_queue_head s). rewrite (wf_head _ _ Hw), Hc. cbn [hd_error]. by rewrite Hs1.
Qed.

(** A thread that blocks while no other thread is ready is not switched out, so its registers are not saved: when it
    is unblocked and scheduled again the processor continues with whatever frame lies at the stack pointer saved at the
    thread's previous switch (its start frame, when it was never switched out), not where the thread called
    [thread_block]. *)
Theorem block_alone_registers_lost fuel x s c t : wf s [] -> current_thread s = Some c -> get_thread x s = Some c ->
  thread_table s !! c = Some t ->
  let s1 := (thread_block fuel x s).1 in
  let s2 := (thread_unblock x s1).1 in
  regs s1 = regs s /\ (schedule fuel s2).2 = Gone /\ current_thread (schedule fuel s2).1 = Some c /\
  regs (schedule fuel s2).1 = regs (sti (restore_frame (c_rsp (context t)) s)).
Proof.
  intros Hw Hc Hg Ht. destruct (block_alone fuel x s c Hw Hc Hg) as [k ->]. cbn [fst]. pose proof Hw as [Hr Hi Ho _ _].
  set (s1 := set_current None _). split; [done|]. assert (thread_table s1 !! c = Some (set_state THREAD_STATE_BLOCKED t)) as Ht1.
  { unfold s1. kproj. by rewrite list_lookup_alter_eq, Ht. }
  assert (get_thread x s1 = Some c) as Hg1 by (rewrite <- Hg; exact (get_thread_upd x c THREAD_STATE_BLOCKED s)).
  assert (ready_queue_head s1 = None) as Hh by exact (wf_head _ _ Hw).
  unfold thread_unblock. rewrite Hg1, state_is_st, (st_lookup _ _ _ Ht1), bool_decide_eq_true_2 by done.
  unfold ready_queue_add. kproj. rewrite Hh. cbn [fst].
  set (s2 := set_tail _ _). assert (exists t2, thread_table s2 !! c = Some t2 /\ context t2 = context t) as (t2 & Ht2 & Hctx).
  { unfold s2. kproj. rewrite !list_lookup_alter_eq, Ht1. cbn. by eexists. }
  destruct (schedule_eq fuel s2 (set_in_scheduler 1 s2)) as [k2 Hk2].
  { intros Hx. specialize (Ho Hx). congruence. }
  { done. }
  { done. }
  rewrite Hk2. unfold sched_pick. change (current_thread s2) with (@None nat).
  change (ready_queue_head (set_in_scheduler 1 s2)) with (Some c).
  cbv iota.
  rewrite (Ht2 : thread_table (set_in_scheduler 1 s2) !! c = Some t2). cbn [fst snd]. split; [done|]. split; [done|]. rewrite Hctx.
  assert (forall a b, kmm a = kmm b -> regs (sti (restore_frame (c_rsp (context t)) a)) = regs (sti (restore_frame (c_rsp (context t)) b))) as Hkm.
  { intros a b Hab. unfold sti, restore_frame. kproj. by rewrite Hab. }
  apply Hkm. unfold dequeue. case_decide; done.
Qed.

(** ** Running operations, for concrete states *)
Fixpoint run_all (fuel : nat) (ops : list op) (s : kernel) : kernel :=
  match ops with
  | [] => s
  | o :: ops => run_all fuel ops (run_op fuel o s).1
  end.
Definition came_back {A} (o : outcome A) : bool := match o with OutOfFuel => false | _ => true end.
Definition alloc_done (fuel : nat) (o : op) (s : kernel) : bool :=
  match o with
  | OpExit => match current_thread s ≫= (thread_table s !!.) with
              | Some t => (stack_base t =? 0) || came_back (Mem.kfree fuel (stack_base t) (kmm s))
              | None => true
              end
  | OpCreateThread _ _ size _ _ _ => came_back (Mem.kmalloc fuel size (kmm s))
  | _ => true
  end.
Lemma alloc_done_returns fuel o s : alloc_done fuel o s = true -> allocator_returns fuel o s.
Proof.
  destruct o; cbn; try done.
  - intros Hd c t Hc Ht Hb. rewrite Hc in Hd. cbn in Hd. rewrite Ht, (proj2 (Z.eqb_neq _ _) Hb) in Hd. cbn in Hd. by destruct (Mem.kfree _ _ _).
  - by destruct (Mem.kmalloc _ _ _).
Qed.
Fixpoint all_done (fuel : nat) (ops : list op) (s : kernel) : bool :=
  match ops with
  | [] => true
  | o :: ops => (next_tid s <? 2 ^ 32 - 1) && alloc_done fuel o s &&
                all_done fuel ops (run_op fuel o s).1
  end.

Lemma run_all_steps fuel ops : forall s, all_done fuel ops s = true -> rtc kstep s (run_all fuel ops s).
Proof.
  induction ops as [|o ops IH]; intros s Hd; [apply rtc_refl|]. cbn [all_done run_all] in *.
  apply andb_true_iff in Hd as [[Hn Hr]%andb_true_iff Hd]. eapply rtc_l; [|by apply IH].
  eapply (step_op fuel o); [lia|by apply alloc_done_returns|apply surjective_pairing].
Qed.

Lemma run_all_wf fuel ops s q : wf s q -> all_done fuel ops s = true -> exists q', wf (run_all fuel ops s) q'.
Proof.
  revert s q. induction ops as [|o ops IH]; intros s q Hw Hd; [eauto|]. cbn [all_done run_all] in *.
  apply andb_true_iff in Hd as [[Hn Hr]%andb_true_iff Hd].
  destruct (op_refines fuel o s q (run_op fuel o s).1 (run_op fuel o s).2) as (_ & q' & Hw' & _);
    [done|lia|by apply alloc_done_returns|apply surjective_pairing|]. by eapply IH.
Qed.

(** The ready queue read off the table. *)
Fixpoint follow (fuel : nat) (tt : list thread) (p : option nat) : list nat :=
  match fuel, p with
  | S fuel, Some i => i :: follow fuel tt (nx tt i)
  | _, _ => []
  end.

Lemma follow_chain tt q : forall p fuel, chain tt p q -> (length q <= fuel)%nat -> follow fuel tt p = q.
Proof.
  induction q as [|i q IH]; intros p fuel Hc Hf; cbn in Hc; [subst; by destruct fuel|].
  destruct Hc as (-> & _ & Hc). destruct fuel as [|fuel]; [cbn in Hf; lia|]. cbn. f_equal. apply IH; [done|]. cbn in Hf. lia.
Qed.

Lemma wf_follow s q : wf s q -> follow 256 (thread_table s) (ready_queue_head s) = q.
Proof.
  intros [[Hl [Hc _ Hn] _ _ _] _ _ _ _]. apply follow_chain; [done|]. rewrite <- Hl. by eapply chain_bound.
Qed.

Lemma run_all_queue fuel ops s q l : wf s q -> all_done fuel ops s = true ->
  follow 256 (thread_table (run_all fuel ops s)) (ready_queue_head (run_all fuel ops s)) = l -> wf (run_all fuel ops s) l.
Proof. intros Hw Hd <-. destruct (run_all_wf fuel ops s q Hw Hd) as [q' Hw']. by rewrite (wf_follow _ _ Hw'). Qed.

Lemma ticks_iter fuel n : forall s, ticks fuel n s (Nat.iter n (fun s => (scheduler_tick fuel s).1) s).
Proof.
  induction n as [|n IH]; intros s; [apply ticks_0|]. rewrite Nat.iter_succ_r.
  eapply ticks_S; [apply surjective_pairing|apply machine_refl|apply IH].
Qed.
End WithImage.

(** ** A machine with a heap, a process and threads *)
Definition demo_image : Image := {| thread_wrapper_addr := 0x401000; after_switch := 0x402000; code_at := fun _ => ret tt |}.
#[local] Existing Instance demo_image.

Definition demo_heap : Mem.mm :=
  Mem.new_header (Mem.mk_mm ∅ 0 0 0 0x10000 4096 0 0x10000 0 0 0 0 0 0 0) 0x10000 4072 0.
Definition blank_thread : thread :=
  mk_thread 0 None THREAD_STATE_READY (mk_context 0 0 0 0 0 0 0 0 0 0 0) 0 0 0 (mk_deadline 0 0 0 0 0) 0 None 0 0 0 0.
Definition blank_kernel : kernel :=
  mk_kernel (replicate 256 blank_thread) [] None None 1 1 0 0 None None demo_heap (mk_cpu 0x9000 1 2 3 4 5 6 0x202 7) [] 1 0 0.
Definition demo_boot : kernel := scheduler_init (process_init blank_kernel).
Definition demo_ops : list op :=
  [OpCreateProcess [105] 0; OpCreateThread 1 0x500000 256 10 20 30; OpCreateThread 1 0x500100 256 10 20 30;
   OpCreateThread 1 0x500200 256 10 20 30; OpEnable].
Definition demo : kernel := run_all 20 demo_ops demo_boot.
Definition demo_alone : kernel := run_all 20 [OpCreateProcess [105] 0; OpCreateThread 1 0x500000 256 10 20 30; OpEnable] demo_boot.

Lemma demo_booted : booted demo_boot.
Proof. exists blank_kernel. split_and!; [apply length_replicate|done|done]. Qed.

Lemma demo_done : all_done 20 demo_ops demo_boot = true.
Proof. vm_compute. reflexivity. Qed.

Lemma demo_wf : wf demo [1%nat; 2%nat].
Proof. apply (run_all_queue _ _ _ [] _ (booted_wf _ demo_booted) demo_done). vm_compute. reflexivity. Qed.

Lemma demo_alone_wf : wf demo_alone [].
Proof. apply (run_all_queue _ _ _ [] _ (booted_wf _ demo_booted)); vm_compute; reflexivity. Qed.

(** Thread 1 (slot 0) runs, 2 and 3 wait; a fourth is created. *)
Definition demo_create : op := OpCreateThread 1 0x500300 256 10 20 30.
Lemma sched_refines_witness :
  exists q', wf (run_op 20 demo_create demo).1 q' /\
    abs_step 20 demo_create demo (run_op 20 demo_create demo).2 ([1%nat; 2%nat], current_thread demo)
      (q', current_thread (run_op 20 demo_create demo).1).
Proof.
  apply (sched_refines 20 demo_create demo [1%nat; 2%nat] _ (run_op 20 demo_create demo).2 demo_wf);
    [vm_compute; reflexivity|apply alloc_done_returns; vm_compute; reflexivity|apply surjective_pairing].
Defined.

Lemma sched_reachable_wf_witness : exists q, wf demo q.
Proof. apply (sched_reachable_wf demo_boot demo demo_booted), run_all_steps. exact demo_done. Defined.

(** Thread 2 is blocked, then unblocked while thread 3 waits; the tick finds thread 3. *)
Definition demo_blocked : kernel := run_all 20 [OpBlock 2] demo.
Lemma demo_blocked_wf : wf demo_blocked [2%nat].
Proof. apply (run_all_queue _ _ _ _ _ demo_wf); vm_compute; reflexivity. Qed.

Lemma unblock_preempted_witness : let '(s', r) := thread_unblock_irq (scheduler_tick 20) 2 demo_blocked in
  current_thread s' = Some 2%nat /\ chain (thread_table s') (ready_queue_head s') [0%nat] /\
  st (thread_table s') 1 = Some THREAD_STATE_READY.
Proof.
  pose proof (unblock_preempted 20 2 demo_blocked [2%nat] 0%nat 1%nat demo_blocked_wf eq_refl eq_refl eq_refl) as Hx.
  destruct (thread_unblock_irq (scheduler_tick 20) 2 demo_blocked) as [s' r]. tauto.
Defined.

Lemma round_robin_witness :
  current_thread (Nat.iter 2 (fun s => (scheduler_tick 20 s).1) demo) = Some 2%nat.
Proof.
  apply (round_robin 20 [1%nat] 2%nat [] demo _ demo_wf); [vm_compute; discriminate|apply ticks_iter].
Defined.

Lemma block_alone_registers_lost_witness :
  current_thread (schedule 20 (thread_unblock 1 (thread_block 20 1 demo_alone).1).1).1 = Some 0%nat.
Proof.
  refine (proj1 (proj2 (proj2 (block_alone_registers_lost 20 1 demo_alone 0%nat
    (default blank_thread (thread_table demo_alone !! 0%nat)) demo_alone_wf _ _ _)))); vm_compute; reflexivity.
Defined.

Definition demo_back : kernel := switch_to_thread 0 1 demo.
Lemma switch_round_trip_witness :
  regs (switch_to_thread 1 0 demo_back) =
    let c := regs demo in mk_cpu (rsp c) (rbp c) (rbx c) (r12 c) (r13 c) (r14 c) (r15 c) (rflags c) after_switch.
Proof.
  apply (switch_round_trip 0 1 1 demo demo_back (default blank_thread (thread_table demo !! 0%nat)));
    [vm_compute; intuition congruence|vm_compute; intuition congruence|vm_compute; congruence|vm_compute; reflexivity|done|reflexivity|reflexivity
    |vm_compute; intuition congruence|vm_compute; congruence|].
  right. vm_compute. congruence.
Defined.
End SchedClaims.
