(* ===== verification/Jobs.v ===== *)
(** * Jobs, sleeping and the timer interrupt (src/kernel/Processes/fg.c, sleep.c, threads_init.c,
      src/kernel/Interrupts/irq.c)

    The job table shares the [kernel] record with the scheduler, as in the
    code, where update_jobs calls thread_unblock and sleep_ticks calls
    thread_block. Messages are not modelled; what list_jobs shows of a job is. *)
From Stdlib Require Import ZArith Lia Strings.String.
From stdpp Require Import base numbers list.
From S2P Require Import Prelude Memory Scheduler Asm.
Local Open Scope Z_scope.

Module Jobs.
Import Sched.
Local Open Scope sched_scope.

Definition MAX_JOBS : nat := 32.
Definition TIMER_FREQ : Z := 1000.

(** ** Time *)
Definition get_timer_ticks (s : kernel) : Z := timer_ticks s.
Definition get_uptime_ms (s : kernel) : Z := u64 (get_timer_ticks s * 1000) / TIMER_FREQ.

Record timeout := mk_timeout { start_ticks : Z; timeout_ticks : Z }.
Definition timeout_init (ms : Z) (s : kernel) : timeout := mk_timeout (get_timer_ticks s) (u64 (ms * TIMER_FREQ) / 1000).
Definition timeout_expired (t : timeout) (s : kernel) : bool := u64 (get_timer_ticks s - start_ticks t) >=? timeout_ticks t.
Definition timeout_remaining_ms (t : timeout) (s : kernel) : Z :=
  let elapsed := u64 (get_timer_ticks s - start_ticks t) in
  if elapsed >=? timeout_ticks t then 0 else u64 (u64 (timeout_ticks t - elapsed) * 1000) / TIMER_FREQ.

(** ** The job table *)
Definition updj (i : nat) (f : job -> job) (s : kernel) : kernel := set_jobs (alter f i (job_table s)) s.
Definition set_jstate (v : job_state) (until : Z) (j : job) : job :=
  mk_job (jused j) (job_id j) (jpid j) (jtid j) v (is_background j) until (command j).
Definition set_background (v : Z) (j : job) : job :=
  mk_job (jused j) (job_id j) (jpid j) (jtid j) (jstate j) v (jsleep_until j) (command j).

(** [command[0] = 0]: the old characters stay behind it. *)
Definition clear_job (j : job) : job := mk_job 0 0 0 0 JOB_DONE 0 0 (<[0%nat := 0]> (command j)).
Definition jobs_init (s : kernel) : kernel := set_jobs_enabled 0 (set_jobs (map clear_job (job_table s)) s).
Definition jobs_set_active (active : Z) (s : kernel) : kernel := set_jobs_enabled active s.

(** [None] is the code's -1. *)
Definition find_free_job_slot (s : kernel) : option nat := first_index (fun j => jused j =? 0) (job_table s).

(** The command, cut at 255 characters, and its NUL over the old one. *)
Definition copy_command (src old : list Z) : list Z := let k := take 255 src in k ++ 0 :: drop (S (length k)) old.

Definition add_job (background : Z) (cmd : list Z) (pd td : Z) (s : kernel) : Z * kernel :=
  match find_free_job_slot s with
  | None => (-1, s)
  | Some i =>
      let id := next_job_id s in
      let s := set_next_job_id (s32 (id + 1)) s in
      (id, updj i (fun j => mk_job 1 id pd td JOB_RUNNING background 0 (copy_command cmd (command j))) s)
  end.
Definition add_fg_job := add_job 0.
Definition add_bg_job := add_job 1.

Definition get_job (id : Z) (s : kernel) : option nat :=
  first_index (fun j => c_true (jused j) && (job_id j =? id)) (job_table s).
Definition finish_job (j : job) : job :=
  mk_job 0 (job_id j) (jpid j) (jtid j) JOB_DONE (is_background j) (jsleep_until j) (command j).
Definition remove_job (id : Z) (s : kernel) : kernel :=
  match get_job id s with Some i => updj i finish_job s | None => s end.

(** ** Following the threads of the jobs *)

(** One round of the loop: a job whose thread is gone is over, a sleeping job is woken at its time, otherwise the job's
    state follows its thread's. *)
Definition update_job (now : Z) (i : nat) : M unit := fun s =>
  match job_table s !! i with
  | None => (s, Fault)
  | Some j =>
      if jused j =? 0 then (s, Ret tt) else
      match get_thread (jtid j) s with
      | None => (updj i finish_job s, Ret tt)
      | Some c =>
          (let! (_, t) := deref (Some c) in
           match state t with
           | THREAD_STATE_TERMINATED => modify (updj i finish_job)
           | ts =>
               if bool_decide (jstate j = JOB_SLEEPING) && (jsleep_until j >? 0) then
                 if now >=? jsleep_until j then
                   thread_unblock (jtid j) ;;;
                   modify (updj i (set_jstate JOB_RUNNING 0))
                 else ret tt
               else
                 match ts with
                 | THREAD_STATE_BLOCKED =>
                     modify (updj i (fun j => set_jstate (if jsleep_until j >? 0 then JOB_SLEEPING else JOB_STOPPED) (jsleep_until j) j))
                 | _ => modify (updj i (fun j => set_jstate JOB_RUNNING (jsleep_until j) j))
                 end
           end) s
      end
  end.

(** The loop over the jobs [i], ..., [i + n - 1]. *)
Fixpoint update_from (now : Z) (i n : nat) : M unit :=
  match n with
  | O => ret tt
  | S n => update_job now i ;;; update_from now (S i) n
  end.

Definition update_jobs_safe : M unit := fun s =>
  if jobs_enabled s =? 0 then (s, Ret tt) else update_from (get_uptime_ms s) 0 MAX_JOBS s.

(** Differs from [update_jobs_safe] in its messages only. *)
Definition update_jobs : M unit := fun s =>
  if jobs_enabled s =? 0 then (s, Ret tt) else update_from (get_uptime_ms s) 0 MAX_JOBS s.

(** ** Sleeping *)

(** [while (get_timer_ticks() < target) hlt;] *)
Fixpoint wait_until (fuel : nat) (target : Z) (s : kernel) : kernel * res unit :=
  if get_timer_ticks s <? target then
    match fuel with
    | O => (s, Unfinished)
    | S fuel => (s, Idle (wait_until fuel target))
    end
  else (s, Ret tt).

Definition sleep_ticks `{Image} (fuel : nat) (ticks : Z) : M unit := fun s =>
  if ticks =? 0 then (s, Ret tt) else
  match get_current_thread s with
  | None => wait_until fuel (u64 (get_timer_ticks s + ticks)) s
  | Some c =>
      (let! (_, t) := deref (Some c) in
       let wake := u64 (get_uptime_ms s + u64 (ticks * 1000) / TIMER_FREQ) in
       modify (fun s => match first_index (fun j => c_true (jused j) && (jtid j =? tid t)) (job_table s) with
                        | Some i => updj i (set_jstate JOB_SLEEPING wake) s
                        | None => s
                        end) ;;;
       thread_block fuel (tid t) ;;;
       schedule fuel) s
  end.

Definition sleep_ms `{Image} (fuel : nat) (ms : Z) : M unit := fun s =>
  if ms =? 0 then (s, Ret tt) else
  let ticks := u64 (ms * TIMER_FREQ) / 1000 in
  sleep_ticks fuel (if ticks =? 0 then 1 else ticks) s.

(** [seconds * 1000] is an unsigned 32-bit product. *)
Definition sleep_seconds `{Image} (fuel : nat) (seconds : Z) : M unit := fun s =>
  if seconds =? 0 then (s, Ret tt) else sleep_ms fuel (u32 (seconds * 1000)) s.

Definition sleep_us `{Image} (fuel : nat) (us : Z) : M unit := fun s =>
  if us =? 0 then (s, Ret tt) else
  let ms := u64 (us + 999) / 1000 in
  sleep_ms fuel (if ms =? 0 then 1 else ms) s.

(** ** The timer interrupt; the acknowledgement to the interrupt controller follows it. *)
Definition timer_handler_c `{Image} (fuel : nat) : M unit :=
  modify (fun s => set_timer_ticks (u64 (timer_ticks s + 1)) s) ;;;
  (fun s => if c_true (get_scheduler_enabled s) then scheduler_tick fuel s else (s, Ret tt)) ;;;
  update_jobs_safe.

(** ** The first threads *)
Definition init_kernel_threads `{Image} (fuel : nat) (idle_thread_entry : Z) : M unit := fun s =>
  let '(init_pid, s) := process_create (Asm.lit "init") 0 s in
  if init_pid <? 0 then (s, Ret tt) else
  (let! _ := thread_create fuel (u32 init_pid) idle_thread_entry 65536 10000000 1000000000 1000000000 in ret tt) s.

(** ** Foreground and background (src/kernel/Shell/shell.c) *)
Definition bring_to_foreground (id : Z) : M unit := fun s =>
  match get_job id s with
  | None => (s, Ret tt)
  | Some i =>
      match job_table s !! i with
      | None => (s, Fault)
      | Some j =>
          if is_background j =? 0 then (s, Ret tt) else
          match get_thread (jtid j) s with
          | None => (s, Ret tt)
          | Some c =>
              ((fun s => if state_is THREAD_STATE_BLOCKED (Some c) s then
                           (thread_unblock (jtid j) ;;; modify (updj i (set_jstate JOB_RUNNING 0))) s
                         else (s, Ret tt)) ;;;
               modify (updj i (set_background 0))) s
          end
      end
  end.

Definition send_to_background (id : Z) (s : kernel) : kernel :=
  match get_job id s with
  | None => s
  | Some i => match job_table s !! i with
              | Some j => if is_background j =? 0 then updj i (set_background 1) s else s
              | None => s
              end
  end.

(** ** What list_jobs shows *)
Definition sleep_detail (remaining : Z) : list Z :=
  let digits := if remaining =? 0 then Asm.lit "<1" else rev (Asm.num_digits 20 remaining) in
  Asm.lit " (" ++ digits ++ Asm.lit "s)".

Definition job_status (j : job) (s : kernel) : list Z * list Z :=
  match get_thread (jtid j) s ≫= fun c => thread_table s !! c with
  | None => (Asm.lit "Done", [])
  | Some t =>
      match state t with
      | THREAD_STATE_TERMINATED => (Asm.lit "Done", [])
      | ts =>
          match jstate j with
          | JOB_RUNNING => (Asm.lit "Running", match ts with
                                               | THREAD_STATE_READY => Asm.lit " (ready)"
                                               | THREAD_STATE_BLOCKED => Asm.lit " (blocked)"
                                               | _ => []
                                               end)
          | JOB_STOPPED => (Asm.lit "Stopped", [])
          | JOB_SLEEPING => (Asm.lit "Sleeping",
                             if jsleep_until j >? get_uptime_ms s
                             then sleep_detail (u64 (jsleep_until j - get_uptime_ms s) / 1000) else [])
          | JOB_DONE => (Asm.lit "Unknown", [])
          end
      end
  end.

(** One line per job in use: id, foreground mark, state, detail, command. *)
Definition list_jobs (s : kernel) : list (Z * bool * (list Z * list Z) * list Z) :=
  map (fun j => (job_id j, is_background j =? 0, job_status j s, command j)) (filter (fun j => jused j <> 0) (job_table s)).

End Jobs.
