(* ===== verification/JobsProps.v ===== *)
(** * Sleeping jobs wake up (fg.c, sleep.c)

    [sleep_ticks] blocks the calling thread and records the wake-up time in its
    job; the job loop that runs in every timer interrupt puts the thread back in
    the ready queue once that time has come, and touches nothing else of the
    scheduler. *)
From Stdlib Require Import ZArith Lia.
From stdpp Require Import base numbers list sets.
From S2P Require Import Prelude Memory Scheduler SchedProps SchedInv SchedClaims Jobs.
Local Open Scope Z_scope.

Module JobsProps.
Import Sched SchedProps SchedInv Jobs.

Lemma wf_jobs l s q : wf s q -> wf (set_jobs l s) q.
Proof. intros [Hr Hi Ho Ht Hp]. split; [by eapply ready_inv_ext; [..|exact Hr]|done..]. Qed.

(** [thread_unblock] extends the ready queue by the thread, if it was blocked, and only that. *)
Lemma unblock_spec x s q : wf s q -> exists tt' hd tl l, thread_unblock x s = (with_queue tt' hd tl s, Ret tt) /\
  wf (with_queue tt' hd tl s) (q ++ l) /\ ident <$> tt' = ident <$> thread_table s /\
  (forall c, get_thread x s = Some c -> current_thread s = Some c \/ c ∈ q ++ l).
Proof.
  intros Hw. pose proof Hw as [Hr Hi Ho Hti Hpr].
  assert (exists tt' hd tl l, (s, Ret tt) = (with_queue tt' hd tl s, Ret tt) /\ wf (with_queue tt' hd tl s) (q ++ l) /\
    ident <$> tt' = ident <$> thread_table s /\ l = []) as (tt0 & hd0 & tl0 & l0 & E0 & W0 & I0 & ->).
  { exists (thread_table s), (ready_queue_head s), (ready_queue_tail s), [].
    assert (with_queue (thread_table s) (ready_queue_head s) (ready_queue_tail s) s = s) as -> by (by destruct s).
    by rewrite app_nil_r. }
  unfold thread_unblock. destruct (get_thread x s) as [i|] eqn:Eg; [|exists tt0, hd0, tl0, []; split_and!; done].
  destruct (get_thread_Some _ _ _ Eg) as (t & Ht & Hu & _). rewrite state_is_st. case_bool_decide as Hb.
  - destruct (enqueue_inv s q (current_thread s) i (set_state THREAD_STATE_READY) t Hr Ht) as (tt' & hd & tl & He & Hr' & Hs);
      [rewrite (r_ready _ _ _ Hr); congruence|rewrite <- (r_run _ _ _ Hr); congruence|done|done|].
    exists tt', hd, tl, [i]. assert (ident <$> tt' = ident <$> thread_table s) as Hid.
    { symmetry. apply still_proj; [done|]. eapply still_trans; [by apply (still_alter (set_state THREAD_STATE_READY) i)|by apply still_sbn]. }
    split_and!; [done| |done|intros c [= ->]; right; set_solver].
    eapply (wf_keeps s); [|done..]. by split.
  - exists tt0, hd0, tl0, []. split_and!; [done..|]. intros c [= <-]. rewrite app_nil_r.
    assert (state t <> THREAD_STATE_TERMINATED) as Hnt by (intros Hx; by apply (r_used _ _ _ Hr i t Ht) in Hx).
    rewrite (st_lookup _ _ _ Ht) in Hb. destruct (state t) eqn:Est; [right|left|by destruct Hb|by destruct Hnt].
    + apply (r_ready _ _ _ Hr). by rewrite (st_lookup _ _ _ Ht), Est.
    + apply (r_run _ _ _ Hr). by rewrite (st_lookup _ _ _ Ht), Est.
Qed.

Lemma first_index_ext {A B} (g : A -> B) (P : A -> bool) (l l' : list A) : (forall x y, g x = g y -> P x = P y) ->
  g <$> l = g <$> l' -> first_index P l = first_index P l'.
Proof.
  intros Hg. revert l'. induction l as [|x l IH]; intros [|y l'] He; try done. injection He as Hxy He. cbn. rewrite (Hg x y Hxy).
  by rewrite (IH l' He).
Qed.

Lemma get_thread_ident x s s' : ident <$> thread_table s' = ident <$> thread_table s -> get_thread x s' = get_thread x s.
Proof.
  apply (first_index_ext ident). intros u v Huv. injection Huv as H1 H2 H3 H4. by rewrite H1, H2.
Qed.

Lemma first_index_le {A} (P : A -> bool) l c x : l !! c = Some x -> P x = true -> exists k, first_index P l = Some k.
Proof.
  revert c. induction l as [|y l IH]; intros c Hc Hx; [done|]. cbn. destruct (P y) eqn:Ey; [eauto|].
  destruct c as [|c]; cbn in Hc; [congruence|]. destruct (IH c Hc Hx) as [k ->]. eauto.
Qed.

(** A live thread is found by its id. *)
Lemma get_thread_live s q c t : wf s q -> thread_table s !! c = Some t -> used t <> 0 -> get_thread (tid t) s = Some c.
Proof.
  intros [_ _ _ (_ & _ & Hinj) _] Ht Hu. unfold get_thread.
  destruct (first_index_le (fun t0 => c_true (used t0) && (tid t0 =? tid t)) (thread_table s) c t Ht) as [k Hk].
  { unfold c_true. by rewrite Z.eqb_refl, (proj2 (Z.eqb_neq _ _) Hu). }
  rewrite Hk. destruct (get_thread_Some _ _ _ Hk) as (t' & Ht' & Hu' & He). f_equal. by apply (Hinj k c t' t).
Qed.

(** What a round of the job loop, and hence the loop, leaves alone. *)
Record jstep (lo hi : nat) (s s' : kernel) (q q' : list nat) : Prop := {
  js_wf : wf s' q';
  js_queue : q `prefix_of` q';
  js_current : current_thread s' = current_thread s;
  js_ident : ident <$> thread_table s' = ident <$> thread_table s;
  js_len : length (job_table s') = length (job_table s);
  js_jobs : forall i, (i < lo \/ hi <= i)%nat -> job_table s' !! i = job_table s !! i }.

Lemma jstep_trans a b c s s' s'' q q' q'' : (a <= b <= c)%nat -> jstep a b s s' q q' -> jstep b c s' s'' q' q'' -> jstep a c s s'' q q''.
Proof.
  intros Hab [A1 A2 A3 A4 A5 A6] [B1 B2 B3 B4 B5 B6]. split; [done|by etrans|congruence|congruence|congruence|].
  intros i Hi. rewrite B6, A6 by lia. done.
Qed.

Lemma jstep_updj f i s q : wf s q -> jstep i (S i) s (updj i f s) q q.
Proof.
  intros Hw. split; [by apply wf_jobs|done|done|done|by cbn; rewrite length_alter|].
  intros k Hk. cbn. by rewrite list_lookup_alter_ne by lia.
Qed.
Lemma jstep_refl i s q : wf s q -> jstep i (S i) s s q q.
Proof. by split. Qed.

(** The job is due: it sleeps, its time has come and its thread lives. *)
Definition due (now : Z) (j : job) : Prop := jused j <> 0 /\ jstate j = JOB_SLEEPING /\ 0 < jsleep_until j <= now.

Lemma update_job_spec now i j s q : wf s q -> job_table s !! i = Some j -> exists s' q',
  update_job now i s = (s', Ret tt) /\ jstep i (S i) s s' q q' /\
  (forall c, due now j -> get_thread (jtid j) s = Some c ->
     job_table s' !! i = Some (set_jstate JOB_RUNNING 0 j) /\ (current_thread s = Some c \/ c ∈ q')) /\
  (jused j <> 0 -> get_thread (jtid j) s = None -> job_table s' !! i = Some (finish_job j)).
Proof.
  intros Hw Hj. unfold update_job. rewrite Hj.
  destruct (Z.eqb_spec (jused j) 0) as [Hu|Hu].
  { exists s, q. split_and!; [done|by apply jstep_refl|by intros c [? _]|done]. }
  assert (forall f, job_table (updj i f s) !! i = Some (f j)) as Hupd by (intros f; cbn; by rewrite list_lookup_alter_eq, Hj).
  destruct (get_thread (jtid j) s) as [c|] eqn:Eg.
  2: { exists (updj i finish_job s), q. split_and!; [done|by apply jstep_updj|done|by rewrite Hupd]. }
  destruct (get_thread_Some _ _ _ Eg) as (t & Ht & Hut & _). unfold bind at 1. rewrite (deref_some _ _ _ Ht). cbn [after].
  assert (state t <> THREAD_STATE_TERMINATED) as Hnt by (intros Hx; by apply (r_used _ _ _ (w_ready _ _ Hw) c t Ht) in Hx).
  destruct (bool_decide (jstate j = JOB_SLEEPING) && (jsleep_until j >? 0)) eqn:Es.
  - destruct (Z.geb_spec now (jsleep_until j)) as [Hn|Hn].
    + destruct (unblock_spec (jtid j) s q Hw) as (tt' & hd & tl & l & He & Hw' & Hid & Hc).
      exists (updj i (set_jstate JOB_RUNNING 0) (with_queue tt' hd tl s)), (q ++ l).
      assert (forall ts, ts <> THREAD_STATE_TERMINATED -> match ts with
        | THREAD_STATE_TERMINATED => modify (updj i finish_job)
        | _ => bind (thread_unblock (jtid j)) (fun _ => modify (updj i (set_jstate JOB_RUNNING 0)))
        end s = (updj i (set_jstate JOB_RUNNING 0) (with_queue tt' hd tl s), Ret tt)) as Hrun.
      { intros ts Hts. destruct ts; [..|done]; unfold bind; by rewrite He. }
      split_and!.
      * specialize (Hrun (state t) Hnt). destruct (state t); exact Hrun.
      * split; [by apply wf_jobs|by apply prefix_app_r|done|done|by cbn; rewrite length_alter|].
        intros k Hk. cbn. by rewrite list_lookup_alter_ne by lia.
      * intros c' _ [= <-]. split; [cbn; by rewrite list_lookup_alter_eq, Hj|]. by apply Hc.
      * done.
    + exists s, q. split_and!; [by destruct (state t)|by apply jstep_refl|intros c' (_ & _ & ?); lia|done].
  - assert (~ due now j) as Hnd.
    { intros (_ & Hx & Hy). rewrite bool_decide_eq_true_2 in Es by done. cbn in Es. lia. }
    destruct (state t); try done; (eexists _, q; split_and!; [reflexivity|by apply jstep_updj|by intros c' Hx|done]).
Qed.

Lemma update_from_spec now n : forall i s q, wf s q -> (i + n <= length (job_table s))%nat -> exists s' q',
  update_from now i n s = (s', Ret tt) /\ jstep i (i + n) s s' q q'.
Proof.
  induction n as [|n IH]; intros i s q Hw Hl; cbn [update_from].
  - exists s, q. split; [done|]. split; done.
  - destruct (lookup_lt_is_Some_2 (job_table s) i) as [j Hj]; [lia|].
    destruct (update_job_spec now i j s q Hw Hj) as (s1 & q1 & He & Hs & _).
    destruct (IH (S i) s1 q1) as (s2 & q2 & He2 & Hs2); [apply Hs|rewrite (js_len _ _ _ _ _ _ Hs); lia|].
    exists s2, q2. split; [unfold bind; by rewrite He|]. replace (i + S n)%nat with (S i + n)%nat by lia.
    eapply jstep_trans; [|exact Hs|exact Hs2]. lia.
Qed.

Lemma update_from_split now i n m s s' : update_from now i n s = (s', Ret tt) ->
  update_from now i (n + m) s = update_from now (i + n) m s'.
Proof.
  revert i s. induction n as [|n IH]; intros i s He; cbn [update_from Nat.add] in *.
  - injection He as ->. by rewrite Nat.add_0_r.
  - unfold bind in *. destruct (update_job now i s) as [s1 []]; try done. cbn [after] in *. rewrite (IH (S i) s1 He).
    f_equal. lia.
Qed.

(** A sleeping job wakes up: when the job loop of a timer interrupt finds the wake-up time of a sleeping job reached, the
    job is running again, its blocked thread is in the ready queue behind the threads that were ready, and the thread
    that runs keeps running; the loop ends and keeps the scheduler's invariant. *)
Theorem job_wakes s q i j c : wf s q -> length (job_table s) = 32%nat -> jobs_enabled s <> 0 ->
  job_table s !! i = Some j -> due (get_uptime_ms s) j -> get_thread (jtid j) s = Some c ->
  st (thread_table s) c = Some THREAD_STATE_BLOCKED ->
  exists s' q', update_jobs_safe s = (s', Ret tt) /\ wf s' q' /\ q `prefix_of` q' /\ c ∈ q' /\ c ∉ q /\
    current_thread s' = current_thread s /\ job_table s' !! i = Some (set_jstate JOB_RUNNING 0 j).
Proof.
  intros Hw Hl He Hj Hd Hg Hb. pose proof (lookup_lt_Some _ _ _ Hj) as Hi. unfold update_jobs_safe. rewrite (proj2 (Z.eqb_neq _ _) He).
  set (now := get_uptime_ms s) in *.
  destruct (update_from_spec now i 0%nat s q Hw) as (s1 & q1 & E1 & S1); [lia|].
  assert (get_thread (jtid j) s1 = Some c) as Hg1.
  { rewrite <- Hg. apply get_thread_ident. apply S1. }
  destruct (update_job_spec now i j s1 q1) as (s2 & q2 & E2 & S2 & Hwake & _); [apply S1|by rewrite (js_jobs _ _ _ _ _ _ S1) by lia|].
  destruct (Hwake c Hd Hg1) as [Hj2 Hc2].
  destruct (update_from_spec now (31 - i) (S i) s2 q2) as (s3 & q3 & E3 & S3); [apply S2|rewrite (js_len _ _ _ _ _ _ S2), (js_len _ _ _ _ _ _ S1); lia|].
  exists s3, q3. assert (current_thread s <> Some c) as Hnc by (rewrite <- (r_run _ _ _ (w_ready _ _ Hw)), Hb; congruence).
  split_and!.
  - assert (MAX_JOBS = (i + (S (31 - i)))%nat) as -> by (unfold MAX_JOBS; lia). rewrite (update_from_split now 0 i (S (31 - i)) s s1 E1).
    cbn [update_from Nat.add]. unfold bind. rewrite E2. exact E3.
  - apply S3.
  - etrans; [apply S1|]. etrans; [apply S2|apply S3].
  - assert (c ∈ q2) as Hcq by (destruct Hc2 as [Hx|]; [rewrite (js_current _ _ _ _ _ _ S1) in Hx|]; done).
    destruct (js_queue _ _ _ _ _ _ S3) as [l ->]. apply elem_of_app. by left.
  - rewrite (r_ready _ _ _ (w_ready _ _ Hw)), Hb. congruence.
  - by rewrite (js_current _ _ _ _ _ _ S3), (js_current _ _ _ _ _ _ S2), (js_current _ _ _ _ _ _ S1).
  - rewrite (js_jobs _ _ _ _ _ _ S3) by lia. exact Hj2.
Qed.

(** ** Going to sleep *)
Section WithImage.
Context `{Image}.

(** [sleep_ticks] puts the calling thread to sleep: its job sleeps until now plus the duration, the thread is blocked,
    the first ready thread runs (or the processor waits for an interrupt when there is none), and the call does not
    return before the thread is resumed. *)
Theorem sleep_ticks_blocks fuel ticks s q c t i j : wf s q -> current_thread s = Some c -> thread_table s !! c = Some t ->
  0 < ticks -> get_uptime_ms s + ticks < 2 ^ 64 -> ticks * 1000 < 2 ^ 64 ->
  first_index (fun j => c_true (jused j) && (jtid j =? tid t)) (job_table s) = Some i -> job_table s !! i = Some j ->
  let '(s', r) := sleep_ticks fuel ticks s in
  wf s' (a_next q None).1 /\ current_thread s' = (a_next q None).2 /\
  st (thread_table s') c = Some THREAD_STATE_BLOCKED /\
  job_table s' !! i = Some (set_jstate JOB_SLEEPING (get_uptime_ms s + ticks) j) /\
  ((exists k, r = Switched k) \/ q = [] /\ exists k, r = Idle k).
Proof.
  intros Hw Hc Ht H0 Hlt Hlt2 Hfi Hj. unfold sleep_ticks, get_current_thread. rewrite (proj2 (Z.eqb_neq ticks 0)) by lia. rewrite Hc.
  unfold bind at 1. rewrite (deref_some _ _ _ Ht). cbn [after]. unfold bind at 1, modify. cbn [after]. rewrite Hfi.
  assert (u64 (get_uptime_ms s + u64 (ticks * 1000) / TIMER_FREQ) = get_uptime_ms s + ticks) as ->.
  { unfold TIMER_FREQ. rewrite (wrap_small 64 (ticks * 1000)) by lia. rewrite Z.div_mul by lia. apply wrap_small.
    unfold get_uptime_ms. pose proof (wrap_range 64 (get_timer_ticks s * 1000)) as Hr. unfold TIMER_FREQ.
    assert (0 <= u64 (get_timer_ticks s * 1000) / 1000) by (apply Z.div_pos; lia). unfold get_uptime_ms, TIMER_FREQ in Hlt. lia. }
  set (s1 := updj i _ s). assert (wf s1 q) as Hw1 by by apply wf_jobs.
  assert (get_thread (tid t) s1 = Some c) as Hg.
  { apply (get_thread_live s1 q c t Hw1 Ht). intros Hx. apply (r_used _ _ _ (w_ready _ _ Hw) c t Ht) in Hx.
    apply (r_run _ _ _ (w_ready _ _ Hw)) in Hc. rewrite (st_lookup _ _ _ Ht) in Hc. congruence. }
  pose proof (block_current fuel (tid t) s1 q c Hw1 Hg Hc) as Hb. unfold bind. destruct (thread_block fuel (tid t) s1) as [s' r].
  destruct Hb as (Hw' & Hc' & Hk & Hr).
  assert (wf s' (a_next q None).1 /\ current_thread s' = (a_next q None).2 /\ st (thread_table s') c = Some THREAD_STATE_BLOCKED /\
    job_table s' !! i = Some (set_jstate JOB_SLEEPING (get_uptime_ms s + ticks) j)) as (G1 & G2 & G3 & G4).
  { split_and!; [done|done| |].
    - assert (c ∉ q) as Hcq.
      { apply (r_run _ _ _ (w_ready _ _ Hw)) in Hc. rewrite (r_ready _ _ _ (w_ready _ _ Hw)), Hc. congruence. }
      assert (c ∉ (a_next q None).1 /\ (a_next q None).2 <> Some c) as [Hn1 Hn2].
      { unfold a_next. rewrite app_nil_r. destruct q as [|n q']; cbn; [split; [by apply not_elem_of_nil|done]|].
        apply not_elem_of_cons in Hcq as [? ?]. split; [done|congruence]. }
      destruct (ident_lookup _ _ c t (eq_sym (k_ident _ _ Hk)) Ht) as (t' & Ht' & Hid). injection Hid as E1 E2 E3 E4.
      rewrite (r_ready _ _ _ (w_ready _ _ Hw')) in Hn1. rewrite <- Hc', <- (r_run _ _ _ (w_ready _ _ Hw')) in Hn2.
      rewrite (st_lookup _ _ _ Ht') in *. destruct (state t') eqn:Est; try done.
      apply (r_used _ _ _ (w_ready _ _ Hw') c t' Ht') in Est. rewrite E2 in Est.
      apply (r_used _ _ _ (w_ready _ _ Hw) c t Ht) in Est. apply (r_run _ _ _ (w_ready _ _ Hw)) in Hc.
      rewrite (st_lookup _ _ _ Ht) in Hc. congruence.
    - rewrite (k_jobs _ _ Hk). unfold s1. cbn. by rewrite list_lookup_alter_eq, Hj. }
  destruct q as [|n q']; destruct Hr as [k ->]; cbn [after]; split_and!; try done; [right; eauto|left; eauto].
Qed.
End WithImage.

(** ** A machine with a job *)
Import SchedClaims.
#[local] Existing Instance demo_image.
Definition blank_job : job := mk_job 0 0 0 0 JOB_DONE 0 0 (replicate 256 0).
Definition demo_job : kernel := (add_bg_job [115] 1 1 (set_jobs_enabled 1 (set_jobs (replicate 32 blank_job) demo))).2.
(** The job's thread has slept until 5 ms and it is 10 ms now. *)
Definition demo_due : kernel :=
  set_timer_ticks 10 (updj 0 (set_jstate JOB_SLEEPING 5) (set_jobs (job_table demo_job) (set_jobs_enabled 1 (run_all 20 [OpBlock 1] demo)))).

(** The scheduler's part of the state. *)
Definition sched_part (s : kernel) :=
  (thread_table s, process_table s, (current_thread s, next_tid s, scheduler_enabled s, in_scheduler s), (ready_queue_head s, ready_queue_tail s)).

Lemma wf_sched_part s s' q : sched_part s' = sched_part s -> wf s q -> wf s' q.
Proof.
  intros He [Hr Hi Ho Ht Hp]. injection He as E1 E2 E3 E4 E5 E6 E7 E8.
  split; rewrite ?E1, ?E2, ?E3, ?E4, ?E5, ?E6; [|done..]. by eapply ready_inv_ext; [..|exact Hr]; rewrite ?E1, ?E7, ?E8.
Qed.

Lemma demo_due_wf : wf demo_due [2%nat].
Proof.
  apply (wf_sched_part (run_all 20 [OpBlock 1] demo)); [vm_compute; reflexivity|].
  apply (run_all_queue 20 [OpBlock 1] demo [1%nat; 2%nat] [2%nat] demo_wf); vm_compute; reflexivity.
Qed.

Lemma job_wakes_witness : exists s' q', update_jobs_safe demo_due = (s', Ret tt) /\ wf s' q' /\ 0%nat ∈ q'.
Proof.
  destruct (job_wakes demo_due [2%nat] 0 (default blank_job (job_table demo_due !! 0%nat)) 0%nat demo_due_wf)
    as (s' & q' & H1 & H2 & _ & H3 & _); [vm_compute; reflexivity|vm_compute; discriminate|vm_compute; reflexivity|
      vm_compute; split_and!; congruence|vm_compute; reflexivity|vm_compute; reflexivity|].
  exists s', q'. split_and!; [exact H1|exact H2|exact H3].
Defined.

Lemma demo_job_wf : wf demo_job [1%nat; 2%nat].
Proof. apply (wf_sched_part demo); [vm_compute; reflexivity|exact demo_wf]. Qed.

Lemma sleep_ticks_blocks_witness :
  let '(s', r) := sleep_ticks 20 5 demo_job in
  current_thread s' = Some 1%nat /\ st (thread_table s') 0 = Some THREAD_STATE_BLOCKED.
Proof.
  pose proof (sleep_ticks_blocks 20 5 demo_job [1%nat; 2%nat] 0 (default blank_thread (thread_table demo_job !! 0%nat)) 0
    (default blank_job (job_table demo_job !! 0%nat)) demo_job_wf) as Hs.
  specialize (Hs ltac:(vm_compute; reflexivity) ltac:(vm_compute; reflexivity) ltac:(lia) ltac:(vm_compute; reflexivity) ltac:(lia)
    ltac:(vm_compute; reflexivity) ltac:(vm_compute; reflexivity)).
  revert Hs. generalize (sleep_ticks 20 5 demo_job). intros [s' r] Hs. split; apply Hs.
Defined.
End JobsProps.
