(* ===== verification/NetPkt.v ===== *)
(** * Packet memory, byte order and the Internet checksum (net.h, net.c)

    A packet pointer is the list of the bytes from it to the end of the object
    it points into; a load or a copy past that end is [OutOfBounds]. Multi-byte
    fields are loaded and stored little-endian, as the processor does, so that
    the byte-order conversions of net.c appear in the model where the code
    calls them. *)
From Stdlib Require Import ZArith Lia.
From stdpp Require Import base numbers list.
From S2P Require Import Prelude.

Module Pkt.
Local Open Scope Z_scope.
Local Open Scope outcome_scope.

(** ** Loads, stores and copies *)
Definition zlen (l : list Z) : Z := Z.of_nat (length l).

(** [n] bytes of [src] from offset [off] on. *)
Definition load_bytes (src : list Z) (off n : Z) : outcome (list Z) :=
  if (0 <=? off) && (0 <=? n) && (off + n <=? zlen src)
  then Done (take (Z.to_nat n) (drop (Z.to_nat off) src)) else OutOfBounds.

(** The bytes [bs] stored in [buf] from offset [off] on. *)
Definition store_bytes (buf : list Z) (off : Z) (bs : list Z) : outcome (list Z) :=
  if (0 <=? off) && (off + zlen bs <=? zlen buf)
  then Done (list_inserts (Z.to_nat off) bs buf) else OutOfBounds.

(** [for (i = 0; i < n; i++) dest[off + i] = src[i]] *)
Definition copy_bytes (buf : list Z) (off : Z) (src : list Z) (n : Z) : outcome (list Z) :=
  let* bs := load_bytes src 0 n in store_bytes buf off bs.

Definition ld8 (p : list Z) (off : Z) : outcome Z := aget p off.
Definition ld16 (p : list Z) (off : Z) : outcome Z :=
  let* bs := load_bytes p off 2 in Done (le_value bs).
Definition ld32 (p : list Z) (off : Z) : outcome Z :=
  let* bs := load_bytes p off 4 in Done (le_value bs).

(** A fresh object of [n] bytes ([kmalloc], or a local array); every byte of it
    that leaves the kernel has been written before. *)
Definition fresh (n : Z) : list Z := replicate (Z.to_nat n) 0.

(** ** Byte order *)
Definition net_htons (n : Z) : Z :=
  Z.lor (Z.shiftl (Z.land n 255) 8) (Z.land (Z.shiftr n 8) 255).

Definition net_htonl (n : Z) : Z :=
  Z.lor (Z.lor (Z.lor (Z.shiftl (Z.land n 255) 24) (Z.shiftl (Z.land n 65280) 8))
               (Z.land (Z.shiftr n 8) 65280))
        (Z.land (Z.shiftr n 24) 255).

(** ** The Internet checksum *)

(** The loop over 16-bit words, with the odd byte at the end; [sum] is a
    [uint32_t]. *)
Fixpoint csum_words (bs : list Z) (sum : Z) : Z :=
  match bs with
  | b0 :: b1 :: bs => csum_words bs (u32 (sum + le_value [b0; b1]))
  | [b0] => u32 (sum + b0)
  | [] => sum
  end.

(** [while (sum >> 16) sum = (sum & 0xFFFF) + (sum >> 16);] *)
Fixpoint csum_fold (fuel : nat) (sum : Z) : outcome Z :=
  if c_true (Z.shiftr sum 16) then
    match fuel with
    | O => OutOfFuel
    | S fuel => csum_fold fuel (u32 (Z.land sum 65535 + Z.shiftr sum 16))
    end
  else Done sum.

(** A 32-bit sum is folded in at most two rounds. *)
Definition fold_fuel : nat := 2.

Definition net_checksum (data : list Z) (length : Z) : outcome Z :=
  let* bs := load_bytes data 0 length in
  let* sum := csum_fold fold_fuel (csum_words bs 0) in
  Done (u16 (Z.lnot sum)).

(** ** Addresses in text *)

(** The loop of [net_parse_ip] over the string from [str] on, with the octet
    array [o] and [idx]; the loop test [str[i] && idx < 4] comes first. *)
Fixpoint parse_octets (str : list Z) (o : list Z) (idx : nat) : list Z :=
  match str with
  | [] => o
  | c :: str =>
    if c_true c && (idx <? 4)%nat then
      if (48 <=? c) && (c <=? 57) then
        parse_octets str (<[idx := u32 (get o idx * 10 + (c - 48))]> o) idx
      else if c =? 46 then parse_octets str o (S idx)
      else parse_octets str o idx
    else o
  end.

Definition net_parse_ip (str : list Z) : Z :=
  let o := parse_octets str [0; 0; 0; 0] 0 in
  Z.lor (Z.lor (Z.lor (get o 0) (u32 (Z.shiftl (get o 1) 8)))
               (u32 (Z.shiftl (get o 2) 16)))
        (u32 (Z.shiftl (get o 3) 24)).

(** The four numbers [net_print_ip] hands to the printer. *)
Definition net_print_ip (ip : Z) : list Z :=
  [Z.land (Z.shiftr ip 0) 255; Z.land (Z.shiftr ip 8) 255;
   Z.land (Z.shiftr ip 16) 255; Z.land (Z.shiftr ip 24) 255].

(** ** Constants of net.h *)
Definition ETH_TYPE_IPV4 : Z := 2048.
Definition ETH_TYPE_ARP : Z := 2054.
Definition IP_PROTO_ICMP : Z := 1.
Definition IP_PROTO_TCP : Z := 6.
Definition IP_PROTO_UDP : Z := 17.
Definition ICMP_TYPE_ECHO_REPLY : Z := 0.
Definition ICMP_TYPE_ECHO_REQUEST : Z := 8.
Definition TCP_FIN : Z := 1.
Definition TCP_SYN : Z := 2.
Definition TCP_PSH : Z := 8.
Definition TCP_ACK : Z := 16.
Definition ARP_REQUEST : Z := 1.
Definition ARP_REPLY : Z := 2.

(** Sizes of the packed headers. *)
Definition sizeof_eth : Z := 14.
Definition sizeof_ipv4 : Z := 20.
Definition sizeof_icmp : Z := 8.
Definition sizeof_udp : Z := 8.
Definition sizeof_tcp : Z := 20.
Definition sizeof_arp : Z := 28.
End Pkt.

(** ** Their properties *)
Module PktProps.
Import Pkt.
Local Open Scope Z_scope.
Local Open Scope outcome_scope.

Lemma load_bytes_done src off n : 0 <= off -> 0 <= n -> off + n <= zlen src ->
  load_bytes src off n = Done (take (Z.to_nat n) (drop (Z.to_nat off) src)).
Proof.
  intros H1 H2 H3. unfold load_bytes.
  rewrite (proj2 (Z.leb_le 0 off)), (proj2 (Z.leb_le 0 n)), (proj2 (Z.leb_le _ _)); done.
Qed.

Lemma store_bytes_done buf off bs : 0 <= off -> off + zlen bs <= zlen buf ->
  store_bytes buf off bs = Done (list_inserts (Z.to_nat off) bs buf).
Proof.
  intros H1 H2. unfold store_bytes.
  rewrite (proj2 (Z.leb_le 0 off)), (proj2 (Z.leb_le _ _)); done.
Qed.

Lemma load_bytes_inv src off n bs : load_bytes src off n = Done bs ->
  0 <= off /\ 0 <= n /\ off + n <= zlen src /\ bs = take (Z.to_nat n) (drop (Z.to_nat off) src).
Proof.
  unfold load_bytes. destruct (Z.leb_spec 0 off), (Z.leb_spec 0 n), (Z.leb_spec (off + n) (zlen src));
    simpl; intros E; try done. injection E as <-. auto.
Qed.

Lemma ld8_done p off : 0 <= off < zlen p -> ld8 p off = Done (get p (Z.to_nat off)).
Proof.
  intros H. unfold zlen in H. apply aget_lookup; [lia|]. apply lookup_get. lia.
Qed.

Lemma length_load src off n bs : load_bytes src off n = Done bs -> zlen bs = n.
Proof.
  intros (H1 & H2 & H3 & ->)%load_bytes_inv. unfold zlen in *.
  rewrite length_take, length_drop. lia.
Qed.

Lemma bytes_of_load src off n bs : Forall is_byte src ->
  load_bytes src off n = Done bs -> Forall is_byte bs.
Proof. intros HF (_ & _ & _ & ->)%load_bytes_inv. by apply Forall_take, Forall_drop. Qed.

Lemma le_value_range l : Forall is_byte l -> 0 <= le_value l < 256 ^ zlen l.
Proof.
  unfold zlen. induction 1 as [|b l Hb Hl IH]; [simpl; lia|]. cbn [le_value length].
  rewrite Nat2Z.inj_succ, Z.pow_succ_r by lia. unfold is_byte in Hb. lia.
Qed.

(** *** Byte order *)

(** A shifted value and one below the shift do not overlap. *)
Lemma lor_shiftl_low a b k : 0 <= k -> 0 <= b < 2 ^ k -> Z.lor (Z.shiftl a k) b = a * 2 ^ k + b.
Proof.
  intros Hk Hb. rewrite <- (Z.shiftl_mul_pow2 a k) by done.
  assert (Z.land (Z.shiftl a k) b = 0) as E.
  { apply Z.bits_inj'. intros i Hi. rewrite Z.land_spec, Z.bits_0.
    destruct (Z.lt_ge_cases i k) as [H|H].
    - by rewrite Z.shiftl_spec_low.
    - rewrite (bits_above_zero k b) by done. apply andb_false_r. }
  by rewrite Z.add_nocarry_lxor, Z.lxor_lor.
Qed.

Lemma lor_low_shiftl a b k : 0 <= k -> 0 <= b < 2 ^ k -> Z.lor b (Z.shiftl a k) = b + a * 2 ^ k.
Proof. intros Hk Hb. rewrite Z.lor_comm, lor_shiftl_low by done. lia. Qed.

(** Four bytes assembled with shifts, first byte lowest. *)
Lemma lor4_le a b c d : is_byte a -> is_byte b -> is_byte c -> is_byte d ->
  Z.lor (Z.lor (Z.lor a (Z.shiftl b 8)) (Z.shiftl c 16)) (Z.shiftl d 24) = le_value [a; b; c; d].
Proof.
  unfold is_byte. intros Ha Hb Hc Hd. cbn [le_value].
  rewrite (lor_low_shiftl b), (lor_low_shiftl c), (lor_low_shiftl d) by lia. lia.
Qed.

(** Two bytes, first byte highest. *)
Lemma lor2_be a b : is_byte a -> is_byte b -> Z.lor (Z.shiftl a 8) b = le_value [b; a].
Proof. unfold is_byte. intros Ha Hb. cbn [le_value]. rewrite lor_shiftl_low by lia. lia. Qed.

Lemma net_htons_bytes a b : is_byte a -> is_byte b -> net_htons (le_value [a; b]) = le_value [b; a].
Proof.
  intros Ha Hb. unfold net_htons. cbn [le_value].
  rewrite !land_ff, Z.shiftr_div_pow2 by lia. change (2 ^ 8) with 256. unfold is_byte in *.
  replace ((a + 256 * (b + 256 * 0)) mod 256) with a by (rewrite Z.mul_comm, Z_mod_plus_full, Z.mod_small; lia).
  replace ((a + 256 * (b + 256 * 0)) / 256) with b by (rewrite Z.mul_comm, Z_div_plus_full, Z.div_small; lia).
  rewrite Z.mod_small, lor_shiftl_low by lia. lia.
Qed.

Lemma u16_bytes n : 0 <= n < 65536 -> le_bytes 2 n = [n mod 256; n / 256] /\ n = le_value [n mod 256; n / 256]
  /\ is_byte (n mod 256) /\ is_byte (n / 256).
Proof.
  intros Hn. unfold is_byte. cbn [le_bytes le_value].
  rewrite (Z.mod_small (n / 256)) by (split; [apply Z.div_pos|apply Z.div_lt_upper_bound]; lia).
  pose proof (Z.div_mod n 256 ltac:(lia)). pose proof (Z.mod_pos_bound n 256 ltac:(lia)).
  repeat split; lia || (apply Z.div_pos; lia) || (apply Z.div_lt_upper_bound; lia).
Qed.

Lemma net_htons_invol n : 0 <= n < 65536 -> net_htons (net_htons n) = n.
Proof.
  intros Hn. destruct (u16_bytes n Hn) as (_ & E & H1 & H2).
  rewrite E at 1. rewrite !net_htons_bytes by done. by rewrite <- E.
Qed.

Lemma net_htons_range n : 0 <= n < 65536 -> 0 <= net_htons n < 65536.
Proof.
  intros Hn. destruct (u16_bytes n Hn) as (_ & E & H1 & H2). rewrite E, net_htons_bytes by done.
  apply (le_value_range [_; _]). by apply Forall_cons_2, Forall_cons_2, Forall_nil_2.
Qed.

(** *** The checksum *)

(** The sum of the 16-bit words, unbounded. *)
Fixpoint word_sum (bs : list Z) : Z :=
  match bs with
  | b0 :: b1 :: bs => le_value [b0; b1] + word_sum bs
  | [b0] => b0
  | [] => 0
  end.

(** Induction two bytes at a time. *)
Lemma pair_ind (P : list Z -> Prop) : P [] -> (forall b, P [b]) ->
  (forall a b l, P l -> P (a :: b :: l)) -> forall l, P l.
Proof.
  intros H0 H1 H2 l. enough (P l /\ forall b, P (b :: l)) as [? _] by done.
  induction l as [|b l [IH1 IH2]]; auto.
Qed.

Lemma word_sum_range bs : Forall is_byte bs -> 0 <= word_sum bs <= 65535 * zlen bs.
Proof.
  unfold zlen. induction bs as [|b|a b l IH] using pair_ind; intros HF; [simpl; lia|..].
  - inversion_clear HF as [|? ? Hb _]. unfold is_byte in Hb. simpl. lia.
  - inversion_clear HF as [|? ? Ha HF']. inversion_clear HF' as [|? ? Hb HF].
    specialize (IH HF). unfold is_byte in *. cbn [word_sum le_value length] in *. lia.
Qed.

Lemma csum_words_spec bs sum : Forall is_byte bs -> 0 <= sum -> sum + word_sum bs < 2 ^ 32 ->
  csum_words bs sum = sum + word_sum bs.
Proof.
  revert sum. induction bs as [|b|a b l IH] using pair_ind; intros sum HF H0 Hs; cbn [csum_words word_sum] in *.
  - lia.
  - inversion_clear HF as [|? ? Hb _]. unfold is_byte in Hb. apply wrap_small. lia.
  - inversion_clear HF as [|? ? Ha HF']. inversion_clear HF' as [|? ? Hb HF].
    pose proof (word_sum_range l HF). unfold zlen in *.
    assert (0 <= le_value [a; b]) by (unfold is_byte in *; cbn [le_value]; lia).
    rewrite wrap_small by lia. rewrite IH by (done || lia). lia.
Qed.

(** Folding keeps the value modulo 65535 and reaches 16 bits in two rounds. *)
Lemma fold_round s : 0 <= s < 2 ^ 32 ->
  u32 (Z.land s 65535 + Z.shiftr s 16) = s mod 65536 + s / 65536.
Proof.
  intros Hs. change 65535 with (Z.ones 16). rewrite Z.land_ones, Z.shiftr_div_pow2 by lia.
  change (2 ^ 16) with 65536. apply wrap_small.
  pose proof (Z.mod_pos_bound s 65536 ltac:(lia)).
  assert (0 <= s / 65536 < 65536); [|lia].
  split; [apply Z.div_pos; lia|apply Z.div_lt_upper_bound; lia].
Qed.

Lemma csum_fold_step fuel s : 0 <= s < 2 ^ 32 -> 65536 <= s ->
  csum_fold (S fuel) s = csum_fold fuel (s mod 65536 + s / 65536).
Proof.
  intros Hs Hge. cbn [csum_fold]. rewrite fold_round by done. unfold c_true.
  rewrite Z.shiftr_div_pow2 by lia. change (2 ^ 16) with 65536.
  assert (1 <= s / 65536) by (apply Z.div_le_lower_bound; lia).
  destruct (Z.eqb_spec (s / 65536) 0); [lia|done].
Qed.

Lemma csum_fold_stop fuel s : 0 <= s < 65536 -> csum_fold fuel s = Done s.
Proof.
  intros Hs. assert (Z.shiftr s 16 = 0) as E.
  { rewrite Z.shiftr_div_pow2 by lia. apply Z.div_small. lia. }
  destruct fuel; cbn [csum_fold]; by rewrite E.
Qed.

Lemma csum_fold_spec s : 0 <= s < 2 ^ 32 ->
  exists r, csum_fold fold_fuel s = Done r /\ 0 <= r < 65536 /\
    (exists k, s = r + 65535 * k) /\ (r = 0 <-> s = 0).
Proof.
  intros Hs. unfold fold_fuel. destruct (Z.lt_ge_cases s 65536) as [H|H].
  { exists s. rewrite csum_fold_stop by lia. repeat split; try lia. exists 0. lia. }
  pose proof (Z.div_mod s 65536 ltac:(lia)) as E. pose proof (Z.mod_pos_bound s 65536 ltac:(lia)).
  assert (1 <= s / 65536 < 65536) by
    (split; [apply Z.div_le_lower_bound|apply Z.div_lt_upper_bound]; lia).
  rewrite csum_fold_step by lia. set (t := s mod 65536 + s / 65536) in *.
  destruct (Z.lt_ge_cases t 65536) as [H'|H'].
  { exists t. rewrite csum_fold_stop by lia. repeat split; try lia. exists (s / 65536). lia. }
  assert (t / 65536 = 1) as E1 by (symmetry; apply (Z.div_unique t 65536 1 (t - 65536)); lia).
  assert (t mod 65536 = t - 65536) as E2 by (symmetry; apply (Z.mod_unique t 65536 1); lia).
  rewrite csum_fold_step by lia. rewrite E1, E2, csum_fold_stop by lia.
  eexists. repeat split; try lia. exists (s / 65536 + 1). lia.
Qed.

Lemma word_sum_app l k : Nat.Even (length l) -> word_sum (l ++ k) = word_sum l + word_sum k.
Proof.
  induction l as [|b|a b l IH] using pair_ind; intros HE; [done|..].
  - simpl in HE. destruct HE as [m Hm]. lia.
  - cbn [app word_sum]. rewrite IH; [lia|]. simpl in HE. by apply Nat.Even_succ_succ.
Qed.

(** The result of [net_checksum] on a whole object: the complement of the
    ones'-complement sum of its words. *)
Lemma net_checksum_spec bs : Forall is_byte bs -> word_sum bs < 2 ^ 32 ->
  exists r, net_checksum bs (zlen bs) = Done (65535 - r) /\ 0 <= r < 65536 /\
    (exists k, word_sum bs = r + 65535 * k) /\ (r = 0 <-> word_sum bs = 0).
Proof.
  intros HF Hs. pose proof (word_sum_range bs HF).
  destruct (csum_fold_spec (word_sum bs)) as (r & E & Hr & Hk & H0); [lia|].
  exists r. split; [|done]. unfold net_checksum. unfold zlen at 1.
  rewrite load_bytes_done by (unfold zlen; lia). rewrite drop_0, Nat2Z.id, firstn_all. cbn [obind].
  rewrite csum_words_spec by (done || lia). rewrite Z.add_0_l, E. cbn [obind]. f_equal.
  unfold Z.lnot, wrap. symmetry. apply (Z.mod_unique _ _ (-1)); change (2 ^ 16) with 65536; lia.
Qed.

Lemma checksum_zero bs : Forall is_byte bs -> word_sum bs < 2 ^ 32 ->
  0 < word_sum bs -> (exists k, word_sum bs = 65535 * k) -> net_checksum bs (zlen bs) = Done 0.
Proof.
  intros HF Hs Hp [k Hk]. destruct (net_checksum_spec bs HF Hs) as (r & -> & Hr & [j Hj] & H0).
  assert (r = 65535) as ->; [|done].
  assert (r <> 0) by lia. lia.
Qed.

Definition csum_len : Z := 65534.

(** Writing the checksum into a zeroed, word-aligned field makes the
    checksum of the whole object zero. *)
Lemma checksum_fills pre post : Forall is_byte (pre ++ [0; 0] ++ post) -> Nat.Even (length pre) ->
  zlen (pre ++ [0; 0] ++ post) <= csum_len ->
  exists c, net_checksum (pre ++ [0; 0] ++ post) (zlen (pre ++ [0; 0] ++ post)) = Done c /\
    0 <= c < 65536 /\
    net_checksum (pre ++ le_bytes 2 c ++ post) (zlen (pre ++ le_bytes 2 c ++ post)) = Done 0.
Proof.
  intros HF HE HL. unfold csum_len in HL.
  pose proof (word_sum_range _ HF) as Hr0. 
  destruct (net_checksum_spec (pre ++ [0; 0] ++ post) HF) as (r & -> & Hr & [k Hk] & H0); [lia|].
  exists (65535 - r). split; [done|]. split; [lia|].
  destruct (u16_bytes (65535 - r)) as (-> & E & Hb1 & Hb2); [lia|].
  set (x := (65535 - r) mod 256) in *. set (y := (65535 - r) / 256) in *. clearbody x y.
  rewrite !Forall_app in HF. destruct HF as (HF1 & _ & HF2).
  assert (word_sum (pre ++ [x; y] ++ post) = word_sum (pre ++ [0; 0] ++ post) + (65535 - r)) as ES.
  { rewrite (word_sum_app pre ([x; y] ++ post)), (word_sum_app pre ([0; 0] ++ post)) by done.
    cbn [app word_sum]. rewrite <- E. cbn [le_value]. lia. }
  apply checksum_zero.
  - rewrite !Forall_app. split; [done|]. split; [|done].
    by apply Forall_cons_2, Forall_cons_2, Forall_nil_2.
  - lia.
  - lia.
  - exists (k + 1). lia.
Qed.

(** the Internet checksum verifies: with the result of [net_checksum] stored
    in the zeroed, word-aligned checksum field of a packet, the checksum of the
    whole packet is zero, which is what a receiver tests. The folding loop ends
    within its bound for every length up to 65534 bytes. *)
Theorem net_checksum_verifies pre post : Forall is_byte (pre ++ [0; 0] ++ post) ->
  Nat.Even (length pre) -> zlen (pre ++ [0; 0] ++ post) <= csum_len ->
  exists c, net_checksum (pre ++ [0; 0] ++ post) (zlen (pre ++ [0; 0] ++ post)) = Done c /\
    0 <= c < 65536 /\
    net_checksum (pre ++ le_bytes 2 c ++ post) (zlen (pre ++ le_bytes 2 c ++ post)) = Done 0.
Proof. apply checksum_fills. Qed.

Lemma net_checksum_verifies_witness : exists c,
  net_checksum [69; 0; 0; 20; 0; 0; 0; 0; 64; 1; 0; 0; 10; 0; 0; 1; 10; 0; 0; 2] 20 = Done c /\
  net_checksum ([69; 0; 0; 20; 0; 0; 0; 0; 64; 1] ++ le_bytes 2 c ++ [10; 0; 0; 1; 10; 0; 0; 2]) 20 = Done 0.
Proof.
  destruct (net_checksum_verifies [69; 0; 0; 20; 0; 0; 0; 0; 64; 1] [10; 0; 0; 1; 10; 0; 0; 2])
    as (c & E & _ & Ez).
  - repeat (apply Forall_cons_2; [unfold is_byte; lia|]). apply Forall_nil_2.
  - by exists 5%nat.
  - vm_compute. discriminate.
  - exists c. split; [exact E|exact Ez].
Defined.

(** *** Building a packet piece by piece *)
Lemma zlen_app l k : zlen (l ++ k) = zlen l + zlen k.
Proof. unfold zlen. rewrite length_app. lia. Qed.

Lemma zlen_cons x l : zlen (x :: l) = 1 + zlen l.
Proof. unfold zlen. simpl. lia. Qed.

Lemma zlen_nil : zlen [] = 0.
Proof. done. Qed.

Lemma zlen_le_bytes n v : zlen (le_bytes n v) = Z.of_nat n.
Proof. unfold zlen. by rewrite length_le_bytes. Qed.

Lemma zlen_fresh n : 0 <= n -> zlen (fresh n) = n.
Proof. intros Hn. unfold zlen, fresh. rewrite length_replicate. lia. Qed.

Lemma zlen_take n l : 0 <= n <= zlen l -> zlen (take (Z.to_nat n) l) = n.
Proof. unfold zlen. intros Hn. rewrite length_take. lia. Qed.

Lemma zlen_list_inserts i k l : zlen (list_inserts i k l) = zlen l.
Proof. unfold zlen. by rewrite length_inserts. Qed.

Lemma zlen_pos l : 0 <= zlen l.
Proof. unfold zlen. lia. Qed.

Lemma inserts_mid {A} (pre bs mid post : list A) : length bs = length mid ->
  list_inserts (length pre) bs (pre ++ mid ++ post) = pre ++ bs ++ post.
Proof.
  intros E. rewrite <- (Nat.add_0_r (length pre)), list_inserts_app_r. f_equal. by apply list_inserts_0_r.
Qed.

Lemma store_mid pre bs mid post : zlen bs = zlen mid ->
  store_bytes (pre ++ mid ++ post) (zlen pre) bs = Done (pre ++ bs ++ post).
Proof.
  intros E. pose proof (zlen_pos pre). pose proof (zlen_pos post).
  rewrite store_bytes_done by (rewrite ?zlen_app; lia). f_equal. unfold zlen in *. rewrite Nat2Z.id.
  apply inserts_mid. lia.
Qed.

Lemma fresh_app a b : 0 <= a -> 0 <= b -> fresh (a + b) = fresh a ++ fresh b.
Proof. intros Ha Hb. unfold fresh. by rewrite <- replicate_add, Z2Nat.inj_add. Qed.

Lemma store_fresh hdr n : 0 <= n ->
  store_bytes (fresh (zlen hdr + n)) 0 hdr = Done (hdr ++ fresh n).
Proof.
  intros Hn. pose proof (zlen_pos hdr). rewrite fresh_app by done.
  apply (store_mid [] hdr (fresh (zlen hdr)) (fresh n)). by rewrite zlen_fresh.
Qed.

Lemma copy_tail hdr k payload : zlen k <= zlen payload ->
  copy_bytes (hdr ++ k) (zlen hdr) payload (zlen k) = Done (hdr ++ take (length k) payload).
Proof.
  intros Hk. pose proof (zlen_pos k). unfold copy_bytes. rewrite load_bytes_done by lia. cbn [obind].
  change (Z.to_nat 0) with 0%nat. rewrite drop_0.
  replace (Z.to_nat (zlen k)) with (length k) by (unfold zlen; lia).
  rewrite <- (app_nil_r k) at 1. rewrite (store_mid hdr _ k []).
  - by rewrite app_nil_r.
  - unfold zlen in *. rewrite length_take. lia.
Qed.

(** A header stored in a fresh object and the payload copied behind it. *)
Lemma build_packet hdr payload h n : h = zlen hdr -> 0 <= n <= zlen payload ->
  (let* b := store_bytes (fresh (h + n)) 0 hdr in copy_bytes b h payload n)
  = Done (hdr ++ take (Z.to_nat n) payload).
Proof.
  intros -> Hn. rewrite store_fresh by lia. cbn [obind].
  pose proof (copy_tail hdr (fresh n) payload) as E. rewrite zlen_fresh in E by lia.
  rewrite E by lia. unfold fresh. by rewrite length_replicate.
Qed.

Lemma load_app l k off n : off = zlen l -> 0 <= n <= zlen k ->
  load_bytes (l ++ k) off n = Done (take (Z.to_nat n) k).
Proof.
  intros -> Hn. pose proof (zlen_pos l). rewrite load_bytes_done by (rewrite ?zlen_app; lia).
  unfold zlen. by rewrite Nat2Z.id, drop_app_length.
Qed.

Lemma load_mid l k m off n : off = zlen l -> n = zlen k -> load_bytes (l ++ k ++ m) off n = Done k.
Proof.
  intros Ho ->. pose proof (zlen_pos k). pose proof (zlen_pos m).
  rewrite load_app by (done || rewrite zlen_app; lia).
  unfold zlen. by rewrite Nat2Z.id, take_app_length.
Qed.

(** *** Dotted addresses *)

(** A byte in decimal. *)
Definition dec (a : Z) : list Z :=
  if a <? 10 then [48 + a]
  else if a <? 100 then [48 + a / 10; 48 + a mod 10]
  else [48 + a / 100; 48 + a / 10 mod 10; 48 + a mod 10].

Definition dotted (a b c d : Z) : list Z :=
  dec a ++ 46 :: dec b ++ 46 :: dec c ++ 46 :: dec d.

Lemma parse_digit d str o idx : 0 <= d < 10 -> (idx < 4)%nat ->
  parse_octets (48 + d :: str) o idx = parse_octets str (<[idx := u32 (get o idx * 10 + d)]> o) idx.
Proof.
  intros Hd Hi. cbn [parse_octets]. unfold c_true.
  destruct (Z.eqb_spec (48 + d) 0), (Nat.ltb_spec idx 4), (Z.leb_spec 48 (48 + d)),
    (Z.leb_spec (48 + d) 57); try lia. simpl. do 3 f_equal. lia.
Qed.

Lemma parse_dec a str o idx : is_byte a -> (idx < 4)%nat -> (idx < length o)%nat -> get o idx = 0 ->
  parse_octets (dec a ++ str) o idx = parse_octets str (<[idx := a]> o) idx.
Proof.
  unfold is_byte. intros Ha Hi Hl H0. unfold dec.
  pose proof (Z.div_mod a 10 ltac:(lia)). pose proof (Z.mod_pos_bound a 10 ltac:(lia)).
  assert (a / 100 = a / 10 / 10) as E by (rewrite Z.div_div by lia; done).
  pose proof (Z.div_mod (a / 10) 10 ltac:(lia)). pose proof (Z.mod_pos_bound (a / 10) 10 ltac:(lia)).
  assert (0 <= a / 10 < 26) by (split; [apply Z.div_pos|apply Z.div_lt_upper_bound]; lia).
  destruct (Z.ltb_spec a 10); [|destruct (Z.ltb_spec a 100)]; cbn [app].
  - rewrite parse_digit by lia. rewrite H0, wrap_small by lia. done.
  - rewrite !parse_digit by lia. rewrite get_insert_eq, list_insert_insert_eq by done.
    rewrite H0, !wrap_small by (rewrite ?wrap_small; lia). do 2 f_equal. lia.
  - rewrite !parse_digit by lia. rewrite !list_insert_insert_eq, !get_insert_eq by (rewrite ?length_insert; done).
    rewrite H0. rewrite (wrap_small 32 (0 * 10 + a / 100)) by lia.
    rewrite (wrap_small 32 (a / 100 * 10 + _)) by lia. rewrite wrap_small by lia.
    do 2 f_equal. lia.
Qed.

Lemma parse_dot str o idx : (idx < 4)%nat ->
  parse_octets (46 :: str) o idx = parse_octets str o (S idx).
Proof. intros Hi. cbn [parse_octets]. destruct (Nat.ltb_spec idx 4); [done|lia]. Qed.

Lemma net_parse_ip_dotted a b c d : is_byte a -> is_byte b -> is_byte c -> is_byte d ->
  net_parse_ip (dotted a b c d) = le_value [a; b; c; d].
Proof.
  intros Ha Hb Hc Hd. unfold net_parse_ip, dotted.
  rewrite parse_dec, parse_dot, parse_dec, parse_dot, parse_dec, parse_dot by (done || (simpl; lia)).
  rewrite <- (app_nil_r (dec d)), parse_dec by (done || (simpl; lia)).
  cbn [insert list_insert parse_octets]. unfold get. cbn [nth].
  rewrite <- lor4_le by done. unfold is_byte in *.
  rewrite !wrap_small; [done|rewrite Z.shiftl_mul_pow2; lia..].
Qed.

Lemma net_print_ip_bytes a b c d : is_byte a -> is_byte b -> is_byte c -> is_byte d ->
  net_print_ip (le_value [a; b; c; d]) = [a; b; c; d].
Proof.
  unfold is_byte. intros Ha Hb Hc Hd. unfold net_print_ip.
  rewrite !land_ff, !Z.shiftr_div_pow2 by lia. cbn [le_value].
  change (2 ^ 0) with 1. change (2 ^ 8) with 256. change (2 ^ 16) with 65536. change (2 ^ 24) with 16777216.
  repeat f_equal; symmetry.
  - apply (Z.mod_unique _ _ (b + 256 * (c + 256 * d))); rewrite ?Z.div_1_r; lia.
  - replace (_ / 256) with (b + 256 * (c + 256 * d)) by
      (apply (Z.div_unique _ _ _ a); lia).
    apply (Z.mod_unique _ _ (c + 256 * d)); lia.
  - replace (_ / 65536) with (c + 256 * d) by (apply (Z.div_unique _ _ _ (a + 256 * b)); lia).
    apply (Z.mod_unique _ _ d); lia.
  - replace (_ / 16777216) with d by (apply (Z.div_unique _ _ _ (a + 256 * (b + 256 * c))); lia).
    apply (Z.mod_unique _ _ 0); lia.
Qed.
(** *** Fields in network byte order *)
Definition be_value (l : list Z) : Z := foldl (fun v b => v * 256 + b) 0 l.
Definition field (data : list Z) (off n : nat) : Z := be_value (take n (drop off data)).

Lemma net_htonl_bytes a b c d : is_byte a -> is_byte b -> is_byte c -> is_byte d ->
  net_htonl (le_value [a; b; c; d]) = be_value [a; b; c; d].
Proof.
  unfold is_byte. intros Ha Hb Hc Hd. unfold net_htonl, be_value. cbn [le_value foldl]. set (n := a + _).
  assert (forall k, 0 <= k -> Z.land (Z.shiftr n k) 255 = n / 2 ^ k mod 256) as H8.
  { intros k Hk. by rewrite land_ff, Z.shiftr_div_pow2. }
  assert (forall m, Z.land m 65280 = m / 256 mod 256 * 2 ^ 8) as HH.
  { intros m. change 65280 with (Z.shiftl (Z.ones 8) 8). rewrite <- (Z.land_ones _ 8) by lia.
    change 256 with (2 ^ 8). rewrite <- Z.shiftr_div_pow2, <- Z.shiftl_mul_pow2 by lia.
    apply Z.bits_inj'. intros i Hi. rewrite Z.land_spec. destruct (Z.lt_ge_cases i 8).
    - by rewrite !Z.shiftl_spec_low, andb_false_r by lia.
    - rewrite !Z.shiftl_spec, Z.land_spec, Z.shiftr_spec by lia. do 2 f_equal. lia. }
  rewrite !HH, H8, land_ff by lia. rewrite (Z.shiftr_div_pow2 n 8) by lia.
  assert (n mod 256 = a) as -> by (unfold n; symmetry; apply (Z.mod_unique _ 256 (b + 256 * (c + 256 * (d + 256 * 0)))); lia).
  assert (n / 256 = b + 256 * (c + 256 * d)) as E1 by (unfold n; symmetry; apply (Z.div_unique _ 256 _ a); lia).
  change (2 ^ 8) with 256. rewrite E1. change (2 ^ 24) with (256 * 65536). rewrite <- Z.div_div, E1 by lia.
  assert ((b + 256 * (c + 256 * d)) mod 256 = b) as -> by (symmetry; apply (Z.mod_unique _ 256 (c + 256 * d)); lia).
  assert ((b + 256 * (c + 256 * d)) / 256 = c + 256 * d) as -> by (symmetry; apply (Z.div_unique _ 256 _ b); lia).
  assert ((c + 256 * d) mod 256 = c) as -> by (symmetry; apply (Z.mod_unique _ 256 d); lia).
  assert ((b + 256 * (c + 256 * d)) / 65536 = d) as -> by (symmetry; apply (Z.div_unique _ 65536 _ (b + 256 * c)); lia).
  rewrite (Z.mod_small d), !Z.shiftl_mul_pow2 by lia.
  assert (forall x y k, 0 <= k -> 0 <= y < 2 ^ k -> Z.lor (x * 2 ^ k) y = x * 2 ^ k + y) as Hl.
  { intros x y k Hk Hy. by rewrite <- Z.shiftl_mul_pow2, lor_shiftl_low, Z.shiftl_mul_pow2. }
  rewrite (Hl a) by lia. replace (a * 2 ^ 24 + b * 256 * 2 ^ 8) with ((a * 256 + b) * 2 ^ 16) by lia. rewrite Hl by lia.
  replace ((a * 256 + b) * 2 ^ 16 + c * 256) with (((a * 256 + b) * 256 + c) * 2 ^ 8) by lia. rewrite Hl by lia. lia.
Qed.

Lemma be_value_2 a b : be_value [a; b] = le_value [b; a].
Proof. unfold be_value. cbn. lia. Qed.

Lemma ld16_field data off : Forall is_byte data -> Z.of_nat off + 2 <= zlen data ->
  exists v, ld16 data (Z.of_nat off) = Done v /\ net_htons v = field data off 2.
Proof.
  intros HF Hl. unfold ld16, field. rewrite load_bytes_done by lia. rewrite Nat2Z.id. cbn [obind]. change (Z.to_nat 2) with 2%nat.
  assert (Forall is_byte (take 2 (drop off data))) as Hb by (by apply Forall_take, Forall_drop).
  assert (length (take 2 (drop off data)) = 2%nat) as Hn by (rewrite length_take, length_drop; unfold zlen in Hl; lia).
  destruct (take 2 (drop off data)) as [|a [|b [|]]]; try done. apply Forall_cons in Hb as [Ha [Hb _]%Forall_cons].
  eexists. split; [done|]. by rewrite net_htons_bytes, be_value_2.
Qed.

Lemma ld32_field data off : Forall is_byte data -> Z.of_nat off + 4 <= zlen data ->
  exists v, ld32 data (Z.of_nat off) = Done v /\ net_htonl v = field data off 4.
Proof.
  intros HF Hl. unfold ld32, field. rewrite load_bytes_done by lia. rewrite Nat2Z.id. cbn [obind]. change (Z.to_nat 4) with 4%nat.
  assert (Forall is_byte (take 4 (drop off data))) as Hb by (by apply Forall_take, Forall_drop).
  assert (length (take 4 (drop off data)) = 4%nat) as Hn by (rewrite length_take, length_drop; unfold zlen in Hl; lia).
  destruct (take 4 (drop off data)) as [|a [|b [|c [|d [|]]]]]; try done.
  repeat (apply Forall_cons in Hb as [? Hb]). eexists. split; [done|]. by rewrite net_htonl_bytes.
Qed.

Lemma be_htons v : 0 <= v < 65536 -> be_value (le_bytes 2 (net_htons v)) = v.
Proof.
  intros Hv. destruct (u16_bytes _ (net_htons_range v Hv)) as (-> & E & H1 & H2).
  rewrite be_value_2, <- net_htons_bytes, <- E by done. by apply net_htons_invol.
Qed.

Lemma be_htonl v : is_u32 v -> be_value (le_bytes 4 (net_htonl v)) = v.
Proof.
  intros Hv. assert (exists a b c d, Forall is_byte [a; b; c; d] /\ v = le_value [a; b; c; d]) as (a & b & c & d & Hb & ->).
  { eexists _, _, _, _. split; [apply (le_bytes_byte 4 v)|symmetry; by apply (le_value_bytes_u32 v)]. }
  repeat (apply Forall_cons in Hb as [? Hb]). rewrite net_htonl_bytes by done.
  unfold be_value at 2. cbn [foldl]. unfold is_byte in *.
  assert ((((0 * 256 + a) * 256 + b) * 256 + c) * 256 + d = le_value [d; c; b; a]) as -> by (cbn; lia).
  assert (le_bytes 4 (le_value [d; c; b; a]) = [d; c; b; a]) as ->.
  { cbn [le_value le_bytes]. set (x3 := a + 256 * 0). set (x2 := b + 256 * x3). set (x1 := c + 256 * x2).
    assert (forall x y, 0 <= x < 256 -> (x + 256 * y) mod 256 = x /\ (x + 256 * y) / 256 = y) as Hdm.
    { intros x y Hx. split; symmetry; [apply (Z.mod_unique _ 256 y)|apply (Z.div_unique _ 256 _ x)]; lia. }
    destruct (Hdm d x1) as [-> ->]; [done|]. unfold x1. destruct (Hdm c x2) as [-> ->]; [done|]. unfold x2.
    destruct (Hdm b x3) as [-> ->]; [done|]. unfold x3. rewrite Z.add_0_r, Z.mod_small by lia. done. }
  unfold be_value. cbn. lia.
Qed.

Lemma field_u16 data off : Forall is_byte data -> Z.of_nat off + 2 <= zlen data -> field data off 2 < 65536.
Proof.
  intros HF Hl. unfold field.
  assert (Forall is_byte (take 2 (drop off data))) as Hb by (by apply Forall_take, Forall_drop).
  assert (length (take 2 (drop off data)) = 2%nat) as Hn by (rewrite length_take, length_drop; unfold zlen in Hl; lia).
  destruct (take 2 (drop off data)) as [|a [|b [|]]]; try done. apply Forall_cons in Hb as [Ha [Hb _]%Forall_cons].
  unfold is_byte, be_value in *. cbn. lia.
Qed.
End PktProps.
