(* ===== verification/Net.v ===== *)
(** * The network stack: state, driver rings and the receive and send paths

    net.c, arp.c, udp.c, icmp.c, tcp.c and the packet handlers of dns.c and
    dhcp.c, with the transmit and receive rings of E1000.c. The code is mutually
    recursive: sending an IPv4 packet may resolve an address, which polls the
    card, which delivers packets, which may be answered by sending. Each
    function takes the functions it calls back as arguments, and [stack_at]
    ties the knot with the nesting depth as fuel.

    The card is a parameter: it may change the descriptors it shares with the
    driver whenever the driver reads or writes one of its registers or looks
    at a descriptor. Console output is not modelled, and memory allocation
    succeeds (no caller checks it). *)
From Stdlib Require Import ZArith Lia.
From stdpp Require Import base numbers list.
From S2P Require Import Prelude NetPkt.

Module Net.
Import Pkt.
Local Open Scope Z_scope.
Local Open Scope outcome_scope.

(** ** The state *)
(** net.h *)
Record net_config_t := mk_config {
  mac : list Z;
  ip : Z;
  netmask : Z;
  gateway : Z;
  cfg_dns : Z;
  configured : Z
}.
(** arp.c *)
Record arp_cache_entry_t := mk_arp {
  arp_ip : Z;
  arp_mac : list Z;
  arp_timestamp : Z;
  arp_valid : Z
}.
(** The handlers registered with [udp_register_handler]: [dns_handler] of dns.c
    and [dhcp_rx] of dhcp.c. *)
Inductive udp_handler_t := dns_handler_p | dhcp_rx_p.
Record udp_handler_entry_t := mk_udp_handler {
  uh_port : Z;
  uh_handler : option udp_handler_t
}.
(** icmp.h *)
Record icmp_reply_t := mk_reply {
  rep_src_ip : Z;
  rep_id : Z;
  rep_sequence : Z;
  rep_timestamp : Z
}.
(** The variables of icmp.c. *)
Record icmp_state := mk_icmp {
  ping_id : Z;
  ping_seq : Z;
  replies : list icmp_reply_t;
  reply_count : Z;
  waiting_for_reply : Z;
  expected_id : Z;
  expected_seq : Z;
  reply_received : Z
}.
(** tcp.c; a socket pointer is an index into [tcp_sockets]. *)
Record tcp_socket_t := mk_socket {
  remote_ip : Z;
  local_port : Z;
  remote_port : Z;
  seq_num : Z;
  ack_num : Z;
  state : Z;
  in_use : Z
}.
(** The variables of dns.c. *)
Record dns_state := mk_dns {
  dns_server : Z;
  dns_resolved_ip : Z;
  dns_waiting : Z;
  dns_query_id : Z
}.
(** The variables of dhcp.c. *)
Record dhcp_state := mk_dhcp {
  xid : Z;
  got_offer : Z;
  got_ack : Z;
  offer_ip : Z;
  server_ip : Z;
  mask : Z;
  gw : Z;
  dhcp_dns : Z
}.
(** The variables of http.c. *)
Record http_state := mk_http {
  http_response_buffer : list Z;
  http_response_len : Z;
  http_transfer_complete : Z;
  http_socket : option nat
}.
(** E1000.h: the receive descriptor, with the buffer its address names. *)
Record rx_desc_t := mk_rx {
  rxd_buffer : list Z;
  rxd_length : Z;
  rxd_status : Z
}.
(** E1000.h: the transmit descriptor, with the buffer its address names. *)
Record tx_desc_t := mk_tx {
  txd_buffer : list Z;
  txd_length : Z;
  txd_cmd : Z;
  txd_status : Z
}.
(** The memory the driver shares with the card. *)
Record rings_t := mk_rings {
  rx_descs : list rx_desc_t;
  tx_descs : list tx_desc_t
}.
(** E1000.h: the driver's own fields. *)
Record e1000_device_t := mk_e1000 {
  initialized : Z;
  rx_cur : Z;
  tx_cur : Z
}.
(** All of it, with the state [H] of the card. *)
Record net {H : Type} := mk_net {
  net_config : net_config_t;
  arp_cache : list arp_cache_entry_t;
  arp_time : Z;
  udp_handlers : list udp_handler_entry_t;
  icmp : icmp_state;
  tcp_sockets : list tcp_socket_t;
  next_port : Z;
  dns : dns_state;
  dhcp : dhcp_state;
  http : http_state;
  e1000_dev : e1000_device_t;
  rings : rings_t;
  hw : H
}.
Arguments net H : clear implicits.
Arguments mk_net {H}.

(** ** Updates *)
Definition set_ping_id (v : Z) (s : icmp_state) : icmp_state :=
  mk_icmp v (s.(ping_seq)) (s.(replies)) (s.(reply_count)) (s.(waiting_for_reply)) (s.(expected_id)) (s.(expected_seq)) (s.(reply_received)).
Definition set_ping_seq (v : Z) (s : icmp_state) : icmp_state :=
  mk_icmp (s.(ping_id)) v (s.(replies)) (s.(reply_count)) (s.(waiting_for_reply)) (s.(expected_id)) (s.(expected_seq)) (s.(reply_received)).
Definition set_reply_count (v : Z) (s : icmp_state) : icmp_state :=
  mk_icmp (s.(ping_id)) (s.(ping_seq)) (s.(replies)) v (s.(waiting_for_reply)) (s.(expected_id)) (s.(expected_seq)) (s.(reply_received)).
Definition set_waiting_for_reply (v : Z) (s : icmp_state) : icmp_state :=
  mk_icmp (s.(ping_id)) (s.(ping_seq)) (s.(replies)) (s.(reply_count)) v (s.(expected_id)) (s.(expected_seq)) (s.(reply_received)).
Definition set_expected_id (v : Z) (s : icmp_state) : icmp_state :=
  mk_icmp (s.(ping_id)) (s.(ping_seq)) (s.(replies)) (s.(reply_count)) (s.(waiting_for_reply)) v (s.(expected_seq)) (s.(reply_received)).
Definition set_expected_seq (v : Z) (s : icmp_state) : icmp_state :=
  mk_icmp (s.(ping_id)) (s.(ping_seq)) (s.(replies)) (s.(reply_count)) (s.(waiting_for_reply)) (s.(expected_id)) v (s.(reply_received)).
Definition set_reply_received (v : Z) (s : icmp_state) : icmp_state :=
  mk_icmp (s.(ping_id)) (s.(ping_seq)) (s.(replies)) (s.(reply_count)) (s.(waiting_for_reply)) (s.(expected_id)) (s.(expected_seq)) v.
Definition set_remote_ip (v : Z) (s : tcp_socket_t) : tcp_socket_t :=
  mk_socket v (s.(local_port)) (s.(remote_port)) (s.(seq_num)) (s.(ack_num)) (s.(state)) (s.(in_use)).
Definition set_local_port (v : Z) (s : tcp_socket_t) : tcp_socket_t :=
  mk_socket (s.(remote_ip)) v (s.(remote_port)) (s.(seq_num)) (s.(ack_num)) (s.(state)) (s.(in_use)).
Definition set_remote_port (v : Z) (s : tcp_socket_t) : tcp_socket_t :=
  mk_socket (s.(remote_ip)) (s.(local_port)) v (s.(seq_num)) (s.(ack_num)) (s.(state)) (s.(in_use)).
Definition set_seq_num (v : Z) (s : tcp_socket_t) : tcp_socket_t :=
  mk_socket (s.(remote_ip)) (s.(local_port)) (s.(remote_port)) v (s.(ack_num)) (s.(state)) (s.(in_use)).
Definition set_ack_num (v : Z) (s : tcp_socket_t) : tcp_socket_t :=
  mk_socket (s.(remote_ip)) (s.(local_port)) (s.(remote_port)) (s.(seq_num)) v (s.(state)) (s.(in_use)).
Definition set_state (v : Z) (s : tcp_socket_t) : tcp_socket_t :=
  mk_socket (s.(remote_ip)) (s.(local_port)) (s.(remote_port)) (s.(seq_num)) (s.(ack_num)) v (s.(in_use)).
Definition set_in_use (v : Z) (s : tcp_socket_t) : tcp_socket_t :=
  mk_socket (s.(remote_ip)) (s.(local_port)) (s.(remote_port)) (s.(seq_num)) (s.(ack_num)) (s.(state)) v.
Definition set_dns_server (v : Z) (s : dns_state) : dns_state :=
  mk_dns v (s.(dns_resolved_ip)) (s.(dns_waiting)) (s.(dns_query_id)).
Definition set_dns_resolved_ip (v : Z) (s : dns_state) : dns_state :=
  mk_dns (s.(dns_server)) v (s.(dns_waiting)) (s.(dns_query_id)).
Definition set_dns_waiting (v : Z) (s : dns_state) : dns_state :=
  mk_dns (s.(dns_server)) (s.(dns_resolved_ip)) v (s.(dns_query_id)).
Definition set_dns_query_id (v : Z) (s : dns_state) : dns_state :=
  mk_dns (s.(dns_server)) (s.(dns_resolved_ip)) (s.(dns_waiting)) v.
Definition set_xid (v : Z) (s : dhcp_state) : dhcp_state :=
  mk_dhcp v (s.(got_offer)) (s.(got_ack)) (s.(offer_ip)) (s.(server_ip)) (s.(mask)) (s.(gw)) (s.(dhcp_dns)).
Definition set_got_offer (v : Z) (s : dhcp_state) : dhcp_state :=
  mk_dhcp (s.(xid)) v (s.(got_ack)) (s.(offer_ip)) (s.(server_ip)) (s.(mask)) (s.(gw)) (s.(dhcp_dns)).
Definition set_got_ack (v : Z) (s : dhcp_state) : dhcp_state :=
  mk_dhcp (s.(xid)) (s.(got_offer)) v (s.(offer_ip)) (s.(server_ip)) (s.(mask)) (s.(gw)) (s.(dhcp_dns)).
Definition set_offer_ip (v : Z) (s : dhcp_state) : dhcp_state :=
  mk_dhcp (s.(xid)) (s.(got_offer)) (s.(got_ack)) v (s.(server_ip)) (s.(mask)) (s.(gw)) (s.(dhcp_dns)).
Definition set_server_ip (v : Z) (s : dhcp_state) : dhcp_state :=
  mk_dhcp (s.(xid)) (s.(got_offer)) (s.(got_ack)) (s.(offer_ip)) v (s.(mask)) (s.(gw)) (s.(dhcp_dns)).
Definition set_mask (v : Z) (s : dhcp_state) : dhcp_state :=
  mk_dhcp (s.(xid)) (s.(got_offer)) (s.(got_ack)) (s.(offer_ip)) (s.(server_ip)) v (s.(gw)) (s.(dhcp_dns)).
Definition set_gw (v : Z) (s : dhcp_state) : dhcp_state :=
  mk_dhcp (s.(xid)) (s.(got_offer)) (s.(got_ack)) (s.(offer_ip)) (s.(server_ip)) (s.(mask)) v (s.(dhcp_dns)).
Definition set_dhcp_dns (v : Z) (s : dhcp_state) : dhcp_state :=
  mk_dhcp (s.(xid)) (s.(got_offer)) (s.(got_ack)) (s.(offer_ip)) (s.(server_ip)) (s.(mask)) (s.(gw)) v.
Definition set_http_response_buffer (v : list Z) (s : http_state) : http_state :=
  mk_http v (s.(http_response_len)) (s.(http_transfer_complete)) (s.(http_socket)).
Definition set_http_response_len (v : Z) (s : http_state) : http_state :=
  mk_http (s.(http_response_buffer)) v (s.(http_transfer_complete)) (s.(http_socket)).
Definition set_http_transfer_complete (v : Z) (s : http_state) : http_state :=
  mk_http (s.(http_response_buffer)) (s.(http_response_len)) v (s.(http_socket)).
Definition set_http_socket (v : option nat) (s : http_state) : http_state :=
  mk_http (s.(http_response_buffer)) (s.(http_response_len)) (s.(http_transfer_complete)) v.
Definition set_rx_cur (v : Z) (s : e1000_device_t) : e1000_device_t :=
  mk_e1000 (s.(initialized)) v (s.(tx_cur)).
Definition set_tx_cur (v : Z) (s : e1000_device_t) : e1000_device_t :=
  mk_e1000 (s.(initialized)) (s.(rx_cur)) v.
Definition set_net_config {H} (v : net_config_t) (s : net H) : net H :=
  mk_net v (s.(arp_cache)) (s.(arp_time)) (s.(udp_handlers)) (s.(icmp)) (s.(tcp_sockets)) (s.(next_port)) (s.(dns)) (s.(dhcp)) (s.(http)) (s.(e1000_dev)) (s.(rings)) (s.(hw)).
Definition set_arp_cache {H} (v : list arp_cache_entry_t) (s : net H) : net H :=
  mk_net (s.(net_config)) v (s.(arp_time)) (s.(udp_handlers)) (s.(icmp)) (s.(tcp_sockets)) (s.(next_port)) (s.(dns)) (s.(dhcp)) (s.(http)) (s.(e1000_dev)) (s.(rings)) (s.(hw)).
Definition set_arp_time {H} (v : Z) (s : net H) : net H :=
  mk_net (s.(net_config)) (s.(arp_cache)) v (s.(udp_handlers)) (s.(icmp)) (s.(tcp_sockets)) (s.(next_port)) (s.(dns)) (s.(dhcp)) (s.(http)) (s.(e1000_dev)) (s.(rings)) (s.(hw)).
Definition set_udp_handlers {H} (v : list udp_handler_entry_t) (s : net H) : net H :=
  mk_net (s.(net_config)) (s.(arp_cache)) (s.(arp_time)) v (s.(icmp)) (s.(tcp_sockets)) (s.(next_port)) (s.(dns)) (s.(dhcp)) (s.(http)) (s.(e1000_dev)) (s.(rings)) (s.(hw)).
Definition set_icmp {H} (v : icmp_state) (s : net H) : net H :=
  mk_net (s.(net_config)) (s.(arp_cache)) (s.(arp_time)) (s.(udp_handlers)) v (s.(tcp_sockets)) (s.(next_port)) (s.(dns)) (s.(dhcp)) (s.(http)) (s.(e1000_dev)) (s.(rings)) (s.(hw)).
Definition set_tcp_sockets {H} (v : list tcp_socket_t) (s : net H) : net H :=
  mk_net (s.(net_config)) (s.(arp_cache)) (s.(arp_time)) (s.(udp_handlers)) (s.(icmp)) v (s.(next_port)) (s.(dns)) (s.(dhcp)) (s.(http)) (s.(e1000_dev)) (s.(rings)) (s.(hw)).
Definition set_next_port {H} (v : Z) (s : net H) : net H :=
  mk_net (s.(net_config)) (s.(arp_cache)) (s.(arp_time)) (s.(udp_handlers)) (s.(icmp)) (s.(tcp_sockets)) v (s.(dns)) (s.(dhcp)) (s.(http)) (s.(e1000_dev)) (s.(rings)) (s.(hw)).
Definition set_dns {H} (v : dns_state) (s : net H) : net H :=
  mk_net (s.(net_config)) (s.(arp_cache)) (s.(arp_time)) (s.(udp_handlers)) (s.(icmp)) (s.(tcp_sockets)) (s.(next_port)) v (s.(dhcp)) (s.(http)) (s.(e1000_dev)) (s.(rings)) (s.(hw)).
Definition set_dhcp {H} (v : dhcp_state) (s : net H) : net H :=
  mk_net (s.(net_config)) (s.(arp_cache)) (s.(arp_time)) (s.(udp_handlers)) (s.(icmp)) (s.(tcp_sockets)) (s.(next_port)) (s.(dns)) v (s.(http)) (s.(e1000_dev)) (s.(rings)) (s.(hw)).
Definition set_http {H} (v : http_state) (s : net H) : net H :=
  mk_net (s.(net_config)) (s.(arp_cache)) (s.(arp_time)) (s.(udp_handlers)) (s.(icmp)) (s.(tcp_sockets)) (s.(next_port)) (s.(dns)) (s.(dhcp)) v (s.(e1000_dev)) (s.(rings)) (s.(hw)).
Definition set_e1000_dev {H} (v : e1000_device_t) (s : net H) : net H :=
  mk_net (s.(net_config)) (s.(arp_cache)) (s.(arp_time)) (s.(udp_handlers)) (s.(icmp)) (s.(tcp_sockets)) (s.(next_port)) (s.(dns)) (s.(dhcp)) (s.(http)) v (s.(rings)) (s.(hw)).
Definition set_rings {H} (v : rings_t) (s : net H) : net H :=
  mk_net (s.(net_config)) (s.(arp_cache)) (s.(arp_time)) (s.(udp_handlers)) (s.(icmp)) (s.(tcp_sockets)) (s.(next_port)) (s.(dns)) (s.(dhcp)) (s.(http)) (s.(e1000_dev)) v (s.(hw)).
Definition set_hw {H} (v : H) (s : net H) : net H :=
  mk_net (s.(net_config)) (s.(arp_cache)) (s.(arp_time)) (s.(udp_handlers)) (s.(icmp)) (s.(tcp_sockets)) (s.(next_port)) (s.(dns)) (s.(dhcp)) (s.(http)) (s.(e1000_dev)) (s.(rings)) v.

(** ** Stateful code *)
Definition N (H A : Type) : Type := net H -> outcome (A * net H).
#[export] Instance N_ret {H} : MRet (N H) := fun A a s => Done (a, s).
#[export] Instance N_bind {H} : MBind (N H) := fun A B f m s =>
  let* (a, s) := m s in f a s.
Definition gets {H A} (f : net H -> A) : N H A := fun s => Done (f s, s).
Definition modify {H} (f : net H -> net H) : N H unit := fun s => Done ((), f s).
Definition lift {H A} (m : outcome A) : N H A := fun s => let* a := m in Done (a, s).
Definition skip {H} : N H unit := mret ().

(** [for (i = lo; i < lo + n; i++)] whose body may return from the function. *)
Fixpoint for_ret {H R} (body : Z -> N H (option R)) (n : nat) (i : Z) : N H (option R) :=
  match n with
  | O => mret None
  | S n => r ← body i; match r with Some v => mret (Some v) | None => for_ret body n (i + 1) end
  end.

(** A loop without an early return. *)
Fixpoint repeat_n {H} (n : nat) (body : N H unit) : N H unit :=
  match n with O => skip | S n => body ;; repeat_n n body end.

(** The first index whose element satisfies [p], for the search loops. *)
Fixpoint find_index {A} (p : A -> bool) (l : list A) : option nat :=
  match l with
  | [] => None
  | x :: l => if p x then Some O else option_map S (find_index p l)
  end.

(** ** The card *)

(** What the driver sees of it: register reads and writes, and the changes it
    makes to the shared rings before the driver next looks at them. *)
Class Nic (H : Type) := {
  nic_read : Z -> H * rings_t -> Z * (H * rings_t);
  nic_write : Z -> Z -> H * rings_t -> H * rings_t;
  nic_step : H * rings_t -> H * rings_t
}.

Definition REG_ICR : Z := 192.
Definition REG_RDT : Z := 10264.
Definition REG_TDT : Z := 14360.

Section Stack.
Context {H : Type} {NIC : Nic H}.
(** Rounds a busy-wait on a descriptor may take before the model gives up. *)
Context (spin : nat).

Definition on_card {A} (f : H * rings_t -> A * (H * rings_t)) : N H A := fun s =>
  let '(a, (h, r)) := f (s.(hw), s.(rings)) in Done (a, set_hw h (set_rings r s)).
Definition e1000_read_reg (reg : Z) : N H Z := on_card (nic_read reg).
Definition e1000_write_reg (reg val : Z) : N H unit :=
  on_card (fun c => ((), nic_write reg val c)).
Definition card_progress : N H unit := on_card (fun c => ((), nic_step c)).

(** *** E1000.c: transmission *)
Definition tx_desc (tail : Z) : N H tx_desc_t :=
  r ← gets rings; lift (aget r.(tx_descs) tail).
Definition set_tx_desc (tail : Z) (d : tx_desc_t) : N H unit :=
  r ← gets rings;
  l ← lift (aset r.(tx_descs) tail d);
  modify (set_rings (mk_rings r.(rx_descs) l)).

(** [while (!(desc->status & 1));] *)
Fixpoint wait_tx (fuel : nat) (tail : Z) : N H unit :=
  card_progress ;;
  d ← tx_desc tail;
  if c_true (Z.land d.(txd_status) 1) then skip
  else match fuel with O => lift OutOfFuel | S fuel => wait_tx fuel tail end.

Definition e1000_send_packet (data : list Z) (len : Z) : N H Z :=
  dev ← gets e1000_dev;
  if negb (c_true dev.(initialized)) || (8192 <? len) then mret (-1) else
  let tail := dev.(tx_cur) in
  wait_tx spin tail ;;
  d ← tx_desc tail;
  buf ← lift (copy_bytes d.(txd_buffer) 0 data len);
  set_tx_desc tail (mk_tx buf len 11 0) ;;
  modify (fun s => set_e1000_dev (set_tx_cur ((tail + 1) mod 32) s.(e1000_dev)) s) ;;
  e1000_write_reg REG_TDT ((tail + 1) mod 32) ;;
  mret 0.

(** *** net.c: Ethernet *)
Definition net_send_ethernet (dest_mac : list Z) (ethertype : Z) (payload : list Z) (length : Z) : N H Z :=
  let total_len := u16 (sizeof_eth + length) in
  cfg ← gets net_config;
  dst ← lift (load_bytes dest_mac 0 6);
  src ← lift (load_bytes cfg.(mac) 0 6);
  buffer ← lift (store_bytes (fresh total_len) 0 (dst ++ src ++ le_bytes 2 (net_htons ethertype)));
  buffer ← lift (copy_bytes buffer sizeof_eth payload length);
  e1000_send_packet buffer total_len.

Definition net_register_device (m : list Z) : N H unit :=
  bs ← lift (load_bytes m 0 6);
  modify (fun s => let c := s.(net_config) in
    set_net_config (mk_config bs c.(ip) c.(netmask) c.(gateway) c.(cfg_dns) 0) s).

Definition net_set_config (ip netmask gateway : Z) : N H unit :=
  modify (fun s => let c := s.(net_config) in
    set_net_config (mk_config c.(mac) ip netmask gateway c.(cfg_dns) 1) s).

(** *** arp.c *)
Definition ARP_CACHE_SIZE : Z := 32.

Definition arp_init : N H unit :=
  modify (fun s => set_arp_cache
    (map (fun e => mk_arp e.(arp_ip) e.(arp_mac) e.(arp_timestamp) 0) s.(arp_cache)) s).

Definition arp_hit (ip : Z) (e : arp_cache_entry_t) : bool :=
  c_true e.(arp_valid) && (e.(arp_ip) =? ip).

(** The second loop of [arp_cache_add]: the first invalid entry, else the one
    with the smallest timestamp; [i] is the index of the head of the list. *)
Fixpoint arp_victim (cache : list arp_cache_entry_t) (i idx oldest : Z) : Z :=
  match cache with
  | [] => idx
  | e :: cache =>
    if negb (c_true e.(arp_valid)) then i
    else if e.(arp_timestamp) <? oldest then arp_victim cache (i + 1) i e.(arp_timestamp)
    else arp_victim cache (i + 1) idx oldest
  end.

Definition arp_cache_add (ip : Z) (m : list Z) : N H unit :=
  cache ← gets arp_cache;
  now ← gets arp_time;
  bs ← lift (load_bytes m 0 6);
  match find_index (arp_hit ip) cache with
  | Some i =>
    e ← lift (aget cache (Z.of_nat i));
    modify (fun s => set_arp_time (u32 (now + 1))
      (set_arp_cache (<[i := mk_arp e.(arp_ip) bs now e.(arp_valid)]> cache) s))
  | None =>
    let idx := arp_victim cache 0 (-1) 4294967295 in
    if 0 <=? idx then
      cache' ← lift (aset cache idx (mk_arp ip bs now 1));
      modify (fun s => set_arp_time (u32 (now + 1)) (set_arp_cache cache' s))
    else skip
  end.

Definition arp_cache_lookup (ip : Z) : N H (option (list Z)) :=
  cache ← gets arp_cache;
  match find_index (arp_hit ip) cache with
  | Some i => e ← lift (aget cache (Z.of_nat i)); mret (Some e.(arp_mac))
  | None => mret None
  end.

(** An [arp_packet_t] in memory. *)
Definition arp_packet (operation : Z) (shw : list Z) (sip : Z) (thw : list Z) (tip : Z) : list Z :=
  le_bytes 2 (net_htons 1) ++ le_bytes 2 (net_htons ETH_TYPE_IPV4) ++ [6; 4] ++
  le_bytes 2 (net_htons operation) ++ shw ++ le_bytes 4 sip ++ thw ++ le_bytes 4 tip.

Definition arp_receive (data : list Z) (length : Z) : N H unit :=
  if length <? sizeof_arp then skip else
  opw ← lift (ld16 data 6);
  shw ← lift (load_bytes data 8 6);
  sip ← lift (ld32 data 14);
  cfg ← gets net_config;
  arp_cache_add sip shw ;;
  tip ← lift (ld32 data 24);
  if (net_htons opw =? ARP_REQUEST) && (tip =? cfg.(ip)) then
    my ← lift (load_bytes cfg.(mac) 0 6);
    net_send_ethernet shw ETH_TYPE_ARP (arp_packet ARP_REPLY my cfg.(ip) shw sip) sizeof_arp ;;
    skip
  else skip.

Definition arp_send_request (target_ip : Z) : N H unit :=
  cfg ← gets net_config;
  my ← lift (load_bytes cfg.(mac) 0 6);
  net_send_ethernet (replicate 6 255) ETH_TYPE_ARP
    (arp_packet ARP_REQUEST my cfg.(ip) (replicate 6 0) target_ip) sizeof_arp ;;
  skip.

(** *** dns.c: the response parser

    Pointers are offsets from [data]; [fuel] bounds the rounds of one name
    loop, each of which advances the pointer. *)
Fixpoint dns_skip_name (fuel : nat) (data : list Z) (ptr fin : Z) : outcome Z :=
  if ptr <? fin then
    let* b := ld8 data ptr in
    if b =? 0 then Done ptr
    else if Z.land b 192 =? 192 then Done (ptr + 2)
    else match fuel with O => OutOfFuel | S fuel => dns_skip_name fuel data (ptr + b + 1) fin end
  else Done ptr.

(** [if (ptr < end && *ptr == 0) ptr++;] *)
Definition dns_skip_zero (data : list Z) (ptr fin : Z) : outcome Z :=
  if ptr <? fin then let* b := ld8 data ptr in Done (if b =? 0 then ptr + 1 else ptr) else Done ptr.

(** The loop over the questions. *)
Fixpoint dns_questions (qdcount : nat) (data : list Z) (ptr fin : Z) : outcome Z :=
  match qdcount with
  | O => Done ptr
  | S q =>
    if ptr <? fin then
      let* ptr := dns_skip_name (Z.to_nat fin) data ptr fin in
      let* ptr := dns_skip_zero data ptr fin in
      dns_questions q data (ptr + 4) fin
    else Done ptr
  end.

(** [for (i = 0; i < len && ptr < end; i++) ... *ptr++]: the characters of a label. *)
Fixpoint dns_label_chars (len : nat) (data : list Z) (ptr fin : Z) : outcome Z :=
  match len with
  | O => Done ptr
  | S len => if ptr <? fin then let* _ := ld8 data ptr in dns_label_chars len data (ptr + 1) fin
             else Done ptr
  end.

(** The name of an answer. *)
Fixpoint dns_answer_labels (fuel : nat) (data : list Z) (ptr fin : Z) : outcome Z :=
  if ptr <? fin then
    let* b := ld8 data ptr in
    if b =? 0 then Done ptr
    else if Z.land b 192 =? 192 then Done (ptr + 2)
    else
      let* ptr := dns_label_chars (Z.to_nat b) data (ptr + 1) fin in
      let* _ := (if ptr <? fin then ld8 data ptr else Done 0) in
      match fuel with O => OutOfFuel | S fuel => dns_answer_labels fuel data ptr fin end
  else Done ptr.

Definition dns_answer_name (data : list Z) (ptr fin : Z) : outcome Z :=
  let* b := ld8 data ptr in
  if Z.land b 192 =? 192 then Done (ptr + 2)
  else
    let* ptr := dns_answer_labels (Z.to_nat fin) data ptr fin in
    dns_skip_zero data ptr fin.

(** A 16-bit field, [(p[0] << 8) | p[1]]. *)
Definition be16 (data : list Z) (off : Z) : outcome Z :=
  let* a := ld8 data off in let* b := ld8 data (off + 1) in Done (Z.lor (Z.shiftl a 8) b).

(** [p[0] | (p[1] << 8) | (p[2] << 16) | (p[3] << 24)] *)
Definition le32 (data : list Z) (off : Z) : outcome Z :=
  let* a := ld8 data off in let* b := ld8 data (off + 1) in
  let* c := ld8 data (off + 2) in let* d := ld8 data (off + 3) in
  Done (u32 (Z.lor (Z.lor (Z.lor a (Z.shiftl b 8)) (Z.shiftl c 16)) (Z.shiftl d 24))).

(** The loop over the answers: [Some ip] is the return from inside it. *)
Fixpoint dns_answers (ancount : nat) (data : list Z) (ptr fin : Z) : outcome (option Z) :=
  match ancount with
  | O => Done None
  | S a =>
    if ptr <? fin then
      let* ptr := dns_answer_name data ptr fin in
      if fin <? ptr + 10 then Done None else
      let* type := be16 data ptr in
      let* rdlen := be16 data (ptr + 8) in
      let ptr := ptr + 10 in
      if fin <? ptr + rdlen then Done None else
      if (type =? 1) && (rdlen =? 4) then let* ip := le32 data ptr in Done (Some ip)
      else dns_answers a data (ptr + rdlen) fin
    else Done None
  end.

Definition dns_handler (data : list Z) (length : Z) (d : dns_state) : outcome dns_state :=
  if length <? 12 then Done d else
  let* id := be16 data 0 in
  let* flags := be16 data 2 in
  let* qdcount := be16 data 4 in
  let* ancount := be16 data 6 in
  if negb (id =? d.(dns_query_id)) then Done d
  else if negb (Z.land flags 15 =? 0) then Done (set_dns_waiting 0 d)
  else if negb (c_true (Z.land flags 32768)) then Done d
  else if ancount =? 0 then Done (set_dns_waiting 0 d)
  else
    let* ptr := dns_questions (Z.to_nat qdcount) data 12 length in
    if length <=? ptr then Done (set_dns_waiting 0 d)
    else
      let* found := dns_answers (Z.to_nat ancount) data ptr length in
      match found with
      | Some ip => Done (set_dns_waiting 0 (set_dns_resolved_ip ip d))
      | None => Done (if d.(dns_resolved_ip) =? 0 then set_dns_waiting 0 d else d)
      end.

(** *** dhcp.c: the packet handler *)

(** The option loop from [i] on, with the message type found so far; each
    round advances [i], so [len] rounds are enough. *)
Fixpoint dhcp_options (fuel : nat) (data : list Z) (len i msg_type : Z) (d : dhcp_state)
  : outcome (Z * dhcp_state) :=
  if i <? len - 2 then
    let* opt := ld8 data i in
    if opt =? 255 then Done (msg_type, d)
    else match fuel with
    | O => OutOfFuel
    | S fuel =>
      if opt =? 0 then dhcp_options fuel data len (i + 1) msg_type d
      else
        let* olen := ld8 data (i + 1) in
        if len <? i + 2 + olen then Done (msg_type, d)
        else if (opt =? 53) && (olen =? 1) then
          let* t := ld8 data (i + 2) in dhcp_options fuel data len (i + (2 + olen)) t d
        else if (opt =? 54) && (olen =? 4) then
          let* v := le32 data (i + 2) in
          dhcp_options fuel data len (i + (2 + olen)) msg_type (set_server_ip v d)
        else if (opt =? 1) && (olen =? 4) then
          let* v := le32 data (i + 2) in
          dhcp_options fuel data len (i + (2 + olen)) msg_type (set_mask v d)
        else if (opt =? 3) && (4 <=? olen) then
          let* v := le32 data (i + 2) in
          dhcp_options fuel data len (i + (2 + olen)) msg_type (set_gw v d)
        else if (opt =? 6) && (4 <=? olen) then
          let* v := le32 data (i + 2) in
          dhcp_options fuel data len (i + (2 + olen)) msg_type (set_dhcp_dns v d)
        else dhcp_options fuel data len (i + (2 + olen)) msg_type d
    end
  else Done (msg_type, d).

Definition dhcp_rx (data : list Z) (len : Z) (d : dhcp_state) : outcome dhcp_state :=
  if len <? 244 then Done d else
  let* op := ld8 data 0 in
  if negb (op =? 2) then Done d else
  let* x0 := ld8 data 4 in let* x1 := ld8 data 5 in
  let* x2 := ld8 data 6 in let* x3 := ld8 data 7 in
  let pkt_xid := u32 (Z.lor (Z.lor (Z.lor (Z.shiftl x0 24) (Z.shiftl x1 16)) (Z.shiftl x2 8)) x3) in
  if negb (pkt_xid =? d.(xid)) then Done d else
  let* yiaddr := le32 data 16 in
  let d := set_offer_ip yiaddr d in
  let* m0 := ld8 data 236 in let* m1 := ld8 data 237 in
  let* m2 := ld8 data 238 in let* m3 := ld8 data 239 in
  if negb (m0 =? 99) || negb (m1 =? 130) || negb (m2 =? 83) || negb (m3 =? 99) then Done d else
  let* (msg_type, d) := dhcp_options (Z.to_nat len) data len 240 0 d in
  Done (if msg_type =? 2 then set_got_offer 1 d
        else if msg_type =? 5 then set_got_ack 1 d else d).

(** *** udp.c *)
Definition MAX_UDP_HANDLERS : nat := 8.

Definition udp_init : N H unit :=
  modify (set_udp_handlers (replicate MAX_UDP_HANDLERS (mk_udp_handler 0 None))).

Definition udp_register_handler (port : Z) (h : udp_handler_t) : N H unit :=
  l ← gets udp_handlers;
  match find_index (fun e => e.(uh_port) =? 0) l with
  | Some i => modify (set_udp_handlers (<[i := mk_udp_handler port (Some h)]> l))
  | None => skip
  end.

(** The call through [handler]; neither handler uses the source address. *)
Definition call_udp_handler (h : udp_handler_t) (payload : list Z) (len : Z) : N H unit :=
  match h with
  | dns_handler_p => d ← gets dns; d' ← lift (dns_handler payload len d); modify (set_dns d')
  | dhcp_rx_p => d ← gets dhcp; d' ← lift (dhcp_rx payload len d); modify (set_dhcp d')
  end.

Definition udp_listens (port : Z) (e : udp_handler_entry_t) : bool :=
  (e.(uh_port) =? port) && bool_decide (is_Some e.(uh_handler)).

Definition udp_receive (src_ip : Z) (data : list Z) (length : Z) : N H unit :=
  if length <? sizeof_udp then skip else
  dport ← lift (ld16 data 2);
  ulen ← lift (ld16 data 4);
  let dest_port := net_htons dport in
  let udp_len := net_htons ulen in
  let payload_len := u16 (udp_len - sizeof_udp) in
  if length - sizeof_udp <? payload_len then skip else
  l ← gets udp_handlers;
  match find_index (udp_listens dest_port) l with
  | Some i =>
    e ← lift (aget l (Z.of_nat i));
    match e.(uh_handler) with
    | Some h => call_udp_handler h (drop 8 data) payload_len
    | None => skip
    end
  | None => skip
  end.

(** *** http.c: data of the connection *)
Definition HTTP_RESPONSE_MAX : Z := 16384.

(** [for (i = 0; i < n; i++) http_response_buffer[http_response_len++] = data[i];] *)
Definition http_append (data : list Z) (n : Z) (h : http_state) : outcome http_state :=
  if n <=? 0 then Done h else
  let* buf := copy_bytes h.(http_response_buffer) h.(http_response_len) data n in
  Done (set_http_response_len (h.(http_response_len) + n) (set_http_response_buffer buf h)).

Definition http_tcp_data_received (data : list Z) (len : Z) (h : http_state) : outcome http_state :=
  if h.(http_response_len) + len <? HTTP_RESPONSE_MAX then http_append data len h
  else http_append data (HTTP_RESPONSE_MAX - h.(http_response_len)) h.

(** *** icmp.c: the reply table *)
Definition MAX_REPLIES : Z := 16.

Definition check_reply_in_array (id seq : Z) (c : icmp_state) : bool :=
  bool_decide (is_Some (find_index (fun r => (r.(rep_id) =? id) && (r.(rep_sequence) =? seq))
                (take (Z.to_nat c.(reply_count)) c.(replies)))).

(** The echo-reply branch of [icmp_receive]. *)
Definition icmp_record_reply (src_ip recv_id recv_seq : Z) (c : icmp_state) : outcome icmp_state :=
  if check_reply_in_array recv_id recv_seq c then Done c else
  let* c :=
    (if c.(reply_count) <? MAX_REPLIES then
       let* l := aset c.(replies) c.(reply_count) (mk_reply src_ip recv_id recv_seq 0) in
       Done (mk_icmp c.(ping_id) c.(ping_seq) l (c.(reply_count) + 1) c.(waiting_for_reply)
                     c.(expected_id) c.(expected_seq) c.(reply_received))
     else Done c) in
  Done (if c_true c.(waiting_for_reply) && (recv_id =? c.(expected_id)) && (recv_seq =? c.(expected_seq))
        then set_reply_received 1 c else c).

(** *** tcp.c: constants and checksum *)
Definition TCP_STATE_CLOSED : Z := 0.
Definition TCP_STATE_SYN_SENT : Z := 2.
Definition TCP_STATE_ESTABLISHED : Z := 4.
Definition TCP_STATE_FIN_WAIT_1 : Z := 5.
Definition TCP_STATE_CLOSE_WAIT : Z := 7.
Definition TCP_STATE_LAST_ACK : Z := 9.

Definition tcp_calculate_checksum (src_ip dest_ip : Z) (data : list Z) (length : Z) : outcome Z :=
  let sum := u32 (Z.land (Z.shiftr src_ip 16) 65535 + Z.land src_ip 65535 +
                  Z.land (Z.shiftr dest_ip 16) 65535 + Z.land dest_ip 65535 +
                  net_htons IP_PROTO_TCP + net_htons length) in
  let* bs := load_bytes data 0 length in
  let* sum := csum_fold fold_fuel (csum_words bs sum) in
  Done (u16 (Z.lnot sum)).

Definition get_sock (i : nat) : N H tcp_socket_t :=
  l ← gets tcp_sockets; lift (aget l (Z.of_nat i)).
Definition upd_sock (i : nat) (f : tcp_socket_t -> tcp_socket_t) : N H unit :=
  modify (fun s => set_tcp_sockets (alter f i s.(tcp_sockets)) s).

(** The bytes of the header [tcp_send_packet] builds, with its checksum field. *)
Definition tcp_header (k : tcp_socket_t) (flags checksum : Z) : list Z :=
  le_bytes 2 (net_htons k.(local_port)) ++ le_bytes 2 (net_htons k.(remote_port)) ++
  le_bytes 4 (net_htonl k.(seq_num)) ++ le_bytes 4 (net_htonl k.(ack_num)) ++
  [80; flags] ++ le_bytes 2 (net_htons 8192) ++ le_bytes 2 checksum ++ le_bytes 2 0.

(** *** The mutually recursive functions *)
Section Knot.
(** The calls back into the stack: [net_send_ipv4] and [e1000_interrupt_handler]. *)
Context (send : Z -> Z -> list Z -> Z -> N H Z) (irq : N H unit).

Definition tcp_send_packet (i : nat) (flags : Z) (data : list Z) (data_len : Z) : N H Z :=
  let total_len := u16 (sizeof_tcp + data_len) in
  k ← get_sock i;
  buffer ← lift (store_bytes (fresh total_len) 0 (tcp_header k flags 0));
  buffer ← lift (if 0 <? data_len then copy_bytes buffer sizeof_tcp data data_len else Done buffer);
  cfg ← gets net_config;
  c ← lift (tcp_calculate_checksum cfg.(ip) k.(remote_ip) buffer total_len);
  buffer ← lift (store_bytes buffer 16 (le_bytes 2 c));
  send k.(remote_ip) IP_PROTO_TCP buffer total_len.

Definition tcp_match (src_ip src_port dest_port : Z) (k : tcp_socket_t) : bool :=
  c_true k.(in_use) && (k.(remote_ip) =? src_ip) && (k.(remote_port) =? src_port) &&
  (k.(local_port) =? dest_port).

Definition tcp_receive (src_ip : Z) (data : list Z) (length : Z) : N H unit :=
  if length <? sizeof_tcp then skip else
  sp ← lift (ld16 data 0);
  dp ← lift (ld16 data 2);
  sq ← lift (ld32 data 4);
  flags ← lift (ld8 data 13);
  let seq := net_htonl sq in
  l ← gets tcp_sockets;
  match find_index (tcp_match src_ip (net_htons sp) (net_htons dp)) l with
  | None => skip
  | Some i =>
    k ← get_sock i;
    if k.(state) =? TCP_STATE_SYN_SENT then
      if c_true (Z.land flags TCP_SYN) && c_true (Z.land flags TCP_ACK) then
        upd_sock i (set_ack_num (u32 (seq + 1))) ;;
        upd_sock i (set_state TCP_STATE_ESTABLISHED) ;;
        tcp_send_packet i TCP_ACK [] 0 ;;
        skip
      else skip
    else if k.(state) =? TCP_STATE_ESTABLISHED then
      if c_true (Z.land flags TCP_FIN) then
        upd_sock i (set_ack_num (u32 (seq + 1))) ;;
        upd_sock i (set_state TCP_STATE_CLOSE_WAIT) ;;
        tcp_send_packet i TCP_ACK [] 0 ;;
        tcp_send_packet i (Z.lor TCP_FIN TCP_ACK) [] 0 ;;
        upd_sock i (fun k => set_seq_num (u32 (k.(seq_num) + 1)) k) ;;
        upd_sock i (set_state TCP_STATE_LAST_ACK)
      else if c_true (Z.land flags TCP_ACK) then
        off ← lift (ld8 data 12);
        let header_len := u16 (Z.shiftr off 4 * 4) in
        let data_len := u16 (length - header_len) in
        if 0 <? data_len then
          h ← gets http;
          h' ← lift (http_tcp_data_received (drop (Z.to_nat header_len) data) data_len h);
          modify (set_http h') ;;
          upd_sock i (set_ack_num (u32 (seq + data_len))) ;;
          tcp_send_packet i TCP_ACK [] 0 ;;
          skip
        else skip
      else skip
    else if k.(state) =? TCP_STATE_LAST_ACK then
      if c_true (Z.land flags TCP_ACK) then upd_sock i (set_state TCP_STATE_CLOSED) else skip
    else skip
  end.

(** The echo reply [icmp_receive] builds from the request. *)
Definition echo_reply (data : list Z) (length : Z) : outcome (list Z) :=
  let* id := load_bytes data 4 2 in
  let* seq := load_bytes data 6 2 in
  let data_len := u16 (length - sizeof_icmp) in
  let* full := store_bytes (fresh length) 0 ([ICMP_TYPE_ECHO_REPLY; 0] ++ le_bytes 2 0 ++ id ++ seq) in
  let* full := copy_bytes full sizeof_icmp (drop 8 data) data_len in
  let* c := net_checksum full length in
  store_bytes full 2 (le_bytes 2 c).

Definition icmp_receive (src_ip : Z) (data : list Z) (length : Z) : N H unit :=
  if length <? sizeof_icmp then skip else
  type ← lift (ld8 data 0);
  if type =? ICMP_TYPE_ECHO_REQUEST then
    full ← lift (echo_reply data length);
    send src_ip IP_PROTO_ICMP full length ;;
    skip
  else if type =? ICMP_TYPE_ECHO_REPLY then
    id ← lift (ld16 data 4);
    seq ← lift (ld16 data 6);
    c ← gets icmp;
    c' ← lift (icmp_record_reply src_ip (net_htons id) (net_htons seq) c);
    modify (set_icmp c')
  else skip.

Definition net_receive_packet (data : list Z) (length : Z) : N H unit :=
  if length <? sizeof_eth then skip else
  et ← lift (ld16 data 12);
  let ethertype := net_htons et in
  let payload := drop 14 data in
  if ethertype =? ETH_TYPE_ARP then arp_receive payload (length - sizeof_eth)
  else if ethertype =? ETH_TYPE_IPV4 then
    if sizeof_eth + sizeof_ipv4 <=? length then
      cfg ← gets net_config;
      dest_ip ← lift (ld32 payload 16);
      if c_true cfg.(configured) && negb (dest_ip =? cfg.(ip)) && negb (dest_ip =? 4294967295)
      then skip else
      vi ← lift (ld8 payload 0);
      tl ← lift (ld16 payload 2);
      proto ← lift (ld8 payload 9);
      src_ip ← lift (ld32 payload 12);
      let ip_header_len := Z.land vi 15 * 4 in
      let p := drop (Z.to_nat ip_header_len) payload in
      let payload_len := u16 (net_htons tl - ip_header_len) in
      if proto =? IP_PROTO_ICMP then icmp_receive src_ip p payload_len
      else if proto =? IP_PROTO_UDP then udp_receive src_ip p payload_len
      else if proto =? IP_PROTO_TCP then tcp_receive src_ip p payload_len
      else skip
    else skip
  else skip.

(** One polling round of [arp_resolve]: twenty polls, then a lookup. *)
Definition arp_poll (ip : Z) (_ : Z) : N H (option (list Z)) :=
  repeat_n 20 irq ;;
  arp_cache_lookup ip.

(** [Some mac] is the return value 0 with the address found, [None] is -1. *)
Definition arp_resolve (ip : Z) : N H (option (list Z)) :=
  hit ← arp_cache_lookup ip;
  match hit with
  | Some m => mret (Some m)
  | None => for_ret (fun _ => arp_send_request ip ;; for_ret (arp_poll ip) 500 0) 3 0
  end.

(** The header [net_send_ipv4] builds, with its checksum field. *)
Definition ipv4_header (total_len protocol checksum src_ip dest_ip : Z) : list Z :=
  [69; 0] ++ le_bytes 2 (net_htons total_len) ++ le_bytes 2 0 ++ le_bytes 2 0 ++
  [64; protocol] ++ le_bytes 2 checksum ++ le_bytes 4 src_ip ++ le_bytes 4 dest_ip.

(** The packet it hands to the Ethernet layer. *)
Definition ipv4_packet (protocol src_ip dest_ip : Z) (payload : list Z) (length : Z) : outcome (list Z) :=
  let total_len := u16 (sizeof_ipv4 + length) in
  let* buffer := store_bytes (fresh total_len) 0 (ipv4_header total_len protocol 0 src_ip dest_ip) in
  let* c := net_checksum buffer sizeof_ipv4 in
  let* buffer := store_bytes buffer 10 (le_bytes 2 c) in
  copy_bytes buffer sizeof_ipv4 payload length.

(** The reply a looped-back echo request is turned into. *)
Definition loopback_reply (payload : list Z) (length : Z) : outcome (list Z) :=
  let* reply := copy_bytes (fresh length) 0 payload length in
  let* reply := store_bytes reply 0 [ICMP_TYPE_ECHO_REPLY] in
  let* reply := store_bytes reply 2 (le_bytes 2 0) in
  let* c := net_checksum reply length in
  store_bytes reply 2 (le_bytes 2 c).

(** Delivery to the own address. *)
Definition loopback (src_ip protocol : Z) (payload : list Z) (length : Z) : N H unit :=
  if protocol =? IP_PROTO_ICMP then
    type ← lift (ld8 payload 0);
    if type =? ICMP_TYPE_ECHO_REQUEST then
      reply ← lift (loopback_reply payload length);
      icmp_receive src_ip reply length
    else icmp_receive src_ip payload length
  else if protocol =? IP_PROTO_UDP then udp_receive src_ip payload length
  else if protocol =? IP_PROTO_TCP then tcp_receive src_ip payload length
  else skip.

(** The address the packet is routed to: [None] when there is no gateway. *)
Definition route (cfg : net_config_t) (src_ip dest_ip : Z) : option Z :=
  if Z.land dest_ip cfg.(netmask) =? Z.land src_ip cfg.(netmask) then Some dest_ip
  else if cfg.(gateway) =? 0 then None else Some cfg.(gateway).

Definition net_send_ipv4 (dest_ip protocol : Z) (payload : list Z) (length : Z) : N H Z :=
  cfg ← gets net_config;
  let src_ip := if c_true cfg.(configured) then cfg.(ip) else 0 in
  if (dest_ip =? src_ip) && negb (src_ip =? 0) then
    loopback src_ip protocol payload length ;; mret 0
  else
    let total_len := u16 (sizeof_ipv4 + length) in
    buffer ← lift (ipv4_packet protocol src_ip dest_ip payload length);
    if dest_ip =? 4294967295 then
      net_send_ethernet (replicate 6 255) ETH_TYPE_IPV4 buffer total_len
    else
      match route cfg src_ip dest_ip with
      | None => mret (-1)
      | Some route_ip =>
        m ← arp_resolve route_ip;
        match m with
        | None => mret (-1)
        | Some dest_mac => net_send_ethernet dest_mac ETH_TYPE_IPV4 buffer total_len
        end
      end.

(** *** E1000.c: reception *)
Definition rx_desc (idx : Z) : N H rx_desc_t :=
  r ← gets rings; lift (aget r.(rx_descs) idx).
Definition clear_rx (idx : Z) : N H unit :=
  r ← gets rings;
  d ← lift (aget r.(rx_descs) idx);
  l ← lift (aset r.(rx_descs) idx (mk_rx d.(rxd_buffer) d.(rxd_length) 0));
  modify (set_rings (mk_rings l r.(tx_descs))).

(** [while (rx_descs[idx].status & 1)] *)
Fixpoint rx_loop (fuel : nat) (idx : Z) : N H Z :=
  card_progress ;;
  d ← rx_desc idx;
  if c_true (Z.land d.(rxd_status) 1) then
    match fuel with
    | O => lift OutOfFuel
    | S fuel =>
      net_receive_packet d.(rxd_buffer) d.(rxd_length) ;;
      clear_rx idx ;;
      rx_loop fuel ((idx + 1) mod 32)
    end
  else mret idx.

Definition e1000_interrupt_handler : N H unit :=
  dev ← gets e1000_dev;
  if negb (c_true dev.(initialized)) then skip else
  e1000_read_reg REG_ICR ;;
  idx ← rx_loop spin dev.(rx_cur);
  modify (fun s => set_e1000_dev (set_rx_cur idx s.(e1000_dev)) s) ;;
  e1000_write_reg REG_RDT (if idx =? 0 then 31 else idx - 1).
End Knot.

(** The functions with at most [depth] nested calls of the two that recurse. *)
Record calls := mk_calls {
  c_send : Z -> Z -> list Z -> Z -> N H Z;
  c_irq : N H unit
}.
Fixpoint stack_at (depth : nat) : calls :=
  match depth with
  | O => mk_calls (fun _ _ _ _ => lift OutOfFuel) (lift OutOfFuel)
  | S depth =>
    let c := stack_at depth in
    mk_calls (net_send_ipv4 c.(c_send) c.(c_irq)) (e1000_interrupt_handler c.(c_send))
  end.
Definition send_ipv4 (depth : nat) := (stack_at depth).(c_send).
Definition poll (depth : nat) := (stack_at depth).(c_irq).
End Stack.
End Net.
