(* ===== verification/NetParse.v ===== *)
(** * The DNS and DHCP parsers

    On every datagram the two handlers terminate and stay inside the bytes
    they were given, whatever those bytes are: each name and option loop
    advances its pointer and tests it before it reads. *)
From Stdlib Require Import ZArith Lia.
From stdpp Require Import base numbers list.
From S2P Require Import Prelude NetPkt Net.

Module NetParse.
Import Pkt PktProps Net.
Local Open Scope Z_scope.
Local Open Scope outcome_scope.

(** [m] returns, with a result that satisfies [P]. *)
Definition returns {A} (m : outcome A) (P : A -> Prop) : Prop := exists a, m = Done a /\ P a.

Lemma returns_done {A} (a : A) P : P a -> returns (Done a) P.
Proof. exists a. done. Qed.

Lemma returns_bind {A B} (m : outcome A) (f : A -> outcome B) P Q :
  returns m P -> (forall a, P a -> returns (f a) Q) -> returns (obind m f) Q.
Proof. intros (a & -> & HP) Hf. exact (Hf a HP). Qed.

Lemma returns_mono {A} (m : outcome A) (P Q : A -> Prop) :
  returns m P -> (forall a, P a -> Q a) -> returns m Q.
Proof. intros (a & -> & HP) HQ. exists a. auto. Qed.

Section Bounds.
Context (data : list Z) (fin : Z).
Hypothesis Hbytes : Forall is_byte data.
Hypothesis Hfin : 0 <= fin <= zlen data.

Lemma ld8_returns off : 0 <= off < fin -> returns (ld8 data off) is_byte.
Proof.
  intros Ho. rewrite ld8_done by lia. apply returns_done. apply Forall_get; [done|].
  unfold zlen in *. lia.
Qed.

Lemma be16_returns off : 0 <= off -> off + 1 < fin -> returns (be16 data off) (fun v => 0 <= v < 65536).
Proof.
  intros H1 H2. unfold be16. eapply returns_bind; [apply ld8_returns; lia|]. intros a Ha.
  eapply returns_bind; [apply ld8_returns; lia|]. intros b Hb. apply returns_done.
  rewrite lor2_be by done. unfold is_byte in *. cbn [le_value]. lia.
Qed.

Lemma le32_returns off : 0 <= off -> off + 3 < fin -> returns (le32 data off) is_u32.
Proof.
  intros H1 H2. unfold le32. do 4 (eapply returns_bind; [apply ld8_returns; lia|]; intros ? _).
  apply returns_done. apply wrap_range. lia.
Qed.

Lemma dns_skip_name_returns fuel ptr : 0 <= ptr -> (Z.to_nat (fin - ptr) <= fuel)%nat ->
  returns (dns_skip_name fuel data ptr fin) (fun p => ptr <= p).
Proof.
  revert ptr. induction fuel as [|fuel IH]; intros ptr Hp Hf; cbn [dns_skip_name].
  - destruct (Z.ltb_spec ptr fin); [lia|]. apply returns_done. lia.
  - destruct (Z.ltb_spec ptr fin); [|apply returns_done; lia].
    eapply returns_bind; [apply ld8_returns; lia|]. intros b Hb. unfold is_byte in Hb.
    destruct (Z.eqb_spec b 0); [apply returns_done; lia|].
    destruct (Z.land b 192 =? 192); [apply returns_done; lia|].
    eapply returns_mono; [apply IH; lia|]. simpl. lia.
Qed.

Lemma dns_skip_zero_returns ptr : 0 <= ptr ->
  returns (dns_skip_zero data ptr fin) (fun p => ptr <= p).
Proof.
  intros Hp. unfold dns_skip_zero. destruct (Z.ltb_spec ptr fin); [|apply returns_done; lia].
  eapply returns_bind; [apply ld8_returns; lia|]. intros b _. apply returns_done.
  destruct (b =? 0); lia.
Qed.

Lemma dns_questions_returns q ptr : 0 <= ptr ->
  returns (dns_questions q data ptr fin) (fun p => ptr <= p).
Proof.
  revert ptr. induction q as [|q IH]; intros ptr Hp; cbn [dns_questions]; [apply returns_done; lia|].
  destruct (Z.ltb_spec ptr fin); [|apply returns_done; lia].
  eapply returns_bind; [apply dns_skip_name_returns; lia|]. intros p1 H1. cbv beta in H1.
  eapply returns_bind; [apply dns_skip_zero_returns; lia|]. intros p2 H2. cbv beta in H2.
  eapply returns_mono; [apply IH; lia|]. simpl. lia.
Qed.

Lemma dns_label_chars_returns n ptr : 0 <= ptr ->
  returns (dns_label_chars n data ptr fin) (fun p => ptr <= p).
Proof.
  revert ptr. induction n as [|n IH]; intros ptr Hp; cbn [dns_label_chars]; [apply returns_done; lia|].
  destruct (Z.ltb_spec ptr fin); [|apply returns_done; lia].
  eapply returns_bind; [apply ld8_returns; lia|]. intros b _.
  eapply returns_mono; [apply IH; lia|]. simpl. lia.
Qed.

Lemma dns_answer_labels_returns fuel ptr : 0 <= ptr -> (Z.to_nat (fin - ptr) <= fuel)%nat ->
  returns (dns_answer_labels fuel data ptr fin) (fun p => ptr <= p).
Proof.
  revert ptr. induction fuel as [|fuel IH]; intros ptr Hp Hf; cbn [dns_answer_labels].
  - destruct (Z.ltb_spec ptr fin); [lia|]. apply returns_done. lia.
  - destruct (Z.ltb_spec ptr fin); [|apply returns_done; lia].
    eapply returns_bind; [apply ld8_returns; lia|]. intros b Hb.
    destruct (Z.eqb_spec b 0); [apply returns_done; lia|].
    destruct (Z.land b 192 =? 192); [apply returns_done; lia|].
    eapply returns_bind; [apply dns_label_chars_returns; lia|]. intros p Hpp. cbv beta in Hpp.
    eapply (returns_bind _ _ (fun _ => True)).
    { destruct (Z.ltb_spec p fin); [|by apply returns_done].
      eapply returns_mono; [apply ld8_returns; lia|done]. }
    intros _ _. eapply returns_mono; [apply IH; lia|]. simpl. lia.
Qed.

Lemma dns_answer_name_returns ptr : 0 <= ptr < fin ->
  returns (dns_answer_name data ptr fin) (fun p => ptr <= p).
Proof.
  intros Hp. unfold dns_answer_name. eapply returns_bind; [apply ld8_returns; lia|]. intros b _.
  destruct (Z.land b 192 =? 192); [apply returns_done; lia|].
  eapply returns_bind; [apply dns_answer_labels_returns; lia|]. intros p1 H1. cbv beta in H1.
  eapply returns_mono; [apply dns_skip_zero_returns; lia|]. simpl. lia.
Qed.

Lemma dns_answers_returns n ptr : 0 <= ptr ->
  returns (dns_answers n data ptr fin) (fun r => forall v, r = Some v -> is_u32 v).
Proof.
  revert ptr. induction n as [|n IH]; intros ptr Hp; cbn [dns_answers]; [by apply returns_done|].
  destruct (Z.ltb_spec ptr fin); [|by apply returns_done].
  eapply returns_bind; [apply dns_answer_name_returns; lia|]. intros p Hpp. simpl in Hpp.
  destruct (Z.ltb_spec fin (p + 10)); [by apply returns_done|].
  eapply returns_bind; [apply be16_returns; lia|]. intros type _.
  eapply returns_bind; [apply be16_returns; lia|]. intros rdlen Hrd. simpl in Hrd. cbv zeta.
  destruct (Z.ltb_spec fin (p + 10 + rdlen)); [by apply returns_done|].
  destruct (Z.eqb_spec type 1), (Z.eqb_spec rdlen 4); simpl andb; cbv iota;
    try (apply IH; lia).
  eapply returns_bind; [apply le32_returns; lia|]. intros v Hv. apply returns_done. by intros ? [= <-].
Qed.
End Bounds.

(** What a datagram may change: the query and the server stay, the address is
    set, or left as it was, and it is a 32-bit value. *)
Definition dns_effect (d d' : dns_state) : Prop :=
  d'.(dns_server) = d.(dns_server) /\ d'.(dns_query_id) = d.(dns_query_id) /\
  (d'.(dns_resolved_ip) = d.(dns_resolved_ip) \/
   (is_u32 d'.(dns_resolved_ip) /\ d'.(dns_waiting) = 0)) /\
  (d'.(dns_waiting) = d.(dns_waiting) \/ d'.(dns_waiting) = 0).

Lemma dns_handler_returns data len d : Forall is_byte data -> 0 <= len <= zlen data ->
  returns (dns_handler data len d) (dns_effect d).
Proof.
  intros HF Hl. assert (dns_effect d d) as H0 by (unfold dns_effect; auto).
  assert (dns_effect d (set_dns_waiting 0 d)) as H1 by (unfold dns_effect; simpl; auto).
  unfold dns_handler. destruct (Z.ltb_spec len 12); [by apply returns_done|].
  do 4 (eapply returns_bind; [apply (be16_returns data len HF Hl); lia|]; intros ? _).
  destruct (negb _); [by apply returns_done|]. destruct (negb _); [by apply returns_done|].
  destruct (negb _); [by apply returns_done|]. destruct (_ =? 0); [by apply returns_done|].
  eapply returns_bind; [apply (dns_questions_returns data len HF Hl); lia|]. intros p Hp. simpl in Hp.
  destruct (Z.leb_spec len p); [by apply returns_done|].
  eapply returns_bind; [apply (dns_answers_returns data len HF Hl); lia|].
  intros [v|] Hv; apply returns_done; [|by destruct (_ =? 0)].
  specialize (Hv v eq_refl). unfold dns_effect. simpl. auto 10.
Qed.

(** ** DHCP *)

(** Option parsing leaves the transaction and the flags alone. *)
Definition dhcp_keeps (d d' : dhcp_state) : Prop :=
  d'.(xid) = d.(xid) /\ d'.(got_offer) = d.(got_offer) /\ d'.(got_ack) = d.(got_ack) /\
  d'.(offer_ip) = d.(offer_ip).

Lemma dhcp_keeps_trans a b c : dhcp_keeps a b -> dhcp_keeps b c -> dhcp_keeps a c.
Proof. unfold dhcp_keeps. intuition congruence. Qed.

Lemma dhcp_options_returns data len fuel i t d : Forall is_byte data -> 0 <= len <= zlen data ->
  0 <= i -> (Z.to_nat (len - i) <= fuel)%nat ->
  returns (dhcp_options fuel data len i t d) (fun r => dhcp_keeps d r.2).
Proof.
  intros HF Hl. revert i t d. induction fuel as [|fuel IH]; intros i t d Hi Hf; cbn [dhcp_options].
  all: assert (dhcp_keeps d d) as H0 by (unfold dhcp_keeps; auto).
  - destruct (Z.ltb_spec i (len - 2)); [lia|by apply returns_done].
  - destruct (Z.ltb_spec i (len - 2)); [|by apply returns_done].
    eapply returns_bind; [apply (ld8_returns data len HF Hl); lia|]. intros opt Hopt.
    destruct (opt =? 255); [by apply returns_done|]. destruct (opt =? 0); [apply IH; lia|].
    eapply returns_bind; [apply (ld8_returns data len HF Hl); lia|]. intros olen Holen.
    unfold is_byte in Holen. destruct (Z.ltb_spec len (i + 2 + olen)); [by apply returns_done|].
    assert (forall d' m, dhcp_keeps d d' ->
      returns (dhcp_options fuel data len (i + (2 + olen)) m d') (fun r => dhcp_keeps d r.2)) as HI.
    { intros d' m Hd. eapply returns_mono; [apply IH; lia|]. intros r. by apply dhcp_keeps_trans. }
    assert (forall f : Z -> dhcp_state, 4 <= olen -> (forall v, dhcp_keeps d (f v)) ->
      returns (let* v := le32 data (i + 2) in dhcp_options fuel data len (i + (2 + olen)) t (f v))
        (fun r => dhcp_keeps d r.2)) as HV.
    { intros f Ho Hk. eapply returns_bind; [apply (le32_returns data len HF Hl); lia|]. intros v _.
      apply HI, Hk. }
    destruct (opt =? 53), (Z.eqb_spec olen 1); simpl andb; cbv iota.
    1: { eapply returns_bind; [apply (ld8_returns data len HF Hl); lia|]. intros m _. by apply HI. }
    all: destruct (opt =? 54), (opt =? 1), (opt =? 3), (opt =? 6), (Z.eqb_spec olen 4),
      (Z.leb_spec 4 olen); simpl andb; cbv iota; try lia; try by apply HI.
    all: apply HV; [lia|]; intros v; unfold dhcp_keeps; simpl; auto.
Qed.

(** A packet is ignored unless it carries the transaction of the exchange. *)
Definition dhcp_effect (d d' : dhcp_state) : Prop :=
  d'.(xid) = d.(xid) /\
  (d'.(got_offer) = d.(got_offer) \/ d'.(got_offer) = 1) /\
  (d'.(got_ack) = d.(got_ack) \/ d'.(got_ack) = 1) /\
  (d'.(offer_ip) = d.(offer_ip) \/ is_u32 d'.(offer_ip)).

Lemma dhcp_rx_returns data len d : Forall is_byte data -> 0 <= len <= zlen data ->
  returns (dhcp_rx data len d) (dhcp_effect d).
Proof.
  intros HF Hl. assert (dhcp_effect d d) as H0 by (unfold dhcp_effect; auto).
  unfold dhcp_rx. destruct (Z.ltb_spec len 244); [by apply returns_done|].
  eapply returns_bind; [apply (ld8_returns data len HF Hl); lia|]. intros op _.
  destruct (negb _); [by apply returns_done|].
  do 4 (eapply returns_bind; [apply (ld8_returns data len HF Hl); lia|]; intros ? _). cbv zeta.
  destruct (negb _); [by apply returns_done|].
  eapply returns_bind; [apply (le32_returns data len HF Hl); lia|]. intros y Hy.
  assert (dhcp_effect d (set_offer_ip y d)) as H1 by (unfold dhcp_effect; simpl; auto).
  do 4 (eapply returns_bind; [apply (ld8_returns data len HF Hl); lia|]; intros ? _).
  destruct (negb _ || _ || _ || _); [by apply returns_done|].
  eapply returns_bind; [apply (dhcp_options_returns data len); [done|done|lia|lia]|].
  intros [m d'] (E1 & E2 & E3 & E4). simpl in *. apply returns_done. unfold dhcp_effect.
  destruct (m =? 2); [|destruct (m =? 5)]; simpl; rewrite ?E1, ?E2, ?E3, ?E4; auto 10.
Qed.
End NetParse.
