(* ===== verification/NetClients.v ===== *)
(** * The network services built on the stack

    The entry points the shell calls: UDP and TCP sockets, ping, the DNS and
    DHCP clients and the HTTP client. They send with [net_send_ipv4] and wait
    by polling the card with [e1000_interrupt_handler]; both are arguments
    here, [Net.stack_at] provides them. Delay loops have no effect on the
    state. *)
From Stdlib Require Import ZArith Lia.
From stdpp Require Import base numbers list.
From S2P Require Import Prelude NetPkt Net CStr.

Module Clients.
Import Pkt Net.
Local Open Scope Z_scope.
Local Open Scope outcome_scope.

(** ** dns.c: names *)

(** A C string from a pointer on: its end is a NUL or the end of the list. *)
Definition at_end (s : list Z) : bool := match s with [] => true | c :: _ => c =? 0 end.

(** [while ( *ptr && *ptr != '.') { *buffer++ = *ptr++; len++; }] *)
Fixpoint dns_label (host buf : list Z) (pos len : Z) : outcome (list Z * list Z * Z * Z) :=
  match host with
  | [] => Done (host, buf, pos, len)
  | c :: host' =>
    if (c =? 0) || (c =? 46) then Done (host, buf, pos, len)
    else let* buf := aset buf pos c in dns_label host' buf (pos + 1) (u8 (len + 1))
  end.

(** The loop of [dns_encode_name]: [buf] is the array [buffer] points into, at
    offset [pos]. A round consumes a character, so the length of the name
    bounds the rounds. *)
Fixpoint dns_encode_loop (fuel : nat) (host buf : list Z) (pos : Z) : outcome (list Z * Z) :=
  if at_end host then let* buf := aset buf pos 0 in Done (buf, pos + 1)
  else match fuel with
  | O => OutOfFuel
  | S fuel =>
    let* (host, buf, next, len) := dns_label host buf (pos + 1) 0 in
    let* buf := aset buf pos len in
    let host := match host with c :: host' => if c =? 46 then host' else host | [] => [] end in
    dns_encode_loop fuel host buf next
  end.

(** The array written and the number of bytes written from [pos] on. *)
Definition dns_encode_name (host buf : list Z) (pos : Z) : outcome (list Z * Z) :=
  let* (buf, fin) := dns_encode_loop (length host) host buf pos in Done (buf, fin - pos).

Fixpoint ip_address_loop (str : list Z) (dots digits : Z) : bool :=
  match str with
  | [] => (dots =? 3) && (0 <? digits) && (digits <=? 3)
  | c :: str =>
    if c =? 0 then (dots =? 3) && (0 <? digits) && (digits <=? 3)
    else if c =? 46 then
      if (digits =? 0) || (3 <? digits) then false else ip_address_loop str (dots + 1) 0
    else if (48 <=? c) && (c <=? 57) then ip_address_loop str dots (digits + 1)
    else false
  end.
Definition is_ip_address (str : list Z) : bool := ip_address_loop str 0 0.

(** The query [dns_resolve] builds in its 512-byte buffer, and its length. *)
Definition dns_query (query_id : Z) (hostname : list Z) : outcome (list Z * Z) :=
  let* buf := store_bytes (fresh 512) 0
    ([Z.land (Z.shiftr query_id 8) 255; Z.land query_id 255] ++ [1; 0; 0; 1; 0; 0; 0; 0; 0; 0]) in
  let* (buf, name_len) := dns_encode_name hostname buf 12 in
  let* buf := store_bytes buf (12 + name_len) [0; 1; 0; 1] in
  Done (buf, u16 (12 + name_len + 4)).

(** ** dhcp.c: packets *)

(** The fields DISCOVER and REQUEST share, in the zeroed 548-byte buffer, and
    then the options. *)
Definition dhcp_packet (xid : Z) (mac options : list Z) : outcome (list Z) :=
  let* buf := store_bytes (fresh 548) 0 [1; 1; 6] in
  let* buf := store_bytes buf 4 [Z.land (Z.shiftr xid 24) 255; Z.land (Z.shiftr xid 16) 255;
                                 Z.land (Z.shiftr xid 8) 255; Z.land xid 255] in
  let* buf := store_bytes buf 10 [128] in
  let* m := load_bytes mac 0 6 in
  let* buf := store_bytes buf 28 m in
  let* buf := store_bytes buf 236 [99; 130; 83; 99] in
  store_bytes buf 240 options.

Definition dhcp_discover_options : list Z := [53; 1; 1; 55; 4; 1; 3; 6; 15; 255].

Definition ip_octets (ip : Z) : list Z :=
  [Z.land ip 255; Z.land (Z.shiftr ip 8) 255; Z.land (Z.shiftr ip 16) 255; Z.land (Z.shiftr ip 24) 255].

Definition dhcp_request_options (offer_ip server_ip : Z) : list Z :=
  [53; 1; 3; 50; 4] ++ ip_octets offer_ip ++ [54; 4] ++ ip_octets server_ip ++
  [55; 4; 1; 3; 6; 15; 255].

(** ** The operations *)
Section Clients.
Context {H : Type} {NIC : Nic H} (spin : nat).
Context (send : Z -> Z -> list Z -> Z -> N H Z) (irq : N H unit).

(** *** udp.c *)
Definition udp_header (src_port dest_port total_len : Z) : list Z :=
  le_bytes 2 (net_htons src_port) ++ le_bytes 2 (net_htons dest_port) ++
  le_bytes 2 (net_htons total_len) ++ le_bytes 2 0.

Definition udp_packet (src_port dest_port : Z) (data : list Z) (length : Z) : outcome (list Z) :=
  let total_len := u16 (sizeof_udp + length) in
  let* buffer := store_bytes (fresh total_len) 0 (udp_header src_port dest_port total_len) in
  copy_bytes buffer sizeof_udp data length.

Definition udp_send (dest_ip src_port dest_port : Z) (data : list Z) (length : Z) : N H Z :=
  buffer ← lift (udp_packet src_port dest_port data length);
  send dest_ip IP_PROTO_UDP buffer (u16 (sizeof_udp + length)).

(** *** icmp.c *)
Definition ICMP_PING_DATA_SIZE : Z := 56.

Definition icmp_init : N H unit :=
  modify (fun s => let c := s.(icmp) in
    set_icmp (mk_icmp 4660 0 c.(replies) 0 0 c.(expected_id) c.(expected_seq) 0) s).

Definition ping_data : list Z := map (fun i => 65 + Z.of_nat i mod 26) (seq 0 56).

Definition ping_packet (id seq : Z) : outcome (list Z) :=
  let total_len := sizeof_icmp + ICMP_PING_DATA_SIZE in
  let* buffer := store_bytes (fresh total_len) 0
    ([ICMP_TYPE_ECHO_REQUEST; 0] ++ le_bytes 2 0 ++ le_bytes 2 (net_htons id) ++ le_bytes 2 (net_htons seq)) in
  let* buffer := store_bytes buffer sizeof_icmp ping_data in
  let* c := net_checksum buffer total_len in
  store_bytes buffer 2 (le_bytes 2 c).

Definition icmp_send_ping (dest_ip id seq : Z) : N H Z :=
  buffer ← lift (ping_packet id seq);
  send dest_ip IP_PROTO_ICMP buffer (sizeof_icmp + ICMP_PING_DATA_SIZE).

Definition mod_icmp (f : icmp_state -> icmp_state) : N H unit :=
  modify (fun s => set_icmp (f s.(icmp)) s).

Definition icmp_wait_reply (id seq timeout_ms : Z) : N H Z :=
  c ← gets icmp;
  if check_reply_in_array id seq c then mret 1 else
  mod_icmp (fun c => set_reply_received 0 (set_waiting_for_reply 1
    (set_expected_seq seq (set_expected_id id c)))) ;;
  r ← for_ret (fun _ => for_ret (fun _ =>
        irq ;;
        c ← gets icmp;
        if c_true c.(reply_received) || check_reply_in_array id seq c then
          mod_icmp (set_waiting_for_reply 0) ;; mret (Some 1)
        else mret None) 100 0) (Z.to_nat (timeout_ms * 10)) 0;
  match r with
  | Some v => mret v
  | None =>
    mod_icmp (set_waiting_for_reply 0) ;;
    c ← gets icmp;
    mret (if check_reply_in_array id seq c then 1 else 0)
  end.

Definition icmp_get_last_reply : N H (option icmp_reply_t) :=
  c ← gets icmp;
  if 0 <? c.(reply_count) then r ← lift (aget c.(replies) (c.(reply_count) - 1)); mret (Some r)
  else mret None.

(** One of the four rounds of [cmd_ping] and [cmd_ping_fast]: send, wait, count. *)
Definition ping_round (dest_ip id timeout_ms : Z) (sent received : Z) : N H (Z * Z) :=
  c ← gets icmp;
  let seq := c.(ping_seq) in
  mod_icmp (set_ping_seq (u16 (seq + 1))) ;;
  r ← icmp_send_ping dest_ip id seq;
  if r =? 0 then
    ok ← icmp_wait_reply id seq timeout_ms;
    mret (sent + 1, if c_true ok then received + 1 else received)
  else mret (sent, received).

(** The rounds with the polling [pause i] after round [i]. *)
Fixpoint ping_rounds (pause : Z -> N H unit) (dest_ip id timeout_ms : Z) (n : nat) (i sent received : Z)
  : N H (Z * Z) :=
  match n with
  | O => mret (sent, received)
  | S n =>
    p ← ping_round dest_ip id timeout_ms sent received;
    pause i ;;
    ping_rounds pause dest_ip id timeout_ms n (i + 1) p.1 p.2
  end.

(** [None]: the address does not parse; else the packets sent and answered. *)
Definition ping (pause : Z -> N H unit) (timeout_ms : Z) (target : list Z) : N H (option (Z * Z)) :=
  let dest_ip := net_parse_ip target in
  if dest_ip =? 0 then mret None else
  mod_icmp (set_reply_count 0) ;;
  c ← gets icmp;
  mod_icmp (set_ping_id (u16 (c.(ping_id) + 1))) ;;
  p ← ping_rounds pause dest_ip c.(ping_id) timeout_ms 4 0 0 0;
  mret (Some p).

Definition cmd_ping (target : list Z) : N H (option (Z * Z)) :=
  ping (fun i => if i <? 3 then repeat_n 1000 (repeat_n 10 irq) else skip) 1000 target.
Definition cmd_ping_fast (target : list Z) : N H (option (Z * Z)) :=
  ping (fun _ => repeat_n 100 (repeat_n 10 irq)) 2000 target.

(** *** tcp.c *)
Definition MAX_TCP_SOCKETS : nat := 16.

Definition tcp_init : N H unit :=
  modify (fun s => set_tcp_sockets
    (map (fun k => set_state TCP_STATE_CLOSED (set_in_use 0 k)) s.(tcp_sockets)) s).

Definition tcp_socket : N H (option nat) :=
  l ← gets tcp_sockets;
  match find_index (fun k => negb (c_true k.(in_use))) l with
  | None => mret None
  | Some i =>
    p ← gets next_port;
    upd_sock i (fun k => set_seq_num 1000 (set_local_port p (set_state TCP_STATE_CLOSED (set_in_use 1 k)))) ;;
    modify (set_next_port (u16 (p + 1))) ;;
    mret (Some i)
  end.

Definition tcp_connect (sock : option nat) (dest_ip dest_port : Z) : N H Z :=
  match sock with
  | None => mret (-1)
  | Some i =>
    k ← get_sock i;
    if negb (k.(state) =? TCP_STATE_CLOSED) then mret (-1) else
    upd_sock i (fun k => set_state TCP_STATE_SYN_SENT (set_remote_port dest_port (set_remote_ip dest_ip k))) ;;
    r ← tcp_send_packet send i TCP_SYN [] 0;
    if negb (r =? 0) then upd_sock i (set_state TCP_STATE_CLOSED) ;; mret (-1) else
    upd_sock i (fun k => set_seq_num (u32 (k.(seq_num) + 1)) k) ;;
    r ← for_ret (fun _ => for_ret (fun _ =>
          irq ;;
          k ← get_sock i;
          mret (if k.(state) =? TCP_STATE_ESTABLISHED then Some 0 else None)) 100 0) 5000 0;
    match r with
    | Some v => mret v
    | None => upd_sock i (set_state TCP_STATE_CLOSED) ;; mret (-1)
    end
  end.

Definition tcp_send (sock : option nat) (data : list Z) (length : Z) : N H Z :=
  match sock with
  | None => mret (-1)
  | Some i =>
    k ← get_sock i;
    if negb (k.(state) =? TCP_STATE_ESTABLISHED) then mret (-1) else
    r ← tcp_send_packet send i (Z.lor TCP_PSH TCP_ACK) data length;
    if negb (r =? 0) then mret (-1) else
    upd_sock i (fun k => set_seq_num (u32 (k.(seq_num) + length)) k) ;;
    mret 0
  end.

Definition tcp_close (sock : option nat) : N H Z :=
  match sock with
  | None => mret (-1)
  | Some i =>
    k ← get_sock i;
    (if k.(state) =? TCP_STATE_ESTABLISHED then
       upd_sock i (set_state TCP_STATE_FIN_WAIT_1) ;;
       tcp_send_packet send i (Z.lor TCP_FIN TCP_ACK) [] 0 ;;
       upd_sock i (fun k => set_seq_num (u32 (k.(seq_num) + 1)) k)
     else skip) ;;
    for_ret (fun _ =>
      repeat_n 10 irq ;;
      k ← get_sock i;
      mret (if k.(state) =? TCP_STATE_CLOSED then Some () else None)) 1000 0 ;;
    upd_sock i (fun k => set_state TCP_STATE_CLOSED (set_in_use 0 k)) ;;
    mret 0
  end.

Definition tcp_get_state (sock : option nat) : N H Z :=
  match sock with None => mret TCP_STATE_CLOSED | Some i => k ← get_sock i; mret k.(state) end.

(** *** dns.c *)
Definition DNS_CLIENT_PORT : Z := 53535.
Definition mod_dns (f : dns_state -> dns_state) : N H unit := modify (fun s => set_dns (f s.(dns)) s).

Definition dns_init : N H unit := udp_register_handler DNS_CLIENT_PORT dns_handler_p.
Definition dns_set_server (server_ip : Z) : N H unit := mod_dns (set_dns_server server_ip).

(** One attempt: send the query, poll until an answer or the timeout; [Some]
    is [goto done]. *)
Definition dns_attempt (buffer : list Z) (total_len : Z) : N H (option unit) :=
  d ← gets dns;
  udp_send d.(dns_server) DNS_CLIENT_PORT 53 buffer total_len ;;
  r ← for_ret (fun _ =>
        d ← gets dns;
        if negb (c_true d.(dns_waiting)) then mret (Some ()) else
        for_ret (fun _ =>
          irq ;;
          d ← gets dns;
          mret (if negb (c_true d.(dns_waiting)) then Some () else None)) 100 0) 2000 0;
  match r with
  | Some _ => mret (Some ())
  | None => d ← gets dns; mret (if negb (c_true d.(dns_waiting)) then Some () else None)
  end.

(** [Some ip] is the return value 0 with the address, [None] is -1. *)
Definition dns_resolve (hostname : list Z) : N H (option Z) :=
  if is_ip_address hostname then mret (Some (net_parse_ip hostname)) else
  mod_dns (fun d => if d.(dns_server) =? 0 then set_dns_server 134744072 d else d) ;;
  mod_dns (fun d => set_dns_query_id (u16 (d.(dns_query_id) + 1)) d) ;;
  d ← gets dns;
  q ← lift (dns_query d.(dns_query_id) hostname);
  mod_dns (fun d => set_dns_waiting 1 (set_dns_resolved_ip 0 d)) ;;
  for_ret (fun _ => dns_attempt q.1 q.2) 3 0 ;;
  d ← gets dns;
  mret (if d.(dns_resolved_ip) =? 0 then None else Some d.(dns_resolved_ip)).

(** *** dhcp.c *)
Definition mod_dhcp (f : dhcp_state -> dhcp_state) : N H unit := modify (fun s => set_dhcp (f s.(dhcp)) s).
Definition dhcp_init : N H unit := udp_register_handler 68 dhcp_rx_p.

(** Three broadcasts of [buf], each followed by up to 2000 times 50 polls. *)
Definition dhcp_exchange (buf : list Z) (arrived : dhcp_state -> Z) : N H (option unit) :=
  for_ret (fun _ =>
    udp_send 4294967295 68 67 buf 548 ;;
    for_ret (fun _ =>
      repeat_n 50 irq ;;
      d ← gets dhcp;
      mret (if c_true (arrived d) then Some () else None)) 2000 0) 3 0.

Definition dhcp_get_ip : N H Z :=
  mod_dhcp (fun d => mk_dhcp (u32 (d.(xid) + 1)) 0 0 0 0 0 0 0) ;;
  d ← gets dhcp;
  cfg ← gets net_config;
  buf ← lift (dhcp_packet d.(xid) cfg.(mac) dhcp_discover_options);
  offered ← dhcp_exchange buf got_offer;
  match offered with
  | None => mret (-1)
  | Some _ =>
    repeat_n 100 irq ;;
    d ← gets dhcp;
    cfg ← gets net_config;
    buf ← lift (dhcp_packet d.(xid) cfg.(mac) (dhcp_request_options d.(offer_ip) d.(server_ip)));
    acked ← dhcp_exchange buf got_ack;
    match acked with
    | None => mret (-1)
    | Some _ =>
      d ← gets dhcp;
      net_set_config d.(offer_ip) d.(mask) d.(gw) ;;
      dns_set_server (if negb (d.(dhcp_dns) =? 0) then d.(dhcp_dns) else d.(gw)) ;;
      mret 0
    end
  end.
End Clients.
End Clients.
