(* ===== verification/NetCard.v ===== *)
(** * The card's contract and the transmit path

    What the driver relies on of the card: it leaves the descriptors the
    driver owns alone, finishes each transmission, and puts on the wire the
    bytes of the descriptor it is told to send. [e1000_send_packet] and
    [net_send_ethernet] are verified against that contract, in a total
    weakest-precondition calculus for the stateful code. *)
From Stdlib Require Import ZArith Lia.
From stdpp Require Import base numbers list.
From S2P Require Import Prelude NetPkt Net.

Module NetCard.
Import Pkt PktProps Net.
Local Open Scope Z_scope.
Local Open Scope outcome_scope.

(** ** Total correctness *)
Definition wp {H A} (m : N H A) (Q : A -> net H -> Prop) (s : net H) : Prop :=
  exists a s', m s = Done (a, s') /\ Q a s'.

Section Wp.
Context {H : Type}.
Implicit Types (s : net H).

Lemma wp_ret {A} (a : A) Q s : Q a s -> wp (mret a) Q s.
Proof. exists a, s. done. Qed.

Lemma wp_bind {A B} (m : N H A) (f : A -> N H B) Q s :
  wp m (fun a s' => wp (f a) Q s') s -> wp (m ≫= f) Q s.
Proof. intros (a & s' & E & b & s'' & E' & HQ). exists b, s''. split; [|done].
  unfold mbind, N_bind. by rewrite E. Qed.

Lemma wp_mono {A} (m : N H A) (P Q : A -> net H -> Prop) s :
  wp m P s -> (forall a s', P a s' -> Q a s') -> wp m Q s.
Proof. intros (a & s' & E & HP) HQ. exists a, s'. auto. Qed.

Lemma wp_gets {A} (f : net H -> A) Q s : Q (f s) s -> wp (gets f) Q s.
Proof. eexists _, _. done. Qed.

Lemma wp_modify (f : net H -> net H) Q s : Q () (f s) -> wp (modify f) Q s.
Proof. eexists _, _. done. Qed.

Lemma wp_skip Q s : Q () s -> wp skip Q s.
Proof. apply wp_ret. Qed.

Lemma wp_lift {A} (m : outcome A) a Q s : m = Done a -> Q a s -> wp (lift m) Q s.
Proof. intros -> HQ. exists a, s. done. Qed.
End Wp.

(** Steps through the simple commands. *)
Ltac wp_step :=
  lazymatch goal with
  | |- wp (mbind _ _) _ _ => apply wp_bind
  | |- wp (gets _) _ _ => apply wp_gets
  | |- wp (modify _) _ _ => apply wp_modify
  | |- wp (mret _) _ _ => apply wp_ret
  | |- wp skip _ _ => apply wp_skip
  | |- wp (let x := _ in _) _ _ => cbv zeta
  end; cbv beta.
Ltac wp_steps := repeat wp_step.

(** ** The contract *)

Definition own_rx (d : rx_desc_t) : bool := c_true (Z.land d.(rxd_status) 1).
Definition own_tx (d : tx_desc_t) : bool := c_true (Z.land d.(txd_status) 1).

(** A received descriptor that the driver has not released stays as it is. *)
Definition rx_kept (r r' : rings_t) : Prop :=
  forall i d, r.(rx_descs) !! i = Some d -> own_rx d = true -> r'.(rx_descs) !! i = Some d.

Definition ring_ok (r : rings_t) : Prop :=
  length r.(rx_descs) = 32%nat /\ length r.(tx_descs) = 32%nat /\
  Forall (fun d => zlen d.(rxd_buffer) = 8192 /\ Forall is_byte d.(rxd_buffer) /\
                   0 <= d.(rxd_length) <= 8192) r.(rx_descs) /\
  Forall (fun d => zlen d.(txd_buffer) = 8192) r.(tx_descs).

Fixpoint steps {H} `{Nic H} (n : nat) (c : H * rings_t) : H * rings_t :=
  match n with O => c | S n => steps n (nic_step c) end.

(** What a register access or the passing of time may do. *)
Definition card_move {H} (ok : H * rings_t -> Prop) (sent : H -> list (list Z)) (tail : H -> Z)
  (c c' : H * rings_t) : Prop :=
  ok c' /\ sent c'.1 = sent c.1 /\ tail c'.1 = tail c.1 /\ rx_kept c.2 c'.2.

Class NicLaws (H : Type) {NIC : Nic H} (spin : nat) := {
  nic_ok : H * rings_t -> Prop;
  nic_sent : H -> list (list Z);
  nic_tail : H -> Z;
  law_ring : forall c, nic_ok c -> ring_ok c.2 /\ 0 <= nic_tail c.1 < 32;
  law_step : forall c, nic_ok c -> card_move nic_ok nic_sent nic_tail c (nic_step c);
  law_read : forall reg c, nic_ok c -> card_move nic_ok nic_sent nic_tail c (nic_read reg c).2;
  law_rdt : forall v c, nic_ok c -> card_move nic_ok nic_sent nic_tail c (nic_write REG_RDT v c);
  (** a transmission finishes *)
  law_done : forall c i, nic_ok c -> (i < 32)%nat -> exists n, (n <= spin)%nat /\
    exists d, (steps (S n) c).2.(tx_descs) !! i = Some d /\ own_tx d = true;
  (** the tail register hands over one descriptor *)
  law_tdt : forall h r d buf len, nic_ok (h, r) -> zlen buf = 8192 -> 0 <= len <= 8192 ->
    r.(tx_descs) !! Z.to_nat (nic_tail h) = Some d -> own_tx d = true ->
    let r' := mk_rings r.(rx_descs) (<[Z.to_nat (nic_tail h) := mk_tx buf len 11 0]> r.(tx_descs)) in
    let c := nic_write REG_TDT ((nic_tail h + 1) mod 32) (h, r') in
    nic_ok c /\ nic_sent c.1 = nic_sent h ++ [take (Z.to_nat len) buf] /\
    nic_tail c.1 = (nic_tail h + 1) mod 32 /\ rx_kept r c.2;
  (** the driver may release a received descriptor *)
  law_clear : forall h r i d, nic_ok (h, r) -> r.(rx_descs) !! i = Some d ->
    nic_ok (h, mk_rings (<[i := mk_rx d.(rxd_buffer) d.(rxd_length) 0]> r.(rx_descs)) r.(tx_descs))
}.

(** Everything but the card and the driver's ring positions. *)
Definition soft {H} (s : net H) :=
  (s.(net_config), (s.(arp_cache), s.(arp_time)), s.(udp_handlers), s.(icmp),
   (s.(tcp_sockets), s.(next_port)), s.(dns), s.(dhcp), s.(http)).

Section Card.
Context {H : Type} {NIC : Nic H} {spin : nat} {L : NicLaws H spin}.
Implicit Types (s : net H).

Definition sent s : list (list Z) := nic_sent s.(hw).

(** The driver agrees with the card on the ring positions. *)
Definition card_ok s : Prop :=
  nic_ok (s.(hw), s.(rings)) /\ s.(e1000_dev).(tx_cur) = nic_tail s.(hw) /\
  0 <= s.(e1000_dev).(rx_cur) < 32 /\ s.(e1000_dev).(initialized) = 1.

(** A move of the card that sends the frames [out]. *)
Definition moved (out : list (list Z)) s s' : Prop :=
  card_ok s' /\ soft s' = soft s /\ s'.(e1000_dev).(rx_cur) = s.(e1000_dev).(rx_cur) /\
  sent s' = sent s ++ out /\ rx_kept s.(rings) s'.(rings).

Lemma rx_kept_refl r : rx_kept r r.
Proof. intros i d. done. Qed.

Lemma rx_kept_trans r1 r2 r3 : rx_kept r1 r2 -> rx_kept r2 r3 -> rx_kept r1 r3.
Proof. intros H1 H2 i d E O. by apply H2, O; apply H1. Qed.

Lemma moved_refl s : card_ok s -> moved [] s s.
Proof. intros Hs. unfold moved. rewrite app_nil_r. auto using rx_kept_refl. Qed.

Lemma moved_trans o1 o2 s1 s2 s3 : moved o1 s1 s2 -> moved o2 s2 s3 -> moved (o1 ++ o2) s1 s3.
Proof.
  intros (A1 & B1 & C1 & D1 & E1) (A2 & B2 & C2 & D2 & E2). unfold moved.
  rewrite B2, C2, D2, D1, app_assoc. eauto 10 using rx_kept_trans.
Qed.

Lemma wp_on_card {A} (f : H * rings_t -> A * (H * rings_t)) a h r s Q :
  f (s.(hw), s.(rings)) = (a, (h, r)) -> Q a (set_hw h (set_rings r s)) -> wp (on_card f) Q s.
Proof. intros E HQ. unfold wp, on_card. rewrite E. eauto. Qed.

Lemma wp_card_move {A} (f : H * rings_t -> A * (H * rings_t)) s Q : card_ok s ->
  card_move nic_ok nic_sent nic_tail (s.(hw), s.(rings)) (f (s.(hw), s.(rings))).2 ->
  (forall a s', moved [] s s' -> a = (f (s.(hw), s.(rings))).1 ->
    (s'.(hw), s'.(rings)) = (f (s.(hw), s.(rings))).2 -> s'.(e1000_dev) = s.(e1000_dev) -> Q a s') ->
  wp (on_card f) Q s.
Proof.
  intros (H1 & H2 & H3 & H4) Hm HQ. unfold wp, on_card.
  destruct (f (hw s, rings s)) as [a [h r]] eqn:E. simpl in *.
  eexists a, _. split; [done|]. apply HQ; [|done..].
  destruct Hm as (K1 & K2 & K3 & K4). simpl in *. unfold moved, card_ok, sent.
  simpl. rewrite K2, K3, app_nil_r. auto 10.
Qed.

(** Polling the descriptor at the tail ends with a finished one. *)
Lemma wp_wait_tx n fuel s Q : card_ok s -> (n <= fuel)%nat ->
  (exists d, (steps (S n) (s.(hw), s.(rings))).2.(tx_descs) !! Z.to_nat (s.(e1000_dev).(tx_cur)) = Some d /\
    own_tx d = true) ->
  (forall s', moved [] s s' -> s'.(e1000_dev) = s.(e1000_dev) ->
    (exists d, s'.(rings).(tx_descs) !! Z.to_nat (s.(e1000_dev).(tx_cur)) = Some d /\ own_tx d = true) ->
    Q () s') ->
  wp (wait_tx fuel (s.(e1000_dev).(tx_cur))) Q s.
Proof.
  revert n s Q. induction fuel as [|fuel IH]; intros n s Q Hs Hn (d & Hd & Hown) HQ; cbn [wait_tx].
  all: pose proof Hs as (Hok & Ht & _); destruct (law_ring _ Hok) as ((_ & Hlen & _) & Htl); simpl in Htl.
  all: apply wp_bind, wp_card_move; [done|by apply law_step|]; intros _ s' Hm _ Hc Edev; cbn [snd] in Hc.
  all: pose proof Hm as ((Hok' & Ht' & _) & _); destruct (law_ring _ Hok') as ((_ & Hlen' & _) & Htl').
  all: simpl in Hlen', Htl', Hlen.
  all: assert (exists d', s'.(rings).(tx_descs) !! Z.to_nat (s.(e1000_dev).(tx_cur)) = Some d') as [d' Hd']
    by (apply lookup_lt_is_Some_2; lia).
  all: apply wp_bind; unfold tx_desc; wp_steps; eapply wp_lift; [apply aget_lookup; [lia|exact Hd']|].
  - assert (n = O) as -> by lia. cbn [steps] in Hd. rewrite <- Hc in Hd. simpl in Hd.
    assert (d = d') as <- by congruence. unfold own_tx in Hown. rewrite Hown.
    wp_steps. apply HQ; [done|done|]. by exists d.
  - destruct (c_true (Z.land (txd_status d') 1)) eqn:E.
    { wp_steps. apply HQ; [done|done|]. by exists d'. }
    destruct n as [|n].
    { cbn [steps] in Hd. rewrite <- Hc in Hd. simpl in Hd. unfold own_tx in Hown. congruence. }
    rewrite <- Edev. apply (IH n); [apply Hm|lia| |].
    + rewrite Edev. exists d. split; [|done]. rewrite Hc. exact Hd.
    + intros s'' Hm' Edev' Hown'. rewrite Edev in Edev', Hown'. apply HQ; [|done|done].
      apply (moved_trans [] [] _ _ _ Hm Hm').
Qed.

(** Copying [n] bytes to the start of a buffer: its first [n] bytes are they. *)
Lemma copy_bytes_done buf data n : 0 <= n <= zlen data -> n <= zlen buf ->
  exists b, copy_bytes buf 0 data n = Done b /\ zlen b = zlen buf /\
    take (Z.to_nat n) b = take (Z.to_nat n) data.
Proof.
  intros Hn Hb. unfold copy_bytes. rewrite load_bytes_done by lia. cbn [obind]. change (Z.to_nat 0) with 0%nat.
  rewrite drop_0. set (k := take (Z.to_nat n) data).
  assert (length k = Z.to_nat n) as Hk by (unfold k, zlen in *; rewrite length_take; lia).
  rewrite store_bytes_done by (unfold zlen in *; lia).
  eexists. split; [done|]. split; [apply zlen_list_inserts|]. change (Z.to_nat 0) with 0%nat.
  rewrite list_inserts_prefix by (unfold zlen in *; lia). by rewrite <- Hk, take_app_length.
Qed.

(** [e1000_send_packet] puts exactly the given bytes on the wire. *)
Lemma wp_e1000_send_packet data len s Q : card_ok s -> 0 <= len <= 8192 -> len <= zlen data ->
  (forall s', moved [take (Z.to_nat len) data] s s' -> Q 0 s') ->
  wp (e1000_send_packet spin data len) Q s.
Proof.
  intros Hs Hlen Hdata HQ. pose proof Hs as (Hok & Ht & Hrx & Hini).
  destruct (law_ring _ Hok) as (_ & Htl). simpl in Htl.
  unfold e1000_send_packet. wp_steps. rewrite Hini. destruct (Z.ltb_spec 8192 len); [lia|].
  cbn [c_true negb Z.eqb orb]. wp_steps.
  destruct (law_done _ (Z.to_nat (nic_tail s.(hw))) Hok ltac:(lia)) as (n & Hn & Hd).
  rewrite <- Ht in Hd. apply (wp_wait_tx n); [done..|].
  intros s1 Hm1 Edev (d & Hd1 & Hown). rewrite <- Edev in Hd1 |- *. clear n Hn Hd.
  wp_steps. unfold tx_desc. wp_steps.
  pose proof Hm1 as ((Hok1 & Ht1 & Hrx1 & Hini1) & _).
  destruct (law_ring _ Hok1) as ((_ & _ & _ & Htx) & Htl1). simpl in Htl1.
  eapply wp_lift; [apply aget_lookup; [lia|exact Hd1]|].
  eapply Forall_lookup_1 in Htx; [|exact Hd1]. simpl in Htx.
  destruct (copy_bytes_done d.(txd_buffer) data len) as (buf & Ebuf & Hbl & Hbt); [lia..|].
  wp_steps. eapply wp_lift; [exact Ebuf|]. wp_steps. unfold set_tx_desc. wp_steps.
  eapply wp_lift.
  { apply aset_done. apply lookup_lt_Some in Hd1. simpl. lia. }
  rewrite Ht1 in *. wp_steps.
  pose proof (law_tdt s1.(hw) s1.(rings) d buf len Hok1 ltac:(lia) Hlen Hd1 Hown) as HT.
  cbv zeta in HT. destruct (nic_write _ _ _) as [h r] eqn:E in HT. simpl in HT.
  eapply wp_on_card; [cbn [hw rings set_e1000_dev set_rings]; by rewrite E|].
  destruct HT as (K1 & K2 & K3 & K4). wp_steps. apply HQ.
  apply (moved_trans [] [_] _ _ _ Hm1). unfold moved, card_ok, sent. simpl.
  rewrite K2, K3, Hbt. auto 10.
Qed.

(** The frame [net_send_ethernet] builds. *)
Definition eth_frame (dst src : list Z) (ethertype : Z) (payload : list Z) : list Z :=
  (dst ++ src ++ le_bytes 2 (net_htons ethertype)) ++ payload.

Lemma wp_net_send_ethernet dst et payload len s Q : card_ok s ->
  zlen dst = 6 -> zlen s.(net_config).(mac) = 6 -> 0 <= len <= 8178 -> len <= zlen payload ->
  (forall s', moved [eth_frame dst s.(net_config).(mac) et (take (Z.to_nat len) payload)] s s' -> Q 0 s') ->
  wp (net_send_ethernet spin dst et payload len) Q s.
Proof.
  intros Hs Hd Hm Hl Hp HQ. unfold net_send_ethernet. wp_steps.
  rewrite (wrap_small 16) by (unfold sizeof_eth; lia).
  assert (forall l, zlen l = 6 -> load_bytes l 0 6 = Done l) as E6.
  { intros l El. rewrite load_bytes_done by lia. f_equal. unfold zlen in El.
    change (Z.to_nat 0) with 0%nat. rewrite drop_0, firstn_all2; [done|lia]. }
  eapply wp_lift; [by apply E6|]. wp_steps. eapply wp_lift; [by apply E6|]. wp_steps.
  set (hdr := dst ++ _ ++ _).
  assert (zlen hdr = 14) as Hh by (unfold hdr; rewrite !zlen_app, zlen_le_bytes; lia).
  pose proof (build_packet hdr payload 14 len (eq_sym Hh) ltac:(lia)) as E. unfold sizeof_eth.
  destruct (store_bytes _ 0 hdr) as [b| |] eqn:Eb; try done.
  eapply wp_lift; [done|]. wp_steps. eapply wp_lift; [exact E|]. wp_steps.
  apply wp_e1000_send_packet; [done|lia|rewrite zlen_app, zlen_take; lia|].
  intros s' Hs'. apply HQ. rewrite firstn_all2 in Hs'; [done|].
  rewrite length_app, length_take. unfold zlen in *. lia.
Qed.
End Card.
End NetCard.

(** * A simulated card

    A card that transmits a descriptor as soon as it is handed over and
    delivers the frames of an inbox in order, one whenever the driver looks.
    It satisfies the contract of [NetCard.NicLaws], and the concrete runs use
    it. *)
Module NetSim.
Import Pkt PktProps Net NetCard.
Local Open Scope Z_scope.

Record sim := mk_sim {
  sim_in : list (list Z);
  sim_sent : list (list Z);
  sim_head : nat;
  sim_tail : Z
}.

Definition sim_step (c : sim * rings_t) : sim * rings_t :=
  let '(h, r) := c in
  match h.(sim_in), r.(rx_descs) !! h.(sim_head) with
  | f :: fs, Some d =>
    if own_rx d then c
    else (mk_sim fs h.(sim_sent) ((h.(sim_head) + 1) mod 32) h.(sim_tail),
          mk_rings (<[h.(sim_head) := mk_rx (list_inserts 0 f d.(rxd_buffer)) (zlen f) 3]> r.(rx_descs)) r.(tx_descs))
  | _, _ => c
  end.

Definition sim_write (reg v : Z) (c : sim * rings_t) : sim * rings_t :=
  let '(h, r) := c in
  if (reg =? REG_TDT) && (v =? (h.(sim_tail) + 1) mod 32) then
    match r.(tx_descs) !! Z.to_nat h.(sim_tail) with
    | Some d =>
      (mk_sim h.(sim_in) (h.(sim_sent) ++ [take (Z.to_nat d.(txd_length)) d.(txd_buffer)]) h.(sim_head) v,
       mk_rings r.(rx_descs) (<[Z.to_nat h.(sim_tail) := mk_tx d.(txd_buffer) d.(txd_length) d.(txd_cmd) 1]> r.(tx_descs)))
    | None => c
    end
  else c.

#[export] Instance sim_nic : Nic sim := {
  nic_read := fun _ c => (0, c);
  nic_write := sim_write;
  nic_step := sim_step
}.

Definition sim_ok (c : sim * rings_t) : Prop :=
  ring_ok c.2 /\ 0 <= c.1.(sim_tail) < 32 /\ (c.1.(sim_head) < 32)%nat /\
  Forall (fun d => own_tx d = true) c.2.(tx_descs) /\
  Forall (fun f => Forall is_byte f /\ zlen f <= 8192) c.1.(sim_in).

Lemma Forall_inserts {A} (P : A -> Prop) i k l : Forall P k -> Forall P l -> Forall P (list_inserts i k l).
Proof.
  intros Hk. revert i l. induction Hk as [|x k Hx Hk IH]; intros i l Hl; simpl; [done|].
  apply Forall_insert; [|done]. by apply IH.
Qed.

Lemma sim_step_move c : sim_ok c -> card_move sim_ok sim_sent sim_tail c (sim_step c).
Proof.
  intros Hc. assert (card_move sim_ok sim_sent sim_tail c c) as Hrefl
    by (unfold card_move; auto using rx_kept_refl).
  destruct c as [h r]. unfold sim_step. destruct h.(sim_in) as [|f fs] eqn:Ein; [done|].
  destruct (r.(rx_descs) !! h.(sim_head)) as [d|] eqn:Ed; [|done].
  destruct (own_rx d) eqn:Eo; [done|].
  pose proof (Nat.mod_upper_bound (h.(sim_head) + 1) 32 ltac:(lia)) as Hmod.
  destruct Hc as ((Hrx & Htx & HFr & HFt) & Ht & Hh & Ho & Hin). simpl in *. rewrite Ein in Hin.
  inversion_clear Hin as [|? ? [Hf1 Hf2] Hin'].
  pose proof (Forall_lookup_1 _ _ _ _ HFr Ed) as (Hb1 & Hb2 & _).
  split; [|split; [done|split; [done|]]].
  - split; [|split; [done|split; [exact Hmod|done]]].
    split; [simpl; by rewrite length_insert|]. split; [done|]. split; [|done].
    apply Forall_insert; [done|]. simpl. rewrite zlen_list_inserts. pose proof (zlen_pos f).
    split; [done|]. split; [by apply Forall_inserts|lia].
  - intros i d' E Hown. simpl in *. destruct (decide (i = h.(sim_head))) as [->|Hne].
    + congruence.
    + by rewrite list_lookup_insert_ne.
Qed.

#[export] Instance sim_laws spin : NicLaws sim spin.
Proof.
  refine {| nic_ok := sim_ok; nic_sent := sim_sent; nic_tail := sim_tail |}.
  - intros c (H1 & H2 & _). done.
  - apply sim_step_move.
  - intros reg c Hc. unfold card_move. simpl. auto using rx_kept_refl.
  - intros v [h r] Hc. unfold card_move. simpl. auto using rx_kept_refl.
  - intros c i Hc Hi. exists 0%nat. split; [lia|]. simpl.
    destruct (sim_step_move c Hc) as (((_ & Hl & _) & _ & _ & Ho & _) & _).
    destruct (lookup_lt_is_Some_2 (sim_step c).2.(tx_descs) i) as [d Hd]; [lia|].
    exists d. split; [done|]. exact (Forall_lookup_1 _ _ _ _ Ho Hd).
  - intros h r d buf len ((Hrx & Htx & HFr & HFt) & Ht & Hh & Ho & Hin) Hb Hlen Hd Hown. simpl in *.
    rewrite Z.eqb_refl. simpl.
    rewrite list_lookup_insert_eq by lia. simpl. rewrite list_insert_insert_eq.
    split; [|split; [done|split; [done|by intros i d' E _]]].
    split; [|simpl; split; [apply Z.mod_pos_bound; lia|]; split; [done|]; split; [|done]].
    + split; [done|]. simpl. split; [by rewrite length_insert|]. split; [done|]. by apply Forall_insert.
    + by apply Forall_insert.
  - intros h r i d ((Hrx & Htx & HFr & HFt) & Ht & Hh & Ho & Hin) Hd. simpl in *.
    split; [|done]. split; [simpl; by rewrite length_insert|]. split; [done|]. split; [|done].
    apply Forall_insert; [done|]. simpl. exact (Forall_lookup_1 _ _ _ _ HFr Hd).
Defined.
End NetSim.
