(* ===== verification/NetArp.v ===== *)
(** * The ARP cache as a bounded map in order of use

    The 32-entry table with timestamps implements a list of bindings, oldest
    first: adding an address moves it to the end with its new hardware
    address, and drops the oldest binding when there is no room. *)
From Stdlib Require Import ZArith Lia Sorted.
From stdpp Require Import base numbers list.
From S2P Require Import Prelude NetPkt Net NetCard.

Module NetArp.
Import Pkt PktProps Net NetCard.
Local Open Scope Z_scope.

(** ** The specification *)
Definition lru_add (ip : Z) (mac : list Z) (l : list (Z * list Z)) : list (Z * list Z) :=
  let l' := filter (fun p => p.1 <> ip) l ++ [(ip, mac)] in
  if decide (32 < length l')%nat then tail l' else l'.

Definition lru_lookup (ip : Z) (l : list (Z * list Z)) : option (list Z) :=
  option_map snd (head (filter (fun p => p.1 = ip) l)).

(** ** Representation *)
Definition live (e : arp_cache_entry_t) : Prop := e.(arp_valid) <> 0.
#[local] Instance live_dec e : Decision (live e).
Proof. unfold live. apply _. Defined.

Definition older (a b : arp_cache_entry_t) : Prop := a.(arp_timestamp) < b.(arp_timestamp).
Definition binding (e : arp_cache_entry_t) : Z * list Z := (e.(arp_ip), e.(arp_mac)).

Definition arp_rep (cache : list arp_cache_entry_t) (now : Z) (l : list (Z * list Z)) : Prop :=
  length cache = 32%nat /\ exists es,
    es ≡ₚ filter live cache /\ StronglySorted older es /\ NoDup (map arp_ip es) /\
    Forall (fun e => 0 <= e.(arp_timestamp) < now) es /\ l = map binding es.

(** ** Searching *)
Lemma find_first_Some {A} (p : A -> bool) l i : find_index p l = Some i ->
  exists l1 x l2, l = l1 ++ x :: l2 /\ length l1 = i /\ p x = true /\ Forall (fun y => p y = false) l1.
Proof.
  revert i. induction l as [|x l IH]; intros i; simpl; [done|].
  destruct (p x) eqn:E; [intros [= <-]; by exists [], x, l|].
  destruct (find_index p l) as [j|]; [|done]. simpl. intros [= <-].
  destruct (IH j eq_refl) as (l1 & y & l2 & -> & <- & Hy & HF). exists (x :: l1), y, l2. auto.
Qed.

Lemma find_first_None {A} (p : A -> bool) l : find_index p l = None -> Forall (fun y => p y = false) l.
Proof.
  induction l as [|x l IH]; simpl; [done|]. destruct (p x) eqn:E; [done|].
  destruct (find_index p l); [done|]. auto.
Qed.

Lemma find_index_app {A} (p : A -> bool) l1 x l2 : Forall (fun y => p y = false) l1 -> p x = true ->
  find_index p (l1 ++ x :: l2) = Some (length l1).
Proof. intros HF Hx. induction HF as [|y l1 Hy HF IH]; simpl; [by rewrite Hx|]. by rewrite Hy, IH. Qed.

Lemma find_index_none {A} (p : A -> bool) l : Forall (fun y => p y = false) l -> find_index p l = None.
Proof. induction 1 as [|x l Hx HF IH]; simpl; [done|]. by rewrite Hx, IH. Qed.

Lemma arp_hit_live ip e : arp_hit ip e = true <-> live e /\ e.(arp_ip) = ip.
Proof.
  unfold arp_hit, live, c_true. destruct (Z.eqb_spec e.(arp_valid) 0), (Z.eqb_spec e.(arp_ip) ip); simpl;
    intuition congruence.
Qed.

Lemma c_true_live e : c_true e.(arp_valid) = true <-> live e.
Proof. unfold live, c_true. destruct (Z.eqb_spec e.(arp_valid) 0); simpl; intuition congruence. Qed.

Lemma arp_victim_free c1 e c2 i idx old : Forall live c1 -> ~ live e ->
  arp_victim (c1 ++ e :: c2) i idx old = i + zlen (map arp_ip c1).
Proof.
  intros HF He. revert i idx old. induction HF as [|x c1 Hx HF IH]; intros i idx old; simpl.
  - destruct (c_true e.(arp_valid)) eqn:E; [by apply c_true_live in E|]. simpl. unfold zlen. simpl. lia.
  - rewrite (proj2 (c_true_live x) Hx). simpl. rewrite zlen_cons.
    destruct (_ <? _); rewrite IH; lia.
Qed.

Lemma arp_victim_oldest c i idx old : Forall live c ->
  (arp_victim c i idx old = idx /\ Forall (fun e => old <= e.(arp_timestamp)) c) \/
  exists c1 e c2, c = c1 ++ e :: c2 /\ arp_victim c i idx old = i + Z.of_nat (length c1) /\
    e.(arp_timestamp) < old /\ Forall (fun x => e.(arp_timestamp) <= x.(arp_timestamp)) c.
Proof.
  intros HF. revert i idx old. induction HF as [|x c Hx HF IH]; intros i idx old; simpl; [auto|].
  rewrite (proj2 (c_true_live x) Hx). simpl. destruct (Z.ltb_spec x.(arp_timestamp) old) as [Hlt|Hge].
  - right. destruct (IH (i + 1) i x.(arp_timestamp)) as [[-> Hmin]|(c1 & e & c2 & -> & -> & Ho & Hmin)].
    + exists [], x, c. simpl. split; [done|]. split; [lia|]. split; [done|]. constructor; [lia|done].
    + exists (x :: c1), e, c2. simpl. split; [done|]. split; [lia|]. split; [lia|]. constructor; [lia|done].
  - destruct (IH (i + 1) idx old) as [[-> Hmin]|(c1 & e & c2 & -> & -> & Ho & Hmin)].
    + left. split; [done|]. by constructor.
    + right. exists (x :: c1), e, c2. simpl. split; [done|]. split; [lia|]. split; [done|]. constructor; [lia|done].
Qed.

(** ** Sorted lists of entries *)
Lemma sorted_snoc es e : StronglySorted older es -> Forall (fun x => older x e) es ->
  StronglySorted older (es ++ [e]).
Proof.
  induction 1 as [|x es HS IH Hx]; intros HF; simpl; [by repeat constructor|].
  inversion_clear HF as [|? ? Hxe HF']. constructor; [by apply IH|]. apply Forall_app. split; [done|].
  by constructor.
Qed.

Lemma sorted_remove es1 e es2 : StronglySorted older (es1 ++ e :: es2) -> StronglySorted older (es1 ++ es2).
Proof.
  induction es1 as [|x es1 IH]; simpl; inversion_clear 1 as [|? ? HS HF]; [done|].
  constructor; [by apply IH|]. rewrite Forall_app, Forall_cons in HF. apply Forall_app. tauto.
Qed.

Lemma filter_ne_map ip es : Forall (fun e => e.(arp_ip) <> ip) es ->
  filter (fun p : Z * list Z => p.1 <> ip) (map binding es) = map binding es.
Proof.
  induction 1 as [|e es He HF IH]; simpl; [done|]. rewrite filter_cons_True by done. by rewrite IH.
Qed.

Lemma filter_eq_map_nil ip es : Forall (fun e => e.(arp_ip) <> ip) es ->
  filter (fun p : Z * list Z => p.1 = ip) (map binding es) = [].
Proof.
  induction 1 as [|e es He HF IH]; simpl; [done|]. by rewrite filter_cons_False.
Qed.

Lemma nodup_mid es1 e es2 : NoDup (map arp_ip (es1 ++ e :: es2)) ->
  Forall (fun x => x.(arp_ip) <> e.(arp_ip)) (es1 ++ es2) /\ NoDup (map arp_ip (es1 ++ es2)).
Proof.
  rewrite map_app. simpl. intros HN. apply NoDup_app in HN as (H1 & H2 & H3).
  apply NoDup_cons in H3 as [H3 H4].
  split.
  - apply Forall_forall. intros x Hx E. apply elem_of_app in Hx as [Hx|Hx].
    + apply (H2 x.(arp_ip)); [by apply list_elem_of_fmap_2|]. rewrite E. left.
    + apply H3. rewrite <- E. by apply list_elem_of_fmap_2.
  - rewrite map_app. apply NoDup_app. split; [done|]. split; [|done]. intros y Hy Hy'.
    apply (H2 y Hy). by right.
Qed.

(** ** Replacing an entry *)
Lemma filter_live_mid c1 v c2 :
  filter live (c1 ++ v :: c2) = filter live c1 ++ (if decide (live v) then [v] else []) ++ filter live c2.
Proof. rewrite filter_app, filter_cons. by destruct (decide (live v)). Qed.

Lemma filter_live_all c : Forall live c -> filter live c = c.
Proof. induction 1 as [|x c Hx HF IH]; [done|]. by rewrite filter_cons_True, IH. Qed.

Lemma rep_put c1 v c2 e es now : length (c1 ++ v :: c2) = 32%nat -> es ≡ₚ filter live (c1 ++ c2) ->
  StronglySorted older es -> NoDup (map arp_ip es) ->
  Forall (fun x => 0 <= x.(arp_timestamp) < now) es -> Forall (fun x => x.(arp_ip) <> e.(arp_ip)) es ->
  live e -> e.(arp_timestamp) = now -> 0 <= now ->
  arp_rep (c1 ++ e :: c2) (now + 1) (map binding (es ++ [e])).
Proof.
  intros Hl Hp HS HN HT HI He Et Hn. split; [rewrite length_app in *; done|]. exists (es ++ [e]).
  split; [|split; [|split; [|split; [|done]]]].
  - rewrite filter_live_mid, decide_True by done. rewrite Hp, filter_app. solve_Permutation.
  - apply sorted_snoc; [done|]. eapply Forall_impl; [exact HT|]. unfold older. intros x Hx. cbv beta in Hx |- *. lia.
  - rewrite map_app. apply NoDup_app. split; [done|]. split.
    + intros y Hy. apply list_elem_of_fmap in Hy as (x & -> & Hx). rewrite Forall_forall in HI.
      specialize (HI x Hx). simpl. rewrite list_elem_of_singleton. done.
    + apply NoDup_singleton.
  - apply Forall_app. split; [|constructor; [lia|done]]. eapply Forall_impl; [exact HT|]. intros x Hx. cbv beta in Hx |- *. lia.
Qed.

Lemma rep_split c1 v c2 es : es ≡ₚ filter live (c1 ++ v :: c2) -> live v ->
  exists es1 es2, es = es1 ++ v :: es2 /\ es1 ++ es2 ≡ₚ filter live (c1 ++ c2).
Proof.
  intros Hp Hv. rewrite filter_live_mid, decide_True in Hp by done.
  assert (v ∈ es) as Hin by (rewrite Hp, elem_of_app, elem_of_app, list_elem_of_singleton; auto).
  apply list_elem_of_split in Hin as (es1 & es2 & ->). exists es1, es2. split; [done|].
  rewrite filter_app. apply (Permutation_app_inv _ _ _ _ v). rewrite Hp. done.
Qed.

Lemma rep_length cache now l : arp_rep cache now l -> (length l <= 32)%nat.
Proof.
  intros (Hl & es & Hp & _ & _ & _ & ->). rewrite length_map, (Permutation_length Hp), <- Hl.
  apply length_filter.
Qed.

Lemma not_hit_ne ip es cache : es ≡ₚ filter live cache -> Forall (fun e => arp_hit ip e = false) cache ->
  Forall (fun e => e.(arp_ip) <> ip) es.
Proof.
  intros Hp HF. apply Forall_forall. intros e He E. rewrite Hp in He.
  apply list_elem_of_filter in He as [Hlive Hin]. rewrite Forall_forall in HF. specialize (HF e Hin).
  assert (arp_hit ip e = true) by (by apply arp_hit_live). congruence.
Qed.

(** An address that is in the cache: its entry gets the new time. *)
Lemma rep_refresh c1 e c2 now l bs : arp_rep (c1 ++ e :: c2) now l -> live e -> 0 <= now ->
  arp_rep (c1 ++ mk_arp e.(arp_ip) bs now e.(arp_valid) :: c2) (now + 1) (lru_add e.(arp_ip) bs l).
Proof.
  intros Hrep He Hn. pose proof (rep_length _ _ _ Hrep) as Hlen.
  destruct Hrep as (Hl & es & Hp & HS & HN & HT & ->).
  destruct (rep_split _ _ _ _ Hp He) as (es1 & es2 & -> & Hp').
  destruct (nodup_mid _ _ _ HN) as (HI & HN').
  assert (lru_add e.(arp_ip) bs (map binding (es1 ++ e :: es2)) =
    map binding ((es1 ++ es2) ++ [mk_arp e.(arp_ip) bs now e.(arp_valid)])) as ->.
  { unfold lru_add. apply Forall_app in HI as [HI1 HI2]. rewrite map_app in *. simpl in *.
    rewrite filter_app, filter_cons_False, !filter_ne_map by (simpl; tauto).
    rewrite decide_False by (rewrite !length_app in *; simpl in *; lia).
    by rewrite !map_app. }
  eapply rep_put; [exact Hl|done|by eapply sorted_remove|done| |done|done|done|done].
  rewrite Forall_app, Forall_cons in HT. apply Forall_app. tauto.
Qed.

(** An address that is not: it takes the first free entry. *)
Lemma rep_insert c1 v c2 now l ip bs : arp_rep (c1 ++ v :: c2) now l -> ~ live v -> 0 <= now ->
  Forall (fun e => arp_hit ip e = false) (c1 ++ v :: c2) ->
  arp_rep (c1 ++ mk_arp ip bs now 1 :: c2) (now + 1) (lru_add ip bs l).
Proof.
  intros (Hl & es & Hp & HS & HN & HT & ->) Hv Hn Hmiss.
  pose proof (not_hit_ne _ _ _ Hp Hmiss) as HI.
  assert (es ≡ₚ filter live (c1 ++ c2)) as Hp' by
    (by rewrite Hp, filter_live_mid, decide_False, filter_app by done).
  assert (lru_add ip bs (map binding es) = map binding (es ++ [mk_arp ip bs now 1])) as ->.
  { unfold lru_add. rewrite filter_ne_map, decide_False by
      (done || (rewrite length_app, length_map, (Permutation_length Hp'); simpl;
       pose proof (length_filter live (c1 ++ c2)); rewrite !length_app in *; simpl in *; lia)).
    by rewrite map_app. }
  by eapply rep_put.
Qed.

(** No free entry: it replaces the oldest one. *)
Lemma rep_evict c1 v c2 now l ip bs : arp_rep (c1 ++ v :: c2) now l -> Forall live (c1 ++ v :: c2) -> 0 <= now ->
  Forall (fun x => v.(arp_timestamp) <= x.(arp_timestamp)) (c1 ++ v :: c2) ->
  Forall (fun e => arp_hit ip e = false) (c1 ++ v :: c2) ->
  arp_rep (c1 ++ mk_arp ip bs now 1 :: c2) (now + 1) (lru_add ip bs l).
Proof.
  intros (Hl & es & Hp & HS & HN & HT & ->) Hlive Hn Hmin Hmiss.
  pose proof (not_hit_ne _ _ _ Hp Hmiss) as HI.
  assert (length es = 32%nat) as Hes by (by rewrite (Permutation_length Hp), filter_live_all).
  assert (live v) as Hv by (rewrite Forall_app, Forall_cons in Hlive; tauto).
  destruct (rep_split _ _ _ _ Hp Hv) as (es1 & es2 & -> & Hp').
  assert (es1 = []) as ->.
  { destruct es1 as [|x es1]; [done|]. exfalso. simpl in HS. inversion_clear HS as [|? ? _ Hx].
    rewrite Forall_app, Forall_cons in Hx. destruct Hx as (_ & Hxv & _). unfold older in Hxv.
    assert (x ∈ filter live (c1 ++ v :: c2)) as Hin by (rewrite <- Hp; left).
    apply list_elem_of_filter in Hin as [_ Hin]. rewrite Forall_forall in Hmin. specialize (Hmin x Hin). lia. }
  simpl in *. destruct (nodup_mid [] v es2 HN) as (_ & HN'). simpl in HN'.
  assert (lru_add ip bs (binding v :: map binding es2) = map binding (es2 ++ [mk_arp ip bs now 1])) as ->.
  { unfold lru_add. change (binding v :: map binding es2) with (map binding (v :: es2)).
    rewrite filter_ne_map, decide_True by (done || (rewrite length_app, length_map; simpl in *; lia)).
    by rewrite map_app. }
  inversion_clear HS. inversion_clear HT. inversion_clear HI. by eapply rep_put.
Qed.

(** ** The operations *)
Section Ops.
Context {H : Type}.
Implicit Types (s : net H).

Lemma arp_add_rep ip m s l : arp_rep s.(arp_cache) s.(arp_time) l ->
  0 <= s.(arp_time) < 4294967295 -> 6 <= zlen m ->
  exists cache, arp_cache_add ip m s
      = Done ((), set_arp_time (s.(arp_time) + 1) (set_arp_cache cache s)) /\
    arp_rep cache (s.(arp_time) + 1) (lru_add ip (take 6 m) l).
Proof.
  intros Hrep Ht Hm. unfold arp_cache_add, mbind, N_bind, gets, lift, modify. cbn [obind].
  rewrite load_bytes_done by lia. change (Z.to_nat 0) with 0%nat. change (Z.to_nat 6) with 6%nat.
  rewrite drop_0. cbn [obind]. rewrite (wrap_small 32) by lia. pose proof Hrep as (Hl & _).
  destruct (find_index (arp_hit ip) s.(arp_cache)) as [i|] eqn:Ef.
  - apply find_first_Some in Ef as (c1 & e & c2 & Ec & <- & Hhit & _). rewrite Ec in *.
    apply arp_hit_live in Hhit as [He <-].
    rewrite (aget_lookup _ _ e) by (lia || by rewrite Nat2Z.id, list_lookup_middle). cbn [obind].
    eexists. split; [done|]. rewrite insert_app_r_alt, Nat.sub_diag by lia. simpl.
    apply rep_refresh; [done|done|lia].
  - apply find_first_None in Ef. 
    destruct (decide (Forall live s.(arp_cache))) as [Hall|Hfree].
    + destruct (arp_victim_oldest s.(arp_cache) 0 (-1) 4294967295 Hall)
        as [[_ Hbad]|(c1 & e & c2 & Ec & -> & _ & Hmin)].
      { exfalso. destruct Hrep as (_ & es & Hp & _ & _ & HT & _). rewrite filter_live_all in Hp by done.
        destruct s.(arp_cache) as [|x c] eqn:Ec; [done|]. inversion_clear Hbad as [|? ? Hx _].
        rewrite Forall_forall in HT. specialize (HT x). rewrite Hp in HT. specialize (HT ltac:(left)). lia. }
      rewrite Ec in *. destruct (Z.leb_spec 0 (0 + Z.of_nat (length c1))); [|lia].
      rewrite aset_done by (rewrite length_app; simpl; lia). cbn [obind]. eexists. split; [done|].
      replace (Z.to_nat (0 + Z.of_nat (length c1))) with (length c1) by lia.
      rewrite insert_app_r_alt, Nat.sub_diag by lia. simpl.
      eapply rep_evict; [done|done|lia|done|done].
    + apply not_Forall_Exists, Exists_exists in Hfree; [|apply _]. 
      assert (exists c1 v c2, s.(arp_cache) = c1 ++ v :: c2 /\ Forall live c1 /\ ~ live v)
        as (c1 & v & c2 & Ec & Hc1 & Hv).
      { clear -Hfree. destruct Hfree as (x & Hx & Hn). induction (arp_cache s) as [|y c IH]; [by apply not_elem_of_nil in Hx|].
        destruct (decide (live y)) as [Hy|Hy]; [|by exists [], y, c].
        apply elem_of_cons in Hx as [->|Hx]; [done|]. destruct (IH Hx) as (c1 & v & c2 & -> & HF & Hv).
        exists (y :: c1), v, c2. auto. }
      rewrite Ec in *. rewrite arp_victim_free by done. unfold zlen. rewrite length_map.
      destruct (Z.leb_spec 0 (0 + Z.of_nat (length c1))); [|lia].
      rewrite aset_done by (rewrite length_app; simpl; lia). cbn [obind]. eexists. split; [done|].
      replace (Z.to_nat (0 + Z.of_nat (length c1))) with (length c1) by lia.
      rewrite insert_app_r_alt, Nat.sub_diag by lia. simpl.
      eapply rep_insert; [done|done|lia|done].
Qed.

Lemma arp_lookup_rep ip s l : arp_rep s.(arp_cache) s.(arp_time) l ->
  arp_cache_lookup ip s = Done (lru_lookup ip l, s).
Proof.
  intros (Hl & es & Hp & HS & HN & HT & ->).
  unfold arp_cache_lookup, mbind, N_bind, gets, lift, mret, N_ret. cbn [obind].
  destruct (find_index (arp_hit ip) s.(arp_cache)) as [i|] eqn:Ef.
  - apply find_first_Some in Ef as (c1 & e & c2 & Ec & <- & Hhit & _). rewrite Ec in *.
    apply arp_hit_live in Hhit as [He <-].
    rewrite (aget_lookup _ _ e) by (lia || by rewrite Nat2Z.id, list_lookup_middle). cbn [obind].
    do 2 f_equal. destruct (rep_split _ _ _ _ Hp He) as (es1 & es2 & -> & _).
    destruct (nodup_mid _ _ _ HN) as (HI & _). apply Forall_app in HI as [HI1 HI2].
    unfold lru_lookup. rewrite map_app, filter_app, filter_eq_map_nil by done. simpl.
    by rewrite filter_cons_True.
  - apply find_first_None in Ef. pose proof (not_hit_ne _ _ _ Hp Ef) as HI.
    unfold lru_lookup. by rewrite filter_eq_map_nil.
Qed.

Lemma arp_rep_empty cache now : length cache = 32%nat -> Forall (fun e => e.(arp_valid) = 0) cache ->
  arp_rep cache now [].
Proof.
  intros Hl HF. split; [done|]. exists []. split; [|repeat constructor].
  clear Hl. induction HF as [|e c He HF IH]; [done|]. rewrite filter_cons_False; [done|].
  intros Hv. by apply Hv.
Qed.

(** A run of additions. *)
Fixpoint arp_adds (l : list (Z * list Z)) : N H unit :=
  match l with [] => skip | (ip, m) :: l => arp_cache_add ip m ;; arp_adds l end.

Lemma arp_adds_rep adds s l : arp_rep s.(arp_cache) s.(arp_time) l -> 0 <= s.(arp_time) ->
  s.(arp_time) + Z.of_nat (length adds) <= 4294967295 -> Forall (fun p => zlen p.2 = 6) adds ->
  exists s', arp_adds adds s = Done ((), s') /\
    arp_rep s'.(arp_cache) s'.(arp_time) (foldl (fun l p => lru_add p.1 p.2 l) l adds).
Proof.
  intros Hrep H0 Ht HF. revert s l Hrep H0 Ht. induction HF as [|[ip m] adds Hm HF IH]; intros s l Hrep H0 Ht.
  - exists s. done.
  - simpl in *. destruct (arp_add_rep ip m s l Hrep ltac:(lia) ltac:(lia)) as (c & E & Hrep').
    unfold mbind, N_bind. rewrite E. cbn [obind].
    rewrite firstn_all2 in Hrep' by (unfold zlen in Hm; lia).
    destruct (IH (set_arp_time (s.(arp_time) + 1) (set_arp_cache c s)) _ Hrep') as (s' & E' & Hr); [simpl; lia..|]. exists s'. auto.
Qed.

Lemma arp_init_rep s : length s.(arp_cache) = 32%nat ->
  exists s', arp_init s = Done ((), s') /\ arp_rep s'.(arp_cache) s'.(arp_time) [] /\
    s'.(arp_time) = s.(arp_time).
Proof.
  intros Hl. eexists. split; [done|]. split; [|done]. apply arp_rep_empty; simpl.
  - by rewrite length_map.
  - apply Forall_forall. intros e He. apply list_elem_of_fmap in He as (x & -> & _). done.
Qed.

(** C12: the ARP cache is a map with bounded memory: after [arp_init] and any
    sequence of additions (before the 32-bit clock wraps), looking an address
    up gives the hardware address of its last addition, unless 32 other
    addresses were added since, which is exactly what the list of bindings in
    order of use says. *)
Theorem arp_cache_refines s adds : length s.(arp_cache) = 32%nat -> 0 <= s.(arp_time) ->
  s.(arp_time) + Z.of_nat (length adds) <= 4294967295 -> Forall (fun p => zlen p.2 = 6) adds ->
  exists s', (arp_init ;; arp_adds adds) s = Done ((), s') /\
    forall ip, arp_cache_lookup ip s'
      = Done (lru_lookup ip (foldl (fun l p => lru_add p.1 p.2 l) [] adds), s').
Proof.
  intros Hl H0 Ht HF. destruct (arp_init_rep s Hl) as (s1 & E1 & Hrep1 & Et).
  destruct (arp_adds_rep adds s1 [] Hrep1) as (s2 & E2 & Hrep2); [lia..|done|].
  exists s2. split.
  - unfold mbind, N_bind. rewrite E1. exact E2.
  - intros ip. by apply arp_lookup_rep.
Qed.
End Ops.
End NetArp.
