(* ===== verification/NetIp.v ===== *)
(** * IPv4: building, dispatching, and answering echo requests

    The packets the stack builds are valid, the receive path hands the payload
    to the right protocol, and an echo request is answered by its exact reply.
    The last section shows what happens when the reply's next hop is not in
    the ARP cache: the driver's handler re-enters itself on the same
    descriptor without end. *)
From Stdlib Require Import ZArith Lia Wf_nat.
From stdpp Require Import base numbers list.
From S2P Require Import Prelude NetPkt Net NetCard NetArp.

Module NetIp.
Import Pkt PktProps Net NetCard NetArp.
Local Open Scope Z_scope.
Local Open Scope outcome_scope.

(** ** Fields of packets *)
Lemma load_prefix l k off n : 0 <= off -> 0 <= n -> off + n <= zlen l ->
  load_bytes (l ++ k) off n = load_bytes l off n.
Proof.
  intros Ho Hn Hl. pose proof (zlen_pos k). rewrite !load_bytes_done by (rewrite ?zlen_app; lia). f_equal.
  unfold zlen in *. rewrite drop_app_le by lia. rewrite take_app_le; [done|]. rewrite length_drop. lia.
Qed.

Lemma ld8_load p off b : load_bytes p off 1 = Done [b] -> ld8 p off = Done b.
Proof.
  intros (H1 & _ & H3 & E)%load_bytes_inv. unfold zlen in *.
  rewrite ld8_done by (unfold zlen; lia). f_equal. rewrite drop_S with (x := get p (Z.to_nat off)) in E.
  - simpl in E. congruence.
  - apply lookup_get. lia.
Qed.

Lemma ld16_load p off v : load_bytes p off 2 = Done (le_bytes 2 v) -> 0 <= v < 65536 -> ld16 p off = Done v.
Proof.
  intros E Hv. unfold ld16. rewrite E. cbn [obind]. f_equal. rewrite le_value_bytes.
  apply Z.mod_small. change (256 ^ Z.of_nat 2) with 65536. lia.
Qed.

Lemma ld32_load p off v : load_bytes p off 4 = Done (le_bytes 4 v) -> is_u32 v -> ld32 p off = Done v.
Proof. intros E Hv. unfold ld32. rewrite E. cbn [obind]. f_equal. by apply le_value_bytes_u32. Qed.

Lemma zlen_ipv4_header t p c s d : zlen (ipv4_header t p c s d) = 20.
Proof. done. Qed.

Lemma drop_zlen l k n : zlen l = Z.of_nat n -> drop n (l ++ k) = k.
Proof. unfold zlen. intros E. assert (n = length l) as -> by lia. apply drop_app_length. Qed.

(** A field of a header is read back through whatever follows the header. *)
Lemma header_field l k off n bs : load_bytes l off n = Done bs -> load_bytes (l ++ k) off n = Done bs.
Proof. intros E. pose proof (load_bytes_inv _ _ _ _ E) as (H1 & H2 & H3 & _). by rewrite load_prefix. Qed.

(** ** The IPv4 packet *)
Lemma net_checksum_prefix l k : net_checksum (l ++ k) (zlen l) = net_checksum l (zlen l).
Proof.
  unfold net_checksum. pose proof (zlen_pos l). rewrite load_prefix by lia. done.
Qed.

Lemma ipv4_packet_spec proto src dst payload n : is_byte proto -> 0 <= n <= 65515 -> n <= zlen payload ->
  exists c, 0 <= c < 65536 /\
    ipv4_packet proto src dst payload n
      = Done (ipv4_header (20 + n) proto c src dst ++ take (Z.to_nat n) payload) /\
    net_checksum (ipv4_header (20 + n) proto c src dst) 20 = Done 0.
Proof.
  intros Hp Hn Hl. unfold ipv4_packet, sizeof_ipv4. rewrite (wrap_small 16) by lia.
  set (pre := [69; 0] ++ le_bytes 2 (net_htons (20 + n)) ++ le_bytes 2 0 ++ le_bytes 2 0 ++ [64; proto]).
  set (post := le_bytes 4 src ++ le_bytes 4 dst).
  assert (forall c, ipv4_header (20 + n) proto c src dst = pre ++ le_bytes 2 c ++ post) as Eh by done.
  assert (Forall is_byte (pre ++ [0; 0] ++ post)) as HF.
  { unfold pre, post. rewrite !Forall_app. repeat split; try apply le_bytes_byte;
      repeat (apply Forall_cons_2; [unfold is_byte in *; lia|]); apply Forall_nil_2. }
  destruct (checksum_fills pre post HF) as (c & Ec & Hc & Ez).
  { by exists 5%nat. }
  { vm_compute. done. }
  exists c. split; [done|]. change (pre ++ [0; 0] ++ post) with (pre ++ le_bytes 2 0 ++ post) in Ec.
  rewrite !Eh.
  change 20 with (zlen (pre ++ le_bytes 2 0 ++ post)) at 1. rewrite store_fresh by lia. cbn [obind].
  change 20 with (zlen (pre ++ le_bytes 2 0 ++ post)) at 1. rewrite net_checksum_prefix, Ec. cbn [obind].
  replace ((pre ++ le_bytes 2 0 ++ post) ++ fresh n) with (pre ++ le_bytes 2 0 ++ (post ++ fresh n))
    by (by rewrite !app_assoc).
  change 10 with (zlen pre). rewrite store_mid by done. cbn [obind]. split; [|exact Ez].
  replace (pre ++ le_bytes 2 c ++ (post ++ fresh n)) with ((pre ++ le_bytes 2 c ++ post) ++ fresh n)
    by (by rewrite !app_assoc).
  change 20 with (zlen (pre ++ le_bytes 2 c ++ post)).
  pose proof (copy_tail (pre ++ le_bytes 2 c ++ post) (fresh n) payload) as E.
  rewrite zlen_fresh in E by lia. rewrite E by lia. unfold fresh. by rewrite length_replicate.
Qed.

(** ** The echo reply *)
Definition icmp_message (type code c : Z) (id seq body : list Z) : list Z :=
  [type; code] ++ le_bytes 2 c ++ id ++ seq ++ body.

Lemma echo_reply_spec code c0 id seq body slack :
  Forall is_byte (id ++ seq ++ body) -> zlen id = 2 -> zlen seq = 2 -> 8 + zlen body <= 65534 ->
  exists c, 0 <= c < 65536 /\
    echo_reply (icmp_message 8 code c0 id seq body ++ slack) (8 + zlen body)
      = Done (icmp_message 0 0 c id seq body) /\
    net_checksum (icmp_message 0 0 c id seq body) (8 + zlen body) = Done 0.
Proof.
  intros HF Hid Hseq Hl. pose proof (zlen_pos body).
  destruct id as [|i0 [|i1 [|? ?]]]; try (exfalso; unfold zlen in Hid; simpl in Hid; lia).
  destruct seq as [|s0 [|s1 [|? ?]]]; try (exfalso; unfold zlen in Hseq; simpl in Hseq; lia).
  unfold echo_reply.
  assert (load_bytes (icmp_message 8 code c0 [i0; i1] [s0; s1] body ++ slack) 4 2 = Done [i0; i1]) as ->.
  { apply header_field. apply (load_mid [8; code; c0 mod 256; c0 / 256 mod 256] [i0; i1]); done. }
  assert (load_bytes (icmp_message 8 code c0 [i0; i1] [s0; s1] body ++ slack) 6 2 = Done [s0; s1]) as ->.
  { apply header_field. apply (load_mid [8; code; c0 mod 256; c0 / 256 mod 256; i0; i1] [s0; s1]); done. }
  cbn [obind]. unfold sizeof_icmp. rewrite (wrap_small 16) by lia.
  set (hdr := [ICMP_TYPE_ECHO_REPLY; 0] ++ le_bytes 2 0 ++ [i0; i1] ++ [s0; s1]).
  change (drop 8 (icmp_message 8 code c0 [i0; i1] [s0; s1] body ++ slack)) with (body ++ slack).
  change 8 with (zlen hdr) at 1. rewrite store_fresh by lia. cbn [obind].
  replace (8 + zlen body - 8) with (zlen body) by lia.
  pose proof (copy_tail hdr (fresh (zlen body)) (body ++ slack)) as E. rewrite zlen_fresh in E by done.
  change 8 with (zlen hdr) at 1. rewrite E by (rewrite zlen_app; pose proof (zlen_pos slack); lia).
  cbn [obind]. unfold fresh. rewrite length_replicate.
  replace (Z.to_nat (zlen body)) with (length body) by (unfold zlen; lia). rewrite take_app_length.
  destruct (checksum_fills [0; 0] ([i0; i1] ++ [s0; s1] ++ body)) as (c & Ec & Hc & Ez).
  { simpl. repeat (apply Forall_cons_2; [unfold is_byte; lia|]). done. }
  { by exists 1%nat. }
  { unfold csum_len. rewrite !zlen_app. change (zlen [0; 0]) with 2. lia. }
  assert (zlen ([0; 0] ++ [0; 0] ++ [i0; i1] ++ [s0; s1] ++ body) = 8 + zlen body) as El
    by (rewrite !zlen_app; change (zlen [0; 0]) with 2; lia).
  assert (zlen ([0; 0] ++ le_bytes 2 c ++ [i0; i1] ++ [s0; s1] ++ body) = 8 + zlen body) as El'
    by (rewrite !zlen_app, zlen_le_bytes; change (zlen [0; 0]) with 2; lia).
  rewrite El in Ec. rewrite El' in Ez. exists c. split; [done|].
  change (hdr ++ body) with ([0; 0] ++ [0; 0] ++ [i0; i1] ++ [s0; s1] ++ body). rewrite Ec. cbn [obind].
  split; [|exact Ez]. change 2 with (zlen [0; 0]) at 1. by rewrite store_mid.
Qed.

(** ** Dispatch *)
Section Dispatch.
Context {H : Type} {NIC : Nic H} (spin : nat) (send : Z -> Z -> list Z -> Z -> N H Z).
Implicit Types (s : net H).

(** The frame carries [payload] of protocol [proto], and the receive buffer
    holds [slack] behind it. *)
Definition ip_frame (dm sm : list Z) (n proto c src dst : Z) (payload slack : list Z) : list Z :=
  eth_frame dm sm ETH_TYPE_IPV4 (ipv4_header (20 + n) proto c src dst ++ payload ++ slack).

(** The stack takes the packet. *)
Definition accepts (cfg : net_config_t) (dst : Z) : Prop :=
  cfg.(configured) = 0 \/ dst = cfg.(ip) \/ dst = 4294967295.

Definition deliver (proto src : Z) (p : list Z) (n : Z) : N H unit :=
  if proto =? IP_PROTO_ICMP then icmp_receive send src p n
  else if proto =? IP_PROTO_UDP then udp_receive src p n
  else if proto =? IP_PROTO_TCP then tcp_receive send src p n
  else skip.

Lemma bind_lift {A B} (m : outcome A) a (f : A -> N H B) s : m = Done a -> (lift m ≫= f) s = f a s.
Proof. intros ->. done. Qed.

Lemma bind_gets {A B} (g : net H -> A) (f : A -> N H B) s : (gets g ≫= f) s = f (g s) s.
Proof. done. Qed.

Lemma net_receive_ipv4 dm sm n proto c src dst payload slack len s :
  zlen dm = 6 -> zlen sm = 6 -> zlen payload = n -> n <= 65515 -> 34 <= len ->
  is_u32 src -> is_u32 dst -> accepts s.(net_config) dst ->
  net_receive_packet spin send (ip_frame dm sm n proto c src dst payload slack) len s
  = deliver proto src (payload ++ slack) n s.
Proof.
  intros Hdm Hsm Hn Hmax Hlen Hsrc Hdst Hacc. pose proof (zlen_pos payload).
  unfold net_receive_packet, ip_frame, eth_frame. unfold sizeof_eth at 1, sizeof_eth at 2, sizeof_ipv4.
  destruct (Z.ltb_spec len 14); [lia|].
  set (hdr := dm ++ sm ++ le_bytes 2 (net_htons ETH_TYPE_IPV4)).
  set (iph := ipv4_header (20 + n) proto c src dst).
  assert (zlen hdr = 14) as Hh by (unfold hdr; rewrite !zlen_app, zlen_le_bytes; lia).
  rewrite (bind_lift _ (net_htons ETH_TYPE_IPV4)).
  2: { apply ld16_load; [|vm_compute; done]. apply header_field. unfold hdr.
       rewrite <- (app_nil_r (le_bytes 2 _)), app_assoc. apply load_mid; [|done].
       rewrite zlen_app. lia. }
  change (net_htons (net_htons ETH_TYPE_IPV4)) with ETH_TYPE_IPV4.
  change (ETH_TYPE_IPV4 =? ETH_TYPE_ARP) with false. rewrite Z.eqb_refl. cbv iota zeta.
  destruct (Z.leb_spec (14 + 20) len); [|lia]. rewrite bind_gets.
  rewrite drop_zlen by done.
  rewrite (bind_lift _ dst) by (apply ld32_load; [by apply header_field|done]).
  assert (c_true (configured (net_config s)) && negb (dst =? ip (net_config s)) && negb (dst =? 4294967295)
    = false) as ->.
  { destruct Hacc as [-> | [-> | ->] ]; [done|by rewrite Z.eqb_refl, andb_false_r|by rewrite andb_false_r]. }
  rewrite (bind_lift _ 69) by (apply ld8_load; by apply header_field).
  rewrite (bind_lift _ (net_htons (20 + n))).
  2: { apply ld16_load; [by apply header_field|]. apply net_htons_range. lia. }
  rewrite (bind_lift _ proto) by (apply ld8_load; by apply header_field).
  rewrite (bind_lift _ src) by (apply ld32_load; [by apply header_field|done]).
  change (Z.land 69 15 * 4) with 20. change (Z.to_nat 20) with 20%nat.
  rewrite (drop_zlen iph) by done. rewrite net_htons_invol by lia.
  replace (20 + n - 20) with n by lia. rewrite wrap_small by lia. done.
Qed.
End Dispatch.

(** ** Echo requests *)
Section Echo.
Context {H : Type} {NIC : Nic H} {spin : nat} {L : NicLaws H spin}.
Implicit Types (s : net H).

(** The host is configured, and [src] is a neighbour or behind the gateway. *)
Definition host_ok s (src route_ip : Z) : Prop :=
  s.(net_config).(configured) = 1 /\ is_u32 s.(net_config).(ip) /\ s.(net_config).(ip) <> 0 /\
  zlen s.(net_config).(mac) = 6 /\
  is_u32 src /\ src <> s.(net_config).(ip) /\ src <> 4294967295 /\
  route s.(net_config) s.(net_config).(ip) src = Some route_ip.

Lemma wp_eq {A} (m m' : N H A) Q s : m s = m' s -> wp m' Q s -> wp m Q s.
Proof. unfold wp. by intros ->. Qed.

(** Sending to a host whose hardware address is in the cache. *)
Lemma wp_send_cached send irq dst proto payload n route_ip m s Q :
  card_ok s -> host_ok s dst route_ip -> is_byte proto -> 0 <= n <= 8158 -> n <= zlen payload ->
  arp_cache_lookup route_ip s = Done (Some m, s) -> zlen m = 6 ->
  (forall s' c, moved [eth_frame m s.(net_config).(mac) ETH_TYPE_IPV4
      (ipv4_header (20 + n) proto c s.(net_config).(ip) dst ++ take (Z.to_nat n) payload)] s s' ->
    net_checksum (ipv4_header (20 + n) proto c s.(net_config).(ip) dst) 20 = Done 0 -> Q 0 s') ->
  wp (net_send_ipv4 spin send irq dst proto payload n) Q s.
Proof.
  intros Hs (Hcf & Hip & Hip0 & Hmac & Hdst & Hne & Hbc & Hr) Hp Hn Hl Ha Hm HQ.
  unfold net_send_ipv4. wp_steps. rewrite Hcf. cbn [c_true negb Z.eqb].
  destruct (Z.eqb_spec dst s.(net_config).(ip)); [done|]. cbn [andb]. wp_steps.
  destruct (ipv4_packet_spec proto s.(net_config).(ip) dst payload n Hp) as (c & Hc & Ep & Ez); [lia..|].
  eapply wp_lift; [exact Ep|]. wp_steps. destruct (Z.eqb_spec dst 4294967295); [done|]. rewrite Hr.
  unfold sizeof_ipv4. rewrite wrap_small by lia. wp_steps. unfold arp_resolve. wp_steps.
  eexists _, _. split; [exact Ha|]. cbv beta iota. wp_steps. cbv beta iota.
  apply wp_net_send_ethernet; [done|done|done|lia|rewrite zlen_app, zlen_ipv4_header, zlen_take; lia|].
  intros s' Hs'. eapply HQ; [|exact Ez].
  rewrite firstn_all2 in Hs'; [exact Hs'|].
  rewrite length_app, length_take. change (length (ipv4_header _ _ _ _ _)) with 20%nat. unfold zlen in *. lia.
Qed.

Lemma icmp_receive_echo send src code c0 id seq body slack s Q :
  Forall is_byte (id ++ seq ++ body) -> zlen id = 2 -> zlen seq = 2 -> 8 + zlen body <= 65534 ->
  (forall c, net_checksum (icmp_message 0 0 c id seq body) (8 + zlen body) = Done 0 ->
    wp (send src IP_PROTO_ICMP (icmp_message 0 0 c id seq body) (8 + zlen body)) (fun _ s' => Q () s') s) ->
  wp (icmp_receive send src (icmp_message 8 code c0 id seq body ++ slack) (8 + zlen body)) Q s.
Proof.
  intros HF Hid Hseq Hl HQ. pose proof (zlen_pos body). unfold icmp_receive, sizeof_icmp.
  destruct (Z.ltb_spec (8 + zlen body) 8); [lia|]. wp_steps.
  eapply wp_lift; [done|]. change (8 =? ICMP_TYPE_ECHO_REQUEST) with true. cbv beta iota. wp_steps.
  destruct (echo_reply_spec code c0 id seq body slack HF Hid Hseq Hl) as (c & Hc & Er & Ez).
  eapply wp_lift; [exact Er|]. wp_steps. eapply wp_mono; [by apply HQ|]. intros r s' Hq. by wp_steps.
Qed.

(** C10: On a configured host with an initialised card, an echo request for its address whose answer fits a frame (at
    most 8158 bytes) and whose sender's next hop is in the ARP cache is answered by exactly one frame, addressed to that
    hop's hardware address: the same identifier, sequence number and data, with valid IP and ICMP checksums. Nothing
    behind the packet in the receive buffer is sent, and nothing else changes. (Without the cache entry the request is
    never answered: [echo_request_recursion].) *)
Theorem echo_request_answered depth dm sm c src route_ip m code c0 id seq body slack len s :
  card_ok s -> host_ok s src route_ip -> zlen dm = 6 -> zlen sm = 6 -> 34 <= len ->
  Forall is_byte (id ++ seq ++ body) -> zlen id = 2 -> zlen seq = 2 -> 8 + zlen body <= 8158 ->
  arp_cache_lookup route_ip s = Done (Some m, s) -> zlen m = 6 ->
  exists s' c1 c2,
    net_receive_packet spin (send_ipv4 spin (S depth))
      (ip_frame dm sm (8 + zlen body) IP_PROTO_ICMP c src s.(net_config).(ip)
        (icmp_message 8 code c0 id seq body) slack) len s = Done ((), s') /\
    moved [eth_frame m s.(net_config).(mac) ETH_TYPE_IPV4
      (ipv4_header (28 + zlen body) IP_PROTO_ICMP c1 s.(net_config).(ip) src ++
       icmp_message 0 0 c2 id seq body)] s s' /\
    net_checksum (ipv4_header (28 + zlen body) IP_PROTO_ICMP c1 s.(net_config).(ip) src) 20 = Done 0 /\
    net_checksum (icmp_message 0 0 c2 id seq body) (8 + zlen body) = Done 0.
Proof.
  intros Hs Hh Hdm Hsm Hlen HF Hid Hseq Hl Ha Hm. pose proof Hh as (Hcf & Hip & _ & _ & Hsrc & _).
  pose proof (zlen_pos body). 
  assert (forall k, zlen (icmp_message 0 0 k id seq body) = 8 + zlen body) as El.
  { intros k. unfold icmp_message. rewrite !zlen_app, zlen_le_bytes. change (zlen [0; 0]) with 2. lia. }
  rewrite (net_receive_ipv4 spin _ dm sm) by
    (lia || done || (unfold accepts; tauto) ||
     (unfold icmp_message; rewrite !zlen_app, zlen_le_bytes; change (zlen [8; code]) with 2; lia)).
  unfold deliver. rewrite Z.eqb_refl.
  destruct (icmp_receive_echo (send_ipv4 spin (S depth)) src code c0 id seq body slack s
    (fun _ s' => exists c1 c2, moved [eth_frame m s.(net_config).(mac) ETH_TYPE_IPV4
      (ipv4_header (28 + zlen body) IP_PROTO_ICMP c1 s.(net_config).(ip) src ++
       icmp_message 0 0 c2 id seq body)] s s' /\
    net_checksum (ipv4_header (28 + zlen body) IP_PROTO_ICMP c1 s.(net_config).(ip) src) 20 = Done 0 /\
    net_checksum (icmp_message 0 0 c2 id seq body) (8 + zlen body) = Done 0)) as ([] & s' & E & c1 & c2 & HE);
    [done|done|done|lia| |by exists s', c1, c2].
  intros c2 E2. eapply wp_send_cached; [done|done|unfold is_byte, IP_PROTO_ICMP; lia|lia|by rewrite El|done|done|].
  intros s' c1 Hmv E1. replace (20 + (8 + zlen body)) with (28 + zlen body) in * by lia.
  rewrite firstn_all2 in Hmv by (specialize (El c2); unfold zlen in *; lia). eauto.
Qed.
End Echo.

(** ** Re-entrance of the interrupt handler *)
Section Reentrance.
Context {H : Type} {NIC : Nic H} {spin : nat} {L : NicLaws H spin}.
Implicit Types (s : net H).

Lemma bind_fuel {A B} (m : N H A) (f : A -> N H B) s : m s = OutOfFuel -> (m ≫= f) s = OutOfFuel.
Proof. unfold mbind, N_bind. by intros ->. Qed.

Lemma wp_fuel {A B} (m : N H A) (f : A -> N H B) s :
  wp m (fun a s' => f a s' = OutOfFuel) s -> (m ≫= f) s = OutOfFuel.
Proof. intros (a & s' & E & HF). unfold mbind, N_bind. by rewrite E. Qed.

Context (dm sm : list Z) (c src route_ip code c0 : Z) (id seq body slack : list Z).
Hypothesis Hdm : zlen dm = 6.
Hypothesis Hsm : zlen sm = 6.
Hypothesis HF : Forall is_byte (id ++ seq ++ body).
Hypothesis Hid : zlen id = 2.
Hypothesis Hseq : zlen seq = 2.
Hypothesis Hbody : 8 + zlen body <= 8158.

(** The descriptor the driver looks at next holds an echo request from [src],
    and the next hop of the answer is not in the ARP cache. *)
Definition request_pending s : Prop :=
  card_ok s /\ host_ok s src route_ip /\ find_index (arp_hit route_ip) s.(arp_cache) = None /\
  exists d, s.(rings).(rx_descs) !! Z.to_nat s.(e1000_dev).(rx_cur) = Some d /\ own_rx d = true /\
    34 <= d.(rxd_length) /\
    d.(rxd_buffer) = ip_frame dm sm (8 + zlen body) IP_PROTO_ICMP c src s.(net_config).(ip)
      (icmp_message 8 code c0 id seq body) slack.

Lemma pending_moved out s s' : moved out s s' -> request_pending s -> request_pending s'.
Proof.
  intros (Hs' & Hsoft & Hcur & _ & Hkept) (Hs & Hh & Harp & d & Hd & Ho & Hl & Eb).
  unfold soft in Hsoft. injection Hsoft as Ecfg Earp _ _ _ _ _ _ _ _.
  unfold request_pending, host_ok. rewrite Ecfg, Earp, Hcur. split; [done|]. split; [done|]. split; [done|].
  exists d. split; [by apply Hkept|done].
Qed.

Lemma wp_arp_send_request target s Q : card_ok s -> zlen s.(net_config).(mac) = 6 ->
  (forall out s', moved out s s' -> Q () s') -> wp (arp_send_request spin target) Q s.
Proof.
  intros Hs Hm HQ. unfold arp_send_request. wp_steps. eapply wp_lift.
  { apply load_bytes_done; [lia|lia|by rewrite Hm]. }
  wp_steps. apply wp_net_send_ethernet; [done|done|done|unfold sizeof_arp; lia| |].
  - change (Z.to_nat 6) with 6%nat. change (Z.to_nat 0) with 0%nat. rewrite drop_0.
    rewrite firstn_all2 by (unfold zlen in Hm; lia).
    unfold arp_packet, sizeof_arp. rewrite !zlen_app, !zlen_le_bytes, Hm.
    change (zlen [6; 4]) with 2. change (zlen (replicate 6 0)) with 6. lia.
  - intros s' Hs'. wp_steps. by eapply HQ.
Qed.

Lemma pending_send irq s c2 : request_pending s ->
  (forall s', request_pending s' -> irq s' = OutOfFuel) -> forall send,
  net_send_ipv4 spin send irq src IP_PROTO_ICMP (icmp_message 0 0 c2 id seq body) (8 + zlen body) s = OutOfFuel.
Proof.
  intros Hp Hirq send. pose proof Hp as (Hs & (Hcf & Hip & Hip0 & Hmac & Hsrc & Hne & Hbc & Hr) & Harp & _).
  pose proof (zlen_pos body). unfold net_send_ipv4. rewrite bind_gets. rewrite Hcf. cbn [c_true negb Z.eqb].
  destruct (Z.eqb_spec src s.(net_config).(ip)); [done|]. cbn [andb]. cbv zeta.
  destruct (ipv4_packet_spec IP_PROTO_ICMP s.(net_config).(ip) src (icmp_message 0 0 c2 id seq body) (8 + zlen body))
    as (k & Hk & Ep & _).
  { unfold is_byte, IP_PROTO_ICMP. lia. }
  { lia. }
  { unfold icmp_message. rewrite !zlen_app, zlen_le_bytes. change (zlen [0; 0]) with 2. lia. }
  rewrite (bind_lift _ _ _ _ Ep). destruct (Z.eqb_spec src 4294967295); [done|]. rewrite Hr.
  apply bind_fuel. unfold arp_resolve. apply wp_fuel.
  unfold arp_cache_lookup. wp_steps. rewrite Harp. wp_steps. cbn [for_ret].
  apply bind_fuel, wp_fuel, wp_arp_send_request; [done|done|]. intros out s' Hm.
  change 500%nat with (S 499). cbn [for_ret]. unfold arp_poll at 1. apply bind_fuel, bind_fuel.
  change 20%nat with (S 19). cbn [repeat_n]. apply bind_fuel, Hirq. by eapply pending_moved.
Qed.

Lemma rx_loop_pending send s fuel :
  (forall c2 s', request_pending s' ->
    send src IP_PROTO_ICMP (icmp_message 0 0 c2 id seq body) (8 + zlen body) s' = OutOfFuel) ->
  request_pending s -> rx_loop spin send fuel s.(e1000_dev).(rx_cur) s = OutOfFuel.
Proof.
  intros Hsend Hp. pose proof Hp as (Hs & _). pose proof Hs as (Hok & _ & Hrx & _).
  pose proof (zlen_pos body). destruct fuel as [|fuel]; cbn [rx_loop]; apply wp_fuel.
  all: apply wp_card_move; [done|by apply law_step|]; intros _ s' Hm _ _ Edev; rewrite <- Edev.
  all: apply (pending_moved _ _ _ Hm) in Hp; pose proof Hp as (Hs' & Hh & Harp & d & Hd & Ho & Hl & Eb).
  all: pose proof Hs' as (_ & _ & Hrx' & _).
  all: apply wp_fuel; unfold rx_desc; wp_steps.
  all: eapply wp_lift; [apply aget_lookup; [lia|exact Hd]|]; unfold own_rx in Ho; rewrite Ho.
  { done. }
  apply bind_fuel. rewrite Eb. pose proof Hh as (Hcf & Hip & _ & _ & Hsrc & _).
  rewrite (net_receive_ipv4 spin _ dm sm) by
    (lia || done || (unfold accepts; tauto) ||
     (unfold icmp_message; rewrite !zlen_app, zlen_le_bytes; change (zlen [8; code]) with 2; lia)).
  unfold deliver. rewrite Z.eqb_refl. unfold icmp_receive, sizeof_icmp.
  destruct (Z.ltb_spec (8 + zlen body) 8); [lia|].
  rewrite (bind_lift _ 8) by done. change (8 =? ICMP_TYPE_ECHO_REQUEST) with true. cbv iota.
  destruct (echo_reply_spec code c0 id seq body slack HF Hid Hseq ltac:(lia)) as (c2 & _ & Er & _).
  rewrite (bind_lift _ _ _ _ Er). by apply bind_fuel, Hsend.
Qed.

Lemma pending_diverges depth s : request_pending s -> poll spin depth s = OutOfFuel.
Proof.
  revert s. induction depth as [depth IH] using lt_wf_ind. intros s Hp.
  destruct depth as [|depth]; [done|]. unfold poll. cbn [stack_at c_irq]. unfold e1000_interrupt_handler.
  pose proof Hp as ((Hok & Ht & Hrx & Hini) & _).
  rewrite bind_gets, Hini. cbn [c_true negb Z.eqb]. apply wp_fuel.
  apply wp_card_move; [by destruct Hp|by apply law_read|]. intros _ s' Hm _ _ Edev. rewrite <- Edev.
  apply bind_fuel, rx_loop_pending; [|by eapply pending_moved].
  intros c2 s1 Hp1. destruct depth as [|depth]; [done|]. cbn [stack_at c_send].
  apply pending_send; [done|]. intros s2 Hp2. apply (IH depth); [lia|done].
Qed.
End Reentrance.

(** C18: an echo request from a host whose next hop is not in the ARP cache
    never finishes: to answer it the stack polls the card for the ARP reply,
    and the polling finds the same descriptor, which is released only after
    the packet is processed, so the handler calls itself again. No depth of
    nested calls is enough. *)
Theorem echo_request_recursion {H} {NIC : Nic H} {spin} {L : NicLaws H spin}
  dm sm c src route_ip code c0 id seq body slack (s : net H) :
  zlen dm = 6 -> zlen sm = 6 -> Forall is_byte (id ++ seq ++ body) -> zlen id = 2 -> zlen seq = 2 ->
  8 + zlen body <= 8158 ->
  request_pending dm sm c src route_ip code c0 id seq body slack s ->
  forall depth, poll spin depth s = OutOfFuel.
Proof. intros H1 H2 H3 H4 H5 H6 Hp depth. 
  by apply (pending_diverges dm sm c src route_ip code c0 id seq body slack). Qed.
End NetIp.
