(* ===== verification/NetUdp.v ===== *)
(** * UDP: delivery and safety

    A datagram built by [udp_send] on one host reaches the handler of the
    other with exactly its data, and no datagram inside a consistent IPv4
    packet, however malformed, makes the receive path read outside the buffer
    or loop. *)
From Stdlib Require Import ZArith Lia.
From stdpp Require Import base numbers list.
From S2P Require Import Prelude NetPkt Net NetParse NetClients NetCard NetArp NetIp.

Module NetUdp.
Import Pkt PktProps Net NetParse Clients NetCard NetArp NetIp.
Local Open Scope Z_scope.
Local Open Scope outcome_scope.

Lemma udp_packet_spec sport dport data n : 0 <= n <= 65527 -> n <= zlen data ->
  udp_packet sport dport data n = Done (udp_header sport dport (8 + n) ++ take (Z.to_nat n) data).
Proof.
  intros Hn Hl. unfold udp_packet, sizeof_udp. rewrite wrap_small by lia.
  apply (build_packet (udp_header sport dport (8 + n))); [done|lia].
Qed.

Section Udp.
Context {H : Type}.
Implicit Types (s : net H).

Lemma udp_receive_datagram src sport dport data slack n i h s :
  0 <= dport < 65536 -> zlen data = n -> n <= 65507 ->
  find_index (udp_listens dport) s.(udp_handlers) = Some i ->
  (exists e, s.(udp_handlers) !! i = Some e /\ e.(uh_handler) = Some h) ->
  udp_receive src (udp_header sport dport (8 + n) ++ data ++ slack) (8 + n) s
  = call_udp_handler h (data ++ slack) n s.
Proof.
  intros Hd Hn Hmax Hf (e & He & Eh). pose proof (zlen_pos data).
  unfold udp_receive, sizeof_udp. destruct (Z.ltb_spec (8 + n) 8); [lia|].
  rewrite (bind_lift _ (net_htons dport)).
  2: { apply ld16_load; [by apply header_field|]. by apply net_htons_range. }
  rewrite (bind_lift _ (net_htons (8 + n))).
  2: { apply ld16_load; [by apply header_field|]. apply net_htons_range. lia. }
  rewrite !net_htons_invol by lia. replace (8 + n - 8) with n by lia. rewrite wrap_small by lia.
  destruct (Z.ltb_spec n n); [lia|]. rewrite bind_gets, Hf.
  rewrite (bind_lift _ e) by (apply aget_lookup; [lia|by rewrite Nat2Z.id]). by rewrite Eh.
Qed.

(** A handler call returns, and changes only the client's own state. *)
Lemma call_handler_total h payload n s : Forall is_byte payload -> 0 <= n <= zlen payload ->
  exists d x, call_udp_handler h payload n s = Done ((), set_dns d (set_dhcp x s)) /\
    dns_effect s.(dns) d /\ dhcp_effect s.(dhcp) x.
Proof.
  intros HF Hn. destruct h; unfold call_udp_handler, mbind, N_bind, gets, lift, modify; cbn [obind].
  - destruct (dns_handler_returns payload n s.(dns) HF Hn) as (d & E & Hd). rewrite E. cbn [obind].
    exists d, s.(dhcp). split; [by destruct s|]. split; [done|]. unfold dhcp_effect. auto.
  - destruct (dhcp_rx_returns payload n s.(dhcp) HF Hn) as (d & E & Hd). rewrite E. cbn [obind].
    exists s.(dns), d. split; [by destruct s|]. split; [|done]. unfold dns_effect. auto.
Qed.

Lemma udp_receive_total src data len s : Forall is_byte data -> 0 <= len <= zlen data -> len <= 65535 ->
  exists d x, udp_receive src data len s = Done ((), set_dns d (set_dhcp x s)) /\
    dns_effect s.(dns) d /\ dhcp_effect s.(dhcp) x.
Proof.
  intros HF Hl Hmax.
  assert (exists d x, Done ((), s) = Done ((), set_dns d (set_dhcp x s)) /\
    dns_effect s.(dns) d /\ dhcp_effect s.(dhcp) x) as Hskip.
  { exists s.(dns), s.(dhcp). split; [by destruct s|]. unfold dns_effect, dhcp_effect. auto 10. }
  unfold udp_receive, sizeof_udp. destruct (Z.ltb_spec len 8); [done|].
  assert (forall off, 0 <= off -> off + 2 <= len -> exists v, ld16 data off = Done v /\ 0 <= v < 65536) as Hld.
  { intros off H1 H2. unfold ld16. destruct (load_bytes data off 2) as [bs| |] eqn:E.
    2,3: rewrite load_bytes_done in E by lia; done.
    exists (le_value bs). split; [done|]. pose proof (le_value_range bs (bytes_of_load _ _ _ _ HF E)) as R.
    rewrite (length_load _ _ _ _ E) in R. done. }
  destruct (Hld 2) as (dp & E1 & _); [lia..|]. destruct (Hld 4) as (ul & E2 & Hul); [lia..|].
  rewrite (bind_lift _ _ _ _ E1), (bind_lift _ _ _ _ E2). cbv zeta.
  set (n := u16 (net_htons ul - 8)).
  assert (0 <= n) as Hn by (apply wrap_range; lia).
  destruct (Z.ltb_spec (len - 8) n); [done|]. rewrite bind_gets.
  destruct (find_index _ s.(udp_handlers)) as [i|] eqn:Ef; [|done].
  apply find_first_Some in Ef as (l1 & e & l2 & -> & <- & _ & _).
  rewrite (bind_lift _ e) by (apply aget_lookup; [lia|by rewrite Nat2Z.id, list_lookup_middle]).
  destruct (uh_handler e) as [h|]; [|done]. apply call_handler_total.
  - by apply Forall_drop.
  - unfold zlen in *. rewrite length_drop. lia.
Qed.

End Udp.

(** C13: No UDP packet whose IPv4 lengths are consistent does harm, whatever the rest of it says. For every frame in the
    receive buffer with the IPv4 type and the UDP protocol, whose IPv4 header length is at most its total length and
    whose total length lies inside the buffer, the whole receive path from [net_receive_packet] on returns, reads only
    inside the buffer (the parsers of DNS responses and DHCP packets included), and changes nothing but the answer
    fields of those two clients. The UDP length field and the payload are arbitrary; the two conditions on the IPv4
    lengths are not checked by net.c. *)
Theorem udp_frame_safe {H} {NIC : Nic H} spin send frame len (s : net H) : Forall is_byte frame -> 34 <= len <= zlen frame ->
  field frame 12 2 = ETH_TYPE_IPV4 -> get frame 23 = IP_PROTO_UDP ->
  4 * (get frame 14 mod 16) <= field frame 16 2 -> 14 + field frame 16 2 <= zlen frame ->
  exists d x, net_receive_packet spin send frame len s = Done ((), set_dns d (set_dhcp x s)) /\
    dns_effect s.(dns) d /\ dhcp_effect s.(dhcp) x.
Proof.
  intros HF Hlen Het Hpr Hih Htl. unfold net_receive_packet, sizeof_eth, sizeof_ipv4.
  destruct (Z.ltb_spec len 14); [lia|]. destruct (ld16_field frame 12) as (et & Eet & Fet); [done|lia|].
  rewrite (bind_lift _ _ _ _ Eet). cbv zeta. rewrite Fet, Het. change (ETH_TYPE_IPV4 =? ETH_TYPE_ARP) with false. rewrite Z.eqb_refl.
  destruct (Z.leb_spec (14 + 20) len); [|lia]. rewrite bind_gets.
  set (p := drop 14 frame). assert (Forall is_byte p) as HFp by by apply Forall_drop.
  assert (zlen p = zlen frame - 14) as Hp by (unfold p, zlen in *; rewrite length_drop; lia).
  destruct (ld32_field p 16) as (dst & Edst & _); [done|lia|]. rewrite (bind_lift _ _ _ _ Edst).
  destruct (_ && _ && _).
  { exists s.(dns), s.(dhcp). split; [by destruct s|]. unfold dns_effect, dhcp_effect. auto 10. }
  assert (forall off, get p off = get frame (14 + off)) as Hg by (intros off; apply get_drop).
  rewrite (bind_lift _ _ _ _ (ld8_done p 0 ltac:(lia))).
  destruct (ld16_field p 2) as (tl & Etl & Ftl); [done|lia|]. rewrite (bind_lift _ _ _ _ Etl).
  rewrite (bind_lift _ _ _ _ (ld8_done p 9 ltac:(lia))).
  destruct (ld32_field p 12) as (si & Esi & _); [done|lia|]. rewrite (bind_lift _ _ _ _ Esi). cbv zeta.
  change (Z.to_nat 0) with 0%nat. change (Z.to_nat 9) with 9%nat. rewrite !Hg. cbn [Nat.add]. rewrite Hpr.
  change (IP_PROTO_UDP =? IP_PROTO_ICMP) with false. rewrite Z.eqb_refl. cbv iota.
  rewrite Ftl. replace (field p 2 2) with (field frame 16 2) by (unfold field, p; by rewrite drop_drop).
  change 15 with (Z.ones 4). rewrite Z.land_ones by lia. change (2 ^ 4) with 16.
  pose proof (Z.mod_pos_bound (get frame 14) 16 ltac:(lia)).
  assert (field frame 16 2 < 65536) as Hmax by (apply field_u16; [done|lia]).
  rewrite wrap_small by lia. apply udp_receive_total; [by apply Forall_drop| |lia].
  unfold zlen in *. rewrite length_drop. lia.
Qed.


(** a datagram that one host sends with [udp_send] and the IPv4 layer is
    delivered on the host it is addressed to: the handler registered for the
    destination port is called on exactly the data sent. *)
Theorem udp_datagram_delivered {H} {NIC : Nic H} spin send dm sm src dst sport dport data slack len i h (s : net H) :
  zlen dm = 6 -> zlen sm = 6 -> is_u32 src -> is_u32 dst -> accepts s.(net_config) dst ->
  0 <= dport < 65536 -> zlen data <= 65507 -> 34 <= len ->
  find_index (udp_listens dport) s.(udp_handlers) = Some i ->
  (exists e, s.(udp_handlers) !! i = Some e /\ e.(uh_handler) = Some h) ->
  exists dgram packet,
    udp_packet sport dport data (zlen data) = Done dgram /\
    ipv4_packet IP_PROTO_UDP src dst dgram (zlen dgram) = Done packet /\
    net_receive_packet spin send (eth_frame dm sm ETH_TYPE_IPV4 (packet ++ slack)) len s
    = call_udp_handler h (data ++ slack) (zlen data) s.
Proof.
  intros Hdm Hsm Hsrc Hdst Hacc Hdp Hn Hlen Hf He. pose proof (zlen_pos data).
  rewrite udp_packet_spec by lia. replace (Z.to_nat (zlen data)) with (length data) by (unfold zlen; lia).
  rewrite firstn_all. set (dgram := udp_header sport dport (8 + zlen data) ++ data).
  assert (zlen dgram = 8 + zlen data) as Hdg by (unfold dgram; rewrite zlen_app; done).
  destruct (ipv4_packet_spec IP_PROTO_UDP src dst dgram (8 + zlen data)) as (c & _ & Ep & _);
    [unfold is_byte, IP_PROTO_UDP; lia|lia|lia|].
  rewrite <- Hdg in Ep at 1. eexists _, _. split; [done|]. split; [exact Ep|].
  rewrite firstn_all2 by (unfold zlen in *; lia). rewrite <- app_assoc.
  rewrite <- Hdg. change (eth_frame dm sm ETH_TYPE_IPV4 (ipv4_header (20 + zlen dgram) IP_PROTO_UDP c src dst ++ dgram ++ slack))
    with (ip_frame dm sm (zlen dgram) IP_PROTO_UDP c src dst dgram slack).
  rewrite net_receive_ipv4 by (done || lia). unfold deliver.
  change (IP_PROTO_UDP =? IP_PROTO_ICMP) with false. rewrite Z.eqb_refl. cbv iota. rewrite Hdg.
  unfold dgram. rewrite <- app_assoc. by apply (udp_receive_datagram _ _ _ _ _ _ i).
Qed.
End NetUdp.
