(* ===== verification/NetDns.v ===== *)
(** * DNS: queries and answers

    [dns_encode_name] writes the label encoding of a host name, the query
    carries it, and the response parser finds the address in an answer to that
    query: a compressed name, and the first A record after any other records. *)
From Stdlib Require Import ZArith Lia.
From stdpp Require Import base numbers list.
From S2P Require Import Prelude NetPkt Net NetParse NetClients NetCard NetArp NetIp.

Module NetDns.
Import Pkt PktProps Net NetParse Clients NetIp.
Local Open Scope Z_scope.
Local Open Scope outcome_scope.

(** ** Names *)
Fixpoint join_dots (labels : list (list Z)) : list Z :=
  match labels with
  | [] => []
  | [l] => l
  | l :: labels => l ++ 46 :: join_dots labels
  end.

(** The encoding without the final zero. *)
Fixpoint enc_labels (labels : list (list Z)) : list Z :=
  match labels with [] => [] | l :: labels => zlen l :: l ++ enc_labels labels end.

Definition label_ok (l : list Z) : Prop :=
  Forall (fun c => is_byte c /\ c <> 0 /\ c <> 46) l /\ 1 <= zlen l <= 63.

Lemma aset_at_length (pre : list Z) x post v : aset (pre ++ x :: post) (zlen pre) v = Done (pre ++ v :: post).
Proof.
  unfold zlen. rewrite aset_done by (rewrite length_app; simpl; lia). f_equal.
  rewrite Nat2Z.id, insert_app_r_alt, Nat.sub_diag by lia. done.
Qed.

(** A name stops at its end or at a dot. *)
Definition label_end (r : list Z) : Prop := match r with [] => True | c :: _ => c = 0 \/ c = 46 end.

Lemma dns_label_spec l r pre mid post len : Forall (fun c => is_byte c /\ c <> 0 /\ c <> 46) l -> label_end r ->
  zlen mid = zlen l -> 0 <= len -> len + zlen l < 256 ->
  dns_label (l ++ r) (pre ++ mid ++ post) (zlen pre) len
  = Done (r, pre ++ l ++ post, zlen pre + zlen l, len + zlen l).
Proof.
  intros HF Hr. revert pre mid len. induction HF as [|c l (Hb & Hc0 & Hcd) HF IH]; intros pre mid len Hm H0 Hl; simpl.
  - destruct mid; [|unfold zlen in Hm; simpl in Hm; lia].
    change (zlen []) with 0. rewrite !Z.add_0_r. destruct r as [|x r]; [done|]. simpl.
    destruct (Z.eqb_spec x 0), (Z.eqb_spec x 46); simpl; done || (simpl in Hr; lia).
  - destruct mid as [|x mid]; [unfold zlen in Hm; simpl in Hm; lia|].
    rewrite !zlen_cons in *. pose proof (zlen_pos l).
    destruct (Z.eqb_spec c 0), (Z.eqb_spec c 46); try done. cbn [orb app]. rewrite aset_at_length. cbn [obind].
    rewrite wrap_small by lia.
    replace (pre ++ c :: mid ++ post) with ((pre ++ [c]) ++ mid ++ post) by (by rewrite <- app_assoc).
    replace (zlen pre + 1) with (zlen (pre ++ [c])) by (rewrite zlen_app; done).
    rewrite IH by lia. rewrite zlen_app, <- app_assoc. change (zlen [c]) with 1.
    replace (len + 1 + zlen l) with (len + (1 + zlen l)) by lia.
    by replace (zlen pre + 1 + zlen l) with (zlen pre + (1 + zlen l)) by lia.
Qed.

Lemma label_nonempty l : label_ok l -> exists c l', l = c :: l' /\ c <> 0.
Proof.
  intros [HF Hl]. destruct l as [|c l]; [change (zlen []) with 0 in Hl; lia|].
  inversion_clear HF as [|? ? Hc _]. exists c, l. tauto.
Qed.

Lemma dns_encode_loop_spec labels fuel pre mid post : Forall label_ok labels ->
  zlen mid = zlen (enc_labels labels) + 1 -> (length labels <= fuel)%nat ->
  dns_encode_loop fuel (join_dots labels) (pre ++ mid ++ post) (zlen pre)
  = Done (pre ++ (enc_labels labels ++ [0]) ++ post, zlen pre + zlen (enc_labels labels) + 1).
Proof.
  intros HF. revert fuel pre mid. induction HF as [|l labels Hl HF IH]; intros fuel pre mid Hm Hf.
  - destruct mid as [|x [|y mid]]; unfold zlen in Hm; simpl in Hm; try lia.
    destruct fuel; cbn [dns_encode_loop join_dots at_end app]; rewrite aset_at_length; cbn [obind];
      do 3 f_equal; unfold zlen; simpl; lia.
  - destruct fuel as [|fuel]; [simpl in Hf; lia|]. cbn [enc_labels] in *.
    rewrite zlen_cons, zlen_app in Hm. pose proof (zlen_pos (enc_labels labels)).
    destruct Hl as [Hc Hll]. destruct (label_nonempty l (conj Hc Hll)) as (c & l' & El & Hc0).
    destruct mid as [|x mid]; [change (zlen []) with 0 in Hm; lia|]. rewrite zlen_cons in Hm.
    assert (exists m1 m2, mid = m1 ++ m2 /\ zlen m1 = zlen l /\ zlen m2 = zlen (enc_labels labels) + 1)
      as (m1 & m2 & -> & Hm1 & Hm2).
    { exists (take (length l) mid), (drop (length l) mid). rewrite take_drop. split; [done|].
      unfold zlen in *. rewrite length_take, length_drop. lia. }
    assert (exists r, join_dots (l :: labels) = l ++ r /\ label_end r /\
      match r with c :: host' => if c =? 46 then host' else r | [] => [] end = join_dots labels) as (r & -> & Hr & Er).
    { destruct labels as [|l2 labels]; [exists []; simpl; by rewrite app_nil_r|].
      exists (46 :: join_dots (l2 :: labels)). split; [done|]. split; [by right|done]. }
    cbn [dns_encode_loop]. rewrite El at 1. cbn [at_end app]. destruct (Z.eqb_spec c 0); [done|].
    replace (pre ++ x :: (m1 ++ m2) ++ post) with ((pre ++ [x]) ++ m1 ++ (m2 ++ post))
      by (rewrite <- !app_assoc; done).
    replace (zlen pre + 1) with (zlen (pre ++ [x])) by (rewrite zlen_app; done).
    rewrite dns_label_spec by (done || lia). cbn [obind]. rewrite <- app_assoc. cbn [app].
    rewrite aset_at_length. cbn [obind]. rewrite Er.
    replace (pre ++ 0 + zlen l :: l ++ m2 ++ post) with ((pre ++ zlen l :: l) ++ m2 ++ post)
      by (rewrite <- app_assoc; done).
    replace (zlen (pre ++ [x]) + zlen l) with (zlen (pre ++ zlen l :: l))
      by (rewrite !zlen_app, zlen_cons; change (zlen [x]) with 1; lia).
    rewrite IH by (done || (simpl in Hf; lia)). f_equal. f_equal.
    + simpl. rewrite <- !app_assoc. simpl. by rewrite <- ?app_assoc.
    + rewrite !zlen_app, !zlen_cons, zlen_app. lia.
Qed.

Lemma length_labels labels : Forall label_ok labels -> (length labels <= length (join_dots labels))%nat.
Proof.
  induction 1 as [|l labels [_ Hl] HF IH]; [done|]. destruct labels as [|l2 labels].
  - unfold zlen in Hl. simpl. lia.
  - change (join_dots (l :: l2 :: labels)) with (l ++ 46 :: join_dots (l2 :: labels)).
    rewrite length_app. simpl in *. unfold zlen in Hl. lia.
Qed.

Lemma dns_encode_name_spec labels pre mid post : Forall label_ok labels ->
  zlen mid = zlen (enc_labels labels) + 1 ->
  dns_encode_name (join_dots labels) (pre ++ mid ++ post) (zlen pre)
  = Done (pre ++ (enc_labels labels ++ [0]) ++ post, zlen (enc_labels labels) + 1).
Proof.
  intros HF Hm. unfold dns_encode_name. rewrite dns_encode_loop_spec by (done || by apply length_labels).
  cbn [obind]. do 2 f_equal. lia.
Qed.

(** ** The query *)
Definition dns_header (id flags qd an : Z) : list Z :=
  [Z.land (Z.shiftr id 8) 255; Z.land id 255; flags / 256; flags mod 256; 0; qd; 0; an; 0; 0; 0; 0].

(** The question: the name, type A, class IN. *)
Definition question (labels : list (list Z)) : list Z := (enc_labels labels ++ [0]) ++ [0; 1; 0; 1].

Lemma dns_query_spec id labels : Forall label_ok labels -> zlen (enc_labels labels) <= 495 ->
  exists rest, dns_query id (join_dots labels)
    = Done (dns_header id 256 1 0 ++ question labels ++ rest, 17 + zlen (enc_labels labels)).
Proof.
  intros HF Hl. pose proof (zlen_pos (enc_labels labels)). unfold dns_query.
  set (n := zlen (enc_labels labels)) in *. change 512 with (12 + 500). 
  change ([Z.land (Z.shiftr id 8) 255; Z.land id 255] ++ [1; 0; 0; 1; 0; 0; 0; 0; 0; 0])
    with (dns_header id 256 1 0).
  change 12 with (zlen (dns_header id 256 1 0)) at 1. rewrite store_fresh by lia. cbn [obind].
  replace 500 with ((n + 1) + (4 + (495 - n))) by lia. rewrite (fresh_app (n + 1)), (fresh_app 4) by lia.
  change 12 with (zlen (dns_header id 256 1 0)) at 1.
  rewrite dns_encode_name_spec by (done || (rewrite zlen_fresh; lia)). cbn [obind]. fold n.
  replace (dns_header id 256 1 0 ++ (enc_labels labels ++ [0]) ++ fresh 4 ++ fresh (495 - n))
    with ((dns_header id 256 1 0 ++ (enc_labels labels ++ [0])) ++ fresh 4 ++ fresh (495 - n))
    by (by rewrite <- !app_assoc).
  replace (12 + (n + 1)) with (zlen (dns_header id 256 1 0 ++ (enc_labels labels ++ [0])))
    by (rewrite !zlen_app; change (zlen (dns_header _ _ _ _)) with 12; change (zlen [0]) with 1; fold n; lia).
  rewrite store_mid by done. cbn [obind]. exists (fresh (495 - n)). f_equal. f_equal.
  - unfold question. by rewrite <- !app_assoc.
  - rewrite !zlen_app. change (zlen (dns_header _ _ _ _)) with 12. change (zlen [0]) with 1. fold n.
    rewrite wrap_small; lia.
Qed.

(** ** The answer *)

(** A 16-bit field of the message, high byte first. *)
Definition field16 (v : Z) : list Z := [v / 256; v mod 256].

(** A resource record with the usual pointer to the name of the question. *)
Definition record (type : Z) (ttl rdata : list Z) : list Z :=
  [192; 12] ++ field16 type ++ [0; 1] ++ ttl ++ field16 (zlen rdata) ++ rdata.

(** A record that does not hold an address. *)
Definition other_record (r : list Z) : Prop :=
  exists type ttl rdata, r = record type ttl rdata /\ 0 <= type < 65536 /\ type <> 1 /\ zlen ttl = 4 /\
    zlen rdata < 65536.

Lemma ld8_mid pre l post k v : 0 <= k -> l !! Z.to_nat k = Some v ->
  ld8 (pre ++ l ++ post) (zlen pre + k) = Done v.
Proof.
  intros Hk Hv. pose proof (zlen_pos pre). apply aget_lookup; [lia|]. unfold zlen.
  rewrite lookup_app_r by lia.
  replace (Z.to_nat (Z.of_nat (length pre) + k) - length pre)%nat with (Z.to_nat k) by lia.
  by apply lookup_app_l_Some.
Qed.

Lemma ld8_cons pre v post : ld8 (pre ++ v :: post) (zlen pre) = Done v.
Proof. pose proof (ld8_mid pre [v] post 0 v ltac:(lia) eq_refl) as E. by rewrite Z.add_0_r in E. Qed.

Lemma be16_mid pre l post k v : 0 <= k -> 0 <= v < 65536 ->
  l !! Z.to_nat k = Some (v / 256) -> l !! Z.to_nat (k + 1) = Some (v mod 256) ->
  be16 (pre ++ l ++ post) (zlen pre + k) = Done v.
Proof.
  intros Hk Hv H1 H2. unfold be16. rewrite (ld8_mid _ _ _ _ (v / 256)) by done. cbn [obind].
  rewrite <- Z.add_assoc, (ld8_mid _ _ _ _ (v mod 256)) by (done || lia). cbn [obind]. f_equal.
  destruct (u16_bytes v Hv) as (_ & E & B1 & B2). by rewrite lor2_be, <- E.
Qed.

(** The fields of a record. *)
Lemma record_fields pre type ttl rdata post : 0 <= type < 65536 -> zlen ttl = 4 -> zlen rdata < 65536 ->
  let data := pre ++ record type ttl rdata ++ post in
  ld8 data (zlen pre) = Done 192 /\ be16 data (zlen pre + 2) = Done type /\
  be16 data (zlen pre + 10) = Done (zlen rdata) /\ zlen (record type ttl rdata) = 12 + zlen rdata.
Proof.
  intros Ht Httl Hrd data. pose proof (zlen_pos rdata).
  destruct ttl as [|t0 [|t1 [|t2 [|t3 [|? ?]]]]]; try (exfalso; unfold zlen in Httl; simpl in Httl; lia).
  split; [|split; [|split]].
  - unfold data. pose proof (ld8_mid pre (record type [t0; t1; t2; t3] rdata) post 0 192 ltac:(lia) eq_refl) as E.
    by rewrite Z.add_0_r in E.
  - by apply be16_mid.
  - by apply be16_mid.
  - unfold record. rewrite !zlen_app. unfold zlen. simpl. lia.
Qed.

Lemma dns_answers_step n pre type ttl rdata post fin : 0 <= type < 65536 -> zlen ttl = 4 -> zlen rdata < 65536 ->
  zlen pre + zlen (record type ttl rdata) <= fin ->
  let data := pre ++ record type ttl rdata ++ post in
  dns_answers (S n) data (zlen pre) fin =
    if (type =? 1) && (zlen rdata =? 4) then
      let* ip := le32 data (zlen pre + 12) in Done (Some ip)
    else dns_answers n data (zlen (pre ++ record type ttl rdata)) fin.
Proof.
  intros Ht Httl Hrd Hfin data. pose proof (zlen_pos pre). pose proof (zlen_pos rdata).
  destruct (record_fields pre type ttl rdata post Ht Httl Hrd) as (E0 & E1 & E2 & El). fold data in E0, E1, E2.
  rewrite El in Hfin. cbn [dns_answers]. destruct (Z.ltb_spec (zlen pre) fin); [|lia].
  unfold dns_answer_name. rewrite E0. cbn [obind]. change (Z.land 192 192 =? 192) with true. cbn [obind].
  destruct (Z.ltb_spec fin (zlen pre + 2 + 10)); [lia|]. rewrite E1. cbn [obind].
  replace (zlen pre + 2 + 8) with (zlen pre + 10) by lia. rewrite E2. cbn [obind].
  replace (zlen pre + 2 + 10) with (zlen pre + 12) by lia.
  destruct (Z.ltb_spec fin (zlen pre + 12 + zlen rdata)); [lia|].
  rewrite zlen_app, El. by replace (zlen pre + 12 + zlen rdata) with (zlen pre + (12 + zlen rdata)) by lia.
Qed.

Lemma dns_answers_spec others n pre ttl a b c d post fin : Forall other_record others ->
  zlen ttl = 4 -> is_byte a -> is_byte b -> is_byte c -> is_byte d -> (length others < n)%nat ->
  let data := pre ++ concat others ++ record 1 ttl [a; b; c; d] ++ post in
  zlen pre + zlen (concat others) + 16 <= fin ->
  dns_answers n data (zlen pre) fin = Done (Some (le_value [a; b; c; d])).
Proof.
  intros HF Httl Ha Hb Hc Hd. revert n pre. induction HF as [|r others Hr HF IH]; intros n pre Hn data Hfin.
  - destruct n as [|n]; [simpl in Hn; lia|]. unfold data in *. cbn [concat app] in *.
    change (zlen []) with 0 in Hfin. rewrite dns_answers_step; [|lia|done|done|].
    2: { destruct (record_fields pre 1 ttl [a; b; c; d] post) as (_ & _ & _ & ->); [lia|done|done|].
         change (zlen [a; b; c; d]) with 4. lia. }
    change ((1 =? 1) && (zlen [a; b; c; d] =? 4)) with true. cbv iota.
    destruct ttl as [|t0 [|t1 [|t2 [|t3 [|? ?]]]]]; try (exfalso; unfold zlen in Httl; simpl in Httl; lia).
    assert (forall k v, 0 <= k -> record 1 [t0; t1; t2; t3] [a; b; c; d] !! Z.to_nat k = Some v ->
      ld8 (pre ++ record 1 [t0; t1; t2; t3] [a; b; c; d] ++ post) (zlen pre + k) = Done v) as HL
      by (intros; by apply ld8_mid).
    unfold le32. rewrite (HL 12 a) by done. cbn [obind].
    rewrite <- !Z.add_assoc, (HL (12 + 1) b), (HL (12 + 2) c), (HL (12 + 3) d) by done. cbn [obind].
    rewrite lor4_le by done. do 2 f_equal. apply wrap_small.
    apply (le_value_range [a; b; c; d]). by repeat (apply Forall_cons_2; [done|]).
  - destruct Hr as (type & tt & rd & -> & Ht & Hne & Htt & Hrd). destruct n as [|n]; [simpl in Hn; lia|].
    unfold data in *. cbn [concat] in *. rewrite zlen_app in Hfin. pose proof (zlen_pos (concat others)).
    rewrite <- app_assoc. rewrite dns_answers_step by (done || lia).
    destruct (Z.eqb_spec type 1); [done|]. cbn [andb]. rewrite app_assoc. apply IH; [simpl in Hn; lia|].
    rewrite zlen_app. lia.
Qed.

(** ** The question is skipped *)
Lemma small_label b : is_byte b -> b < 64 -> (Z.land b 192 =? 192) = false.
Proof.
  intros Hb Hs. pose proof (byte_forall (fun b => implb (b <? 64) (negb (Z.land b 192 =? 192)))) as H.
  specialize (H ltac:(vm_compute; reflexivity) b Hb). cbv beta in H.
  rewrite (proj2 (Z.ltb_lt b 64) Hs) in H. by apply negb_true_iff in H.
Qed.

Lemma dns_skip_name_spec labels fuel pre post fin : Forall label_ok labels -> (length labels <= fuel)%nat ->
  zlen pre + zlen (enc_labels labels) < fin ->
  dns_skip_name fuel (pre ++ enc_labels labels ++ 0 :: post) (zlen pre) fin
  = Done (zlen pre + zlen (enc_labels labels)).
Proof.
  intros HF. revert fuel pre. induction HF as [|l labels [Hc Hl] HF IH]; intros fuel pre Hf Hfin.
  - cbn [enc_labels app] in *. change (zlen []) with 0 in *. rewrite Z.add_0_r in *.
    pose proof (ld8_mid pre [0] post 0 0 ltac:(lia) eq_refl) as E. rewrite Z.add_0_r in E. cbn [app] in E.
    destruct fuel; cbn [dns_skip_name]; (destruct (Z.ltb_spec (zlen pre) fin); [|lia]); by rewrite E.
  - destruct fuel as [|fuel]; [simpl in Hf; lia|]. cbn [enc_labels] in *. rewrite zlen_cons, zlen_app in *.
    pose proof (zlen_pos (enc_labels labels)). cbn [dns_skip_name app].
    destruct (Z.ltb_spec (zlen pre) fin); [|lia].
    pose proof (ld8_mid pre [zlen l] ((l ++ enc_labels labels) ++ 0 :: post) 0 (zlen l) ltac:(lia) eq_refl) as E.
    rewrite Z.add_0_r in E. cbn [app] in E. rewrite E. cbn [obind].
    destruct (Z.eqb_spec (zlen l) 0); [lia|]. rewrite small_label by (unfold is_byte; lia).
    replace (pre ++ zlen l :: (l ++ enc_labels labels) ++ 0 :: post)
      with ((pre ++ zlen l :: l) ++ enc_labels labels ++ 0 :: post) by (by rewrite <- !app_assoc).
    replace (zlen pre + zlen l + 1) with (zlen (pre ++ zlen l :: l)) by (rewrite zlen_app, zlen_cons; lia).
    rewrite IH by (simpl in Hf; lia || (rewrite zlen_app, zlen_cons; lia)). f_equal.
    rewrite zlen_app, zlen_cons. lia.
Qed.

(** ** The handler on an answer to the query *)
Lemma header_fields id flags qd an post : 0 <= id < 65536 -> 0 <= flags < 65536 ->
  0 <= qd < 256 -> 0 <= an < 256 ->
  let data := dns_header id flags qd an ++ post in
  be16 data 0 = Done id /\ be16 data 2 = Done flags /\ be16 data 4 = Done qd /\ be16 data 6 = Done an.
Proof.
  intros Hid Hf Hq Ha data.
  assert (Z.land (Z.shiftr id 8) 255 = id / 256) as E1.
  { rewrite land_ff, Z.shiftr_div_pow2 by lia. change (2 ^ 8) with 256. apply Z.mod_small.
    split; [apply Z.div_pos; lia|apply Z.div_lt_upper_bound; lia]. }
  assert (forall v, 0 <= v < 256 -> v / 256 = 0 /\ v mod 256 = v) as E2
    by (intros v Hv; by rewrite Z.div_small, Z.mod_small).
  assert (forall k v, 0 <= k -> 0 <= v < 65536 -> dns_header id flags qd an !! Z.to_nat k = Some (v / 256) ->
    dns_header id flags qd an !! Z.to_nat (k + 1) = Some (v mod 256) -> be16 data k = Done v) as HB
    by (intros k v H1 H2 H3 H4; by apply (be16_mid [] (dns_header id flags qd an) post k v)).
  destruct (E2 qd Hq) as [Q1 Q2]. destruct (E2 an Ha) as [A1 A2].
  split; [|split; [|split]]; apply HB; try lia; unfold dns_header;
    rewrite ?E1, ?land_ff, ?Q1, ?Q2, ?A1, ?A2; done.
Qed.

Lemma enc_length labels : Forall label_ok labels -> Z.of_nat (length labels) <= zlen (enc_labels labels).
Proof.
  induction 1 as [|l labels [_ Hl] HL IH]; cbn [enc_labels length]; [unfold zlen; simpl; lia|].
  rewrite zlen_cons, zlen_app. lia.
Qed.

Lemma dns_handler_answer id labels others ttl a b c d post n st :
  0 <= id < 65536 -> Forall label_ok labels -> Forall other_record others -> zlen ttl = 4 ->
  is_byte a -> is_byte b -> is_byte c -> is_byte d -> (length others < n < 256)%nat ->
  st.(dns_query_id) = id ->
  dns_handler (dns_header id 33152 1 (Z.of_nat n) ++ question labels ++ concat others ++
               record 1 ttl [a; b; c; d] ++ post)
    (33 + zlen (enc_labels labels) + zlen (concat others)) st
  = Done (set_dns_waiting 0 (set_dns_resolved_ip (le_value [a; b; c; d]) st)).
Proof.
  intros Hid HL HO Httl Ha Hb Hc Hd Hn Hq. pose proof (zlen_pos (enc_labels labels)) as Hn1.
  pose proof (zlen_pos (concat others)) as Hn2. unfold dns_handler.
  destruct (header_fields id 33152 1 (Z.of_nat n) (question labels ++ concat others ++ record 1 ttl [a; b; c; d] ++ post))
    as (E1 & E2 & E3 & E4); [lia..|].
  set (hdr := dns_header id 33152 1 (Z.of_nat n)) in *. set (fin := 33 + _ + _).
  destruct (Z.ltb_spec fin 12); [lia|]. rewrite E1, E2, E3, E4. cbn [obind].
  rewrite Hq, Z.eqb_refl. change (Z.land 33152 15 =? 0) with true.
  change (c_true (Z.land 33152 32768)) with true. cbn [negb].
  destruct (Z.eqb_spec (Z.of_nat n) 0); [lia|]. change (Z.to_nat 1) with 1%nat. cbn [dns_questions].
  destruct (Z.ltb_spec 12 fin); [|lia]. unfold question.
  replace (hdr ++ ((enc_labels labels ++ [0]) ++ [0; 1; 0; 1]) ++ concat others ++ record 1 ttl [a; b; c; d] ++ post)
    with (hdr ++ enc_labels labels ++ 0 :: ([0; 1; 0; 1] ++ concat others ++ record 1 ttl [a; b; c; d] ++ post))
    by (by rewrite <- !app_assoc).
  change 12 with (zlen hdr) at 1. rewrite dns_skip_name_spec; [|done| |change (zlen hdr) with 12; lia].
  2: { pose proof (enc_length labels HL). lia. }
  cbn [obind]. unfold dns_skip_zero. change (zlen hdr) with 12.
  destruct (Z.ltb_spec (12 + zlen (enc_labels labels)) fin); [|lia].
  replace (12 + zlen (enc_labels labels)) with (zlen (hdr ++ enc_labels labels))
    by (rewrite zlen_app; change (zlen hdr) with 12; lia).
  rewrite (app_assoc hdr). rewrite (ld8_cons (hdr ++ enc_labels labels)). cbn [obind].
  change (0 =? 0) with true. cbv iota.
  set (pre := (hdr ++ enc_labels labels) ++ [0; 0; 1; 0; 1]).
  replace (zlen (hdr ++ enc_labels labels) + 1 + 4) with (zlen pre) by
    (unfold pre; rewrite (zlen_app _ [0; 0; 1; 0; 1]); change (zlen [0; 0; 1; 0; 1]) with 5; lia).
  assert (zlen pre = 17 + zlen (enc_labels labels)) as Hpre.
  { unfold pre. rewrite !zlen_app. change (zlen hdr) with 12. change (zlen [0; 0; 1; 0; 1]) with 5. lia. }
  destruct (Z.leb_spec fin (zlen pre)); [lia|].
  replace ((hdr ++ enc_labels labels) ++ 0 :: [0; 1; 0; 1] ++ concat others ++ record 1 ttl [a; b; c; d] ++ post)
    with (pre ++ concat others ++ record 1 ttl [a; b; c; d] ++ post) by (unfold pre; by rewrite <- !app_assoc).
  rewrite dns_answers_spec; [done|done|done|done|done|done|done|lia|lia].
Qed.

(** The header of a message of 16-bit fields: id, flags, number of questions and of answers. *)
Lemma dns_header_fields id flags qd an : 0 <= id < 65536 -> 0 <= qd < 256 -> 0 <= an < 256 ->
  dns_header id flags qd an = field16 id ++ field16 flags ++ field16 qd ++ field16 an ++ field16 0 ++ field16 0.
Proof.
  intros Hid Hq Ha. unfold dns_header, field16. rewrite !land_ff, Z.shiftr_div_pow2 by lia. change (2 ^ 8) with 256.
  rewrite (Z.mod_small (id / 256)) by (split; [apply Z.div_pos; lia|apply Z.div_lt_upper_bound; lia]).
  by rewrite (Z.div_small qd), (Z.mod_small qd), (Z.div_small an), (Z.mod_small an) by lia.
Qed.

End NetDns.
