(* ===== verification/NetDhcp.v ===== *)
(** * DHCP: the replies of the server

    [dhcp_rx] reads the address offered and the options of a reply to the
    client's own transaction, in the order they come, and no others. *)
From Stdlib Require Import ZArith Lia.
From stdpp Require Import base numbers list.
From S2P Require Import Prelude NetPkt Net NetParse NetClients NetIp NetDns.

Module NetDhcp.
Import Pkt PktProps Net NetParse Clients NetIp NetDns.
Local Open Scope Z_scope.
Local Open Scope outcome_scope.

(** ** Options *)

(** An option: its code and its value. *)
Definition option_ok (o : Z * list Z) : Prop :=
  1 <= o.1 <= 254 /\ Forall is_byte o.2 /\ 1 <= zlen o.2 <= 255.

Definition enc_option (o : Z * list Z) : list Z := o.1 :: zlen o.2 :: o.2.

(** The meaning of an option: a message type or an address of the lease. *)
Definition apply_option (r : Z * dhcp_state) (o : Z * list Z) : Z * dhcp_state :=
  let '(t, d) := r in
  let addr := le_value (take 4 o.2) in
  match o.1 with
  | 53 => if zlen o.2 =? 1 then (get o.2 0, d) else r
  | 54 => if zlen o.2 =? 4 then (t, set_server_ip addr d) else r
  | 1 => if zlen o.2 =? 4 then (t, set_mask addr d) else r
  | 3 => if 4 <=? zlen o.2 then (t, set_gw addr d) else r
  | 6 => if 4 <=? zlen o.2 then (t, set_dhcp_dns addr d) else r
  | _ => r
  end.

Lemma zlen_enc_option o : zlen (enc_option o) = 2 + zlen o.2.
Proof. unfold enc_option. rewrite !zlen_cons. lia. Qed.

(** An address at offset [k] of [l]. *)
Lemma le32_mid pre l post k v : 0 <= k -> Forall is_byte v -> (4 <= length v)%nat -> drop (Z.to_nat k) l = v ->
  le32 (pre ++ l ++ post) (zlen pre + k) = Done (le_value (take 4 v)).
Proof.
  intros Hk HF Hl Hv. destruct v as [|a [|b [|c [|d v]]]]; simpl in Hl; try lia.
  assert (forall j x, (a :: b :: c :: d :: v) !! j = Some x ->
    ld8 (pre ++ l ++ post) (zlen pre + (k + Z.of_nat j)) = Done x) as HL.
  { intros j x Hj. apply ld8_mid; [lia|]. rewrite <- Hv, lookup_drop in Hj.
    by replace (Z.to_nat (k + Z.of_nat j)) with (Z.to_nat k + j)%nat by lia. }
  pose proof (HL 0%nat a eq_refl) as La. rewrite Z.add_0_r in La.
  unfold le32. rewrite La. cbn [obind].
  rewrite <- !Z.add_assoc, (HL 1%nat b eq_refl : ld8 _ (zlen pre + (k + 1)) = _),
    (HL 2%nat c eq_refl : ld8 _ (zlen pre + (k + 2)) = _),
    (HL 3%nat d eq_refl : ld8 _ (zlen pre + (k + 3)) = _). cbn [obind].
  rewrite !Forall_cons in HF. destruct HF as (Ha & Hb & Hc & Hd & _). rewrite lor4_le by done.
  cbn [take]. f_equal. apply wrap_small. apply (le_value_range [a; b; c; d]).
  by repeat (apply Forall_cons_2; [done|]).
Qed.

(** One round of the loop. *)
Lemma dhcp_option_step fuel o pre post len t d : option_ok o -> zlen pre + zlen (enc_option o) <= len ->
  dhcp_options (S fuel) (pre ++ enc_option o ++ post) len (zlen pre) t d
  = let '(t, d) := apply_option (t, d) o in
    dhcp_options fuel (pre ++ enc_option o ++ post) len (zlen (pre ++ enc_option o)) t d.
Proof.
  destruct o as [code v]. intros (Hc & HF & Hv) Hlen. simpl in Hc, HF, Hv. rewrite zlen_enc_option in Hlen. simpl in Hlen.
  pose proof (zlen_pos pre). rewrite zlen_app, zlen_enc_option. simpl snd.
  pose proof (ld8_mid pre (enc_option (code, v)) post 0 code ltac:(lia) eq_refl) as E0. rewrite Z.add_0_r in E0.
  pose proof (ld8_mid pre (enc_option (code, v)) post 1 (zlen v) ltac:(lia) eq_refl) as E1.
  assert (forall x, v !! 0%nat = Some x -> ld8 (pre ++ enc_option (code, v) ++ post) (zlen pre + 2) = Done x) as E2
    by (intros x Hx; by apply ld8_mid).
  assert (4 <= zlen v -> le32 (pre ++ enc_option (code, v) ++ post) (zlen pre + 2) = Done (le_value (take 4 v))) as E4
    by (intros Hv4; apply le32_mid; [lia|done|unfold zlen in Hv4; lia|done]).
  cbn [dhcp_options]. destruct (Z.ltb_spec (zlen pre) (len - 2)); [|lia]. rewrite E0. cbn [obind].
  destruct (Z.eqb_spec code 255); [lia|]. destruct (Z.eqb_spec code 0); [lia|]. rewrite E1. cbn [obind].
  destruct (Z.ltb_spec len (zlen pre + 2 + zlen v)); [lia|]. unfold apply_option. simpl fst. simpl snd.
  destruct (Z.eqb_spec code 53) as [->|N53].
  { destruct (Z.eqb_spec (zlen v) 1); simpl andb; cbv iota; [|done].
    destruct v as [|x v]; [change (zlen []) with 0 in Hv; lia|]. rewrite (E2 x) by done. done. }
  destruct (Z.eqb_spec code 54) as [->|N54].
  { destruct (Z.eqb_spec (zlen v) 4); simpl andb; cbv iota; [|done]. by rewrite E4 by lia. }
  destruct (Z.eqb_spec code 1) as [->|N1].
  { destruct (Z.eqb_spec (zlen v) 4); simpl andb; cbv iota; [|done]. by rewrite E4 by lia. }
  destruct (Z.eqb_spec code 3) as [->|N3].
  { destruct (Z.leb_spec 4 (zlen v)); simpl andb; cbv iota; [|done]. by rewrite E4 by lia. }
  destruct (Z.eqb_spec code 6) as [->|N6].
  { destruct (Z.leb_spec 4 (zlen v)); simpl andb; cbv iota; [|done]. by rewrite E4 by lia. }
  simpl andb. cbv iota.
  destruct code as [|p|p]; [lia| |lia].
  do 6 (destruct p as [p|p|]; try done; try lia).
Qed.

Lemma dhcp_options_spec opts fuel pre post len t d : Forall option_ok opts -> (length opts < fuel)%nat ->
  zlen pre + zlen (concat (map enc_option opts)) <= len -> len <= zlen (pre ++ concat (map enc_option opts) ++ 255 :: post) ->
  dhcp_options fuel (pre ++ concat (map enc_option opts) ++ 255 :: post) len (zlen pre) t d
  = Done (foldl apply_option (t, d) opts).
Proof.
  intros HF. revert fuel pre t d. induction HF as [|o opts Ho HF IH]; intros fuel pre t d Hf Hl Hl'.
  - destruct fuel as [|fuel]; [simpl in Hf; lia|]. cbn [map concat app] in *. cbn [dhcp_options].
    destruct (_ <? _); [|done]. by rewrite ld8_cons.
  - destruct fuel as [|fuel]; [simpl in Hf; lia|]. cbn [map concat foldl] in *.
    pose proof (zlen_pos (concat (map enc_option opts))). rewrite zlen_app in Hl. rewrite <- app_assoc in *.
    rewrite dhcp_option_step by (done || lia). destruct (apply_option (t, d) o) as [t' d'].
    rewrite app_assoc. apply IH; [simpl in Hf; lia|rewrite zlen_app; lia|by rewrite <- app_assoc].
Qed.

(** ** The reply *)

(** A reply to transaction [x] that offers the address [yi]. *)
Definition dhcp_reply (x : Z) (a yi b : list Z) (opts : list (Z * list Z)) (post : list Z) : list Z :=
  ([2; 1; 6; 0] ++ rev (le_bytes 4 x) ++ a ++ yi ++ b ++ [99; 130; 83; 99]) ++
  concat (map enc_option opts) ++ 255 :: post.

(** The transaction number from its bytes, the highest first. *)
Lemma xid_bytes x : is_u32 x ->
  let x0 := x / 256 / 256 / 256 mod 256 in let x1 := x / 256 / 256 mod 256 in let x2 := x / 256 mod 256 in let x3 := x mod 256 in
  u32 (Z.lor (Z.lor (Z.lor (Z.shiftl x0 24) (Z.shiftl x1 16)) (Z.shiftl x2 8)) x3) = x.
Proof.
  intros Hx x0 x1 x2 x3. assert (is_byte x0 /\ is_byte x1 /\ is_byte x2 /\ is_byte x3) as (B0 & B1 & B2 & B3)
    by (repeat split; apply Z.mod_pos_bound; lia).
  replace (Z.lor _ x3) with (le_value [x3; x2; x1; x0]).
  2: { rewrite <- lor4_le by done. apply Z.bits_inj'. intros i _. rewrite !Z.lor_spec.
       generalize (Z.testbit (Z.shiftl x0 24) i), (Z.testbit (Z.shiftl x1 16) i),
         (Z.testbit (Z.shiftl x2 8) i), (Z.testbit x3 i). by intros [] [] [] []. }
  change [x3; x2; x1; x0] with (le_bytes 4 x). rewrite le_value_bytes_u32 by done. by apply wrap_small.
Qed.

Lemma options_length opts : Z.of_nat (length opts) <= zlen (concat (map enc_option opts)).
Proof.
  induction opts as [|o opts IH]; [done|]. cbn [map concat length]. rewrite zlen_app, zlen_enc_option.
  pose proof (zlen_pos o.2). lia.
Qed.

(** C25: a reply to the client's own transaction is read exactly: the offered
    address, then every option in order with its meaning, and the flag of its
    message type; the end marker stops the parser, whatever follows it. *)
Theorem dhcp_reply_parsed x a yi b opts post len d : is_u32 x -> d.(xid) = x ->
  zlen a = 8 -> zlen yi = 4 -> Forall is_byte yi -> zlen b = 216 -> Forall option_ok opts ->
  240 + zlen (concat (map enc_option opts)) <= len <= zlen (dhcp_reply x a yi b opts post) -> 244 <= len ->
  dhcp_rx (dhcp_reply x a yi b opts post) len d
  = let '(t, d') := foldl apply_option (0, set_offer_ip (le_value yi) d) opts in
    Done (if t =? 2 then set_got_offer 1 d' else if t =? 5 then set_got_ack 1 d' else d').
Proof.
  intros Hx Hxid Ha Hyi HFyi Hb HF Hlen H244. unfold dhcp_rx.
  destruct (Z.ltb_spec len 244); [lia|]. unfold dhcp_reply in *. 
  set (tail := concat (map enc_option opts) ++ 255 :: post) in *.
  set (hdr := [2; 1; 6; 0] ++ rev (le_bytes 4 x) ++ a ++ yi ++ b ++ [99; 130; 83; 99]) in *.
  assert (forall k v, 0 <= k -> hdr !! Z.to_nat k = Some v -> ld8 (hdr ++ tail) k = Done v) as HL
    by (intros k v H1 H2; apply (ld8_mid [] hdr tail k v H1 H2)).
  set (x0 := x / 256 / 256 / 256 mod 256). set (x1 := x / 256 / 256 mod 256).
  set (x2 := x / 256 mod 256). set (x3 := x mod 256).
  rewrite (HL 0 2) by done. cbn [obind]. change (negb (2 =? 2)) with false. cbv iota.
  rewrite (HL 4 x0), (HL 5 x1), (HL 6 x2), (HL 7 x3) by done. cbn [obind].
  pose proof (xid_bytes x Hx) as Ex. cbv zeta in Ex. fold x0 x1 x2 x3 in Ex. rewrite Ex.
  rewrite Hxid, Z.eqb_refl. cbn [negb].
  assert (forall l1 l2 l3 k v, hdr = l1 ++ l2 ++ l3 -> 0 <= k -> l2 !! Z.to_nat k = Some v ->
    ld8 (hdr ++ tail) (zlen l1 + k) = Done v) as HM.
  { intros l1 l2 l3 k v -> Hk Hv. rewrite <- !app_assoc. by apply ld8_mid. }
  assert (le32 (hdr ++ tail) 16 = Done (le_value yi)) as ->.
  { pose proof (le32_mid ([2; 1; 6; 0] ++ rev (le_bytes 4 x) ++ a) yi (b ++ [99; 130; 83; 99] ++ tail) 0 yi) as E.
    replace (zlen ([2; 1; 6; 0] ++ rev (le_bytes 4 x) ++ a) + 0) with 16 in E
      by (rewrite !zlen_app, Ha; done).
    unfold hdr. rewrite firstn_all2 in E by (unfold zlen in Hyi; lia). rewrite <- !app_assoc in *.
    apply E; [lia|done|unfold zlen in Hyi; lia|done]. }
  cbn [obind].
  assert (forall k v, [99; 130; 83; 99] !! Z.to_nat k = Some v -> 0 <= k -> ld8 (hdr ++ tail) (236 + k) = Done v) as HG.
  { intros k v Hv Hk. replace 236 with (zlen ([2; 1; 6; 0] ++ rev (le_bytes 4 x) ++ a ++ yi ++ b))
      by (rewrite !zlen_app, Ha, Hyi, Hb; done).
    apply (HM _ [99; 130; 83; 99] []); [|done|done]. unfold hdr. by rewrite app_nil_r, <- !app_assoc. }
  rewrite (HG 0 99 eq_refl ltac:(lia) : ld8 _ 236 = _), (HG 1 130 eq_refl ltac:(lia) : ld8 _ 237 = _),
    (HG 2 83 eq_refl ltac:(lia) : ld8 _ 238 = _), (HG 3 99 eq_refl ltac:(lia) : ld8 _ 239 = _).
  cbn [obind Z.eqb negb orb]. cbv iota.
  assert (zlen hdr = 240) as Hh by (unfold hdr; rewrite !zlen_app, Ha, Hyi, Hb; done).
  rewrite <- Hh at 1. unfold tail at 1. rewrite dhcp_options_spec; [|done| |lia|].
  - cbn [obind]. by destruct (foldl _ _ _).
  - pose proof (options_length opts). lia.
  - exact (proj2 Hlen).
Qed.
End NetDhcp.
