(* ===== verification/Http.v ===== *)
(** * The HTTP client (http.c)

    URLs, the request, its validation, the download and the arguments of
    wget. Strings are byte lists without their terminator. The debug dump
    [hex_dump] and the command wget, which print and store, are in ShellDevs.v. *)
From Stdlib Require Import ZArith Lia.
From stdpp Require Import base numbers list.
From S2P Require Import Prelude NetPkt Net NetParse NetClients NetArp NetIp.

Module Http.
Import Pkt Net Clients.
Local Open Scope Z_scope.
Local Open Scope outcome_scope.

(** ** Characters and literals *)
Definition CR : Z := 13.
Definition LF : Z := 10.
Definition SP : Z := 32.
Definition slash : Z := 47.
Definition colon : Z := 58.
Definition digit (c : Z) : bool := (48 <=? c) && (c <=? 57).

(** "http://" and "https://" *)
Definition s_http : list Z := [104; 116; 116; 112; 58; 47; 47].
Definition s_https : list Z := [104; 116; 116; 112; 115; 58; 47; 47].
(** "GET ", " HTTP/1.1\r\n", "Host: ", "\r\n" *)
Definition s_get : list Z := [71; 69; 84; 32].
Definition s_version : list Z := [32; 72; 84; 84; 80; 47; 49; 46; 49; 13; 10].
Definition s_host : list Z := [72; 111; 115; 116; 58; 32].
Definition s_crlf : list Z := [13; 10].
(** "User-Agent: CustomOS/1.0\r\n" *)
Definition s_agent : list Z :=
  [85; 115; 101; 114; 45; 65; 103; 101; 110; 116; 58; 32; 67; 117; 115; 116; 111; 109; 79; 83; 47; 49; 46; 48; 13; 10].
(** "Accept: */*\r\n" *)
Definition s_accept : list Z := [65; 99; 99; 101; 112; 116; 58; 32; 42; 47; 42; 13; 10].
(** "Connection: close\r\n" *)
Definition s_conn : list Z :=
  [67; 111; 110; 110; 101; 99; 116; 105; 111; 110; 58; 32; 99; 108; 111; 115; 101; 13; 10].
(** "index.html" *)
Definition s_index : list Z := [105; 110; 100; 101; 120; 46; 104; 116; 109; 108].

(** [STRNCMP(s, literal, n) == 0] for a literal of [n] characters. *)
Definition has_prefix (lit s : list Z) : bool := bool_decide (take (length lit) s = lit).

Definition strip_scheme (url : list Z) : list Z :=
  if has_prefix s_http url then drop 7 url
  else if has_prefix s_https url then drop 8 url else url.

(** [while ( *ptr && ok( *ptr) && i < n) dst[i++] = *ptr++;]: what is copied and
    where the pointer stops. *)
Fixpoint scan (ok : Z -> bool) (n : nat) (s : list Z) : list Z * list Z :=
  match n, s with
  | S n, c :: s' =>
    if c_true c && ok c then let '(a, r) := scan ok n s' in (c :: a, r) else ([], s)
  | _, _ => ([], s)
  end.

Definition peek (s : list Z) : Z := match s with [] => 0 | c :: _ => c end.

(** [while ( *ptr >= '0' && *ptr <= '9') *port = *port * 10 + ( *ptr++ - '0');] *)
Fixpoint scan_port (s : list Z) (port : Z) : Z * list Z :=
  match s with
  | c :: s' => if digit c then scan_port s' (u16 (port * 10 + (c - 48))) else (port, s)
  | [] => (port, s)
  end.

(** [Some (host, path, port)] is the return value 0. *)
Definition parse_url (url : list Z) : option (list Z * list Z * Z) :=
  let '(host, ptr) := scan (fun c => negb (c =? slash) && negb (c =? colon)) 255 (strip_scheme url) in
  if (length host =? 0)%nat then None else
  let '(port, ptr) := if peek ptr =? colon then scan_port (drop 1 ptr) 0 else (80, ptr) in
  if port =? 0 then None else
  let path :=
    if peek ptr =? 0 then [slash]
    else if (peek ptr =? slash) && (peek (drop 1 ptr) =? 0) then [slash]
    else if peek ptr =? slash then (scan (fun _ => true) 255 ptr).1
    else [slash] in
  Some (host, path, port).

(** The text behind the last slash, if there is one ([last_slash + 1]). *)
Fixpoint after_last_slash (s : list Z) (found : option (list Z)) : option (list Z) :=
  match s with
  | [] => found
  | c :: s' =>
    if c =? 0 then found
    else after_last_slash s' (if c =? slash then Some s' else found)
  end.

Definition extract_filename_from_url (url : list Z) (max_len : nat) : list Z :=
  let name :=
    match after_last_slash (strip_scheme url) None with
    | Some s => if peek s =? 0 then []
                else (scan (fun c => negb (c =? 63) && negb (c =? 35)) (max_len - 1) s).1
    | None => []
    end in
  if (0 <? length name)%nat then name else take (max_len - 1) s_index.

(** ** The request *)

(** [for (i = 0; s[i] != '\0' && pos < 1000; i++) request[pos++] = s[i];] *)
Definition append_limited (req s : list Z) : list Z := req ++ take (1000 - length req) s.

Definition http_request (host path : list Z) : list Z :=
  let r := append_limited s_get path in
  let r := r ++ s_version ++ s_host in
  let r := append_limited r host ++ s_crlf in
  let r := append_limited (append_limited (append_limited r s_agent) s_accept) s_conn in
  r ++ s_crlf.

(** [request[i..]] starts with [lit]. *)
Definition at_pos (request lit : list Z) (i : nat) : bool := has_prefix lit (drop i request).

(** The number of errors found; a missing Host header only prints a warning. *)
Definition validate_http_request (request : list Z) : Z :=
  let len := length request in
  let e1 := if at_pos request s_get 0 then 0 else 1 in
  let req_line_end := find_index (at_pos request s_crlf) (seq 0 (len - 1)) in
  let e2 :=
    match req_line_end with
    | None => 1
    | Some e =>
      if (8 <? e)%nat then
        match find_index (at_pos request [72; 84; 84; 80]) (seq 0 (e - 8 + 1)) with
        | Some _ => 0 | None => 1
        end
      else 0
    end in
  let e3 := if (4 <=? len)%nat then if at_pos request (s_crlf ++ s_crlf) (len - 4) then 0 else 1 else 0 in
  let e5 := match find_index (fun i => get request i =? 0) (seq 0 (len - 1)) with Some _ => 1 | None => 0 end in
  e1 + e2 + e3 + e5.

(** ** The download *)
Section Client.
Context {H : Type} {NIC : Nic H} (spin : nat).
Context (send : Z -> Z -> list Z -> Z -> N H Z) (irq : N H unit).

Definition mod_http (f : http_state -> http_state) : N H unit := modify (fun s => set_http (f s.(http)) s).

(** The loop that waits for the response, with [n] rounds left. *)
Fixpoint http_wait (n : nat) (last_len no_data_count : Z) : N H unit :=
  match n with
  | O => skip
  | S n =>
    repeat_n 50 irq ;;
    h ← gets http;
    if last_len <? h.(http_response_len) then
      if c_true h.(http_transfer_complete) then skip else http_wait n h.(http_response_len) 0
    else
      let no_data_count := no_data_count + 1 in
      if (1000 <? no_data_count) && (0 <? h.(http_response_len)) then mod_http (set_http_transfer_complete 1)
      else if c_true h.(http_transfer_complete) then skip
      else http_wait n last_len no_data_count
  end.

(** The bytes stored in [output], or [None] for -1. *)
Definition http_get (url : list Z) (max_len : Z) : N H (option (list Z)) :=
  match parse_url url with
  | None => mret None
  | Some (host, path, port) =>
    r ← dns_resolve send irq host;
    match r with
    | None => mret None
    | Some ip =>
      sock ← tcp_socket;
      mod_http (set_http_socket sock) ;;
      match sock with
      | None => mret None
      | Some _ =>
        mod_http (fun h => set_http_transfer_complete 0 (set_http_response_len 0 h)) ;;
        ok ← tcp_connect send irq sock ip port;
        if negb (ok =? 0) then mod_http (set_http_socket None) ;; mret None else
        let request := http_request host path in
        ok ← tcp_send send sock request (zlen request);
        if negb (ok =? 0) then
          tcp_close send irq sock ;; mod_http (set_http_socket None) ;; mret None
        else
        http_wait (Z.to_nat 10000) 0 0 ;;
        tcp_close send irq sock ;;
        mod_http (set_http_socket None) ;;
        h ← gets http;
        if h.(http_response_len) =? 0 then mret None else
        let copy_len := if h.(http_response_len) <? max_len then h.(http_response_len) else max_len in
        bs ← lift (load_bytes h.(http_response_buffer) 0 copy_len);
        mret (Some bs)
      end
    end
  end.

(** The arguments of wget: the URL and the file it is stored in. *)
Definition wget_args (args : list Z) : list Z * list Z :=
  let '(url, rest) := scan (fun c => negb (c =? SP)) 511 args in
  let skip_spaces := fix go s := match s with c :: s' => if c =? SP then go s' else s | [] => [] end in
  let rest := skip_spaces rest in
  let named :=
    if (peek rest =? 45) && (peek (drop 1 rest) =? 111)
    then (scan (fun c => negb (c =? SP)) 254 (skip_spaces (drop 2 rest))).1 else [] in
  let filename := if (0 <? length named)%nat then named else extract_filename_from_url url 255 in
  let start := if peek filename =? slash then drop 1 filename else filename in
  (url, slash :: (scan (fun _ => true) 254 start).1).

(** The part of the response behind the first empty line, or all of it. *)
Definition http_body (response : list Z) : list Z :=
  match find_index (at_pos response (s_crlf ++ s_crlf)) (seq 0 (length response - 3)) with
  | Some i => drop (i + 4) response
  | None => response
  end.

(** [cmd_wget] up to the VFS calls: the path and the bytes it writes there. *)
Definition cmd_wget (args : list Z) : N H (option (list Z * list Z)) :=
  if peek args =? 0 then mret None else
  cfg ← gets net_config;
  if negb (c_true cfg.(configured)) then mret None else
  let '(url, path) := wget_args args in
  r ← http_get url 8192;
  match r with
  | Some response => if (length response =? 0)%nat then mret None else mret (Some (path, http_body response))
  | None => mret None
  end.
End Client.
End Http.

(** * Properties of the HTTP client

    The request built for a URL is well formed and fits its buffer, and the
    response buffer collects exactly the bytes received, up to its size. *)
Module HttpProps.
Import Pkt PktProps Net NetParse NetArp NetIp Http.
Local Open Scope Z_scope.
Local Open Scope outcome_scope.

(** ** Scanning *)
Lemma scan_spec ok n s a r : scan ok n s = (a, r) ->
  s = a ++ r /\ (length a <= n)%nat /\ Forall (fun c => c <> 0 /\ ok c = true) a.
Proof.
  revert s a r. induction n as [|n IH]; intros s a r E; destruct s as [|c s]; simpl in E;
    try (injection E as <- <-; simpl; repeat split; [lia|constructor]).
  destruct (c_true c && ok c) eqn:Ec; [|injection E as <- <-; simpl; repeat split; [lia|constructor]].
  destruct (scan ok n s) as [a' r'] eqn:Es. injection E as <- <-.
  destruct (IH _ _ _ Es) as (-> & Hl & HF). simpl. repeat split; [lia|]. constructor; [|done].
  apply andb_true_iff in Ec as [Hc ?]. unfold c_true in Hc. split; [|done].
  destruct (Z.eqb_spec c 0); done.
Qed.

Lemma scan_cons ok n c s : c_true c && ok c = true ->
  scan ok (S n) (c :: s) = let '(a, r) := scan ok n s in (c :: a, r).
Proof. intros E. cbn [scan]. by rewrite E. Qed.

Lemma strip_scheme_suffix url : exists pre, url = pre ++ strip_scheme url.
Proof.
  unfold strip_scheme. destruct (has_prefix s_http url); [exists (take 7 url); by rewrite take_drop|].
  destruct (has_prefix s_https url); [exists (take 8 url); by rewrite take_drop|by exists []].
Qed.

Lemma scan_port_suffix s p : exists pre, s = pre ++ (scan_port s p).2.
Proof.
  revert p. induction s as [|c s IH]; intros p; simpl; [by exists []|].
  destruct (digit c); [|by exists []]. destruct (IH (u16 (p * 10 + (c - 48)))) as [pre E].
  exists (c :: pre). simpl. by f_equal.
Qed.

Lemma scan_port_range s p : 0 <= p < 65536 -> 0 <= (scan_port s p).1 < 65536.
Proof.
  revert p. induction s as [|c s IH]; intros p Hp; simpl; [done|].
  destruct (digit c); [|done]. apply IH. apply (wrap_range 16). lia.
Qed.

(** What [parse_url] returns: a nonempty host and an absolute path taken from
    the URL, and a port that fits. *)
Definition text (url s : list Z) : Prop := Forall (fun c => c <> 0 /\ (c ∈ url \/ c = slash)) s.

Lemma parse_url_spec url host path port : parse_url url = Some (host, path, port) ->
  (1 <= length host <= 255)%nat /\ text url host /\
  (1 <= length path <= 255)%nat /\ text url path /\ get path 0 = slash /\ 1 <= port <= 65535.
Proof.
  unfold parse_url. destruct (strip_scheme_suffix url) as [pre Epre].
  destruct (scan _ 255 (strip_scheme url)) as [h ptr] eqn:Eh.
  destruct (scan_spec _ _ _ _ _ Eh) as (Es & Hl & HF). rewrite Es in Epre.
  destruct (Nat.eqb_spec (length h) 0) as [|Hh]; [done|].
  set (q := if peek ptr =? colon then scan_port (drop 1 ptr) 0 else (80, ptr)).
  assert (0 <= q.1 < 65536 /\ exists pre', ptr = pre' ++ q.2) as (Hport & pre' & Eptr).
  { unfold q. destruct (peek ptr =? colon); [|split; [simpl; lia|by exists []]].
    split; [apply scan_port_range; lia|]. destruct (scan_port_suffix (drop 1 ptr) 0) as [p2 E2].
    exists (take 1 ptr ++ p2). rewrite <- app_assoc, <- E2. by rewrite take_drop. }
  destruct q as [prt ptr'] eqn:Eq. simpl in Hport, Eptr. clear Eq q.
  destruct (Z.eqb_spec prt 0); [done|].
  assert (forall c, c ∈ ptr' -> c ∈ url) as Hsub.
  { intros c Hc. rewrite Epre, Eptr, !elem_of_app. auto. }
  assert (text url h) as Ht.
  { unfold text. apply Forall_forall. intros c Hc. rewrite Forall_forall in HF. destruct (HF c Hc) as [H0 _].
    split; [done|]. left. rewrite Epre, !elem_of_app. auto. }
  assert (text url [slash]) as Hsl by (unfold text; apply Forall_cons_2; [split; [done|by right]|apply Forall_nil_2]).
  match goal with |- Some (_, ?p, _) = _ -> _ => set (path0 := p) end.
  intros [= <- <- <-]. split; [lia|]. split; [done|].
  assert ((1 <= length [slash] <= 255)%nat /\ text url [slash] /\ get [slash] 0 = slash /\ 1 <= prt <= 65535) as Hd.
  { split; [simpl; lia|]. split; [done|]. split; [done|lia]. }
  unfold path0. destruct (peek ptr' =? 0); [done|]. destruct (_ && _); [done|].
  destruct (Z.eqb_spec (peek ptr') slash) as [Ep|]; [|done].
  destruct ptr' as [|c ptr']; [done|]. simpl in Ep. subst c.
  destruct (scan (fun _ => true) 255 (slash :: ptr')) as [a r] eqn:Ea.
  destruct (scan_spec _ _ _ _ _ Ea) as (Es2 & Hl2 & HF2). cbn [fst].
  rewrite (scan_cons _ 254) in Ea by done. destruct (scan _ 254 ptr') as [a' r']. injection Ea as <- <-.
  split; [split; [simpl; lia|exact Hl2]|]. split; [|split; [done|lia]].
  unfold text. apply Forall_forall. intros c Hc. rewrite Forall_forall in HF2. destruct (HF2 c Hc) as [H0 _].
  split; [done|]. left. apply Hsub. rewrite Es2, elem_of_app. auto.
Qed.

(** ** The request *)
Lemma append_limited_all r s : (length r + length s <= 1000)%nat -> append_limited r s = r ++ s.
Proof. intros Hl. unfold append_limited. by rewrite firstn_all2 by lia. Qed.

(** The text the client means to send. *)
Definition request_text (host path : list Z) : list Z :=
  s_get ++ path ++ s_version ++ s_host ++ host ++ s_crlf ++ s_agent ++ s_accept ++ s_conn ++ s_crlf.

Lemma http_request_text host path : (length host <= 255)%nat -> (length path <= 255)%nat ->
  http_request host path = request_text host path.
Proof.
  intros Hh Hp. unfold http_request, request_text.
  rewrite (append_limited_all s_get) by (simpl; lia).
  rewrite (append_limited_all _ host) by (rewrite !length_app; simpl; lia).
  rewrite (append_limited_all _ s_agent) by (rewrite !length_app; simpl; lia).
  rewrite (append_limited_all _ s_accept) by (rewrite !length_app; simpl; lia).
  rewrite (append_limited_all _ s_conn) by (rewrite !length_app; simpl; lia).
  by rewrite <- !app_assoc.
Qed.

Lemma has_prefix_app lit s : has_prefix lit (lit ++ s) = true.
Proof. unfold has_prefix. apply bool_decide_eq_true. apply take_app_length. Qed.

Lemma at_pos_app pre lit post : at_pos (pre ++ lit ++ post) lit (length pre) = true.
Proof. unfold at_pos. rewrite drop_app_length. apply has_prefix_app. Qed.

Lemma find_seq p n j : (j < n)%nat -> p j = true -> (forall i, (i < j)%nat -> p i = false) ->
  find_index p (seq 0 n) = Some j.
Proof.
  intros Hj Hp Hlt. replace n with (j + S (n - j - 1))%nat by lia. rewrite seq_app. simpl.
  rewrite find_index_app; [by rewrite length_seq| |done].
  apply Forall_forall. intros i Hi. apply elem_of_seq in Hi. apply Hlt. lia.
Qed.

Lemma find_seq_some p n j : (j < n)%nat -> p j = true -> exists i, find_index p (seq 0 n) = Some i.
Proof.
  intros Hj Hp. destruct (find_index p (seq 0 n)) as [i|] eqn:E; [by exists i|].
  apply find_first_None in E. rewrite Forall_forall in E. specialize (E j). rewrite E in Hp; [done|].
  apply elem_of_seq. lia.
Qed.

(** A literal that starts with CR is not found in text without one. *)
Lemma no_cr_before s lit i : (i < length s)%nat -> Forall (fun c => c <> CR) s -> forall post,
  at_pos (s ++ post) (CR :: lit) i = false.
Proof.
  intros Hi HF post. unfold at_pos, has_prefix. apply bool_decide_eq_false. intros E.
  rewrite drop_app_le in E by lia. destruct (drop i s) as [|c r] eqn:Ed.
  - apply (f_equal length) in Ed. rewrite length_drop in Ed. simpl in Ed. lia.
  - simpl in E. injection E as -> _. rewrite Forall_forall in HF. apply (HF CR); [|done].
    apply (list_elem_of_lookup_2 _ i). apply (f_equal (fun l => l !! 0%nat)) in Ed.
    rewrite lookup_drop, Nat.add_0_r in Ed. done.
Qed.

Lemma text_no_cr url s : text url s -> CR ∉ url -> Forall (fun c => c <> CR) s.
Proof.
  intros HT Hcr. unfold text in HT. eapply Forall_impl; [exact HT|]. intros c [_ [Hc|Hc]] ->; [done|].
  unfold CR, slash in Hc. lia.
Qed.

Lemma request_valid host path : (1 <= length host <= 255)%nat -> (1 <= length path <= 255)%nat ->
  Forall (fun c => c <> 0) host -> Forall (fun c => c <> 0) path -> Forall (fun c => c <> CR) path ->
  validate_http_request (request_text host path) = 0.
Proof.
  intros Hh Hp Hh0 Hp0 Hcr. unfold validate_http_request.
  set (rest := s_host ++ host ++ s_crlf ++ s_agent ++ s_accept ++ s_conn ++ s_crlf).
  set (line := s_get ++ path ++ [32; 72; 84; 84; 80; 47; 49; 46; 49]).
  assert (request_text host path = line ++ s_crlf ++ rest) as Er
    by (unfold request_text, line, rest, s_version, s_crlf; by rewrite <- !app_assoc).
  assert (length line = 13 + length path)%nat as Hline by (unfold line; rewrite !length_app; simpl; lia).
  assert (at_pos (request_text host path) s_get 0 = true) as -> by (apply (has_prefix_app s_get)).
  assert (length (request_text host path) = length line + 2 + length rest)%nat as Hlen
    by (rewrite Er, !length_app; simpl; lia).
  rewrite (find_seq _ _ (length line)).
  2: { rewrite Hlen. unfold rest. simpl. lia. }
  2: { rewrite Er. apply at_pos_app. }
  2: { intros i Hi. rewrite Er. apply no_cr_before; [done|]. unfold line. rewrite !Forall_app.
       repeat split; [|done|]; repeat (apply Forall_cons_2; [done|]); apply Forall_nil_2. }
  destruct (Nat.ltb_spec 8 (length line)); [|lia].
  destruct (find_seq_some (at_pos (request_text host path) [72; 84; 84; 80]) (length line - 8 + 1)
    (length line - 8)) as [i ->]; [lia| |].
  { replace (request_text host path) with ((s_get ++ path ++ [32]) ++ [72; 84; 84; 80] ++ ([47; 49; 46; 49] ++ s_crlf ++ rest))
      by (rewrite Er; unfold line; by rewrite <- !app_assoc).
    replace (length line - 8)%nat with (length (s_get ++ path ++ [32])) by (rewrite Hline, !length_app; simpl; lia).
    apply at_pos_app. }
  destruct (Nat.leb_spec 4 (length (request_text host path))); [|lia].
  assert (at_pos (request_text host path) (s_crlf ++ s_crlf) (length (request_text host path) - 4) = true) as ->.
  { set (pre := s_get ++ path ++ s_version ++ s_host ++ host ++ s_crlf ++ s_agent ++ s_accept ++ take 17 s_conn).
    assert (request_text host path = pre ++ (s_crlf ++ s_crlf) ++ []) as E
      by (unfold request_text, pre; rewrite <- !app_assoc; done).
    rewrite E. replace (length (pre ++ (s_crlf ++ s_crlf) ++ []) - 4)%nat with (length pre)
      by (rewrite !length_app; simpl; lia). apply at_pos_app. }
  rewrite find_index_none; [done|]. apply Forall_forall. intros j Hj. apply elem_of_seq in Hj.
  destruct (Z.eqb_spec (get (request_text host path) j) 0) as [E0|]; [|done]. exfalso.
  assert (Forall (fun c => c <> 0) (request_text host path)) as HF.
  { unfold request_text. rewrite !Forall_app. repeat split; try done;
      repeat (apply Forall_cons_2; [done|]); apply Forall_nil_2. }
  exact (Forall_get _ _ j HF ltac:(lia) E0).
Qed.

(** the request for any URL the client accepts is the text it means to
    send (no piece is cut off by the 1000-byte limit), fits the 1024-byte
    buffer and passes all the checks of [validate_http_request]. *)
Theorem http_request_ok url host path port : parse_url url = Some (host, path, port) -> CR ∉ url ->
  http_request host path = request_text host path /\ zlen (http_request host path) <= 1024 /\
  validate_http_request (http_request host path) = 0 /\ get path 0 = slash /\ 1 <= port <= 65535.
Proof.
  intros (Hh & Th & Hp & Tp & H0 & Hport)%parse_url_spec Hcr.
  rewrite http_request_text by lia. split; [done|]. split.
  { unfold zlen, request_text. rewrite !length_app. simpl. lia. }
  split; [|done]. apply request_valid; [done|done| | |by eapply text_no_cr].
  - eapply Forall_impl; [exact Th|]. tauto.
  - eapply Forall_impl; [exact Tp|]. tauto.
Qed.

(** The port is computed in 16 bits: a port above 65535 is taken modulo 65536
    instead of being refused. ["a:65616"] asks for port 80. *)
Example parse_url_port_wraps : parse_url [97; 58; 54; 53; 54; 49; 54] = Some ([97], [47], 80).
Proof. reflexivity. Qed.

(** ** The response buffer *)
Definition http_ok (h : http_state) : Prop :=
  zlen h.(http_response_buffer) = 16384 /\ 0 <= h.(http_response_len) <= 16384.

(** The bytes collected so far. *)
Definition collected (h : http_state) : list Z :=
  take (Z.to_nat h.(http_response_len)) h.(http_response_buffer).

Lemma http_append_spec data n h : http_ok h -> 0 <= n <= zlen data -> h.(http_response_len) + n <= 16384 ->
  exists h', http_append data n h = Done h' /\ http_ok h' /\
    collected h' = collected h ++ take (Z.to_nat n) data /\
    h'.(http_response_len) = h.(http_response_len) + n /\ h'.(http_socket) = h.(http_socket).
Proof.
  intros (Hb & Hl) Hn Hmax. unfold http_append. destruct (Z.leb_spec n 0).
  { exists h. replace n with 0 by lia. rewrite Z.add_0_r, app_nil_r. unfold http_ok. auto. }
  unfold copy_bytes. rewrite load_bytes_done by lia. cbn [obind]. change (Z.to_nat 0) with 0%nat. rewrite drop_0.
  rewrite store_bytes_done by (rewrite ?zlen_take; lia). cbn [obind].
  eexists. split; [done|]. split; [|split; [|done]].
  - split; simpl; [by rewrite zlen_list_inserts|lia].
  - unfold collected. simpl.
    set (l := http_response_len h) in *. set (b := http_response_buffer h) in *. set (k := take (Z.to_nat n) data).
    assert (length k = Z.to_nat n) as Hk by (unfold k, zlen in *; rewrite length_take; lia).
    replace (list_inserts (Z.to_nat l) k b) with (take (Z.to_nat l) b ++ k ++ drop (Z.to_nat l + length k) b).
    + rewrite app_assoc, take_app_length'; [done|]. rewrite length_app, length_take. unfold zlen in *. lia.
    + rewrite <- (take_drop (Z.to_nat l) b) at 3. rewrite <- (take_drop (length k) (drop (Z.to_nat l) b)) at 1.
      rewrite drop_drop. 
      replace (Z.to_nat l) with (length (take (Z.to_nat l) b)) at 3 by (rewrite length_take; unfold zlen in *; lia).
      symmetry. apply inserts_mid. rewrite length_take, length_drop. unfold zlen in *. lia.
Qed.

(** the response buffer is never overrun: data of any length is appended
    as far as the buffer goes, and what was collected before stays. *)
Theorem http_received_bounded data len h : http_ok h -> 0 <= len <= zlen data ->
  exists h', http_tcp_data_received data len h = Done h' /\ http_ok h' /\
    collected h' = collected h ++ take (Z.to_nat (Z.min len (16384 - h.(http_response_len)))) data.
Proof.
  intros Hok Hlen. pose proof Hok as (Hb & Hl). unfold http_tcp_data_received, HTTP_RESPONSE_MAX.
  destruct (Z.ltb_spec (h.(http_response_len) + len) 16384).
  - destruct (http_append_spec data len h Hok) as (h' & E & Hok' & Hc & _); [lia..|].
    exists h'. rewrite Z.min_l by lia. auto.
  - destruct (http_append_spec data (16384 - h.(http_response_len)) h Hok) as (h' & E & Hok' & Hc & _); [lia..|].
    exists h'. rewrite Z.min_r by lia. auto.
Qed.
End HttpProps.
