(* ===== verification/NetTcp.v ===== *)
(** * TCP: what packets can do to a socket

    A segment makes the socket it is addressed to react as [react] says, by the
    socket's state and the segment's flags and numbers, with the segments sent
    and the data received. At any depth of nested processing a socket moves only
    by such reactions; its addresses, ports and ownership belong to the program
    that opened it. *)
From Stdlib Require Import ZArith Lia.
From stdpp Require Import base numbers list relations.
From S2P Require Import Prelude NetPkt Net NetCard NetArp NetIp Http.

Module NetTcp.
Import Pkt PktProps Net NetCard NetArp NetIp HttpProps.
Local Open Scope Z_scope.
Local Open Scope outcome_scope.

(** ** Segments, and what a socket does with one *)
(** A segment as RFC 793 lays it out, all fields in network order. *)
Record segment := mk_segment {
  sg_sport : Z; sg_dport : Z; sg_seq : Z; sg_ack : Z; sg_flags : Z; sg_payload : list Z }.
Definition parse_segment (data : list Z) : segment :=
  mk_segment (field data 0 2) (field data 2 2) (field data 4 4) (field data 8 4) (get data 13)
    (drop (Z.to_nat (get data 12 / 16 * 4)) data).

Definition fin (g : segment) : bool := Z.testbit g.(sg_flags) 0.
Definition syn (g : segment) : bool := Z.testbit g.(sg_flags) 1.
Definition ack (g : segment) : bool := Z.testbit g.(sg_flags) 4.

(** The socket a segment from the host [src] is for. *)
Definition addressed (src : Z) (g : segment) (k : tcp_socket_t) : Prop :=
  k.(in_use) <> 0 /\ k.(remote_ip) = src /\ k.(remote_port) = g.(sg_sport) /\ k.(local_port) = g.(sg_dport).

(** A segment without data from socket [k]. *)
Definition reply (k : tcp_socket_t) (flags : Z) : segment :=
  mk_segment k.(local_port) k.(remote_port) k.(seq_num) k.(ack_num) flags [].

(** The socket after the segment, the answers in order, and the data handed to the HTTP client. *)
Definition react (g : segment) (k : tcp_socket_t) : tcp_socket_t * list segment * list Z :=
  if k.(state) =? TCP_STATE_SYN_SENT then
    if syn g && ack g then
      let k' := set_state TCP_STATE_ESTABLISHED (set_ack_num (u32 (g.(sg_seq) + 1)) k) in
      (k', [reply k' TCP_ACK], [])
    else (k, [], [])
  else if k.(state) =? TCP_STATE_ESTABLISHED then
    if fin g then
      let k' := set_ack_num (u32 (g.(sg_seq) + 1)) k in
      (set_state TCP_STATE_LAST_ACK (set_seq_num (u32 (k.(seq_num) + 1)) k'),
       [reply k' TCP_ACK; reply k' (TCP_FIN + TCP_ACK)], [])
    else if ack g && (0 <? zlen g.(sg_payload)) then
      let k' := set_ack_num (u32 (g.(sg_seq) + zlen g.(sg_payload))) k in
      (k', [reply k' TCP_ACK], g.(sg_payload))
    else (k, [], [])
  else if k.(state) =? TCP_STATE_LAST_ACK then
    if ack g then (set_state TCP_STATE_CLOSED k, [], []) else (k, [], [])
  else (k, [], []).

(** ** The transitions of the receive path *)
Definition tcp_step (k k' : tcp_socket_t) : Prop :=
  exists src g, addressed src g k /\ k' = (react g k).1.1.

Definition tcp_steps : relation tcp_socket_t := rtc tcp_step.
Definition socks_steps : relation (list tcp_socket_t) := Forall2 tcp_steps.

#[export] Instance socks_refl : Reflexive socks_steps.
Proof. unfold socks_steps, tcp_steps. apply _. Qed.
#[export] Instance socks_trans : Transitive socks_steps.
Proof. unfold socks_steps, tcp_steps. apply _. Qed.

(** The states no packet acts on. *)
Definition inert (st : Z) : Prop :=
  st <> TCP_STATE_SYN_SENT /\ st <> TCP_STATE_ESTABLISHED /\ st <> TCP_STATE_LAST_ACK.

Lemma react_inert g k : inert k.(state) -> react g k = (k, [], []).
Proof.
  intros (H1 & H2 & H3). unfold react. by rewrite !(proj2 (Z.eqb_neq _ _)) by done.
Qed.

Lemma inert_stays k k' : inert k.(state) -> tcp_steps k k' -> k' = k.
Proof.
  intros Hi Hs. induction Hs as [|k k1 k' (src & g & _ & ->) _ IH]; [done|]. rewrite react_inert in IH by done. auto.
Qed.

(** What the program that owns the socket decides. *)
Definition owned (k : tcp_socket_t) := (k.(remote_ip), k.(local_port), k.(remote_port), k.(in_use)).

Lemma steps_owned k k' : tcp_steps k k' -> owned k' = owned k.
Proof.
  induction 1 as [|k k1 k2 (src & g & _ & ->) Hss IH]; [done|]. rewrite IH. unfold react. by repeat case_match.
Qed.

(** ** Code that follows them *)
Section Keeps.
Context {H : Type}.
Implicit Types (s : net H).

Definition follows {A} (m : N H A) : Prop := forall s a s', m s = Done (a, s') ->
  socks_steps s.(tcp_sockets) s'.(tcp_sockets).

Lemma follows_ret {A} (a : A) : follows (mret a).
Proof. by intros s ? ? [= <- <-]. Qed.

Lemma follows_skip : follows skip.
Proof. apply follows_ret. Qed.

Lemma follows_gets {A} (f : net H -> A) : follows (gets f).
Proof. by intros s ? ? [= <- <-]. Qed.

Lemma follows_lift {A} (m : outcome A) : follows (lift m).
Proof. intros s a s'. unfold lift. destruct m; simpl; [intros [= <- <-]|..]; done. Qed.

Lemma follows_modify (f : net H -> net H) :
  (forall s, (f s).(tcp_sockets) = s.(tcp_sockets)) -> follows (modify f).
Proof. intros Hf s ? ? [= <- <-]. by rewrite Hf. Qed.

Lemma bind_inv {A B} (m : N H A) (f : A -> N H B) s b s' : (m ≫= f) s = Done (b, s') ->
  exists a s1, m s = Done (a, s1) /\ f a s1 = Done (b, s').
Proof.
  unfold mbind, N_bind. destruct (m s) as [[a s1]| |]; simpl; [|done..]. intros E. by exists a, s1.
Qed.

Lemma follows_bind {A B} (m : N H A) (f : A -> N H B) :
  follows m -> (forall a, follows (f a)) -> follows (m ≫= f).
Proof.
  intros Hm Hf s b s' (a & s1 & E1 & E2)%bind_inv. etrans; [by eapply Hm|by eapply Hf].
Qed.

Lemma follows_for_ret {R} (body : Z -> N H (option R)) n i :
  (forall j, follows (body j)) -> follows (for_ret body n i).
Proof.
  intros Hb. revert i. induction n as [|n IH]; intros i; cbn [for_ret]; [apply follows_ret|].
  apply follows_bind; [done|]. intros [v|]; [apply follows_ret|apply IH].
Qed.

Lemma follows_repeat n (body : N H unit) : follows body -> follows (repeat_n n body).
Proof. intros Hb. induction n as [|n IH]; cbn [repeat_n]; [apply follows_skip|by apply follows_bind]. Qed.
End Keeps.

(** Follows the code's structure; leaves the calls that need an argument. *)
Create HintDb tcp_follows.
#[export] Hint Resolve follows_ret follows_skip follows_gets follows_lift follows_repeat follows_for_ret : tcp_follows.
Ltac follow :=
  repeat first
    [ progress intros
    | solve [auto with tcp_follows]
    | apply follows_modify; intros; reflexivity
    | match goal with
      | |- follows (_ ≫= _) => apply follows_bind
      | |- follows (if ?b then _ else _) => destruct b
      | |- follows (match ?x with _ => _ end) => destruct x
      | |- follows (let x := _ in _) => cbv zeta
      end ].

Section Stack.
Context {H : Type} {NIC : Nic H} (spin : nat).
Implicit Types (s : net H).

Lemma follows_on_card {A} (f : H * rings_t -> A * (H * rings_t)) : follows (on_card f).
Proof. intros s a s'. unfold on_card. destruct (f _) as [x [h r]]. by intros [= <- <-]. Qed.
#[local] Hint Resolve follows_on_card : tcp_follows.

Lemma follows_wait_tx fuel tail : follows (wait_tx (H := H) fuel tail).
Proof. induction fuel as [|fuel IH]; cbn [wait_tx]; unfold card_progress, tx_desc; follow; done. Qed.
#[local] Hint Resolve follows_wait_tx : tcp_follows.

Lemma follows_send_ethernet dst et p n : follows (net_send_ethernet (H := H) spin dst et p n).
Proof.
  unfold net_send_ethernet, e1000_send_packet, set_tx_desc, tx_desc, e1000_write_reg. follow.
Qed.
#[local] Hint Resolve follows_send_ethernet : tcp_follows.

Lemma follows_arp_receive p n : follows (arp_receive (H := H) spin p n).
Proof. unfold arp_receive, arp_cache_add. follow. Qed.

Lemma follows_udp_receive src p n : follows (udp_receive (H := H) src p n).
Proof. unfold udp_receive, call_udp_handler. follow. Qed.

Section Knot.
Context (send : Z -> Z -> list Z -> Z -> N H Z) (irq : N H unit).
Hypothesis Hsend : forall d p b n, follows (send d p b n).
Hypothesis Hirq : follows irq.
#[local] Hint Resolve Hsend Hirq follows_arp_receive follows_udp_receive : tcp_follows.

Lemma follows_send_packet i flags data n : follows (tcp_send_packet send i flags data n).
Proof. unfold tcp_send_packet, get_sock. follow. Qed.

(** An update of one socket followed by code that follows the transitions. *)
Lemma socks_alter i (f : tcp_socket_t -> tcp_socket_t) l l' :
  socks_steps (alter f i l) l' ->
  (forall k k', l !! i = Some k -> tcp_steps (f k) k' -> tcp_steps k k') -> socks_steps l l'.
Proof.
  intros HA Hf. unfold socks_steps in *. apply Forall2_same_length_lookup in HA as [Hl HA].
  rewrite length_alter in Hl. apply Forall2_same_length_lookup. split; [done|].
  intros j k k' Hk Hk'. destruct (decide (i = j)) as [<-|Hne].
  - apply Hf; [done|]. apply (HA i); [|done]. by rewrite list_lookup_alter_eq, Hk.
  - apply (HA j); [|done]. by rewrite list_lookup_alter_ne.
Qed.

Lemma socks_alter2 i (f g : tcp_socket_t -> tcp_socket_t) l l' :
  socks_steps (alter g i (alter f i l)) l' ->
  (forall k k', l !! i = Some k -> tcp_steps (g (f k)) k' -> tcp_steps k k') -> socks_steps l l'.
Proof.
  intros HA Hf. apply (socks_alter i (g ∘ f)); [|done]. 
  assert (forall l, alter (g ∘ f) i l = alter g i (alter f i l)) as ->; [|done].
  clear. intros l. revert i. induction l as [|x l IH]; intros [|i]; simpl; [done..|]. f_equal. apply IH.
Qed.

Lemma lift_inv {A} (m : outcome A) s a s' : lift (H := H) m s = Done (a, s') -> s' = s /\ m = Done a.
Proof. unfold lift. destruct m; simpl; [|done..]. by intros [= <- <-]. Qed.

Lemma upd_inv i f s a s' : upd_sock (H := H) i f s = Done (a, s') ->
  s'.(tcp_sockets) = alter f i s.(tcp_sockets).
Proof. unfold upd_sock, modify. by intros [= _ <-]. Qed.

Lemma get_sock_inv i s k s' : get_sock (H := H) i s = Done (k, s') ->
  s' = s /\ s.(tcp_sockets) !! i = Some k.
Proof.
  unfold get_sock, mbind, N_bind, gets, lift, aget. simpl. rewrite Nat2Z.id.
  destruct (Z.ltb_spec (Z.of_nat i) 0); [lia|]. destruct (tcp_sockets s !! i); simpl; [|done].
  intros [= <- <-]. done.
Qed.

(** The tail of the FIN branch: between the acknowledgement and the last
    update the socket is in CLOSE_WAIT, which no nested packet touches. *)
Lemma fin_socks i l l1 l2 k src g : l !! i = Some k -> k.(state) = TCP_STATE_ESTABLISHED -> addressed src g k -> fin g = true ->
  socks_steps (alter (set_state TCP_STATE_CLOSE_WAIT) i (alter (set_ack_num (u32 (g.(sg_seq) + 1))) i l)) l1 ->
  l2 = alter (set_state TCP_STATE_LAST_ACK) i (alter (fun k => set_seq_num (u32 (k.(seq_num) + 1)) k) i l1) ->
  socks_steps l l2.
Proof.
  intros Hk Hst Had Hfin HA ->. apply Forall2_same_length_lookup in HA as [Hl HA]. rewrite !length_alter in Hl.
  apply Forall2_same_length_lookup. rewrite !length_alter. split; [done|].
  intros j x x' Hx Hx'. destruct (decide (i = j)) as [<-|Hne].
  - rewrite !list_lookup_alter_eq in Hx'. destruct (l1 !! i) as [y|] eqn:Ey; [|done].
    simpl in Hx'. injection Hx' as <-. assert (x = k) as -> by congruence.
    assert (y = set_state TCP_STATE_CLOSE_WAIT (set_ack_num (u32 (g.(sg_seq) + 1)) k)) as ->.
    { apply inert_stays; [done|]. apply (HA i); [|done]. by rewrite !list_lookup_alter_eq, Hk. }
    apply rtc_once. exists src, g. split; [done|]. unfold react. by rewrite Hst, Hfin.
  - rewrite !list_lookup_alter_ne in Hx' by done. apply (HA j); [|done]. by rewrite !list_lookup_alter_ne.
Qed.

(** The flags the code tests are bits of the segment's flags byte. *)
Lemma flag_bits g : c_true (Z.land g.(sg_flags) TCP_FIN) = fin g /\ c_true (Z.land g.(sg_flags) TCP_SYN) = syn g /\
  c_true (Z.land g.(sg_flags) TCP_ACK) = ack g.
Proof.
  unfold fin, syn, ack, TCP_FIN, TCP_SYN, TCP_ACK. rewrite <- !c_true_land_pow2 by lia. done.
Qed.

Lemma tcp_match_addressed src g k : tcp_match src g.(sg_sport) g.(sg_dport) k = true <-> addressed src g k.
Proof.
  unfold tcp_match, addressed, c_true. rewrite !andb_true_iff, !Z.eqb_eq, negb_true_iff, Z.eqb_neq. tauto.
Qed.

Lemma step_react src g k k' : addressed src g k -> tcp_steps (react g k).1.1 k' -> tcp_steps k k'.
Proof. intros Ha Hs. eapply rtc_l; [|exact Hs]. by exists src, g. Qed.

Lemma tcp_receive_follows src data n : follows (tcp_receive send src data n).
Proof.
  unfold tcp_receive. pose proof follows_send_packet as HP.
  destruct (n <? _); [apply follows_skip|].
  apply follows_bind; [apply follows_lift|]; intros sp. apply follows_bind; [apply follows_lift|]; intros dp.
  apply follows_bind; [apply follows_lift|]; intros sq. apply follows_bind; [apply follows_lift|]; intros flags.
  cbv zeta. intros s u s' (l & s0 & [= <- <-] & E)%bind_inv.
  set (seg := mk_segment (net_htons sp) (net_htons dp) (net_htonl sq) 0 flags).
  destruct (find_index _ _) as [i|] eqn:Ef; [|by apply (follows_skip s u s')].
  apply find_first_Some in Ef as (l1 & k0 & l2 & El & Hi & Hm & _).
  assert (s.(tcp_sockets) !! i = Some k0) as Hk0 by (rewrite El, <- Hi; by apply list_lookup_middle).
  assert (forall p, addressed src (seg p) k0) as Had by (intros p; by apply tcp_match_addressed).
  apply bind_inv in E as (k & s0 & [-> Hk]%get_sock_inv & E). assert (k0 = k) as -> by congruence. clear El Hk0 l1 l2 Hi Hm.
  destruct (flag_bits (seg [])) as (Ff & Fs & Fa). cbn [sg_flags seg] in Ff, Fs, Fa. rewrite Ff, Fs, Fa in E. unfold seg in Ff, Fs, Fa.
  destruct (Z.eqb_spec k.(state) TCP_STATE_SYN_SENT) as [Est|_].
  { destruct (_ && _) eqn:Efl; [|by apply (follows_skip s u s')].
    apply bind_inv in E as (? & s1 & E1%upd_inv & E). apply bind_inv in E as (? & s2 & E2%upd_inv & E).
    apply (follows_bind _ _ (HP _ _ _ _) (fun _ => follows_skip)) in E. rewrite E2, E1 in E.
    apply (socks_alter2 _ _ _ _ _ E). intros k1 k' Hk1 Hs. assert (k1 = k) as -> by congruence.
    apply (step_react src (seg [])); [done|]. unfold react. by rewrite Est, Efl. }
  destruct (Z.eqb_spec k.(state) TCP_STATE_ESTABLISHED) as [Est|_].
  { destruct (fin (seg [])) eqn:Efin.
    { apply bind_inv in E as (? & s1 & E1%upd_inv & E). apply bind_inv in E as (? & s2 & E2%upd_inv & E).
      apply bind_inv in E as (? & s3 & E3%HP & E). apply bind_inv in E as (? & s4 & E4%HP & E).
      apply bind_inv in E as (? & s5 & E5%upd_inv & E6%upd_inv).
      eapply (fin_socks i _ s4.(tcp_sockets) _ k src (seg [])); [done|done|done|done| |by rewrite E6, E5].
      cbn [sg_seq seg]. rewrite <- E1, <- E2. by etrans. }
    destruct (ack (seg [])) eqn:Eack; [|by apply (follows_skip s u s')].
    apply bind_inv in E as (off & s0 & E0 & E). apply lift_inv in E0 as [-> _]. cbv zeta in E.
    set (dl := u16 _) in E. destruct (Z.ltb_spec 0 dl) as [Hdl|]; [|by apply (follows_skip s u s')].
    apply bind_inv in E as (h & s0 & [= _ <-] & E).
    apply bind_inv in E as (h' & s0 & E0 & E). apply lift_inv in E0 as [-> _].
    apply bind_inv in E as (? & s1 & [= _ <-] & E).
    apply bind_inv in E as (? & s2 & E2%upd_inv & E).
    apply (follows_bind _ _ (HP _ _ _ _) (fun _ => follows_skip)) in E. rewrite E2 in E.
    apply (socks_alter _ _ _ _ E). intros k1 k' Hk1 Hs. simpl in Hk1. assert (k1 = k) as -> by congruence.
    assert (zlen (replicate (Z.to_nat dl) 0) = dl) as Hz by (unfold zlen; rewrite length_replicate; lia).
    apply (step_react src (seg (replicate (Z.to_nat dl) 0))); [done|]. unfold react. rewrite Est.
    change (fin (seg (replicate (Z.to_nat dl) 0))) with (fin (seg [])).
    change (ack (seg (replicate (Z.to_nat dl) 0))) with (ack (seg [])). rewrite Efin, Eack. cbn [sg_payload seg]. rewrite Hz.
    by rewrite (proj2 (Z.ltb_lt 0 dl) Hdl). }
  destruct (Z.eqb_spec k.(state) TCP_STATE_LAST_ACK) as [Est|_]; [|by apply (follows_skip s u s')].
  destruct (ack (seg [])) eqn:Eack; [|by apply (follows_skip s u s')].
  apply upd_inv in E. apply (socks_alter i (set_state TCP_STATE_CLOSED)); [by rewrite E|].
  intros k1 k' Hk1 Hs. assert (k1 = k) as -> by congruence.
  apply (step_react src (seg [])); [done|]. unfold react. by rewrite Est, Eack.
Qed.
#[local] Hint Resolve tcp_receive_follows : tcp_follows.

Lemma icmp_receive_follows src p n : follows (icmp_receive send src p n).
Proof. unfold icmp_receive. follow. Qed.
#[local] Hint Resolve icmp_receive_follows : tcp_follows.

Lemma net_receive_follows p n : follows (net_receive_packet spin send p n).
Proof. unfold net_receive_packet. follow. Qed.
#[local] Hint Resolve net_receive_follows : tcp_follows.

Lemma lookup_follows ip : follows (arp_cache_lookup (H := H) ip).
Proof. unfold arp_cache_lookup. follow. Qed.
#[local] Hint Resolve lookup_follows : tcp_follows.

Lemma arp_resolve_follows ip : follows (arp_resolve spin irq ip).
Proof.
  unfold arp_resolve, arp_send_request. follow. apply follows_for_ret. follow.
  apply follows_for_ret. unfold arp_poll. follow.
Qed.
#[local] Hint Resolve arp_resolve_follows : tcp_follows.

Lemma send_ipv4_follows d pr p n : follows (net_send_ipv4 spin send irq d pr p n).
Proof. unfold net_send_ipv4, loopback. follow. Qed.

Lemma rx_loop_follows fuel idx : follows (rx_loop spin send fuel idx).
Proof.
  revert idx. induction fuel as [|fuel IH]; intros idx; cbn [rx_loop];
    unfold card_progress, rx_desc, clear_rx; follow; apply IH.
Qed.
#[local] Hint Resolve rx_loop_follows : tcp_follows.

Lemma handler_follows : follows (e1000_interrupt_handler spin send).
Proof. unfold e1000_interrupt_handler, e1000_read_reg, e1000_write_reg. follow. Qed.
End Knot.

Lemma stack_follows depth :
  (forall d pr p n, follows (send_ipv4 (H := H) spin depth d pr p n)) /\ follows (poll (H := H) spin depth).
Proof.
  induction depth as [|depth [IH1 IH2]]; [by split|]. split.
  - intros. by apply send_ipv4_follows.
  - by apply handler_follows.
Qed.

(** Packets move sockets only by [react]. However deep the processing nests (an
    answer that polls for an ARP reply, a packet to the own address), after a
    poll every socket has reacted to a sequence of segments addressed to it; its
    addresses, ports and owner are the same, and a socket in any state but
    SYN_SENT, ESTABLISHED and LAST_ACK has not changed at all. *)
Theorem tcp_packets_legal depth s s' : poll spin depth s = Done ((), s') ->
  forall i k, s.(tcp_sockets) !! i = Some k -> exists k', s'.(tcp_sockets) !! i = Some k' /\
    tcp_steps k k' /\ owned k' = owned k /\ (inert k.(state) -> k' = k).
Proof.
  intros E i k Hk. destruct (stack_follows depth) as [_ HP]. apply HP in E.
  destruct (Forall2_lookup_l _ _ _ _ _ E Hk) as (k' & Hk' & Hs).
  exists k'. split; [done|]. split; [done|]. split; [by apply steps_owned|]. intros Hi. by apply inert_stays.
Qed.
End Stack.

(** ** One segment, exactly *)

(** *** What is handed to the IPv4 layer

    The card's state is the list of packets [tcp_receive] passes to
    [net_send_ipv4]: destination, protocol and bytes. *)
Definition sent_packet : Type := Z * Z * list Z.
Definition log_send (dst proto : Z) (b : list Z) (n : Z) : N (list sent_packet) Z := fun s =>
  Done (0, set_hw (s.(hw) ++ [(dst, proto, take (Z.to_nat n) b)]) s).
Definition sent_segment (p : sent_packet) : Z * Z * segment := (p.1.1, p.1.2, parse_segment p.2).

(** The C types of the fields. *)
Definition sock_ok (k : tcp_socket_t) : Prop :=
  0 <= k.(local_port) < 65536 /\ 0 <= k.(remote_port) < 65536 /\ is_u32 k.(seq_num) /\ is_u32 k.(ack_num).

Lemma parse_tcp_header k flags c : sock_ok k -> parse_segment (tcp_header k flags c) = reply k flags.
Proof.
  intros (H1 & H2 & H3 & H4). unfold reply. rewrite <- (be_htons _ H1), <- (be_htons _ H2), <- (be_htonl _ H3), <- (be_htonl _ H4).
  reflexivity.
Qed.

Lemma csum_words_range bs : forall sum, 0 <= sum < 2 ^ 32 -> 0 <= csum_words bs sum < 2 ^ 32.
Proof.
  induction bs as [|b|a b l IH] using pair_ind; intros sum Hs; cbn [csum_words]; [done|apply wrap_range; lia|].
  apply IH, wrap_range. lia.
Qed.

Lemma wp_send_segment i flags k s Q : s.(tcp_sockets) !! i = Some k -> sock_ok k ->
  (forall b, parse_segment b = reply k flags -> Q 0 (set_hw (s.(hw) ++ [(k.(remote_ip), IP_PROTO_TCP, b)]) s)) ->
  wp (tcp_send_packet log_send i flags [] 0) Q s.
Proof.
  intros Hk Hok HQ. unfold tcp_send_packet, get_sock. change (u16 (sizeof_tcp + 0)) with 20. wp_steps.
  eapply wp_lift; [apply aget_lookup; [lia|by rewrite Nat2Z.id]|]. wp_steps.
  eapply wp_lift.
  { change 20 with (zlen (tcp_header k flags 0) + 0). apply store_fresh. lia. }
  rewrite app_nil_r. change (0 <? 0) with false. wp_steps. eapply wp_lift; [done|]. wp_steps.
  unfold tcp_calculate_checksum. set (sum := u32 _).
  destruct (csum_fold_spec (csum_words (take 20 (tcp_header k flags 0)) sum)) as (r & Er & _).
  { apply csum_words_range, wrap_range. lia. }
  eapply wp_lift.
  { rewrite load_bytes_done by (lia || done). cbn [obind]. change (Z.to_nat 20) with 20%nat. change (Z.to_nat 0) with 0%nat.
    rewrite drop_0, Er. cbn [obind]. reflexivity. }
  wp_steps. set (c := u16 _). eapply wp_lift.
  { set (pre := le_bytes 2 (net_htons k.(local_port)) ++ le_bytes 2 (net_htons k.(remote_port)) ++
      le_bytes 4 (net_htonl k.(seq_num)) ++ le_bytes 4 (net_htonl k.(ack_num)) ++ [80; flags] ++ le_bytes 2 (net_htons 8192)).
    change (tcp_header k flags 0) with (pre ++ le_bytes 2 0 ++ le_bytes 2 0). change 16 with (zlen pre).
    by apply (store_mid pre (le_bytes 2 c) (le_bytes 2 0) (le_bytes 2 0)). }
  cbv beta. eexists _, _. split; [reflexivity|]. apply HQ. by apply (parse_tcp_header k flags c).
Qed.

(** *** The handler *)
Section Handler.
Context (src : Z) (data slack : list Z).
Hypothesis Hbytes : Forall is_byte (data ++ slack).
Hypothesis Hlen : 20 <= zlen data < 65536.
Hypothesis Hoff : get data 12 / 16 * 4 <= zlen data.
Implicit Types (s : net (list sent_packet)).
Let g := parse_segment data.

Lemma field_slack off n : (off + n <= 20)%nat -> field (data ++ slack) off n = field data off n.
Proof.
  intros H. unfold field. f_equal. unfold zlen in Hlen. rewrite drop_app_le, take_app_le; [done| |lia].
  rewrite length_drop. lia.
Qed.

Lemma get_slack off : (off < 20)%nat -> get (data ++ slack) off = get data off.
Proof. intros H. apply get_app_l. unfold zlen in Hlen. lia. Qed.

Lemma payload_slack : let off := get data 12 in
  zlen g.(sg_payload) = u16 (zlen data - u16 (Z.shiftr off 4 * 4)) /\
  drop (Z.to_nat (u16 (Z.shiftr off 4 * 4))) (data ++ slack) = g.(sg_payload) ++ slack.
Proof.
  cbv zeta. rewrite Z.shiftr_div_pow2 by lia. change (2 ^ 4) with 16.
  assert (is_byte (get data 12)) as [Ho1 Ho2].
  { apply Forall_app in Hbytes as [Hd _]. apply Forall_get; [done|]. unfold zlen in Hlen. lia. }
  pose proof (Z.div_pos (get data 12) 16 Ho1 ltac:(lia)).
  rewrite (wrap_small 16 (get data 12 / 16 * 4)) by lia. rewrite wrap_small by lia. unfold g, parse_segment. cbn [sg_payload].
  unfold zlen in *. split; [rewrite length_drop; lia|]. rewrite drop_app_le by lia. done.
Qed.

(** The result of the handler in terms of [react], for the socket in slot [i]. *)
Definition handled s (i : nat) (k : tcp_socket_t) s' : Prop :=
  let '(k', answers, delivered) := react g k in
  s'.(tcp_sockets) = <[i := k']> s.(tcp_sockets) /\
  (exists out, s'.(hw) = s.(hw) ++ out /\ sent_segment <$> out = (fun a => (k.(remote_ip), IP_PROTO_TCP, a)) <$> answers) /\
  http_ok s'.(http) /\
  collected s'.(http) = take (Z.to_nat HTTP_RESPONSE_MAX) (collected s.(http) ++ delivered).

Lemma collected_short h : http_ok h -> (length (collected h) <= Z.to_nat HTTP_RESPONSE_MAX)%nat.
Proof. intros [H1 H2]. unfold collected, HTTP_RESPONSE_MAX. rewrite length_take. lia. Qed.

Lemma handled_nothing s i k : s.(tcp_sockets) !! i = Some k -> http_ok s.(http) -> react g k = (k, [], []) -> handled s i k s.
Proof.
  intros Hk Hh E. unfold handled. rewrite E. split_and!; [by rewrite list_insert_id|by exists []; rewrite app_nil_r|done|].
  rewrite app_nil_r, take_ge; [done|]. by apply collected_short.
Qed.

Lemma alter_insert (f : tcp_socket_t -> tcp_socket_t) i (l : list tcp_socket_t) k : l !! i = Some k -> alter f i l = <[i := f k]> l.
Proof.
  intros Hk. apply list_eq. intros j. destruct (decide (i = j)) as [<-|Hne].
  - rewrite list_lookup_alter_eq, Hk, list_lookup_insert_eq; [done|]. by eapply lookup_lt_Some.
  - by rewrite list_lookup_alter_ne, list_lookup_insert_ne.
Qed.

(** The branch for the socket found; each update of the socket is an insertion in its slot. *)
Definition branch (i : nat) (k : tcp_socket_t) : N (list sent_packet) unit :=
  if k.(state) =? TCP_STATE_SYN_SENT then
    if syn g && ack g then
      upd_sock i (set_ack_num (u32 (g.(sg_seq) + 1))) ;;
      upd_sock i (set_state TCP_STATE_ESTABLISHED) ;;
      tcp_send_packet log_send i TCP_ACK [] 0 ;;
      skip
    else skip
  else if k.(state) =? TCP_STATE_ESTABLISHED then
    if fin g then
      upd_sock i (set_ack_num (u32 (g.(sg_seq) + 1))) ;;
      upd_sock i (set_state TCP_STATE_CLOSE_WAIT) ;;
      tcp_send_packet log_send i TCP_ACK [] 0 ;;
      tcp_send_packet log_send i (Z.lor TCP_FIN TCP_ACK) [] 0 ;;
      upd_sock i (fun k => set_seq_num (u32 (k.(seq_num) + 1)) k) ;;
      upd_sock i (set_state TCP_STATE_LAST_ACK)
    else if ack g then
      off ← lift (ld8 (data ++ slack) 12);
      let header_len := u16 (Z.shiftr off 4 * 4) in
      let data_len := u16 (zlen data - header_len) in
      if 0 <? data_len then
        h ← gets http;
        h' ← lift (http_tcp_data_received (drop (Z.to_nat header_len) (data ++ slack)) data_len h);
        modify (set_http h') ;;
        upd_sock i (set_ack_num (u32 (g.(sg_seq) + data_len))) ;;
        tcp_send_packet log_send i TCP_ACK [] 0 ;;
        skip
      else skip
    else skip
  else if k.(state) =? TCP_STATE_LAST_ACK then
    if ack g then upd_sock i (set_state TCP_STATE_CLOSED) else skip
  else skip.

Lemma sock_ok_ack k v : sock_ok k -> sock_ok (set_ack_num (u32 v) k).
Proof. intros (H1 & H2 & H3 & H4). refine (conj H1 (conj H2 (conj H3 _))). apply wrap_range. lia. Qed.

Lemma branch_syn_sent s i k : s.(tcp_sockets) !! i = Some k -> sock_ok k -> http_ok s.(http) ->
  k.(state) = TCP_STATE_SYN_SENT -> wp (branch i k) (fun _ s' => handled s i k s') s.
Proof.
  intros Hk Hok Hh Hst. unfold branch. rewrite Hst, Z.eqb_refl. destruct (syn g && ack g) eqn:Ef.
  - unfold upd_sock. wp_steps. cbn [tcp_sockets set_tcp_sockets].
    rewrite (alter_insert _ _ _ _ Hk), (alter_insert _ i _ (set_ack_num (u32 (g.(sg_seq) + 1)) k)), list_insert_insert_eq
      by (apply list_lookup_insert_eq; by eapply lookup_lt_Some).
    eapply wp_send_segment; [cbn; apply list_lookup_insert_eq; by eapply lookup_lt_Some|exact (sock_ok_ack k _ Hok)|].
    intros b Hb. wp_steps. unfold handled, react. rewrite Hst, Z.eqb_refl, Ef. cbn. split_and!; [done| |done|].
    + eexists. split; [done|]. cbn. unfold sent_segment. cbn. by rewrite Hb.
    + rewrite app_nil_r, take_ge; [done|]. by apply collected_short.
  - wp_steps. apply handled_nothing; [done|done|]. unfold react. by rewrite Hst, Z.eqb_refl, Ef.
Qed.

Lemma branch_fin s i k : s.(tcp_sockets) !! i = Some k -> sock_ok k -> http_ok s.(http) ->
  k.(state) = TCP_STATE_ESTABLISHED -> fin g = true -> wp (branch i k) (fun _ s' => handled s i k s') s.
Proof.
  intros Hk Hok Hh Hst Ef. unfold branch. rewrite Hst, Ef. change (TCP_STATE_ESTABLISHED =? TCP_STATE_SYN_SENT) with false.
  rewrite Z.eqb_refl. pose proof (lookup_lt_Some _ _ _ Hk) as Hi.
  unfold upd_sock. wp_steps. cbn [tcp_sockets set_tcp_sockets].
  rewrite (alter_insert _ _ _ _ Hk), (alter_insert _ i _ (set_ack_num (u32 (g.(sg_seq) + 1)) k)), list_insert_insert_eq
    by by apply list_lookup_insert_eq.
  eapply wp_send_segment; [cbn; by apply list_lookup_insert_eq|exact (sock_ok_ack k _ Hok)|].
  intros b Hb. wp_steps.
  eapply wp_send_segment; [cbn; by apply list_lookup_insert_eq|exact (sock_ok_ack k _ Hok)|].
  intros b2 Hb2. wp_steps. cbn [tcp_sockets set_tcp_sockets set_hw].
  rewrite (alter_insert (fun k => set_seq_num (u32 (k.(seq_num) + 1)) k) i _
    (set_state TCP_STATE_CLOSE_WAIT (set_ack_num (u32 (g.(sg_seq) + 1)) k))), list_insert_insert_eq by by apply list_lookup_insert_eq.
  erewrite alter_insert, list_insert_insert_eq by by apply list_lookup_insert_eq.
  unfold handled, react. rewrite Hst, Ef. cbn. split_and!; [done| |done|].
  - eexists. split; [by rewrite <- app_assoc|]. cbn. unfold sent_segment. cbn. by rewrite Hb, Hb2.
  - rewrite app_nil_r, take_ge; [done|]. by apply collected_short.
Qed.

Lemma branch_data s i k : s.(tcp_sockets) !! i = Some k -> sock_ok k -> http_ok s.(http) ->
  k.(state) = TCP_STATE_ESTABLISHED -> fin g = false -> wp (branch i k) (fun _ s' => handled s i k s') s.
Proof.
  intros Hk Hok Hh Hst Ef. unfold branch. rewrite Hst, Ef. change (TCP_STATE_ESTABLISHED =? TCP_STATE_SYN_SENT) with false.
  rewrite Z.eqb_refl. pose proof (lookup_lt_Some _ _ _ Hk) as Hi.
  destruct (ack g) eqn:Ea.
  2: { wp_steps. apply handled_nothing; [done|done|]. unfold react. by rewrite Hst, Ef, Ea. }
  wp_steps. pose proof (zlen_pos slack). eapply wp_lift; [apply ld8_done; rewrite zlen_app; lia|].
  rewrite get_slack by (change (Z.to_nat 12) with 12%nat; lia). change (Z.to_nat 12) with 12%nat.
  destruct payload_slack as [Ez Ed]. cbv zeta in Ez, Ed |- *. rewrite Ed, <- Ez. clear Ed Ez.
  destruct (Z.ltb_spec 0 (zlen g.(sg_payload))) as [Hp|Hp].
  2: { wp_steps. apply handled_nothing; [done|done|]. unfold react. rewrite Hst, Ef, Ea. by rewrite (proj2 (Z.ltb_ge _ _) Hp). }
  wp_steps. destruct (http_received_bounded (g.(sg_payload) ++ slack) (zlen g.(sg_payload)) s.(http) Hh) as (h' & Eh & Hh' & Hc).
  { rewrite zlen_app. lia. }
  eapply wp_lift; [exact Eh|]. unfold upd_sock. wp_steps. cbn [tcp_sockets set_tcp_sockets set_http].
  rewrite (alter_insert _ _ _ _ Hk).
  eapply wp_send_segment; [cbn; by apply list_lookup_insert_eq|exact (sock_ok_ack k _ Hok)|].
  intros b Hb. wp_steps. unfold handled, react. rewrite Hst, Ef, Ea. rewrite (proj2 (Z.ltb_lt _ _) Hp). cbn -[g].
  split_and!; [done| |done|].
  - eexists. split; [done|]. cbn -[g]. unfold sent_segment. cbn -[g]. by rewrite Hb.
  - rewrite Hc. destruct Hh as [Hb1 Hb2].
    assert (length (collected (http s)) = Z.to_nat (http_response_len (http s))) as Hl.
    { unfold collected. rewrite length_take. unfold zlen in Hb1. lia. }
    rewrite (take_app (collected (http s))), (take_ge (collected _)) by (rewrite Hl; unfold HTTP_RESPONSE_MAX; lia). f_equal. rewrite Hl.
    set (p := sg_payload g) in *. unfold zlen, HTTP_RESPONSE_MAX in *.
    destruct (Z.le_gt_cases (Z.of_nat (length p)) (16384 - http_response_len (http s))) as [Hle|Hgt].
    + rewrite Z.min_l, Nat2Z.id by done. rewrite take_app_length. symmetry. apply take_ge. lia.
    + rewrite Z.min_r by lia. rewrite take_app_le by lia. f_equal. lia.
Qed.

Lemma branch_handled s i k : s.(tcp_sockets) !! i = Some k -> sock_ok k -> http_ok s.(http) ->
  wp (branch i k) (fun _ s' => handled s i k s') s.
Proof.
  intros Hk Hok Hh. destruct (Z.eq_dec k.(state) TCP_STATE_SYN_SENT) as [E1|E1]; [by apply branch_syn_sent|].
  destruct (Z.eq_dec k.(state) TCP_STATE_ESTABLISHED) as [E2|E2].
  { destruct (fin g) eqn:Ef; [by apply branch_fin|by apply branch_data]. }
  unfold branch. rewrite (proj2 (Z.eqb_neq _ _) E1), (proj2 (Z.eqb_neq _ _) E2).
  destruct (Z.eqb_spec k.(state) TCP_STATE_LAST_ACK) as [E3|E3]; [destruct (ack g) eqn:Ea|].
  - unfold upd_sock. wp_steps. unfold handled, react.
    rewrite (proj2 (Z.eqb_neq _ _) E1), (proj2 (Z.eqb_neq _ _) E2), E3, Z.eqb_refl, Ea. cbn. split_and!; [|by exists []; rewrite app_nil_r|done|].
    + by apply alter_insert.
    + rewrite app_nil_r, take_ge; [done|]. by apply collected_short.
  - wp_steps. apply handled_nothing; [done|done|]. unfold react.
    by rewrite (proj2 (Z.eqb_neq _ _) E1), (proj2 (Z.eqb_neq _ _) E2), E3, Z.eqb_refl, Ea.
  - wp_steps. apply handled_nothing; [done|done|]. by apply react_inert.
Qed.

Lemma receive_branch s : tcp_receive log_send src (data ++ slack) (zlen data) s =
  match find_index (tcp_match src g.(sg_sport) g.(sg_dport)) s.(tcp_sockets) with
  | None => Done ((), s)
  | Some i => (get_sock i ≫= branch i) s
  end.
Proof.
  pose proof (zlen_pos slack). unfold tcp_receive, sizeof_tcp. destruct (Z.ltb_spec (zlen data) 20); [lia|].
  destruct (ld16_field (data ++ slack) 0) as (sp & Esp & Fsp); [done|rewrite zlen_app; lia|].
  destruct (ld16_field (data ++ slack) 2) as (dp & Edp & Fdp); [done|rewrite zlen_app; lia|].
  destruct (ld32_field (data ++ slack) 4) as (sq & Esq & Fsq); [done|rewrite zlen_app; lia|].
  rewrite (bind_lift _ _ _ _ Esp), (bind_lift _ _ _ _ Edp), (bind_lift _ _ _ _ Esq).
  rewrite (bind_lift _ _ _ _ (ld8_done (data ++ slack) 13 ltac:(rewrite zlen_app; lia))). cbv zeta. rewrite bind_gets.
  rewrite Fsp, Fdp, Fsq, !field_slack by lia. rewrite get_slack by (change (Z.to_nat 13) with 13%nat; lia).
  change (Z.to_nat 13) with 13%nat. destruct (flag_bits g) as (F1 & F2 & F3). cbn [g parse_segment sg_flags] in F1, F2, F3.
  rewrite F1, F2, F3. unfold g at 1 2, parse_segment at 1 2. cbn [sg_sport sg_dport]. by destruct (find_index _ _).
Qed.
End Handler.


End NetTcp.
