(* ===== verification/E1000.v ===== *)
(** * PCI configuration space and the set-up of the network card

    PCI.h, the initialisation half of E1000.c and the start of the stack
    ([net_init] of net.c). Port I/O on the PCI ports and the registers of the
    card are parameters; the addresses [kmalloc] returns for the rings and
    buffers are an argument, since the driver only passes them to the card.
    Reading the EEPROM busy-waits, so it has fuel. *)
From Stdlib Require Import ZArith Lia.
From stdpp Require Import base numbers list.
From S2P Require Import Prelude NetPkt Net NetClients.

Module Pci.
Local Open Scope Z_scope.

(** 32-bit port I/O. *)
Class PciPorts (P : Type) := {
  outl : Z -> Z -> P -> P;
  inl : Z -> P -> Z * P
}.

Definition PCI_CONFIG_ADDRESS : Z := 3320.
Definition PCI_CONFIG_DATA : Z := 3324.

Section Pci.
Context {P : Type} {IO : PciPorts P}.

(** The address register for an offset. *)
Definition pci_address (bus device function offset : Z) : Z :=
  Z.lor (Z.lor (Z.lor (Z.lor (Z.shiftl 1 31) (Z.shiftl bus 16)) (Z.shiftl device 11)) (Z.shiftl function 8))
        (Z.land offset 252).

Definition pci_read_dword (bus device function offset : Z) (p : P) : Z * P :=
  inl PCI_CONFIG_DATA (outl PCI_CONFIG_ADDRESS (pci_address bus device function offset) p).

Definition pci_read_word (bus device function offset : Z) (p : P) : Z * P :=
  let '(dword, p) := pci_read_dword bus device function (Z.land offset 252) p in
  (Z.land (Z.shiftr dword (Z.land offset 2 * 8)) 65535, p).

Definition pci_read_byte (bus device function offset : Z) (p : P) : Z * P :=
  let '(dword, p) := pci_read_dword bus device function (Z.land offset 252) p in
  (Z.land (Z.shiftr dword (Z.land offset 3 * 8)) 255, p).

(** The second instruction is an [inl] into [value], not an [outl] of it. *)
Definition pci_write_dword (bus device function offset value : Z) (p : P) : P :=
  let p := outl PCI_CONFIG_ADDRESS (pci_address bus device function offset) p in
  let '(value, p) := inl PCI_CONFIG_DATA p in p.

Definition pci_write_word (bus device function offset value : Z) (p : P) : P :=
  let '(dword, p) := pci_read_dword bus device function (Z.land offset 252) p in
  let shift := Z.land offset 2 * 8 in
  let dword := Z.lor (Z.land dword (u32 (Z.lnot (Z.shiftl 65535 shift)))) (u32 (Z.shiftl value shift)) in
  pci_write_dword bus device function (Z.land offset 252) dword p.
End Pci.

(** ** Configuration space *)

(** The configuration mechanism: the address register selects a word of the
    configuration space, which the data port reads and writes. *)
Record pci_space := mk_space { selected : Z; config : Z -> Z; written : list (Z * Z) }.
#[export] Instance space_ports : PciPorts pci_space := {
  outl port v s :=
    if port =? PCI_CONFIG_ADDRESS then mk_space v s.(config) s.(written)
    else mk_space s.(selected)
           (fun a => if (port =? PCI_CONFIG_DATA) && (a =? s.(selected)) then v else s.(config) a)
           ((port, v) :: s.(written));
  inl port s := (if port =? PCI_CONFIG_DATA then s.(config) s.(selected) else s.(selected), s)
}.

(** writing to PCI configuration space has no effect: [pci_write_dword] and
    [pci_write_word] read the data port instead of writing it, so the
    configuration space is what it was and the value is not used. The network
    card's bus mastering is never enabled by the driver. *)
Theorem pci_write_no_effect bus device function offset value s :
  (pci_write_word bus device function offset value s).(config) = s.(config) /\
  (pci_write_word bus device function offset value s).(written) = s.(written) /\
  (pci_write_dword bus device function offset value s).(config) = s.(config).
Proof. done. Qed.
End Pci.

Module E1000Init.
Import Pkt Net Clients Pci.
Local Open Scope Z_scope.
Local Open Scope outcome_scope.

Definition REG_CTRL : Z := 0.
Definition REG_STATUS : Z := 8.
Definition REG_EERD : Z := 20.
Definition REG_IMS : Z := 208.
Definition REG_RCTL : Z := 256.
Definition REG_TCTL : Z := 1024.
Definition REG_RDBAL : Z := 10240.
Definition REG_RDBAH : Z := 10244.
Definition REG_RDLEN : Z := 10248.
Definition REG_RDH : Z := 10256.
Definition REG_TDBAL : Z := 14336.
Definition REG_TDBAH : Z := 14340.
Definition REG_TDLEN : Z := 14344.
Definition REG_TDH : Z := 14352.
Definition REG_RAL : Z := 21504.
Definition REG_RAH : Z := 21508.

Section Init.
Context {H : Type} {NIC : Nic H} {P : Type} {IO : PciPorts P}.

(** The search over the buses: the first bus and device with the card's ids.
    [slots] are the pairs still to be tried, in the order of the two loops. *)
Fixpoint e1000_find (slots : list (Z * Z)) (p : P) : option (Z * Z) * P :=
  match slots with
  | [] => (None, p)
  | (bus, dev) :: slots =>
    let '(vendor, p) := pci_read_word bus dev 0 0 p in
    let '(device, p) := pci_read_word bus dev 0 2 p in
    if (vendor =? 32902) && (device =? 4110) then (Some (bus, dev), p) else e1000_find slots p
  end.

Definition all_slots : list (Z * Z) :=
  flat_map (fun bus => map (fun dev => (Z.of_nat bus, Z.of_nat dev)) (seq 0 32)) (seq 0 256).

(** The part of [e1000_init] on the PCI bus: the base address of the registers. *)
Definition e1000_probe (p : P) : option Z * P :=
  match e1000_find all_slots p with
  | (None, p) => (None, p)
  | (Some (bus, dev), p) =>
    let '(bar0, p) := pci_read_dword bus dev 0 16 p in
    let '(cmd, p) := pci_read_word bus dev 0 4 p in
    let p := pci_write_word bus dev 0 4 (Z.lor cmd 7) p in
    (Some (Z.land bar0 (u32 (Z.lnot 15))), p)
  end.

(** [while (!((tmp = e1000_read_reg(REG_EERD)) & (1 << 4)));] *)
Fixpoint eeprom_wait (fuel : nat) : N H Z :=
  tmp ← e1000_read_reg REG_EERD;
  if c_true (Z.land tmp 16) then mret tmp
  else match fuel with O => lift OutOfFuel | S fuel => eeprom_wait fuel end.

Definition e1000_read_eeprom (fuel : nat) (addr : Z) : N H Z :=
  e1000_write_reg REG_EERD (Z.lor 1 (Z.shiftl addr 8)) ;;
  tmp ← eeprom_wait fuel;
  mret (Z.land (Z.shiftr tmp 16) 65535).

(** The six bytes of the three EEPROM words. *)
Definition mac_of (m0 m1 m2 : Z) : list Z :=
  [Z.land m0 255; Z.shiftr m0 8; Z.land m1 255; Z.shiftr m1 8; Z.land m2 255; Z.shiftr m2 8].

Definition fresh_rx : rx_desc_t := mk_rx (fresh 8192) 0 0.
Definition fresh_tx : tx_desc_t := mk_tx (fresh 8192) 0 0 1.

(** The part of [e1000_init] behind the probe; [rx_addr] and [tx_addr] are the
    addresses of the two descriptor arrays. *)
Definition e1000_setup (fuel : nat) (rx_addr tx_addr : Z) : N H Z :=
  m0 ← e1000_read_eeprom fuel 0;
  m1 ← e1000_read_eeprom fuel 1;
  m2 ← e1000_read_eeprom fuel 2;
  let m := mac_of m0 m1 m2 in
  ctrl ← e1000_read_reg REG_CTRL;
  e1000_write_reg REG_CTRL (Z.lor (Z.lor ctrl 64) 32) ;;
  e1000_read_reg REG_STATUS ;;
  r ← gets rings;
  modify (set_rings (mk_rings (replicate 32 fresh_rx) r.(tx_descs))) ;;
  e1000_write_reg REG_RDBAL (Z.land rx_addr 4294967295) ;;
  e1000_write_reg REG_RDBAH (Z.shiftr rx_addr 32) ;;
  e1000_write_reg REG_RDLEN 512 ;;
  e1000_write_reg REG_RDH 0 ;;
  e1000_write_reg REG_RDT 31 ;;
  modify (fun s => set_e1000_dev (set_rx_cur 0 s.(e1000_dev)) s) ;;
  e1000_write_reg REG_RCTL (Z.lor (Z.lor (Z.lor 2 (Z.shiftl 1 15)) (Z.shiftl 1 25)) (Z.shiftl 1 26)) ;;
  r ← gets rings;
  modify (set_rings (mk_rings r.(rx_descs) (replicate 32 fresh_tx))) ;;
  e1000_write_reg REG_TDBAL (Z.land tx_addr 4294967295) ;;
  e1000_write_reg REG_TDBAH (Z.shiftr tx_addr 32) ;;
  e1000_write_reg REG_TDLEN 512 ;;
  e1000_write_reg REG_TDH 0 ;;
  e1000_write_reg REG_TDT 0 ;;
  modify (fun s => set_e1000_dev (set_tx_cur 0 s.(e1000_dev)) s) ;;
  e1000_write_reg REG_TCTL (Z.lor (Z.lor (Z.lor 2 8) (Z.shiftl 15 4)) (Z.shiftl 64 12)) ;;
  e1000_write_reg REG_RAL (Z.lor (Z.lor (Z.lor (get m 0) (Z.shiftl (get m 1) 8)) (Z.shiftl (get m 2) 16)) (Z.shiftl (get m 3) 24)) ;;
  e1000_write_reg REG_RAH (Z.lor (Z.lor (get m 4) (Z.shiftl (get m 5) 8)) (Z.shiftl 1 31)) ;;
  e1000_write_reg REG_IMS 255 ;;
  modify (fun s => set_e1000_dev (mk_e1000 1 s.(e1000_dev).(rx_cur) s.(e1000_dev).(tx_cur)) s) ;;
  net_register_device m ;;
  mret 0.

Definition e1000_init (fuel : nat) (rx_addr tx_addr : Z) (p : P) : N H (Z * P) :=
  match e1000_probe p with
  | (None, p) => mret (-1, p)
  | (Some _, p) => r ← e1000_setup fuel rx_addr tx_addr; mret (r, p)
  end.

Definition e1000_link_status : N H Z :=
  v ← e1000_read_reg REG_STATUS; mret (if c_true (Z.land v 2) then 1 else 0).

(** net.c *)
Definition net_init (fuel : nat) (rx_addr tx_addr : Z) (p : P) : N H P :=
  r ← e1000_init fuel rx_addr tx_addr p;
  if negb (r.1 =? 0) then mret r.2 else
  arp_init ;; icmp_init ;; udp_init ;; tcp_init ;; dns_init ;; dhcp_init ;;
  mret r.2.
End Init.
End E1000Init.
