(* ===== verification/NetDemo.v ===== *)
(** * A concrete host

    A configured host on the simulated card, and the theorems of the network
    stack applied to it: a ping, a DNS answer, a TCP handshake. *)
From Stdlib Require Import ZArith Lia.
From stdpp Require Import base numbers list.
From S2P Require Import Prelude NetPkt Net NetParse NetClients NetCard NetArp NetIp NetUdp NetTcp NetDns NetDhcp Http.

Module NetDemo.
Import Pkt PktProps Net NetParse Clients NetCard NetArp NetSim NetIp NetUdp NetTcp NetDns NetDhcp Http HttpProps.
Local Open Scope Z_scope.

(** ** The host 10.0.0.2 *)
Definition my_ip : Z := le_value [10; 0; 0; 2].
Definition peer_ip : Z := le_value [10; 0; 0; 9].
Definition my_mac : list Z := [2; 0; 0; 0; 0; 1].
Definition peer_mac : list Z := [2; 0; 0; 0; 0; 9].
Definition demo_config : net_config_t :=
  mk_config my_mac my_ip (le_value [255; 255; 255; 0]) (le_value [10; 0; 0; 1]) 0 1.

Definition free_arp : arp_cache_entry_t := mk_arp 0 [] 0 0.
Definition known_peer : list arp_cache_entry_t := mk_arp peer_ip peer_mac 0 1 :: replicate 31 free_arp.
Definition syn_socket : tcp_socket_t := mk_socket peer_ip 49152 80 1001 0 TCP_STATE_SYN_SENT 1.

Definition demo_soft {H} (arp : list arp_cache_entry_t) (dev : e1000_device_t) (r : rings_t) (h : H) : net H :=
  mk_net demo_config arp 1 [mk_udp_handler DNS_CLIENT_PORT (Some dns_handler_p)]
    (mk_icmp 0 0 [] 0 0 0 0 0) [syn_socket] 49153 (mk_dns 0 0 1 7) (mk_dhcp 0 0 0 0 0 0 0 0)
    (mk_http [] 0 0 None) dev r h.

Definition buffer0 : list Z := replicate (Z.to_nat 8192) 0.
Definition idle_rings (d : rx_desc_t) : rings_t :=
  mk_rings (d :: replicate 31 (mk_rx buffer0 0 0)) (replicate 32 (mk_tx buffer0 0 0 1)).
Definition demo (arp : list arp_cache_entry_t) (d : rx_desc_t) : net sim :=
  demo_soft arp (mk_e1000 1 0 0) (idle_rings d) (mk_sim [] [] 1 0).

Lemma zlen_buffer0 : zlen buffer0 = 8192.
Proof. unfold zlen, buffer0. by rewrite length_replicate. Qed.

Lemma bytes_replicate n : Forall is_byte (replicate n 0).
Proof. apply Forall_replicate. unfold is_byte. lia. Qed.

Lemma demo_card arp d : zlen d.(rxd_buffer) = 8192 -> Forall is_byte d.(rxd_buffer) ->
  0 <= d.(rxd_length) <= 8192 -> card_ok (L := sim_laws 1) (demo arp d).
Proof.
  intros H1 H2 H3. split; [|split; [done|split; [simpl; lia|done]]].
  split; [|split; [simpl; lia|split; [simpl; lia|split; [|apply Forall_nil_2]]]].
  - split; [done|]. split; [done|]. split.
    + apply Forall_cons_2; [done|]. apply Forall_replicate. simpl.
      split; [apply zlen_buffer0|]. split; [apply bytes_replicate|lia].
    + apply Forall_replicate. apply zlen_buffer0.
  - apply Forall_replicate. done.
Qed.

Lemma demo_host arp d : host_ok (demo arp d) peer_ip peer_ip.
Proof.
  unfold host_ok, is_u32. simpl. repeat split; try done; vm_compute; done.
Qed.

(** ** Ping *)
Definition ping_body : list Z := [104; 105].
Definition ping_frame (slack : list Z) : list Z :=
  ip_frame my_mac peer_mac (8 + zlen ping_body) IP_PROTO_ICMP 0 peer_ip my_ip
    (icmp_message 8 0 0 [18; 52] [0; 1] ping_body) slack.

Definition empty_desc : rx_desc_t := mk_rx buffer0 0 0.

Lemma bytes_small (l : list Z) : forallb (fun z => (0 <=? z) && (z <? 256)) l = true -> Forall is_byte l.
Proof.
  intros Hl. apply Forall_forall. intros z Hz. rewrite forallb_forall in Hl.
  apply list_elem_of_In in Hz. specialize (Hl z Hz). apply andb_true_iff in Hl as [H1 H2].
  unfold is_byte. lia.
Qed.

Lemma echo_request_answered_witness : exists s' c1 c2,
  net_receive_packet 1 (send_ipv4 1 1) (ping_frame [7; 7]) 60 (demo known_peer empty_desc) = Done ((), s') /\
  sent (L := sim_laws 1) s' = [eth_frame peer_mac my_mac ETH_TYPE_IPV4
    (ipv4_header 30 IP_PROTO_ICMP c1 my_ip peer_ip ++ icmp_message 0 0 c2 [18; 52] [0; 1] ping_body)].
Proof.
  destruct (echo_request_answered (L := sim_laws 1) 0 my_mac peer_mac 0 peer_ip peer_ip peer_mac 0 0
    [18; 52] [0; 1] ping_body [7; 7] 60 (demo known_peer empty_desc)) as (s' & c1 & c2 & E & Hm & _).
  - apply demo_card; [apply zlen_buffer0|apply bytes_replicate|simpl; lia].
  - apply demo_host.
  - done.
  - done.
  - lia.
  - by apply bytes_small.
  - done.
  - done.
  - vm_compute. discriminate.
  - done.
  - done.
  - exists s', c1, c2. split; [exact E|]. destruct Hm as (_ & _ & _ & Hs & _). exact Hs.
Defined.

(** The same request waiting in the ring of a host that does not know the peer. *)
Definition full_slack : list Z := replicate (Z.to_nat (8192 - zlen (ping_frame []))) 0.
Definition pending_desc : rx_desc_t := mk_rx (ping_frame full_slack) 60 3.

Lemma ping_frame_app slack : ping_frame slack = ping_frame [] ++ slack.
Proof. unfold ping_frame, ip_frame, eth_frame. by rewrite app_nil_r, <- !app_assoc. Qed.

Lemma pending_buffer : zlen (ping_frame full_slack) = 8192 /\ Forall is_byte (ping_frame full_slack).
Proof.
  rewrite ping_frame_app. split.
  - rewrite zlen_app. unfold full_slack. unfold zlen at 2. rewrite length_replicate, Z2Nat.id; [lia|].
    vm_compute. discriminate.
  - apply Forall_app. split; [by apply bytes_small|apply bytes_replicate].
Qed.

Lemma demo_pending : request_pending (L := sim_laws 1) my_mac peer_mac 0 peer_ip peer_ip 0 0 [18; 52] [0; 1]
  ping_body full_slack (demo (replicate 32 free_arp) pending_desc).
Proof.
  destruct pending_buffer as [Hb1 Hb2].
  split; [by apply demo_card|]. split; [apply demo_host|]. split; [done|].
  exists pending_desc. split; [done|]. split; [done|]. split; [simpl; lia|done].
Qed.

Lemma ping_body_small : 8 + zlen ping_body <= 8158.
Proof. vm_compute. discriminate. Qed.

Lemma echo_request_recursion_witness :
  poll 1 3 (demo (replicate 32 free_arp) pending_desc) = OutOfFuel /\
  poll 1 1000 (demo (replicate 32 free_arp) pending_desc) = OutOfFuel.
Proof.
  pose proof (echo_request_recursion (L := sim_laws 1) my_mac peer_mac 0 peer_ip peer_ip 0 0 [18; 52] [0; 1]
    ping_body full_slack (demo (replicate 32 free_arp) pending_desc) eq_refl eq_refl
    (bytes_small ([18; 52] ++ [0; 1] ++ ping_body) eq_refl) eq_refl eq_refl ping_body_small demo_pending) as E.
  split; apply E.
Defined.

(** ** ARP *)
Lemma arp_cache_refines_witness : exists s',
  (arp_init ;; arp_adds [(my_ip, my_mac); (peer_ip, [1; 1; 1; 1; 1; 1]); (peer_ip, peer_mac)])
    (demo known_peer empty_desc) = Done ((), s') /\
  arp_cache_lookup peer_ip s' = Done (Some peer_mac, s').
Proof.
  destruct (arp_cache_refines (demo known_peer empty_desc)
    [(my_ip, my_mac); (peer_ip, [1; 1; 1; 1; 1; 1]); (peer_ip, peer_mac)]) as (s' & E & HL).
  - done.
  - simpl. lia.
  - simpl. lia.
  - repeat (apply Forall_cons_2; [done|]). apply Forall_nil_2.
  - exists s'. split; [exact E|]. exact (HL peer_ip).
Defined.

(** ** UDP *)
(** A datagram to the DNS client whose UDP length field is far too large. *)
Definition bad_udp_frame : list Z :=
  eth_frame my_mac peer_mac ETH_TYPE_IPV4
    (ipv4_header 31 IP_PROTO_UDP 0 peer_ip my_ip ++ [0; 53; 209; 31; 255; 255; 0; 0; 1; 2; 3] ++ [9; 9; 9]).

Lemma udp_frame_safe_witness : exists d x,
  net_receive_packet 1 (send_ipv4 1 1) bad_udp_frame 45 (demo known_peer empty_desc)
    = Done ((), set_dns d (set_dhcp x (demo known_peer empty_desc))).
Proof.
  destruct (udp_frame_safe 1 (send_ipv4 1 1) bad_udp_frame 45 (demo known_peer empty_desc)) as (d & x & E & _).
  - by apply bytes_small.
  - vm_compute. split; discriminate.
  - reflexivity.
  - reflexivity.
  - vm_compute. discriminate.
  - vm_compute. discriminate.
  - exists d, x. exact E.
Defined.

Lemma udp_datagram_delivered_witness : exists dgram packet,
  udp_packet 53 DNS_CLIENT_PORT [1; 2; 3] 3 = Done dgram /\
  ipv4_packet IP_PROTO_UDP peer_ip my_ip dgram (zlen dgram) = Done packet /\
  net_receive_packet 1 (send_ipv4 1 1) (eth_frame my_mac peer_mac ETH_TYPE_IPV4 (packet ++ [9])) 45
    (demo known_peer empty_desc)
  = call_udp_handler dns_handler_p [1; 2; 3; 9] 3 (demo known_peer empty_desc).
Proof.
  apply (udp_datagram_delivered 1 (send_ipv4 1 1) my_mac peer_mac peer_ip my_ip 53 DNS_CLIENT_PORT [1; 2; 3] [9] 45
    0 dns_handler_p (demo known_peer empty_desc)).
  - done.
  - done.
  - vm_compute. split; [discriminate|reflexivity].
  - vm_compute. split; [discriminate|reflexivity].
  - right. left. done.
  - vm_compute. split; [discriminate|reflexivity].
  - vm_compute. discriminate.
  - lia.
  - done.
  - by exists (mk_udp_handler DNS_CLIENT_PORT (Some dns_handler_p)).
Defined.

(** ** TCP: the SYN-ACK of the peer, on a card with small buffers *)
Definition syn_ack : list Z :=
  [0; 80; 192; 0; 0; 0; 0; 100; 0; 0; 3; 233; 80; 18; 32; 0; 0; 0; 0; 0].
Definition syn_ack_frame : list Z :=
  ip_frame my_mac peer_mac 20 IP_PROTO_TCP 0 peer_ip my_ip syn_ack [].
Definition tcp_demo : net sim :=
  demo_soft known_peer (mk_e1000 1 0 0)
    (mk_rings (replicate 32 (mk_rx (replicate 128 0) 0 0)) (replicate 32 (mk_tx (replicate 128 0) 0 0 1)))
    (mk_sim [syn_ack_frame] [] 0 0).

Definition run_state {A} (d : net sim) (m : outcome (A * net sim)) : net sim :=
  match m with Done (_, s) => s | _ => d end.

Lemma tcp_demo_done : poll 4 2 tcp_demo = Done ((), run_state tcp_demo (poll 4 2 tcp_demo)).
Proof. vm_compute. reflexivity. Qed.

Lemma tcp_packets_legal_witness : exists k',
  (run_state tcp_demo (poll 4 2 tcp_demo)).(tcp_sockets) !! 0%nat = Some k' /\ tcp_steps syn_socket k' /\
  (exists k, (run_state tcp_demo (poll 4 2 tcp_demo)).(tcp_sockets) = [k] /\
     k.(state) = TCP_STATE_ESTABLISHED /\ k.(ack_num) = 101).
Proof.
  destruct (tcp_packets_legal 4 2 tcp_demo (run_state tcp_demo (poll 4 2 tcp_demo)) tcp_demo_done 0 syn_socket eq_refl)
    as (k' & Hk & Hs & _).
  exists k'. split; [exact Hk|]. split; [exact Hs|].
  eexists. split; [vm_compute; reflexivity|]. split; reflexivity.
Defined.

(** The same segment handed to [tcp_receive] with something behind it in the buffer. *)
Definition tcp_host : net (list sent_packet) :=
  set_http (mk_http (replicate (Z.to_nat 16384) 0) 0 0 None)
    (demo_soft known_peer (mk_e1000 1 0 0) (mk_rings [] []) []).



(** ** DHCP: an offer of 10.0.0.2 *)
Lemma dhcp_reply_parsed_witness :
  dhcp_rx (dhcp_reply 305419897 (replicate 8 0) [10; 0; 0; 2] (replicate 216 0)
      [(53, [2]); (54, [10; 0; 0; 1]); (1, [255; 255; 255; 0]); (12, [97])] [0; 0]) 261
    (mk_dhcp 305419897 0 0 0 0 0 0 0)
  = Done (mk_dhcp 305419897 1 0 my_ip (le_value [10; 0; 0; 1]) (le_value [255; 255; 255; 0]) 0 0).
Proof.
  apply (dhcp_reply_parsed 305419897 (replicate 8 0) [10; 0; 0; 2] (replicate 216 0)
      [(53, [2]); (54, [10; 0; 0; 1]); (1, [255; 255; 255; 0]); (12, [97])] [0; 0] 261
      (mk_dhcp 305419897 0 0 0 0 0 0 0)).
  - vm_compute. split; [discriminate|reflexivity].
  - done.
  - done.
  - done.
  - by apply bytes_small.
  - done.
  - repeat (apply Forall_cons_2; [split; [simpl; lia|split; [by apply bytes_small|vm_compute; split; discriminate]]|]).
    apply Forall_nil_2.
  - vm_compute. split; discriminate.
  - lia.
Defined.

(** ** HTTP: "os.org:8080/x" *)
Lemma http_request_ok_witness :
  validate_http_request (http_request [111; 115; 46; 111; 114; 103] [47; 120]) = 0.
Proof.
  apply (http_request_ok [111; 115; 46; 111; 114; 103; 58; 56; 48; 56; 48; 47; 120]
    [111; 115; 46; 111; 114; 103] [47; 120] 8080).
  - vm_compute. reflexivity.
  - unfold CR. rewrite !not_elem_of_cons. repeat split; try lia. apply not_elem_of_nil.
Defined.

Definition near_full : http_state := mk_http (replicate (Z.to_nat 16384) 0) 16382 0 None.
Lemma http_received_bounded_witness : exists h',
  http_tcp_data_received [1; 2; 3; 4] 4 near_full = Done h' /\ http_ok h' /\
  collected h' = collected near_full ++ [1; 2].
Proof.
  apply (http_received_bounded [1; 2; 3; 4] 4 near_full).
  - split; [|simpl; lia]. unfold near_full, zlen. cbn [http_response_buffer]. by rewrite length_replicate, Z2Nat.id.
  - vm_compute. split; discriminate.
Defined.
End NetDemo.
