(* ===== verification/Elf.v ===== *)
(** * The ELF loader (src/kernel/elf/elf_load.c)

    The file is a byte list that the code reads through pointers into it
    (offsets here; a read past its end is [OutOfBounds]). Segments, relocated
    words and the thread-local block are in the physical memory of Memory.v,
    allocated with its page allocator and heap. The context and the symbol
    entries are heap blocks too: their allocation is the real [kmalloc], their
    contents are records. Loops over the tables of the file are structural in
    the count the file gives. *)
From Stdlib Require Import ZArith Lia.
From stdpp Require Import base numbers list gmap.
From S2P Require Import Prelude NetPkt Memory.

Module Elf.
Import Pkt Mem.
Local Open Scope Z_scope.
Local Open Scope outcome_scope.

(** ** Constants of elf_loader.h *)
Definition ET_REL : Z := 1.
Definition ET_EXEC : Z := 2.
Definition ET_DYN : Z := 3.
Definition EM_X86_64 : Z := 62.
Definition PT_LOAD : Z := 1.
Definition PT_DYNAMIC : Z := 2.
Definition PT_INTERP : Z := 3.
Definition PT_PHDR : Z := 6.
Definition PT_TLS : Z := 7.
Definition SHT_SYMTAB : Z := 2.
Definition SHT_STRTAB : Z := 3.
Definition SHT_RELA : Z := 4.
Definition SHT_DYNAMIC : Z := 6.
Definition SHT_DYNSYM : Z := 11.
Definition SHN_UNDEF : Z := 0.
Definition SHN_ABS : Z := 65521.
Definition STB_WEAK : Z := 2.
Definition STT_SECTION : Z := 3.
Definition DT_NULL : Z := 0.
Definition DT_PLTRELSZ : Z := 2.
Definition DT_RELA : Z := 7.
Definition DT_RELASZ : Z := 8.
Definition DT_JMPREL : Z := 23.
Definition ELF_SUCCESS : Z := 0.
Definition ELF_ERROR_INVALID : Z := -1.
Definition ELF_ERROR_UNSUPPORTED : Z := -2.
Definition ELF_ERROR_NOMEM : Z := -3.
Definition ELF_ERROR_RELOC : Z := -5.
Definition ELF_ERROR_SYMBOL : Z := -6.

Definition ld64 (p : list Z) (off : Z) : outcome Z :=
  let* bs := load_bytes p off 8 in Done (le_value bs).

(** ** The file header *)
Record Elf64_Ehdr := mk_ehdr {
  e_ident : list Z; e_type : Z; e_machine : Z; e_version : Z; e_entry : Z; e_phoff : Z; e_shoff : Z;
  e_flags : Z; e_ehsize : Z; e_phentsize : Z; e_phnum : Z; e_shentsize : Z; e_shnum : Z; e_shstrndx : Z
}.
Definition sizeof_ehdr : Z := 64.
Definition sizeof_phdr : Z := 56.
Definition sizeof_shdr : Z := 64.
Definition sizeof_sym : Z := 24.
Definition sizeof_rela : Z := 24.
Definition sizeof_dyn : Z := 16.

Definition read_ehdr (d : list Z) : outcome Elf64_Ehdr :=
  let* ident := load_bytes d 0 16 in
  let* type := ld16 d 16 in let* machine := ld16 d 18 in let* version := ld32 d 20 in
  let* entry := ld64 d 24 in let* phoff := ld64 d 32 in let* shoff := ld64 d 40 in
  let* flags := ld32 d 48 in let* ehsize := ld16 d 52 in let* phentsize := ld16 d 54 in
  let* phnum := ld16 d 56 in let* shentsize := ld16 d 58 in let* shnum := ld16 d 60 in
  let* shstrndx := ld16 d 62 in
  Done (mk_ehdr ident type machine version entry phoff shoff flags ehsize phentsize phnum shentsize shnum shstrndx).

(** The tests of [elf_validate] on the header, in order. *)
Definition check_ehdr (h : Elf64_Ehdr) : Z :=
  let id (i : nat) := get h.(e_ident) i in
  if negb (id 0%nat =? 127) || negb (id 1%nat =? 69) || negb (id 2%nat =? 76) || negb (id 3%nat =? 70)
  then ELF_ERROR_INVALID
  else if negb (id 4%nat =? 2) then ELF_ERROR_UNSUPPORTED
  else if negb (id 5%nat =? 1) then ELF_ERROR_UNSUPPORTED
  else if negb (id 6%nat =? 1) then ELF_ERROR_INVALID
  else if negb (h.(e_machine) =? EM_X86_64) then ELF_ERROR_UNSUPPORTED
  else if negb (h.(e_type) =? ET_EXEC) && negb (h.(e_type) =? ET_DYN) && negb (h.(e_type) =? ET_REL)
  then ELF_ERROR_UNSUPPORTED
  else if negb (h.(e_ehsize) =? sizeof_ehdr) then ELF_ERROR_INVALID
  else if negb (h.(e_phentsize) =? sizeof_phdr) && (0 <? h.(e_phnum)) then ELF_ERROR_INVALID
  else if negb (h.(e_shentsize) =? sizeof_shdr) && (0 <? h.(e_shnum)) then ELF_ERROR_INVALID
  else ELF_SUCCESS.

Definition elf_validate (elf_data : list Z) (size : Z) : outcome Z :=
  if size <? sizeof_ehdr then Done ELF_ERROR_INVALID else
  let* h := read_ehdr elf_data in Done (check_ehdr h).

(** ** The context *)

(** A symbol entry, with the addresses of its two heap blocks. *)
Record elf_symbol_t := mk_symbol {
  sym_name : list Z; value : Z; size : Z; type : Z; binding : Z; section : Z;
  sym_block : Z; name_block : Z
}.

(** Pointers into the file are offsets; [None] is NULL. [symbol_hash] has the
    256 chains, newest entry first. *)
Record elf_context_t := mk_context {
  elf_data : list Z; ehdr : Elf64_Ehdr;
  shstrtab : option Z; strtab : option Z; dynstr : option Z;
  symtab : option Z; dynsym : option Z; symtab_count : Z; dynsym_count : Z; dynamic : option Z;
  symbol_hash : list (list elf_symbol_t); load_bias : Z; ctx_block : Z
}.

Definition set_tables (c : elf_context_t) (str dstr sym dsym : option Z) (nsym ndsym : Z) (dyn : option Z) : elf_context_t :=
  mk_context c.(elf_data) c.(ehdr) c.(shstrtab) str dstr sym dsym nsym ndsym dyn c.(symbol_hash) c.(load_bias) c.(ctx_block).
Definition set_load_bias (v : Z) (c : elf_context_t) : elf_context_t :=
  mk_context c.(elf_data) c.(ehdr) c.(shstrtab) c.(strtab) c.(dynstr) c.(symtab) c.(dynsym) c.(symtab_count)
    c.(dynsym_count) c.(dynamic) c.(symbol_hash) v c.(ctx_block).
Definition set_symbol_hash (v : list (list elf_symbol_t)) (c : elf_context_t) : elf_context_t :=
  mk_context c.(elf_data) c.(ehdr) c.(shstrtab) c.(strtab) c.(dynstr) c.(symtab) c.(dynsym) c.(symtab_count)
    c.(dynsym_count) c.(dynamic) v c.(load_bias) c.(ctx_block).

(** Addresses in the file of a program header, a section header. *)
Definition phdr_at (c : elf_context_t) (i : Z) : Z := c.(ehdr).(e_phoff) + sizeof_phdr * i.
Definition shdr_at (c : elf_context_t) (i : Z) : Z := c.(ehdr).(e_shoff) + sizeof_shdr * i.

(** Fields of the section header at [p]. *)
Definition sh_name (d : list Z) (p : Z) := ld32 d p.
Definition sh_type (d : list Z) (p : Z) := ld32 d (p + 4).
Definition sh_offset (d : list Z) (p : Z) := ld64 d (p + 24).
Definition sh_size (d : list Z) (p : Z) := ld64 d (p + 32).
Definition sh_link (d : list Z) (p : Z) := ld32 d (p + 40).
(** Fields of the program header at [p]. *)
Definition p_type (d : list Z) (p : Z) := ld32 d p.
Definition p_offset (d : list Z) (p : Z) := ld64 d (p + 8).
Definition p_vaddr (d : list Z) (p : Z) := ld64 d (p + 16).
Definition p_filesz (d : list Z) (p : Z) := ld64 d (p + 32).
Definition p_memsz (d : list Z) (p : Z) := ld64 d (p + 40).
Definition p_align (d : list Z) (p : Z) := ld64 d (p + 48).
(** Fields of the symbol at [p]. *)
Definition st_name (d : list Z) (p : Z) := ld32 d p.
Definition st_info (d : list Z) (p : Z) := ld8 d (p + 4).
Definition st_shndx (d : list Z) (p : Z) := ld16 d (p + 6).
Definition st_value (d : list Z) (p : Z) := ld64 d (p + 8).
Definition st_size (d : list Z) (p : Z) := ld64 d (p + 16).
Definition ELF64_ST_BIND (i : Z) : Z := Z.shiftr i 4.
Definition ELF64_ST_TYPE (i : Z) : Z := Z.land i 15.

(** [name[0] == c0 && name[1] == c1 && ...], stopping at the first difference. *)
Fixpoint chars_at (d : list Z) (p : Z) (lit : list Z) : outcome bool :=
  match lit with
  | [] => Done true
  | x :: lit => let* c := ld8 d p in if c =? x then chars_at d (p + 1) lit else Done false
  end.

(** ".strtab" and ".dynstr", with the terminator. *)
Definition s_strtab : list Z := [46; 115; 116; 114; 116; 97; 98; 0].
Definition s_dynstr : list Z := [46; 100; 121; 110; 115; 116; 114; 0].

(** The body of the section loop of [elf_create_context]. *)
Definition scan_section (c : elf_context_t) (i : Z) : outcome elf_context_t :=
  let d := c.(elf_data) in
  let p := shdr_at c i in
  let* ty := sh_type d p in
  match c.(shstrtab) with
  | Some names =>
    if ty =? SHT_STRTAB then
      let* n := sh_name d p in
      let* is_str := chars_at d (names + n) s_strtab in
      if is_str then
        let* o := sh_offset d p in
        Done (set_tables c (Some o) c.(dynstr) c.(symtab) c.(dynsym) c.(symtab_count) c.(dynsym_count) c.(dynamic))
      else
        let* is_dyn := chars_at d (names + n) s_dynstr in
        if is_dyn then
          let* o := sh_offset d p in
          Done (set_tables c c.(strtab) (Some o) c.(symtab) c.(dynsym) c.(symtab_count) c.(dynsym_count) c.(dynamic))
        else Done c
    else Done c
  | None => Done c
  end.

(** The other section types the loop looks for. *)
Definition scan_section_type (c : elf_context_t) (i : Z) : outcome elf_context_t :=
  let d := c.(elf_data) in
  let p := shdr_at c i in
  let* ty := sh_type d p in
  if ty =? SHT_SYMTAB then
    let* o := sh_offset d p in let* n := sh_size d p in
    Done (set_tables c c.(strtab) c.(dynstr) (Some o) c.(dynsym) (n / sizeof_sym) c.(dynsym_count) c.(dynamic))
  else if ty =? SHT_DYNSYM then
    let* o := sh_offset d p in let* n := sh_size d p in
    Done (set_tables c c.(strtab) c.(dynstr) c.(symtab) (Some o) c.(symtab_count) (n / sizeof_sym) c.(dynamic))
  else if ty =? SHT_DYNAMIC then
    let* o := sh_offset d p in
    Done (set_tables c c.(strtab) c.(dynstr) c.(symtab) c.(dynsym) c.(symtab_count) c.(dynsym_count) (Some o))
  else Done c.

Fixpoint scan_sections (n : nat) (i : Z) (c : elf_context_t) : outcome elf_context_t :=
  match n with
  | O => Done c
  | S n =>
    let* c := scan_section c i in
    let* c := scan_section_type c i in
    scan_sections n (i + 1) c
  end.

Definition sizeof_context : Z := 2160.

(** [None] is NULL. *)
Definition elf_create_context (fuel : nat) (data : list Z) (sz : Z) (m : mm) : outcome (option elf_context_t * mm) :=
  let* v := elf_validate data sz in
  if negb (v =? ELF_SUCCESS) then Done (None, m) else
  let* (blk, m) := kmalloc fuel sizeof_context m in
  if blk =? 0 then Done (None, m) else
  let* h := read_ehdr data in
  let c := mk_context data h None None None None None 0 0 None (replicate 256 []) 0 blk in
  let* names :=
    (if (0 <? h.(e_shnum)) && negb (h.(e_shstrndx) =? SHN_UNDEF) && (h.(e_shstrndx) <? h.(e_shnum))
     then let* o := sh_offset data (shdr_at c h.(e_shstrndx)) in Done (Some o) else Done None) in
  let c := mk_context data h names None None None None 0 0 None (replicate 256 []) 0 blk in
  let* c := scan_sections (Z.to_nat h.(e_shnum)) 0 c in
  Done (Some c, m).

(** [while (sym) { kfree(sym->name); kfree(sym); }] over one chain. *)
Fixpoint free_chain (fuel : nat) (l : list elf_symbol_t) (m : mm) : outcome mm :=
  match l with
  | [] => Done m
  | x :: l => let* m := kfree fuel x.(name_block) m in
              let* m := kfree fuel x.(sym_block) m in free_chain fuel l m
  end.

Fixpoint free_chains (fuel : nat) (l : list (list elf_symbol_t)) (m : mm) : outcome mm :=
  match l with
  | [] => Done m
  | x :: l => let* m := free_chain fuel x m in free_chains fuel l m
  end.

Definition elf_destroy_context (fuel : nat) (c : elf_context_t) (m : mm) : outcome mm :=
  let* m := free_chains fuel c.(symbol_hash) m in
  kfree fuel c.(ctx_block) m.

(** ** Sections by name and type *)
Definition elf_get_section_name (c : elf_context_t) (p : Z) : outcome (option Z) :=
  match c.(shstrtab) with
  | None => Done None
  | Some names => let* n := sh_name c.(elf_data) p in Done (if n =? 0 then None else Some (names + n))
  end.

(** The comparison loop of two strings, one of them in the file. *)
Fixpoint string_at (d : list Z) (p : Z) (name : list Z) : outcome bool :=
  match name with
  | [] => let* c := ld8 d p in Done (c =? 0)
  | x :: name => let* c := ld8 d p in if c =? x then string_at d (p + 1) name else Done false
  end.

Fixpoint find_section_from (c : elf_context_t) (name : list Z) (n : nat) (i : Z) : outcome (option Z) :=
  match n with
  | O => Done None
  | S n =>
    let* q := elf_get_section_name c (shdr_at c i) in
    match q with
    | Some q => let* eq := string_at c.(elf_data) q name in
                if eq then Done (Some (shdr_at c i)) else find_section_from c name n (i + 1)
    | None => find_section_from c name n (i + 1)
    end
  end.
Definition elf_find_section (c : elf_context_t) (name : list Z) : outcome (option Z) :=
  if (c.(ehdr).(e_shnum) =? 0) || bool_decide (c.(shstrtab) = None) then Done None
  else find_section_from c name (Z.to_nat c.(ehdr).(e_shnum)) 0.

Fixpoint find_type_from (c : elf_context_t) (ty : Z) (n : nat) (i : Z) : outcome (option Z) :=
  match n with
  | O => Done None
  | S n => let* t := sh_type c.(elf_data) (shdr_at c i) in
           if t =? ty then Done (Some (shdr_at c i)) else find_type_from c ty n (i + 1)
  end.
Definition elf_find_section_by_type (c : elf_context_t) (ty : Z) : outcome (option Z) :=
  find_type_from c ty (Z.to_nat c.(ehdr).(e_shnum)) 0.

(** ** Segments *)
Definition align_down (addr align : Z) : Z := Z.land addr (u64 (Z.lnot (u64 (align - 1)))).
Definition align_up (addr align : Z) : Z := Z.land (u64 (addr + align - 1)) (u64 (Z.lnot (u64 (align - 1)))).

(** The pages for [sz] bytes at [vaddr], zeroed; 0 is NULL. *)
Definition elf_map_memory (vaddr sz : Z) (m : mm) : Z * mm :=
  let aligned_addr := align_down vaddr 4096 in
  let aligned_size := align_up (u64 (sz + (vaddr - aligned_addr))) 4096 in
  let '(phys, m) := pmm_alloc_pages (aligned_size / 4096) m in
  if phys =? 0 then (0, m)
  else (phys, set_mem m (store (mem m) phys (replicate (Z.to_nat aligned_size) 0))).

Record elf_load_info_t := mk_info {
  base_addr : Z; entry_point : Z; phdr_addr : Z; phdr_count : Z; phdr_entsize : Z; interp_base : Z;
  dynamic_addr : Z; tls_base : Z; tls_size : Z; tls_align : Z; interp_path : option Z; is_dynamic : Z; has_tls : Z
}.
Definition zero_info : elf_load_info_t := mk_info 0 0 0 0 0 0 0 0 0 0 None 0 0.

Definition set_base (v : Z) (x : elf_load_info_t) : elf_load_info_t :=
  mk_info v x.(entry_point) x.(phdr_addr) x.(phdr_count) x.(phdr_entsize) x.(interp_base) x.(dynamic_addr)
    x.(tls_base) x.(tls_size) x.(tls_align) x.(interp_path) x.(is_dynamic) x.(has_tls).
Definition set_entry (e n sz : Z) (x : elf_load_info_t) : elf_load_info_t :=
  mk_info x.(base_addr) e x.(phdr_addr) n sz x.(interp_base) x.(dynamic_addr)
    x.(tls_base) x.(tls_size) x.(tls_align) x.(interp_path) x.(is_dynamic) x.(has_tls).
Definition set_phdr (v : Z) (x : elf_load_info_t) : elf_load_info_t :=
  mk_info x.(base_addr) x.(entry_point) v x.(phdr_count) x.(phdr_entsize) x.(interp_base) x.(dynamic_addr)
    x.(tls_base) x.(tls_size) x.(tls_align) x.(interp_path) x.(is_dynamic) x.(has_tls).
Definition set_dynamic (v : Z) (x : elf_load_info_t) : elf_load_info_t :=
  mk_info x.(base_addr) x.(entry_point) x.(phdr_addr) x.(phdr_count) x.(phdr_entsize) x.(interp_base) v
    x.(tls_base) x.(tls_size) x.(tls_align) x.(interp_path) 1 x.(has_tls).
Definition set_interp (v : Z) (x : elf_load_info_t) : elf_load_info_t :=
  mk_info x.(base_addr) x.(entry_point) x.(phdr_addr) x.(phdr_count) x.(phdr_entsize) x.(interp_base) x.(dynamic_addr)
    x.(tls_base) x.(tls_size) x.(tls_align) (Some v) 1 x.(has_tls).
Definition set_tls (base sz align : Z) (x : elf_load_info_t) : elf_load_info_t :=
  mk_info x.(base_addr) x.(entry_point) x.(phdr_addr) x.(phdr_count) x.(phdr_entsize) x.(interp_base) x.(dynamic_addr)
    base sz align x.(interp_path) x.(is_dynamic) 1.

(** The first loop: the range of addresses of the loadable segments. *)
Fixpoint segment_range (c : elf_context_t) (n : nat) (i lo hi : Z) : outcome (Z * Z) :=
  match n with
  | O => Done (lo, hi)
  | S n =>
    let d := c.(elf_data) in
    let p := phdr_at c i in
    let* t := p_type d p in
    if t =? PT_LOAD then
      let* v := p_vaddr d p in
      let* z := p_memsz d p in
      let fin := u64 (v + z) in
      segment_range c n (i + 1) (if v <? lo then v else lo) (if hi <? fin then fin else hi)
    else segment_range c n (i + 1) lo hi
  end.

(** A PT_LOAD segment: its pages, the bytes from the file, the zeroed rest. *)
Definition load_segment (c : elf_context_t) (p : Z) (m : mm) : outcome (Z * mm) :=
  let d := c.(elf_data) in
  let* v := p_vaddr d p in
  let vaddr := u64 (v + c.(load_bias)) in
  let* memsz := p_memsz d p in
  let '(phys, m) := elf_map_memory vaddr memsz m in
  if phys =? 0 then Done (ELF_ERROR_NOMEM, m) else
  let dst := phys + (vaddr - align_down vaddr 4096) in
  let* filesz := p_filesz d p in
  let* m :=
    (if 0 <? filesz then
       let* o := p_offset d p in
       let* bs := load_bytes d o filesz in
       Done (set_mem m (store (mem m) dst bs))
     else Done m) in
  let m := if filesz <? memsz
           then set_mem m (store (mem m) (dst + filesz) (replicate (Z.to_nat (memsz - filesz)) 0)) else m in
  Done (ELF_SUCCESS, m).

(** The second loop. *)
Fixpoint load_phdrs (c : elf_context_t) (n : nat) (i : Z) (info : elf_load_info_t) (m : mm)
  : outcome (Z * elf_load_info_t * mm) :=
  match n with
  | O => Done (ELF_SUCCESS, info, m)
  | S n =>
    let d := c.(elf_data) in
    let p := phdr_at c i in
    let* t := p_type d p in
    if t =? PT_LOAD then
      let* (r, m) := load_segment c p m in
      if r =? ELF_SUCCESS then load_phdrs c n (i + 1) info m else Done (r, info, m)
    else if t =? PT_DYNAMIC then
      let* v := p_vaddr d p in
      load_phdrs c n (i + 1) (set_dynamic (u64 (v + c.(load_bias))) info) m
    else if t =? PT_INTERP then
      let* o := p_offset d p in
      load_phdrs c n (i + 1) (set_interp o info) m
    else if t =? PT_TLS then
      let* v := p_vaddr d p in let* z := p_memsz d p in let* a := p_align d p in
      load_phdrs c n (i + 1) (set_tls (u64 (v + c.(load_bias))) z a info) m
    else if t =? PT_PHDR then
      let* v := p_vaddr d p in
      load_phdrs c n (i + 1) (set_phdr (u64 (v + c.(load_bias))) info) m
    else load_phdrs c n (i + 1) info m
  end.

(** The load bias and base address: a fresh range for ET_DYN, none otherwise. *)
Definition elf_load_segments (c : elf_context_t) (info : elf_load_info_t) (m : mm)
  : outcome (Z * elf_context_t * elf_load_info_t * mm) :=
  let n := Z.to_nat c.(ehdr).(e_phnum) in
  let* (lo, hi) := segment_range c n 0 (2 ^ 64 - 1) 0 in
  let '(ok, c, info, m) :=
    (if c.(ehdr).(e_type) =? ET_DYN then
       let '(base, m) := elf_map_memory 4194304 (u64 (hi - lo)) m in
       if base =? 0 then (false, c, info, m)
       else (true, set_load_bias (u64 (base - lo)) c, set_base base info, m)
     else (true, set_load_bias 0 c, set_base lo info, m)) in
  if negb ok then Done (ELF_ERROR_NOMEM, c, info, m) else
  let* (r, info, m) := load_phdrs c n 0 info m in
  if negb (r =? ELF_SUCCESS) then Done (r, c, info, m) else
  Done (ELF_SUCCESS, c,
        set_entry (u64 (c.(ehdr).(e_entry) + c.(load_bias))) c.(ehdr).(e_phnum) c.(ehdr).(e_phentsize) info, m).

(** ** Symbols *)

(** [h = (h << 4) + c; g = h & 0xf0000000; if (g) h ^= g >> 24; h &= ~g] *)
Fixpoint elf_hash_from (name : list Z) (h : Z) : Z :=
  match name with
  | [] => h
  | c :: name =>
    let h := u32 (u32 (Z.shiftl h 4) + c) in
    let g := Z.land h 4026531840 in
    let h := if c_true g then Z.lxor h (Z.shiftr g 24) else h in
    elf_hash_from name (Z.land h (u32 (Z.lnot g)))
  end.
Definition elf_hash (name : list Z) : Z := elf_hash_from name 0.

(** The string at [p] of the file. *)
Fixpoint string_from (l : list Z) : outcome (list Z) :=
  match l with
  | [] => OutOfBounds
  | c :: l => if c =? 0 then Done [] else let* r := string_from l in Done (c :: r)
  end.
Definition cstring (d : list Z) (p : Z) : outcome (list Z) :=
  if p <? 0 then OutOfBounds else string_from (drop (Z.to_nat p) d).

Definition bucket (name : list Z) : nat := Z.to_nat (elf_hash name mod 256).

Definition sizeof_symbol : Z := 40.

(** The symbol at [p] becomes an entry at the head of its chain; a failed
    allocation skips it. *)
Definition add_symbol (fuel : nat) (c : elf_context_t) (p : Z) (name : list Z) (m : mm)
  : outcome (elf_context_t * mm) :=
  let* (e, m) := kmalloc fuel sizeof_symbol m in
  if e =? 0 then Done (c, m) else
  let* (nb, m) := kmalloc fuel (Z.of_nat (length name) + 1) m in
  if nb =? 0 then let* m := kfree fuel e m in Done (c, m) else
  let m := set_mem m (store (mem m) nb (name ++ [0])) in
  let d := c.(elf_data) in
  let* v := st_value d p in let* z := st_size d p in let* inf := st_info d p in let* sec := st_shndx d p in
  let x := mk_symbol name (u64 (v + c.(load_bias))) z (ELF64_ST_TYPE inf) (ELF64_ST_BIND inf) sec e nb in
  Done (set_symbol_hash (alter (cons x) (bucket name) c.(symbol_hash)) c, m).

(** The symbols the loops pass over. *)
Definition nameless (d : list Z) (p : Z) : outcome bool :=
  let* n := st_name d p in
  if n =? 0 then Done true else
  let* inf := st_info d p in Done (ELF64_ST_TYPE inf =? STT_SECTION).

Fixpoint add_symtab (fuel : nat) (tab str : Z) (n : nat) (i : Z) (c : elf_context_t) (m : mm)
  : outcome (elf_context_t * mm) :=
  match n with
  | O => Done (c, m)
  | S n =>
    let p := tab + sizeof_sym * i in
    let* skip := nameless c.(elf_data) p in
    if skip then add_symtab fuel tab str n (i + 1) c m else
    let* nm := st_name c.(elf_data) p in
    let* name := cstring c.(elf_data) (str + nm) in
    let* (c, m) := add_symbol fuel c p name m in
    add_symtab fuel tab str n (i + 1) c m
  end.

Definition find_in (l : list elf_symbol_t) (name : list Z) : option elf_symbol_t :=
  List.find (fun x => bool_decide (x.(sym_name) = name)) l.

Definition elf_find_symbol (c : elf_context_t) (name : list Z) : option elf_symbol_t :=
  find_in (nth (bucket name) c.(symbol_hash) []) name.

Definition elf_get_symbol_value (c : elf_context_t) (name : list Z) : Z :=
  match elf_find_symbol c name with Some x => x.(value) | None => 0 end.

(** The second loop of [elf_resolve_symbols]: names already known are kept. *)
Fixpoint add_dynsym (fuel : nat) (tab str : Z) (n : nat) (i : Z) (c : elf_context_t) (m : mm)
  : outcome (elf_context_t * mm) :=
  match n with
  | O => Done (c, m)
  | S n =>
    let p := tab + sizeof_sym * i in
    let* skip := nameless c.(elf_data) p in
    if skip then add_dynsym fuel tab str n (i + 1) c m else
    let* nm := st_name c.(elf_data) p in
    let* name := cstring c.(elf_data) (str + nm) in
    match elf_find_symbol c name with
    | Some _ => add_dynsym fuel tab str n (i + 1) c m
    | None => let* (c, m) := add_symbol fuel c p name m in add_dynsym fuel tab str n (i + 1) c m
    end
  end.

Definition elf_resolve_symbols (fuel : nat) (c : elf_context_t) (m : mm) : outcome (elf_context_t * mm) :=
  let* (c, m) :=
    match c.(symtab), c.(strtab) with
    | Some tab, Some str => add_symtab fuel tab str (Z.to_nat c.(symtab_count)) 0 c m
    | _, _ => Done (c, m)
    end in
  match c.(dynsym), c.(dynstr) with
  | Some tab, Some str => add_dynsym fuel tab str (Z.to_nat c.(dynsym_count)) 0 c m
  | _, _ => Done (c, m)
  end.

(** ** Relocations *)
Definition ELF64_R_SYM (i : Z) : Z := Z.shiftr i 32.
Definition ELF64_R_TYPE (i : Z) : Z := Z.land i 4294967295.

(** A table of relocations is in the file, or in loaded memory. *)
Inductive rela_table := in_file (off : Z) | in_memory (addr : Z).
Definition rela_word (c : elf_context_t) (t : rela_table) (i k : Z) (m : mm) : outcome Z :=
  match t with
  | in_file off => ld64 c.(elf_data) (off + sizeof_rela * i + k)
  | in_memory addr => Done (load64 (mem m) (addr + sizeof_rela * i + k))
  end.

(** The value of the symbol of a relocation, or the error. *)
Definition reloc_symbol (c : elf_context_t) (r_sym : Z) (tab str : option Z) : outcome (Z + Z) :=
  match tab with
  | Some tab =>
    if r_sym =? 0 then Done (inr 0) else
    let d := c.(elf_data) in
    let p := tab + sizeof_sym * r_sym in
    let* ndx := st_shndx d p in
    if ndx =? SHN_UNDEF then
      match str with
      | Some str =>
        let* nm := st_name d p in
        if nm =? 0 then Done (inr 0) else
        let* name := cstring d (str + nm) in
        match elf_find_symbol c name with
        | Some x => Done (inr x.(value))
        | None => let* inf := st_info d p in
                  Done (if ELF64_ST_BIND inf =? STB_WEAK then inr 0 else inl ELF_ERROR_SYMBOL)
        end
      | None => Done (inr 0)
      end
    else let* v := st_value d p in
         Done (inr (if ndx =? SHN_ABS then v else u64 (v + c.(load_bias))))
  | None => Done (inr 0)
  end.

(** The switch over the type: what is stored at [ref], as bytes; [None] is the
    unsupported case. *)
Definition reloc_bytes (r_type symval addend ref bias : Z) : option (list Z) :=
  match r_type with
  | 0 => Some []
  | 1 | 17 | 18 => Some (le_bytes 8 (u64 (symval + addend)))
  | 2 | 4 | 9 => Some (le_bytes 4 (u32 (symval + addend - ref)))
  | 6 | 7 => Some (le_bytes 8 symval)
  | 8 => Some (le_bytes 8 (u64 (bias + addend)))
  | 10 | 11 => Some (le_bytes 4 (u32 (symval + addend)))
  | 16 => Some (le_bytes 8 1)
  | _ => None
  end.

Fixpoint apply_rela_from (c : elf_context_t) (t : rela_table) (tab str : option Z) (n : nat) (i : Z) (m : mm)
  : outcome (Z * mm) :=
  match n with
  | O => Done (ELF_SUCCESS, m)
  | S n =>
    let* r_offset := rela_word c t i 0 m in
    let* r_info := rela_word c t i 8 m in
    let* r_addend := rela_word c t i 16 m in
    let ref := u64 (r_offset + c.(load_bias)) in
    let* sv := reloc_symbol c (ELF64_R_SYM r_info) tab str in
    match sv with
    | inl e => Done (e, m)
    | inr symval =>
      match reloc_bytes (ELF64_R_TYPE r_info) symval (s64 r_addend) ref c.(load_bias) with
      | None => Done (ELF_ERROR_RELOC, m)
      | Some bs => apply_rela_from c t tab str n (i + 1) (set_mem m (store (mem m) ref bs))
      end
    end
  end.
Definition elf_apply_rela_relocations (c : elf_context_t) (t : rela_table) (count : Z) (tab str : option Z) (m : mm)
  : outcome (Z * mm) := apply_rela_from c t tab str (Z.to_nat count) 0 m.

(** The section loop of [elf_apply_relocations]. *)
Fixpoint section_relocations (c : elf_context_t) (n : nat) (i : Z) (m : mm) : outcome (Z * mm) :=
  match n with
  | O => Done (ELF_SUCCESS, m)
  | S n =>
    let d := c.(elf_data) in
    let p := shdr_at c i in
    let* t := sh_type d p in
    if negb (t =? SHT_RELA) then section_relocations c n (i + 1) m else
    let* o := sh_offset d p in let* z := sh_size d p in let* link := sh_link d p in
    if negb (link <? c.(ehdr).(e_shnum)) then section_relocations c n (i + 1) m else
    let q := shdr_at c link in
    let* tab := sh_offset d q in
    let* link2 := sh_link d q in
    let* str := (if link2 <? c.(ehdr).(e_shnum) then let* o := sh_offset d (shdr_at c link2) in Done (Some o) else Done None) in
    let* (r, m) := elf_apply_rela_relocations c (in_file o) (z / sizeof_rela) (Some tab) str m in
    if r =? ELF_SUCCESS then section_relocations c n (i + 1) m else Done (r, m)
  end.

(** The entries of the dynamic section, up to DT_NULL: the two tables. *)
Record dyn_tables := mk_dyn { dt_rela : Z; dt_relasz : Z; dt_jmprel : Z; dt_pltrelsz : Z }.
Fixpoint read_dynamic (fuel : nat) (c : elf_context_t) (p : Z) (t : dyn_tables) : outcome dyn_tables :=
  let* tag := ld64 c.(elf_data) p in
  if tag =? DT_NULL then Done t else
  match fuel with
  | O => OutOfFuel
  | S fuel =>
    let* t :=
      (if tag =? DT_RELA then let* v := ld64 c.(elf_data) (p + 8) in
         Done (mk_dyn (u64 (v + c.(load_bias))) t.(dt_relasz) t.(dt_jmprel) t.(dt_pltrelsz))
       else if tag =? DT_RELASZ then let* v := ld64 c.(elf_data) (p + 8) in
         Done (mk_dyn t.(dt_rela) v t.(dt_jmprel) t.(dt_pltrelsz))
       else if tag =? DT_JMPREL then let* v := ld64 c.(elf_data) (p + 8) in
         Done (mk_dyn t.(dt_rela) t.(dt_relasz) (u64 (v + c.(load_bias))) t.(dt_pltrelsz))
       else if tag =? DT_PLTRELSZ then let* v := ld64 c.(elf_data) (p + 8) in
         Done (mk_dyn t.(dt_rela) t.(dt_relasz) t.(dt_jmprel) v)
       else Done t) in
    read_dynamic fuel c (p + sizeof_dyn) t
  end.

Definition dynamic_relocations (c : elf_context_t) (p : Z) (m : mm) : outcome (Z * mm) :=
  let* t := read_dynamic (length c.(elf_data)) c p (mk_dyn 0 0 0 0) in
  let* (r, m) :=
    (if negb (t.(dt_rela) =? 0) && (0 <? t.(dt_relasz))
     then elf_apply_rela_relocations c (in_memory t.(dt_rela)) (t.(dt_relasz) / sizeof_rela) c.(dynsym) c.(dynstr) m
     else Done (ELF_SUCCESS, m)) in
  if negb (r =? ELF_SUCCESS) then Done (r, m) else
  if negb (t.(dt_jmprel) =? 0) && (0 <? t.(dt_pltrelsz))
  then elf_apply_rela_relocations c (in_memory t.(dt_jmprel)) (t.(dt_pltrelsz) / sizeof_rela) c.(dynsym) c.(dynstr) m
  else Done (ELF_SUCCESS, m).

Definition elf_apply_relocations (c : elf_context_t) (m : mm) : outcome (Z * mm) :=
  let* (r, m) := section_relocations c (Z.to_nat c.(ehdr).(e_shnum)) 0 m in
  if negb (r =? ELF_SUCCESS) then Done (r, m) else
  match c.(dynamic) with Some p => dynamic_relocations c p m | None => Done (ELF_SUCCESS, m) end.

(** ** Thread-local storage and the whole *)
Definition elf_setup_tls (fuel : nat) (info : elf_load_info_t) (m : mm) : outcome (Z * mm) :=
  if info.(has_tls) =? 0 then Done (ELF_SUCCESS, m) else
  let sz := align_up info.(tls_size) info.(tls_align) in
  let* (blk, m) := kmalloc fuel sz m in
  if blk =? 0 then Done (ELF_ERROR_NOMEM, m) else
  let m := set_mem m (mmcpy blk info.(tls_base) (Z.to_nat info.(tls_size)) (mem m)) in
  let m := set_mem m (store (mem m) (blk + info.(tls_size)) (replicate (Z.to_nat (sz - info.(tls_size))) 0)) in
  Done (ELF_SUCCESS, m).

Definition elf_load (fuel : nat) (data : list Z) (sz : Z) (m : mm) : outcome (Z * elf_load_info_t * mm) :=
  let* (oc, m) := elf_create_context fuel data sz m in
  match oc with
  | None => Done (ELF_ERROR_INVALID, zero_info, m)
  | Some c =>
    let* (r, c, info, m) := elf_load_segments c zero_info m in
    if negb (r =? ELF_SUCCESS) then let* m := elf_destroy_context fuel c m in Done (r, info, m) else
    let* (c, m) := elf_resolve_symbols fuel c m in
    let* (r, m) := elf_apply_relocations c m in
    if negb (r =? ELF_SUCCESS) then let* m := elf_destroy_context fuel c m in Done (r, info, m) else
    let* (r, m) := elf_setup_tls fuel info m in
    if negb (r =? ELF_SUCCESS) then let* m := elf_destroy_context fuel c m in Done (r, info, m) else
    Done (ELF_SUCCESS, info, m)
  end.
End Elf.
