(* ===== verification/ElfProps.v ===== *)
(** * The symbol table of the ELF loader

    The hash table of [elf_resolve_symbols] is compared with the list of named
    symbols the file gives: a name has the value of its last definition in
    .symtab, else of its first one in .dynsym. The proof carries the kernel heap
    of MemoryHeap.v along, so that the allocations are known to succeed. *)
From Stdlib Require Import ZArith Lia.
From stdpp Require Import base numbers list gmap.
From S2P Require Import Prelude NetPkt Memory MemoryProps MemoryHeap Elf.

Module ElfProps.
Import Pkt Mem MemProps MemHeap Elf.
Local Open Scope Z_scope.
Local Open Scope outcome_scope.

(** ** What a table of the file says *)

(** The entries of a table that have a name, in its order, undefined ones (SHN_UNDEF) included: name and unbiased value. *)
Fixpoint named_symbols (d : list Z) (tab str : Z) (n : nat) (i : Z) : outcome (list (list Z * Z)) :=
  match n with
  | O => Done []
  | S n =>
    let p := tab + sizeof_sym * i in
    let* skip := nameless d p in
    if skip then named_symbols d tab str n (i + 1) else
    let* nm := st_name d p in
    let* name := cstring d (str + nm) in
    let* v := st_value d p in let* z := st_size d p in let* inf := st_info d p in let* sec := st_shndx d p in
    let* l := named_symbols d tab str n (i + 1) in
    Done ((name, v) :: l)
  end.
Definition table_symbols (d : list Z) (tab str : option Z) (count : Z) : outcome (list (list Z * Z)) :=
  match tab, str with Some tab, Some str => named_symbols d tab str (Z.to_nat count) 0 | _, _ => Done [] end.

Fixpoint last_match (name : list Z) (l : list (list Z * Z)) : option Z :=
  match l with
  | [] => None
  | (k, v) :: l => match last_match name l with Some v => Some v | None => if decide (k = name) then Some v else None end
  end.
Fixpoint first_match (name : list Z) (l : list (list Z * Z)) : option Z :=
  match l with
  | [] => None
  | (k, v) :: l => if decide (k = name) then Some v else first_match name l
  end.
Definition symbol_meaning (syms dyns : list (list Z * Z)) (name : list Z) : option Z :=
  match last_match name syms with Some v => Some v | None => first_match name dyns end.

(** ** The chains as one list *)
Definition table_ok (h : list (list elf_symbol_t)) (E : list elf_symbol_t) : Prop :=
  length h = 256%nat /\ forall b, (b < 256)%nat -> nth b h [] = filter (fun x => bucket x.(sym_name) = b) E.

Lemma bucket_lt name : (bucket name < 256)%nat.
Proof. unfold bucket. pose proof (Z.mod_pos_bound (elf_hash name) 256). lia. Qed.

Lemma table_ok_empty : table_ok (replicate 256 []) [].
Proof.
  split; [apply length_replicate|]. intros b Hb. cbn [filter]. rewrite nth_lookup.
  by rewrite lookup_replicate_2 by lia.
Qed.

Lemma table_ok_add h E x : table_ok h E -> table_ok (alter (cons x) (bucket x.(sym_name)) h) (x :: E).
Proof.
  intros [Hl Hb]. split; [by rewrite length_alter|]. intros b Hlt. rewrite filter_cons, <- (Hb b Hlt), !nth_lookup.
  rewrite list_lookup_alter. destruct (decide (bucket (sym_name x) = b)) as [<-|Hne]; [|done].
  destruct (lookup_lt_is_Some_2 h (bucket (sym_name x))) as [y ->]; [lia|done].
Qed.

Lemma find_in_filter E b name : bucket name = b ->
  find_in (filter (fun x => bucket x.(sym_name) = b) E) name = find_in E name.
Proof.
  intros Hb. induction E as [|x E IH]; [done|]. rewrite filter_cons. unfold find_in in *. cbn [List.find].
  case_decide as Hx; cbn [List.find]; case_bool_decide as Hn; try done; congruence.
Qed.

Lemma find_symbol_list c E name : table_ok c.(symbol_hash) E -> elf_find_symbol c name = find_in E name.
Proof.
  intros [_ Hb]. unfold elf_find_symbol. rewrite (Hb _ (bucket_lt name)). by apply find_in_filter.
Qed.

Definition values (E : list elf_symbol_t) (name : list Z) : option Z := value <$> find_in E name.

Lemma values_cons x E name : values (x :: E) name = if decide (sym_name x = name) then Some (value x) else values E name.
Proof. unfold values, find_in. cbn [List.find]. repeat case_decide || case_bool_decide; done. Qed.

(** ** The heap: the first free block is large enough *)
Lemma kmalloc_head fuel n m a sz L : heap_ok m ((a, sz) :: L) -> 0 < n -> n + 15 < 2 ^ 64 -> align_size n + 56 <= sz ->
  (0 < fuel)%nat -> let rest := (a + 24 + align_size n, sz - (24 + align_size n)) in
  exists m', kmalloc fuel n m = Done (a + 24, m') /\ 0 < a + 24 /\ heap_ok m' (rest :: L) /\ separated ((a, align_size n) :: rest :: L).
Proof.
  intros Hok Hn Hb Hr Hf rest. pose proof Hok as [_ [Hin _]]. apply Forall_cons in Hin as [[Ha _] _]. cbn [fst] in Ha.
  destruct (kmalloc_first_fit fuel n m [] a sz L Hok Hn Hb (Forall_nil_2 _) ltac:(lia) Hf) as (m' & E & Hok' & Hsep & _).
  exists m'. split; [done|]. split; [lia|]. unfold remainder, taken, splits in Hok', Hsep.
  rewrite (proj2 (Z.leb_le _ _)) in Hok', Hsep by lia. cbn [app] in Hok', Hsep.
  replace (sz - align_size n - 24) with (sz - (24 + align_size n)) in Hok', Hsep by lia. done.
Qed.

(** Writing inside a block that was handed out. *)
Lemma heap_ok_store m a sz L b l : heap_ok m L -> separated ((a, sz) :: L) -> a + 24 <= b -> b + Z.of_nat (length l) <= a + 24 + sz ->
  heap_ok (set_mem m (store (mem m) b l)) L.
Proof.
  intros [Hc Hs] [_ Hap] Hb Hl. split; [|done]. cbn [heap_free_list set_mem]. eapply free_chain_frame; [exact Hc|].
  intros x xs Hx. apply list_elem_of_lookup in Hx as [k Hk]. specialize (Hap (S k) 0%nat (x, xs) (a, sz) ltac:(lia) Hk eq_refl).
  pose proof (proj1 Hs) as Hin. apply (Forall_lookup_1 _ _ _ _ Hin) in Hk as (_ & Hxs & _).
  unfold apart in Hap. cbn [fst snd] in Hap, Hxs.
  unfold same_header, hb_size, hb_next, hb_is_free, hb_magic, load64, load32. cbn [mem set_mem].
  split_and!; apply load_store_ne; lia.
Qed.

(** Heap space of an entry and its name, with their headers. *)
Definition entry_cost (x : list Z * Z) : Z := 96 + align_size (Z.of_nat (length (fst x)) + 1).
Definition table_cost (l : list (list Z * Z)) : Z := foldr (fun x n => entry_cost x + n) 0 l.

(** The free list starts with a block that holds [n] bytes and a last header; the other blocks are arbitrary. *)
Definition heap_room (m : mm) (n : Z) : Prop := exists a sz L, heap_ok m ((a, sz) :: L) /\ n + 56 <= sz.

Lemma table_cost_nonneg l : Forall (fun x => Z.of_nat (length (fst x)) < 2 ^ 32) l -> 0 <= table_cost l.
Proof.
  induction 1 as [|x l Hx Hl IH]; cbn [table_cost foldr]; [lia|]. fold (table_cost l). unfold entry_cost.
  pose proof (align_size_spec (Z.of_nat (length (fst x)) + 1) ltac:(lia) ltac:(lia)). lia.
Qed.

(** The fields of a symbol that [add_symbol] reads besides its value. *)
Definition readable (d : list Z) (p : Z) : Prop :=
  (exists z, st_size d p = Done z) /\ (exists i, st_info d p = Done i) /\ (exists s, st_shndx d p = Done s).

Lemma room_cons m x l k : heap_room m (table_cost (x :: l) + k) -> heap_room m (entry_cost x + (table_cost l + k)).
Proof. cbn [table_cost foldr]. fold (table_cost l). by rewrite Z.add_assoc. Qed.

Lemma room_drop m x k : heap_room m (entry_cost x + k) -> Z.of_nat (length (fst x)) < 2 ^ 32 -> heap_room m k.
Proof.
  intros (a & sz & L & Hok & Hsz) Hx. exists a, sz, L. split; [done|]. unfold entry_cost in Hsz.
  pose proof (align_size_spec (Z.of_nat (length (fst x)) + 1) ltac:(lia) ltac:(lia)). lia.
Qed.

Section Add.
Context (fuel : nat) (c : elf_context_t) (m : mm) (E : list elf_symbol_t) (n : Z).
Context (Hfuel : (0 < fuel)%nat) (Hok : table_ok c.(symbol_hash) E).

Lemma add_symbol_room p name v : st_value c.(elf_data) p = Done v ->
  readable c.(elf_data) p -> Z.of_nat (length name) < 2 ^ 32 ->
  0 <= n -> heap_room m (entry_cost (name, v) + n) ->
  exists x m', add_symbol fuel c p name m =
      Done (set_symbol_hash (alter (cons x) (bucket name) c.(symbol_hash)) c, m') /\
    sym_name x = name /\ value x = u64 (v + c.(load_bias)) /\ heap_room m' n.
Proof.
  intros Hv ([z Hz] & [i Hi] & [s Hs]) Hlen Hn (a & sz & L & Hh & Hsz). unfold entry_cost in Hsz. cbn [fst] in Hsz.
  pose proof (align_size_spec (Z.of_nat (length name) + 1) ltac:(lia) ltac:(lia)) as [Hal _].
  assert (align_size sizeof_symbol = 48) as H40 by reflexivity.
  destruct (kmalloc_head fuel sizeof_symbol m a sz L Hh) as (m1 & E1 & Ha1 & Hh1 & _); [rewrite ?H40; unfold sizeof_symbol; lia..|done|]. rewrite H40 in Hh1.
  destruct (kmalloc_head fuel (Z.of_nat (length name) + 1) m1 _ _ L Hh1) as (m2 & E2 & Ha2 & Hh2 & Hsep); [lia..|done|].
  unfold add_symbol. rewrite E1. cbn [obind]. rewrite (proj2 (Z.eqb_neq _ _)) by lia.
  rewrite E2. cbn [obind]. rewrite (proj2 (Z.eqb_neq _ _)) by lia. rewrite Hv, Hz, Hi, Hs. cbn [obind].
  eexists _, _. split; [done|]. split; [done|]. split; [done|].
  eexists _, _, L. split; [eapply heap_ok_store; [exact Hh2|exact Hsep|lia|rewrite length_app; cbn [length]; lia]|]. lia.
Qed.
End Add.

(** ** The two loops *)
Lemma done_bind {A B} (o : outcome A) (f : A -> outcome B) r : obind o f = Done r -> exists a, o = Done a /\ f a = Done r.
Proof. destruct o as [a| |]; intros H; [by exists a|done|done]. Qed.

Lemma named_step d tab str n i l : named_symbols d tab str (S n) i = Done l ->
  let p := tab + sizeof_sym * i in
  (nameless d p = Done true /\ named_symbols d tab str n (i + 1) = Done l) \/
  exists nm name v l', nameless d p = Done false /\ st_name d p = Done nm /\ cstring d (str + nm) = Done name /\
    st_value d p = Done v /\ readable d p /\ l = (name, v) :: l' /\ named_symbols d tab str n (i + 1) = Done l'.
Proof.
  cbn [named_symbols]. intros Hl. apply done_bind in Hl as (skip & Hskip & Hl). destruct skip; [by left|right].
  apply done_bind in Hl as (nm & Hnm & Hl). apply done_bind in Hl as (name & Hname & Hl).
  apply done_bind in Hl as (v & Hv & Hl). apply done_bind in Hl as (z & Hz & Hl).
  apply done_bind in Hl as (f & Hf & Hl). apply done_bind in Hl as (s & Hs & Hl).
  apply done_bind in Hl as (l' & Hl' & Hl). injection Hl as <-. unfold readable. eauto 20.
Qed.

Lemma set_symbol_hash_same c : set_symbol_hash c.(symbol_hash) c = c.
Proof. by destruct c. Qed.

Lemma add_symtab_spec fuel tab str n : forall i c m E l k, (0 < fuel)%nat -> table_ok c.(symbol_hash) E ->
  named_symbols c.(elf_data) tab str n i = Done l -> Forall (fun x => Z.of_nat (length (fst x)) < 2 ^ 32) l ->
  0 <= k -> heap_room m (table_cost l + k) ->
  exists h m' E', add_symtab fuel tab str n i c m = Done (set_symbol_hash h c, m') /\ table_ok h E' /\ heap_room m' k /\
    forall name, values E' name = match last_match name l with Some v => Some (u64 (v + c.(load_bias))) | None => values E name end.
Proof.
  induction n as [|n IH]; intros i c m E l k Hf Hok Hl Hsm Hk Hroom; cbn [add_symtab].
  { injection Hl as <-. exists c.(symbol_hash), m, E. rewrite set_symbol_hash_same. done. }
  apply named_step in Hl as [[Hskip Hl]|(nm & nam & v & l' & Hskip & Hnm & Hnam & Hv & Hrd & -> & Hl)];
    rewrite Hskip; cbn [obind]; [by eapply IH|]. rename l' into l.
  apply Forall_cons in Hsm as [Hx Hsm]. cbn [fst] in Hx. pose proof (table_cost_nonneg _ Hsm) as Hnn.
  rewrite Hnm. cbn [obind]. rewrite Hnam. cbn [obind].
  destruct (add_symbol_room fuel c m (table_cost l + k) Hf (tab + sizeof_sym * i) nam v) as (x & m1 & E1 & Hxn & Hxv & Hr1);
    [done..|lia|by apply room_cons|].
  rewrite E1. cbn [obind].
  destruct (IH (i + 1) (set_symbol_hash (alter (cons x) (bucket nam) (symbol_hash c)) c) m1 (x :: E) l k) as (h & m' & E' & R & Ht & Hr & Hvs);
    [done|cbn [symbol_hash set_symbol_hash]; rewrite <- Hxn; by apply table_ok_add|done|done|done|done|].
  exists h, m', E'. split; [exact R|]. split; [done|]. split; [done|]. intros name. rewrite Hvs.
  cbn [last_match load_bias set_symbol_hash]. destruct (last_match name l); [done|].
  rewrite values_cons, Hxn, Hxv. by case_decide.
Qed.
Lemma add_dynsym_spec fuel tab str n : forall i c m E l k, (0 < fuel)%nat -> table_ok c.(symbol_hash) E ->
  named_symbols c.(elf_data) tab str n i = Done l -> Forall (fun x => Z.of_nat (length (fst x)) < 2 ^ 32) l ->
  0 <= k -> heap_room m (table_cost l + k) ->
  exists h m' E', add_dynsym fuel tab str n i c m = Done (set_symbol_hash h c, m') /\ table_ok h E' /\ heap_room m' k /\
    forall name, values E' name =
      match values E name with Some v => Some v | None => (fun v => u64 (v + c.(load_bias))) <$> first_match name l end.
Proof.
  induction n as [|n IH]; intros i c m E l k Hf Hok Hl Hsm Hk Hroom; cbn [add_dynsym].
  { injection Hl as <-. exists c.(symbol_hash), m, E. rewrite set_symbol_hash_same. split_and!; [done..|].
    intros name. by destruct (values E name). }
  apply named_step in Hl as [[Hskip Hl]|(nm & nam & v & l' & Hskip & Hnm & Hnam & Hv & Hrd & -> & Hl)];
    rewrite Hskip; cbn [obind]; [by eapply IH|]. rename l' into l.
  apply Forall_cons in Hsm as [Hx Hsm]. cbn [fst] in Hx. pose proof (table_cost_nonneg _ Hsm) as Hnn.
  rewrite Hnm. cbn [obind]. rewrite Hnam. cbn [obind]. apply room_cons in Hroom.
  pose proof (find_symbol_list c E nam Hok) as Hfind. destruct (elf_find_symbol c nam) as [y|].
  - apply room_drop in Hroom; [|done].
    destruct (IH (i + 1) c m E l k Hf Hok Hl Hsm Hk Hroom) as (h & m' & E' & R & Ht & Hr & Hvs).
    exists h, m', E'. split_and!; [done..|]. intros name. rewrite Hvs. cbn [first_match].
    destruct (values E name) eqn:Hn; [done|]. case_decide as Hnn'; [|done]. subst name.
    unfold values in Hn. by rewrite <- Hfind in Hn.
  - destruct (add_symbol_room fuel c m (table_cost l + k) Hf (tab + sizeof_sym * i) nam v) as (x & m1 & E1 & Hxn & Hxv & Hr1);
      [done..|lia|done|].
    rewrite E1. cbn [obind].
    destruct (IH (i + 1) (set_symbol_hash (alter (cons x) (bucket nam) (symbol_hash c)) c) m1 (x :: E) l k) as (h & m' & E' & R & Ht & Hr & Hvs);
      [done|cbn [symbol_hash set_symbol_hash]; rewrite <- Hxn; by apply table_ok_add|done|done|done|done|].
    exists h, m', E'. split_and!; [done..|]. intros name. rewrite Hvs, values_cons, Hxn, Hxv.
    cbn [first_match load_bias set_symbol_hash]. case_decide as Hd; [|done]. subst name.
    unfold values. by rewrite <- Hfind.
Qed.

Lemma string_from_length l name : string_from l = Done name -> (length name < length l)%nat.
Proof.
  revert name. induction l as [|x l IH]; intros name; cbn [string_from]; [done|].
  destruct (x =? 0); [intros [= <-]; cbn [length]; lia|]. intros H. apply done_bind in H as (r & Hr & [= <-]).
  specialize (IH r Hr). cbn [length]. lia.
Qed.

Lemma named_symbols_small d tab str n : forall i l, zlen d < 2 ^ 32 -> named_symbols d tab str n i = Done l ->
  Forall (fun x => Z.of_nat (length (fst x)) < 2 ^ 32) l.
Proof.
  induction n as [|n IH]; intros i l Hd Hl; [by injection Hl as <-|].
  apply named_step in Hl as [[_ Hl]|(nm & nam & v & l' & _ & _ & Hnam & _ & _ & -> & Hl)]; [by eapply IH|].
  constructor; [|by eapply IH]. cbn [fst]. unfold cstring in Hnam. destruct (_ <? 0); [done|].
  apply string_from_length in Hnam. rewrite length_drop in Hnam. unfold zlen in Hd. lia.
Qed.

(** A named symbol of the table is in the list. *)
Lemma named_symbols_in d tab str n k nm name : forall i l, named_symbols d tab str n i = Done l -> (k < n)%nat ->
  let p := tab + sizeof_sym * (i + Z.of_nat k) in
  nameless d p = Done false -> st_name d p = Done nm -> cstring d (str + nm) = Done name -> exists v, (name, v) ∈ l.
Proof.
  revert k. induction n as [|n IH]; intros k i l Hl Hk p Hn Hnm Hname; [lia|].
  destruct k as [|k].
  - unfold p in *. rewrite Z.add_0_r in *.
    apply named_step in Hl as [[Hs _]|(nm' & nam & v & l' & _ & E1 & E2 & _ & _ & -> & _)]; [congruence|].
    rewrite Hnm in E1. injection E1 as <-. rewrite Hname in E2. injection E2 as <-. exists v. by left.
  - unfold p in *. replace (i + Z.of_nat (S k)) with (i + 1 + Z.of_nat k) in * by lia.
    apply named_step in Hl as [[_ Hl]|(? & ? & ? & l' & _ & _ & _ & _ & _ & -> & Hl)].
    + eapply (IH k (i + 1)); eauto; lia.
    + destruct (IH k (i + 1) l' Hl ltac:(lia) Hn Hnm Hname) as [w Hw]. exists w. by right.
Qed.

Lemma first_match_in name l v : (name, v) ∈ l -> first_match name l <> None.
Proof.
  induction l as [|[k w] l IH]; [by intros ?%not_elem_of_nil|]. intros [[= <- <-]|H]%elem_of_cons; cbn [first_match].
  - by rewrite decide_True.
  - case_decide; [done|by apply IH].
Qed.

(** ** [elf_resolve_symbols] *)
Section Resolve.
Context (fuel : nat) (c : elf_context_t) (m : mm) (syms dyns : list (list Z * Z)).
Context (Hfuel : (0 < fuel)%nat) (Hempty : c.(symbol_hash) = replicate 256 []) (Hsize : zlen c.(elf_data) < 2 ^ 32).
Context (Hsyms : table_symbols c.(elf_data) c.(symtab) c.(strtab) c.(symtab_count) = Done syms).
Context (Hdyns : table_symbols c.(elf_data) c.(dynsym) c.(dynstr) c.(dynsym_count) = Done dyns).
Context (Hroom : heap_room m (table_cost syms + table_cost dyns)).

Lemma table_symbols_small tab str n l : table_symbols c.(elf_data) tab str n = Done l ->
  Forall (fun x => Z.of_nat (length (fst x)) < 2 ^ 32) l.
Proof.
  unfold table_symbols. destruct tab as [tab|], str as [str|]; try (intros [= <-]; constructor). by apply named_symbols_small.
Qed.

Lemma resolve_spec : exists h m', elf_resolve_symbols fuel c m = Done (set_symbol_hash h c, m') /\
  forall name, value <$> elf_find_symbol (set_symbol_hash h c) name =
    (fun v => u64 (v + c.(load_bias))) <$> symbol_meaning syms dyns name.
Proof.
  pose proof (table_symbols_small _ _ _ _ Hsyms) as Hs1. pose proof (table_symbols_small _ _ _ _ Hdyns) as Hs2.
  pose proof (table_cost_nonneg _ Hs2) as Hn2.
  assert (exists h m' E, match c.(symtab), c.(strtab) with
      | Some tab, Some str => add_symtab fuel tab str (Z.to_nat c.(symtab_count)) 0 c m
      | _, _ => Done (c, m) end = Done (set_symbol_hash h c, m') /\ table_ok h E /\ heap_room m' (table_cost dyns) /\
    forall name, values E name = (fun v => u64 (v + c.(load_bias))) <$> last_match name syms) as (h1 & m1 & E1 & R1 & T1 & H1 & V1).
  { unfold table_symbols in Hsyms. destruct c.(symtab) as [tab|], c.(strtab) as [str|].
    1: { destruct (add_symtab_spec fuel tab str (Z.to_nat c.(symtab_count)) 0 c m [] syms (table_cost dyns) Hfuel) as (h & m' & E & R & T & H & V);
           [rewrite Hempty; apply table_ok_empty|done..|].
         exists h, m', E. split_and!; [done..|]. intros name. rewrite V. by destruct (last_match name syms). }
    all: injection Hsyms as <-; exists c.(symbol_hash), m, []; rewrite set_symbol_hash_same;
      split_and!; [done|rewrite Hempty; apply table_ok_empty|done|done]. }
  unfold elf_resolve_symbols. rewrite R1. cbn [obind dynsym dynstr dynsym_count set_symbol_hash].
  unfold table_symbols in Hdyns. destruct c.(dynsym) as [tab|] eqn:Ed, c.(dynstr) as [str|] eqn:Es.
  1: { destruct (add_dynsym_spec fuel tab str (Z.to_nat c.(dynsym_count)) 0 (set_symbol_hash h1 c) m1 E1 dyns 0 Hfuel)
         as (h & m' & E & R & T & H & V); [done..|by rewrite Z.add_0_r|].
       exists h, m'. split; [exact R|]. intros name. rewrite (find_symbol_list _ E) by done. fold (values E name).
       rewrite V, V1. unfold symbol_meaning. by destruct (last_match name syms). }
  all: injection Hdyns as <-; exists h1, m1; split; [done|]; intros name; rewrite (find_symbol_list _ E1) by done;
    fold (values E1 name); rewrite V1; unfold symbol_meaning; by destruct (last_match name syms).
Qed.

(** C36: when the first block of the kernel's free list has room for all entries, [elf_resolve_symbols] returns, and its
    hash table maps a name to the relocated value of the last entry of that name in .symtab, else of the first one in
    .dynsym, and to nothing else. Undefined entries (SHN_UNDEF) count like definitions: a name that nothing
    defines is mapped, too, to the value field of its undefined entry (zero) plus the load bias, see
    [elf_undefined_unreported]. *)
Theorem elf_symbols_resolved : exists h m', elf_resolve_symbols fuel c m = Done (set_symbol_hash h c, m') /\
  forall name, value <$> elf_find_symbol (set_symbol_hash h c) name =
    (fun v => u64 (v + c.(load_bias))) <$> symbol_meaning syms dyns name.
Proof. exact resolve_spec. Qed.

(** an undefined symbol of .dynsym is never reported. The table has an
    entry for the undefined symbol itself, so a relocation against it
    succeeds, whether or not anything defines the name. *)
Theorem elf_undefined_unreported tab str i nm name :
  c.(dynsym) = Some tab -> c.(dynstr) = Some str -> 0 < i < c.(dynsym_count) ->
  let p := tab + sizeof_sym * i in
  nameless c.(elf_data) p = Done false -> st_shndx c.(elf_data) p = Done SHN_UNDEF ->
  st_name c.(elf_data) p = Done nm -> cstring c.(elf_data) (str + nm) = Done name ->
  exists c' m' v, elf_resolve_symbols fuel c m = Done (c', m') /\ reloc_symbol c' i c'.(dynsym) c'.(dynstr) = Done (inr v).
Proof.
  intros Ht Hs Hi p Hn Hu Hnm Hname. destruct resolve_spec as (h & m' & R & V).
  assert (nm <> 0) as Hnm0.
  { intros ->. unfold nameless in Hn. rewrite Hnm in Hn. done. }
  assert (exists x, elf_find_symbol (set_symbol_hash h c) name = Some x) as [x Hx].
  { unfold table_symbols in Hdyns. rewrite Ht, Hs in Hdyns.
    destruct (named_symbols_in _ _ _ _ (Z.to_nat i) nm name 0 _ Hdyns ltac:(lia)) as [v Hv];
      rewrite ?Z.add_0_l, ?Z2Nat.id by lia; [done..|].
    apply first_match_in in Hv. specialize (V name). unfold symbol_meaning in V.
    destruct (elf_find_symbol _ name) as [x|]; [by exists x|].
    destruct (last_match name syms); [done|]. by destruct (first_match name dyns). }
  exists (set_symbol_hash h c), m', (value x). split; [done|]. cbn [dynsym dynstr set_symbol_hash].
  unfold reloc_symbol. rewrite Ht, Hs, (proj2 (Z.eqb_neq i 0)) by lia. cbn [elf_data set_symbol_hash].
  fold p. rewrite Hu. cbn [obind]. rewrite Z.eqb_refl, Hnm. cbn [obind]. rewrite (proj2 (Z.eqb_neq nm 0)) by done.
  rewrite Hname. cbn [obind]. by rewrite Hx.
Qed.
End Resolve.
End ElfProps.
