(* ===== verification/ElfLoad.v ===== *)
(** * Segments and relocations of the ELF loader

    Where the bytes of the loadable segments end up, what the entry point is,
    and what a relocation table does to memory. *)
From Stdlib Require Import ZArith Lia.
From stdpp Require Import base numbers list gmap.
From S2P Require Import Prelude NetPkt Memory MemoryProps MemoryHeap Elf ElfProps.

Module ElfLoad.
Import Pkt PktProps Mem MemProps Elf ElfProps.
Local Open Scope Z_scope.
Local Open Scope outcome_scope.

(** ** Page arithmetic *)
Lemma align_down_page v : is_u64 v -> align_down v 4096 = v - v mod 4096.
Proof.
  intros Hv. unfold align_down. change (u64 (Z.lnot (u64 (4096 - 1)))) with (2 ^ 64 - 2 ^ 12).
  rewrite land_align by (unfold is_u64 in Hv; lia). change (2 ^ 12) with 4096. pose proof (Z.div_mod v 4096). lia.
Qed.

Lemma align_up_page n : 0 < n <= 4096 -> align_up n 4096 = 4096.
Proof.
  intros Hn. unfold align_up. change (u64 (Z.lnot (u64 (4096 - 1)))) with (2 ^ 64 - 2 ^ 12).
  rewrite wrap_small, land_align by lia. change (2 ^ 12) with 4096.
  rewrite <- (Z.div_unique (n + 4096 - 1) 4096 1 (n - 1)) by lia. lia.
Qed.

(** ** A segment of one page *)
Record segment := mk_seg { seg_vaddr : Z; seg_bytes : list Z; seg_memsz : Z }.

(** The segment's bytes fit its memory size, its memory one page. *)
Definition fits (bias : Z) (s : segment) : Prop :=
  let o := u64 (s.(seg_vaddr) + bias) mod 4096 in
  0 < o + s.(seg_memsz) <= 4096 /\ zlen s.(seg_bytes) <= s.(seg_memsz).

(** The page of a segment: zeros up to its offset, its bytes, zeros. *)
Definition page_image (bias : Z) (s : segment) : list Z :=
  replicate (Z.to_nat (u64 (s.(seg_vaddr) + bias) mod 4096)) 0 ++ s.(seg_bytes).

(** What the program header at [p] says, when it is loadable. *)
Definition read_segment (d : list Z) (p : Z) : outcome segment :=
  let* v := p_vaddr d p in
  let* memsz := p_memsz d p in
  let* filesz := p_filesz d p in
  let* o := p_offset d p in
  let* bs := load_bytes d o filesz in
  Done (mk_seg v bs memsz).

Lemma map_one_page v sz m pg l : is_u64 v -> 0 < v mod 4096 + sz <= 4096 -> 0 <= sz -> pmm_ok m (pg :: l) ->
  exists m', elf_map_memory v sz m = (pg, m') /\ pmm_ok m' l /\ is_page pg /\ pg ∉ l /\
    forall x, peek (mem m') x = if decide (pg <= x < pg + 4096) then 0 else peek (mem m) x.
Proof.
  intros Hv Hsz Hs0 Hok. destruct (pmm_alloc_cons m pg l Hok) as (m1 & E1 & Hok1 & Hpg & Hnin & Hpk & _).
  unfold elf_map_memory. rewrite align_down_page by done.
  replace (v - (v - v mod 4096)) with (v mod 4096) by lia. rewrite wrap_small, align_up_page by lia.
  change (4096 / 4096) with 1. unfold pmm_alloc_pages. change (1 =? 0) with false. cbn iota. rewrite E1.
  destruct Hpg as (Hp1 & Hp2 & Hp3). rewrite (proj2 (Z.eqb_neq pg 0)) by lia. change (Z.to_nat (1 - 1)) with 0%nat.
  cbn [alloc_rest]. rewrite (proj2 (Z.eqb_neq pg 0)) by lia.
  assert (forall x, peek (store (mem m1) pg (replicate (Z.to_nat 4096) 0)) x = peek (mem m1) x) as Hz.
  { intros x. rewrite peek_store, length_replicate, Hpk. rewrite Z2Nat.id by lia. repeat case_decide; try lia; try done.
    apply get_lookup, lookup_replicate_2. lia. }
  eexists. split; [done|]. split_and!; [|done..|].
  - destruct Hok1 as [Hc Hnd]. split; [|done]. cbn [mem free_list set_mem]. eapply page_chain_frame; [exact Hc|]. intros. apply Hz.
  - intros x. cbn [mem set_mem]. by rewrite Hz.
Qed.

(** Writing inside the page that was taken leaves the free list alone. *)
Lemma pmm_ok_store m pg l a bs : pmm_ok m l -> is_page pg -> pg ∉ l -> pg <= a -> a + zlen bs <= pg + 4096 ->
  pmm_ok (set_mem m (store (mem m) a bs)) l.
Proof.
  intros [Hc Hnd] Hpg Hnin H1 H2. split; [|done]. cbn [mem free_list set_mem]. eapply page_chain_frame; [exact Hc|].
  intros q x Hq Hx. rewrite peek_store, decide_False; [done|]. apply page_chain_pages in Hc. rewrite Forall_forall in Hc.
  assert (pg <> q) by (intros ->; done). unfold zlen in H2. destruct (pages_apart pg q Hpg (Hc q Hq) ltac:(done)); lia.
Qed.

Lemma get_image bias s k : 0 <= k -> let o := u64 (s.(seg_vaddr) + bias) mod 4096 in
  get (page_image bias s) (Z.to_nat k) = if decide (o <= k < o + zlen s.(seg_bytes)) then get s.(seg_bytes) (Z.to_nat (k - o)) else 0.
Proof.
  intros Hk o. assert (0 <= o < 4096) as Ho by (apply Z.mod_pos_bound; lia). unfold page_image. fold o.
  unfold get. case_decide as Hd.
  - rewrite app_nth2; rewrite length_replicate; [f_equal; lia|lia].
  - destruct (Z.lt_ge_cases k o).
    + rewrite app_nth1 by (rewrite length_replicate; lia). rewrite nth_lookup, lookup_replicate_2 by lia. done.
    + apply nth_overflow. rewrite length_app, length_replicate. unfold zlen in Hd. lia.
Qed.
(** The loadable segments of the program headers, in order; the other fields
    the loader reads must be inside the file. *)
Fixpoint segments (d : list Z) (phoff : Z) (n : nat) (i : Z) : outcome (list segment) :=
  match n with
  | O => Done []
  | S n =>
    let p := phoff + sizeof_phdr * i in
    let* t := p_type d p in
    let* o := p_offset d p in let* v := p_vaddr d p in let* z := p_memsz d p in let* a := p_align d p in
    if t =? PT_LOAD then
      let* s := read_segment d p in
      let* l := segments d phoff n (i + 1) in Done (s :: l)
    else segments d phoff n (i + 1)
  end.

(** Memory after the segments were put into the pages. *)
Definition in_page (pg x : Z) : Prop := pg <= x < pg + 4096.
#[global] Instance in_page_dec pg x : Decision (in_page pg x).
Proof. unfold in_page. apply _. Defined.

Fixpoint loaded (bias : Z) (segs : list segment) (pages : list Z) (old : Z -> Z) (x : Z) : Z :=
  match segs, pages with
  | s :: segs, pg :: pages =>
    if decide (in_page pg x) then get (page_image bias s) (Z.to_nat (x - pg)) else loaded bias segs pages old x
  | _, _ => old x
  end.

Section Segment.
Context (c : elf_context_t) (p : Z) (s : segment).
Context (Hseg : read_segment c.(elf_data) p = Done s) (Hfit : fits c.(load_bias) s).

Lemma load_segment_page m pg l : pmm_ok m (pg :: l) ->
  exists m', load_segment c p m = Done (ELF_SUCCESS, m') /\ pmm_ok m' l /\ is_page pg /\
    forall x, peek (mem m') x =
      if decide (in_page pg x) then get (page_image c.(load_bias) s) (Z.to_nat (x - pg)) else peek (mem m) x.
Proof.
  intros Hok. unfold read_segment in Hseg. apply done_bind in Hseg as (v & Hv & H). apply done_bind in H as (memsz & Hm & H).
  apply done_bind in H as (filesz & Hf & H). apply done_bind in H as (o & Ho & H). apply done_bind in H as (bs & Hbs & [= <-]).
  unfold fits in Hfit. cbn [seg_vaddr seg_bytes seg_memsz] in Hfit. destruct Hfit as [Hone Hfz].
  pose proof (length_load _ _ _ _ Hbs) as Hlen. assert (0 <= zlen bs) as Hnn by (unfold zlen; lia).
  unfold load_segment. rewrite Hv, Hm. cbn [obind]. set (va := u64 (v + load_bias c)) in *.
  assert (is_u64 va) as Hva by (apply Z.mod_pos_bound; lia). pose proof (Z.mod_pos_bound va 4096 ltac:(lia)) as Hoff.
  destruct (map_one_page va memsz m pg l Hva Hone ltac:(lia) Hok) as (m1 & -> & Hok1 & Hpg & Hnin & Hpk).
  pose proof Hpg as (_ & Hp0 & _). rewrite (proj2 (Z.eqb_neq pg 0)) by lia. rewrite Hf. cbn [obind].
  rewrite align_down_page by done. replace (pg + (va - (va - va mod 4096))) with (pg + va mod 4096) by lia.
  set (dst := pg + va mod 4096) in *.
  assert (exists m2, (if 0 <? filesz then let* o := p_offset (elf_data c) p in let* bs := load_bytes (elf_data c) o filesz in
      Done (set_mem m1 (store (mem m1) dst bs)) else Done m1) = Done m2 /\ pmm_ok m2 l /\
    forall x, peek (mem m2) x = if decide (dst <= x < dst + zlen bs) then get bs (Z.to_nat (x - dst)) else peek (mem m1) x)
    as (m2 & -> & Hok2 & Hpk2).
  { rewrite Ho. cbn [obind]. rewrite Hbs. cbn [obind]. destruct (Z.ltb_spec 0 filesz).
    - eexists. split; [done|]. split; [by eapply (pmm_ok_store _ pg); [..|lia|lia]|]. intros x. apply peek_store.
    - exists m1. split; [done|]. split; [done|]. intros x. rewrite decide_False by lia. done. }
  cbn [obind]. set (m3 := if filesz <? memsz then _ else m2).
  assert (pmm_ok m3 l /\ forall x, peek (mem m3) x = if decide (dst + filesz <= x < dst + memsz) then 0 else peek (mem m2) x)
    as [Hok3 Hpk3].
  { unfold m3. destruct (Z.ltb_spec filesz memsz); [|split; [done|]; intros x; by rewrite decide_False by lia]. split.
    - eapply (pmm_ok_store _ pg); [done..|lia|]. unfold zlen. rewrite length_replicate, Z2Nat.id by lia. lia.
    - intros x. cbn [mem set_mem]. rewrite peek_store, length_replicate, Z2Nat.id by lia. repeat case_decide; try lia; try done.
      apply get_lookup, lookup_replicate_2. lia. }
  exists m3. split_and!; [done..|]. intros x. rewrite Hpk3, Hpk2, Hpk. unfold in_page.
  destruct (decide (pg <= x < pg + 4096)) as [Hx|Hx]; [rewrite get_image by lia; cbn [seg_vaddr seg_bytes]; fold va|];
    repeat case_decide; try lia; try done. f_equal. lia.
Qed.
End Segment.

(** ** All the program headers *)
Lemma segments_step d phoff n i l : segments d phoff (S n) i = Done l ->
  let p := phoff + sizeof_phdr * i in
  exists t o v z a, p_type d p = Done t /\ p_offset d p = Done o /\ p_vaddr d p = Done v /\ p_memsz d p = Done z /\
    p_align d p = Done a /\
    ((t = PT_LOAD /\ exists s l', read_segment d p = Done s /\ l = s :: l' /\ segments d phoff n (i + 1) = Done l') \/
     (t <> PT_LOAD /\ segments d phoff n (i + 1) = Done l)).
Proof.
  cbn [segments]. intros H. apply done_bind in H as (t & Ht & H). apply done_bind in H as (o & Ho & H).
  apply done_bind in H as (v & Hv & H). apply done_bind in H as (z & Hz & H). apply done_bind in H as (a & Ha & H).
  exists t, o, v, z, a. split_and!; [done..|]. destruct (Z.eqb_spec t PT_LOAD); [left|by right].
  apply done_bind in H as (s & Hs & H). apply done_bind in H as (l' & Hl & [= <-]). eauto 10.
Qed.

Lemma segment_range_done c n : forall i l lo hi, segments c.(elf_data) c.(ehdr).(e_phoff) n i = Done l ->
  exists r, segment_range c n i lo hi = Done r.
Proof.
  induction n as [|n IH]; intros i l lo hi H; cbn [segment_range]; [by eexists|].
  apply segments_step in H as (t & o & v & z & a & Ht & _ & Hv & Hz & _ & H). unfold phdr_at. rewrite Ht. cbn [obind].
  destruct H as [(-> & s & l' & _ & _ & H)|[Hne H]].
  - rewrite Z.eqb_refl, Hv. cbn [obind]. rewrite Hz. cbn [obind]. by eapply IH.
  - rewrite (proj2 (Z.eqb_neq _ _)) by done. by eapply IH.
Qed.

Lemma loaded_out bias segs : forall pages old x, Forall (fun pg => ~ in_page pg x) pages -> loaded bias segs pages old x = old x.
Proof.
  induction segs as [|s segs IH]; intros [|pg pages] old x H; cbn [loaded]; try done.
  apply Forall_cons in H as [Hx H]. rewrite decide_False by done. by apply IH.
Qed.

Lemma loaded_ext bias segs : forall pages f g x, f x = g x -> loaded bias segs pages f x = loaded bias segs pages g x.
Proof.
  induction segs as [|s segs IH]; intros [|pg pages] f g x H; cbn [loaded]; try done. case_decide; [done|by apply IH].
Qed.

Lemma pages_around b p pg pages x : page_chain b p (pg :: pages) -> NoDup (pg :: pages) -> in_page pg x ->
  Forall (fun q => ~ in_page q x) pages.
Proof.
  intros Hc [Hnin _]%NoDup_cons Hx. apply page_chain_pages in Hc. apply Forall_cons in Hc as [Hpg Hps].
  rewrite Forall_forall in Hps |- *. intros q Hq Hqx. assert (pg <> q) by (intros ->; done).
  unfold in_page in *. destruct (pages_apart pg q Hpg (Hps q Hq) ltac:(done)); lia.
Qed.

Lemma load_phdrs_spec c n : forall i info m segs pages l,
  segments c.(elf_data) c.(ehdr).(e_phoff) n i = Done segs -> Forall (fits c.(load_bias)) segs ->
  pmm_ok m (pages ++ l) -> length pages = length segs ->
  exists info' m', load_phdrs c n i info m = Done (ELF_SUCCESS, info', m') /\ pmm_ok m' l /\
    forall x, peek (mem m') x = loaded c.(load_bias) segs pages (peek (mem m)) x.
Proof.
  induction n as [|n IH]; intros i info m segs pages l H Hfit Hok Hlen; cbn [load_phdrs].
  { injection H as <-. destruct pages; [|done]. by exists info, m. }
  apply segments_step in H as (t & o & v & z & a & Ht & Ho & Hv & Hz & Ha & H). unfold phdr_at. rewrite Ht. cbn [obind].
  destruct H as [(-> & s & segs' & Hs & -> & H)|[Hne H]].
  - rewrite Z.eqb_refl. destruct pages as [|pg pages]; [done|]. apply Forall_cons in Hfit as [Hf1 Hfit]. cbn [app] in Hok.
    destruct (load_segment_page c _ s Hs Hf1 m pg (pages ++ l) Hok) as (m1 & -> & Hok1 & Hpg & Hpk). cbn [obind].
    rewrite Z.eqb_refl. destruct (IH (i + 1) info m1 segs' pages l H Hfit Hok1) as (info' & m' & R & Hok' & Hld); [by injection Hlen|].
    exists info', m'. split_and!; [done..|]. intros x. rewrite Hld. cbn [loaded].
    destruct (decide (in_page pg x)) as [Hx|Hx].
    + rewrite loaded_out; [by rewrite Hpk, decide_True|]. destruct Hok as [Hc Hnd].
      pose proof (pages_around _ _ _ _ _ Hc Hnd Hx) as HF. by apply Forall_app in HF as [HF _].
    + apply loaded_ext. by rewrite Hpk, decide_False.
  - rewrite (proj2 (Z.eqb_neq _ _)) by done. rewrite Ho, Hv. cbn [obind]. rewrite Hz. cbn [obind]. rewrite Ha. cbn [obind].
    repeat (destruct (_ =? _); [by eapply IH|]). by eapply IH.
Qed.

Lemma loaded_at bias segs : forall pages old k s pg j, Forall is_page pages -> NoDup pages -> segs !! k = Some s ->
  pages !! k = Some pg -> 0 <= j < 4096 -> loaded bias segs pages old (pg + j) = get (page_image bias s) (Z.to_nat j).
Proof.
  induction segs as [|s' segs IH]; intros [|q pages] old k s pg j Hps Hnd Hs Hpg Hj; try done.
  apply Forall_cons in Hps as [Hq Hps]. apply NoDup_cons in Hnd as [Hnin Hnd]. cbn [loaded]. destruct k as [|k].
  - injection Hs as ->. injection Hpg as ->. rewrite decide_True by (unfold in_page; lia). do 2 f_equal. lia.
  - cbn [lookup list_lookup] in Hs, Hpg. rewrite decide_False; [by apply (IH _ _ k)|].
    assert (pg ∈ pages) as Hin by (by eapply list_elem_of_lookup_2). rewrite Forall_forall in Hps.
    assert (q <> pg) by (intros ->; done). unfold in_page. destruct (pages_apart q pg Hq (Hps pg Hin) ltac:(done)); lia.
Qed.

Lemma load_one_page_segments c m segs pages l : c.(ehdr).(e_type) <> ET_DYN ->
  segments c.(elf_data) c.(ehdr).(e_phoff) (Z.to_nat c.(ehdr).(e_phnum)) 0 = Done segs -> Forall (fits 0) segs ->
  pmm_ok m (pages ++ l) -> length pages = length segs ->
  exists info m', elf_load_segments c zero_info m = Done (ELF_SUCCESS, set_load_bias 0 c, info, m') /\
    entry_point info = u64 c.(ehdr).(e_entry) /\ pmm_ok m' l /\
    (forall k s pg, segs !! k = Some s -> pages !! k = Some pg -> forall j, 0 <= j < 4096 ->
       peek (mem m') (pg + j) = get (page_image 0 s) (Z.to_nat j)) /\
    (forall x, Forall (fun pg => ~ in_page pg x) pages -> peek (mem m') x = peek (mem m) x).
Proof.
  intros Hty Hsegs Hfit Hok Hlen. unfold elf_load_segments.
  destruct (segment_range_done c _ 0 _ (2 ^ 64 - 1) 0 Hsegs) as [[lo hi] ->]. cbn [obind].
  rewrite (proj2 (Z.eqb_neq _ _)) by done. cbn [negb].
  destruct (load_phdrs_spec (set_load_bias 0 c) _ 0 (set_base lo zero_info) m segs pages l Hsegs Hfit Hok Hlen)
    as (info & m' & R & Hok' & Hld). cbn [ehdr set_load_bias] in *. rewrite R. cbn [obind]. rewrite Z.eqb_refl. cbn [negb].
  eexists _, m'. split_and!; [done|cbn [entry_point set_entry load_bias set_load_bias]; by rewrite Z.add_0_r|done| |].
  - intros k s pg Hk Hpg j Hj. rewrite Hld. cbn [load_bias set_load_bias].
    destruct Hok as [Hc Hnd]. apply page_chain_pages, Forall_app in Hc as [Hps _]. apply NoDup_app in Hnd as [Hnd _].
    by apply (loaded_at _ _ _ _ k).
  - intros x Hx. rewrite Hld. by apply loaded_out.
Qed.

(** C34: an executable that is not position independent (its type is not ET_DYN) and each of whose loadable segments
    lies within one page, with no more bytes in the file than in memory, is loaded: the k-th segment's page is the
    k-th page of the allocator, with the file's bytes at the page offset of the segment and zeros around them, and
    nothing else in memory changes. The entry point is the address in the file (no load bias): the loader maps no page
    to the segment's own address. *)
Theorem elf_exec_loaded c m segs pages l : c.(ehdr).(e_type) <> ET_DYN ->
  segments c.(elf_data) c.(ehdr).(e_phoff) (Z.to_nat c.(ehdr).(e_phnum)) 0 = Done segs -> Forall (fits 0) segs ->
  pmm_ok m (pages ++ l) -> length pages = length segs ->
  exists info m', elf_load_segments c zero_info m = Done (ELF_SUCCESS, set_load_bias 0 c, info, m') /\
    entry_point info = u64 c.(ehdr).(e_entry) /\ pmm_ok m' l /\
    (forall k s pg, segs !! k = Some s -> pages !! k = Some pg -> forall j, 0 <= j < 4096 ->
       peek (mem m') (pg + j) = get (page_image 0 s) (Z.to_nat j)) /\
    (forall x, Forall (fun pg => ~ in_page pg x) pages -> peek (mem m') x = peek (mem m) x).
Proof. apply load_one_page_segments. Qed.

(** ** Relocations *)
Section Relocs.
Context (c : elf_context_t) (off : Z) (tab str : option Z).

(** Entry [i] of the table: the three words, with a symbol value or an error. *)
Definition entry_words (i r_offset r_info r_addend : Z) (sv : Z + Z) : Prop :=
  let p := off + sizeof_rela * i in
  ld64 c.(elf_data) (p + 0) = Done r_offset /\ ld64 c.(elf_data) (p + 8) = Done r_info /\
  ld64 c.(elf_data) (p + 16) = Done r_addend /\ reloc_symbol c (ELF64_R_SYM r_info) tab str = Done sv.

(** It stores the bytes [snd x] at [fst x]. *)
Definition patches (i : Z) (x : Z * list Z) : Prop :=
  exists r_offset r_info r_addend symval, entry_words i r_offset r_info r_addend (inr symval) /\
    fst x = u64 (r_offset + c.(load_bias)) /\
    reloc_bytes (ELF64_R_TYPE r_info) symval (s64 r_addend) (fst x) c.(load_bias) = Some (snd x).

(** It is an error: an undefined symbol, or a type the loader does not know. *)
Definition fails (i e : Z) : Prop :=
  exists r_offset r_info r_addend sv, entry_words i r_offset r_info r_addend sv /\
    match sv with
    | inl e' => e' = e
    | inr symval => reloc_bytes (ELF64_R_TYPE r_info) symval (s64 r_addend) (u64 (r_offset + c.(load_bias))) c.(load_bias) = None /\
                    e = ELF_ERROR_RELOC
    end.

Definition stores (P : list (Z * list Z)) (b : bytes) : bytes := foldl (fun b x => store b (fst x) (snd x)) b P.

Lemma set_mem_twice m b b' : set_mem (set_mem m b) b' = set_mem m b'.
Proof. done. Qed.
Lemma set_mem_same m : set_mem m (mem m) = m.
Proof. by destruct m. Qed.

Lemma apply_patches n P : forall i m, (forall k x, P !! k = Some x -> patches (i + Z.of_nat k) x) ->
  apply_rela_from c (in_file off) tab str (length P + n) i m =
  apply_rela_from c (in_file off) tab str n (i + Z.of_nat (length P)) (set_mem m (stores P (mem m))).
Proof.
  induction P as [|x P IH]; intros i m HP.
  { cbn [length Nat.add stores foldl]. by rewrite Z.add_0_r, set_mem_same. }
  cbn [length Nat.add apply_rela_from rela_word]. destruct (HP 0%nat x eq_refl) as (o & inf & ad & sv & (H1 & H2 & H3 & H4) & H5 & H6).
  replace (i + Z.of_nat 0) with i in H1, H2, H3 by lia. rewrite H1, H2, H3. cbn [obind]. rewrite H4. cbn [obind]. rewrite <- H5, H6.
  rewrite IH; [cbn [stores foldl mem set_mem]; rewrite set_mem_twice; f_equal; lia|].
  intros k y Hk. replace (i + 1 + Z.of_nat k) with (i + Z.of_nat (S k)) by lia. by apply HP.
Qed.

Lemma apply_fails n i m e : fails i e -> apply_rela_from c (in_file off) tab str (S n) i m = Done (e, m).
Proof.
  intros (o & inf & ad & sv & (H1 & H2 & H3 & H4) & H5). cbn [apply_rela_from rela_word].
  rewrite H1, H2, H3. cbn [obind]. rewrite H4. cbn [obind].
  destruct sv as [e'|sv]; [by rewrite H5|]. destruct H5 as [-> ->]. done.
Qed.

(** The bytes an entry covers. *)
Definition covers (x : Z * list Z) (a : Z) : Prop := fst x <= a < fst x + zlen (snd x).
Definition disjoint_patches (P : list (Z * list Z)) : Prop :=
  forall i j x y a, P !! i = Some x -> P !! j = Some y -> covers x a -> covers y a -> i = j.

Lemma stores_out P a : forall b, Forall (fun x => ~ covers x a) P -> peek (stores P b) a = peek b a.
Proof.
  induction P as [|x P IH]; intros b H; [done|]. apply Forall_cons in H as [Hx H]. unfold stores. cbn [foldl].
  fold (stores P (store b (fst x) (snd x))). rewrite IH by done. rewrite peek_store, decide_False; done.
Qed.

Lemma stores_at P : forall b k x j, disjoint_patches P -> P !! k = Some x -> (j < length (snd x))%nat ->
  peek (stores P b) (fst x + Z.of_nat j) = get (snd x) j.
Proof.
  induction P as [|y P IH]; intros b k x j Hd Hk Hj; [done|]. unfold stores. cbn [foldl].
  fold (stores P (store b (fst y) (snd y))). destruct k as [|k].
  - injection Hk as ->. rewrite stores_out.
    + rewrite peek_store, decide_True by lia. f_equal. lia.
    + rewrite Forall_lookup. intros i z Hz Hc. assert (O = S i) as Ho; [|lia].
      apply (Hd O (S i) x z (fst x + Z.of_nat j)); try done. unfold covers, zlen. lia.
  - apply IH with k; try done. intros i1 i2 x1 x2 a H1 H2 H3 H4. assert (S i1 = S i2); [|lia]. by apply (Hd _ _ x1 x2 a).
Qed.

(** a relocation table whose first entries are valid and hit disjoint words: each of these words gets the value
    of its entry and no other byte of memory changes; if they are all entries the call succeeds, and
    if the next one has an undefined symbol or an unknown type the call returns
    that error with exactly the earlier entries applied. *)
Theorem elf_relocations_spec P m : (forall k x, P !! k = Some x -> patches (Z.of_nat k) x) -> disjoint_patches P ->
  exists b, elf_apply_rela_relocations c (in_file off) (Z.of_nat (length P)) tab str m = Done (ELF_SUCCESS, set_mem m b) /\
    (forall e n, fails (Z.of_nat (length P)) e -> Z.of_nat (length P) < n ->
       elf_apply_rela_relocations c (in_file off) n tab str m = Done (e, set_mem m b)) /\
    (forall k x j, P !! k = Some x -> (j < length (snd x))%nat -> peek b (fst x + Z.of_nat j) = get (snd x) j) /\
    (forall a, Forall (fun x => ~ covers x a) P -> peek b a = peek (mem m) a).
Proof.
  intros HP Hd. exists (stores P (mem m)). unfold elf_apply_rela_relocations. split_and!.
  - rewrite Nat2Z.id. rewrite <- (Nat.add_0_r (length P)). by rewrite (apply_patches 0 P 0 m HP).
  - intros e n He Hn. replace (Z.to_nat n) with (length P + S (Z.to_nat n - length P - 1))%nat by lia.
    rewrite (apply_patches _ P 0 m HP). by apply apply_fails.
  - intros k x j. by apply stores_at.
  - intros a Ha. by apply stores_out.
Qed.
End Relocs.
End ElfLoad.

(** * A small ELF file, and runs of the loader on it

    An executable with one loadable segment, two symbol tables and a relocation
    section: the inputs at which the theorems of ElfProps.v and ElfLoad.v are
    applied, and what a whole [elf_load] of it shows. *)
Module ElfDemo.
Import Pkt Mem MemProps MemHeap Elf ElfProps ElfLoad.
Local Open Scope Z_scope.

(** ** The file *)
Definition demo_ehdr : list Z :=
  [127; 69; 76; 70; 2; 1; 1] ++ replicate 9 0 ++ le_bytes 2 ET_EXEC ++ le_bytes 2 EM_X86_64 ++ le_bytes 4 1 ++
  le_bytes 8 4194480 ++ le_bytes 8 64 ++ le_bytes 8 416 ++ le_bytes 4 0 ++ le_bytes 2 64 ++ le_bytes 2 56 ++
  le_bytes 2 2 ++ le_bytes 2 64 ++ le_bytes 2 7 ++ le_bytes 2 5.

Definition demo_phdr (ty off vaddr filesz memsz : Z) : list Z :=
  le_bytes 4 ty ++ le_bytes 4 5 ++ le_bytes 8 off ++ le_bytes 8 vaddr ++ le_bytes 8 vaddr ++ le_bytes 8 filesz ++
  le_bytes 8 memsz ++ le_bytes 8 4096.

Definition demo_sym (name info shndx value : Z) : list Z :=
  le_bytes 4 name ++ [info; 0] ++ le_bytes 2 shndx ++ le_bytes 8 value ++ le_bytes 8 0.

Definition demo_rela (off info addend : Z) : list Z := le_bytes 8 off ++ le_bytes 8 info ++ le_bytes 8 addend.

Definition demo_shdr (name ty off sz link : Z) : list Z :=
  le_bytes 4 name ++ le_bytes 4 ty ++ le_bytes 8 0 ++ le_bytes 8 0 ++ le_bytes 8 off ++ le_bytes 8 sz ++
  le_bytes 4 link ++ le_bytes 4 0 ++ le_bytes 8 8 ++ le_bytes 8 0.

(** mov eax, 42; ret; nop; nop *)
Definition demo_code : list Z := [184; 42; 0; 0; 0; 195; 144; 144].
Definition demo_strings : list Z :=
  (* main, puts *) [0; 109; 97; 105; 110; 0; 112; 117; 116; 115; 0] ++ [0; 0; 0; 0; 0].
Definition demo_names : list Z := [0] ++ s_strtab ++ s_dynstr ++ replicate 7 0.

Definition demo : list Z :=
  demo_ehdr ++
  (* 64 *) demo_phdr PT_PHDR 64 4194368 112 112 ++ demo_phdr PT_LOAD 176 4194480 8 16 ++
  (* 176 *) demo_code ++
  (* 184: .symtab *) demo_sym 0 0 0 0 ++ demo_sym 1 18 1 4194480 ++
  (* 232: .dynsym *) demo_sym 0 0 0 0 ++ demo_sym 1 18 1 64 ++ demo_sym 6 18 SHN_UNDEF 0 ++
  (* 304: .strtab and .dynstr *) demo_strings ++
  (* 320: .shstrtab *) demo_names ++
  (* 344: relocations *) demo_rela 1097728 (Z.shiftl 1 32 + 1) 4 ++ demo_rela 1097744 8 100 ++ demo_rela 1097760 5 0 ++
  (* 416: sections *)
  demo_shdr 0 0 0 0 0 ++ demo_shdr 0 SHT_SYMTAB 184 48 2 ++ demo_shdr 1 SHT_STRTAB 304 16 0 ++
  demo_shdr 0 SHT_DYNSYM 232 72 4 ++ demo_shdr 9 SHT_STRTAB 304 16 0 ++ demo_shdr 0 SHT_STRTAB 320 24 0 ++
  demo_shdr 0 SHT_RELA 344 48 1.

Definition demo_context : elf_context_t :=
  match elf_create_context 4 demo (zlen demo) booted with Done (Some c, _) => c | _ =>
    mk_context [] (mk_ehdr [] 0 0 0 0 0 0 0 0 0 0 0 0 0) None None None None None 0 0 None [] 0 0 end.

(** The header is accepted, the tables are found. *)
Example demo_tables :
  (zlen demo, elf_validate demo (zlen demo), demo_context.(symtab), demo_context.(strtab), demo_context.(dynsym),
   demo_context.(dynstr), demo_context.(symtab_count), demo_context.(dynsym_count), demo_context.(shstrtab)) =
  (864, Done ELF_SUCCESS, Some 184, Some 304, Some 232, Some 304, 2, 3, Some 320).
Proof. vm_compute. reflexivity. Qed.

(** ** Symbols *)
Definition s_main : list Z := [109; 97; 105; 110].
Definition s_puts : list Z := [112; 117; 116; 115].
Definition demo_syms : list (list Z * Z) := [(s_main, 4194480)].
Definition demo_dyns : list (list Z * Z) := [(s_main, 64); (s_puts, 0)].

Lemma demo_room : heap_room booted (table_cost demo_syms + table_cost demo_dyns).
Proof. exists (fst boot_block), (snd boot_block), []. split; [exact booted_ok|]. vm_compute. discriminate. Qed.

(** The name puts is undefined in the file: it gets the load bias, 0. *)
Lemma elf_symbols_resolved_witness : exists h m',
  elf_resolve_symbols 1 demo_context booted = Done (set_symbol_hash h demo_context, m') /\
  value <$> elf_find_symbol (set_symbol_hash h demo_context) s_main = Some 4194480 /\
  value <$> elf_find_symbol (set_symbol_hash h demo_context) s_puts = Some 0 /\
  value <$> elf_find_symbol (set_symbol_hash h demo_context) [120] = None.
Proof.
  destruct (elf_symbols_resolved 1 demo_context booted demo_syms demo_dyns) as (h & m' & R & V);
    [lia|vm_compute; reflexivity..|exact demo_room|].
  exists h, m'. split; [exact R|]. rewrite !V. vm_compute. auto.
Defined.

(** [puts] is defined nowhere, but a relocation against it is accepted. *)
Lemma elf_undefined_unreported_witness : exists c' m' v,
  elf_resolve_symbols 1 demo_context booted = Done (c', m') /\ reloc_symbol c' 2 c'.(dynsym) c'.(dynstr) = Done (inr v).
Proof.
  apply (elf_undefined_unreported 1 demo_context booted demo_syms demo_dyns) with (tab := 232) (str := 304) (nm := 6) (name := s_puts);
    first [exact demo_room | lia | solve [vm_compute; auto]].
Defined.

(** ** Segments *)
Definition demo_segment : segment := mk_seg 4194480 demo_code 16.

Lemma elf_exec_loaded_witness : exists info m',
  elf_load_segments demo_context zero_info (pmm_init ex_map blank) =
    Done (ELF_SUCCESS, set_load_bias 0 demo_context, info, m') /\
  entry_point info = 4194480 /\ peek (mem m') (1077248 + 176) = 184 /\ peek (mem m') 4194480 = 0.
Proof.
  destruct (elf_exec_loaded demo_context (pmm_init ex_map blank) [demo_segment] [1077248] (tail (rev (all_pages ex_map))))
    as (info & m' & R & He & _ & Hat & Hout);
    [vm_compute; discriminate|vm_compute; reflexivity| |exact ex_pmm_ok|reflexivity|].
  { constructor; [|constructor]. vm_compute. split; [split; [reflexivity|discriminate]|discriminate]. }
  exists info, m'. split; [exact R|]. split; [rewrite He; vm_compute; reflexivity|]. split.
  - rewrite (Hat 0%nat demo_segment 1077248 eq_refl eq_refl 176) by lia. vm_compute. reflexivity.
  - rewrite Hout; [vm_compute; reflexivity|]. constructor; [|constructor]. unfold in_page. lia.
Defined.

(** ** Relocations *)
Definition demo_patches : list (Z * list Z) :=
  [(1097728, le_bytes 8 4194484); (1097744, le_bytes 8 100)].

Lemma elf_relocations_spec_witness : exists b,
  elf_apply_rela_relocations demo_context (in_file 344) 2 (Some 184) (Some 304) booted = Done (ELF_SUCCESS, set_mem booted b) /\
  elf_apply_rela_relocations demo_context (in_file 344) 3 (Some 184) (Some 304) booted = Done (ELF_ERROR_RELOC, set_mem booted b) /\
  peek b 1097728 = 180 /\ peek b 1097744 = 100 /\ peek b 1097760 = peek (mem booted) 1097760.
Proof.
  destruct (elf_relocations_spec demo_context 344 (Some 184) (Some 304) demo_patches booted) as (b & R & Hf & Hat & Hout).
  - intros [|[|k]] x [= <-]; unfold patches, entry_words.
    + exists 1097728, (Z.shiftl 1 32 + 1), 4, 4194480. split_and!; vm_compute; reflexivity.
    + exists 1097744, 8, 100, 0. split_and!; vm_compute; reflexivity.
  - intros [|[|i]] [|[|j]] x y a Hx Hy; try done; injection Hx as <-; injection Hy as <-; try done;
      unfold covers, zlen; cbn [fst snd length]; lia.
  - exists b. split; [exact R|]. split.
    { apply (Hf ELF_ERROR_RELOC 3); [|reflexivity]. exists 1097760, 5, 0, (inr 0). split; [|split; reflexivity].
      unfold entry_words. split_and!; vm_compute; reflexivity. }
    split; [exact (Hat 0%nat _ 0%nat eq_refl ltac:(vm_compute; lia))|].
    split; [exact (Hat 1%nat _ 0%nat eq_refl ltac:(vm_compute; lia))|].
    apply Hout. repeat constructor; unfold covers, zlen; cbn [fst snd length le_bytes]; lia.
Defined.

(** ** The whole loader *)
Definition demo_run : outcome (Z * elf_load_info_t * mm) := elf_load 100 demo (zlen demo) booted.
Definition demo_info : elf_load_info_t := match demo_run with Done (_, i, _) => i | _ => zero_info end.
Definition demo_mem : mm := match demo_run with Done (_, _, m) => m | _ => booted end.
Definition demo_status : option Z := match demo_run with Done (r, _, _) => Some r | _ => None end.

(** The load succeeds and the entry point is the address of the code in the
    file; the code itself is in the page the allocator returned, the byte at
    the entry point is not part of the program. *)
Theorem elf_entry_not_loaded :
  demo_status = Some ELF_SUCCESS /\ entry_point demo_info = 4194480 /\ peek (mem demo_mem) 4194480 = 0 /\
  peek (mem demo_mem) (1048576 + 47 * 4096 + 176) = 184.
Proof. vm_compute. auto. Qed.
End ElfDemo.
