(* ===== verification/Console.v ===== *)
(** * The text console (src/kernel/Print: print.c, auto_scroll.c, FONT.c)

    The frame buffer is a map from pixel index to colour, with the resolution
    of the mode; printing a character draws its glyph at the cursor, wraps at
    the right edge and scrolls at the bottom. [printk] takes its variable
    arguments as a list of words and strings. *)
From Stdlib Require Import ZArith Lia.
From stdpp Require Import base numbers list gmap.
From S2P Require Import Prelude.

Module Console.
Local Open Scope Z_scope.
Local Open Scope outcome_scope.
Local Open Scope arr_scope.

Definition BLACK : Z := 0.
Definition WHITE : Z := 16777215.
Definition RED : Z := 16711680.
Definition CYAN : Z := 65535.

(** One byte per row, the low bit is the leftmost pixel. *)
Definition font8x8_basic : list (list Z) :=
  [[0; 0; 0; 0; 0; 0; 0; 0];
   [0; 0; 0; 0; 0; 0; 0; 0];
   [0; 0; 0; 0; 0; 0; 0; 0];
   [0; 0; 0; 0; 0; 0; 0; 0];
   [0; 0; 0; 0; 0; 0; 0; 0];
   [0; 0; 0; 0; 0; 0; 0; 0];
   [0; 0; 0; 0; 0; 0; 0; 0];
   [0; 0; 0; 0; 0; 0; 0; 0];
   [0; 0; 0; 0; 0; 0; 0; 0];
   [0; 0; 0; 0; 0; 0; 0; 0];
   [0; 0; 0; 0; 0; 0; 0; 0];
   [0; 0; 0; 0; 0; 0; 0; 0];
   [0; 0; 0; 0; 0; 0; 0; 0];
   [0; 0; 0; 0; 0; 0; 0; 0];
   [0; 0; 0; 0; 0; 0; 0; 0];
   [0; 0; 0; 0; 0; 0; 0; 0];
   [0; 0; 0; 0; 0; 0; 0; 0];
   [0; 0; 0; 0; 0; 0; 0; 0];
   [0; 0; 0; 0; 0; 0; 0; 0];
   [0; 0; 0; 0; 0; 0; 0; 0];
   [0; 0; 0; 0; 0; 0; 0; 0];
   [0; 0; 0; 0; 0; 0; 0; 0];
   [0; 0; 0; 0; 0; 0; 0; 0];
   [0; 0; 0; 0; 0; 0; 0; 0];
   [0; 0; 0; 0; 0; 0; 0; 0];
   [0; 0; 0; 0; 0; 0; 0; 0];
   [0; 0; 0; 0; 0; 0; 0; 0];
   [0; 0; 0; 0; 0; 0; 0; 0];
   [0; 0; 0; 0; 0; 0; 0; 0];
   [0; 0; 0; 0; 0; 0; 0; 0];
   [0; 0; 0; 0; 0; 0; 0; 0];
   [0; 0; 0; 0; 0; 0; 0; 0];
   [0; 0; 0; 0; 0; 0; 0; 0];
   [24; 60; 60; 24; 24; 0; 24; 0];
   [54; 54; 0; 0; 0; 0; 0; 0];
   [54; 54; 127; 54; 127; 54; 54; 0];
   [12; 62; 3; 30; 48; 31; 12; 0];
   [0; 99; 51; 24; 12; 102; 99; 0];
   [28; 54; 28; 110; 59; 51; 110; 0];
   [6; 6; 3; 0; 0; 0; 0; 0];
   [24; 12; 6; 6; 6; 12; 24; 0];
   [6; 12; 24; 24; 24; 12; 6; 0];
   [0; 102; 60; 255; 60; 102; 0; 0];
   [0; 12; 12; 63; 12; 12; 0; 0];
   [0; 0; 0; 0; 0; 12; 12; 6];
   [0; 0; 0; 63; 0; 0; 0; 0];
   [0; 0; 0; 0; 0; 12; 12; 0];
   [96; 48; 24; 12; 6; 3; 1; 0];
   [62; 99; 115; 123; 111; 103; 62; 0];
   [12; 14; 12; 12; 12; 12; 63; 0];
   [30; 51; 48; 28; 6; 51; 63; 0];
   [30; 51; 48; 28; 48; 51; 30; 0];
   [56; 60; 54; 51; 127; 48; 120; 0];
   [63; 3; 31; 48; 48; 51; 30; 0];
   [28; 6; 3; 31; 51; 51; 30; 0];
   [63; 51; 48; 24; 12; 12; 12; 0];
   [30; 51; 51; 30; 51; 51; 30; 0];
   [30; 51; 51; 62; 48; 24; 14; 0];
   [0; 12; 12; 0; 0; 12; 12; 0];
   [0; 12; 12; 0; 0; 12; 12; 6];
   [24; 12; 6; 3; 6; 12; 24; 0];
   [0; 0; 63; 0; 0; 63; 0; 0];
   [6; 12; 24; 48; 24; 12; 6; 0];
   [30; 51; 48; 24; 12; 0; 12; 0];
   [62; 99; 123; 123; 123; 3; 30; 0];
   [12; 30; 51; 51; 63; 51; 51; 0];
   [63; 102; 102; 62; 102; 102; 63; 0];
   [60; 102; 3; 3; 3; 102; 60; 0];
   [31; 54; 102; 102; 102; 54; 31; 0];
   [127; 70; 22; 30; 22; 70; 127; 0];
   [127; 70; 22; 30; 22; 6; 15; 0];
   [60; 102; 3; 3; 115; 102; 124; 0];
   [51; 51; 51; 63; 51; 51; 51; 0];
   [30; 12; 12; 12; 12; 12; 30; 0];
   [120; 48; 48; 48; 51; 51; 30; 0];
   [103; 102; 54; 30; 54; 102; 103; 0];
   [15; 6; 6; 6; 70; 102; 127; 0];
   [99; 119; 127; 127; 107; 99; 99; 0];
   [99; 103; 111; 123; 115; 99; 99; 0];
   [28; 54; 99; 99; 99; 54; 28; 0];
   [63; 102; 102; 62; 6; 6; 15; 0];
   [30; 51; 51; 51; 59; 30; 56; 0];
   [63; 102; 102; 62; 54; 102; 103; 0];
   [30; 51; 7; 14; 56; 51; 30; 0];
   [63; 45; 12; 12; 12; 12; 30; 0];
   [51; 51; 51; 51; 51; 51; 63; 0];
   [51; 51; 51; 51; 51; 30; 12; 0];
   [99; 99; 99; 107; 127; 119; 99; 0];
   [99; 99; 54; 28; 28; 54; 99; 0];
   [51; 51; 51; 30; 12; 12; 30; 0];
   [127; 99; 49; 24; 76; 102; 127; 0];
   [30; 6; 6; 6; 6; 6; 30; 0];
   [3; 6; 12; 24; 48; 96; 64; 0];
   [30; 24; 24; 24; 24; 24; 30; 0];
   [8; 28; 54; 99; 0; 0; 0; 0];
   [0; 0; 0; 0; 0; 0; 0; 255];
   [12; 12; 24; 0; 0; 0; 0; 0];
   [0; 0; 30; 48; 62; 51; 110; 0];
   [7; 6; 6; 62; 102; 102; 59; 0];
   [0; 0; 30; 51; 3; 51; 30; 0];
   [56; 48; 48; 62; 51; 51; 110; 0];
   [0; 0; 30; 51; 63; 3; 30; 0];
   [28; 54; 6; 15; 6; 6; 15; 0];
   [0; 0; 110; 51; 51; 62; 48; 31];
   [7; 6; 54; 110; 102; 102; 103; 0];
   [12; 0; 14; 12; 12; 12; 30; 0];
   [48; 0; 48; 48; 48; 51; 51; 30];
   [7; 6; 102; 54; 30; 54; 103; 0];
   [14; 12; 12; 12; 12; 12; 30; 0];
   [0; 0; 51; 127; 127; 107; 99; 0];
   [0; 0; 31; 51; 51; 51; 51; 0];
   [0; 0; 30; 51; 51; 51; 30; 0];
   [0; 0; 59; 102; 102; 62; 6; 15];
   [0; 0; 110; 51; 51; 62; 48; 120];
   [0; 0; 59; 110; 102; 6; 15; 0];
   [0; 0; 62; 3; 30; 48; 31; 0];
   [8; 12; 62; 12; 12; 44; 24; 0];
   [0; 0; 51; 51; 51; 51; 110; 0];
   [0; 0; 51; 51; 51; 30; 12; 0];
   [0; 0; 99; 107; 127; 127; 54; 0];
   [0; 0; 99; 54; 28; 54; 99; 0];
   [0; 0; 51; 51; 51; 62; 48; 31];
   [0; 0; 63; 25; 12; 38; 63; 0];
   [56; 12; 12; 7; 12; 12; 56; 0];
   [24; 24; 24; 0; 24; 24; 24; 0];
   [7; 12; 12; 56; 12; 12; 7; 0];
   [110; 59; 0; 0; 0; 0; 0; 0];
   [0; 0; 0; 0; 0; 0; 0; 0]].

(** ** State *)
Record Framebuffer := mk_fb { fb_base : gmap Z Z; width : Z; height : Z; pitch : Z }.
Record Cursor := mk_cursor { cx : Z; cy : Z; fg_color : Z; bg_color : Z }.
Record console := mk_console { fb : Framebuffer; cursor : Cursor; isgui : Z; scroll_offset : Z; max_lines : Z }.

Definition set_fb (c : console) (b : gmap Z Z) : console :=
  mk_console (mk_fb b c.(fb).(width) c.(fb).(height) c.(fb).(pitch)) c.(cursor) c.(isgui) c.(scroll_offset) c.(max_lines).
Definition set_cursor (c : console) (k : Cursor) : console :=
  mk_console c.(fb) k c.(isgui) c.(scroll_offset) c.(max_lines).

Definition SetCursorPos (x y : Z) (c : console) : console :=
  set_cursor c (mk_cursor x y c.(cursor).(fg_color) c.(cursor).(bg_color)).
Definition SetColors (fg bg : Z) (c : console) : console :=
  set_cursor c (mk_cursor c.(cursor).(cx) c.(cursor).(cy) fg bg).

(** [init_graphics], with the mode the firmware reports. *)
Definition init_graphics (base : gmap Z Z) (hres vres scan : Z) (c : console) : console :=
  mk_console (mk_fb base hres vres scan) (mk_cursor 0 0 WHITE RED) c.(isgui) c.(scroll_offset) c.(max_lines).

(** ** Drawing *)
Definition put_pixel (x y color : Z) (c : console) : console :=
  if (c.(fb).(width) <=? x) || (c.(fb).(height) <=? y) then c
  else set_fb c (<[u32 (y * c.(fb).(pitch) + x) := color]> c.(fb).(fb_base)).

(** The colour of column [col] in row [row] of a glyph. *)
Definition glyph_pixel (ch fg bg : Z) (col row : nat) : Z :=
  let index := if 128 <=? u8 ch then 0 else u8 ch in
  let row_data := get (nth (Z.to_nat index) font8x8_basic []) row in
  if c_true (Z.land (Z.shiftr row_data (Z.of_nat col)) 1) then fg else bg.

Definition draw_char (x y ch fg bg : Z) (c : console) : console :=
  if (c.(fb).(width) <=? x) || (c.(fb).(height) <=? y) then c
  else if (c.(fb).(width) <? u32 (x + 8)) || (c.(fb).(height) <? u32 (y + 8)) then c
  else for_range 0 8 (fun row => for_range 0 8 (fun col =>
         put_pixel (u32 (x + Z.of_nat col)) (u32 (y + Z.of_nat row)) (glyph_pixel ch fg bg col row))) c.

(** [start_x], then the position of the next character. *)
Fixpoint draw_string_from (x0 x y : Z) (s : list Z) (fg bg : Z) (c : console) : console :=
  match s with
  | [] => c
  | ch :: s =>
    let '(x, y, c) :=
      (if ch =? 10 then (x0, u32 (y + 8), c)
       else if ch =? 13 then (x0, y, c)
       else if ch =? 9 then (u32 ((x / 8 + 4) * 8), y, c)
       else (u32 (x + 8), y, draw_char x y ch fg bg c)) in
    if c.(fb).(width) <? u32 (x + 8) then draw_string_from x0 x0 (u32 (y + 8)) s fg bg c
    else draw_string_from x0 x y s fg bg c
  end.
Definition draw_string (x y : Z) (s : list Z) (fg bg : Z) (c : console) : console := draw_string_from x x y s fg bg c.

Definition ClearScreen (color : Z) (c : console) : console :=
  let c := for_range 0 (Z.to_nat c.(fb).(height)) (fun y =>
             for_range 0 (Z.to_nat c.(fb).(width)) (fun x => put_pixel (Z.of_nat x) (Z.of_nat y) color)) c in
  SetCursorPos 0 0 c.

(** ** Scrolling *)
Definition auto_scroll_init (c : console) : console :=
  mk_console c.(fb) c.(cursor) c.(isgui) 0 (c.(fb).(height) / 8).

(** One pixel moved up by a character height; the row stride is the width. *)
Definition scroll_pixel (w y x : Z) (b : gmap Z Z) : gmap Z Z :=
  <[u32 ((y - 8) * w + x) := default 0 (b !! u32 (y * w + x))]> b.

Definition scroll_up (w h : Z) (b : gmap Z Z) : gmap Z Z :=
  for_range 8 (Z.to_nat h) (fun y => for_range 0 (Z.to_nat w) (fun x => scroll_pixel w (Z.of_nat y) (Z.of_nat x))) b.

Definition blank_last (w h : Z) (b : gmap Z Z) : gmap Z Z :=
  for_range (Z.to_nat (u32 (h - 8))) (Z.to_nat h) (fun y => for_range 0 (Z.to_nat w) (fun x b =>
    <[u32 (Z.of_nat y * w + Z.of_nat x) := BLACK]> b)) b.

Definition auto_scroll_check (c : console) : console :=
  let w := c.(fb).(width) in let h := c.(fb).(height) in
  if u32 (c.(cursor).(cy) + 8) <? h then c else
  let c := set_fb c (scroll_up w h c.(fb).(fb_base)) in
  let c := set_fb c (blank_last w h c.(fb).(fb_base)) in
  let k := c.(cursor) in
  mk_console c.(fb) (mk_cursor k.(cx) (u32 (k.(cy) - 8)) k.(fg_color) k.(bg_color)) c.(isgui) (c.(scroll_offset) + 1) c.(max_lines).

(** ** Characters *)
Definition newline (c : console) : console :=
  auto_scroll_check (SetCursorPos 0 (u32 (c.(cursor).(cy) + 8)) c).

Definition printc (ch : Z) (c : console) : console :=
  if c_true c.(isgui) then c else
  if ch =? 10 then newline c
  else if ch =? 13 then SetCursorPos 0 c.(cursor).(cy) c
  else if ch =? 9 then
    let c := SetCursorPos (u32 ((c.(cursor).(cx) / 8 + 4) * 8)) c.(cursor).(cy) c in
    if c.(fb).(width) <? u32 (c.(cursor).(cx) + 8) then newline c else c
  else
    let c := if c.(fb).(width) <? u32 (c.(cursor).(cx) + 8) then newline c else c in
    let k := c.(cursor) in
    let c := draw_char k.(cx) k.(cy) ch k.(fg_color) k.(bg_color) c in
    SetCursorPos (u32 (k.(cx) + 8)) k.(cy) c.

Definition printcs (s : list Z) (c : console) : console := foldl (fun c ch => printc ch c) c s.

(** ** Numbers *)

(** The first loop of [print_unsigned]: the characters in [buf], lowest digit first. *)
Fixpoint digits_loop (fuel : nat) (num base : Z) : outcome (list Z) :=
  if num =? 0 then Done [] else
  match fuel with
  | O => OutOfFuel
  | S fuel =>
    let digit := num mod base in
    let* buf := digits_loop fuel (num / base) base in
    Done ((if digit <? 10 then 48 + digit else 97 + (digit - 10)) :: buf)
  end.

(** A 64-bit number has at most 64 digits; [buf] has room for 32. *)
Definition print_unsigned (num base : Z) (c : console) : outcome console :=
  if num =? 0 then Done (printc 48 c) else
  let* buf := digits_loop 64 num base in
  if 32 <? Z.of_nat (length buf) then OutOfBounds else Done (printcs (rev buf) c).

(** [num = -num] wraps for the least integer. *)
Definition print_signed (num : Z) (c : console) : outcome console :=
  if num <? 0 then print_unsigned (u64 (- num)) 10 (printc 45 c) else print_unsigned num 10 c.

Definition s_null : list Z := [40; 110; 117; 108; 108; 41].
Definition safe_print_str (s : option (list Z)) (c : console) : console :=
  match s with None => printcs s_null c | Some s => printcs (take 255 s) c end.

(** ** Formatted output *)

(** A variable argument: a 64-bit word, or a pointer to a string. *)
Inductive va := Word (v : Z) | Str (s : list Z).

(** [va_arg] for a number of 32 or 64 bits, for a string. Interpreting the
    address of a string as a number, or a number as the address of a string,
    is outside the model, except that 0 is NULL. *)
Definition next_word (args : list va) : outcome (Z * list va) :=
  match args with Word v :: args => Done (v, args) | _ => OutOfBounds end.
Definition next_str (args : list va) : outcome (option (list Z) * list va) :=
  match args with
  | Str s :: args => Done (Some s, args)
  | Word 0 :: args => Done (None, args)
  | _ => OutOfBounds
  end.
Definition as_unsigned (is_longlong : bool) (v : Z) : Z := if is_longlong then u64 v else u32 v.
Definition as_signed (is_longlong : bool) (v : Z) : Z := if is_longlong then s64 v else s32 v.

(** The switch of [printk] on the character after the percent sign. *)
Definition directive (ch : Z) (ll : bool) (args : list va) (c : console) : outcome (list va * console) :=
  match ch with
  | 115 => let* (s, args) := next_str args in Done (args, safe_print_str s c)
  | 100 => let* (v, args) := next_word args in let* c := print_signed (as_signed ll v) c in Done (args, c)
  | 117 => let* (v, args) := next_word args in let* c := print_unsigned (as_unsigned ll v) 10 c in Done (args, c)
  | 120 | 88 => let* (v, args) := next_word args in let* c := print_unsigned (as_unsigned ll v) 16 c in Done (args, c)
  | 112 => let* (v, args) := next_word args in
           let* c := print_unsigned (u64 v) 16 (printc 120 (printc 48 c)) in Done (args, c)
  | 99 => let* (v, args) := next_word args in Done (args, printc (u8 v) c)
  | 37 => Done (args, printc 37 c)
  | _ => Done (args, printc ch (printc 37 c))
  end.

(** The loop of [printk] over the rest of [fmt]. *)
Fixpoint printk_loop (fmt : list Z) (args : list va) (c : console) : outcome console :=
  match fmt with
  | [] => Done c
  | ch :: fmt =>
    if negb (ch =? 37) then printk_loop fmt args (printc ch c) else
    match fmt with
    | [] => Done c
    | d :: fmt =>
      if d =? 108 then
        match fmt with
        | [] => Done c
        | e :: fmt =>
          if e =? 108 then
            match fmt with
            | [] => Done c
            | f :: fmt => let* (args, c) := directive f true args c in printk_loop fmt args c
            end
          else let* (args, c) := directive e true args c in printk_loop fmt args c
        end
      else let* (args, c) := directive d false args c in printk_loop fmt args c
    end
  end.

Definition printk (fg bg : Z) (format : list Z) (args : list va) (c : console) : outcome console :=
  let old := c.(cursor) in
  let* c := printk_loop (take 511 format) args (SetColors fg bg c) in
  Done (SetColors old.(fg_color) old.(bg_color) c).

(** The macro PRINT of string_helpers.h cuts the literal at 127 characters. *)
Definition PRINT (fg bg : Z) (literal : list Z) (args : list va) (c : console) : outcome console :=
  printk fg bg (take 127 literal) args c.

(** ** Buffers *)
Record Buffer := mk_buffer { bdata : list Z; write_pos : Z; read_pos : Z }.
Definition buf_write (s : list Z) (b : Buffer) : Buffer :=
  foldl (fun b ch => mk_buffer (<[Z.to_nat (b.(write_pos) mod 4096) := ch]> b.(bdata)) (u64 (b.(write_pos) + 1)) b.(read_pos)) b s.
End Console.
