(* ===== verification/ConsoleProps.v ===== *)
(** * The console as a terminal

    Pixels are related to an abstract terminal, a grid of characters with a
    cursor: every [printc] refines one terminal step, scrolling included, when
    the scan line is as long as the row and the resolution is a multiple of the
    character size. *)
From Stdlib Require Import ZArith Lia.
From stdpp Require Import base numbers list gmap.
From S2P Require Import Prelude Console.

Module ConsoleProps.
Import Console.
Local Open Scope Z_scope.
Local Open Scope outcome_scope.

(** ** Pixels *)
Section Pixels.
Context (w h : Z) (Hw : 0 < w) (Hh : 0 < h) (Hwh : w * h < 2 ^ 32).

Definition pix (b : gmap Z Z) (x y : Z) : Z := default 0 (b !! (y * w + x)).
Definition on_screen (x y : Z) : Prop := 0 <= x < w /\ 0 <= y < h.

Lemma pixel_index x y : on_screen x y -> u32 (y * w + x) = y * w + x.
Proof. intros [Hx Hy]. apply wrap_small. nia. Qed.

Lemma pixel_index_inj x y x' y' : 0 <= x < w -> 0 <= x' < w -> y * w + x = y' * w + x' -> x = x' /\ y = y'.
Proof. intros Hx Hx' E. assert (y = y') by nia. nia. Qed.

Lemma pix_insert b x' y' v x y : 0 <= x < w -> 0 <= x' < w ->
  pix (<[y' * w + x' := v]> b) x y = if decide (x = x' /\ y = y') then v else pix b x y.
Proof.
  intros Hx Hx'. unfold pix. case_decide as Hd.
  - destruct Hd as [-> ->]. by rewrite lookup_insert_eq.
  - rewrite lookup_insert_ne; [done|]. intros E. apply Hd. by apply pixel_index_inj in E as [-> ->].
Qed.

(** Filling [n] columns from [X] on in the rows [Y + lo] to [Y + hi]. *)
Lemma fill_row (f : nat -> Z) X Y n b x y : 0 <= X -> X + Z.of_nat n <= w -> 0 <= x < w ->
  pix (for_range 0 n (fun col b => <[Y * w + (X + Z.of_nat col) := f col]> b) b) x y =
  if decide (y = Y /\ X <= x < X + Z.of_nat n) then f (Z.to_nat (x - X)) else pix b x y.
Proof.
  intros HX Hn Hx. induction n as [|n IH]; [rewrite for_range_nil, decide_False by lia; done|].
  rewrite for_range_S, pix_insert, IH by lia. repeat case_decide; try lia; try done.
  f_equal. lia.
Qed.

Lemma fill_rect (f : nat -> nat -> Z) X Y lo hi n b x y : (lo <= hi)%nat -> 0 <= X -> X + Z.of_nat n <= w -> 0 <= x < w ->
  pix (for_range lo hi (fun row => for_range 0 n (fun col b => <[(Y + Z.of_nat row) * w + (X + Z.of_nat col) := f row col]> b)) b) x y =
  if decide (Y + Z.of_nat lo <= y < Y + Z.of_nat hi /\ X <= x < X + Z.of_nat n)
  then f (Z.to_nat (y - Y)) (Z.to_nat (x - X)) else pix b x y.
Proof.
  intros Hle HX Hn Hx. induction Hle as [|hi Hle IH]; [rewrite for_range_nil, decide_False by lia; done|].
  rewrite for_range_S by lia. rewrite fill_row, IH by lia. repeat case_decide; try lia; try done.
  f_equal. lia.
Qed.

(** ** Scrolling *)
Lemma scroll_row b y n : 8 <= y < h -> (n <= Z.to_nat w)%nat -> forall x y', 0 <= x < w ->
  pix (for_range 0 n (fun x => scroll_pixel w y (Z.of_nat x)) b) x y' =
  if decide (y' = y - 8 /\ x < Z.of_nat n) then pix b x y else pix b x y'.
Proof.
  intros Hy. induction n as [|n IH]; intros Hn x y' Hx; [rewrite for_range_nil, decide_False by lia; done|].
  rewrite for_range_S by lia. unfold scroll_pixel at 1. rewrite !pixel_index by (split; lia).
  rewrite pix_insert by lia. set (b' := for_range 0 n _ b) in *.
  change (default 0 (b' !! (y * w + Z.of_nat n))) with (pix b' (Z.of_nat n) y). rewrite !IH by lia.
  repeat case_decide; try lia; try done. f_equal; lia.
Qed.

Lemma scroll_rows b hi : (8 <= hi)%nat -> Z.of_nat hi <= h -> forall x y, 0 <= x < w -> 0 <= y ->
  pix (for_range 8 hi (fun y => for_range 0 (Z.to_nat w) (fun x => scroll_pixel w (Z.of_nat y) (Z.of_nat x))) b) x y =
  if decide (y + 8 < Z.of_nat hi) then pix b x (y + 8) else pix b x y.
Proof.
  intros Hle. induction Hle as [|hi Hle IH]; intros Hhi x y Hx Hy; [rewrite for_range_nil, decide_False by lia; done|].
  rewrite for_range_S, scroll_row by lia. rewrite !IH by lia.
  repeat case_decide; try lia; try done. f_equal. lia.
Qed.

Lemma scrolled b x y : 8 <= h -> on_screen x y ->
  pix (blank_last w h (scroll_up w h b)) x y = if decide (y + 8 < h) then pix b x (y + 8) else BLACK.
Proof.
  intros H8 Hxy. pose proof Hxy as [Hx Hy]. unfold blank_last. rewrite wrap_small by nia.
  erewrite for_range_ext_from.
  2: { intros i a Hi. apply for_range_ext. intros j c Hj. rewrite pixel_index by (split; lia).
       change (Z.of_nat i) with (0 + Z.of_nat i). change (Z.of_nat j) with (0 + Z.of_nat j). reflexivity. }
  rewrite (fill_rect (fun _ _ => BLACK)) by lia. unfold scroll_up. rewrite scroll_rows by lia.
  repeat case_decide; try lia; done.
Qed.
End Pixels.

Lemma for_range_comm {A B} (F : A -> B) lo hi (body : nat -> B -> B) (body' : nat -> A -> A) a :
  (forall i x, (lo <= i < hi)%nat -> body i (F x) = F (body' i x)) -> for_range lo hi body (F a) = F (for_range lo hi body' a).
Proof.
  intros H. destruct (decide (lo <= hi)%nat) as [Hle|]; [|by rewrite !for_range_nil by lia].
  induction Hle as [|hi Hle IH]; [by rewrite !for_range_nil|]. rewrite !for_range_S by lia.
  rewrite IH; [apply H; lia|]. intros. apply H. lia.
Qed.

(** Printing keeps the colours. *)
Definition same_colors (c c' : console) : Prop :=
  c'.(cursor).(fg_color) = c.(cursor).(fg_color) /\ c'.(cursor).(bg_color) = c.(cursor).(bg_color).

Lemma newline_colors c : same_colors c (newline c).
Proof. unfold newline, auto_scroll_check. by destruct (_ <? _). Qed.

Lemma draw_char_cursor x y k fg bg c : cursor (draw_char x y k fg bg c) = cursor c.
Proof.
  unfold draw_char. destruct (_ || _); [done|]. destruct (_ || _); [done|].
  apply (for_range_inv (fun _ c' => cursor c' = cursor c)); [lia|done|]. intros i c1 _ H1.
  apply (for_range_inv (fun _ c' => cursor c' = cursor c)); [lia|done|]. intros j c2 _ H2.
  unfold put_pixel. by destruct (_ || _).
Qed.

Lemma printc_colors x c : same_colors c (printc x c).
Proof.
  unfold printc. destruct (c_true _); [done|]. destruct (x =? 10); [apply newline_colors|]. destruct (x =? 13); [done|].
  destruct (x =? 9); cbn [fb cursor cx SetCursorPos set_cursor].
  - destruct (_ <? _); [exact (newline_colors (SetCursorPos _ _ c))|done].
  - unfold same_colors, SetCursorPos, set_cursor. cbn [cursor fg_color bg_color]. rewrite draw_char_cursor. destruct (_ <? _); [apply newline_colors|done].
Qed.

(** ** The terminal *)
Record cell := mk_cell { ch : Z; cell_fg : Z; cell_bg : Z }.
Definition blank : cell := mk_cell 32 WHITE BLACK.
Definition cell_pixel (k : cell) (x y : Z) : Z := glyph_pixel k.(ch) k.(cell_fg) k.(cell_bg) (Z.to_nat x) (Z.to_nat y).

Record term := mk_term { t_row : Z; t_col : Z; cells : Z -> Z -> cell }.

Section Terminal.
Context (cols rows : Z).

Definition term_scroll (t : term) : term :=
  mk_term (t_row t - 1) (t_col t) (fun r c => if decide (r + 1 < rows) then cells t (r + 1) c else blank).

(** The last row stays empty: the screen scrolls when the cursor reaches it. *)
Definition term_newline (t : term) : term :=
  let t := mk_term (t_row t + 1) 0 (cells t) in if decide (t_row t + 1 < rows) then t else term_scroll t.

Definition term_wrap (t : term) : term := if decide (cols < t_col t + 1) then term_newline t else t.

Definition term_put (x fg bg : Z) (t : term) : term :=
  if x =? 10 then term_newline t
  else if x =? 13 then mk_term (t_row t) 0 (cells t)
  else if x =? 9 then term_wrap (mk_term (t_row t) (t_col t + 4) (cells t))
  else
    let t := term_wrap t in
    mk_term (t_row t) (t_col t + 1) (fun r c => if decide (r = t_row t /\ c = t_col t) then mk_cell x fg bg else cells t r c).

(** The console displays the terminal: text mode, a screen of whole cells, no
    padding between scan lines. *)
Record displays (c : console) (t : term) : Prop := {
  d_cols : 0 < cols;
  d_rows : 1 < rows;
  d_width : c.(fb).(width) = 8 * cols;
  d_height : c.(fb).(height) = 8 * rows;
  d_pitch : c.(fb).(pitch) = 8 * cols;
  d_size : 8 * cols * (8 * rows) < 2 ^ 32;
  d_gui : c.(isgui) = 0;
  d_x : c.(cursor).(cx) = 8 * t_col t;
  d_y : c.(cursor).(cy) = 8 * t_row t;
  d_col : 0 <= t_col t <= cols;
  d_row : 0 <= t_row t < rows - 1;
  d_pix : forall x y, on_screen (8 * cols) (8 * rows) x y ->
    pix (8 * cols) c.(fb).(fb_base) x y = cell_pixel (cells t (y / 8) (x / 8)) (x mod 8) (y mod 8)
}.

Lemma blank_pixel x y : 0 <= x < 8 -> 0 <= y < 8 -> cell_pixel blank x y = BLACK.
Proof.
  intros Hx Hy. assert (forall i j, (i < 8)%nat -> (j < 8)%nat -> glyph_pixel 32 WHITE BLACK i j = BLACK) as H.
  { intros i j Hi Hj. do 8 (destruct i as [|i]; [do 8 (destruct j as [|j]; [reflexivity|]); lia|]). lia. }
  apply H; lia.
Qed.

Lemma draw_char_base col row x fg bg c : 0 < cols -> 0 < rows -> c.(fb).(width) = 8 * cols -> c.(fb).(height) = 8 * rows ->
  c.(fb).(pitch) = 8 * cols -> 8 * cols * (8 * rows) < 2 ^ 32 -> 0 <= col < cols -> 0 <= row < rows ->
  exists b, draw_char (8 * col) (8 * row) x fg bg c = set_fb c b /\
    forall px py, 0 <= px < 8 * cols -> pix (8 * cols) b px py =
      if decide (8 * row <= py < 8 * row + 8 /\ 8 * col <= px < 8 * col + 8)
      then glyph_pixel x fg bg (Z.to_nat (px - 8 * col)) (Z.to_nat (py - 8 * row)) else pix (8 * cols) c.(fb).(fb_base) px py.
Proof.
  intros Hc Hr Ew Eh Ep Hs Hcol Hrow. unfold draw_char. rewrite Ew, Eh.
  rewrite !(wrap_small 32 (8 * _ + 8)) by nia.
  destruct (Z.leb_spec (8 * cols) (8 * col)), (Z.leb_spec (8 * rows) (8 * row)); try lia.
  destruct (Z.ltb_spec (8 * cols) (8 * col + 8)), (Z.ltb_spec (8 * rows) (8 * row + 8)); try lia. cbn [orb].
  eexists. split.
  - replace c with (set_fb c c.(fb).(fb_base)) at 1 by (by destruct c as [[]]).
    apply for_range_comm with (F := set_fb c). intros i b Hi. apply for_range_comm. intros j b' Hj.
    unfold put_pixel. cbn [fb set_fb width height pitch fb_base]. rewrite Ew, Eh, Ep, !(wrap_small 32 (_ + Z.of_nat _)) by nia.
    destruct (Z.leb_spec (8 * cols) (8 * col + Z.of_nat j)), (Z.leb_spec (8 * rows) (8 * row + Z.of_nat i)); try lia. cbn [orb].
    rewrite (pixel_index (8 * cols) (8 * rows)) by (try split; lia). reflexivity.
  - intros px py Hpx. rewrite (fill_rect (8 * cols) ltac:(lia) (fun i j => glyph_pixel x fg bg j i)) by lia.
    change (Z.of_nat 0) with 0. change (Z.of_nat 8) with 8. rewrite !Z.add_0_r. done.
Qed.
Lemma displays_pixel c t x y : displays c t -> on_screen (8 * cols) (8 * rows) x y ->
  pix (8 * cols) c.(fb).(fb_base) x y = cell_pixel (cells t (y / 8) (x / 8)) (x mod 8) (y mod 8).
Proof. intros D. apply (d_pix _ _ D). Qed.

(** Moving the cursor. *)
Lemma move_refines c t col : displays c t -> 0 <= col <= cols ->
  displays (SetCursorPos (8 * col) c.(cursor).(cy) c) (mk_term (t_row t) col (cells t)).
Proof. intros [] Hc. split; cbn [fb cursor isgui cx cy SetCursorPos set_cursor t_row t_col cells]; done || lia. Qed.

Lemma scroll_refines c t col : displays c t -> t_row t + 2 = rows -> 0 <= col <= cols ->
  displays (auto_scroll_check (SetCursorPos (8 * col) (u32 (c.(cursor).(cy) + 8)) c))
    (term_scroll (mk_term (t_row t + 1) col (cells t))).
Proof.
  intros [] Hlast Hc. unfold auto_scroll_check. cbn [fb cursor isgui cx cy SetCursorPos set_cursor].
  assert (64 * rows < 2 ^ 32) as Hb by nia.
  rewrite d_y0, d_height0, d_width0. rewrite (wrap_small 32 (8 * t_row t + 8)), (wrap_small 32 (8 * t_row t + 8 + 8)) by lia. destruct (Z.ltb_spec (8 * t_row t + 8 + 8) (8 * rows)); [lia|].
  split; cbn [fb cursor isgui cx cy SetCursorPos set_cursor set_fb width height pitch fb_base t_row t_col cells term_scroll];
    try done; try (rewrite ?wrap_small by lia; lia).
  intros x y Hxy. pose proof Hxy as [Hx Hy]. rewrite scrolled by lia || done. case_decide as Hd.
  - rewrite d_pix0 by (split; lia). rewrite decide_True by (pose proof (Z.div_mod y 8 ltac:(lia)); pose proof (Z.mod_pos_bound y 8 ltac:(lia)); lia).
    replace (y + 8) with (y + 1 * 8) by lia. by rewrite Z.div_add, Z.mod_add by lia.
  - rewrite decide_False by (pose proof (Z.div_mod y 8 ltac:(lia)); pose proof (Z.mod_pos_bound y 8 ltac:(lia)); lia).
    symmetry. apply blank_pixel; apply Z.mod_pos_bound; lia.
Qed.

Lemma newline_forget c x : newline (SetCursorPos x c.(cursor).(cy) c) = newline c.
Proof. done. Qed.

Lemma newline_refines c t : displays c t -> displays (newline c) (term_newline t).
Proof.
  intros D. unfold newline, term_newline. cbn [cursor cy SetCursorPos set_cursor t_row].
  case_decide as Hd.
  - pose proof D as []. unfold auto_scroll_check. cbn [fb cursor isgui cx cy SetCursorPos set_cursor].
    assert (64 * rows < 2 ^ 32) as Hb by nia. rewrite d_y0, d_height0. rewrite (wrap_small 32 (8 * t_row t + 8)), (wrap_small 32 (8 * t_row t + 8 + 8)) by lia. destruct (Z.ltb_spec (8 * t_row t + 8 + 8) (8 * rows)); [|lia].
    split; cbn [fb cursor isgui cx cy SetCursorPos set_cursor t_row t_col cells]; done || lia.
  - exact (scroll_refines c t 0 D ltac:(destruct D; lia) ltac:(destruct D; lia)).
Qed.

Lemma wrap_refines c t : displays c t ->
  displays (if c.(fb).(width) <? u32 (c.(cursor).(cx) + 8) then newline c else c) (term_wrap t) /\ t_col (term_wrap t) < cols.
Proof.
  intros D. pose proof D as []. assert (64 * cols < 2 ^ 32) as Hb by nia. rewrite d_width0, d_x0, wrap_small by lia. unfold term_wrap.
  destruct (Z.ltb_spec (8 * cols) (8 * t_col t + 8)); case_decide; try lia; split; try done; [by apply newline_refines| |lia].
  unfold term_newline. case_decide; cbn [t_col term_scroll]; lia.
Qed.

Lemma draw_refines c t x : displays c t -> t_col t < cols ->
  displays (SetCursorPos (u32 (c.(cursor).(cx) + 8)) c.(cursor).(cy)
              (draw_char c.(cursor).(cx) c.(cursor).(cy) x c.(cursor).(fg_color) c.(cursor).(bg_color) c))
    (mk_term (t_row t) (t_col t + 1) (fun r k => if decide (r = t_row t /\ k = t_col t)
       then mk_cell x c.(cursor).(fg_color) c.(cursor).(bg_color) else cells t r k)).
Proof.
  intros D Hlt. pose proof D as []. assert (64 * cols < 2 ^ 32) as Hb by nia. rewrite d_x0, d_y0, wrap_small by lia.
  destruct (draw_char_base (t_col t) (t_row t) x c.(cursor).(fg_color) c.(cursor).(bg_color) c) as (b & -> & Hpix); try done; try lia.
  split; cbn [fb cursor isgui cx cy SetCursorPos set_cursor set_fb width height pitch fb_base t_row t_col cells]; try done; try lia.
  intros px py Hxy. pose proof Hxy as [Hx Hy]. rewrite Hpix by lia.
  pose proof (Z.div_mod px 8 ltac:(lia)). pose proof (Z.mod_pos_bound px 8 ltac:(lia)).
  pose proof (Z.div_mod py 8 ltac:(lia)). pose proof (Z.mod_pos_bound py 8 ltac:(lia)).
  destruct (decide (py / 8 = t_row t /\ px / 8 = t_col t)) as [[Er Ec]|Hne].
  - rewrite decide_True by lia. unfold cell_pixel. cbn [ch cell_fg cell_bg]. f_equal; f_equal; lia.
  - rewrite decide_False by lia. by apply d_pix0.
Qed.

Lemma printc_refines x c t : displays c t ->
  displays (printc x c) (term_put x c.(cursor).(fg_color) c.(cursor).(bg_color) t).
Proof.
  intros D. pose proof D as []. unfold printc, term_put. rewrite d_gui0. cbn [c_true negb Z.eqb].
  destruct (x =? 10); [by apply newline_refines|]. destruct (x =? 13); [by apply (move_refines c t 0 D); lia|].
  destruct (x =? 9).
  - assert (64 * cols < 2 ^ 32) as Hb by nia. cbn [fb cursor cx SetCursorPos set_cursor].
    rewrite d_x0, d_width0, (Z.mul_comm 8 (t_col t)), Z.div_mul by lia.
    rewrite (wrap_small 32 ((t_col t + 4) * 8)), wrap_small by lia. unfold term_wrap. cbn [t_col].
    destruct (Z.ltb_spec (8 * cols) ((t_col t + 4) * 8 + 8)); case_decide; try lia.
    + rewrite newline_forget. by apply (newline_refines c t).
    + rewrite (Z.mul_comm (t_col t + 4) 8). apply move_refines; [done|lia].
  - destruct (wrap_refines c t D) as [D' Hlt]. set (c' := if _ <? _ then _ else _) in *.
    assert (cursor c' = mk_cursor (cx (cursor c')) (cy (cursor c')) (fg_color (cursor c)) (bg_color (cursor c))) as Ek.
    { unfold c'. destruct (_ <? _); [|by destruct (cursor c)]. unfold newline, auto_scroll_check. by destruct (_ <? _). }
    pose proof (draw_refines c' _ x D' Hlt) as Hd. rewrite Ek in Hd. rewrite Ek. exact Hd.
Qed.

(** C33: in text mode ([isgui] zero), on a frame buffer without padding between scan lines (pitch equal to width)
    whose width and height are multiples of 8, the console is a terminal: printing a string changes the characters on
    the screen, the cursor and what scrolls off as the same characters sent one by one to a grid of 8x8 cells, pixel
    for pixel. With padding the code scrolls the wrong pixels, see [ConsoleFmt.scroll_pitch_mismatch]. *)
Theorem console_refines_terminal s c t : displays c t ->
  displays (printcs s c) (foldl (fun t x => term_put x c.(cursor).(fg_color) c.(cursor).(bg_color) t) t s).
Proof.
  revert c t. induction s as [|x s IH]; intros c t D; [done|]. cbn [printcs foldl].
  pose proof (printc_refines x c t D) as D1. pose proof (printc_colors x c) as [E1 E2].
  specialize (IH (printc x c) _ D1). rewrite E1, E2 in IH. exact IH.
Qed.
End Terminal.
End ConsoleProps.
