(* ===== verification/ConsoleFmt.v ===== *)
(** * Formatted output

    What [print_unsigned], [print_signed] and [printk] print, as character
    sequences: numerals are read back to the number, and a format string made
    of pieces prints the text of its pieces. *)
From Stdlib Require Import ZArith Lia String.
From stdpp Require Import base numbers list gmap.
From S2P Require Import Prelude Asm Console ConsoleProps.

Module ConsoleFmt.
Import Console ConsoleProps.
Local Open Scope Z_scope.
Local Open Scope outcome_scope.

(** ** Numerals *)
Definition digit_value (x : Z) : Z := if x <? 58 then x - 48 else x - 87.
Definition read_number (base : Z) (s : list Z) : Z := foldl (fun v x => base * v + digit_value x) 0 s.

(** A numeral of [n]: it reads back as [n], in digits below the base, without
    a leading zero. *)
Definition numeral (base n : Z) (s : list Z) : Prop :=
  read_number base s = n /\ Forall (fun x => 0 <= digit_value x < base) s /\ s <> [] /\ (s = [48] \/ head s <> Some 48).

Definition digit_char (d : Z) : Z := if d <? 10 then 48 + d else 97 + (d - 10).

Lemma digit_value_char d : 0 <= d < 36 -> digit_value (digit_char d) = d.
Proof. intros Hd. unfold digit_value, digit_char. destruct (Z.ltb_spec d 10); match goal with |- context [?a <? 58] => destruct (Z.ltb_spec a 58) end; lia. Qed.

Lemma digit_char_zero d : 0 <= d < 36 -> digit_char d = 48 -> d = 0.
Proof. unfold digit_char. destruct (Z.ltb_spec d 10); lia. Qed.

Lemma read_number_snoc base s x : read_number base (s ++ [x]) = base * read_number base s + digit_value x.
Proof. unfold read_number. by rewrite foldl_app. Qed.

(** The digits of a positive number, lowest first. *)
Lemma digits_loop_spec base : 2 <= base <= 36 -> forall fuel n, 0 < n < base ^ Z.of_nat fuel ->
  exists buf, digits_loop fuel n base = Done buf /\ read_number base (rev buf) = n /\
    Forall (fun x => 0 <= digit_value x < base) (rev buf) /\ head (rev buf) <> Some 48 /\ buf <> [] /\
    base ^ (Z.of_nat (length buf) - 1) <= n.
Proof.
  intros Hb. induction fuel as [|fuel IH]; intros n Hn; [cbn in Hn; lia|].
  cbn [digits_loop]. rewrite (proj2 (Z.eqb_neq n 0)) by lia. fold (digit_char (n mod base)).
  pose proof (Z.mod_pos_bound n base ltac:(lia)) as Hm. pose proof (Z.div_mod n base ltac:(lia)) as Hdm.
  rewrite Nat2Z.inj_succ, Z.pow_succ_r in Hn by lia.
  destruct (Z.eq_dec (n / base) 0) as [E|E].
  - exists [digit_char (n mod base)].
    assert (digits_loop fuel (n / base) base = Done []) as -> by (rewrite E; by destruct fuel).
    cbn [obind rev app length]. unfold read_number. cbn [foldl]. rewrite digit_value_char by lia.
    split_and!; [done|lia|constructor; [rewrite digit_value_char by lia; lia|constructor]| |done|].
    + cbn [head]. intros [= H]. apply digit_char_zero in H; lia.
    + change (Z.of_nat 1 - 1) with 0. cbn. lia.
  - destruct (IH (n / base)) as (buf & -> & Hr & Hd & Hh & Hne & Hlen).
    { split; [pose proof (Z.div_pos n base); lia|]. apply Z.div_lt_upper_bound; lia. }
    cbn [obind]. eexists. split; [done|]. cbn [rev]. rewrite read_number_snoc, digit_value_char, Hr by lia.
    split_and!; [lia|apply Forall_app; split; [done|constructor; [rewrite digit_value_char by lia; lia|constructor]]| |done|].
    + destruct (rev buf) as [|y l] eqn:Er; [|done]. destruct buf; [done|]. apply (f_equal length) in Er. rewrite length_rev in Er. done.
    + cbn [length]. destruct buf as [|y buf]; [done|]. cbn [length] in Hlen |- *.
      replace (Z.of_nat (S (S (length buf))) - 1) with (Z.succ (Z.of_nat (S (length buf)) - 1)) by lia.
      rewrite Z.pow_succ_r by lia. nia.
Qed.

(** Numbers below [2 ^ 64] fit the buffer in any base from 10 on. *)
Lemma print_unsigned_spec n base c : 10 <= base <= 36 -> 0 <= n < 2 ^ 64 ->
  exists s, print_unsigned n base c = Done (printcs s c) /\ numeral base n s /\ (length s <= 20)%nat.
Proof.
  intros Hb Hn. unfold print_unsigned, numeral. destruct (Z.eqb_spec n 0) as [->|Hn0].
  { exists [48]. split; [done|]. split; [|cbn; lia]. split_and!; [| |done|by left].
    - unfold read_number. cbn [foldl]. change (digit_value 48) with 0. lia.
    - constructor; [change (digit_value 48) with 0; lia|constructor]. }
  assert (2 ^ 64 <= base ^ 64) as H64 by (apply Z.pow_le_mono_l; lia).
  destruct (digits_loop_spec base ltac:(lia) 64 n) as (buf & -> & Hr & Hd & Hh & Hne & Hlen); [lia|]. cbn [obind].
  assert (Z.of_nat (length buf) <= 20) as H20.
  { destruct (Z.le_gt_cases (Z.of_nat (length buf)) 20); [done|]. assert (10 ^ 20 <= base ^ 20) by (apply Z.pow_le_mono_l; lia).
    assert (base ^ 20 <= base ^ (Z.of_nat (length buf) - 1)) by (apply Z.pow_le_mono_r; lia).
    assert (2 ^ 64 < 10 ^ 20) by reflexivity. lia. }
  destruct (Z.ltb_spec 32 (Z.of_nat (length buf))); [lia|]. exists (rev buf). split; [done|]. rewrite length_rev.
  split; [|lia]. split_and!; [done..| |by right]. intros E. apply (f_equal length) in E. rewrite length_rev in E. by destruct buf.
Qed.

(** A signed numeral. *)
Definition signed_numeral (n : Z) (s : list Z) : Prop :=
  if decide (n < 0) then exists s', s = 45 :: s' /\ numeral 10 (- n) s' else numeral 10 n s.

Lemma print_signed_spec n c : - 2 ^ 63 <= n < 2 ^ 63 ->
  exists s, print_signed n c = Done (printcs s c) /\ signed_numeral n s.
Proof.
  intros Hn. unfold print_signed, signed_numeral. destruct (Z.ltb_spec n 0); case_decide; try lia.
  - rewrite wrap_small by lia. destruct (print_unsigned_spec (- n) 10 (printc 45 c)) as (s & -> & Hs & _); [lia..|].
    exists (45 :: s). eauto.
  - destruct (print_unsigned_spec n 10 c) as (s & -> & Hs & _); [lia..|]. eauto.
Qed.

(** ** Format strings *)

(** The length modifier: none, l or ll. *)
Inductive modifier := Plain | L | LL.
Definition mod_chars (k : modifier) : list Z := match k with Plain => [] | L => [108] | LL => [108; 108] end.
Definition is_long (k : modifier) : bool := match k with Plain => false | _ => true end.

Inductive piece :=
| Text (x : Z)
| Percent
| Signed (k : modifier) (v : Z)
| Unsigned (k : modifier) (v : Z)
| Hex (upper : bool) (k : modifier) (v : Z)
| Pointer (v : Z)
| Char (v : Z)
| String (s : option (list Z)).

Definition piece_format (p : piece) : list Z :=
  match p with
  | Text x => [x]
  | Percent => [37; 37]
  | Signed k _ => 37 :: mod_chars k ++ [100]
  | Unsigned k _ => 37 :: mod_chars k ++ [117]
  | Hex upper k _ => 37 :: mod_chars k ++ [if upper then 88 else 120]
  | Pointer _ => [37; 112]
  | Char _ => [37; 99]
  | String _ => [37; 115]
  end.

Definition piece_args (p : piece) : list va :=
  match p with
  | Text _ | Percent => []
  | Signed _ v | Unsigned _ v | Hex _ _ v | Pointer v | Char v => [Word v]
  | String (Some s) => [Str s]
  | String None => [Word 0]
  end.

Definition piece_ok (p : piece) : Prop := match p with Text x => x <> 37 | _ => True end.

(** The text of a piece. *)
Definition piece_shows (p : piece) (s : list Z) : Prop :=
  match p with
  | Text x => s = [x]
  | Percent => s = [37]
  | Signed k v => signed_numeral (as_signed (is_long k) v) s
  | Unsigned k v => numeral 10 (as_unsigned (is_long k) v) s
  | Hex _ k v => numeral 16 (as_unsigned (is_long k) v) s
  | Pointer v => exists s', s = 48 :: 120 :: s' /\ numeral 16 (u64 v) s'
  | Char v => s = [u8 v]
  | String (Some x) => s = take 255 x
  | String None => s = s_null
  end.

Lemma printcs_app a b c : printcs (a ++ b) c = printcs b (printcs a c).
Proof. apply foldl_app. Qed.

Lemma as_unsigned_range ll v : 0 <= as_unsigned ll v < 2 ^ 64.
Proof.
  unfold as_unsigned. destruct ll; [apply Z.mod_pos_bound; lia|]. pose proof (Z.mod_pos_bound v (2 ^ 32) ltac:(lia)). 
  change (u32 v) with (v mod 2 ^ 32). lia.
Qed.

Lemma as_signed_range ll v : - 2 ^ 63 <= as_signed ll v < 2 ^ 63.
Proof. unfold as_signed. destruct ll; [pose proof (swrap_range 64 v ltac:(lia))|pose proof (swrap_range 32 v ltac:(lia))]; lia. Qed.

(** A directive with its modifier, at the head of the format. *)
Lemma printk_directive k d fmt args c r : d <> 108 -> directive d (is_long k) args c = Done r ->
  printk_loop (37 :: mod_chars k ++ d :: fmt) args c = printk_loop fmt (fst r) (snd r).
Proof.
  intros Hd Hr. destruct r as [args' c']. destruct k; cbn [mod_chars app is_long] in *; cbn [printk_loop negb Z.eqb Pos.eqb].
  - rewrite (proj2 (Z.eqb_neq d 108)) by done. by rewrite Hr.
  - rewrite (proj2 (Z.eqb_neq d 108)) by done. by rewrite Hr.
  - by rewrite Hr.
Qed.

Lemma directive_pointer ll v args c : directive 112 ll (Word v :: args) c =
  let* c := print_unsigned (u64 v) 16 (printc 120 (printc 48 c)) in Done (args, c).
Proof. reflexivity. Qed.

Lemma printk_piece p fmt args c : piece_ok p ->
  exists s, piece_shows p s /\ printk_loop (piece_format p ++ fmt) (piece_args p ++ args) c = printk_loop fmt args (printcs s c).
Proof.
  intros Hok. destruct p as [x| |k v|k v|up k v|v|v|[s|]]; cbn [piece_format piece_args piece_shows piece_ok app] in *.
  - exists [x]. split; [done|]. cbn [printk_loop]. by rewrite (proj2 (Z.eqb_neq x 37)) by done.
  - by exists [37].
  - destruct (print_signed_spec (as_signed (is_long k) v) c (as_signed_range _ v)) as (s & E & Hs). exists s. split; [done|].
    rewrite <- app_assoc. cbn [app]. rewrite (printk_directive _ _ _ _ _ (args, printcs s c)); [done..|]. unfold directive. cbn [next_word obind]. by rewrite E.
  - destruct (print_unsigned_spec (as_unsigned (is_long k) v) 10 c ltac:(lia) (as_unsigned_range _ v)) as (s & E & Hs & _).
    exists s. split; [done|]. rewrite <- app_assoc. cbn [app]. rewrite (printk_directive _ _ _ _ _ (args, printcs s c)); [done..|].
    unfold directive. cbn [next_word obind]. by rewrite E.
  - destruct (print_unsigned_spec (as_unsigned (is_long k) v) 16 c ltac:(lia) (as_unsigned_range _ v)) as (s & E & Hs & _).
    exists s. split; [done|]. rewrite <- app_assoc. cbn [app]. rewrite (printk_directive _ _ _ _ _ (args, printcs s c)); [done|by destruct up|].
    unfold directive. cbn [next_word obind]. destruct up; by rewrite E.
  - destruct (print_unsigned_spec (u64 v) 16 (printc 120 (printc 48 c)) ltac:(lia) (as_unsigned_range true v)) as (s & E & Hs & _).
    exists (48 :: 120 :: s). split; [eauto|].
    change (37 :: 112 :: fmt) with (37 :: mod_chars Plain ++ 112 :: fmt). rewrite (printk_directive _ _ _ _ _ (args, printcs (48 :: 120 :: s) c)); [done..|].
    rewrite directive_pointer. by rewrite E.
  - by exists [u8 v].
  - by exists (take 255 s).
  - exists s_null. split; [done|]. change (37 :: 115 :: fmt) with (37 :: mod_chars Plain ++ 115 :: fmt).
    by rewrite (printk_directive _ _ _ _ _ (args, printcs s_null c)).
Qed.

Lemma printk_shows fg bg ps c : Forall piece_ok ps -> (length (mjoin (piece_format <$> ps)) <= 511)%nat ->
  exists ss, Forall2 piece_shows ps ss /\
    printk fg bg (mjoin (piece_format <$> ps)) (mjoin (piece_args <$> ps)) c =
    Done (SetColors c.(cursor).(fg_color) c.(cursor).(bg_color) (printcs (mjoin ss) (SetColors fg bg c))).
Proof.
  intros Hok Hlen. unfold printk. rewrite take_ge by done. clear Hlen.
  assert (forall c, exists ss, Forall2 piece_shows ps ss /\
    printk_loop (mjoin (piece_format <$> ps)) (mjoin (piece_args <$> ps)) c = Done (printcs (mjoin ss) c)) as H.
  { induction Hok as [|p ps Hp Hok IH]; intros c'; [by exists []|].
    destruct (printk_piece p (mjoin (piece_format <$> ps)) (mjoin (piece_args <$> ps)) c' Hp) as (s & Hs & E).
    destruct (IH (printcs s c')) as (ss & Hss & E'). exists (s :: ss). split; [by constructor|].
    etransitivity; [exact E|]. rewrite E'. f_equal. symmetry. apply (printcs_app s (mjoin ss)). }
  destruct (H (SetColors fg bg c)) as (ss & Hss & ->). by exists ss.
Qed.

(** The colours the console has outside a call are kept by every character. *)
Lemma printcs_colors s c : same_colors c (printcs s c).
Proof.
  revert c. induction s as [|x s IH]; intros c; [done|]. cbn [printcs foldl]. destruct (printc_colors x c) as [E1 E2].
  destruct (IH (printc x c)) as [E3 E4]. split; etransitivity; eauto.
Qed.

(** formatted output. For a format made of text and the directives the
    function knows, with matching arguments, [printk] prints the text, the
    numerals (which read back to the argument at its width) and the strings,
    in order, in the given colours, and restores the cursor's colours. *)
Theorem printk_pieces fg bg ps c : Forall piece_ok ps -> (length (mjoin (piece_format <$> ps)) <= 511)%nat ->
  exists ss, Forall2 piece_shows ps ss /\
    printk fg bg (mjoin (piece_format <$> ps)) (mjoin (piece_args <$> ps)) c =
    Done (SetColors c.(cursor).(fg_color) c.(cursor).(bg_color) (printcs (mjoin ss) (SetColors fg bg c))).
Proof. apply printk_shows. Qed.

(** ** A screen of four columns and three rows *)
Definition small : console := mk_console (mk_fb ∅ 32 24 32) (mk_cursor 0 0 WHITE BLACK) 0 0 0.
Definition empty_term : term := mk_term 0 0 (fun _ _ => ConsoleProps.blank).

Lemma small_displays : displays 4 3 small empty_term.
Proof.
  split; cbn; try lia. intros x y [Hx Hy]. rewrite blank_pixel by (apply Z.mod_pos_bound; lia).
  unfold pix. by rewrite lookup_empty.
Qed.

(** "ab", newline, "c", newline, "d": the last newline scrolls "ab" away. *)
Lemma console_refines_terminal_witness :
  displays 4 3 (printcs [97; 98; 10; 99; 10; 100] small)
    (foldl (fun t x => term_put 4 3 x WHITE BLACK t) empty_term [97; 98; 10; 99; 10; 100]) /\
  ch (cells (foldl (fun t x => term_put 4 3 x WHITE BLACK t) empty_term [97; 98; 10; 99; 10; 100]) 0 0) = 99.
Proof. split; [apply (console_refines_terminal 4 3 _ small empty_term small_displays)|reflexivity]. Defined.

(** "%d-%llx%%" with -5 and 2 ^ 40. *)
Lemma printk_pieces_witness : exists ss,
  Forall2 piece_shows [Signed Plain (-5); Text 45; Hex false LL (2 ^ 40); Percent] ss /\
  printk RED BLACK [37; 100; 45; 37; 108; 108; 120; 37; 37] [Word (-5); Word (2 ^ 40)] small =
  Done (SetColors WHITE BLACK (printcs (mjoin ss) (SetColors RED BLACK small))).
Proof.
  apply (printk_pieces RED BLACK [Signed Plain (-5); Text 45; Hex false LL (2 ^ 40); Percent] small).
  - repeat constructor. intros [=].
  - vm_compute. lia.
Defined.

(** With a scan line longer than the row the scroll moves the wrong words: the
    glyph of the second row is not in the first row afterwards. *)
Definition padded : console := mk_console (mk_fb ∅ 16 24 24) (mk_cursor 0 8 WHITE BLACK) 0 0 0.
Definition pixel_of (c : console) (x y : Z) : Z := default 0 (c.(fb).(fb_base) !! (y * c.(fb).(pitch) + x)).
Theorem scroll_pitch_mismatch :
  let c := printc 65 padded in
  pixel_of c 2 8 = WHITE /\ pixel_of (newline c) 2 0 = BLACK.
Proof. vm_compute. auto. Qed.
End ConsoleFmt.

(** * Messages on the console

    PRINT with a literal and its arguments prints a text: [printed]. The text
    is found by cutting the literal into pieces, and consecutive messages in
    one colour print their texts one after the other. *)
Module Messages.
Import Asm Console ConsoleProps ConsoleFmt.
Local Open Scope Z_scope.
Local Open Scope outcome_scope.

(** [s] printed in the given colours, the cursor's colours kept. *)
Definition printed (fg bg : Z) (s : list Z) (c : console) : console :=
  SetColors c.(cursor).(fg_color) c.(cursor).(bg_color) (printcs s (SetColors fg bg c)).

Lemma SetColors_twice a b a' b' c : SetColors a b (SetColors a' b' c) = SetColors a b c.
Proof. by destruct c. Qed.
Lemma SetColors_self c : SetColors c.(cursor).(fg_color) c.(cursor).(bg_color) c = c.
Proof. by destruct c as [? []]. Qed.

Lemma printed_app fg bg s s' c : printed fg bg s' (printed fg bg s c) = printed fg bg (s ++ s') c.
Proof.
  unfold printed. rewrite SetColors_twice, printcs_app. destruct (printcs_colors s (SetColors fg bg c)) as [E1 E2].
  cbn [SetColors set_cursor cursor fg_color bg_color] in E1, E2.
  assert (H : SetColors fg bg (printcs s (SetColors fg bg c)) = printcs s (SetColors fg bg c)).
  { etransitivity; [|apply SetColors_self]. by rewrite E1, E2. }
  rewrite H. done.
Qed.

Lemma printed_nil fg bg c : printed fg bg [] c = c.
Proof. unfold printed. cbn [printcs foldl]. rewrite SetColors_twice. apply SetColors_self. Qed.

(** The pieces of a literal with the directives the messages use. *)
Fixpoint pieces_of (fmt : list Z) (args : list va) : list piece :=
  match fmt, args with
  | 37 :: 112 :: fmt, Word v :: args => Pointer v :: pieces_of fmt args
  | 37 :: 100 :: fmt, Word v :: args => Signed Plain v :: pieces_of fmt args
  | 37 :: 117 :: fmt, Word v :: args => Unsigned Plain v :: pieces_of fmt args
  | 37 :: 120 :: fmt, Word v :: args => Hex false Plain v :: pieces_of fmt args
  | 37 :: 115 :: fmt, Str s :: args => String (Some s) :: pieces_of fmt args
  | 37 :: 108 :: 108 :: 120 :: fmt, Word v :: args => Hex false LL v :: pieces_of fmt args
  | 37 :: 108 :: 108 :: 117 :: fmt, Word v :: args => Unsigned LL v :: pieces_of fmt args
  | x :: fmt, args => Text x :: pieces_of fmt args
  | [], _ => []
  end.

Definition piece_okb (p : piece) : bool := match p with Text x => negb (x =? 37) | _ => true end.
Lemma pieces_okb ps : forallb piece_okb ps = true -> Forall piece_ok ps.
Proof.
  intros H. induction ps as [|p ps IH]; [done|]. cbn in H. apply andb_true_iff in H as [H1 H2]. constructor; [|auto].
  destruct p; try done. cbn in *. by destruct (Z.eqb_spec x 37).
Qed.

(** A message prints its pieces; the conditions are evaluated for a literal. *)
Lemma PRINT_shows fg bg text args c : let ps := pieces_of text args in
  mjoin (piece_format <$> ps) = text -> mjoin (piece_args <$> ps) = args -> forallb piece_okb ps = true -> (length text <= 127)%nat ->
  exists ss, Forall2 piece_shows ps ss /\ PRINT fg bg text args c = Done (printed fg bg (mjoin ss) c).
Proof.
  intros ps E1 E2 Hok Hl. unfold PRINT. rewrite take_ge by done.
  destruct (printk_shows fg bg ps c) as (ss & Hss & E); [by apply pieces_okb|rewrite E1; lia|]. rewrite E1, E2 in E. eauto.
Qed.

(** A literal without directives prints itself. *)
Lemma texts_show s ss : Forall2 piece_shows (Text <$> s) ss -> mjoin ss = s.
Proof.
  revert ss. induction s as [|x s IH]; intros ss H; inversion H as [|? ? ? ? Hx Hs]; subst; [done|].
  cbn in Hx. subst. cbn. f_equal. auto.
Qed.

Lemma PRINT_text fg bg text c : forallb (fun x => negb (x =? 37)) text = true -> (length text <= 127)%nat ->
  PRINT fg bg text [] c = Done (printed fg bg text c).
Proof.
  intros Hok Hl.
  assert (Ep : forall l, forallb (fun x => negb (x =? 37)) l = true -> pieces_of l [] = Text <$> l).
  { induction l as [|x l IH]; [done|]. intros H. cbn [forallb] in H. apply andb_true_iff in H as [_ H]. rewrite fmap_cons, <- IH by done.
    assert (E : pieces_of (x :: l) [] = Text x :: pieces_of l []); [|exact E].
    cbn [pieces_of]. repeat case_match; done. }
  assert (E1 : forall l, mjoin (piece_format <$> (Text <$> l)) = l) by (induction l as [|x l IH]; cbn; [done|by f_equal]).
  assert (E2 : forall l, mjoin (piece_args <$> (Text <$> l)) = []) by (induction l; done).
  destruct (PRINT_shows fg bg text [] c) as (ss & Hss & E); rewrite ?Ep, ?E1, ?E2 in * by done; try done.
  - clear Hl. induction text as [|x text IH]; [done|]. cbn in *. apply andb_true_iff in Hok as [-> Hok]. auto.
  - rewrite E. by rewrite (texts_show _ _ Hss).
Qed.
End Messages.
