(* ===== verification/History.v ===== *)
(** * The command history (includes/command_history.h)

    A ring of fifty command buffers with a cursor for the arrow keys. *)
From Stdlib Require Import ZArith Lia.
From stdpp Require Import base numbers list gmap.
From S2P Require Import Prelude CStr Console.

Module History.
Import Console.
Local Open Scope Z_scope.
Local Open Scope arr_scope.
Local Open Scope outcome_scope.

Definition HISTORY_SIZE : Z := 50.
Definition CMD_MAX_LENGTH : Z := 256.

Record command_history_t := mk_history { commands : list (list Z); count : Z; current : Z; hist_write_pos : Z }.

Definition cmd_history : command_history_t := mk_history (replicate 50 (replicate 256 0)) 0 (-1) 0.

Definition command (h : command_history_t) (i : Z) : list Z := nth (Z.to_nat i) h.(commands) [].
Definition set_current (v : Z) (h : command_history_t) : command_history_t :=
  mk_history h.(commands) h.(count) v h.(hist_write_pos).

(** [while (s1[i] && s2[i]) if (s1[i] != s2[i]) return 0; return s1[i] == s2[i]] *)
Fixpoint strings_equal (s1 s2 : list Z) : bool :=
  match s1, s2 with
  | c1 :: s1, c2 :: s2 => if c_true c1 && c_true c2 then (c1 =? c2) && strings_equal s1 s2 else c1 =? c2
  | _, _ => s1.[0] =? s2.[0]
  end.

Definition last_index (h : command_history_t) : Z := (h.(hist_write_pos) - 1 + HISTORY_SIZE) mod HISTORY_SIZE.

Definition history_add (cmd : list Z) (h : command_history_t) : command_history_t :=
  if cmd.[0] =? 0 then h
  else if (0 <? h.(count)) && strings_equal (command h (last_index h)) cmd then h
  else
    let row := strcpy_safe (command h h.(hist_write_pos)) cmd (Z.to_nat CMD_MAX_LENGTH) in
    mk_history (<[Z.to_nat h.(hist_write_pos) := row]> h.(commands))
      (if h.(count) <? HISTORY_SIZE then h.(count) + 1 else h.(count)) (-1)
      ((h.(hist_write_pos) + 1) mod HISTORY_SIZE).

(** [while (pos != write_pos) steps_back++, pos = (pos + 1) % HISTORY_SIZE]: at
    most fifty rounds. *)
Fixpoint count_steps (fuel : nat) (pos wp steps : Z) : outcome Z :=
  if pos =? wp then Done steps else
  match fuel with
  | O => OutOfFuel
  | S fuel => count_steps fuel ((pos + 1) mod HISTORY_SIZE) wp (steps + 1)
  end.

(** [None] is NULL. *)
Definition history_prev (h : command_history_t) : outcome (option (list Z) * command_history_t) :=
  if h.(count) =? 0 then Done (None, h) else
  let* h :=
    (if h.(current) =? -1 then Done (set_current (last_index h) h) else
     let* steps_back := count_steps 50 h.(current) h.(hist_write_pos) 0 in
     Done (if steps_back <? h.(count)
           then set_current ((h.(current) - 1 + HISTORY_SIZE) mod HISTORY_SIZE) h else h)) in
  Done (Some (command h h.(current)), h).

Definition history_next (h : command_history_t) : option (list Z) * command_history_t :=
  if h.(current) =? -1 then (None, h) else
  let next_pos := (h.(current) + 1) mod HISTORY_SIZE in
  if next_pos =? h.(hist_write_pos) then (Some [0], set_current (-1) h)
  else let h := set_current next_pos h in (Some (command h h.(current)), h).

Definition history_reset (h : command_history_t) : command_history_t := set_current (-1) h.

Definition s_none : list Z := [78; 111; 32; 99; 111; 109; 109; 97; 110; 100; 115; 32; 105; 110; 32; 104; 105; 115; 116; 111; 114; 121; 10].
Definition s_title : list Z := [10; 61; 61; 61; 32; 67; 111; 109; 109; 97; 110; 100; 32; 72; 105; 115; 116; 111; 114; 121; 32; 61; 61; 61; 10].
Definition s_entry : list Z := [37; 115; 32; 32; 37; 115; 10].

Fixpoint list_entries (n : nat) (start i : Z) (h : command_history_t) (c : console) : outcome console :=
  match n with
  | O => Done c
  | S n =>
    let idx := (start + i) mod HISTORY_SIZE in
    let* c := PRINT WHITE BLACK s_entry [Word (i + 1); Str (cstr (command h idx))] c in
    list_entries n start (i + 1) h c
  end.

(** The directive for the number is a string directive. *)
Definition history_list (h : command_history_t) (c : console) : outcome console :=
  if h.(count) =? 0 then PRINT WHITE BLACK s_none [] c else
  let* c := PRINT CYAN BLACK s_title [] c in
  let start := if h.(count) <? HISTORY_SIZE then 0 else h.(hist_write_pos) in
  let* c := list_entries (Z.to_nat h.(count)) start 0 h c in
  PRINT WHITE BLACK [10] [] c.
End History.

(** * The history is a list of the last fifty commands

    The ring is related to a list, newest first, and a position in it. *)
Module HistoryProps.
Import Console History.
Local Open Scope Z_scope.
Local Open Scope outcome_scope.

(** The slot of the command [k] steps back. *)
Definition slot (h : command_history_t) (k : Z) : Z := (h.(hist_write_pos) - 1 - k) mod 50.

Record history_ok (h : command_history_t) (L : list (list Z)) (nav : option nat) : Prop := {
  h_rows : length h.(commands) = 50%nat;
  h_len : Forall (fun r => length r = 256%nat) h.(commands);
  h_count : h.(count) = Z.of_nat (length L);
  h_max : (length L <= 50)%nat;
  h_wp : 0 <= h.(hist_write_pos) < 50;
  h_cmd : forall k s, L !! k = Some s -> cstr (command h (slot h (Z.of_nat k))) = s;
  h_nav : match nav with None => h.(current) = -1 | Some k => (k < length L)%nat /\ h.(current) = slot h (Z.of_nat k) end
}.

Lemma slot_range h k : 0 <= slot h k < 50.
Proof. apply Z.mod_pos_bound. lia. Qed.

(** The shape of a remainder below fifty, so that [lia] can use it. *)
Lemma mod50 x : exists q, x = 50 * q + x mod 50 /\ 0 <= x mod 50 < 50.
Proof. exists (x / 50). split; [apply Z.div_mod; lia|apply Z.mod_pos_bound; lia]. Qed.

Ltac mod50 :=
  repeat match goal with
  | |- context [?x mod 50] => let q := fresh "q" in let E := fresh in let B := fresh in
      destruct (mod50 x) as (q & E & B); generalize dependent (x mod 50); intros
  | H : context [?x mod 50] |- _ => let q := fresh "q" in let E := fresh in let B := fresh in
      destruct (mod50 x) as (q & E & B); generalize dependent (x mod 50); intros
  end.

Lemma strings_equal_spec s1 : forall s2, strings_equal s1 s2 = true <-> cstr s1 = cstr s2.
Proof.
  induction s1 as [|c1 s1 IH]; intros [|c2 s2]; cbn [strings_equal cstr get nth].
  - done.
  - change (0 =? get (c2 :: s2) 0 = true <-> [] = cstr (c2 :: s2)). cbn [cstr get nth]. destruct (Z.eqb_spec 0 c2) as [<-|]; [done|].
    destruct (Z.eqb_spec c2 0); [lia|]. done.
  - change (c1 =? 0 = true <-> cstr (c1 :: s1) = []). cbn [cstr]. by destruct (c1 =? 0).
  - unfold c_true. destruct (Z.eqb_spec c1 0) as [->|H1], (Z.eqb_spec c2 0) as [->|H2]; cbn [negb andb].
    + done.
    + destruct (Z.eqb_spec 0 c2); [lia|done].
    + destruct (Z.eqb_spec c1 0); [lia|done].
    + rewrite andb_true_iff, IH, Z.eqb_eq. split; [intros [-> ->]; done|intros [= -> ->]; done].
Qed.

Lemma count_steps_spec wp d : forall fuel pos s, 0 <= wp < 50 -> (d < 50)%nat -> (d <= fuel)%nat ->
  pos = (wp - Z.of_nat d) mod 50 -> count_steps fuel pos wp s = Done (s + Z.of_nat d).
Proof.
  induction d as [|d IH]; intros fuel pos s Hwp Hd Hf Hpos; subst pos.
  - rewrite Z.sub_0_r, Z.mod_small by lia. destruct fuel; cbn [count_steps]; rewrite Z.eqb_refl; f_equal; lia.
  - destruct fuel as [|fuel]; [lia|]. cbn [count_steps]. set (pos := (wp - Z.of_nat (S d)) mod 50).
    destruct (Z.eqb_spec pos wp) as [E|_].
    { exfalso. unfold pos in E. mod50. lia. }
    rewrite (IH fuel _ (s + 1)); [f_equal; lia|done|lia|lia|]. unfold pos, HISTORY_SIZE. rewrite Z.add_mod_idemp_l by lia. f_equal. lia.
Qed.

(** ** The abstract history *)
Definition h_add (s : list Z) (L : list (list Z)) (nav : option nat) : list (list Z) * option nat :=
  if decide (head L = Some s) then (L, nav) else (take 50 (s :: L), None).
(** The arrow up stops at the oldest command, except that with fifty commands it goes
    on to the newest. *)
Definition h_prev (L : list (list Z)) (nav : option nat) : nat :=
  match nav with
  | None => 0
  | Some k => if decide (S k < length L)%nat then S k else if decide (length L = 50%nat) then 0 else k
  end.

Lemma command_set h v i : command (set_current v h) i = command h i.
Proof. done. Qed.

Lemma last_slot h : last_index h = slot h 0.
Proof.
  unfold last_index, slot, HISTORY_SIZE. replace (hist_write_pos h - 1 + 50) with (hist_write_pos h - 1 - 0 + 1 * 50) by lia.
  apply Z.mod_add. lia.
Qed.

Lemma head_last h L nav s : history_ok h L nav ->
  (0 <? h.(count)) && strings_equal (command h (last_index h)) s = bool_decide (head L = Some (cstr s)).
Proof.
  intros []. rewrite last_slot.
  destruct L as [|x L]; cbn [head]; rewrite h_count0; cbn [length].
  - change (0 <? Z.of_nat 0) with false. symmetry. by apply bool_decide_eq_false_2.
  - destruct (Z.ltb_spec 0 (Z.of_nat (S (length L)))); [|lia]. cbn [andb]. specialize (h_cmd0 0%nat x eq_refl). change (Z.of_nat 0) with 0 in h_cmd0.
    destruct (strings_equal _ s) eqn:E; symmetry.
    + apply bool_decide_eq_true_2. apply strings_equal_spec in E. congruence.
    + apply bool_decide_eq_false_2. intros [= ->]. apply not_true_iff_false in E. apply E, strings_equal_spec. done.
Qed.

Lemma add_ok h L nav cmd : history_ok h L nav -> cstr cmd <> [] -> (length (cstr cmd) <= 255)%nat ->
  history_ok (history_add cmd h) (fst (h_add (cstr cmd) L nav)) (snd (h_add (cstr cmd) L nav)).
Proof.
  intros H Hne Hlen. unfold history_add, h_add.
  assert (get cmd 0 <> 0) as H0. { destruct cmd as [|c cmd]; [done|]. unfold get. cbn. cbn [cstr] in Hne. destruct (Z.eqb_spec c 0); done. }
  rewrite (proj2 (Z.eqb_neq _ _) H0), (head_last h L nav) by done. case_bool_decide; case_decide; try done. cbn [fst snd].
  destruct H. destruct (strcpy_safe_cstr (command h (hist_write_pos h)) cmd 256) as [Hc Hl].
  { unfold command. rewrite nth_lookup. destruct (lookup_lt_is_Some_2 (commands h) (Z.to_nat (hist_write_pos h))) as [r Hr]; [lia|].
    rewrite Hr. cbn. rewrite Forall_lookup in h_len0. rewrite (h_len0 _ _ Hr). lia. }
  change (Z.to_nat CMD_MAX_LENGTH) with 256%nat. set (row := strcpy_safe _ cmd 256) in *.
  split; cbn [commands count current hist_write_pos].
  - by rewrite length_insert.
  - apply Forall_insert; [done|]. rewrite Hl. unfold command. rewrite nth_lookup.
    destruct (lookup_lt_is_Some_2 (commands h) (Z.to_nat (hist_write_pos h))) as [r Hr]; [lia|]. rewrite Hr. cbn.
    rewrite Forall_lookup in h_len0. by apply (h_len0 _ _ Hr).
  - rewrite length_take. cbn [length]. rewrite h_count0. unfold HISTORY_SIZE. destruct (Z.ltb_spec (Z.of_nat (length L)) 50); lia.
  - rewrite length_take. lia.
  - apply Z.mod_pos_bound. unfold HISTORY_SIZE. lia.
  - intros k s Hk. apply lookup_take_Some in Hk as [Hk Hk50]. unfold slot, command. cbn [commands hist_write_pos]. unfold HISTORY_SIZE.
    replace (((hist_write_pos h + 1) mod 50 - 1 - Z.of_nat k) mod 50) with ((hist_write_pos h - Z.of_nat k) mod 50).
    2: { rewrite <- Z.sub_add_distr, Zminus_mod_idemp_l. f_equal. lia. }
    destruct k as [|k].
    + injection Hk as <-. rewrite Z.sub_0_r, Z.mod_small by lia. rewrite nth_lookup, list_lookup_insert_eq by lia. change (default [] (Some row)) with row.
      rewrite Hc. apply take_ge. lia.
    + cbn [lookup list_lookup] in Hk. rewrite nth_lookup, list_lookup_insert_ne.
      * rewrite <- nth_lookup. rewrite <- (h_cmd0 k s Hk). unfold command, slot. do 4 f_equal. lia.
      * intros E. apply lookup_lt_Some in Hk. mod50. lia.
  - done.
Qed.

Lemma slot_back h k : (slot h k - 1 + 50) mod 50 = slot h (k + 1).
Proof.
  unfold slot. replace (_ mod 50 - 1 + 50) with ((hist_write_pos h - 1 - k) mod 50 + 49) by lia.
  rewrite Zplus_mod_idemp_l. replace (hist_write_pos h - 1 - k + 49) with (hist_write_pos h - 1 - (k + 1) + 1 * 50) by lia.
  apply Z.mod_add. lia.
Qed.

Lemma slot_forward h k : (slot h (k + 1) + 1) mod 50 = slot h k.
Proof. unfold slot. rewrite Zplus_mod_idemp_l. f_equal. lia. Qed.

Lemma slot_turn h k : slot h (k + 50) = slot h k.
Proof. unfold slot. replace (hist_write_pos h - 1 - (k + 50)) with (hist_write_pos h - 1 - k + (-1) * 50) by lia. apply Z.mod_add. lia. Qed.

Lemma set_current_ok h L nav k : history_ok h L nav -> (k < length L)%nat ->
  let h' := set_current (slot h (Z.of_nat k)) h in
  L !! k = Some (cstr (command h' (current h'))) /\ history_ok h' L (Some k).
Proof.
  intros [] Hk. split; [|by split]. destruct (lookup_lt_is_Some_2 L k Hk) as [s Hs]. rewrite Hs. f_equal. symmetry. by apply h_cmd0.
Qed.

Lemma h_prev_lt L nav : L <> [] -> match nav with Some k => (k < length L)%nat | None => True end -> (h_prev L nav < length L)%nat.
Proof. intros HL Hn. unfold h_prev. destruct L; [done|]. cbn [length] in *. destruct nav; repeat case_decide; lia. Qed.

(** The new position of [history_prev], when one was set. *)
Lemma prev_step h L k : history_ok h L (Some k) ->
  (let* steps_back := count_steps 50 (current h) (hist_write_pos h) 0 in
   Done (if steps_back <? count h then set_current ((current h - 1 + HISTORY_SIZE) mod HISTORY_SIZE) h else h)) =
  Done (set_current (slot h (Z.of_nat (h_prev L (Some k)))) h).
Proof.
  intros []. destruct h_nav0 as [Hk Hcur]. rewrite h_count0, Hcur. unfold HISTORY_SIZE. rewrite slot_back.
  assert (set_current (slot h (Z.of_nat k)) h = h) as Hsame by (rewrite <- Hcur; by destruct h).
  cbn [h_prev]. destruct (decide (k = 49%nat)) as [->|Hne].
  - change (Z.of_nat 49 + 1) with (0 + 50). rewrite slot_turn.
    rewrite (count_steps_spec _ 0 50 _ 0); [|done|lia..|].
    + cbn [obind]. destruct (Z.ltb_spec (0 + Z.of_nat 0) (Z.of_nat (length L))); [|lia]. by rewrite decide_False, decide_True by lia.
    + unfold slot. rewrite <- (Z.mod_add (hist_write_pos h - Z.of_nat 0) (-1)) by lia. f_equal. lia.
  - rewrite (count_steps_spec _ (S k) 50 _ 0); [|done|lia..|unfold slot; f_equal; lia]. cbn [obind].
    destruct (Z.ltb_spec (0 + Z.of_nat (S k)) (Z.of_nat (length L))).
    + rewrite decide_True by lia. do 3 f_equal. lia.
    + rewrite decide_False, decide_False by lia. by rewrite Hsame.
Qed.

Lemma prev_ok h L nav : history_ok h L nav -> L <> [] ->
  exists row h', history_prev h = Done (Some row, h') /\ L !! h_prev L nav = Some (cstr row) /\ history_ok h' L (Some (h_prev L nav)).
Proof.
  intros H HL. pose proof H as []. 
  assert (h_prev L nav < length L)%nat as Hk by (apply h_prev_lt; [done|]; destruct nav as [k|]; [by destruct h_nav0|done]).
  destruct (set_current_ok h L nav _ H Hk) as [Hs Hok]. unfold history_prev.
  destruct (Z.eqb_spec (count h) 0) as [E|_]; [rewrite h_count0 in E; destruct L; [done|cbn in E; lia]|].
  assert ((if current h =? -1 then Done (set_current (last_index h) h)
     else let* steps_back := count_steps 50 (current h) (hist_write_pos h) 0 in
     Done (if steps_back <? count h then set_current ((current h - 1 + HISTORY_SIZE) mod HISTORY_SIZE) h else h))
     = Done (set_current (slot h (Z.of_nat (h_prev L nav))) h)) as ->.
  { destruct nav as [k|].
    - rewrite <- (prev_step h L k H). destruct h_nav0 as [_ Hcur]. pose proof (slot_range h (Z.of_nat k)).
      by rewrite (proj2 (Z.eqb_neq (current h) (-1))) by lia.
    - rewrite h_nav0. cbn [Z.eqb h_prev]. by rewrite last_slot. }
  cbn [obind]. eauto 10.
Qed.

Lemma next_ok h L k : history_ok h L (Some k) ->
  exists row h', history_next h = (Some row, h') /\
    match k with
    | O => cstr row = [] /\ history_ok h' L None
    | S k => L !! k = Some (cstr row) /\ history_ok h' L (Some k)
    end.
Proof.
  intros H. pose proof H as []. destruct h_nav0 as [Hk Hcur]. unfold history_next. pose proof (slot_range h (Z.of_nat k)).
  rewrite (proj2 (Z.eqb_neq (current h) (-1))) by lia. rewrite Hcur. unfold HISTORY_SIZE. destruct k as [|k].
  - assert ((slot h (Z.of_nat 0) + 1) mod 50 = hist_write_pos h) as ->.
    { unfold slot. rewrite Zplus_mod_idemp_l. replace (_ + 1) with (hist_write_pos h) by lia. apply Z.mod_small. lia. }
    rewrite Z.eqb_refl. eexists _, _. split; [done|]. split; [done|]. by split.
  - rewrite Nat2Z.inj_succ. change (Z.succ (Z.of_nat k)) with (Z.of_nat k + 1). rewrite slot_forward.
    destruct (Z.eqb_spec (slot h (Z.of_nat k)) (hist_write_pos h)) as [E|_]; [exfalso; unfold slot in E; mod50; lia|].
    destruct (set_current_ok h L _ k H ltac:(lia)) as [Hs Hok]. eauto.
Qed.

(** the command history refines a list of the last fifty commands, newest
    first, with a position: adding a command puts it in front (a repetition of
    the newest one changes nothing), the arrow up goes one command back and the
    arrow down one forward, from the newest to the empty line. *)
Theorem history_refines h L nav : history_ok h L nav ->
  (forall cmd, cstr cmd <> [] -> (length (cstr cmd) <= 255)%nat ->
     history_ok (history_add cmd h) (fst (h_add (cstr cmd) L nav)) (snd (h_add (cstr cmd) L nav))) /\
  (L <> [] -> exists row h', history_prev h = Done (Some row, h') /\ L !! h_prev L nav = Some (cstr row) /\
     history_ok h' L (Some (h_prev L nav))) /\
  (forall k, nav = Some k -> exists row h', history_next h = (Some row, h') /\
     match k with
     | O => cstr row = [] /\ history_ok h' L None
     | S k => L !! k = Some (cstr row) /\ history_ok h' L (Some k)
     end).
Proof.
  intros H. split_and!.
  - intros cmd. by apply add_ok.
  - by apply prev_ok.
  - intros k ->. by apply next_ok.
Qed.

Lemma empty_history_ok : history_ok cmd_history [] None.
Proof. split; try done; [by apply Forall_replicate|cbn; lia..]. Qed.

(** Two commands. *)
Lemma history_refines_witness :
  history_ok (history_add [108; 115] cmd_history) [[108; 115]] None /\
  history_ok (history_add [112; 119; 100] (history_add [108; 115] cmd_history)) [[112; 119; 100]; [108; 115]] None.
Proof.
  assert (history_ok (history_add [108; 115] cmd_history) [[108; 115]] None) as H1.
  { destruct (history_refines cmd_history [] None empty_history_ok) as [Hadd _]. apply (Hadd [108; 115]); [discriminate|vm_compute; lia]. }
  split; [exact H1|]. destruct (history_refines _ _ _ H1) as [Hadd _]. apply (Hadd [112; 119; 100]); [discriminate|vm_compute; lia].
Defined.

(** Listing a history that has a command interprets the number of the command
    as the address of a string. *)
Theorem history_list_bad_pointer h c : 0 < h.(count) -> history_list h c = OutOfBounds.
Proof.
  intros Hc. unfold history_list. rewrite (proj2 (Z.eqb_neq _ 0)) by lia.
  destruct (Z.to_nat (count h)) as [|n] eqn:En; [lia|].
  assert (exists c', PRINT CYAN BLACK s_title [] c = Done c') as [c' ->] by (by eexists). done.
Qed.
End HistoryProps.
