(* ===== verification/Serial.v ===== *)
(** * Serial port and mouse (src/kernel/Input: serial.c, mouse.c)

    Both drivers run over the port input and output of Ata.v. Delay loops have
    no effect; waiting loops with a timeout are structural in it, the others
    take fuel. *)
From Stdlib Require Import ZArith Lia.
From stdpp Require Import base numbers list gmap.
From S2P Require Import Prelude Ata Console.

Module Serial.
Import Ata Console.
Local Open Scope Z_scope.
Local Open Scope outcome_scope.

Definition COM1 : Z := 0x3F8.
Definition SERIAL_DATA : Z := 0.
Definition SERIAL_LINE_STATUS : Z := 5.
Definition SERIAL_LSR_DATA_READY : Z := 1.
Definition SERIAL_LSR_TRANSMIT_EMPTY : Z := 32.

(** The switch statements of [scancode_to_char]. *)
Definition serial_plain : list (Z * Z) :=
  [(2, 49); (3, 50); (4, 51); (5, 52); (6, 54); (7, 54); (8, 55); (9, 56);
   (10, 57); (11, 48); (12, 45); (13, 61); (14, 8); (15, 9); (16, 113); (17, 119);
   (18, 101); (19, 114); (20, 116); (21, 121); (22, 117); (23, 105); (24, 111); (25, 112);
   (26, 91); (27, 93); (28, 10); (30, 97); (31, 115); (32, 100); (33, 102); (34, 103);
   (35, 104); (36, 106); (37, 107); (38, 108); (39, 59); (40, 39); (41, 96); (43, 92);
   (44, 122); (45, 120); (46, 99); (47, 118); (48, 98); (49, 110); (50, 109); (51, 44);
   (52, 46); (53, 47); (57, 32)].
Definition serial_shifted : list (Z * Z) :=
  [(2, 33); (3, 64); (4, 35); (5, 36); (6, 37); (7, 94); (8, 38); (9, 42);
   (10, 40); (11, 41); (16, 81); (17, 87); (18, 69); (19, 82); (20, 84); (21, 89);
   (22, 85); (23, 73); (24, 79); (25, 80); (30, 65); (31, 83); (32, 68); (33, 70);
   (34, 71); (35, 72); (36, 74); (37, 75); (38, 76); (44, 90); (45, 88); (46, 67);
   (47, 86); (48, 66); (49, 78); (50, 77)].

Definition lookup_code (t : list (Z * Z)) (code : Z) : Z :=
  match List.find (fun p => fst p =? code) t with Some p => snd p | None => 0 end.
Definition scancode_to_char (scancode shifted : Z) : Z :=
  lookup_code (if c_true shifted then serial_shifted else serial_plain) scancode.

Section Driver.
Context {D : Type} `{!PortIO D}.

Record serial := mk_serial { serial_initialized : Z; ser_shift_pressed : Z; ports : D }.
Definition set_ports (s : serial) (d : D) : serial := mk_serial s.(serial_initialized) s.(ser_shift_pressed) d.
Definition out (p v : Z) (s : serial) : serial := set_ports s (outb p v s.(ports)).
Definition inp (p : Z) (s : serial) : Z * serial := let '(v, d) := inb p s.(ports) in (v, set_ports s d).

Definition serial_init (port : Z) (s : serial) : serial :=
  let s := mk_serial 0 s.(ser_shift_pressed) s.(ports) in
  let s := out (port + 1) 0x00 s in
  let s := out (port + 3) 0x80 s in
  let s := out (port + 0) 0x01 s in
  let s := out (port + 1) 0x00 s in
  let s := out (port + 3) 0x03 s in
  let s := out (port + 2) 0xC7 s in
  let s := out (port + 4) 0x0B s in
  let s := out (port + 4) 0x1E s in
  let s := out (port + 0) 0xAE s in
  let '(test, s) := inp (port + 0) s in
  let s := out (port + 4) 0x0F s in
  if test =? 0xAE then mk_serial 1 s.(ser_shift_pressed) s.(ports) else s.

Definition serial_can_write (port : Z) (s : serial) : Z * serial :=
  if s.(serial_initialized) =? 0 then (0, s) else
  let '(status, s) := inp (port + SERIAL_LINE_STATUS) s in (Z.land status SERIAL_LSR_TRANSMIT_EMPTY, s).

(** [while (!serial_can_write(port) && timeout > 0) timeout--], and whether
    the timeout was not used up. *)
Fixpoint wait_write (timeout : nat) (port : Z) (s : serial) : bool * serial :=
  let '(ok, s) := serial_can_write port s in
  match timeout with
  | O => (false, s)
  | S t => if c_true ok then (true, s) else wait_write t port s
  end.

Definition serial_write_byte (port data : Z) (s : serial) : serial :=
  if s.(serial_initialized) =? 0 then s else
  let '(ok, s) := wait_write (Z.to_nat 100000) port s in
  if ok then out (port + SERIAL_DATA) data s else s.

Definition serial_can_read (port : Z) (s : serial) : Z * serial :=
  if s.(serial_initialized) =? 0 then (0, s) else
  let '(status, s) := inp (port + SERIAL_LINE_STATUS) s in (Z.land status SERIAL_LSR_DATA_READY, s).

Fixpoint wait_read (timeout : nat) (port : Z) (s : serial) : bool * serial :=
  let '(ok, s) := serial_can_read port s in
  match timeout with
  | O => (false, s)
  | S t => if c_true ok then (true, s) else wait_read t port s
  end.

Definition serial_read_byte (port : Z) (s : serial) : Z * serial :=
  if s.(serial_initialized) =? 0 then (0, s) else
  let '(ok, s) := wait_read (Z.to_nat 10000) port s in
  if ok then inp (port + SERIAL_DATA) s else (0, s).

Definition serial_write_string (port : Z) (str : list Z) (s : serial) : serial :=
  if s.(serial_initialized) =? 0 then s else foldl (fun s x => serial_write_byte port x s) s str.

Definition set_shift (v : Z) (s : serial) : serial := mk_serial s.(serial_initialized) v s.(ports).

Definition serial_write_scancode (scancode : Z) (s : serial) : serial :=
  if s.(serial_initialized) =? 0 then s
  else if (scancode =? 0x2A) || (scancode =? 0x36) then set_shift 1 s
  else if (scancode =? 0xAA) || (scancode =? 0xB6) then set_shift 0 s
  else if c_true (Z.land scancode 0x80) then s
  else let ascii := scancode_to_char scancode s.(ser_shift_pressed) in
       if c_true ascii then serial_write_byte COM1 ascii s else s.

Definition serial_process_input (c : console) (s : serial) : console * serial :=
  if s.(serial_initialized) =? 0 then (c, s) else
  let '(ok, s) := serial_can_read COM1 s in
  if c_true ok then
    let '(data, s) := serial_read_byte COM1 s in (printc data c, serial_write_byte COM1 data s)
  else (c, s).
End Driver.
Arguments serial : clear implicits.
End Serial.

Module Mouse.
Import Ata Console.
Local Open Scope Z_scope.
Local Open Scope outcome_scope.

Definition MOUSE_CHECK : Z := 0x64.
Definition MOUSE_AUXILIARY_PORT : Z := 0x60.
Definition USED : Z := 0xACE.
Definition SCREEN_WIDTH : Z := 1024.
Definition SCREEN_HEIGHT : Z := 768.

(** The arrow, in one colour: left edge, diagonal, bottom edge, inside. *)
Definition draw_arrow (x y color : Z) (c : console) : console :=
  let c := for_range 0 16 (fun i => put_pixel (u32 x) (u32 (y + Z.of_nat i)) color) c in
  let c := for_range 0 16 (fun i => put_pixel (u32 (x + Z.of_nat i)) (u32 (y + Z.of_nat i)) color) c in
  let c := for_range 0 16 (fun i => put_pixel (u32 (x + Z.of_nat i)) (u32 (y + 16 - 1)) color) c in
  for_range 1 16 (fun yy => for_range 1 yy (fun xx => put_pixel (u32 (x + Z.of_nat xx)) (u32 (y + Z.of_nat yy)) color)) c.
Definition mcursor (x y : Z) (c : console) : console := draw_arrow x y RED c.
Definition overwrite_cursor (x y : Z) (c : console) : console := draw_arrow x y 0 c.

Section Driver.
Context {D : Type} `{!PortIO D}.

Record mouse_state := mk_mouse {
  status : Z; packet : list Z; packet_index : Z; cursor_x : Z; cursor_y : Z; con : console; ports : D }.
Definition set_ports (m : mouse_state) (d : D) : mouse_state :=
  mk_mouse m.(status) m.(packet) m.(packet_index) m.(cursor_x) m.(cursor_y) m.(con) d.
Definition inp (p : Z) (m : mouse_state) : Z * mouse_state := let '(v, d) := inb p m.(ports) in (v, set_ports m d).

(** [while ((inb(0x64) & mask) == 0 or != 0);] *)
Fixpoint wait_status (fuel : nat) (mask : Z) (until : bool) (m : mouse_state) : outcome mouse_state :=
  let '(v, m) := inp MOUSE_CHECK m in
  if Bool.eqb (c_true (Z.land v mask)) until then Done m else
  match fuel with O => OutOfFuel | S fuel => wait_status fuel mask until m end.

(** The command that enables the mouse, once. *)
Definition enable (fuel : nat) (m : mouse_state) : outcome mouse_state :=
  if c_true m.(status) then Done m else
  let* m := wait_status fuel 2 false m in
  let m := set_ports m (outb 0x64 0xD4 m.(ports)) in
  let m := set_ports m (outb MOUSE_AUXILIARY_PORT 0xF4 m.(ports)) in
  let* m := wait_status fuel 1 true m in
  let '(_, m) := inp MOUSE_AUXILIARY_PORT m in
  Done (mk_mouse USED m.(packet) m.(packet_index) m.(cursor_x) m.(cursor_y) m.(con) m.(ports)).

(** [delta |= 0xFFFFFF00] on an int. *)
Definition delta (b sign : Z) : Z := s32 (if c_true sign then Z.lor b 0xFFFFFF00 else b).

Definition clamp (v limit : Z) : Z := let v := if v <? 0 then 0 else v in if limit <=? v then limit else v.

Definition use_packet (m : mouse_state) : mouse_state :=
  let b1 := get m.(packet) 0 in
  let dx := delta (get m.(packet) 1) (Z.land b1 0x10) in
  let dy := - delta (get m.(packet) 2) (Z.land b1 0x20) in
  let x := clamp (m.(cursor_x) + dx) (SCREEN_WIDTH - 16) in
  let y := clamp (m.(cursor_y) + dy) (SCREEN_HEIGHT - 16) in
  let c := if negb (x =? m.(cursor_x)) || negb (y =? m.(cursor_y))
           then mcursor x y (overwrite_cursor m.(cursor_x) m.(cursor_y) m.(con)) else m.(con) in
  mk_mouse m.(status) m.(packet) 0 x y c m.(ports).

Fixpoint read_packets (fuel : nat) (m : mouse_state) : outcome mouse_state :=
  let '(v, m) := inp MOUSE_CHECK m in
  if negb (c_true (Z.land v 1)) then Done m else
  match fuel with
  | O => OutOfFuel
  | S fuel =>
    let '(b, m) := inp MOUSE_AUXILIARY_PORT m in
    let* pk := aset m.(packet) m.(packet_index) b in
    let m := mk_mouse m.(status) pk (u8 (m.(packet_index) + 1)) m.(cursor_x) m.(cursor_y) m.(con) m.(ports) in
    read_packets fuel (if m.(packet_index) =? 3 then use_packet m else m)
  end.

Definition mouse (fuel : nat) (m : mouse_state) : outcome mouse_state :=
  let* m := enable fuel m in read_packets fuel m.

Definition get_mouse_x (m : mouse_state) : Z := m.(cursor_x).
Definition get_mouse_y (m : mouse_state) : Z := m.(cursor_y).
End Driver.
Arguments mouse_state : clear implicits.
End Mouse.

(** * Serial output and mouse tracking

    With a UART that empties its transmitter within the timeout, every byte of
    a string is sent, once and in order. The mouse position follows the
    packets the controller delivers and stays on the screen. *)
Module SerialProps.
Import Ata Serial.
Local Open Scope Z_scope.

(** What a 16550 UART at [port] does: the line status tells when the
    transmitter is empty, which takes at most [bound] more polls; a byte
    written then is sent. *)
Class UartLaws (D : Type) `{!PortIO D} (port : Z) (bound : nat) := {
  sent : D -> list Z;
  busy : D -> nat;
  busy_bound : forall d, (busy d <= bound)%nat;
  status_poll : forall d, let '(v, d') := inb (port + SERIAL_LINE_STATUS) d in
    (c_true (Z.land v SERIAL_LSR_TRANSMIT_EMPTY) = bool_decide (busy d = 0%nat)) /\ sent d' = sent d /\ busy d' = pred (busy d);
  data_sent : forall d x, busy d = 0%nat -> sent (outb (port + SERIAL_DATA) x d) = sent d ++ [x]
}.

Section Uart.
Context {D : Type} `{!PortIO D} (port : Z) (bound : nat) `{!UartLaws D port bound}.

Lemma wait_write_ok t s : s.(serial_initialized) <> 0 -> (busy s.(ports) < t)%nat ->
  exists d, wait_write t port s = (true, set_ports s d) /\ busy d = 0%nat /\ sent d = sent s.(ports).
Proof.
  revert s. induction t as [|t IH]; intros s Hi Hb; [lia|]. cbn [wait_write]. unfold serial_can_write, inp.
  rewrite (proj2 (Z.eqb_neq _ 0)) by done. pose proof (status_poll s.(ports)) as Hp.
  destruct (inb (port + SERIAL_LINE_STATUS) (ports s)) as [v d']. destruct Hp as (Hv & Hsent & Hbusy).
  rewrite Hv. destruct (decide (busy s.(ports) = 0%nat)) as [E|E].
  - rewrite bool_decide_eq_true_2 by done. exists d'. rewrite Hbusy, E. done.
  - rewrite bool_decide_eq_false_2 by done. destruct (IH (set_ports s d')) as (d & -> & H1 & H2); [done|cbn [ports set_ports]; rewrite Hbusy; destruct (busy (ports s)); cbn [Init.Nat.pred]; lia|].
    exists d. cbn [ports set_ports] in H2. rewrite H2. done.
Qed.

Lemma write_byte_sent x s : s.(serial_initialized) <> 0 -> Z.of_nat bound < 100000 ->
  serial_initialized (serial_write_byte port x s) = serial_initialized s /\
  sent (ports (serial_write_byte port x s)) = sent (ports s) ++ [x].
Proof.
  intros Hi Hb. unfold serial_write_byte. rewrite (proj2 (Z.eqb_neq _ 0)) by done.
  pose proof (busy_bound (ports s)). destruct (wait_write_ok (Z.to_nat 100000) s Hi) as (d & -> & H1 & H2); [lia|].
  split; [done|]. cbn [ports out set_ports]. by rewrite data_sent, H2.
Qed.

(** a string written to an initialised serial port whose transmitter empties within the
    timeout is sent completely, each byte once and in order. *)
Theorem serial_string_sent str s : s.(serial_initialized) <> 0 -> Z.of_nat bound < 100000 ->
  sent (ports (serial_write_string port str s)) = sent (ports s) ++ str.
Proof.
  intros Hi Hb. unfold serial_write_string. rewrite (proj2 (Z.eqb_neq _ 0)) by done.
  revert s Hi. induction str as [|x str IH]; intros s Hi; cbn [foldl]; [by rewrite app_nil_r|].
  destruct (write_byte_sent x s Hi Hb) as [E1 E2]. rewrite IH by (by rewrite E1). by rewrite E2, <- app_assoc.
Qed.
End Uart.

(** A UART that is busy for one poll after a byte. *)
Definition uart := (bool * list Z)%type.
#[global] Instance uart_ports : PortIO uart := {
  inb p d := if p =? COM1 + 5 then ((if fst d then 0 else 0x60), (false, snd d)) else (0, d);
  outb p v d := if p =? COM1 then (true, snd d ++ [v]) else d;
  inw _ d := ((0, 0), d);
  outw _ _ d := d }.
#[global, refine] Instance uart_laws : UartLaws uart COM1 1 := {
  sent d := snd d; busy d := if fst d then 1%nat else 0%nat }.
Proof.
  - intros [[] l]; cbn; lia.
  - intros [[] l]; cbn; done.
  - intros [[] l] x H; [done|]. done.
Defined.

(** "ok" on an idle port. *)
Definition idle : serial uart := mk_serial 1 0 (false, []).
Lemma serial_string_sent_witness :
  sent (ports (serial_write_string COM1 [111; 107] idle)) = sent (ports idle) ++ [111; 107] /\ sent (ports idle) = [].
Proof. split; [apply (serial_string_sent COM1 1 [111; 107] idle); [discriminate|lia]|reflexivity]. Defined.
End SerialProps.

Module MouseProps.
Import Ata Console Mouse.
Local Open Scope Z_scope.
Local Open Scope outcome_scope.

(** A keyboard controller with [pending] bytes of the mouse in its buffer. *)
Class ControllerLaws (D : Type) `{!PortIO D} := {
  pending : D -> list Z;
  poll : forall d, let '(v, d') := inb MOUSE_CHECK d in
    c_true (Z.land v 1) = bool_decide (pending d <> []) /\ pending d' = pending d;
  take : forall d b l, pending d = b :: l -> exists d', inb MOUSE_AUXILIARY_PORT d = (b, d') /\ pending d' = l
}.

(** A position moved by a packet: nine-bit two's complement deltas, [y] upwards,
    kept on the screen. *)
Definition nine_bit (b sign : Z) : Z := if c_true sign then b - 256 else b.
Definition keep (v limit : Z) : Z := Z.max 0 (Z.min v limit).
Definition move (p : Z * Z) (b1 b2 b3 : Z) : Z * Z :=
  (keep (fst p + nine_bit b2 (Z.land b1 16)) 1008, keep (snd p - nine_bit b3 (Z.land b1 32)) 752).

Fixpoint moves (p : Z * Z) (l : list Z) : Z * Z :=
  match l with
  | b1 :: b2 :: b3 :: l => moves (move p b1 b2 b3) l
  | _ => p
  end.

Lemma delta_nine b sign : is_byte b -> delta b sign = nine_bit b sign.
Proof.
  intros Hb. unfold delta, nine_bit, is_byte in *. destruct (c_true sign); [|apply swrap_small; lia].
  assert (Z.lor b 0xFFFFFF00 = b + 0xFFFFFF00) as ->.
  { rewrite Z.add_nocarry_lxor, Z.lxor_lor; try done.
    all: change 0xFFFFFF00 with (Z.shiftl (Z.ones 24) 8); apply Z.bits_inj'; intros i Hi; rewrite Z.land_spec, Z.shiftl_spec, Z.bits_0 by done.
    all: destruct (Z.lt_ge_cases i 8); [by rewrite (Z.testbit_neg_r _ (i - 8)), andb_false_r by lia|].
    all: by rewrite (bits_above_zero 8) by lia. }
  unfold swrap. change (2 ^ (32 - 1)) with 2147483648. change (2 ^ 32) with 4294967296.
  replace (b + 4294967040 + 2147483648) with (b - 256 + 2147483648 + 1 * 4294967296) by lia.
  rewrite Z.mod_add, Z.mod_small by lia. lia.
Qed.

Lemma clamp_keep v limit : 0 <= limit -> clamp v limit = keep v limit.
Proof. intros H. unfold clamp, keep. destruct (Z.ltb_spec v 0), (Z.leb_spec limit v); try destruct (Z.leb_spec limit 0); lia. Qed.

Definition on_screen (p : Z * Z) : Prop := 0 <= fst p <= 1008 /\ 0 <= snd p <= 752.
Lemma moves_on_screen l : forall p, on_screen p -> on_screen (moves p l).
Proof.
  remember (length l) as n eqn:Hn. revert l Hn. induction n as [n IH] using lt_wf_ind. intros l -> p Hp.
  destruct l as [|b1 [|b2 [|b3 l]]]; try done. cbn [moves]. apply (IH (length l)); [cbn; lia|done|].
  unfold on_screen, move, keep. cbn [fst snd]. lia.
Qed.

Section Tracking.
Context {D : Type} `{!PortIO D} `{!ControllerLaws D}.

(** [pre] are the bytes of the packet read so far. *)
Record tracking (m : mouse_state D) (pre l : list Z) : Prop := {
  t_packet : length m.(packet) = 3%nat;
  t_index : m.(packet_index) = Z.of_nat (length pre);
  t_short : (length pre < 3)%nat;
  t_pre : firstn (length pre) m.(packet) = pre;
  t_bytes : Forall is_byte (pre ++ l);
  t_pending : pending m.(ports) = l
}.

Lemma use_packet_moves (m : mouse_state D) b1 b2 b3 : m.(packet) = [b1; b2; b3] -> is_byte b2 -> is_byte b3 ->
  (cursor_x (use_packet m), cursor_y (use_packet m)) = move (cursor_x m, cursor_y m) b1 b2 b3.
Proof.
  intros Hp H2 H3. unfold use_packet, move. rewrite Hp. cbn [cursor_x cursor_y fst snd get nth].
  change (get [b1; b2; b3] 0) with b1. change (get [b1; b2; b3] 1) with b2. change (get [b1; b2; b3] 2) with b3.
  unfold SCREEN_WIDTH, SCREEN_HEIGHT. rewrite !clamp_keep, !delta_nine by (done || lia). done.
Qed.

Lemma read_packets_spec l : forall fuel m pre, tracking m pre l -> (length l <= fuel)%nat ->
  exists (m' : mouse_state D) pre', read_packets fuel m = Done m' /\ tracking m' pre' [] /\
    (cursor_x m', cursor_y m') = moves (cursor_x m, cursor_y m) (pre ++ l).
Proof.
  induction l as [|b l IH]; intros fuel m pre T Hf; pose proof T as [].
  - assert (exists d, read_packets fuel m = Done (set_ports m d) /\ pending d = []) as (d & -> & Hd).
    { pose proof (poll m.(ports)) as Hp.
      assert (read_packets fuel m = let '(v, m) := inp MOUSE_CHECK m in if negb (c_true (Z.land v 1)) then Done m else read_packets fuel m) as ->.
      { unfold inp. destruct fuel; cbn [read_packets]; unfold inp; destruct (inb MOUSE_CHECK (ports m)) as [v d'];
          destruct Hp as [Hv _]; rewrite Hv, t_pending0; done. }
      unfold inp. destruct (inb MOUSE_CHECK (ports m)) as [v d']. destruct Hp as [Hv Hd]. rewrite Hv, t_pending0. cbn. 
      exists d'. by rewrite Hd, t_pending0. }
    exists (set_ports m d), pre. split; [done|]. split; [by split|]. rewrite app_nil_r. 
    destruct pre as [|? [|? [|]]]; try done. cbn in t_short0. lia.
  - destruct fuel as [|fuel]; [cbn in Hf; lia|]. cbn [read_packets]. pose proof (poll m.(ports)) as Hp. unfold inp.
    destruct (inb MOUSE_CHECK (ports m)) as [v d1]. destruct Hp as [Hv Hd1]. rewrite Hv, t_pending0. cbn [negb bool_decide].
    rewrite t_pending0 in Hd1. destruct (take d1 b l Hd1) as (d2 & E2 & Hd2).
    cbn [ports set_ports]. rewrite bool_decide_eq_true_2 by done. cbn [negb]. rewrite E2. cbn [packet packet_index set_ports].
    rewrite aset_done by (rewrite t_index0, t_packet0; lia). cbn [obind]. rewrite t_index0, Nat2Z.id.
    rewrite wrap_small by lia. cbn [packet_index]. cbn [length] in Hf.
    destruct (packet m) as [|p0 [|p1 [|p2 [|]]]] eqn:Ep; try done.
    destruct pre as [|b1 [|b2 [|]]]; cbn in t_pre0; [| | |cbn in t_short0; lia].
    + destruct (IH fuel (mk_mouse (status m) [b; p1; p2] 1 (cursor_x m) (cursor_y m) (con m) d2) [b]) as (m' & pre' & R & T' & Hm); [|lia|].
      { split; try done. cbn. lia. }
      exists m', pre'. split; [exact R|]. done.
    + injection t_pre0 as ->. destruct (IH fuel (mk_mouse (status m) [b1; b; p2] 2 (cursor_x m) (cursor_y m) (con m) d2) [b1; b])
        as (m' & pre' & R & T' & Hm); [|lia|].
      { split; try done. cbn. lia. }
      exists m', pre'. split; [exact R|]. done.
    + injection t_pre0 as -> ->. apply Forall_cons in t_bytes0 as [_ Hb]. apply Forall_cons in Hb as [Hb2 Hb]. apply Forall_cons in Hb as [Hb3 Hb].
      set (m1 := mk_mouse (status m) [b1; b2; b] 3 (cursor_x m) (cursor_y m) (con m) d2).
      destruct (IH fuel (use_packet m1) []) as (m' & pre' & R & T' & Hm); [|lia|].
      { split; try done. cbn. lia. }
      exists m', pre'. split; [exact R|]. split; [done|]. rewrite Hm. cbn [app moves].
      by rewrite (use_packet_moves m1 b1 b2 b).
Qed.

(** once enabled, the mouse driver consumes the bytes the controller has,
    groups them into packets across calls, moves the position by the signed
    deltas of each packet, and keeps it on the screen. *)
Theorem mouse_tracks fuel (m : mouse_state D) pre l : m.(status) <> 0 -> tracking m pre l -> (length l <= fuel)%nat ->
  on_screen (cursor_x m, cursor_y m) ->
  exists (m' : mouse_state D) pre', mouse fuel m = Done m' /\ tracking m' pre' [] /\
    (cursor_x m', cursor_y m') = moves (cursor_x m, cursor_y m) (pre ++ l) /\ on_screen (cursor_x m', cursor_y m').
Proof.
  intros Hs T Hf Hon. destruct (read_packets_spec l fuel m pre T Hf) as (m' & pre' & R & T' & Hm).
  exists m', pre'. unfold mouse, enable, c_true. rewrite (proj2 (Z.eqb_neq _ 0)) by done. cbn [negb obind].
  split_and!; [done..|]. rewrite Hm. by apply moves_on_screen.
Qed.
End Tracking.

(** A controller with the bytes of one packet and the start of the next. *)
Definition controller := list Z.
#[global] Instance controller_ports : PortIO controller := {
  inb p d := if p =? 0x64 then ((if decide (d = []) then 0 else 1), d)
             else match d with [] => (0, []) | b :: d => (b, d) end;
  outb _ _ d := d;
  inw _ d := ((0, 0), d);
  outw _ _ d := d }.
#[global, refine] Instance controller_laws : ControllerLaws controller := { pending d := d }.
Proof.
  - intros d. cbn. destruct d; done.
  - intros d b l ->. by exists l.
Defined.

Definition no_screen : console := mk_console (mk_fb ∅ 0 0 0) (mk_cursor 0 0 0 0) 0 0 0.
Definition demo_mouse : mouse_state controller := mk_mouse USED [0; 0; 0] 0 512 384 no_screen [0x18; 0xFE; 5; 0x08].

(** Two pixels left, five down; the fourth byte waits for the next call. *)
Lemma mouse_tracks_witness : exists m' pre', mouse 4 demo_mouse = Done m' /\ tracking m' pre' [] /\
  (cursor_x m', cursor_y m') = (510, 379) /\ on_screen (cursor_x m', cursor_y m').
Proof.
  apply (mouse_tracks 4 demo_mouse [] [0x18; 0xFE; 5; 0x08]); [discriminate| |cbn; lia|unfold on_screen; cbn; lia].
  split; try done; [cbn; lia|]. repeat constructor; unfold is_byte; lia.
Defined.
End MouseProps.
