(* ===== verification/Keyboard.v ===== *)
(** * Keyboard input and line editing (Tables/idt.c, Shell/shell.c)

    The interrupt handler puts scancodes into a ring of 256 bytes with 8-bit
    positions; the reader takes them out, tracks the shift key, echoes to the
    console and the serial port, and edits the input line. The arrow keys fetch
    lines from the command history. *)
From Stdlib Require Import ZArith Lia.
From stdpp Require Import base numbers list gmap.
From S2P Require Import Prelude CStr Ata Console History Serial.

Module Keyboard.
Import Ata Console History Serial.
Local Open Scope Z_scope.
Local Open Scope outcome_scope.
Local Open Scope arr_scope.

Definition INPUT_BUFFER_SIZE : Z := 256.

(** The switch statements of [scancode_to_ascii]. *)
Definition ascii_plain : list (Z * Z) :=
  [(2, 49); (3, 50); (4, 51); (5, 52); (6, 53); (7, 54); (8, 55); (9, 56);
   (10, 57); (11, 48); (12, 45); (13, 61); (14, 8); (28, 10); (57, 32); (16, 113);
   (17, 119); (18, 101); (19, 114); (20, 116); (21, 121); (22, 117); (23, 105); (24, 111);
   (25, 112); (26, 91); (27, 93); (43, 92); (41, 96); (39, 59); (40, 39); (30, 97);
   (31, 115); (32, 100); (33, 102); (34, 103); (35, 104); (36, 106); (37, 107); (38, 108);
   (44, 122); (45, 120); (46, 99); (47, 118); (48, 98); (49, 110); (50, 109); (51, 44);
   (52, 46); (53, 47)].
Definition ascii_shifted : list (Z * Z) :=
  [(2, 33); (3, 64); (4, 35); (5, 36); (6, 37); (7, 94); (8, 38); (9, 42);
   (10, 40); (11, 41); (12, 95); (13, 43); (16, 81); (17, 87); (18, 69); (19, 82);
   (20, 84); (21, 89); (22, 85); (23, 73); (24, 79); (25, 80); (26, 123); (27, 125);
   (43, 124); (41, 126); (39, 58); (40, 34); (30, 65); (31, 83); (32, 68); (33, 70);
   (34, 71); (35, 72); (36, 74); (37, 75); (38, 76); (44, 90); (45, 88); (46, 67);
   (47, 86); (48, 66); (49, 78); (50, 77); (51, 60); (52, 62); (53, 63)].

Definition scancode_to_ascii (scancode shifted : Z) : Z :=
  lookup_code (if c_true shifted then ascii_shifted else ascii_plain) scancode.

(** ** The ring *)
Record ring := mk_ring { scancode_buffer : list Z; scancode_read_pos : Z; scancode_write_pos : Z }.

(** [scancode_buffer[scancode_write_pos++] = x] *)
Definition ring_put (x : Z) (r : ring) : ring :=
  mk_ring (<[Z.to_nat r.(scancode_write_pos) := x]> r.(scancode_buffer)) r.(scancode_read_pos) (u8 (r.(scancode_write_pos) + 1)).
Definition ring_empty (r : ring) : bool := r.(scancode_read_pos) =? r.(scancode_write_pos).
(** [scancode_buffer[scancode_read_pos++]] *)
Definition ring_get (r : ring) : Z * ring :=
  (get r.(scancode_buffer) (Z.to_nat r.(scancode_read_pos)),
   mk_ring r.(scancode_buffer) (u8 (r.(scancode_read_pos) + 1)) r.(scancode_write_pos)).

Section Input.
Context {D : Type} `{!PortIO D}.

Record kbd := mk_kbd {
  codes : ring; interrupt_counter : Z; last_scancode : Z; shift_pressed : Z;
  input_buffer : list Z; input_pos : Z; input_ready : Z; history : command_history_t; con : console; ser : serial D
}.

Definition set_codes (v : ring) (k : kbd) : kbd :=
  mk_kbd v k.(interrupt_counter) k.(last_scancode) k.(shift_pressed) k.(input_buffer) k.(input_pos) k.(input_ready)
    k.(history) k.(con) k.(ser).
Definition set_shift_pressed (v : Z) (k : kbd) : kbd :=
  mk_kbd k.(codes) k.(interrupt_counter) k.(last_scancode) v k.(input_buffer) k.(input_pos) k.(input_ready)
    k.(history) k.(con) k.(ser).
Definition set_input (b : list Z) (pos ready : Z) (k : kbd) : kbd :=
  mk_kbd k.(codes) k.(interrupt_counter) k.(last_scancode) k.(shift_pressed) b pos ready k.(history) k.(con) k.(ser).
Definition set_history (v : command_history_t) (k : kbd) : kbd :=
  mk_kbd k.(codes) k.(interrupt_counter) k.(last_scancode) k.(shift_pressed) k.(input_buffer) k.(input_pos) k.(input_ready)
    v k.(con) k.(ser).
Definition set_con (v : console) (k : kbd) : kbd :=
  mk_kbd k.(codes) k.(interrupt_counter) k.(last_scancode) k.(shift_pressed) k.(input_buffer) k.(input_pos) k.(input_ready)
    k.(history) v k.(ser).
Definition serial_out (x : Z) (k : kbd) : kbd :=
  mk_kbd k.(codes) k.(interrupt_counter) k.(last_scancode) k.(shift_pressed) k.(input_buffer) k.(input_pos) k.(input_ready)
    k.(history) k.(con) (serial_write_byte COM1 x k.(ser)).

(** The interrupt, with the byte [x] at port 0x60. *)
Definition keyboard_handler (x : Z) (k : kbd) : kbd :=
  mk_kbd (ring_put x k.(codes)) (u32 (k.(interrupt_counter) + 1)) x k.(shift_pressed) k.(input_buffer) k.(input_pos)
    k.(input_ready) k.(history) k.(con) k.(ser).

(** ** The input line *)
Definition cursor_back (line : Z) (c : console) : console :=
  let k := c.(cursor) in
  if 8 <=? k.(cx) then SetCursorPos (k.(cx) - 8) k.(cy) c
  else if line <=? k.(cy) then SetCursorPos (u32 (c.(fb).(width) - 8)) (k.(cy) - line) c
  else c.

Definition draw_here (ch fg bg : Z) (c : console) : console := draw_char c.(cursor).(cx) c.(cursor).(cy) ch fg bg c.

Definition handle_backspace (k : kbd) : outcome kbd :=
  if k.(input_pos) <=? 0 then Done k else
  let* b := aset k.(input_buffer) (k.(input_pos) - 1) 0 in
  let k := set_input b (k.(input_pos) - 1) k.(input_ready) k in
  let c := cursor_back 8 k.(con) in
  Done (set_con (draw_here 32 c.(cursor).(fg_color) c.(cursor).(bg_color) c) k).

(** Blanks over the old line, then the cursor at its start. *)
Definition clear_current_line (k : kbd) : kbd :=
  let n := Z.to_nat k.(input_pos) in
  let c := Nat.iter n (cursor_back 16) k.(con) in
  let saved := c.(cursor) in
  let c := Nat.iter n (fun c =>
    let c := draw_here 32 WHITE BLACK c in
    let p := c.(cursor) in
    let c := SetCursorPos (u32 (p.(cx) + 8)) p.(cy) c in
    if c.(fb).(width) <=? c.(cursor).(cx) then SetCursorPos 0 (u32 (c.(cursor).(cy) + 16)) c else c) c in
  set_con (SetCursorPos saved.(cx) saved.(cy) c) k.

(** [while (new_input[i] && i < INPUT_BUFFER_SIZE - 1) input_buffer[i] = new_input[i]] *)
Fixpoint copy_line (s : list Z) (i : Z) (b : list Z) : outcome (Z * list Z) :=
  match s with
  | x :: s => if c_true x && (i <? INPUT_BUFFER_SIZE - 1)
              then let* b := aset b i x in copy_line s (i + 1) b else Done (i, b)
  | [] => Done (i, b)
  end.

Definition replace_input_line (new_input : list Z) (k : kbd) : outcome kbd :=
  let k := clear_current_line k in
  let* (pos, b) := copy_line new_input 0 k.(input_buffer) in
  let* b := aset b pos 0 in
  let k := set_input b pos k.(input_ready) k in
  let c := SetColors WHITE BLACK k.(con) in
  Done (set_con (printcs (take (Z.to_nat pos) b) c) k).

Definition handle_arrow_up (k : kbd) : outcome kbd :=
  let* (prev, h) := history_prev k.(history) in
  let k := set_history h k in
  match prev with Some s => replace_input_line s k | None => Done k end.

Definition handle_arrow_down (k : kbd) : outcome kbd :=
  let '(next, h) := history_next k.(history) in
  let k := set_history h k in
  match next with Some s => replace_input_line s k | None => replace_input_line [] k end.

(** ** Reading the ring *)

(** A character of the keyboard. *)
Definition use_ascii (ascii : Z) (k : kbd) : outcome kbd :=
  if ascii =? 0 then Done k
  else if ascii =? 8 then let* k := handle_backspace k in Done (serial_out 8 k)
  else if ascii =? 10 then
    let* b := aset k.(input_buffer) k.(input_pos) 0 in
    let k := set_input b k.(input_pos) 1 k in
    let k := set_con (printc 10 k.(con)) k in
    Done (serial_out 10 (serial_out 13 k))
  else if k.(input_pos) <? INPUT_BUFFER_SIZE - 1 then
    let* b := aset k.(input_buffer) k.(input_pos) ascii in
    let k := set_input b (k.(input_pos) + 1) k.(input_ready) k in
    let k := set_con (printc ascii (SetColors WHITE BLACK k.(con))) k in
    Done (serial_out ascii k)
  else Done k.

(** The body of the loop of [process_keyboard_buffer]. *)
Definition use_scancode (scancode : Z) (k : kbd) : outcome kbd :=
  if (scancode =? 0x2A) || (scancode =? 0x36) then Done (set_shift_pressed 1 k)
  else if (scancode =? 0xAA) || (scancode =? 0xB6) then Done (set_shift_pressed 0 k)
  else if c_true (Z.land scancode 0x80) then Done k
  else if scancode =? 0x48 then handle_arrow_up k
  else if scancode =? 0x50 then handle_arrow_down k
  else use_ascii (scancode_to_ascii scancode k.(shift_pressed)) k.

(** The ring holds at most 255 unread codes. *)
Fixpoint process_loop (fuel : nat) (k : kbd) : outcome kbd :=
  if ring_empty k.(codes) then Done k else
  match fuel with
  | O => OutOfFuel
  | S fuel =>
    let '(x, r) := ring_get k.(codes) in
    let* k := use_scancode x (set_codes r k) in process_loop fuel k
  end.
Definition process_keyboard_buffer (k : kbd) : outcome kbd := process_loop 256 k.

Definition input_available (k : kbd) : Z := k.(input_ready).

(** [None] is NULL. *)
Definition get_input_and_reset (k : kbd) : option (list Z) * kbd :=
  if c_true k.(input_ready) then (Some k.(input_buffer), set_input k.(input_buffer) 0 0 k) else (None, k).

(** [get_input_line], with the codes that arrive before each round. *)
Fixpoint input_rounds (arrivals : list (list Z)) (k : kbd) : outcome kbd :=
  if c_true k.(input_ready) then Done k else
  match arrivals with
  | [] => OutOfFuel
  | xs :: arrivals =>
    let* k := process_keyboard_buffer (foldl (fun k x => keyboard_handler x k) k xs) in input_rounds arrivals k
  end.
Definition get_input_line (arrivals : list (list Z)) (k : kbd) : outcome (list Z * kbd) :=
  let* k := input_rounds arrivals (set_input k.(input_buffer) 0 0 k) in Done (k.(input_buffer), k).
End Input.
Arguments kbd : clear implicits.
End Keyboard.
