(* ===== verification/KeyboardProps.v ===== *)
(** * The keyboard: a queue of codes and an edited line

    The ring of scancodes is a queue as long as it is not overrun, and
    processing it edits a line as a list of characters. *)
From Stdlib Require Import ZArith Lia.
From stdpp Require Import base numbers list gmap.
From S2P Require Import Prelude CStr Ata Console History Serial Keyboard.

Module KeyboardProps.
Import Ata Console History HistoryProps Serial SerialProps Keyboard.
Local Open Scope Z_scope.
Local Open Scope outcome_scope.

(** ** The queue *)
Record queue (r : ring) (q : list Z) : Prop := {
  q_size : length r.(scancode_buffer) = 256%nat;
  q_read : 0 <= r.(scancode_read_pos) < 256;
  q_write : r.(scancode_write_pos) = (r.(scancode_read_pos) + Z.of_nat (length q)) mod 256;
  q_short : (length q < 256)%nat;
  q_codes : forall i x, q !! i = Some x -> get r.(scancode_buffer) (Z.to_nat ((r.(scancode_read_pos) + Z.of_nat i) mod 256)) = x
}.

(** The remainder as a number below 256, for [lia]. *)
Lemma mod256 x : exists q, x = 256 * q + x mod 256 /\ 0 <= x mod 256 < 256.
Proof. exists (x / 256). split; [apply Z.div_mod; lia|apply Z.mod_pos_bound; lia]. Qed.

Lemma mod256_inj r i j : 0 <= i < 256 -> 0 <= j < 256 -> (r + i) mod 256 = (r + j) mod 256 -> i = j.
Proof. intros Hi Hj E. destruct (mod256 (r + i)) as (q & E1 & _), (mod256 (r + j)) as (q' & E2 & _). lia. Qed.

Lemma queue_empty r q : queue r q -> ring_empty r = bool_decide (q = []).
Proof.
  intros []. unfold ring_empty. destruct q as [|x q].
  - rewrite q_write0, Z.add_0_r, Z.mod_small by lia. by rewrite Z.eqb_refl.
  - rewrite bool_decide_eq_false_2 by done. apply Z.eqb_neq. intros E. rewrite q_write0 in E.
    assert (Z.of_nat (length (x :: q)) = 0) as H0; [|cbn in H0; lia].
    apply (mod256_inj (scancode_read_pos r)); [lia..|]. rewrite <- E, Z.add_0_r, Z.mod_small by lia. done.
Qed.

Lemma queue_put r q x : queue r q -> (length q < 255)%nat -> queue (ring_put x r) (q ++ [x]).
Proof.
  intros [] Hq. unfold ring_put. pose proof (Z.mod_pos_bound (scancode_read_pos r + Z.of_nat (length q)) 256 ltac:(lia)).
  split; cbn [scancode_buffer scancode_read_pos scancode_write_pos].
  - by rewrite length_insert.
  - done.
  - rewrite q_write0, length_app. change (u8 ?v) with (v mod 256). cbn [length]. unfold wrap. change (2 ^ 8) with 256.
    rewrite Z.add_mod_idemp_l by lia. f_equal. lia.
  - rewrite length_app. cbn. lia.
  - intros i y Hy. rewrite q_write0. destruct (decide (i < length q)%nat) as [Hi|Hi].
    + rewrite lookup_app_l in Hy by done. rewrite get_insert_ne; [by apply q_codes0|].
      intros E. apply Z2Nat.inj in E; [|lia|apply Z.mod_pos_bound; lia]. apply mod256_inj in E; lia.
    + rewrite lookup_app_r in Hy by lia. apply list_lookup_singleton_Some in Hy as [Hi' <-].
      replace (Z.of_nat i) with (Z.of_nat (length q)) by lia. apply get_insert_eq. lia.
Qed.

Lemma queue_get r x q : queue r (x :: q) -> exists r', ring_get r = (x, r') /\ queue r' q.
Proof.
  intros []. unfold ring_get. eexists. split.
  - f_equal. rewrite <- (q_codes0 0%nat x eq_refl). do 2 f_equal. rewrite Z.add_0_r, Z.mod_small by lia. done.
  - cbn [length] in *. split; cbn [scancode_buffer scancode_read_pos scancode_write_pos]; try done.
    + apply (Z.mod_pos_bound _ 256). lia.
    + rewrite q_write0. unfold wrap. change (2 ^ 8) with 256. rewrite Z.add_mod_idemp_l by lia. f_equal. lia.
    + lia.
    + intros i y Hy. rewrite <- (q_codes0 (S i) y Hy). unfold wrap. change (2 ^ 8) with 256. rewrite Z.add_mod_idemp_l by lia.
      do 3 f_equal. lia.
Qed.

(** The code that fills the ring empties the queue. *)
Lemma queue_overrun r q x : queue r q -> length q = 255%nat -> queue (ring_put x r) [].
Proof.
  intros [] Hq. split; cbn [scancode_buffer scancode_read_pos scancode_write_pos ring_put].
  - by rewrite length_insert.
  - done.
  - rewrite q_write0, Hq. unfold wrap. change (2 ^ 8) with 256. rewrite Z.add_mod_idemp_l by lia. cbn [length].
    replace (scancode_read_pos r + Z.of_nat 255 + 1) with (scancode_read_pos r + Z.of_nat 0 + 1 * 256) by lia.
    rewrite Z.mod_add by lia. done.
  - cbn. lia.
  - intros i y Hy. done.
Qed.

(** the scancode ring, written by the interrupt handler and the polling
    loops and read by every input loop, is a first-in first-out queue of up to
    255 codes; the 256th unread code loses all of them. *)
Theorem keyboard_ring_refines r q : queue r q ->
  (ring_empty r = bool_decide (q = [])) /\
  (forall x, (length q < 255)%nat -> queue (ring_put x r) (q ++ [x])) /\
  (forall x, length q = 255%nat -> queue (ring_put x r) []) /\
  (forall x q', q = x :: q' -> exists r', ring_get r = (x, r') /\ queue r' q').
Proof.
  intros H. split_and!.
  - by apply queue_empty.
  - intros x. by apply queue_put.
  - intros x. by apply queue_overrun.
  - intros x q' ->. by apply queue_get.
Qed.

(** ** The edited line *)
Record edit := mk_edit {
  e_shift : Z; e_line : list Z; e_ready : bool;
  e_closed : bool; (* the terminator follows the line *)
  e_hist : list (list Z); e_nav : option nat }.

Definition e_replace (s : list Z) (nav : option nat) (e : edit) : edit :=
  mk_edit e.(e_shift) s e.(e_ready) true e.(e_hist) nav.

Definition e_up (e : edit) : edit :=
  match e.(e_hist) !! h_prev e.(e_hist) e.(e_nav) with
  | Some s => e_replace s (Some (h_prev e.(e_hist) e.(e_nav))) e
  | None => e
  end.

Definition e_down (e : edit) : edit :=
  match e.(e_nav) with
  | Some (S k) => match e.(e_hist) !! k with Some s => e_replace s (Some k) e | None => e end
  | _ => e_replace [] None e
  end.

Definition e_char (x : Z) (e : edit) : edit :=
  if x =? 0 then e
  else if x =? 8 then
    match e.(e_line) with [] => e | _ => mk_edit e.(e_shift) (removelast e.(e_line)) e.(e_ready) true e.(e_hist) e.(e_nav) end
  else if x =? 10 then mk_edit e.(e_shift) e.(e_line) true true e.(e_hist) e.(e_nav)
  else if decide (length e.(e_line) < 255)%nat then mk_edit e.(e_shift) (e.(e_line) ++ [x]) e.(e_ready) false e.(e_hist) e.(e_nav)
  else e.

Definition e_shifted (v : Z) (e : edit) : edit := mk_edit v e.(e_line) e.(e_ready) e.(e_closed) e.(e_hist) e.(e_nav).

Definition e_code (x : Z) (e : edit) : edit :=
  if (x =? 0x2A) || (x =? 0x36) then e_shifted 1 e
  else if (x =? 0xAA) || (x =? 0xB6) then e_shifted 0 e
  else if c_true (Z.land x 0x80) then e
  else if x =? 0x48 then e_up e
  else if x =? 0x50 then e_down e
  else e_char (scancode_to_ascii x e.(e_shift)) e.

Section Line.
Context {D : Type} `{!PortIO D}.

Record editing (k : kbd D) (e : edit) : Prop := {
  l_size : length k.(input_buffer) = 256%nat;
  l_pos : k.(input_pos) = Z.of_nat (length e.(e_line));
  l_short : (length e.(e_line) <= 255)%nat;
  l_line : take (length e.(e_line)) k.(input_buffer) = e.(e_line);
  l_nonzero : Forall (fun c => c <> 0) e.(e_line);
  l_closed : e.(e_closed) = true -> get k.(input_buffer) (length e.(e_line)) = 0;
  l_shift : k.(shift_pressed) = e.(e_shift);
  l_ready : k.(input_ready) = if e.(e_ready) then 1 else 0;
  l_hist : history_ok k.(history) e.(e_hist) e.(e_nav);
  l_entries : Forall (fun s => (length s <= 255)%nat) e.(e_hist)
}.

Lemma take_insert_eq {A} (l : list A) n x : (n < length l)%nat -> take (S n) (<[n := x]> l) = take n l ++ [x].
Proof. intros H. rewrite (take_S_r _ _ x) by (by apply list_lookup_insert_eq). by rewrite take_insert_ge by lia. Qed.

Lemma removelast_length {A} (l : list A) : length (removelast l) = pred (length l).
Proof. destruct l as [|x l] using rev_ind; [done|]. rewrite removelast_last, length_app. cbn. lia. Qed.

Lemma backspace_edits k e : editing k e -> exists k', handle_backspace k = Done k' /\ codes k' = codes k /\ editing k' (e_char 8 e).
Proof.
  intros []. unfold handle_backspace, e_char. cbn [Z.eqb Pos.eqb]. rewrite l_pos0. destruct (e_line e) as [|x0 l0] eqn:El.
  - cbn. exists k. split; [done|]. split; [done|]. by split; rewrite ?El.
  - rewrite <- El in *. assert (0 < length (e_line e))%nat as Hl by (rewrite El; cbn; lia).
    destruct (Z.leb_spec (Z.of_nat (length (e_line e))) 0); [lia|]. rewrite aset_done by lia. cbn [obind].
    eexists. split; [done|]. split; [done|].
    split; cbn [input_buffer input_pos shift_pressed input_ready history set_con set_input e_line e_closed e_shift e_ready e_hist e_nav];
      rewrite ?removelast_length, ?length_insert; try done; try lia.
    + rewrite take_insert_ge by lia. rewrite <- l_line0 at 2. rewrite removelast_firstn_len, firstn_firstn.
      rewrite length_take. f_equal. lia.
    + rewrite removelast_firstn_len. by apply Forall_take.
    + intros _. replace (Z.to_nat (Z.of_nat (length (e_line e)) - 1)) with (pred (length (e_line e))) by lia. apply get_insert_eq. lia.
Qed.

(** Replacing the line by one of the history. *)
Lemma copy_line_spec s : forall i b, (length (cstr s) + i <= 255)%nat -> length b = 256%nat ->
  exists b', copy_line s (Z.of_nat i) b = Done (Z.of_nat (i + length (cstr s)), b') /\ length b' = 256%nat /\
    take (i + length (cstr s)) b' = take i b ++ cstr s.
Proof.
  induction s as [|x s IH]; intros i b Hl Hb; cbn [copy_line cstr length].
  - exists b. rewrite Nat.add_0_r, app_nil_r. done.
  - cbn [cstr] in Hl. unfold c_true. destruct (Z.eqb_spec x 0); cbn [negb andb length] in *.
    { exists b. rewrite Nat.add_0_r, app_nil_r. done. }
    unfold INPUT_BUFFER_SIZE. destruct (Z.ltb_spec (Z.of_nat i) (256 - 1)); [|lia]. rewrite aset_done by lia. cbn [obind].
    rewrite Nat2Z.id. replace (Z.of_nat i + 1) with (Z.of_nat (S i)) by lia.
    destruct (IH (S i) (<[i := x]> b)) as (b' & E & Hb' & Ht); [lia|by rewrite length_insert|].
    exists b'. rewrite Nat.add_succ_r. split; [by rewrite E|]. split; [done|]. rewrite <- Nat.add_succ_l.
    rewrite Ht, take_insert_eq by lia. by rewrite <- app_assoc.
Qed.

Lemma replace_edits k e s nav : editing k e -> (length (cstr s) <= 255)%nat -> history_ok k.(history) e.(e_hist) nav ->
  exists k', replace_input_line s k = Done k' /\ codes k' = codes k /\ editing k' (e_replace (cstr s) nav e).
Proof.
  intros [] Hs Hh. unfold replace_input_line. 
  destruct (copy_line_spec s 0 k.(input_buffer)) as (b & E & Hb & Ht); [lia|done|]. cbn [Nat.add] in E, Ht. rewrite take_0 in Ht. cbn [app] in Ht.
  cbn [input_buffer clear_current_line set_con]. change (Z.of_nat 0) with 0 in E. rewrite E. cbn [obind]. rewrite aset_done by lia. cbn [obind].
  rewrite Nat2Z.id. eexists. split; [done|]. split; [done|].
  split; cbn [input_buffer input_pos shift_pressed input_ready history set_con set_input clear_current_line
              e_replace e_line e_closed e_shift e_ready e_hist e_nav]; rewrite ?length_insert; try done.
  - by rewrite take_insert_ge by lia.
  - apply cstr_nonzero.
  - intros _. apply get_insert_eq. lia.
Qed.

Lemma editing_codes k e r : editing k e -> editing (set_codes r k) e.
Proof. intros []. by split. Qed.

Lemma up_edits k e : editing k e -> exists k', handle_arrow_up k = Done k' /\ codes k' = codes k /\ editing k' (e_up e).
Proof.
  intros H. pose proof H as []. unfold handle_arrow_up, e_up. destruct (decide (e_hist e = [])) as [E|E].
  - assert (history_prev (history k) = Done (None, history k)) as ->.
    { unfold history_prev. destruct l_hist0. by rewrite h_count0, E. }
    cbn [obind]. rewrite E, lookup_nil. eexists. split; [done|]. split; [done|]. by split.
  - destruct (prev_ok _ _ _ l_hist0 E) as (row & h' & -> & Hs & Hok). cbn [obind]. rewrite Hs.
    assert (length (cstr row) <= 255)%nat as Hl by (rewrite Forall_lookup in l_entries0; by eapply l_entries0).
    destruct (replace_edits (set_history h' k) (mk_edit e.(e_shift) e.(e_line) e.(e_ready) e.(e_closed) e.(e_hist) (Some (h_prev (e_hist e) (e_nav e))))
      row (Some (h_prev (e_hist e) (e_nav e)))) as (k' & R & Hc & Hed); [by split|done|done|]. eauto.
Qed.

Lemma down_edits k e : editing k e -> exists k', handle_arrow_down k = Done k' /\ codes k' = codes k /\ editing k' (e_down e).
Proof.
  intros H. pose proof H as []. unfold handle_arrow_down, e_down. destruct (e_nav e) as [j|] eqn:En.
  - destruct (next_ok _ _ _ l_hist0) as (row & h' & -> & Hj).
    destruct j as [|j]; destruct Hj as [Hs Hok].
    + destruct (replace_edits (set_history h' k) (mk_edit e.(e_shift) e.(e_line) e.(e_ready) e.(e_closed) e.(e_hist) None) row None)
        as (k' & R & Hc & Hed); [by split|rewrite Hs; cbn; lia|done|]. rewrite Hs in Hed. eauto.
    + rewrite Hs. assert (length (cstr row) <= 255)%nat as Hl by (rewrite Forall_lookup in l_entries0; by eapply l_entries0).
      destruct (replace_edits (set_history h' k) (mk_edit e.(e_shift) e.(e_line) e.(e_ready) e.(e_closed) e.(e_hist) (Some j)) row (Some j))
        as (k' & R & Hc & Hed); [by split|done|done|]. eauto.
  - assert (history_next (history k) = (None, history k)) as ->.
    { unfold history_next. destruct l_hist0. by rewrite h_nav0. }
    destruct (replace_edits (set_history (history k) k) e [] None) as (k' & R & Hc & Hed); [by split; rewrite ?En|cbn; lia|done|]. eauto.
Qed.

Lemma ascii_edits x k e : editing k e -> exists k', use_ascii x k = Done k' /\ codes k' = codes k /\ editing k' (e_char x e).
Proof.
  intros H. unfold use_ascii. destruct (Z.eqb_spec x 0) as [->|H0]; [exists k; by split|].
  destruct (Z.eqb_spec x 8) as [->|H8].
  { destruct (backspace_edits k e H) as (k' & -> & Hc & []). cbn [obind]. eexists. split; [done|]. split; [done|]. by split. }
  pose proof H as []. unfold e_char. rewrite (proj2 (Z.eqb_neq x 0)), (proj2 (Z.eqb_neq x 8)) by done.
  destruct (Z.eqb_spec x 10) as [->|H10].
  - rewrite aset_done by lia. cbn [obind]. eexists. split; [done|]. split; [done|].
    split; cbn [input_buffer input_pos shift_pressed input_ready history set_con set_input serial_out
                e_line e_closed e_shift e_ready e_hist e_nav]; rewrite ?length_insert; try done.
    + rewrite take_insert_ge by lia. done.
    + intros _. rewrite l_pos0, Nat2Z.id. apply get_insert_eq. lia.
  - unfold INPUT_BUFFER_SIZE. rewrite l_pos0. destruct (Z.ltb_spec (Z.of_nat (length (e_line e))) (256 - 1)); case_decide; try lia.
    + rewrite aset_done by lia. cbn [obind]. rewrite Nat2Z.id. eexists. split; [done|]. split; [done|].
      split; cbn [input_buffer input_pos shift_pressed input_ready history set_con set_input serial_out
                  e_line e_closed e_shift e_ready e_hist e_nav]; rewrite ?length_insert, ?length_app; cbn [length]; try done; try lia.
      * rewrite Nat.add_1_r, take_insert_eq by lia. by rewrite l_line0.
      * apply Forall_app. by repeat constructor.
    + exists k. by split.
Qed.

Lemma scancode_edits x k e : editing k e -> exists k', use_scancode x k = Done k' /\ codes k' = codes k /\ editing k' (e_code x e).
Proof.
  intros H. unfold use_scancode, e_code.
  destruct (_ || _); [eexists; split; [done|]; split; [done|]; by destruct H; split|].
  destruct (_ || _); [eexists; split; [done|]; split; [done|]; by destruct H; split|].
  destruct (c_true _); [by exists k|].
  destruct (_ =? _); [by apply up_edits|]. destruct (_ =? _); [by apply down_edits|].
  rewrite (l_shift _ _ H). by apply ascii_edits.
Qed.

Lemma process_edits q : forall fuel k e, editing k e -> queue k.(codes) q -> (length q <= fuel)%nat ->
  exists k', process_loop fuel k = Done k' /\ queue k'.(codes) [] /\ editing k' (foldl (fun e x => e_code x e) e q).
Proof.
  induction q as [|x q IH]; intros fuel k e H Hq Hf.
  - exists k. split; [|done]. pose proof (queue_empty _ _ Hq) as E. destruct fuel; cbn [process_loop]; by rewrite E.
  - destruct fuel as [|fuel]; [cbn in Hf; lia|]. cbn [process_loop]. rewrite (queue_empty _ _ Hq), bool_decide_eq_false_2 by done.
    destruct (queue_get _ _ _ Hq) as (r & -> & Hr).
    destruct (scancode_edits x (set_codes r k) e (editing_codes k e r H)) as (k' & -> & Hc & Hed). cbn [obind foldl].
    apply IH; [done|by rewrite Hc|cbn in Hf; lia].
Qed.

Lemma editing_cstr k e : editing k e -> e.(e_closed) = true -> cstr k.(input_buffer) = e.(e_line).
Proof.
  intros [] Hc. rewrite <- (take_drop (length (e_line e)) (input_buffer k)), l_line0.
  rewrite drop_hd by lia. rewrite l_closed0 by done. by apply cstr_app_zero.
Qed.

(** C26: processing the queued scancodes edits the input line: shift is tracked,
    characters are appended up to 255, backspace removes the last one, the
    arrows fetch history lines, Enter ends the line. After Enter, and nothing
    typed behind it, the shell receives exactly the edited line. *)
Theorem keyboard_line k e q : editing k e -> queue k.(codes) q ->
  let e' := foldl (fun e x => e_code x e) e q in
  exists k', process_keyboard_buffer k = Done k' /\ queue k'.(codes) [] /\ editing k' e' /\
    (e'.(e_ready) = true -> e'.(e_closed) = true ->
     exists buf k'', get_input_and_reset k' = (Some buf, k'') /\ cstr buf = e'.(e_line) /\ k''.(input_pos) = 0 /\ k''.(input_ready) = 0).
Proof.
  intros H Hq e'. destruct (process_edits q 256 k e H Hq) as (k' & R & Hq' & Hed); [destruct Hq; lia|].
  exists k'. split_and!; [done..|]. intros Hr Hc. unfold get_input_and_reset.
  rewrite (l_ready _ _ Hed). fold e'. rewrite Hr. cbn [c_true negb Z.eqb].
  eexists _, _. split; [done|]. split; [by apply editing_cstr|done].
Qed.
End Line.

(** ** Runs *)
Lemma handler_queue {D} `{!PortIO D} xs : forall (k : kbd D) q, queue k.(codes) q -> (length q + length xs < 256)%nat ->
  queue (codes (foldl (fun k x => keyboard_handler x k) k xs)) (q ++ xs).
Proof.
  induction xs as [|x xs IH]; intros k q Hq Hl; cbn [foldl]; [by rewrite app_nil_r|]. cbn [length] in Hl.
  replace (q ++ x :: xs) with ((q ++ [x]) ++ xs) by (by rewrite <- app_assoc).
  apply IH; [|rewrite length_app; cbn; lia]. apply queue_put; [done|lia].
Qed.

Definition fresh_ring : ring := mk_ring (replicate 256 0) 0 0.
Definition idle_kbd : kbd uart :=
  mk_kbd fresh_ring 0 0 0 (replicate 256 0) 0 0 cmd_history (mk_console (mk_fb ∅ 64 16 64) (mk_cursor 0 0 WHITE BLACK) 0 0 0)
    (mk_serial 1 0 (false, [])).
Definition idle_edit : edit := mk_edit 0 [] false true [] None.

Lemma idle_editing : editing idle_kbd idle_edit.
Proof. split; try done; [cbn; lia|apply empty_history_ok]. Qed.

(** "lz", backspace, "S" with shift, Enter: the line "lS". *)
Definition typed : list Z := [0x26; 0x2C; 0x0E; 0x2A; 0x1F; 0xAA; 0x1C].
Definition typed_kbd : kbd uart := foldl (fun k x => keyboard_handler x k) idle_kbd typed.

Lemma idle_queue : queue fresh_ring [].
Proof. split; try done; cbn; lia. Qed.

Lemma typed_queue : queue typed_kbd.(codes) typed.
Proof. apply (handler_queue typed idle_kbd []); [exact idle_queue|cbn; lia]. Qed.

Lemma typed_editing : editing typed_kbd idle_edit.
Proof. split; try done; [cbn; lia|apply empty_history_ok]. Qed.

Lemma keyboard_line_witness : exists k', process_keyboard_buffer typed_kbd = Done k' /\
  exists buf k'', get_input_and_reset k' = (Some buf, k'') /\ cstr buf = [108; 83].
Proof.
  destruct (keyboard_line typed_kbd idle_edit typed typed_editing typed_queue) as (k' & R & _ & _ & H).
  exists k'. split; [exact R|]. destruct H as (buf & k'' & E & Hc & _); [reflexivity..|]. exists buf, k''. split; [exact E|]. rewrite Hc. reflexivity.
Defined.

(** A key read in the same call as Enter, behind it, is appended to the line
    the shell receives. *)
Theorem keyboard_typeahead_corrupts :
  let k := foldl (fun k x => keyboard_handler x k) idle_kbd [0x26; 0x1F; 0x1C; 0x2D] in
  exists k' buf k'', process_keyboard_buffer k = Done k' /\ get_input_and_reset k' = (Some buf, k'') /\ cstr buf = [108; 115; 120].
Proof. vm_compute. do 3 eexists. split; [reflexivity|]. split; reflexivity. Qed.

Lemma keyboard_ring_refines_witness :
  queue (ring_put 0x1E fresh_ring) [0x1E] /\ exists r', ring_get (ring_put 0x1E fresh_ring) = (0x1E, r') /\ queue r' [].
Proof.
  assert (queue (ring_put 0x1E fresh_ring) [0x1E]) as H.
  { destruct (keyboard_ring_refines fresh_ring [] idle_queue) as (_ & Hp & _). apply (Hp 0x1E). cbn. lia. }
  split; [exact H|]. destruct (keyboard_ring_refines _ _ H) as (_ & _ & _ & Hg). apply (Hg 0x1E []). reflexivity.
Defined.
End KeyboardProps.
