(* ===== verification/StrBuf.v ===== *)
(** * Strings in fixed buffers (includes/string_helpers.h)

    The macros STRLEN, STRCPY and STRCAT on a buffer of known size: reading a
    string without a terminator and writing past the end are [OutOfBounds].
    Their specifications are in terms of the string a buffer holds. *)
From Stdlib Require Import ZArith Lia.
From stdpp Require Import base numbers list.
From S2P Require Import Prelude.
Local Open Scope Z_scope.
Local Open Scope outcome_scope.

Module StrBuf.

Fixpoint zstring (l : list Z) : outcome (list Z) :=
  match l with
  | [] => OutOfBounds
  | c :: l => if c =? 0 then Done [] else let* s := zstring l in Done (c :: s)
  end.

(** Storing the bytes [s] at [off]. *)
Definition put (r : list Z) (off : nat) (s : list Z) : outcome (list Z) :=
  if decide (off + length s <= length r)%nat then Done (take off r ++ s ++ drop (off + length s) r) else OutOfBounds.

Definition STRLEN (r : list Z) : outcome Z := let* s := zstring r in Done (Z.of_nat (length s)).
Definition STRCPY (dest src : list Z) : outcome (list Z) := let* s := zstring src in put dest 0 (s ++ [0]).
Definition STRCAT (dest src : list Z) : outcome (list Z) :=
  let* d := zstring dest in let* s := zstring src in put dest (length d) (s ++ [0]).

(** ** The string a buffer holds *)
Definition text (s : list Z) : Prop := Forall (fun c => c <> 0) s.
Definition holds (n : nat) (r s : list Z) : Prop := length r = n /\ text s /\ exists rest, r = s ++ 0 :: rest.

Lemma zstring_app s rest : text s -> zstring (s ++ 0 :: rest) = Done s.
Proof. induction 1 as [|c s Hc Hs IH]; cbn; [done|]. rewrite (proj2 (Z.eqb_neq c 0)) by done. by rewrite IH. Qed.

Lemma holds_zstring n r s : holds n r s -> zstring r = Done s.
Proof. intros (_ & Ht & rest & ->). by apply zstring_app. Qed.

Lemma holds_len n r s : holds n r s -> STRLEN r = Done (Z.of_nat (length s)).
Proof. intros H. unfold STRLEN. by rewrite (holds_zstring n r s). Qed.

Lemma holds_short n r s : holds n r s -> (length s < n)%nat.
Proof. intros (<- & _ & rest & ->). rewrite length_app. cbn. lia. Qed.

Lemma holds_cut n r s k : holds n r s -> (k <= length s)%nat -> exists c rest, r = take k s ++ c :: rest /\
  (c = default 0 (s !! k)) /\ length (take k s) = k.
Proof.
  intros (_ & _ & rest & ->) Hk. destruct (decide (k = length s)) as [->|Hne].
  - exists 0, rest. rewrite take_ge, lookup_ge_None_2 by lia. done.
  - destruct (lookup_lt_is_Some_2 s k) as [c Hc]; [lia|]. exists c, (drop (S k) s ++ 0 :: rest).
    rewrite Hc, length_take, Nat.min_l by lia. split; [|done]. rewrite <- (take_drop_middle s k c Hc) at 1. by rewrite <- app_assoc.
Qed.

(** Writing a string with its terminator behind a prefix. *)
Lemma put_holds n r s k t : holds n r s -> (k <= length s)%nat -> text t -> (k + length t < n)%nat ->
  exists r', put r k (t ++ [0]) = Done r' /\ holds n r' (take k s ++ t).
Proof.
  intros H Hk Ht Hn. pose proof H as (Hl & Hs & rest & Hr). unfold put. rewrite length_app. cbn [length].
  rewrite decide_True by lia. eexists. split; [done|]. split; [|split].
  - rewrite !length_app, length_take, length_drop. cbn [length]. lia.
  - apply Forall_app. split; [by apply Forall_take|done].
  - exists (drop (k + (length t + 1)) r). rewrite Hr at 1. rewrite take_app_le by lia. by rewrite <- !app_assoc.
Qed.

Lemma strcpy_holds n m dest src d s : holds n dest d -> holds m src s -> (length s < n)%nat ->
  exists r, STRCPY dest src = Done r /\ holds n r s.
Proof.
  intros Hd Hs Hn. unfold STRCPY. rewrite (holds_zstring _ _ _ Hs). cbn [obind].
  destruct Hs as (_ & Hs & _). destruct (put_holds n dest d 0 s Hd) as (r & E & H); [lia|done|lia|]. eauto.
Qed.

Lemma strcat_holds n m dest src d s : holds n dest d -> holds m src s -> (length d + length s < n)%nat ->
  exists r, STRCAT dest src = Done r /\ holds n r (d ++ s).
Proof.
  intros Hd Hs Hn. unfold STRCAT. rewrite (holds_zstring _ _ _ Hd), (holds_zstring _ _ _ Hs). cbn [obind].
  destruct Hs as (_ & Hs & _). destruct (put_holds n dest d (length d) s Hd) as (r & E & H); [lia|done|lia|].
  rewrite take_ge in H by lia. eauto.
Qed.

(** Ending the string at [k]. *)
Lemma cut_holds n r s k : holds n r s -> (k <= length s)%nat -> holds n (<[k := 0]> r) (take k s).
Proof.
  intros H Hk. pose proof (holds_short _ _ _ H). destruct (holds_cut n r s k H Hk) as (c & rest & Hr & _ & Hl).
  destruct H as (Hlen & Hs & _). split; [by rewrite length_insert|]. split; [by apply Forall_take|]. exists rest.
  rewrite Hr. rewrite insert_app_r_alt by lia. by rewrite Hl, Nat.sub_diag.
Qed.

(** Any buffer becomes empty by a terminator in front. *)
Lemma empty_holds n r : length r = n -> (0 < n)%nat -> holds n (<[0%nat := 0]> r) [].
Proof. intros Hl Hn. split; [by rewrite length_insert|]. split; [constructor|]. destruct r as [|c r]; [cbn in *; lia|]. by exists r. Qed.

(** ** Moving the rest of a string *)

(** [for (i = from; n times; i--) r[i + 1] = r[i];] *)
Fixpoint open_gap (n : nat) (i : Z) (r : list Z) : outcome (list Z) :=
  match n with
  | O => Done r
  | S n => let* x := aget r i in let* r := aset r (i + 1) x in open_gap n (i - 1) r
  end.

(** [for (i = from; n times; i++) r[i] = r[i + 1];] *)
Fixpoint close_gap (n : nat) (i : Z) (r : list Z) : outcome (list Z) :=
  match n with
  | O => Done r
  | S n => let* x := aget r (i + 1) in let* r := aset r i x in close_gap n (i + 1) r
  end.

Lemma aget_mid {A} (a : list A) x b : aget (a ++ x :: b) (Z.of_nat (length a)) = Done x.
Proof. apply aget_lookup; [lia|]. rewrite Nat2Z.id. by apply list_lookup_middle. Qed.

Lemma aset_mid {A} (a : list A) x b y : aset (a ++ x :: b) (Z.of_nat (length a)) y = Done (a ++ y :: b).
Proof.
  rewrite aset_done by (rewrite length_app; cbn; lia). rewrite Nat2Z.id, insert_app_r_alt, Nat.sub_diag by lia. done.
Qed.

Lemma open_gap_spec b : forall a x rest, (0 < length b)%nat ->
  open_gap (length b) (Z.of_nat (length a + length b) - 1) (a ++ b ++ x :: rest) =
  Done (a ++ take 1 b ++ b ++ rest).
Proof.
  induction b as [|y b IH] using rev_ind; intros a x rest Hb; [cbn in Hb; lia|].
  rewrite length_app, Nat.add_1_r. cbn [open_gap length].
  replace (Z.of_nat (length a + S (length b)) - 1) with (Z.of_nat (length (a ++ b))) by (rewrite length_app; lia).
  replace (a ++ (b ++ [y]) ++ x :: rest) with ((a ++ b) ++ y :: x :: rest) by (by rewrite <- !app_assoc). rewrite aget_mid. cbn [obind].
  replace (Z.of_nat (length (a ++ b)) + 1) with (Z.of_nat (length ((a ++ b) ++ [y]))) by (rewrite (length_app (a ++ b)); cbn; lia).
  replace ((a ++ b) ++ y :: x :: rest) with (((a ++ b) ++ [y]) ++ x :: rest) by (by rewrite <- !app_assoc). rewrite aset_mid. cbn [obind].
  destruct b as [|z b].
  - cbn. rewrite app_nil_r, <- app_assoc. done.
  - replace (Z.of_nat (length (a ++ z :: b)) - 1) with (Z.of_nat (length a + length (z :: b)) - 1) by (rewrite length_app; lia).
    replace (((a ++ z :: b) ++ [y]) ++ y :: rest) with (a ++ (z :: b) ++ y :: y :: rest) by (by rewrite <- !app_assoc).
    rewrite IH by (cbn; lia). cbn. by rewrite <- !app_assoc.
Qed.

Lemma close_gap_spec b : forall a x rest,
  close_gap (length b) (Z.of_nat (length a)) (a ++ x :: b ++ rest) = Done (a ++ b ++ default x (last b) :: rest).
Proof.
  induction b as [|y b IH]; intros a x rest; [done|]. cbn [close_gap length app].
  replace (Z.of_nat (length a) + 1) with (Z.of_nat (length (a ++ [x]))) by (rewrite length_app; cbn; lia).
  replace (a ++ x :: y :: b ++ rest) with ((a ++ [x]) ++ y :: b ++ rest) by (by rewrite <- app_assoc). rewrite aget_mid. cbn [obind].
  rewrite <- app_assoc. cbn [app]. rewrite aset_mid. cbn [obind].
  replace (Z.of_nat (length (a ++ [x]))) with (Z.of_nat (length (a ++ [y]))) by (rewrite !length_app; done).
  replace (a ++ y :: y :: b ++ rest) with ((a ++ [y]) ++ y :: b ++ rest) by (by rewrite <- app_assoc). rewrite IH.
  rewrite <- app_assoc. cbn [app]. rewrite last_cons. by destruct (last b).
Qed.
End StrBuf.
