(* ===== verification/Paint.v ===== *)
(** * Painting on the frame buffer (src/kernel/GUI)

    What the windows of the desktop share: filled rectangles, frames, rows of
    characters, the arrow of the mouse, and saving and restoring the pixels
    under it. Coordinates are C ints, converted to unsigned by [put_pixel]. A
    painting function is described by the region it may change; the mouse arrow
    can be drawn and taken away without a trace. *)
From Stdlib Require Import ZArith Lia.
From stdpp Require Import base numbers list gmap.
From S2P Require Import Prelude Console ConsoleProps.

Module Paint.
Import Console ConsoleProps.
Local Open Scope Z_scope.

Definition plot (x y color : Z) (c : console) : console := put_pixel (u32 x) (u32 y) color c.

(** [for dy, for dx: put_pixel(x + dx, y + dy, color)] *)
Definition fill_rect (x y w h color : Z) (c : console) : console :=
  for_range 0 (Z.to_nat h) (fun dy => for_range 0 (Z.to_nat w) (fun dx =>
    plot (x + Z.of_nat dx) (y + Z.of_nat dy) color)) c.

(** [for dx: top and bottom edge; for dy: left and right edge] *)
Definition frame (x y w h color : Z) (c : console) : console :=
  let c := for_range 0 (Z.to_nat w) (fun dx c =>
             plot (x + Z.of_nat dx) (y + h - 1) color (plot (x + Z.of_nat dx) y color c)) c in
  for_range 0 (Z.to_nat h) (fun dy c =>
    plot (x + w - 1) (y + Z.of_nat dy) color (plot x (y + Z.of_nat dy) color c)) c.

(** [draw_char] at [x], [x + step], ... *)
Fixpoint letters (x y step : Z) (s : list Z) (fg bg : Z) (c : console) : console :=
  match s with
  | [] => c
  | ch :: s => letters (x + step) y step s fg bg (draw_char (u32 x) (u32 y) ch fg bg c)
  end.

(** ** The mouse arrow *)

(** The rounds of [for (d = 0; d < n && x + d < w; d++)]. *)
Fixpoint span (n : nat) (x w : Z) : nat :=
  match n with
  | O => O
  | S n => if u32 x <? w then S (span n (x + 1) w) else O
  end.

Record under := mk_under { saved_pixels : list Z; cursor_saved : Z; saved_cx : Z; saved_cy : Z }.

Definition save_cursor_area (x y : Z) (c : console) (u : under) : under :=
  let w := c.(fb).(width) in let h := c.(fb).(height) in
  mk_under
    (for_range 0 (span 16 y h) (fun dy => for_range 0 (span 16 x w) (fun dx saved =>
       <[(dy * 16 + dx)%nat := default 0 (c.(fb).(fb_base) !! u32 ((y + Z.of_nat dy) * w + (x + Z.of_nat dx)))]> saved))
       u.(saved_pixels)) 1 x y.

Definition restore_cursor_area (u : under) (c : console) : under * console :=
  if u.(cursor_saved) =? 0 then (u, c) else
  let w := c.(fb).(width) in let h := c.(fb).(height) in
  (mk_under u.(saved_pixels) 0 u.(saved_cx) u.(saved_cy),
   set_fb c (for_range 0 (span 16 u.(saved_cy) h) (fun dy => for_range 0 (span 16 u.(saved_cx) w) (fun dx b =>
     <[u32 ((u.(saved_cy) + Z.of_nat dy) * w + (u.(saved_cx) + Z.of_nat dx)) := get u.(saved_pixels) (dy * 16 + dx)]> b))
     c.(fb).(fb_base))).

Definition draw_cursor_in (color x y : Z) (c : console) : console :=
  let w := c.(fb).(width) in let h := c.(fb).(height) in
  let c := for_range 0 (if u32 x <? w then span 16 y h else 0) (fun i => plot x (y + Z.of_nat i) color) c in
  let c := for_range 0 (Nat.min (span 16 y h) (span 16 x w)) (fun i => plot (x + Z.of_nat i) (y + Z.of_nat i) color) c in
  let c := for_range 0 (if u32 (y + 15) <? h then span 16 x w else 0) (fun i => plot (x + Z.of_nat i) (y + 15) color) c in
  for_range 1 (1 + span 15 (y + 1) h) (fun yy => for_range 1 (1 + span (yy - 1) (x + 1) w) (fun xx =>
    plot (x + Z.of_nat xx) (y + Z.of_nat yy) color)) c.
Definition draw_cursor (x y : Z) (c : console) : console := draw_cursor_in 0 x y c.

(** ** Regions *)
Definition screen_ok (c : console) : Prop :=
  0 < c.(fb).(width) <= c.(fb).(pitch) /\ 0 < c.(fb).(height) < 2 ^ 31 /\ c.(fb).(width) < 2 ^ 31 /\
  c.(fb).(pitch) * c.(fb).(height) < 2 ^ 32.

Definition pixel (c : console) (x y : Z) : Z := pix c.(fb).(pitch) c.(fb).(fb_base) x y.
Definition shown (c : console) (x y : Z) : Prop := on_screen c.(fb).(width) c.(fb).(height) x y.

(** The same size and cursor, and the same pixels except in [R]. *)
Definition only (R : Z -> Z -> Prop) (c c' : console) : Prop :=
  c'.(fb).(width) = c.(fb).(width) /\ c'.(fb).(height) = c.(fb).(height) /\ c'.(fb).(pitch) = c.(fb).(pitch) /\
  c'.(cursor) = c.(cursor) /\ c'.(isgui) = c.(isgui) /\
  forall x y, shown c x y -> ~ R x y -> pixel c' x y = pixel c x y.

Definition paints (R : Z -> Z -> Prop) (f : console -> console) : Prop := forall c, screen_ok c -> only R c (f c).

Definition box (X Y W H x y : Z) : Prop := X <= x < X + W /\ Y <= y < Y + H.
Definition nowhere (x y : Z) : Prop := False.

Lemma only_refl R c : only R c c.
Proof. by repeat split. Qed.

Lemma only_ok R c c' : only R c c' -> screen_ok c -> screen_ok c'.
Proof. intros (Hw & Hh & Hp & _) H. unfold screen_ok. rewrite Hw, Hh, Hp. exact H. Qed.

Lemma only_trans R c c1 c2 : only R c c1 -> only R c1 c2 -> only R c c2.
Proof.
  intros (Hw & Hh & Hp & Hc & Hg & Hx) (Hw' & Hh' & Hp' & Hc' & Hg' & Hx'). repeat split; try congruence.
  intros x y Hs HR. rewrite Hx' by (unfold shown in *; congruence || done). by apply Hx.
Qed.

Lemma only_mono (R R' : Z -> Z -> Prop) c c' : (forall x y, R x y -> R' x y) -> only R c c' -> only R' c c'.
Proof. intros HR (Hw & Hh & Hp & Hc & Hg & Hx). repeat split; try done. intros x y Hs Hn. apply Hx; [done|]. intros H. by apply Hn, HR. Qed.

Lemma paints_mono (R R' : Z -> Z -> Prop) f : (forall x y, R x y -> R' x y) -> paints R f -> paints R' f.
Proof. intros HR H c Hc. eapply only_mono; [exact HR|]. by apply H. Qed.

Lemma paints_id R : paints R (fun c => c).
Proof. intros c _. apply only_refl. Qed.

Lemma paints_seq R f g : paints R f -> paints R g -> paints R (fun c => g (f c)).
Proof. intros Hf Hg c Hc. pose proof (Hf c Hc) as H. eapply only_trans; [exact H|]. apply Hg. by eapply only_ok. Qed.

Lemma paints_if R (b : bool) f g : paints R f -> paints R g -> paints R (fun c => if b then f c else g c).
Proof. by destruct b. Qed.

Lemma paints_loop R lo hi (body : nat -> console -> console) :
  (forall i, (lo <= i < hi)%nat -> paints R (body i)) -> paints R (for_range lo hi body).
Proof.
  intros H c Hc. destruct (decide (lo <= hi)%nat); [|rewrite for_range_nil by lia; apply only_refl].
  apply (for_range_inv (fun _ c' => only R c c')); [done|apply only_refl|]. intros i c' Hi Hi'.
  eapply only_trans; [exact Hi'|]. apply H; [done|]. by eapply only_ok.
Qed.

Lemma put_pixel_paints x y color : 0 <= x -> 0 <= y -> paints (fun x' y' => x' = x /\ y' = y) (put_pixel x y color).
Proof.
  intros Hx Hy c (Hw & Hh & Hw2 & Hp). unfold put_pixel. destruct (_ || _) eqn:E; [apply only_refl|].
  apply orb_false_iff in E as [Ex%Z.leb_gt Ey%Z.leb_gt]. repeat split; try done.
  intros x' y' [Hx' Hy'] HR. unfold pixel, set_fb. cbn [fb fb_base pitch].
  rewrite (pixel_index (pitch (fb c)) (height (fb c))) by (first [lia | split; lia]). rewrite pix_insert by lia.
  rewrite decide_False; [done|]. intros [-> ->]. by apply HR.
Qed.

Lemma plot_paints x y color (R : Z -> Z -> Prop) : R (u32 x) (u32 y) -> paints R (plot x y color).
Proof.
  intros HR. eapply paints_mono; [|apply put_pixel_paints; apply wrap_range; lia]. by intros x' y' [-> ->].
Qed.

Lemma draw_char_paints x y ch fg bg : 0 <= x < 2 ^ 32 -> 0 <= y < 2 ^ 32 -> paints (box x y 8 8) (draw_char x y ch fg bg).
Proof.
  intros Hx Hy c Hc. pose proof Hc as (Hw & Hh & Hw2 & Hp). unfold draw_char.
  destruct (_ || _) eqn:E; [apply only_refl|]. apply orb_false_iff in E as [Ex%Z.leb_gt Ey%Z.leb_gt].
  destruct (_ || _); [apply only_refl|]. apply paints_loop; [|done]. intros i Hi. apply paints_loop. intros j Hj.
  rewrite !wrap_small by lia. eapply paints_mono; [|apply put_pixel_paints; lia]. intros x' y' [-> ->]. split; lia.
Qed.

(** ** Painting inside a window

    A window at [X], [Y] of size [W], [H] on a screen that holds it. *)
Section Window.
Context (X Y W H : Z) (HX : 0 <= X) (HY : 0 <= Y) (HW : X + W <= 2 ^ 31) (HH : Y + H <= 2 ^ 31).
Abbreviation inside := (paints (box X Y W H)).

Lemma in_box x y : X <= x < X + W -> Y <= y < Y + H -> box X Y W H (u32 x) (u32 y).
Proof. intros Hx Hy. rewrite !wrap_small by lia. by split. Qed.

Lemma plot_inside x y color : X <= x < X + W -> Y <= y < Y + H -> inside (plot x y color).
Proof. intros Hx Hy. apply plot_paints. by apply in_box. Qed.

Lemma fill_rect_inside x y w h color : X <= x -> x + w <= X + W -> Y <= y -> y + h <= Y + H -> inside (fill_rect x y w h color).
Proof.
  intros ????. unfold fill_rect. apply paints_loop. intros dy Hdy. apply paints_loop. intros dx Hdx. apply plot_inside; lia.
Qed.

Lemma frame_inside x y w h color : X <= x -> x + w <= X + W -> Y <= y -> y + h <= Y + H -> 0 < w -> 0 < h ->
  inside (frame x y w h color).
Proof.
  intros ??????. unfold frame. apply (paints_seq _ (for_range 0 _ _)); apply paints_loop; intros i Hi;
    (apply (paints_seq _ (plot _ _ _)); apply plot_inside; lia).
Qed.

Lemma char_inside x y ch fg bg : X <= x -> x + 8 <= X + W -> Y <= y -> y + 8 <= Y + H -> inside (draw_char (u32 x) (u32 y) ch fg bg).
Proof.
  intros ????. eapply paints_mono; [|apply draw_char_paints; apply wrap_range; lia].
  rewrite !wrap_small by lia. intros x' y' [Hx Hy]. split; lia.
Qed.

Lemma letters_inside s x y step fg bg : X <= x -> 0 <= step ->
  x + step * (Z.of_nat (length s) - 1) + 8 <= X + W -> Y <= y -> y + 8 <= Y + H -> inside (letters x y step s fg bg).
Proof.
  revert x. induction s as [|ch s IH]; intros x Hx Hs Hw Hy Hh; [exact (paints_id _)|]. cbn [length] in Hw.
  apply (paints_seq _ (draw_char (u32 x) (u32 y) ch fg bg) (letters (x + step) y step s fg bg)).
  - apply char_inside; nia.
  - destruct s as [|ch' s]; [exact (paints_id _)|]. apply IH; cbn [length] in *; nia.
Qed.
End Window.

Lemma only_then R c c1 f : screen_ok c -> only R c c1 -> paints R f -> only R c (f c1).
Proof. intros Hc H1 Hf. eapply only_trans; [exact H1|]. apply Hf. by eapply only_ok. Qed.

(** A sequence of paintings inside a window: [tac] solves the bounds. *)
Ltac painting tac :=
  lazymatch goal with
  | |- only _ ?c ?c => apply only_refl
  | |- only _ _ (if ?b then _ else _) => destruct b; painting tac
  | |- only _ _ (for_range _ _ _ _) =>
      apply only_then; [assumption|painting tac|apply paints_loop; intros ? ?; intros ? ?; painting tac]
  | |- only _ _ (fill_rect _ _ _ _ _ _) => apply only_then; [assumption|painting tac|apply fill_rect_inside; tac]
  | |- only _ _ (frame _ _ _ _ _ _) => apply only_then; [assumption|painting tac|apply frame_inside; tac]
  | |- only _ _ (letters _ _ _ _ _ _ _) => apply only_then; [assumption|painting tac|apply letters_inside; tac]
  | |- only _ _ (draw_char _ _ _ _ _ _) => apply only_then; [assumption|painting tac|apply char_inside; tac]
  | |- only _ _ (plot _ _ _ _) => apply only_then; [assumption|painting tac|apply plot_inside; tac]
  | |- only _ _ _ => apply only_then; [assumption|painting tac|]
  end.

(** ** The arrow leaves no trace *)
Lemma span_le n x w : (span n x w <= n)%nat.
Proof. revert x. induction n as [|n IH]; intros x; cbn; [lia|]. destruct (_ <? _); [|lia]. specialize (IH (x + 1)). lia. Qed.

Lemma span_in n x w i : 0 <= x < 2 ^ 31 -> w < 2 ^ 31 -> (i < span n x w)%nat <-> (i < n)%nat /\ x + Z.of_nat i < w.
Proof.
  revert x i. induction n as [|n IH]; intros x i Hx Hw; cbn [span]; [lia|]. rewrite wrap_small by lia.
  destruct (Z.ltb_spec x w) as [Hlt|Hge]; [|lia]. destruct i as [|i]; [lia|].
  rewrite <- Nat.succ_lt_mono, IH by lia. lia.
Qed.

(** The square of the arrow. *)
Definition square (x y : Z) : Z -> Z -> Prop := box x y 16 16.

Lemma draw_cursor_paints color x y : 0 <= x < 2 ^ 31 - 16 -> 0 <= y < 2 ^ 31 - 16 -> paints (square x y) (draw_cursor_in color x y).
Proof.
  intros Hx Hy c Hc. unfold draw_cursor_in. set (w := width (fb c)). set (h := height (fb c)).
  pose proof (span_le 16 y h). pose proof (span_le 16 x w). pose proof (span_le 15 (y + 1) h).
  assert (forall a b, x <= a < x + 16 -> y <= b < y + 16 -> paints (square x y) (plot a b color)) as Hin.
  { intros a b Ha Hb. apply plot_inside; lia. }
  apply only_then; [done| |].
  - repeat (apply only_then; [done| |]); [apply only_refl|..]; apply paints_loop; intros i Hi; apply Hin;
      try destruct (_ <? _); lia.
  - apply paints_loop. intros i Hi. apply paints_loop. intros j Hj. pose proof (span_le (i - 1) (x + 1) w). apply Hin; lia.
Qed.

(** The saved pixels. *)
Lemma saved_spec n m (f : nat -> nat -> Z) l : length l = 256%nat -> (n <= 16)%nat -> (m <= 16)%nat ->
  let l' := for_range 0 n (fun dy => for_range 0 m (fun dx l => <[(dy * 16 + dx)%nat := f dy dx]> l)) l in
  length l' = 256%nat /\ forall dy dx, (dy < n)%nat -> (dx < m)%nat -> get l' (dy * 16 + dx) = f dy dx.
Proof.
  intros Hl Hn Hm. cbn zeta.
  assert (forall k l dy, length l = 256%nat -> (k <= 16)%nat -> (dy < 16)%nat ->
    let l' := for_range 0 k (fun dx l => <[(dy * 16 + dx)%nat := f dy dx]> l) l in
    length l' = 256%nat /\ forall i, get l' i = if decide (dy * 16 <= i < dy * 16 + k)%nat then f dy (i - dy * 16)%nat else get l i) as Hrow.
  { clear l Hl Hn. intros k l dy Hl Hk Hdy. cbn zeta. induction k as [|k IH].
    - rewrite for_range_nil by lia. split; [done|]. intros i. by rewrite decide_False by lia.
    - rewrite for_range_S by lia. destruct IH as [IHl IH]; [lia|]. split; [by rewrite length_insert|]. intros i.
      destruct (decide (i = dy * 16 + k)%nat) as [->|Hne].
      + rewrite get_insert_eq, decide_True by lia. f_equal. lia.
      + rewrite get_insert_ne, IH by lia. repeat case_decide; (done || lia). }
  induction n as [|n IH]; [rewrite for_range_nil by lia; split; [done|lia]|].
  rewrite for_range_S by lia. destruct IH as [IHl IH]; [lia|].
  destruct (Hrow m _ n IHl) as [Hl' Hg]; [lia..|]. split; [exact Hl'|]. intros dy dx Hdy Hdx. rewrite Hg.
  destruct (decide (dy = n)) as [->|Hne].
  - rewrite decide_True by lia. f_equal. lia.
  - rewrite decide_False by lia. apply IH; lia.
Qed.

(** Consoles that show the same. *)
Definition same_screen : console -> console -> Prop := only nowhere.
#[global] Instance same_screen_refl : Reflexive same_screen.
Proof. intros c. apply only_refl. Qed.
#[global] Instance same_screen_trans : Transitive same_screen.
Proof. intros c c1 c2. apply only_trans. Qed.
#[global] Instance same_screen_sym : Symmetric same_screen.
Proof.
  intros c c' (Hw & Hh & Hp & Hc & Hg & Hx). repeat split; try done. intros x y Hs _. symmetry. apply Hx; [|by intros []].
  unfold shown in *. by rewrite <- Hw, <- Hh.
Qed.

(** Whatever is painted in the square after saving it is gone after restoring. *)
Lemma restore_after_save x y u c c' : screen_ok c -> c.(fb).(pitch) = c.(fb).(width) ->
  length u.(saved_pixels) = 256%nat -> 0 <= x < 2 ^ 31 - 16 -> 0 <= y < 2 ^ 31 - 16 -> only (square x y) c c' ->
  same_screen c (snd (restore_cursor_area (save_cursor_area x y c u) c')).
Proof.
  intros Hc Hpw Hu Hx Hy (Hw' & Hh' & Hp' & Hc' & Hg' & Hx'). pose proof Hc as (Hw & Hh & Hw2 & Hp).
  unfold restore_cursor_area, save_cursor_area. cbn [cursor_saved saved_cx saved_cy saved_pixels snd Z.eqb].
  rewrite Hw', Hh'. set (w := width (fb c)) in *. set (h := height (fb c)) in *.
  destruct (saved_spec (span 16 y h) (span 16 x w)
    (fun dy dx => default 0 (fb_base (fb c) !! u32 ((y + Z.of_nat dy) * w + (x + Z.of_nat dx)))) _ Hu) as [_ Hs]; [apply span_le..|].
  revert Hs. set (l := for_range _ _ _ (saved_pixels u)). intros Hs.
  repeat split; try done. intros px py [Hpx Hpy] _. unfold pixel, set_fb. cbn [fb fb_base pitch]. fold w h in Hpx, Hpy.
  erewrite for_range_ext.
  2: { intros dy b Hdy%span_in; [|lia..]. apply for_range_ext. intros dx b' Hdx%span_in; [|lia..].
       rewrite (pixel_index w h) by (first [lia | split; lia]). reflexivity. }
  rewrite Hp', Hpw. fold w. destruct (decide (span 16 x w = 0)%nat) as [E0|Hne0].
  { assert (w <= x) by (destruct (span_in 16 x w 0); lia). erewrite for_range_ext.
    2: { intros. rewrite E0, for_range_nil by lia. instantiate (1 := fun _ b => b). done. }
    replace (for_range 0 (span 16 y h) (fun _ b => b) (fb_base (fb c'))) with (fb_base (fb c')).
    2: { symmetry. apply (for_range_inv (fun _ b => b = fb_base (fb c'))); [lia|done|by intros]. }
    specialize (Hx' px py). unfold pixel, pix in Hx'. rewrite Hp', Hpw in Hx'. apply Hx'; [split; lia|]. unfold square, box. lia. }
  assert (x + Z.of_nat (span 16 x w) <= w) as Hspan.
  { destruct (span_in 16 x w (span 16 x w - 1)) as [Hs1 _]; lia. }
  rewrite ConsoleProps.fill_rect with (f := fun dy dx => get l (dy * 16 + dx)) by lia. case_decide as Hd.
  - destruct Hd as [[Hy1 Hy2] [Hx1 Hx2]]. rewrite Hs by lia.
    rewrite (pixel_index w h) by (first [lia | split; lia]). unfold pix. do 2 f_equal. rewrite !Z2Nat.id by lia. f_equal; [f_equal|]; lia.
  - specialize (Hx' px py). unfold pixel in Hx'. rewrite Hp', Hpw in Hx'. apply Hx'; [split; lia|]. intros [Hbx Hby]. apply Hd.
    destruct (span_in 16 x w (Z.to_nat (px - x))) as [_ S1]; [lia..|].
    destruct (span_in 16 y h (Z.to_nat (py - y))) as [_ S2]; [lia..|]. lia.
Qed.

(** The mouse arrow leaves no trace: saving the pixels under it, drawing
    it and restoring them shows the same screen as before, wherever the arrow
    is, also cut off at the right and lower edge, on a screen whose scan lines
    have no padding. *)
Theorem cursor_transparent x y u c : screen_ok c -> c.(fb).(pitch) = c.(fb).(width) ->
  length u.(saved_pixels) = 256%nat -> 0 <= x < 2 ^ 31 - 16 -> 0 <= y < 2 ^ 31 - 16 ->
  same_screen c (snd (restore_cursor_area (save_cursor_area x y c u) (draw_cursor x y c))).
Proof. intros. apply restore_after_save; try done. by apply draw_cursor_paints. Qed.

Definition small_screen (w p : Z) : console := mk_console (mk_fb {[ 6 := 9; 12 := 7 ]} w 3 p) (mk_cursor 0 0 WHITE BLACK) 1 0 0.
Definition nothing_saved : under := mk_under (replicate 256 0) 0 0 0.

Lemma cursor_transparent_witness :
  same_screen (small_screen 4 4)
    (snd (restore_cursor_area (save_cursor_area 2 1 (small_screen 4 4) nothing_saved) (draw_cursor 2 1 (small_screen 4 4)))).
Proof. apply cursor_transparent; [repeat split; vm_compute; congruence|reflexivity|reflexivity|lia|lia]. Defined.

(** With padding the arrow stays: [fb.width] is used as the stride. *)
Lemma cursor_trace_with_padding :
  let c := small_screen 4 5 in pixel c 2 2 = 7 /\
  pixel (snd (restore_cursor_area (save_cursor_area 0 0 c nothing_saved) (draw_cursor 0 0 c))) 2 2 = 0.
Proof. vm_compute. done. Qed.
End Paint.
