(* ===== verification/Desk.v ===== *)
(** * What the windows of the desktop use

    The calls into the virtual file system, what their users rely on and the
    proof that VFS.c on TinyFS provides it, and the desktop around a window:
    the screen, the scancode ring, the mouse and the function that redraws what
    is behind the window. In the code the latter are function pointers that
    gui.c passes to the editor and the dialog; here they are type classes. *)
From Stdlib Require Import ZArith Lia.
From stdpp Require Import base numbers list gmap.
From S2P Require Import Prelude CStr BlockDev VfsTypes TinyFS TinyFSDisk TinyFSBlocks TinyFSIO TinyFSDir VFS VFSProps VfsTinyFS Ata Console Keyboard.

(** ** Files

    The calls of VFS.c an editor uses, on a state [W]. *)
Module Files.
Local Open Scope Z_scope.
Local Open Scope outcome_scope.

Class FileApi (W : Type) := {
  f_open : list Z -> Z -> W -> outcome (Z * W);
  f_close : Z -> W -> outcome W;
  f_read : Z -> list Z -> Z -> W -> outcome (Z * list Z * W);
  f_write : Z -> list Z -> Z -> W -> outcome (Z * W);
  f_create : list Z -> Z -> W -> outcome (Z * W);
  f_unlink : list Z -> W -> outcome (Z * W);
  f_cwd : W -> list Z }.

(** Directories: nodes are addresses in kernel memory. *)
Class DirApi (W : Type) := {
  v_resolve : list Z -> W -> outcome (option Z * W);
  v_node : Z -> W -> outcome vfs_node;
  v_readdir : Z -> Z -> W -> outcome (option Z * W);
  v_kfree : Z -> W -> W;
  v_mkdir : list Z -> Z -> W -> outcome (Z * W);
  v_root : W -> option Z }.

(** What the editors and the shell rely on: a file that exists can be opened,
    reads and writes move a position through its bytes, and closing keeps them.
    [stored k cap w path c]: the file at [path] has the bytes [c], it can grow
    to [cap] bytes, and the kernel heap has room for [k] more calls of
    [vfs_open] (each takes a node that is never given back). Paths are
    compared up to their terminator. *)
Definition overwrite (c : list Z) (pos : nat) (s : list Z) : list Z := take pos c ++ s ++ drop (pos + length s) c.

Class FileLaws (W : Type) `{!FileApi W} := {
  stored : nat -> Z -> W -> list Z -> list Z -> Prop;
  opened : nat -> Z -> W -> Z -> list Z -> Z -> list Z -> Prop;
  open_stored k cap w path flags c : stored (S k) cap w (cstr path) c ->
    exists fd w', f_open path flags w = Done (fd, w') /\ 0 <= fd /\ opened k cap w' fd (cstr path) 0 c;
  write_opened k cap w fd path pos c buf n : opened k cap w fd path pos c -> 0 <= pos <= Z.of_nat (length c) ->
    0 <= n <= Z.of_nat (length buf) -> pos + n <= cap ->
    exists w', f_write fd buf n w = Done (n, w') /\
      opened k cap w' fd path (pos + n) (overwrite c (Z.to_nat pos) (take (Z.to_nat n) buf));
  read_opened k cap w fd path c into n : opened k cap w fd path 0 c -> 0 <= n <= Z.of_nat (length into) -> n < 2 ^ 31 ->
    let m := Z.min n (Z.of_nat (length c)) in
    exists w', f_read fd into n w = Done (m, take (Z.to_nat m) c ++ drop (Z.to_nat m) into, w') /\ opened k cap w' fd path m c;
  close_opened k cap w fd path pos c : opened k cap w fd path pos c ->
    exists w', f_close fd w = Done w' /\ stored k cap w' path c }.

(** Where a file can be made: removing it and creating it gives an empty file. *)
Class FileMakeLaws (W : Type) `{!FileApi W, !FileLaws W} := {
  makeable : nat -> Z -> W -> list Z -> Prop;
  make_file k cap w path perm : makeable k cap w (cstr path) -> exists r1 w1 r2 w2,
    f_unlink path w = Done (r1, w1) /\ f_create path perm w1 = Done (r2, w2) /\ stored k cap w2 (cstr path) [] }.

(** The functions of VFS.c themselves. *)
Section Vfs.
Context {P H D : Type} `{Heap H} (ops : vfs_operations (world P H D)).
Definition vfs_files : FileApi (Vfs.vfs_state * world P H D) := {|
  f_open path flags s := let* (fd, v, w) := Vfs.vfs_open ops path flags (fst s) (snd s) in Done (fd, (v, w));
  f_close fd s := let* (_, v, w) := Vfs.vfs_close ops fd (fst s) (snd s) in Done (v, w);
  f_read fd into n s := let* (r, buf, v, w) := Vfs.vfs_read ops fd into n (fst s) (snd s) in Done (r, buf, (v, w));
  f_write fd buf n s := let* (r, v, w) := Vfs.vfs_write ops fd buf n (fst s) (snd s) in Done (r, (v, w));
  f_create path perm s := let* (r, w) := Vfs.vfs_create ops path perm (fst s) (snd s) in Done (r, (fst s, w));
  f_unlink path s := let* (r, w) := Vfs.vfs_unlink ops path (fst s) (snd s) in Done (r, (fst s, w));
  f_cwd s := Vfs.vfs_get_cwd_path (fst s) |}.
Definition vfs_dirs : DirApi (Vfs.vfs_state * world P H D) := {|
  v_resolve path s := let* (n, w) := Vfs.vfs_resolve_path ops path (fst s) (snd s) in Done (n, (fst s, w));
  v_node a s := Vfs.node_of (snd s) a;
  v_readdir a i s := let* (n, w) := Vfs.vfs_readdir ops (Some a) i (snd s) in Done (n, (fst s, w));
  v_kfree a s := (fst s, mk_world (delete a (w_nodes (snd s))) (w_fs (snd s)) (hp_free a (w_heap (snd s))) (w_disk (snd s)));
  v_mkdir path perm s := let* (r, w) := Vfs.vfs_mkdir ops path perm (fst s) (snd s) in Done (r, (fst s, w));
  v_root s := Vfs.root_node (fst s) |}.
End Vfs.
End Files.

(** ** The laws hold of VFS.c on a mounted TinyFS *)
Module TinyfsFiles.
Import Files Tinyfs TinyfsDisk TinyfsBlocks TinyfsIO TinyfsDir Vfs VfsProps VfsTinyfs.
Local Open Scope Z_scope.
Local Open Scope outcome_scope.

Lemma find_ext {A} (P Q : A -> bool) l : (forall x, P x = Q x) -> List.find P l = List.find Q l.
Proof. intros He. induction l as [|x l IH]; cbn; [done|]. by rewrite He, IH. Qed.

Section Laws.
Context {H D : Type} `{Heap H} `{BlockDevLaws D}.
Hypothesis sectors_enough : 1024 <= bd_sectors (D:=D) < 2 ^ 32.
Notation W := (world tinyfs_data H D).
Context (garbage_node : vfs_node) (stack : list Z).
Hypothesis garbage_name : length (n_name garbage_node) = MAX_FILENAME.
Hypothesis stack_length : length stack = 512%nat.
Notation ops := (tinyfs_vfs_ops garbage_node stack).
Implicit Types (s : vfs_state * W) (data : tinyfs_data) (ch : nat -> list Z).

(** The heap gives [k] more nodes, each at an address not in use. *)
Fixpoint supplies (k : nat) (h : H) (taken : gset Z) : Prop :=
  match k with
  | O => True
  | S k => exists q h', hp_alloc 296 h = (Some q, h') /\ q ∉ taken /\ supplies k h' ({[q]} ∪ taken)
  end.

(** The bytes a file of [n] blocks can grow to. *)
Definition room (data : tinyfs_data) (n : nat) : Z := 512 * (Z.of_nat n + free_blocks (sb data)).

(** The file [name] of the root directory, in entry [i]. *)
Record file_at (k : nat) (cap : Z) s (path c : list Z) (root fs p : Z) data ch (name : list Z) (i : nat) : Prop := {
  fa_mounted : mounted (fst s) (snd s) root fs p data ch;
  fa_path : path = SLASH :: name;
  fa_plain : plain_name name;
  fa_look : lookup_entry data 0 name = Some i;
  fa_bytes : contents (w_disk (snd s)) (dirent_at data i) (ch i) = c;
  fa_cap : cap = room data (length (ch i));
  fa_some : 0 < cap;
  fa_heap : supplies k (w_heap (snd s)) (dom (w_nodes (snd s))) }.

Definition t_stored (k : nat) (cap : Z) s (path c : list Z) : Prop :=
  exists root fs p data ch name i, file_at k cap s path c root fs p data ch name i /\ exists fd, 3 <= fd < 256 /\ fd_free (fst s) fd.
Definition t_opened (k : nat) (cap : Z) s (fd : Z) (path : list Z) (pos : Z) (c : list Z) : Prop :=
  exists root fs p data ch name i, file_at k cap s path c root fs p data ch name i /\ 3 <= fd < 256 /\
  exists q n flags, fd_at (fst s) fd = mk_fd 1 (Some q) pos flags /\ q <> root /\ w_nodes (snd s) !! q = Some n /\
    n_private n = Some i /\ n_fs n = Some fs /\ n_ops n = true.

Lemma file_used k cap s path c root fs p data ch name i : file_at k cap s path c root fs p data ch name i -> used data i.
Proof. intros Hf. apply (lookup_entry_Some _ _ _ _ (fa_look _ _ _ _ _ _ _ _ _ _ _ _ Hf)). Qed.

Lemma room_bound data ch i : fs_inv data ch -> used data i -> room data (length (ch i)) < 2 ^ 31.
Proof.
  intros Hinv Hu. unfold room. destruct (inv_blocks _ _ Hinv) as (_ & Hl & _ & ->). pose proof (free_count_bound _ Hl).
  assert (length (ch i) <= 923)%nat; [|lia].
  destruct (inv_entries _ _ Hinv i Hu) as [(_ & -> & _)|[Hc _]]; [cbn; lia|by eapply chain_length].
Qed.

Lemma file_size k cap s path c root fs p data ch name i : file_at k cap s path c root fs p data ch name i ->
  d_size (dirent_at data i) = Z.of_nat (length c) /\ Z.of_nat (length c) <= 512 * Z.of_nat (length (ch i)).
Proof.
  intros Hf. pose proof (file_used _ _ _ _ _ _ _ _ _ _ _ _ Hf) as Hu. destruct Hf as [[_ _ _ Hinv Hr _] _ _ _ Hc _ _ _].
  pose proof (length_contents sectors_enough _ _ _ _ Hinv Hr Hu) as Hl. rewrite Hc in Hl. destruct (used_fits _ _ _ Hinv Hu) as (_ & _ & F & _).
  unfold is_u32 in F. split; [lia|]. destruct (inv_entries _ _ Hinv i Hu) as [(_ & -> & ?)|[_ ?]]; cbn [length]; lia.
Qed.

Lemma fd_advanced v fd q pos flags n : length (vfs_fd_table v) = 256%nat -> 0 <= fd < 256 -> fd_at v fd = mk_fd 1 (Some q) pos flags ->
  0 <= n -> 0 <= pos < 2 ^ 32 - n -> fd_at (advance v fd n) fd = mk_fd 1 (Some q) (pos + n) flags.
Proof.
  intros Hl Hfd Hat Hn Hp. unfold advance. destruct (Z.gtb_spec n 0).
  - rewrite fd_at_set_eq, Hat by done. cbn [fd_used fd_node fd_position fd_flags]. by rewrite wrap_small by lia.
  - rewrite Hat. f_equal. lia.
Qed.

Lemma tinyfs_open_stored k cap s path flags c : t_stored (S k) cap s (cstr path) c ->
  exists fd s', f_open (FileApi := vfs_files ops) path flags s = Done (fd, s') /\ 0 <= fd /\ t_opened k cap s' fd (cstr path) 0 c.
Proof.
  intros (root & fs & p & data & ch & name & i & Hf & Hfd). destruct s as [v w]. cbn [fst snd] in *.
  pose proof Hf as [Hm Hp Hpl Hlook Hc Hcap Hpos (q & h' & Ha & Hq & Hs)]. cbn [fst snd] in *.
  destruct (vfs_open_file garbage_node stack garbage_name stack_length v w root fs p data ch name i flags q h' Hm Hpl Hlook Ha)
    as (fd & v1 & w2 & n & E & Hfd2 & Hqr & Hat & Hqn & Hnp & Hnf & Hno & Hm2 & Hnodes & Hheap & Hdisk);
    [by apply not_elem_of_dom|done|].
  exists fd, (v1, w2). cbn [f_open vfs_files fst snd]. rewrite (open_cstr garbage_node stack _ _ _ _ _ Hp), E. cbn [obind].
  split; [done|]. split; [lia|]. exists root, fs, p, data, ch, name, i. split.
  - split; cbn [fst snd]; [done|done|done|done|by rewrite Hdisk|done|done|]. by rewrite Hheap, Hnodes, dom_insert_L.
  - split; [lia|]. exists q, n, flags. done.
Qed.
(** A write changes no name: lookups find the same entries. *)
Lemma lookup_kept data data' i b sz inode name : (i < length (dirents data))%nat ->
  dirents data' = <[i := with_block_size (dirent_at data i) b sz]> (dirents data) ->
  lookup_entry data' inode name = lookup_entry data inode name.
Proof.
  intros Hi Hd. unfold lookup_entry, find_index. apply find_ext. intros j. unfold in_dir, named.
  rewrite (dirent_at_insert data data' i _ j Hi Hd). by case_decide; subst.
Qed.

(** The bytes of a file are those of its first blocks. *)
Lemma contents_prefix (d : D) de l l' : bd_ready d -> Forall in_data l -> l `prefix_of` l' -> d_size de <= 512 * Z.of_nat (length l) ->
  contents d de l' = contents d de l.
Proof.
  intros Hr Hl Hp Hs. unfold contents. rewrite (prefix_file_bytes d l l' Hp), take_take, length_file_bytes by done.
  f_equal. lia.
Qed.

Lemma entry_in_data data ch i : fs_inv data ch -> used data i -> Forall in_data (ch i).
Proof.
  intros Hinv Hu. destruct (inv_entries _ _ Hinv i Hu) as [(_ & -> & _)|[Hc _]]; [constructor|by eapply chain_in_data].
Qed.

(** A write that fits in the file's room writes everything. *)
Lemma write_fits data ch i (d : D) buf n pos r data' l' d' c : write_effect data ch i d buf n pos r data' l' d' ->
  fs_inv data ch -> bd_ready d -> used data i -> contents d (dirent_at data i) (ch i) = c -> d_size (dirent_at data i) = Z.of_nat (length c) ->
  0 <= pos <= Z.of_nat (length c) -> Z.of_nat (length c) <= 512 * Z.of_nat (length (ch i)) -> 0 <= n -> 0 < room data (length (ch i)) ->
  pos + n <= room data (length (ch i)) ->
  r = n /\ room data' (length l') = room data (length (ch i)) /\
  contents d' (dirent_at data' i) l' = overwrite c (Z.to_nat pos) (take (Z.to_nat n) buf).
Proof.
  intros [Hinv' Hr' Hpre Hu' Hcnt _ Hfull _ Hres] Hinv Hr Hu Hc Hsz Hpos Hlen Hn H0' Hroom. unfold room in *.
  assert (r = n) as ->.
  { destruct (decide (r < n)) as [Hlt|Hge].
    - exfalso. specialize (Hfull Hlt). destruct Hres as [([->|[-> ->]] & Hz & _)|(Hr0 & Hz & _)]; [lia|cbn [length] in *; lia|].
      specialize (Hz Hlt). lia.
    - destruct Hres as [([->|[-> ->]] & Hz & _)|(Hr0 & _)]; lia. }
  split; [done|]. split; [lia|]. destruct Hres as [(Hr0 & Hz & -> & Hs)|(_ & _ & _ & _ & _ & Hs)].
  - assert (n = 0) as -> by lia. unfold overwrite. change (Z.to_nat 0) with 0%nat. rewrite take_0. cbn [app length]. rewrite Nat.add_0_r, take_drop, <- Hc.
    rewrite <- (contents_prefix d (dirent_at data i) (ch i) l' Hr (entry_in_data _ _ _ Hinv Hu) Hpre) by lia.
    unfold contents. by rewrite Hs.
  - rewrite Hs, Hc by lia. done.
Qed.

Lemma tinyfs_write_opened k cap s fd path pos c buf n : t_opened k cap s fd path pos c -> 0 <= pos <= Z.of_nat (length c) ->
  0 <= n <= Z.of_nat (length buf) -> pos + n <= cap ->
  exists s', f_write (FileApi := vfs_files ops) fd buf n s = Done (n, s') /\
    t_opened k cap s' fd path (pos + n) (overwrite c (Z.to_nat pos) (take (Z.to_nat n) buf)).
Proof.
  intros (root & fs & p & data & ch & name & i & Hf & Hfd & q & nd & flags & Hat & Hqr & Hqn & Hnp & Hnf & Hno) Hpos Hn Hcap.
  destruct s as [v w]. pose proof (file_used _ _ _ _ _ _ _ _ _ _ _ _ Hf) as Hu. destruct (file_size _ _ _ _ _ _ _ _ _ _ _ _ Hf) as [Hsz Hlen].
  pose proof Hf as [Hm Hp Hpl Hlook Hc -> H0' Hs]. cbn [fst snd] in *. pose proof (room_bound _ _ _ (mt_inv _ _ _ _ _ _ _ Hm) Hu) as Hb.
  destruct (vfs_write_effect sectors_enough garbage_node stack stack_length v w root fs p data ch fd q nd pos flags i buf n Hm)
    as (r & nd' & data' & l' & w' & E & Heff & Hqn' & (S1 & S2 & S3 & _) & Hm' & Hnodes & Hheap); [lia|done..|lia|lia|lia|lia|].
  destruct (write_fits _ _ _ _ _ _ _ _ _ _ _ c Heff (mt_inv _ _ _ _ _ _ _ Hm) (mt_disk _ _ _ _ _ _ _ Hm) Hu Hc Hsz) as (-> & Hcap' & Hc');
    [lia|lia|lia|done|done|].
  destruct (we_entry _ _ _ _ _ _ _ _ _ _ _ Heff) as (b & sz & Hd).
  exists (advance v fd n, w'). cbn [f_write vfs_files fst snd]. rewrite E. cbn [obind]. split; [done|].
  exists root, fs, p, data', (chains_upd ch i l'), name, i. split.
  - split; cbn [fst snd]; [|done|done| |by rewrite chains_upd_eq|by rewrite chains_upd_eq, Hcap'|done|].
    + eapply mounted_fds; [exact Hm'| |by rewrite length_advance]. unfold advance. by destruct (n >? 0).
    + rewrite (lookup_kept data data' i b sz); [done| |done]. destruct (inv_fits _ _ (mt_inv _ _ _ _ _ _ _ Hm)) as (_ & _ & _ & -> & _). apply Hu.
    + rewrite Hheap, Hnodes. replace (dom (<[q := nd']> (w_nodes w))) with (dom (w_nodes w)); [done|].
      rewrite dom_insert_lookup_L; [done|by eexists].
  - split; [done|]. exists q, nd', flags. cbn [fst snd]. split; [|split_and!; congruence].
    apply fd_advanced; [apply Hm|lia|done|lia|lia].
Qed.
Lemma tinyfs_read_opened k cap s fd path c into n : t_opened k cap s fd path 0 c -> 0 <= n <= Z.of_nat (length into) -> n < 2 ^ 31 ->
  let m := Z.min n (Z.of_nat (length c)) in
  exists s', f_read (FileApi := vfs_files ops) fd into n s = Done (m, take (Z.to_nat m) c ++ drop (Z.to_nat m) into, s') /\
    t_opened k cap s' fd path m c.
Proof.
  intros (root & fs & p & data & ch & name & i & Hf & Hfd & q & nd & flags & Hat & Hqr & Hqn & Hnp & Hnf & Hno) Hn Hn31 m.
  destruct s as [v w]. pose proof (file_used _ _ _ _ _ _ _ _ _ _ _ _ Hf) as Hu. destruct (file_size _ _ _ _ _ _ _ _ _ _ _ _ Hf) as [Hsz Hlen].
  pose proof Hf as [Hm Hp Hpl Hlook Hc Hcap H0' Hs]. cbn [fst snd] in *.
  destruct (vfs_read_effect sectors_enough garbage_node stack garbage_name stack_length v w root fs p data ch fd q nd 0 flags i into n Hm)
    as (w' & E & Hm' & Hnodes & Hheap & Hrd & Hsec); [lia|done..|lia|lia|lia|lia|].
  assert (readable (dirent_at data i) n 0 = Z.to_nat m) as Er by (unfold readable; rewrite Hsz; lia).
  rewrite Er, Hc in E. change (Z.to_nat 0) with 0%nat in E. rewrite drop_0 in E.
  assert (length (take (Z.to_nat m) c) = Z.to_nat m) as El by (rewrite length_take; lia).
  rewrite list_inserts_prefix, El, Z2Nat.id in E by lia.
  exists (advance v fd m, w'). cbn [f_read vfs_files fst snd]. rewrite E. cbn [obind]. split; [done|].
  exists root, fs, p, data, ch, name, i. split.
  - split; cbn [fst snd]; [|done|done|done| |done|done|by rewrite Hheap, Hnodes].
    + eapply mounted_fds; [exact Hm'| |by rewrite length_advance]. unfold advance. by destruct (m >? 0).
    + rewrite <- Hc. unfold contents. f_equal. apply file_bytes_ext. intros b _. apply Hsec.
  - split; [done|]. exists q, nd, flags. cbn [fst snd]. rewrite Hnodes. split; [|done].
    change m with (0 + m) at 2. apply fd_advanced; [apply Hm|lia|done|lia|lia].
Qed.

Lemma tinyfs_close_opened k cap s fd path pos c : t_opened k cap s fd path pos c ->
  exists s', f_close (FileApi := vfs_files ops) fd s = Done s' /\ t_stored k cap s' path c.
Proof.
  intros (root & fs & p & data & ch & name & i & [Hm Hp Hpl Hlook Hc Hcap H0' Hs] & Hfd & q & nd & flags & Hat & Hqr & Hqn & Hnp & Hnf & Hno).
  destruct s as [v w]. cbn [fst snd] in *. exists (set_fd v fd (mk_fd 0 None 0 flags), w).
  cbn [f_close vfs_files fst snd]. unfold vfs_close. rewrite bad_fd_false by (rewrite ?Hat; done || lia). rewrite Hat. cbn [fd_node].
  unfold node_of. rewrite Hqn. cbn [obind]. unfold node_op. rewrite Hno. cbn [op_close tinyfs_vfs_ops]. unfold node_of. rewrite Hqn. cbn [obind].
  split; [done|]. exists root, fs, p, data, ch, name, i. split.
  - split; cbn [fst snd]; try done. eapply mounted_fds; [exact Hm|done|apply length_set_fd].
  - exists fd. cbn [fst snd]. split; [done|]. unfold fd_free. rewrite fd_at_set_eq; [done|apply Hm|lia].
Qed.

(** The name of the root directory that can be removed and made again: either
    no entry has it and a slot is free, or one entry of the root has it. *)
Definition t_makeable (k : nat) (cap : Z) s (path : list Z) : Prop :=
  exists root fs p data ch name, mounted (fst s) (snd s) root fs p data ch /\ path = SLASH :: name /\ plain_name name /\
    (length name < 32)%nat /\ supplies k (w_heap (snd s)) (dom (w_nodes (snd s))) /\ 0 < cap /\
    (exists fd, 3 <= fd < 256 /\ fd_free (fst s) fd) /\
    match unlink_target data name with
    | None => cap = room data 0 /\ exists j, (1 <= j < 256)%nat /\ d_used (dirent_at data j) = 0
    | Some i => cap = room data (length (ch i)) /\ (1 <= i)%nat /\ forall j, entry_is data 0 name j -> j = i
    end.

(** After the removal the name is free and so is a slot. *)
Lemma unlinked_free data ch (d : D) name data1 ch1 d1 cap : match unlink_target data name with
    | None => data1 = data /\ ch1 = ch
    | Some i => ch1 = chains_upd ch i [] /\ unlinked data ch d i data1 d1
    end -> match unlink_target data name with
    | None => cap = room data 0 /\ exists j, (1 <= j < 256)%nat /\ d_used (dirent_at data j) = 0
    | Some i => cap = room data (length (ch i)) /\ (1 <= i)%nat /\ forall j, entry_is data 0 name j -> j = i
    end ->
  lookup_entry data1 0 name = None /\ cap = room data1 0 /\ exists j, (1 <= j < 256)%nat /\ d_used (dirent_at data1 j) = 0.
Proof.
  intros Hu Hc. destruct (unlink_target data name) as [i|] eqn:Eu.
  - destruct Hu as [_ Hun], Hc as (-> & Hi & Hone). destruct (unlink_target_Some _ _ _ Eu) as [[Hi2 _] _]. split_and!.
    + destruct (lookup_entry data1 0 name) as [j|] eqn:El; [|done]. apply lookup_entry_Some in El as ([Hj Hju] & Hjp & Hjn).
      destruct (decide (j = i)) as [->|Hne]; [by rewrite (ul_gone _ _ _ _ _ _ Hun) in Hju|].
      rewrite (ul_others _ _ _ _ _ _ Hun) in * by done. destruct Hne. apply Hone. by split_and!.
    + unfold room. rewrite (ul_free _ _ _ _ _ _ Hun). lia.
    + exists i. split; [lia|apply Hun].
  - destruct Hu as [-> _], Hc as [-> Hfree]. split_and!; [|done|done].
    destruct (lookup_entry data 0 name) as [j|] eqn:El; [|done]. apply lookup_entry_Some in El as ([Hj Hju] & _ & Hjn).
    apply (find_index_None _ _) with (i := j) in Eu; [|apply elem_of_seq; unfold TINYFS_MAX_FILES; lia].
    cbv beta in Eu. apply named_spec in Hjn. rewrite Hjn, andb_true_r in Eu. unfold c_true in Eu.
    by destruct (Z.eqb_spec (d_used (dirent_at data j)) 0).
Qed.

Lemma tinyfs_make_file k cap s path perm : t_makeable k cap s (cstr path) -> exists r1 s1 r2 s2,
  f_unlink (FileApi := vfs_files ops) path s = Done (r1, s1) /\ f_create (FileApi := vfs_files ops) path perm s1 = Done (r2, s2) /\
  t_stored k cap s2 (cstr path) [].
Proof.
  intros (root & fs & p & data & ch & name & Hm & Hp & Hpl & Hlen & Hs & H0' & Hfd & Hcap). destruct s as [v w]. cbn [fst snd] in *.
  destruct (vfs_unlink_effect sectors_enough garbage_node stack garbage_name stack_length v w root fs p data ch path name Hm Hp Hpl)
    as (r1 & w1 & data1 & ch1 & E1 & Hm1 & Hn1 & Hh1 & Hun).
  destruct (unlinked_free _ _ _ _ _ _ _ _ Hun Hcap) as (Hlook & -> & Hslot).
  destruct (vfs_create_effect sectors_enough garbage_node stack garbage_name stack_length v w1 root fs p data1 ch1 name perm Hm1 Hpl Hlook Hslot)
    as (w2 & i & data2 & d2 & E2 & Hc & Hn2 & Hh2 & Hd2 & Hm2).
  exists r1, (v, w1), 0, (v, w2). cbn [f_unlink f_create vfs_files fst snd]. rewrite E1. cbn [obind]. split; [done|].
  rewrite (create_cstr garbage_node stack garbage_name stack_length _ _ _ _ _ Hp Hpl), E2. cbn [obind]. split; [done|].
  exists root, fs, p, data2, (chains_upd ch1 i []), name, i. split; [|done]. split; cbn [fst snd]; [done|done|done| | | |done|].
  - eapply created_lookup; done.
  - unfold contents. by rewrite (cr_size _ _ _ _ _ _ _ _ _ Hc).
  - rewrite chains_upd_eq. unfold room. by destruct (cr_blocks _ _ _ _ _ _ _ _ _ Hc) as [_ ->].
  - by rewrite Hh2, Hn2, Hh1, Hn1.
Qed.

Definition tinyfs_laws : FileLaws (vfs_state * W) (FileApi0 := vfs_files ops) :=
  Build_FileLaws _ (vfs_files ops) t_stored t_opened tinyfs_open_stored tinyfs_write_opened tinyfs_read_opened tinyfs_close_opened.
Definition tinyfs_make_laws : FileMakeLaws (vfs_state * W) (FileApi0 := vfs_files ops) (FileLaws0 := tinyfs_laws) :=
  Build_FileMakeLaws _ (vfs_files ops) tinyfs_laws t_makeable tinyfs_make_file.
End Laws.

(** *** A RAM disk with the file "a" of 700 zero bytes, mounted *)
#[local] Existing Instance bump_heap.
Notation disk_ops := (@tinyfs_vfs_ops Z Ramdisk.ramdisk bump_heap _ ex_garbage (replicate 512 0)).
Definition disk_world : world tinyfs_data Z Ramdisk.ramdisk :=
  mk_world {[ 16 := ex_root ]} {[ 8 := one_file_fs ]} 4096 Ramdisk.fresh_ramdisk.
Definition disk_api : FileApi (vfs_state * world tinyfs_data Z Ramdisk.ramdisk) := vfs_files disk_ops.
Definition disk_laws : @FileLaws _ disk_api := tinyfs_laws ramdisk_sectors ex_garbage (replicate 512 0) eq_refl eq_refl.
Definition disk_make_laws : @FileMakeLaws _ disk_api disk_laws := tinyfs_make_laws ramdisk_sectors ex_garbage (replicate 512 0) eq_refl eq_refl.
Definition disk_state : vfs_state * world tinyfs_data Z Ramdisk.ramdisk := (ex_vfs, disk_world).
Definition disk_bytes : list Z := contents Ramdisk.fresh_ramdisk (dirent_at two_block_data 1) (two_block_chains 1).
Definition disk_room : Z := room two_block_data 2.

Lemma disk_mounted : mounted ex_vfs disk_world 16 8 64 two_block_data two_block_chains.
Proof.
  split; [done|exists ex_root; by split_and!|exists one_file_fs; by split|exact two_block_inv
         |exact Ramdisk.fresh_ramdisk_ready|done].
Qed.
Lemma disk_plain : plain_name [97].
Proof. split_and!; [done| |cbn; lia]. repeat constructor; unfold SLASH; lia. Qed.
Lemma disk_supplies : supplies 2 (w_heap disk_world) (dom (w_nodes disk_world)).
Proof.
  exists 4096, 4392. split; [done|]. split; [by apply not_elem_of_dom|]. exists 4392, 4688. split; [done|]. split; [|done].
  apply not_elem_of_union. split; [by rewrite elem_of_singleton|by apply not_elem_of_dom].
Qed.

Lemma disk_stored : stored (FileLaws := disk_laws) 2 disk_room disk_state [47; 97] disk_bytes.
Proof.
  exists 16, 8, 64, two_block_data, two_block_chains, [97], 1%nat. split; [|exact ex_fd_free].
  split.
  - exact disk_mounted.
  - reflexivity.
  - exact disk_plain.
  - vm_compute. reflexivity.
  - unfold disk_bytes. change (w_disk (snd disk_state)) with Ramdisk.fresh_ramdisk. reflexivity.
  - vm_compute. reflexivity.
  - vm_compute. reflexivity.
  - exact disk_supplies.
Qed.

Lemma blank_sector n l : Z.of_nat n = 524288 -> 0 <= l < 1024 ->
  Ramdisk.rd_sector (Ramdisk.mk_rd (replicate n 0) true) l = replicate 512 0.
Proof.
  intros Hn Hl. unfold Ramdisk.rd_sector. cbn [Ramdisk.ramdisk_data]. rewrite drop_replicate, take_replicate. f_equal. lia.
Qed.

Lemma blank_file n : Z.of_nat n = 524288 ->
  contents (Ramdisk.mk_rd (replicate n 0) true) (dirent_at two_block_data 1) (two_block_chains 1) = replicate 700 0.
Proof.
  intros Hn. unfold contents, file_bytes. change (two_block_chains 1) with [105; 103].
  set (d := Ramdisk.mk_rd _ _). assert (forall l, 0 <= l < 1024 -> bd_sector d l = replicate 512 0) as Hd by (intros; by apply blank_sector).
  clearbody d. cbn [fmap list_fmap]. rewrite !Hd by lia. vm_compute. reflexivity.
Qed.

Lemma blank_disk n : Ramdisk.ramdisk_init (Some (replicate n 170)) (Ramdisk.mk_rd [] false) =
  Ramdisk.mk_rd (replicate (Nat.min (Z.to_nat Ramdisk.RAMDISK_SIZE) n) 0) true.
Proof.
  unfold Ramdisk.ramdisk_init. cbn [Ramdisk.ramdisk_initialized]. rewrite take_replicate.
  assert (forall m, map (fun _ : Z => 0) (replicate m 170) = replicate m 0) as -> by (intros m; induction m as [|m IH]; cbn; by rewrite ?IH).
  done.
Qed.

Lemma disk_bytes_zero : disk_bytes = replicate 700 0.
Proof.
  unfold disk_bytes, Ramdisk.fresh_ramdisk. rewrite blank_disk. apply blank_file. rewrite Nat.min_id, Z2Nat.id; [reflexivity|].
  unfold Ramdisk.RAMDISK_SIZE. lia.
Qed.

Lemma disk_makeable : makeable (FileMakeLaws := disk_make_laws) 2 disk_room disk_state [47; 97].
Proof.
  exists 16, 8, 64, two_block_data, two_block_chains, [97].
  split_and!; [exact disk_mounted|done|exact disk_plain|cbn; lia|exact disk_supplies|vm_compute; reflexivity|exact ex_fd_free|].
  assert (unlink_target two_block_data [97] = Some 1%nat) as -> by (vm_compute; reflexivity).
  split; [reflexivity|]. split; [lia|]. intros j ([Hj Hu] & _). destruct (decide (j = 1%nat)) as [|Hne]; [done|].
  exfalso. apply Hu. unfold dirent_at. rewrite nth_lookup. cbn [dirents two_block_data].
  rewrite list_lookup_insert_ne, lookup_replicate_2 by done. done.
Qed.
End TinyfsFiles.


(** ** The desktop behind a window *)
Module Desk.
Import Console Keyboard.

Class DeskApi (G W : Type) := {
  screen : G -> console; set_screen : console -> G -> G;
  scancodes : G -> ring; set_scancodes : ring -> G -> G;
  files : G -> W; set_files : W -> G -> G;
  mouse_button_state : G -> Z;
  update_mouse : G -> G;
  get_cursor_x : G -> Z; get_cursor_y : G -> Z;
  redraw_desktop : G -> G }.
End Desk.
