(* ===== verification/TextEditor.v ===== *)
(** * The text editor of the desktop (src/kernel/GUI/text_editor.c)

    The buffer of lines with its cursor, the keys that edit it, loading and
    saving through the virtual file system, and the event loop with its window
    (dragging, the buttons, drawing). *)
From Stdlib Require Import ZArith Lia.
From stdpp Require Import base numbers list gmap.
From S2P Require Import Prelude CStr StrBuf VfsTypes Ata Console ConsoleProps Serial Keyboard Paint Desk.

Module TextEditor.
Import StrBuf Files Console Keyboard Paint Desk.
Local Open Scope Z_scope.
Local Open Scope outcome_scope.

Definition EDITOR_WIDTH : Z := 700.
Definition EDITOR_HEIGHT : Z := 500.
Definition EDITOR_TITLE_HEIGHT : Z := 30.
Definition EDITOR_TOOLBAR_HEIGHT : Z := 35.
Definition EDITOR_MAX_LINES : Z := 1000.
Definition EDITOR_MAX_LINE_LENGTH : Z := 256.

Record editor_buffer_t := mk_buf {
  lines : list (list Z); line_count : Z; cursor_line : Z; cursor_col : Z; scroll_offset : Z; filepath : list Z; modified : Z
}.

(** ** Editing *)
Definition set_text (b : editor_buffer_t) (l : list (list Z)) (n line col scroll : Z) : editor_buffer_t :=
  mk_buf l n line col scroll b.(filepath) 1.
Definition set_position (b : editor_buffer_t) (line col scroll : Z) : editor_buffer_t :=
  mk_buf b.(lines) b.(line_count) line col scroll b.(filepath) b.(modified).

Definition text_editor_insert_char (ch : Z) (b : editor_buffer_t) : outcome editor_buffer_t :=
  if EDITOR_MAX_LINES <=? b.(cursor_line) then Done b else
  let* row := aget b.(lines) b.(cursor_line) in
  let* len := STRLEN row in
  if EDITOR_MAX_LINE_LENGTH - 1 <=? len then Done b else
  let* row := open_gap (Z.to_nat (len - b.(cursor_col) + 1)) len row in
  let* row := aset row b.(cursor_col) ch in
  let* l := aset b.(lines) b.(cursor_line) row in
  Done (set_text b l b.(line_count) b.(cursor_line) (b.(cursor_col) + 1) b.(scroll_offset)).

(** [for (i = from; n times; i++) STRCPY(lines[i], lines[i + 1])] *)
Fixpoint rows_up (n : nat) (i : Z) (l : list (list Z)) : outcome (list (list Z)) :=
  match n with
  | O => Done l
  | S n =>
    let* dest := aget l i in let* src := aget l (i + 1) in
    let* row := STRCPY dest src in let* l := aset l i row in rows_up n (i + 1) l
  end.

(** [for (i = from; n times; i--) STRCPY(lines[i], lines[i - 1])] *)
Fixpoint rows_down (n : nat) (i : Z) (l : list (list Z)) : outcome (list (list Z)) :=
  match n with
  | O => Done l
  | S n =>
    let* dest := aget l i in let* src := aget l (i - 1) in
    let* row := STRCPY dest src in let* l := aset l i row in rows_down n (i - 1) l
  end.

Definition text_editor_backspace (b : editor_buffer_t) : outcome editor_buffer_t :=
  if 0 <? b.(cursor_col) then
    let* row := aget b.(lines) b.(cursor_line) in
    let* len := STRLEN row in
    let* row := close_gap (Z.to_nat (len - (b.(cursor_col) - 1))) (b.(cursor_col) - 1) row in
    let* l := aset b.(lines) b.(cursor_line) row in
    Done (set_text b l b.(line_count) b.(cursor_line) (b.(cursor_col) - 1) b.(scroll_offset))
  else if 0 <? b.(cursor_line) then
    let* prev := aget b.(lines) (b.(cursor_line) - 1) in
    let* prev_len := STRLEN prev in
    let* cur := aget b.(lines) b.(cursor_line) in
    let* curr_len := STRLEN cur in
    if prev_len + curr_len <? EDITOR_MAX_LINE_LENGTH - 1 then
      let* joined := STRCAT prev cur in
      let* l := aset b.(lines) (b.(cursor_line) - 1) joined in
      let* l := rows_up (Z.to_nat (b.(line_count) - 1 - b.(cursor_line))) b.(cursor_line) l in
      let* last := aget l (b.(line_count) - 1) in
      let* last := aset last 0 0 in
      let* l := aset l (b.(line_count) - 1) last in
      Done (set_text b l (b.(line_count) - 1) (b.(cursor_line) - 1) prev_len b.(scroll_offset))
    else Done b
  else Done b.

Definition visible_lines : Z := (EDITOR_HEIGHT - EDITOR_TITLE_HEIGHT - EDITOR_TOOLBAR_HEIGHT - 10) / 16.

(** [for (i = col; i <= len; i++) below[i - col] = row[i]] *)
Fixpoint copy_rest (n : nat) (i col : Z) (row below : list Z) : outcome (list Z) :=
  match n with
  | O => Done below
  | S n => let* x := aget row i in let* below := aset below (i - col) x in copy_rest n (i + 1) col row below
  end.

Definition text_editor_newline (b : editor_buffer_t) : outcome editor_buffer_t :=
  if EDITOR_MAX_LINES <=? b.(line_count) then Done b else
  let* l := rows_down (Z.to_nat (b.(line_count) - b.(cursor_line))) b.(line_count) b.(lines) in
  let* row := aget l b.(cursor_line) in
  let* len := STRLEN row in
  let* below := aget l (b.(cursor_line) + 1) in
  let* below := copy_rest (Z.to_nat (len - b.(cursor_col) + 1)) b.(cursor_col) b.(cursor_col) row below in
  let* l := aset l (b.(cursor_line) + 1) below in
  let* row := aset row b.(cursor_col) 0 in
  let* l := aset l b.(cursor_line) row in
  let line := b.(cursor_line) + 1 in
  Done (set_text b l (b.(line_count) + 1) line 0
          (if b.(scroll_offset) + visible_lines <=? line then b.(scroll_offset) + 1 else b.(scroll_offset))).

Definition scrolled_to (scroll line : Z) : Z :=
  if line <? scroll then line
  else if scroll + visible_lines <=? line then line - visible_lines + 1 else scroll.

Definition text_editor_move_cursor (dx dy : Z) (b : editor_buffer_t) : outcome editor_buffer_t :=
  let* b :=
    (if dy =? 0 then Done b else
     let new_line := b.(cursor_line) + dy in
     if (0 <=? new_line) && (new_line <? b.(line_count)) then
       let* row := aget b.(lines) new_line in
       let* line_len := STRLEN row in
       Done (set_position b new_line (if line_len <? b.(cursor_col) then line_len else b.(cursor_col))
               (scrolled_to b.(scroll_offset) new_line))
     else Done b) in
  if dx =? 0 then Done b else
  let new_col := b.(cursor_col) + dx in
  let* row := aget b.(lines) b.(cursor_line) in
  let* line_len := STRLEN row in
  if (0 <=? new_col) && (new_col <=? line_len) then Done (set_position b b.(cursor_line) new_col b.(scroll_offset)) else Done b.

(** The characters of [text_editor_handle_key]. *)
Definition editor_chars : list (Z * Z) :=
  [(2, 49); (3, 50); (4, 51); (5, 52); (6, 53); (7, 54); (8, 55); (9, 56);
   (10, 57); (11, 48); (12, 45); (13, 61); (16, 113); (17, 119); (18, 101); (19, 114);
   (20, 116); (21, 121); (22, 117); (23, 105); (24, 111); (25, 112); (30, 97); (31, 115);
   (32, 100); (33, 102); (34, 103); (35, 104); (36, 106); (37, 107); (38, 108); (39, 59);
   (40, 39); (44, 122); (45, 120); (46, 99); (47, 118); (48, 98); (49, 110); (50, 109);
   (51, 44); (52, 46); (53, 47); (57, 32); (26, 91); (27, 93); (43, 92)].

Definition text_editor_handle_key (scancode : Z) (b : editor_buffer_t) : outcome editor_buffer_t :=
  if scancode =? 0x1C then text_editor_newline b
  else if scancode =? 0x0E then text_editor_backspace b
  else if scancode =? 0x48 then text_editor_move_cursor 0 (-1) b
  else if scancode =? 0x50 then text_editor_move_cursor 0 1 b
  else if scancode =? 0x4B then text_editor_move_cursor (-1) 0 b
  else if scancode =? 0x4D then text_editor_move_cursor 1 0 b
  else let ch := Serial.lookup_code editor_chars scancode in
       if ch =? 0 then Done b else text_editor_insert_char ch b.

(** ** Files *)
Section Storage.
Context {W : Type} `{!FileApi W}.

(** The loop of [text_editor_save] from line [i] on. *)
Fixpoint save_lines (n : nat) (i fd : Z) (b : editor_buffer_t) (w : W) : outcome W :=
  match n with
  | O => Done w
  | S n =>
    let* row := aget b.(lines) i in
    let* len := STRLEN row in
    let* (_, w) := f_write fd row len w in
    let* w := (if i <? b.(line_count) - 1 then let* (_, w) := f_write fd [10] 1 w in Done w else Done w) in
    save_lines n (i + 1) fd b w
  end.

Definition text_editor_save (b : editor_buffer_t) (w : W) : outcome (editor_buffer_t * W) :=
  if get b.(filepath) 0 =? 0 then Done (b, w) else
  let* (fd, w) := f_open b.(filepath) FILE_WRITE w in
  if fd <? 0 then Done (b, w) else
  let* w := save_lines (Z.to_nat b.(line_count)) 0 fd b w in
  let* w := f_close fd w in
  Done (mk_buf b.(lines) b.(line_count) b.(cursor_line) b.(cursor_col) b.(scroll_offset) b.(filepath) 0, w).

(** The parsing loop of [text_editor_load]: rows, complete lines, position. *)
Fixpoint parse_lines (s : list Z) (l : list (list Z)) (n pos : Z) : outcome (list (list Z) * Z * Z) :=
  match s with
  | [] => Done (l, n, pos)
  | c :: s =>
    if n <? EDITOR_MAX_LINES then
      if c =? 10 then
        let* row := aget l n in let* row := aset row pos 0 in let* l := aset l n row in
        parse_lines s l (n + 1) 0
      else if pos <? EDITOR_MAX_LINE_LENGTH - 1 then
        let* row := aget l n in let* row := aset row pos c in let* l := aset l n row in
        parse_lines s l n (pos + 1)
      else parse_lines s l n pos
    else Done (l, n, pos)
  end.

(** The lines of the bytes read. *)
Definition set_lines (s : list Z) (b : editor_buffer_t) : outcome editor_buffer_t :=
  let* (l, n, pos) := parse_lines s b.(lines) 0 0 in
  let* (l, n) :=
    (if (0 <? pos) || (n =? 0) then
       let* row := aget l n in let* row := aset row pos 0 in let* l := aset l n row in Done (l, n + 1)
     else Done (l, n)) in
  Done (mk_buf l n b.(cursor_line) b.(cursor_col) b.(scroll_offset) b.(filepath) 0).

Definition text_editor_load (path : list Z) (b : editor_buffer_t) (w : W) : outcome (editor_buffer_t * W) :=
  let* (fd, w) := f_open path FILE_READ w in
  if fd <? 0 then Done (b, w) else
  let* (bytes_read, buffer, w) := f_read fd (replicate 4096 0) 4095 w in
  let bytes_read := u32 bytes_read in
  let* buffer := aset buffer bytes_read 0 in
  let* w := f_close fd w in
  let* b := set_lines (take (Z.to_nat bytes_read) buffer) b in
  Done (b, w).
End Storage.

(** ** The window *)
Record text_editor_t := mk_editor {
  x : Z; y : Z; width : Z; height : Z; visible : Z; buffer : editor_buffer_t;
  dragging : Z; drag_offset_x : Z; drag_offset_y : Z; last_mx : Z; last_my : Z; saved : under
}.
Definition set_buffer (b : editor_buffer_t) (e : text_editor_t) : text_editor_t :=
  mk_editor e.(x) e.(y) e.(width) e.(height) e.(visible) b e.(dragging) e.(drag_offset_x) e.(drag_offset_y)
    e.(last_mx) e.(last_my) e.(saved).
Definition set_place (x y : Z) (e : text_editor_t) : text_editor_t :=
  mk_editor x y e.(width) e.(height) e.(visible) e.(buffer) e.(dragging) e.(drag_offset_x) e.(drag_offset_y)
    e.(last_mx) e.(last_my) e.(saved).
Definition set_dragging (d dx dy : Z) (e : text_editor_t) : text_editor_t :=
  mk_editor e.(x) e.(y) e.(width) e.(height) e.(visible) e.(buffer) d dx dy e.(last_mx) e.(last_my) e.(saved).
Definition set_saved (u : under) (e : text_editor_t) : text_editor_t :=
  mk_editor e.(x) e.(y) e.(width) e.(height) e.(visible) e.(buffer) e.(dragging) e.(drag_offset_x) e.(drag_offset_y)
    e.(last_mx) e.(last_my) u.
Definition set_last (mx my : Z) (e : text_editor_t) : text_editor_t :=
  mk_editor e.(x) e.(y) e.(width) e.(height) e.(visible) e.(buffer) e.(dragging) e.(drag_offset_x) e.(drag_offset_y)
    mx my e.(saved).

Definition editor_save_cursor_area (px py : Z) (c : console) (e : text_editor_t) : text_editor_t :=
  set_saved (save_cursor_area px py c e.(saved)) e.
Definition editor_restore_cursor_area (e : text_editor_t) (c : console) : text_editor_t * console :=
  let '(u, c) := restore_cursor_area e.(saved) c in (set_saved u e, c).

(** The terminator in front of every row, then the file. [None] is NULL. *)
Definition clear_rows (l : list (list Z)) : list (list Z) := (fun r => <[0%nat := 0]> r) <$> l.

Definition text_editor_init {W : Type} `{!FileApi W} (fb_width fb_height : Z) (path : option (list Z)) (e : text_editor_t) (w : W)
  : outcome (text_editor_t * W) :=
  let b := mk_buf (clear_rows e.(buffer).(lines)) 1 0 0 0 e.(buffer).(filepath) 0 in
  let e := mk_editor (s32 (u32 (fb_width - EDITOR_WIDTH) / 2)) (s32 (u32 (fb_height - EDITOR_HEIGHT) / 2)) EDITOR_WIDTH EDITOR_HEIGHT 1 b
             0 e.(drag_offset_x) e.(drag_offset_y) (-1) (-1)
             (mk_under e.(saved).(saved_pixels) 0 e.(saved).(saved_cx) e.(saved).(saved_cy)) in
  match path with
  | Some p =>
    let* fp := STRCPY b.(filepath) (p ++ [0]) in
    let b := mk_buf b.(lines) 1 0 0 0 fp 0 in
    let* (b, w) := text_editor_load p b w in Done (set_buffer b e, w)
  | None =>
    let* fp := aset b.(filepath) 0 0 in
    Done (set_buffer (mk_buf b.(lines) 1 0 0 0 fp 0) e, w)
  end.

(** ** Drawing *)

(** The digits of a line number, last digit first; an int has at most ten. *)
Fixpoint digits (n : nat) (num : Z) : list Z :=
  match n with
  | O => []
  | S n => if 0 <? num then (48 + num mod 10) :: digits n (num / 10) else []
  end.
Definition line_num (num : Z) : list Z := if num =? 0 then [48] else reverse (digits 10 num).

Definition EDITOR_VISIBLE_COLS : nat := 80.
Definition s_title : list Z := [65; 77; 81; 32; 69; 100; 105; 116; 111; 114].
Definition s_save : list Z := [83; 97; 118; 101].

(** The text cursor, two pixels wide. *)
Definition draw_caret (px py : Z) (c : console) : console :=
  for_range 0 16 (fun cy c => plot (px + 1) (py + Z.of_nat cy) 0xFFFFFF (plot px (py + Z.of_nat cy) 0xFFFFFF c)) c.

(** One line of the text area: its number, its text, the caret. *)
Definition draw_line (e : text_editor_t) (i : Z) (c : console) : outcome console :=
  let b := e.(buffer) in
  let line_idx := b.(scroll_offset) + i in
  let line_y := e.(y) + EDITOR_TITLE_HEIGHT + EDITOR_TOOLBAR_HEIGHT + 5 + i * 16 in
  let num := line_num (line_idx + 1) in
  let c := letters (e.(x) + 50 - (Z.of_nat (length num) + 1) * 8) line_y 8 num 0x858585 0x1E1E1E c in
  let text_x := e.(x) + 50 + 5 in
  let* row := aget b.(lines) line_idx in
  let c := letters text_x line_y 8 (take EDITOR_VISIBLE_COLS (cstr row)) 0xD4D4D4 0x1E1E1E c in
  Done (if line_idx =? b.(cursor_line) then draw_caret (text_x + b.(cursor_col) * 8) line_y c else c).

(** [for (i = 0; i < visible_lines && scroll_offset + i < line_count; i++)] *)
Fixpoint draw_lines (n : nat) (i : Z) (e : text_editor_t) (c : console) : outcome console :=
  match n with
  | O => Done c
  | S n => if e.(buffer).(scroll_offset) + i <? e.(buffer).(line_count)
           then let* c := draw_line e i c in draw_lines n (i + 1) e c else Done c
  end.

(** The title bar with the button, its cross, the name of the file and the mark. *)
Definition draw_title (e : text_editor_t) (c : console) : console :=
  let title_bg := 0x2D2D30 in
  let c := fill_rect e.(x) e.(y) e.(width) EDITOR_TITLE_HEIGHT title_bg c in
  let close_btn_x := e.(x) + e.(width) - 20 - 5 in
  let close_btn_y := e.(y) + 5 in
  let c := fill_rect close_btn_x close_btn_y 20 20 0xDC2626 c in
  let c := for_range 0 12 (fun i c =>
    let k := Z.of_nat i in
    let c := plot (close_btn_x + 4 + k) (close_btn_y + 4 + k) 0xFFFFFF c in
    let c := plot (close_btn_x + 5 + k) (close_btn_y + 4 + k) 0xFFFFFF c in
    let c := plot (close_btn_x + 15 - k) (close_btn_y + 4 + k) 0xFFFFFF c in
    plot (close_btn_x + 14 - k) (close_btn_y + 4 + k) 0xFFFFFF c) c in
  let title_y := e.(y) + 10 in
  let c := letters (e.(x) + 10) title_y 8 s_title 0xFFFFFF title_bg c in
  let c := (if get e.(buffer).(filepath) 0 =? 0 then c else
            let c := draw_char (u32 (e.(x) + 120)) (u32 title_y) 45 0xAAAAAA title_bg c in
            letters (e.(x) + 120 + 16) title_y 8 (take 40 (cstr e.(buffer).(filepath))) 0xAAAAAA title_bg c) in
  if c_true e.(buffer).(modified) then draw_char (u32 (e.(x) + e.(width) - 35)) (u32 title_y) 42 0xFF6B6B title_bg c else c.

Definition draw_toolbar (e : text_editor_t) (c : console) : console :=
  let toolbar_y := e.(y) + EDITOR_TITLE_HEIGHT in
  let c := fill_rect e.(x) toolbar_y e.(width) EDITOR_TOOLBAR_HEIGHT 0x252526 c in
  let c := fill_rect (e.(x) + 10) (toolbar_y + 5) 60 25 0x0E639C c in
  letters (e.(x) + 10 + 18) (toolbar_y + 5 + 8) 8 s_save 0xFFFFFF 0x0E639C c.

Definition text_editor_draw (e : text_editor_t) (c : console) : outcome console :=
  if e.(visible) =? 0 then Done c else
  let c := fill_rect e.(x) e.(y) e.(width) e.(height) 0x1E1E1E c in
  let c := draw_title e c in
  let c := draw_toolbar e c in
  let text_area_y := e.(y) + EDITOR_TITLE_HEIGHT + EDITOR_TOOLBAR_HEIGHT in
  let text_area_height := e.(height) - EDITOR_TITLE_HEIGHT - EDITOR_TOOLBAR_HEIGHT in
  let c := fill_rect e.(x) text_area_y 50 text_area_height 0x1E1E1E c in
  let c := for_range 0 (Z.to_nat text_area_height) (fun dy => plot (e.(x) + 50) (text_area_y + Z.of_nat dy) 0x3E3E42) c in
  let* c := draw_lines (Z.to_nat ((text_area_height - 10) / 16)) 0 e c in
  Done (frame e.(x) e.(y) e.(width) e.(height) 0x3E3E42 c).

(** ** The event loop *)
Section Run.
Context {G W : Type} `{!DeskApi G W, !FileApi W}.

Record run_state := mk_run { editor : text_editor_t; running : bool; last_mouse_button : Z; needs_redraw : bool; was_extended : bool }.
Definition set_editor (e : text_editor_t) (s : run_state) : run_state :=
  mk_run e s.(running) s.(last_mouse_button) s.(needs_redraw) s.(was_extended).
Definition set_running (r : bool) (s : run_state) : run_state :=
  mk_run s.(editor) r s.(last_mouse_button) s.(needs_redraw) s.(was_extended).
Definition set_redraw (r : bool) (s : run_state) : run_state :=
  mk_run s.(editor) s.(running) s.(last_mouse_button) r s.(was_extended).
Definition set_extended (r : bool) (s : run_state) : run_state :=
  mk_run s.(editor) s.(running) s.(last_mouse_button) s.(needs_redraw) r.

(** A dragged window stays on the screen. *)
Definition drag_to (mx my fb_width fb_height : Z) (e : text_editor_t) : Z * Z :=
  let new_x := mx - e.(drag_offset_x) in
  let new_y := my - e.(drag_offset_y) in
  let new_x := if new_x <? 0 then 0 else new_x in
  let new_y := if new_y <? 0 then 0 else new_y in
  (if fb_width <? u32 (new_x + e.(width)) then s32 (fb_width - e.(width)) else new_x,
   if fb_height <? u32 (new_y + e.(height)) then s32 (fb_height - e.(height)) else new_y).

Definition handle_drag (mx my button : Z) (c : console) (s : run_state) : run_state :=
  let e := s.(editor) in
  if e.(dragging) =? 0 then s
  else if button =? 0 then set_editor (set_dragging 0 e.(drag_offset_x) e.(drag_offset_y) e) s
  else let '(nx, ny) := drag_to mx my c.(Console.fb).(Console.width) c.(Console.fb).(Console.height) e in
       if (nx =? e.(x)) && (ny =? e.(y)) then s else set_redraw true (set_editor (set_place nx ny e) s).

(** One scancode; [running] is false after Escape. *)
Definition run_key (scancode : Z) (s : run_state) : outcome run_state :=
  if scancode =? 0xE0 then Done (set_extended true s)
  else if c_true (Z.land scancode 0x80) then Done (set_extended false s)
  else if Z.land scancode 0x7F =? 1 then Done (set_running false s)
  else
    let key := if s.(was_extended) then Z.land scancode 0x7F else scancode in
    let* b := text_editor_handle_key key s.(editor).(buffer) in
    Done (set_redraw true (set_extended false (set_editor (set_buffer b s.(editor)) s))).

(** The keyboard loop, which Escape leaves. *)
Fixpoint run_keys (fuel : nat) (r : ring) (s : run_state) : outcome (ring * run_state) :=
  match fuel with
  | O => OutOfFuel
  | S fuel =>
    if ring_empty r then Done (r, s) else
    let '(scancode, r) := ring_get r in
    let* s := run_key scancode s in
    if s.(running) then run_keys fuel r s else Done (r, s)
  end.

(** Redrawing, with the arrow taken away and put back. *)
Definition run_redraw (mx my : Z) (g : G) (s : run_state) : outcome (G * run_state) :=
  if s.(needs_redraw) || negb (mx =? s.(editor).(last_mx)) || negb (my =? s.(editor).(last_my)) then
    let '(e, c) := editor_restore_cursor_area s.(editor) (screen g) in
    let g := set_screen c g in
    let* g := (if s.(needs_redraw) then
                 let g := redraw_desktop g in
                 let* c := text_editor_draw e (screen g) in Done (set_screen c g)
               else Done g) in
    let e := editor_save_cursor_area mx my (screen g) e in
    let g := set_screen (draw_cursor mx my (screen g)) g in
    Done (g, set_redraw false (set_editor (set_last mx my e) s))
  else Done (g, s).

Definition hits (mx my bx by' w h : Z) : bool := (bx <=? mx) && (mx <? bx + w) && (by' <=? my) && (my <? by' + h).

(** A click: the close button, the title bar, the save button. *)
Definition run_click (mx my button : Z) (g : G) (s : run_state) : outcome (G * run_state) :=
  let e := s.(editor) in
  if c_true button && (s.(last_mouse_button) =? 0) then
    if hits mx my (e.(x) + e.(width) - 20 - 5) (e.(y) + 5) 20 20 then Done (g, set_running false s)
    else if hits mx my e.(x) e.(y) e.(width) EDITOR_TITLE_HEIGHT
    then Done (g, set_editor (set_dragging 1 (mx - e.(x)) (my - e.(y)) e) s)
    else if hits mx my (e.(x) + 10) (e.(y) + EDITOR_TITLE_HEIGHT + 5) 60 25
    then let* (b, w) := text_editor_save e.(buffer) (files g) in
         Done (set_files w g, set_redraw true (set_editor (set_buffer b e) s))
    else Done (g, s)
  else Done (g, s).

(** One round of the loop; 256 rounds empty the ring. *)
Definition run_round (g : G) (s : run_state) : outcome (G * run_state) :=
  let g := update_mouse g in
  let mx := get_cursor_x g in
  let my := get_cursor_y g in
  let button := Z.land (mouse_button_state g) 1 in
  let s := handle_drag mx my button (screen g) s in
  let* (r, s) := run_keys 257 (scancodes g) s in
  let g := set_scancodes r g in
  let* (g, s) := run_redraw mx my g s in
  let* (g, s) := run_click mx my button g s in
  Done (g, mk_run s.(editor) s.(running) button s.(needs_redraw) s.(was_extended)).

Fixpoint run_rounds (fuel : nat) (g : G) (s : run_state) : outcome (G * run_state) :=
  if s.(running) then
    match fuel with
    | O => OutOfFuel
    | S fuel => let* (g, s) := run_round g s in run_rounds fuel g s
    end
  else Done (g, s).

Definition text_editor_run (fuel : nat) (e : text_editor_t) (g : G) : outcome (G * text_editor_t) :=
  let* (g, s) := run_rounds fuel g (mk_run e true 0 true false) in Done (g, s.(editor)).
End Run.
End TextEditor.
