(* ===== verification/EditorDoc.v ===== *)
(** * A document in a buffer of rows

    Both editors keep their text in an array of rows of fixed size with a
    cursor. A buffer shows an abstract document, a list of lines with a
    cursor; the lemmas here say how changes of rows change the document, for
    any number [N] and size [M] of the rows. *)
From Stdlib Require Import ZArith Lia.
From stdpp Require Import base numbers list gmap.
From S2P Require Import Prelude CStr StrBuf Desk TextEditor.

Module EditorDoc.
Import StrBuf TextEditor.
Local Open Scope Z_scope.
Local Open Scope outcome_scope.

(** ** The document

    The lines above the cursor, its line on both sides of it, the lines below. *)
Record doc := mk_doc { above : list (list Z); left : list Z; right : list Z; below : list (list Z) }.

Definition before (d : doc) : list Z := concat ((fun s => s ++ [10]) <$> above d) ++ left d.
Definition after (d : doc) : list Z := right d ++ concat ((fun s => 10 :: s) <$> below d).
Definition doc_lines (d : doc) : list (list Z) := above d ++ (left d ++ right d) :: below d.

Definition cut (k : nat) (s : list Z) (ab be : list (list Z)) : doc := mk_doc ab (take k s) (drop k s) be.

Lemma length_doc_lines d : length (doc_lines d) = (length (above d) + 1 + length (below d))%nat.
Proof. unfold doc_lines. rewrite length_app. cbn. lia. Qed.

Lemma length_snoc_Z {A} (a : list A) x : Z.of_nat (length (a ++ [x])) = Z.of_nat (length a) + 1.
Proof. rewrite length_app. cbn. lia. Qed.

(** As a text, a key changes at most one character, at the cursor. *)
Definition one_edit (d d' : doc) : Prop :=
  before d' ++ after d' = before d ++ after d \/
  (exists c, before d' = before d ++ [c] /\ after d' = after d) \/
  (exists c, before d = before d' ++ [c] /\ after d' = after d).

(** Takes apart that a buffer shows a document. *)
Ltac open_doc H := destruct H as [(spare & Hrows) Hsize Hcount Hline Hcol]; rewrite length_doc_lines in Hcount;
  cbn [above left right below length app] in *.

(** ** Rows of a buffer *)
Section Buffer.
Context {N M : nat}.
Abbreviation rows := (Forall2 (holds M)).

Lemma rows_aget l ss a s t : rows l ss -> ss = a ++ s :: t ->
  exists r, aget l (Z.of_nat (length a)) = Done r /\ holds M r s.
Proof.
  intros H ->. destruct (Forall2_lookup_r _ _ _ (length a) s H) as (r & Hr & Hh); [by apply list_lookup_middle|].
  exists r. split; [|done]. apply aget_lookup; [lia|]. by rewrite Nat2Z.id.
Qed.

Lemma rows_aset l a s t r s' : rows l (a ++ s :: t) -> holds M r s' ->
  exists l', aset l (Z.of_nat (length a)) r = Done l' /\ rows l' (a ++ s' :: t).
Proof.
  intros H Hr. pose proof (Forall2_length _ _ _ H) as Hl. rewrite length_app in Hl. cbn in Hl.
  eexists. split; [apply aset_done; lia|]. rewrite Nat2Z.id.
  replace (a ++ s' :: t) with (<[length a := s']> (a ++ s :: t)); [by apply Forall2_insert|].
  rewrite insert_app_r_alt, Nat.sub_diag by lia. done.
Qed.

Lemma rows_up_spec u : forall a x t l, rows l (a ++ x :: u ++ t) ->
  exists l', rows_up (length u) (Z.of_nat (length a)) l = Done l' /\ rows l' (a ++ u ++ default x (last u) :: t).
Proof.
  induction u as [|y u IH]; intros a x t l H; [by exists l|]. cbn [rows_up length app].
  destruct (rows_aget l _ a x (y :: u ++ t) H eq_refl) as (rx & -> & Hx). cbn [obind].
  destruct (rows_aget l _ (a ++ [x]) y (u ++ t) H) as (ry & Ey & Hy); [by rewrite <- app_assoc|].
  rewrite length_snoc_Z in Ey. rewrite Ey. cbn [obind].
  destruct (strcpy_holds M M rx ry x y Hx Hy) as (r & -> & Hr); [by apply holds_short in Hy|]. cbn [obind].
  destruct (rows_aset _ _ _ _ r y H Hr) as (l1 & -> & H1). cbn [obind].
  replace (a ++ y :: (y :: u) ++ t) with ((a ++ [y]) ++ y :: u ++ t) in H1 by (by rewrite <- app_assoc).
  destruct (IH _ _ _ _ H1) as (l' & E & H'). rewrite length_snoc_Z in E. exists l'. split; [exact E|].
  rewrite <- app_assoc in H'. cbn [app] in H'. rewrite last_cons. by destruct (last u).
Qed.

Lemma rows_down_spec u : forall a x t l, (0 < length u)%nat -> rows l (a ++ u ++ x :: t) ->
  exists l', rows_down (length u) (Z.of_nat (length a + length u)) l = Done l' /\ rows l' (a ++ take 1 u ++ u ++ t).
Proof.
  induction u as [|y u IH] using rev_ind; intros a x t l Hu H; [cbn in Hu; lia|].
  replace (a ++ (u ++ [y]) ++ x :: t) with (((a ++ u) ++ [y]) ++ x :: t) in H by (by rewrite <- !app_assoc).
  rewrite length_app, Nat.add_1_r. cbn [rows_down].
  destruct (rows_aget l _ _ x t H eq_refl) as (rx & Ex & Hx).
  destruct (rows_aget l _ (a ++ u) y (x :: t) H) as (ry & Ey & Hy); [by rewrite <- !app_assoc|].
  rewrite length_snoc_Z, length_app, Nat2Z.inj_add in Ex. rewrite length_app, Nat2Z.inj_add in Ey.
  replace (Z.of_nat (length a + S (length u))) with (Z.of_nat (length a) + Z.of_nat (length u) + 1) by lia.
  rewrite Ex. cbn [obind]. rewrite Z.add_simpl_r, Ey. cbn [obind].
  destruct (strcpy_holds M M rx ry x y Hx Hy) as (r & -> & Hr); [by apply holds_short in Hy|]. cbn [obind].
  destruct (rows_aset _ _ _ _ r y H Hr) as (l1 & E1 & H1).
  rewrite length_snoc_Z, length_app, Nat2Z.inj_add in E1. rewrite E1. cbn [obind].
  destruct u as [|z u].
  - exists l1. split; [done|]. cbn in H1 |- *. by rewrite app_nil_r, <- app_assoc in H1.
  - destruct (IH a y (y :: t) l1) as (l' & E & H'); [cbn; lia| |].
    { rewrite <- !app_assoc in H1. exact H1. }
    exists l'. rewrite <- Nat2Z.inj_add, E. split; [done|]. cbn [take app] in H' |- *. by rewrite <- !app_assoc.
Qed.

(** ** Within a row *)
Lemma insert_holds r s ch k : holds M r s -> (k <= length s)%nat -> (length s + 1 < M)%nat -> ch <> 0 ->
  exists r1 r2, open_gap (Z.to_nat (Z.of_nat (length s) - Z.of_nat k + 1)) (Z.of_nat (length s)) r = Done r1 /\
    aset r1 (Z.of_nat k) ch = Done r2 /\ holds M r2 (take k s ++ ch :: drop k s).
Proof.
  intros (Hl & Ht & rest & ->) Hk Hs Hch. rewrite length_app in Hl. cbn in Hl. destruct rest as [|z rest]; [cbn in Hl; lia|].
  pose proof (open_gap_spec (drop k s ++ [0]) (take k s) z rest) as G.
  rewrite !length_app, length_take, length_drop, Nat.min_l in G by lia. cbn [length] in G.
  replace (take k s ++ (drop k s ++ [0]) ++ z :: rest) with (s ++ 0 :: z :: rest) in G
    by (rewrite <- app_assoc, app_assoc, take_drop; done).
  replace (Z.to_nat _) with (length s - k + 1)%nat by lia.
  replace (Z.of_nat (length s)) with (Z.of_nat (k + (length s - k + 1)) - 1) by lia.
  eexists _, (take k s ++ ch :: (drop k s ++ [0]) ++ rest). split; [apply G; lia|].
  assert (exists x0 t0, drop k s ++ [0] = x0 :: t0) as (x0 & t0 & E0) by (destruct (drop k s); cbn; eauto).
  rewrite E0. cbn [take app]. split; [|split; [|split]].
  - pose proof (aset_mid (take k s) x0 (x0 :: t0 ++ rest) ch) as A. rewrite length_take, Nat.min_l in A by lia. exact A.
  - change (x0 :: t0 ++ rest) with ((x0 :: t0) ++ rest). rewrite <- E0. repeat (rewrite ?length_app, ?length_take, ?length_drop; cbn [length]).
    cbn [length] in Hl. lia.
  - apply Forall_app. split; [by apply Forall_take|]. constructor; [done|by apply Forall_drop].
  - exists rest. change (x0 :: t0 ++ rest) with ((x0 :: t0) ++ rest). rewrite <- E0. by rewrite <- !app_assoc.
Qed.

Lemma delete_holds r s k : holds M r s -> (0 < k <= length s)%nat ->
  exists r', close_gap (Z.to_nat (Z.of_nat (length s) - (Z.of_nat k - 1))) (Z.of_nat k - 1) r = Done r' /\
    holds M r' (take (k - 1) s ++ drop k s).
Proof.
  intros (Hl & Ht & rest & ->) Hk. destruct (lookup_lt_is_Some_2 s (k - 1)) as [x Hx]; [lia|].
  pose proof (close_gap_spec (drop k s ++ [0]) (take (k - 1) s) x rest) as G.
  rewrite length_app, length_take, length_drop, Nat.min_l in G by lia. cbn [length] in G.
  replace (take (k - 1) s ++ x :: (drop k s ++ [0]) ++ rest) with (s ++ 0 :: rest) in G.
  2: { rewrite <- (take_drop_middle s (k - 1) x Hx) at 1. replace (S (k - 1)) with k by lia. by rewrite <- !app_assoc. }
  replace (Z.to_nat _) with (length s - k + 1)%nat by lia. replace (Z.of_nat k - 1) with (Z.of_nat (k - 1)) by lia.
  eexists. split; [exact G|]. rewrite last_snoc. cbn [default]. split; [|split].
  - rewrite length_app in Hl. repeat (rewrite ?length_app, ?length_take, ?length_drop; cbn [length]). cbn [length] in Hl. lia.
  - apply Forall_app. split; [by apply Forall_take|by apply Forall_drop].
  - exists (0 :: rest). by rewrite <- !app_assoc.
Qed.

Lemma copy_rest_spec row u : forall (a b c : list Z), (length u <= length c)%nat ->
  (forall i, (i < length u)%nat -> row !! (length a + i)%nat = u !! i) ->
  copy_rest (length u) (Z.of_nat (length a)) (Z.of_nat (length a) - Z.of_nat (length b)) row (b ++ c) =
  Done (b ++ u ++ drop (length u) c).
Proof.
  induction u as [|x u IH]; intros a b c Hl Hr; [done|]. cbn [copy_rest length] in *. destruct c as [|y c]; [cbn in Hl; lia|].
  rewrite (aget_lookup row _ x); [|lia|]. 2: { specialize (Hr 0%nat). rewrite Nat.add_0_r in Hr. rewrite Nat2Z.id. apply Hr. lia. }
  cbn [obind]. replace (Z.of_nat (length a) - (Z.of_nat (length a) - Z.of_nat (length b))) with (Z.of_nat (length b)) by lia.
  rewrite aset_mid. cbn [obind]. specialize (IH (a ++ [x]) (b ++ [x]) c). rewrite !length_snoc_Z in IH. cbn in Hl.
  replace (Z.of_nat (length a) + 1 - (Z.of_nat (length b) + 1)) with (Z.of_nat (length a) - Z.of_nat (length b)) in IH by lia.
  rewrite <- !app_assoc in IH. cbn [app] in IH. apply IH; [lia|]. intros i Hi. rewrite length_app. cbn [length].
  replace (length a + 1 + i)%nat with (length a + S i)%nat by lia. apply (Hr (S i)). lia.
Qed.

Lemma split_holds row below s s' k : holds M row s -> holds M below s' -> (k <= length s)%nat ->
  exists b, copy_rest (Z.to_nat (Z.of_nat (length s) - Z.of_nat k + 1)) (Z.of_nat k) (Z.of_nat k) row below = Done b /\
    holds M b (drop k s).
Proof.
  intros Hrow (Hl & _) Hk. pose proof (holds_short _ _ _ Hrow). destruct Hrow as (Hl' & Ht & rest & ->).
  pose proof (copy_rest_spec (s ++ 0 :: rest) (drop k s ++ [0]) (take k s) [] below) as C.
  rewrite length_app, length_take, length_drop, Nat.min_l in C by lia. cbn [length app] in C.
  replace (Z.of_nat k - Z.of_nat 0) with (Z.of_nat k) in C by lia.
  replace (Z.to_nat _) with (length s - k + 1)%nat by lia. eexists. split; [apply C; [lia|]|].
  - intros i Hi. rewrite <- (take_drop k s) at 1. rewrite <- app_assoc, lookup_app_r by (rewrite length_take; lia).
    rewrite length_take, Nat.min_l by lia. replace (k + i - k)%nat with i by lia.
    change (0 :: rest) with ([0] ++ rest). rewrite app_assoc, lookup_app_l; [done|]. rewrite length_app, length_drop. cbn. lia.
  - split; [|split].
    + repeat (rewrite ?length_app, ?length_drop; cbn [length]). lia.
    + by apply Forall_drop.
    + eexists. by rewrite <- app_assoc.
Qed.

(** Lines that are not in use hold some string, too. *)
Record shows_in (b : editor_buffer_t) (d : doc) : Prop := {
  sh_rows : exists spare, rows b.(lines) (above d ++ (left d ++ right d) :: below d ++ spare);
  sh_size : length b.(lines) = N;
  sh_count : b.(line_count) = Z.of_nat (length (doc_lines d));
  sh_line : b.(cursor_line) = Z.of_nat (length (above d));
  sh_col : b.(cursor_col) = Z.of_nat (length (left d)) }.

Lemma shows_bound b d : shows_in b d -> (length (doc_lines d) <= N)%nat.
Proof.
  intros [(spare & H) Hs _ _ _]. apply Forall2_length in H. rewrite length_doc_lines.
  rewrite Hs, length_app in H. cbn in H. rewrite length_app in H. lia.
Qed.

(** The row of the cursor. *)
Lemma cursor_row b d : shows_in b d -> exists r, aget b.(lines) b.(cursor_line) = Done r /\ holds M r (left d ++ right d).
Proof. intros [(spare & H) _ _ -> _]. by eapply rows_aget. Qed.

(** Replacing it. *)
Lemma cursor_row_set b d r l' r' : shows_in b d -> holds M r (l' ++ r') ->
  exists ls, aset b.(lines) b.(cursor_line) r = Done ls /\ forall col s, col = Z.of_nat (length l') ->
    shows_in (set_text b ls b.(line_count) b.(cursor_line) col s) (mk_doc (above d) l' r' (below d)).
Proof.
  intros H Hr. open_doc H. rewrite Hline. destruct (rows_aset _ _ _ _ r (l' ++ r') Hrows Hr) as (ls & -> & Hls).
  exists ls. split; [done|]. intros col s ->. split; cbn [lines line_count cursor_line cursor_col set_text above left right below]; rewrite ?length_doc_lines; cbn [above below]; [by exists spare| |lia..].
  apply Forall2_length in Hls, Hrows. rewrite !length_app in Hls, Hrows. cbn in *. lia.
Qed.

(** A buffer whose rows are the lines of a document and spare ones. *)
Lemma shows_intro b d spare ls n line col s : length b.(lines) = N ->
  rows b.(lines) (above d ++ (left d ++ right d) :: below d ++ spare) -> forall d' spare',
  rows ls (above d' ++ (left d' ++ right d') :: below d' ++ spare') ->
  length (above d' ++ (left d' ++ right d') :: below d' ++ spare') = length (above d ++ (left d ++ right d) :: below d ++ spare) ->
  n = Z.of_nat (length (doc_lines d')) -> line = Z.of_nat (length (above d')) -> col = Z.of_nat (length (left d')) ->
  shows_in (set_text b ls n line col s) d'.
Proof.
  intros Hs H d' spare' H' Hl -> -> ->. split; cbn [lines line_count cursor_line cursor_col set_text]; try done.
  - by exists spare'.
  - apply Forall2_length in H, H'. congruence.
Qed.

(** The last line in use becomes empty. *)
Lemma clear_row l ss a s t : rows l ss -> ss = a ++ s :: t ->
  exists row row' l', aget l (Z.of_nat (length a)) = Done row /\ aset row 0 0 = Done row' /\
    aset l (Z.of_nat (length a)) row' = Done l' /\ rows l' (a ++ [] :: t).
Proof.
  intros H ->. destruct (rows_aget _ _ _ _ _ H eq_refl) as (row & E & Hrow). pose proof (holds_short _ _ _ Hrow). pose proof Hrow as (Hl & _).
  assert (holds M (<[0%nat := 0]> row) []) as Hrow' by (apply empty_holds; [done|lia]).
  destruct (rows_aset _ _ _ _ _ _ H Hrow') as (l' & E' & H'). exists row, (<[0%nat := 0]> row), l'. split; [done|].
  split; [apply (aset_done row 0 0); lia|done].
Qed.

(** ** Moving the cursor *)
Lemma shows_position b a l r be d' s : shows_in b (mk_doc a l r be) -> forall line col,
  (forall spare, a ++ (l ++ r) :: be ++ spare = above d' ++ (left d' ++ right d') :: below d' ++ spare) ->
  line = Z.of_nat (length (above d')) -> col = Z.of_nat (length (left d')) -> shows_in (set_position b line col s) d'.
Proof.
  intros [(spare & Hr) Hs Hc _ _] line col He -> ->. cbn [above left right below] in *.
  split; cbn [lines line_count cursor_line cursor_col set_position]; try done.
  - exists spare. by rewrite <- He.
  - rewrite Hc. specialize (He []). rewrite !app_nil_r in He. unfold doc_lines. cbn [above left right below]. by rewrite He.
Qed.

End Buffer.
Arguments shows_in N M : clear implicits.
End EditorDoc.
