(* ===== verification/EditorProps.v ===== *)
(** * The editor edits a text with a cursor

    The buffer of fixed rows shows an abstract document, a list of lines with a
    cursor. Every key refines an operation of the document; as a text, Enter and
    the letters insert at the cursor and backspace removes the character before
    it, the ends of lines included. Saving and loading round-trip. *)
From Stdlib Require Import ZArith Lia.
From stdpp Require Import base numbers list gmap.
From S2P Require Import Prelude CStr StrBuf VfsTypes Ata Console Serial Keyboard Paint Desk TextEditor EditorDoc.

Module EditorProps.
Import StrBuf Files Serial Desk TextEditor EditorDoc.
Local Open Scope Z_scope.
Local Open Scope outcome_scope.

Abbreviation rows := (Forall2 (holds 256)).
Abbreviation shows := (shows_in 1000 256).

(** What the keys do. *)
Inductive key_effect : Z -> doc -> doc -> Prop :=
  | key_char k ch d : lookup_code editor_chars k = ch -> ch <> 0 -> (length (left d ++ right d) < 255)%nat ->
      key_effect k d (mk_doc (above d) (left d ++ [ch]) (right d) (below d))
  | key_line_full k ch d : lookup_code editor_chars k = ch -> ch <> 0 -> (255 <= length (left d ++ right d))%nat -> key_effect k d d
  | key_enter d : (length (doc_lines d) < 1000)%nat -> key_effect 0x1C d (mk_doc (above d ++ [left d]) [] (right d) (below d))
  | key_enter_full d : (1000 <= length (doc_lines d))%nat -> key_effect 0x1C d d
  | key_delete a l c r b : key_effect 0x0E (mk_doc a (l ++ [c]) r b) (mk_doc a l r b)
  | key_join a p r b : (length p + length r < 255)%nat -> key_effect 0x0E (mk_doc (a ++ [p]) [] r b) (mk_doc a p r b)
  | key_join_full a p r b : (255 <= length p + length r)%nat -> key_effect 0x0E (mk_doc (a ++ [p]) [] r b) (mk_doc (a ++ [p]) [] r b)
  | key_at_start r b : key_effect 0x0E (mk_doc [] [] r b) (mk_doc [] [] r b)
  | key_up a p l r b : key_effect 0x48 (mk_doc (a ++ [p]) l r b) (cut (length l) p a ((l ++ r) :: b))
  | key_up_first l r b : key_effect 0x48 (mk_doc [] l r b) (mk_doc [] l r b)
  | key_down a l r q b : key_effect 0x50 (mk_doc a l r (q :: b)) (cut (length l) q (a ++ [l ++ r]) b)
  | key_down_last a l r : key_effect 0x50 (mk_doc a l r []) (mk_doc a l r [])
  | key_left a l c r b : key_effect 0x4B (mk_doc a (l ++ [c]) r b) (mk_doc a l (c :: r) b)
  | key_left_end a r b : key_effect 0x4B (mk_doc a [] r b) (mk_doc a [] r b)
  | key_right a l c r b : key_effect 0x4D (mk_doc a l (c :: r) b) (mk_doc a (l ++ [c]) r b)
  | key_right_end a l b : key_effect 0x4D (mk_doc a l [] b) (mk_doc a l [] b)
  | key_other k d : k ∉ [0x1C; 0x0E; 0x48; 0x50; 0x4B; 0x4D] -> lookup_code editor_chars k = 0 -> key_effect k d d.

Lemma insert_char_shows b d ch : shows b d -> ch <> 0 ->
  exists b', text_editor_insert_char ch b = Done b' /\ b'.(filepath) = b.(filepath) /\
    shows b' (if decide (length (left d ++ right d) < 255)%nat then mk_doc (above d) (left d ++ [ch]) (right d) (below d) else d).
Proof.
  intros H Hch. pose proof (shows_bound _ _ H) as Hb. rewrite length_doc_lines in Hb.
  destruct (cursor_row _ _ H) as (row & Erow & Hrow). unfold text_editor_insert_char.
  pose proof (sh_line _ _ H) as Hline. pose proof (sh_col _ _ H) as Hcol.
  unfold EDITOR_MAX_LINES, EDITOR_MAX_LINE_LENGTH. destruct (Z.leb_spec 1000 (cursor_line b)); [lia|].
  rewrite Erow. cbn [obind]. rewrite (holds_len _ _ _ Hrow). cbn [obind]. case_decide as Hfull.
  - destruct (Z.leb_spec (256 - 1) (Z.of_nat (length (left d ++ right d)))); [lia|]. rewrite Hcol.
    destruct (insert_holds _ _ ch (length (left d)) Hrow) as (r1 & r2 & -> & E2 & Hr2); [rewrite length_app; lia|lia|done|].
    cbn [obind]. rewrite E2. cbn [obind].
    rewrite take_app_length, drop_app_length in Hr2.
    replace (left d ++ ch :: right d) with ((left d ++ [ch]) ++ right d) in Hr2 by (by rewrite <- app_assoc).
    destruct (cursor_row_set b d r2 _ _ H Hr2) as (ls & -> & Hls). cbn [obind]. eexists. split; [done|]. split; [done|].
    apply Hls. by rewrite length_snoc_Z.
  - destruct (Z.leb_spec (256 - 1) (Z.of_nat (length (left d ++ right d)))); [|lia]. by exists b.
Qed.

Lemma delete_shows b a l c r be : shows b (mk_doc a (l ++ [c]) r be) ->
  exists b', text_editor_backspace b = Done b' /\ b'.(filepath) = b.(filepath) /\ shows b' (mk_doc a l r be).
Proof.
  intros H. destruct (cursor_row _ _ H) as (row & Erow & Hrow). pose proof (sh_col _ _ H) as Hcol.
  cbn [left right] in *. unfold text_editor_backspace. rewrite length_snoc_Z in Hcol.
  destruct (Z.ltb_spec 0 (cursor_col b)); [|lia]. rewrite Erow. cbn [obind]. rewrite (holds_len _ _ _ Hrow). cbn [obind].
  rewrite Hcol, <- length_snoc_Z with (x := c).
  destruct (delete_holds row ((l ++ [c]) ++ r) (length (l ++ [c])) Hrow) as (r' & -> & Hr'); [rewrite !length_app; cbn; lia|].
  cbn [obind]. rewrite drop_app_length in Hr'.
  replace (take (length (l ++ [c]) - 1) ((l ++ [c]) ++ r)) with l in Hr'.
  2: { rewrite length_app. cbn [length]. rewrite Nat.add_sub, <- app_assoc, take_app_length. done. }
  destruct (cursor_row_set b _ r' l r H Hr') as (ls & -> & Hls). cbn [obind]. eexists. split; [done|]. split; [done|].
  apply Hls. rewrite length_snoc_Z. lia.
Qed.

Lemma join_shows b a p r be : shows b (mk_doc (a ++ [p]) [] r be) -> (length p + length r < 255)%nat ->
  exists b', text_editor_backspace b = Done b' /\ b'.(filepath) = b.(filepath) /\ shows b' (mk_doc a p r be).
Proof.
  intros H Hfit. open_doc H. unfold text_editor_backspace. rewrite Hcol, Hline.
  destruct (Z.ltb_spec 0 (Z.of_nat 0)); [lia|]. rewrite length_snoc_Z.
  destruct (Z.ltb_spec 0 (Z.of_nat (length a) + 1)); [|lia].
  rewrite <- app_assoc in Hrows. cbn [app] in Hrows. replace (Z.of_nat (length a) + 1 - 1) with (Z.of_nat (length a)) by lia.
  destruct (rows_aget _ _ _ _ _ Hrows eq_refl) as (rp & -> & Hp). cbn [obind]. rewrite (holds_len _ _ _ Hp). cbn [obind].
  destruct (rows_aget _ _ (a ++ [p]) r (be ++ spare) Hrows) as (rr & Er & Hr); [by rewrite <- app_assoc|].
  rewrite length_snoc_Z in Er. rewrite Er. cbn [obind]. rewrite (holds_len _ _ _ Hr). cbn [obind].
  unfold EDITOR_MAX_LINE_LENGTH. destruct (Z.ltb_spec (Z.of_nat (length p) + Z.of_nat (length r)) (256 - 1)); [|lia].
  destruct (strcat_holds 256 256 rp rr p r Hp Hr) as (j & -> & Hj); [lia|]. cbn [obind].
  destruct (rows_aset _ _ _ _ _ _ Hrows Hj) as (l1 & -> & Hl1). cbn [obind].
  replace (a ++ (p ++ r) :: r :: be ++ spare) with ((a ++ [p ++ r]) ++ r :: be ++ spare) in Hl1 by (by rewrite <- app_assoc).
  destruct (rows_up_spec be _ _ _ _ Hl1) as (l2 & E2 & Hl2). rewrite length_snoc_Z in E2. rewrite length_app in Hcount. cbn in Hcount.
  replace (Z.to_nat (line_count b - 1 - (Z.of_nat (length a) + 1))) with (length be) by lia. rewrite E2. cbn [obind].
  destruct (clear_row l2 _ ((a ++ [p ++ r]) ++ be) (default r (last be)) spare Hl2) as (row & row' & l3 & Ea & Ec & Es & Hl3);
    [by rewrite <- !app_assoc|].
  replace (line_count b - 1) with (Z.of_nat (length ((a ++ [p ++ r]) ++ be))) by (rewrite !length_app; cbn; lia).
  rewrite Ea. cbn [obind]. rewrite Ec. cbn [obind]. rewrite Es. cbn [obind]. eexists. split; [done|]. split; [done|].
  eapply (shows_intro b (mk_doc (a ++ [p]) [] r be) spare _ _ _ _ _ Hsize) with (spare' := [] :: spare);
    cbn [above left right below app]; rewrite ?length_doc_lines; cbn [above left right below].
  - by rewrite <- app_assoc.
  - by rewrite <- !app_assoc in Hl3.
  - repeat (rewrite !length_app; cbn [length]). lia.
  - repeat (rewrite !length_app; cbn [length]). lia.
  - lia.
  - done.
Qed.

Lemma join_full b a p r be : shows b (mk_doc (a ++ [p]) [] r be) -> (255 <= length p + length r)%nat -> text_editor_backspace b = Done b.
Proof.
  intros H Hfit. open_doc H. unfold text_editor_backspace. rewrite Hcol, Hline.
  destruct (Z.ltb_spec 0 (Z.of_nat 0)); [lia|]. rewrite length_snoc_Z.
  destruct (Z.ltb_spec 0 (Z.of_nat (length a) + 1)); [|lia].
  rewrite <- app_assoc in Hrows. cbn [app] in Hrows. replace (Z.of_nat (length a) + 1 - 1) with (Z.of_nat (length a)) by lia.
  destruct (rows_aget _ _ _ _ _ Hrows eq_refl) as (rp & -> & Hp). cbn [obind]. rewrite (holds_len _ _ _ Hp). cbn [obind].
  destruct (rows_aget _ _ (a ++ [p]) r (be ++ spare) Hrows) as (rr & Er & Hr); [by rewrite <- app_assoc|].
  rewrite length_snoc_Z in Er. rewrite Er. cbn [obind]. rewrite (holds_len _ _ _ Hr). cbn [obind].
  unfold EDITOR_MAX_LINE_LENGTH. destruct (Z.ltb_spec (Z.of_nat (length p) + Z.of_nat (length r)) (256 - 1)); [lia|done].
Qed.

Lemma newline_shows b d : shows b d -> exists b', text_editor_newline b = Done b' /\ b'.(filepath) = b.(filepath) /\
  shows b' (if decide (length (doc_lines d) < 1000)%nat then mk_doc (above d ++ [left d]) [] (right d) (below d) else d).
Proof.
  intros H. destruct d as [a l r be]. rewrite length_doc_lines. unfold text_editor_newline, EDITOR_MAX_LINES.
  pose proof (sh_count _ _ H) as Hc. rewrite length_doc_lines in Hc. cbn [above left right below] in *.
  case_decide as Hd; [|destruct (Z.leb_spec 1000 (line_count b)); [by exists b|lia]].
  destruct (Z.leb_spec 1000 (line_count b)); [lia|]. open_doc H. rewrite Hline.
  assert (exists x t, spare = x :: t) as (x & t & ->).
  { destruct spare as [|x t]; [|by exists x, t]. apply Forall2_length in Hrows. rewrite Hsize, !length_app in Hrows.
    cbn in Hrows. rewrite length_app in Hrows. cbn in Hrows. lia. }
  destruct (rows_down_spec (M := 256) ((l ++ r) :: be) a x t (lines b)) as (l1 & E1 & Hl1); [cbn; lia|exact Hrows|].
  cbn [length take app] in E1, Hl1. rewrite take_0 in Hl1. cbn [app] in Hl1. replace (Z.to_nat (line_count b - Z.of_nat (length a))) with (S (length be)) by lia.
  replace (Z.of_nat (length a + S (length be))) with (line_count b) in E1 by lia. rewrite E1. cbn [obind].
  destruct (rows_aget _ _ _ _ _ Hl1 eq_refl) as (row & -> & Hrow). cbn [obind]. rewrite (holds_len _ _ _ Hrow). cbn [obind].
  destruct (rows_aget _ _ (a ++ [l ++ r]) (l ++ r) (be ++ t) Hl1) as (low & El & Hlow); [by rewrite <- app_assoc|].
  rewrite length_snoc_Z in El. rewrite El. cbn [obind]. rewrite Hcol.
  destruct (split_holds row low _ _ (length l) Hrow Hlow) as (low' & -> & Hlow'); [rewrite length_app; lia|]. cbn [obind].
  rewrite drop_app_length in Hlow'.
  replace (a ++ (l ++ r) :: (l ++ r) :: be ++ t) with ((a ++ [l ++ r]) ++ (l ++ r) :: be ++ t) in Hl1 by (by rewrite <- app_assoc).
  destruct (rows_aset _ _ _ _ _ _ Hl1 Hlow') as (l2 & E2 & Hl2). rewrite length_snoc_Z in E2. rewrite E2. cbn [obind].
  pose proof (cut_holds 256 row (l ++ r) (length l) Hrow) as Hcut. rewrite take_app_length in Hcut.
  pose proof (holds_short _ _ _ Hrow) as Hshort. pose proof Hrow as (Hlen & _).
  rewrite (aset_done row) by (rewrite length_app in Hshort; lia). cbn [obind]. rewrite Nat2Z.id.
  rewrite <- app_assoc in Hl2. cbn [app] in Hl2.
  destruct (rows_aset l2 a (l ++ r) (r :: be ++ t) _ l Hl2 (Hcut ltac:(rewrite length_app; lia))) as (l3 & E3 & Hl3).
  rewrite E3. cbn [obind]. eexists. split; [done|]. split; [done|].
  eapply (shows_intro b (mk_doc a l r be) (x :: t) _ _ _ _ _ Hsize Hrows) with (spare' := t);
    cbn [above left right below app]; rewrite ?length_doc_lines; cbn [above left right below].
  - by rewrite <- app_assoc.
  - repeat (rewrite !length_app; cbn [length]). lia.
  - repeat (rewrite !length_app; cbn [length]). lia.
  - by rewrite length_snoc_Z.
  - done.
Qed.

(** ** Moving the cursor *)

(** Moving to the line [q], at row [n]: the column is clamped. *)
Lemma move_line b a l r be dy q : shows b (mk_doc a l r be) -> dy <> 0 -> forall a' be',
  (forall spare, a ++ (l ++ r) :: be ++ spare = a' ++ q :: be' ++ spare) ->
  Z.of_nat (length a) + dy = Z.of_nat (length a') -> (length a' < length a + 1 + length be)%nat ->
  exists b', text_editor_move_cursor 0 dy b = Done b' /\ b'.(filepath) = b.(filepath) /\ shows b' (cut (length l) q a' be').
Proof.
  intros H Hdy a' be' He Ha Hlt. unfold text_editor_move_cursor. destruct (Z.eqb_spec dy 0); [lia|].
  pose proof H as [(spare & Hrows) Hsize Hcount Hline Hcol]. rewrite length_doc_lines in Hcount. cbn [above left right below] in *.
  rewrite Hline, Ha, Hcount, Hcol. destruct (Z.leb_spec 0 (Z.of_nat (length a'))); [|lia].
  destruct (Z.ltb_spec (Z.of_nat (length a')) (Z.of_nat (length a + 1 + length be))); [|lia]. cbn [andb].
  rewrite He in Hrows. destruct (rows_aget _ _ _ _ _ Hrows eq_refl) as (rq & -> & Hq). cbn [obind].
  rewrite (holds_len _ _ _ Hq). cbn [obind Z.eqb]. eexists. split; [done|]. split; [done|].
  eapply (shows_position b a l r be _ _ H); unfold cut; cbn [above left right below]; [by rewrite take_drop|done|].
  rewrite length_take. destruct (Z.ltb_spec (Z.of_nat (length q)) (Z.of_nat (length l))); lia.
Qed.

Lemma move_stay b d dy : shows b d -> dy <> 0 ->
  Z.of_nat (length (above d)) + dy < 0 \/ Z.of_nat (length (doc_lines d)) <= Z.of_nat (length (above d)) + dy ->
  text_editor_move_cursor 0 dy b = Done b.
Proof.
  intros H Hdy Hout. unfold text_editor_move_cursor. destruct (Z.eqb_spec dy 0); [lia|].
  rewrite (sh_line _ _ H), (sh_count _ _ H).
  destruct (Z.leb_spec 0 (Z.of_nat (length (above d)) + dy)), (Z.ltb_spec (Z.of_nat (length (above d)) + dy) (Z.of_nat (length (doc_lines d))));
    cbn [andb obind Z.eqb]; done || lia.
Qed.

Lemma move_col b a l r be dx : shows b (mk_doc a l r be) -> dx <> 0 ->
  exists b', text_editor_move_cursor dx 0 b = Done b' /\ b'.(filepath) = b.(filepath) /\
    (0 <= Z.of_nat (length l) + dx <= Z.of_nat (length (l ++ r)) -> forall l' r', l ++ r = l' ++ r' ->
       Z.of_nat (length l') = Z.of_nat (length l) + dx -> shows b' (mk_doc a l' r' be)) /\
    (~ 0 <= Z.of_nat (length l) + dx <= Z.of_nat (length (l ++ r)) -> b' = b).
Proof.
  intros H Hdx. destruct (cursor_row _ _ H) as (row & Erow & Hrow). pose proof (sh_col _ _ H) as Hcol. cbn [left right] in *.
  unfold text_editor_move_cursor. cbn [Z.eqb obind]. destruct (Z.eqb_spec dx 0); [lia|].
  rewrite Erow. cbn [obind]. rewrite (holds_len _ _ _ Hrow). cbn [obind]. rewrite Hcol.
  destruct (Z.leb_spec 0 (Z.of_nat (length l) + dx)), (Z.leb_spec (Z.of_nat (length l) + dx) (Z.of_nat (length (l ++ r))));
    cbn [andb]; eexists; (split; [done|]); (split; [done|]); (split; [|done || lia]); try lia.
  intros _ l' r' E Hl. eapply (shows_position b a l r be _ _ H); cbn [above left right below]; [by rewrite E|apply H|done].
Qed.

(** ** Every key *)

Lemma key_one_edit k d d' : key_effect k d d' -> one_edit d d'.
Proof.
  intros []; unfold one_edit, cut, before, after; cbn [above left right below]; try (by left).
  - right. left. exists ch. by rewrite app_assoc.
  - right. left. exists 10. rewrite fmap_app, concat_app. cbn. by rewrite !app_nil_r, <- !app_assoc.
  - right. right. exists c. by rewrite app_assoc.
  - right. right. exists 10. rewrite fmap_app, concat_app. cbn. by rewrite !app_nil_r, <- !app_assoc.
  - left. rewrite fmap_app, concat_app. cbn. rewrite app_nil_r, <- !app_assoc. f_equal.
    rewrite (app_assoc (take _ _)), take_drop. done.
  - left. rewrite fmap_app, concat_app. cbn. rewrite app_nil_r, <- !app_assoc. do 3 f_equal. cbn.
    f_equal. by rewrite (app_assoc (take _ _)), take_drop.
  - left. by rewrite <- !app_assoc.
  - left. by rewrite <- !app_assoc.
Qed.

Lemma handle_key_shows k b d : shows b d ->
  exists b' d', text_editor_handle_key k b = Done b' /\ b'.(filepath) = b.(filepath) /\ shows b' d' /\
    key_effect k d d' /\ one_edit d d'.
Proof.
  intros H. cut (exists b' d', text_editor_handle_key k b = Done b' /\ b'.(filepath) = b.(filepath) /\ shows b' d' /\ key_effect k d d').
  { intros (b' & d' & E & Hf & Hs & He). exists b', d'. split_and!; try done. by eapply key_one_edit. }
  unfold text_editor_handle_key. destruct d as [a l r be].
  destruct (Z.eqb_spec k 0x1C) as [->|N1].
  { destruct (newline_shows b _ H) as (b' & -> & Hf & Hs). 
    case_decide; eexists _, _; (split; [done|]); (split; [done|]); (split; [done|]); constructor; lia. }
  destruct (Z.eqb_spec k 0x0E) as [->|N2].
  { destruct l as [|c l _] using rev_ind.
    2: { destruct (delete_shows b a l c r be H) as (b' & -> & Hf & Hs). eexists _, _. split_and!; [done..|constructor]. }
    destruct a as [|p a _] using rev_ind.
    { exists b, (mk_doc [] [] r be). split_and!; [|done..|constructor]. unfold text_editor_backspace.
      rewrite (sh_col _ _ H), (sh_line _ _ H). done. }
    destruct (decide (length p + length r < 255)%nat).
    - destruct (join_shows b a p r be H) as (b' & -> & Hf & Hs); [done|]. eexists _, _. split_and!; [done..|by constructor].
    - rewrite (join_full b a p r be H) by lia. eexists _, _. split_and!; [done..|]. constructor. lia. }
  destruct (Z.eqb_spec k 0x48) as [->|N3].
  { destruct a as [|p a _] using rev_ind.
    { rewrite (move_stay b _ (-1) H); [|done|cbn; lia]. eexists _, _. split_and!; [done..|constructor]. }
    destruct (move_line b (a ++ [p]) l r be (-1) p H ltac:(done) a ((l ++ r) :: be)) as (b' & -> & Hf & Hs);
      [by intros spare; rewrite <- app_assoc|rewrite length_snoc_Z; lia|rewrite length_app; lia|].
    eexists _, _. split_and!; [done..|constructor]. }
  destruct (Z.eqb_spec k 0x50) as [->|N4].
  { destruct be as [|q be].
    { rewrite (move_stay b _ 1 H); [|done|rewrite ?length_doc_lines; cbn; lia]. eexists _, _. split_and!; [done..|constructor]. }
    destruct (move_line b a l r (q :: be) 1 q H ltac:(done) (a ++ [l ++ r]) be) as (b' & -> & Hf & Hs);
      [by intros spare; rewrite <- app_assoc|rewrite length_snoc_Z; lia|rewrite length_app; cbn; lia|].
    eexists _, _. split_and!; [done..|constructor]. }
  destruct (Z.eqb_spec k 0x4B) as [->|N5].
  { destruct (move_col b a l r be (-1) H ltac:(done)) as (b' & -> & Hf & Hin & Hout). destruct l as [|c l _] using rev_ind.
    - rewrite Hout by (cbn; lia). eexists _, _. split_and!; [done..|constructor].
    - eexists _, (mk_doc a l (c :: r) be). split_and!; [done..| |constructor].
      apply Hin; [rewrite !length_app; cbn; lia|by rewrite <- app_assoc|rewrite length_snoc_Z; lia]. }
  destruct (Z.eqb_spec k 0x4D) as [->|N6].
  { destruct (move_col b a l r be 1 H ltac:(done)) as (b' & -> & Hf & Hin & Hout). destruct r as [|c r].
    - rewrite Hout by (rewrite app_nil_r; lia). eexists _, _. split_and!; [done..|constructor].
    - eexists _, (mk_doc a (l ++ [c]) r be). split_and!; [done..| |constructor].
      apply Hin; [rewrite length_app; cbn; lia|by rewrite <- app_assoc|rewrite length_snoc_Z; lia]. }
  destruct (Z.eqb_spec (lookup_code editor_chars k) 0) as [E0|Hch].
  { eexists _, _. split_and!; [done..|]. apply key_other; [|done]. rewrite !not_elem_of_cons, elem_of_nil. tauto. }
  destruct (insert_char_shows b _ (lookup_code editor_chars k) H Hch) as (b' & -> & Hf & Hs). cbn [above left right below] in Hs.
  case_decide; eexists _, _; split_and!; try done; [by eapply (key_char k _ (mk_doc a l r be))|].
  eapply (key_line_full k _ (mk_doc a l r be)); [done|done|cbn; lia].
Qed.

(** C28: In any state of the editor that shows a document (the lines above the
    cursor, the line on both sides of it, the lines below), every scancode is
    handled without an access out of bounds, the buffer shows the document
    after the key, and the file name is kept. Letters insert at the cursor
    unless the line has 255 characters, Enter splits the line unless there are
    1000, backspace deletes the character before the cursor or joins the line
    with the one before it if both fit, the arrows move the cursor. As a text,
    with line feeds between the lines, at most the character before the cursor
    is inserted or removed. *)
Theorem editor_key_edits k b d : shows b d ->
  exists b' d', text_editor_handle_key k b = Done b' /\ b'.(filepath) = b.(filepath) /\ shows b' d' /\
    key_effect k d d' /\ one_edit d d'.
Proof. apply handle_key_shows. Qed.

(** The buffer of a new editor shows the empty document. *)
Definition empty_buffer (name : list Z) : editor_buffer_t := mk_buf (replicate 1000 (replicate 256 0)) 1 0 0 0 name 0.

Lemma empty_shows name : shows (empty_buffer name) (mk_doc [] [] [] []).
Proof.
  split; [|done..]. exists (replicate 999 []). cbn [above left right below app empty_buffer lines].
  change ([] :: replicate 999 []) with (replicate 1000 (@nil Z)).
  apply Forall2_replicate. split; [done|]. split; [constructor|]. by exists (replicate 255 0).
Qed.

Lemma editor_key_edits_witness : exists b' d', text_editor_handle_key 30 (empty_buffer [0]) = Done b' /\ b'.(filepath) = [0] /\
  shows b' d' /\ key_effect 30 (mk_doc [] [] [] []) d' /\ one_edit (mk_doc [] [] [] []) d'.
Proof. exact (editor_key_edits 30 (empty_buffer [0]) _ (empty_shows [0])). Defined.
End EditorProps.
