(* ===== verification/EditorFiles.v ===== *)
(** * Saving and loading in the editor

    Saving writes the lines, joined by line feeds, over the old contents from
    the start; loading splits the contents into lines again. The theorems use
    the files through the interface [FileLaws]. *)
From Stdlib Require Import ZArith Lia.
From stdpp Require Import base numbers list gmap.
From S2P Require Import Prelude Ata CStr VfsTypes Console ConsoleProps Serial Keyboard KeyboardProps StrBuf Paint Desk TextEditor EditorDoc EditorProps.

Module EditorFiles.
Import StrBuf Files TinyfsFiles Desk TextEditor EditorDoc EditorProps.
Local Open Scope Z_scope.
Local Open Scope outcome_scope.

(** The lines joined by line feeds. *)
Fixpoint joined (ls : list (list Z)) : list Z :=
  match ls with
  | [] => []
  | [s] => s
  | s :: ls => s ++ 10 :: joined ls
  end.

Lemma joined_cons s s' ls : joined (s :: s' :: ls) = s ++ 10 :: joined (s' :: ls).
Proof. done. Qed.

(** ** Saving *)
Section Saving.
Context {W : Type} `{!FileApi W, !FileLaws W}.

Lemma overwrite_app (c : list Z) pos s t : (pos + length s <= length (overwrite c pos s))%nat ->
  overwrite (overwrite c pos s) (pos + length s) t = overwrite c pos (s ++ t).
Proof.
  unfold overwrite. intros H. rewrite !length_app, length_take, length_drop in H.
  destruct (decide (pos <= length c)%nat) as [Hp|Hp].
  - rewrite (app_assoc (take pos c)), take_app_length' by (rewrite length_app, length_take; lia).
    rewrite drop_app_ge by (rewrite length_app, length_take; lia).
    rewrite length_app, length_take, Nat.min_l, drop_drop, length_app, <- !app_assoc by lia. do 4 f_equal. lia.
  - lia.
Qed.

Lemma length_overwrite c pos s : (pos <= length c)%nat -> (pos + length s <= length (overwrite c pos s))%nat.
Proof. intros H. unfold overwrite. rewrite !length_app, length_take. lia. Qed.

(** The bytes of the lines from [i] on, as the loop writes them. *)
Lemma save_lines_spec k cap b fd path ls : forall pre spare w pos c, rows b.(lines) (pre ++ ls ++ spare) ->
  b.(line_count) = Z.of_nat (length pre + length ls) ->
  opened k cap w fd path pos c -> 0 <= pos <= Z.of_nat (length c) -> pos + Z.of_nat (length (joined ls)) <= cap ->
  exists w', save_lines (length ls) (Z.of_nat (length pre)) fd b w = Done w' /\
    opened k cap w' fd path (pos + Z.of_nat (length (joined ls))) (overwrite c (Z.to_nat pos) (joined ls)).
Proof.
  induction ls as [|s ls IH]; intros pre spare w pos c Hrows Hn Ho Hpos Hcap.
  { exists w. split; [done|]. cbn [joined length]. unfold overwrite. cbn [app length]. rewrite Z.add_0_r, Nat.add_0_r, take_drop. done. }
  cbn [save_lines length app]. destruct (rows_aget _ _ _ _ _ Hrows eq_refl) as (row & -> & Hrow). cbn [obind].
  rewrite (holds_len _ _ _ Hrow). cbn [obind]. pose proof (holds_short _ _ _ Hrow) as Hsh. destruct Hrow as (Hlen & Ht & rest & ->).
  assert (length s <= length (joined (s :: ls)))%nat as Hsj by (destruct ls; cbn [joined]; rewrite ?length_app; lia).
  destruct (write_opened k cap w fd path pos c (s ++ 0 :: rest) (Z.of_nat (length s)) Ho Hpos ltac:(lia) ltac:(lia)) as (w1 & -> & Ho1).
  cbn [obind]. rewrite Nat2Z.id, take_app_length in Ho1. rewrite <- length_snoc_Z with (x := s) (a := pre).
  pose proof (length_overwrite c (Z.to_nat pos) s ltac:(lia)) as Hl1. cbn [length] in Hn. rewrite Hn. destruct ls as [|s' ls].
  - case Z.ltb_spec; [cbn [length]; lia|intros _]. cbn [obind save_lines length joined]. by exists w1.
  - destruct (Z.ltb_spec (Z.of_nat (length pre)) (Z.of_nat (length pre + S (length (s' :: ls))) - 1)); [|cbn [length] in *; lia].
    rewrite joined_cons, length_app in Hcap. cbn [length] in Hcap.
    destruct (write_opened k cap w1 fd path _ _ [10] 1 Ho1) as (w2 & E2 & Ho2); [lia|cbn; lia|lia|].
    rewrite E2. cbn [obind]. change (take (Z.to_nat 1) [10]) with [10] in Ho2.
    replace (Z.to_nat (pos + Z.of_nat (length s))) with (Z.to_nat pos + length s)%nat in Ho2 by lia.
    rewrite overwrite_app in Ho2 by lia.
    replace (pre ++ (s :: s' :: ls) ++ spare) with ((pre ++ [s]) ++ (s' :: ls) ++ spare) in Hrows by (by rewrite <- app_assoc).
    pose proof (length_overwrite c (Z.to_nat pos) (s ++ [10]) ltac:(lia)) as Hl2.
    destruct (IH _ _ w2 (pos + Z.of_nat (length s) + 1) (overwrite c (Z.to_nat pos) (s ++ [10])) Hrows) as (w' & E & Ho'); [rewrite length_app; cbn [length] in *; lia|exact Ho2| | |].
    { rewrite length_app in Hl2. cbn in Hl2. lia. }
    { lia. }
    exists w'. split; [exact E|]. rewrite joined_cons, length_app. cbn [length].
    replace (pos + Z.of_nat (length s + S (length (joined (s' :: ls))))) with
      (pos + Z.of_nat (length s) + 1 + Z.of_nat (length (joined (s' :: ls)))) by lia.
    replace (Z.to_nat (pos + Z.of_nat (length s) + 1)) with (Z.to_nat pos + length (s ++ [10%Z]))%nat in Ho' by (rewrite length_app; cbn; lia).
    rewrite overwrite_app, <- app_assoc in Ho' by lia. exact Ho'.
Qed.

Lemma save_stores k cap b d w c : shows b d -> get b.(filepath) 0 <> 0 -> stored (S k) cap w (cstr b.(filepath)) c ->
  Z.of_nat (length (joined (doc_lines d))) <= cap ->
  exists b' w', text_editor_save b w = Done (b', w') /\ shows b' d /\ b'.(modified) = 0 /\ b'.(filepath) = b.(filepath) /\
    stored k cap w' (cstr b.(filepath)) (overwrite c 0 (joined (doc_lines d))).
Proof.
  intros H Hf Hst Hcap. unfold text_editor_save. destruct (Z.eqb_spec (get (filepath b) 0) 0); [done|].
  destruct (open_stored k cap w (filepath b) FILE_WRITE c Hst) as (fd & w1 & -> & Hfd & Ho). cbn [obind].
  destruct (Z.ltb_spec fd 0); [lia|]. pose proof H as [(spare & Hrows) _ Hn _ _].
  destruct (save_lines_spec k cap b fd (cstr (filepath b)) (doc_lines d) [] spare w1 0 c) as (w2 & E & Ho2); [|done|done|lia|lia|].
  { unfold doc_lines. rewrite <- app_assoc. exact Hrows. }
  rewrite Hn, Nat2Z.id. change 0 with (Z.of_nat (length (@nil (list Z)))) at 1. rewrite E. cbn [obind].
  destruct (close_opened _ _ _ _ _ _ _ Ho2) as (w3 & -> & Hs3). cbn [obind]. eexists _, w3. split; [done|].
  split; [|done]. destruct H as [R S C L K]. by split.
Qed.
End Saving.

(** ** Loading *)
Definition plain_line (s : list Z) : Prop := Forall (fun c => c <> 0 /\ c <> 10) s /\ (length s <= 255)%nat.

Lemma plain_text s : plain_line s -> text s.
Proof. intros [H _]. eapply Forall_impl; [exact H|]. by intros c []. Qed.

(** The characters of one line go into its row. *)
Lemma parse_chars s : forall rest l i a x row, Forall (fun c => c <> 0 /\ c <> 10) s -> (i < 1000)%nat ->
  l !! i = Some row -> row = a ++ x -> (length s <= length x)%nat -> (length a + length s <= 255)%nat ->
  parse_lines (s ++ rest) l (Z.of_nat i) (Z.of_nat (length a)) =
  parse_lines rest (<[i := a ++ s ++ drop (length s) x]> l) (Z.of_nat i) (Z.of_nat (length a + length s)).
Proof.
  induction s as [|c s IH]; intros rest l i a x row Hs Hi Hl -> Hx Hle.
  { cbn [app length]. rewrite drop_0, Nat.add_0_r, list_insert_id; done. }
  destruct x as [|y x]; [cbn in Hx; lia|]. apply Forall_cons in Hs as [[Hc0 Hc] Hs]. cbn [length] in *. cbn [app parse_lines].
  pose proof (lookup_lt_Some _ _ _ Hl) as Hil.
  unfold EDITOR_MAX_LINES, EDITOR_MAX_LINE_LENGTH. destruct (Z.ltb_spec (Z.of_nat i) 1000); [|lia].
  destruct (Z.eqb_spec c 10); [done|]. destruct (Z.ltb_spec (Z.of_nat (length a)) (256 - 1)); [|lia].
  rewrite (aget_lookup l _ (a ++ y :: x)) by (rewrite ?Nat2Z.id; done || lia). cbn [obind]. rewrite aset_mid. cbn [obind].
  rewrite aset_done by lia. cbn [obind]. rewrite Nat2Z.id.
  replace (Z.of_nat (length a) + 1) with (Z.of_nat (length (a ++ [c]))) by (rewrite length_app; cbn; lia).
  rewrite (IH rest _ i (a ++ [c]) x (a ++ c :: x)); [|done|done|by apply list_lookup_insert_eq|by rewrite <- app_assoc|lia|rewrite length_app; cbn; lia].
  rewrite list_insert_insert_eq, length_app, <- app_assoc. cbn [length app drop].
  by replace (length a + 1 + length s)%nat with (length a + S (length s))%nat by lia.
Qed.

(** A row and the spare row it is written over. *)
Lemma parse_row l pre x spare s rest : rows l (pre ++ x :: spare) -> (length pre < 1000)%nat -> plain_line s ->
  exists row l', parse_lines (s ++ rest) l (Z.of_nat (length pre)) 0 =
      parse_lines rest l' (Z.of_nat (length pre)) (Z.of_nat (length s)) /\
    aget l' (Z.of_nat (length pre)) = Done row /\
    exists row' l'', aset row (Z.of_nat (length s)) 0 = Done row' /\ aset l' (Z.of_nat (length pre)) row' = Done l'' /\
      rows l'' (pre ++ s :: spare).
Proof.
  intros Hrows Hi Hs. destruct (Forall2_lookup_r _ _ _ (length pre) x Hrows) as (row & Hrow & Hh); [by apply list_lookup_middle|].
  pose proof (lookup_lt_Some _ _ _ Hrow) as Hlt. destruct Hh as (Hlen & _). destruct Hs as [Hs Hle].
  pose proof (parse_chars s rest l (length pre) [] row row Hs Hi Hrow eq_refl ltac:(lia) Hle) as P. cbn [length app] in P.
  eexists _, _. split; [exact P|]. split; [apply aget_lookup; [lia|]; rewrite Nat2Z.id; by apply list_lookup_insert_eq|].
  destruct (drop (length s) row) as [|z t] eqn:Ed.
  { apply (f_equal length) in Ed. rewrite length_drop in Ed. cbn in Ed. lia. }
  rewrite aset_mid. eexists _, _. split; [done|]. rewrite aset_done by (rewrite length_insert; lia). split; [done|].
  rewrite Nat2Z.id, list_insert_insert_eq.
  replace (pre ++ s :: spare) with (<[length pre := s]> (pre ++ x :: spare)) by (rewrite insert_app_r_alt, Nat.sub_diag by lia; done).
  apply Forall2_insert; [done|]. split; [|split; [eapply Forall_impl; [exact Hs|]; by intros ? []|by exists t]].
  apply (f_equal length) in Ed. rewrite length_drop in Ed. rewrite length_app. cbn [length] in *. lia.
Qed.

(** All lines but the last are ended by their line feeds. *)
Lemma parse_joined ls : forall l pre spare, ls <> [] -> Forall plain_line ls -> rows l (pre ++ spare) ->
  (length pre + length ls <= 1000)%nat -> (length ls <= length spare)%nat ->
  exists l' last init x spare', ls = init ++ [last] /\
    parse_lines (joined ls) l (Z.of_nat (length pre)) 0 = parse_lines last l' (Z.of_nat (length (pre ++ init))) 0 /\
    rows l' (pre ++ init ++ x :: spare') /\ length l' = length l.
Proof.
  induction ls as [|s ls IH]; intros l pre spare Hne Hp Hrows Hlen Hsp; [done|]. destruct spare as [|x spare]; [cbn in Hsp; lia|].
  cbn [length] in *. apply Forall_cons in Hp as [Hs Hp]. destruct ls as [|s' ls].
  { exists l, s, [], x, spare. rewrite app_nil_r. done. }
  rewrite joined_cons. destruct (parse_row l pre x spare s (10 :: joined (s' :: ls)) Hrows) as (row & l1 & -> & Ea & row' & l2 & Eb & Ec & H2); [lia|done|].
  change (parse_lines (10 :: joined (s' :: ls)) l1 (Z.of_nat (length pre)) (Z.of_nat (length s))) with
    (if Z.of_nat (length pre) <? EDITOR_MAX_LINES then
       let* row := aget l1 (Z.of_nat (length pre)) in let* row := aset row (Z.of_nat (length s)) 0 in
       let* l := aset l1 (Z.of_nat (length pre)) row in parse_lines (joined (s' :: ls)) l (Z.of_nat (length pre) + 1) 0
     else Done (l1, Z.of_nat (length pre), Z.of_nat (length s))).
  unfold EDITOR_MAX_LINES. destruct (Z.ltb_spec (Z.of_nat (length pre)) 1000); [|lia]. rewrite Ea. cbn [obind]. rewrite Eb. cbn [obind]. rewrite Ec. cbn [obind].
  rewrite <- length_snoc_Z with (x := s).
  destruct (IH l2 (pre ++ [s]) spare) as (l' & last & init & x' & spare' & E & -> & H' & Hll); [done|done|by rewrite <- app_assoc|rewrite length_app; cbn [length] in *; lia|lia|].
  exists l', last, (s :: init), x', spare'. rewrite E. split; [done|]. rewrite <- !app_assoc in *. split; [done|]. split; [done|].
  rewrite Hll. apply Forall2_length in H2, Hrows. rewrite H2, Hrows, !length_app. done.
Qed.

(** The last line has no line feed; an empty one leaves no trace unless it is
    the only one. *)
Lemma load_lines b ls w0 : ls <> [] -> Forall plain_line ls -> (length ls <= 1000)%nat -> last ls <> Some [] \/ length ls = 1%nat ->
  rows b.(lines) w0 -> length b.(lines) = 1000%nat ->
  exists l, set_lines (joined ls) b = Done (mk_buf l (Z.of_nat (length ls)) b.(cursor_line) b.(cursor_col) b.(scroll_offset) b.(filepath) 0) /\
    length l = 1000%nat /\ exists spare, rows l (ls ++ spare).
Proof.
  intros Hne Hp Hlen Hlast Hrows Hsize. pose proof (Forall2_length _ _ _ Hrows) as Hl.
  destruct (parse_joined ls b.(lines) [] w0 Hne Hp Hrows) as (l1 & s & init & x & spare & -> & E & H1 & Hl1); [cbn; lia|lia|].
  unfold set_lines. change 0 with (Z.of_nat (length (@nil (list Z)))) at 1. rewrite E. cbn [app] in *.
  rewrite length_app in Hlen. cbn in Hlen. apply Forall_app in Hp as [_ Hs]. apply Forall_cons in Hs as [Hs _].
  destruct (parse_row l1 init x spare s [] H1) as (row & l2 & E2 & Ea & row' & l3 & Eb & Ec & H3); [lia|done|].
  rewrite app_nil_r in E2. rewrite E2. cbn [parse_lines obind].
  rewrite last_snoc in Hlast.
  destruct (Z.ltb_spec 0 (Z.of_nat (length s))), (Z.eqb_spec (Z.of_nat (length init)) 0); cbn [orb].
  1,2,3: rewrite Ea; cbn [obind]; rewrite Eb; cbn [obind]; rewrite Ec; cbn [obind]; exists l3;
    (split; [do 2 f_equal; rewrite length_snoc_Z; done|]);
    (split; [apply Forall2_length in H1, H3; rewrite length_app in H1, H3; cbn in *; lia|]); exists spare; by rewrite <- app_assoc.
  exfalso. destruct s; cbn in *; [|lia]. rewrite length_app in Hlast. cbn in Hlast. destruct Hlast; [done|lia].
Qed.

(** ** A new editor on a stored file *)
Section Loading.
Context {W : Type} `{!FileApi W, !FileLaws W}.

(** An editor in memory that is not initialised. *)
Definition editor_memory (e : text_editor_t) : Prop :=
  length e.(buffer).(lines) = 1000%nat /\ Forall (fun r => length r = 256%nat) e.(buffer).(lines) /\
  length e.(buffer).(filepath) = 256%nat.

Lemma cleared l : Forall (fun r : list Z => length r = 256%nat) l -> rows (clear_rows l) (replicate (length l) []).
Proof.
  induction 1 as [|r l Hr Hl IH]; cbn [clear_rows fmap list_fmap length replicate]; constructor; [|exact IH].
  apply empty_holds; [done|lia].
Qed.

Lemma init_loads k cap fw fh e w path ls s : editor_memory e -> Forall plain_line (s :: ls) -> (length (s :: ls) <= 1000)%nat ->
  last (s :: ls) <> Some [] \/ ls = [] -> text path -> (length path < 256)%nat -> stored (S k) cap w path (joined (s :: ls)) ->
  (length (joined (s :: ls)) <= 4095)%nat ->
  exists e' w', text_editor_init fw fh (Some path) e w = Done (e', w') /\ shows e'.(buffer) (mk_doc [] [] s ls) /\
    cstr e'.(buffer).(filepath) = path /\ stored k cap w' path (joined (s :: ls)).
Proof.
  intros (Hlen & Hrows & Hfp) Hp Hls Hlast Ht Hpl Hst Hj. unfold text_editor_init.
  set (e1 := mk_editor _ _ _ _ _ _ _ _ _ _ _ _). unfold STRCPY. rewrite zstring_app by done. cbn [obind filepath]. unfold put.
  rewrite length_app. cbn [length]. rewrite decide_True by lia. cbn [obind lines].
  unfold text_editor_load. rewrite <- (cstr_id path Ht) in Hst.
  destruct (open_stored k cap w path FILE_READ _ Hst) as (fd & w1 & -> & Hfd & Ho). cbn [obind]. destruct (Z.ltb_spec fd 0); [lia|].
  destruct (read_opened k cap w1 fd _ _ (replicate 4096 0) 4095 Ho) as (w2 & -> & Ho2); [rewrite length_replicate; lia|lia|]. cbn [obind].
  rewrite Z.min_r in * by lia. rewrite wrap_small, Nat2Z.id by lia. rewrite take_ge by lia.
  rewrite aset_done by (rewrite length_app, length_drop, length_replicate; lia). cbn [obind].
  destruct (close_opened _ _ _ _ _ _ _ Ho2) as (w3 & -> & Hs3). cbn [obind]. rewrite Nat2Z.id, take_insert_ge by lia. rewrite take_app_length.
  match goal with |- context [set_lines _ ?b0] =>
    destruct (load_lines b0 (s :: ls) (replicate (length (lines (buffer e))) [])) as (l & E & Hll & spare & Hl) end;
    [done|done|done| |by apply cleared|cbn [lines]; unfold clear_rows; by rewrite length_fmap|].
  { destruct Hlast as [|Hl]; [by left|right; by rewrite Hl]. }
  rewrite E. cbn [obind]. eexists _, w3. split; [done|]. cbn [set_buffer buffer filepath lines].
  split; [|split].
  - split; cbn [lines line_count cursor_line cursor_col]; try done. by exists spare.
  - rewrite take_0. cbn [app]. rewrite <- app_assoc. by apply cstr_app_zero.
  - by rewrite (cstr_id path Ht) in Hs3.
Qed.
End Loading.

(** What the editor saves it loads again: if the lines of the document are
    plain (no zero byte, no line feed), the last is not empty unless it is the
    only one, the text has at most 4095 bytes and is at least as long as what
    the file held, then after saving, a new editor on the same path shows the
    same lines with the cursor at the start, whatever its memory held before. *)
Theorem editor_save_load {W : Type} `{!FileApi W, !FileLaws W} k cap b d (w : W) c s ls :
  shows b d -> doc_lines d = s :: ls -> Forall plain_line (s :: ls) -> last (s :: ls) <> Some [] \/ ls = [] ->
  holds 256 b.(filepath) (cstr b.(filepath)) -> cstr b.(filepath) <> [] -> stored (S (S k)) cap w (cstr b.(filepath)) c ->
  (length c <= length (joined (s :: ls)) <= 4095)%nat -> Z.of_nat (length (joined (s :: ls))) <= cap ->
  exists b' w1, text_editor_save b w = Done (b', w1) /\ shows b' d /\ b'.(modified) = 0 /\
    stored (S k) cap w1 (cstr b.(filepath)) (joined (s :: ls)) /\
    forall e fw fh, editor_memory e -> exists e' w2,
      text_editor_init fw fh (Some (cstr b.(filepath))) e w1 = Done (e', w2) /\ shows e'.(buffer) (mk_doc [] [] s ls).
Proof.
  intros H Hd Hp Hlast Hf Hne Hst Hc Hcap. rewrite <- Hd in Hcap.
  destruct (save_stores (S k) cap b d w c H) as (b' & w1 & E & Hs & Hm & Hfp & Hst1); [|done|done|].
  { destruct (filepath b) as [|x0 t]; [done|]. cbn in Hne |- *. intros ->. done. }
  rewrite Hd in Hst1. replace (overwrite c 0 (joined (s :: ls))) with (joined (s :: ls)) in Hst1.
  2: { unfold overwrite. rewrite drop_ge by lia. cbn [take app]. by rewrite app_nil_r. }
  exists b', w1. do 4 (split; [done|]). intros e fw fh He. pose proof (shows_bound _ _ H) as Hb. rewrite Hd in Hb.
  destruct (init_loads k cap fw fh e w1 (cstr (filepath b)) ls s He) as (e' & w2 & Ei & Hsh & _); try done; [apply cstr_nonzero|by apply holds_short in Hf|lia|].
  eauto.
Qed.

(** ** Files in memory, for evaluating the editors *)
Record mem_files := mk_mem { m_files : gmap (list Z) (list Z); m_fds : gmap Z (list Z * Z); m_next : Z }.

#[global] Instance mem_api : FileApi mem_files := {|
  f_open path flags w :=
    match m_files w !! cstr path with
    | Some _ => Done (m_next w, mk_mem (m_files w) (<[m_next w := (cstr path, 0)]> (m_fds w)) (m_next w + 1))
    | None => Done (-1, w)
    end;
  f_close fd w := Done (mk_mem (m_files w) (delete fd (m_fds w)) (m_next w));
  f_read fd into n w :=
    match m_fds w !! fd with
    | Some (path, pos) =>
      let c := take (Z.to_nat n) (drop (Z.to_nat pos) (default [] (m_files w !! path))) in
      Done (Z.of_nat (length c), c ++ drop (length c) into,
            mk_mem (m_files w) (<[fd := (path, pos + Z.of_nat (length c))]> (m_fds w)) (m_next w))
    | None => Done (-1, into, w)
    end;
  f_write fd buf n w :=
    match m_fds w !! fd with
    | Some (path, pos) =>
      Done (n, mk_mem (<[path := overwrite (default [] (m_files w !! path)) (Z.to_nat pos) (take (Z.to_nat n) buf)]> (m_files w))
                 (<[fd := (path, pos + n)]> (m_fds w)) (m_next w))
    | None => Done (-1, w)
    end;
  f_create path perm w := Done (0, mk_mem (<[cstr path := []]> (m_files w)) (m_fds w) (m_next w));
  f_unlink path w := Done (0, mk_mem (delete (cstr path) (m_files w)) (m_fds w) (m_next w));
  f_cwd w := [47] |}.

(** A saved document of two lines. *)
Definition two_lines : doc := mk_doc [[104; 105]] [111] [107] [].
Definition two_lines_buffer : editor_buffer_t :=
  mk_buf (([104; 105] ++ replicate 254 0) :: ([111; 107] ++ replicate 254 0) :: replicate 998 (replicate 256 0))
    2 1 1 0 (47 :: 97 :: replicate 254 0) 1.
Definition one_file : mem_files := mk_mem {[ [47; 97] := [120; 121] ]} ∅ 3.

Lemma two_lines_shown : shows two_lines_buffer two_lines.
Proof.
  split; [|done..]. exists (replicate 998 []). cbn [above left right below app two_lines two_lines_buffer lines].
  constructor; [|constructor; [|apply Forall2_replicate]]; (split; [done|]); (split; [repeat constructor; done|]).
  - by exists (replicate 253 0).
  - by exists (replicate 253 0).
  - by exists (replicate 255 0).
Qed.

Lemma two_lines_path : holds 256 two_lines_buffer.(filepath) (cstr two_lines_buffer.(filepath)).
Proof. split; [reflexivity|]. split; [repeat constructor; discriminate|]. by exists (replicate 253 0). Qed.

(** The file is made empty on a RAM disk, then the document is saved in it. *)
#[local] Existing Instances disk_api disk_laws disk_make_laws.
Lemma editor_save_load_witness : exists w0 b' w1, text_editor_save two_lines_buffer w0 = Done (b', w1) /\
  shows b' two_lines /\ b'.(modified) = 0 /\ stored 1 disk_room w1 [47; 97] [104; 105; 10; 111; 107] /\
  forall e fw fh, editor_memory e -> exists e' w2,
    text_editor_init fw fh (Some [47; 97]) e w1 = Done (e', w2) /\ shows e'.(buffer) (mk_doc [] [] [104; 105] [[111; 107]]).
Proof.
  destruct (make_file 2 disk_room disk_state [47; 97] 3 disk_makeable) as (_ & _ & _ & w0 & _ & _ & Hst). exists w0.
  apply (editor_save_load 0 disk_room two_lines_buffer two_lines w0 [] [104; 105] [[111; 107]] two_lines_shown eq_refl).
  - repeat constructor; cbn; lia.
  - left. discriminate.
  - exact two_lines_path.
  - discriminate.
  - exact Hst.
  - cbn. lia.
  - vm_compute. discriminate.
Defined.

(** A shorter text leaves the tail of the old contents in the file. *)
Lemma save_keeps_tail :
  match text_editor_save (mk_buf (replicate 1000 (replicate 256 0)) 1 0 0 0 (47 :: 97 :: replicate 254 0) 1) one_file with
  | Done (_, w) => m_files w !! [47; 97] = Some [120; 121]
  | _ => False
  end.
Proof. vm_compute. reflexivity. Qed.

(** The empty last line of a document is not loaded again. *)
Lemma load_drops_last_line :
  match set_lines (joined [[104]; []]) (empty_buffer [0]) with Done b => b.(line_count) = 1 | _ => False end.
Proof. vm_compute. reflexivity. Qed.
End EditorFiles.

(** * The editor's window

    Drawing stays inside the window, and the loop that reads the keyboard
    applies the keys in order until Escape. *)
Module EditorWindow.
Import StrBuf Files Console Keyboard KeyboardProps Paint Desk TextEditor EditorDoc EditorProps.
Local Open Scope Z_scope.
Local Open Scope outcome_scope.

(** ** Drawing *)
Lemma length_digits n : forall k num, num < 10 ^ Z.of_nat k -> (length (digits n num) <= k)%nat.
Proof.
  induction n as [|n IH]; intros k num Hk; cbn [digits]; [cbn; lia|]. destruct (Z.ltb_spec 0 num); [|cbn; lia].
  destruct k as [|k]; [cbn in Hk; lia|]. cbn [length]. apply le_n_S, IH. rewrite Nat2Z.inj_succ, Z.pow_succ_r in Hk by lia.
  apply Z.div_lt_upper_bound; lia.
Qed.

Lemma length_line_num num : 1 <= num <= 1000 -> (length (line_num num) <= 4)%nat.
Proof.
  intros Hn. unfold line_num. destruct (Z.eqb_spec num 0); [lia|]. rewrite length_reverse.
  apply (length_digits 10 4). change (10 ^ Z.of_nat 4) with 10000. lia.
Qed.

Section Drawing.
Context (e : text_editor_t) (Hvis : e.(visible) <> 0) (Hw : e.(TextEditor.width) = EDITOR_WIDTH) (Hh : e.(TextEditor.height) = EDITOR_HEIGHT).
Context (Hx : 0 <= e.(x)) (Hx' : e.(x) + EDITOR_WIDTH <= 2 ^ 31) (Hy : 0 <= e.(y)) (Hy' : e.(y) + EDITOR_HEIGHT <= 2 ^ 31).
Abbreviation inside := (paints (box e.(x) e.(y) EDITOR_WIDTH EDITOR_HEIGHT)).

Ltac bounds := unfold EDITOR_WIDTH, EDITOR_HEIGHT, EDITOR_TITLE_HEIGHT, EDITOR_TOOLBAR_HEIGHT, EDITOR_VISIBLE_COLS in *;
  rewrite ?length_take; cbn [length s_title s_save]; lia.

Lemma draw_title_inside : inside (draw_title e).
Proof. intros c Hc. unfold draw_title. rewrite Hw. cbv zeta. painting ltac:(bounds). Qed.

Lemma draw_toolbar_inside : inside (draw_toolbar e).
Proof. intros c Hc. unfold draw_toolbar. rewrite Hw. cbv zeta. painting ltac:(bounds). Qed.

Context (Hsize : length e.(buffer).(lines) = 1000%nat) (Hs0 : 0 <= e.(buffer).(TextEditor.scroll_offset))
  (Hcount : e.(buffer).(line_count) <= 1000) (Hcol : 0 <= e.(buffer).(cursor_col) <= 80).

Lemma draw_line_inside i c : 0 <= i < 26 -> e.(buffer).(TextEditor.scroll_offset) + i < e.(buffer).(line_count) -> screen_ok c ->
  exists c', draw_line e i c = Done c' /\ only (box e.(x) e.(y) EDITOR_WIDTH EDITOR_HEIGHT) c c'.
Proof.
  intros Hi Hlt Hc. unfold draw_line. set (n := scroll_offset (buffer e) + i) in *.
  destruct (lookup_lt_is_Some_2 (lines (buffer e)) (Z.to_nat n)) as [row Hrow]; [lia|].
  rewrite (aget_lookup _ _ row) by (done || lia). cbn [obind]. eexists. split; [done|].
  pose proof (length_line_num (n + 1) ltac:(lia)).
  unfold draw_caret. painting ltac:(bounds).
Qed.

Lemma draw_lines_inside n : forall i c, 0 <= i -> i + Z.of_nat n <= 26 -> screen_ok c ->
  exists c', draw_lines n i e c = Done c' /\ only (box e.(x) e.(y) EDITOR_WIDTH EDITOR_HEIGHT) c c'.
Proof.
  induction n as [|n IH]; intros i c Hi Hn Hc; cbn [draw_lines]; [exists c; split; [done|apply only_refl]|].
  destruct (Z.ltb_spec (scroll_offset (buffer e) + i) (line_count (buffer e))) as [Hlt|_]; [|exists c; split; [done|apply only_refl]].
  destruct (draw_line_inside i c ltac:(lia) Hlt Hc) as (c1 & -> & H1). cbn [obind].
  destruct (IH (i + 1) c1) as (c2 & -> & H2); [lia|lia|by eapply only_ok|]. exists c2. split; [done|]. by eapply only_trans.
Qed.

Lemma draw_inside c : screen_ok c ->
  exists c', text_editor_draw e c = Done c' /\ only (box e.(x) e.(y) EDITOR_WIDTH EDITOR_HEIGHT) c c'.
Proof.
  intros Hc. unfold text_editor_draw. destruct (Z.eqb_spec (visible e) 0); [done|]. rewrite Hw, Hh.
  match goal with |- context [draw_lines ?n 0 e ?c0] => assert (only (box e.(x) e.(y) EDITOR_WIDTH EDITOR_HEIGHT) c c0) as H0 end.
  { painting ltac:(bounds); [apply draw_title_inside|apply draw_toolbar_inside]. }
  match goal with |- context [draw_lines ?n 0 e ?c0] =>
    destruct (draw_lines_inside n 0 c0) as (c1 & -> & H1); [lia|vm_compute; congruence|by eapply only_ok|] end.
  cbn [obind]. eexists. split; [done|]. apply only_then; [done|by eapply only_trans|]. apply frame_inside; bounds.
Qed.
End Drawing.

(** Drawing the editor changes only pixels of its window, for any text in
    the buffer and any scroll position, while the cursor is in one of the first
    80 columns, the ones that are drawn; and it does not read outside the
    buffer. *)
Theorem editor_draws_inside e c : screen_ok c -> e.(visible) <> 0 -> e.(TextEditor.width) = EDITOR_WIDTH ->
  e.(TextEditor.height) = EDITOR_HEIGHT -> 0 <= e.(x) -> e.(x) + EDITOR_WIDTH <= 2 ^ 31 -> 0 <= e.(y) -> e.(y) + EDITOR_HEIGHT <= 2 ^ 31 ->
  length e.(buffer).(lines) = 1000%nat -> 0 <= e.(buffer).(TextEditor.scroll_offset) -> e.(buffer).(line_count) <= 1000 ->
  0 <= e.(buffer).(cursor_col) <= 80 ->
  exists c', text_editor_draw e c = Done c' /\ only (box e.(x) e.(y) EDITOR_WIDTH EDITOR_HEIGHT) c c'.
Proof. intros. by apply draw_inside. Qed.

(** An editor with one line of [n] letters and the cursor behind them, at 0, 0. *)
Definition line_editor (n : nat) : text_editor_t :=
  mk_editor 0 0 EDITOR_WIDTH EDITOR_HEIGHT 1
    (mk_buf ((replicate n 97 ++ replicate (256 - n) 0) :: replicate 999 (replicate 256 0)) 1 0 (Z.of_nat n) 0 (replicate 256 0) 1)
    0 0 0 (-1) (-1) nothing_saved.
Definition wide_screen : console := mk_console (mk_fb ∅ 1024 768 1024) (mk_cursor 0 0 WHITE BLACK) 1 0 0.

Lemma editor_draws_inside_witness : exists c', text_editor_draw (line_editor 5) wide_screen = Done c' /\
  only (box 0 0 EDITOR_WIDTH EDITOR_HEIGHT) wide_screen c'.
Proof.
  apply (editor_draws_inside (line_editor 5)); try (vm_compute; congruence); try reflexivity; repeat split; vm_compute; congruence.
Defined.

(** Behind the 80th column the cursor is drawn, outside the window. *)
Lemma caret_outside :
  match draw_line (line_editor 100) 0 wide_screen with Done c => pixel c 855 70 = 0xFFFFFF | _ => False end.
Proof. vm_compute. reflexivity. Qed.

(** ** Reading the keyboard *)

(** The keys of a sequence of scancodes up to Escape, without releases and the
    prefix of extended keys. *)
Fixpoint typed_keys (q : list Z) : list Z :=
  match q with
  | [] => []
  | k :: q => if (k =? 0xE0) || c_true (Z.land k 0x80) then typed_keys q
              else if Z.land k 0x7F =? 1 then [] else k :: typed_keys q
  end.
Fixpoint after_escape (q : list Z) : list Z :=
  match q with
  | [] => []
  | k :: q => if negb ((k =? 0xE0) || c_true (Z.land k 0x80)) && (Z.land k 0x7F =? 1) then q else after_escape q
  end.

Inductive keys_effect : list Z -> doc -> doc -> Prop :=
  | keys_nil d : keys_effect [] d d
  | keys_cons k ks d d1 d2 : key_effect k d d1 -> keys_effect ks d1 d2 -> keys_effect (k :: ks) d d2.

(** A code below 0x80 is its own key. *)
Lemma low_key k : is_byte k -> c_true (Z.land k 0x80) = false -> Z.land k 0x7F = k.
Proof.
  intros Hk Hc. pose proof (c_true_land_pow2 k 7 ltac:(lia)) as H. change (2 ^ 7) with 0x80 in H. rewrite Hc in H.
  change 0x7F with (Z.ones 7). rewrite Z.land_ones by lia. apply Z.mod_small. split; [apply Hk|].
  apply bits_above; [lia|apply Hk|]. intros i Hi. destruct (decide (i = 7)) as [->|]; [done|].
  apply (bits_above_zero 8); [exact Hk|lia].
Qed.

Lemma run_keys_spec q : forall fuel r s d, queue r q -> (length q < fuel)%nat -> Forall is_byte q -> shows s.(editor).(buffer) d ->
  s.(running) = true ->
  exists r' s' d', run_keys fuel r s = Done (r', s') /\ queue r' (after_escape q) /\ shows s'.(editor).(buffer) d' /\
    keys_effect (typed_keys q) d d'.
Proof.
  induction q as [|k q IH]; intros [|fuel] r s d Hq Hf Hb Hs Hrun; cbn [length] in Hf; try lia; cbn [run_keys].
  { rewrite (queue_empty _ _ Hq). cbn. exists r, s, d. split_and!; [done..|constructor]. }
  rewrite (queue_empty _ _ Hq), bool_decide_eq_false_2 by done. destruct (queue_get _ _ _ Hq) as (r' & -> & Hq').
  apply Forall_cons in Hb as [Hk Hb]. unfold run_key. cbn [typed_keys after_escape].
  destruct (Z.eqb_spec k 0xE0) as [->|]; cbn [orb negb andb].
  { cbn [obind running set_extended]. rewrite Hrun. by apply IH; [|lia|..]. }
  destruct (c_true (Z.land k 0x80)) eqn:Ec; cbn [orb negb andb].
  { cbn [obind running set_extended]. rewrite Hrun. by apply IH; [|lia|..]. }
  destruct (Z.eqb_spec (Z.land k 0x7F) 1).
  { cbn [obind running set_running]. exists r', (set_running false s), d. split_and!; [done..|constructor]. }
  rewrite (low_key k Hk Ec). replace (if was_extended s then k else k) with k by (by destruct (was_extended s)).
  destruct (handle_key_shows k _ _ Hs) as (b' & d1 & -> & _ & Hs1 & He & _). cbn [obind running set_redraw set_extended set_editor]. rewrite Hrun.
  edestruct (IH fuel r' (set_redraw true (set_extended false (set_editor (set_buffer b' (editor s)) s))) d1) as (r2 & s2 & d2 & E & Hq2 & Hs2 & He2);
    [done|lia|done|done|done|].
  exists r2, s2, d2. split_and!; [exact E|done|done|by econstructor].
Qed.
End EditorWindow.
