(* ===== verification/Icons.v ===== *)
(** * Desktop icons and the context menu (src/kernel/GUI/icons.c)

    Loading a directory into icons, sorting and arranging them, finding the
    icon under the mouse, the menu, and drawing. *)
From Stdlib Require Import ZArith Lia.
From stdpp Require Import base numbers list gmap.
From S2P Require Import Prelude CStr StrBuf VfsTypes Console Paint Desk.

Module Icons.
Import StrBuf Files Console Paint.
Local Open Scope Z_scope.
Local Open Scope outcome_scope.

Definition MAX_DESKTOP_ICONS : Z := 64.
Definition MAX_ICON_NAME_LEN : nat := 32.
Definition ICON_WIDTH : Z := 48.
Definition ICON_HEIGHT : Z := 48.
Definition ICON_SPACING : Z := 20.
Definition ICON_TEXT_OFFSET : Z := 52.

Inductive icon_type_t := ICON_TYPE_FOLDER | ICON_TYPE_FILE_GENERIC | ICON_TYPE_FILE_ELF | ICON_TYPE_FILE_ASM | ICON_TYPE_FILE_TXT.

Record desktop_icon_t := mk_icon {
  name : list Z; full_path : list Z; type : icon_type_t; ix : Z; iy : Z; is_directory : Z; size : Z; selected : Z
}.
Record desktop_state_t := mk_desktop { icons : list desktop_icon_t; count : Z; selected_index : Z }.

(** ** File types *)
Definition str_ends_with (str suffix : list Z) : bool :=
  let n := length (cstr str) in let k := length (cstr suffix) in
  if (n <? k)%nat then false else bool_decide (drop (n - k) (cstr str) = cstr suffix).

Definition elf1 : list Z := [46; 101; 108; 102].
Definition elf2 : list Z := [46; 69; 76; 70].
Definition asm1 : list Z := [46; 97; 115; 109].
Definition asm2 : list Z := [46; 115].
Definition asm3 : list Z := [46; 65; 83; 77].
Definition asm4 : list Z := [46; 83].
Definition txt1 : list Z := [46; 116; 120; 116].
Definition txt2 : list Z := [46; 84; 88; 84].

Definition get_icon_type_from_name (name : list Z) (is_dir : Z) : icon_type_t :=
  if c_true is_dir then ICON_TYPE_FOLDER
  else if str_ends_with name elf1 || str_ends_with name elf2 then ICON_TYPE_FILE_ELF
  else if str_ends_with name asm1 || str_ends_with name asm2 || str_ends_with name asm3 || str_ends_with name asm4 then ICON_TYPE_FILE_ASM
  else if str_ends_with name txt1 || str_ends_with name txt2 then ICON_TYPE_FILE_TXT
  else ICON_TYPE_FILE_GENERIC.

(** ** Loading *)
Definition clear_icon (i : desktop_icon_t) : desktop_icon_t :=
  mk_icon (<[0%nat := 0]> (name i)) (<[0%nat := 0]> (full_path i)) ICON_TYPE_FILE_GENERIC 0 0 0 0 0.

Definition desktop_init (s : desktop_state_t) : desktop_state_t := mk_desktop (clear_icon <$> icons s) 0 (-1).

(** [path], a slash unless it ends with one, and the name. *)
Definition build_path (buf path entry_name : list Z) : outcome (list Z) :=
  let p := take 255 (cstr path) in
  let* buf := put buf 0 p in
  let i := length p in
  let* (buf, i) :=
    (if (0 <? i)%nat && negb (get buf (i - 1) =? 47) then let* buf := aset buf (Z.of_nat i) 47 in Done (buf, S i) else Done (buf, i)) in
  let n := take (255 - i) (cstr entry_name) in
  let* buf := put buf i n in
  aset buf (Z.of_nat (i + length n)) 0.

Definition fill_icon (path : list Z) (n : vfs_node) (i : desktop_icon_t) : outcome desktop_icon_t :=
  let* fp := build_path (full_path i) path (n_name n) in
  let dir := if n_type n =? FILE_TYPE_DIRECTORY then 1 else 0 in
  Done (mk_icon (strcpy_safe (name i) (n_name n) MAX_ICON_NAME_LEN) fp (get_icon_type_from_name (n_name n) dir)
          (ix i) (iy i) dir (n_size n) 0).

Section Loading.
Context {W : Type} `{!DirApi W}.

(** The entry is read before the number of icons is tested. *)
Fixpoint load_entries (fuel : nat) (dir : Z) (index : Z) (path : list Z) (s : desktop_state_t) (w : W) : outcome (desktop_state_t * W) :=
  match fuel with
  | O => OutOfFuel
  | S fuel =>
    let* (entry, w) := v_readdir dir index w in
    match entry with
    | None => Done (s, w)
    | Some a =>
      if count s <? MAX_DESKTOP_ICONS then
        let* n := v_node a w in
        let* icon := aget (icons s) (count s) in
        let* icon := fill_icon path n icon in
        let* l := aset (icons s) (count s) icon in
        load_entries fuel dir (u32 (index + 1)) path (mk_desktop l (count s + 1) (selected_index s)) (v_kfree a w)
      else Done (s, w)
    end
  end.

Definition desktop_load_directory (s : desktop_state_t) (path : list Z) (w : W) : outcome (Z * desktop_state_t * W) :=
  let* (dir, w) := v_resolve path w in
  match dir with
  | None => Done (-1, s, w)
  | Some d =>
    let* n := v_node d w in
    if negb (n_type n =? FILE_TYPE_DIRECTORY) then Done (-1, s, w) else
    let* (s, w) := load_entries 66 d 0 path (desktop_init s) w in
    Done (count s, s, w)
  end.
End Loading.

(** ** Sorting *)
Definition compare_icons (a b : desktop_icon_t) : Z :=
  if c_true (is_directory a) && negb (c_true (is_directory b)) then -1
  else if negb (c_true (is_directory a)) && c_true (is_directory b) then 1
  else strcmp_safe (name a) (name b).

(** The body of the inner loop; [j + 1] is below the number of icons. *)
Definition swap_step (j : nat) (l : list desktop_icon_t) : list desktop_icon_t :=
  match l !! j, l !! S j with
  | Some a, Some b => if 0 <? compare_icons a b then <[S j := a]> (<[j := b]> l) else l
  | _, _ => l
  end.

Definition desktop_sort_icons (s : desktop_state_t) : desktop_state_t :=
  if count s <=? 1 then s else
  let n := Z.to_nat (count s) in
  mk_desktop (for_range 0 (n - 1) (fun i => for_range 0 (n - i - 1) swap_step) (icons s)) (count s) (selected_index s).

(** ** Arranging *)
Definition place (x y : Z) (i : desktop_icon_t) : desktop_icon_t :=
  mk_icon (name i) (full_path i) (type i) x y (is_directory i) (size i) (selected i).

Definition column_width : Z := ICON_WIDTH + ICON_SPACING.
Definition row_height : Z := ICON_HEIGHT + ICON_TEXT_OFFSET + 10.

(** The loop, with [current_x] and [current_y]. *)
Fixpoint arrange_from (n : nat) (cx cy max_y : Z) (l : list desktop_icon_t) : list desktop_icon_t :=
  match n, l with
  | S n, i :: l =>
    let '(nx, ny) := if max_y <? cy + row_height then (cx + column_width, 20) else (cx, cy + row_height) in
    place cx cy i :: arrange_from n nx ny max_y l
  | _, _ => l
  end.

Definition desktop_arrange_icons (s : desktop_state_t) (screen_width screen_height taskbar_height : Z) : desktop_state_t :=
  mk_desktop (arrange_from (Z.to_nat (count s)) 20 20 (screen_height - taskbar_height - row_height) (icons s))
    (count s) (selected_index s).

(** ** Mouse *)
Definition on_icon (mx my : Z) (i : desktop_icon_t) : bool :=
  (ix i <=? mx) && (mx <? ix i + ICON_WIDTH) && (iy i <=? my) && (my <? iy i + ICON_TEXT_OFFSET + 8).

Fixpoint icon_from (k : Z) (mx my : Z) (l : list desktop_icon_t) : Z :=
  match l with
  | [] => -1
  | i :: l => if on_icon mx my i then k else icon_from (k + 1) mx my l
  end.
Definition desktop_icon_at_position (s : desktop_state_t) (mx my : Z) : Z := icon_from 0 mx my (take (Z.to_nat (count s)) (icons s)).

Definition set_selected (v : Z) (i : desktop_icon_t) : desktop_icon_t :=
  mk_icon (name i) (full_path i) (type i) (ix i) (iy i) (is_directory i) (size i) v.

Definition desktop_select_icon (s : desktop_state_t) (index : Z) : desktop_state_t :=
  let n := Z.to_nat (count s) in
  let l := (set_selected 0 <$> take n (icons s)) ++ drop n (icons s) in
  if (0 <=? index) && (index <? count s) then mk_desktop (alter (set_selected 1) (Z.to_nat index) l) (count s) index
  else mk_desktop l (count s) (-1).

(** ** Drawing icons *)
Definition draw_folder_icon (x y color : Z) (c : console) : console :=
  let folder_color := if color =? 0 then 0xFFD700 else color in
  let dark_folder := if color =? 0 then 0xDAA520 else Z.land color 0xCCCCCC in
  let c := fill_rect (x + 2) (y + 8) 20 8 dark_folder c in
  let c := fill_rect (x + 2) (y + 16) 44 28 folder_color c in
  let c := for_range 0 44 (fun dx c => plot (x + Z.of_nat dx + 2) (y + 43) dark_folder (plot (x + Z.of_nat dx + 2) (y + 16) dark_folder c)) c in
  for_range 0 28 (fun dy c => plot (x + 45) (y + Z.of_nat dy + 16) dark_folder (plot (x + 2) (y + Z.of_nat dy + 16) dark_folder c)) c.

Definition draw_file_icon (x y color : Z) (c : console) : console :=
  let border_color := 0x808080 in
  let c := fill_rect (x + 8) (y + 4) 32 40 0xFFFFFF c in
  let c := for_range 0 8 (fun i => for_range 0 (S i) (fun j => plot (x + 32 + Z.of_nat j) (y + 4 + Z.of_nat i) border_color)) c in
  let c := for_range 0 32 (fun dx c => plot (x + Z.of_nat dx + 8) (y + 43) border_color (plot (x + Z.of_nat dx + 8) (y + 4) border_color c)) c in
  let c := for_range 0 40 (fun dy c =>
    let c := plot (x + 8) (y + Z.of_nat dy + 4) border_color c in
    if (8 <? dy)%nat then plot (x + 39) (y + Z.of_nat dy + 4) border_color c else c) c in
  if color =? 0 then c else fill_rect (x + 14) (y + 16) 20 4 color c.

Definition draw_elf_icon (x y : Z) (c : console) : console :=
  draw_string (u32 (x + 14)) (u32 (y + 24)) [69; 88; 69] 0x000000 0x00FF00 (draw_file_icon x y 0x00FF00 c).
Definition draw_asm_icon (x y : Z) (c : console) : console :=
  draw_string (u32 (x + 14)) (u32 (y + 24)) [65; 83] 0x000000 0x0080FF (draw_file_icon x y 0x0080FF c).
Definition draw_txt_icon (x y : Z) (c : console) : console :=
  for_range 0 3 (fun i => for_range 0 16 (fun dx => plot (x + 12 + Z.of_nat dx) (y + 16 + Z.of_nat i * 6) 0x808080))
    (draw_file_icon x y 0xFFFFFF c).
Definition draw_generic_icon (x y : Z) (c : console) : console := draw_file_icon x y 0x808080 c.

Definition desktop_draw_icon (i : desktop_icon_t) (c : console) : console :=
  let c := match type i with
           | ICON_TYPE_FOLDER => draw_folder_icon (ix i) (iy i) (if c_true (selected i) then 0xFFAA00 else 0) c
           | ICON_TYPE_FILE_ELF => draw_elf_icon (ix i) (iy i) c
           | ICON_TYPE_FILE_ASM => draw_asm_icon (ix i) (iy i) c
           | ICON_TYPE_FILE_TXT => draw_txt_icon (ix i) (iy i) c
           | _ => draw_generic_icon (ix i) (iy i) c
           end in
  let name_len := Z.of_nat (length (cstr (name i))) in
  draw_string (u32 (ix i + ICON_WIDTH / 2 - name_len * 4)) (u32 (iy i + ICON_TEXT_OFFSET)) (cstr (name i))
    (if c_true (selected i) then 0xFFFFFF else 0x000000) (if c_true (selected i) then 0x0080FF else 0x008B8B) c.

Definition desktop_draw_icons (s : desktop_state_t) (c : console) : console :=
  foldl (fun c i => desktop_draw_icon i c) c (take (Z.to_nat (count s)) (icons s)).

(** ** The context menu *)
Definition CONTEXT_MENU_WIDTH : Z := 150.
Definition CONTEXT_MENU_HEIGHT : Z := 90.
Definition CONTEXT_MENU_ITEM_HEIGHT : Z := 30.

Inductive context_menu_item_t := CONTEXT_MENU_CREATE_FILE | CONTEXT_MENU_CREATE_FOLDER | CONTEXT_MENU_OPEN_TERMINAL | CONTEXT_MENU_NONE.
Record context_menu_t := mk_menu { mx : Z; my : Z; mvisible : Z; selected_item : Z }.

Definition context_menu_init : context_menu_t := mk_menu 0 0 0 (-1).
Definition context_menu_show (x y : Z) : context_menu_t := mk_menu x y 1 (-1).
Definition context_menu_hide (m : context_menu_t) : context_menu_t := mk_menu (mx m) (my m) 0 (-1).

Definition s_create_file : list Z := [67; 114; 101; 97; 116; 101; 32; 70; 105; 108; 101].
Definition s_create_folder : list Z := [67; 114; 101; 97; 116; 101; 32; 70; 111; 108; 100; 101; 114].
Definition s_return : list Z := [82; 101; 116; 117; 114; 110].

(** One item: highlighted if it is selected. *)
Definition draw_item (m : context_menu_t) (k : Z) (s : list Z) (c : console) : console :=
  let item_y := my m + 5 + k * CONTEXT_MENU_ITEM_HEIGHT in
  if selected_item m =? k then
    let c := for_range 0 (Z.to_nat (CONTEXT_MENU_ITEM_HEIGHT - 2)) (fun dy => for_range 2 (Z.to_nat (CONTEXT_MENU_WIDTH - 2)) (fun dx =>
               plot (mx m + Z.of_nat dx) (item_y + Z.of_nat dy) 0x0078D7)) c in
    letters (mx m + 10) (item_y + 8) 8 s 0xFFFFFF 0x0078D7 c
  else letters (mx m + 10) (item_y + 8) 8 s 0x000000 0xF0F0F0 c.

Definition context_menu_draw (m : context_menu_t) (c : console) : console :=
  if mvisible m =? 0 then c else
  let c := fill_rect (mx m) (my m) CONTEXT_MENU_WIDTH CONTEXT_MENU_HEIGHT 0xF0F0F0 c in
  let c := frame (mx m) (my m) CONTEXT_MENU_WIDTH CONTEXT_MENU_HEIGHT 0x808080 c in
  let c := draw_item m 0 s_create_file c in
  let c := draw_item m 1 s_create_folder c in
  draw_item m 2 s_return c.

Definition context_menu_get_item_at (m : context_menu_t) (x y : Z) : Z :=
  if mvisible m =? 0 then -1
  else if (x <? mx m) || (mx m + CONTEXT_MENU_WIDTH <=? x) || (y <? my m) || (my m + CONTEXT_MENU_HEIGHT <=? y) then -1
  else
    let relative_y := y - my m - 5 in
    if relative_y <? 0 then -1
    else let item := relative_y / CONTEXT_MENU_ITEM_HEIGHT in
         if (0 <=? item) && (item <? 3) then item else -1.

Definition context_menu_update_hover (m : context_menu_t) (x y : Z) : context_menu_t :=
  if mvisible m =? 0 then mk_menu (mx m) (my m) (mvisible m) (-1)
  else mk_menu (mx m) (my m) (mvisible m) (context_menu_get_item_at m x y).
End Icons.
