(* ===== verification/IconsProps.v ===== *)
(** * The desktop: order and places of the icons

    The bubble sort sorts, the grid has no overlaps, a click finds the icon
    under the mouse, drawing the menu stays inside it. *)
From Stdlib Require Import ZArith Lia.
From stdpp Require Import base numbers list gmap.
From S2P Require Import Prelude CStr StrBuf VfsTypes Console ConsoleProps Paint Desk Icons.

Module IconsProps.
Import StrBuf Files Console Paint Icons.
Local Open Scope Z_scope.

(** ** Comparing names *)
Fixpoint lexcmp (a b : list Z) : comparison :=
  match a, b with
  | [], [] => Eq
  | [], _ => Lt
  | _, [] => Gt
  | x :: a, y :: b => match x ?= y with Eq => lexcmp a b | c => c end
  end.

Lemma lexcmp_refl a : lexcmp a a = Eq.
Proof. induction a as [|x a IH]; cbn; [done|]. by rewrite Z.compare_refl. Qed.

Lemma lexcmp_opp a : forall b, lexcmp a b = CompOpp (lexcmp b a).
Proof.
  induction a as [|x a IH]; intros [|y b]; cbn; try done. rewrite (Z.compare_antisym y x). destruct (y ?= x); cbn; [apply IH|done..].
Qed.

Lemma lexcmp_trans a : forall b c, lexcmp a b <> Gt -> lexcmp b c <> Gt -> lexcmp a c <> Gt.
Proof.
  induction a as [|x a IH]; intros [|y b] [|z c]; cbn; try done.
  destruct (Z.compare_spec x y), (Z.compare_spec y z), (Z.compare_spec x z); try done; try lia; subst; try lia; apply IH.
Qed.

Lemma strcmp_lex s1 : forall s2, Forall is_byte s1 -> Forall is_byte s2 -> (strcmp_safe s1 s2 ?= 0) = lexcmp (cstr s1) (cstr s2).
Proof.
  assert (forall s2, Forall is_byte s2 -> (0 - get s2 0 ?= 0) = lexcmp [] (cstr s2)) as Hnil.
  { intros [|y s2] H; [done|]. apply Forall_cons in H as [Hy _]. unfold is_byte in Hy. cbn [get nth cstr].
    destruct (Z.eqb_spec y 0) as [->|]; [done|]. cbn [lexcmp]. apply Z.compare_lt_iff. unfold get. cbn. lia. }
  induction s1 as [|x s1 IH]; intros s2 H1 H2; [by apply Hnil|]. apply Forall_cons in H1 as [Hx H1].
  cbn [strcmp_safe cstr]. destruct (Z.eqb_spec x 0) as [->|Hx0]; [by apply Hnil|].
  replace (c_true x) with true by (unfold c_true; lia). cbn [andb]. unfold is_byte in Hx.
  destruct s2 as [|y s2]; unfold get; cbn [nth cstr].
  { destruct (Z.eqb_spec x 0); [done|]. cbn [lexcmp]. apply Z.compare_gt_iff. lia. }
  apply Forall_cons in H2 as [Hy H2]. unfold is_byte in Hy. destruct (Z.eqb_spec x y) as [<-|Hne].
  { destruct (Z.eqb_spec x 0); [done|]. cbn [drop lexcmp]. rewrite Z.compare_refl. rewrite drop_0. by apply IH. }
  destruct (Z.eqb_spec y 0) as [->|Hy0]; cbn [lexcmp].
  { apply Z.compare_gt_iff. lia. }
  destruct (Z.compare_spec x y) as [|Hlt|Hgt]; [done|apply Z.compare_lt_iff; lia|apply Z.compare_gt_iff; lia].
Qed.

(** Folders first, then by name. *)
Definition icon_key (i : desktop_icon_t) : list Z := (if c_true (is_directory i) then 0 else 1) :: cstr (name i).
Definition icon_le (a b : desktop_icon_t) : Prop := lexcmp (icon_key a) (icon_key b) <> Gt.
Definition byte_name (i : desktop_icon_t) : Prop := Forall is_byte (name i).

Lemma compare_icons_spec a b : byte_name a -> byte_name b -> (compare_icons a b ?= 0) = lexcmp (icon_key a) (icon_key b).
Proof.
  intros Ha Hb. unfold compare_icons, icon_key. destruct (c_true (is_directory a)), (c_true (is_directory b)); cbn [negb andb lexcmp]; try done.
  all: rewrite Z.compare_refl; by apply strcmp_lex.
Qed.

#[global] Instance icon_le_trans : Transitive icon_le.
Proof. intros a b c. apply lexcmp_trans. Qed.

(** ** Bubble sort *)
Section Bubble.
Context {A : Type} (R : relation A) `{!Transitive R} (P : A -> Prop) (gt : A -> A -> bool).
Context (gt_false : forall a b, P a -> P b -> gt a b = false -> R a b) (gt_true : forall a b, P a -> P b -> gt a b = true -> R b a).

Definition bubble (j : nat) (l : list A) : list A :=
  match l !! j, l !! S j with
  | Some a, Some b => if gt a b then <[S j := a]> (<[j := b]> l) else l
  | _, _ => l
  end.

(** The largest of the first [m + 1] is at [m]. *)
Definition carried (l0 : list A) (m : nat) (l : list A) : Prop :=
  Permutation (take (S m) l) (take (S m) l0) /\ drop (S m) l = drop (S m) l0 /\ length l = length l0 /\
  exists x, l !! m = Some x /\ forall k y, (k < m)%nat -> l !! k = Some y -> R y x.

Lemma carried_step l0 m l : Forall P l0 -> (S m < length l0)%nat -> carried l0 m l -> carried l0 (S m) (bubble m l).
Proof.
  intros HP Hm (Hp & Hd & Hl & x & Hx & Hmax). unfold bubble. rewrite Hx.
  destruct (lookup_lt_is_Some_2 l (S m)) as [y Hy]; [lia|]. rewrite Hy.
  assert (Permutation l l0) as Hall.
  { rewrite <- (take_drop (S m) l), <- (take_drop (S m) l0), Hd, Hp. done. }
  assert (forall k z, l !! k = Some z -> P z) as HPl.
  { intros k z Hz. apply list_elem_of_lookup_2 in Hz. rewrite Hall in Hz. rewrite Forall_forall in HP. by apply HP. }
  assert (Permutation (take (S (S m)) l) (take (S (S m)) l0)) as Hp2.
  { rewrite (take_S_r l _ y), Hp by done. pose proof (f_equal (fun q => q !! 0%nat) Hd) as Hd0. cbn beta in Hd0. rewrite !lookup_drop, Nat.add_0_r, Hy in Hd0. by rewrite (take_S_r l0 (S m) y) by done. }
  assert (drop (S (S m)) l = drop (S (S m)) l0) as Hd2.
  { replace (S (S m)) with (S m + 1)%nat by lia. by rewrite <- !drop_drop, Hd. }
  assert (l = take m l ++ x :: y :: drop (S (S m)) l) as El by (by rewrite <- (drop_S l y (S m) Hy), <- (drop_S l x m Hx), take_drop).
  pose proof (lookup_lt_Some _ _ _ Hy).
  assert (length (take m l) = m) as Htm by (rewrite length_take; lia).
  destruct (gt x y) eqn:Eg.
  - assert (<[S m := x]> (<[m := y]> l) = take m l ++ y :: x :: drop (S (S m)) l) as Ei.
    { rewrite El at 1. rewrite (insert_app_r_alt (take m l) (x :: _)), Htm, Nat.sub_diag by lia. cbn [insert list_insert].
      rewrite (insert_app_r_alt (take m l)), Htm by lia. by replace (S m - m)%nat with 1%nat by lia. }
    rewrite Ei. split; [|split; [|split]].
    + rewrite <- Hp2, (take_S_r l (S m) y), (take_S_r l m x), <- app_assoc, take_app_ge, Htm by (done || lia).
      replace (S (S m) - m)%nat with 2%nat by lia. cbn [take app]. rewrite take_0. apply Permutation_app_head. constructor.
    + rewrite drop_app_ge, Htm by lia. replace (S (S m) - m)%nat with 2%nat by lia. cbn [drop]. by rewrite drop_0, Hd2.
    + rewrite <- Ei, !length_insert. done.
    + exists x. split; [rewrite lookup_app_r, Htm by lia; by replace (S m - m)%nat with 1%nat by lia|].
      intros k z Hk Hz. destruct (decide (k = m)) as [->|].
      * rewrite lookup_app_r, Htm, Nat.sub_diag in Hz by lia. injection Hz as <-. apply gt_true; [by eapply HPl|by eapply HPl|done].
      * rewrite lookup_app_l, lookup_take_lt in Hz by lia. eapply Hmax; [|exact Hz]. lia.
  - split; [done|]. split; [done|]. split; [done|]. exists y. split; [done|]. intros k z Hk Hz.
    assert (R x y) by (apply gt_false; [by eapply HPl|by eapply HPl|done]).
    destruct (decide (k = m)) as [->|]; [congruence|]. trans x; [|done]. eapply Hmax; [|exact Hz]. lia.
Qed.

Lemma pass_spec l m : Forall P l -> (m < length l)%nat -> carried l m (for_range 0 m bubble l).
Proof.
  intros HP Hm. apply (for_range_inv (fun k l' => carried l k l')); [lia| |].
  - split; [done|]. split; [done|]. split; [done|]. destruct (lookup_lt_is_Some_2 l 0) as [x Hx]; [lia|]. exists x. split; [done|lia].
  - intros i x Hi H. apply carried_step; [done|lia|done].
Qed.

(** After [i] passes the last [i] of the first [n] are in place. *)
Definition settled (n : nat) (l0 : list A) (i : nat) (l : list A) : Prop :=
  Permutation (take n l) (take n l0) /\ drop n l = drop n l0 /\ length l = length l0 /\
  forall j k x y, (j < k < n)%nat -> (n - i <= k)%nat -> l !! j = Some x -> l !! k = Some y -> R x y.

Lemma settled_step n l0 i l : Forall P l0 -> (n <= length l0)%nat -> (i < n - 1)%nat -> settled n l0 i l ->
  settled n l0 (S i) (for_range 0 (n - i - 1) bubble l).
Proof.
  intros HP Hn Hi (Hp & Hd & Hl & Hs).
  assert (Permutation l l0) as Hall by (rewrite <- (take_drop n l), <- (take_drop n l0), Hd, Hp; done).
  assert (Forall P l) as HPl by (by rewrite Hall).
  destruct (pass_spec l (n - i - 1) HPl) as (Hp' & Hd' & Hl' & x & Hx & Hmax); [lia|].
  revert Hp' Hd' Hl' Hx Hmax. set (l' := for_range 0 _ bubble l). intros Hp' Hd' Hl' Hx Hmax.
  replace (S (n - i - 1)) with (n - i)%nat in * by lia.
  assert (forall k, (n - i <= k)%nat -> l' !! k = l !! k) as Htail.
  { intros k Hk. replace k with (n - i + (k - (n - i)))%nat by lia. by rewrite <- !lookup_drop, Hd'. }
  assert (forall j z, (j < n - i)%nat -> l' !! j = Some z -> exists j', (j' < n - i)%nat /\ l !! j' = Some z) as Hfrom.
  { intros j z Hj Hz. assert (z ∈ take (n - i) l') as Hin by (apply (list_elem_of_lookup_2 _ j); by rewrite lookup_take_lt).
    rewrite Hp' in Hin. apply list_elem_of_lookup_1 in Hin as (j' & Hj'). pose proof (lookup_lt_Some _ _ _ Hj') as Hlt.
    rewrite length_take in Hlt. rewrite lookup_take_lt in Hj' by lia. exists j'. split; [lia|done]. }
  split; [|split; [|split]].
  - rewrite <- Hp. assert (forall q : list A, take n q = take (n - i) q ++ take i (drop (n - i) q)) as Ht.
    { intros q. replace n with (n - i + i)%nat at 1 by lia. by rewrite take_take_drop. }
    rewrite !Ht, Hd', Hp'. done.
  - rewrite <- Hd. replace n with (n - i + i)%nat by lia. by rewrite <- !drop_drop, Hd'.
  - congruence.
  - intros j k a b Hjk Hk Ha Hb. destruct (decide (k = n - i - 1)%nat) as [->|Hne].
    + rewrite Hx in Hb. injection Hb as <-. eapply Hmax; [|exact Ha]. lia.
    + rewrite Htail in Hb by lia. destruct (decide (j < n - i)%nat) as [Hj|Hj].
      * destruct (Hfrom j a Hj Ha) as (j' & Hj' & Ha'). apply (Hs j' k a b); [lia|lia|done|done].
      * rewrite Htail in Ha by lia. apply (Hs j k a b); [lia|lia|done|done].
Qed.

Lemma bubble_sorts n l : Forall P l -> (1 < n <= length l)%nat ->
  settled n l n (for_range 0 (n - 1) (fun i => for_range 0 (n - i - 1) bubble) l).
Proof.
  intros HP Hn. cut (settled n l (n - 1) (for_range 0 (n - 1) (fun i => for_range 0 (n - i - 1) bubble) l)).
  { intros (Hp & Hd & Hl & Hs). split; [done|]. split; [done|]. split; [done|]. intros j k x y Hjk _. apply Hs; lia. }
  apply (for_range_inv (fun i l' => settled n l i l')); [lia| |].
  - split; [done|]. split; [done|]. split; [done|]. lia.
  - intros i l' Hi H. apply settled_step; [done|lia|lia|done].
Qed.
End Bubble.

(** ** The icons are sorted *)
Lemma swap_gt_false a b : byte_name a -> byte_name b -> (0 <? compare_icons a b) = false -> icon_le a b.
Proof.
  intros Ha Hb E. unfold icon_le. rewrite <- compare_icons_spec by done. apply Z.ltb_ge in E. intros H%Z.compare_gt_iff. lia.
Qed.
Lemma swap_gt_true a b : byte_name a -> byte_name b -> (0 <? compare_icons a b) = true -> icon_le b a.
Proof.
  intros Ha Hb E. unfold icon_le. rewrite lexcmp_opp, <- compare_icons_spec by done. apply Z.ltb_lt in E.
  intros H. rewrite (proj2 (Z.compare_gt_iff (compare_icons a b) 0)) in H by done. done.
Qed.

(** Sorting the icons of the desktop permutes them, leaves the unused
    slots alone, and puts folders before files and each group in the order of
    the names; names are compared byte by byte up to their terminator. *)
Theorem icons_sorted s : Forall byte_name (icons s) -> 0 <= count s <= Z.of_nat (length (icons s)) ->
  let s' := desktop_sort_icons s in let n := Z.to_nat (count s) in
  count s' = count s /\ Permutation (take n (icons s')) (take n (icons s)) /\ drop n (icons s') = drop n (icons s) /\
  forall j k a b, (j < k < n)%nat -> icons s' !! j = Some a -> icons s' !! k = Some b -> icon_le a b.
Proof.
  intros HP Hc. cbv zeta. unfold desktop_sort_icons. destruct (Z.leb_spec (count s) 1).
  { do 3 (split; [done|]). lia. }
  destruct (bubble_sorts icon_le byte_name (fun a b => 0 <? compare_icons a b) swap_gt_false swap_gt_true (Z.to_nat (count s)) (icons s) HP)
    as (Hp & Hd & _ & Hs); [lia|].
  split; [done|]. split; [exact Hp|]. split; [exact Hd|]. intros j k a b Hjk. apply Hs; lia.
Qed.

(** ** The grid *)
Definition apart (a b : desktop_icon_t) : Prop := ix a + column_width <= ix b \/ (ix b = ix a /\ iy a + row_height <= iy b).

Lemma arrange_later n : forall cx cy max_y l i a, (i < n)%nat -> arrange_from n cx cy max_y l !! i = Some a ->
  cx + column_width <= ix a \/ (ix a = cx /\ cy <= iy a).
Proof.
  induction n as [|n IH]; intros cx cy max_y l i a Hi Ha; [lia|]. destruct l as [|x l]; [done|].
  cbn [arrange_from] in Ha. destruct (max_y <? cy + row_height).
  - destruct i as [|i]; cbn in Ha; [injection Ha as <-; cbn; lia|]. apply IH in Ha; [|lia]. unfold column_width, ICON_WIDTH, ICON_SPACING in *. lia.
  - destruct i as [|i]; cbn in Ha; [injection Ha as <-; cbn; lia|]. apply IH in Ha; [|lia]. unfold row_height, ICON_HEIGHT, ICON_TEXT_OFFSET in *. lia.
Qed.

Lemma arrange_apart n : forall cx cy max_y l i j a b, (i < j < n)%nat -> arrange_from n cx cy max_y l !! i = Some a ->
  arrange_from n cx cy max_y l !! j = Some b -> apart a b.
Proof.
  induction n as [|n IH]; intros cx cy max_y l i j a b Hij Ha Hb; [lia|]. destruct l as [|x l]; [done|]. destruct j as [|j]; [lia|].
  cbn [arrange_from] in Ha, Hb. destruct (max_y <? cy + row_height) eqn:E.
  - destruct i as [|i]; cbn in Ha, Hb; [|by eapply (IH _ _ _ _ i j); [lia|..]]. injection Ha as <-. apply arrange_later in Hb; [|lia].
    unfold apart. cbn. unfold column_width, ICON_WIDTH, ICON_SPACING in *. lia.
  - destruct i as [|i]; cbn in Ha, Hb; [|by eapply (IH _ _ _ _ i j); [lia|..]]. injection Ha as <-. apply arrange_later in Hb; [|lia].
    unfold apart. cbn. lia.
Qed.

Lemma arrange_length n : forall cx cy max_y l, length (arrange_from n cx cy max_y l) = length l.
Proof. induction n as [|n IH]; intros cx cy max_y [|x l]; cbn; try done. destruct (_ <? _); cbn; by rewrite IH. Qed.

(** Only the places change. *)
Definition same_icon (a b : desktop_icon_t) : Prop := place 0 0 a = place 0 0 b.
Lemma arrange_same n : forall cx cy max_y l, Forall2 same_icon (arrange_from n cx cy max_y l) l.
Proof.
  induction n as [|n IH]; intros cx cy max_y [|x l]; cbn [arrange_from]; try constructor; try done.
  - induction l; by constructor.
  - destruct (_ <? _); by constructor.
Qed.

Lemma apart_off mx my a b : apart a b -> on_icon mx my b = true -> on_icon mx my a = false.
Proof.
  unfold apart, on_icon, column_width, row_height, ICON_WIDTH, ICON_SPACING, ICON_HEIGHT, ICON_TEXT_OFFSET. intros H Hb.
  apply andb_prop in Hb as [Hb H4]. apply andb_prop in Hb as [Hb H3]. apply andb_prop in Hb as [H1 H2].
  destruct (Z.leb_spec (ix a) mx), (Z.ltb_spec mx (ix a + 48)), (Z.leb_spec (iy a) my), (Z.ltb_spec my (iy a + 52 + 8)); try done. lia.
Qed.

Lemma icon_from_spec mx my l : forall k, 0 <= k ->
  (exists i a, l !! i = Some a /\ on_icon mx my a = true /\ icon_from k mx my l = k + Z.of_nat i /\
     forall j b, (j < i)%nat -> l !! j = Some b -> on_icon mx my b = false) \/
  (icon_from k mx my l = -1 /\ forall i a, l !! i = Some a -> on_icon mx my a = false).
Proof.
  induction l as [|x l IH]; intros k Hk; cbn [icon_from]; [by right|]. destruct (on_icon mx my x) eqn:E.
  - left. exists 0%nat, x. split_and!; [done|done|lia|lia].
  - destruct (IH (k + 1) ltac:(lia)) as [(i & a & Ha & Ho & -> & Hb)|[-> Hn]].
    + left. exists (S i), a. split_and!; [done|done|lia|]. intros [|j] b Hj Hj'; [by injection Hj' as <-|]. apply (Hb j b); [lia|done].
    + right. split; [done|]. intros [|i] a Ha; [by injection Ha as <-|]. by apply (Hn i).
Qed.

(** The icons the desktop arranges can be clicked: whatever the size of the
    screen, the mouse is over the picture or the label area of the icon [i]
    exactly when the desktop finds [i] there, and it finds none elsewhere.
    Arranging changes nothing of the icons but their places. *)
Theorem icons_clickable s w h bar mx my : 0 <= count s <= Z.of_nat (length (icons s)) ->
  let s' := desktop_arrange_icons s w h bar in
  Forall2 same_icon (icons s') (icons s) /\
  (forall i a, 0 <= i < count s -> icons s' !! Z.to_nat i = Some a ->
     (on_icon mx my a = true <-> desktop_icon_at_position s' mx my = i)) /\
  (desktop_icon_at_position s' mx my = -1 <-> forall i a, 0 <= i < count s -> icons s' !! Z.to_nat i = Some a -> on_icon mx my a = false).
Proof.
  intros Hc s'. unfold s', desktop_arrange_icons, desktop_icon_at_position. cbn [icons count].
  split; [apply arrange_same|]. set (max_y := h - bar - row_height). set (n := Z.to_nat (count s)).
  set (l := arrange_from n 20 20 max_y (icons s)).
  assert (forall i, (i < n)%nat -> take n l !! i = l !! i) as Ht by (intros; by rewrite lookup_take_lt).
  destruct (icon_from_spec mx my (take n l) 0 ltac:(lia)) as [(i & a & Ha & Ho & E & _)|[E Hn]].
  - pose proof (lookup_lt_Some _ _ _ Ha) as Hi. rewrite length_take in Hi. rewrite Ht in Ha by lia. rewrite E. split.
    + intros i' a' Hi' Ha'. split; [|intros <-; replace (Z.to_nat (0 + Z.of_nat i)) with i in Ha' by lia; congruence]. intros Ho'.
      destruct (Nat.lt_trichotomy i (Z.to_nat i')) as [Hlt|[Heq|Hlt]]; [|lia|].
      * by rewrite (apart_off mx my a a') in Ho; [|eapply (arrange_apart n); [|exact Ha|exact Ha']; lia|].
      * by rewrite (apart_off mx my a' a) in Ho'; [|eapply (arrange_apart n); [|exact Ha'|exact Ha]; lia|].
    + split; [lia|]. intros Hnone. specialize (Hnone (Z.of_nat i) a ltac:(lia)). rewrite Nat2Z.id in Hnone. rewrite (Hnone Ha) in Ho. done.
  - assert (forall i a, 0 <= i < count s -> l !! Z.to_nat i = Some a -> on_icon mx my a = false) as Hoff.
    { intros i a Hi Ha. apply (Hn (Z.to_nat i)). rewrite Ht by lia. done. }
    rewrite E. split; [|done]. intros i a Hi Ha. rewrite (Hoff i a Hi Ha). split; [done|lia].
Qed.

(** ** Selecting *)
Lemma select_one s i : 0 <= i < count s -> count s <= Z.of_nat (length (icons s)) ->
  let s' := desktop_select_icon s i in selected_index s' = i /\
  forall j a, (j < Z.to_nat (count s))%nat -> icons s' !! j = Some a -> c_true (selected a) = bool_decide (Z.of_nat j = i).
Proof.
  intros Hi Hc. cbv zeta. unfold desktop_select_icon. destruct (Z.leb_spec 0 i), (Z.ltb_spec i (count s)); try lia. cbn [andb icons selected_index].
  split; [done|]. intros j a Hj. rewrite list_lookup_alter. case_decide as Hd.
  - subst j. rewrite Z2Nat.id, bool_decide_eq_true_2 by lia. intros (b & _ & ->)%fmap_Some. done.
  - rewrite bool_decide_eq_false_2 by lia. rewrite lookup_app_l by (rewrite length_fmap, length_take; lia).
    rewrite list_lookup_fmap. intros (b & _ & ->)%fmap_Some. done.
Qed.

(** ** The menu *)
Lemma menu_item_found m x y k : mvisible m <> 0 -> 0 <= k < 3 -> mx m <= x < mx m + CONTEXT_MENU_WIDTH ->
  my m + 5 + k * CONTEXT_MENU_ITEM_HEIGHT <= y < my m + 5 + (k + 1) * CONTEXT_MENU_ITEM_HEIGHT -> y < my m + CONTEXT_MENU_HEIGHT ->
  context_menu_get_item_at m x y = k.
Proof.
  unfold context_menu_get_item_at, CONTEXT_MENU_WIDTH, CONTEXT_MENU_HEIGHT, CONTEXT_MENU_ITEM_HEIGHT. intros Hv Hk Hx Hy Hh.
  destruct (Z.eqb_spec (mvisible m) 0); [done|].
  destruct (Z.ltb_spec x (mx m)), (Z.leb_spec (mx m + 150) x), (Z.ltb_spec y (my m)), (Z.leb_spec (my m + 90) y); try lia. cbn [orb].
  destruct (Z.ltb_spec (y - my m - 5) 0); [lia|]. replace ((y - my m - 5) / 30) with k by (apply Z.div_unique with (y - my m - 5 - 30 * k); lia).
  destruct (Z.leb_spec 0 k), (Z.ltb_spec k 3); done || lia.
Qed.

(** The highlight of the third item is three rows longer than the menu. *)
Definition menu_bottom (m : context_menu_t) : Z := if selected_item m =? 2 then CONTEXT_MENU_HEIGHT + 3 else CONTEXT_MENU_HEIGHT.

Lemma draw_item_inside m k s h : 0 <= mx m -> mx m + CONTEXT_MENU_WIDTH <= 2 ^ 31 -> 0 <= my m -> my m + h <= 2 ^ 31 ->
  0 <= k < 3 -> (length s <= 13)%nat -> CONTEXT_MENU_HEIGHT <= h -> (selected_item m = 2 -> h = CONTEXT_MENU_HEIGHT + 3) ->
  paints (box (mx m) (my m) CONTEXT_MENU_WIDTH h) (draw_item m k s).
Proof.
  intros Hx Hx' Hy Hy' Hk Hs Hh Hsel c Hc. unfold draw_item, CONTEXT_MENU_WIDTH, CONTEXT_MENU_HEIGHT, CONTEXT_MENU_ITEM_HEIGHT in *.
  destruct (Z.eqb_spec (selected_item m) k).
  - apply only_then; [done| |].
    + apply only_then; [done|apply only_refl|]. apply paints_loop. intros i Hi. apply paints_loop. intros j Hj. apply plot_inside; lia.
    + apply letters_inside; lia.
  - painting ltac:(lia).
Qed.

Lemma menu_inside m c : screen_ok c -> 0 <= mx m -> mx m + CONTEXT_MENU_WIDTH <= 2 ^ 31 -> 0 <= my m -> my m + 93 <= 2 ^ 31 ->
  only (box (mx m) (my m) CONTEXT_MENU_WIDTH (menu_bottom m)) c (context_menu_draw m c).
Proof.
  intros Hc Hx Hx' Hy Hy'. unfold context_menu_draw. destruct (_ =? _); [apply only_refl|].
  assert (CONTEXT_MENU_HEIGHT <= menu_bottom m <= 93 /\ (selected_item m = 2 -> menu_bottom m = CONTEXT_MENU_HEIGHT + 3)) as [Hb Hs].
  { unfold menu_bottom, CONTEXT_MENU_HEIGHT. destruct (Z.eqb_spec (selected_item m) 2); lia. }
  repeat (apply only_then; [done| |]); [apply only_refl|..].
  - apply fill_rect_inside; lia.
  - apply frame_inside; unfold CONTEXT_MENU_HEIGHT, CONTEXT_MENU_WIDTH in *; lia.
  - apply draw_item_inside; (done || (cbn; lia) || lia).
  - apply draw_item_inside; (done || (cbn; lia) || lia).
  - apply draw_item_inside; (done || (cbn; lia) || lia).
Qed.

(** ** Three icons *)
Definition an_icon (c dir : Z) : desktop_icon_t := mk_icon [c; 0] [47; c; 0] ICON_TYPE_FILE_GENERIC 0 0 dir 0 0.
Definition three_icons : desktop_state_t := mk_desktop [an_icon 98 0; an_icon 122 1; an_icon 97 0] 3 (-1).

Lemma icons_sorted_witness :
  let s' := desktop_sort_icons three_icons in
  icons s' = [an_icon 122 1; an_icon 97 0; an_icon 98 0] /\
  count s' = 3 /\ Permutation (take 3 (icons s')) (take 3 (icons three_icons)) /\ drop 3 (icons s') = [] /\
  forall j k a b, (j < k < 3)%nat -> icons s' !! j = Some a -> icons s' !! k = Some b -> icon_le a b.
Proof. split; [vm_compute; reflexivity|]. apply (icons_sorted three_icons); [repeat constructor; cbn; lia|cbn; lia]. Defined.

Lemma icons_clickable_witness :
  let s' := desktop_arrange_icons three_icons 640 300 48 in
  desktop_icon_at_position s' 100 30 = 2 /\
  Forall2 same_icon (icons s') (icons three_icons) /\
  (forall i a, 0 <= i < 3 -> icons s' !! Z.to_nat i = Some a ->
     (on_icon 100 30 a = true <-> desktop_icon_at_position s' 100 30 = i)) /\
  (desktop_icon_at_position s' 100 30 = -1 <-> forall i a, 0 <= i < 3 -> icons s' !! Z.to_nat i = Some a -> on_icon 100 30 a = false).
Proof. split; [vm_compute; reflexivity|]. apply (icons_clickable three_icons 640 300 48 100 30). cbn. lia. Defined.
End IconsProps.
