(* ===== verification/Taskbar.v ===== *)
(** * The taskbar (src/kernel/GUI/taskbar.c) *)
From Stdlib Require Import ZArith Lia.
From stdpp Require Import base numbers list gmap.
From S2P Require Import Prelude CStr StrBuf Console ConsoleProps Paint.

Module Taskbar.
Import StrBuf Console Paint.
Local Open Scope Z_scope.
Local Open Scope outcome_scope.

Definition MAX_TASKBAR_ITEMS : Z := 10.
Definition TASKBAR_ITEM_WIDTH : Z := 120.
Definition TASKBAR_ITEM_HEIGHT : Z := 40.
Definition TASKBAR_ICON_SIZE : Z := 32.

Inductive taskbar_item_type_t := TASKBAR_ITEM_MKDIR | TASKBAR_ITEM_MKFILE | TASKBAR_ITEM_EDITOR.
#[global] Instance taskbar_item_type_dec : EqDecision taskbar_item_type_t.
Proof. solve_decision. Defined.

Record taskbar_item_t := mk_item { ttype : taskbar_item_type_t; label : list Z; tx : Z; ty : Z; active : Z }.
Record taskbar_t := mk_taskbar { items : list taskbar_item_t; tcount : Z; theight : Z; hover_item : Z }.

Definition taskbar_init (height : Z) (t : taskbar_t) : taskbar_t :=
  mk_taskbar ((fun i => mk_item TASKBAR_ITEM_MKDIR (<[0%nat := 0]> (label i)) 0 0 0) <$> items t) 0 height (-1).

Definition taskbar_add_item (ty' : taskbar_item_type_t) (lab : list Z) (t : taskbar_t) : outcome taskbar_t :=
  if MAX_TASKBAR_ITEMS <=? tcount t then Done t else
  let* item := aget (items t) (tcount t) in
  let* l := STRCPY (label item) lab in
  let* its := aset (items t) (tcount t) (mk_item ty' l (tx item) (ty item) 1) in
  Done (mk_taskbar its (tcount t + 1) (theight t) (hover_item t)).

(** [for (i = index; n times; i++) items[i] = items[i + 1];] *)
Fixpoint shift_items (n : nat) (i : Z) (l : list taskbar_item_t) : outcome (list taskbar_item_t) :=
  match n with
  | O => Done l
  | S n => let* a := aget l (i + 1) in let* l := aset l i a in shift_items n (i + 1) l
  end.

Definition taskbar_remove_item (index : Z) (t : taskbar_t) : outcome taskbar_t :=
  if (index <? 0) || (tcount t <=? index) then Done t else
  let* its := shift_items (Z.to_nat (tcount t - 1 - index)) index (items t) in
  let n := tcount t - 1 in
  let* last := aget its n in
  let* its := aset its n (mk_item (ttype last) (label last) (tx last) (ty last) 0) in
  Done (mk_taskbar its n (theight t) (hover_item t)).

(** ** Drawing *)
Definition s_mkdir : list Z := [77; 75; 68; 73; 82].
Definition s_mk : list Z := [77; 75].
Definition s_file : list Z := [70; 73; 76; 69].

Definition taskbar_draw_icon (x y : Z) (ty' : taskbar_item_type_t) (c : console) : console :=
  let fg := 0x9B59B6 in
  let c := fill_rect x y TASKBAR_ICON_SIZE TASKBAR_ICON_SIZE 0 c in
  let c := for_range 2 (Z.to_nat (TASKBAR_ICON_SIZE - 2)) (fun dy => for_range 2 (Z.to_nat (TASKBAR_ICON_SIZE - 2)) (fun dx =>
             plot (x + Z.of_nat dx) (y + Z.of_nat dy) fg)) c in
  match ty' with
  | TASKBAR_ITEM_MKDIR => letters (x + 3) (y + 12) 5 s_mkdir 0 fg c
  | TASKBAR_ITEM_MKFILE => letters (x + 5) (y + 18) 5 s_file 0 fg (letters (x + 5) (y + 8) 6 s_mk 0 fg c)
  | TASKBAR_ITEM_EDITOR =>
    let c := for_range 4 28 (fun dy c => plot (x + 24) (y + Z.of_nat dy) 0 (plot (x + 8) (y + Z.of_nat dy) 0 c)) c in
    let c := for_range 8 24 (fun dx c => plot (x + Z.of_nat dx) (y + 27) 0 (plot (x + Z.of_nat dx) (y + 4) 0 c)) c in
    for_range 11 21 (fun dx c =>
      let px := x + Z.of_nat dx in
      plot px (y + 22) 0 (plot px (y + 18) 0 (plot px (y + 14) 0 (plot px (y + 10) 0 c)))) c
  end.

Definition has_type (t : taskbar_t) (ty' : taskbar_item_type_t) (i : nat) : bool :=
  match items t !! i with Some it => bool_decide (ttype it = ty') | None => false end.

(** The three passes: MKDIR, MKFILE, others. *)
Definition sorted_indices (t : taskbar_t) : list nat :=
  let l := seq 0 (Z.to_nat (tcount t)) in
  let mkdir := has_type t TASKBAR_ITEM_MKDIR in
  let mkfile := has_type t TASKBAR_ITEM_MKFILE in
  List.filter mkdir l ++ List.filter mkfile l ++ List.filter (fun i => negb (mkdir i) && negb (mkfile i)) l.

Definition place_item (px py : Z) (i : taskbar_item_t) : taskbar_item_t := mk_item (ttype i) (label i) px py (active i).

(** The item [idx] at position [k]. *)
Definition draw_item (item_y : Z) (k : Z) (idx : nat) (st : taskbar_t * console) : taskbar_t * console :=
  let '(t, c) := st in
  match items t !! idx with
  | None => (t, c)
  | Some item =>
    let item_x := 10 + k * (TASKBAR_ITEM_WIDTH + 5) in
    let t' := mk_taskbar (<[idx := place_item item_x item_y item]> (items t)) (tcount t) (theight t) (hover_item t) in
    let item_bg := if hover_item t =? Z.of_nat idx then 0xE0E0E0 else 0xF5F5F5 in
    let c := fill_rect item_x item_y TASKBAR_ITEM_WIDTH TASKBAR_ITEM_HEIGHT item_bg c in
    let c := frame item_x item_y TASKBAR_ITEM_WIDTH TASKBAR_ITEM_HEIGHT 0xCCCCCC c in
    let icon_x := item_x + 4 in
    let c := taskbar_draw_icon icon_x (item_y + (TASKBAR_ITEM_HEIGHT - TASKBAR_ICON_SIZE) / 2) (ttype item) c in
    let c := letters (icon_x + TASKBAR_ICON_SIZE + 5) (item_y + TASKBAR_ITEM_HEIGHT / 2 - 4) 8 (take 10 (cstr (label item))) 0 item_bg c in
    (t', c)
  end.

Fixpoint draw_items (item_y k : Z) (l : list nat) (st : taskbar_t * console) : taskbar_t * console :=
  match l with
  | [] => st
  | idx :: l => draw_items item_y (k + 1) l (draw_item item_y k idx st)
  end.

Definition taskbar_draw (screen_width screen_height : Z) (t : taskbar_t) (c : console) : taskbar_t * console :=
  let taskbar_y := screen_height - theight t in
  let c := fill_rect 0 taskbar_y screen_width (theight t) 0xFFFFFF c in
  let c := for_range 0 (Z.to_nat screen_width) (fun x => plot (Z.of_nat x) taskbar_y 0xCCCCCC) c in
  let item_y := taskbar_y + Z.quot (theight t - TASKBAR_ITEM_HEIGHT) 2 in
  draw_items item_y 0 (sorted_indices t) (t, c).

(** ** Mouse *)
Definition on_item (mx my : Z) (i : taskbar_item_t) : bool :=
  (tx i <=? mx) && (mx <? tx i + TASKBAR_ITEM_WIDTH) && (ty i <=? my) && (my <? ty i + TASKBAR_ITEM_HEIGHT).

Fixpoint item_from (k mx my : Z) (l : list taskbar_item_t) : Z :=
  match l with
  | [] => -1
  | i :: l => if on_item mx my i then k else item_from (k + 1) mx my l
  end.

Definition taskbar_get_item_at (t : taskbar_t) (mx my screen_height : Z) : Z :=
  if my <? screen_height - theight t then -1 else item_from 0 mx my (take (Z.to_nat (tcount t)) (items t)).

Definition taskbar_update_hover (t : taskbar_t) (mx my screen_height : Z) : taskbar_t :=
  mk_taskbar (items t) (tcount t) (theight t) (taskbar_get_item_at t mx my screen_height).

(** ** A list of items *)
Definition entry (i : taskbar_item_t) : taskbar_item_type_t * list Z := (ttype i, cstr (label i)).

(** The bar shows the entries, in 32-byte labels. *)
Record bar (t : taskbar_t) (es : list (taskbar_item_type_t * list Z)) : Prop := {
  bar_size : length (items t) = 10%nat;
  bar_count : tcount t = Z.of_nat (length es);
  bar_items : entry <$> take (length es) (items t) = es;
  bar_labels : Forall (fun i => exists s, holds 32 (label i) s) (items t) }.

Lemma bar_bound t es : bar t es -> (length es <= 10)%nat.
Proof. intros [Hs _ Hi _]. apply (f_equal length) in Hi. rewrite length_fmap, length_take in Hi. lia. Qed.

Lemma holds_cstr n r s : holds n r s -> cstr r = s.
Proof. intros (_ & Ht & rest & ->). by apply cstr_app_zero. Qed.

Lemma add_item_bar t es ty' lab s m : bar t es -> holds m lab s -> (length s < 32)%nat ->
  exists t', taskbar_add_item ty' lab t = Done t' /\ bar t' (if decide (length es < 10)%nat then es ++ [(ty', s)] else es) /\
    theight t' = theight t.
Proof.
  intros Hb Hl Hs. pose proof (bar_bound _ _ Hb). pose proof Hb as [Hsz Hc Hi Hlab]. unfold taskbar_add_item, MAX_TASKBAR_ITEMS.
  rewrite Hc. case_decide; [|destruct (Z.leb_spec 10 (Z.of_nat (length es))); [by exists t|lia]].
  destruct (Z.leb_spec 10 (Z.of_nat (length es))); [lia|].
  destruct (lookup_lt_is_Some_2 (items t) (length es)) as [it Hit]; [lia|].
  rewrite (aget_lookup _ _ it) by (rewrite ?Nat2Z.id; done || lia). cbn [obind].
  rewrite Forall_lookup in Hlab. destruct (Hlab _ _ Hit) as (s0 & Hs0).
  destruct (strcpy_holds 32 m (label it) lab s0 s Hs0 Hl Hs) as (l & -> & Hl'). cbn [obind]. rewrite aset_done by lia. cbn [obind].
  rewrite Nat2Z.id. eexists. split; [done|]. split; [|done]. split; cbn [items tcount].
  - by rewrite length_insert.
  - rewrite length_app. cbn. lia.
  - rewrite length_app. cbn [length]. rewrite Nat.add_1_r.
    rewrite (take_S_r _ _ (mk_item ty' l (tx it) (ty it) 1)) by (apply list_lookup_insert_eq; lia).
    rewrite take_insert_ge, fmap_app, Hi by lia. cbn. unfold entry. cbn. by rewrite (holds_cstr _ _ _ Hl').
  - rewrite Forall_lookup. intros j x Hx. apply list_lookup_insert_Some in Hx as [(_ & <- & _)|[_ Hx]]; [by exists s|by eapply Hlab].
Qed.

Lemma shift_items_spec u : forall a x t, shift_items (length u) (Z.of_nat (length a)) (a ++ x :: u ++ t) =
  Done (a ++ u ++ default x (last u) :: t).
Proof.
  induction u as [|y u IH]; intros a x t; [done|]. cbn [shift_items length app].
  pose proof (aget_mid (a ++ [x]) y (u ++ t)) as G. rewrite length_app, Nat2Z.inj_add, <- app_assoc in G. cbn in G. change (Z.of_nat 1) with 1 in G. rewrite G. cbn [obind].
  rewrite aset_mid. cbn [obind]. specialize (IH (a ++ [y]) y t). rewrite length_app, Nat2Z.inj_add, <- !app_assoc in IH. cbn in IH. change (Z.of_nat 1) with 1 in IH. rewrite IH.
  rewrite last_cons. by destruct (last u).
Qed.

Lemma remove_item_bar t es i : bar t es -> 0 <= i < Z.of_nat (length es) ->
  exists t', taskbar_remove_item i t = Done t' /\ bar t' (delete (Z.to_nat i) es) /\ theight t' = theight t.
Proof.
  intros Hb Hi. pose proof (bar_bound _ _ Hb). pose proof Hb as [Hsz Hc He Hlab]. unfold taskbar_remove_item. rewrite Hc.
  destruct (Z.ltb_spec i 0), (Z.leb_spec (Z.of_nat (length es)) i); try lia. cbn [orb].
  set (k := Z.to_nat i). replace i with (Z.of_nat k) by lia.
  destruct (lookup_lt_is_Some_2 (items t) k) as [x Hx]; [lia|].
  set (u := take (length es - 1 - k) (drop (S k) (items t))). set (r := drop (length es) (items t)).
  assert (items t = take k (items t) ++ x :: u ++ r) as E.
  { rewrite <- (take_drop_middle (items t) k x Hx) at 1. do 2 f_equal. unfold u, r.
    rewrite <- (take_drop (length es - 1 - k) (drop (S k) (items t))) at 1. f_equal. rewrite drop_drop. f_equal. lia. }
  assert (length (take k (items t)) = k) as Hk by (rewrite length_take; lia).
  assert (length u = (length es - 1 - k)%nat) as Hu by (unfold u; rewrite length_take, length_drop; lia).
  pose proof (shift_items_spec u (take k (items t)) x r) as S. rewrite <- E, Hu, Hk in S.
  replace (Z.to_nat (Z.of_nat (length es) - 1 - Z.of_nat k)) with (length es - 1 - k)%nat by lia. rewrite S. cbn [obind].
  set (z := default x (last u)). pose proof (aget_mid (take k (items t) ++ u) z r) as G.
  pose proof (aset_mid (take k (items t) ++ u) z r (mk_item (ttype z) (label z) (tx z) (ty z) 0)) as A.
  rewrite length_app, Hk, Hu, <- !app_assoc in G, A.
  replace (Z.of_nat (k + (length es - 1 - k))) with (Z.of_nat (length es) - 1) in G, A by lia. rewrite G. cbn [obind]. rewrite A. cbn [obind].
  eexists. split; [done|]. split; [|done].
  assert (length (delete k es) = (length es - 1)%nat) as Hdel.
  { rewrite length_delete; [lia|]. apply lookup_lt_is_Some_2. lia. }
  assert (Hin : x ∈ items t) by (by eapply list_elem_of_lookup_2).
  split; cbn [items tcount].
  - apply (f_equal length) in E. rewrite !length_app in E. cbn [length] in E. rewrite length_app in E.
    rewrite !length_app. cbn [length]. lia.
  - lia.
  - rewrite Hdel, take_app_length' by (rewrite length_app; lia). rewrite fmap_app, delete_take_drop. f_equal.
    + rewrite <- He, <- fmap_take, take_take. do 2 f_equal. lia.
    + unfold u. rewrite <- He at 2. rewrite <- fmap_drop, skipn_firstn_comm. do 2 f_equal. lia.
  - rewrite E in Hlab. apply Forall_app in Hlab as [La Lb]. apply Forall_cons in Lb as [Lx Lb]. apply Forall_app in Lb as [Lu Lr].
    apply Forall_app. split; [by apply Forall_app|]. constructor; [|done]. cbn [label]. unfold z.
    destruct (last u) as [w|] eqn:Ew; [|done]. cbn. rewrite Forall_forall in Lu. apply Lu. by apply last_Some_elem_of in Ew.
Qed.

(** ** Clicking an item *)
Lemma three_passes (p q : nat -> bool) l : (forall i, p i && q i = false) ->
  Permutation (List.filter p l ++ List.filter q l ++ List.filter (fun i => negb (p i) && negb (q i)) l) l.
Proof.
  intros Hpq. induction l as [|x l IH]; [done|]. cbn [List.filter]. specialize (Hpq x).
  destruct (p x), (q x); cbn [andb negb] in *; try done.
  - cbn. by rewrite IH.
  - rewrite <- app_comm_cons, <- Permutation_middle, IH. done.
  - rewrite <- !Permutation_middle, IH. done.
Qed.

Lemma sorted_indices_perm t : Permutation (sorted_indices t) (seq 0 (Z.to_nat (tcount t))).
Proof.
  apply three_passes. intros i. unfold has_type. destruct (items t !! i) as [it|]; [|done]. by destruct (ttype it).
Qed.

Lemma draw_item_places y k x t c a : items t !! x = Some a -> exists c1, draw_item y k x (t, c) =
  (mk_taskbar (<[x := place_item (10 + k * (TASKBAR_ITEM_WIDTH + 5)) y a]> (items t)) (tcount t) (theight t) (hover_item t), c1).
Proof. intros Ha. unfold draw_item. rewrite Ha. eauto. Qed.

Lemma draw_items_places y l : forall k t c, NoDup l ->
  let t' := fst (draw_items y k l (t, c)) in
  tcount t' = tcount t /\ theight t' = theight t /\ length (items t') = length (items t) /\
  (forall j idx it, l !! j = Some idx -> items t !! idx = Some it ->
     items t' !! idx = Some (place_item (10 + (k + Z.of_nat j) * (TASKBAR_ITEM_WIDTH + 5)) y it)) /\
  (forall idx, idx ∉ l -> items t' !! idx = items t !! idx).
Proof.
  induction l as [|x l IH]; intros k t c Hnd; cbn [draw_items fst]; [by split_and!|].
  apply NoDup_cons in Hnd as [Hx Hnd]. destruct (items t !! x) as [a|] eqn:Ea.
  - destruct (draw_item_places y k x t c a Ea) as (c1 & ->). set (t1' := mk_taskbar _ _ _ _).
    destruct (IH (k + 1) t1' c1 Hnd) as (H1 & H2 & H3 & H4 & H5).
    split_and!; [by rewrite H1|by rewrite H2|rewrite H3; cbn; by rewrite length_insert| |].
    + intros [|j] idx it Hj Hit; cbn in Hj.
      * injection Hj as <-. rewrite H5 by done. cbn [items t1']. rewrite list_lookup_insert_eq by (by eapply lookup_lt_Some).
        rewrite Ea in Hit. injection Hit as <-. do 3 f_equal. lia.
      * rewrite (H4 j idx it Hj); [do 3 f_equal; lia|]. cbn [items t1']. rewrite list_lookup_insert_ne; [done|].
        intros ->. apply Hx. by eapply list_elem_of_lookup_2.
    + intros idx Hidx. apply not_elem_of_cons in Hidx as [Hne Hidx]. rewrite H5 by done. cbn [items t1']. by rewrite list_lookup_insert_ne.
  - unfold draw_item at 1 2 3 4 5. rewrite Ea. destruct (IH (k + 1) t c Hnd) as (H1 & H2 & H3 & H4 & H5). split_and!; try done.
    + intros [|j] idx it Hj Hit; cbn in Hj; [injection Hj as <-; congruence|]. rewrite (H4 j idx it Hj Hit). do 3 f_equal. lia.
    + intros idx Hidx. apply not_elem_of_cons in Hidx as [Hne Hidx]. by apply H5.
Qed.

Lemma item_from_unique mx my l : forall k i a, 0 <= k -> l !! i = Some a -> on_item mx my a = true ->
  (forall j b, l !! j = Some b -> j <> i -> on_item mx my b = false) -> item_from k mx my l = k + Z.of_nat i.
Proof.
  induction l as [|x l IH]; intros k i a Hk Ha Ho Hb; [done|]. cbn [item_from]. destruct i as [|i].
  - injection Ha as ->. rewrite Ho. lia.
  - rewrite (Hb 0%nat x) by done. rewrite (IH (k + 1) i a); [lia|lia|done|done|]. intros j b Hj Hne. apply (Hb (S j) b); [done|lia].
Qed.

Lemma drawn_item_clicked t es sw sh c j idx mx my : bar t es -> TASKBAR_ITEM_HEIGHT <= theight t ->
  sorted_indices t !! j = Some idx ->
  let item_x := 10 + Z.of_nat j * (TASKBAR_ITEM_WIDTH + 5) in
  let item_y := sh - theight t + Z.quot (theight t - TASKBAR_ITEM_HEIGHT) 2 in
  item_x <= mx < item_x + TASKBAR_ITEM_WIDTH -> item_y <= my < item_y + TASKBAR_ITEM_HEIGHT ->
  let t' := fst (taskbar_draw sw sh t c) in
  bar t' es /\ taskbar_get_item_at t' mx my sh = Z.of_nat idx.
Proof.
  intros Hb Hh Hj item_x item_y Hx Hy. cbv zeta. unfold taskbar_draw.
  match goal with |- context [draw_items ?y0 0 ?l (t, ?c0)] => destruct (draw_items_places y0 l 0 t c0) as (H1 & H2 & H3 & H4 & H5) end.
  { rewrite sorted_indices_perm. apply NoDup_seq. }
  match goal with |- context [draw_items ?y0 0 ?l (t, ?c0)] => set (t' := fst (draw_items y0 0 l (t, c0))) in * end.
  pose proof Hb as [Hsz Hc He Hl]. pose proof (bar_bound _ _ Hb) as Hn.
  assert (forall i, i ∈ sorted_indices t <-> (i < length es)%nat) as Hin.
  { intros i. rewrite sorted_indices_perm, elem_of_seq, Hc, Nat2Z.id. lia. }
  assert (forall i it, items t !! i = Some it -> exists px py, items t' !! i = Some (place_item px py it)) as Hsame.
  { intros i it Hit. destruct (decide (i ∈ sorted_indices t)) as [(q & Hq)%list_elem_of_lookup_1|Hni].
    - rewrite (H4 q i it Hq Hit). eauto.
    - rewrite H5, Hit by done. exists (tx it), (ty it). by destruct it. }
  split.
  - split; [congruence|congruence| |].
    + rewrite <- He at 2. apply list_eq. intros i. rewrite !list_lookup_fmap. destruct (decide (i < length es)%nat) as [Hi|Hi].
      * rewrite !lookup_take_lt by done. destruct (lookup_lt_is_Some_2 (items t) i) as [it Hit]; [lia|].
        destruct (Hsame i it Hit) as (px & py & ->). rewrite Hit. done.
      * rewrite !lookup_take_ge by lia. done.
    + rewrite Forall_lookup in Hl |- *. intros i it Hit. pose proof (lookup_lt_Some _ _ _ Hit) as Hlt.
      destruct (lookup_lt_is_Some_2 (items t) i) as [it0 Hit0]; [lia|]. destruct (Hsame i it0 Hit0) as (px & py & E).
      rewrite E in Hit. injection Hit as <-. exact (Hl i it0 Hit0).
  - unfold taskbar_get_item_at. rewrite H1, H2. unfold item_y in Hy. rewrite Z.quot_div_nonneg in Hy by lia.
    pose proof (Z.div_pos (theight t - TASKBAR_ITEM_HEIGHT) 2). destruct (Z.ltb_spec my (sh - theight t)); [lia|].
    assert (idx < length es)%nat as Hidx by (apply Hin; by eapply list_elem_of_lookup_2).
    destruct (lookup_lt_is_Some_2 (items t) idx) as [it Hit]; [lia|]. rewrite Hc, Nat2Z.id.
    rewrite (item_from_unique mx my (take (length es) (items t')) 0 idx (place_item item_x item_y it)); [lia|lia| | |].
    + rewrite lookup_take_lt by lia. rewrite (H4 j idx it Hj Hit). done.
    + unfold on_item, place_item, item_y. cbn [tx ty]. rewrite Z.quot_div_nonneg by lia. lia.
    + intros i b Hi Hne. pose proof (lookup_lt_Some _ _ _ Hi) as Hlt. rewrite length_take in Hlt. rewrite lookup_take_lt in Hi by lia.
      assert (i ∈ sorted_indices t) as (q & Hq)%list_elem_of_lookup_1 by (apply Hin; lia).
      destruct (lookup_lt_is_Some_2 (items t) i) as [it' Hit']; [lia|]. rewrite (H4 q i it' Hq Hit') in Hi. injection Hi as <-.
      assert (q <> j) by (intros ->; congruence). unfold on_item, place_item. cbn [tx ty]. unfold item_x, TASKBAR_ITEM_WIDTH in *.
      destruct (Z.leb_spec (10 + (0 + Z.of_nat q) * (120 + 5)) mx), (Z.ltb_spec mx (10 + (0 + Z.of_nat q) * (120 + 5) + 120)); cbn; try done. lia.
Qed.

(** The taskbar is a list of at most ten entries, kept in fixed slots:
    adding an entry with a label of at most 31 characters appends it if there is
    room, removing one deletes it from the list, and after the bar is drawn,
    directories first, then files, then editors, a click on a drawn item finds
    it. *)
Theorem taskbar_refines t es : bar t es ->
  (forall ty' lab m s, holds m lab s -> (length s < 32)%nat -> exists t', taskbar_add_item ty' lab t = Done t' /\
     bar t' (if decide (length es < 10)%nat then es ++ [(ty', s)] else es)) /\
  (forall i, 0 <= i < Z.of_nat (length es) -> exists t', taskbar_remove_item i t = Done t' /\ bar t' (delete (Z.to_nat i) es)) /\
  (TASKBAR_ITEM_HEIGHT <= theight t -> forall sw sh c j idx mx my, sorted_indices t !! j = Some idx ->
     let item_x := 10 + Z.of_nat j * (TASKBAR_ITEM_WIDTH + 5) in
     let item_y := sh - theight t + Z.quot (theight t - TASKBAR_ITEM_HEIGHT) 2 in
     item_x <= mx < item_x + TASKBAR_ITEM_WIDTH -> item_y <= my < item_y + TASKBAR_ITEM_HEIGHT ->
     let t' := fst (taskbar_draw sw sh t c) in bar t' es /\ taskbar_get_item_at t' mx my sh = Z.of_nat idx).
Proof.
  intros Hb. split_and!.
  - intros ty' lab m s Hl Hs. destruct (add_item_bar t es ty' lab s m Hb Hl Hs) as (t' & E & H & _). eauto.
  - intros i Hi. destruct (remove_item_bar t es i Hb Hi) as (t' & E & H & _). eauto.
  - intros Hh sw sh c j idx mx my. by apply drawn_item_clicked.
Qed.

Definition empty_bar : taskbar_t := mk_taskbar (replicate 10 (mk_item TASKBAR_ITEM_MKDIR (replicate 32 0) 0 0 0)) 0 48 (-1).
Lemma empty_bar_ok : bar empty_bar [].
Proof.
  split; try done. repeat constructor; exists []; (split; [done|]); (split; [constructor|]); by exists (replicate 31 0).
Qed.

Lemma taskbar_refines_witness : exists t', taskbar_add_item TASKBAR_ITEM_EDITOR [97; 0] empty_bar = Done t' /\
  bar t' [(TASKBAR_ITEM_EDITOR, [97])].
Proof.
  destruct (taskbar_refines empty_bar [] empty_bar_ok) as (H & _).
  destruct (H TASKBAR_ITEM_EDITOR [97; 0] 2%nat [97]) as (t' & E & Hb); [|cbn; lia|by exists t'].
  split; [done|]. split; [by constructor|]. by exists [].
Defined.

(** A longer label runs over the end of its slot. *)
Lemma label_overflow : taskbar_add_item TASKBAR_ITEM_MKFILE (replicate 32 97 ++ [0]) empty_bar = OutOfBounds.
Proof. vm_compute. reflexivity. Qed.
End Taskbar.
