(* ===== verification/Dialog.v ===== *)
(** * The input dialog (src/kernel/GUI/create_dialog.c)

    Typing a name, the event loop with its buttons, and the actions of the
    context menu that create a file or a folder. *)
From Stdlib Require Import ZArith Lia.
From stdpp Require Import base numbers list gmap.
From S2P Require Import Prelude Ata CStr VfsTypes Console ConsoleProps Serial Keyboard KeyboardProps StrBuf Paint Desk Icons Taskbar.

Module Dialog.
Import StrBuf Files Console Keyboard Paint Desk.
Local Open Scope Z_scope.
Local Open Scope outcome_scope.

Record input_dialog_t := mk_dialog {
  dx : Z; dy : Z; dwidth : Z; dheight : Z; dvisible : Z; dbuffer : list Z; cursor_pos : Z; dtitle : list Z;
  dsaved : under; dlast_mx : Z; dlast_my : Z; ddragging : Z; ddrag_offset_x : Z; ddrag_offset_y : Z
}.
Definition set_dbuffer (b : list Z) (pos : Z) (d : input_dialog_t) : input_dialog_t :=
  mk_dialog (dx d) (dy d) (dwidth d) (dheight d) (dvisible d) b pos (dtitle d) (dsaved d) (dlast_mx d) (dlast_my d)
    (ddragging d) (ddrag_offset_x d) (ddrag_offset_y d).
Definition set_dplace (x y : Z) (d : input_dialog_t) : input_dialog_t :=
  mk_dialog x y (dwidth d) (dheight d) (dvisible d) (dbuffer d) (cursor_pos d) (dtitle d) (dsaved d) (dlast_mx d) (dlast_my d)
    (ddragging d) (ddrag_offset_x d) (ddrag_offset_y d).
Definition set_dsaved (u : under) (d : input_dialog_t) : input_dialog_t :=
  mk_dialog (dx d) (dy d) (dwidth d) (dheight d) (dvisible d) (dbuffer d) (cursor_pos d) (dtitle d) u (dlast_mx d) (dlast_my d)
    (ddragging d) (ddrag_offset_x d) (ddrag_offset_y d).
Definition set_dlast (mx my : Z) (d : input_dialog_t) : input_dialog_t :=
  mk_dialog (dx d) (dy d) (dwidth d) (dheight d) (dvisible d) (dbuffer d) (cursor_pos d) (dtitle d) (dsaved d) mx my
    (ddragging d) (ddrag_offset_x d) (ddrag_offset_y d).
Definition set_ddragging (g ox oy : Z) (d : input_dialog_t) : input_dialog_t :=
  mk_dialog (dx d) (dy d) (dwidth d) (dheight d) (dvisible d) (dbuffer d) (cursor_pos d) (dtitle d) (dsaved d) (dlast_mx d) (dlast_my d)
    g ox oy.

Definition dialog_save_cursor_area (x y : Z) (c : console) (d : input_dialog_t) : input_dialog_t :=
  set_dsaved (save_cursor_area x y c (dsaved d)) d.
Definition dialog_restore_cursor_area (d : input_dialog_t) (c : console) : input_dialog_t * console :=
  let '(u, c) := restore_cursor_area (dsaved d) c in (set_dsaved u d, c).

(** The characters of [input_dialog_handle_key]. *)
Definition dialog_chars : list (Z * Z) :=
  [(2, 49); (3, 50); (4, 51); (5, 52); (6, 53); (7, 54); (8, 55); (9, 56);
   (10, 57); (11, 48); (12, 45); (13, 95); (16, 113); (17, 119); (18, 101); (19, 114);
   (20, 116); (21, 121); (22, 117); (23, 105); (24, 111); (25, 112); (30, 97); (31, 115);
   (32, 100); (33, 102); (34, 103); (35, 104); (36, 106); (37, 107); (38, 108); (44, 122);
   (45, 120); (46, 99); (47, 118); (48, 98); (49, 110); (50, 109); (57, 32); (52, 46);
   (53, 47)].


Definition input_dialog_handle_key (scancode : Z) (d : input_dialog_t) : outcome input_dialog_t :=
  let ch := Serial.lookup_code dialog_chars scancode in
  if ch =? 0 then Done d else
  let* len := STRLEN (dbuffer d) in
  if len <? 255 then
    let* b := aset (dbuffer d) (cursor_pos d) ch in
    let* b := aset b (cursor_pos d + 1) 0 in
    Done (set_dbuffer b (cursor_pos d + 1) d)
  else Done d.

(** The local variable may hold anything before. *)
Definition input_dialog_init (title : list Z) (fb_width fb_height : Z) (d : input_dialog_t) : outcome input_dialog_t :=
  let* b := aset (dbuffer d) 0 0 in
  Done (mk_dialog (s32 (u32 (fb_width - 500) / 2)) (s32 (u32 (fb_height - 150) / 2)) 500 150 1 b 0 title
          (mk_under (saved_pixels (dsaved d)) 0 (saved_cx (dsaved d)) (saved_cy (dsaved d))) (-1) (-1) 0 0 0).

Definition s_ok : list Z := [79; 75].
Definition s_cancel : list Z := [67; 97; 110; 99; 101; 108].

Definition input_dialog_draw (d : input_dialog_t) (c : console) : console :=
  if dvisible d =? 0 then c else
  let title_bg := 0x1E40AF in let input_bg := 0x1F2937 in
  let c := fill_rect (dx d) (dy d) (dwidth d) (dheight d) 0x2D3748 c in
  let c := fill_rect (dx d) (dy d) (dwidth d) 30 title_bg c in
  let c := letters (dx d + 10) (dy d + 11) 8 (cstr (dtitle d)) 0xFFFFFF title_bg c in
  let input_x := dx d + 20 in let input_y := dy d + 50 in let input_w := dwidth d - 40 in
  let c := fill_rect input_x input_y input_w 30 input_bg c in
  let c := frame input_x input_y input_w 30 0x4A5568 c in
  let text_x := input_x + 5 in let text_y := input_y + 11 in
  let c := letters text_x text_y 8 (cstr (dbuffer d)) 0xFFFFFF input_bg c in
  let cursor_x := text_x + cursor_pos d * 8 in
  let c := for_range 0 16 (fun i c => plot (cursor_x + 1) (text_y + Z.of_nat i) 0xFFFFFF (plot cursor_x (text_y + Z.of_nat i) 0xFFFFFF c)) c in
  let button_y := dy d + 100 in let ok_x := dx d + 150 in let cancel_x := dx d + 280 in
  let c := fill_rect ok_x button_y 80 30 0x10B981 c in
  let c := letters (ok_x + 30) (button_y + 11) 8 s_ok 0xFFFFFF 0x10B981 c in
  let c := fill_rect cancel_x button_y 80 30 0xDC2626 c in
  letters (cancel_x + 16) (button_y + 11) 8 s_cancel 0xFFFFFF 0xDC2626 c.

(** ** The event loop *)
Record dialog_run := mk_drun { dialog : input_dialog_t; drunning : bool; return_value : Z; dlast_button : Z; dredraw : bool }.
Definition set_dialog (d : input_dialog_t) (s : dialog_run) : dialog_run := mk_drun d (drunning s) (return_value s) (dlast_button s) (dredraw s).
Definition set_dredraw (r : bool) (s : dialog_run) : dialog_run := mk_drun (dialog s) (drunning s) (return_value s) (dlast_button s) r.
Definition finish (v : Z) (s : dialog_run) : dialog_run := mk_drun (dialog s) false v (dlast_button s) (dredraw s).

Definition ddrag_to (mx my fb_width fb_height : Z) (d : input_dialog_t) : Z * Z :=
  let new_x := mx - ddrag_offset_x d in
  let new_y := my - ddrag_offset_y d in
  let new_x := if new_x <? 0 then 0 else new_x in
  let new_y := if new_y <? 0 then 0 else new_y in
  (if fb_width <? u32 (new_x + dwidth d) then s32 (fb_width - dwidth d) else new_x,
   if fb_height <? u32 (new_y + dheight d) then s32 (fb_height - dheight d) else new_y).

Definition dialog_drag (mx my button : Z) (c : console) (s : dialog_run) : dialog_run :=
  let d := dialog s in
  if ddragging d =? 0 then s
  else if button =? 0 then set_dialog (set_ddragging 0 (ddrag_offset_x d) (ddrag_offset_y d) d) s
  else let '(nx, ny) := ddrag_to mx my (width (fb c)) (height (fb c)) d in
       if (nx =? dx d) && (ny =? dy d) then s else set_dredraw true (set_dialog (set_dplace nx ny d) s).

(** One scancode: Enter and Escape end the dialog. *)
Definition dialog_key (scancode : Z) (s : dialog_run) : outcome dialog_run :=
  if scancode =? 0xE0 then Done s
  else if c_true (Z.land scancode 0x80) then Done s
  else let key := Z.land scancode 0x7F in
  if key =? 0x1C then Done (finish 1 s)
  else if key =? 0x01 then Done (finish 0 s)
  else if key =? 0x0E then
    let d := dialog s in
    if 0 <? cursor_pos d then
      let* b := aset (dbuffer d) (cursor_pos d - 1) 0 in
      Done (set_dredraw true (set_dialog (set_dbuffer b (cursor_pos d - 1) d) s))
    else Done s
  else
    let* d := input_dialog_handle_key scancode (dialog s) in
    Done (set_dredraw true (set_dialog d s)).

Fixpoint dialog_keys (fuel : nat) (r : ring) (s : dialog_run) : outcome (ring * dialog_run) :=
  match fuel with
  | O => OutOfFuel
  | S fuel =>
    if ring_empty r then Done (r, s) else
    let '(scancode, r) := ring_get r in
    let* s := dialog_key scancode s in
    if drunning s then dialog_keys fuel r s else Done (r, s)
  end.

Definition hits (mx my bx by' w h : Z) : bool := (bx <=? mx) && (mx <? bx + w) && (by' <=? my) && (my <? by' + h).

Definition dialog_click (mx my button : Z) (s : dialog_run) : dialog_run :=
  let d := dialog s in
  if c_true button && (dlast_button s =? 0) then
    if hits mx my (dx d) (dy d) (dwidth d) 30 then set_dialog (set_ddragging 1 (mx - dx d) (my - dy d) d) s
    else if hits mx my (dx d + 150) (dy d + 100) 80 30 then finish 1 s
    else if hits mx my (dx d + 280) (dy d + 100) 80 30 then finish 0 s
    else s
  else s.

Section Run.
Context {G W : Type} `{!DeskApi G W}.

(** The desktop and the dialog are drawn again if needed, the arrow always. *)
Definition dialog_redraw (mx my : Z) (g : G) (s : dialog_run) : G * dialog_run :=
  let '(d, c) := dialog_restore_cursor_area (dialog s) (screen g) in
  let g := set_screen c g in
  let g := if dredraw s then let g := redraw_desktop g in set_screen (input_dialog_draw d (screen g)) g else g in
  let d := dialog_save_cursor_area mx my (screen g) d in
  (set_screen (draw_cursor mx my (screen g)) g, set_dredraw false (set_dialog d s)).

Definition dialog_round (g : G) (s : dialog_run) : outcome (G * dialog_run) :=
  let g := update_mouse g in
  let mx := get_cursor_x g in
  let my := get_cursor_y g in
  let button := Z.land (mouse_button_state g) 1 in
  let s := dialog_drag mx my button (screen g) s in
  let '(g, s) :=
    (if negb (mx =? dlast_mx (dialog s)) || negb (my =? dlast_my (dialog s)) then
       let '(g, s) := dialog_redraw mx my g s in (g, set_dialog (set_dlast mx my (dialog s)) s)
     else (g, s)) in
  let* (r, s) := dialog_keys 257 (scancodes g) s in
  let g := set_scancodes r g in
  let '(g, s) := if dredraw s then dialog_redraw mx my g s else (g, s) in
  let s := dialog_click mx my button s in
  Done (g, mk_drun (dialog s) (drunning s) (return_value s) button (dredraw s)).

Fixpoint dialog_rounds (fuel : nat) (g : G) (s : dialog_run) : outcome (G * dialog_run) :=
  if drunning s then
    match fuel with
    | O => OutOfFuel
    | S fuel => let* (g, s) := dialog_round g s in dialog_rounds fuel g s
    end
  else Done (g, s).

(** The result, the name, and the dialog with what is under the arrow. *)
Definition input_dialog_run (fuel : nat) (d : input_dialog_t) (result : list Z) (g : G) : outcome (Z * list Z * input_dialog_t * G) :=
  let* (g, s) := dialog_rounds fuel g (mk_drun d true 0 0 false) in
  let* result := (if c_true (return_value s) then STRCPY result (dbuffer (dialog s)) else Done result) in
  Done (return_value s, result, dialog s, g).
End Run.

(** ** The actions of the context menu *)
Import Icons Taskbar.

Class DesktopApi (G : Type) := {
  get_desktop : G -> desktop_state_t; set_desktop : desktop_state_t -> G -> G;
  get_taskbar : G -> taskbar_t; set_taskbar : taskbar_t -> G -> G;
  restore_main_cursor : G -> G;
  stop_running : G -> G }.

Definition s_make_file : list Z := [77; 97; 107; 101; 32; 70; 105; 108; 101; 32; 91; 32; 36; 83; 85; 80; 69; 82; 85; 83; 69; 82; 32; 124; 32; 82; 73; 78; 71; 32; 48; 48; 32; 93].
Definition s_make_directory : list Z := [77; 97; 107; 101; 32; 68; 105; 114; 101; 99; 116; 111; 114; 121; 32; 91; 32; 36; 83; 85; 80; 69; 82; 85; 83; 69; 82; 32; 124; 32; 82; 73; 78; 71; 32; 48; 48; 32; 93].

(** [cwd], a slash unless it ends with one, and the name, in 256 bytes. *)
Definition join_path (fullpath cwd filename : list Z) : outcome (list Z) :=
  let* p := STRCPY fullpath cwd in
  let* len := STRLEN p in
  let* p := (if (0 <? len) && negb (get p (Z.to_nat (len - 1)) =? 47)
             then let* p := aset p len 47 in aset p (len + 1) 0 else Done p) in
  STRCAT p filename.

(** The first item of a type. *)
Fixpoint first_item (ty' : taskbar_item_type_t) (k : Z) (l : list taskbar_item_t) : option Z :=
  match l with
  | [] => None
  | i :: l => if decide (ttype i = ty') then Some k else first_item ty' (k + 1) l
  end.
Definition remove_first (ty' : taskbar_item_type_t) (t : taskbar_t) : outcome taskbar_t :=
  match first_item ty' 0 (take (Z.to_nat (tcount t)) (items t)) with
  | Some i => taskbar_remove_item i t
  | None => Done t
  end.

Section Actions.
Context {G W : Type} `{!DeskApi G W, !DesktopApi G, !FileApi W, !DirApi W}.

(** Reading the working directory into the desktop again. *)
Definition reload (cwd : list Z) (g : G) : outcome G :=
  let* (_, s, w) := desktop_load_directory (get_desktop g) cwd (files g) in
  let g := set_files w g in
  let s := desktop_arrange_icons (desktop_sort_icons s) (s32 (width (fb (screen g)))) (s32 (height (fb (screen g)))) 48 in
  Done (set_desktop s g).

(** Both actions: the dialog, the taskbar item, the call, the reload. *)
Definition create_action (fuel : nat) (title : list Z) (ty' : taskbar_item_type_t) (create : list Z -> Z -> W -> outcome (Z * W))
    (d0 : input_dialog_t) (filename0 fullpath0 : list Z) (g : G) : outcome G :=
  let* d := input_dialog_init title (width (fb (screen g))) (height (fb (screen g))) d0 in
  let mx := get_cursor_x g in
  let my := get_cursor_y g in
  let g := redraw_desktop (restore_main_cursor g) in
  let g := set_screen (input_dialog_draw d (screen g)) g in
  let d := dialog_save_cursor_area mx my (screen g) d in
  let g := set_screen (draw_cursor mx my (screen g)) g in
  let* (r, filename, d, g) := input_dialog_run fuel d filename0 g in
  if r =? 0 then Done g
  else if get filename 0 =? 0 then Done g
  else
    let cwd := f_cwd (files g) in
    let* fullpath := join_path fullpath0 cwd filename in
    let* t := taskbar_add_item ty' filename (get_taskbar g) in
    let g := redraw_desktop (restore_main_cursor (set_taskbar t g)) in
    let mx := get_cursor_x g in
    let my := get_cursor_y g in
    let g := set_screen (draw_cursor mx my (screen g)) g in
    let* (r, w) := create fullpath (Z.lor FILE_READ FILE_WRITE) (files g) in
    let g := set_files w g in
    let* g := (if r =? 0 then reload cwd g else Done g) in
    let g := redraw_desktop (restore_main_cursor g) in
    let* t := (if 0 <? tcount (get_taskbar g) then remove_first ty' (get_taskbar g) else Done (get_taskbar g)) in
    Done (set_taskbar t g).

Definition handle_context_menu_action (fuel : nat) (action : context_menu_item_t)
    (d0 : input_dialog_t) (filename0 fullpath0 : list Z) (g : G) : outcome G :=
  match action with
  | CONTEXT_MENU_CREATE_FILE => create_action fuel (s_make_file ++ [0]) TASKBAR_ITEM_MKFILE f_create d0 filename0 fullpath0 g
  | CONTEXT_MENU_CREATE_FOLDER => create_action fuel (s_make_directory ++ [0]) TASKBAR_ITEM_MKDIR v_mkdir d0 filename0 fullpath0 g
  | CONTEXT_MENU_OPEN_TERMINAL => Done (stop_running g)
  | CONTEXT_MENU_NONE => Done g
  end.
End Actions.
End Dialog.

(** * The input dialog collects a name

    The keys typed into the dialog append to and shorten a string in the
    buffer, Enter returns it, Escape gives up; the path of the new entry is the
    working directory, a slash and the name; drawing stays inside the window. *)
Module DialogProps.
Import StrBuf Files Console Serial Keyboard KeyboardProps Paint Desk Dialog.
Local Open Scope Z_scope.
Local Open Scope outcome_scope.

(** ** Typing *)

(** The dialog shows the name [s]. *)
Definition naming (d : input_dialog_t) (s : list Z) : Prop := holds 256 (dbuffer d) s /\ cursor_pos d = Z.of_nat (length s).

Inductive answer := Typing | Answer (v : Z).

(** The name after the scancodes [q], whether the dialog has ended, and the
    codes that are left. *)
Fixpoint typed_name (q : list Z) (s : list Z) : list Z * answer * list Z :=
  match q with
  | [] => (s, Typing, [])
  | k :: q =>
    if (k =? 0xE0) || c_true (Z.land k 0x80) then typed_name q s
    else if Z.land k 0x7F =? 0x1C then (s, Answer 1, q)
    else if Z.land k 0x7F =? 0x01 then (s, Answer 0, q)
    else if Z.land k 0x7F =? 0x0E then typed_name q (take (length s - 1) s)
    else let ch := lookup_code dialog_chars k in
         typed_name q (if (ch =? 0) || (255 <=? length s)%nat then s else s ++ [ch])
  end.

Lemma type_char d s k : naming d s -> exists d', input_dialog_handle_key k d = Done d' /\
  naming d' (if (lookup_code dialog_chars k =? 0) || (255 <=? length s)%nat then s else s ++ [lookup_code dialog_chars k]).
Proof.
  intros [Hb Hp]. unfold input_dialog_handle_key. set (ch := lookup_code dialog_chars k). destruct (Z.eqb_spec ch 0); cbn [orb]; [by exists d|].
  rewrite (holds_len _ _ _ Hb). cbn [obind]. destruct (Nat.leb_spec 255 (length s)).
  - destruct (Z.ltb_spec (Z.of_nat (length s)) 255); [lia|]. by exists d.
  - destruct (Z.ltb_spec (Z.of_nat (length s)) 255); [|lia]. destruct Hb as (Hl & Ht & rest & E). rewrite Hp.
    destruct rest as [|z rest]; [rewrite E, length_app in Hl; cbn in Hl; lia|].
    rewrite E, aset_mid. cbn [obind]. pose proof (aset_mid (s ++ [ch]) z rest 0) as A.
    rewrite length_app, Nat2Z.inj_add, <- !app_assoc in A. cbn [app length] in A. change (Z.of_nat 1) with 1 in A. rewrite A. cbn [obind].
    eexists. split; [done|]. split; cbn [dbuffer cursor_pos set_dbuffer]; [|rewrite length_app; cbn; lia]. split; [|split].
    + rewrite E in Hl. rewrite !length_app in *. cbn in *. lia.
    + apply Forall_app. split; [done|]. by constructor.
    + exists rest. by rewrite <- app_assoc.
Qed.

Lemma dialog_keys_spec q : forall fuel r st s, queue r q -> (length q < fuel)%nat -> naming (dialog st) s -> drunning st = true ->
  exists r' st', dialog_keys fuel r st = Done (r', st') /\
    let '(s', a, rest) := typed_name q s in naming (dialog st') s' /\ queue r' rest /\
    match a with Typing => drunning st' = true /\ return_value st' = return_value st | Answer v => drunning st' = false /\ return_value st' = v end.
Proof.
  induction q as [|k q IH]; intros [|fuel] r st s Hq Hf Hn Hrun; cbn [length] in Hf; try lia; cbn [dialog_keys typed_name].
  { rewrite (queue_empty _ _ Hq). cbn. exists r, st. done. }
  rewrite (queue_empty _ _ Hq), bool_decide_eq_false_2 by done. destruct (queue_get _ _ _ Hq) as (r1 & -> & Hq1).
  unfold dialog_key. destruct (Z.eqb_spec k 0xE0); cbn [orb].
  { cbn [obind]. rewrite Hrun. by apply IH; [|lia|..]. }
  destruct (c_true (Z.land k 0x80)).
  { cbn [obind]. rewrite Hrun. by apply IH; [|lia|..]. }
  destruct (Z.land k 0x7F =? 0x1C); [cbn [obind finish drunning]; exists r1, (finish 1 st); done|].
  destruct (Z.land k 0x7F =? 0x01); [cbn [obind finish drunning]; exists r1, (finish 0 st); done|].
  destruct (Z.land k 0x7F =? 0x0E).
  - destruct Hn as [Hb Hp]. rewrite Hp. destruct (Z.ltb_spec 0 (Z.of_nat (length s))).
    + pose proof (holds_short _ _ _ Hb). pose proof Hb as (Hl & _). rewrite aset_done by lia. cbn [obind drunning set_dredraw set_dialog]. rewrite Hrun.
      edestruct (IH fuel r1 (set_dredraw true (set_dialog (set_dbuffer (<[Z.to_nat (Z.of_nat (length s) - 1) := 0]> (dbuffer (dialog st))) (Z.of_nat (length s) - 1) (dialog st)) st))
        (take (length s - 1) s)) as (r' & st' & E & H'); [done|lia| |done|exists r', st'; split; [exact E|exact H']].
      split; cbn [dialog dbuffer cursor_pos set_dbuffer set_dredraw set_dialog]; [|rewrite length_take; lia].
      replace (Z.to_nat (Z.of_nat (length s) - 1)) with (length s - 1)%nat by lia. apply cut_holds; [done|lia].
    + destruct s; [|cbn in *; lia]. cbn [obind]. rewrite Hrun. apply IH; [done|lia|by split|done].
  - destruct (type_char (dialog st) s k Hn) as (d' & -> & Hn'). cbn [obind drunning set_dredraw set_dialog]. rewrite Hrun.
    edestruct (IH fuel r1 (set_dredraw true (set_dialog d' st))) as (r' & st' & E & H'); [done|lia|exact Hn'|done|].
    exists r', st'. split; [exact E|exact H'].
Qed.

(** ** The path *)
Lemma join_path_holds fp cwd cm name nm s c : length fp = 256%nat -> holds cm cwd c -> holds nm name s -> c <> [] ->
  let c' := if decide (last c = Some 47) then c else c ++ [47] in
  (length c' + length s < 256)%nat -> exists p, join_path fp cwd name = Done p /\ holds 256 p (c' ++ s).
Proof.
  intros Hl Hc Hn Hne c' Hlen. unfold join_path.
  assert (length c < 256)%nat as Hcl by (unfold c' in Hlen; destruct (decide _); rewrite ?length_app in Hlen; lia).
  assert (exists p, STRCPY fp cwd = Done p /\ holds 256 p c) as (p & -> & Hp).
  { unfold STRCPY, put. rewrite (holds_zstring _ _ _ Hc). cbn [obind]. destruct Hc as (_ & Ht & _).
    rewrite decide_True by (rewrite length_app; cbn; lia). eexists. split; [done|]. rewrite take_0. cbn [app].
    split; [repeat (rewrite ?length_app, ?length_drop; cbn [length]); lia|]. split; [done|]. rewrite <- app_assoc. by eexists. }
  cbn [obind]. rewrite (holds_len _ _ _ Hp). cbn [obind].
  destruct (Z.ltb_spec 0 (Z.of_nat (length c))); [|destruct c; [done|cbn in *; lia]].
  assert (get p (Z.to_nat (Z.of_nat (length c) - 1)) = default 0 (last c)) as ->.
  { destruct Hp as (_ & _ & rest & ->). replace (Z.to_nat _) with (length c - 1)%nat by lia. rewrite last_lookup.
    rewrite get_app_l by lia. destruct (lookup_lt_is_Some_2 c (length c - 1)) as [x Hx]; [lia|]. rewrite (get_lookup _ _ _ Hx).
    replace (pred (length c)) with (length c - 1)%nat by lia. by rewrite Hx. }
  unfold c' in *. destruct (decide (last c = Some 47)) as [El|El].
  - rewrite El. cbn. apply (strcat_holds 256 nm p name c s Hp Hn). lia.
  - rewrite length_app in Hlen. cbn [length] in Hlen. destruct (last c) as [x|] eqn:Ex; [|destruct c; [done|by apply last_None in Ex]].
    change (default 0 (Some x)) with x. cbn [andb]. destruct (Z.eqb_spec x 47); [congruence|]. cbn [negb].
    destruct Hp as (Hpl & Ht & rest & ->). rewrite length_app in Hpl. cbn in Hpl. destruct rest as [|z rest]; [cbn in *; lia|].
    rewrite aset_mid. cbn [obind]. pose proof (aset_mid (c ++ [47]) z rest 0) as A.
    rewrite length_app, Nat2Z.inj_add, <- !app_assoc in A. cbn [app length] in A. change (Z.of_nat 1) with 1 in A. rewrite A. cbn [obind].
    apply (strcat_holds 256 nm _ name (c ++ [47]) s).
    + split; [rewrite !length_app in *; cbn in *; lia|]. split; [apply Forall_app; split; [done|by constructor]|]. exists rest. by rewrite <- app_assoc.
    + done.
    + rewrite length_app. cbn. lia.
Qed.

(** ** Drawing *)
Lemma dialog_inside d c s : screen_ok c -> 0 <= dx d -> dx d + 500 <= 2 ^ 31 -> 0 <= dy d -> dy d + 150 <= 2 ^ 31 ->
  dwidth d = 500 -> dheight d = 150 -> naming d s -> (length s <= 58)%nat -> (length (cstr (dtitle d)) <= 60)%nat ->
  only (box (dx d) (dy d) 500 150) c (input_dialog_draw d c).
Proof.
  intros Hc Hx Hx' Hy Hy' Hw Hh [Hb Hp] Hs Ht. unfold input_dialog_draw. destruct (_ =? _); [apply only_refl|].
  assert (cstr (dbuffer d) = s) as -> by (destruct Hb as (_ & H & rest & ->); by apply cstr_app_zero).
  rewrite Hw, Hh, Hp. painting ltac:(cbn [length s_ok s_cancel]; lia).
Qed.

(** The scancodes typed into the dialog append their characters to the name
    (up to 255) and backspace removes the last one; Enter ends the dialog with
    1, Escape with 0, and later codes stay in the queue. The path used for the
    new entry is the working directory, with one slash, and the name, if it
    fits 256 bytes. *)
Theorem dialog_names q r st s cwd cm c fp : queue r q -> naming (dialog st) s -> drunning st = true ->
  length fp = 256%nat -> holds cm cwd c -> c <> [] ->
  exists r' st', dialog_keys 257 r st = Done (r', st') /\
    let '(s', a, rest) := typed_name q s in naming (dialog st') s' /\ queue r' rest /\
    (match a with Typing => drunning st' = true /\ return_value st' = return_value st
                | Answer v => drunning st' = false /\ return_value st' = v end) /\
    let c' := if decide (last c = Some 47) then c else c ++ [47] in
    ((length c' + length s' < 256)%nat -> exists p, join_path fp cwd (dbuffer (dialog st')) = Done p /\ holds 256 p (c' ++ s')).
Proof.
  intros Hq Hn Hr Hf Hc Hne. pose proof (q_short _ _ Hq) as Hl.
  destruct (dialog_keys_spec q 257 r st s Hq) as (r' & st' & E & H); [lia|done|done|]. exists r', st'. split; [done|].
  destruct (typed_name q s) as [[s' a] rest]. destruct H as (Hn' & Hq' & Ha). split; [done|]. split; [done|]. split; [done|].
  intros c' Hlen. destruct Hn' as [Hb _]. by apply (join_path_holds fp cwd cm _ 256).
Qed.

Definition new_dialog : input_dialog_t := mk_dialog 100 100 500 150 1 (replicate 256 0) 0 (s_make_file ++ [0]) nothing_saved (-1) (-1) 0 0 0.
Definition new_run : dialog_run := mk_drun new_dialog true 0 0 false.
Definition two_codes : ring := ring_put 0x1C (ring_put 0x1E fresh_ring).

Lemma new_naming : naming new_dialog [].
Proof. split; [|done]. split; [done|]. split; [constructor|]. by exists (replicate 255 0). Qed.
Lemma two_codes_queue : queue two_codes [0x1E; 0x1C].
Proof. apply (queue_put _ [0x1E]); [|cbn; lia]. apply (queue_put _ []); [exact idle_queue|cbn; lia]. Qed.

Lemma dialog_names_witness : exists r' st', dialog_keys 257 two_codes new_run = Done (r', st') /\
  naming (dialog st') [97] /\ queue r' [] /\ (drunning st' = false /\ return_value st' = 1) /\
  ((1 + 1 < 256)%nat -> exists p, join_path (replicate 256 7) [47; 0] (dbuffer (dialog st')) = Done p /\ holds 256 p [47; 97]).
Proof.
  apply (dialog_names [0x1E; 0x1C] two_codes new_run [] [47; 0] 2 [47] (replicate 256 7)).
  - exact two_codes_queue.
  - exact new_naming.
  - reflexivity.
  - reflexivity.
  - split; [reflexivity|]. split; [by constructor|]. by exists [].
  - discriminate.
Defined.

(** A longer name is drawn outside the window. *)
Lemma dialog_text_outside :
  let d := mk_dialog 0 0 500 150 1 (replicate 60 97 ++ replicate 196 0) 60 [0] nothing_saved (-1) (-1) 0 0 0 in
  let c := mk_console (mk_fb ∅ 1024 768 1024) (mk_cursor 0 0 WHITE BLACK) 1 0 0 in
  pixel (input_dialog_draw d c) 505 61 = 0xFFFFFF.
Proof. vm_compute. reflexivity. Qed.
End DialogProps.
