(* ===== verification/Gui.v ===== *)
(** * The desktop (src/kernel/GUI/gui.c)

    The mouse over the ports of the keyboard controller, redrawing, clicks and
    double clicks, the context menu, opening a file in the editor, and the main
    loop. The desktop is the instance of the interfaces the editor and the
    dialog use. *)
From Stdlib Require Import ZArith Lia.
From stdpp Require Import base numbers list gmap.
From S2P Require Import Prelude Ata CStr VfsTypes Console ConsoleProps Serial Keyboard KeyboardProps StrBuf Paint Desk TextEditor Icons Taskbar Dialog.

Module Gui.
Import StrBuf Files Ata Console Keyboard Paint Icons Taskbar.
Local Open Scope Z_scope.
Local Open Scope outcome_scope.

Definition TASKBAR_HEIGHT : Z := 48.
Definition DOUBLE_CLICK_DISTANCE : Z := 5.
Definition dark_cyan : Z := 0x008B8B.

Section Gui.
Context {D W : Type} `{!PortIO D, !FileApi W, !DirApi W}.

Record gui := mk_gui {
  con : console; codes : ring; ports : D; disk : W; button : Z; cur_x : Z;
  cur_y : Z; mouse_initialized : Z; packet : list Z; packet_index : Z; saved : under; last_button_state : Z;
  last_click_time : Z; last_click_x : Z; last_click_y : Z; last_clicked_icon : Z; tick_counter : Z; gui_owns_input : Z;
  desktop : desktop_state_t; taskbar : taskbar_t; running : Z
}.

Definition put_con (v : console) (g : gui) : gui :=
  mk_gui v g.(codes) g.(ports) g.(disk) g.(button) g.(cur_x) g.(cur_y) g.(mouse_initialized) g.(packet) g.(packet_index) g.(saved)
    g.(last_button_state) g.(last_click_time) g.(last_click_x) g.(last_click_y) g.(last_clicked_icon) g.(tick_counter) g.(gui_owns_input)
    g.(desktop) g.(taskbar) g.(running).
Definition put_codes (v : ring) (g : gui) : gui :=
  mk_gui g.(con) v g.(ports) g.(disk) g.(button) g.(cur_x) g.(cur_y) g.(mouse_initialized) g.(packet) g.(packet_index) g.(saved)
    g.(last_button_state) g.(last_click_time) g.(last_click_x) g.(last_click_y) g.(last_clicked_icon) g.(tick_counter) g.(gui_owns_input)
    g.(desktop) g.(taskbar) g.(running).
Definition put_ports (v : D) (g : gui) : gui :=
  mk_gui g.(con) g.(codes) v g.(disk) g.(button) g.(cur_x) g.(cur_y) g.(mouse_initialized) g.(packet) g.(packet_index) g.(saved)
    g.(last_button_state) g.(last_click_time) g.(last_click_x) g.(last_click_y) g.(last_clicked_icon) g.(tick_counter) g.(gui_owns_input)
    g.(desktop) g.(taskbar) g.(running).
Definition put_disk (v : W) (g : gui) : gui :=
  mk_gui g.(con) g.(codes) g.(ports) v g.(button) g.(cur_x) g.(cur_y) g.(mouse_initialized) g.(packet) g.(packet_index) g.(saved)
    g.(last_button_state) g.(last_click_time) g.(last_click_x) g.(last_click_y) g.(last_clicked_icon) g.(tick_counter) g.(gui_owns_input)
    g.(desktop) g.(taskbar) g.(running).
Definition put_button (v : Z) (g : gui) : gui :=
  mk_gui g.(con) g.(codes) g.(ports) g.(disk) v g.(cur_x) g.(cur_y) g.(mouse_initialized) g.(packet) g.(packet_index) g.(saved)
    g.(last_button_state) g.(last_click_time) g.(last_click_x) g.(last_click_y) g.(last_clicked_icon) g.(tick_counter) g.(gui_owns_input)
    g.(desktop) g.(taskbar) g.(running).
Definition put_cur_x (v : Z) (g : gui) : gui :=
  mk_gui g.(con) g.(codes) g.(ports) g.(disk) g.(button) v g.(cur_y) g.(mouse_initialized) g.(packet) g.(packet_index) g.(saved)
    g.(last_button_state) g.(last_click_time) g.(last_click_x) g.(last_click_y) g.(last_clicked_icon) g.(tick_counter) g.(gui_owns_input)
    g.(desktop) g.(taskbar) g.(running).
Definition put_cur_y (v : Z) (g : gui) : gui :=
  mk_gui g.(con) g.(codes) g.(ports) g.(disk) g.(button) g.(cur_x) v g.(mouse_initialized) g.(packet) g.(packet_index) g.(saved)
    g.(last_button_state) g.(last_click_time) g.(last_click_x) g.(last_click_y) g.(last_clicked_icon) g.(tick_counter) g.(gui_owns_input)
    g.(desktop) g.(taskbar) g.(running).
Definition put_mouse_initialized (v : Z) (g : gui) : gui :=
  mk_gui g.(con) g.(codes) g.(ports) g.(disk) g.(button) g.(cur_x) g.(cur_y) v g.(packet) g.(packet_index) g.(saved) g.(last_button_state)
    g.(last_click_time) g.(last_click_x) g.(last_click_y) g.(last_clicked_icon) g.(tick_counter) g.(gui_owns_input) g.(desktop) g.(taskbar)
    g.(running).
Definition put_packet (v : list Z) (g : gui) : gui :=
  mk_gui g.(con) g.(codes) g.(ports) g.(disk) g.(button) g.(cur_x) g.(cur_y) g.(mouse_initialized) v g.(packet_index) g.(saved)
    g.(last_button_state) g.(last_click_time) g.(last_click_x) g.(last_click_y) g.(last_clicked_icon) g.(tick_counter) g.(gui_owns_input)
    g.(desktop) g.(taskbar) g.(running).
Definition put_packet_index (v : Z) (g : gui) : gui :=
  mk_gui g.(con) g.(codes) g.(ports) g.(disk) g.(button) g.(cur_x) g.(cur_y) g.(mouse_initialized) g.(packet) v g.(saved)
    g.(last_button_state) g.(last_click_time) g.(last_click_x) g.(last_click_y) g.(last_clicked_icon) g.(tick_counter) g.(gui_owns_input)
    g.(desktop) g.(taskbar) g.(running).
Definition put_saved (v : under) (g : gui) : gui :=
  mk_gui g.(con) g.(codes) g.(ports) g.(disk) g.(button) g.(cur_x) g.(cur_y) g.(mouse_initialized) g.(packet) g.(packet_index) v
    g.(last_button_state) g.(last_click_time) g.(last_click_x) g.(last_click_y) g.(last_clicked_icon) g.(tick_counter) g.(gui_owns_input)
    g.(desktop) g.(taskbar) g.(running).
Definition put_last_button_state (v : Z) (g : gui) : gui :=
  mk_gui g.(con) g.(codes) g.(ports) g.(disk) g.(button) g.(cur_x) g.(cur_y) g.(mouse_initialized) g.(packet) g.(packet_index) g.(saved) v
    g.(last_click_time) g.(last_click_x) g.(last_click_y) g.(last_clicked_icon) g.(tick_counter) g.(gui_owns_input) g.(desktop) g.(taskbar)
    g.(running).
Definition put_last_click_time (v : Z) (g : gui) : gui :=
  mk_gui g.(con) g.(codes) g.(ports) g.(disk) g.(button) g.(cur_x) g.(cur_y) g.(mouse_initialized) g.(packet) g.(packet_index) g.(saved)
    g.(last_button_state) v g.(last_click_x) g.(last_click_y) g.(last_clicked_icon) g.(tick_counter) g.(gui_owns_input) g.(desktop) g.(taskbar)
    g.(running).
Definition put_last_click_x (v : Z) (g : gui) : gui :=
  mk_gui g.(con) g.(codes) g.(ports) g.(disk) g.(button) g.(cur_x) g.(cur_y) g.(mouse_initialized) g.(packet) g.(packet_index) g.(saved)
    g.(last_button_state) g.(last_click_time) v g.(last_click_y) g.(last_clicked_icon) g.(tick_counter) g.(gui_owns_input) g.(desktop)
    g.(taskbar) g.(running).
Definition put_last_click_y (v : Z) (g : gui) : gui :=
  mk_gui g.(con) g.(codes) g.(ports) g.(disk) g.(button) g.(cur_x) g.(cur_y) g.(mouse_initialized) g.(packet) g.(packet_index) g.(saved)
    g.(last_button_state) g.(last_click_time) g.(last_click_x) v g.(last_clicked_icon) g.(tick_counter) g.(gui_owns_input) g.(desktop)
    g.(taskbar) g.(running).
Definition put_last_clicked_icon (v : Z) (g : gui) : gui :=
  mk_gui g.(con) g.(codes) g.(ports) g.(disk) g.(button) g.(cur_x) g.(cur_y) g.(mouse_initialized) g.(packet) g.(packet_index) g.(saved)
    g.(last_button_state) g.(last_click_time) g.(last_click_x) g.(last_click_y) v g.(tick_counter) g.(gui_owns_input) g.(desktop) g.(taskbar)
    g.(running).
Definition put_tick_counter (v : Z) (g : gui) : gui :=
  mk_gui g.(con) g.(codes) g.(ports) g.(disk) g.(button) g.(cur_x) g.(cur_y) g.(mouse_initialized) g.(packet) g.(packet_index) g.(saved)
    g.(last_button_state) g.(last_click_time) g.(last_click_x) g.(last_click_y) g.(last_clicked_icon) v g.(gui_owns_input) g.(desktop)
    g.(taskbar) g.(running).
Definition put_gui_owns_input (v : Z) (g : gui) : gui :=
  mk_gui g.(con) g.(codes) g.(ports) g.(disk) g.(button) g.(cur_x) g.(cur_y) g.(mouse_initialized) g.(packet) g.(packet_index) g.(saved)
    g.(last_button_state) g.(last_click_time) g.(last_click_x) g.(last_click_y) g.(last_clicked_icon) g.(tick_counter) v g.(desktop) g.(taskbar)
    g.(running).
Definition put_desktop (v : desktop_state_t) (g : gui) : gui :=
  mk_gui g.(con) g.(codes) g.(ports) g.(disk) g.(button) g.(cur_x) g.(cur_y) g.(mouse_initialized) g.(packet) g.(packet_index) g.(saved)
    g.(last_button_state) g.(last_click_time) g.(last_click_x) g.(last_click_y) g.(last_clicked_icon) g.(tick_counter) g.(gui_owns_input) v
    g.(taskbar) g.(running).
Definition put_taskbar (v : taskbar_t) (g : gui) : gui :=
  mk_gui g.(con) g.(codes) g.(ports) g.(disk) g.(button) g.(cur_x) g.(cur_y) g.(mouse_initialized) g.(packet) g.(packet_index) g.(saved)
    g.(last_button_state) g.(last_click_time) g.(last_click_x) g.(last_click_y) g.(last_clicked_icon) g.(tick_counter) g.(gui_owns_input)
    g.(desktop) v g.(running).
Definition put_running (v : Z) (g : gui) : gui :=
  mk_gui g.(con) g.(codes) g.(ports) g.(disk) g.(button) g.(cur_x) g.(cur_y) g.(mouse_initialized) g.(packet) g.(packet_index) g.(saved)
    g.(last_button_state) g.(last_click_time) g.(last_click_x) g.(last_click_y) g.(last_clicked_icon) g.(tick_counter) g.(gui_owns_input)
    g.(desktop) g.(taskbar) v.

(** ** The mouse *)
Definition port_in (p : Z) (g : gui) : Z * gui := let '(v, d) := inb p g.(ports) in (v, put_ports d g).
Definition port_out (p v : Z) (g : gui) : gui := put_ports (outb p v g.(ports)) g.

(** [while ((inb(0x64) & mask) is on && timeout--);] *)
Fixpoint wait_while (timeout : nat) (mask : Z) (on : bool) (g : gui) : gui :=
  let '(v, g) := port_in 0x64 g in
  if Bool.eqb (c_true (Z.land v mask)) on then match timeout with O => g | S n => wait_while n mask on g end else g.

(** A command to the mouse and its answer. *)
Definition mouse_command (cmd : Z) (g : gui) : gui :=
  let g := wait_while (Z.to_nat 100000) 2 true g in
  let g := port_out 0x64 0xD4 g in
  let g := wait_while (Z.to_nat 100000) 2 true g in
  let g := port_out 0x60 cmd g in
  let g := wait_while (Z.to_nat 100000) 1 false g in
  let '(v, g) := port_in 0x64 g in
  if c_true (Z.land v 1) then snd (port_in 0x60 g) else g.

Definition mouse_setup (g : gui) : gui :=
  if c_true g.(mouse_initialized) then g else
  let g := mouse_command 0xF4 g in
  let g := put_packet_index 0 (put_mouse_initialized 1 g) in
  put_cur_y (g.(con).(fb).(height) / 2) (put_cur_x (g.(con).(fb).(width) / 2) g).

(** The last two conditions compare with the unsigned size of the screen. *)
Definition limit (v size : Z) : Z :=
  let v := if v <? 0 then 0 else v in if u32 (size - 16) <=? u32 v then s32 (u32 (size - 16)) else v.

Definition use_packet (g : gui) : gui :=
  let b1 := get g.(packet) 0 in
  let delta_x := Mouse.delta (get g.(packet) 1) (Z.land b1 0x10) in
  let delta_y := - Mouse.delta (get g.(packet) 2) (Z.land b1 0x20) in
  let g := put_button (Z.land b1 0x03) g in
  let g := put_cur_x (limit (g.(cur_x) + delta_x) g.(con).(fb).(width)) g in
  let g := put_cur_y (limit (g.(cur_y) + delta_y) g.(con).(fb).(height)) g in
  put_packet_index 0 g.

(** One byte per call: of the mouse, or of the keyboard. *)
Definition update_mouse_position_only (g : gui) : gui :=
  let g := mouse_setup g in
  if negb (c_true g.(gui_owns_input)) then g else
  let '(v, g) := port_in 0x64 g in
  if negb (c_true (Z.land v 1)) then g else
  let '(status, g) := port_in 0x64 g in
  let '(data, g) := port_in 0x60 g in
  if c_true (Z.land status 0x20) then
    let g := put_packet (<[Z.to_nat g.(packet_index) := data]> g.(packet)) g in
    let g := put_packet_index (u8 (g.(packet_index) + 1)) g in
    if g.(packet_index) =? 3 then use_packet g else g
  else put_codes (ring_put data g.(codes)) g.

(** Bytes that are still there are read away, 10000 at most. *)
Fixpoint drain (timeout : nat) (g : gui) : gui :=
  match timeout with
  | O => g
  | S n => let '(v, g) := port_in 0x64 g in if c_true (Z.land v 1) then drain n (snd (port_in 0x60 g)) else g
  end.
Definition disable_mouse (g : gui) : gui := drain (Z.to_nat 10000) (mouse_command 0xF5 g).

(** ** Drawing *)
Definition hide_cursor (g : gui) : gui :=
  let '(u, c) := restore_cursor_area g.(saved) g.(con) in put_con c (put_saved u g).
Definition show_cursor (x y : Z) (g : gui) : gui :=
  let g := put_saved (save_cursor_area x y g.(con) g.(saved)) g in put_con (draw_cursor x y g.(con)) g.

Definition fill_background (c : console) : console :=
  fill_rect 0 0 c.(fb).(width) (u32 (c.(fb).(height) - TASKBAR_HEIGHT)) dark_cyan c.

Definition redraw_desktop (g : gui) : gui :=
  let c := fill_background g.(con) in
  let '(t, c) := taskbar_draw (s32 c.(fb).(width)) (s32 c.(fb).(height)) g.(taskbar) c in
  put_con (desktop_draw_icons g.(desktop) c) (put_taskbar t g).

#[global] Instance gui_desk : Desk.DeskApi gui W := {|
  Desk.screen := con; Desk.set_screen := put_con; Desk.scancodes := codes; Desk.set_scancodes := put_codes;
  Desk.files := disk; Desk.set_files := put_disk; Desk.mouse_button_state := button; Desk.update_mouse := update_mouse_position_only;
  Desk.get_cursor_x := cur_x; Desk.get_cursor_y := cur_y; Desk.redraw_desktop := redraw_desktop |}.
#[global] Instance gui_desktop : Dialog.DesktopApi gui := {|
  Dialog.get_desktop := desktop; Dialog.set_desktop := put_desktop; Dialog.get_taskbar := taskbar; Dialog.set_taskbar := put_taskbar;
  Dialog.restore_main_cursor := hide_cursor; Dialog.stop_running := put_running 0 |}.

(** ** Clicks *)
Definition is_double_click (mx my icon_index : Z) (g : gui) : bool :=
  if negb (icon_index =? g.(last_clicked_icon)) then false
  else if 50000 <? u64 (g.(tick_counter) - g.(last_click_time)) then false
  else if (DOUBLE_CLICK_DISTANCE <? Z.abs (mx - g.(last_click_x))) || (DOUBLE_CLICK_DISTANCE <? Z.abs (my - g.(last_click_y))) then false
  else true.

(** [e0] is the memory of the local variable. *)
Definition open_file_in_editor (fuel : nat) (e0 : TextEditor.text_editor_t) (icon : desktop_icon_t) (g : gui) : outcome gui :=
  let* (e, w) := TextEditor.text_editor_init g.(con).(fb).(width) g.(con).(fb).(height) (Some (cstr (full_path icon))) e0 g.(disk) in
  let g := put_disk w g in
  let* t := taskbar_add_item TASKBAR_ITEM_EDITOR (name icon) g.(taskbar) in
  let g := redraw_desktop (hide_cursor (put_taskbar t g)) in
  let* c := TextEditor.text_editor_draw e g.(con) in
  let mx := g.(cur_x) in
  let my := g.(cur_y) in
  let e := TextEditor.editor_save_cursor_area mx my c e in
  let g := put_con (draw_cursor mx my c) g in
  let* (g, e) := TextEditor.text_editor_run fuel e g in
  let* t := Dialog.remove_first TASKBAR_ITEM_EDITOR g.(taskbar) in
  let g := put_taskbar t g in
  let '(_, c) := TextEditor.editor_restore_cursor_area e g.(con) in
  let g := redraw_desktop (put_con c g) in
  Done (show_cursor g.(cur_x) g.(cur_y) g).

Definition menu_item (item : Z) : context_menu_item_t :=
  if item =? 0 then CONTEXT_MENU_CREATE_FILE else if item =? 1 then CONTEXT_MENU_CREATE_FOLDER
  else if item =? 2 then CONTEXT_MENU_OPEN_TERMINAL else CONTEXT_MENU_NONE.

(** The memory of the local variables of the windows. *)
Record locals := mk_locals { l_editor : TextEditor.text_editor_t; l_dialog : Dialog.input_dialog_t; l_filename : list Z; l_fullpath : list Z }.

Definition click_icon (fuel : nat) (m : locals) (mx my : Z) (g : gui) : outcome gui :=
  let icon_index := desktop_icon_at_position g.(desktop) mx my in
  if 0 <=? icon_index then
    if is_double_click mx my icon_index g then
      let* icon := aget (icons g.(desktop)) icon_index in
      let* g := (if c_true (is_directory icon) then Done g else open_file_in_editor fuel (l_editor m) icon g) in
      Done (put_last_clicked_icon (-1) (put_last_click_time 0 g))
    else
      let g := put_desktop (desktop_select_icon g.(desktop) icon_index) g in
      Done (put_last_clicked_icon icon_index (put_last_click_y my (put_last_click_x mx (put_last_click_time g.(tick_counter) g))))
  else Done (put_last_clicked_icon (-1) (put_desktop (desktop_select_icon g.(desktop) (-1)) g)).

Definition left_click (fuel : nat) (m : locals) (mx my : Z) (menu : context_menu_t) (g : gui) : outcome (context_menu_t * gui) :=
  let item := taskbar_get_item_at g.(taskbar) mx my (s32 g.(con).(fb).(height)) in
  let* (menu, g) :=
    (if 0 <=? item then let* t := taskbar_remove_item item g.(taskbar) in Done (menu, put_taskbar t g)
     else if c_true (mvisible menu) then
       let k := context_menu_get_item_at menu mx my in
       let* g := (if 0 <=? k then Dialog.handle_context_menu_action fuel (menu_item k) (l_dialog m) (l_filename m) (l_fullpath m) g
                  else Done g) in
       Done (context_menu_hide menu, g)
     else let* g := click_icon fuel m mx my g in Done (menu, g)) in
  Done (menu, show_cursor mx my (redraw_desktop (hide_cursor g))).

Definition right_click (mx my : Z) (menu : context_menu_t) (g : gui) : context_menu_t * gui :=
  if 0 <=? desktop_icon_at_position g.(desktop) mx my then (menu, g) else
  let w := g.(con).(fb).(width) in let h := g.(con).(fb).(height) in
  let menu := context_menu_show mx my in
  let menu := if w <? u32 (Icons.mx menu + CONTEXT_MENU_WIDTH)
              then mk_menu (s32 (u32 (w - CONTEXT_MENU_WIDTH))) (Icons.my menu) (mvisible menu) (selected_item menu) else menu in
  let menu := if u32 (h - TASKBAR_HEIGHT) <? u32 (Icons.my menu + CONTEXT_MENU_HEIGHT)
              then mk_menu (Icons.mx menu) (s32 (u32 (h - TASKBAR_HEIGHT - CONTEXT_MENU_HEIGHT))) (mvisible menu) (selected_item menu) else menu in
  let g := hide_cursor g in
  (menu, show_cursor mx my (put_con (context_menu_draw menu g.(con)) g)).

(** ** The main loop *)
Record loop := mk_loop { menu : context_menu_t; last_mx : Z; last_my : Z }.

(** The keys: Escape leaves the desktop; 256 rounds empty the ring. *)
Fixpoint gui_keys (fuel : nat) (r : ring) (run : Z) : outcome (ring * Z) :=
  match fuel with
  | O => OutOfFuel
  | S fuel =>
    if ring_empty r then Done (r, run) else
    let '(scancode, r) := ring_get r in
    gui_keys fuel r (if (scancode =? 0xE0) || c_true (Z.land scancode 0x80) then run else if scancode =? 1 then 0 else run)
  end.

Definition hover (mx my : Z) (m : context_menu_t) (g : gui) : context_menu_t * gui :=
  let old_hover := hover_item g.(taskbar) in
  let g := put_taskbar (taskbar_update_hover g.(taskbar) mx my (s32 g.(con).(fb).(height))) g in
  let g := if old_hover =? hover_item g.(taskbar) then g else show_cursor mx my (redraw_desktop (hide_cursor g)) in
  if c_true (mvisible m) then
    let m' := context_menu_update_hover m mx my in
    if selected_item m =? selected_item m' then (m', g)
    else let g := redraw_desktop (hide_cursor g) in (m', show_cursor mx my (put_con (context_menu_draw m' g.(con)) g))
  else (m, g).

Definition gui_round (fuel : nat) (m : locals) (s : loop) (g : gui) : outcome (loop * gui) :=
  let g := put_tick_counter (u64 (g.(tick_counter) + 1)) g in
  let g := update_mouse_position_only g in
  let mx := g.(cur_x) in
  let my := g.(cur_y) in
  let '(mn, g) := hover mx my (menu s) g in
  let '(lx, ly, g) := if negb (mx =? last_mx s) || negb (my =? last_my s) then (mx, my, show_cursor mx my (hide_cursor g))
                      else (last_mx s, last_my s, g) in
  let left := c_true (Z.land g.(button) 1) && negb (c_true (Z.land g.(last_button_state) 1)) in
  let right := c_true (Z.land g.(button) 2) && negb (c_true (Z.land g.(last_button_state) 2)) in
  let* (mn, g) := (if left then left_click fuel m mx my mn g else Done (mn, g)) in
  let '(mn, g) := if right then right_click mx my mn g else (mn, g) in
  let g := put_last_button_state g.(button) g in
  let* (r, run) := gui_keys 257 g.(codes) g.(running) in
  Done (mk_loop mn lx ly, put_running run (put_codes r g)).

Fixpoint gui_rounds (fuel : nat) (m : locals) (s : loop) (g : gui) : outcome gui :=
  if g.(running) =? 0 then Done g else
  match fuel with
  | O => OutOfFuel
  | S fuel => let* (s, g) := gui_round fuel m s g in gui_rounds fuel m s g
  end.

Definition clear_ring : ring := mk_ring (replicate 256 0) 0 0.
Definition set_isgui (v : Z) (c : console) : console := mk_console c.(fb) c.(cursor) v c.(scroll_offset) c.(max_lines).

Definition load_desktop (g : gui) : outcome gui :=
  match v_root g.(disk) with
  | None => Done g
  | Some _ =>
    let* (r, s, w) := desktop_load_directory g.(desktop) [47; 0] g.(disk) in
    let g := put_disk w (put_desktop s g) in
    if 0 <=? r then
      let s := desktop_arrange_icons (desktop_sort_icons s) (s32 g.(con).(fb).(width)) (s32 g.(con).(fb).(height)) TASKBAR_HEIGHT in
      Done (put_con (desktop_draw_icons s g.(con)) (put_desktop s g))
    else Done g
  end.

Definition gui_main (fuel : nat) (m : locals) (g : gui) : outcome gui :=
  let g := put_con (fill_background (set_isgui 1 g.(con))) g in
  let t := taskbar_init TASKBAR_HEIGHT g.(taskbar) in
  let '(t, c) := taskbar_draw (s32 g.(con).(fb).(width)) (s32 g.(con).(fb).(height)) t g.(con) in
  let g := put_con (SetCursorPos 0 0 c) (put_taskbar t g) in
  let g := put_desktop (desktop_init g.(desktop)) g in
  let* g := load_desktop g in
  let mx := g.(cur_x) in
  let my := g.(cur_y) in
  let g := put_running 1 (show_cursor mx my g) in
  let* g := gui_rounds fuel m (mk_loop context_menu_init mx my) g in
  let g := disable_mouse (hide_cursor g) in
  let g := put_button 0 (put_mouse_initialized 0 (put_codes clear_ring g)) in
  Done (put_con (set_isgui 0 (SetCursorPos 0 0 (ClearScreen BLACK g.(con)))) g).

(** Up to the exit of the thread. *)
Definition gui_thread_entry (fuel : nat) (m : locals) (g : gui) : outcome gui :=
  let g := put_codes clear_ring (put_gui_owns_input 1 g) in
  let* g := gui_main fuel m g in
  Done (put_codes clear_ring (put_gui_owns_input 0 g)).
End Gui.
Arguments gui : clear implicits.
End Gui.

(** * The desktop: the mouse stays on the screen, the menu too

    Whatever bytes arrive, the mouse position keeps the arrow on the screen;
    the context menu opens inside the desktop; and leaving the desktop gives
    the console and the keyboard back. *)
Module GuiProps.
Import StrBuf Files Ata Console MouseProps Keyboard KeyboardProps Paint Icons Taskbar Gui.
Local Open Scope Z_scope.
Local Open Scope outcome_scope.

Section Props.
Context {D W : Type} `{!PortIO D, !FileApi W, !DirApi W}.
Notation G := (gui D W).

(** ** The mouse *)
Definition room (c : console) : Prop := 32 <= c.(fb).(width) < 2 ^ 30 /\ 32 <= c.(fb).(height) < 2 ^ 30.

(** The state the mouse code keeps. *)
Record mouse_ok (g : G) : Prop := {
  mo_room : room g.(con);
  mo_packet : length g.(packet) = 3%nat;
  mo_bytes : Forall is_byte g.(packet);
  mo_index : 0 <= g.(packet_index) < 3;
  mo_x : 0 <= g.(cur_x) <= g.(con).(fb).(width) - 16;
  mo_y : 0 <= g.(cur_y) <= g.(con).(fb).(height) - 16 }.

Lemma limit_range v size : 16 <= size < 2 ^ 31 -> - 2 ^ 31 <= v < 2 ^ 31 -> 0 <= limit v size <= size - 16.
Proof.
  intros Hs Hv. unfold limit. rewrite (wrap_small 32 (size - 16)) by lia.
  destruct (Z.ltb_spec v 0); [rewrite (wrap_small 32 0) by lia|rewrite (wrap_small 32 v) by lia].
  - destruct (Z.leb_spec (size - 16) 0); rewrite ?swrap_small by lia; lia.
  - destruct (Z.leb_spec (size - 16) v); rewrite ?swrap_small by lia; lia.
Qed.

Lemma delta_range b sign : is_byte b -> -256 <= Mouse.delta b sign < 256.
Proof. intros Hb. rewrite delta_nine by done. unfold nine_bit, is_byte in *. destruct (c_true sign); lia. Qed.

Lemma use_packet_ok g i : mouse_ok (put_packet_index i g) -> mouse_ok (use_packet g).
Proof.
  intros [[Hw Hh] Hp Hb Hi Hx Hy]. cbn in *. unfold use_packet.
  assert (forall k, is_byte (get (packet g) k)) as Hbyte.
  { intros k. unfold get. destruct (nth_in_or_default k (packet g) 0) as [Hin| ->]; [|unfold is_byte; lia].
    rewrite Forall_forall in Hb. apply Hb. by apply list_elem_of_In. }
  pose proof (delta_range (get (packet g) 1) (Z.land (get (packet g) 0) 0x10) (Hbyte 1%nat)) as H1.
  pose proof (delta_range (get (packet g) 2) (Z.land (get (packet g) 0) 0x20) (Hbyte 2%nat)) as H2.
  split; cbn; try done; try lia; apply limit_range; lia.
Qed.

(** Device registers are bytes. *)
Context (inb_byte : forall p (d : D), is_byte (fst (inb p d))).

Lemma put_ports_ok d g : mouse_ok g -> mouse_ok (put_ports d g).
Proof. by intros [? ? ? ? ? ?]. Qed.
Lemma port_in_ok p g : mouse_ok g -> mouse_ok (snd (port_in p g)) /\ is_byte (fst (port_in p g)).
Proof.
  intros H. unfold port_in. pose proof (inb_byte p (ports g)). destruct (inb p (ports g)) as [v d]. cbn in *. split; [by apply put_ports_ok|done].
Qed.

Lemma wait_while_ok n mask on : forall g, mouse_ok g -> mouse_ok (wait_while n mask on g).
Proof.
  induction n as [|n IH]; intros g H; cbn [wait_while]; destruct (port_in_ok 0x64 g H) as [H1 _]; destruct (port_in 0x64 g) as [v g1]; cbn in H1;
    destruct (Bool.eqb _ _); auto.
Qed.

Lemma mouse_command_ok cmd g : mouse_ok g -> mouse_ok (mouse_command cmd g).
Proof.
  intros H. unfold mouse_command. set (n := Z.to_nat 100000).
  assert (mouse_ok (wait_while n 1 false (port_out 0x60 cmd (wait_while n 2 true (port_out 0x64 0xD4 (wait_while n 2 true g)))))) as H1.
  { repeat (apply wait_while_ok || apply put_ports_ok). done. }
  revert H1. generalize (wait_while n 1 false (port_out 0x60 cmd (wait_while n 2 true (port_out 0x64 0xD4 (wait_while n 2 true g))))). intros g1 H1.
  destruct (port_in_ok 0x64 g1 H1) as [H2 _]. destruct (port_in 0x64 g1) as [v g2]. cbn in H2. destruct (c_true _); [|done]. by apply port_in_ok.
Qed.

Lemma mouse_setup_ok g : mouse_ok g -> mouse_ok (mouse_setup g).
Proof.
  intros H. unfold mouse_setup. destruct (c_true _); [done|]. apply (mouse_command_ok 0xF4) in H. revert H. generalize (mouse_command 0xF4 g).
  intros g1 [[Hw Hh] Hp Hb Hi Hx Hy].
  assert (forall n, 32 <= n -> 0 <= n / 2 <= n - 16) as Hhalf.
  { intros n Hn. pose proof (Z.mul_div_le n 2). pose proof (Z.mul_succ_div_gt n 2). lia. }
  split; cbn -[Z.div Z.sub]; try done; try lia; apply Hhalf; lia.
Qed.

Lemma update_ok g : mouse_ok g -> mouse_ok (update_mouse_position_only g).
Proof.
  intros H. unfold update_mouse_position_only. apply mouse_setup_ok in H. revert H. generalize (mouse_setup g). clear g. intros g H.
  destruct (negb (c_true _)); [done|]. destruct (port_in_ok 0x64 g H) as [H1 _]. destruct (port_in 0x64 g) as [v g1]. cbn in H1.
  destruct (negb (c_true _)); [done|]. destruct (port_in_ok 0x64 g1 H1) as [H2 _]. destruct (port_in 0x64 g1) as [st g2]. cbn in H2.
  destruct (port_in_ok 0x60 g2 H2) as [H3 Hd]. destruct (port_in 0x60 g2) as [d g3]. cbn in H3, Hd.
  destruct (c_true _); [|by destruct H3]. destruct H3 as [Hr Hp Hb Hi Hx Hy].
  assert (mouse_ok (put_packet (<[Z.to_nat (packet_index g3) := d]> (packet g3)) g3)) as H4.
  { split; cbn; try done; [by rewrite length_insert|by apply Forall_insert]. }
  rewrite wrap_small by (cbn; lia).
  match goal with |- mouse_ok (if ?b then _ else _) => destruct b eqn:E end.
  - apply (use_packet_ok _ 0). destruct H4 as [Hr4 Hp4 Hb4 Hi4 Hx4 Hy4]. by split; cbn in *; try lia.
  - cbn in E. apply Z.eqb_neq in E. destruct H4 as [Hr4 Hp4 Hb4 Hi4 Hx4 Hy4]. by split; cbn in *; try lia.
Qed.

(** The menu opens above the taskbar and inside the screen. *)
Lemma menu_on_screen g m m' g' : mouse_ok g -> 150 <= g.(con).(fb).(width) -> 138 <= g.(con).(fb).(height) ->
  desktop_icon_at_position g.(desktop) g.(cur_x) g.(cur_y) < 0 -> right_click g.(cur_x) g.(cur_y) m g = (m', g') ->
  mvisible m' = 1 /\ 0 <= Icons.mx m' <= g.(con).(fb).(width) - CONTEXT_MENU_WIDTH /\
  0 <= Icons.my m' <= g.(con).(fb).(height) - TASKBAR_HEIGHT - CONTEXT_MENU_HEIGHT.
Proof.
  intros [[Hw Hh] _ _ _ Hx Hy] Hw' Hh' Hi E. unfold right_click, CONTEXT_MENU_WIDTH, CONTEXT_MENU_HEIGHT, TASKBAR_HEIGHT in *.
  destruct (Z.leb_spec 0 (desktop_icon_at_position (desktop g) (cur_x g) (cur_y g))); [lia|].
  unfold context_menu_show in E. cbn [Icons.mx Icons.my mvisible selected_item] in E.
  rewrite (wrap_small 32 (cur_x g + 150)) in E by lia.
  destruct (Z.ltb_spec (width (fb (con g))) (cur_x g + 150)); cbn [Icons.mx Icons.my mvisible selected_item] in E;
    rewrite ?(wrap_small 32 (height (fb (con g)) - 48)), ?(wrap_small 32 (cur_y g + 90)) in E by lia;
    destruct (Z.ltb_spec (height (fb (con g)) - 48) (cur_y g + 90)); injection E as <- _; cbn [Icons.mx Icons.my mvisible];
    rewrite ?(wrap_small 32), ?swrap_small by lia; lia.
Qed.

(** When the desktop ends, the console prints again, the ring is empty and the
    mouse is to be set up anew. *)
Lemma gui_gives_back fuel m g g' : gui_thread_entry fuel m g = Done g' ->
  g'.(con).(isgui) = 0 /\ g'.(gui_owns_input) = 0 /\ queue g'.(codes) [] /\ g'.(mouse_initialized) = 0 /\ g'.(button) = 0.
Proof.
  unfold gui_thread_entry. destruct (gui_main _ _ _) as [g1| |] eqn:E; cbn [obind]; [|done..]. injection 1 as <-.
  assert (g1.(con).(isgui) = 0 /\ g1.(mouse_initialized) = 0 /\ g1.(button) = 0) as (H1 & H2 & H3).
  { revert E. unfold gui_main. destruct (taskbar_draw _ _ _ _) as [t c]. destruct (load_desktop _) as [g2| |]; cbn [obind]; [|done..].
    destruct (gui_rounds _ _ _ _) as [g3| |]; cbn [obind]; [|done..]. injection 1 as <-. done. }
  split_and!; [exact H1|done| |exact H2|exact H3]. split; cbn; try done; lia.
Qed.
End Props.

(** C40: Whatever bytes the keyboard controller delivers, the state the mouse
    code keeps stays well formed: the packet has three bytes and its index is
    below three, and the position keeps the whole arrow on the screen. *)
Theorem gui_mouse_on_screen {D W : Type} `{!PortIO D} (g : gui D W) :
  (forall p (d : D), is_byte (fst (inb p d))) -> mouse_ok g -> mouse_ok (update_mouse_position_only g).
Proof. intros Hb. by apply update_ok. Qed.

(** A controller with bytes of the mouse queued. *)
#[local] Instance queued_ports : PortIO (list Z) := {|
  inb p d := if p =? 0x64 then (match d with [] => 0 | _ => 0x21 end, d)
             else match d with [] => (0, d) | b :: d' => (u8 b, d') end;
  outb p v d := d; inw p d := ((0, 0), d); outw p v d := d |}.

Definition idle_gui (d : list Z) : gui (list Z) unit :=
  mk_gui (mk_console (mk_fb ∅ 640 480 640) (mk_cursor 0 0 WHITE BLACK) 1 0 0) clear_ring d tt 0 620 10 1 [0; 0; 0] 0 nothing_saved
    0 0 0 0 (-1) 0 1 (mk_desktop [] 0 (-1)) empty_bar 1.

Lemma gui_mouse_on_screen_witness :
  let g3 := update_mouse_position_only (update_mouse_position_only (update_mouse_position_only (idle_gui [8; 200; 50]))) in
  (g3.(cur_x) = 624 /\ g3.(cur_y) = 0) /\ mouse_ok g3.
Proof.
  split; [vm_compute; done|]. assert (forall p (d : list Z), is_byte (fst (inb p d))) as Hb.
  { intros p d. cbn. destruct (p =? 0x64), d; cbn [fst]; try (unfold is_byte; lia). apply wrap_byte. }
  apply gui_mouse_on_screen; [exact Hb|]. apply gui_mouse_on_screen; [exact Hb|]. apply gui_mouse_on_screen; [exact Hb|].
  split; cbn; try done; try lia. repeat constructor; unfold is_byte; lia.
Defined.
End GuiProps.
