(* ===== verification/Tables.v ===== *)
(** * Descriptor tables (src/kernel/Tables: gdt.c, tss.c, idt.c)

    The tables are the arrays of the source; [gdt_image], [idt_image] are their
    bytes in memory (the structs are packed), which the processor reads. The
    addresses the linker gives to the tables and to the handlers are the class
    [Symbols]. The privileged instructions lgdt, lidt, ltr and the reloading of
    the segment registers set the registers of [cpu]. *)
From Stdlib Require Import ZArith Lia.
From stdpp Require Import base numbers list.
From S2P Require Import Prelude.

Local Open Scope Z_scope.
Local Open Scope outcome_scope.

Module Tables.

Definition GDT_ENTRIES : Z := 7.
Definition IDT_ENTRIES : Z := 256.
Definition KERNEL_CS : Z := 1 * 8.
Definition KERNEL_DS : Z := 2 * 8.
Definition USER_CS : Z := 3 * 8.
Definition USER_DS : Z := 4 * 8.
Definition TSS_SEL : Z := 5 * 8.

Record gdt_entry := mk_gdt {
  limit_low : Z; base_low : Z; base_middle : Z; access : Z; granularity : Z; base_high : Z }.
Record idt_entry := mk_idt {
  offset_low : Z; selector : Z; ist : Z; type_attr : Z; offset_mid : Z; offset_high : Z; zero : Z }.
(** [struct gdt_ptr] and [struct idt_ptr]. *)
Record table_ptr := mk_ptr { limit : Z; base : Z }.

(** [struct TSS64], packed: 104 bytes, with the offsets of the fields the code sets. *)
Definition SIZEOF_TSS : Z := 104.
Definition TSS_RSP0 : Z := 4.
Definition TSS_IST : Z := 36.
Definition TSS_IO_MAP_BASE : Z := 102.

(** Segment registers and table registers of the processor. *)
Record cpu := mk_cpu { gdtr : table_ptr; idtr : table_ptr; tr : Z; cs : Z; ds : Z; es : Z; fs : Z; gs : Z; ss : Z }.

Record tables := mk_tables {
  gdt : list gdt_entry; gdtp : table_ptr; tss : list Z; idt : list idt_entry; idtp : table_ptr; regs : cpu }.

Class Symbols := {
  addr_gdt : Z; addr_tss : Z; addr_idt : Z;
  isr : Z -> Z; generic_handler : Z; timer_handler_asm : Z; keyboard_handler : Z }.

Definition set_gdt (g : list gdt_entry) (t : tables) : tables := mk_tables g t.(gdtp) t.(tss) t.(idt) t.(idtp) t.(regs).
Definition set_tss (b : list Z) (t : tables) : tables := mk_tables t.(gdt) t.(gdtp) b t.(idt) t.(idtp) t.(regs).
Definition set_idt (i : list idt_entry) (t : tables) : tables := mk_tables t.(gdt) t.(gdtp) t.(tss) i t.(idtp) t.(regs).
Definition set_regs (r : cpu) (t : tables) : tables := mk_tables t.(gdt) t.(gdtp) t.(tss) t.(idt) t.(idtp) r.

(** ** gdt.c *)
Definition gdt_gate (base limit access gran : Z) : gdt_entry :=
  {| limit_low := Z.land limit 0xFFFF;
     base_low := Z.land base 0xFFFF;
     base_middle := Z.land (Z.shiftr base 16) 0xFF;
     access := access;
     granularity := Z.lor (Z.land (Z.shiftr limit 16) 0x0F) (Z.land gran 0xF0);
     base_high := Z.land (Z.shiftr base 24) 0xFF |}.
Definition gdt_set_gate (num base limit access gran : Z) (t : tables) : outcome tables :=
  let* g := aset t.(gdt) num (gdt_gate base limit access gran) in Done (set_gdt g t).

Section Code.
Context `{!Symbols}.

Definition gdt_load_asm (t : tables) : tables :=
  let p := mk_ptr (8 * GDT_ENTRIES - 1) addr_gdt in
  let r := t.(regs) in
  mk_tables t.(gdt) p t.(tss) t.(idt) t.(idtp) (mk_cpu p r.(idtr) r.(tr) r.(cs) r.(ds) r.(es) r.(fs) r.(gs) r.(ss)).
Definition gdt_reload_segments (t : tables) : tables :=
  let r := t.(regs) in set_regs (mk_cpu r.(gdtr) r.(idtr) r.(tr) 0x08 0x10 0x10 0x10 0x10 0x10) t.

Definition gdt_init (t : tables) : outcome tables :=
  let* t := foldl (fun t i => let* t := t in let* g := aset t.(gdt) (Z.of_nat i) (mk_gdt 0 0 0 0 0 0) in Done (set_gdt g t))
                  (Done t) (seq 0 (Z.to_nat GDT_ENTRIES)) in
  let* t := gdt_set_gate 0 0 0 0 0 t in
  let* t := gdt_set_gate 1 0 0 0x9A 0x20 t in
  let* t := gdt_set_gate 2 0 0 0x92 0x00 t in
  let* t := gdt_set_gate 3 0 0 0xFA 0x20 t in
  let* t := gdt_set_gate 4 0 0 0xF2 0x00 t in
  Done (gdt_reload_segments (gdt_load_asm t)).

Definition gdt_set_tss (tss_ptr : Z) (t : tables) : outcome tables :=
  let base := tss_ptr in
  let limit := SIZEOF_TSS - 1 in
  let* g := aset t.(gdt) 5
    {| limit_low := Z.land limit 0xFFFF;
       base_low := Z.land base 0xFFFF;
       base_middle := Z.land (Z.shiftr base 16) 0xFF;
       access := 0x89;
       granularity := Z.land (Z.shiftr limit 16) 0x0F;
       base_high := Z.land (Z.shiftr base 24) 0xFF |} in
  let* g := aset g 6
    {| limit_low := Z.land (Z.shiftr base 32) 0xFFFF;
       base_low := Z.land (Z.shiftr base 48) 0xFFFF;
       base_middle := 0; access := 0; granularity := 0; base_high := 0 |} in
  Done (gdt_load_asm (set_gdt g t)).

Definition tss_load (t : tables) : tables :=
  let r := t.(regs) in
  set_regs (mk_cpu r.(gdtr) r.(idtr) TSS_SEL r.(cs) r.(ds) r.(es) r.(fs) r.(gs) r.(ss)) t.

(** ** tss.c *)

(** A store of [v] in [n] bytes at offset [off] of the struct. *)
Fixpoint store_bytes (b : list Z) (off : Z) (v : list Z) : outcome (list Z) :=
  match v with
  | [] => Done b
  | x :: v => let* b := aset b off x in store_bytes b (off + 1) v
  end.
Definition put_field (n : nat) (off v : Z) (t : tables) : outcome tables :=
  let* b := store_bytes t.(tss) off (le_bytes n v) in Done (set_tss b t).

Definition tss_init (t : tables) : outcome tables :=
  let* t := foldl (fun t i => let* t := t in put_field 8 (8 * Z.of_nat i) 0 t) (Done t) (seq 0 (Z.to_nat (SIZEOF_TSS / 8))) in
  let* t := put_field 2 TSS_IO_MAP_BASE SIZEOF_TSS t in
  let* t := gdt_set_tss addr_tss t in
  Done (tss_load t).

Definition tss_set_rsp0 (rsp0 : Z) (t : tables) : outcome tables := put_field 8 TSS_RSP0 rsp0 t.
Definition tss_set_ist (ist_index stack_addr : Z) (t : tables) : outcome tables :=
  if (1 <=? ist_index) && (ist_index <=? 7) then put_field 8 (TSS_IST + 8 * (ist_index - 1)) stack_addr t
  else Done t.

(** ** idt.c *)
Definition idt_gate (handler selector flags : Z) : idt_entry :=
  {| offset_low := Z.land handler 0xFFFF;
     selector := selector;
     ist := 0;
     type_attr := flags;
     offset_mid := Z.land (Z.shiftr handler 16) 0xFFFF;
     offset_high := Z.land (Z.shiftr handler 32) 0xFFFFFFFF;
     zero := 0 |}.
Definition idt_set_gate (num handler selector flags : Z) (t : tables) : outcome tables :=
  let* i := aset t.(idt) num (idt_gate handler selector flags) in Done (set_idt i t).

(** A run of calls of [idt_set_gate] for the vectors [lo .. lo + n - 1]. *)
Definition set_gates (lo n : nat) (handler : Z -> Z) (t : outcome tables) : outcome tables :=
  foldl (fun t i => let* t := t in idt_set_gate (Z.of_nat i) (handler (Z.of_nat i)) KERNEL_CS 0x8E t) t (seq lo n).

(** The PRINTs that follow are in [idt_install] of the interrupt component. *)
Definition idt_build (t : tables) : outcome tables :=
  let p := mk_ptr (u16 (16 * IDT_ENTRIES - 1)) addr_idt in
  let t := mk_tables t.(gdt) t.(gdtp) t.(tss) t.(idt) p t.(regs) in
  let* t := foldl (fun t i => let* t := t in let* g := aset t.(idt) (Z.of_nat i) (mk_idt 0 0 0 0 0 0 0) in Done (set_idt g t))
                  (Done t) (seq 0 (Z.to_nat IDT_ENTRIES)) in
  let* t := set_gates 0 32 isr (Done t) in
  let* t := set_gates 32 224 (fun _ => generic_handler) (Done t) in
  let* t := idt_set_gate 32 timer_handler_asm KERNEL_CS 0x8E t in
  let* t := idt_set_gate 33 keyboard_handler KERNEL_CS 0x8E t in
  let r := t.(regs) in
  Done (set_regs (mk_cpu r.(gdtr) t.(idtp) r.(tr) r.(cs) r.(ds) r.(es) r.(fs) r.(gs) r.(ss)) t).
End Code.

(** ** The tables in memory *)
Definition gdt_bytes (e : gdt_entry) : list Z :=
  le_bytes 2 e.(limit_low) ++ le_bytes 2 e.(base_low) ++ [e.(base_middle); e.(access); e.(granularity); e.(base_high)].
Definition idt_bytes (e : idt_entry) : list Z :=
  le_bytes 2 e.(offset_low) ++ le_bytes 2 e.(selector) ++ [e.(ist); e.(type_attr)] ++
  le_bytes 2 e.(offset_mid) ++ le_bytes 4 e.(offset_high) ++ le_bytes 4 e.(zero).
Definition gdt_image (t : tables) : list Z := mjoin (gdt_bytes <$> t.(gdt)).
Definition idt_image (t : tables) : list Z := mjoin (idt_bytes <$> t.(idt)).
End Tables.

(** * What the processor sees in the descriptor tables

    The processor reads segment descriptors and interrupt gates from the bytes
    of the tables, as its manual lays them out. After the boot sequence every
    vector is delivered to its handler through the kernel code segment, the
    segment registers select usable segments and the task register the TSS. *)
Module TablesProps.
Import Tables.
Local Open Scope Z_scope.
Local Open Scope outcome_scope.

(** ** The processor's view *)

(** [n] bits of [w] from bit [lo]. *)
Definition bits (lo n w : Z) : Z := (w / 2 ^ lo) mod 2 ^ n.

Record segment := mk_segment {
  s_base : Z; s_limit : Z; s_type : Z; s_code_data : Z; s_dpl : Z; s_present : Z; s_long : Z; s_default : Z }.
Definition cpu_descriptor (w : Z) : segment :=
  {| s_base := bits 16 24 w + 2 ^ 24 * bits 56 8 w; s_limit := bits 0 16 w + 2 ^ 16 * bits 48 4 w;
     s_type := bits 40 4 w; s_code_data := bits 44 1 w; s_dpl := bits 45 2 w; s_present := bits 47 1 w;
     s_long := bits 53 1 w; s_default := bits 54 1 w |}.

Record gate := mk_gate { g_offset : Z; g_selector : Z; g_ist : Z; g_type : Z; g_dpl : Z; g_present : Z }.
Definition cpu_gate (w : Z) : gate :=
  {| g_offset := bits 0 16 w + 2 ^ 16 * bits 48 16 w + 2 ^ 32 * bits 64 32 w; g_selector := bits 16 16 w;
     g_ist := bits 32 3 w; g_type := bits 40 5 w; g_dpl := bits 45 2 w; g_present := bits 47 1 w |}.

(** The [n]-byte word at [off] of a table at [addr] through its register. *)
Definition table_word (r : table_ptr) (addr : Z) (image : list Z) (off : Z) (n : nat) : option Z :=
  if (r.(base) =? addr) && (off + Z.of_nat n - 1 <=? r.(limit)) then Some (le_value (take n (drop (Z.to_nat off) image)))
  else None.

Section View.
Context `{!Symbols}.

(** Of a selector of the GDT; the low three bits are the table and the privilege. *)
Definition segment_of (sel : Z) (t : tables) : option segment :=
  cpu_descriptor <$> table_word t.(regs).(gdtr) addr_gdt (gdt_image t) (8 * (sel / 8)) 8.

(** A system descriptor of 16 bytes: its upper half holds the high half of the base. *)
Definition system_segment_of (sel : Z) (t : tables) : option segment :=
  w ← table_word t.(regs).(gdtr) addr_gdt (gdt_image t) (8 * (sel / 8)) 16;
  let s := cpu_descriptor w in
  Some (mk_segment (s.(s_base) + 2 ^ 32 * bits 64 32 w) s.(s_limit) s.(s_type) s.(s_code_data) s.(s_dpl) s.(s_present) s.(s_long) s.(s_default)).

Definition code64 (s : segment) : bool :=
  (s.(s_code_data) =? 1) && (8 <=? s.(s_type)) && (s.(s_present) =? 1) && (s.(s_long) =? 1) && (s.(s_default) =? 0).

(** Delivery of an interrupt in 64-bit mode: the address of the handler and
    the code segment, when gate and segment are valid. *)
Definition deliver (vector : Z) (t : tables) : option (Z * Z) :=
  g ← cpu_gate <$> table_word t.(regs).(idtr) addr_idt (idt_image t) (16 * vector) 16;
  s ← segment_of g.(g_selector) t;
  if (g.(g_present) =? 1) && (g.(g_type) =? 14) && (g.(g_ist) =? 0) && code64 s && (s.(s_dpl) =? 0)
  then Some (g.(g_offset), g.(g_selector)) else None.

(** The handler a vector is meant for. *)
Definition handler_of (v : Z) : Z :=
  if v <? 32 then isr v else if v =? 32 then timer_handler_asm else if v =? 33 then keyboard_handler else generic_handler.

Definition sym_ok : Prop :=
  is_u64 addr_tss /\ (forall v, is_u64 (isr v)) /\ is_u64 generic_handler /\ is_u64 timer_handler_asm /\ is_u64 keyboard_handler.
End View.

(** Sizes of the arrays of the source. *)
Definition tables_ok (t : tables) : Prop :=
  length t.(gdt) = 7%nat /\ length t.(tss) = 104%nat /\ length t.(idt) = 256%nat.

(** ** Bits and bytes *)
Lemma bits_skip lo' lo n k a b : lo = lo' + k -> 0 <= lo' -> 0 <= k -> 0 <= a < 2 ^ k -> bits lo n (a + 2 ^ k * b) = bits lo' n b.
Proof.
  intros -> Hlo Hk Ha. unfold bits. rewrite (Z.add_comm lo'), Z.pow_add_r, <- Z.div_div by lia.
  rewrite (Z.add_comm a), (Z.mul_comm (2 ^ k)), Z.div_add_l by lia. by rewrite (Z.div_small a), Z.add_0_r by done.
Qed.

Lemma bits_low lo n k a b : 0 <= lo -> 0 <= n -> lo + n <= k -> bits lo n (a + 2 ^ k * b) = bits lo n a.
Proof.
  intros Hlo Hn Hk. unfold bits. replace k with (lo + n + (k - lo - n)) by lia. rewrite !Z.pow_add_r by lia.
  replace (a + 2 ^ lo * 2 ^ n * 2 ^ (k - lo - n) * b) with (a + (2 ^ n * 2 ^ (k - lo - n) * b) * 2 ^ lo) by lia.
  rewrite Z.div_add by lia. replace (2 ^ n * 2 ^ (k - lo - n) * b) with (2 ^ (k - lo - n) * b * 2 ^ n) by lia. by rewrite Z.mod_add by lia.
Qed.

Lemma bits_all n x : 0 <= x < 2 ^ n -> bits 0 n x = x.
Proof. intros H. unfold bits. change (2 ^ 0) with 1. rewrite Z.div_1_r. by apply Z.mod_small. Qed.

(** Takes apart the bits of a number written as a sum of fields. *)
Ltac field_bits :=
  repeat match goal with
  | |- context [bits ?lo ?n (?a + 2 ^ ?k * ?b)] =>
    let c := eval vm_compute in (lo - k) in
    first [rewrite (bits_skip c lo n k a b) by lia | rewrite (bits_low lo n k a b) by lia]
  end.

Lemma le_value_app a b : le_value (a ++ b) = le_value a + 256 ^ Z.of_nat (length a) * le_value b.
Proof.
  induction a as [|x a IH]; [by rewrite Z.mul_1_l|]. cbn [app le_value]. rewrite IH. rewrite length_cons, Nat2Z.inj_succ, Z.pow_succ_r by lia. lia.
Qed.

Lemma le_value_small n v : 0 <= v < 256 ^ Z.of_nat n -> le_value (le_bytes n v) = v.
Proof. intros H. rewrite le_value_bytes. by apply Z.mod_small. Qed.

(** A number cut at bit [m]. *)
Lemma cut_at m n x : 0 <= m -> 0 <= n -> x mod 2 ^ (m + n) = x mod 2 ^ m + 2 ^ m * ((x / 2 ^ m) mod 2 ^ n).
Proof. intros Hm Hn. rewrite Z.pow_add_r by done. apply Z.rem_mul_r; lia. Qed.

(** A piece of a table of entries of equal size. *)
Lemma mjoin_piece {A} (f : A -> list Z) n (l : list A) k x : (forall y, length (f y) = n) -> l !! k = Some x ->
  take n (drop (n * k) (mjoin (f <$> l))) = f x.
Proof.
  intros Hn. revert k. induction l as [|y l IH]; intros k H; [done|].
  change (mjoin (f <$> y :: l)) with (f y ++ mjoin (f <$> l)). destruct k as [|k]; cbn in H; simplify_eq.
  - rewrite Nat.mul_0_r, drop_0, take_app_le, take_ge by (rewrite Hn; lia). done.
  - rewrite drop_app_ge by (rewrite Hn; nia). rewrite Hn. replace (n * S k - n)%nat with (n * k)%nat by nia. auto.
Qed.

Lemma land_mask v n : 0 <= n -> Z.land v (2 ^ n - 1) = v mod 2 ^ n.
Proof. intros Hn. rewrite <- Z.land_ones by done. by rewrite Z.ones_equiv, Z.sub_1_r. Qed.

Lemma shift_mask v k n : 0 <= k -> 0 <= n -> Z.land (Z.shiftr v k) (2 ^ n - 1) = (v / 2 ^ k) mod 2 ^ n.
Proof. intros Hk Hn. by rewrite land_mask, Z.shiftr_div_pow2. Qed.

(** ** The gates *)
Definition gate_word (e : idt_entry) : Z := le_value (idt_bytes e).

Lemma length_idt_bytes e : length (idt_bytes e) = 16%nat.
Proof. unfold idt_bytes. by rewrite !length_app, !length_le_bytes. Qed.
Lemma length_gdt_bytes e : length (gdt_bytes e) = 8%nat.
Proof. unfold gdt_bytes. by rewrite !length_app, !length_le_bytes. Qed.

(** The processor decodes a gate written by [idt_set_gate] to its arguments. *)
Lemma gate_decoded h sel flags : is_u64 h -> 0 <= sel < 2 ^ 16 -> is_byte flags ->
  cpu_gate (gate_word (idt_gate h sel flags)) = mk_gate h sel 0 (bits 0 5 flags) (bits 5 2 flags) (bits 7 1 flags).
Proof.
  intros Hh Hs Hf. unfold is_u64, is_byte in *.
  set (lo := h mod 2 ^ 16). set (mi := (h / 2 ^ 16) mod 2 ^ 16). set (hi := (h / 2 ^ 32) mod 2 ^ 32).
  assert (Hlo : 0 <= lo < 2 ^ 16) by (apply Z.mod_pos_bound; lia). assert (Hmi : 0 <= mi < 2 ^ 16) by (apply Z.mod_pos_bound; lia).
  assert (Hhi : 0 <= hi < 2 ^ 32) by (apply Z.mod_pos_bound; lia).
  assert (Eh : h = lo + 2 ^ 16 * mi + 2 ^ 32 * hi).
  { pose proof (cut_at 32 32 h). pose proof (cut_at 16 16 h). change (32 + 32) with 64 in *. change (16 + 16) with 32 in *.
    rewrite (Z.mod_small h (2 ^ 64)) in * by done. unfold lo, mi, hi. lia. }
  assert (E : gate_word (idt_gate h sel flags) = lo + 2 ^ 16 * (sel + 2 ^ 16 * (0 + 2 ^ 8 * (flags + 2 ^ 8 * (mi + 2 ^ 16 * (hi + 2 ^ 32 * 0)))))).
  { unfold gate_word, idt_bytes, idt_gate. cbn [offset_low selector ist type_attr offset_mid offset_high zero].
    change 0xFFFF with (2 ^ 16 - 1). change 0xFFFFFFFF with (2 ^ 32 - 1). rewrite !shift_mask, land_mask by lia.
    fold lo mi hi. rewrite !le_value_app, !length_le_bytes, !le_value_small by (change (Z.of_nat 2) with 2; change (Z.of_nat 4) with 4; lia).
    cbn [le_value length]. change (Z.of_nat 2) with 2. change (Z.of_nat 4) with 4. lia. }
  rewrite E. unfold cpu_gate. f_equal.
  all: field_bits; rewrite ?bits_all by lia; done.
Qed.

(** ** Filling the tables *)

(** The list after the assignments [l[i] = f i] for [i] of [lo .. lo + n - 1]. *)
Definition fill {A} (f : nat -> A) (lo n : nat) (l : list A) : list A := foldl (fun l i => <[i := f i]> l) l (seq lo n).

Lemma length_fill {A} (f : nat -> A) lo n l : length (fill f lo n l) = length l.
Proof. revert lo l. induction n as [|n IH]; intros lo l; [done|].
  change (fill f lo (S n) l) with (fill f (S lo) n (<[lo := f lo]> l)). rewrite IH. apply length_insert. Qed.

Lemma lookup_fill {A} (f : nat -> A) lo n l i : (lo + n <= length l)%nat ->
  fill f lo n l !! i = if decide (lo <= i < lo + n)%nat then Some (f i) else l !! i.
Proof.
  revert lo l. induction n as [|n IH]; intros lo l Hl; [cbn; by rewrite decide_False by lia|].
  change (fill f lo (S n) l) with (fill f (S lo) n (<[lo := f lo]> l)). rewrite IH by (rewrite length_insert; lia).
  destruct (decide (S lo <= i < S lo + n)%nat), (decide (lo <= i < lo + S n)%nat); try (done || lia).
  - replace i with lo by lia. apply list_lookup_insert_eq. lia.
  - by rewrite list_lookup_insert_ne by lia.
Qed.

(** A loop of checked stores into an array component of the state is [fill]. *)
Lemma fill_loop {A} (comp : tables -> list A) (put : list A -> tables -> tables) (f : nat -> A) lo n t :
  (forall l t, comp (put l t) = l) -> (forall l l' t, put l (put l' t) = put l t) -> put (comp t) t = t ->
  (lo + n <= length (comp t))%nat ->
  foldl (fun t i => let* t := t in let* g := aset (comp t) (Z.of_nat i) (f i) in Done (put g t)) (Done t) (seq lo n) =
  Done (put (fill f lo n (comp t)) t).
Proof.
  intros H1 H2. revert lo t. induction n as [|n IH]; intros lo t H3 Hl; [by rewrite <- H3 at 1|].
  cbn [seq foldl obind]. rewrite aset_done by lia. cbn [obind]. rewrite Nat2Z.id, IH.
  - rewrite H2, H1. done.
  - by rewrite H2, H1.
  - rewrite H1, length_insert. lia.
Qed.

Lemma set_idt_self t : set_idt (idt t) t = t.
Proof. by destruct t. Qed.
Lemma set_gdt_self t : set_gdt (gdt t) t = t.
Proof. by destruct t. Qed.

Section Boot.
Context `{!Symbols}.

Lemma set_gates_fill lo n h t : (lo + n <= length t.(idt))%nat ->
  set_gates lo n h (Done t) = Done (set_idt (fill (fun i => idt_gate (h (Z.of_nat i)) KERNEL_CS 0x8E) lo n t.(idt)) t).
Proof. intros Hl. apply (fill_loop idt set_idt (fun i => idt_gate (h (Z.of_nat i)) KERNEL_CS 0x8E)); auto using set_idt_self. Qed.

(** [idt_install] gives every vector the gate of its handler. *)
Lemma idt_built t : tables_ok t -> exists l,
  idt_build t = Done (mk_tables t.(gdt) t.(gdtp) t.(tss) l (mk_ptr 4095 addr_idt)
    (let r := t.(regs) in mk_cpu r.(gdtr) (mk_ptr 4095 addr_idt) r.(tr) r.(cs) r.(ds) r.(es) r.(fs) r.(gs) r.(ss))) /\
  length l = 256%nat /\
  forall v, (v < 256)%nat -> l !! v = Some (idt_gate (handler_of (Z.of_nat v)) KERNEL_CS 0x8E).
Proof.
  intros (Hg & Ht & Hi). unfold idt_build.
  rewrite (fill_loop idt set_idt (fun _ => mk_idt 0 0 0 0 0 0 0)); [|auto using set_idt_self..|cbn; rewrite Hi; done].
  cbn [obind]. set (l0 := fill _ _ _ _). assert (H0 : length l0 = 256%nat) by (unfold l0; by rewrite length_fill).
  rewrite set_gates_fill by (cbn [idt set_idt]; lia). cbn [obind]. rewrite set_gates_fill by (cbn [idt set_idt]; rewrite length_fill; lia).
  cbn [obind idt set_idt gdt tss gdtp idtp regs]. set (l1 := fill _ 0 32 l0). set (l2 := fill _ 32 224 l1).
  assert (H1 : length l1 = 256%nat) by (unfold l1; by rewrite length_fill).
  assert (H2 : length l2 = 256%nat) by (unfold l2; by rewrite length_fill).
  unfold idt_set_gate. cbn [idt set_idt]. rewrite aset_done by (rewrite H2; lia). cbn [obind idt set_idt].
  rewrite aset_done by (rewrite length_insert, H2; lia). cbn [obind idt set_idt gdt tss gdtp idtp regs].
  exists (<[33%nat := idt_gate keyboard_handler KERNEL_CS 0x8E]> (<[32%nat := idt_gate timer_handler_asm KERNEL_CS 0x8E]> l2)).
  split; [reflexivity|]. rewrite !length_insert. split; [done|]. intros v Hv. unfold handler_of.
  destruct (decide (v = 33%nat)) as [->|N1]; [by rewrite list_lookup_insert_eq by (rewrite length_insert; lia)|].
  rewrite list_lookup_insert_ne by done.
  destruct (decide (v = 32%nat)) as [->|N2]; [by rewrite list_lookup_insert_eq by lia|].
  rewrite list_lookup_insert_ne by done. unfold l2. rewrite lookup_fill by lia.
  destruct (Z.ltb_spec (Z.of_nat v) 32).
  - rewrite decide_False by lia. unfold l1. rewrite lookup_fill, decide_True by lia. done.
  - rewrite decide_True by lia. by rewrite !(proj2 (Z.eqb_neq _ _)) by lia.
Qed.

(** ** The TSS *)
Lemma store_bytes_at pre old post v : length old = length v ->
  store_bytes (pre ++ old ++ post) (Z.of_nat (length pre)) v = Done (pre ++ v ++ post).
Proof.
  revert pre old. induction v as [|x v IH]; intros pre old Hl; destruct old as [|y old]; try done.
  cbn [store_bytes app]. rewrite aset_done by (rewrite !length_app; cbn; lia). cbn [obind].
  rewrite Nat2Z.id, insert_app_r_alt, Nat.sub_diag by lia. cbn [insert list_insert].
  specialize (IH (pre ++ [x]) old ltac:(cbn in Hl; lia)). rewrite <- !app_assoc, length_app, Nat2Z.inj_add in IH. exact IH.
Qed.

(** Storing [n] bytes at [off] replaces that window of the TSS. *)
Lemma put_field_at n off v t : (off + n <= length t.(tss))%nat ->
  put_field n (Z.of_nat off) v t = Done (set_tss (take off t.(tss) ++ le_bytes n v ++ drop (off + n) t.(tss)) t).
Proof.
  intros Hl. unfold put_field. rewrite <- (take_drop off t.(tss)) at 1. rewrite <- (take_drop n (drop off t.(tss))) at 1.
  replace off with (length (take off t.(tss))) at 4 by (rewrite length_take; lia).
  rewrite store_bytes_at by (rewrite length_le_bytes, length_take, length_drop; lia). cbn [obind].
  rewrite drop_drop. done.
Qed.

Lemma tss_cleared n t : (8 * n <= length t.(tss))%nat ->
  foldl (fun t i => let* t := t in put_field 8 (8 * Z.of_nat i) 0 t) (Done t) (seq 0 n) =
  Done (set_tss (replicate (8 * n) 0 ++ drop (8 * n) t.(tss)) t).
Proof.
  induction n as [|n IH]; intros Hl; [by destruct t|].
  rewrite seq_S, foldl_app, IH by lia. cbn [foldl obind Nat.add].
  replace (8 * Z.of_nat n) with (Z.of_nat (8 * n)) by lia.
  rewrite put_field_at by (cbn [tss set_tss]; rewrite length_app, length_replicate, length_drop; lia).
  cbn [tss set_tss gdt gdtp idt idtp regs]. unfold set_tss. cbn [tss set_tss gdt gdtp idt idtp regs]. do 2 f_equal.
  rewrite take_app_le, take_ge by (rewrite length_replicate; lia).
  rewrite drop_app_ge by (rewrite length_replicate; lia). rewrite length_replicate, drop_drop.
  change (le_bytes 8 0) with (replicate 8 0). rewrite app_assoc, <- replicate_add.
  f_equal; f_equal; lia.
Qed.

Lemma tss_built t : tables_ok t ->
  tss_init t = let* t := gdt_set_tss addr_tss (set_tss (replicate 102 0 ++ le_bytes 2 104) t) in Done (tss_load t).
Proof.
  intros (_ & Ht & _). unfold tss_init. change (Z.to_nat (SIZEOF_TSS / 8)) with 13%nat. rewrite tss_cleared by lia. cbn [obind].
  change TSS_IO_MAP_BASE with (Z.of_nat 102). rewrite put_field_at by (cbn [tss set_tss]; rewrite length_app, length_replicate, length_drop; lia).
  cbn [tss set_tss obind]. rewrite (drop_ge (tss t)) by lia. reflexivity.
Qed.

(** ** The segments *)
Definition flat_gdt (hi lo : gdt_entry) : list gdt_entry :=
  [gdt_gate 0 0 0 0; gdt_gate 0 0 0x9A 0x20; gdt_gate 0 0 0x92 0; gdt_gate 0 0 0xFA 0x20; gdt_gate 0 0 0xF2 0; hi; lo].
Definition no_entry : gdt_entry := mk_gdt 0 0 0 0 0 0.

Lemma gdt_built t : tables_ok t ->
  gdt_init t = Done (mk_tables (flat_gdt no_entry no_entry) (mk_ptr 55 addr_gdt) t.(tss) t.(idt) t.(idtp)
    (mk_cpu (mk_ptr 55 addr_gdt) t.(regs).(idtr) t.(regs).(tr) 8 16 16 16 16 16)).
Proof.
  intros (Hg & _). destruct t as [g p s i q r]. cbn [gdt] in Hg.
  do 7 (destruct g as [|? g]; [done|]). destruct g; [|done]. reflexivity.
Qed.

Lemma gdt_set_tss_at a hi lo t : t.(gdt) = flat_gdt hi lo ->
  gdt_set_tss a t = Done (gdt_load_asm (set_gdt (flat_gdt
    (mk_gdt 103 (Z.land a 0xFFFF) (Z.land (Z.shiftr a 16) 0xFF) 0x89 0 (Z.land (Z.shiftr a 24) 0xFF))
    (mk_gdt (Z.land (Z.shiftr a 32) 0xFFFF) (Z.land (Z.shiftr a 48) 0xFFFF) 0 0 0 0)) t)).
Proof. intros E. unfold gdt_set_tss. rewrite E. reflexivity. Qed.

Lemma segment_at sel k e t : t.(regs).(gdtr) = mk_ptr 55 addr_gdt -> t.(gdt) !! k = Some e -> sel = 8 * Z.of_nat k -> (k < 7)%nat ->
  segment_of sel t = Some (cpu_descriptor (le_value (gdt_bytes e))).
Proof.
  intros Hr Hk -> H7. unfold segment_of, table_word. rewrite Hr. cbn [base limit]. rewrite Z.eqb_refl.
  replace (8 * Z.of_nat k / 8) with (Z.of_nat k) by (rewrite Z.mul_comm, Z.div_mul; lia).
  rewrite (proj2 (Z.leb_le _ 55)) by lia. cbn [andb fmap option_fmap option_map]. do 3 f_equal.
  replace (Z.to_nat (8 * Z.of_nat k)) with (8 * k)%nat by lia. apply mjoin_piece; [apply length_gdt_bytes|done].
Qed.

(** The processor decodes the two entries of [gdt_set_tss] to the address and size of the TSS. *)
Lemma tss_decoded t : is_u64 addr_tss -> t.(regs).(gdtr) = mk_ptr 55 addr_gdt ->
  t.(gdt) = flat_gdt
    (mk_gdt 103 (Z.land addr_tss 0xFFFF) (Z.land (Z.shiftr addr_tss 16) 0xFF) 0x89 0 (Z.land (Z.shiftr addr_tss 24) 0xFF))
    (mk_gdt (Z.land (Z.shiftr addr_tss 32) 0xFFFF) (Z.land (Z.shiftr addr_tss 48) 0xFFFF) 0 0 0 0) ->
  system_segment_of TSS_SEL t = Some (mk_segment addr_tss 103 9 0 0 1 0 0).
Proof.
  intros Ha Hr Hg. unfold system_segment_of, table_word. rewrite Hr. cbn [base limit]. rewrite Z.eqb_refl.
  change (8 * (TSS_SEL / 8) + Z.of_nat 16 - 1 <=? 55) with true. cbn [andb]. unfold gdt_image. rewrite Hg. unfold flat_gdt. set (hi := mk_gdt 103 _ _ _ _ _). set (lo := mk_gdt _ _ 0 0 0 0).
  assert (E : take 16 (drop 40 (mjoin (gdt_bytes <$> [gdt_gate 0 0 0 0; gdt_gate 0 0 0x9A 0x20; gdt_gate 0 0 0x92 0; gdt_gate 0 0 0xFA 0x20; gdt_gate 0 0 0xF2 0; hi; lo]))) = gdt_bytes hi ++ gdt_bytes lo) by reflexivity.
  set (a := addr_tss mod 2 ^ 16). set (b := (addr_tss / 2 ^ 16) mod 2 ^ 8). set (c := (addr_tss / 2 ^ 24) mod 2 ^ 8).
  set (d := (addr_tss / 2 ^ 32) mod 2 ^ 16). set (e := (addr_tss / 2 ^ 48) mod 2 ^ 16).
  assert (0 <= a < 2 ^ 16 /\ 0 <= b < 2 ^ 8 /\ 0 <= c < 2 ^ 8 /\ 0 <= d < 2 ^ 16 /\ 0 <= e < 2 ^ 16) as (? & ? & ? & ? & ?)
    by (repeat split; apply Z.mod_pos_bound; lia).
  assert (Ea : addr_tss = a + 2 ^ 16 * b + 2 ^ 24 * c + 2 ^ 32 * (d + 2 ^ 16 * e)).
  { pose proof (cut_at 48 16 addr_tss). pose proof (cut_at 32 16 addr_tss). pose proof (cut_at 24 8 addr_tss). pose proof (cut_at 16 8 addr_tss).
    change (48 + 16) with 64 in *. change (32 + 16) with 48 in *. change (24 + 8) with 32 in *. change (16 + 8) with 24 in *.
    rewrite (Z.mod_small addr_tss (2 ^ 64)) in * by done. unfold a, b, c, d, e. lia. }
  assert (Ew : le_value (gdt_bytes hi ++ gdt_bytes lo) =
    103 + 2 ^ 16 * ((a + 2 ^ 16 * b) + 2 ^ 24 * (0x89 + 2 ^ 8 * (0 + 2 ^ 8 * (c + 2 ^ 8 * ((d + 2 ^ 16 * e) + 2 ^ 32 * 0)))))).
  { rewrite le_value_app, length_gdt_bytes. unfold gdt_bytes, hi, lo. cbn [limit_low base_low base_middle access granularity base_high].
    change 0xFFFF with (2 ^ 16 - 1). change 0xFF with (2 ^ 8 - 1). rewrite !shift_mask, land_mask by lia. fold a b c d e.
    rewrite !le_value_app, !length_le_bytes, !le_value_small by (change (Z.of_nat 2) with 2; lia). cbn [le_value].
    change (Z.of_nat 2) with 2. change (Z.of_nat 8) with 8. lia. }
  change (Z.to_nat (8 * (TSS_SEL / 8))) with 40%nat. rewrite E, Ew. cbn [mbind option_bind]. unfold cpu_descriptor.
  cbn [s_base s_limit s_type s_code_data s_dpl s_present s_long s_default]. do 2 f_equal.
  all: field_bits; rewrite ?bits_all by lia; try reflexivity. lia.
Qed.

Lemma deliver_at v h t : 0 <= v < 256 -> is_u64 h -> t.(regs).(idtr) = mk_ptr 4095 addr_idt -> t.(regs).(gdtr) = mk_ptr 55 addr_gdt ->
  t.(gdt) !! 1%nat = Some (gdt_gate 0 0 0x9A 0x20) -> t.(idt) !! Z.to_nat v = Some (idt_gate h KERNEL_CS 0x8E) ->
  deliver v t = Some (h, KERNEL_CS).
Proof.
  intros Hv Hh Hi Hr Hg He. unfold deliver, table_word. rewrite Hi. cbn [base limit]. rewrite Z.eqb_refl, (proj2 (Z.leb_le _ 4095)) by lia.
  cbn [andb fmap option_fmap option_map mbind option_bind]. replace (Z.to_nat (16 * v)) with (16 * Z.to_nat v)%nat by lia.
  unfold idt_image. rewrite (mjoin_piece idt_bytes 16 _ _ _ length_idt_bytes He). fold (gate_word (idt_gate h KERNEL_CS 0x8E)).
  rewrite gate_decoded by (done || (unfold is_byte; lia)). cbn [g_selector g_present g_type g_ist g_offset].
  rewrite (segment_at KERNEL_CS 1 _ t Hr Hg) by (done || lia). reflexivity.
Qed.

(** The state of the tables after the boot sequence. *)
Record booted (t : tables) : Prop := {
  b_deliver : forall v, 0 <= v < 256 -> deliver v t = Some (handler_of v, KERNEL_CS);
  b_code : t.(regs).(cs) = KERNEL_CS /\ segment_of KERNEL_CS t = Some (mk_segment 0 0 10 1 0 1 1 0);
  b_data : Forall (fun r => r = KERNEL_DS) [t.(regs).(ds); t.(regs).(es); t.(regs).(fs); t.(regs).(gs); t.(regs).(ss)] /\
    segment_of KERNEL_DS t = Some (mk_segment 0 0 2 1 0 1 0 0);
  b_user : segment_of USER_CS t = Some (mk_segment 0 0 10 1 3 1 1 0) /\ segment_of USER_DS t = Some (mk_segment 0 0 2 1 3 1 0 0);
  b_tss : t.(regs).(tr) = TSS_SEL /\ system_segment_of TSS_SEL t = Some (mk_segment addr_tss 103 9 0 0 1 0 0);
  b_io : le_value (take 2 (drop 102 t.(tss))) = 104 }.

Lemma tables_booted t : sym_ok -> tables_ok t -> exists t',
  (let* t := gdt_init t in let* t := tss_init t in idt_build t) = Done t' /\ booted t' /\ tables_ok t'.
Proof.
  intros (Hts & His & Hge & Hti & Hke) Ht. rewrite (gdt_built _ Ht). cbn [obind].
  rewrite tss_built by (destruct Ht as (_ & ? & ?); done). rewrite (gdt_set_tss_at _ no_entry no_entry) by done. cbn [obind].
  match goal with |- context [idt_build ?t] => destruct (idt_built t) as (l & -> & Hl & Hk); [destruct Ht as (_ & ? & ?); done|] end.
  eexists. split; [reflexivity|]. split; [|done].
  set (t' := mk_tables _ _ _ _ _ _). assert (Hr : t'.(regs).(gdtr) = mk_ptr 55 addr_gdt) by done.
  split; rewrite ?(segment_at KERNEL_CS 1 _ t' Hr eq_refl), ?(segment_at KERNEL_DS 2 _ t' Hr eq_refl),
    ?(segment_at USER_CS 3 _ t' Hr eq_refl), ?(segment_at USER_DS 4 _ t' Hr eq_refl) by (done || lia); try (by repeat constructor).
  - intros v Hv. apply deliver_at; try done.
    + unfold handler_of. destruct (v <? 32); [done|]. destruct (v =? 32); [done|]. by destruct (v =? 33).
    + subst t'. cbn [idt]. rewrite Hk by lia. by rewrite Z2Nat.id by lia.
  - split; [done|]. by apply tss_decoded.
Qed.
End Boot.

(** ** Stack switches *)

(** The 64-bit word of the TSS at an offset, as the processor loads it. *)
Definition tss_word (off : nat) (t : tables) : Z := le_value (take 8 (drop off t.(tss))).

Lemma put_field_word off v t : (off + 8 <= length t.(tss))%nat -> is_u64 v -> exists b,
  put_field 8 (Z.of_nat off) v t = Done (set_tss b t) /\ length b = length t.(tss) /\
  le_value (take 8 (drop off b)) = v /\
  forall o, (o + 8 <= off \/ off + 8 <= o)%nat -> take 8 (drop o b) = take 8 (drop o t.(tss)).
Proof.
  intros Hl Hv. rewrite put_field_at by lia. eexists. split; [reflexivity|].
  assert (Lp : length (take off t.(tss)) = off) by (rewrite length_take; lia). split; [|split].
  - rewrite !length_app, Lp, length_le_bytes, length_drop. lia.
  - rewrite drop_app_ge by lia. rewrite Lp, Nat.sub_diag, drop_0, take_app_le, take_ge by (rewrite length_le_bytes; lia).
    by apply le_value_small.
  - intros o Ho. apply list_eq. intros i. destruct (decide (i < 8)%nat); [|rewrite !lookup_take_ge by lia; done].
    rewrite !lookup_take_lt by lia. rewrite !lookup_drop. destruct Ho.
    + rewrite lookup_app_l by lia. by rewrite lookup_take_lt by lia.
    + rewrite lookup_app_r, Lp by lia. rewrite lookup_app_r, length_le_bytes, lookup_drop by (rewrite length_le_bytes; lia).
      f_equal. lia.
Qed.

(** The offset of a stack of the TSS: the ring-0 stack, then the interrupt stacks 1 to 7. *)
Definition stack_off (i : nat) : nat := if decide (i = 0)%nat then 4 else (28 + 8 * i)%nat.

(** Setting a stack changes that stack and no other; an index outside 1 to 7 changes nothing. *)
Theorem tss_stacks t i v : length t.(tss) = 104%nat -> is_u64 v ->
  exists t', (if decide (i = 0) then tss_set_rsp0 v t else tss_set_ist i v t) = Done t' /\ length t'.(tss) = 104%nat /\
  forall j, (j <= 7)%nat -> tss_word (stack_off j) t' = if decide (Z.of_nat j = i) then v else tss_word (stack_off j) t.
Proof.
  intros Hl Hv. unfold tss_word. destruct (decide (0 <= i <= 7)) as [Hi|Hi].
  - destruct (put_field_word (stack_off (Z.to_nat i)) v t) as (b & E & Lb & Hb & Ho); [rewrite Hl; unfold stack_off; case_decide; lia|done|].
    exists (set_tss b t). split; [|split; [cbn; lia|]].
    + case_decide; subst; [exact E|]. unfold tss_set_ist. rewrite !(proj2 (Z.leb_le _ _)) by lia. cbn [andb]. rewrite <- E.
      f_equal. unfold stack_off. rewrite decide_False by lia. unfold TSS_IST. lia.
    + intros j Hj. cbn [tss set_tss]. case_decide; [by replace j with (Z.to_nat i) by lia|]. f_equal. apply Ho. unfold stack_off. repeat case_decide; lia.
  - exists t. split; [|split; [done|intros j Hj; by rewrite decide_False by lia]]. rewrite decide_False by lia. unfold tss_set_ist.
    destruct (Z.leb_spec 1 i), (Z.leb_spec i 7); try done. lia.
Qed.
End TablesProps.
