(* ===== verification/Interrupts.v ===== *)
(** * Interrupts (src/kernel/Interrupts: irq.c, exception_handler.c, isr_stubs.s;
      src/kernel/Tables: PICR.c, idt.c; src/kernel/System/System_States.c)

    The interrupt controllers and the timer chip are reached through I/O ports
    ([PortIO]); the short delay loops after a write are not modelled. An
    installed handler is the address of a function, and calling it is the
    parameter [call]. [timer_ticks] is advanced by [timer_handler_c] of the
    jobs component; here it is set by [irq_init]. *)
From Stdlib Require Import ZArith Lia String.
From stdpp Require Import base numbers list.
From S2P Require Import Prelude Ata Asm Console Tables.

Module Interrupts.
Import Ata Asm Console Tables.
Local Open Scope Z_scope.
Local Open Scope outcome_scope.

Definition GREEN : Z := 0x00FF00.
Definition YELLOW : Z := 0xFFFF00.
Definition MAGENTA : Z := 0xFF00FF.
Definition BROWN : Z := 0xA52A2A.

Definition PIC1_COMMAND : Z := 0x20.
Definition PIC1_DATA : Z := 0x21.
Definition PIC2_COMMAND : Z := 0xA0.
Definition PIC2_DATA : Z := 0xA1.
Definition PIC_EOI : Z := 0x20.
Definition PIT_CHANNEL0 : Z := 0x40.
Definition PIT_COMMAND : Z := 0x43.
Definition TIMER_FREQ : Z := 1000.

(** A line of text: a string literal that ends in a newline. *)
Definition line (s : string) : list Z := (lit s ++ [10])%list.

Section Ports.
Context {D : Type} `{!PortIO D}.

(** ** PICR.c *)
Definition pic_remap (d : D) : D :=
  let d := outb 0x20 0x11 d in
  let d := outb 0xA0 0x11 d in
  let d := outb 0x21 0x20 d in
  let d := outb 0xA1 0x28 d in
  let d := outb 0x21 0x04 d in
  let d := outb 0xA1 0x02 d in
  let d := outb 0x21 0x01 d in
  let d := outb 0xA1 0x01 d in
  let d := outb 0x21 0xFF d in
  outb 0xA1 0xFF d.

(** ** irq.c: the controllers *)
Definition pic_send_eoi (irq : Z) (d : D) : D :=
  let d := if 8 <=? irq then outb PIC2_COMMAND PIC_EOI d else d in
  outb PIC1_COMMAND PIC_EOI d.

(** [~(1 << bit)] is taken at 32 bits and stored in a byte. *)
Definition clear_bit (mask bit : Z) : Z := u8 (Z.land mask (Z.lnot (Z.shiftl 1 bit))).

Definition pic_clear_mask (irq : Z) (d : D) : D :=
  if 16 <=? irq then d else
  let '(port, bit, d) :=
    (if irq <? 8 then (PIC1_DATA, irq, d) else
     let '(master_mask, d) := inb PIC1_DATA d in
     let d := if c_true (Z.land master_mask 0x04) then outb PIC1_DATA (u8 (Z.land master_mask (Z.lnot 0x04))) d else d in
     (PIC2_DATA, irq - 8, d)) in
  let '(mask, d) := inb port d in
  outb port (clear_bit mask bit) d.

(** [irq] is a byte; the shift by [irq - 8] is defined for [irq] below 40. *)
Definition pic_set_mask (irq : Z) (d : D) : D :=
  let '(port, irq) := (if irq <? 8 then (PIC1_DATA, irq) else (PIC2_DATA, irq - 8)) in
  let '(v, d) := inb port d in
  outb port (u8 (Z.lor v (Z.shiftl 1 irq))) d.

Definition pic_get_mask (d : D) : Z * D := inb PIC1_DATA d.

(** A zero frequency divides by zero. *)
Definition pit_init (frequency : Z) (d : D) : outcome D :=
  if frequency =? 0 then OutOfBounds else
  let divisor := 1193182 / frequency in
  let d := outb PIT_COMMAND 0x36 d in
  let d := outb PIT_CHANNEL0 (Z.land divisor 0xFF) d in
  Done (outb PIT_CHANNEL0 (Z.land (Z.shiftr divisor 8) 0xFF) d).

(** start.c after the timer test: the keyboard's line. *)
Definition enable_keyboard (d : D) : D :=
  let '(mask, d) := inb 0x21 d in outb 0x21 (u8 (Z.land mask (Z.lnot 0x02))) d.

(** ** irq.c: the handler table *)
Record irqs := mk_irqs {
  irq_handlers : list (option Z); timer_ticks : Z; timer_seconds : Z; interrupts : bool; ports : D; con : console }.
Definition set_handlers (h : list (option Z)) (s : irqs) : irqs :=
  mk_irqs h s.(timer_ticks) s.(timer_seconds) s.(interrupts) s.(ports) s.(con).
Definition set_dev (d : D) (s : irqs) : irqs :=
  mk_irqs s.(irq_handlers) s.(timer_ticks) s.(timer_seconds) s.(interrupts) d s.(con).
Definition set_con (c : console) (s : irqs) : irqs :=
  mk_irqs s.(irq_handlers) s.(timer_ticks) s.(timer_seconds) s.(interrupts) s.(ports) c.

Definition irq_install_handler (irq : Z) (handler : option Z) (s : irqs) : outcome irqs :=
  if (0 <=? irq) && (irq <? 16) then let* h := aset s.(irq_handlers) irq handler in Done (set_handlers h s) else Done s.
Definition irq_uninstall_handler (irq : Z) (s : irqs) : outcome irqs :=
  if (0 <=? irq) && (irq <? 16) then let* h := aset s.(irq_handlers) irq None in Done (set_handlers h s) else Done s.

(** The index is not checked. *)
Definition irq_common_handler (call : Z -> irqs -> outcome irqs) (irq_num : Z) (s : irqs) : outcome irqs :=
  let* h := aget s.(irq_handlers) irq_num in
  let* s := match h with Some handler => call handler s | None => Done s end in
  Done (set_dev (pic_send_eoi irq_num s.(ports)) s).

(** PRINT on the console of the state. *)
Definition say (fg : Z) (text : list Z) (args : list va) (s : irqs) : outcome irqs :=
  let* c := PRINT fg BLACK text args s.(con) in Done (set_con c s).

Definition irq_init (s : irqs) : outcome irqs :=
  let* s := say WHITE (line "[IRQ] Initializing IRQ system...") [] s in
  let* h := foldl (fun h i => let* h := h in aset h (Z.of_nat i) None) (Done s.(irq_handlers)) (seq 0 16) in
  let s := mk_irqs h 0 0 s.(interrupts) s.(ports) s.(con) in
  let* d := pit_init TIMER_FREQ s.(ports) in
  let s := set_dev d s in
  let* s := say WHITE (line "[IRQ] Unmasking IRQ0 (timer)...") [] s in
  let s := set_dev (pic_clear_mask 0 s.(ports)) s in
  let '(mask, d) := inb 0x21 s.(ports) in
  let s := set_dev d s in
  let* s := say WHITE (line "[IRQ] PIC1 mask after unmask: 0x%x") [Word mask] s in
  let* s := if c_true (Z.land mask 0x01) then say YELLOW (line "[WARNING] IRQ0 still masked!") [] s
            else say MAGENTA (line "[OK] IRQ0 is unmasked") [] s in
  let* s := say WHITE (line "[IRQ] Enabling interrupts...") [] s in
  let s := mk_irqs s.(irq_handlers) s.(timer_ticks) s.(timer_seconds) true s.(ports) s.(con) in
  say MAGENTA (line "[IRQ] IRQ system ready") [] s.

Definition get_uptime_seconds (s : irqs) : Z := s.(timer_seconds).

Definition show_timer_info (s : irqs) : outcome irqs :=
  let* s := say WHITE (10 :: line "=== Timer Information ===") [] s in
  let* s := say WHITE (line "Ticks: %llu") [Word s.(timer_ticks)] s in
  let* s := say WHITE (line "Uptime: %llu seconds") [Word s.(timer_seconds)] s in
  let* s := say WHITE (line "Milliseconds: %llu") [Word (u64 (s.(timer_ticks) * 1000) / TIMER_FREQ)] s in
  let '(mask, d) := pic_get_mask s.(ports) in
  say WHITE (line "PIC1 mask: 0x%x") [Word mask] (set_dev d s).
End Ports.
Arguments irqs D : clear implicits.

(** ** idt.c: [idt_install] with its messages *)
Definition idt_install `{!Symbols} (t : tables) (c : console) : outcome (tables * console) :=
  let* t := idt_build t in
  let* c := PRINT MAGENTA BLACK (line "[IDT] IDT installed (256 entries)") [] c in
  let* c := PRINT MAGENTA BLACK (line "[IDT] Timer handler set at vector 32") [] c in
  let* c := PRINT MAGENTA BLACK (line "[IDT] Keyboard handler set at vector 33") [] c in
  Done (t, c).

(** ** isr_stubs.s: the stack the handler finds *)

(** The registers at the time of the exception. *)
Record machine := mk_machine {
  m_rax : Z; m_rbx : Z; m_rcx : Z; m_rdx : Z; m_rsi : Z; m_rdi : Z; m_rbp : Z; m_r8 : Z; m_r9 : Z; m_r10 : Z;
  m_r11 : Z; m_r12 : Z; m_r13 : Z; m_r14 : Z; m_r15 : Z }.

(** [registers_t] of handler.h, in the order of the struct. *)
Record registers := mk_registers {
  r15 : Z; r14 : Z; r13 : Z; r12 : Z; r11 : Z; r10 : Z; r9 : Z; r8 : Z; rsi : Z; rdi : Z; rbp : Z; rdx : Z; rcx : Z;
  rbx : Z; rax : Z; int_no : Z; err_code : Z; rip : Z; rcs : Z; rflags : Z; rsp : Z; rss : Z }.

(** The stubs declared with ISR_ERRCODE. *)
Definition isr_errcode (v : Z) : bool := existsb (Z.eqb v) [8; 10; 11; 12; 13; 14; 17; 30].

(** The stack grows at the head: [st] is what the processor pushed. *)
Definition isr_stub (v : Z) (st : list Z) : list Z := if isr_errcode v then v :: st else v :: 0 :: st.
Definition isr_common_stub (m : machine) (st : list Z) : list Z :=
  let push st r := r :: st in
  foldl push st [m.(m_rax); m.(m_rbx); m.(m_rcx); m.(m_rdx); m.(m_rsi); m.(m_rdi); m.(m_rbp); m.(m_r8); m.(m_r9);
                 m.(m_r10); m.(m_r11); m.(m_r12); m.(m_r13); m.(m_r14); m.(m_r15)].

(** The struct at the top of the stack. *)
Definition registers_at (st : list Z) : option registers :=
  match st with
  | a :: b :: c :: d :: e :: f :: g :: h :: i :: j :: k :: l :: m :: n :: o :: p :: q :: r :: s :: t :: u :: v :: _ =>
    Some (mk_registers a b c d e f g h i j k l m n o p q r s t u v)
  | _ => None
  end.

(** ** exception_handler.c *)
Definition red (text : string) (args : list va) (c : console) : outcome console := PRINT RED BLACK (line text) args c.
Definition s_rip : string := "RIP = %p".
Definition s_rip_flags : string := "RIP = %p, RFLAGS = %llx".
Definition s_err_rip : string := "Error code = %llx, RIP = %p".

(** Two PRINTs: the name of the exception, then the registers. *)
Definition two (a b : string) (args : list va) (c : console) : outcome console := let* c := red a [] c in red b args c.

(** The console when the handler halts for ever. [cr2] is the register. *)
Definition isr_handler (cr2 : Z) (r : registers) (c : console) : outcome console :=
  match r.(int_no) with
  | 0 => let* c := red "Divide-by-zero exception!" [] c in
         let* c := red "Faulting instruction at RIP = %p" [Word r.(rip)] c in
         red "RAX = %llx, RBX = %llx, RCX = %llx, RDX = %llx" [Word r.(rax); Word r.(rbx); Word r.(rcx); Word r.(rdx)] c
  | 1 => two "Debug exception!" s_rip_flags [Word r.(rip); Word r.(rflags)] c
  | 2 => two "Non-Maskable Interrupt (NMI)!" s_rip_flags [Word r.(rip); Word r.(rflags)] c
  | 3 => two "Breakpoint Exception (INT3)!" s_rip_flags [Word r.(rip); Word r.(rflags)] c
  | 4 => two "Overflow Exception (INTO)!" s_rip_flags [Word r.(rip); Word r.(rflags)] c
  | 5 => two "BOUND Range Exceeded Exception!" s_rip [Word r.(rip)] c
  | 6 => two "Invalid Opcode Exception!" s_rip [Word r.(rip)] c
  | 7 => two "Device Not Available Exception (FPU)!" s_rip [Word r.(rip)] c
  | 8 => two "Double Fault!" s_err_rip [Word r.(err_code); Word r.(rip)] c
  | 9 => two "Coprocessor Segment Overrun Exception!" s_rip [Word r.(rip)] c
  | 10 => two "Invalid TSS Exception!" s_err_rip [Word r.(err_code); Word r.(rip)] c
  | 11 => two "Segment Not Present Exception!" s_err_rip [Word r.(err_code); Word r.(rip)] c
  | 12 => two "Stack Segment Fault Exception!" s_err_rip [Word r.(err_code); Word r.(rip)] c
  | 13 => two "General Protection Fault!" s_err_rip [Word r.(err_code); Word r.(rip)] c
  | 14 => let* c := two "Page Fault!" s_err_rip [Word r.(err_code); Word r.(rip)] c in
          red "Faulting address = %p" [Word cr2] c
  | 16 => two "x87 FPU Error!" s_rip [Word r.(rip)] c
  | 17 => two "Alignment Check Exception!" s_err_rip [Word r.(err_code); Word r.(rip)] c
  | 18 => two "Machine Check Exception!" s_rip [Word r.(rip)] c
  | 19 => two "SIMD Floating Point Exception!" s_rip [Word r.(rip)] c
  | n => if (15 <=? n) && (n <=? 31)
         then let* c := red "Reserved Exception (%d)!" [Word n] c in red s_rip [Word r.(rip)] c
         else let* c := red "FATAL ERROR: UNKNOWN VECTOR %d!" [Word n] c in red s_rip [Word r.(rip)] c
  end.

(** ** System_States.c *)

(** [EFI_ERROR]: the top bit. [ResetSystem] of the firmware, when it returns, gives a status. *)
Definition EFI_ERROR (status : Z) : bool := Z.testbit status 63.
Definition reset_failed (text : list Z) (status : Z) (c : console) : outcome console :=
  let* c := PRINT RED BLACK text [] c in
  let* c := print_unsigned status 16 c in
  PRINT RED BLACK [10] [] c.

Definition system_reboot (ResetSystem : Z) (c : console) : outcome (Z * console) :=
  let c := SetCursorPos 0 0 (ClearScreen BLACK c) in
  let* c := PRINT BROWN BLACK (line "[SYSTEM] Initiating reboot sequence...") [] c in
  let* c := PRINT GREEN BLACK (line "[ADMINISTRATOR] SYSTEM IS REBOOTING NOW!") [] c in
  let status := ResetSystem in
  let* c := if EFI_ERROR status then reset_failed (lit "[SYSTEM] Reboot failed with status: 0x") status c else Done c in
  Done (u32 status, c).

Definition system_shutdown (ResetSystem : Z) (c : console) : outcome (Z * console) :=
  let* c := PRINT WHITE BLACK (line "[SYSTEM] Initiating shutdown sequence...") [] c in
  let* c := PRINT GREEN BLACK (line "[ADMINISTRATOR] SYSTEM IS SHUTTING DOWN NOW!") [] c in
  let status := ResetSystem in
  let* c := if EFI_ERROR status then reset_failed (lit "[SYSTEM] Shutdown failed with status: 0x") status c else Done c in
  Done (u32 status, c).
End Interrupts.
