(* ===== verification/InterruptsProps.v ===== *)
(** * The interrupt controllers, the timer chip and the routing of interrupts

    What the 8259A controllers and the 8254 timer do with the bytes written to
    their ports is the class [Chips], from their data sheets. The boot sequence
    programs them so that the timer and the keyboard, and nothing else, reach
    their handlers through the tables of the processor. *)
From Stdlib Require Import ZArith Lia String.
From stdpp Require Import base numbers list gmap.
From S2P Require Import Prelude Ata Console ConsoleProps ConsoleFmt Tables Interrupts.

Module InterruptsProps.
Import Ata Console Messages Tables TablesProps Interrupts.
Local Open Scope Z_scope.
Local Open Scope outcome_scope.

(** ** The chips *)

(** Which initialisation word an 8259A expects next on its data port. *)
Inductive stage := Operating | Expect2 | Expect3 | Expect4.
Record pic := mk_pic {
  at_stage : stage; need4 : bool; single : bool; vbase : Z; cascade : Z; pic_mode : Z; imr : Z; in_service : Z }.

(** A byte on the command port: an initialisation word 1, or a non-specific
    end of interrupt, which clears the in-service bit of highest priority, the
    lowest one. Other commands are not used. *)
Definition pic_command (v : Z) (p : pic) : option pic :=
  if Z.testbit v 4 then Some (mk_pic Expect2 (Z.testbit v 0) (Z.testbit v 1) p.(vbase) p.(cascade) 0 0 p.(in_service))
  else if v =? 0x20 then
    Some (mk_pic p.(at_stage) p.(need4) p.(single) p.(vbase) p.(cascade) p.(pic_mode) p.(imr) (Z.land p.(in_service) (p.(in_service) - 1)))
  else None.

(** A byte on the data port: the next initialisation word, or the mask. *)
Definition pic_data (v : Z) (p : pic) : pic :=
  let last := if p.(need4) then Expect4 else Operating in
  match p.(at_stage) with
  | Expect2 => mk_pic (if p.(single) then last else Expect3) p.(need4) p.(single) (Z.land v 0xF8) p.(cascade) p.(pic_mode) p.(imr) p.(in_service)
  | Expect3 => mk_pic last p.(need4) p.(single) p.(vbase) v p.(pic_mode) p.(imr) p.(in_service)
  | Expect4 => mk_pic Operating p.(need4) p.(single) p.(vbase) p.(cascade) v p.(imr) p.(in_service)
  | Operating => mk_pic Operating p.(need4) p.(single) p.(vbase) p.(cascade) p.(pic_mode) v p.(in_service)
  end.

(** Channel 0 of the 8254 with the low byte of a count being written. *)
Record pit := mk_pit { pit_mode : Z; low_byte : option Z; reload : Z }.

(** A control word for channel 0, low then high byte. *)
Definition pit_control (v : Z) (p : pit) : option pit :=
  if bits 4 4 v =? 3 then Some (mk_pit (bits 1 3 v) None p.(reload)) else None.
Definition pit_data (v : Z) (p : pit) : pit :=
  match p.(low_byte) with
  | None => mk_pit p.(pit_mode) (Some v) p.(reload)
  | Some lo => mk_pit p.(pit_mode) None (lo + 256 * v)
  end.
(** Clock pulses between two interrupts; a reload value of 0 counts 65536. *)
Definition period (p : pit) : Z := if p.(reload) =? 0 then 65536 else p.(reload).

Record chipset := mk_chips { master : pic; slave : pic; timer : pit }.
Definition chip_write (port v : Z) (x : chipset) : option chipset :=
  if port =? 0x20 then p ← pic_command v x.(master); Some (mk_chips p x.(slave) x.(timer))
  else if port =? 0x21 then Some (mk_chips (pic_data v x.(master)) x.(slave) x.(timer))
  else if port =? 0xA0 then p ← pic_command v x.(slave); Some (mk_chips x.(master) p x.(timer))
  else if port =? 0xA1 then Some (mk_chips x.(master) (pic_data v x.(slave)) x.(timer))
  else if port =? 0x43 then p ← pit_control v x.(timer); Some (mk_chips x.(master) x.(slave) p)
  else if port =? 0x40 then Some (mk_chips x.(master) x.(slave) (pit_data v x.(timer)))
  else None.

Class Chips (D : Type) `{!PortIO D} := {
  chips : D -> chipset;
  chips_out : forall port v d x, chip_write port v (chips d) = Some x -> chips (outb port v d) = x;
  chips_master_in : forall d, fst (inb 0x21 d) = imr (master (chips d)) /\ chips (snd (inb 0x21 d)) = chips d;
  chips_slave_in : forall d, fst (inb 0xA1 d) = imr (slave (chips d)) /\ chips (snd (inb 0xA1 d)) = chips d }.

(** ** Interrupt lines *)

(** A line of the slave reaches the processor through line 2 of the master. *)
Definition masked (line : Z) (x : chipset) : bool :=
  if line <? 8 then Z.testbit x.(master).(imr) line
  else Z.testbit x.(slave).(imr) (line - 8) || Z.testbit x.(master).(imr) 2.
Definition line_vector (line : Z) (x : chipset) : Z :=
  if line <? 8 then x.(master).(vbase) + line else x.(slave).(vbase) + (line - 8).

(** Where the processor goes when a device raises a line. *)
Definition route `{!Symbols} (line : Z) (x : chipset) (t : tables) : option Z :=
  if masked line x then None else fst <$> deliver (line_vector line x) t.

Section Controllers.
Context {D : Type} `{!PortIO D, !Chips D}.

(** A write, when the state before it is known. *)
Lemma written port v d y x : chips d = y -> chip_write port v y = Some x -> chips (outb port v d) = x.
Proof. intros <-. apply chips_out. Qed.

(** [pic_remap] leaves both controllers operating, with vectors 32 to 47 and every line masked, from any state. *)
Lemma remapped d : chips (pic_remap d) =
  mk_chips (mk_pic Operating true false 32 4 1 255 (in_service (master (chips d))))
           (mk_pic Operating true false 40 2 1 255 (in_service (slave (chips d)))) (timer (chips d)).
Proof.
  unfold pic_remap. repeat eapply written; reflexivity.
Qed.

(** ** Masks *)

(** Both controllers operating, with masks that are bytes. *)
Definition operating (x : chipset) : Prop :=
  x.(master).(at_stage) = Operating /\ x.(slave).(at_stage) = Operating /\ is_byte x.(master).(imr) /\ is_byte x.(slave).(imr).
Definition set_imr (m : Z) (p : pic) : pic :=
  mk_pic p.(at_stage) p.(need4) p.(single) p.(vbase) p.(cascade) p.(pic_mode) m p.(in_service).
(** The chips with other masks. *)
Definition with_masks (m s : Z) (x : chipset) : chipset := mk_chips (set_imr m x.(master)) (set_imr s x.(slave)) x.(timer).
Definition masks (x : chipset) : Z * Z := (x.(master).(imr), x.(slave).(imr)).

Lemma data_operating v p : p.(at_stage) = Operating -> pic_data v p = set_imr v p.
Proof. destruct p. cbn. by intros ->. Qed.

Lemma with_masks_self x : with_masks (imr (master x)) (imr (slave x)) x = x.
Proof. by destruct x as [[] [] ?]. Qed.
Lemma with_masks_twice m s m' s' x : with_masks m s (with_masks m' s' x) = with_masks m s x.
Proof. done. Qed.

Lemma write_master v d y : chips d = y -> operating y -> chips (outb PIC1_DATA v d) = with_masks v (imr (slave y)) y.
Proof.
  intros E (Hm & Hs & _). eapply written; [exact E|]. unfold chip_write. cbn. rewrite data_operating by done. f_equal.
  unfold with_masks. by destruct y as [? [] ?].
Qed.
Lemma write_slave v d y : chips d = y -> operating y -> chips (outb PIC2_DATA v d) = with_masks (imr (master y)) v y.
Proof.
  intros E (Hm & Hs & _). eapply written; [exact E|]. unfold chip_write. cbn. rewrite data_operating by done. f_equal.
  unfold with_masks. by destruct y as [[] ? ?].
Qed.
Lemma operating_with m s x : operating x -> is_byte m -> is_byte s -> operating (with_masks m s x).
Proof. intros (? & ? & _) ? ?. done. Qed.

Lemma clear_bit_spec m b l : is_byte m -> 0 <= b < 8 -> 0 <= l -> Z.testbit (clear_bit m b) l = Z.testbit m l && negb (l =? b).
Proof.
  intros Hm Hb Hl. unfold clear_bit, u8. destruct (Z.lt_ge_cases l 8).
  - rewrite Z.mod_pow2_bits_low, Z.land_spec, Z.lnot_spec by lia. f_equal. f_equal.
    rewrite Z.shiftl_1_l, Z.pow2_bits_eqb by lia. apply Z.eqb_sym.
  - rewrite Z.mod_pow2_bits_high by lia. by rewrite (bits_above_zero 8 m) by (done || lia).
Qed.

Lemma set_bit_spec m b l : is_byte m -> 0 <= b < 8 -> 0 <= l -> Z.testbit (u8 (Z.lor m (Z.shiftl 1 b))) l = Z.testbit m l || (l =? b).
Proof.
  intros Hm Hb Hl. unfold u8. destruct (Z.lt_ge_cases l 8).
  - rewrite Z.mod_pow2_bits_low, Z.lor_spec by lia. f_equal. rewrite Z.shiftl_1_l, Z.pow2_bits_eqb by lia. apply Z.eqb_sym.
  - rewrite Z.mod_pow2_bits_high by lia. rewrite (bits_above_zero 8 m) by (done || lia). by rewrite (proj2 (Z.eqb_neq _ _)) by lia.
Qed.

Lemma clear_bit_byte m b : is_byte (clear_bit m b).
Proof. apply wrap_byte. Qed.

(** Reading a mask. *)
Lemma read_master d : exists d', inb PIC1_DATA d = (imr (master (chips d)), d') /\ chips d' = chips d.
Proof. change PIC1_DATA with 0x21. destruct (chips_master_in d) as [E1 E2]. destruct (inb 0x21 d). cbn in *. subst. eauto. Qed.
Lemma read_slave d : exists d', inb PIC2_DATA d = (imr (slave (chips d)), d') /\ chips d' = chips d.
Proof. change PIC2_DATA with 0xA1. destruct (chips_slave_in d) as [E1 E2]. destruct (inb 0xA1 d). cbn in *. subst. eauto. Qed.

(** Clearing a bit that is clear changes nothing, so the test of the cascade bit does not matter. *)
Lemma clear_bit_clear m b : is_byte m -> 0 <= b < 8 -> Z.testbit m b = false -> clear_bit m b = m.
Proof.
  intros Hm Hb Hc. apply Z.bits_inj'. intros l Hl. rewrite clear_bit_spec by done. destruct (Z.eqb_spec l b) as [->|]; [by rewrite Hc|apply andb_true_r].
Qed.

Lemma clear_mask_low irq d : 0 <= irq < 8 -> operating (chips d) ->
  chips (pic_clear_mask irq d) = with_masks (clear_bit (imr (master (chips d))) irq) (imr (slave (chips d))) (chips d).
Proof.
  intros Hi Ho. unfold pic_clear_mask. rewrite (proj2 (Z.leb_gt _ _)) by lia. rewrite (proj2 (Z.ltb_lt _ _)) by lia.
  destruct (read_master d) as (d' & -> & E). by apply write_master.
Qed.

Lemma clear_mask_high irq d : 8 <= irq < 16 -> operating (chips d) ->
  chips (pic_clear_mask irq d) =
  with_masks (clear_bit (imr (master (chips d))) 2) (clear_bit (imr (slave (chips d))) (irq - 8)) (chips d).
Proof.
  intros Hi Ho. pose proof Ho as (_ & _ & Bm & Bs). unfold pic_clear_mask. rewrite (proj2 (Z.leb_gt _ _)) by lia. rewrite (proj2 (Z.ltb_ge _ _)) by lia.
  destruct (read_master d) as (d1 & -> & E1). set (m := imr (master (chips d))) in *.
  assert (E : chips (if c_true (Z.land m 4) then outb PIC1_DATA (u8 (Z.land m (Z.lnot 4))) d1 else d1) = with_masks (clear_bit m 2) (imr (slave (chips d))) (chips d)).
  { change 4 with (2 ^ 2) at 1. rewrite c_true_land_pow2 by lia. destruct (Z.testbit m 2) eqn:Et.
    - by rewrite (write_master _ _ _ E1 Ho).
    - rewrite clear_bit_clear by (done || lia). unfold m. by rewrite with_masks_self. }
  destruct (c_true (Z.land m 4)); destruct (read_slave (outb PIC1_DATA (u8 (Z.land m (Z.lnot 4))) d1)) as (d2 & Er & E2);
    destruct (read_slave d1) as (d3 & Er' & E3).
  - rewrite Er, E. cbn [with_masks slave set_imr imr]. erewrite write_slave; [|etransitivity; [exact E2|exact E]|apply operating_with; [done|apply clear_bit_byte|done]].
    apply with_masks_twice.
  - rewrite Er'. erewrite write_slave; [|etransitivity; [exact E3|exact E]|apply operating_with; [done|apply clear_bit_byte|done]].
    rewrite E. apply with_masks_twice.
Qed.

Lemma set_mask_spec irq d : 0 <= irq < 16 -> operating (chips d) ->
  chips (pic_set_mask irq d) =
  if irq <? 8 then with_masks (u8 (Z.lor (imr (master (chips d))) (Z.shiftl 1 irq))) (imr (slave (chips d))) (chips d)
  else with_masks (imr (master (chips d))) (u8 (Z.lor (imr (slave (chips d))) (Z.shiftl 1 (irq - 8)))) (chips d).
Proof.
  intros Hi Ho. unfold pic_set_mask. destruct (irq <? 8).
  - destruct (read_master d) as (d' & -> & E). by apply write_master.
  - destruct (read_slave d) as (d' & -> & E). by apply write_slave.
Qed.

(** The bit of a line in the masks of both controllers. *)
Definition line_bit (line : Z) (x : chipset) : bool :=
  if line <? 8 then Z.testbit x.(master).(imr) line else Z.testbit x.(slave).(imr) (line - 8).

(** The operations on a set of masked lines: enabling a line of the slave also
    enables the line of the cascade. *)
Inductive mask_op := Clear (irq : Z) | Set_ (irq : Z).
Definition op_irq (o : mask_op) : Z := match o with Clear i | Set_ i => i end.
Definition op_code (o : mask_op) : D -> D := match o with Clear i => pic_clear_mask i | Set_ i => pic_set_mask i end.
Definition op_spec (o : mask_op) (f : Z -> bool) (line : Z) : bool :=
  match o with
  | Clear i => f line && negb (line =? i) && negb ((8 <=? i) && (line =? 2))
  | Set_ i => f line || (line =? i)
  end.

Lemma mask_op_refines o d : 0 <= op_irq o < 16 -> operating (chips d) ->
  operating (chips (op_code o d)) /\
  (forall line, 0 <= line < 16 -> line_bit line (chips (op_code o d)) = op_spec o (fun l => line_bit l (chips d)) line) /\
  exists m s, chips (op_code o d) = with_masks m s (chips d).
Proof.
  intros Hi Ho. pose proof Ho as (_ & _ & Bm & Bs). destruct o as [i|i]; cbn [op_irq op_code op_spec] in *.
  - destruct (Z.lt_ge_cases i 8).
    + rewrite clear_mask_low by (done || lia). split; [|split; [|eauto]]. { apply operating_with; [done|apply clear_bit_byte|done]. }
      intros l Hl. unfold line_bit. cbn [with_masks master slave set_imr imr]. rewrite (proj2 (Z.leb_gt 8 i)) by lia. cbn [andb negb]. rewrite andb_true_r.
      destruct (Z.ltb_spec l 8); [by rewrite clear_bit_spec by (done || lia)|]. rewrite (proj2 (Z.eqb_neq _ _)) by lia. by rewrite andb_true_r.
    + rewrite clear_mask_high by (done || lia). split; [|split; [|eauto]]. { apply operating_with; [done|apply clear_bit_byte..]. }
      intros l Hl. unfold line_bit. cbn [with_masks master slave set_imr imr]. rewrite (proj2 (Z.leb_le 8 i)) by lia. cbn [andb].
      destruct (Z.ltb_spec l 8); rewrite clear_bit_spec by (done || lia).
      * rewrite (proj2 (Z.eqb_neq l i)) by lia. by rewrite andb_true_r.
      * rewrite (proj2 (Z.eqb_neq l 2)), andb_true_r by lia. do 2 f_equal. destruct (Z.eqb_spec (l - 8) (i - 8)), (Z.eqb_spec l i); lia.
  - rewrite set_mask_spec by done. destruct (Z.ltb_spec i 8); (split; [|split; [|eauto]]).
    + apply operating_with; [done|apply wrap_byte|done].
    + intros l Hl. unfold line_bit. cbn [with_masks master slave set_imr imr]. destruct (Z.ltb_spec l 8); [by rewrite set_bit_spec by (done || lia)|].
      rewrite (proj2 (Z.eqb_neq _ _)) by lia. by rewrite orb_false_r.
    + apply operating_with; [done|done|apply wrap_byte].
    + intros l Hl. unfold line_bit. cbn [with_masks master slave set_imr imr]. destruct (Z.ltb_spec l 8).
      * rewrite (proj2 (Z.eqb_neq _ _)) by lia. by rewrite orb_false_r.
      * rewrite set_bit_spec by (done || lia). f_equal. destruct (Z.eqb_spec (l - 8) (i - 8)), (Z.eqb_spec l i); lia.
Qed.

(** A non-specific end of interrupt, to the slave too for its lines. *)
Definition retire (p : pic) : pic :=
  mk_pic p.(at_stage) p.(need4) p.(single) p.(vbase) p.(cascade) p.(pic_mode) p.(imr) (Z.land p.(in_service) (p.(in_service) - 1)).
Lemma eoi_sent irq d :
  chips (pic_send_eoi irq d) =
  mk_chips (retire (master (chips d))) (if 8 <=? irq then retire (slave (chips d)) else slave (chips d)) (timer (chips d)).
Proof. unfold pic_send_eoi. destruct (8 <=? irq); repeat eapply written; reflexivity. Qed.

(** ** The timer *)
Lemma pit_programmed f d : 0 < f -> exists d', pit_init f d = Done d' /\
  chips d' = mk_chips (master (chips d)) (slave (chips d)) (mk_pit 3 None ((1193182 / f) mod 65536)).
Proof.
  intros Hf. unfold pit_init. rewrite (proj2 (Z.eqb_neq _ _)) by lia. eexists. split; [reflexivity|].
  repeat eapply written; [reflexivity..|]. cbn [chip_write Z.eqb Pos.eqb PIT_CHANNEL0 master slave timer pit_data low_byte].
  unfold chip_write. cbn. do 3 f_equal. change 255 with (2 ^ 8 - 1). rewrite shift_mask, land_mask by lia.
  change 65536 with (2 ^ (8 + 8)). rewrite cut_at by lia. reflexivity.
Qed.

(** The period is the one asked for when the divisor fits in 16 bits. *)
Lemma pit_period f : 19 <= f <= 1193182 -> forall m, period (mk_pit m None ((1193182 / f) mod 65536)) = 1193182 / f.
Proof.
  intros Hf m. assert (1 <= 1193182 / f < 65536). { split; [apply Z.div_le_lower_bound; lia|apply Z.div_lt_upper_bound; lia]. }
  unfold period. cbn [reload]. rewrite Z.mod_small by lia. by rewrite (proj2 (Z.eqb_neq _ _)) by lia.
Qed.

(** ** Initialisation *)
Lemma handlers_cleared (l : list (option Z)) n : (n <= length l)%nat ->
  foldl (fun h i => let* h := h in aset h (Z.of_nat i) None) (Done l) (seq 0 n) = Done (replicate n None ++ drop n l).
Proof.
  induction n as [|n IH]; intros Hl; [by rewrite drop_0|]. rewrite seq_S, foldl_app, IH by lia. cbn [foldl obind Nat.add].
  rewrite aset_done by (rewrite length_app, length_replicate, length_drop; lia). f_equal.
  rewrite Nat2Z.id, insert_app_r_alt by (rewrite length_replicate; lia). rewrite length_replicate, Nat.sub_diag.
  destruct (drop n l) as [|y r] eqn:E; [apply (f_equal length) in E; rewrite length_drop in E; cbn in E; lia|].
  cbn [insert list_insert]. rewrite replicate_S_end, <- app_assoc. do 2 f_equal.
  rewrite <- Nat.add_1_r, <- drop_drop, E. done.
Qed.

(** A message changes only the console. *)
Lemma say_text fg text s : forallb (fun x => negb (x =? 37)) text = true -> (length text <= 127)%nat ->
  say (D := D) fg text [] s = Done (set_con (printed fg BLACK text s.(con)) s).
Proof. intros H1 H2. unfold say. by rewrite PRINT_text. Qed.

Lemma mask_message (v : Z) (s : irqs D) : exists c, say WHITE (line "[IRQ] PIC1 mask after unmask: 0x%x") [Word v] s = Done (set_con c s).
Proof.
  unfold say. destruct (PRINT_shows WHITE BLACK (line "[IRQ] PIC1 mask after unmask: 0x%x") [Word v] s.(con)) as (ss & _ & ->);
    [reflexivity..|vm_compute; lia|]. eauto.
Qed.

Lemma irq_initialised (s : irqs D) : length s.(irq_handlers) = 16%nat -> operating (chips s.(ports)) -> exists s',
  irq_init s = Done s' /\ s'.(irq_handlers) = replicate 16 None /\ s'.(timer_ticks) = 0 /\ s'.(timer_seconds) = 0 /\
  s'.(interrupts) = true /\
  chips s'.(ports) = mk_chips (set_imr (clear_bit (imr (master (chips s.(ports)))) 0) (master (chips s.(ports))))
    (slave (chips s.(ports))) (mk_pit 3 None 1193).
Proof.
  intros Hh Ho. unfold irq_init. rewrite say_text by (vm_compute; (reflexivity || lia)). cbn [obind irq_handlers set_con].
  rewrite handlers_cleared by lia. rewrite drop_ge, app_nil_r by lia. cbn [obind ports interrupts con set_con set_dev irq_handlers timer_ticks timer_seconds].
  destruct (pit_programmed TIMER_FREQ s.(ports)) as (d & -> & Ed); [unfold TIMER_FREQ; lia|]. cbn [obind].
  rewrite say_text by (vm_compute; (reflexivity || lia)). cbn [obind set_con set_dev ports interrupts con irq_handlers timer_ticks timer_seconds].
  assert (Ho' : operating (chips d)) by (by rewrite Ed). pose proof (clear_mask_low 0 d ltac:(lia) Ho') as Ec.
  destruct (read_master (pic_clear_mask 0 d)) as (d' & Er & Ed'). change 0x21 with PIC1_DATA. rewrite Er.
  match goal with |- context [say WHITE _ [Word ?v] ?s] => destruct (mask_message v s) as (c & ->) end. cbn [obind].
  destruct (c_true _); rewrite say_text by (vm_compute; (reflexivity || lia)); cbn [obind];
    (rewrite say_text by (vm_compute; (reflexivity || lia)); cbn [obind]; rewrite say_text by (vm_compute; (reflexivity || lia)));
    (eexists; split; [reflexivity|]); cbn [set_con set_dev ports interrupts con irq_handlers timer_ticks timer_seconds];
    rewrite Ed', Ec, Ed; unfold with_masks; cbn [master slave timer];
    (repeat split); f_equal; by destruct (slave _).
Qed.

Lemma keyboard_enabled d : operating (chips d) -> chips (enable_keyboard d) = with_masks (clear_bit (imr (master (chips d))) 1) (imr (slave (chips d))) (chips d).
Proof.
  intros Ho. unfold enable_keyboard. change 0x21 with PIC1_DATA. destruct (read_master d) as (d' & -> & E).
  change (Z.lnot 2) with (Z.lnot (Z.shiftl 1 1)). by apply write_master.
Qed.

(** The boot order: remap, timer and IRQ 0, then the keyboard's line. *)
Lemma boot_chips (s : irqs D) : length s.(irq_handlers) = 16%nat -> exists s',
  irq_init (set_dev (pic_remap s.(ports)) s) = Done s' /\ s'.(interrupts) = true /\
  let x := chips (enable_keyboard s'.(ports)) in
  period x.(timer) = 1193 /\ x.(master).(imr) = 0xFC /\ x.(slave).(imr) = 0xFF /\ x.(master).(vbase) = 32 /\ x.(slave).(vbase) = 40.
Proof.
  intros Hh. pose proof (remapped s.(ports)) as E.
  destruct (irq_initialised (set_dev (pic_remap s.(ports)) s)) as (s' & -> & _ & _ & _ & Hi & Hc); [done|cbn [set_dev ports]; rewrite E; done|].
  exists s'. split; [done|]. split; [done|]. cbn [set_dev ports] in Hc. rewrite E in Hc. cbn zeta.
  rewrite keyboard_enabled by (rewrite Hc; done). rewrite Hc. repeat split; reflexivity.
Qed.
End Controllers.

(** ** Routing *)
Lemma route_unmasked `{!Symbols} line x t v : booted t -> masked line x = false -> line_vector line x = v -> 0 <= v < 256 ->
  route line x t = Some (handler_of v).
Proof. intros Hb Hm Hv Hr. unfold route. rewrite Hm, Hv, (b_deliver _ Hb) by done. done. Qed.

Lemma idt_install_done `{!Symbols} t t' c : idt_build t = Done t' -> exists c', idt_install t c = Done (t', c').
Proof. intros E. unfold idt_install. rewrite E. cbn [obind]. do 3 (rewrite PRINT_text by (vm_compute; (reflexivity || lia)); cbn [obind]). eauto. Qed.

(** C16: interrupts reach their handlers. From any contents of the tables and
    any state of the controllers, the boot sequence (GDT, TSS, PIC, IDT, IRQ
    system, keyboard line) leaves the processor with tables it accepts: all
    256 vectors are delivered to their handlers in the 64-bit kernel code
    segment, the segment and task registers select the kernel's segments and
    the TSS. The timer interrupts every 1193 clock pulses, its line reaches
    [timer_handler_asm] and the keyboard's line [keyboard_handler]; every
    other line is masked. *)
Theorem interrupts_routed {D} `{!PortIO D, !Chips D, !Symbols} (t : tables) (c : console) (s : irqs D) :
  sym_ok -> tables_ok t -> length s.(irq_handlers) = 16%nat ->
  exists t' c' s',
    (let* t := gdt_init t in let* t := tss_init t in idt_install t c) = Done (t', c') /\
    irq_init (set_dev (pic_remap s.(ports)) s) = Done s' /\
    booted t' /\ s'.(interrupts) = true /\
    let x := chips (enable_keyboard s'.(ports)) in
    period x.(timer) = 1193 /\ route 0 x t' = Some timer_handler_asm /\ route 1 x t' = Some keyboard_handler /\
    forall line, 2 <= line < 16 -> route line x t' = None.
Proof.
  intros Hs Ht Hh. destruct (tables_booted t Hs Ht) as (t' & E & Hb & _). destruct (boot_chips s Hh) as (s' & Es & Hi & Hp & Hm & Hl & Hvm & Hvs).
  destruct (gdt_init t) as [t1| |] eqn:E1; try done. cbn [obind] in E |- *. destruct (tss_init t1) as [t2| |] eqn:E2; try done. cbn [obind] in E |- *.
  destruct (idt_install_done t2 t' c E) as (c' & Ec). exists t', c', s'. split; [done|]. split; [done|]. split; [done|]. split; [done|].
  split; [done|]. split; [|split].
  - rewrite (route_unmasked 0 _ _ 32); [done|done|unfold masked; by rewrite Hm|unfold line_vector; by rewrite Hvm|lia].
  - rewrite (route_unmasked 1 _ _ 33); [done|done|unfold masked; by rewrite Hm|unfold line_vector; by rewrite Hvm|lia].
  - intros l Hr. unfold route. enough (masked l (chips (enable_keyboard s'.(ports))) = true) as -> by done. unfold masked. rewrite Hm, Hl.
    destruct (Z.ltb_spec l 8); [|by rewrite orb_true_r]. assert (l = 2 \/ l = 3 \/ l = 4 \/ l = 5 \/ l = 6 \/ l = 7) by lia. naive_solver.
Qed.

(** ** A simulated machine *)
Definition sim_out (port v : Z) (x : chipset) : chipset := default x (chip_write port v x).
#[global] Instance chipset_ports : PortIO chipset := {
  inb port x := ((if port =? 0x21 then imr (master x) else if port =? 0xA1 then imr (slave x) else 0), x);
  outb := sim_out; inw _ x := ((0, 0), x); outw _ _ x := x }.
#[global, refine] Instance chipset_chips : Chips chipset := { chips x := x }.
Proof.
  - intros port v d x E. cbn. unfold sim_out. by rewrite E.
  - intros d. done.
  - intros d. done.
Defined.
#[global] Instance demo_symbols : Symbols := {
  addr_gdt := 0x101000; addr_tss := 0xFFFF800000102000; addr_idt := 0x103000;
  isr v := 0x200000 + 16 * (v mod 256); generic_handler := 0x201000; timer_handler_asm := 0xFFFFFFFF80202000; keyboard_handler := 0x203000 }.
Definition reset_pic : pic := mk_pic Operating false false 0 0 0 0 0.
Definition reset_irqs : irqs chipset :=
  mk_irqs (replicate 16 None) 7 7 false (mk_chips reset_pic reset_pic (mk_pit 0 None 0)) ConsoleFmt.small.
Definition raw_tables : tables :=
  let p := mk_ptr 0 0 in
  mk_tables (replicate 7 (mk_gdt 1 1 1 1 1 1)) p (replicate 104 255) (replicate 256 (mk_idt 1 1 1 1 1 1 1)) p (mk_cpu p p 0 0 0 0 0 0 0).

Lemma demo_sym_ok : sym_ok.
Proof. unfold sym_ok, is_u64. cbn. repeat split; try lia. all: pose proof (Z.mod_pos_bound v 256); lia. Qed.

Lemma interrupts_routed_witness : exists t' c' s',
  (let* t := gdt_init raw_tables in let* t := tss_init t in idt_install t ConsoleFmt.small) = Done (t', c') /\
  irq_init (set_dev (pic_remap reset_irqs.(ports)) reset_irqs) = Done s' /\
  booted t' /\ s'.(interrupts) = true /\
  let x := chips (enable_keyboard s'.(ports)) in
  period x.(timer) = 1193 /\ route 0 x t' = Some timer_handler_asm /\ route 1 x t' = Some keyboard_handler /\
  forall line, 2 <= line < 16 -> route line x t' = None.
Proof. apply (interrupts_routed raw_tables ConsoleFmt.small reset_irqs); [exact demo_sym_ok|repeat split|reflexivity]. Defined.

(** masks. On operating controllers any sequence of [pic_clear_mask] and
    [pic_set_mask] for lines 0 to 15 changes the masks as operations on a set
    of lines: a line is removed or added, removing a line of the slave also
    removes line 2, on which the slave is connected, and nothing else of the
    controllers or the timer changes. *)
Theorem pic_masks_refine {D} `{!PortIO D, !Chips D} (ops : list mask_op) (d : D) :
  Forall (fun o => 0 <= op_irq o < 16) ops -> operating (chips d) ->
  let d' := foldl (fun d o => op_code o d) d ops in
  operating (chips d') /\
  (forall line, 0 <= line < 16 -> line_bit line (chips d') = foldl (fun f o => op_spec o f) (fun l => line_bit l (chips d)) ops line) /\
  exists m s, chips d' = with_masks m s (chips d).
Proof.
  intros Hops. revert d. induction Hops as [|o ops Ho Hops IH]; intros d Hd; cbn [foldl].
  - split; [done|]. split; [done|]. eexists _, _. symmetry. apply with_masks_self.
  - destruct (mask_op_refines o d Ho Hd) as (H1 & H2 & m & s & H3). destruct (IH (op_code o d) H1) as (H4 & H5 & m' & s' & H6).
    split; [done|]. split.
    + intros l Hl. rewrite H5 by done. clear -H2 Hl.
      assert (forall f g, (forall l, 0 <= l < 16 -> f l = g l) -> foldl (fun f o => op_spec o f) f ops l = foldl (fun f o => op_spec o f) g ops l) as E.
      { clear -Hl. induction ops as [|o ops IH]; intros f g H; cbn [foldl]; [auto|]. apply IH. intros l' Hl'. destruct o; cbn; by rewrite H. }
      by apply E.
    + exists m', s'. rewrite H6, H3. apply with_masks_twice.
Qed.

(** IRQ 12 and IRQ 1 enabled, then IRQ 1 masked again. *)
Lemma pic_masks_refine_witness :
  let d := foldl (fun d o => op_code o d) (pic_remap reset_irqs.(ports)) [Clear 12; Clear 1; Set_ 1] in
  operating d /\ line_bit 12 d = false /\ line_bit 2 d = false /\ line_bit 1 d = true.
Proof.
  destruct (pic_masks_refine [Clear 12; Clear 1; Set_ 1] (pic_remap reset_irqs.(ports))) as (H & Hl & _).
  - repeat constructor; cbn; lia.
  - rewrite remapped. unfold operating, is_byte. cbn. repeat split; (reflexivity || lia).
  - split; [exact H|]. split; [exact (Hl 12 ltac:(lia))|split; [exact (Hl 2 ltac:(lia))|exact (Hl 1 ltac:(lia))]].
Defined.

(** Below 19 Hz the divisor does not fit in the counter and the rate is wrong: 10 Hz programs a period of 53782 pulses, 22 Hz. *)
Theorem pit_slow_rate_wrong : exists x, pit_init 10 reset_irqs.(ports) = Done x /\ period x.(timer) = 53782 /\ 1193182 / 10 = 119318.
Proof. eexists. split; [reflexivity|]. done. Qed.
End InterruptsProps.
