(* ===== verification/ExceptionProps.v ===== *)
(** * What an exception prints

    Which vectors push an error code is the processor's ([pushes_code], from
    its manual); which stubs expect one is the code's ([isr_errcode]). Where the
    two agree the stubs build the struct the C handler reads, and the handler
    prints the address of the faulting instruction, with the error code where
    there is one; for the two vectors on which they differ it prints the error
    code as the address. *)
From Stdlib Require Import ZArith Lia String.
From stdpp Require Import base numbers list gmap.
From S2P Require Import Prelude Asm Console ConsoleProps ConsoleFmt Interrupts.

Module ExceptionProps.
Import Asm Console ConsoleFmt Messages Interrupts.
Local Open Scope Z_scope.
Local Open Scope outcome_scope.

(** What the processor pushes: the return frame and above it, for the exceptions that have one, the error code. The
    vectors are those of the architecture manuals: #DF, #TS, #NP, #SS, #GP, #PF, #AC, #CP (Intel and AMD), #VC and #SX
    (AMD). *)
Record frame := mk_frame { f_rip : Z; f_cs : Z; f_rflags : Z; f_rsp : Z; f_ss : Z }.
Definition pushes_code (v : Z) : bool := bool_decide (v ∈ [8; 10; 11; 12; 13; 14; 17; 21; 29; 30]).
Definition cpu_push (v code : Z) (f : frame) : list Z :=
  (if pushes_code v then [code] else []) ++ [f.(f_rip); f.(f_cs); f.(f_rflags); f.(f_rsp); f.(f_ss)].

(** The stubs of all exceptions but two agree with the processor on whether there is an error code. *)
Lemma stubs_agree v : 0 <= v < 32 -> isr_errcode v = pushes_code v \/ (v = 21 \/ v = 29) /\ isr_errcode v = false /\ pushes_code v = true.
Proof.
  intros Hv. assert (v ∈ Z.of_nat <$> seq 0 32) as Hc.
  { apply list_elem_of_fmap. exists (Z.to_nat v). split; [lia|apply elem_of_seq; lia]. }
  clear Hv. cbn in Hc. repeat (apply elem_of_cons in Hc as [->|Hc]; [vm_compute; tauto|]). by apply elem_of_nil in Hc.
Qed.

(** The struct the handler gets for an exception whose stub agrees with the processor: every register is in its field,
    except that the fields [rsi] and [rbp] hold each other's register. *)
Definition registers_of (m : machine) (v code a cs fl sp ss : Z) : registers := {|
    r15 := m.(m_r15); r14 := m.(m_r14); r13 := m.(m_r13); r12 := m.(m_r12); r11 := m.(m_r11); r10 := m.(m_r10); r9 := m.(m_r9);
    r8 := m.(m_r8); rsi := m.(m_rbp); rdi := m.(m_rdi); rbp := m.(m_rsi); rdx := m.(m_rdx); rcx := m.(m_rcx); rbx := m.(m_rbx);
    rax := m.(m_rax); int_no := v; err_code := code; rip := a; rcs := cs; rflags := fl; rsp := sp; rss := ss |}.

Lemma stub_frame v code f m : isr_errcode v = pushes_code v ->
  registers_at (isr_common_stub m (isr_stub v (cpu_push v code f))) =
    Some (registers_of m v (if pushes_code v then code else 0) f.(f_rip) f.(f_cs) f.(f_rflags) f.(f_rsp) f.(f_ss)).
Proof. intros E. unfold isr_stub, cpu_push. rewrite E. destruct (pushes_code v); reflexivity. Qed.

(** A stub that does not expect the error code: every field of the return frame holds the one pushed before it. *)
Lemma stub_frame_shifted v code f m : isr_errcode v = false -> pushes_code v = true ->
  registers_at (isr_common_stub m (isr_stub v (cpu_push v code f))) =
    Some (registers_of m v 0 code f.(f_rip) f.(f_cs) f.(f_rflags) f.(f_rsp)).
Proof. intros E1 E2. unfold isr_stub, cpu_push. by rewrite E1, E2. Qed.

Definition shown (s : list Z) (c : console) : console := printed RED BLACK s c.

Lemma red_text s c : forallb (fun x => negb (x =? 37)) (line s) = true -> (length (line s) <= 127)%nat -> red s [] c = Done (shown (line s) c).
Proof. apply PRINT_text. Qed.

(** The text of a list of pieces, in parts. *)
Lemma shows_app ps qs ss : Forall2 piece_shows (ps ++ qs) ss -> exists a b, mjoin ss = mjoin a ++ mjoin b /\ Forall2 piece_shows ps a /\ Forall2 piece_shows qs b.
Proof. intros H. apply Forall2_app_inv_l in H as (a & b & Ha & Hb & ->). exists a, b. split; [apply join_app|done]. Qed.

(** A message that shows a pointer after the text [pre]. *)
Lemma pointer_shown (pre post : list piece) a ss : Forall2 piece_shows (pre ++ Pointer a :: post) ss -> is_u64 a ->
  exists pt hex after, Forall2 piece_shows pre pt /\ mjoin ss = mjoin pt ++ [48; 120] ++ hex ++ after /\ numeral 16 a hex.
Proof.
  intros H Ha. apply shows_app in H as (x & y & -> & Hx & Hy). inversion Hy as [|? p ? ps Hp Hps]; subst.
  destruct Hp as (hex & -> & Hh). exists x, hex, (mjoin ps). split; [done|]. split; [done|].
  by rewrite wrap_small in Hh.
Qed.

(** The text of a report: [RIP = 0x...], after the error code if there is one. *)
Definition reports (code : option Z) (a : Z) (s : list Z) : Prop :=
  exists before hex after, s = before ++ lit "RIP = 0x" ++ hex ++ after /\ numeral 16 a hex /\
  match code with
  | None => True
  | Some e => exists b h, before = b ++ lit "Error code = " ++ h ++ lit ", " /\ numeral 16 e h
  end.

Lemma reports_around code a s pre post : reports code a s -> reports code a (pre ++ s ++ post).
Proof.
  intros (b & h & x & -> & Hn & Hc). exists (pre ++ b), h, (x ++ post). rewrite <- !app_assoc. split; [done|]. split; [done|].
  destruct code as [e|]; [|done]. destruct Hc as (b' & h' & -> & H). exists (pre ++ b'), h'. by rewrite <- !app_assoc.
Qed.

(** The four ways the handler prints the address. *)
Lemma rip_message pre post fmt args a c : is_u64 a -> pieces_of (line fmt) args = (Text <$> (pre ++ lit "RIP = ")) ++ Pointer a :: post ->
  mjoin (piece_format <$> pieces_of (line fmt) args) = line fmt -> mjoin (piece_args <$> pieces_of (line fmt) args) = args ->
  forallb piece_okb (pieces_of (line fmt) args) = true -> (length (line fmt) <= 127)%nat ->
  exists s, red fmt args c = Done (shown s c) /\ reports None a s.
Proof.
  intros Ha E H1 H2 H3 H4. destruct (PRINT_shows RED BLACK (line fmt) args c H1 H2 H3 H4) as (ss & Hss & Ep). rewrite E in Hss.
  apply pointer_shown in Hss as (pt & hex & after & Hp & Es & Hn); [|done]. apply texts_show in Hp.
  exists (mjoin ss). split; [exact Ep|]. exists pre, hex, after. rewrite Es, Hp, <- !app_assoc. done.
Qed.

Lemma err_rip_message e a c : is_u64 e -> is_u64 a -> exists s, red s_err_rip [Word e; Word a] c = Done (shown s c) /\ reports (Some e) a s.
Proof.
  intros He Ha. destruct (PRINT_shows RED BLACK (line s_err_rip) [Word e; Word a] c) as (ss & Hss & Ep); [reflexivity..|vm_compute; lia|].
  change (pieces_of _ _) with ((Text <$> lit "Error code = ") ++ [Hex false LL e] ++ (Text <$> lit ", RIP = ") ++ Pointer a :: [Text 10]) in Hss.
  rewrite !app_assoc in Hss. apply pointer_shown in Hss as (pt & hex & after & Hp & Es & Hn); [|done]. rewrite <- !app_assoc in Hp.
  apply shows_app in Hp as (p1 & q & E1 & Hp1 & Hq). apply shows_app in Hq as (p2 & p3 & E2 & Hp2 & Hp3).
  apply texts_show in Hp1, Hp3. inversion Hp2 as [|? h ? r Hh Hr]; subst. inversion Hr; subst.
  cbn [piece_shows is_long as_unsigned] in Hh. rewrite wrap_small in Hh by done.
  exists (mjoin ss). split; [exact Ep|]. exists (lit "Error code = " ++ h ++ lit ", "), hex, after. split.
  - rewrite Es, E1, E2, Hp1, Hp3. cbn [mjoin list_join]. rewrite app_nil_r, <- !app_assoc. done.
  - split; [done|]. exists [], h. done.
Qed.

(** A first message of any text, then a report. *)
Lemma after_text title c code a (k : console -> outcome console) :
  forallb (fun x => negb (x =? 37)) (line title) = true -> (length (line title) <= 127)%nat ->
  (forall c, exists s, k c = Done (shown s c) /\ reports code a s) ->
  exists s, (let* c := red title [] c in k c) = Done (shown s c) /\ reports code a s.
Proof.
  intros H1 H2 Hk. rewrite red_text by done. cbn [obind]. destruct (Hk (shown (line title) c)) as (s & -> & Hs).
  exists (line title ++ s). split; [unfold shown; by rewrite printed_app|]. rewrite <- (app_nil_r s). by apply reports_around.
Qed.

(** A report, then a message that prints something. *)
Lemma then_shows m c code a (k : console -> outcome console) :
  (exists s, m = Done (shown s c) /\ reports code a s) -> (forall c, exists s, k c = Done (shown s c)) ->
  exists s, (let* c := m in k c) = Done (shown s c) /\ reports code a s.
Proof.
  intros (s & -> & Hs) Hk. cbn [obind]. destruct (Hk (shown s c)) as (s' & ->). exists (s ++ s').
  split; [unfold shown; by rewrite printed_app|]. by apply (reports_around _ _ s []).
Qed.

(** A message with a number in its title. *)
Lemma after_number title v c code a (k : console -> outcome console) :
  (forall c, exists s, red title [Word v] c = Done (shown s c)) ->
  (forall c, exists s, k c = Done (shown s c) /\ reports code a s) ->
  exists s, (let* c := red title [Word v] c in k c) = Done (shown s c) /\ reports code a s.
Proof.
  intros Ht Hk. destruct (Ht c) as (t & ->). cbn [obind]. destruct (Hk (shown t c)) as (s & -> & Hs).
  exists (t ++ s). split; [unfold shown; by rewrite printed_app|]. rewrite <- (app_nil_r s). by apply reports_around.
Qed.

Lemma red_shows fmt args c : mjoin (piece_format <$> pieces_of (line fmt) args) = line fmt -> mjoin (piece_args <$> pieces_of (line fmt) args) = args ->
  forallb piece_okb (pieces_of (line fmt) args) = true -> (length (line fmt) <= 127)%nat -> exists s, red fmt args c = Done (shown s c).
Proof. intros H1 H2 H3 H4. destruct (PRINT_shows RED BLACK (line fmt) args c H1 H2 H3 H4) as (ss & _ & E). eauto. Qed.

Lemma rip_only a c : is_u64 a -> exists s, red s_rip [Word a] c = Done (shown s c) /\ reports None a s.
Proof. intros Ha. apply (rip_message [] [Text 10]); try done. vm_compute. lia. Qed.
Lemma rip_flags a f c : is_u64 a -> exists s, red s_rip_flags [Word a; Word f] c = Done (shown s c) /\ reports None a s.
Proof. intros Ha. apply (rip_message [] ((Text <$> lit ", RFLAGS = ") ++ [Hex false LL f; Text 10])); try done. vm_compute. lia. Qed.
Lemma faulting a c : is_u64 a -> exists s, red "Faulting instruction at RIP = %p" [Word a] c = Done (shown s c) /\ reports None a s.
Proof. intros Ha. apply (rip_message (lit "Faulting instruction at ") [Text 10]); try done. vm_compute. lia. Qed.

Create HintDb report.
#[local] Hint Resolve rip_only rip_flags faulting err_rip_message : report.

(** Evaluates the conditions on a literal. *)
Ltac literal := solve [reflexivity | vm_compute; lia].
Ltac report := unfold two; intros; first
  [ solve [auto with report]
  | solve [apply after_text; [literal|literal|report]]
  | solve [apply after_number; [intros; apply red_shows; literal|report]]
  | solve [apply then_shows; [report|intros; apply red_shows; literal]] ].

Lemma handler_reports cr2 r c : 0 <= r.(int_no) < 32 -> is_u64 r.(err_code) -> is_u64 r.(rip) ->
  exists s, isr_handler cr2 r c = Done (shown s c) /\
    reports (if isr_errcode r.(int_no) && negb (r.(int_no) =? 30) then Some r.(err_code) else None) r.(rip) s.
Proof.
  intros Hv He Ha. unfold isr_handler. destruct r as [? ? ? ? ? ? ? ? ? ? ? ? ? ? ? v e a ? ? ? ?]. cbn [int_no err_code rip rflags rax rbx rcx rdx] in *.
  assert (Hc : v ∈ ltac:(let l := eval vm_compute in (Z.of_nat <$> seq 0 32) in exact l)).
  { change (v ∈ (Z.of_nat <$> seq 0 32)). apply list_elem_of_fmap. exists (Z.to_nat v). split; [lia|apply elem_of_seq; lia]. }
  clear Hv. repeat (apply elem_of_cons in Hc as [->|Hc]; [cbn; report|]). by apply elem_of_nil in Hc.
Qed.

(** C32: Exceptions are reported, except two. For every exception vector but 21 and 29 the stub hands the C handler a
    struct whose vector, instruction pointer and general registers are those of the exception (only the fields rsi and
    rbp are exchanged), and the handler prints, in red, a text with the address of the faulting instruction in
    hexadecimal, preceded by the error code when the processor pushes one and the vector is not 30, before it halts. For
    vectors 21 and 29 (control protection, VMM communication) the stub takes the processor's error code for the return
    address: the handler reports the error code as the address of the faulting instruction. *)
Theorem exception_reported v code f m cr2 c : 0 <= v < 32 -> is_u64 code -> is_u64 f.(f_rip) ->
  exists r s, registers_at (isr_common_stub m (isr_stub v (cpu_push v code f))) = Some r /\
    r.(int_no) = v /\ (r.(rax), r.(rbx), r.(rcx), r.(rdx)) = (m.(m_rax), m.(m_rbx), m.(m_rcx), m.(m_rdx)) /\
    (r.(rsi), r.(rbp)) = (m.(m_rbp), m.(m_rsi)) /\
    isr_handler cr2 r c = Done (printed RED BLACK s c) /\
    if bool_decide (v = 21 \/ v = 29) then reports None code s
    else reports (if pushes_code v && negb (v =? 30) then Some code else None) f.(f_rip) s.
Proof.
  intros Hv Hc Hf. destruct (stubs_agree v Hv) as [E|(Hx & E1 & E2)].
  - rewrite stub_frame by done. eexists.
    destruct (handler_reports cr2 (registers_of m v (if pushes_code v then code else 0) f.(f_rip) f.(f_cs) f.(f_rflags) f.(f_rsp) f.(f_ss)) c)
      as (s & Es & Hs); [done|cbn [err_code registers_of]; destruct (pushes_code v); [done|unfold is_u64; lia]|done|].
    exists s. split; [reflexivity|]. split_and!; [done|done|done|exact Es|]. cbn [int_no err_code rip registers_of] in Hs. rewrite E in Hs.
    rewrite bool_decide_eq_false_2; [destruct (pushes_code v); exact Hs|]. intros [->| ->]; vm_compute in E; discriminate.
  - rewrite stub_frame_shifted by done. eexists.
    destruct (handler_reports cr2 (registers_of m v 0 code f.(f_rip) f.(f_cs) f.(f_rflags) f.(f_rsp)) c)
      as (s & Es & Hs); [done|unfold is_u64; cbn; lia|done|].
    exists s. split; [reflexivity|]. split_and!; [done|done|done|exact Es|]. rewrite bool_decide_eq_true_2 by done.
    cbn [int_no err_code rip registers_of] in Hs. by rewrite E1 in Hs.
Qed.

(** A page fault at 0x401000, on a write to an absent page. *)
Definition fault_frame : frame := mk_frame 0x401000 8 0x202 0x7FF0 16.
Definition some_machine : machine := mk_machine 1 2 3 4 5 6 7 8 9 10 11 12 13 14 15.
Lemma exception_reported_witness :
  exists r s, registers_at (isr_common_stub some_machine (isr_stub 14 (cpu_push 14 2 fault_frame))) = Some r /\
    r.(int_no) = 14 /\ (r.(rax), r.(rbx), r.(rcx), r.(rdx)) = (1, 2, 3, 4) /\ (r.(rsi), r.(rbp)) = (7, 5) /\
    isr_handler 0xB8000 r small = Done (printed RED BLACK s small) /\ reports (Some 2) 0x401000 s.
Proof. apply (exception_reported 14 2 fault_frame some_machine 0xB8000 small); [lia|unfold is_u64; lia|unfold is_u64; cbn; lia]. Defined.
End ExceptionProps.
