(* ===== verification/Anthropic.v ===== *)
(** * The full-screen editor (src/kernel/Anthropic/Anthropic.c)

    A text of at most 250 lines of 79 characters. The fields lines to filename
    of [editor_state_t] are an [editor_buffer_t], which has the same fields.
    The mouse is read from the ports of the keyboard controller; keyboard
    interrupts add scancodes between the rounds of the event loop. Whether
    kmalloc returns memory is a parameter. *)
From Stdlib Require Import ZArith Lia String.
From stdpp Require Import base numbers list gmap.
From S2P Require Import Prelude CStr StrBuf VfsTypes Ata Asm Console Serial Keyboard Paint Desk TextEditor.

Module Anthropic.
Import Ata StrBuf Files Console Keyboard Paint TextEditor.
Local Open Scope Z_scope.
Local Open Scope outcome_scope.

Definition MAX_LINES : Z := 250.
Definition MAX_LINE_LENGTH : Z := 80.
Definition EDITOR_BG : Z := 0x1E3A8A.
Definition EDITOR_TEXT : Z := 0xFFFFFF.
Definition LINE_NUM_COLOR : Z := 0x60A5FA.
Definition BUTTON_COLOR : Z := 0xEF4444.
Definition BUTTON_HOVER : Z := 0xDC2626.
Definition PROMPT_BG : Z := 0x374151.
Definition PROMPT_BORDER : Z := 0x60A5FA.
Definition YELLOW : Z := 0xFFFF00.
Definition GREEN : Z := 0x00FF00.
Definition MAGENTA : Z := 0xFF00FF.

(** The position of the parts on the screen, set once by [editor_init]. *)
Record layout := mk_layout {
  x : Z; y : Z; width : Z; height : Z; text_start_x : Z; text_start_y : Z; line_num_width : Z; char_width : Z; char_height : Z;
  close_x : Z; close_y : Z; close_size : Z; visible_lines : Z }.
Record editor_state_t := mk_state {
  buf : editor_buffer_t; lay : layout; needs_full_redraw : Z; last_mx : Z; last_my : Z; saved : under }.

Definition set_buf (b : editor_buffer_t) (ed : editor_state_t) : editor_state_t :=
  mk_state b ed.(lay) ed.(needs_full_redraw) ed.(last_mx) ed.(last_my) ed.(saved).
Definition set_redraw (v : Z) (ed : editor_state_t) : editor_state_t :=
  mk_state ed.(buf) ed.(lay) v ed.(last_mx) ed.(last_my) ed.(saved).
Definition set_last (mx my : Z) (ed : editor_state_t) : editor_state_t :=
  mk_state ed.(buf) ed.(lay) ed.(needs_full_redraw) mx my ed.(saved).
Definition set_saved (u : under) (ed : editor_state_t) : editor_state_t :=
  mk_state ed.(buf) ed.(lay) ed.(needs_full_redraw) ed.(last_mx) ed.(last_my) u.

(** ** Keys *)
Definition scroll_up (line scroll : Z) : Z := if line <? scroll then scroll - 1 else scroll.
Definition scroll_down (vis line scroll : Z) : Z := if scroll + vis <=? line then scroll + 1 else scroll.
Definition row_len (b : editor_buffer_t) (line : Z) : outcome Z := let* row := aget b.(lines) line in STRLEN row.

Definition key_up (b : editor_buffer_t) : outcome editor_buffer_t :=
  if 0 <? b.(cursor_line) then
    let line := b.(cursor_line) - 1 in
    let* len := row_len b line in
    Done (set_position b line (if len <? b.(cursor_col) then len else b.(cursor_col)) (scroll_up line b.(scroll_offset)))
  else Done b.

Definition key_down (vis : Z) (b : editor_buffer_t) : outcome editor_buffer_t :=
  if b.(cursor_line) <? b.(line_count) - 1 then
    let line := b.(cursor_line) + 1 in
    let* len := row_len b line in
    Done (set_position b line (if len <? b.(cursor_col) then len else b.(cursor_col)) (scroll_down vis line b.(scroll_offset)))
  else Done b.

Definition key_left (b : editor_buffer_t) : outcome editor_buffer_t :=
  if 0 <? b.(cursor_col) then Done (set_position b b.(cursor_line) (b.(cursor_col) - 1) b.(scroll_offset))
  else if 0 <? b.(cursor_line) then
    let line := b.(cursor_line) - 1 in
    let* len := row_len b line in
    Done (set_position b line len (scroll_up line b.(scroll_offset)))
  else Done b.

Definition key_right (vis : Z) (b : editor_buffer_t) : outcome editor_buffer_t :=
  let* len := row_len b b.(cursor_line) in
  if b.(cursor_col) <? len then Done (set_position b b.(cursor_line) (b.(cursor_col) + 1) b.(scroll_offset))
  else if b.(cursor_line) <? b.(line_count) - 1 then
    let line := b.(cursor_line) + 1 in
    Done (set_position b line 0 (scroll_down vis line b.(scroll_offset)))
  else Done b.

Definition key_backspace (b : editor_buffer_t) : outcome editor_buffer_t :=
  if 0 <? b.(cursor_col) then
    let* row := aget b.(lines) b.(cursor_line) in
    let* len := STRLEN row in
    let* row := close_gap (Z.to_nat (len - (b.(cursor_col) - 1))) (b.(cursor_col) - 1) row in
    let* l := aset b.(lines) b.(cursor_line) row in
    Done (set_text b l b.(line_count) b.(cursor_line) (b.(cursor_col) - 1) b.(scroll_offset))
  else if 0 <? b.(cursor_line) then
    let* prev := aget b.(lines) (b.(cursor_line) - 1) in
    let* prev_len := STRLEN prev in
    let* cur := aget b.(lines) b.(cursor_line) in
    let* curr_len := STRLEN cur in
    if prev_len + curr_len <? MAX_LINE_LENGTH - 1 then
      let* joined := STRCAT prev cur in
      let* l := aset b.(lines) (b.(cursor_line) - 1) joined in
      let* l := rows_up (Z.to_nat (b.(line_count) - 1 - b.(cursor_line))) b.(cursor_line) l in
      let line := b.(cursor_line) - 1 in
      Done (set_text b l (b.(line_count) - 1) line prev_len (scroll_up line b.(scroll_offset)))
    else Done b
  else Done b.

Definition key_enter (vis : Z) (b : editor_buffer_t) : outcome editor_buffer_t :=
  if b.(line_count) <? MAX_LINES then
    let* l := rows_down (Z.to_nat (b.(line_count) - (b.(cursor_line) + 1))) b.(line_count) b.(lines) in
    let* row := aget l b.(cursor_line) in
    let* len := STRLEN row in
    let split_pos := b.(cursor_col) in
    let* below := aget l (b.(cursor_line) + 1) in
    let* l :=
      (if split_pos <? len then
         let* below := STRCPY below (drop (Z.to_nat split_pos) row) in
         let* l := aset l (b.(cursor_line) + 1) below in
         let* row := aset row split_pos 0 in
         aset l b.(cursor_line) row
       else let* below := aset below 0 0 in aset l (b.(cursor_line) + 1) below) in
    let line := b.(cursor_line) + 1 in
    Done (set_text b l (b.(line_count) + 1) line 0 (scroll_down vis line b.(scroll_offset)))
  else Done b.

Definition plain_chars : list (Z * Z) :=
  [(2, 49); (3, 50); (4, 51); (5, 52); (6, 53); (7, 54); (8, 55); (9, 56); (10, 57); (11, 48); (12, 45); (13, 61);
   (16, 113); (17, 119); (18, 101); (19, 114); (20, 116); (21, 121); (22, 117); (23, 105); (24, 111); (25, 112);
   (30, 97); (31, 115); (32, 100); (33, 102); (34, 103); (35, 104); (36, 106); (37, 107); (38, 108);
   (44, 122); (45, 120); (46, 99); (47, 118); (48, 98); (49, 110); (50, 109);
   (57, 32); (51, 44); (52, 46); (53, 47); (39, 59); (40, 39); (26, 91); (27, 93); (43, 92); (41, 96)].
Definition shifted_chars : list (Z * Z) :=
  [(2, 33); (3, 64); (4, 35); (5, 36); (6, 37); (7, 94); (8, 38); (9, 42); (10, 40); (11, 41); (12, 95); (13, 43);
   (16, 81); (17, 87); (18, 69); (19, 82); (20, 84); (21, 89); (22, 85); (23, 73); (24, 79); (25, 80);
   (30, 65); (31, 83); (32, 68); (33, 70); (34, 71); (35, 72); (36, 74); (37, 75); (38, 76);
   (44, 90); (45, 88); (46, 67); (47, 86); (48, 66); (49, 78); (50, 77);
   (57, 32); (51, 60); (52, 62); (53, 63); (39, 58); (40, 34); (26, 123); (27, 125); (43, 124); (41, 126)].
Definition key_char (scancode shift_held : Z) : Z :=
  Serial.lookup_code (if shift_held =? 0 then plain_chars else shifted_chars) scancode.

Definition insert_char (ch : Z) (ed : editor_state_t) : outcome editor_state_t :=
  let b := ed.(buf) in
  let* row := aget b.(lines) b.(cursor_line) in
  let* len := STRLEN row in
  let col := if len <? b.(cursor_col) then len else b.(cursor_col) in
  if len <? MAX_LINE_LENGTH - 1 then
    let* row := open_gap (Z.to_nat (len - col)) (len - 1) row in
    let* row := aset row col ch in
    let* row := aset row (len + 1) 0 in
    let* l := aset b.(lines) b.(cursor_line) row in
    Done (set_redraw 1 (set_buf (set_text b l b.(line_count) b.(cursor_line) (col + 1) b.(scroll_offset)) ed))
  else Done (set_buf (set_position b b.(cursor_line) col b.(scroll_offset)) ed).

(** A key that acts on the buffer alone. *)
Definition on_buf (f : editor_buffer_t -> outcome editor_buffer_t) (ed : editor_state_t) : outcome editor_state_t :=
  let* b := f ed.(buf) in Done (set_buf b ed).

Definition editor_handle_key (scancode shift_held : Z) (ed : editor_state_t) : outcome editor_state_t :=
  let vis := ed.(lay).(visible_lines) in
  if scancode =? 0x48 then on_buf key_up ed
  else if scancode =? 0x50 then on_buf (key_down vis) ed
  else if scancode =? 0x4B then on_buf key_left ed
  else if scancode =? 0x4D then on_buf (key_right vis) ed
  else if scancode =? 0x0E then on_buf key_backspace ed
  else if scancode =? 0x1C then on_buf (key_enter vis) ed
  else let ch := key_char scancode shift_held in
       if ch =? 0 then Done ed else insert_char ch ed.

(** ** Files *)
Definition clear_lines (l : list (list Z)) : list (list Z) := clear_rows l.

(** A path relative to the current directory; [fullpath] has 256 bytes. *)
Definition full_path (filename cwd : list Z) : outcome (list Z) :=
  let fullpath := replicate 256 0 in
  if get filename 0 =? 47 then STRCPY fullpath filename
  else
    let* fullpath := STRCPY fullpath (cstr cwd ++ [0]) in
    let* len := STRLEN fullpath in
    let* fullpath :=
      (if (0 <? len) && negb (get fullpath (Z.to_nat (len - 1)) =? 47) then
         let* fullpath := aset fullpath len 47 in aset fullpath (len + 1) 0
       else Done fullpath) in
    STRCAT fullpath filename.

(** [lines[line][col] = v] *)
Definition poke (l : list (list Z)) (line col v : Z) : outcome (list (list Z)) :=
  let* row := aget l line in let* row := aset row col v in aset l line row.

Fixpoint load_bytes (s : list Z) (l : list (list Z)) (line col : Z) : outcome (list (list Z) * Z * Z) :=
  match s with
  | [] => Done (l, line, col)
  | c :: s =>
    if line <? MAX_LINES then
      if c =? 10 then let* l := poke l line col 0 in load_bytes s l (line + 1) 0
      else if c =? 13 then load_bytes s l line col
      else if col <? MAX_LINE_LENGTH - 1 then let* l := poke l line col c in load_bytes s l line (col + 1)
      else load_bytes s l line col
    else Done (l, line, col)
  end.

(** The buffer after reading [bytes] bytes into [buffer]. *)
Definition load_text (s : list Z) (b : editor_buffer_t) : outcome editor_buffer_t :=
  let* (l, line, col) := load_bytes s b.(lines) 0 0 in
  let* (l, line) := (if (0 <? col) || (line =? 0) then let* l := poke l line col 0 in Done (l, line + 1) else Done (l, line)) in
  Done (mk_buf l line b.(cursor_line) b.(cursor_col) b.(scroll_offset) b.(filepath) 0).

Section Storage.
Context {W : Type} `{!FileApi W}.

Definition editor_load_file (ed : editor_state_t) (w : W) : outcome (Z * editor_state_t * W) :=
  let b := ed.(buf) in
  let l := clear_lines b.(lines) in
  let* fullpath := full_path b.(filepath) (f_cwd w) in
  let* (fd, w) := f_open fullpath FILE_READ w in
  if fd <? 0 then
    let* l := poke l 0 0 0 in
    Done (-1, set_buf (mk_buf l 1 b.(cursor_line) b.(cursor_col) b.(scroll_offset) b.(filepath) 0) ed, w)
  else
    let* (bytes, buffer, w) := f_read fd (replicate 2048 0) 2047 w in
    let* w := f_close fd w in
    if bytes <=? 0 then
      let* l := poke l 0 0 0 in
      Done (-1, set_buf (mk_buf l 1 b.(cursor_line) b.(cursor_col) b.(scroll_offset) b.(filepath) b.(modified)) ed, w)
    else
      let* buffer := aset buffer bytes 0 in
      let* b := load_text (take (Z.to_nat bytes) buffer) (mk_buf l b.(line_count) b.(cursor_line) b.(cursor_col) b.(scroll_offset) b.(filepath) b.(modified)) in
      Done (0, set_buf b ed, w).

(** The conversion loop from line [i] on: the save buffer and the position in it. *)
Fixpoint convert (n : nat) (i : Z) (b : editor_buffer_t) (buffer : list Z) (pos : Z) : outcome (list Z * Z) :=
  match n with
  | O => Done (buffer, pos)
  | S n =>
    let* row := aget b.(lines) i in
    let* line_len := STRLEN row in
    let* buffer := put buffer (Z.to_nat pos) (take (Z.to_nat line_len) row) in
    let pos := pos + line_len in
    let* (buffer, pos) := (if i <? b.(line_count) - 1 then let* buffer := aset buffer pos 10 in Done (buffer, pos + 1) else Done (buffer, pos)) in
    convert n (i + 1) b buffer pos
  end.

Definition line (s : string) : list Z := (Asm.lit s ++ [10])%list.

Definition editor_save_file (kmalloc : bool) (ed : editor_state_t) (w : W) (c : console) : outcome (Z * editor_state_t * W * console) :=
  let b := ed.(buf) in
  let* fullpath := full_path b.(filepath) (f_cwd w) in
  if negb kmalloc then
    let* c := PRINT YELLOW BLACK (line "[EDITOR] Out of memory for save buffer") [] c in Done (-1, ed, w, c)
  else
    let* (buffer, buffer_pos) := convert (Z.to_nat b.(line_count)) 0 b (replicate (Z.to_nat (MAX_LINES * MAX_LINE_LENGTH)) 0) 0 in
    let* c := PRINT WHITE BLACK (line "[EDITOR] Converted %d lines to %d bytes") [Word b.(line_count); Word buffer_pos] c in
    let* (_, w) := f_unlink fullpath w in
    let* (_, w) := f_create fullpath (Z.lor FILE_READ FILE_WRITE) w in
    let* (fd, w) := f_open fullpath FILE_WRITE w in
    if fd <? 0 then
      let* c := PRINT YELLOW BLACK (line "[EDITOR] Failed to open file for writing: %s") [Str (cstr fullpath)] c in
      Done (-1, ed, w, c)
    else
      let* (written, w) := f_write fd buffer buffer_pos w in
      let* w := f_close fd w in
      if negb (written =? buffer_pos) then
        let* c := PRINT YELLOW BLACK (line "[EDITOR] Warning: wrote %d bytes, expected %d") [Word written; Word buffer_pos] c in
        Done (-1, ed, w, c)
      else
        let* c := PRINT GREEN BLACK (line "[EDITOR] Successfully saved %d bytes to: %s") [Word written; Str (cstr fullpath)] c in
        Done (0, set_buf (mk_buf b.(lines) b.(line_count) b.(cursor_line) b.(cursor_col) b.(scroll_offset) b.(filepath) 0) ed, w, c).

(** One byte of the dump. *)
Definition dump_byte (c : console) (x : Z) : outcome console :=
  if x =? 10 then PRINT GREEN BLACK (Asm.lit "\n" ++ [10]) [] c
  else if x =? 13 then PRINT GREEN BLACK (Asm.lit "\r") [] c
  else if (32 <=? x) && (x <? 127) then PRINT MAGENTA BLACK (Asm.lit "%c") [Word x] c
  else PRINT YELLOW BLACK (Asm.lit "[%02X]") [Word x] c.
Definition anthropic_debug (filename : list Z) (w : W) (c : console) : outcome (W * console) :=
  let* fullpath := full_path filename (f_cwd w) in
  let* c := PRINT WHITE BLACK (line "[DEBUG] Opening file: %s") [Str (cstr fullpath)] c in
  let* (fd, w) := f_open fullpath FILE_READ w in
  if fd <? 0 then let* c := PRINT YELLOW BLACK (line "[DEBUG] Failed to open file") [] c in Done (w, c) else
  let* (bytes, buffer, w) := f_read fd (replicate 2000 0) 1999 w in
  let* w := f_close fd w in
  if bytes <=? 0 then let* c := PRINT YELLOW BLACK (line "[DEBUG] Read 0 bytes") [] c in Done (w, c) else
  let* buffer := aset buffer bytes 0 in
  let* c := PRINT WHITE BLACK (line "[DEBUG] Read %d bytes total") [Word bytes] c in
  let* c := PRINT WHITE BLACK (line "[DEBUG] Raw bytes:") [] c in
  let* c := foldl (fun c x => let* c := c in dump_byte c x) (Done c) (take (Z.to_nat bytes) buffer) in
  let* c := PRINT WHITE BLACK (10 :: line "[DEBUG] End of file") [] c in
  Done (w, c).
End Storage.

(** ** Drawing *)
Definition draw_text (px py : Z) (text : list Z) (color bg : Z) (c : console) : console := letters px py 8 (cstr text) color bg c.
Definition draw_number (px py num color bg : Z) (c : console) : console := letters px py 8 (line_num num) color bg c.
Definition draw_custom_cursor (px py : Z) (c : console) : console := draw_cursor_in 0xFF0000 px py c.

Definition draw_rect_outline (px py w h color : Z) (thickness : nat) (c : console) : console :=
  for_range 0 thickness (fun t c =>
    let t := Z.of_nat t in
    let c := for_range 0 (Z.to_nat w) (fun dx c =>
               plot (px + Z.of_nat dx) (py + h - 1 - t) color (plot (px + Z.of_nat dx) (py + t) color c)) c in
    for_range 0 (Z.to_nat h) (fun dy c =>
      plot (px + w - 1 - t) (py + Z.of_nat dy) color (plot (px + t) (py + Z.of_nat dy) color c)) c) c.

Definition save_area (mx my : Z) (c : console) (ed : editor_state_t) : editor_state_t := set_saved (save_cursor_area mx my c ed.(saved)) ed.
Definition restore_area (ed : editor_state_t) (c : console) : editor_state_t * console :=
  let '(u, c) := restore_cursor_area ed.(saved) c in (set_saved u ed, c).

(** The arrow put down at a position. *)
Definition put_arrow (mx my : Z) (ed : editor_state_t) (c : console) : editor_state_t * console :=
  (save_area mx my c ed, draw_custom_cursor mx my c).

Definition editor_init (fb_width fb_height : Z) (filename : list Z) (ed : editor_state_t) : outcome editor_state_t :=
  let b := ed.(buf) in
  let* name := STRCPY b.(filepath) filename in
  let w := s32 fb_width in let h := s32 fb_height in
  let u := ed.(saved) in
  Done (mk_state (mk_buf (clear_lines b.(lines)) 1 0 0 0 name 0)
    (mk_layout 0 0 w h (0 + 50 + 10) (0 + 40) 50 8 8 (0 + w - 24 - 5) (0 + 5) 24 (Z.quot (h - 50) 8))
    1 (-1) (-1) (mk_under u.(saved_pixels) 0 u.(saved_cx) u.(saved_cy))).

Definition on_close (mx my : Z) (l : layout) : bool := hits mx my l.(close_x) l.(close_y) l.(close_size) l.(close_size).

(** The title bar: [title] has 280 bytes. *)
Definition editor_title (b : editor_buffer_t) : outcome (list Z) :=
  let* title := STRCPY (replicate 280 0) (Asm.lit "Anthropic Editor - " ++ [0]) in
  let* title := STRCAT title b.(filepath) in
  if b.(modified) =? 0 then Done title else
  let* n := STRLEN title in
  let* title := aset title n 32 in
  let* title := aset title (n + 1) 42 in
  aset title (n + 2) 0.

(** [for (i = first_line; i < last_line; i++)] *)
Fixpoint draw_rows (n : nat) (i : Z) (ed : editor_state_t) (c : console) : outcome console :=
  match n with
  | O => Done c
  | S n =>
    let l := ed.(lay) in let b := ed.(buf) in
    let screen_y := l.(text_start_y) + (i - b.(scroll_offset)) * l.(char_height) in
    let c := draw_number (l.(x) + 10) screen_y (i + 1) LINE_NUM_COLOR (0x1E3A8A - 0x0A0A0A) c in
    let* row := aget b.(lines) i in
    let c := draw_text l.(text_start_x) screen_y row EDITOR_TEXT EDITOR_BG c in
    let c := if i =? b.(cursor_line)
             then fill_rect (l.(text_start_x) + b.(cursor_col) * l.(char_width)) screen_y 2 l.(char_height) EDITOR_TEXT c else c in
    draw_rows n (i + 1) ed c
  end.

Definition editor_draw (mx my : Z) (ed : editor_state_t) (c : console) : outcome console :=
  let l := ed.(lay) in let b := ed.(buf) in
  let c := fill_rect l.(x) l.(y) l.(width) 30 0x1E40AF c in
  let* title := editor_title b in
  let c := draw_text (l.(x) + 10) (l.(y) + 11) title EDITOR_TEXT 0x1E40AF c in
  let c := fill_rect l.(close_x) l.(close_y) l.(close_size) l.(close_size) (if on_close mx my l then BUTTON_HOVER else BUTTON_COLOR) c in
  let c := for_range 0 (Z.to_nat l.(close_size)) (fun i c =>
    let k := Z.of_nat i in
    plot (l.(close_x) + k) (l.(close_y) + l.(close_size) - 1 - k) EDITOR_TEXT (plot (l.(close_x) + k) (l.(close_y) + k) EDITOR_TEXT c)) c in
  let c := fill_rect l.(x) (l.(y) + 30) l.(line_num_width) (l.(height) - 30) (0x1E3A8A - 0x0A0A0A) c in
  let c := fill_rect (l.(x) + l.(line_num_width)) (l.(y) + 30) 2 (l.(height) - 30) LINE_NUM_COLOR c in
  let c := fill_rect l.(text_start_x) l.(text_start_y) (l.(width) - l.(line_num_width) - 20) (l.(visible_lines) * l.(char_height) + 5) EDITOR_BG c in
  let c := draw_text (l.(x) + 10) (l.(y) + l.(height) - 20) (Asm.lit "Ctrl+S: Save | Click X to close") LINE_NUM_COLOR EDITOR_BG c in
  let first_line := b.(scroll_offset) in
  let last_line := Z.min (first_line + l.(visible_lines)) b.(line_count) in
  draw_rows (Z.to_nat (last_line - first_line)) first_line ed c.

(** ** The mouse and the event loop *)
Section Run.
Context {D W : Type} `{!PortIO D, !FileApi W}.

Record world := mk_world {
  con : console; codes : ring; ports : D; files : W; internal_cursor_x : Z; internal_cursor_y : Z; mouse_initialized : Z;
  packet : list Z; packet_index : Z; mouse_button_state : Z; input_buffer : list Z; input_pos : Z; input_ready : Z }.
Definition set_con (c : console) (g : world) : world :=
  mk_world c g.(codes) g.(ports) g.(files) g.(internal_cursor_x) g.(internal_cursor_y) g.(mouse_initialized) g.(packet)
    g.(packet_index) g.(mouse_button_state) g.(input_buffer) g.(input_pos) g.(input_ready).
Definition set_codes (r : ring) (g : world) : world :=
  mk_world g.(con) r g.(ports) g.(files) g.(internal_cursor_x) g.(internal_cursor_y) g.(mouse_initialized) g.(packet)
    g.(packet_index) g.(mouse_button_state) g.(input_buffer) g.(input_pos) g.(input_ready).
Definition set_ports (d : D) (g : world) : world :=
  mk_world g.(con) g.(codes) d g.(files) g.(internal_cursor_x) g.(internal_cursor_y) g.(mouse_initialized) g.(packet)
    g.(packet_index) g.(mouse_button_state) g.(input_buffer) g.(input_pos) g.(input_ready).
Definition set_files (w : W) (g : world) : world :=
  mk_world g.(con) g.(codes) g.(ports) w g.(internal_cursor_x) g.(internal_cursor_y) g.(mouse_initialized) g.(packet)
    g.(packet_index) g.(mouse_button_state) g.(input_buffer) g.(input_pos) g.(input_ready).
Definition set_mouse (mx my init : Z) (pk : list Z) (idx button : Z) (g : world) : world :=
  mk_world g.(con) g.(codes) g.(ports) g.(files) mx my init pk idx button g.(input_buffer) g.(input_pos) g.(input_ready).

(** [while ((inb(0x64) & mask) is [on] && timeout--);] *)
Fixpoint wait_status (timeout : nat) (mask : Z) (on : bool) (d : D) : D :=
  let '(v, d) := inb 0x64 d in
  if Bool.eqb (c_true (Z.land v mask)) on then match timeout with O => d | S t => wait_status t mask on d end else d.

(** A command to the mouse, and its answer. *)
Definition mouse_command (cmd : Z) (d : D) : D :=
  let n := Z.to_nat 100000 in
  let d := outb 0x64 0xD4 (wait_status n 2 true d) in
  let d := outb 0x60 cmd (wait_status n 2 true d) in
  let d := wait_status n 1 false d in
  let '(v, d) := inb 0x64 d in
  if c_true (Z.land v 1) then snd (inb 0x60 d) else d.

(** The coordinate after a movement: [fb.width] and [fb.height] are unsigned. *)
Definition moved (v size : Z) : Z :=
  let v := if v <? 0 then 0 else v in
  if u32 (size - 16) <=? u32 v then s32 (u32 (size - 16)) else v.

Definition use_packet (g : world) : world :=
  let b1 := get g.(packet) 0 in
  let delta_x := Mouse.delta (get g.(packet) 1) (Z.land b1 0x10) in
  let delta_y := - Mouse.delta (get g.(packet) 2) (Z.land b1 0x20) in
  set_mouse (moved (s32 (g.(internal_cursor_x) + delta_x)) g.(con).(fb).(Console.width))
            (moved (s32 (g.(internal_cursor_y) + delta_y)) g.(con).(fb).(Console.height))
            g.(mouse_initialized) g.(packet) 0 (Z.land b1 1) g.

Definition update_mouse_position_only (g : world) : outcome world :=
  let g := (if g.(mouse_initialized) =? 0 then
              let g := set_ports (mouse_command 0xF4 g.(ports)) g in
              set_mouse (s32 (g.(con).(fb).(Console.width) / 2)) (s32 (g.(con).(fb).(Console.height) / 2)) 1 g.(packet) 0 g.(mouse_button_state) g
            else g) in
  let '(v, d) := inb 0x64 g.(ports) in
  if negb (c_true (Z.land v 1)) then Done (set_ports d g) else
  let '(status, d) := inb 0x64 d in
  let '(data, d) := inb 0x60 d in
  let g := set_ports d g in
  if c_true (Z.land status 0x20) then
    let* pk := aset g.(packet) g.(packet_index) data in
    let g := set_mouse g.(internal_cursor_x) g.(internal_cursor_y) g.(mouse_initialized) pk (u8 (g.(packet_index) + 1)) g.(mouse_button_state) g in
    Done (if g.(packet_index) =? 3 then use_packet g else g)
  else Done (set_codes (ring_put data g.(codes)) g).

(** [timeout = 10000; while (timeout-- > 0 && (inb(0x64) & 1)) inb(0x60);] *)
Fixpoint drain (timeout : nat) (d : D) : D :=
  match timeout with
  | O => d
  | S t => let '(v, d) := inb 0x64 d in if c_true (Z.land v 1) then drain t (snd (inb 0x60 d)) else d
  end.
Definition disable_mouse (d : D) : D := drain (Z.to_nat 10000) (mouse_command 0xF5 d).

(** The buttons of the save prompt. *)
Definition draw_button (bx by' : Z) (label : list Z) (dx color : Z) (c : console) : console :=
  let c := fill_rect bx by' 120 40 color c in
  let c := draw_rect_outline bx by' 120 40 0xFFFFFF 2 c in
  letters (bx + dx) (by' + 16) 8 label 0xFFFFFF color c.
Definition prompt_x (l : layout) : Z := l.(x) + Z.quot (l.(width) - 400) 2.
Definition prompt_y (l : layout) : Z := l.(y) + Z.quot (l.(height) - 200) 2.
Definition on_yes (mx my : Z) (l : layout) : bool := hits mx my (prompt_x l + 50) (prompt_y l + 120) 120 40.
Definition on_no (mx my : Z) (l : layout) : bool := hits mx my (prompt_x l + 230) (prompt_y l + 120) 120 40.

(** The loop of the prompt: 1 for yes, 0 for no; [fuel] rounds. *)
Fixpoint prompt_rounds (fuel : nat) (last_button : Z) (ed : editor_state_t) (g : world) : outcome (Z * editor_state_t * world) :=
  match fuel with
  | O => OutOfFuel
  | S fuel =>
    let* g := update_mouse_position_only g in
    let mx := g.(internal_cursor_x) in let my := g.(internal_cursor_y) in
    let button := g.(mouse_button_state) in
    let l := ed.(lay) in
    let '(ed, g) :=
      (if negb (mx =? ed.(last_mx)) || negb (my =? ed.(last_my)) then
         let c := draw_button (prompt_x l + 50) (prompt_y l + 120) (Asm.lit "YES") 42 (if on_yes mx my l then 0x34D399 else 0x10B981) g.(con) in
         let c := draw_button (prompt_x l + 230) (prompt_y l + 120) (Asm.lit "NO") 50 (if on_no mx my l then 0xF87171 else 0xDC2626) c in
         let '(ed, c) := restore_area ed c in
         let '(ed, c) := put_arrow mx my ed c in
         (set_last mx my ed, set_con c g)
       else (ed, g)) in
    if c_true button && (last_button =? 0) && on_yes mx my l then Done (1, ed, g)
    else if c_true button && (last_button =? 0) && on_no mx my l then Done (0, ed, g)
    else prompt_rounds fuel button ed g
  end.

Definition editor_show_save_prompt (fuel : nat) (ed : editor_state_t) (g : world) : outcome (Z * editor_state_t * world) :=
  let l := ed.(lay) in
  let c := fill_rect (prompt_x l) (prompt_y l) 400 200 PROMPT_BG g.(con) in
  let c := draw_rect_outline (prompt_x l) (prompt_y l) 400 200 PROMPT_BORDER 3 c in
  let c := letters (prompt_x l + 130) (prompt_y l + 60) 8 (Asm.lit "SAVE CHANGES?") YELLOW PROMPT_BG c in
  let c := draw_button (prompt_x l + 50) (prompt_y l + 120) (Asm.lit "YES") 42 0x10B981 c in
  let c := draw_button (prompt_x l + 230) (prompt_y l + 120) (Asm.lit "NO") 50 0xDC2626 c in
  let* (result, ed', g) := prompt_rounds fuel 0 ed (set_con c g) in
  Done (result, set_last ed.(last_mx) ed.(last_my) ed', g).

(** The keys held and the loop's flags. *)
Record held := mk_held { ctrl_held : bool; shift_held : bool; had_input : bool }.

(** One scancode from the ring. *)
Definition run_code (kmalloc : bool) (scancode : Z) (ed : editor_state_t) (h : held) (g : world) : outcome (editor_state_t * held * world) :=
  if scancode =? 0xE0 then Done (ed, h, g) else
  let is_release := c_true (Z.land scancode 0x80) in
  let key := Z.land scancode 0x7F in
  if (key =? 0x2A) || (key =? 0x36) then Done (ed, mk_held h.(ctrl_held) (negb is_release) h.(had_input), g)
  else if key =? 0x1D then Done (ed, mk_held (negb is_release) h.(shift_held) h.(had_input), g)
  else if is_release then Done (ed, h, g)
  else if (key =? 0x1F) && h.(ctrl_held) then
    let* (r, ed, w, c) := editor_save_file kmalloc ed g.(files) g.(con) in
    let g := set_con c (set_files w g) in
    if r =? 0 then
      let mx := g.(internal_cursor_x) in let my := g.(internal_cursor_y) in
      let '(ed, c) := restore_area ed g.(con) in
      let* c := editor_draw mx my ed c in
      let l := ed.(lay) in
      let c := draw_text (l.(x) + l.(width) - 150) (l.(y) + l.(height) - 20) (Asm.lit "Saved!") 0x00FF00 EDITOR_BG c in
      let '(ed, c) := put_arrow mx my ed c in
      Done (set_redraw 1 ed, h, set_con c g)
    else Done (ed, h, g)
  else
    let* ed := editor_handle_key scancode (if h.(shift_held) then 1 else 0) ed in
    Done (ed, mk_held h.(ctrl_held) h.(shift_held) true, g).

Fixpoint run_codes (fuel : nat) (kmalloc : bool) (ed : editor_state_t) (h : held) (g : world) : outcome (editor_state_t * held * world) :=
  match fuel with
  | O => OutOfFuel
  | S fuel =>
    if ring_empty g.(codes) then Done (ed, h, g) else
    let '(scancode, r) := ring_get g.(codes) in
    let* (ed, h, g) := run_code kmalloc scancode ed h (set_codes r g) in
    run_codes fuel kmalloc ed h g
  end.

(** Taking the arrow along with the mouse. *)
Definition follow_mouse (mx my : Z) (ed : editor_state_t) (g : world) : editor_state_t * world :=
  if negb (mx =? ed.(last_mx)) || negb (my =? ed.(last_my)) then
    let '(ed, c) := restore_area ed g.(con) in
    let ed := if Bool.eqb (on_close ed.(last_mx) ed.(last_my) ed.(lay)) (on_close mx my ed.(lay)) then ed else set_redraw 1 ed in
    let '(ed, c) := put_arrow mx my ed c in
    (set_last mx my ed, set_con c g)
  else (ed, g).

(** One round of the loop, after the interrupts that brought [arrived];
    [false] when the editor is closed. *)
Definition run_round (fuel : nat) (kmalloc : bool) (arrived : list Z) (last_mouse_button : Z) (ed : editor_state_t) (h : held) (g : world)
  : outcome (bool * Z * editor_state_t * held * world) :=
  let g := set_codes (foldl (fun r x => ring_put x r) g.(codes) arrived) g in
  let* g := update_mouse_position_only g in
  let mx := g.(internal_cursor_x) in let my := g.(internal_cursor_y) in
  let button := g.(mouse_button_state) in
  let '(ed, g) := follow_mouse mx my ed g in
  let* (ed, h, g) := run_codes 257 kmalloc ed (mk_held h.(ctrl_held) h.(shift_held) false) g in
  let ed := if h.(had_input) then set_redraw 1 ed else ed in
  let* (ed, g) :=
    (if ed.(needs_full_redraw) =? 0 then Done (ed, g) else
     let '(ed, c) := restore_area ed g.(con) in
     let* c := editor_draw mx my ed c in
     let '(ed, c) := put_arrow mx my ed c in
     Done (set_redraw 0 ed, set_con c g)) in
  if c_true button && (last_mouse_button =? 0) && on_close mx my ed.(lay) then
    let* (ed, g) :=
      (if ed.(buf).(modified) =? 0 then Done (ed, g) else
       let '(ed, c) := restore_area ed g.(con) in
       let* (should_save, ed, g) := editor_show_save_prompt fuel ed (set_con c g) in
       if should_save =? 0 then Done (ed, g) else
       let* (_, ed, w, c) := editor_save_file kmalloc ed g.(files) g.(con) in Done (ed, set_con c (set_files w g))) in
    Done (false, button, ed, h, g)
  else Done (true, button, ed, h, g).

Fixpoint run_rounds (fuel : nat) (kmalloc : bool) (arrivals : list (list Z)) (last_mouse_button : Z) (ed : editor_state_t) (h : held) (g : world)
  : outcome (editor_state_t * world) :=
  match arrivals with
  | [] => OutOfFuel
  | arrived :: arrivals =>
    let* (running, button, ed, h, g) := run_round fuel kmalloc arrived last_mouse_button ed h g in
    if running then run_rounds fuel kmalloc arrivals button ed h g else Done (ed, g)
  end.

(** [mem] is the memory kmalloc gives to the editor, if any. *)
Definition anthropic_editor (fuel : nat) (mem : option editor_state_t) (kmalloc : bool) (filename : list Z) (arrivals : list (list Z)) (g : world)
  : outcome world :=
  match mem with
  | None => let* c := PRINT YELLOW BLACK (line "Out of memory") [] g.(con) in Done (set_con c g)
  | Some ed =>
    let* ed := editor_init g.(con).(fb).(Console.width) g.(con).(fb).(Console.height) filename ed in
    let* (_, ed, w) := editor_load_file ed g.(files) in
    let g := set_con (ClearScreen BLACK g.(con)) (set_files w g) in
    let mx := g.(internal_cursor_x) in let my := g.(internal_cursor_y) in
    let* c := editor_draw mx my ed g.(con) in
    let '(ed, c) := put_arrow mx my ed c in
    let* (ed, g) := run_rounds fuel kmalloc arrivals 0 (set_last mx my ed) (mk_held false false false) (set_con c g) in
    let '(_, c) := restore_area ed g.(con) in
    let c := SetCursorPos 0 0 (ClearScreen BLACK c) in
    let* ib := aset g.(input_buffer) 0 0 in
    Done (mk_world c (mk_ring (replicate 256 0) 0 0) (disable_mouse g.(ports)) g.(files) g.(internal_cursor_x) g.(internal_cursor_y) 0
            g.(packet) g.(packet_index) 0 ib 0 0)
  end.
End Run.
Arguments world : clear implicits.
End Anthropic.
