(* ===== verification/AnthropicProps.v ===== *)
(** * The full-screen editor edits a text, and shows the cursor

    Every key refines an operation on the document the buffer shows, stays
    inside the buffer and keeps the line of the cursor on the screen. *)
From Stdlib Require Import ZArith Lia.
From stdpp Require Import base numbers list gmap.
From S2P Require Import Prelude CStr StrBuf VfsTypes Console Serial Keyboard Paint Desk TextEditor EditorDoc Anthropic.

Module AnthropicProps.
Import StrBuf Files TextEditor EditorDoc Anthropic.
Local Open Scope Z_scope.
Local Open Scope outcome_scope.

Abbreviation rows := (Forall2 (holds 80)).
Abbreviation shows := (shows_in 250 80).

(** ** What the keys do *)
Inductive key_effect (sh : Z) : Z -> doc -> doc -> Prop :=
  | ke_char k d : key_char k sh <> 0 -> (length (left d ++ right d) < 79)%nat ->
      key_effect sh k d (mk_doc (above d) (left d ++ [key_char k sh]) (right d) (below d))
  | ke_line_full k d : key_char k sh <> 0 -> (79 <= length (left d ++ right d))%nat -> key_effect sh k d d
  | ke_enter d : (length (doc_lines d) < 250)%nat -> key_effect sh 0x1C d (mk_doc (above d ++ [left d]) [] (right d) (below d))
  | ke_enter_full d : (250 <= length (doc_lines d))%nat -> key_effect sh 0x1C d d
  | ke_delete a l c r b : key_effect sh 0x0E (mk_doc a (l ++ [c]) r b) (mk_doc a l r b)
  | ke_join a p r b : (length p + length r < 79)%nat -> key_effect sh 0x0E (mk_doc (a ++ [p]) [] r b) (mk_doc a p r b)
  | ke_join_full a p r b : (79 <= length p + length r)%nat -> key_effect sh 0x0E (mk_doc (a ++ [p]) [] r b) (mk_doc (a ++ [p]) [] r b)
  | ke_at_start r b : key_effect sh 0x0E (mk_doc [] [] r b) (mk_doc [] [] r b)
  | ke_up a p l r b : key_effect sh 0x48 (mk_doc (a ++ [p]) l r b) (cut (length l) p a ((l ++ r) :: b))
  | ke_up_first l r b : key_effect sh 0x48 (mk_doc [] l r b) (mk_doc [] l r b)
  | ke_down a l r q b : key_effect sh 0x50 (mk_doc a l r (q :: b)) (cut (length l) q (a ++ [l ++ r]) b)
  | ke_down_last a l r : key_effect sh 0x50 (mk_doc a l r []) (mk_doc a l r [])
  | ke_left a l c r b : key_effect sh 0x4B (mk_doc a (l ++ [c]) r b) (mk_doc a l (c :: r) b)
  | ke_left_wrap a p r b : key_effect sh 0x4B (mk_doc (a ++ [p]) [] r b) (mk_doc a p [] (r :: b))
  | ke_left_start r b : key_effect sh 0x4B (mk_doc [] [] r b) (mk_doc [] [] r b)
  | ke_right a l c r b : key_effect sh 0x4D (mk_doc a l (c :: r) b) (mk_doc a (l ++ [c]) r b)
  | ke_right_wrap a l q b : key_effect sh 0x4D (mk_doc a l [] (q :: b)) (mk_doc (a ++ [l]) [] q b)
  | ke_right_end a l : key_effect sh 0x4D (mk_doc a l [] []) (mk_doc a l [] [])
  | ke_other k d : k ∉ [0x1C; 0x0E; 0x48; 0x50; 0x4B; 0x4D] -> key_char k sh = 0 -> key_effect sh k d d.

Lemma effect_one_edit sh k d d' : key_effect sh k d d' -> one_edit d d'.
Proof.
  intros []; unfold one_edit, cut, before, after; cbn [above left right below]; try (by left).
  - right. left. exists (key_char k0 sh). by rewrite app_assoc.
  - right. left. exists 10. rewrite fmap_app, concat_app. cbn. by rewrite !app_nil_r, <- !app_assoc.
  - right. right. exists c. by rewrite app_assoc.
  - right. right. exists 10. rewrite fmap_app, concat_app. cbn. by rewrite !app_nil_r, <- !app_assoc.
  - left. rewrite fmap_app, concat_app. cbn. rewrite app_nil_r, <- !app_assoc. f_equal.
    rewrite (app_assoc (take _ _)), take_drop. done.
  - left. rewrite fmap_app, concat_app. cbn. rewrite app_nil_r, <- !app_assoc. do 3 f_equal. cbn.
    f_equal. by rewrite (app_assoc (take _ _)), take_drop.
  - left. by rewrite <- !app_assoc.
  - left. rewrite fmap_app, concat_app. cbn. rewrite !app_nil_r, <- !app_assoc. done.
  - left. by rewrite <- !app_assoc.
  - left. rewrite fmap_app, concat_app. cbn. rewrite !app_nil_r, <- !app_assoc. done.
Qed.

(** The line of the cursor is on the screen. *)
Definition visible (vis : Z) (b : editor_buffer_t) : Prop := 0 <= b.(scroll_offset) <= b.(cursor_line) /\ b.(cursor_line) < b.(scroll_offset) + vis.

Lemma scroll_up_visible vis line s : 0 <= s <= line + 1 -> line + 1 < s + vis -> 0 <= line -> 0 < vis ->
  0 <= scroll_up line s <= line /\ line < scroll_up line s + vis.
Proof. intros. unfold scroll_up. destruct (Z.ltb_spec line s); lia. Qed.
Lemma scroll_down_visible vis line s : 0 <= s <= line - 1 -> line - 1 < s + vis -> 0 < vis ->
  0 <= scroll_down vis line s <= line /\ line < scroll_down vis line s + vis.
Proof. intros. unfold scroll_down. destruct (Z.leb_spec (s + vis) line); lia. Qed.

(** What a key on the buffer does, for one case of the document. *)
Definition does (vis sh k : Z) (f : editor_buffer_t -> outcome editor_buffer_t) (b : editor_buffer_t) (d d' : doc) : Prop :=
  exists b', f b = Done b' /\ b'.(filepath) = b.(filepath) /\ shows b' d' /\ key_effect sh k d d' /\ visible vis b'.

Lemma row_len_shows b d a q t : shows b d -> doc_lines d = a ++ q :: t -> row_len b (Z.of_nat (length a)) = Done (Z.of_nat (length q)).
Proof.
  intros H E. open_doc H. unfold doc_lines in E. unfold row_len.
  destruct (rows_aget (M := 80) (lines b) _ a q (t ++ spare) Hrows) as (r & -> & Hr).
  - rewrite app_comm_cons, app_assoc, E, <- app_assoc. done.
  - cbn [obind]. by rewrite (holds_len _ _ _ Hr).
Qed.

Lemma stays vis sh k f b d : f b = Done b -> shows b d -> key_effect sh k d d -> visible vis b -> does vis sh k f b d d.
Proof. intros. by exists b. Qed.

(** Moving the cursor in the document. *)
Lemma moves vis sh k f b a l r be line col s d' : shows b (mk_doc a l r be) -> f b = Done (set_position b line col s) ->
  (forall spare, a ++ (l ++ r) :: be ++ spare = above d' ++ (left d' ++ right d') :: below d' ++ spare) ->
  line = Z.of_nat (length (above d')) -> col = Z.of_nat (length (left d')) -> 0 <= s <= line /\ line < s + vis ->
  key_effect sh k (mk_doc a l r be) d' -> does vis sh k f b (mk_doc a l r be) d'.
Proof. intros H E Ed Hl Hc Hv Hk. eexists. split; [exact E|]. split; [done|]. split; [by eapply shows_position|]. split; [exact Hk|exact Hv]. Qed.

Lemma clamp_col (l q : list Z) : (if Z.of_nat (length q) <? Z.of_nat (length l) then Z.of_nat (length q) else Z.of_nat (length l)) = Z.of_nat (length (take (length l) q)).
Proof. rewrite length_take. destruct (Z.ltb_spec (Z.of_nat (length q)) (Z.of_nat (length l))); lia. Qed.

Lemma up_does vis sh b d : shows b d -> visible vis b -> exists d', does vis sh 0x48 key_up b d d'.
Proof.
  intros H [Hv1 Hv2]. destruct d as [a l r be]. pose proof (sh_line _ _ H) as Hl. pose proof (sh_col _ _ H) as Hc. cbn [above left] in *.
  destruct a as [|p a _] using rev_ind.
  - eexists. apply stays; [unfold key_up; by rewrite Hl|done|apply ke_up_first|done].
  - rewrite length_snoc_Z in Hl. rewrite Hl in Hv1, Hv2. eexists. eapply moves; [exact H| | | | | |apply ke_up].
    + unfold key_up. rewrite Hl, Hc, (proj2 (Z.ltb_lt _ _)), Z.add_simpl_r by lia.
      rewrite (row_len_shows _ _ a p ((l ++ r) :: be) H) by (unfold doc_lines; cbn; by rewrite <- app_assoc). cbn [obind]. by rewrite clamp_col.
    + intros spare. unfold cut. cbn [above left right below]. by rewrite take_drop, <- app_assoc.
    + done.
    + done.
    + apply scroll_up_visible; lia.
Qed.

Lemma down_does vis sh b d : shows b d -> visible vis b -> exists d', does vis sh 0x50 (key_down vis) b d d'.
Proof.
  intros H [Hv1 Hv2]. destruct d as [a l r be]. pose proof (sh_line _ _ H) as Hl. pose proof (sh_col _ _ H) as Hc. pose proof (sh_count _ _ H) as Hn.
  rewrite length_doc_lines in Hn. cbn [above left below] in *. rewrite Hl in Hv1, Hv2. destruct be as [|q be]; cbn [length] in Hn.
  - eexists. apply stays; [unfold key_down; rewrite Hl, Hn; by rewrite (proj2 (Z.ltb_ge _ _)) by lia|done|apply ke_down_last|split; lia].
  - eexists. eapply moves; [exact H| | | | | |apply ke_down].
    + unfold key_down. rewrite Hl, Hc, Hn, (proj2 (Z.ltb_lt _ _)), <- (length_snoc_Z a (l ++ r)) by lia.
      rewrite (row_len_shows _ _ (a ++ [l ++ r]) q be H) by (unfold doc_lines; cbn; by rewrite <- app_assoc). cbn [obind]. by rewrite clamp_col.
    + intros spare. unfold cut. cbn [above left right below]. by rewrite take_drop, <- app_assoc.
    + done.
    + done.
    + apply scroll_down_visible; rewrite ?length_snoc_Z; lia.
Qed.

Lemma left_does vis sh b d : shows b d -> visible vis b -> exists d', does vis sh 0x4B key_left b d d'.
Proof.
  intros H [Hv1 Hv2]. destruct d as [a l r be]. pose proof (sh_line _ _ H) as Hl. pose proof (sh_col _ _ H) as Hc. cbn [above left] in *.
  destruct l as [|c l _] using rev_ind; [destruct a as [|p a _] using rev_ind|].
  - eexists. apply stays; [unfold key_left; by rewrite Hl, Hc|done|apply ke_left_start|done].
  - rewrite length_snoc_Z in Hl. rewrite Hl in Hv1, Hv2. eexists. eapply moves; [exact H| | | | | |apply ke_left_wrap].
    + unfold key_left. rewrite Hl, Hc. change (0 <? Z.of_nat (length (@nil Z))) with false. rewrite (proj2 (Z.ltb_lt _ _)), Z.add_simpl_r by lia.
      rewrite (row_len_shows _ _ a p (r :: be) H) by (unfold doc_lines; cbn; by rewrite <- app_assoc). reflexivity.
    + intros spare. cbn [above left right below]. by rewrite app_nil_r, <- app_assoc.
    + done.
    + done.
    + apply scroll_up_visible; lia.
  - rewrite length_snoc_Z in Hc. eexists. eapply moves; [exact H| | | | | |apply ke_left].
    + unfold key_left. rewrite Hl, Hc, (proj2 (Z.ltb_lt _ _)), Z.add_simpl_r by lia. reflexivity.
    + intros spare. cbn [above left right below]. by rewrite <- app_assoc.
    + done.
    + done.
    + lia.
Qed.

Lemma right_does vis sh b d : shows b d -> visible vis b -> exists d', does vis sh 0x4D (key_right vis) b d d'.
Proof.
  intros H [Hv1 Hv2]. destruct d as [a l r be]. pose proof (sh_line _ _ H) as Hl. pose proof (sh_col _ _ H) as Hc. pose proof (sh_count _ _ H) as Hn.
  rewrite length_doc_lines in Hn. cbn [above left below] in *. rewrite Hl in Hv1, Hv2.
  assert (Er : row_len b (Z.of_nat (length a)) = Done (Z.of_nat (length (l ++ r)))) by (by eapply row_len_shows).
  destruct r as [|c r]; [destruct be as [|q be]; cbn [length] in Hn|].
  - rewrite app_nil_r in Er. eexists. apply stays; [|done|apply ke_right_end|split; lia].
    unfold key_right. rewrite Hl, Er. cbn [obind]. rewrite Hc, Hn, !(proj2 (Z.ltb_ge _ _)) by lia. done.
  - rewrite app_nil_r in Er. eexists. eapply moves; [exact H| | | | | |apply ke_right_wrap].
    + unfold key_right. rewrite Hl, Er. cbn [obind]. rewrite Hc, Hn, (proj2 (Z.ltb_ge _ _)), (proj2 (Z.ltb_lt _ _)), <- (length_snoc_Z a l) by lia. reflexivity.
    + intros spare. cbn [above left right below]. by rewrite app_nil_r, <- app_assoc.
    + done.
    + done.
    + apply scroll_down_visible; rewrite ?length_snoc_Z; lia.
  - eexists. eapply moves; [exact H| | | | | |apply ke_right].
    + unfold key_right. rewrite Hl, Er. cbn [obind]. rewrite Hc, (proj2 (Z.ltb_lt _ _)) by (rewrite length_app; cbn; lia). reflexivity.
    + intros spare. cbn [above left right below]. by rewrite <- app_assoc.
    + done.
    + cbn [left]. by rewrite length_snoc_Z.
    + lia.
Qed.

(** ** Backspace *)
Lemma delete_does vis sh b a l c r be : shows b (mk_doc a (l ++ [c]) r be) -> visible vis b ->
  does vis sh 0x0E key_backspace b (mk_doc a (l ++ [c]) r be) (mk_doc a l r be).
Proof.
  intros H Hv. destruct (cursor_row _ _ H) as (row & Erow & Hrow). pose proof (sh_col _ _ H) as Hcol. cbn [left right] in *. rewrite length_snoc_Z in Hcol.
  destruct (delete_holds row ((l ++ [c]) ++ r) (length (l ++ [c])) Hrow) as (r' & Er & Hr'); [rewrite !length_app; cbn; lia|].
  rewrite drop_app_length in Hr'. replace (take (length (l ++ [c]) - 1) ((l ++ [c]) ++ r)) with l in Hr'.
  2: { rewrite length_app. cbn [length]. rewrite Nat.add_sub, <- app_assoc, take_app_length. done. }
  destruct (cursor_row_set b _ r' l r H Hr') as (ls & Els & Hls). eexists. split; [|split; [|split; [apply Hls|split; [apply ke_delete|exact Hv]]]].
  - unfold key_backspace. rewrite Hcol, (proj2 (Z.ltb_lt _ _)) by lia. rewrite Erow. cbn [obind]. rewrite (holds_len _ _ _ Hrow). cbn [obind].
    rewrite <- (length_snoc_Z l c), Er. cbn [obind]. rewrite Els. reflexivity.
  - done.
  - rewrite length_snoc_Z. lia.
Qed.

(** The rows of the cursor's line and of the one before it. *)
Lemma join_rows b a p r be : shows b (mk_doc (a ++ [p]) [] r be) -> exists spare rp rr,
  rows b.(lines) (a ++ p :: r :: be ++ spare) /\
  aget b.(lines) (Z.of_nat (length a)) = Done rp /\ holds 80 rp p /\ aget b.(lines) (Z.of_nat (length a) + 1) = Done rr /\ holds 80 rr r.
Proof.
  intros H. open_doc H. rewrite <- app_assoc in Hrows. cbn [app] in Hrows.
  destruct (rows_aget _ _ _ _ _ Hrows eq_refl) as (rp & Ep & Hp).
  destruct (rows_aget _ _ (a ++ [p]) r (be ++ spare) Hrows) as (rr & Er & Hr); [by rewrite <- app_assoc|]. rewrite length_snoc_Z in Er. eauto 10.
Qed.

Lemma join_does vis sh b a p r be : shows b (mk_doc (a ++ [p]) [] r be) -> visible vis b -> (length p + length r < 79)%nat ->
  does vis sh 0x0E key_backspace b (mk_doc (a ++ [p]) [] r be) (mk_doc a p r be).
Proof.
  intros H [Hv1 Hv2] Hfit. destruct (join_rows b a p r be H) as (spare & rp & rr & Hrows & Ep & Hp & Er & Hr).
  pose proof (sh_line _ _ H) as Hline. pose proof (sh_col _ _ H) as Hcol. pose proof (sh_count _ _ H) as Hn. rewrite length_doc_lines in Hn.
  cbn [above left right below] in *. rewrite length_snoc_Z in Hline. rewrite Hline in Hv1, Hv2. rewrite length_app in Hn. cbn [length] in Hn.
  destruct (strcat_holds 80 80 rp rr p r Hp Hr) as (j & Ej & Hj); [lia|].
  destruct (rows_aset _ _ _ _ _ _ Hrows Hj) as (l1 & El1 & Hl1).
  replace (a ++ (p ++ r) :: r :: be ++ spare) with ((a ++ [p ++ r]) ++ r :: be ++ spare) in Hl1 by (by rewrite <- app_assoc).
  destruct (rows_up_spec be _ _ _ _ Hl1) as (l2 & E2 & Hl2). rewrite length_snoc_Z in E2.
  eexists. split; [|split; [|split; [eapply (shows_intro b (mk_doc (a ++ [p]) [] r be) spare) with (spare' := default r (last be) :: spare)|
                     split; [apply ke_join; lia|]]]].
  - unfold key_backspace. rewrite Hcol, Hline. change (0 <? Z.of_nat (length (@nil Z))) with false. rewrite (proj2 (Z.ltb_lt _ _)), Z.add_simpl_r by lia.
    rewrite Ep. cbn [obind]. rewrite (holds_len _ _ _ Hp). cbn [obind]. rewrite Er. cbn [obind]. rewrite (holds_len _ _ _ Hr). cbn [obind].
    unfold MAX_LINE_LENGTH. rewrite (proj2 (Z.ltb_lt _ _)) by lia. rewrite Ej. cbn [obind]. rewrite El1. cbn [obind].
    replace (Z.to_nat (line_count b - 1 - (Z.of_nat (length a) + 1))) with (length be) by lia. rewrite E2. reflexivity.
  - done.
  - apply H.
  - cbn [above left right below app]. by rewrite <- app_assoc.
  - cbn [above left right below]. rewrite <- !app_assoc in Hl2. exact Hl2.
  - cbn [above left right below]. repeat (rewrite !length_app; cbn [length]). lia.
  - rewrite length_doc_lines. cbn [above below]. lia.
  - cbn [above]. lia.
  - done.
  - unfold visible. cbn [scroll_offset cursor_line set_text]. apply scroll_up_visible; lia.
Qed.

Lemma backspace_does vis sh b d : shows b d -> visible vis b -> exists d', does vis sh 0x0E key_backspace b d d'.
Proof.
  intros H Hv. destruct d as [a l r be]. destruct l as [|c l _] using rev_ind; [|eexists; by apply delete_does].
  pose proof (sh_line _ _ H) as Hl. pose proof (sh_col _ _ H) as Hc. cbn [above left] in *.
  destruct a as [|p a _] using rev_ind; [eexists; apply stays; [unfold key_backspace; by rewrite Hl, Hc|done|apply ke_at_start|done]|].
  destruct (decide (length p + length r < 79)%nat); [eexists; by apply join_does|].
  eexists. apply stays; [|done|apply ke_join_full; lia|done]. destruct (join_rows b a p r be H) as (spare & rp & rr & Hrows & Ep & Hp & Er & Hr).
  rewrite length_snoc_Z in Hl. unfold key_backspace. rewrite Hc, Hl. change (0 <? Z.of_nat (length (@nil Z))) with false. rewrite (proj2 (Z.ltb_lt _ _)), Z.add_simpl_r by lia.
  rewrite Ep. cbn [obind]. rewrite (holds_len _ _ _ Hp). cbn [obind]. rewrite Er. cbn [obind]. rewrite (holds_len _ _ _ Hr). cbn [obind].
  unfold MAX_LINE_LENGTH. by rewrite (proj2 (Z.ltb_ge _ _)) by lia.
Qed.

(** ** Enter *)

(** A free row below the line of the cursor. *)
Lemma make_room b a s be x t : rows b (a ++ s :: be ++ x :: t) -> exists l y,
  rows_down (length be) (Z.of_nat (length a + 1 + length be)) b = Done l /\ rows l (a ++ s :: y :: be ++ t).
Proof.
  intros H. destruct be as [|q be]; [exists b, x; by split|].
  destruct (rows_down_spec (M := 80) (q :: be) (a ++ [s]) x t b) as (l & E & Hl); [cbn; lia|by rewrite <- app_assoc|].
  exists l, q. rewrite length_app in E. split; [exact E|]. rewrite <- app_assoc in Hl. exact Hl.
Qed.

(** The two rows after the split. *)
Lemma split_rows l a l0 r y t : rows l (a ++ (l0 ++ r) :: y :: t) -> exists row below l',
  aget l (Z.of_nat (length a)) = Done row /\ STRLEN row = Done (Z.of_nat (length (l0 ++ r))) /\ aget l (Z.of_nat (length a) + 1) = Done below /\
  (if Z.of_nat (length l0) <? Z.of_nat (length (l0 ++ r)) then
     let* below := STRCPY below (drop (Z.to_nat (Z.of_nat (length l0))) row) in
     let* l := aset l (Z.of_nat (length a) + 1) below in
     let* row := aset row (Z.of_nat (length l0)) 0 in
     aset l (Z.of_nat (length a)) row
   else let* below := aset below 0 0 in aset l (Z.of_nat (length a) + 1) below) = Done l' /\
  rows l' (a ++ l0 :: r :: t).
Proof.
  intros H. destruct (rows_aget _ _ _ _ _ H eq_refl) as (row & Er & Hrow).
  assert (H' : rows l ((a ++ [l0 ++ r]) ++ y :: t)) by (by rewrite <- app_assoc).
  destruct (rows_aget _ _ _ _ _ H' eq_refl) as (below & Eb & Hb). rewrite length_snoc_Z in Eb.
  pose proof (holds_short _ _ _ Hrow) as Hs. rewrite length_app in Hs. pose proof (holds_short _ _ _ Hb) as Hs'.
  exists row, below. destruct (Z.ltb_spec (Z.of_nat (length l0)) (Z.of_nat (length (l0 ++ r)))) as [Hlt|Hge]; rewrite length_app in *.
  - assert (Hd : holds (80 - length l0) (drop (length l0) row) r).
    { destruct Hrow as (Hl & Ht & rest & ->). split; [rewrite length_drop; lia|]. split; [by apply Forall_app in Ht as [_ Ht]|].
      exists rest. by rewrite <- app_assoc, drop_app_length. }
    destruct (strcpy_holds 80 _ below _ y r Hb Hd) as (b' & Ec & Hb'); [lia|].
    destruct (rows_aset _ _ _ _ _ _ H' Hb') as (l1 & E1 & H1). rewrite length_snoc_Z in E1. rewrite <- app_assoc in H1. cbn [app] in H1.
    pose proof (cut_holds 80 row (l0 ++ r) (length l0) Hrow ltac:(rewrite length_app; lia)) as Hcut. rewrite take_app_length in Hcut.
    destruct (rows_aset _ _ _ _ _ _ H1 Hcut) as (l2 & E2 & H2). exists l2. split; [done|].
    split; [rewrite (holds_len _ _ _ Hrow); by rewrite length_app|]. split; [done|]. split; [|done].
    rewrite Nat2Z.id, Ec. cbn [obind]. rewrite E1. cbn [obind]. rewrite aset_done by (destruct Hrow as [-> _]; lia). cbn [obind]. by rewrite Nat2Z.id.
  - assert (r = []) as -> by (apply nil_length_inv; lia). rewrite app_nil_r in *.
    pose proof (empty_holds 80 below ltac:(by destruct Hb) ltac:(lia)) as Hb'. destruct (rows_aset _ _ _ _ _ _ H' Hb') as (l1 & E1 & H1).
    rewrite length_snoc_Z in E1. exists l1. split; [done|]. split; [rewrite (holds_len _ _ _ Hrow); f_equal; cbn; lia|]. split; [done|].
    split; [|by rewrite <- app_assoc in H1]. rewrite (aset_done below) by (destruct Hb as [-> _]; lia). exact E1.
Qed.

Lemma enter_does vis sh b d : shows b d -> visible vis b -> exists d', does vis sh 0x1C (key_enter vis) b d d'.
Proof.
  intros H [Hv1 Hv2]. destruct d as [a l r be]. pose proof (sh_line _ _ H) as Hl. pose proof (sh_col _ _ H) as Hc. pose proof (sh_count _ _ H) as Hn.
  destruct (decide (length (doc_lines (mk_doc a l r be)) < 250)%nat) as [Hlt|Hge].
  2: { eexists. apply stays; [|done|by apply ke_enter_full; lia|done]. unfold key_enter, MAX_LINES. by rewrite Hn, (proj2 (Z.ltb_ge _ _)) by lia. }
  rewrite length_doc_lines in *. cbn [above left below] in *. rewrite Hl in Hv1, Hv2. open_doc H.
  assert (exists x t, spare = x :: t) as (x & t & ->).
  { destruct spare as [|x t]; [|by exists x, t]. apply Forall2_length in Hrows. rewrite Hsize, !length_app in Hrows.
    cbn in Hrows. rewrite length_app in Hrows. cbn in Hrows. lia. }
  destruct (make_room _ _ _ _ _ _ Hrows) as (l1 & y & E1 & H1). destruct (split_rows _ _ _ _ _ _ H1) as (row & bel & l2 & Er & Es & Eb & E2 & H2).
  exists (mk_doc (a ++ [l]) [] r be). eexists. split; [|split; [|split; [eapply (shows_intro b (mk_doc a l r be) (x :: t)) with (spare' := t)|split; [apply (ke_enter sh (mk_doc a l r be)); by rewrite length_doc_lines|]]]].
  - unfold key_enter, MAX_LINES. rewrite (proj2 (Z.ltb_lt _ _)) by lia. rewrite Hline, Hcol.
    replace (Z.to_nat (line_count b - (Z.of_nat (length a) + 1))) with (length be) by lia. rewrite Hn, E1. cbn [obind]. rewrite Er. cbn [obind].
    rewrite Es. cbn [obind]. rewrite Eb. cbn [obind]. rewrite E2. reflexivity.
  - done.
  - done.
  - exact Hrows.
  - cbn [above left right below app]. by rewrite <- app_assoc.
  - cbn [above left right below]. repeat (rewrite !length_app; cbn [length]). lia.
  - rewrite length_doc_lines. cbn [above below]. rewrite length_app. cbn. lia.
  - cbn [above]. by rewrite length_snoc_Z.
  - done.
  - unfold visible. cbn [scroll_offset cursor_line set_text]. apply scroll_down_visible; lia.
Qed.

(** ** Characters *)
Lemma insert_row r s ch k : holds 80 r s -> (k <= length s)%nat -> (length s < 79)%nat -> ch <> 0 ->
  exists r1 r2 r3, open_gap (Z.to_nat (Z.of_nat (length s) - Z.of_nat k)) (Z.of_nat (length s) - 1) r = Done r1 /\
    aset r1 (Z.of_nat k) ch = Done r2 /\ aset r2 (Z.of_nat (length s) + 1) 0 = Done r3 /\ holds 80 r3 (take k s ++ ch :: drop k s).
Proof.
  intros (Hl & Ht & rest & ->) Hk Hs Hch. rewrite length_app in Hl. cbn in Hl. destruct rest as [|z rest]; [cbn in Hl; lia|].
  assert (Hg : exists y, open_gap (Z.to_nat (Z.of_nat (length s) - Z.of_nat k)) (Z.of_nat (length s) - 1) (s ++ 0 :: z :: rest) =
    Done (take k s ++ y :: drop k s ++ z :: rest)).
  { replace (Z.to_nat _) with (length (drop k s)) by (rewrite length_drop; lia). destruct (drop k s) as [|y u] eqn:Ed.
    - assert (length s = k) by (apply (f_equal length) in Ed; rewrite length_drop in Ed; cbn in Ed; lia). exists 0. by rewrite take_ge by lia.
    - exists y. pose proof (open_gap_spec (y :: u) (take k s) 0 (z :: rest) ltac:(cbn; lia)) as G.
      rewrite <- Ed in G at 1 2 3. rewrite length_take, length_drop, Nat.min_l, app_assoc, take_drop in G by lia. cbn [take app] in G. rewrite take_0 in G.
      replace (Z.of_nat (k + (length s - k)) - 1) with (Z.of_nat (length s) - 1) in G by lia. rewrite <- Ed at 1. rewrite length_drop. exact G. }
  destruct Hg as (y & Hg). pose proof (aset_mid (take k s) y (drop k s ++ z :: rest) ch) as A1. rewrite length_take, Nat.min_l in A1 by lia.
  pose proof (aset_mid (take k s ++ ch :: drop k s) z rest 0) as A2. rewrite length_app, length_take, Nat.min_l in A2 by lia. cbn [length] in A2.
  rewrite length_drop in A2. rewrite <- app_assoc in A2. cbn [app] in A2. replace (Z.of_nat (k + S (length s - k))) with (Z.of_nat (length s) + 1) in A2 by lia.
  eexists _, _, _. split; [exact Hg|]. split; [exact A1|]. split; [exact A2|]. split; [|split].
  - repeat (rewrite ?length_app, ?length_take, ?length_drop; cbn [length]). cbn [length] in Hl. lia.
  - apply Forall_app. split; [by apply Forall_take|]. constructor; [done|by apply Forall_drop].
  - exists rest. done.
Qed.

Lemma char_row b d ch : shows b d -> ch <> 0 -> (length (left d ++ right d) < 79)%nat -> exists row r1 r2 r3 ls,
  aget b.(lines) b.(cursor_line) = Done row /\ STRLEN row = Done (Z.of_nat (length (left d ++ right d))) /\
  open_gap (Z.to_nat (Z.of_nat (length (left d ++ right d)) - b.(cursor_col))) (Z.of_nat (length (left d ++ right d)) - 1) row = Done r1 /\
  aset r1 b.(cursor_col) ch = Done r2 /\ aset r2 (Z.of_nat (length (left d ++ right d)) + 1) 0 = Done r3 /\
  aset b.(lines) b.(cursor_line) r3 = Done ls /\
  forall s, shows (set_text b ls b.(line_count) b.(cursor_line) (b.(cursor_col) + 1) s) (mk_doc (above d) (left d ++ [ch]) (right d) (below d)).
Proof.
  intros H Hch Hlen. destruct (cursor_row _ _ H) as (row & Erow & Hrow). rewrite (sh_col _ _ H).
  destruct (insert_row row _ ch (length (left d)) Hrow) as (r1 & r2 & r3 & E1 & E2 & E3 & H3); [rewrite length_app; lia|done|done|].
  rewrite take_app_length, drop_app_length in H3. replace (left d ++ ch :: right d) with ((left d ++ [ch]) ++ right d) in H3 by (by rewrite <- app_assoc).
  destruct (cursor_row_set b d r3 _ _ H H3) as (ls & Els & Hls). exists row, r1, r2, r3, ls. split_and!; try done.
  - by rewrite (holds_len _ _ _ Hrow).
  - intros s. apply Hls. by rewrite length_snoc_Z.
Qed.

(** A key keeps the editor's state in order. *)
Definition key_done (sh k : Z) (ed : editor_state_t) (d : doc) (ed' : editor_state_t) (d' : doc) : Prop :=
  ed'.(lay) = ed.(lay) /\ ed'.(buf).(filepath) = ed.(buf).(filepath) /\ shows ed'.(buf) d' /\ key_effect sh k d d' /\
  visible ed.(lay).(visible_lines) ed'.(buf).

Lemma char_does sh k ed d : shows ed.(buf) d -> visible ed.(lay).(visible_lines) ed.(buf) -> key_char k sh <> 0 ->
  exists ed' d', insert_char (key_char k sh) ed = Done ed' /\ key_done sh k ed d ed' d'.
Proof.
  intros H Hv Hch. unfold insert_char. destruct (cursor_row _ _ H) as (row & Erow & Hrow). pose proof (sh_col _ _ H) as Hc.
  assert (Hcol : Z.of_nat (length (left d ++ right d)) <? cursor_col (buf ed) = false) by (rewrite Hc, length_app; apply Z.ltb_ge; lia).
  destruct (decide (length (left d ++ right d) < 79)%nat) as [Hlt|Hge].
  - destruct (char_row _ d (key_char k sh) H Hch Hlt) as (row' & r1 & r2 & r3 & ls & E0 & E1 & E2 & E3 & E4 & E5 & Hs).
    rewrite E0. cbn [obind]. rewrite E1. cbn [obind]. rewrite Hcol. unfold MAX_LINE_LENGTH. rewrite (proj2 (Z.ltb_lt _ _)) by lia.
    rewrite E2. cbn [obind]. rewrite E3. cbn [obind]. rewrite E4. cbn [obind]. rewrite E5. cbn [obind].
    eexists _, _. split; [reflexivity|]. split; [done|]. split; [done|]. split; [apply Hs|]. split; [by apply ke_char|exact Hv].
  - rewrite Erow. cbn [obind]. rewrite (holds_len _ _ _ Hrow). cbn [obind]. rewrite Hcol. unfold MAX_LINE_LENGTH. rewrite (proj2 (Z.ltb_ge _ _)) by lia.
    eexists _, _. split; [reflexivity|]. split; [done|]. split; [done|]. split; [|split; [apply ke_line_full; [done|lia]|exact Hv]].
    destruct (buf ed), H. done.
Qed.

Lemma on_buf_does sh k f ed d : (exists d', does ed.(lay).(visible_lines) sh k f ed.(buf) d d') ->
  exists ed' d', on_buf f ed = Done ed' /\ key_done sh k ed d ed' d'.
Proof.
  intros (d' & b' & E & Hf & Hs & Hk & Hv). unfold on_buf. rewrite E. cbn [obind]. exists (set_buf b' ed), d'. done.
Qed.

Lemma handle_key_done sh k ed d : shows ed.(buf) d -> visible ed.(lay).(visible_lines) ed.(buf) ->
  exists ed' d', editor_handle_key k sh ed = Done ed' /\ key_done sh k ed d ed' d'.
Proof.
  intros H Hv. unfold editor_handle_key.
  destruct (Z.eqb_spec k 0x48) as [->|N1]; [apply on_buf_does; by apply up_does|].
  destruct (Z.eqb_spec k 0x50) as [->|N2]; [apply on_buf_does; by apply down_does|].
  destruct (Z.eqb_spec k 0x4B) as [->|N3]; [apply on_buf_does; by apply left_does|].
  destruct (Z.eqb_spec k 0x4D) as [->|N4]; [apply on_buf_does; by apply right_does|].
  destruct (Z.eqb_spec k 0x0E) as [->|N5]; [apply on_buf_does; by apply backspace_does|].
  destruct (Z.eqb_spec k 0x1C) as [->|N6]; [apply on_buf_does; by apply enter_does|].
  destruct (Z.eqb_spec (key_char k sh) 0) as [E|E]; [|by apply char_does].
  exists ed, d. split; [done|]. split; [done|]. split; [done|]. split; [done|]. split; [|done].
  apply ke_other; [|done]. rewrite !not_elem_of_cons, elem_of_nil. tauto.
Qed.

(** C29: keys in the full-screen editor. In any state that shows a document with
    the cursor's line on the screen, every scancode is handled inside the
    buffer of 250 rows of 80 bytes; the buffer then shows the document after
    the key (letters insert unless the line has 79 characters, Enter splits
    unless there are 250 lines, backspace deletes or joins if both lines fit,
    the arrows move, left and right also across the ends of lines), at most one
    character of the text changed, at the cursor, and the line of the cursor
    is on the screen again. *)
Theorem anthropic_key_edits sh k ed d : shows ed.(buf) d -> visible ed.(lay).(visible_lines) ed.(buf) ->
  exists ed' d', editor_handle_key k sh ed = Done ed' /\ ed'.(lay) = ed.(lay) /\ ed'.(buf).(filepath) = ed.(buf).(filepath) /\
    shows ed'.(buf) d' /\ key_effect sh k d d' /\ one_edit d d' /\ visible ed.(lay).(visible_lines) ed'.(buf).
Proof.
  intros H Hv. destruct (handle_key_done sh k ed d H Hv) as (ed' & d' & E & Hl & Hf & Hs & Hk & Hv'). exists ed', d'. split_and!; try done.
  by eapply effect_one_edit.
Qed.

(** ** A new editor *)
Definition raw_state : editor_state_t :=
  mk_state (mk_buf (replicate 250 (replicate 80 7)) 0 0 0 0 (replicate 256 0) 0) (mk_layout 0 0 0 0 0 0 0 0 0 0 0 0 0) 0 0 0 Paint.nothing_saved.
Definition new_state (w h : Z) (name : list Z) : outcome editor_state_t := editor_init w h (name ++ [0]) raw_state.

(** Memory of the editor's size. *)
Definition raw_ok (ed : editor_state_t) : Prop :=
  length ed.(buf).(lines) = 250%nat /\ Forall (fun r => length r = 80%nat) ed.(buf).(lines) /\ length ed.(buf).(filepath) = 256%nat.

Lemma cleared_rows l : Forall (fun r : list Z => length r = 80%nat) l -> rows (clear_lines l) (replicate (length l) []).
Proof. induction 1 as [|r l Hr Hl IH]; cbn; constructor; [|done]. by apply empty_holds; [|lia]. Qed.

Lemma init_shows fw fh name ed : raw_ok ed -> text name -> (length name < 256)%nat -> 58 <= fh < 2 ^ 31 -> exists ed',
  editor_init fw fh (name ++ [0]) ed = Done ed' /\ shows ed'.(buf) (mk_doc [] [] [] []) /\ visible ed'.(lay).(visible_lines) ed'.(buf) /\
  holds 256 ed'.(buf).(filepath) name /\ raw_ok ed'.
Proof.
  intros (Hn & Hr & Hf) Ht Hl Hh. unfold editor_init.
  assert (exists r, STRCPY (filepath (buf ed)) (name ++ [0]) = Done r /\ holds 256 r name) as (r & -> & Hr').
  { unfold STRCPY. rewrite zstring_app by done. cbn [obind]. unfold put. rewrite length_app. cbn [length]. rewrite decide_True by lia.
    eexists. split; [reflexivity|]. cbn [take app Nat.add]. rewrite take_0. cbn [app]. split; [|split; [done|]].
    - rewrite !length_app, length_drop. cbn. lia.
    - exists (drop (length name + 1) (filepath (buf ed))). by rewrite <- app_assoc. }
  cbn [obind]. eexists. split; [reflexivity|]. cbn [buf lay].
  pose proof (cleared_rows _ Hr) as Hc. rewrite Hn in Hc.
  pose proof (Forall2_length _ _ _ Hc) as Hlen. rewrite length_replicate in Hlen. split; [|split; [|split; [done|]]].
  - split; [|exact Hlen|done..].
    exists (replicate 249 []). exact Hc.
  - unfold visible. cbn [scroll_offset cursor_line visible_lines]. rewrite swrap_small by lia. assert (1 <= Z.quot (fh - 50) 8); [|lia].
    rewrite Z.quot_div_nonneg by lia. apply Z.div_le_lower_bound; lia.
  - split; [exact Hlen|]. split; [|by destruct Hr'].
    cbn [lines]. apply Forall_forall. intros row Hrow. apply list_elem_of_lookup in Hrow as [i Hi].
    destruct (Forall2_lookup_l _ _ _ _ _ Hc Hi) as (? & _ & Hh' & _). done.
Qed.

Lemma anthropic_key_edits_witness : exists ed, new_state 1024 768 [97] = Done ed /\
  exists ed' d', editor_handle_key 30 1 ed = Done ed' /\ ed'.(lay) = ed.(lay) /\ ed'.(buf).(filepath) = ed.(buf).(filepath) /\
    shows ed'.(buf) d' /\ key_effect 1 30 (mk_doc [] [] [] []) d' /\ one_edit (mk_doc [] [] [] []) d' /\ visible ed.(lay).(visible_lines) ed'.(buf).
Proof.
  destruct (init_shows 1024 768 [97] raw_state) as (ed & E & Hs & Hv & _).
  - split; [reflexivity|]. split; [|reflexivity]. apply Forall_replicate. reflexivity.
  - repeat constructor. discriminate.
  - cbn. lia.
  - lia.
  - exists ed. split; [exact E|]. apply (anthropic_key_edits 1 30 ed (mk_doc [] [] [] []) Hs Hv).
Defined.
End AnthropicProps.
