(* ===== verification/AnthropicFiles.v ===== *)
(** * Opening and saving in the full-screen editor

    Opening a file splits its first 2047 bytes into lines as [file_lines] says;
    saving writes the lines joined by line feeds, inside the save buffer, to a
    new file. A text that fits is read back as it was saved. *)
From Stdlib Require Import ZArith Lia String.
From stdpp Require Import base numbers list gmap.
From S2P Require Import Prelude CStr BlockDev TinyFSDisk VfsTinyFS StrBuf VfsTypes Console ConsoleProps ConsoleFmt Serial Keyboard Paint Desk TextEditor EditorDoc EditorProps EditorFiles Anthropic AnthropicProps.

Module AnthropicFiles.
Import StrBuf Files TinyfsFiles Console Messages TextEditor EditorDoc EditorFiles Anthropic.
Local Open Scope Z_scope.
Local Open Scope outcome_scope.
Abbreviation rows := (Forall2 (holds 80)).
Abbreviation shows := (shows_in 250 80).

(** ** The lines of a file *)

(** The parts between line feeds; there is always at least one. *)
Fixpoint segments (s : list Z) : list (list Z) :=
  match s with
  | [] => [[]]
  | c :: s => if c =? 10 then [] :: segments s
              else match segments s with x :: l => (c :: x) :: l | [] => [[c]] end
  end.
(** Carriage returns are dropped, lines are cut at 79 characters. *)
Definition no_cr (s : list Z) : list Z := filter (fun c => c <> 13) s.
Definition kept (s : list Z) : list Z := take 79 (no_cr s).
(** An empty part at the end is not a line, unless it is all there is. *)
Definition drop_trailing (l : list (list Z)) : list (list Z) :=
  match last l with Some [] => if decide (1 < length l)%nat then take (length l - 1) l else l | _ => l end.
Definition file_lines (s : list Z) : list (list Z) := take 250 (drop_trailing (kept <$> segments s)).

(** The loop on lists: the complete lines and the line being read. *)
Fixpoint scan (s : list Z) (pre : list (list Z)) (cur : list Z) : list (list Z) * list Z :=
  match s with
  | [] => (pre, cur)
  | c :: s =>
    if decide (length pre < 250)%nat then
      if c =? 10 then scan s (pre ++ [cur]) []
      else if c =? 13 then scan s pre cur
      else if decide (length cur < 79)%nat then scan s pre (cur ++ [c])
      else scan s pre cur
    else (pre, cur)
  end.
Definition finish (r : list (list Z) * list Z) : list (list Z) :=
  if decide (snd r <> [] \/ fst r = []) then fst r ++ [snd r] else fst r.

Lemma segments_ne s : segments s <> [].
Proof. destruct s as [|c s]; [done|]. cbn. destruct (c =? 10); [done|]. by destruct (segments s). Qed.

(** The parts with the first one continuing [cur]. *)
Definition continue (cur : list Z) (l : list (list Z)) : list (list Z) :=
  match l with [] => [] | x :: l => take 79 (cur ++ no_cr x) :: (kept <$> l) end.

Lemma continue_nil l : continue [] l = kept <$> l.
Proof. by destruct l. Qed.

Lemma take_full (cur x : list Z) c : (length cur = 79)%nat -> take 79 (cur ++ c :: x) = take 79 (cur ++ x).
Proof. intros H. rewrite !take_app_le, !take_ge by lia. done. Qed.

Lemma no_cr_cr x : no_cr (13 :: x) = no_cr x.
Proof. unfold no_cr. rewrite filter_cons_False; [done|]. by intros []. Qed.
Lemma no_cr_cons c x : c <> 13 -> no_cr (c :: x) = c :: no_cr x.
Proof. intros H. unfold no_cr. by rewrite filter_cons_True. Qed.

Lemma scan_finish s : forall pre cur, (length pre < 250)%nat -> (length cur <= 79)%nat ->
  finish (scan s pre cur) = take 250 (drop_trailing (pre ++ continue cur (segments s))).
Proof.
  induction s as [|c s IH]; intros pre cur Hp Hc.
  - cbn [scan segments continue no_cr filter list_filter fmap list_fmap]. rewrite app_nil_r, (take_ge cur) by lia. unfold finish, drop_trailing. cbn [fst snd].
    rewrite last_snoc. destruct cur as [|y cur].
    + rewrite length_app. cbn [length]. destruct pre as [|p pre].
      * rewrite decide_True by auto. rewrite decide_False by (cbn; lia). done.
      * rewrite decide_False by (intros [?|?]; done). rewrite decide_True by (cbn; lia). rewrite Nat.add_sub, take_app_length. by rewrite take_ge by lia.
    + rewrite decide_True by (by left). rewrite take_ge; [done|]. rewrite length_app. cbn. lia.
  - cbn [scan]. rewrite decide_True by done. cbn [segments]. destruct (Z.eqb_spec c 10) as [->|Hc10].
    + cbn [continue no_cr filter list_filter]. rewrite app_nil_r, (take_ge cur) by lia. rewrite <- continue_nil.
      destruct (decide (length pre = 249)%nat) as [E|E].
      2: { rewrite IH by (rewrite ?length_app; cbn; lia). by rewrite <- app_assoc. }
      assert (Hs : scan s (pre ++ [cur]) [] = (pre ++ [cur], [])).
      { destruct s; [done|]. cbn. rewrite decide_False; [done|]. rewrite length_app. cbn. lia. }
      rewrite Hs. unfold finish. cbn [fst snd]. rewrite decide_False by (intros [?|?]; [done|by destruct pre]).
      assert (Hl : length (pre ++ [cur]) = 250%nat) by (rewrite length_app; cbn; lia).
      destruct (segments s) as [|x l] eqn:Es; [by apply segments_ne in Es|]. cbn [continue].
      replace (pre ++ cur :: take 79 ([] ++ no_cr x) :: (kept <$> l)) with ((pre ++ [cur]) ++ take 79 (no_cr x) :: (kept <$> l)) by (by rewrite <- app_assoc).
      set (t := take 79 (no_cr x) :: (kept <$> l)). assert (Ht : (0 < length t)%nat) by (cbn; lia). clearbody t.
      unfold drop_trailing. rewrite last_app. destruct (last t) as [[|z u]|] eqn:El; [|by rewrite take_app_length' by lia|apply last_None in El; subst; cbn in Ht; lia].
      rewrite length_app, decide_True by lia. rewrite take_take, Nat.min_l by lia. by rewrite take_app_length' by lia.
    + destruct (segments s) as [|x l] eqn:Es; [by apply segments_ne in Es|]. cbn [continue].
      destruct (Z.eqb_spec c 13) as [->|Hc13]; [by rewrite IH, no_cr_cr by done|].
      rewrite no_cr_cons by done. destruct (decide (length cur < 79)%nat).
      * rewrite IH by (rewrite ?length_app; cbn; lia). cbn [continue]. by rewrite <- app_assoc.
      * rewrite IH by lia. cbn [continue]. by rewrite take_full by lia.
Qed.

Lemma scan_file s : finish (scan s [] []) = file_lines s.
Proof. rewrite scan_finish by (cbn; lia). cbn [app]. by rewrite continue_nil. Qed.

(** ** Reading into the rows *)

(** The rows while a file is read: complete lines, then the row that begins
    with the characters read of the current line, and empty rows. *)
Record reading (l : list (list Z)) (pre : list (list Z)) (cur : list Z) : Prop := {
  rd_split : exists lp tl, l = lp ++ tl /\ rows lp pre /\
    match tl with
    | row :: tl => length row = 80%nat /\ (exists x, row = cur ++ x) /\ (cur = [] -> holds 80 row []) /\ rows tl (replicate (length tl) [])
    | [] => cur = []
    end;
  rd_cur : (length cur <= 79)%nat /\ text cur;
  rd_size : length l = 250%nat }.

Lemma poke_at lp cur y x tl (pre : list (list Z)) v : length lp = length pre ->
  poke (lp ++ (cur ++ y :: x) :: tl) (Z.of_nat (length pre)) (Z.of_nat (length cur)) v = Done (lp ++ (cur ++ v :: x) :: tl).
Proof. intros <-. unfold poke. rewrite aget_mid. cbn [obind]. rewrite aset_mid. cbn [obind]. apply aset_mid. Qed.

(** Ending the line, and storing a character of it. *)
Lemma poke_reading l pre cur v : reading l pre cur -> (length pre < 250)%nat -> exists l',
  poke l (Z.of_nat (length pre)) (Z.of_nat (length cur)) v = Done l' /\
  (v = 0 -> reading l' (pre ++ [cur]) []) /\ (v <> 0 -> (length cur < 79)%nat -> reading l' pre (cur ++ [v])).
Proof.
  intros [(lp & tl & -> & Hr & Hx) [Hc Htx] Hs] Hp. pose proof (Forall2_length _ _ _ Hr) as Hl. rewrite length_app in Hs.
  destruct tl as [|row tl]; [cbn in Hs; lia|]. destruct Hx as (H80 & (x & ->) & _ & Ht). rewrite length_app in H80.
  destruct x as [|y x]; [cbn in H80; lia|]. cbn [length] in *. rewrite poke_at by done. eexists. split; [reflexivity|]. split.
  - intros ->. split; [|cbn; split; [lia|constructor]|rewrite length_app; cbn; lia].
    exists (lp ++ [cur ++ 0 :: x]), tl. split; [by rewrite <- app_assoc|]. split.
    + apply Forall2_app; [done|]. repeat constructor; [rewrite length_app; cbn; lia|done|by exists x].
    + destruct tl as [|r tl]; [done|]. cbn [length replicate] in Ht. apply Forall2_cons in Ht as [Hr0 Ht]. destruct Hr0 as (L & R) eqn:E.
      split; [done|]. split; [by exists r|done].
  - intros Hv Hlt. split; [|split; [rewrite length_app; cbn; lia|apply Forall_app; by repeat constructor]|rewrite length_app; cbn; lia].
    exists lp, ((cur ++ v :: x) :: tl). split; [done|]. split; [done|]. split; [rewrite length_app; cbn; lia|].
    split; [exists x; by rewrite <- app_assoc|]. split; [|done]. by destruct cur.
Qed.

Lemma reading_bound l pre cur : reading l pre cur -> (length pre <= 250)%nat.
Proof. intros [(lp & tl & -> & Hr & _) _ Hs]. rewrite length_app in Hs. apply Forall2_length in Hr. lia. Qed.

Lemma load_bytes_scan s : forall l pre cur, text s -> reading l pre cur -> exists l' pre' cur', scan s pre cur = (pre', cur') /\
  load_bytes s l (Z.of_nat (length pre)) (Z.of_nat (length cur)) = Done (l', Z.of_nat (length pre'), Z.of_nat (length cur')) /\ reading l' pre' cur'.
Proof.
  induction s as [|c s IH]; intros l pre cur Ht Hr; [by eexists _, _, _|]. apply Forall_cons in Ht as [Hc0 Ht].
  cbn [scan load_bytes]. unfold MAX_LINES, MAX_LINE_LENGTH. destruct (decide (length pre < 250)%nat) as [Hp|Hp].
  2: { rewrite (proj2 (Z.ltb_ge _ _)) by lia. by eexists _, _, _. }
  rewrite (proj2 (Z.ltb_lt _ 250)) by lia. destruct (Z.eqb_spec c 10) as [->|H10].
  { destruct (poke_reading l pre cur 0 Hr Hp) as (l1 & -> & H1 & _). cbn [obind].
    destruct (IH l1 (pre ++ [cur]) [] Ht (H1 eq_refl)) as (l' & pre' & cur' & E1 & E2 & H'). rewrite length_snoc_Z in E2. eauto 10. }
  destruct (c =? 13); [by apply IH|]. pose proof (rd_cur _ _ _ Hr) as [Hc79 _]. destruct (decide (length cur < 79)%nat).
  - rewrite (proj2 (Z.ltb_lt _ _)) by lia. destruct (poke_reading l pre cur c Hr Hp) as (l1 & -> & _ & H1). cbn [obind].
    destruct (IH l1 pre (cur ++ [c]) Ht (H1 Hc0 ltac:(done))) as (l' & pre' & cur' & E1 & E2 & H'). rewrite length_snoc_Z in E2. eauto 10.
  - rewrite (proj2 (Z.ltb_ge _ _)) by lia. by apply IH.
Qed.

(** A buffer whose first rows are the lines, and the cursor at the start. *)
Definition at_start (ls : list (list Z)) : doc := mk_doc [] [] (default [] (head ls)) (tail ls).

Lemma start_shows l ls spare f n m : rows l (ls ++ spare) -> ls <> [] -> length l = 250%nat -> n = Z.of_nat (length ls) ->
  shows (mk_buf l n 0 0 0 f m) (at_start ls).
Proof.
  intros H Hne Hl ->. destruct ls as [|x ls]; [done|]. split; cbn [lines line_count cursor_line cursor_col at_start above left right below app head tail default]; try done.
  by exists spare.
Qed.

(** [load_text] on cleared rows: the lines of the bytes. *)
Lemma load_text_lines s b : text s -> rows b.(lines) (replicate 250 []) -> exists l spare,
  load_text s b = Done (mk_buf l (Z.of_nat (length (file_lines s))) b.(cursor_line) b.(cursor_col) b.(scroll_offset) b.(filepath) 0) /\
  rows l (file_lines s ++ spare) /\ file_lines s <> [] /\ length l = 250%nat.
Proof.
  intros Ht Hr. pose proof (Forall2_length _ _ _ Hr) as Hl. rewrite length_replicate in Hl.
  assert (H0 : reading b.(lines) [] []).
  { split; [|cbn; split; [lia|constructor]|done]. exists [], b.(lines). split; [done|]. split; [constructor|].
    destruct (lines b) as [|r tl]; [done|]. cbn in Hl. change (replicate 250 []) with (@nil Z :: replicate 249 []) in Hr. apply Forall2_cons in Hr as [Hr0 Hr].
    split; [by destruct Hr0|]. split; [by exists r|]. split; [done|]. by replace (length tl) with 249%nat by lia. }
  destruct (load_bytes_scan s _ _ _ Ht H0) as (l1 & pre & cur & Es & El & H1). unfold load_text. cbn [length] in El. change (Z.of_nat 0) with 0 in El. rewrite El. cbn [obind].
  rewrite <- scan_file, Es. unfold finish. cbn [fst snd].
  assert (Hc : ((0 <? Z.of_nat (length cur)) || (Z.of_nat (length pre) =? 0)) = bool_decide (cur <> [] \/ pre = [])).
  { destruct cur, pre; cbn [length]; [by rewrite bool_decide_eq_true_2 by auto|rewrite bool_decide_eq_false_2 by (intros [?|?]; done); done|
      by rewrite bool_decide_eq_true_2 by auto|rewrite bool_decide_eq_true_2 by (by left); done]. }
  rewrite Hc. case_bool_decide as Hd.
  - rewrite decide_True by done. assert (Hp : (length pre < 250)%nat).
    { destruct H1 as [(lp & tl & -> & Hlp & Hx) _ Hs]. rewrite length_app in Hs. apply Forall2_length in Hlp. destruct tl; [|cbn in Hs; lia].
      cbn in Hs. destruct Hd as [?|Hd]; [done|]. subst. cbn in *. lia. }
    destruct (poke_reading l1 pre cur 0 H1 Hp) as (l2 & -> & H2 & _). cbn [obind]. specialize (H2 eq_refl).
    destruct H2 as [(lp & tl & -> & Hlp & Hx) _ Hs]. rewrite <- length_snoc_Z with (x := cur).
    exists (lp ++ tl), (replicate (length tl) []). split; [done|]. split; [|split; [by destruct pre|done]].
    apply Forall2_app; [done|]. destruct tl as [|r tl]; [constructor|]. destruct Hx as (_ & _ & Hx & Hy). constructor; [by apply Hx|done].
  - rewrite decide_False by done. destruct H1 as [(lp & tl & -> & Hlp & Hx) _ Hs].
    exists (lp ++ tl), (replicate (length tl) []). split; [done|]. split; [|split; [by intros ->; apply Hd; right|done]].
    apply Forall2_app; [done|]. destruct tl as [|r tl]; [constructor|]. destruct Hx as (_ & _ & Hx & Hy). constructor; [|done].
    apply Hx. destruct cur; [done|]. exfalso. apply Hd. by left.
Qed.

(** ** Saving *)
Lemma length_joined ls : Forall (fun s : list Z => (length s <= 79)%nat) ls -> ls <> [] -> (length (joined ls) + 1 <= 80 * length ls)%nat.
Proof.
  induction 1 as [|s ls Hs Hls IH]; intros Hne; [done|]. destruct ls as [|s' ls]; [cbn; lia|].
  rewrite joined_cons, length_app. cbn [length] in *. specialize (IH ltac:(done)). lia.
Qed.

Lemma put_after (buffer out s : list Z) : take (length out) buffer = out -> (length out + length s <= length buffer)%nat ->
  put buffer (length out) s = Done (out ++ s ++ drop (length out + length s) buffer).
Proof. intros H Hl. unfold put. by rewrite decide_True, H by done. Qed.

(** The save buffer has room for every document: 80 bytes for each line. *)
Lemma convert_joined b ls : forall pre spare buffer out, rows b.(lines) (pre ++ ls ++ spare) ->
  b.(line_count) = Z.of_nat (length pre + length ls) -> take (length out) buffer = out -> (length out + length (joined ls) <= length buffer)%nat ->
  exists buffer', convert (length ls) (Z.of_nat (length pre)) b buffer (Z.of_nat (length out)) = Done (buffer', Z.of_nat (length (out ++ joined ls))) /\
    take (length (out ++ joined ls)) buffer' = out ++ joined ls /\ length buffer' = length buffer.
Proof.
  induction ls as [|s ls IH]; intros pre spare buffer out Hr Hn Ho Hl.
  { exists buffer. cbn [joined length convert]. by rewrite app_nil_r. }
  cbn [length convert]. destruct (rows_aget b.(lines) _ pre s (ls ++ spare) Hr eq_refl) as (row & -> & Hrow). cbn [obind].
  rewrite (holds_len _ _ _ Hrow). cbn [obind]. rewrite !Nat2Z.id.
  assert (Et : take (length s) row = s) by (destruct Hrow as (_ & _ & rest & ->); apply take_app_length). rewrite Et.
  assert (Hls : (length out + length s <= length buffer)%nat).
  { destruct ls; [done|]. rewrite joined_cons, length_app in Hl. lia. }
  rewrite put_after by done. cbn [obind]. cbn [length] in Hn. rewrite Hn. destruct ls as [|s' ls].
  - rewrite (proj2 (Z.ltb_ge _ _)) by (cbn; lia). cbn [obind convert joined length]. eexists. split; [do 2 f_equal; rewrite length_app; lia|].
    split; [by rewrite app_assoc, take_app_length|]. rewrite !length_app, length_drop. lia.
  - rewrite (proj2 (Z.ltb_lt _ _)) by (cbn; lia). rewrite joined_cons, length_app in Hl. cbn [length] in Hl.
    set (t := drop (length out + length s) buffer). assert (Ht : length t = (length buffer - length out - length s)%nat) by (unfold t; rewrite length_drop; lia).
    destruct t as [|y t]; [cbn in Ht; lia|]. cbn [length] in Ht.
    replace (Z.of_nat (length out) + Z.of_nat (length s)) with (Z.of_nat (length (out ++ s))) by (rewrite length_app; lia).
    rewrite app_assoc, aset_mid. cbn [obind]. replace (Z.of_nat (length (out ++ s)) + 1) with (Z.of_nat (length (out ++ s ++ [10%Z]))) by (rewrite !length_app; cbn; lia).
    rewrite <- length_snoc_Z with (x := s).
    destruct (IH (pre ++ [s]) spare ((out ++ s) ++ 10 :: t) (out ++ s ++ [10])) as (b' & E & Hb & Hlb).
    + by rewrite <- app_assoc.
    + rewrite length_app. cbn [length] in *. lia.
    + replace ((out ++ s) ++ 10 :: t) with ((out ++ s ++ [10]) ++ t) by (by rewrite <- !app_assoc). apply take_app_length.
    + repeat (rewrite !length_app; cbn [length]). lia.
    + assert (Ea : (out ++ s ++ [10]) ++ joined (s' :: ls) = out ++ s ++ 10 :: joined (s' :: ls)) by (by rewrite <- !app_assoc). rewrite Ea in E, Hb.
      exists b'. rewrite joined_cons. split; [exact E|]. split; [exact Hb|].
      rewrite Hlb. repeat (rewrite !length_app; cbn [length]). lia.
Qed.

Section Save.
Context {W : Type} `{!FileApi W, !FileLaws W, !FileMakeLaws W}.

(** The name of a file with an absolute path. *)
Lemma absolute_path b name cwd : holds 256 b (47 :: name) -> exists p, full_path b cwd = Done p /\ cstr p = 47 :: name.
Proof.
  intros Hb. pose proof (holds_short _ _ _ Hb) as Hs. unfold full_path. pose proof Hb as (_ & Ht & rest & ->). cbn [app get nth Z.eqb Pos.eqb].
  pose proof (empty_holds 256 (replicate 256 0) ltac:(done) ltac:(lia)) as He.
  destruct (strcpy_holds 256 256 _ _ _ _ He Hb) as (p & E & Hp); [done|]. change (<[0%nat := 0]> (replicate 256 0)) with (replicate 256 0) in E.
  exists p. split; [exact E|]. destruct Hp as (_ & Ht' & r & ->). by apply cstr_app_zero.
Qed.

Lemma doc_lines_short b d : shows b d -> Forall (fun s : list Z => (length s <= 79)%nat) (doc_lines d).
Proof.
  intros [(spare & Hr) _ _ _ _]. apply Forall_forall. intros s Hs. apply list_elem_of_lookup in Hs as [i Hi].
  assert (Hi' : (above d ++ (left d ++ right d) :: below d ++ spare) !! i = Some s).
  { rewrite app_comm_cons, app_assoc. by apply lookup_app_l_Some. }
  destruct (Forall2_lookup_r _ _ _ _ _ Hr Hi') as (r & _ & Hh). apply holds_short in Hh. lia.
Qed.

(** Saving stores the joined lines, for every document the editor can hold. *)
Lemma save_file_stores k cap ed d name (w : W) c : shows ed.(buf) d -> holds 256 ed.(buf).(filepath) (47 :: name) -> makeable (S k) cap w (47 :: name) ->
  20000 <= cap ->
  exists ed' w' c', editor_save_file true ed w c = Done (0, ed', w', c') /\ shows ed'.(buf) d /\ ed'.(buf).(modified) = 0 /\
    stored k cap w' (47 :: name) (joined (doc_lines d)).
Proof.
  intros H Hf Hm Hcap. unfold editor_save_file. destruct (absolute_path _ name (f_cwd w) Hf) as (p & -> & Hp). cbn [obind negb].
  assert (Hl : Z.of_nat (length (joined (doc_lines d))) < 20000).
  { pose proof (length_joined _ (doc_lines_short _ _ H)) as Hj. pose proof (shows_bound _ _ H). 
    assert (doc_lines d <> []) by (unfold doc_lines; by destruct (above d)). specialize (Hj ltac:(done)). lia. }
  pose proof H as [(spare & Hrows) _ Hn _ _].
  destruct (convert_joined ed.(buf) (doc_lines d) [] spare (replicate (Z.to_nat 20000) 0) []) as (buffer & E & Hb & Hlb);
    [unfold doc_lines; by rewrite <- app_assoc|done|done|rewrite length_replicate; cbn [app length]; lia|].
  cbn [app length] in E, Hb. change (Z.of_nat 0) with 0 in E. rewrite length_replicate in Hlb.
  change (MAX_LINES * MAX_LINE_LENGTH) with 20000. rewrite Hn, Nat2Z.id, E. cbn [obind].
  set (n := Z.of_nat (length (joined (doc_lines d)))) in *.
  destruct (PRINT_shows WHITE BLACK (line "[EDITOR] Converted %d lines to %d bytes") [Word (Z.of_nat (length (doc_lines d))); Word n] c) as (ss & _ & ->); [reflexivity..|vm_compute; lia|].
  cbn [obind]. rewrite <- Hp in Hm.
  destruct (make_file (S k) cap w p (Z.lor FILE_READ FILE_WRITE) Hm) as (r1 & w1 & r2 & w2 & -> & E2 & Hst). cbn [obind]. rewrite E2. cbn [obind].
  destruct (open_stored k cap w2 p FILE_WRITE _ Hst) as (fd & w3 & -> & Hfd & Ho). cbn [obind]. rewrite (proj2 (Z.ltb_ge _ _)) by lia.
  destruct (write_opened k cap w3 fd _ 0 [] buffer n Ho) as (w4 & -> & Ho4); [cbn; lia|lia|lia|]. cbn [obind].
  destruct (close_opened _ _ _ _ _ _ _ Ho4) as (w5 & -> & Hs5). cbn [obind]. rewrite Z.eqb_refl. cbn [negb].
  destruct (PRINT_shows GREEN BLACK (line "[EDITOR] Successfully saved %d bytes to: %s") [Word n; Str (cstr p)] (printed WHITE BLACK (mjoin ss) c)) as (ss' & _ & ->); [reflexivity..|vm_compute; lia|].
  cbn [obind]. eexists _, _, _. split; [reflexivity|]. cbn [set_buf buf modified]. split; [destruct H as [R S C L K]; by split|]. split; [done|].
  rewrite Hp in Hs5. unfold overwrite in Hs5. cbn [app] in Hs5. rewrite drop_nil, app_nil_r in Hs5. unfold n in Hs5. rewrite Nat2Z.id, Hb in Hs5. exact Hs5.
Qed.
End Save.

(** ** What is saved is read back *)
Definition plain_line (s : list Z) : Prop := Forall (fun c => c <> 0 /\ c <> 10 /\ c <> 13) s.

Lemma segments_line s rest : Forall (fun c => c <> 10) s -> segments (s ++ 10 :: rest) = s :: segments rest.
Proof. induction 1 as [|c s Hc Hs IH]; [done|]. cbn [app segments]. rewrite (proj2 (Z.eqb_neq c 10)) by done. by rewrite IH. Qed.
Lemma segments_last s : Forall (fun c => c <> 10) s -> segments s = [s].
Proof. induction 1 as [|c s Hc Hs IH]; [done|]. cbn [segments]. rewrite (proj2 (Z.eqb_neq c 10)) by done. by rewrite IH. Qed.

Lemma segments_joined ls : ls <> [] -> Forall plain_line ls -> segments (joined ls) = ls.
Proof.
  intros Hne H. induction H as [|s ls Hs Hls IH]; [done|]. assert (H10 : Forall (fun c => c <> 10) s) by (eapply Forall_impl; [exact Hs|]; by intros ? (? & ? & ?)).
  destruct ls as [|s' ls]; [by apply segments_last|]. rewrite joined_cons, segments_line by done. by rewrite IH.
Qed.

Lemma kept_plain s : plain_line s -> (length s <= 79)%nat -> kept s = s.
Proof.
  intros H Hl. unfold kept. assert (no_cr s = s) as ->; [|by apply take_ge]. clear Hl.
  induction H as [|c s (_ & _ & Hc) Hs IH]; [done|]. by rewrite no_cr_cons, IH.
Qed.

Lemma file_lines_joined ls : ls <> [] -> Forall plain_line ls -> Forall (fun s : list Z => (length s <= 79)%nat) ls ->
  (length ls <= 250)%nat -> last ls <> Some [] \/ length ls = 1%nat -> file_lines (joined ls) = ls.
Proof.
  intros Hne Hp Hl Hn Hlast. unfold file_lines. rewrite segments_joined by done.
  assert (kept <$> ls = ls) as ->.
  { clear Hne Hn Hlast. induction Hp as [|s ls Hs Hp IH]; [done|]. apply Forall_cons in Hl as [Hl1 Hl]. cbn. rewrite kept_plain by done. f_equal. auto. }
  unfold drop_trailing. destruct (last ls) as [[|c s]|] eqn:E; [|by apply take_ge..]. rewrite decide_False; [by apply take_ge|]. destruct Hlast; [done|lia].
Qed.

Section Open.
Context {W : Type} `{!FileApi W, !FileLaws W}.

(** Opening a file in an editor made in any memory. *)
Lemma open_loads k cap fw fh name ed c (w : W) : AnthropicProps.raw_ok ed -> text (47 :: name) -> (length (47%Z :: name) < 256)%nat -> 58 <= fh < 2 ^ 31 ->
  stored (S k) cap w (47 :: name) c -> text c -> exists ed1 r ed2 w',
  editor_init fw fh ((47 :: name) ++ [0]) ed = Done ed1 /\ editor_load_file ed1 w = Done (r, ed2, w') /\
  shows ed2.(buf) (at_start (file_lines (take (Z.to_nat 2047) c))) /\ AnthropicProps.visible ed2.(lay).(visible_lines) ed2.(buf) /\
  holds 256 ed2.(buf).(filepath) (47 :: name).
Proof.
  intros Hraw Ht Hl Hh Hst Htc. destruct (AnthropicProps.init_shows fw fh (47 :: name) ed Hraw Ht Hl Hh) as (ed1 & E1 & Hs1 & Hv1 & Hf1 & (Hn1 & Hr1 & _)).
  exists ed1. pose proof (AnthropicProps.cleared_rows _ Hr1) as Hc. rewrite Hn1 in Hc. unfold editor_load_file.
  pose proof (sh_line _ _ Hs1) as Hline. pose proof (sh_col _ _ Hs1) as Hcol. change (cursor_line (buf ed1) = 0) in Hline. change (cursor_col (buf ed1) = 0) in Hcol.
  assert (Hscr : scroll_offset (buf ed1) = 0) by (unfold AnthropicProps.visible in Hv1; lia).
  destruct (absolute_path _ name (f_cwd w) Hf1) as (p & -> & Hp). cbn [obind]. rewrite <- Hp in Hst.
  destruct (open_stored k cap w p FILE_READ c Hst) as (fd & w1 & -> & Hfd & Ho). cbn [obind]. rewrite (proj2 (Z.ltb_ge fd 0)) by lia.
  destruct (read_opened k cap w1 fd _ _ (replicate 2048 0) 2047 Ho) as (w2 & -> & Ho2); [rewrite length_replicate; lia|lia|]. cbn [obind].
  destruct (close_opened _ _ _ _ _ _ _ Ho2) as (w3 & -> & Hs3). cbn [obind].
  set (m := Z.min 2047 (Z.of_nat (length c))) in *.
  assert (Em : take (Z.to_nat m) c = take (Z.to_nat 2047) c).
  { unfold m. destruct (Z.min_spec 2047 (Z.of_nat (length c))) as [[_ ->]|[? ->]]; [done|]. by rewrite !take_ge by lia. }
  destruct (Z.leb_spec m 0) as [H0|H0].
  - assert (c = []) as -> by (destruct c; [done|cbn in m; lia]).
    destruct (rows_aget (M := 80) _ _ [] [] (replicate 249 []) Hc eq_refl) as (r0 & Er0 & Hr0). cbn [length] in Er0. change (Z.of_nat 0) with 0 in Er0.
    pose proof (empty_holds 80 r0 ltac:(by destruct Hr0) ltac:(lia)) as Hr0'.
    destruct (rows_aset (M := 80) _ [] [] (replicate 249 []) _ [] Hc Hr0') as (l' & El' & Hl'). cbn [length] in El'. change (Z.of_nat 0) with 0 in El'.
    unfold poke. rewrite Er0. cbn [obind]. rewrite (aset_done r0) by (destruct Hr0 as [-> _]; lia). cbn [obind]. change (Z.to_nat 0) with 0%nat. rewrite El'. cbn [obind].
    eexists _, _, _. split; [done|]. split; [reflexivity|]. cbn [set_buf buf lay filepath]. rewrite Hline, Hcol, Hscr. split; [|split; [|done]].
    + apply (start_shows _ [[]] (replicate 249 [])); [exact Hl'|done| |done]. apply Forall2_length in Hl'. rewrite Hl'. done.
    + unfold AnthropicProps.visible in *. cbn [scroll_offset cursor_line]. lia.
  - rewrite aset_done by (rewrite length_app, length_take, length_drop, length_replicate; lia). cbn [obind].
    rewrite take_insert_ge by lia. rewrite take_app_length' by (rewrite length_take; lia). rewrite Em.
    destruct (load_text_lines (take (Z.to_nat 2047) c) (mk_buf (clear_lines (lines (buf ed1))) (line_count (buf ed1)) (cursor_line (buf ed1)) (cursor_col (buf ed1)) (scroll_offset (buf ed1)) (filepath (buf ed1)) (modified (buf ed1))))
      as (l & spare & -> & Hl2 & Hne & Hll); [by apply Forall_take|exact Hc|].
    cbn [obind cursor_line cursor_col scroll_offset filepath]. rewrite Hline, Hcol, Hscr. eexists _, _, _. split; [done|]. split; [reflexivity|].
    cbn [set_buf buf lay filepath]. split; [by eapply start_shows|]. split; [|done]. unfold AnthropicProps.visible in *. cbn [scroll_offset cursor_line]. lia.
Qed.
End Open.

Theorem save_load {W : Type} `{!FileApi W, !FileLaws W, !FileMakeLaws W} k cap ed d name (w : W) c :
  shows ed.(buf) d -> holds 256 ed.(buf).(filepath) (47 :: name) -> makeable (S (S k)) cap w (47 :: name) -> 20000 <= cap ->
  exists ed' w' c', editor_save_file true ed w c = Done (0, ed', w', c') /\ shows ed'.(buf) d /\ ed'.(buf).(modified) = 0 /\
    stored (S k) cap w' (47 :: name) (joined (doc_lines d)) /\
    (Forall plain_line (doc_lines d) -> last (doc_lines d) <> Some [] \/ length (doc_lines d) = 1%nat ->
     Z.of_nat (length (joined (doc_lines d))) <= 2047 ->
     forall fw fh raw, AnthropicProps.raw_ok raw -> 58 <= fh < 2 ^ 31 -> exists ed1 r ed2 w2,
       editor_init fw fh ((47 :: name) ++ [0]) raw = Done ed1 /\ editor_load_file ed1 w' = Done (r, ed2, w2) /\
       shows ed2.(buf) (at_start (doc_lines d)) /\ AnthropicProps.visible ed2.(lay).(visible_lines) ed2.(buf)).
Proof.
  intros H Hf Hm Hcap. destruct (save_file_stores (S k) cap ed d name w c H Hf Hm Hcap) as (ed' & w' & c' & E & Hs & Hmod & Hst).
  exists ed', w', c'. do 4 (split; [done|]). intros Hp Hlast Hlen fw fh raw Hraw Hh.
  assert (Hne : doc_lines d <> []) by (unfold doc_lines; by destruct (above d)).
  assert (Htc : text (joined (doc_lines d))).
  { clear -Hp. induction Hp as [|s ls Hs Hls IH]; [constructor|]. assert (text s) by (eapply Forall_impl; [exact Hs|]; by intros ? (? & ? & ?)).
    destruct ls as [|s' ls]; [done|]. rewrite joined_cons. apply Forall_app. split; [done|]. by constructor. }
  destruct (open_loads k cap fw fh name raw (joined (doc_lines d)) w') as (ed1 & r & ed2 & w2 & E1 & E2 & Hs2 & Hv2 & _); try done; [by destruct Hf as (_ & ? & _)|by apply holds_short in Hf|].
  exists ed1, r, ed2, w2. split; [done|]. split; [done|]. split; [|done]. rewrite take_ge in Hs2 by lia.
  rewrite file_lines_joined in Hs2; [done|done|done|by eapply doc_lines_short| |done]. by apply shows_bound in H.
Qed.

(** C30: what the full-screen editor saves it opens again, on the VFS with a mounted TinyFS. For every document the
    editor shows and every name of the root directory that can be removed and made anew ([t_makeable]: at most 31
    characters, held by no other entry, with a free slot, a free descriptor, memory for two more nodes and at least
    20000 bytes of room), saving succeeds: the save buffer is never overrun and the new file holds the lines joined
    by line feeds, whatever it held before. If moreover the lines are plain (no zero byte, line feed or carriage
    return), the last is not empty unless it is the only one, and the text has at most 2047 bytes, an editor opened on
    that path in any memory shows the same lines, with the cursor at the start and on the screen. *)
Theorem anthropic_save_load {H D : Type} `{!Heap H} `{BlockDevLaws D} (garbage_node : vfs_node) (stack : list Z)
    (api := vfs_files (VfsTinyfs.tinyfs_vfs_ops (H := H) (D := D) garbage_node stack)) k cap ed d name w c :
  1024 <= bd_sectors (D := D) < 2 ^ 32 -> length (n_name garbage_node) = MAX_FILENAME -> length stack = 512%nat ->
  shows ed.(buf) d -> holds 256 ed.(buf).(filepath) (47 :: name) -> t_makeable (S (S k)) cap w (47 :: name) -> 20000 <= cap ->
  exists ed' w' c', editor_save_file true ed w c = Done (0, ed', w', c') /\ shows ed'.(buf) d /\ ed'.(buf).(modified) = 0 /\
    t_stored (S k) cap w' (47 :: name) (joined (doc_lines d)) /\
    (Forall plain_line (doc_lines d) -> last (doc_lines d) <> Some [] \/ length (doc_lines d) = 1%nat ->
     Z.of_nat (length (joined (doc_lines d))) <= 2047 ->
     forall fw fh raw, AnthropicProps.raw_ok raw -> 58 <= fh < 2 ^ 31 -> exists ed1 r ed2 w2,
       editor_init fw fh ((47 :: name) ++ [0]) raw = Done ed1 /\ editor_load_file ed1 w' = Done (r, ed2, w2) /\
       shows ed2.(buf) (at_start (doc_lines d)) /\ AnthropicProps.visible ed2.(lay).(visible_lines) ed2.(buf)).
Proof.
  intros Hsec Hg Hst. pose (L := tinyfs_laws Hsec garbage_node stack Hg Hst). pose (M := tinyfs_make_laws Hsec garbage_node stack Hg Hst).
  exact (save_load (FileApi0 := api) (FileLaws0 := L) (FileMakeLaws0 := M) k cap ed d name w c).
Qed.

Definition short_state : editor_state_t :=
  mk_state (mk_buf (([104; 105] ++ replicate 78 0) :: ([111; 107] ++ replicate 78 0) :: replicate 248 (replicate 80 0))
    2 1 1 0 (47 :: 97 :: replicate 254 0) 1) AnthropicProps.raw_state.(lay) 0 0 0 Paint.nothing_saved.

Lemma short_shown : shows short_state.(buf) two_lines.
Proof.
  split; [|done..]. exists (replicate 248 []). cbn [above left right below app two_lines short_state buf lines].
  constructor; [|constructor; [|apply Forall2_replicate]]; (split; [done|]); (split; [repeat constructor; done|]).
  - by exists (replicate 77 0).
  - by exists (replicate 77 0).
  - by exists (replicate 79 0).
Qed.

(** The document replaces the file "a" of a RAM disk. *)
#[local] Existing Instance bump_heap.
Lemma anthropic_save_load_witness : exists ed' w' c',
  editor_save_file (FileApi0 := disk_api) true short_state disk_state ConsoleFmt.small = Done (0, ed', w', c') /\
  shows ed'.(buf) two_lines /\ ed'.(buf).(modified) = 0 /\ t_stored 1 disk_room w' [47; 97] [104; 105; 10; 111; 107].
Proof.
  destruct (anthropic_save_load VfsTinyfs.ex_garbage (replicate 512 0) 0 disk_room short_state two_lines [97] disk_state ConsoleFmt.small)
    as (ed' & w' & c' & E & Hs & Hm & Hst & _).
  - exact TinyfsDisk.ramdisk_sectors.
  - reflexivity.
  - reflexivity.
  - exact short_shown.
  - split; [reflexivity|]. split; [repeat constructor; discriminate|]. by exists (replicate 253 0).
  - exact disk_makeable.
  - vm_compute. discriminate.
  - exists ed', w', c'. split; [exact E|]. split; [exact Hs|]. split; [exact Hm|exact Hst].
Defined.

(** Opening a file of 3200 bytes and saving it leaves 2047 of them. *)
Definition long_file : list Z := mjoin (replicate 40 (replicate 79 97 ++ [10])).
Definition after_save (c : list Z) : option (list Z) :=
  match editor_init 1024 768 [47; 97; 0] AnthropicProps.raw_state with
  | Done ed =>
    match editor_load_file ed (mk_mem {[ [47; 97] := c ]} ∅ 3) with
    | Done (_, ed, w) => match editor_save_file true ed w ConsoleFmt.small with Done (_, _, w, _) => m_files w !! [47; 97] | _ => None end
    | _ => None
    end
  | _ => None
  end.
Theorem anthropic_long_file_lost : length long_file = 3200%nat /\ after_save long_file = Some (take (Z.to_nat 2047) long_file).
Proof. split; vm_compute; reflexivity. Qed.

(** The line feed at the end of a file is lost, too. *)
Theorem anthropic_final_newline_lost : after_save [97; 10] = Some [97].
Proof. vm_compute. reflexivity. Qed.
End AnthropicFiles.
