(* ===== verification/AC97.v ===== *)
(** * The AC'97 sound driver (src/kernel/Audio/AC97.c, includes/AC97.h)

    The device record is the heap block [ac97_init] allocates (its allocation
    is the real [kmalloc], its contents are a record, as for the ELF loader);
    the DMA buffers, the descriptor list and the samples to play are bytes of
    the physical memory of Memory.v. The mixer and bus master registers are
    I/O ports: [PortIO] for 8 and 16 bits, [PciPorts] for 32 bits. What happens
    while the processor is halted or the thread has yielded is the interface
    [Waits]. Messages and delay loops are left out; dereferencing a null device
    pointer is [OutOfBounds]. *)
From Stdlib Require Import ZArith Lia String.
From stdpp Require Import base numbers list gmap.
From S2P Require Import Prelude Ata Memory Net E1000 Interrupts.

Module Ac97.
Import Ata Pci Mem Interrupts.
Local Open Scope Z_scope.
Local Open Scope outcome_scope.

(** ** Registers *)
Definition AC97_VENDOR_INTEL : Z := 0x8086.
Definition AC97_NAM_RESET : Z := 0x00.
Definition AC97_NAM_MASTER_VOLUME : Z := 0x02.
Definition AC97_NAM_MIC_VOLUME : Z := 0x0E.
Definition AC97_NAM_PCM_OUT_VOLUME : Z := 0x18.
Definition AC97_NAM_POWERDOWN_CTRL : Z := 0x26.
Definition AC97_NAM_EXT_AUDIO_ID : Z := 0x28.
Definition AC97_NAM_EXT_AUDIO_STATUS : Z := 0x2A.
Definition AC97_NAM_PCM_FRONT_DAC_RATE : Z := 0x2C.
Definition AC97_PO_BDBAR : Z := 0x10.
Definition AC97_PO_CIV : Z := 0x14.
Definition AC97_PO_LVI : Z := 0x15.
Definition AC97_PO_SR : Z := 0x16.
Definition AC97_PO_PICB : Z := 0x18.
Definition AC97_PO_CR : Z := 0x1B.
Definition AC97_PI_BDBAR : Z := 0x00.
Definition AC97_PI_CIV : Z := 0x04.
Definition AC97_PI_LVI : Z := 0x05.
Definition AC97_PI_SR : Z := 0x06.
Definition AC97_PI_CR : Z := 0x0B.
Definition AC97_MC_SR : Z := 0x26.
Definition AC97_MC_CR : Z := 0x2B.
Definition AC97_GLOB_CNT : Z := 0x2C.
Definition AC97_GLOB_STA : Z := 0x30.
Definition AC97_CR_RPBM : Z := 0x01.
Definition AC97_CR_RR : Z := 0x02.
Definition AC97_CR_IOCE : Z := 0x10.
Definition AC97_SR_LVBCI : Z := 0x04.
Definition AC97_SR_BCIS : Z := 0x08.
Definition AC97_SR_FIFOE : Z := 0x10.
Definition AC97_GLOB_CNT_GIE : Z := 1.
Definition AC97_GLOB_CNT_COLD_RESET : Z := 2.
Definition AC97_GLOB_STA_PRI_READY : Z := 0x100.
Definition AC97_PWR_EAPD : Z := 0x8000.
Definition AC97_BD_FLAG_IOC : Z := 0x8000.
Definition AC97_RATE_48000 : Z := 48000.
Definition AC97_BD_COUNT : Z := 32.
Definition AC97_BUFFER_SIZE : Z := 8192.
Definition AC97_BUFFER_SAMPLES : Z := 2048.
Definition AC97_DEVICE_IDS : list Z := [0x2415; 0x2425; 0x2445; 0x2485; 0x24C5; 0x24D5; 0x266E; 0x27DE].
Definition PCI_COMMAND : Z := 0x04.
Definition PCI_SUBCLASS : Z := 0x0A.
Definition PCI_BAR0 : Z := 0x10.
Definition PCI_BAR1 : Z := 0x14.
Definition PCI_IRQ_LINE : Z := 0x3C.

(** ** Data *)
Inductive ac97_format_t := AC97_FORMAT_STEREO_16 | AC97_FORMAT_STEREO_8 | AC97_FORMAT_MONO_16 | AC97_FORMAT_MONO_8.

Record ac97_stream_t := mk_stream {
  buffers : list Z; buffer_phys : list Z; bd_list : Z; bd_list_phys : Z; current_buffer : Z; play_buffer : Z; format : ac97_format_t; sample_rate : Z; running : Z; channels : Z; bits_per_sample : Z }.
Definition set_buffers (v : list Z) (s : ac97_stream_t) : ac97_stream_t :=
  mk_stream v s.(buffer_phys) s.(bd_list) s.(bd_list_phys) s.(current_buffer) s.(play_buffer) s.(format) s.(sample_rate) s.(running) s.(channels) s.(bits_per_sample).
Definition set_buffer_phys (v : list Z) (s : ac97_stream_t) : ac97_stream_t :=
  mk_stream s.(buffers) v s.(bd_list) s.(bd_list_phys) s.(current_buffer) s.(play_buffer) s.(format) s.(sample_rate) s.(running) s.(channels) s.(bits_per_sample).
Definition set_bd_list (v : Z) (s : ac97_stream_t) : ac97_stream_t :=
  mk_stream s.(buffers) s.(buffer_phys) v s.(bd_list_phys) s.(current_buffer) s.(play_buffer) s.(format) s.(sample_rate) s.(running) s.(channels) s.(bits_per_sample).
Definition set_bd_list_phys (v : Z) (s : ac97_stream_t) : ac97_stream_t :=
  mk_stream s.(buffers) s.(buffer_phys) s.(bd_list) v s.(current_buffer) s.(play_buffer) s.(format) s.(sample_rate) s.(running) s.(channels) s.(bits_per_sample).
Definition set_current_buffer (v : Z) (s : ac97_stream_t) : ac97_stream_t :=
  mk_stream s.(buffers) s.(buffer_phys) s.(bd_list) s.(bd_list_phys) v s.(play_buffer) s.(format) s.(sample_rate) s.(running) s.(channels) s.(bits_per_sample).
Definition set_play_buffer (v : Z) (s : ac97_stream_t) : ac97_stream_t :=
  mk_stream s.(buffers) s.(buffer_phys) s.(bd_list) s.(bd_list_phys) s.(current_buffer) v s.(format) s.(sample_rate) s.(running) s.(channels) s.(bits_per_sample).
Definition set_format (v : ac97_format_t) (s : ac97_stream_t) : ac97_stream_t :=
  mk_stream s.(buffers) s.(buffer_phys) s.(bd_list) s.(bd_list_phys) s.(current_buffer) s.(play_buffer) v s.(sample_rate) s.(running) s.(channels) s.(bits_per_sample).
Definition set_sample_rate (v : Z) (s : ac97_stream_t) : ac97_stream_t :=
  mk_stream s.(buffers) s.(buffer_phys) s.(bd_list) s.(bd_list_phys) s.(current_buffer) s.(play_buffer) s.(format) v s.(running) s.(channels) s.(bits_per_sample).
Definition set_running (v : Z) (s : ac97_stream_t) : ac97_stream_t :=
  mk_stream s.(buffers) s.(buffer_phys) s.(bd_list) s.(bd_list_phys) s.(current_buffer) s.(play_buffer) s.(format) s.(sample_rate) v s.(channels) s.(bits_per_sample).
Definition set_channels (v : Z) (s : ac97_stream_t) : ac97_stream_t :=
  mk_stream s.(buffers) s.(buffer_phys) s.(bd_list) s.(bd_list_phys) s.(current_buffer) s.(play_buffer) s.(format) s.(sample_rate) s.(running) v s.(bits_per_sample).
Definition set_bits_per_sample (v : Z) (s : ac97_stream_t) : ac97_stream_t :=
  mk_stream s.(buffers) s.(buffer_phys) s.(bd_list) s.(bd_list_phys) s.(current_buffer) s.(play_buffer) s.(format) s.(sample_rate) s.(running) s.(channels) v.

Record ac97_device_t := mk_device {
  vendor_id : Z; device_id : Z; bus : Z; device : Z; function : Z; nam_bar : Z; nabm_bar : Z; irq : Z; playback_stream : ac97_stream_t; record_stream : ac97_stream_t; initialized : Z; codec_ready : Z; master_volume_left : Z; master_volume_right : Z; pcm_volume_left : Z; pcm_volume_right : Z; has_variable_rate : Z; has_surround : Z; max_sample_rate : Z }.
Definition set_vendor_id (v : Z) (s : ac97_device_t) : ac97_device_t :=
  mk_device v s.(device_id) s.(bus) s.(device) s.(function) s.(nam_bar) s.(nabm_bar) s.(irq) s.(playback_stream) s.(record_stream) s.(initialized) s.(codec_ready) s.(master_volume_left) s.(master_volume_right) s.(pcm_volume_left) s.(pcm_volume_right) s.(has_variable_rate) s.(has_surround) s.(max_sample_rate).
Definition set_device_id (v : Z) (s : ac97_device_t) : ac97_device_t :=
  mk_device s.(vendor_id) v s.(bus) s.(device) s.(function) s.(nam_bar) s.(nabm_bar) s.(irq) s.(playback_stream) s.(record_stream) s.(initialized) s.(codec_ready) s.(master_volume_left) s.(master_volume_right) s.(pcm_volume_left) s.(pcm_volume_right) s.(has_variable_rate) s.(has_surround) s.(max_sample_rate).
Definition set_bus (v : Z) (s : ac97_device_t) : ac97_device_t :=
  mk_device s.(vendor_id) s.(device_id) v s.(device) s.(function) s.(nam_bar) s.(nabm_bar) s.(irq) s.(playback_stream) s.(record_stream) s.(initialized) s.(codec_ready) s.(master_volume_left) s.(master_volume_right) s.(pcm_volume_left) s.(pcm_volume_right) s.(has_variable_rate) s.(has_surround) s.(max_sample_rate).
Definition set_device (v : Z) (s : ac97_device_t) : ac97_device_t :=
  mk_device s.(vendor_id) s.(device_id) s.(bus) v s.(function) s.(nam_bar) s.(nabm_bar) s.(irq) s.(playback_stream) s.(record_stream) s.(initialized) s.(codec_ready) s.(master_volume_left) s.(master_volume_right) s.(pcm_volume_left) s.(pcm_volume_right) s.(has_variable_rate) s.(has_surround) s.(max_sample_rate).
Definition set_function (v : Z) (s : ac97_device_t) : ac97_device_t :=
  mk_device s.(vendor_id) s.(device_id) s.(bus) s.(device) v s.(nam_bar) s.(nabm_bar) s.(irq) s.(playback_stream) s.(record_stream) s.(initialized) s.(codec_ready) s.(master_volume_left) s.(master_volume_right) s.(pcm_volume_left) s.(pcm_volume_right) s.(has_variable_rate) s.(has_surround) s.(max_sample_rate).
Definition set_nam_bar (v : Z) (s : ac97_device_t) : ac97_device_t :=
  mk_device s.(vendor_id) s.(device_id) s.(bus) s.(device) s.(function) v s.(nabm_bar) s.(irq) s.(playback_stream) s.(record_stream) s.(initialized) s.(codec_ready) s.(master_volume_left) s.(master_volume_right) s.(pcm_volume_left) s.(pcm_volume_right) s.(has_variable_rate) s.(has_surround) s.(max_sample_rate).
Definition set_nabm_bar (v : Z) (s : ac97_device_t) : ac97_device_t :=
  mk_device s.(vendor_id) s.(device_id) s.(bus) s.(device) s.(function) s.(nam_bar) v s.(irq) s.(playback_stream) s.(record_stream) s.(initialized) s.(codec_ready) s.(master_volume_left) s.(master_volume_right) s.(pcm_volume_left) s.(pcm_volume_right) s.(has_variable_rate) s.(has_surround) s.(max_sample_rate).
Definition set_irq (v : Z) (s : ac97_device_t) : ac97_device_t :=
  mk_device s.(vendor_id) s.(device_id) s.(bus) s.(device) s.(function) s.(nam_bar) s.(nabm_bar) v s.(playback_stream) s.(record_stream) s.(initialized) s.(codec_ready) s.(master_volume_left) s.(master_volume_right) s.(pcm_volume_left) s.(pcm_volume_right) s.(has_variable_rate) s.(has_surround) s.(max_sample_rate).
Definition set_playback_stream (v : ac97_stream_t) (s : ac97_device_t) : ac97_device_t :=
  mk_device s.(vendor_id) s.(device_id) s.(bus) s.(device) s.(function) s.(nam_bar) s.(nabm_bar) s.(irq) v s.(record_stream) s.(initialized) s.(codec_ready) s.(master_volume_left) s.(master_volume_right) s.(pcm_volume_left) s.(pcm_volume_right) s.(has_variable_rate) s.(has_surround) s.(max_sample_rate).
Definition set_record_stream (v : ac97_stream_t) (s : ac97_device_t) : ac97_device_t :=
  mk_device s.(vendor_id) s.(device_id) s.(bus) s.(device) s.(function) s.(nam_bar) s.(nabm_bar) s.(irq) s.(playback_stream) v s.(initialized) s.(codec_ready) s.(master_volume_left) s.(master_volume_right) s.(pcm_volume_left) s.(pcm_volume_right) s.(has_variable_rate) s.(has_surround) s.(max_sample_rate).
Definition set_initialized (v : Z) (s : ac97_device_t) : ac97_device_t :=
  mk_device s.(vendor_id) s.(device_id) s.(bus) s.(device) s.(function) s.(nam_bar) s.(nabm_bar) s.(irq) s.(playback_stream) s.(record_stream) v s.(codec_ready) s.(master_volume_left) s.(master_volume_right) s.(pcm_volume_left) s.(pcm_volume_right) s.(has_variable_rate) s.(has_surround) s.(max_sample_rate).
Definition set_codec_ready (v : Z) (s : ac97_device_t) : ac97_device_t :=
  mk_device s.(vendor_id) s.(device_id) s.(bus) s.(device) s.(function) s.(nam_bar) s.(nabm_bar) s.(irq) s.(playback_stream) s.(record_stream) s.(initialized) v s.(master_volume_left) s.(master_volume_right) s.(pcm_volume_left) s.(pcm_volume_right) s.(has_variable_rate) s.(has_surround) s.(max_sample_rate).
Definition set_master_volume_left (v : Z) (s : ac97_device_t) : ac97_device_t :=
  mk_device s.(vendor_id) s.(device_id) s.(bus) s.(device) s.(function) s.(nam_bar) s.(nabm_bar) s.(irq) s.(playback_stream) s.(record_stream) s.(initialized) s.(codec_ready) v s.(master_volume_right) s.(pcm_volume_left) s.(pcm_volume_right) s.(has_variable_rate) s.(has_surround) s.(max_sample_rate).
Definition set_master_volume_right (v : Z) (s : ac97_device_t) : ac97_device_t :=
  mk_device s.(vendor_id) s.(device_id) s.(bus) s.(device) s.(function) s.(nam_bar) s.(nabm_bar) s.(irq) s.(playback_stream) s.(record_stream) s.(initialized) s.(codec_ready) s.(master_volume_left) v s.(pcm_volume_left) s.(pcm_volume_right) s.(has_variable_rate) s.(has_surround) s.(max_sample_rate).
Definition set_pcm_volume_left (v : Z) (s : ac97_device_t) : ac97_device_t :=
  mk_device s.(vendor_id) s.(device_id) s.(bus) s.(device) s.(function) s.(nam_bar) s.(nabm_bar) s.(irq) s.(playback_stream) s.(record_stream) s.(initialized) s.(codec_ready) s.(master_volume_left) s.(master_volume_right) v s.(pcm_volume_right) s.(has_variable_rate) s.(has_surround) s.(max_sample_rate).
Definition set_pcm_volume_right (v : Z) (s : ac97_device_t) : ac97_device_t :=
  mk_device s.(vendor_id) s.(device_id) s.(bus) s.(device) s.(function) s.(nam_bar) s.(nabm_bar) s.(irq) s.(playback_stream) s.(record_stream) s.(initialized) s.(codec_ready) s.(master_volume_left) s.(master_volume_right) s.(pcm_volume_left) v s.(has_variable_rate) s.(has_surround) s.(max_sample_rate).
Definition set_has_variable_rate (v : Z) (s : ac97_device_t) : ac97_device_t :=
  mk_device s.(vendor_id) s.(device_id) s.(bus) s.(device) s.(function) s.(nam_bar) s.(nabm_bar) s.(irq) s.(playback_stream) s.(record_stream) s.(initialized) s.(codec_ready) s.(master_volume_left) s.(master_volume_right) s.(pcm_volume_left) s.(pcm_volume_right) v s.(has_surround) s.(max_sample_rate).
Definition set_has_surround (v : Z) (s : ac97_device_t) : ac97_device_t :=
  mk_device s.(vendor_id) s.(device_id) s.(bus) s.(device) s.(function) s.(nam_bar) s.(nabm_bar) s.(irq) s.(playback_stream) s.(record_stream) s.(initialized) s.(codec_ready) s.(master_volume_left) s.(master_volume_right) s.(pcm_volume_left) s.(pcm_volume_right) s.(has_variable_rate) v s.(max_sample_rate).
Definition set_max_sample_rate (v : Z) (s : ac97_device_t) : ac97_device_t :=
  mk_device s.(vendor_id) s.(device_id) s.(bus) s.(device) s.(function) s.(nam_bar) s.(nabm_bar) s.(irq) s.(playback_stream) s.(record_stream) s.(initialized) s.(codec_ready) s.(master_volume_left) s.(master_volume_right) s.(pcm_volume_left) s.(pcm_volume_right) s.(has_variable_rate) s.(has_surround) v.


(** Zeroed memory. *)
Definition zero_stream : ac97_stream_t := mk_stream (replicate 32 0) (replicate 32 0) 0 0 0 0 AC97_FORMAT_STEREO_16 0 0 0 0.
Definition zero_device : ac97_device_t := mk_device 0 0 0 0 0 0 0 0 zero_stream zero_stream 0 0 0 0 0 0 0 0 0.
Definition sizeof_device : Z := 864.
Definition sizeof_bd_entry : Z := 8.

(** [&g_ac97_device->playback_stream] or [&g_ac97_device->record_stream]. *)
Inductive stream_ref := Playback | Recording.
Definition stream_of (w : stream_ref) (d : ac97_device_t) : ac97_stream_t :=
  match w with Playback => d.(playback_stream) | Recording => d.(record_stream) end.
Definition upd_stream (w : stream_ref) (f : ac97_stream_t -> ac97_stream_t) (d : ac97_device_t) : ac97_device_t :=
  match w with
  | Playback => set_playback_stream (f d.(playback_stream)) d
  | Recording => set_record_stream (f d.(record_stream)) d
  end.

(** ** Waiting

    What other threads, interrupts and devices do until the processor goes on
    after [hlt], a yielded thread is scheduled again, or a sleep is over. *)
Class Waits (I : Type) := { hlt : I -> I; thread_yield : I -> I; sleep_ms : Z -> I -> I }.

(** ** State and effects *)
Section Driver.
Context {D : Type} {IO : PortIO D} {PIO : PciPorts D}.

(** The globals of AC97.c, the memory, and the ports, clock and handlers of the kernel. *)
Record audio := mk_audio {
  g_ac97_device : option (Z * ac97_device_t); dma_buffer_ptrs : list Z; dma_buffer_phys : list Z; buffers_allocated : Z;
  memory : mm; kern : irqs D }.
Definition set_g_device (v : option (Z * ac97_device_t)) (s : audio) : audio :=
  mk_audio v s.(dma_buffer_ptrs) s.(dma_buffer_phys) s.(buffers_allocated) s.(memory) s.(kern).
Definition set_dma (ptrs phys : list Z) (n : Z) (s : audio) : audio :=
  mk_audio s.(g_ac97_device) ptrs phys n s.(memory) s.(kern).
Definition set_memory (m : mm) (s : audio) : audio :=
  mk_audio s.(g_ac97_device) s.(dma_buffer_ptrs) s.(dma_buffer_phys) s.(buffers_allocated) m s.(kern).
Definition set_kern (k : irqs D) (s : audio) : audio :=
  mk_audio s.(g_ac97_device) s.(dma_buffer_ptrs) s.(dma_buffer_phys) s.(buffers_allocated) s.(memory) k.

Definition A (T : Type) : Type := audio -> outcome (T * audio).
#[export] Instance A_ret : MRet A := fun T a s => Done (a, s).
#[export] Instance A_bind : MBind A := fun T U f m s => let* (a, s) := m s in f a s.
Definition gets {T} (f : audio -> T) : A T := fun s => Done (f s, s).
Definition modify (f : audio -> audio) : A unit := fun s => Done ((), f s).
Definition lift {T} (m : outcome T) : A T := fun s => let* a := m in Done (a, s).

(** [g_ac97_device->...], read and written. *)
Definition dev : A ac97_device_t := fun s =>
  match s.(g_ac97_device) with Some (_, d) => Done (d, s) | None => OutOfBounds end.
Definition upd (f : ac97_device_t -> ac97_device_t) : A unit := fun s =>
  match s.(g_ac97_device) with
  | Some (a, d) => Done ((), set_g_device (Some (a, f d)) s)
  | None => OutOfBounds
  end.
Definition upd_pb (f : ac97_stream_t -> ac97_stream_t) : A unit := upd (upd_stream Playback f).
(** [!g_ac97_device] and [!g_ac97_device || !g_ac97_device->initialized]. *)
Definition no_device : A bool := gets (fun s => match s.(g_ac97_device) with Some _ => false | None => true end).
Definition not_initialized : A bool := gets (fun s =>
  match s.(g_ac97_device) with Some (_, d) => d.(initialized) =? 0 | None => true end).

(** Port input and output; a port is 16 bits wide. *)
Definition on_ports {T} (f : D -> T * D) : A T := fun s =>
  let '(v, d) := f s.(kern).(ports) in Done (v, set_kern (set_dev d s.(kern)) s).
Definition out8 (port v : Z) : A unit := on_ports (fun d => ((), outb (u16 port) (u8 v) d)).
Definition out16 (port v : Z) : A unit := on_ports (fun d => ((), outw (u16 port) (u8 v, u8 (Z.shiftr v 8)) d)).
Definition out32 (port v : Z) : A unit := on_ports (fun d => ((), outl (u16 port) (u32 v) d)).
Definition in8 (port : Z) : A Z := on_ports (inb (u16 port)).
Definition in16 (port : Z) : A Z := on_ports (fun d => let '((lo, hi), d) := inw (u16 port) d in (lo + 256 * hi, d)).
Definition in32 (port : Z) : A Z := on_ports (inl (u16 port)).
(** The same at an offset from the bus master base address. *)
Definition bm_out8 (reg v : Z) : A unit := d ← dev; out8 (d.(nabm_bar) + reg) v.
Definition bm_out16 (reg v : Z) : A unit := d ← dev; out16 (d.(nabm_bar) + reg) v.
Definition bm_out32 (reg v : Z) : A unit := d ← dev; out32 (d.(nabm_bar) + reg) v.
Definition bm_in8 (reg : Z) : A Z := d ← dev; in8 (d.(nabm_bar) + reg).
Definition bm_in16 (reg : Z) : A Z := d ← dev; in16 (d.(nabm_bar) + reg).
Definition bm_in32 (reg : Z) : A Z := d ← dev; in32 (d.(nabm_bar) + reg).

(** Stores to memory. *)
Definition store_at (a : Z) (bs : list Z) : A unit :=
  modify (fun s => set_memory (set_mem s.(memory) (store (mem s.(memory)) a bs)) s).
Definition store16 (a v : Z) : A unit := store_at a (le_bytes 2 (u16 v)).

(** ** PCI *)
Definition pci_read_config (bus device func offset : Z) : A Z :=
  out32 PCI_CONFIG_ADDRESS (pci_address bus device func offset) ;; in32 PCI_CONFIG_DATA.
Definition pci_write_config (bus device func offset value : Z) : A unit :=
  out32 PCI_CONFIG_ADDRESS (pci_address bus device func offset) ;; out32 PCI_CONFIG_DATA value.

(** Where a device was found. *)
Definition set_found (vendor dev_id bus device func : Z) (d : ac97_device_t) : ac97_device_t :=
  set_function (u8 func) (set_device (u8 device) (set_bus (u8 bus) (set_device_id dev_id (set_vendor_id vendor d)))).

(** The three loops; [slots] are the functions still to be tried. *)
Fixpoint find_in (slots : list (Z * Z * Z)) : A Z :=
  match slots with
  | [] => mret (-1)
  | (bus, device, func) :: slots =>
    vendor_device ← pci_read_config bus device func 0;
    let vendor := Z.land vendor_device 0xFFFF in
    let dev_id := Z.land (Z.shiftr vendor_device 16) 0xFFFF in
    if vendor =? 0xFFFF then find_in slots
    else if (vendor =? AC97_VENDOR_INTEL) && existsb (Z.eqb dev_id) AC97_DEVICE_IDS
    then upd (set_found vendor dev_id bus device func) ;; mret 0
    else
      class_info ← pci_read_config bus device func PCI_SUBCLASS;
      let class_code := Z.land (Z.shiftr class_info 24) 0xFF in
      let subclass := Z.land (Z.shiftr class_info 16) 0xFF in
      if (class_code =? 4) && (subclass =? 1) then upd (set_found vendor dev_id bus device func) ;; mret 0
      else find_in slots
  end.

Definition all_functions : list (Z * Z * Z) :=
  flat_map (fun bus => flat_map (fun device => map (fun func => (Z.of_nat bus, Z.of_nat device, Z.of_nat func)) (seq 0 8))
                         (seq 0 32)) (seq 0 256).
Definition ac97_find_device : A Z := find_in all_functions.

(** ** Buffers *)

(** Returns the buffer and the value of [*phys_addr]. *)
Definition ac97_alloc_dma_buffer (phys_addr : Z) : A (Z * Z) :=
  n ← gets buffers_allocated;
  if AC97_BD_COUNT <=? n then mret (0, phys_addr) else
  let pages_needed := (AC97_BUFFER_SIZE + 4095) / 4096 in
  m ← gets memory;
  let '(buffer, m) := pmm_alloc_pages pages_needed m in
  modify (set_memory m) ;;
  if buffer =? 0 then mret (0, phys_addr) else
  let phys_addr := u32 buffer in
  ptrs ← gets dma_buffer_ptrs;
  physs ← gets dma_buffer_phys;
  ptrs ← lift (aset ptrs n buffer);
  physs ← lift (aset physs n phys_addr);
  store_at buffer (replicate (Z.to_nat AC97_BUFFER_SIZE) 0) ;;
  modify (set_dma ptrs physs (n + 1)) ;;
  mret (buffer, phys_addr).

Fixpoint setup_bd_entries (w : stream_ref) (n : nat) (i : Z) : A unit :=
  match n with
  | O => mret ()
  | S n =>
    d ← dev;
    let st := stream_of w d in
    phys ← lift (aget st.(buffer_phys) i);
    let e := st.(bd_list) + sizeof_bd_entry * i in
    store_at e (le_bytes 4 phys) ;;
    store16 (e + 4) (AC97_BUFFER_SIZE / 4) ;;
    store16 (e + 6) AC97_BD_FLAG_IOC ;;
    setup_bd_entries w n (i + 1)
  end.
Definition ac97_setup_bd_list (w : stream_ref) : A unit := setup_bd_entries w (Z.to_nat AC97_BD_COUNT) 0.

(** ** Codec access *)
Definition ac97_ensure_gie : A unit :=
  glob_cnt ← bm_in32 AC97_GLOB_CNT;
  if c_true (Z.land glob_cnt AC97_GLOB_CNT_GIE) then mret () else
  bm_out32 AC97_GLOB_CNT (Z.lor glob_cnt AC97_GLOB_CNT_GIE) ;;
  verify ← bm_in32 AC97_GLOB_CNT;
  mret ().

(** [while (timeout--)]. *)
Fixpoint wait_ready (timeout : nat) : A Z :=
  match timeout with
  | O => mret (-1)
  | S timeout =>
    status ← bm_in32 AC97_GLOB_STA;
    if c_true (Z.land status AC97_GLOB_STA_PRI_READY) then upd (set_codec_ready 1) ;; mret 0 else wait_ready timeout
  end.
Definition ac97_wait_codec_ready : A Z := wait_ready (Z.to_nat 1000000).

Definition ac97_codec_write (reg value : Z) : A Z :=
  d ← dev;
  r ← (if d.(codec_ready) =? 0 then ac97_wait_codec_ready else mret 0);
  if negb (r =? 0) then mret (-1) else
  d ← dev;
  out16 (d.(nam_bar) + reg) (u16 value) ;; mret 0.

Definition ac97_codec_read (reg : Z) : A Z :=
  d ← dev;
  r ← (if d.(codec_ready) =? 0 then ac97_wait_codec_ready else mret 0);
  d ← dev;
  in16 (d.(nam_bar) + reg).

(** ** Volume *)
Definition volume_to_ac97 (volume : Z) : Z :=
  if volume =? 0 then 0x8000 else
  let volume := if 100 <? volume then 100 else volume in
  u8 (31 - (volume * 31) / 100).
Definition ac97_to_volume (ac97_val : Z) : Z :=
  if c_true (Z.land ac97_val 0x8000) then 0 else
  let attenuation := Z.land ac97_val 0x1F in
  u8 (((31 - attenuation) * 100) / 31).

(** [(left_atten << 8) | right_atten], cut to 16 bits. *)
Definition volume_word (left right : Z) : Z :=
  u16 (Z.lor (Z.shiftl (volume_to_ac97 left) 8) (volume_to_ac97 right)).

Definition ac97_set_master_volume (left right : Z) : A unit :=
  ac97_codec_write AC97_NAM_MASTER_VOLUME (volume_word left right) ;;
  upd (set_master_volume_left left) ;; upd (set_master_volume_right right).
Definition ac97_set_pcm_volume (left right : Z) : A unit :=
  ac97_codec_write AC97_NAM_PCM_OUT_VOLUME (volume_word left right) ;;
  upd (set_pcm_volume_left left) ;; upd (set_pcm_volume_right right).
Definition ac97_set_mic_volume (level : Z) : A unit :=
  ac97_codec_write AC97_NAM_MIC_VOLUME (volume_to_ac97 level) ;; mret ().

Definition volumes_of (value : Z) : Z * Z :=
  (ac97_to_volume (Z.land (Z.shiftr value 8) 0xFF), ac97_to_volume (Z.land value 0xFF)).
Definition ac97_get_master_volume : A (Z * Z) := value ← ac97_codec_read AC97_NAM_MASTER_VOLUME; mret (volumes_of value).
Definition ac97_get_pcm_volume : A (Z * Z) := value ← ac97_codec_read AC97_NAM_PCM_OUT_VOLUME; mret (volumes_of value).

Definition mute_register (reg mute : Z) : A unit :=
  current ← ac97_codec_read reg;
  ac97_codec_write reg (if c_true mute then Z.lor current 0x8000 else Z.land current 0x7FFF) ;; mret ().
Definition ac97_mute_master (mute : Z) : A unit := mute_register AC97_NAM_MASTER_VOLUME mute.
Definition ac97_mute_pcm (mute : Z) : A unit := mute_register AC97_NAM_PCM_OUT_VOLUME mute.

(** ** Sample rate *)
Definition ac97_set_sample_rate (rate : Z) : A Z :=
  d ← dev;
  if d.(has_variable_rate) =? 0 then mret (if rate =? AC97_RATE_48000 then 0 else -1) else
  ac97_codec_write AC97_NAM_PCM_FRONT_DAC_RATE (u16 rate) ;;
  actual ← ac97_codec_read AC97_NAM_PCM_FRONT_DAC_RATE;
  upd_pb (set_sample_rate rate) ;; mret 0.
Definition ac97_get_sample_rate : A Z := d ← dev; mret d.(playback_stream).(sample_rate).

(** ** Streams *)

(** The buffers of [ac97_stream_init], zeroed a second time; false when an allocation failed. *)
Fixpoint init_buffers (w : stream_ref) (n : nat) (i : Z) : A bool :=
  match n with
  | O => mret true
  | S n =>
    d ← dev;
    let st := stream_of w d in
    phys ← lift (aget st.(buffer_phys) i);
    '(buffer, phys) ← ac97_alloc_dma_buffer phys;
    physs ← lift (aset st.(buffer_phys) i phys);
    bufs ← lift (aset st.(buffers) i buffer);
    upd (upd_stream w (fun st => set_buffers bufs (set_buffer_phys physs st))) ;;
    if buffer =? 0 then mret false else
    store_at buffer (replicate (Z.to_nat AC97_BUFFER_SIZE) 0) ;;
    init_buffers w n (i + 1)
  end.

Definition ac97_stream_init (fuel : nat) (w : stream_ref) (is_playback : bool) : A Z :=
  m ← gets memory;
  '(list, m) ← lift (kmalloc fuel (sizeof_bd_entry * AC97_BD_COUNT) m);
  modify (set_memory m) ;;
  upd (upd_stream w (set_bd_list list)) ;;
  if list =? 0 then mret (-1) else
  upd (upd_stream w (set_bd_list_phys (u32 list))) ;;
  ok ← init_buffers w (Z.to_nat AC97_BD_COUNT) 0;
  if negb ok then mret (-1) else
  ac97_setup_bd_list w ;;
  upd (upd_stream w (fun st =>
    set_bits_per_sample 16 (set_channels 2 (set_sample_rate AC97_RATE_48000 (set_format AC97_FORMAT_STEREO_16
      (set_running 0 (set_play_buffer 0 (set_current_buffer 0 st)))))))) ;;
  bm_out32 (if is_playback then AC97_PO_BDBAR else AC97_PI_BDBAR) (u32 list) ;;
  mret 0.

Definition cr_reg (is_playback : bool) : Z := if is_playback then AC97_PO_CR else AC97_PI_CR.

Definition ac97_stream_reset (w : stream_ref) (is_playback : bool) : A unit :=
  bm_out8 (cr_reg is_playback) AC97_CR_RR ;;
  bm_out8 (cr_reg is_playback) 0 ;;
  upd (upd_stream w (fun st => set_play_buffer 0 (set_current_buffer 0 st))).

Definition ac97_stream_start (w : stream_ref) (is_playback : bool) (buffers_to_play : Z) : A unit :=
  let lvi_reg := if is_playback then AC97_PO_LVI else AC97_PI_LVI in
  let sr_reg := if is_playback then AC97_PO_SR else AC97_PI_SR in
  ac97_ensure_gie ;;
  bm_out16 sr_reg 0x1E ;;
  bm_out8 lvi_reg (if 0 <? buffers_to_play then buffers_to_play - 1 else 0) ;;
  bm_out8 (cr_reg is_playback) (Z.lor AC97_CR_RPBM AC97_CR_IOCE) ;;
  cr_check ← bm_in8 (cr_reg is_playback);
  sr_check ← bm_in16 sr_reg;
  civ ← bm_in8 (if is_playback then AC97_PO_CIV else AC97_PI_CIV);
  upd (upd_stream w (set_running 1)).

Definition ac97_stream_stop (w : stream_ref) (is_playback : bool) : A unit :=
  bm_out8 (cr_reg is_playback) 0 ;; upd (upd_stream w (set_running 0)).

(** ** Playback *)
Definition ac97_play_stop : A unit :=
  none ← no_device; if (none : bool) then mret () else ac97_stream_stop Playback true.

Definition layout (format : ac97_format_t) : Z * Z :=
  match format with
  | AC97_FORMAT_STEREO_16 => (2, 16)
  | AC97_FORMAT_STEREO_8 => (2, 8)
  | AC97_FORMAT_MONO_16 => (1, 16)
  | AC97_FORMAT_MONO_8 => (1, 8)
  end.

Definition ac97_play_init (fmt : ac97_format_t) (rate : Z) : A Z :=
  off ← not_initialized;
  if (off : bool) then mret (-1) else
  d ← dev;
  (if c_true d.(playback_stream).(running) then ac97_play_stop else mret ()) ;;
  ac97_stream_reset Playback true ;;
  upd_pb (set_format fmt) ;;
  upd_pb (fun st => set_bits_per_sample (snd (layout fmt)) (set_channels (fst (layout fmt)) st)) ;;
  ac97_set_sample_rate rate.

(** The data is at address [data]. The loops copy [copy_size] bytes and zero the rest of the buffer. *)
Fixpoint copy_in (data buffer : Z) (n : nat) (i : Z) : A unit :=
  match n with
  | O => mret ()
  | S n => m ← gets memory; store_at (buffer + i) [peek (mem m) (data + i)] ;; copy_in data buffer n (i + 1)
  end.

Definition ac97_play_buffer (data size : Z) : A Z :=
  off ← gets (fun s => match s.(g_ac97_device) with Some (_, d) => d.(playback_stream).(running) =? 0 | None => true end);
  if (off : bool) then mret (-1) else
  d ← dev;
  let buffer_idx := d.(playback_stream).(current_buffer) in
  civ ← bm_in8 AC97_PO_CIV;
  if buffer_idx =? civ then mret (-2) else
  let copy_size := if AC97_BUFFER_SIZE <? size then AC97_BUFFER_SIZE else size in
  buffer ← lift (aget d.(playback_stream).(buffers) buffer_idx);
  copy_in data buffer (Z.to_nat copy_size) 0 ;;
  store_at (buffer + copy_size) (replicate (Z.to_nat (AC97_BUFFER_SIZE - copy_size)) 0) ;;
  upd_pb (fun st => set_current_buffer (u32 (st.(current_buffer) + 1) mod AC97_BD_COUNT) st) ;;
  mret copy_size.

Definition ac97_play_start : A unit :=
  none ← no_device; if (none : bool) then mret () else ac97_stream_start Playback true AC97_BD_COUNT.

(** Changing the run bit of the control register. *)
Definition ac97_play_pause : A unit :=
  none ← no_device;
  if (none : bool) then mret () else cr ← bm_in8 AC97_PO_CR; bm_out8 AC97_PO_CR (Z.land cr (Z.lnot AC97_CR_RPBM)).
Definition ac97_play_resume : A unit :=
  none ← no_device;
  if (none : bool) then mret () else cr ← bm_in8 AC97_PO_CR; bm_out8 AC97_PO_CR (Z.lor cr AC97_CR_RPBM).

(** ** Interrupts *)
Definition ac97_interrupt_handler : A unit :=
  none ← no_device;
  if (none : bool) then mret () else
  po_sr ← bm_in16 AC97_PO_SR;
  pi_sr ← bm_in16 AC97_PI_SR;
  (if c_true (Z.land po_sr (Z.lor AC97_SR_LVBCI AC97_SR_BCIS))
   then bm_out16 AC97_PO_SR po_sr ;; civ ← bm_in8 AC97_PO_CIV; upd_pb (set_play_buffer civ) else mret ()) ;;
  (if c_true (Z.land po_sr AC97_SR_FIFOE) then bm_out16 AC97_PO_SR AC97_SR_FIFOE else mret ()) ;;
  (if c_true (Z.land pi_sr (Z.lor AC97_SR_LVBCI AC97_SR_BCIS)) then bm_out16 AC97_PI_SR pi_sr else mret ()) ;;
  (if c_true (Z.land pi_sr AC97_SR_FIFOE) then bm_out16 AC97_PI_SR AC97_SR_FIFOE else mret ()).

(** ** Position *)
Definition ac97_get_position : A Z :=
  none ← no_device;
  if (none : bool) then mret 0 else
  picb ← bm_in16 AC97_PO_PICB;
  civ ← bm_in8 AC97_PO_CIV;
  mret (civ * AC97_BUFFER_SAMPLES + (AC97_BUFFER_SAMPLES - picb)).

Definition ac97_get_buffer_status : A Z :=
  none ← no_device;
  if (none : bool) then mret 0 else
  civ ← bm_in8 AC97_PO_CIV;
  d ← dev;
  let filled := s32 (u32 (d.(playback_stream).(current_buffer) - civ)) in
  mret (if filled <? 0 then filled + AC97_BD_COUNT else filled).

Fixpoint status_wait (fuel : nat) : A unit :=
  filled ← ac97_get_buffer_status;
  if AC97_BD_COUNT - 1 <=? filled
  then match fuel with O => lift OutOfFuel | S fuel => status_wait fuel end else mret ().
Definition ac97_wait_for_buffer (fuel : nat) : A unit :=
  none ← no_device; if (none : bool) then mret () else status_wait fuel.

(** ** Reset *)

(** Power-up: three writes, then the external amplifier. *)
Definition power_up : A unit :=
  power ← ac97_codec_read AC97_NAM_POWERDOWN_CTRL;
  ac97_codec_write AC97_NAM_POWERDOWN_CTRL 0 ;;
  ac97_codec_write AC97_NAM_POWERDOWN_CTRL 0 ;;
  ac97_codec_write AC97_NAM_POWERDOWN_CTRL 0 ;;
  power ← ac97_codec_read AC97_NAM_POWERDOWN_CTRL;
  power ← ac97_codec_read AC97_NAM_POWERDOWN_CTRL;
  (if c_true (Z.land power AC97_PWR_EAPD)
   then ac97_codec_write AC97_NAM_POWERDOWN_CTRL (Z.land power (Z.lnot AC97_PWR_EAPD)) ;; mret () else mret ()) ;;
  power ← ac97_codec_read AC97_NAM_POWERDOWN_CTRL;
  mret ().

(** The checks on the codec id; true when [ac97_reset] goes on. *)
Definition codec_check : A bool :=
  codec_id ← ac97_codec_read AC97_NAM_RESET;
  if codec_id =? 0 then
    orig_vol ← ac97_codec_read AC97_NAM_MASTER_VOLUME;
    ac97_codec_write AC97_NAM_MASTER_VOLUME 0x0808 ;;
    test_vol ← ac97_codec_read AC97_NAM_MASTER_VOLUME;
    ac97_codec_write AC97_NAM_MASTER_VOLUME orig_vol ;;
    if (test_vol =? 0x0808) || (Z.land test_vol 0x1F1F =? 0x0808) then mret true
    else if (test_vol =? 0) || (test_vol =? 0xFFFF) then
      d ← dev;
      if (d.(nam_bar) =? 0) || (d.(nabm_bar) =? 0) then mret false else
      glob_sta ← bm_in32 AC97_GLOB_STA;
      mret (c_true (Z.land glob_sta AC97_GLOB_STA_PRI_READY))
    else mret true
  else mret (negb (codec_id =? 0xFFFF)).

(** The extended audio features: variable rate and surround. *)
Definition detect_features : A unit :=
  ext_id ← ac97_codec_read AC97_NAM_EXT_AUDIO_ID;
  upd (set_has_variable_rate (if c_true (Z.land ext_id 1) then 1 else 0)) ;;
  upd (set_has_surround (if c_true (Z.land ext_id 0x40) then 1 else 0)) ;;
  d ← dev;
  (if c_true d.(has_variable_rate) then
     ext_status ← ac97_codec_read AC97_NAM_EXT_AUDIO_STATUS;
     ac97_codec_write AC97_NAM_EXT_AUDIO_STATUS (Z.lor ext_status 1) ;;
     ext_status ← ac97_codec_read AC97_NAM_EXT_AUDIO_STATUS;
     (if c_true (Z.land ext_status 1) then mret () else upd (set_has_variable_rate 0)) ;;
     upd (set_max_sample_rate 48000)
   else upd (set_max_sample_rate 48000)) ;;
  d ← dev;
  if c_true d.(has_variable_rate) then
    ac97_codec_write AC97_NAM_PCM_FRONT_DAC_RATE 48000 ;;
    actual_rate ← ac97_codec_read AC97_NAM_PCM_FRONT_DAC_RATE;
    mret ()
  else mret ().

(** Resetting the three DMA channels and their status. *)
Definition reset_channels : A unit :=
  bm_out8 AC97_PO_CR AC97_CR_RR ;; bm_out8 AC97_PO_CR 0 ;;
  bm_out8 AC97_PI_CR AC97_CR_RR ;; bm_out8 AC97_PI_CR 0 ;;
  bm_out8 AC97_MC_CR AC97_CR_RR ;; bm_out8 AC97_MC_CR 0 ;;
  bm_out16 AC97_PO_SR 0x1E ;; bm_out16 AC97_PI_SR 0x1E ;; bm_out16 AC97_MC_SR 0x1E.

(** The default volumes, read back, and both outputs unmuted. *)
Definition default_volumes : A unit :=
  ac97_set_master_volume 75 75 ;;
  ac97_set_pcm_volume 100 100 ;;
  v ← ac97_get_master_volume;
  v ← ac97_get_pcm_volume;
  ac97_mute_master 0 ;;
  ac97_mute_pcm 0 ;;
  master_vol ← ac97_codec_read AC97_NAM_MASTER_VOLUME;
  pcm_vol ← ac97_codec_read AC97_NAM_PCM_OUT_VOLUME;
  mret ().

Definition ac97_reset : A Z :=
  glob_cnt ← bm_in32 AC97_GLOB_CNT;
  bm_out32 AC97_GLOB_CNT (Z.land glob_cnt (Z.lnot AC97_GLOB_CNT_COLD_RESET)) ;;
  glob_cnt ← bm_in32 AC97_GLOB_CNT;
  bm_out32 AC97_GLOB_CNT (Z.lor glob_cnt AC97_GLOB_CNT_COLD_RESET) ;;
  r ← ac97_wait_codec_ready;
  if negb (r =? 0) then mret (-1) else
  glob_cnt ← bm_in32 AC97_GLOB_CNT;
  bm_out32 AC97_GLOB_CNT (Z.lor glob_cnt AC97_GLOB_CNT_GIE) ;;
  verify ← bm_in32 AC97_GLOB_CNT;
  ac97_codec_write AC97_NAM_RESET 0 ;;
  power_up ;;
  ok ← codec_check;
  if negb ok then mret (-1) else
  detect_features ;;
  default_volumes ;;
  reset_channels ;;
  glob_sta ← bm_in32 AC97_GLOB_STA;
  mret 0.

(** ** Initialisation *)
Definition ac97_detect : A Z :=
  r ← ac97_find_device;
  if negb (r =? 0) then mret (-1) else
  d ← dev;
  command ← pci_read_config d.(bus) d.(device) d.(function) PCI_COMMAND;
  pci_write_config d.(bus) d.(device) d.(function) PCI_COMMAND (Z.lor command 5) ;;
  bar0 ← pci_read_config d.(bus) d.(device) d.(function) PCI_BAR0;
  bar1 ← pci_read_config d.(bus) d.(device) d.(function) PCI_BAR1;
  upd (set_nam_bar (Z.land bar0 0xFFFE)) ;;
  upd (set_nabm_bar (Z.land bar1 0xFFFE)) ;;
  irq_reg ← pci_read_config d.(bus) d.(device) d.(function) PCI_IRQ_LINE;
  upd (set_irq (Z.land irq_reg 0xFF)) ;;
  mret 0.

(** [kfree(g_ac97_device); g_ac97_device = NULL; return -1;] *)
Definition give_up_device (fuel : nat) : A Z :=
  g ← gets g_ac97_device;
  m ← gets memory;
  m ← lift (kfree fuel (match g with Some (a, _) => a | None => 0 end) m);
  modify (set_memory m) ;; modify (set_g_device None) ;; mret (-1).

(** [handler] is the address of [ac97_interrupt_handler]. *)
Definition ac97_init (fuel : nat) (handler : Z) : A Z :=
  m ← gets memory;
  '(p, m) ← lift (kmalloc fuel sizeof_device m);
  modify (set_memory m) ;;
  if p =? 0 then modify (set_g_device None) ;; mret (-1) else
  modify (set_g_device (Some (p, zero_device))) ;;
  r ← ac97_detect;
  if negb (r =? 0) then give_up_device fuel else
  d ← dev;
  if (d.(nam_bar) =? 0) || (d.(nabm_bar) =? 0) then mret (-1) else
  r ← ac97_reset;
  if negb (r =? 0) then give_up_device fuel else
  r ← ac97_stream_init fuel Playback true;
  if negb (r =? 0) then give_up_device fuel else
  glob_cnt ← bm_in32 AC97_GLOB_CNT;
  bm_out32 AC97_GLOB_CNT (Z.lor glob_cnt AC97_GLOB_CNT_GIE) ;;
  upd (set_initialized 1) ;;
  d ← dev;
  (if 0 <? d.(irq)
   then k ← gets kern; k ← lift (irq_install_handler d.(irq) (Some handler) k); modify (set_kern k) else mret ()) ;;
  mret 0.

(** The first two buffers can be written and read back. *)
Fixpoint test_buffers (n : nat) (i : Z) : A Z :=
  match n with
  | O => mret 0
  | S n =>
    d ← dev;
    buf ← lift (aget d.(playback_stream).(buffers) i);
    if buf =? 0 then mret (-1) else
    store_at buf [0xAA; 0xBB] ;;
    m ← gets memory;
    if (peek (mem m) buf =? 0xAA) && (peek (mem m) (buf + 1) =? 0xBB)
    then store_at buf [0; 0] ;; test_buffers n (i + 1) else mret (-1)
  end.
Definition ac97_test_buffers : A Z :=
  none ← no_device; if (none : bool) then mret (-1) else test_buffers 2 0.

(** ** Playing *)
Fixpoint pcm_loop (fuel spin : nat) (samples total offset : Z) : A unit :=
  if offset <? total then
    match fuel with
    | O => lift OutOfFuel
    | S fuel =>
      ac97_wait_for_buffer spin ;;
      let chunk := u32 (total - offset) in
      let chunk := if AC97_BUFFER_SIZE <? chunk then AC97_BUFFER_SIZE else chunk in
      written ← ac97_play_buffer (samples + offset) chunk;
      if written <? 0 then mret () else pcm_loop fuel spin samples total (u32 (offset + written))
    end
  else mret ().

(** [samples] is an address. *)
Definition audio_play_pcm (fuel spin : nat) (samples sample_count nchannels rate : Z) : A Z :=
  off ← not_initialized;
  if (off : bool) then mret (-1) else
  r ← ac97_play_init (if nchannels =? 2 then AC97_FORMAT_STEREO_16 else AC97_FORMAT_MONO_16) (u32 rate);
  if negb (r =? 0) then mret (-1) else
  ac97_play_start ;;
  pcm_loop fuel spin samples (u32 (sample_count * 2 * nchannels)) 0 ;;
  mret 0.

(** *** A square wave *)
Context {WT : Waits (irqs D)}.
Definition wait_with (f : irqs D -> irqs D) : A unit := modify (fun s => set_kern (f s.(kern)) s).

Definition amplitude : Z := 20000.
Definition beep_value (samples_per_cycle n : Z) : Z :=
  if n mod samples_per_cycle <? samples_per_cycle / 2 then amplitude else - amplitude.

(** Both channels of frame [i]. *)
Definition store_frame (buffer i value : Z) : A unit :=
  store16 (buffer + 2 * (i * 2)) value ;; store16 (buffer + 2 * (i * 2 + 1)) value.

(** The inner loop from frame [i] on, [n] frames of room: it ends with the
    number of samples written. The remainder by a zero period is a fault. *)
Fixpoint beep_frames (n : nat) (buffer i samples_per_cycle written total : Z) : A Z :=
  match n with
  | O => mret written
  | S n =>
    if written <? total then
      if samples_per_cycle =? 0 then lift OutOfBounds else
      store_frame buffer i (beep_value samples_per_cycle written) ;;
      beep_frames n buffer (i + 1) samples_per_cycle (written + 1) total
    else mret written
  end.

Fixpoint silent_frames (n : nat) (buffer i : Z) : A unit :=
  match n with O => mret () | S n => store_frame buffer i 0 ;; silent_frames n buffer (i + 1) end.

(** The outer loop over the two buffers. *)
Fixpoint beep_buffers (n : nat) (buf samples_per_cycle written total : Z) : A Z :=
  match n with
  | O => mret written
  | S n =>
    if written <? total then
      d ← dev;
      buffer ← lift (aget d.(playback_stream).(buffers) buf);
      written ← beep_frames (Z.to_nat AC97_BUFFER_SAMPLES) buffer 0 samples_per_cycle written total;
      (if total <=? written then
         let start_idx := written mod AC97_BUFFER_SAMPLES in
         silent_frames (Z.to_nat (AC97_BUFFER_SAMPLES - start_idx)) buffer start_idx
       else mret ()) ;;
      beep_buffers n (buf + 1) samples_per_cycle written total
    else mret written
  end.

(** Waiting for the end of the DMA transfer or the timeout. *)
Fixpoint beep_wait (fuel : nat) (start_time timeout_ticks : Z) : A bool :=
  now ← gets (fun s => s.(kern).(timer_ticks));
  if u64 (now - start_time) <? timeout_ticks then
    match fuel with
    | O => lift OutOfFuel
    | S fuel =>
      sr ← bm_in16 AC97_PO_SR;
      if c_true (Z.land sr 1) then mret true
      else wait_with thread_yield ;; beep_wait fuel start_time timeout_ticks
    end
  else mret false.

(** The number of samples of a beep: 48 per millisecond, at most two buffers. *)
Definition beep_samples (duration_ms : Z) : Z :=
  let total := s32 (u32 (48000 * duration_ms) / 1000) in
  let max_samples := AC97_BUFFER_SIZE / 4 * 2 in
  if max_samples <? total then max_samples else total.

Definition audio_beep (fuel : nat) (frequency duration_ms : Z) : A Z :=
  off ← not_initialized;
  if (off : bool) then mret (-1) else
  d ← dev;
  (if c_true d.(playback_stream).(running) then ac97_play_stop else mret ()) ;;
  bm_out8 AC97_PO_CR AC97_CR_RR ;;
  bm_out8 AC97_PO_CR 0 ;;
  bm_out16 AC97_PO_SR 0x1E ;;
  r ← ac97_play_init AC97_FORMAT_STEREO_16 AC97_RATE_48000;
  if negb (r =? 0) then mret (-1) else
  d ← dev;
  bm_out32 AC97_PO_BDBAR d.(playback_stream).(bd_list_phys) ;;
  if frequency =? 0 then lift OutOfBounds else
  written ← beep_buffers 2 0 (48000 / frequency) 0 (beep_samples duration_ms);
  store16 (d.(playback_stream).(bd_list) + 6) AC97_BD_FLAG_IOC ;;
  store16 (d.(playback_stream).(bd_list) + 14) AC97_BD_FLAG_IOC ;;
  let needed := Z.quot (written + AC97_BUFFER_SIZE / 4 - 1) (AC97_BUFFER_SIZE / 4) in
  let needed := if 2 <? needed then 2 else needed in
  let needed := if needed =? 0 then 1 else needed in
  bm_out8 AC97_PO_LVI (needed - 1) ;;
  bm_out16 AC97_PO_SR 0x1E ;;
  bm_out8 AC97_PO_CR (Z.lor AC97_CR_RPBM AC97_CR_IOCE) ;;
  upd_pb (set_running 1) ;;
  start_time ← gets (fun s => s.(kern).(timer_ticks));
  completed ← beep_wait fuel start_time (u32 (duration_ms + 100));
  bm_out8 AC97_PO_CR 0 ;;
  upd_pb (set_running 0) ;;
  mret 0.
End Driver.

Definition ac97_get_device_name (g : option ac97_device_t) : string :=
  match g with
  | None => "None"%string
  | Some d =>
    let id := d.(device_id) in
    if id =? 0x2415 then "Intel ICH"%string else if id =? 0x2425 then "Intel ICH0"%string else
    if id =? 0x2445 then "Intel ICH2"%string else if id =? 0x2485 then "Intel ICH3"%string else
    if id =? 0x24C5 then "Intel ICH4"%string else if id =? 0x24D5 then "Intel ICH5"%string else
    if id =? 0x266E then "Intel ICH6"%string else if id =? 0x27DE then "Intel ICH7"%string else "Generic AC'97"%string
  end.
End Ac97.
