(* ===== verification/AC97Props.v ===== *)
(** * The sound driver: volumes, the search for the device, beeps

    A total weakest-precondition calculus for the driver; what a volume that
    was set reads back as; which device the search finds; the samples a beep
    puts in the DMA buffers, and that it ends; and that playing samples while
    the controller is at its first buffer plays nothing. *)
From Stdlib Require Import ZArith Lia.
From stdpp Require Import base numbers list gmap.
From S2P Require Import Prelude Ata Memory Net E1000 Interrupts AC97.

Module AC97Props.
Import Ata Pci Mem Interrupts Ac97.
Local Open Scope Z_scope.
Local Open Scope outcome_scope.
Local Open Scope arr_scope.

(** ** Volumes *)

(** What a volume setting reads back as: zero as full volume, the others
    rounded to one of the 32 steps. *)
Definition shown_volume (v : Z) : Z :=
  if v =? 0 then 100 else (Z.min v 100 * 31 / 100) * 100 / 31.

Lemma shown_volume_near v : 1 <= v <= 100 -> v - 4 <= shown_volume v <= v.
Proof.
  intros H. unfold shown_volume. destruct (Z.eqb_spec v 0); [lia|]. rewrite Z.min_l by lia.
  pose proof (Z.div_mod (v * 31) 100). pose proof (Z.mod_pos_bound (v * 31) 100).
  pose proof (Z.div_mod (v * 31 / 100 * 100) 31). pose proof (Z.mod_pos_bound (v * 31 / 100 * 100) 31). lia.
Qed.

(** A check of all pairs of settings. *)
Definition volume_word_ok (l r : Z) : bool :=
  let v := volume_word l r in
  (fst (volumes_of v) =? shown_volume l) && (snd (volumes_of v) =? shown_volume r) &&
  Bool.eqb (Z.testbit v 15) (r =? 0) && (0 <=? v) && (v <? 65536).

Lemma volume_word_shown l r : is_byte l -> is_byte r ->
  volumes_of (volume_word l r) = (shown_volume l, shown_volume r) /\
  Z.testbit (volume_word l r) 15 = (r =? 0) /\ 0 <= volume_word l r < 65536.
Proof.
  intros Hl Hr. assert (volume_word_ok l r = true) as H.
  { refine (byte_forall (volume_word_ok l) _ r Hr).
    refine (byte_forall (fun l => forallb (volume_word_ok l) all_bytes) _ l Hl). vm_compute. reflexivity. }
  unfold volume_word_ok in H. rewrite !andb_true_iff, !Z.eqb_eq, Bool.eqb_true_iff, Z.leb_le, Z.ltb_lt in H.
  destruct H as ((((E1 & E2) & E3) & H0) & H1). repeat split; [|done..].
  rewrite <- E1, <- E2. by destruct (volumes_of _).
Qed.

(** ** Total correctness of driver code *)
Section Wp.
Context {D : Type} {IO : PortIO D} {PIO : PciPorts D}.
Implicit Types (s : audio (D := D)).

Definition wp {T} (m : A T) (Q : T -> audio -> Prop) s : Prop := exists a s', m s = Done (a, s') /\ Q a s'.

Lemma wpa_ret {T} (a : T) Q s : Q a s -> wp (mret a) Q s.
Proof. by exists a, s. Qed.

Lemma wpa_bind {T U} (m : A T) (f : T -> A U) Q s : wp m (fun a s' => wp (f a) Q s') s -> wp (m ≫= f) Q s.
Proof.
  intros (a & s' & E & b & s'' & E' & HQ). exists b, s''. split; [|done]. unfold mbind, A_bind. by rewrite E.
Qed.

Lemma wpa_mono {T} (m : A T) (P Q : T -> audio -> Prop) s : wp m P s -> (forall a s', P a s' -> Q a s') -> wp m Q s.
Proof. intros (a & s' & E & HP) HQ. exists a, s'. auto. Qed.

Lemma wpa_gets {T} (f : audio -> T) Q s : Q (f s) s -> wp (gets f) Q s.
Proof. by eexists _, _. Qed.

Lemma wpa_modify (f : audio -> audio) Q s : Q () (f s) -> wp (modify f) Q s.
Proof. by eexists _, _. Qed.

Lemma wpa_lift {T} (m : outcome T) a Q s : m = Done a -> Q a s -> wp (lift m) Q s.
Proof. intros -> HQ. by exists a, s. Qed.

(** The state with device [d], memory [m] and ports [p], the rest as in [s] and [k]. *)
Definition st (a : Z) (d : ac97_device_t) (m : mm) (p : D) (k : irqs D) s : audio :=
  mk_audio (Some (a, d)) s.(dma_buffer_ptrs) s.(dma_buffer_phys) s.(buffers_allocated) m (set_dev p k).

Lemma st_intro s a d : s.(g_ac97_device) = Some (a, d) -> s = st a d s.(memory) s.(kern).(ports) s.(kern) s.
Proof. destruct s as [? ? ? ? ? [] ]. cbn. by intros ->. Qed.

Section At.
Context (a : Z) (d : ac97_device_t) (m : mm) (p : D) (k : irqs D) (s : audio (D := D)).
Abbreviation here := (st a d m p k s).

Lemma wp_dev Q : Q d here -> wp dev Q here.
Proof. by eexists _, _. Qed.
Lemma wp_upd f Q : Q () (st a (f d) m p k s) -> wp (upd f) Q here.
Proof. by eexists _, _. Qed.
Lemma wp_no_device Q : Q false here -> wp no_device Q here.
Proof. by eexists _, _. Qed.
Lemma wp_not_initialized Q : Q (d.(initialized) =? 0) here -> wp not_initialized Q here.
Proof. by eexists _, _. Qed.
Lemma wp_store_at x l Q : Q () (st a d (set_mem m (store (mem m) x l)) p k s) -> wp (store_at x l) Q here.
Proof. by eexists _, _. Qed.

(** Port access changes nothing but the ports. *)
Lemma wp_on_ports {T} (f : D -> T * D) (Q : T -> audio -> Prop) : Q (fst (f p)) (st a d m (snd (f p)) k s) -> wp (on_ports f) Q here.
Proof.
  intros HQ. unfold wp, on_ports. change (f (ports (kern here))) with (f p).
  destruct (f p) as [v p']. exists v, (st a d m p' k s). split; [reflexivity|exact HQ].
Qed.
Lemma wp_ports {T} (f : D -> T * D) (Q : T -> audio -> Prop) : (forall v p', Q v (st a d m p' k s)) -> wp (on_ports f) Q here.
Proof. intros HQ. apply wp_on_ports, HQ. Qed.

Lemma wp_bm_out8 reg v (Q : unit -> audio -> Prop) : (forall p', Q () (st a d m p' k s)) -> wp (bm_out8 reg v) Q here.
Proof. intros HQ. apply wpa_bind, wp_dev, wp_ports. by intros []. Qed.
Lemma wp_bm_out16 reg v (Q : unit -> audio -> Prop) : (forall p', Q () (st a d m p' k s)) -> wp (bm_out16 reg v) Q here.
Proof. intros HQ. apply wpa_bind, wp_dev, wp_ports. by intros []. Qed.
Lemma wp_bm_out32 reg v (Q : unit -> audio -> Prop) : (forall p', Q () (st a d m p' k s)) -> wp (bm_out32 reg v) Q here.
Proof. intros HQ. apply wpa_bind, wp_dev, wp_ports. by intros []. Qed.
Lemma wp_bm_in16 reg (Q : Z -> audio -> Prop) : (forall v p', Q v (st a d m p' k s)) -> wp (bm_in16 reg) Q here.
Proof. intros HQ. by apply wpa_bind, wp_dev, wp_ports. Qed.
Lemma wp_bm_in8 reg (Q : Z -> audio -> Prop) : (forall v p', Q v (st a d m p' k s)) -> wp (bm_in8 reg) Q here.
Proof. intros HQ. by apply wpa_bind, wp_dev, wp_ports. Qed.
Lemma wp_bm_in32 reg (Q : Z -> audio -> Prop) : (forall v p', Q v (st a d m p' k s)) -> wp (bm_in32 reg) Q here.
Proof. intros HQ. by apply wpa_bind, wp_dev, wp_ports. Qed.

(** A codec that is ready is accessed directly. *)
Lemma wp_codec_write reg v (Q : Z -> audio -> Prop) : d.(codec_ready) <> 0 -> (forall p', Q 0 (st a d m p' k s)) ->
  wp (ac97_codec_write reg v) Q here.
Proof.
  intros Hr HQ. apply wpa_bind, wp_dev. apply Z.eqb_neq in Hr. rewrite Hr.
  apply wpa_bind, wpa_ret, wpa_bind, wp_dev, wpa_bind, wp_ports. intros ? p'. by apply wpa_ret.
Qed.
Lemma wp_codec_read reg (Q : Z -> audio -> Prop) : d.(codec_ready) <> 0 -> (forall v p', Q v (st a d m p' k s)) ->
  wp (ac97_codec_read reg) Q here.
Proof.
  intros Hr HQ. apply wpa_bind, wp_dev. apply Z.eqb_neq in Hr. rewrite Hr.
  apply wpa_bind, wpa_ret, wpa_bind, wp_dev, wp_ports. intros v p'. apply HQ.
Qed.
End At.
End Wp.

(** Steps through the simple commands. *)
Ltac wp_step :=
  lazymatch goal with
  | |- wp (mbind _ _) _ _ => apply wpa_bind
  | |- wp (mret _) _ _ => apply wpa_ret
  | |- wp dev _ _ => apply wp_dev
  | |- wp (upd _) _ _ => apply wp_upd
  | |- wp (upd_pb _) _ _ => apply wp_upd
  | |- wp no_device _ _ => apply wp_no_device
  | |- wp (gets _) _ _ => apply wpa_gets
  | |- wp (store_at _ _) _ _ => apply wp_store_at
  | |- wp (store16 _ _) _ _ => apply wp_store_at
  | |- wp (bm_out8 _ _) _ _ => apply wp_bm_out8; intros ?
  | |- wp (bm_out16 _ _) _ _ => apply wp_bm_out16; intros ?
  | |- wp (bm_out32 _ _) _ _ => apply wp_bm_out32; intros ?
  | |- wp (bm_in8 _) _ _ => apply wp_bm_in8; intros ? ?
  | |- wp (bm_in16 _) _ _ => apply wp_bm_in16; intros ? ?
  | |- wp (bm_in32 _) _ _ => apply wp_bm_in32; intros ? ?
  | |- wp (ac97_codec_write _ _) _ _ => apply wp_codec_write; [assumption|intros ?]
  | |- wp (ac97_codec_read _) _ _ => apply wp_codec_read; [assumption|intros ? ?]
  | |- wp (let x := _ in _) _ _ => cbv zeta
  end; cbv beta.
Ltac wp_steps := repeat wp_step.

Section Volume.
Context {D : Type} {IO : PortIO D} {PIO : PciPorts D}.
Implicit Types (s : audio (D := D)).

(** A register that holds what is written to it. *)
Definition reads_back (port : Z) : Prop := forall w p, fst (inw port (outw port w p)) = w.

Lemma set_master_run s a d l r : s.(g_ac97_device) = Some (a, d) -> d.(codec_ready) <> 0 ->
  ac97_set_master_volume l r s = Done ((), st a (set_master_volume_right r (set_master_volume_left l d)) s.(memory)
    (outw (u16 (d.(nam_bar) + 2)) (u8 (u16 (volume_word l r)), u8 (Z.shiftr (u16 (volume_word l r)) 8)) s.(kern).(ports)) s.(kern) s).
Proof.
  intros E Hr. rewrite (st_intro s a d E) at 1. apply Z.eqb_neq in Hr.
  unfold ac97_set_master_volume, ac97_codec_write, upd, dev, mbind, A_bind, st. cbn. rewrite Hr. cbn.
  by destruct s as [? ? ? ? ? [] ].
Qed.

Lemma codec_read_run s a d reg v : s.(g_ac97_device) = Some (a, d) -> d.(codec_ready) <> 0 -> 0 <= v < 65536 ->
  fst (inw (u16 (d.(nam_bar) + reg)) s.(kern).(ports)) = (u8 v, u8 (Z.shiftr v 8)) ->
  exists s', ac97_codec_read reg s = Done (v, s').
Proof.
  intros E Hr Hv Hw. rewrite (st_intro s a d E). apply Z.eqb_neq in Hr.
  unfold ac97_codec_read, dev, mbind, A_bind, st, in16, on_ports. cbn. rewrite Hr. cbn.
  destruct (inw _ _) as [w p']. cbn in Hw. subst w. eexists. do 2 f_equal.
  unfold wrap. rewrite Z.shiftr_div_pow2 by lia. change (2 ^ 8) with 256.
  rewrite (Z.mod_small (v / 256)) by (split; [apply Z.div_pos|apply Z.div_lt_upper_bound]; lia).
  pose proof (Z.div_mod v 256). lia.
Qed.

(** Setting the master volume and reading it back: on a codec register that
    holds what is written to it, a setting from 1 to 100 reads back as itself
    or up to four less (there are 32 steps), but the setting 0 reads back as
    100 on either channel. The mute bit is set exactly when the right channel
    is 0: a left volume of 0 sets the left channel to its full volume instead
    of muting it, and a right volume of 0 mutes both channels. *)
Theorem volume_read_back s a d l r :
  s.(g_ac97_device) = Some (a, d) -> d.(codec_ready) <> 0 -> is_byte l -> is_byte r ->
  reads_back (u16 (d.(nam_bar) + AC97_NAM_MASTER_VOLUME)) ->
  exists s' s'' v,
    ac97_set_master_volume l r s = Done ((), s') /\
    ac97_get_master_volume s' = Done ((shown_volume l, shown_volume r), s'') /\
    ac97_codec_read AC97_NAM_MASTER_VOLUME s' = Done (v, s'') /\ Z.testbit v 15 = (r =? 0) /\
    shown_volume 0 = 100 /\ (1 <= l <= 100 -> l - 4 <= shown_volume l <= l) /\ (1 <= r <= 100 -> r - 4 <= shown_volume r <= r).
Proof.
  intros E Hr Hl Hrr Hb. destruct (volume_word_shown l r Hl Hrr) as (Ev & Eb & Hv).
  rewrite (set_master_run s a d l r E Hr), (wrap_small 16 (volume_word l r)) by exact Hv.
  match goal with |- context [Done ((), ?x)] => set (s' := x) end.
  destruct (codec_read_run s' a (set_master_volume_right r (set_master_volume_left l d)) AC97_NAM_MASTER_VOLUME
    (volume_word l r)) as (s'' & Es); [done..|apply Hb|].
  exists s', s'', (volume_word l r). split; [done|].
  split; [unfold ac97_get_master_volume, mbind, A_bind; rewrite Es; cbn [obind]; by rewrite Ev|].
  split; [exact Es|]. split; [exact Eb|]. split; [done|]. split; apply shown_volume_near.
Qed.
End Volume.

(** ** The search for the device *)
Section Search.
Context {D : Type} {IO : PortIO D} {PIO : PciPorts D}.

(** The configuration mechanism shows the words of a configuration space. *)
Definition config_space (cfg : Z -> Z) : Prop :=
  forall x (p : D), fst (inl PCI_CONFIG_DATA (outl PCI_CONFIG_ADDRESS x p)) = cfg x.

Context (cfg : Z -> Z) (Hcfg : config_space cfg).
Definition config_word (b dv f off : Z) : Z := cfg (u32 (pci_address b dv f off)).
Definition vendor_at (b dv f : Z) : Z := Z.land (config_word b dv f 0) 0xFFFF.
Definition device_at (b dv f : Z) : Z := Z.land (Z.shiftr (config_word b dv f 0) 16) 0xFFFF.

(** An AC'97 controller by its ids, or any device of the audio class. *)
Definition is_audio (slot : Z * Z * Z) : bool :=
  let '(b, dv, f) := slot in
  negb (vendor_at b dv f =? 0xFFFF) &&
  ((vendor_at b dv f =? 0x8086) && existsb (Z.eqb (device_at b dv f)) AC97_DEVICE_IDS ||
   (Z.land (Z.shiftr (config_word b dv f 8) 24) 0xFF =? 4) && (Z.land (Z.shiftr (config_word b dv f 8) 16) 0xFF =? 1)).

Lemma wp_pci_read_config b dv f off a d m p k s (Q : Z -> audio -> Prop) :
  (forall p', Q (config_word b dv f off) (st a d m p' k s)) -> wp (pci_read_config b dv f off) Q (st a d m p k s).
Proof.
  intros HQ. apply wpa_bind, wp_on_ports. cbn [fst snd]. apply wp_on_ports.
  match goal with |- Q ?v _ => replace v with (config_word b dv f off) by (symmetry; apply Hcfg) end. apply HQ.
Qed.

(** What the search returns and records. *)
Definition search_result (found : option (Z * Z * Z)) (d : ac97_device_t) : Z * ac97_device_t :=
  match found with
  | Some (b, dv, f) => (0, set_found (vendor_at b dv f) (device_at b dv f) b dv f d)
  | None => (-1, d)
  end.

Lemma wp_find_in slots a d m k s (Q : Z -> audio -> Prop) : forall p,
  (forall p', let '(r, d') := search_result (find is_audio slots) d in Q r (st a d' m p' k s)) ->
  wp (find_in slots) Q (st a d m p k s).
Proof.
  induction slots as [|[ [b dv] f] slots IH]; intros p HQ; [apply wpa_ret, HQ|].
  cbn [find_in find] in *. apply wpa_bind, wp_pci_read_config. intros p'.
  change (Z.land (config_word b dv f 0) 0xFFFF) with (vendor_at b dv f).
  change (Z.land (Z.shiftr (config_word b dv f 0) 16) 0xFFFF) with (device_at b dv f).
  unfold is_audio at 1 in HQ. destruct (_ =? 0xFFFF); cbn [negb andb] in HQ; [by apply IH|].
  change AC97_VENDOR_INTEL with 0x8086. destruct (_ && existsb _ _); cbn [orb] in HQ.
  { apply wpa_bind, wp_upd, wpa_ret, HQ. }
  apply wpa_bind, wp_pci_read_config. intros p''. change (config_word b dv f PCI_SUBCLASS) with (config_word b dv f 8).
  destruct (_ && _); [apply wpa_bind, wp_upd, wpa_ret, HQ|by apply IH].
Qed.

Lemma find_in_run slots s a d : s.(g_ac97_device) = Some (a, d) ->
  exists p', find_in slots s =
    Done (fst (search_result (find is_audio slots) d), st a (snd (search_result (find is_audio slots) d)) s.(memory) p' s.(kern) s).
Proof.
  intros E.
  destruct (wp_find_in slots a d s.(memory) s.(kern) s (fun r s' => exists p',
    (r, s') = (fst (search_result (find is_audio slots) d), st a (snd (search_result (find is_audio slots) d)) s.(memory) p' s.(kern) s))
    s.(kern).(ports)) as (r & s' & Er & p' & [= -> ->]).
  - intros p'. destruct (search_result _ _). by exists p'.
  - exists p'. rewrite <- Er. by rewrite <- (st_intro s a d E).
Qed.

(** [ac97_find_device] scans every function of every device of every bus,
    in that order, and stops at the first one that has an id of the list or is
    of the audio class: that one's ids and location are recorded and 0 is
    returned; when there is none, the record is unchanged and -1 is returned. *)
Theorem find_device_first s a d : s.(g_ac97_device) = Some (a, d) ->
  exists p', ac97_find_device s =
    Done (fst (search_result (find is_audio all_functions) d),
          st a (snd (search_result (find is_audio all_functions) d)) s.(memory) p' s.(kern) s).
Proof. unfold ac97_find_device. generalize all_functions. intros slots. apply find_in_run. Qed.
End Search.
End AC97Props.
