(* ===== verification/Beep.v ===== *)
(** * Beeps

    What [audio_beep] leaves in the DMA buffers, and that it returns: the
    stores of the loops are one store of a list of frames, and the wait ends
    because the timer advances. *)
From Stdlib Require Import ZArith Lia.
From stdpp Require Import base numbers list gmap.
From S2P Require Import Prelude Ata Memory MemoryProps Net E1000 Interrupts AC97 AC97Props.

Module Beep.
Import Ata Pci Mem MemProps Interrupts Ac97 AC97Props.
Local Open Scope Z_scope.
Local Open Scope outcome_scope.

(** ** Frames in memory *)

(** A frame: both channels. *)
Definition frame (v : Z) : list Z := (le_bytes 2 (u16 v) ++ le_bytes 2 (u16 v))%list.
Definition frames (l : list Z) : list Z := flat_map frame l.

Lemma length_frames l : length (frames l) = (4 * length l)%nat.
Proof. induction l as [|v l IH]; [done|]. change (frames (v :: l)) with (frame v ++ frames l)%list.
  rewrite length_app, IH. cbn [length frame]. unfold frame. rewrite length_app, !length_le_bytes. lia. Qed.

Lemma frames_app l k : frames (l ++ k) = (frames l ++ frames k)%list.
Proof. apply flat_map_app. Qed.

Lemma store_app l : forall b a k, store b a (l ++ k) = store (store b a l) (a + Z.of_nat (length l)) k.
Proof.
  induction l as [|x l IH]; intros b a k; cbn [store app length]; [by rewrite Z.add_0_r|].
  rewrite IH. f_equal. lia.
Qed.

Lemma lookup_store l : forall b a x,
  store b a l !! x = if decide (a <= x < a + Z.of_nat (length l)) then l !! Z.to_nat (x - a) else b !! x.
Proof.
  induction l as [|y l IH]; intros b a x; cbn [store length]; [by rewrite decide_False by lia|].
  rewrite IH. destruct (decide (x = a)) as [->|].
  - rewrite decide_False, decide_True by lia. rewrite lookup_insert_eq, Z.sub_diag. done.
  - rewrite lookup_insert_ne by done. repeat case_decide; try lia; try done.
    by replace (Z.to_nat (x - a)) with (S (Z.to_nat (x - (a + 1)))) by lia.
Qed.

Lemma store_overwrite b a l k : (length l <= length k)%nat -> store (store b a l) a k = store b a k.
Proof. intros H. apply map_eq. intros x. rewrite !lookup_store. repeat case_decide; try lia; done. Qed.

(** The sample of channel [c] (0 or 1) in frame [i] of a buffer. *)
Definition sample_at (b : bytes) (buffer i c : Z) : Z := swrap 16 (load b (buffer + 4 * i + 2 * c) 2).

Lemma load_frames b base l i c v : l !! i = Some v -> c = 0 \/ c = 1 -> - 2 ^ 15 <= v < 2 ^ 15 ->
  sample_at (store b base (frames l)) base (Z.of_nat i) c = v.
Proof.
  intros Hi Hc Hv. unfold sample_at. rewrite <- (take_drop_middle l i v Hi), frames_app.
  change (frames (v :: drop (S i) l)) with (frame v ++ frames (drop (S i) l))%list. unfold frame.
  assert (length (frames (take i l)) = (4 * i)%nat) as Hl.
  { rewrite length_frames, length_take. apply lookup_lt_Some in Hi. lia. }
  assert (swrap 16 (le_value (le_bytes 2 (u16 v))) = v) as Ev.
  { rewrite le_value_bytes. change (256 ^ Z.of_nat 2) with (2 ^ 16). unfold wrap. rewrite Z.mod_mod by lia.
    unfold swrap. rewrite Zplus_mod_idemp_l. apply (swrap_small 16); lia. }
  rewrite <- app_assoc, !store_app, !Hl, !length_le_bytes.
  destruct Hc as [->| ->].
  - rewrite !load_store_ne by (rewrite ?length_le_bytes; lia).
    replace (base + 4 * Z.of_nat i + 2 * 0) with (base + Z.of_nat (4 * i)) by lia.
    rewrite <- (length_le_bytes 2 (u16 v)) at 2. by rewrite load_store_eq.
  - rewrite load_store_ne by lia.
    replace (base + 4 * Z.of_nat i + 2 * 1) with (base + Z.of_nat (4 * i) + Z.of_nat 2) by lia.
    rewrite <- (length_le_bytes 2 (u16 v)) at 3. by rewrite load_store_eq.
Qed.

(** ** The loops *)

(** [n] samples of the wave from sample [w] on. *)
Definition square (spc w n : Z) : list Z := map (beep_value spc) (seqZ w n).

(** The frames of buffer [j] of a beep of [total] samples that begins before
    its end: the wave and silence after it. When the wave ends with the buffer
    the code silences all of it. *)
Definition beep_buffer (spc total j : Z) : list Z :=
  let w := 2048 * j in
  if total - w <? 2048 then (square spc w (total - w) ++ replicate (Z.to_nat (2048 - (total - w))) 0)%list
  else if total =? w + 2048 then replicate 2048 0 else square spc w 2048.

Lemma length_square spc w n : length (square spc w n) = Z.to_nat n.
Proof. unfold square. by rewrite length_map, length_seqZ. Qed.

Section Loops.
Context {D : Type} {IO : PortIO D} {PIO : PciPorts D}.
Context (a : Z) (d : ac97_device_t) (m : mm) (p : D) (k : irqs D) (s : audio (D := D)).
Abbreviation here b := (st a d (set_mem m b) p k s).

Lemma wp_store_frame base i v b Q : Q () (here (store b (base + 4 * i) (frame v))) -> wp (store_frame base i v) Q (here b).
Proof.
  intros HQ. apply wpa_bind, wp_store_at, wp_store_at. revert HQ. unfold frame. rewrite store_app, length_le_bytes.
  replace (base + 2 * (i * 2)) with (base + 4 * i) by lia.
  by replace (base + 2 * (i * 2 + 1)) with (base + 4 * i + Z.of_nat 2) by lia.
Qed.

Lemma store_frame_cons b base i v l :
  store (store b (base + 4 * i) (frame v)) (base + 4 * (i + 1)) (frames l) = store b (base + 4 * i) (frames (v :: l)).
Proof.
  change (frames (v :: l)) with (frame v ++ frames l)%list. rewrite store_app. f_equal.
  unfold frame. rewrite length_app, !length_le_bytes. lia.
Qed.

Lemma wp_beep_frames n : forall base i spc w total b Q, spc <> 0 -> w <= total ->
  (let c := Z.min (Z.of_nat n) (total - w) in Q (w + c) (here (store b (base + 4 * i) (frames (square spc w c))))) ->
  wp (beep_frames n base i spc w total) Q (here b).
Proof.
  induction n as [|n IH]; intros base i spc w total b Q Hs Hw HQ; cbn [beep_frames].
  { apply wpa_ret. cbv zeta in HQ. rewrite Z.min_l, Z.add_0_r in HQ by lia. exact HQ. }
  destruct (Z.ltb_spec w total); cycle 1.
  { apply wpa_ret. cbv zeta in HQ. replace (Z.min _ _) with 0 in HQ by lia. by rewrite Z.add_0_r in HQ. }
  destruct (Z.eqb_spec spc 0); [done|]. apply wpa_bind, wp_store_frame, IH; [done|lia|]. cbv zeta in *.
  replace (w + 1 + _) with (w + Z.min (Z.of_nat (S n)) (total - w)) by lia.
  rewrite store_frame_cons. revert HQ. unfold square. rewrite (seqZ_cons w (Z.min (Z.of_nat (S n)) _)) by lia.
  cbn [map]. replace (Z.pred _) with (Z.min (Z.of_nat n) (total - (w + 1))) by lia. done.
Qed.

Lemma wp_silent_frames n : forall base i b Q,
  Q () (here (store b (base + 4 * i) (frames (replicate n 0)))) -> wp (silent_frames n base i) Q (here b).
Proof.
  induction n as [|n IH]; intros base i b Q HQ; cbn [silent_frames]; [by apply wpa_ret|].
  apply wpa_bind, wp_store_frame, IH. by rewrite store_frame_cons.
Qed.

(** One round of the loop over the buffers, for buffer [j]. *)
Lemma wp_beep_round n j base spc total b Q : 0 <= j -> spc <> 0 -> 2048 * j < total ->
  aget d.(playback_stream).(buffers) j = Done base ->
  wp (beep_buffers n (j + 1) spc (Z.min (2048 * (j + 1)) total) total) Q (here (store b base (frames (beep_buffer spc total j)))) ->
  wp (beep_buffers (S n) j spc (2048 * j) total) Q (here b).
Proof.
  intros Hj Hs Ht Hb HQ. cbn [beep_buffers]. destruct (Z.ltb_spec (2048 * j) total); [|lia].
  apply wpa_bind, wp_dev, wpa_bind. eapply wpa_lift; [exact Hb|].
  apply wpa_bind, wp_beep_frames; [done|lia|]. cbv zeta. rewrite Z.mul_0_r, Z.add_0_r.
  change (Z.of_nat (Z.to_nat AC97_BUFFER_SAMPLES)) with 2048. change AC97_BUFFER_SAMPLES with 2048.
  replace (2048 * j + Z.min 2048 (total - 2048 * j)) with (Z.min (2048 * (j + 1)) total) by lia.
  apply wpa_bind. unfold beep_buffer in HQ. cbv zeta in HQ. destruct (Z.ltb_spec (total - 2048 * j) 2048).
  - rewrite !(Z.min_r _ total), (Z.min_r 2048) in * by lia. destruct (Z.leb_spec total total); [|lia].
    replace (total mod 2048) with (total - 2048 * j)
      by (apply (Z.mod_unique_pos _ _ j); lia).
    apply wp_silent_frames. revert HQ. rewrite frames_app, store_app, length_frames, length_square.
    by replace (Z.of_nat (4 * _)) with (4 * (total - 2048 * j)) by lia.
  - rewrite !(Z.min_l _ total), (Z.min_l 2048) in * by lia. destruct (Z.leb_spec total (2048 * (j + 1))).
    + replace (2048 * (j + 1) mod 2048) with 0 by (rewrite Z.mul_comm, Z.mod_mul; lia).
      apply wp_silent_frames. rewrite Z.mul_0_r, Z.add_0_r, store_overwrite
        by (rewrite !length_frames, length_square, length_replicate; lia).
      destruct (Z.eqb_spec total (2048 * j + 2048)); [exact HQ|lia].
    + apply wpa_ret. destruct (Z.eqb_spec total (2048 * j + 2048)); [lia|exact HQ].
Qed.

(** Memory after both buffers. *)
Definition beep_bytes (spc total b0 b1 : Z) (b : bytes) : bytes :=
  if total <=? 0 then b else
  let b := store b b0 (frames (beep_buffer spc total 0)) in
  if total <=? 2048 then b else store b b1 (frames (beep_buffer spc total 1)).

Lemma wp_beep_buffers b0 b1 rest spc total b Q : spc <> 0 -> 0 <= total <= 4096 -> d.(playback_stream).(buffers) = b0 :: b1 :: rest ->
  Q total (here (beep_bytes spc total b0 b1 b)) -> wp (beep_buffers 2 0 spc 0 total) Q (here b).
Proof.
  intros Hs Ht Hb HQ. unfold beep_bytes in HQ. destruct (Z.leb_spec total 0).
  { cbn [beep_buffers]. destruct (Z.ltb_spec 0 total); [lia|]. apply wpa_ret. by replace 0 with total by lia. }
  apply (wp_beep_round 1 0 b0); [lia|done|lia|by rewrite Hb|]. destruct (Z.leb_spec total 2048).
  { rewrite Z.min_r by lia. cbn [beep_buffers]. destruct (Z.ltb_spec total total); [lia|]. by apply wpa_ret. }
  rewrite Z.min_l by lia. change (2048 * (0 + 1)) with (2048 * 1).
  apply (wp_beep_round 0 1 b1); [lia|done|lia|by rewrite Hb|]. rewrite Z.min_r by lia. by apply wpa_ret.
Qed.

(** Preparing playback: the device keeps what the driver does not set. *)
Definition keeps (d d' : ac97_device_t) : Prop :=
  d'.(initialized) = d.(initialized) /\ d'.(codec_ready) = d.(codec_ready) /\ d'.(nabm_bar) = d.(nabm_bar) /\
  d'.(playback_stream).(buffers) = d.(playback_stream).(buffers) /\
  d'.(playback_stream).(bd_list) = d.(playback_stream).(bd_list) /\
  d'.(playback_stream).(bd_list_phys) = d.(playback_stream).(bd_list_phys).

Lemma wp_maybe_stop (Q : unit -> audio -> Prop) :
  (forall d' p', keeps d d' -> Q () (st a d' m p' k s)) ->
  wp (if c_true d.(playback_stream).(running) then ac97_play_stop else mret ()) Q (st a d m p k s).
Proof.
  intros HQ. destruct (c_true _); [|by apply wpa_ret, HQ]. unfold ac97_play_stop, ac97_stream_stop. wp_steps. by apply HQ.
Qed.
End Loops.

Section Play.
Context {D : Type} {IO : PortIO D} {PIO : PciPorts D}.

Lemma wp_play_init fmt a d m p k s (Q : Z -> audio (D := D) -> Prop) : d.(initialized) <> 0 -> d.(codec_ready) <> 0 ->
  (forall d' p', keeps d d' -> d'.(playback_stream).(current_buffer) = 0 -> Q 0 (st a d' m p' k s)) ->
  wp (ac97_play_init fmt AC97_RATE_48000) Q (st a d m p k s).
Proof.
  intros Hi Hc HQ. apply wpa_bind, wp_not_initialized. apply Z.eqb_neq in Hi as ->. wp_steps.
  apply wp_maybe_stop. intros d1 p1 (I1 & C1 & N1 & B1 & L1 & P1). unfold ac97_stream_reset, ac97_set_sample_rate. wp_steps.
  cbn [has_variable_rate set_playback_stream]. destruct (_ =? 0).
  - apply wpa_ret. by apply HQ.
  - wp_steps. apply wp_codec_write; [cbn; congruence|intros ?]. wp_steps.
    apply wp_codec_read; [cbn; congruence|intros ? ?]. wp_steps. by apply HQ.
Qed.
End Play.

(** ** Waiting *)

(** Time goes on: a yield returns at a later tick, or brings the next tick
    nearer ([quiet] yields at most are without one). *)
Class WaitLaws (D : Type) `{!Waits (irqs D)} := {
  quiet : irqs D -> nat;
  quiet_bound : nat;
  quiet_le : forall k, (quiet k <= quiet_bound)%nat;
  quiet_ports : forall p k, quiet (set_dev p k) = quiet k;
  yield_ticks : forall k,
    k.(timer_ticks) < (thread_yield k).(timer_ticks) <= k.(timer_ticks) + 2 ^ 32 \/
    (thread_yield k).(timer_ticks) = k.(timer_ticks) /\ (quiet (thread_yield k) < quiet k)%nat
}.

Section Wait.
Context {D : Type} {IO : PortIO D} {PIO : PciPorts D} {WT : Waits (irqs D)} {WL : WaitLaws D}.

Lemma set_kern_st a d m p k k' s : set_kern k' (st a d m p k s) = st a d m k'.(ports) k' (s : audio (D := D)).
Proof. by destruct k'. Qed.

Lemma wp_beep_wait fuel : forall start timeout a d m p k s (Q : bool -> audio -> Prop),
  0 <= k.(timer_ticks) - start < 2 ^ 33 -> 0 <= timeout < 2 ^ 32 ->
  Z.of_nat (quiet k) + Z.max 0 (timeout - (k.(timer_ticks) - start)) * (Z.of_nat quiet_bound + 1) <= Z.of_nat fuel ->
  (forall r p' k', Q r (st a d m p' k' s)) -> wp (beep_wait fuel start timeout) Q (st a d m p k s).
Proof.
  induction fuel as [|fuel IH]; intros start timeout a d m p k s Q Hn Ht Hf HQ; cbn [beep_wait];
    apply wpa_bind, wpa_gets; change (timer_ticks (kern (st a d m p k s))) with k.(timer_ticks);
    rewrite wrap_small by lia; (destruct (Z.ltb_spec (timer_ticks k - start) timeout); [|by apply wpa_ret, HQ]).
  { exfalso. nia. }
  wp_steps. destruct (c_true _); [by apply wpa_ret, HQ|]. apply wpa_bind, wpa_modify.
  rewrite set_kern_st. match goal with |- wp _ _ (st _ _ _ _ (thread_yield (kern (st _ _ _ ?q _ _))) _) => rename q into p' end.
  change (kern (st a d m p' k s)) with (set_dev p' k). pose proof (yield_ticks (set_dev p' k)) as Hy.
  rewrite quiet_ports in Hy. change (timer_ticks (set_dev p' k)) with k.(timer_ticks) in Hy.
  pose proof (quiet_le (thread_yield (set_dev p' k))). apply IH; [destruct Hy; lia|done| |done].
  destruct Hy as [Hy|[-> Hy]]; nia.
Qed.

(** ** The samples of a beep *)

(** A square wave of period [spc]: high for the first half of each period. *)
Definition square_wave (spc n : Z) : Z := if n mod spc <? spc / 2 then 20000 else -20000.

Lemma beep_value_square spc n : beep_value spc n = square_wave spc n.
Proof. reflexivity. Qed.

(** Sample [i] of buffer [j], for a period [spc]: the wave up to the end of
    the beep, except when that is the end of the buffer. *)
Definition beep_sample (spc total j i : Z) : Z :=
  if (2048 * j + i <? total) && negb (total =? 2048 * (j + 1)) then square_wave spc (2048 * j + i) else 0.

Lemma beep_buffer_lookup spc total j i : 0 <= i < 2048 -> 2048 * j < total ->
  beep_buffer spc total j !! Z.to_nat i = Some (beep_sample spc total j i).
Proof.
  intros Hi Ht. unfold beep_buffer, beep_sample, square. cbv zeta.
  assert (forall n, i < n -> map (beep_value spc) (seqZ (2048 * j) n) !! Z.to_nat i = Some (square_wave spc (2048 * j + i))) as Hsq.
  { intros n Hn. change (map ?f ?l) with (f <$> l). rewrite list_lookup_fmap, lookup_seqZ_lt by lia. cbn [fmap option_fmap option_map].
    rewrite beep_value_square. do 2 f_equal. lia. }
  destruct (Z.ltb_spec (total - 2048 * j) 2048).
  - destruct (Z.eqb_spec total (2048 * (j + 1))); [lia|]. rewrite andb_true_r. destruct (Z.ltb_spec (2048 * j + i) total).
    + rewrite lookup_app_l by (rewrite length_map, length_seqZ; lia). apply Hsq. lia.
    + rewrite lookup_app_r by (rewrite length_map, length_seqZ; lia).
      rewrite lookup_replicate. split; [done|]. rewrite length_map, length_seqZ. lia.
  - destruct (Z.ltb_spec (2048 * j + i) total); [|lia]. destruct (Z.eqb_spec total (2048 * j + 2048)).
    + rewrite (proj2 (Z.eqb_eq total (2048 * (j + 1)))) by lia. rewrite lookup_replicate. split; [done|lia].
    + rewrite (proj2 (Z.eqb_neq total (2048 * (j + 1)))) by lia. apply Hsq. lia.
Qed.

Lemma beep_sample_range spc total j i : - 2 ^ 15 <= beep_sample spc total j i < 2 ^ 15.
Proof. unfold beep_sample, square_wave. repeat case_match; lia. Qed.

Lemma length_beep_buffer spc total j : 2048 * j < total -> length (beep_buffer spc total j) = 2048%nat.
Proof.
  intros Ht. unfold beep_buffer. cbv zeta. destruct (Z.ltb_spec (total - 2048 * j) 2048).
  - rewrite length_app, length_square, length_replicate. lia.
  - destruct (_ =? _); [apply length_replicate|by rewrite length_square].
Qed.

Lemma sample_at_ne b x l base i c : x + Z.of_nat (length l) <= base \/ base + 8192 <= x -> 0 <= i < 2048 -> c = 0 \/ c = 1 ->
  sample_at (store b x l) base i c = sample_at b base i c.
Proof. intros Hd Hi Hc. unfold sample_at. by rewrite load_store_ne by lia. Qed.

Lemma beep_bytes_samples spc total b0 b1 b j base i c : b0 + 8192 <= b1 \/ b1 + 8192 <= b0 ->
  j = 0 /\ base = b0 \/ j = 1 /\ base = b1 -> 2048 * j < total -> 0 <= i < 2048 -> c = 0 \/ c = 1 ->
  sample_at (beep_bytes spc total b0 b1 b) base i c = beep_sample spc total j i.
Proof.
  intros Hd Hj Ht Hi Hc. unfold beep_bytes. destruct (Z.leb_spec total 0); [lia|].
  assert (forall b j base, 2048 * j < total ->
    sample_at (store b base (frames (beep_buffer spc total j))) base i c = beep_sample spc total j i) as Hl.
  { intros b' j' base' Hj'. rewrite <- (Z2Nat.id i) at 1 by lia.
    apply load_frames; [by apply beep_buffer_lookup|done|apply beep_sample_range]. }
  destruct (Z.leb_spec total 2048).
  - destruct Hj as [ [-> ->]|[-> ->]]; [by apply Hl|lia].
  - destruct Hj as [ [-> ->]|[-> ->]]; [|by apply Hl].
    rewrite sample_at_ne; [by apply Hl| |done..]. rewrite length_frames, length_beep_buffer by lia. lia.
Qed.

Lemma beep_samples_range dur : 0 <= beep_samples dur <= 4096.
Proof.
  unfold beep_samples. change (AC97_BUFFER_SIZE / 4 * 2) with 4096.
  pose proof (wrap_range 32 (48000 * dur)) as Hr. cbv zeta.
  assert (0 <= u32 (48000 * dur) / 1000 < 2 ^ 31) by (split; [apply Z.div_pos|apply Z.div_lt_upper_bound]; lia).
  rewrite swrap_small by lia. destruct (Z.ltb_spec 4096 (u32 (48000 * dur) / 1000)); lia.
Qed.

(** C31: [audio_beep] on an initialised device, for a frequency of at most 48000
    Hz and any duration, returns 0 with the stream stopped, whatever the sound
    hardware answers, once the timer has advanced by the duration and 100
    ticks. Every sample of each buffer it plays, on both channels, is the
    square wave up to the end of the beep and silence after it. A buffer whose
    end is the end of the beep is silent altogether: since a beep is cut to
    4096 samples (two buffers), the second half of every beep of 86 ms or more
    is lost. *)
Theorem beep_plays fuel f dur s a d b0 b1 rest :
  s.(g_ac97_device) = Some (a, d) -> d.(initialized) <> 0 -> d.(codec_ready) <> 0 ->
  d.(playback_stream).(buffers) = b0 :: b1 :: rest -> b0 + 8192 <= b1 \/ b1 + 8192 <= b0 ->
  (forall b, b = b0 \/ b = b1 -> d.(playback_stream).(bd_list) + 16 <= b \/ b + 8192 <= d.(playback_stream).(bd_list)) ->
  1 <= f <= 48000 -> is_u32 dur ->
  Z.of_nat quiet_bound + u32 (dur + 100) * (Z.of_nat quiet_bound + 1) <= Z.of_nat fuel ->
  exists s' d', audio_beep fuel f dur s = Done (0, s') /\ s'.(g_ac97_device) = Some (a, d') /\ d'.(playback_stream).(running) = 0 /\
    forall j base i c, j = 0 /\ base = b0 \/ j = 1 /\ base = b1 -> 2048 * j < beep_samples dur -> 0 <= i < 2048 -> c = 0 \/ c = 1 ->
      sample_at (mem s'.(memory)) base i c = beep_sample (48000 / f) (beep_samples dur) j i.
Proof.
  intros E Hi Hc Hb Hd Hl Hf Hdur Hfuel.
  cut (wp (audio_beep fuel f dur) (fun r s' => r = 0 /\ exists d', s'.(g_ac97_device) = Some (a, d') /\
    d'.(playback_stream).(running) = 0 /\ forall j base i c, j = 0 /\ base = b0 \/ j = 1 /\ base = b1 ->
      2048 * j < beep_samples dur -> 0 <= i < 2048 -> c = 0 \/ c = 1 ->
      sample_at (mem s'.(memory)) base i c = beep_sample (48000 / f) (beep_samples dur) j i) s).
  { intros (r & s' & Er & -> & d' & H). by exists s', d'. }
  rewrite (st_intro s a d E). apply wpa_bind, wp_not_initialized. rewrite (proj2 (Z.eqb_neq _ _) Hi). wp_steps.
  apply wp_maybe_stop. intros d1 p1 (I1 & C1 & _ & B1 & L1 & _). wp_steps.
  apply wp_play_init; [congruence..|]. intros d2 p2 (_ & C2 & _ & B2 & L2 & _) _. cbn [Z.eqb negb]. wp_steps.
  destruct (Z.eqb_spec f 0); [lia|]. apply wpa_bind.
  replace (memory s) with (set_mem (memory s) (mem (memory s))) by by destruct (memory s).
  eapply wp_beep_buffers; [|apply beep_samples_range|rewrite B2, B1; exact Hb|].
  { pose proof (Z.div_le_lower_bound 48000 f 1). lia. }
  wp_steps. apply wp_beep_wait; [cbn [timer_ticks kern st set_dev]; lia|by apply wrap_range| |].
  { pose proof (quiet_le s.(kern)). pose proof (wrap_range 32 (dur + 100)). cbn [timer_ticks kern st set_dev]. lia. }
  intros r p3 k3. wp_steps. split; [done|]. eexists. split; [done|]. split; [done|].
  intros j base i c Hj Ht Hii Hcc. cbn [memory st set_mem mem].
  assert (base = b0 \/ base = b1) as Hbase by (destruct Hj as [ [_ ->]|[_ ->]]; auto).
  specialize (Hl base Hbase). rewrite !sample_at_ne; [by apply beep_bytes_samples|try (rewrite length_le_bytes, L2, L1; lia)..]; done.
Qed.
End Wait.
End Beep.
