(* ===== verification/PianoSynth.v ===== *)
(** * The piano (src/kernel/Audio/piano_synth.c)

    Notes are added triangle waves under an envelope, in 32-bit arithmetic: the
    expressions on [uint32_t] operands are unsigned, also where they stand for
    negative values, and become signed when they are assigned. *)
From Stdlib Require Import ZArith Lia.
From stdpp Require Import base numbers list gmap.
From S2P Require Import Prelude Ata Memory MemoryProps Net E1000 Console ConsoleFmt Interrupts AC97 AC97Props Beep.

Module Piano.
Import Ata Pci Mem Interrupts Ac97.
Local Open Scope Z_scope.
Local Open Scope outcome_scope.

Record piano_config_t := mk_piano { midi_note : Z; velocity : Z; duration_ms : Z }.
Record piano_phrase_note_t := mk_phrase_note { note : Z; ph_velocity : Z; ph_duration_ms : Z; delay_before_ms : Z }.

(** The notes with a frequency of their own. *)
Definition known_freqs : list (Z * Z) :=
  [(21, 28); (24, 33); (36, 65); (48, 131); (60, 262); (61, 277); (62, 294); (63, 311); (64, 330); (65, 349); (66, 370);
   (67, 392); (68, 415); (69, 440); (70, 466); (71, 494); (72, 523); (73, 554); (74, 587); (75, 622); (76, 659);
   (77, 698); (78, 740); (79, 784); (80, 831); (81, 880); (82, 932); (83, 988); (84, 1047)].

Fixpoint iterate (n : nat) (f : Z -> Z) (x : Z) : Z := match n with O => x | S n => iterate n f (f x) end.

Definition get_freq (n : Z) : Z :=
  let n := if 128 <=? n then 60 else n in
  match find (fun p => fst p =? n) known_freqs with
  | Some (_, f) => f
  | None =>
    let steps := n - 69 in
    let freq := if 0 <? steps then iterate (Z.to_nat steps) (fun freq => u32 (freq * 106) / 100) 440
                else iterate (Z.to_nat (- steps)) (fun freq => u32 (freq * 100) / 106) 440 in
    if freq <? 20 then 262 else freq
  end.

Definition envelope (time_ms : Z) : Z :=
  if time_ms <? 10 then 100
  else if time_ms <? 300 then s32 (u32 (100 - u32 ((time_ms - 10) * 20) / 290))
  else if time_ms <? 1500 then s32 (u32 (80 - u32 ((time_ms - 300) * 40) / 1200))
  else if time_ms <? 3000 then
    let e := s32 (u32 (40 - u32 ((time_ms - 1500) * 40) / 1500)) in if e <? 0 then 0 else e
  else 0.

(** One of the three waves, with its peak. *)
Definition wave (peak angle : Z) : Z :=
  if angle <? 90 then s32 (u32 (angle * peak) / 90)
  else if angle <? 180 then s32 (u32 (peak - u32 ((angle - 90) * peak) / 90))
  else if angle <? 270 then s32 (u32 (- u32 ((angle - 180) * peak)) / 90)
  else s32 (u32 (- peak + u32 ((angle - 270) * peak) / 90)).

Definition piano_sample_simple (cfg : piano_config_t) (sample_index : Z) : Z :=
  let freq := get_freq cfg.(midi_note) in
  let total_phase := u32 (sample_index * freq) in
  let phase_in_cycle := total_phase mod 48000 in
  let angle := u32 (phase_in_cycle * 360) / 48000 in
  let time_ms := u32 (sample_index * 1000) / 48000 in
  let fundamental := wave 10000 angle in
  let harmonic2 := wave 4000 (u32 (angle * 2) mod 360) in
  let harmonic3 := wave 2000 (u32 (angle * 3) mod 360) in
  let sample := s32 (fundamental + harmonic2 + harmonic3) in
  let sample := Z.quot (s32 (sample * envelope time_ms)) 100 in
  let sample := Z.quot (s32 (sample * cfg.(velocity))) 127 in
  let sample := if 32767 <? sample then 32767 else sample in
  if sample <? -32768 then -32768 else sample.

Section Play.
Context {D : Type} {IO : PortIO D} {PIO : PciPorts D} {WT : Waits (irqs D)}.

Fixpoint piano_frames (cfg : piano_config_t) (n : nat) (buffer i sample_count : Z) : A (D := D) Z :=
  match n with
  | O => mret sample_count
  | S n =>
    store_frame buffer i (piano_sample_simple cfg sample_count) ;;
    piano_frames cfg n buffer (i + 1) (u32 (sample_count + 1))
  end.

Fixpoint piano_buffers (cfg : piano_config_t) (n : nat) (buf sample_count : Z) : A (D := D) Z :=
  match n with
  | O => mret sample_count
  | S n =>
    d ← dev;
    buffer ← lift (aget d.(playback_stream).(buffers) buf);
    sample_count ← piano_frames cfg (Z.to_nat (AC97_BUFFER_SIZE / 4)) buffer 0 sample_count;
    piano_buffers cfg n (buf + 1) sample_count
  end.

Fixpoint piano_wait (fuel : nat) (timeout : Z) : A (D := D) unit :=
  now ← gets (fun s => s.(kern).(timer_ticks));
  if now <? timeout then
    match fuel with
    | O => lift OutOfFuel
    | S fuel =>
      sr ← bm_in16 AC97_PO_SR;
      if c_true (Z.land sr 1) then mret () else wait_with hlt ;; piano_wait fuel timeout
    end
  else mret ().

Definition audio_play_piano_note (fuel : nat) (midi_note velocity duration_ms : Z) : A (D := D) Z :=
  off ← not_initialized;
  if (off : bool) then mret (-1) else
  d ← dev;
  (if c_true d.(playback_stream).(running) then ac97_play_stop else mret ()) ;;
  bm_out8 AC97_PO_CR AC97_CR_RR ;;
  bm_out8 AC97_PO_CR 0 ;;
  bm_out16 AC97_PO_SR 0x1E ;;
  r ← ac97_play_init AC97_FORMAT_STEREO_16 AC97_RATE_48000;
  if negb (r =? 0) then mret (-1) else
  let cfg := mk_piano midi_note velocity duration_ms in
  d ← dev;
  bm_out32 AC97_PO_BDBAR d.(playback_stream).(bd_list_phys) ;;
  piano_buffers cfg 2 0 0 ;;
  bm_out8 AC97_PO_LVI 1 ;;
  bm_out16 AC97_PO_SR 0x1E ;;
  bm_out8 AC97_PO_CR AC97_CR_RPBM ;;
  upd_pb (set_running 1) ;;
  now ← gets (fun s => s.(kern).(timer_ticks));
  piano_wait fuel (u64 (now + duration_ms + 500)) ;;
  bm_out8 AC97_PO_CR 0 ;;
  upd_pb (set_running 0) ;;
  mret 0.

(** The result of each note is not looked at. *)
Fixpoint audio_play_piano_phrase (fuel : nat) (notes : list piano_phrase_note_t) : A (D := D) Z :=
  match notes with
  | [] => mret 0
  | n :: notes =>
    (if 0 <? n.(delay_before_ms) then wait_with (sleep_ms n.(delay_before_ms)) else mret ()) ;;
    audio_play_piano_note fuel n.(note) n.(ph_velocity) n.(ph_duration_ms) ;;
    audio_play_piano_phrase fuel notes
  end.
End Play.
End Piano.

(** * Playing: samples, notes

    Playing samples while the controller is at its first buffer plays nothing.
    A piano note puts the samples of the synthesiser into the two buffers and
    ends. The synthesiser's waves are triangles in three of the four quarters
    of the period. *)
Module PianoProps.
Import Ata Pci Mem MemProps Interrupts Ac97 AC97Props Beep Piano.
Local Open Scope Z_scope.
Local Open Scope outcome_scope.

(** ** Playing samples *)
Section Pcm.
Context {D : Type} {IO : PortIO D} {PIO : PciPorts D}.

Lemma wp_bm_in8_is a d m p k s reg v (Q : Z -> audio (D := D) -> Prop) :
  (forall q : D, fst (inb (u16 (d.(nabm_bar) + reg)) q) = v) -> (forall p', Q v (st a d m p' k s)) -> wp (bm_in8 reg) Q (st a d m p k s).
Proof. intros Hv HQ. apply wpa_bind, wp_dev, wp_on_ports. rewrite Hv. apply HQ. Qed.

Lemma wp_play_start a d m p k s (Q : unit -> audio (D := D) -> Prop) :
  (forall p', Q () (st a (upd_stream Playback (set_running 1) d) m p' k s)) -> wp ac97_play_start Q (st a d m p k s).
Proof.
  intros HQ. unfold ac97_play_start, ac97_stream_start, ac97_ensure_gie. wp_steps.
  destruct (c_true _); wp_steps; apply HQ.
Qed.

(** While the controller is at buffer 0 and buffer 0 is to be filled. *)
Lemma wp_status_zero a d m p k s (Q : Z -> audio (D := D) -> Prop) :
  (forall q : D, fst (inb (u16 (d.(nabm_bar) + AC97_PO_CIV)) q) = 0) -> d.(playback_stream).(current_buffer) = 0 ->
  (forall p', Q 0 (st a d m p' k s)) -> wp ac97_get_buffer_status Q (st a d m p k s).
Proof.
  intros Hciv Hcur HQ. apply wpa_bind, wp_no_device, wpa_bind, (wp_bm_in8_is _ _ _ _ _ _ _ 0); [done|]. intros p'.
  apply wpa_bind, wp_dev. rewrite Hcur. apply wpa_ret, HQ.
Qed.

Lemma wp_wait_zero spin a d m p k s (Q : unit -> audio (D := D) -> Prop) :
  (forall q : D, fst (inb (u16 (d.(nabm_bar) + AC97_PO_CIV)) q) = 0) -> d.(playback_stream).(current_buffer) = 0 ->
  (forall p', Q () (st a d m p' k s)) -> wp (ac97_wait_for_buffer spin) Q (st a d m p k s).
Proof.
  intros Hciv Hcur HQ. apply wpa_bind, wp_no_device.
  destruct spin as [|spin]; cbn [status_wait]; (apply wpa_bind, wp_status_zero; [done..|]); intros p'; apply wpa_ret, HQ.
Qed.

Lemma wp_play_buffer_refused data size a d m p k s (Q : Z -> audio (D := D) -> Prop) :
  (forall q : D, fst (inb (u16 (d.(nabm_bar) + AC97_PO_CIV)) q) = 0) -> d.(playback_stream).(current_buffer) = 0 ->
  d.(playback_stream).(running) = 1 -> (forall p', Q (-2) (st a d m p' k s)) -> wp (ac97_play_buffer data size) Q (st a d m p k s).
Proof.
  intros Hciv Hcur Hrun HQ. apply wpa_bind, wpa_gets. cbn [g_ac97_device st]. rewrite Hrun.
  apply wpa_bind, wp_dev, wpa_bind, (wp_bm_in8_is _ _ _ _ _ _ _ 0); [done|]. intros p'. rewrite Hcur. apply wpa_ret, HQ.
Qed.

(** Playing samples plays nothing as long as the controller is at buffer 0,
    where it is after the reset that [audio_play_pcm] begins with: the first
    buffer to be filled is number 0, which [ac97_play_buffer] refuses to fill
    because it is the current one. [audio_play_pcm] then returns 0, success,
    without having stored any sample. *)
Theorem play_pcm_silent fuel spin samples count nch s a d :
  s.(g_ac97_device) = Some (a, d) -> d.(initialized) <> 0 -> d.(codec_ready) <> 0 ->
  (forall p : D, fst (inb (u16 (d.(nabm_bar) + AC97_PO_CIV)) p) = 0) -> (1 <= fuel)%nat ->
  exists s', audio_play_pcm fuel spin samples count nch 48000 s = Done (0, s') /\ s'.(memory) = s.(memory).
Proof.
  intros E Hi Hc Hciv Hf. remember s.(memory) as m0 eqn:Em.
  cut (wp (audio_play_pcm fuel spin samples count nch 48000) (fun r s' => r = 0 /\ s'.(memory) = m0) s).
  { intros (r & s' & Er & -> & Hm). by exists s'. }
  rewrite (st_intro s a d E), <- Em. apply wpa_bind, wp_not_initialized. rewrite (proj2 (Z.eqb_neq _ _) Hi). apply wpa_bind.
  change (u32 48000) with AC97_RATE_48000. apply wp_play_init; [done..|].
  intros d' p' (_ & _ & N & _) Hcur. cbn [Z.eqb negb]. apply wpa_bind, wp_play_start. intros p2. apply wpa_bind.
  destruct fuel as [|fuel]; [lia|]. cbn [pcm_loop]. destruct (0 <? _); [|wp_steps; by split].
  assert (forall q : D, fst (inb (u16 ((upd_stream Playback (set_running 1) d').(nabm_bar) + AC97_PO_CIV)) q) = 0) as Hciv'.
  { intros q. cbn. rewrite N. apply Hciv. }
  apply wpa_bind, wp_wait_zero; [done..|]. intros p3. apply wpa_bind, wp_play_buffer_refused; [done..|].
  intros p4. apply wpa_ret, wpa_ret. by split.
Qed.
End Pcm.

(** ** Notes *)

(** The processor wakes from [hlt] at the next tick at the latest. *)
Class HaltLaws (D : Type) `{!Waits (irqs D)} := {
  idle : irqs D -> nat;
  idle_bound : nat;
  idle_le : forall k, (idle k <= idle_bound)%nat;
  idle_ports : forall p k, idle (set_dev p k) = idle k;
  hlt_ticks : forall k,
    k.(timer_ticks) < (hlt k).(timer_ticks) \/ (hlt k).(timer_ticks) = k.(timer_ticks) /\ (idle (hlt k) < idle k)%nat
}.

Section Note.
Context {D : Type} {IO : PortIO D} {PIO : PciPorts D} {WT : Waits (irqs D)} {HL : HaltLaws D}.

(** [n] samples of a note from sample [w] on. *)
Definition note_samples (cfg : piano_config_t) (w n : Z) : list Z := map (piano_sample_simple cfg) (seqZ w n).

Lemma wp_piano_frames cfg n : forall base i w a d m p k s b (Q : Z -> audio (D := D) -> Prop), 0 <= w -> w + Z.of_nat n < 2 ^ 32 ->
  Q (w + Z.of_nat n) (st a d (set_mem m (store b (base + 4 * i) (frames (note_samples cfg w (Z.of_nat n))))) p k s) ->
  wp (piano_frames cfg n base i w) Q (st a d (set_mem m b) p k s).
Proof.
  induction n as [|n IH]; intros base i w a d m p k s b Q Hw Hn HQ; cbn [piano_frames].
  { apply wpa_ret. by rewrite Z.add_0_r in HQ. }
  apply wpa_bind, wp_store_frame. rewrite (wrap_small 32 (w + 1)) by lia. apply IH; [lia..|].
  rewrite store_frame_cons. replace (w + 1 + Z.of_nat n) with (w + Z.of_nat (S n)) by lia. revert HQ.
  unfold note_samples. rewrite (seqZ_cons w) by lia. cbn [map]. by replace (Z.pred (Z.of_nat (S n))) with (Z.of_nat n) by lia.
Qed.

Lemma wp_piano_wait fuel : forall timeout a d m p k s (Q : unit -> audio (D := D) -> Prop),
  Z.of_nat (idle k) + Z.max 0 (timeout - k.(timer_ticks)) * (Z.of_nat idle_bound + 1) <= Z.of_nat fuel ->
  (forall p' k', Q () (st a d m p' k' s)) -> wp (piano_wait fuel timeout) Q (st a d m p k s).
Proof.
  induction fuel as [|fuel IH]; intros timeout a d m p k s Q Hf HQ; cbn [piano_wait];
    apply wpa_bind, wpa_gets; change (timer_ticks (kern (st a d m p k s))) with k.(timer_ticks);
    (destruct (Z.ltb_spec (timer_ticks k) timeout); [|by apply wpa_ret, HQ]).
  { exfalso. nia. }
  apply wpa_bind, wp_bm_in16. intros sr p'. destruct (c_true _); [by apply wpa_ret, HQ|]. apply wpa_bind, wpa_modify.
  rewrite set_kern_st. change (kern (st a d m p' k s)) with (set_dev p' k). pose proof (hlt_ticks (set_dev p' k)) as Hy.
  rewrite idle_ports in Hy. change (timer_ticks (set_dev p' k)) with k.(timer_ticks) in Hy.
  pose proof (idle_le (hlt (set_dev p' k))). apply IH; [|done]. destruct Hy as [Hy|[-> Hy]]; nia.
Qed.

Lemma sample_note b base cfg w i c : 0 <= i < 2048 -> c = 0 \/ c = 1 ->
  sample_at (store b base (frames (note_samples cfg w 2048))) base i c = piano_sample_simple cfg (w + i).
Proof.
  intros Hi Hc. rewrite <- (Z2Nat.id i) at 1 by lia. apply load_frames; [|done|].
  - unfold note_samples. change (map ?f ?l) with (f <$> l). rewrite list_lookup_fmap, lookup_seqZ_lt by lia. cbn.
    do 2 f_equal. lia.
  - unfold piano_sample_simple. cbv zeta. repeat case_match; lia.
Qed.

Lemma length_note cfg w : length (frames (note_samples cfg w 2048)) = Z.to_nat 8192.
Proof. rewrite length_frames. unfold note_samples. rewrite length_map, length_seqZ. lia. Qed.

(** [audio_play_piano_note] on an initialised device returns 0 with the
    stream stopped, whatever the sound hardware answers, once the timer has
    advanced by the duration and 500 ticks; both channels of frame [i] of
    buffer [j] hold the synthesiser's sample number [2048 * j + i]. *)
Theorem piano_note_plays fuel nt vel dur s a d b0 b1 rest :
  s.(g_ac97_device) = Some (a, d) -> d.(initialized) <> 0 -> d.(codec_ready) <> 0 ->
  d.(playback_stream).(buffers) = b0 :: b1 :: rest -> b0 + 8192 <= b1 \/ b1 + 8192 <= b0 ->
  0 <= s.(kern).(timer_ticks) -> 0 <= dur ->
  Z.of_nat idle_bound + (dur + 500) * (Z.of_nat idle_bound + 1) <= Z.of_nat fuel ->
  exists s' d', audio_play_piano_note fuel nt vel dur s = Done (0, s') /\
    s'.(g_ac97_device) = Some (a, d') /\ d'.(playback_stream).(running) = 0 /\
    forall j base i c, j = 0 /\ base = b0 \/ j = 1 /\ base = b1 -> 0 <= i < 2048 -> c = 0 \/ c = 1 ->
      sample_at (mem s'.(memory)) base i c = piano_sample_simple (mk_piano nt vel dur) (2048 * j + i).
Proof.
  intros E Hi Hc Hb Hd Hnow Hdur Hfuel.
  cut (wp (audio_play_piano_note fuel nt vel dur) (fun r s' => r = 0 /\ exists d', s'.(g_ac97_device) = Some (a, d') /\
    d'.(playback_stream).(running) = 0 /\ forall j base i c, j = 0 /\ base = b0 \/ j = 1 /\ base = b1 ->
      0 <= i < 2048 -> c = 0 \/ c = 1 ->
      sample_at (mem s'.(memory)) base i c = piano_sample_simple (mk_piano nt vel dur) (2048 * j + i)) s).
  { intros (r & s' & Er & -> & d' & H). by exists s', d'. }
  rewrite (st_intro s a d E). apply wpa_bind, wp_not_initialized. rewrite (proj2 (Z.eqb_neq _ _) Hi). wp_steps.
  apply wp_maybe_stop. intros d1 p1 (I1 & C1 & _ & B1 & L1 & _). wp_steps.
  apply wp_play_init; [congruence..|]. intros d2 p2 (_ & C2 & _ & B2 & L2 & _) _. cbn [Z.eqb negb]. wp_steps.
  replace (memory s) with (set_mem (memory s) (mem (memory s))) by by destruct (memory s).
  pose proof (eq_refl : Z.of_nat (Z.to_nat (AC97_BUFFER_SIZE / 4)) = 2048) as E2048.
  cbn [piano_buffers]. wp_steps. eapply wpa_lift; [by rewrite B2, B1, Hb|].
  wp_steps. apply wp_piano_frames; [lia..|]. rewrite E2048. wp_steps. eapply wpa_lift; [by rewrite B2, B1, Hb|].
  wp_steps. apply wp_piano_frames; [lia..|]. wp_steps. apply wp_piano_wait.
  { pose proof (idle_le s.(kern)). cbn [timer_ticks kern st set_dev].
    pose proof (Z.mod_le (timer_ticks (kern s) + dur + 500) (2 ^ 64)). unfold wrap. nia. }
  intros p3 k3. wp_steps. split; [done|]. eexists. split; [done|]. split; [done|].
  intros j base i c Hj Hii Hcc. cbn [memory st set_mem mem]. rewrite Z.mul_0_r, !Z.add_0_r.
  rewrite E2048. destruct Hj as [ [-> ->]|[-> ->]]; [|by apply sample_note].
  rewrite sample_at_ne; [by apply sample_note|rewrite length_note; lia|done..].
Qed.
End Note.

(** ** The synthesiser *)

(** The triangle wave: up to the peak, down to the negative peak and up again. *)
Definition triangle (peak angle : Z) : Z :=
  if angle <? 90 then angle * peak / 90
  else if angle <? 180 then peak - (angle - 90) * peak / 90
  else if angle <? 270 then - ((angle - 180) * peak / 90)
  else - peak + (angle - 270) * peak / 90.

Definition third_quarter (angle : Z) : Prop := 180 < angle < 270.

Lemma quarter_range x peak : 0 < peak <= 10000 -> 0 <= x <= 90 -> 0 <= x * peak / 90 <= peak.
Proof. intros Hp Hx. split; [apply Z.div_pos; nia|]. apply Z.div_le_upper_bound; nia. Qed.

Lemma triangle_range peak angle : 0 < peak <= 10000 -> 0 <= angle < 360 -> - peak <= triangle peak angle <= peak.
Proof.
  intros Hp Ha. unfold triangle. repeat case_match; rewrite ?Z.ltb_lt, ?Z.ltb_ge in *.
  1: pose proof (quarter_range angle peak). 2: pose proof (quarter_range (angle - 90) peak).
  3: pose proof (quarter_range (angle - 180) peak). 4: pose proof (quarter_range (angle - 270) peak). all: lia.
Qed.

Lemma wave_triangle peak angle : 0 < peak <= 10000 -> 0 <= angle < 360 -> ~ third_quarter angle -> wave peak angle = triangle peak angle.
Proof.
  intros Hp Ha Ht. unfold third_quarter in Ht. unfold wave, triangle.
  destruct (Z.ltb_spec angle 90); [|destruct (Z.ltb_spec angle 180); [|destruct (Z.ltb_spec angle 270)]].
  - rewrite (wrap_small 32) by nia. pose proof (quarter_range angle peak). apply swrap_small; lia.
  - rewrite (wrap_small 32 (_ * _)) by nia. pose proof (quarter_range (angle - 90) peak).
    rewrite (wrap_small 32) by lia. apply swrap_small; lia.
  - replace angle with 180 by lia. done.
  - rewrite (wrap_small 32 (_ * _)) by nia. pose proof (quarter_range (angle - 270) peak).
    unfold wrap, swrap. rewrite Zplus_mod_idemp_l. apply (swrap_small 32); lia.
Qed.

Lemma wave_third_quarter peak angle : 0 < peak <= 10000 -> third_quarter angle -> 47000000 < wave peak angle.
Proof.
  intros Hp Ht. unfold third_quarter in Ht. unfold wave.
  destruct (Z.ltb_spec angle 90); [lia|]. destruct (Z.ltb_spec angle 180); [lia|]. destruct (Z.ltb_spec angle 270); [|lia].
  rewrite (wrap_small 32 (_ * _)) by nia. set (x := (angle - 180) * peak). assert (0 < x < 1000000) as Hx by (unfold x; nia).
  replace (u32 (- x)) with (2 ^ 32 - x) by (unfold wrap; apply (Z.mod_unique_pos _ _ (-1)); lia).
  assert (47000000 < (2 ^ 32 - x) / 90 < 2 ^ 31).
  { split; [apply Z.lt_le_trans with 47700000; [lia|apply Z.div_le_lower_bound; lia]|apply Z.div_lt_upper_bound; lia]. }
  rewrite swrap_small; lia.
Qed.

Lemma envelope_range t : 0 <= t -> 0 <= envelope t <= 100.
Proof.
  intros Ht. unfold envelope. repeat case_match; rewrite ?Z.ltb_lt, ?Z.ltb_ge in *; try lia.
  all: match goal with |- context [u32 ((?u - ?x) * ?y) / ?z] =>
    rewrite (wrap_small 32 ((u - x) * y)) in * by lia;
    assert (0 <= (u - x) * y / z <= y) by (split; [apply Z.div_pos|apply Z.div_le_upper_bound]; lia) end.
  all: rewrite ?(wrap_small 32), ?(swrap_small 32) by lia; lia.
Qed.

(** The angle of the note's wave at a sample, in degrees. *)
Definition angle_at (cfg : piano_config_t) (i : Z) : Z := u32 (u32 (i * get_freq cfg.(midi_note)) mod 48000 * 360) / 48000.

Lemma angle_range cfg i : 0 <= angle_at cfg i < 360.
Proof.
  unfold angle_at. pose proof (Z.mod_pos_bound (u32 (i * get_freq cfg.(midi_note))) 48000).
  rewrite (wrap_small 32 (_ * 360)) by lia. split; [apply Z.div_pos|apply Z.div_lt_upper_bound]; lia.
Qed.

Lemma scaled_range x c n : 0 <= c <= n -> 0 < n -> Z.abs (Z.quot (x * c) n) <= Z.abs x.
Proof.
  intros Hc Hn. rewrite <- Z.quot_abs, Z.abs_mul, (Z.abs_eq c), (Z.abs_eq n) by lia.
  rewrite Z.quot_div_nonneg by nia. apply Z.div_le_upper_bound; nia.
Qed.

(** The samples of the piano. At an angle where neither the note nor its
    second and third harmonics are in the third quarter of their period, the
    sample is the sum of three triangle waves of peaks 10000, 4000 and 2000,
    scaled by the envelope in percent and the velocity out of 127, at most
    16000 in magnitude. In the third quarter, where the triangle is negative,
    a wave is above 47 million instead, since the negated term is divided as
    an unsigned number; such samples are clipped or wrap around. *)
Theorem piano_sample_triangles cfg i : 0 <= i -> 0 <= cfg.(velocity) <= 127 ->
  let angle := angle_at cfg i in
  (forall n, n = 1 \/ n = 2 \/ n = 3 -> ~ third_quarter ((n * angle) mod 360)) ->
  let sum := triangle 10000 angle + triangle 4000 ((2 * angle) mod 360) + triangle 2000 ((3 * angle) mod 360) in
  piano_sample_simple cfg i = Z.quot (Z.quot (sum * envelope (u32 (i * 1000) / 48000)) 100 * cfg.(velocity)) 127 /\
  Z.abs (piano_sample_simple cfg i) <= 16000 /\
  (forall peak x, 0 < peak <= 10000 -> third_quarter x -> triangle peak x <= 0 /\ 47000000 < wave peak x).
Proof.
  intros Hi Hv angle Hq sum. pose proof (angle_range cfg i) as Ha. fold angle in Ha.
  pose proof (Z.mod_pos_bound (2 * angle) 360). pose proof (Z.mod_pos_bound (3 * angle) 360).
  set (env := envelope (u32 (i * 1000) / 48000)).
  assert (0 <= env <= 100) as He.
  { apply envelope_range, Z.div_pos; [apply wrap_range; lia|lia]. }
  assert (- 16000 <= sum <= 16000) as Hsum.
  { pose proof (triangle_range 10000 angle). pose proof (triangle_range 4000 ((2 * angle) mod 360)).
    pose proof (triangle_range 2000 ((3 * angle) mod 360)). unfold sum. lia. }
  pose proof (scaled_range sum env 100) as H1. set (x := Z.quot (sum * env) 100) in *.
  pose proof (scaled_range x cfg.(velocity) 127) as H2. set (y := Z.quot (x * cfg.(velocity)) 127) in *.
  assert (piano_sample_simple cfg i = y) as Ey.
  { unfold piano_sample_simple. cbv zeta. fold (angle_at cfg i). fold angle. fold env.
    rewrite (wrap_small 32 (angle * 2)), (wrap_small 32 (angle * 3)), (Z.mul_comm angle 2), (Z.mul_comm angle 3) by lia.
    rewrite !wave_triangle by (try lia; try (apply Hq; auto);
      rewrite <- (Z.mod_small angle 360), <- (Z.mul_1_l angle) by lia; apply Hq; auto).
    rewrite (swrap_small 32 (_ + _)) by (fold sum; lia). fold sum. rewrite (swrap_small 32 (sum * env)) by nia. fold x.
    rewrite (swrap_small 32 (x * _)) by nia. fold y. destruct (Z.ltb_spec 32767 y); [lia|]. destruct (Z.ltb_spec y (-32768)); lia. }
  rewrite Ey. split; [done|]. split; [lia|]. intros peak z Hp Hz. split; [|by apply wave_third_quarter].
  unfold third_quarter in Hz. unfold triangle. destruct (Z.ltb_spec z 90); [lia|]. destruct (Z.ltb_spec z 180); [lia|].
  destruct (Z.ltb_spec z 270); [|lia]. pose proof (quarter_range (z - 180) peak). lia.
Qed.
End PianoProps.

(** * A simulated sound card

    A card whose registers hold what is written to them, with one AC'97
    controller on the PCI bus and a codec that is always ready; each yield or
    halt lasts one tick. The theorems on the driver are applied to it, and the
    whole initialisation is run on it. *)
Module AudioDemo.
Import Ata Pci Mem Interrupts Ac97 AC97Props Beep Piano PianoProps.
Local Open Scope Z_scope.
Local Open Scope outcome_scope.

(** ** The card *)
Record card := mk_card { config_select : Z; reg16 : gmap Z (Z * Z); reg32 : gmap Z Z }.

(** The configuration words of 00:04.0: ids, BAR0 at 0xC001, BAR1 at 0xC401, interrupt line 5. *)
Definition card_config (x : Z) : Z :=
  if x =? 0x80002000 then 0x24158086 else
  if x =? 0x80002008 then 0x04010000 else
  if x =? 0x80002010 then 0xC001 else
  if x =? 0x80002014 then 0xC401 else
  if x =? 0x8000203C then 0x0105 else 0xFFFFFFFF.

#[global] Instance card_ports : PortIO card := {
  inb port c := (0, c);
  outb port v c := c;
  inw port c := (default (0, 0) (c.(reg16) !! port), c);
  outw port w c := mk_card c.(config_select) (<[port := w]> c.(reg16)) c.(reg32)
}.
#[global] Instance card_ports32 : PciPorts card := {
  outl port v c :=
    if port =? PCI_CONFIG_ADDRESS then mk_card v c.(reg16) c.(reg32)
    else mk_card c.(config_select) c.(reg16) (<[port := v]> c.(reg32));
  inl port c :=
    (if port =? PCI_CONFIG_DATA then card_config c.(config_select)
     else if port =? 0xC400 + AC97_GLOB_STA then AC97_GLOB_STA_PRI_READY else default 0 (c.(reg32) !! port), c)
}.

(** One tick per wait. *)
Definition tick (n : Z) (k : irqs card) : irqs card :=
  mk_irqs k.(irq_handlers) (k.(timer_ticks) + n) k.(timer_seconds) k.(interrupts) k.(ports) k.(con).
#[global] Instance card_waits : Waits (irqs card) := { hlt := tick 1; thread_yield := tick 1; sleep_ms := tick }.

#[global, refine] Instance card_wait_laws : WaitLaws card := { quiet k := 0%nat; quiet_bound := 0%nat }.
Proof. - done. - done. - intros k. left. cbn. lia. Defined.
#[global, refine] Instance card_halt_laws : HaltLaws card := { idle k := 0%nat; idle_bound := 0%nat }.
Proof. - done. - done. - intros k. left. cbn. lia. Defined.

(** ** The state at start-up *)
Definition boot_kern : irqs card := mk_irqs (replicate 16 None) 0 0 true (mk_card 0 ∅ ∅) ConsoleFmt.small.
Definition boot_memory : mm :=
  init_kernel_heap (pmm_init [mk_desc 7 0x100000 600]
    (mk_mm ∅ 0 0 0 0 0 0 0 0 0 0 0 0 0 0)).
Definition boot_audio : audio := mk_audio None (replicate 32 0) (replicate 32 0) 0 boot_memory boot_kern.

(** ** The theorems on this card *)
Definition demo_stream : ac97_stream_t :=
  mk_stream (0x10000 :: 0x20000 :: replicate 30 0) (replicate 32 0) 0x30000 0x30000 0 0 AC97_FORMAT_STEREO_16 48000 0 2 16.
Definition demo_device : ac97_device_t :=
  mk_device 0x8086 0x2415 0 4 0 0xC000 0xC400 5 demo_stream zero_stream 1 1 75 75 100 100 0 0 48000.
Definition demo_audio : audio := mk_audio (Some (0x5000, demo_device)) (replicate 32 0) (replicate 32 0) 32 boot_memory boot_kern.

Lemma demo_reads_back port : reads_back (D := card) port.
Proof. intros w c. cbn. by rewrite lookup_insert_eq. Qed.

(** The volume 0 on the right channel. *)
Lemma volume_read_back_witness : exists s' s'' v,
  ac97_set_master_volume 50 0 demo_audio = Done ((), s') /\ ac97_get_master_volume s' = Done ((48, 100), s'') /\
  ac97_codec_read AC97_NAM_MASTER_VOLUME s' = Done (v, s'') /\ Z.testbit v 15 = true.
Proof.
  destruct (volume_read_back demo_audio 0x5000 demo_device 50 0) as (s' & s'' & v & H1 & H2 & H3 & H4 & _);
    [reflexivity|discriminate|unfold is_byte; lia|unfold is_byte; lia|apply demo_reads_back|].
  exists s', s'', v. split; [exact H1|]. split; [exact H2|]. split; [exact H3|exact H4].
Defined.

Lemma card_config_space : config_space (D := card) card_config.
Proof. intros x p. reflexivity. Qed.

(** The controller is the first audio device of the bus. *)
Lemma find_device_first_witness : find (is_audio card_config) all_functions = Some (0, 4, 0) /\
  exists p', ac97_find_device demo_audio =
    Done (fst (search_result card_config (find (is_audio card_config) all_functions) demo_device),
          st 0x5000 (snd (search_result card_config (find (is_audio card_config) all_functions) demo_device))
             demo_audio.(memory) p' demo_audio.(kern) demo_audio).
Proof.
  split; [vm_compute; reflexivity|].
  exact (find_device_first card_config card_config_space demo_audio 0x5000 demo_device eq_refl).
Defined.

(** A beep of 440 Hz for 100 ms: the first sample is played, the second buffer is silent. *)
Lemma beep_plays_witness : exists s' d', audio_beep 200 440 100 demo_audio = Done (0, s') /\
  s'.(g_ac97_device) = Some (0x5000, d') /\ d'.(playback_stream).(running) = 0 /\
  sample_at (mem s'.(memory)) 0x10000 0 0 = 20000 /\ sample_at (mem s'.(memory)) 0x20000 0 0 = 0.
Proof.
  destruct (beep_plays 200 440 100 demo_audio 0x5000 demo_device 0x10000 0x20000 (replicate 30 0)) as (s' & d' & E & G & R & H).
  - reflexivity.
  - discriminate.
  - discriminate.
  - reflexivity.
  - left. lia.
  - cbn. lia.
  - lia.
  - unfold is_u32. lia.
  - vm_compute. discriminate.
  - exists s', d'. split; [exact E|]. split; [exact G|]. split; [exact R|].
    rewrite (H 0 0x10000 0 0), (H 1 0x20000 0 0); [vm_compute; split; reflexivity|..]; try (vm_compute; reflexivity); lia.
Defined.

Lemma play_pcm_silent_witness : exists s',
  audio_play_pcm 1 0 0x9000 100 2 48000 demo_audio = Done (0, s') /\ s'.(memory) = demo_audio.(memory).
Proof.
  refine (play_pcm_silent 1 0 0x9000 100 2 demo_audio 0x5000 demo_device eq_refl _ _ _ _);
    [discriminate|discriminate|intros p; reflexivity|lia].
Defined.

(** Middle C for 10 ms. *)
Lemma piano_note_plays_witness : exists s' d', audio_play_piano_note 600 60 100 10 demo_audio = Done (0, s') /\
  s'.(g_ac97_device) = Some (0x5000, d') /\ sample_at (mem s'.(memory)) 0x10000 10 1 = 3988.
Proof.
  destruct (piano_note_plays 600 60 100 10 demo_audio 0x5000 demo_device 0x10000 0x20000 (replicate 30 0)) as (s' & d' & E & G & R & H).
  - reflexivity.
  - discriminate.
  - discriminate.
  - reflexivity.
  - left. lia.
  - cbn. lia.
  - lia.
  - vm_compute. discriminate.
  - exists s', d'. split; [exact E|]. split; [exact G|]. rewrite (H 0 0x10000 10 1); [vm_compute; reflexivity|lia..].
Defined.

Lemma piano_sample_triangles_witness : piano_sample_simple (mk_piano 69 100 300) 5 = 3358 /\
  Z.abs (piano_sample_simple (mk_piano 69 100 300) 5) <= 16000.
Proof.
  destruct (piano_sample_triangles (mk_piano 69 100 300) 5) as (_ & H & _); [lia|cbn; lia| |].
  - change (angle_at (mk_piano 69 100 300) 5) with 16. unfold third_quarter. intros n [->|[->| ->]] [H _]; vm_compute in H; discriminate.
  - split; [vm_compute; reflexivity|exact H].
Defined.

(** A sample of middle C in the third quarter is clipped where the triangle is negative. *)
Example piano_clips : piano_sample_simple (mk_piano 60 100 300) 100 = 32767 /\
  angle_at (mk_piano 60 100 300) 100 = 196 /\ triangle 10000 196 = -1777.
Proof. vm_compute. done. Qed.
End AudioDemo.
