(* ===== verification/Shell.v ===== *)
(** * The shell: state, effects and file commands (src/kernel/Shell/shell.c)

    The shell is the program that calls everything else, so its state [sys] is
    the state of the whole kernel: the screen, the keyboard with the input
    buffer and the history, the files, the processes with the memory, the
    sound card, the network stack, the I/O ports. A component sees its own
    part of it, with the screen, the memory and the ports of [sys] put in
    place of its own copies. Commands are computations [Sh]: resumptions, as in
    Scheduler.v, since a command can leave its thread; whatever other threads
    do to the kernel in the meantime is done to the state before the rest runs.

    A string is passed by contents, up to its terminator. The messages of the
    shell itself are printed on the screen of the model, and so are the tables
    its commands exist to show; the diagnostics of the functions it calls are
    left out, as in the files that model them. *)
From Stdlib Require Import ZArith Lia String.
From stdpp Require Import base numbers list gmap.
From S2P Require Import Prelude CStr VfsTypes Ata Memory Asm Scheduler Net Console History Serial Keyboard Desk Interrupts AC97.

Module Shell.
Import Asm Ata Mem Console History Serial Keyboard Files.
Import Interrupts(GREEN, YELLOW, MAGENTA, BROWN).
Local Open Scope Z_scope.
Local Open Scope outcome_scope.

(** ** Text *)
Fixpoint strcmp (s1 s2 : list Z) : Z :=
  match s1, s2 with
  | a :: s1', b :: s2' => if negb (a =? 0) && (a =? b) then strcmp s1' s2' else u8 a - u8 b
  | a :: _, [] => u8 a
  | [], b :: _ => - u8 b
  | [], [] => 0
  end.

(** Past its end a string reads as its terminator. *)
Fixpoint strncmp (n : nat) (s1 s2 : list Z) : Z :=
  match n with
  | O => 0
  | S n =>
    let a := hd 0 s1 in let b := hd 0 s2 in
    if negb (a =? b) then swrap 8 a - swrap 8 b else if a =? 0 then 0 else strncmp n (tl s1) (tl s2)
  end.

(** [STRNCMP(s, literal, n) == 0]; the macro copies the literal to 128 bytes. *)
Definition begins (s : list Z) (literal : string) (n : nat) : bool := strncmp n s (take 127 (lit literal)) =? 0.

(** Copies to a buffer of [size] bytes; the result is the string in it. *)
Definition strcpy_local (size : nat) (src : list Z) : outcome (list Z) :=
  if (length src <? size)%nat then Done src else OutOfBounds.
Definition strlen_local (s : list Z) : Z := Z.of_nat (length s).
Definition strcpy_safe_local (src : list Z) (max : nat) : list Z := take (max - 1) src.

Definition hex_char (v : Z) : Z := if v <? 10 then 48 + v else 87 + v.
Fixpoint hex_digits (fuel : nat) (val : Z) : list Z :=
  match fuel with
  | O => []
  | S fuel => if val =? 0 then [] else hex_digits fuel (Z.shiftr val 4) ++ [hex_char (Z.land val 15)]
  end.
(** [buf] has room for the sixteen digits of 64 bits. *)
Definition u64_to_hex (val : Z) : list Z := if val =? 0 then [48] else hex_digits 16 val.

Definition is_digit (c : Z) : bool := (48 <=? c) && (c <=? 57).
Fixpoint number_from (result : Z) (str : list Z) : Z :=
  match str with
  | c :: str => if is_digit c then number_from (u32 (u32 (result * 10) + (c - 48))) str else result
  | [] => result
  end.
Definition parse_number (str : list Z) : Z := number_from 0 str.
Definition skip_spaces (s : list Z) : list Z := skip_while (fun c => c =? 32) s.
Definition skip_digits (s : list Z) : list Z := skip_while is_digit s.
Definition starts_number (s : list Z) : bool := is_digit (hd 0 s).

(** [while (s[i] && s[i] != ' ' && i < n) word[i] = s[i], i++]: the word and the rest. *)
Definition word_of (n : nat) (s : list Z) : list Z * list Z := collect n (fun c => (c =? 0) || (c =? 32)) s.

(** The directory and the name in 256 bytes; the copy of an absolute path is
    not limited, and the directory must leave room for its slash. *)
Definition fullpath (cwd path : list Z) : outcome (list Z) :=
  if hd 0 path =? 47 then strcpy_local 256 path else
  let* p := strcpy_local 256 cwd in
  let* p := match last p with
            | Some c => if negb (c =? 47) then strcpy_local 256 (p ++ [47]) else Done p
            | None => Done p
            end in
  Done (p ++ take (255 - length p) path).

(** The ELF commands limit both parts: the directory to 254 characters. *)
Definition fullpath_cut (cwd path : list Z) : list Z :=
  if hd 0 path =? 47 then take 255 path else
  let p := take 254 cwd in
  let p := match last p with Some c => if negb (c =? 47) then p ++ [47] else p | None => p end in
  p ++ take (255 - length p) path.

(** A C literal: backslash-n is a newline. *)
Fixpoint unescape (s : list Z) : list Z :=
  match s with
  | 92 :: 110 :: s => 10 :: unescape s
  | c :: s => c :: unescape s
  | [] => []
  end.
Definition txt (s : string) : list Z := unescape (lit s).

(** ** Control *)
Inductive run (S A : Type) : Type :=
| Finished (a : A)
| Away (k : S -> S * run S A)
| Waiting (k : S -> S * run S A)
| Exited
| Stopped
| Crashed
| Cut.
Arguments Finished {S A} a.
Arguments Away {S A} k.
Arguments Waiting {S A} k.
Arguments Exited {S A}.
Arguments Stopped {S A}.
Arguments Crashed {S A}.
Arguments Cut {S A}.

Definition Sh (S A : Type) : Type := S -> S * run S A.
Fixpoint after {S A B} (r : run S A) (f : A -> Sh S B) (s : S) : S * run S B :=
  match r with
  | Finished a => f a s
  | Away k => (s, Away (fun s => let '(s, r) := k s in after r f s))
  | Waiting k => (s, Waiting (fun s => let '(s, r) := k s in after r f s))
  | Exited => (s, Exited)
  | Stopped => (s, Stopped)
  | Crashed => (s, Crashed)
  | Cut => (s, Cut)
  end.
#[export] Instance Sh_ret S : MRet (Sh S) := fun A a s => (s, Finished a).
#[export] Instance Sh_bind S : MBind (Sh S) := fun A B f m s => let '(s, r) := m s in after r f s.

Definition gets {S A} (f : S -> A) : Sh S A := fun s => (s, Finished (f s)).
Definition modify {S} (f : S -> S) : Sh S unit := fun s => (f s, Finished ()).
Definition skip {S} : Sh S unit := mret ().
(** [for (;;) {}]. *)
Definition hang {S A} : Sh S A := fun s => (s, Stopped).
(** A null pointer used, an unset variable read. *)
Definition crash {S A} : Sh S A := fun s => (s, Crashed).
Definition of_outcome {S A} (o : outcome A) : Sh S A := fun s =>
  match o with Done a => (s, Finished a) | OutOfBounds => (s, Crashed) | OutOfFuel => (s, Cut) end.
(** A computation on the part of the state that [view] shows and [back] replaces. *)
Definition on {S P A} (view : S -> P) (back : P -> S -> S) (f : P -> outcome (A * P)) : Sh S A := fun s =>
  match f (view s) with
  | Done (a, p) => (back p s, Finished a)
  | OutOfBounds => (s, Crashed)
  | OutOfFuel => (s, Cut)
  end.
Fixpoint for_each {S A} (l : list A) (f : A -> Sh S unit) : Sh S unit :=
  match l with [] => skip | x :: l => f x ;; for_each l f end.
Definition when {S} (b : bool) (m : Sh S unit) : Sh S unit := if b then m else skip.

(** ** State *)

(** The mouse as Anthropic.c keeps it. *)
Record mouse_t := mk_mouse {
  m_x : Z; m_y : Z; m_initialized : Z; m_packet : list Z; m_packet_index : Z; m_button_state : Z }.

Section System.
Context {W D H : Type} `{!PortIO D}.

Record sys := mk_sys {
  scr : console; keys : kbd D; fls : W; krn : Sched.kernel; sound : Ac97.audio (D := D); nt : Net.net H; prt : D;
  fib_a : Z; fib_b : Z; gui_owns_input : Z; mouse : mouse_t }.
Definition set_scr (v : console) (s : sys) : sys :=
  mk_sys v s.(keys) s.(fls) s.(krn) s.(sound) s.(nt) s.(prt) s.(fib_a) s.(fib_b) s.(gui_owns_input) s.(mouse).
Definition set_keys (v : kbd D) (s : sys) : sys :=
  mk_sys s.(scr) v s.(fls) s.(krn) s.(sound) s.(nt) s.(prt) s.(fib_a) s.(fib_b) s.(gui_owns_input) s.(mouse).
Definition set_fls (v : W) (s : sys) : sys :=
  mk_sys s.(scr) s.(keys) v s.(krn) s.(sound) s.(nt) s.(prt) s.(fib_a) s.(fib_b) s.(gui_owns_input) s.(mouse).
Definition set_krn (v : Sched.kernel) (s : sys) : sys :=
  mk_sys s.(scr) s.(keys) s.(fls) v s.(sound) s.(nt) s.(prt) s.(fib_a) s.(fib_b) s.(gui_owns_input) s.(mouse).
Definition set_sound (v : Ac97.audio) (s : sys) : sys :=
  mk_sys s.(scr) s.(keys) s.(fls) s.(krn) v s.(nt) s.(prt) s.(fib_a) s.(fib_b) s.(gui_owns_input) s.(mouse).
Definition set_nt (v : Net.net H) (s : sys) : sys :=
  mk_sys s.(scr) s.(keys) s.(fls) s.(krn) s.(sound) v s.(prt) s.(fib_a) s.(fib_b) s.(gui_owns_input) s.(mouse).
Definition set_prt (v : D) (s : sys) : sys :=
  mk_sys s.(scr) s.(keys) s.(fls) s.(krn) s.(sound) s.(nt) v s.(fib_a) s.(fib_b) s.(gui_owns_input) s.(mouse).
Definition set_fib (a b : Z) (s : sys) : sys :=
  mk_sys s.(scr) s.(keys) s.(fls) s.(krn) s.(sound) s.(nt) s.(prt) a b s.(gui_owns_input) s.(mouse).

Definition set_mouse (v : mouse_t) (s : sys) : sys :=
  mk_sys s.(scr) s.(keys) s.(fls) s.(krn) s.(sound) s.(nt) s.(prt) s.(fib_a) s.(fib_b) s.(gui_owns_input) v.

(** *** The components' views *)
Definition on_screen (f : console -> outcome console) : Sh sys unit :=
  on scr set_scr (fun c => let* c := f c in Done ((), c)).
Definition on_files {A} (f : W -> outcome (A * W)) : Sh sys A := on fls set_fls f.
Definition on_net {A} (f : Net.N H A) : Sh sys A := on nt set_nt f.
Definition on_ports {A} (f : D -> A * D) : Sh sys A := on prt set_prt (fun d => Done (f d)).

Definition keys_view (s : sys) : kbd D :=
  let k := s.(keys) in
  mk_kbd k.(codes) k.(interrupt_counter) k.(last_scancode) k.(shift_pressed) k.(input_buffer) k.(input_pos) k.(input_ready)
    k.(history) s.(scr) (set_ports k.(ser) s.(prt)).
Definition keys_back (k : kbd D) (s : sys) : sys := set_keys k (set_scr k.(con) (set_prt k.(ser).(ports) s)).
Definition on_keys {A} (f : kbd D -> outcome (A * kbd D)) : Sh sys A := on keys_view keys_back f.

Definition audio_view (s : sys) : Ac97.audio :=
  let a := s.(sound) in let i := a.(Ac97.kern) in
  Ac97.mk_audio a.(Ac97.g_ac97_device) a.(Ac97.dma_buffer_ptrs) a.(Ac97.dma_buffer_phys) a.(Ac97.buffers_allocated) s.(krn).(Sched.kmm)
    (Interrupts.mk_irqs i.(Interrupts.irq_handlers) s.(krn).(Sched.timer_ticks) i.(Interrupts.timer_seconds) i.(Interrupts.interrupts)
       s.(prt) s.(scr)).
Definition audio_back (a : Ac97.audio) (s : sys) : sys :=
  let i := a.(Ac97.kern) in
  set_sound a (set_scr i.(Interrupts.con) (set_prt i.(Interrupts.ports)
    (set_krn (Sched.set_timer_ticks i.(Interrupts.timer_ticks) (Sched.set_kmm a.(Ac97.memory) s.(krn))) s))).
Definition on_audio {A} (f : Ac97.A A) : Sh sys A := on audio_view audio_back f.

Fixpoint resume {A} (r : Sched.res A) : run sys A :=
  match r with
  | Sched.Ret a => Finished a
  | Sched.Switched k => Away (fun s => let '(v, r) := k s.(krn) in (set_krn v s, resume r))
  | Sched.Idle k => Waiting (fun s => let '(v, r) := k s.(krn) in (set_krn v s, resume r))
  | Sched.Gone => Exited
  | Sched.Halted => Stopped
  | Sched.Fault => Crashed
  | Sched.Unfinished => Cut
  end.
Definition on_kernel {A} (m : Sched.M A) : Sh sys A := fun s => let '(v, r) := m s.(krn) in (set_krn v s, resume r).
Definition on_memory {A} (f : mm -> outcome (A * mm)) : Sh sys A := on_kernel (Sched.lift f).

Definition kmalloc (fuel : nat) (size : Z) : Sh sys Z := on_memory (Mem.kmalloc fuel size).
Definition kfree (fuel : nat) (p : Z) : Sh sys unit := on_memory (fun m => let* m := Mem.kfree fuel p m in Done ((), m)).
Definition poke (a : Z) (bs : list Z) : Sh sys unit := on_memory (fun m => Done ((), set_mem m (store (mem m) a bs))).
Definition bytes_at (b : bytes) (a : Z) (n : Z) : list Z := map (fun i => Mem.peek b (a + Z.of_nat i)) (seq 0 (Z.to_nat n)).
Definition peek_bytes (a n : Z) : Sh sys (list Z) := gets (fun s => bytes_at (mem s.(krn).(Sched.kmm)) a n).

(** *** Messages *)
Definition say (fg : Z) (text : string) (args : list va) : Sh sys unit := on_screen (PRINT fg BLACK (txt text) args).
Fixpoint says (l : list (Z * string)) : Sh sys unit :=
  match l with [] => skip | (fg, text) :: l => say fg text [] ;; says l end.

Definition elf_net : Sh sys unit := say CYAN "\n[ELF NET] Starting ELF network test\n" [].

Definition draw_cursor (visible : Z) : Sh sys unit :=
  on_screen (fun c =>
    let c := SetColors c.(cursor).(fg_color) BLACK c in
    let k := c.(cursor) in
    Done (draw_char k.(cx) k.(cy) (if c_true visible then 95 else 32) k.(fg_color) k.(bg_color) c)).
End System.
Arguments sys : clear implicits.
End Shell.
