(* ===== verification/ShellFiles.v ===== *)
(** * The shell's file, assembler and ELF commands (Shell/shell.c, elf/elf_load.c)

    [ShellFiles]: touch, cat, mkdir, rm, write, cd, statfs, wipe, and the
    listing of VFS.c, on the files of the state, whatever implements them.
    [ShellElf]: the assembler command, which builds an ELF file, the commands
    that check, describe and load one, and the printing functions of
    elf_load.c. *)
From Stdlib Require Import ZArith Lia String.
From stdpp Require Import base numbers list gmap.
From S2P Require Import Prelude CStr VfsTypes VFS Ata Memory Asm Scheduler NetPkt Net Elf Console Keyboard Desk Interrupts AC97 Shell.

Module ShellFiles.
Import Asm Console Files Shell.
Import Interrupts(GREEN, YELLOW, MAGENTA, BROWN).
Local Open Scope Z_scope.
Local Open Scope outcome_scope.

(** What the commands use of the VFS beyond [FileApi] and [DirApi]:
    [d_unmount_root] is [root->fs->ops->unmount(root->fs)] when all are set. *)
Class TreeApi (W : Type) := {
  d_list : list Z -> W -> outcome (option (list Vfs.dir_line) * W);
  d_is_there : list Z -> W -> outcome (bool * W);
  d_chdir : list Z -> W -> outcome (Z * W);
  d_statfs : list Z -> W -> outcome (Z * option fs_stats * W);
  d_unmount_root : W -> outcome W;
  d_format : list Z -> W -> outcome (Z * W);
  d_mount : list Z -> list Z -> list Z -> W -> outcome (Z * W) }.

Section Commands.
Context {W D H : Type} `{!PortIO D, !FileApi W, !DirApi W, !TreeApi W}.
Notation Cmd := (Sh (sys W D H)).

Definition cwd : Cmd (list Z) := gets (fun s => cstr (f_cwd s.(fls))).
Definition vfs_open (path : list Z) (flags : Z) : Cmd Z := on_files (f_open path flags).
Definition vfs_close (fd : Z) : Cmd unit := on_files (fun w => let* w := f_close fd w in Done ((), w)).
Definition vfs_read (fd : Z) (into : list Z) (n : Z) : Cmd (Z * list Z) := on_files (f_read fd into n).
Definition vfs_write (fd : Z) (buf : list Z) (n : Z) : Cmd Z := on_files (f_write fd buf n).
Definition resolve (path : list Z) : Cmd (list Z) := c ← cwd; of_outcome (fullpath c path).

(** VFS.c *)
Definition vfs_list_directory (path : list Z) : Cmd unit :=
  say WHITE "[VFS] list_directory: '%s'\n" [Str path] ;;
  found ← on_files (d_is_there path);
  if negb found then say YELLOW "Directory not found: %s\n" [Str path] else
  l ← on_files (d_list path);
  match l with
  | None => say YELLOW "Not a directory: %s\n" [Str path]
  | Some lines =>
    say WHITE "Contents of %s:\n" [Str path] ;;
    for_each lines (fun e => let '(ty, name, size) := e in
      say WHITE "  [%c] %s %d bytes\n" [Word ty; Str name; Word size]) ;;
    when (Nat.eqb (length lines) 0) (say WHITE "  (empty)\n" [])
  end.

Definition cmd_ls : Cmd unit := c ← cwd; vfs_list_directory c.
Definition cmd_pwd : Cmd unit := c ← cwd; say WHITE "%s\n" [Str c].

Definition cmd_touch (filename : list Z) : Cmd unit :=
  path ← resolve filename;
  r ← on_files (f_create path (Z.lor FILE_READ FILE_WRITE));
  if r =? 0 then say MAGENTA "Created file: %s\n\n\n" [Str path] else say YELLOW "Failed to create file\n" [].

(** The file's first 512 bytes, up to a zero byte. *)
Definition cmd_cat (filename : list Z) : Cmd unit :=
  path ← resolve filename;
  fd ← vfs_open path FILE_READ;
  if 0 <=? fd then
    r ← vfs_read fd (replicate 513 0) 512;
    (if 0 <? r.1 then
       buffer ← of_outcome (aset r.2 r.1 0);
       say WHITE "%s\n\n" [Str (cstr buffer)]
     else say YELLOW "File is empty or read error\n" []) ;;
    vfs_close fd
  else say YELLOW "File not found: %s\n" [Str path].

Definition cmd_mkdir (dirname : list Z) : Cmd unit :=
  path ← resolve dirname;
  r ← on_files (v_mkdir path (Z.lor FILE_READ FILE_WRITE));
  if r =? 0 then say GREEN "Created directory: %s\n\n\n" [Str path] else say YELLOW "Failed to create directory\n" [].

Definition cmd_rm (name : list Z) : Cmd unit :=
  path ← resolve name;
  r ← on_files (f_unlink path);
  if r =? 0 then say GREEN "Removed: %s\n" [Str path] else say YELLOW "Failed to remove: %s\n" [Str path].

(** The first word and the text after the spaces that follow it. *)
Definition write_args (rest : list Z) : list Z * list Z :=
  let '(filename, rest) := word_of 255 rest in (filename, take 511 (skip_spaces rest)).
Definition cmd_write (rest : list Z) : Cmd unit :=
  let '(filename, content) := write_args rest in
  if (hd 0 filename =? 0) || (hd 0 content =? 0) then say YELLOW "Usage: write <file> <content>\n" [] else
  path ← resolve filename;
  fd ← vfs_open path FILE_WRITE;
  if 0 <=? fd then
    written ← vfs_write fd content (strlen_local content);
    vfs_close fd ;;
    if 0 <? written then say GREEN "Wrote %d bytes to %s\n" [Word written; Str path] else say YELLOW "Write failed\n" []
  else say YELLOW "Cannot open file: %s\n" [Str path].

(** The products wrap in 32 bits; [None] after success leaves [stats] unset. *)
Definition cmd_statfs : Cmd unit :=
  r ← on_files (d_statfs (txt "/"));
  if r.1 =? 0 then
    match r.2 with
    | None => crash
    | Some st =>
      let total_kb := u32 (st.(st_total_blocks) * st.(st_block_size)) / 1024 in
      let free_kb := u32 (st.(st_free_blocks) * st.(st_block_size)) / 1024 in
      say WHITE "Filesystem statistics:\n" [] ;;
      say WHITE "  Total blocks: %u\n" [Word st.(st_total_blocks)] ;;
      say WHITE "  Free blocks: %u\n" [Word st.(st_free_blocks)] ;;
      say WHITE "  Used blocks: %u\n" [Word (u32 (st.(st_total_blocks) - st.(st_free_blocks)))] ;;
      say WHITE "  Block size: %u bytes\n" [Word st.(st_block_size)] ;;
      say WHITE "  Total size: %u KB\n" [Word total_kb] ;;
      say WHITE "  Used size: %u KB\n" [Word (u32 (total_kb - free_kb))] ;;
      say WHITE "  Free size: %u KB\n" [Word free_kb]
    end
  else say YELLOW "Cannot get filesystem stats\n" [].

Definition cmd_wipe : Cmd unit :=
  says [(YELLOW, "DISK HAS BEEN WIPED!\n"%string); (WHITE, "Unmounting filesystem...\n"%string)] ;;
  on_files (fun w => let* w := d_unmount_root w in Done ((), w)) ;;
  r ← on_files (d_format (txt "ata0"));
  if negb (r =? 0) then say YELLOW "[ERROR] Format failed\n" [] ;; hang else
  say WHITE "Remounting filesystem...\n" [] ;;
  r ← on_files (d_mount (txt "tinyfs") (txt "ata0") (txt "/"));
  if negb (r =? 0) then say YELLOW "[ERROR] Remount failed\n" [] ;; hang else
  say GREEN "Format complete - filesystem remounted\n" [].

Definition chdir_to (dir : list Z) : Cmd unit :=
  r ← on_files (d_chdir dir);
  if r =? 0 then c ← cwd; say GREEN "%s\n" [Str c] else skip.
Definition cmd_cd (dir_arg : list Z) : Cmd unit :=
  let dir := (word_of 255 dir_arg).1 in
  if hd 0 dir =? 0 then chdir_to (txt "/") else chdir_to dir.
End Commands.

(** The functions of VFS.c and [tinyfs_format] themselves. *)
Section Vfs.
Context {P HP D : Type} `{Heap HP} (vops : vfs_operations (world P HP D)) (fops : filesystem_operations (world P HP D)).
Context (fuel : nat) (format : list Z -> D -> Z * D).
Definition vfs_tree : TreeApi (Vfs.vfs_state * world P HP D) := {|
  d_list path s := let* (l, w) := Vfs.vfs_list_directory vops fuel path (fst s) (snd s) in Done (l, (fst s, w));
  d_is_there path s := let* (n, w) := Vfs.vfs_resolve_path vops path (fst s) (snd s) in
    Done (match n with Some _ => true | None => false end, (fst s, w));
  d_chdir path s := let* (r, v, w) := Vfs.vfs_chdir vops path (fst s) (snd s) in Done (r, (v, w));
  d_statfs path s := let* (r, st, w) := Vfs.vfs_statfs vops fops path (fst s) (snd s) in Done (r, st, (fst s, w));
  d_unmount_root s :=
    match Vfs.vfs_get_root (fst s) with
    | None => Done s
    | Some a =>
      let* n := Vfs.node_of (snd s) a in
      match n_fs n with None => Done s | Some fs => let* (_, w) := op_unmount fops fs (snd s) in Done (fst s, w) end
    end;
  d_format dev s := let w := snd s in
    let '(r, d) := format dev (w_disk w) in Done (r, (fst s, mk_world (w_nodes w) (w_fs w) (w_heap w) d));
  d_mount ty dev at_ s := let* (r, v, w) := Vfs.vfs_mount fops ty dev at_ (fst s) (snd s) in Done (r, (v, w)) |}.
End Vfs.
End ShellFiles.

Module ShellElf.
Import Asm Mem Pkt Elf Console Files Shell ShellFiles.
Import Interrupts(GREEN, YELLOW, MAGENTA, BROWN).
Local Open Scope Z_scope.
Local Open Scope outcome_scope.

(** ** The ELF image of an assembled program *)
Definition PF_X : Z := 1.
Definition PF_W : Z := 2.
Definition PF_R : Z := 4.
Definition STT_OBJECT : Z := 1.
Definition STT_FUNC : Z := 2.
Definition STT_TLS : Z := 6.
Definition STB_GLOBAL : Z := 1.

(** Zeroed, then the fields set: e_shoff, e_flags and the section fields stay zero. *)
Definition asm_ehdr : list Z :=
  [127; 69; 76; 70; 2; 1; 1] ++ replicate 9 0 ++
  le_bytes 2 ET_EXEC ++ le_bytes 2 EM_X86_64 ++ le_bytes 4 1 ++ le_bytes 8 0x400000 ++ le_bytes 8 sizeof_ehdr ++ le_bytes 8 0 ++
  le_bytes 4 0 ++ le_bytes 2 sizeof_ehdr ++ le_bytes 2 sizeof_phdr ++ le_bytes 2 1 ++ le_bytes 2 0 ++ le_bytes 2 0 ++ le_bytes 2 0.
Definition asm_phdr (code_size : Z) : list Z :=
  le_bytes 4 PT_LOAD ++ le_bytes 4 (Z.lor PF_R PF_X) ++ le_bytes 8 (sizeof_ehdr + sizeof_phdr) ++
  le_bytes 8 0x400000 ++ le_bytes 8 0x400000 ++ le_bytes 8 code_size ++ le_bytes 8 code_size ++ le_bytes 8 0x1000.
Definition asm_elf (code : list Z) : list Z := asm_ehdr ++ asm_phdr (Z.of_nat (length code)) ++ code.

(** ** The stack of a new program (elf_test.c) *)
Definition words (l : list Z) : list Z := flat_map (le_bytes 8) l.
Definition setup_auxv (info : elf_load_info_t) : list Z := words
  [3; info.(phdr_addr); 4; info.(phdr_entsize); 5; info.(phdr_count); 6; 4096; 7; info.(interp_base); 9; info.(entry_point);
   11; 0; 12; 0; 13; 0; 14; 0; 23; 0; 17; 1000; 0; 0].
Definition USER_STACK_SIZE : Z := 2 * 1024 * 1024.
Definition align16 (v : Z) : Z := Z.land v (2 ^ 64 - 16).
Definition put_at (a : Z) (bs : list Z) (m : mm) : mm := set_mem m (store (mem m) a bs).

(** The stack from the top: room for sixteen auxiliary entries, the environment, the arguments, their number. *)
Definition setup_user_stack (fuel : nat) (argv envp : list Z) (info : elf_load_info_t) (m : mm) : outcome (Z * mm) :=
  let* (stack_base, m) := Mem.kmalloc fuel USER_STACK_SIZE m in
  if stack_base =? 0 then Done (0, m) else
  let sp := align16 (u64 (stack_base + USER_STACK_SIZE)) in
  let auxv_ptr := u64 (sp - 256) in
  let env_ptr := u64 (auxv_ptr - 8 * (Z.of_nat (length envp) + 1)) in
  let m := put_at env_ptr (words (envp ++ [0])) m in
  let arg_ptr := u64 (env_ptr - 8 * (Z.of_nat (length argv) + 1)) in
  let m := put_at arg_ptr (words (argv ++ [0])) m in
  let sp := u64 (arg_ptr - 8) in
  let m := put_at sp (le_bytes 8 (Z.of_nat (length argv))) m in
  let m := put_at auxv_ptr (setup_auxv info) m in
  Done (align16 sp, m).

Section Commands.
Context {W D H : Type} `{!PortIO D, !FileApi W, !DirApi W, !TreeApi W} (fuel : nat).
Notation Cmd := (Sh (sys W D H)).

(** The program itself is the format of a printk without arguments. *)
Definition create_elf_from_asm (output_path asm_code : list Z) (garbage : asm_context) : Cmd unit :=
  let ctx := asm_init garbage in
  say WHITE "[ASM] Assembling code...\n" [] ;;
  on_screen (print_unsigned ctx.(error) 16) ;;
  on_screen (printk CYAN BLACK asm_code []) ;;
  '(r, ctx) ← of_outcome (asm_program asm_code ctx);
  if r <? 0 then say YELLOW "[ASM] Error: %s\n" [Str ctx.(error_msg)] else
  match asm_get_code ctx with
  | (None, _) => say YELLOW "[ASM] No code generated\n" []
  | (Some code, code_size) =>
    if code_size =? 0 then say YELLOW "[ASM] No code generated\n" [] else
    say GREEN "[ASM] Generated" [] ;;
    on_screen (print_unsigned code_size 16) ;;
    say GREEN "bytes of machine code\n" [] ;;
    let total_size := sizeof_ehdr + sizeof_phdr + code_size in
    elf ← kmalloc fuel total_size;
    if elf =? 0 then say YELLOW "[ASM] Out of memory\n" [] else
    let image := asm_elf (take (Z.to_nat code_size) code) in
    poke elf image ;;
    path ← resolve output_path;
    fd ← vfs_open path FILE_WRITE;
    fd ← (if fd <? 0 then
            on_files (f_create path (Z.lor FILE_READ FILE_WRITE)) ;;
            vfs_open path FILE_WRITE
          else mret fd);
    (if 0 <=? fd then
       written ← vfs_write fd image total_size;
       vfs_close fd ;;
       if 0 <? written then
         say GREEN "[ASM] Created ELF: %s (%d bytes)\n" [Str path; Word written] ;;
         say WHITE "[ASM] Test with: elfinfo %s\n" [Str output_path] ;;
         say WHITE "[ASM] Run with: elfload %s\n" [Str output_path]
       else say YELLOW "[ASM] Failed to write file\n" []
     else say YELLOW "[ASM] Failed to create file\n" []) ;;
    kfree fuel elf
  end.

(** The rest of the line, semicolons as newlines, at most 511 characters. *)
Definition asm_text (s : list Z) : list Z := map (fun c => if c =? 59 then 10 else c) (take 511 s).
Definition cmd_asm (rest : list Z) (garbage : asm_context) : Cmd unit :=
  let '(filename, rest) := word_of 255 rest in
  let asm_code := skip_spaces rest in
  if (hd 0 filename =? 0) || (hd 0 asm_code =? 0) then
    says [(YELLOW, "Usage: asm <file> <assembly code>\n"%string); (WHITE, "Example: asm test.elf mov rax, 42; ret\n"%string)]
  else create_elf_from_asm filename (asm_text asm_code) garbage.

(** [elf_net_address]: where the linker put [elf_net]. *)
Definition cmd_mknetcall (elf_net_address : Z) (garbage : asm_context) : Cmd unit :=
  let funcaddr := 2101009168 in
  if negb (funcaddr =? elf_net_address) then
    say YELLOW "[ERROR] netcall_handler address mismatch!\n" [] ;;
    say WHITE "Expected: %p, Found: %p\n" [Word funcaddr; Word elf_net_address]
  else
    let asm_code := txt "mov rax, 2101009168\ncall rax\nret" in
    say CYAN "Assembly code:\n%s\n" [Str asm_code] ;;
    create_elf_from_asm (txt "netcall.elf") asm_code garbage ;;
    say GREEN "Created netcall.elf!\n" [].

Definition cmd_asmfile (rest : list Z) (garbage : asm_context) : Cmd unit :=
  let '(source, rest) := word_of 255 rest in
  let output := take 255 (skip_spaces rest) in
  if (hd 0 source =? 0) || (hd 0 output =? 0) then say YELLOW "Usage: asmfile <source.asm> <output.elf>\n" [] else
  path ← resolve source;
  fd ← vfs_open path FILE_READ;
  if fd <? 0 then say YELLOW "Cannot open source file: %s\n" [Str path] else
  r ← vfs_read fd (replicate 2048 0) 2047;
  vfs_close fd ;;
  if r.1 <=? 0 then say YELLOW "Failed to read source file\n" [] else
  asm_buf ← of_outcome (aset r.2 r.1 0);
  create_elf_from_asm output (cstr asm_buf) garbage.

(** ** elfcheck *)
Definition resolve_cut (path : list Z) : Cmd (list Z) := c ← cwd; mret (fullpath_cut c path).
Definition type_name (ty : Z) : string :=
  match ty with
  | 0 => "None\n" | 1 => "Relocatable\n" | 2 => "Executable\n" | 3 => "Shared object\n" | 4 => "Core dump\n" | _ => "Unknown\n"
  end%string.
Definition shell_command_elfcheck (args : list Z) : Cmd unit :=
  let args := skip_spaces args in
  if hd 0 args =? 0 then say YELLOW "Usage: elfcheck <file>\n" [] else
  path ← resolve_cut args;
  fd ← vfs_open path FILE_READ;
  if fd <? 0 then say YELLOW "Cannot open: %s\n" [Str path] else
  r ← vfs_read fd (replicate 64 0) 64;
  vfs_close fd ;;
  if r.1 <? 64 then say YELLOW "File too small\n" [] else
  let header := r.2 in
  let h (i : nat) := Arrays.get header i in
  if negb (h 0%nat =? 127) || negb (h 1%nat =? 69) || negb (h 2%nat =? 76) || negb (h 3%nat =? 70)
  then say YELLOW " Not an ELF file\n" [] else
  say GREEN " Valid ELF file\n" [] ;;
  (if h 4%nat =? 1 then say WHITE "  Class: ELF32 (32-bit)\n" []
   else if h 4%nat =? 2 then say WHITE "  Class: ELF64 (64-bit)\n" [] else skip) ;;
  (if h 5%nat =? 1 then say WHITE "  Data: Little-endian\n" []
   else if h 5%nat =? 2 then say WHITE "  Data: Big-endian\n" [] else skip) ;;
  type ← of_outcome (ld16 header 16);
  say WHITE "  Type: " [] ;;
  say WHITE (type_name type) [] ;;
  machine ← of_outcome (ld16 header 18);
  say WHITE "  Machine: " [] ;;
  if machine =? 3 then say WHITE "Intel 80386\n" []
  else if machine =? 62 then say WHITE "AMD x86-64\n" []
  else say WHITE "%u\n" [Word machine].

(** ** elf_load.c: printing *)
Definition elf_print_header (h : Elf64_Ehdr) : Cmd unit :=
  say WHITE "\n=== ELF Header ===\n" [] ;;
  say WHITE "Type: " [] ;;
  match h.(e_type) with
  | 0 => say WHITE "None\n" []
  | 1 => say WHITE "Relocatable\n" []
  | 2 => say WHITE "Executable\n" []
  | 3 => say WHITE "Shared Object\n" []
  | 4 => say WHITE "Core\n" []
  | t => say WHITE "Unknown (%u)\n" [Word t]
  end ;;
  say WHITE "Machine: x86-64\n" [] ;;
  say WHITE "Entry point: 0x%llx\n" [Word h.(e_entry)] ;;
  say WHITE "Program headers: %u (offset 0x%llx)\n" [Word h.(e_phnum); Word h.(e_phoff)] ;;
  say WHITE "Section headers: %u (offset 0x%llx)\n" [Word h.(e_shnum); Word h.(e_shoff)].

Definition flag_char (flags bit ch : Z) : va := Word (if c_true (Z.land flags bit) then ch else 45).
Definition indices (n : Z) : list Z := map Z.of_nat (seq 0 (Z.to_nat n)).

Definition segment_name (t : Z) : Cmd unit :=
  match t with
  | 0 => say WHITE "NULL    " []
  | 1 => say WHITE "LOAD    " []
  | 2 => say WHITE "DYNAMIC " []
  | 3 => say WHITE "INTERP  " []
  | 4 => say WHITE "NOTE    " []
  | 6 => say WHITE "PHDR    " []
  | 7 => say WHITE "TLS     " []
  | t => say WHITE "0x%x " [Word t]
  end.
Definition elf_print_program_headers (c : elf_context_t) : Cmd unit :=
  say WHITE "\n=== Program Headers ===\n" [] ;;
  for_each (indices c.(ehdr).(e_phnum)) (fun i =>
    let d := c.(elf_data) in let p := phdr_at c i in
    say WHITE "[%d] " [Word i] ;;
    t ← of_outcome (p_type d p);
    segment_name t ;;
    vaddr ← of_outcome (p_vaddr d p);
    paddr ← of_outcome (ld64 d (p + 24));
    say WHITE "0x%llx 0x%llx " [Word vaddr; Word paddr] ;;
    filesz ← of_outcome (p_filesz d p);
    memsz ← of_outcome (p_memsz d p);
    say WHITE "0x%llx 0x%llx " [Word filesz; Word memsz] ;;
    flags ← of_outcome (ld32 d (p + 4));
    say WHITE "%c%c%c\n" [flag_char flags PF_R 82; flag_char flags PF_W 87; flag_char flags PF_X 88]).

(** printk knows no field widths: the index and the name are not shown. *)
Definition elf_print_section_headers (c : elf_context_t) : Cmd unit :=
  say WHITE "\n=== Section Headers ===\n" [] ;;
  for_each (indices c.(ehdr).(e_shnum)) (fun i =>
    let d := c.(elf_data) in let p := shdr_at c i in
    name ← of_outcome (elf_get_section_name c p);
    name ← of_outcome (match name with Some a => cstring d a | None => Done (txt "(null)") end);
    say WHITE "[%2d] %-20s " [Word i; Str name] ;;
    addr ← of_outcome (ld64 d (p + 16));
    size ← of_outcome (sh_size d p);
    say WHITE "0x%llx 0x%llx " [Word addr; Word size] ;;
    flags ← of_outcome (ld64 d (p + 8));
    say WHITE "%c%c%c\n" [flag_char flags 1 87; flag_char flags 2 65; flag_char flags 4 88]).

Definition symbol_kind (t : Z) : list Z :=
  if t =? STT_FUNC then lit "FUNC" else if t =? STT_OBJECT then lit "OBJ " else if t =? STT_TLS then lit "TLS " else lit "    ".
Definition symbol_binding (b : Z) : list Z :=
  if b =? STB_GLOBAL then lit "GLOBAL" else if b =? STB_WEAK then lit "WEAK  " else lit "LOCAL ".
Definition elf_print_symbols (c : elf_context_t) : Cmd unit :=
  say WHITE "\n=== Symbols ===\n" [] ;;
  for_each c.(symbol_hash) (fun chain => for_each chain (fun sym =>
    say WHITE "%-30s 0x%llx %4llu %s %s\n"
      [Str sym.(sym_name); Word sym.(value); Word sym.(Elf.size); Str (symbol_kind sym.(type)); Str (symbol_binding sym.(binding))])).

Definition dyn_string (c : elf_context_t) (v : Z) : outcome (list Z) :=
  match c.(dynstr) with Some a => cstring c.(elf_data) (a + v) | None => Done (txt "(no dynstr)") end.
Fixpoint dynamic_entries (n : nat) (c : elf_context_t) (p : Z) : Cmd unit :=
  tag ← of_outcome (ld64 c.(elf_data) p);
  if tag =? DT_NULL then skip else
  match n with
  | O => fun s => (s, Cut)
  | S n =>
    v ← of_outcome (ld64 c.(elf_data) (p + 8));
    match tag with
    | 1 => t ← of_outcome (dyn_string c v); say WHITE "NEEDED: %s\n" [Str t]
    | 12 => say WHITE "INIT: 0x%llx\n" [Word v]
    | 13 => say WHITE "FINI: 0x%llx\n" [Word v]
    | 14 => t ← of_outcome (dyn_string c v); say WHITE "SONAME: %s\n" [Str t]
    | _ => say WHITE "TAG 0x%llx: 0x%llx\n" [Word tag; Word v]
    end ;;
    dynamic_entries n c (p + sizeof_dyn)
  end.
Definition elf_print_dynamic (c : elf_context_t) : Cmd unit :=
  match c.(dynamic) with
  | None => say WHITE "\n=== No Dynamic Section ===\n" []
  | Some p => say WHITE "\n=== Dynamic Section ===\n" [] ;; dynamic_entries (length c.(elf_data)) c p
  end.

(** ** elfload and elfinfo *)

(** What all of them do first: the file's bytes in a heap block, or [None] after
    a message for a file that does not open, memory that runs out, or a short
    read (which not all of them look for). *)
Definition read_elf (path : list Z) (no_file no_memory : Cmd unit) (short : option (Cmd unit)) : Cmd (option (Z * list Z)) :=
  fd ← vfs_open path FILE_READ;
  if fd <? 0 then no_file ;; mret None else
  node ← on_files (v_resolve path);
  match node with
  | None => vfs_close fd ;; mret None
  | Some a =>
    n ← on_files (fun w => let* n := v_node a w in Done (n, w));
    let file_size := n.(n_size) in
    elf_buffer ← kmalloc fuel file_size;
    if elf_buffer =? 0 then no_memory ;; vfs_close fd ;; mret None else
    old ← peek_bytes elf_buffer file_size;
    r ← vfs_read fd old file_size;
    poke elf_buffer r.2 ;;
    vfs_close fd ;;
    match short with
    | Some msg => if negb (r.1 =? s32 file_size) then msg ;; kfree fuel elf_buffer ;; mret None else mret (Some (elf_buffer, r.2))
    | None => mret (Some (elf_buffer, r.2))
    end
  end.
Definition read_whole (path : list Z) : Cmd (option (Z * list Z)) :=
  read_elf path (say YELLOW "Failed to open: %s\n" [Str path]) (say YELLOW "Out of memory\n" [])
    (Some (say YELLOW "Failed to read file\n" [])).

Definition shell_command_elfload (args : list Z) : Cmd unit :=
  let args := skip_spaces args in
  if hd 0 args =? 0 then
    says [(YELLOW, "Usage: elfload <file>\n"%string); (WHITE, "  Loads and executes an ELF executable\n"%string)]
  else
  path ← resolve_cut args;
  say WHITE "[ELFLOAD] Loading: %s\n" [Str path] ;;
  r ← read_whole path;
  match r with
  | None => skip
  | Some (elf_buffer, data) =>
    l ← on_memory (fun m => let* (r, info, m) := elf_load fuel data (Z.of_nat (length data)) m in Done ((r, info), m));
    let '(result, info) := l in
    if negb (result =? ELF_SUCCESS) then
      say YELLOW "Failed to load ELF: error %d\n" [Word result] ;; kfree fuel elf_buffer
    else
      say GREEN "[ELFLOAD] Successfully loaded:\n" [] ;;
      say GREEN "  Base address: 0x%llx\n" [Word info.(base_addr)] ;;
      say GREEN "  Entry point:  0x%llx\n" [Word info.(entry_point)] ;;
      say GREEN "  Dynamic: %s\n" [Str (if c_true info.(is_dynamic) then lit "Yes" else lit "No")] ;;
      say GREEN "  TLS: %s\n" [Str (if c_true info.(has_tls) then lit "Yes" else lit "No")] ;;
      when (c_true info.(has_tls)) (say WHITE "  TLS size: %llu bytes\n" [Word info.(tls_size)])
  end.

Definition shell_command_elfinfo (args : list Z) : Cmd unit :=
  let args := skip_spaces args in
  if hd 0 args =? 0 then
    says [(YELLOW, "Usage: elfinfo <file>\n"%string); (WHITE, "  Displays detailed ELF file information\n"%string)]
  else
  path ← resolve_cut args;
  r ← read_whole path;
  match r with
  | None => skip
  | Some (elf_buffer, data) =>
    let file_size := Z.of_nat (length data) in
    v ← of_outcome (elf_validate data file_size);
    if negb (v =? ELF_SUCCESS) then say YELLOW "Not a valid ELF file\n" [] ;; kfree fuel elf_buffer else
    oc ← on_memory (elf_create_context fuel data file_size);
    match oc with
    | None => say YELLOW "Failed to parse ELF\n" [] ;; kfree fuel elf_buffer
    | Some c =>
      say CYAN "\n========================================\n" [] ;;
      say CYAN "  ELF File Information: %s\n" [Str path] ;;
      say CYAN "========================================\n" [] ;;
      elf_print_header c.(ehdr) ;;
      elf_print_program_headers c ;;
      elf_print_section_headers c ;;
      c ← on_memory (elf_resolve_symbols fuel c);
      let syms := mjoin c.(symbol_hash) in
      let total_count := Z.of_nat (length syms) in
      let func_count := Z.of_nat (length (filter (fun y => y.(type) = STT_FUNC) syms)) in
      let obj_count := Z.of_nat (length (filter (fun y => y.(type) = STT_OBJECT) syms)) in
      say WHITE "\n=== Symbol Summary ===\n" [] ;;
      say WHITE "Total symbols: %d\n" [Word total_count] ;;
      say WHITE "Functions: %d\n" [Word func_count] ;;
      say WHITE "Objects: %d\n" [Word obj_count] ;;
      (if (0 <? total_count) && (total_count <=? 50) then elf_print_symbols c
       else when (50 <? total_count) (say WHITE "(Too many symbols to display, use 'elfsyms' for full list)\n" [])) ;;
      match c.(dynamic) with Some _ => elf_print_dynamic c | None => skip end ;;
      on_memory (fun m => let* m := elf_destroy_context fuel c m in Done ((), m)) ;;
      kfree fuel elf_buffer
    end
  end.

(** ** elf_test.c *)
Definition load_file (data : list Z) : Cmd (Z * elf_load_info_t) :=
  on_memory (fun m => let* (r, info, m) := elf_load fuel data (Z.of_nat (length data)) m in Done ((r, info), m)).
Definition destroy_context (c : elf_context_t) : Cmd unit :=
  on_memory (fun m => let* m := elf_destroy_context fuel c m in Done ((), m)).

(** [argv] and [envp] are the pointers before the NULL. *)
Definition elf_exec_file (path : list Z) (argv envp : list Z) : Cmd Z :=
  say WHITE "[ELF EXEC] Loading: %s\n" [Str path] ;;
  r ← read_elf path (say YELLOW "[ELF EXEC] Failed to open file: %s\n" [Str path])
        (say YELLOW "[ELF EXEC] Failed to allocate buffer\n" []) (Some (say YELLOW "[ELF EXEC] Failed to read file\n" []));
  match r with
  | None => mret (-1)
  | Some (elf_buffer, data) =>
    l ← load_file data;
    let '(result, info) := l in
    if negb (result =? ELF_SUCCESS) then
      say YELLOW "[ELF EXEC] Failed to load ELF: %d\n" [Word result] ;; kfree fuel elf_buffer ;; mret (-1) else
    oc ← on_memory (elf_create_context fuel data (Z.of_nat (length data)));
    match oc with
    | None => say YELLOW "[ELF EXEC] Failed to create context\n" [] ;; kfree fuel elf_buffer ;; mret (-1)
    | Some c =>
      user_sp ← on_memory (setup_user_stack fuel argv envp info);
      if user_sp =? 0 then
        say YELLOW "[ELF EXEC] Failed to setup stack\n" [] ;; destroy_context c ;; kfree fuel elf_buffer ;; mret (-1)
      else
        say MAGENTA "[ELF EXEC] Ready to execute:\n" [] ;;
        say MAGENTA "  Entry point: 0x%llx\n" [Word info.(entry_point)] ;;
        say MAGENTA "  Stack: 0x%llx\n" [Word user_sp] ;;
        say MAGENTA "  Base: 0x%llx\n" [Word info.(base_addr)] ;;
        destroy_context c ;;
        kfree fuel elf_buffer ;;
        mret 0
    end
  end.

Definition elf_info (path : list Z) : Cmd Z :=
  say WHITE "[ELF INFO] Analyzing: %s\n" [Str path] ;;
  r ← read_elf path (say YELLOW "[ELF INFO] Failed to open file\n" []) skip None;
  match r with
  | None => mret (-1)
  | Some (elf_buffer, data) =>
    let file_size := Z.of_nat (length data) in
    v ← of_outcome (elf_validate data file_size);
    if negb (v =? ELF_SUCCESS) then say YELLOW "[ELF INFO] Invalid ELF file\n" [] ;; kfree fuel elf_buffer ;; mret (-1) else
    oc ← on_memory (elf_create_context fuel data file_size);
    match oc with
    | None => kfree fuel elf_buffer ;; mret (-1)
    | Some c =>
      elf_print_header c.(ehdr) ;;
      elf_print_program_headers c ;;
      elf_print_section_headers c ;;
      c ← on_memory (elf_resolve_symbols fuel c);
      elf_print_symbols c ;;
      match c.(dynamic) with Some _ => elf_print_dynamic c | None => skip end ;;
      destroy_context c ;;
      kfree fuel elf_buffer ;;
      mret 0
    end
  end.

(** A header without program and section headers. *)
Definition test_ehdr : Elf64_Ehdr :=
  mk_ehdr ([127; 69; 76; 70; 2; 1; 1] ++ replicate 9 0) ET_EXEC EM_X86_64 1 0x400000 0 0 0 sizeof_ehdr sizeof_phdr 0 sizeof_shdr 0 0.
Definition elf_test_simple : Cmd unit :=
  say WHITE "\n=== ELF Loader Test ===\n" [] ;;
  let result := check_ehdr test_ehdr in
  (if result =? ELF_SUCCESS then say MAGENTA "[TEST] ELF validation: PASSED\n" []
   else say YELLOW "[TEST] ELF validation: FAILED (%d)\n" [Word result]) ;;
  elf_print_header test_ehdr.

Definition shell_cmd_elfinfo (path : list Z) : Cmd unit := elf_info path ;; skip.
(** [path_p], [env_path], [env_home]: where the strings are. *)
Definition shell_cmd_elfexec (path : list Z) (path_p env_path env_home : Z) : Cmd unit :=
  elf_exec_file path [path_p] [env_path; env_home] ;; skip.
Definition shell_cmd_elftest : Cmd unit := elf_test_simple.
Definition shell_command_elftest : Cmd unit :=
  says [(CYAN, "\n========================================\n"%string); (CYAN, "  ELF Loader Test Suite\n"%string);
        (CYAN, "========================================\n\n"%string)] ;;
  elf_test_simple ;;
  say GREEN "\n=== All Tests Complete ===\n" [].

Definition process_create_from_elf `{!Sched.Image} (path name : list Z) : Cmd Z :=
  say WHITE "[PROC] Creating process from ELF: %s\n" [Str path] ;;
  r ← read_elf path skip skip None;
  match r with
  | None => mret (-1)
  | Some (elf_buffer, data) =>
    l ← load_file data;
    let '(result, info) := l in
    if negb (result =? ELF_SUCCESS) then say YELLOW "[PROC] Failed to load ELF\n" [] ;; kfree fuel elf_buffer ;; mret (-1) else
    pd ← on_kernel (fun k => let '(p, k) := Sched.process_create name info.(base_addr) k in (k, Sched.Ret p));
    if pd <? 0 then kfree fuel elf_buffer ;; mret (-1) else
    td ← on_kernel (Sched.thread_create fuel (u32 pd) info.(entry_point) 65536 10000000 1000000000 1000000000);
    if td <? 0 then say YELLOW "[PROC] Failed to create thread\n" [] ;; kfree fuel elf_buffer ;; mret (-1) else
    say MAGENTA "[PROC] Created process %d with thread %d from ELF\n" [Word pd; Word td] ;;
    mret pd
  end.
End Commands.
End ShellElf.
