(* ===== verification/ShellJobs.v ===== *)
(** * The shell's process, job and game commands (Shell/shell.c, Processes/process.c, Processes/fg.c, memory/memory.c)

    Tables and counts, foreground and background, the launch of a background
    command and the thread that runs it, the GUI thread, rock paper scissors.
    [busy n] is what interrupts do to the kernel during a delay loop of [n]
    rounds; entry points are the addresses the linker gives. *)
From Stdlib Require Import ZArith Lia String.
From stdpp Require Import base numbers list gmap.
From S2P Require Import Prelude CStr VfsTypes VFS Ata Memory Asm Scheduler Jobs Net Console Keyboard Desk Interrupts AC97 Shell ShellFiles.

Module ShellJobs.
Import Asm Ata Mem Console Keyboard Files Shell ShellFiles.
Import Interrupts(GREEN, YELLOW, MAGENTA, BROWN).
Import Sched(kernel, Image, thread_table, process_table, job_table, tid, parent, state, used, pid, jused, jtid, jstate, command,
  is_background, THREAD_STATE_RUNNING, THREAD_STATE_READY, THREAD_STATE_BLOCKED, THREAD_STATE_TERMINATED, thread_state).
Local Open Scope Z_scope.
Local Open Scope outcome_scope.

#[local] Existing Instance Sched.thread_state_eq_dec.

(** ** Counts *)
Definition threads_in (st : thread_state) (k : kernel) : Z :=
  Z.of_nat (length (filter (fun t => used t <> 0 /\ state t = st) (thread_table k))).
Definition active_jobs (k : kernel) : Z := Z.of_nat (length (filter (fun j => jused j <> 0) (job_table k))).

(** The value of the enumeration. *)
Definition state_number (st : thread_state) : Z :=
  match st with THREAD_STATE_READY => 0 | THREAD_STATE_RUNNING => 1 | THREAD_STATE_BLOCKED => 2 | THREAD_STATE_TERMINATED => 3 end.

(** A decimal number in an [int]. *)
Fixpoint int_from (result : Z) (str : list Z) : Z :=
  match str with
  | c :: str => if is_digit c then int_from (s32 (s32 (result * 10) + (c - 48))) str else result
  | [] => result
  end.

(** ** The context of a background command: its fields' offsets and size *)
Definition ctx_command : Z := 0.
Definition ctx_cmd_name : Z := 256.
Definition ctx_args : Z := 320.
Definition ctx_job_id : Z := 512.
Definition ctx_should_run : Z := 516.
Definition sizeof_bg_exec_context : Z := 520.

Section Commands.
Context {W D H : Type} `{!PortIO D, !FileApi W, !DirApi W, !TreeApi W, !Image} (fuel : nat).
Context (busy : Z -> sys W D H -> sys W D H).
Context (bg_command_thread_address gui_thread_entry_address : Z).
Notation Cmd := (Sh (sys W D H)).

Definition kernel_is {A} (f : kernel -> A) : Cmd A := gets (fun s => f s.(krn)).
Definition delay (n : Z) : Cmd unit := modify (busy n).
Definition deref_thread (c : nat) : Cmd Sched.thread :=
  t ← kernel_is (fun k => thread_table k !! c); match t with Some t => mret t | None => crash end.
(** [thread->parent->pid]. *)
Definition parent_pid (t : Sched.thread) : Cmd Z :=
  match parent t with
  | None => crash
  | Some p => q ← kernel_is (fun k => process_table k !! p); match q with Some q => mret (pid q) | None => crash end
  end.
Definition proc_pid (p : nat) : Cmd Z :=
  q ← kernel_is (fun k => process_table k !! p); match q with Some q => mret (pid q) | None => crash end.

(** ** Scheduler and system checks *)
Definition cmd_schedinfo : Cmd unit :=
  say CYAN "\n=== Scheduler Information ===\n" [] ;;
  on ← kernel_is Sched.get_scheduler_enabled;
  say WHITE "Scheduler enabled: %s\n" [Str (if c_true on then lit "YES" else lit "NO")] ;;
  current ← kernel_is Sched.get_current_thread;
  match current with
  | Some c => t ← deref_thread c; say GREEN "Current thread: TID=%u\n" [Word (tid t)]
  | None => say YELLOW "Current thread: NONE\n" []
  end ;;
  running ← kernel_is (threads_in THREAD_STATE_RUNNING);
  ready ← kernel_is (threads_in THREAD_STATE_READY);
  blocked ← kernel_is (threads_in THREAD_STATE_BLOCKED);
  terminated ← kernel_is (threads_in THREAD_STATE_TERMINATED);
  say WHITE "\nThread States:\n" [] ;;
  say GREEN "  Running:    %d\n" [Word running] ;;
  say WHITE "  Ready:      %d\n" [Word ready] ;;
  say YELLOW "  Blocked:    %d\n" [Word blocked] ;;
  say RED "  Terminated: %d\n" [Word terminated] ;;
  when ((running =? 0) && (0 <? ready))
    (say RED "\n!! WARNING: No running threads but %d ready!\n" [Word ready] ;;
     say YELLOW "!! Scheduler is not running threads!\n" []).

(** scheduler.c: the stack pointer of a thread and its stack. *)
Definition in_stack (t : Sched.thread) : bool :=
  let stack_start := Sched.stack_base t in let stack_end := u64 (stack_start + Sched.stack_size t) in
  (stack_start <=? Sched.c_rsp (Sched.context t)) && (Sched.c_rsp (Sched.context t) <? stack_end).
(** The bytes of the dash in one of the messages. *)
Definition dash_mark : list Z := [195; 162; 226; 130; 172; 226; 128; 157].
Definition debug_next (t : Sched.thread) : Cmd unit :=
  say WHITE "\nNext thread: TID=%u\n" [Word (tid t)] ;;
  say WHITE "  RSP: 0x%llx\n" [Word (Sched.c_rsp (Sched.context t))] ;;
  say WHITE "  RIP: 0x%llx\n" [Word (Sched.c_rip (Sched.context t))] ;;
  (if in_stack t then say GREEN "  RSP within stack\n" []
   else on_screen (PRINT RED BLACK (32 :: dash_mark ++ txt " RSP OUTSIDE STACK!\n") [])) ;;
  say WHITE "\n  Stack at RSP:\n" [] ;;
  for_each [0; 1; 2; 3; 4; 5; 6; 7] (fun i =>
    w ← kernel_is (fun k => Mem.load64 (Mem.mem (Sched.kmm k)) (u64 (Sched.c_rsp (Sched.context t) + 8 * i)));
    say WHITE "    [RSP+%d] = 0x%llx\n" [Word (i * 8); Word w]).
Definition debug_context_switch : Cmd unit :=
  current ← kernel_is Sched.get_current_thread;
  match current with
  | None => say YELLOW "[DEBUG] No current thread\n" []
  | Some c =>
    t ← deref_thread c;
    say CYAN "\n=== Context Switch Debug ===\n" [] ;;
    say WHITE "Current thread: TID=%u\n" [Word (tid t)] ;;
    say WHITE "  State: %d\n" [Word (state_number (state t))] ;;
    say WHITE "  RSP: 0x%llx\n" [Word (Sched.c_rsp (Sched.context t))] ;;
    say WHITE "  RIP: 0x%llx\n" [Word (Sched.c_rip (Sched.context t))] ;;
    say WHITE "  Stack base: 0x%llx\n" [Word (Sched.stack_base t)] ;;
    say WHITE "  Stack top:  0x%llx\n" [Word (u64 (Sched.stack_base t + Sched.stack_size t))] ;;
    (if in_stack t then say GREEN "  RSP within stack\n" [] else say RED "RSP OUTSIDE STACK!\n" []) ;;
    head ← kernel_is Sched.ready_queue_head;
    match head with
    | Some n => next ← deref_thread n; debug_next next
    | None => skip
    end
  end.

(** threads_init.c: the first [n] rounds of the threads' endless loops. *)
Fixpoint idle_rounds (n : nat) : Cmd unit :=
  match n with O => skip | S n => on_kernel (Sched.thread_yield fuel) ;; delay 1000 ;; idle_rounds n end.
Definition idle_thread_entry (n : nat) : Cmd unit := say MAGENTA "[IDLE] Started\n" [] ;; idle_rounds n.
Fixpoint test_rounds (n : nat) (counter : Z) : Cmd unit :=
  match n with
  | O => skip
  | S n =>
    let counter := u64 (counter + 1) in
    when (counter mod 100000000 =? 0) (say MAGENTA "[TEST] tick %llu\n" [Word (counter / 100000000)]) ;;
    when (counter mod 10000000 =? 0) (on_kernel (Sched.thread_yield fuel)) ;;
    test_rounds n counter
  end.
Definition test_thread_entry (n : nat) : Cmd unit := say YELLOW "[TEST] Thread started!\n" [] ;; test_rounds n 0.

Definition cmd_schedstart : Cmd unit :=
  say WHITE "Forcing scheduler to start threads...\n" [] ;;
  ready_count ← kernel_is (threads_in THREAD_STATE_READY);
  say WHITE "Found %d ready threads\n" [Word ready_count] ;;
  if 0 <? ready_count then
    say WHITE "Calling thread_yield() to start scheduling...\n" [] ;;
    on_kernel (Sched.thread_yield fuel) ;;
    say GREEN "Done. Check with 'schedinfo'.\n" []
  else say YELLOW "No ready threads to start!\n" [].

Definition cmd_jobupdate : Cmd unit :=
  say WHITE "Forcing job update...\n" [] ;;
  on_kernel Jobs.update_jobs ;;
  say GREEN "Done. Run 'jobs' to see result.\n" [].

(** The bytes of the mark printed before two messages. *)
Definition cross_mark : list Z := [195; 162; 197; 147; 226; 128; 148].

(** Each check gives the number of issues it found. *)
Definition check_timer : Cmd Z :=
  say WHITE "[1/5] Checking timer... " [] ;;
  t1 ← kernel_is Jobs.get_timer_ticks;
  delay 10000000 ;;
  t2 ← kernel_is Jobs.get_timer_ticks;
  if t1 <? t2 then say GREEN " OK (%llu ticks in delay)\n" [Word (t2 - t1)] ;; mret 0
  else say RED " FAILED (timer not incrementing!)\n" [] ;; mret 1.
Definition check_scheduler : Cmd Z :=
  say WHITE "[2/5] Checking scheduler... " [] ;;
  on ← kernel_is Sched.get_scheduler_enabled;
  if c_true on then say GREEN " Enabled\n" [] ;; mret 0 else say RED " DISABLED\n" [] ;; mret 1.
Definition check_threads (running ready blocked : Z) : Cmd Z :=
  say WHITE "[3/5] Checking threads... " [] ;;
  if (0 <? running) || (0 <? ready) then
    say GREEN " OK (Running:%d Ready:%d Blocked:%d)\n" [Word running; Word ready; Word blocked] ;;
    if (running =? 0) && (0 <? ready) then
      says [(YELLOW, "     Warning: Threads ready but none running!\n"%string); (YELLOW, "   Scheduler may not be being called.\n"%string)] ;; mret 1
    else mret 0
  else say YELLOW "  No active threads\n" [] ;; mret 0.
Definition check_irq0 (pic_mask : Z) : Cmd Z :=
  if c_true (Z.land pic_mask 1) then
    on_screen (PRINT RED BLACK (cross_mark ++ txt " IRQ0 (timer) is MASKED!\n") []) ;;
    say YELLOW "   PIC mask: 0x%02x\n" [Word pic_mask] ;; mret 1
  else say GREEN " IRQ0 unmasked (mask: 0x%02x)\n" [Word pic_mask] ;; mret 0.
Definition cmd_syscheck : Cmd unit :=
  i1 ← check_timer;
  i2 ← check_scheduler;
  running ← kernel_is (threads_in THREAD_STATE_RUNNING);
  ready ← kernel_is (threads_in THREAD_STATE_READY);
  blocked ← kernel_is (threads_in THREAD_STATE_BLOCKED);
  i3 ← check_threads running ready blocked;
  say WHITE "[4/5] Checking job system... " [] ;;
  n ← kernel_is active_jobs;
  say GREEN " %d active jobs\n" [Word n] ;;
  say WHITE "[5/5] Checking interrupts... " [] ;;
  pic_mask ← on_ports (inb 0x21);
  i5 ← check_irq0 pic_mask;
  let issues := i1 + i2 + i3 + i5 in
  if issues =? 0 then
    says [(GREEN, " ALL CHECKS PASSED\n"%string); (WHITE, "\nSystem should be working correctly.\n"%string); (WHITE, "Try: sleep 5 &\n"%string)]
  else
    say YELLOW "  %d ISSUES FOUND\n" [Word issues] ;;
    say WHITE "\nRecommended actions:\n" [] ;;
    on ← kernel_is Sched.get_scheduler_enabled;
    when (on =? 0) (say WHITE "   Scheduler disabled" []) ;;
    when (c_true (Z.land pic_mask 1)) (say WHITE "   Timer IRQ masked - interrupts won't fire\n" []) ;;
    when ((running =? 0) && (0 <? ready)) (say WHITE " Scheduler not running threads" []).

(** ** Tables *)

(** memory.c: the cursor is moved and its colours are changed. *)
Definition memory_stats : Cmd unit :=
  on_screen (fun c => Done (SetColors WHITE RED (SetCursorPos 20 20 c))) ;;
  m ← kernel_is Sched.kmm;
  let p (text : string) (args : list va) : Cmd unit := on_screen (PRINT WHITE RED (txt text) args) in
  p "=== Memory Statistics ===\n"%string [] ;;
  p "Physical Memory:\n"%string [] ;;
  p "  Total pages: %llu\n"%string [Word m.(total_pages)] ;;
  p "  Used pages: %llu\n"%string [Word m.(used_pages)] ;;
  p "  Free pages: %llu\n"%string [Word (u64 (m.(total_pages) - m.(used_pages)))] ;;
  p "  Total size: %llu KB\n"%string [Word (u64 (m.(total_pages) * 4))] ;;
  p "\nHeap Memory:\n"%string [] ;;
  p "  Base: 0x%llx\n"%string [Word m.(kernel_heap_base)] ;;
  p "  Size: %llu KB\n"%string [Word (m.(kernel_heap_size) / 1024)] ;;
  p "  Used: %llu KB\n"%string [Word (m.(kernel_heap_used) / 1024)] ;;
  p "  Free: %llu KB\n"%string [Word (u64 (m.(kernel_heap_size) - m.(kernel_heap_used)) / 1024)] ;;
  p "\nHeap Operations:\n"%string [] ;;
  p "  Allocations: %llu\n"%string [Word m.(alloc_count)] ;;
  p "  Frees: %llu\n"%string [Word m.(free_count)] ;;
  p "  Splits: %llu\n"%string [Word m.(split_count)] ;;
  p "  Coalesces: %llu\n"%string [Word m.(coalesce_count)] ;;
  p "\nStack:\n"%string [] ;;
  p "  Base: 0x%llx\n"%string [Word m.(kernel_stack_base)] ;;
  p "  Top: 0x%llx\n"%string [Word m.(kernel_stack_top)] ;;
  p "  Size: %llu KB\n"%string [Word (u64 (m.(kernel_stack_top) - m.(kernel_stack_base)) / 1024)].

(** process.c *)
Definition pstate_name (st : Sched.process_state) : list Z :=
  match st with
  | Sched.PROCESS_STATE_RUNNING => lit "RUNNING"
  | Sched.PROCESS_STATE_READY => lit "READY"
  | Sched.PROCESS_STATE_BLOCKED => lit "BLOCKED"
  | Sched.PROCESS_STATE_TERMINATED => lit "TERMINATED"
  end.
Definition tstate_name (st : thread_state) : list Z :=
  match st with
  | THREAD_STATE_RUNNING => lit "RUNNING"
  | THREAD_STATE_READY => lit "READY"
  | THREAD_STATE_BLOCKED => lit "BLOCKED"
  | THREAD_STATE_TERMINATED => lit "TERMINATED"
  end.
Definition print_process (p : Sched.process) : Cmd unit :=
  say MAGENTA "PID=%u | '%s' | Memory=0x%llX | State=%s | Threads=%u\n"
    [Word (pid p); Str (cstr (Sched.name p)); Word (Sched.memory_space p); Str (pstate_name (Sched.pstate p)); Word (Sched.thread_count p)] ;;
  for_each (seq 0 (Z.to_nat (Sched.thread_count p))) (fun j =>
    match Sched.threads p !! j with
    | None => crash
    | Some None => skip
    | Some (Some c) =>
      t ← deref_thread c;
      say WHITE "  TID=%u | %s | Entry=0x%llx\n" [Word (tid t); Str (tstate_name (state t)); Word (Sched.entry_point t)]
    end).
Definition print_process_table : Cmd unit :=
  say WHITE "\n=== Process Table ===\n" [] ;;
  l ← kernel_is (fun k => filter (fun p => Sched.pused p <> 0) (process_table k));
  for_each l print_process ;;
  when (Nat.eqb (length l) 0) (say WHITE "(No processes)\n" []).

Definition cmd_threads : Cmd unit :=
  say WHITE "\n=== Thread Information ===\n" [] ;;
  current ← kernel_is Sched.get_current_thread;
  match current with
  | Some c => t ← deref_thread c; p ← parent_pid t; say GREEN "Current thread: TID=%u (PID=%u)\n" [Word (tid t); Word p]
  | None => say WHITE "No thread currently running\n" []
  end ;;
  running ← kernel_is (threads_in THREAD_STATE_RUNNING);
  ready ← kernel_is (threads_in THREAD_STATE_READY);
  blocked ← kernel_is (threads_in THREAD_STATE_BLOCKED);
  say WHITE "\nThread states:\n" [] ;;
  say GREEN "  Running: %d\n" [Word running] ;;
  say WHITE "  Ready: %d\n" [Word ready] ;;
  say YELLOW "  Blocked: %d\n" [Word blocked].

(** fg.c: a job's line of [list_jobs]. printk has no field widths. *)
Definition job_args (e : Z * bool * (list Z * list Z) * list Z) : list va :=
  let '(id, fg, (state_str, detail_str), cmd) := e in
  [Word id; Str (if fg then lit "(fg) " else []); Str state_str; Str detail_str; Str (cstr cmd)].
Definition job_format : string := "[%d]  %s%-20s%s%-30s\n".
Definition list_jobs : Cmd unit :=
  say WHITE "\n=== Jobs ===\n" [] ;;
  l ← kernel_is Jobs.list_jobs;
  for_each l (fun e => say WHITE job_format (job_args e)) ;;
  when (Nat.eqb (length l) 0) (say WHITE "(No jobs)\n" []).

(** ** Foreground and background *)
Definition get_job (id : Z) : Cmd (option Sched.job) :=
  kernel_is (fun k => Jobs.get_job id k ≫= fun i => job_table k !! i).

Definition bring_to_foreground (id : Z) : Cmd unit :=
  job ← get_job id;
  match job with
  | None => say YELLOW "fg: job %d not found\n" [Word id]
  | Some j =>
    if is_background j =? 0 then say WHITE "fg: job %d is already in foreground\n" [Word id] else
    c ← kernel_is (Sched.get_thread (jtid j));
    match c with
    | None => say YELLOW "fg: thread %u not found for job %d\n" [Word (jtid j); Word id]
    | Some c =>
      t ← deref_thread c;
      say GREEN "fg: job %d (%s) - thread state = %d\n"
        [Word id; Str (cstr (command j));
         Word (state_number (state t))] ;;
      when (bool_decide (state t = THREAD_STATE_BLOCKED)) (say WHITE "fg: Unblocking thread %u...\n" [Word (tid t)]) ;;
      on_kernel (Jobs.bring_to_foreground id) ;;
      t ← deref_thread c;
      when (bool_decide (state t = THREAD_STATE_READY)) (say GREEN "fg: Thread %u is ready, will be scheduled\n" [Word (tid t)]) ;;
      say GREEN "fg: job %d (%s) moved to foreground\n" [Word id; Str (cstr (command j))] ;;
      say WHITE "Note: Job continues running. Check with 'jobs' command.\n" []
    end
  end.

Definition send_to_background (id : Z) : Cmd unit :=
  job ← get_job id;
  match job with
  | None => say YELLOW "bg: job %d not found\n" [Word id]
  | Some j =>
    if negb (is_background j =? 0) then say WHITE "bg: job %d is already in background\n" [Word id] else
    modify (fun s => set_krn (Jobs.send_to_background id s.(krn)) s) ;;
    say GREEN "bg: job %d (%s) sent to background\n" [Word id; Str (cstr (command j))]
  end.

Definition cmd_fg (arg : list Z) : Cmd unit :=
  let job_id := int_from 0 arg in
  if 0 <? job_id then bring_to_foreground job_id else say YELLOW "Usage: fg <job_id>\n" [].
Definition cmd_bg (arg : list Z) : Cmd unit :=
  let job_id := int_from 0 arg in
  if 0 <? job_id then send_to_background job_id else say YELLOW "Usage: bg <job_id>\n" [].

Definition add_fg_job (cmd : list Z) (pd td : Z) : Cmd Z := fun s =>
  let '(id, k) := Jobs.add_fg_job cmd pd td s.(krn) in (set_krn k s, Finished id).
Definition add_bg_job (cmd : list Z) (pd td : Z) : Cmd Z := fun s =>
  let '(id, k) := Jobs.add_bg_job cmd pd td s.(krn) in (set_krn k s, Finished id).

(** [cmd] is the whole line, its argument after six characters. *)
Definition cmd_sleep (cmd : list Z) : Cmd unit :=
  let seconds := parse_number (drop 6 cmd) in
  if 0 <? seconds then
    say WHITE "Sleeping for %u seconds...\n" [Word seconds] ;;
    current ← kernel_is Sched.get_current_thread;
    match current with
    | None => skip
    | Some c =>
      t ← deref_thread c;
      p ← parent_pid t;
      job_id ← add_fg_job cmd p (tid t);
      say WHITE "[Job %d created for foreground sleep]\n" [Word job_id]
    end ;;
    on_kernel (Jobs.sleep_seconds fuel seconds) ;;
    say GREEN "Awake!\n" []
  else say YELLOW "error: sleep count can not be under 0!\n" [].

(** ** Background commands *)
Definition set_private_data (c : nat) (v : Z) (k : kernel) : kernel :=
  Sched.upd c (fun t => Sched.mk_thread (tid t) (parent t) (state t) (Sched.context t) (Sched.stack_base t) (Sched.stack_size t)
    (Sched.stack_pointer t) (Sched.sched t) (Sched.last_scheduled t) (Sched.next t) (used t) v (Sched.entry_point t) (Sched.sleep_until t)) k.

(** The line without its ampersand and the spaces before it. *)
Fixpoint trim_end (rev_cmd : list Z) : list Z :=
  match rev_cmd with c :: r => if c =? 32 then trim_end r else rev_cmd | [] => [] end.
Definition background_text (cmd : list Z) : list Z := rev (trim_end (tl (rev cmd))).

Definition launch_background (cmd : list Z) : Cmd unit :=
  if Nat.eqb (length cmd) 0 then say YELLOW "Invalid command\n" [] else
  say WHITE "[SHELL] Launching background job: %s\n" [Str cmd] ;;
  proc ← kernel_is (Sched.get_process 1);
  match proc with
  | None => say YELLOW "[ERROR] Init process not found\n" []
  | Some p =>
    bg_ctx ← kmalloc fuel sizeof_bg_exec_context;
    if bg_ctx =? 0 then say YELLOW "[ERROR] Out of memory\n" [] else
    poke (bg_ctx + ctx_command) (strcpy_safe_local cmd 256 ++ [0]) ;;
    poke (bg_ctx + ctx_job_id) (le_bytes 4 (u32 (-1))) ;;
    poke (bg_ctx + ctx_should_run) (le_bytes 4 1) ;;
    proc_id ← proc_pid p;
    td ← on_kernel (Sched.thread_create fuel proc_id bg_command_thread_address 65536 50000000 500000000 500000000);
    if td <? 0 then say YELLOW "[ERROR] Failed to create background thread\n" [] ;; kfree fuel bg_ctx else
    thread ← kernel_is (Sched.get_thread (u32 td));
    match thread with
    | Some c => modify (fun s => set_krn (set_private_data c bg_ctx s.(krn)) s)
    | None => skip
    end ;;
    job_id ← add_bg_job cmd proc_id td;
    if 0 <? job_id then
      poke (bg_ctx + ctx_job_id) (le_bytes 4 job_id) ;;
      say GREEN "[%d] %d (thread %d)\n" [Word job_id; Word proc_id; Word td]
    else say YELLOW "[ERROR] Failed to add background job\n" [] ;; kfree fuel bg_ctx
  end.

(** The commands a background thread knows. *)
Definition bg_cat (args : list Z) : Cmd unit :=
  path ← resolve args;
  fd ← vfs_open path FILE_READ;
  if 0 <=? fd then
    r ← vfs_read fd (replicate 513 0) 512;
    (if 0 <? r.1 then buffer ← of_outcome (aset r.2 r.1 0); say WHITE "%s\n" [Str (cstr buffer)] else skip) ;;
    vfs_close fd
  else say YELLOW "File not found: %s\n" [Str path].
Definition bg_ls (args : list Z) : Cmd unit :=
  if hd 0 args =? 0 then cmd_ls else path ← resolve args; vfs_list_directory path.
Definition bg_run (job_id : Z) (cmd_name args : list Z) : Cmd unit :=
  if begins cmd_name "sleep" 5 then
    let seconds := parse_number args in
    if 0 <? seconds then
      say WHITE "[BG %d] Sleeping %u seconds\n" [Word job_id; Word seconds] ;;
      on_kernel (Jobs.sleep_seconds fuel seconds) ;;
      say GREEN "[BG %d] Sleep complete!\n" [Word job_id]
    else say YELLOW "[BG %d] Invalid sleep duration\n" [Word job_id]
  else if begins cmd_name "echo" 4 then say WHITE "%s\n" [Str args]
  else if begins cmd_name "ls" 2 then bg_ls args
  else if begins cmd_name "cat" 3 then bg_cat args
  else
    say YELLOW "Unknown background command: %s\n" [Str cmd_name] ;;
    say WHITE "Supported: sleep, echo, ls, cat\n" [].

(** The name, 63 characters at most, and the text after the spaces, 191 at most. *)
Definition bg_split (command : list Z) : list Z * list Z :=
  let '(cmd_name, rest) := word_of 63 command in (cmd_name, take 191 (skip_spaces rest)).

(** The job's number is read from the context when it is printed. *)
Definition bg_command_thread : Cmd unit :=
  current ← kernel_is Sched.get_current_thread;
  ctx ← (match current with None => mret 0 | Some c => t ← deref_thread c; mret (Sched.private_data t) end);
  if ctx =? 0 then say YELLOW "[BG ERROR] Invalid thread data\n" [] ;; on_kernel (Sched.thread_exit fuel) else
  modify (fun s => set_krn (Sched.sti s.(krn)) s) ;;
  buf ← peek_bytes (ctx + ctx_command) 256;
  let command := cstr buf in
  let ctx_job : Cmd Z := b ← peek_bytes (ctx + ctx_job_id) 4; mret (s32 (le_value b)) in
  job_id ← ctx_job;
  say GREEN "\n[BG %d] Starting: %s\n" [Word job_id; Str command] ;;
  let '(cmd_name, args) := bg_split command in
  poke (ctx + ctx_cmd_name) (cmd_name ++ [0]) ;;
  poke (ctx + ctx_args) (args ++ [0]) ;;
  job_id ← ctx_job;
  bg_run job_id cmd_name args ;;
  poke (ctx + ctx_should_run) (le_bytes 4 0) ;;
  job_id ← ctx_job;
  say GREEN "[BG %d] Done!\n" [Word job_id] ;;
  on_kernel (Sched.thread_yield fuel) ;;
  on_kernel (Sched.thread_exit fuel).

(** ** The GUI thread *)
Definition cmd_gui : Cmd unit :=
  say CYAN "\n=== Starting GUI Thread ===\n" [] ;;
  proc ← kernel_is (Sched.get_process 1);
  match proc with
  | None => say YELLOW "[ERROR] Init process not found\n" []
  | Some p =>
    say WHITE "[GUI] Creating GUI thread...\n" [] ;;
    proc_id ← proc_pid p;
    td ← on_kernel (Sched.thread_create fuel proc_id gui_thread_entry_address 131072 50000000 1000000000 1000000000);
    if td <? 0 then
      say YELLOW "[ERROR] Failed to create GUI thread\n" [] ;;
      say WHITE "Error code: %d\n" [Word td]
    else
      job_id ← add_fg_job (txt "gui") proc_id td;
      say GREEN "[GUI] GUI thread created successfully!\n" [] ;;
      say GREEN "      Thread ID: %d\n" [Word td] ;;
      say GREEN "      Job ID: %d\n" [Word job_id] ;;
      says [(WHITE, "\n"%string); (WHITE, "GUI Controls:\n"%string);
            (WHITE, "  - Press ESC to exit GUI and return to shell\n"%string);
            (WHITE, "  - Use mouse to interact with desktop\n"%string);
            (WHITE, "  - Right-click for context menu\n"%string); (WHITE, "\n"%string);
            (WHITE, "Shell Commands:\n"%string); (WHITE, "  - Use 'jobs' to check GUI status\n"%string)] ;;
      say WHITE "  - Use 'fg %d' to bring GUI to foreground (if needed)\n" [Word job_id] ;;
      say WHITE "\n" []
  end.

(** ** Rock, paper, scissors *)
Definition rock : list Z := lit "rock".
Definition paper : list Z := lit "paper".
Definition scissors : list Z := lit "scissors".

(** The sum wraps as the machine's addition does; the remainder has its sign. *)
Definition fibonacci_rng : Cmd Z := fun s =>
  let next := s32 (s.(fib_a) + s.(fib_b)) in (set_fib s.(fib_b) next s, Finished (Z.rem next 3)).
Definition computer_pick (n : Z) : list Z := if n =? 0 then rock else if n =? 1 then paper else scissors.
Definition user_pick (s : list Z) : option (list Z) :=
  if strncmp 4 s rock =? 0 then Some rock
  else if strncmp 5 s paper =? 0 then Some paper
  else if strncmp 8 s scissors =? 0 then Some scissors
  else None.

Definition both (n m : nat) (a x b y : list Z) : bool := (strncmp n a x =? 0) && (strncmp m b y =? 0).
Inductive verdict := Draw | Win | Lose.
Definition rps_verdict (user computer : list Z) : verdict :=
  if both 4 4 user rock computer rock || both 5 5 user paper computer paper || both 8 8 user scissors computer scissors then Draw
  else if both 4 8 user rock computer scissors || both 5 4 user paper computer rock || both 8 5 user scissors computer paper then Win
  else Lose.
Definition compute_result (user computer : list Z) : Cmd unit :=
  match rps_verdict user computer with
  | Draw => say YELLOW "Draw!\n" []
  | Win => say YELLOW "you win (unfortunately, fuck!)\n" []
  | Lose => say YELLOW "easy win, you're horrible lmfao\n" []
  end.

(** The wait for a line that is not empty, with the codes that arrive before each round. *)
Fixpoint rps_input (arrivals : list (list Z)) : Cmd (list Z) :=
  match arrivals with
  | [] => fun s => (s, Cut)
  | xs :: arrivals =>
    on_keys (fun k => let* k := process_keyboard_buffer (foldl (fun k x => keyboard_handler x k) k xs) in Done ((), k)) ;;
    ready ← gets (fun s => input_available s.(keys));
    if c_true ready then
      line ← on_keys (fun k => Done (get_input_and_reset k));
      match line with
      | Some b => if hd 0 b =? 0 then rps_input arrivals else mret (cstr b)
      | None => crash
      end
    else rps_input arrivals
  end.
Definition play_rps (arrivals : list (list Z)) : Cmd unit :=
  userpick ← rps_input arrivals;
  n ← fibonacci_rng;
  match user_pick userpick with
  | None => say YELLOW "Invalid input!\n" []
  | Some user_str =>
    say YELLOW "You picked: %s\n" [Str user_str] ;;
    say YELLOW "Computer picked: %s\n" [Str (computer_pick n)] ;;
    compute_result user_str (computer_pick n)
  end.
End Commands.
End ShellJobs.
