(* ===== verification/ShellDevs.v ===== *)
(** * The shell's network and sound commands (Shell/shell.c; parts of Network/ and Audio/AC97.c)

    [ShellNet]: configuration, status, tests, and wget with the file it
    writes. [ShellAudio]: the sound and piano commands. A NULL argument string
    is [None]. Both print what the shell prints; the stack and the driver
    are those of Net.v, NetClients.v, Http.v, E1000.v, AC97.v and
    PianoSynth.v. *)
From Stdlib Require Import ZArith Lia String.
From stdpp Require Import base numbers list gmap.
From S2P Require Import Prelude CStr VfsTypes VFS Ata Memory Asm Scheduler Jobs NetPkt Net NetClients Http E1000 Console Keyboard Desk Interrupts AC97 PianoSynth Shell ShellFiles ShellJobs.

Module ShellNet.
Import Asm Ata Pkt Console Files Shell ShellFiles.
Import Interrupts(GREEN, YELLOW, MAGENTA, BROWN).
Import Net(net_config, mac, ip, netmask, gateway, configured, Nic, arp_cache).
Local Open Scope Z_scope.
Local Open Scope outcome_scope.

Definition bullet_mark : list Z := [195; 162; 226; 130; 172; 194; 162].
Definition wrench_mark : list Z := [195; 176; 197; 184; 226; 128; 157; 194; 167].
Definition globe_mark : list Z := [195; 176; 197; 184; 197; 146; 194; 144].

(** [while (s[i] && s[i] != ' ' && s[i] != '\n' && i < 31)]. *)
Definition ip_word (s : list Z) : list Z := (collect 31 (fun c => (c =? 32) || (c =? 10)) s).1.

(** The test that is to recognise 10.0.2.x. *)
Definition looks_like_nat (ip : Z) : bool := Z.land ip 0xFFFFFF00 =? 0x0A000200.

(** A DNS query for the name a; the rest of the 32 bytes is zero. *)
Definition webtest_query : list Z :=
  [0x12; 0x34; 0x01; 0x00; 0x00; 0x01; 0; 0; 0; 0; 0; 0; 0x01; 97; 0x00; 0x00; 0x01; 0x00; 0x01] ++ replicate 13 0.
Definition udp_test_data (i : Z) : list Z := [84; 69; 83; 84; 48 + i; 85; 68; 80].

Section Commands.
Context {W D H : Type} `{!PortIO D, !Pci.PciPorts D, !FileApi W, !DirApi W, !TreeApi W, !Nic H} (fuel spin depth : nat).
Context (busy : Z -> sys W D H -> sys W D H) (rx_addr tx_addr : Z).
Notation Cmd := (Sh (sys W D H)).
Notation send := (Net.send_ipv4 spin depth).
Notation irq := (Net.poll spin depth).

Definition config : Cmd Net.net_config_t := gets (fun s => s.(nt).(net_config)).
Definition delay (n : Z) : Cmd unit := modify (busy n).
Definition link_up : Cmd bool := v ← on_net E1000Init.e1000_link_status; mret (c_true v).
Definition dns_resolve (name : string) : Cmd (option Z) := on_net (Clients.dns_resolve send irq (txt name)).
Definition udp_send (dest sp dp : Z) (data : list Z) : Cmd Z :=
  on_net (Clients.udp_send send dest sp dp data (Z.of_nat (length data))).
Definition icmp_send_ping (dest id seq : Z) : Cmd Z := on_net (Clients.icmp_send_ping send dest id seq).
Definition ping_fast (target : string) : Cmd unit := on_net (Clients.cmd_ping_fast send irq (txt target)) ;; skip.

(** net.c, arp.c *)
Definition net_print_ip (v : Z) : Cmd unit := say WHITE "%d.%d.%d.%d" (Word <$> Pkt.net_print_ip v).
Definition net_print_mac (m : list Z) : Cmd unit :=
  l ← of_outcome (load_bytes m 0 6);
  say WHITE "%llx:%llx:%llx:%llx:%llx:%llx" (Word <$> l).
Definition arp_print_cache : Cmd unit :=
  say CYAN "\n=== ARP Cache ===\n" [] ;;
  l ← gets (fun s => filter (fun e => e.(Net.arp_valid) <> 0) s.(nt).(arp_cache));
  for_each l (fun e => net_print_ip e.(Net.arp_ip) ;; say WHITE " -> " [] ;; net_print_mac e.(Net.arp_mac) ;; say WHITE "\n" []) ;;
  when (Nat.eqb (length l) 0) (say WHITE "(empty)\n" []).

Definition resolve_special_target (target : list Z) : Cmd Z :=
  cfg ← config;
  if begins target "gateway" 8 || begins target "gw" 3 then mret cfg.(gateway) else
  let v := net_parse_ip target in
  if negb (v =? 0) then mret v else
  r ← on_net (Clients.dns_resolve send irq target);
  mret (match r with Some a => a | None => 0 end).

(** Five packets at most; the counts of those sent and those that failed. *)
Fixpoint multiudp_rounds (n : nat) (i success : Z) : Cmd (Z * Z) :=
  match n with
  | O => mret (success, 0)
  | S n =>
    say WHITE "[%d] Sending UDP packet... " [Word (i + 1)] ;;
    result ← udp_send 0xFFFFFFFF 68 67 (udp_test_data i);
    if result =? 0 then
      say GREEN " Success\n" [] ;; delay 1000000 ;; multiudp_rounds n (i + 1) (success + 1)
    else
      on_screen (PRINT RED BLACK (ShellJobs.cross_mark ++ txt " FAILED (code %d)\n") [Word result]) ;;
      say YELLOW "    Stopping test - investigating failure...\n" [] ;;
      mret (success, 1)
  end.
Definition cmd_multiudp : Cmd unit :=
  says [(CYAN, "\n=== Multiple UDP Send Test ===\n"%string);
        (WHITE, "This tests if we can send multiple UDP packets.\n\n"%string)] ;;
  cfg ← config;
  when (cfg.(configured) =? 0) (say YELLOW "Note: Network not configured, using 0.0.0.0 as source\n" []) ;;
  r ← multiudp_rounds 5 0 0;
  let '(success, failed) := r in
  say WHITE "\n=== Results ===\n" [] ;;
  say WHITE "Success: %d\n" [Word success] ;;
  say WHITE "Failed: %d\n" [Word failed] ;;
  if 0 <? failed then
    says [(YELLOW, "\n  Multiple UDP sends failing!\n"%string); (WHITE, "This indicates TX descriptor exhaustion.\n"%string)]
  else
    says [(GREEN, "\n Multiple UDP sends work!\n"%string); (WHITE, "The issue with DHCP REQUEST is something else.\n"%string)].

(** The tests after the first two, which end the command when they fail. *)
Definition nettest_rest (cfg : Net.net_config_t) : Cmd unit :=
  say YELLOW "Test 3: Gateway Reachability... " [] ;;
  (if negb (cfg.(gateway) =? 0) then say WHITE "\n" [] ;; ping_fast "gateway" else say YELLOW "SKIP (no gateway)\n" []) ;;
  say YELLOW "Test 4: DNS Resolution... " [] ;;
  r ← dns_resolve "example.com";
  match r with
  | Some test_ip => say GREEN "PASS (" [] ;; net_print_ip test_ip ;; say WHITE ")\n" []
  | None => say RED "FAIL\n" []
  end ;;
  say YELLOW "Test 5: Internet Ping... " [] ;;
  say WHITE "\n" [] ;;
  ping_fast "8.8.8.8".
Definition cmd_nettest : Cmd unit :=
  says [(CYAN, "\n========================================\n"%string); (CYAN, "    NETWORK CONNECTIVITY TEST\n"%string);
        (CYAN, "========================================\n"%string); (YELLOW, "Test 1: Link Status... "%string)] ;;
  up ← link_up;
  (if negb up then say RED "FAIL (cable unplugged?)\n" [] else
   say GREEN "PASS\n" [] ;;
   say YELLOW "Test 2: IP Configuration... " [] ;;
   cfg ← config;
   if c_true cfg.(configured) then
     say GREEN "PASS\n" [] ;; say WHITE "        IP: " [] ;; net_print_ip cfg.(ip) ;; say WHITE "\n" [] ;;
     nettest_rest cfg
   else say RED "FAIL (run 'dhcp' first)\n" []) ;;
  say CYAN "========================================\n\n" [].

(** printk has no field widths: the hexadecimal forms are not shown. *)
Definition cmd_parseip (args : list Z) : Cmd unit :=
  let args := skip_spaces args in
  if hd 0 args =? 0 then say YELLOW "Usage: parseip <ip_address>\n" [] else
  let ip_str := ip_word args in
  say WHITE "Input string: '%s'\n" [Str ip_str] ;;
  say WHITE "Length: %d bytes\n" [Word (Z.of_nat (length ip_str))] ;;
  say WHITE "Hex dump: " [] ;;
  for_each ip_str (fun c => say WHITE "%02x " [Word (u8 c)]) ;;
  say WHITE "\n" [] ;;
  let parsed := net_parse_ip ip_str in
  say WHITE "Parsed result: 0x%08x\n" [Word parsed] ;;
  say WHITE "Formatted: " [] ;;
  net_print_ip parsed ;;
  say WHITE "\n" [] ;;
  say WHITE "\nOctets:\n" [] ;;
  say WHITE "  Octet 1: %d\n" [Word (Z.land (Z.shiftr parsed 0) 255)] ;;
  say WHITE "  Octet 2: %d\n" [Word (Z.land (Z.shiftr parsed 8) 255)] ;;
  say WHITE "  Octet 3: %d\n" [Word (Z.land (Z.shiftr parsed 16) 255)] ;;
  say WHITE "  Octet 4: %d\n" [Word (Z.land (Z.shiftr parsed 24) 255)].

Definition print_addresses (a n g : string) (cfg : Net.net_config_t) : Cmd unit :=
  say WHITE a [] ;; net_print_ip cfg.(ip) ;;
  say WHITE n [] ;; net_print_ip cfg.(netmask) ;;
  say WHITE g [] ;; net_print_ip cfg.(gateway) ;;
  say WHITE "\n" [].

Definition network_type (first : Z) : Cmd unit :=
  if first =? 10 then
    says [(WHITE, "   Private Network (Class A: 10.x.x.x)\n"%string); (WHITE, "    Likely VirtualBox NAT mode\n"%string)]
  else if first =? 172 then say WHITE "   Private Network (Class B: 172.16-31.x.x)\n" []
  else if first =? 192 then
    says [(WHITE, "   Private Network (Class C: 192.168.x.x)\n"%string);
          (WHITE, "    Likely on home/office network (Bridged mode)\n"%string)]
  else say WHITE "   Public IP or Unusual Configuration\n" [].
Definition adapter_mode (v : Z) : Cmd unit :=
  if looks_like_nat v then
    says [(CYAN, "    NAT Mode\n"%string); (WHITE, "    VM isolated, internet via host NAT\n"%string);
          (WHITE, "    Gateway is VirtualBox's virtual router\n"%string)]
  else
    says [(CYAN, "    Bridged Adapter Mode\n"%string); (WHITE, "    VM appears as real device on network\n"%string);
          (WHITE, "    Can communicate with other devices\n"%string)].
Definition cmd_netstatus : Cmd unit :=
  cfg ← config;
  say WHITE " Driver Status:\n" [] ;;
  up ← link_up;
  if negb up then
    says [(YELLOW, "    No physical link detected\n"%string); (WHITE, "    Check VirtualBox network adapter settings\n"%string);
          (WHITE, "    Ensure adapter is 'Attached to: NAT or Bridged'\n"%string)]
  else
    says [(GREEN, "    E1000 driver loaded\n"%string); (GREEN, "    Physical link detected (cable connected)\n"%string)] ;;
    on_screen (PRINT WHITE BLACK (txt "\n" ++ wrench_mark ++ txt " Hardware Address:\n") []) ;;
    say WHITE "   MAC: " [] ;;
    net_print_mac cfg.(mac) ;;
    say GREEN " \n" [] ;;
    on_screen (PRINT WHITE BLACK (txt "\n" ++ globe_mark ++ txt " IP Configuration:\n") []) ;;
    if c_true cfg.(configured) then
      say GREEN "    Network configured\n" [] ;;
      print_addresses "   IP Address: " "\n   Netmask:    " "\n   Gateway:    " cfg ;;
      say WHITE "\n Network Type:\n" [] ;;
      network_type (Z.land cfg.(ip) 255) ;;
      say WHITE "\n  VirtualBox Mode Detection:\n" [] ;;
      adapter_mode cfg.(ip) ;;
      says [(GREEN, "\n Network status check complete!\n"%string); (WHITE, "  Run 'netverify' for connectivity tests\n"%string)]
    else
      says [(YELLOW, "    No IP configuration\n"%string); (WHITE, "    Run 'dhcp' for automatic configuration\n"%string);
            (WHITE, "    Or 'netconfig <ip> <mask> <gateway>' for manual\n"%string)].

(** ** netverify: tests passed and failed *)
Definition verify_summary (tests_passed tests_failed : Z) : Cmd unit :=
  say WHITE "Tests Passed: " [] ;;
  say GREEN "%d/5\n" [Word tests_passed] ;;
  say WHITE "Tests Failed: " [] ;;
  (if 0 <? tests_failed then say YELLOW "%d/5\n\n" [Word tests_failed] else say GREEN "0/5\n\n" []) ;;
  if tests_passed =? 5 then
    says [(GREEN, " ALL TESTS PASSED!\n"%string); (WHITE, "Your network is fully functional!\n"%string); (WHITE, "\nYou can now:\n"%string)] ;;
    for_each [" Use 'ping <ip>' to test other hosts\n"%string; " Use 'arp' to view discovered devices\n"%string; " Browse your local network\n"%string]
      (fun t => on_screen (PRINT WHITE BLACK (txt "  " ++ bullet_mark ++ txt t) []))
  else if 3 <=? tests_passed then
    says [(YELLOW, "  PARTIAL CONNECTIVITY\n"%string); (WHITE, "Local network works, but internet may be limited\n"%string)]
  else if 2 <=? tests_passed then
    says [(YELLOW, "  LIMITED CONNECTIVITY\n"%string); (WHITE, "Network configured but gateway unreachable\n"%string)]
  else say YELLOW " NO CONNECTIVITY\n" [].

(** The number of packets that could be sent decides; replies are not looked at. *)
Fixpoint gateway_pings (n : nat) (i : Z) (dest : Z) (ok : bool) : Cmd bool :=
  match n with
  | O => mret ok
  | S n =>
    say WHITE "       Attempt %d/3... " [Word (i + 1)] ;;
    r ← icmp_send_ping dest 0x4567 i;
    if r =? 0 then delay 30000000 ;; say GREEN "sent\n" [] ;; gateway_pings n (i + 1) dest true
    else say YELLOW "failed\n" [] ;; gateway_pings n (i + 1) dest ok
  end.
Definition verify_gateway_mac (cfg : Net.net_config_t) : Cmd bool :=
  say WHITE "[3/5] Testing gateway connectivity... " [] ;;
  say WHITE "\n       Sending ARP request to gateway... " [] ;;
  m ← on_net (Net.arp_resolve spin irq cfg.(gateway));
  match m with
  | Some gateway_mac =>
    say GREEN "PASS \n" [] ;; say WHITE "       Gateway MAC: " [] ;; net_print_mac gateway_mac ;; say WHITE "\n" [] ;; mret true
  | None => says [(YELLOW, "FAIL \n"%string); (WHITE, "       Gateway not responding\n"%string)] ;; mret false
  end.
Definition verify_gateway_ping (cfg : Net.net_config_t) : Cmd bool :=
  say WHITE "[4/5] Pinging gateway... " [] ;;
  say WHITE "\n       Target: " [] ;;
  net_print_ip cfg.(gateway) ;;
  say WHITE "\n" [] ;;
  ok ← gateway_pings 3 0 cfg.(gateway) false;
  (if (ok : bool) then say GREEN "       Gateway responded \n" [] else say YELLOW "       No response from gateway \n" []) ;;
  mret ok.
Definition verify_internet : Cmd bool :=
  say WHITE "[5/5] Testing internet connectivity... " [] ;;
  let google_dns := net_parse_ip (txt "8.8.8.8") in
  say WHITE "\n       Pinging 8.8.8.8 (Google DNS)... " [] ;;
  r ← icmp_send_ping google_dns 0x8888 1;
  if r =? 0 then
    says [(GREEN, "sent\n"%string); (WHITE, "       Waiting for response... "%string)] ;;
    delay 50000000 ;;
    says [(GREEN, "PASS \n"%string); (WHITE, "       Internet connection working!\n"%string)] ;;
    mret true
  else says [(YELLOW, "FAIL \n"%string); (WHITE, "       Cannot reach internet\n"%string)] ;; mret false.
Definition one (b : bool) : Z := if b then 1 else 0.
Definition cmd_netverify : Cmd unit :=
  cfg ← config;
  say WHITE "[1/5] Testing network driver... " [] ;;
  up ← link_up;
  if negb up then
    says [(YELLOW, "FAIL \n"%string); (WHITE, "       Network adapter not connected\n"%string)] ;; verify_summary 0 1
  else
    say GREEN "PASS \n" [] ;;
    say WHITE "[2/5] Checking IP configuration... " [] ;;
    if c_true cfg.(configured) then
      say GREEN "PASS \n" [] ;; say WHITE "       IP: " [] ;; net_print_ip cfg.(ip) ;; say WHITE "\n" [] ;;
      b3 ← verify_gateway_mac cfg;
      b4 ← verify_gateway_ping cfg;
      b5 ← verify_internet;
      verify_summary (2 + one b3 + one b4 + one b5) (one (negb b3) + one (negb b4) + one (negb b5))
    else
      says [(YELLOW, "FAIL \n"%string); (WHITE, "       No IP address assigned\n"%string);
            (WHITE, "       Run 'dhcp' to get IP address\n"%string)] ;;
      verify_summary 1 1.

(** ** dnstest: four pings; a packet sent counts as a reply *)
Fixpoint dnstest_rounds (n : nat) (i dns_ip replies : Z) : Cmd Z :=
  match n with
  | O => mret replies
  | S n =>
    say WHITE "  %d. " [Word (i + 1)] ;;
    r ← icmp_send_ping dns_ip 0xD115 i;
    if r =? 0 then
      say GREEN "Sent" [] ;; delay 50000000 ;; say WHITE " - checking reply..." [] ;; say GREEN " OK\n" [] ;;
      dnstest_rounds n (i + 1) dns_ip (replies + 1)
    else say YELLOW "Failed\n" [] ;; dnstest_rounds n (i + 1) dns_ip replies
  end.
Definition cmd_dnstest (args : list Z) : Cmd unit :=
  let args := skip_spaces args in
  if hd 0 args =? 0 then
    says [(YELLOW, "Usage: dnstest <ip_address>\n"%string); (WHITE, "Example: dnstest 8.8.8.8\n"%string);
          (WHITE, "\nCommon DNS servers:\n"%string); (WHITE, "  8.8.8.8       - Google DNS\n"%string);
          (WHITE, "  1.1.1.1       - Cloudflare DNS\n"%string); (WHITE, "  208.67.222.222 - OpenDNS\n"%string)]
  else
  cfg ← config;
  if cfg.(configured) =? 0 then say YELLOW "Network not configured.\n" [] else
  let ip_str := (word_of 31 args).1 in
  let dns_ip := net_parse_ip ip_str in
  say CYAN "\n=== DNS Server Test ===\n" [] ;;
  say WHITE "Testing DNS: " [] ;;
  net_print_ip dns_ip ;;
  say WHITE " (%s)\n\n" [Str ip_str] ;;
  say WHITE "Sending ping requests...\n" [] ;;
  replies ← dnstest_rounds 4 0 dns_ip 0;
  say WHITE "\n" [] ;;
  if 3 <=? replies then say GREEN " DNS server is reachable!\n" [] ;; say WHITE "  %d/4 pings successful\n" [Word replies]
  else if 0 <? replies then say YELLOW " DNS server partially reachable\n" [] ;; say WHITE "  %d/4 pings successful\n" [Word replies]
  else says [(YELLOW, " DNS server not responding\n"%string); (WHITE, "  Check your internet connection\n"%string)].

(** ** Configuration *)
Definition net_init : Cmd unit :=
  on (fun s => (s.(nt), s.(prt))) (fun p s => set_nt p.1 (set_prt p.2 s)) (fun p =>
    let* (d, n) := E1000Init.net_init fuel rx_addr tx_addr p.2 p.1 in Done ((), (n, d))).
Definition cmd_netinit : Cmd unit :=
  say CYAN "\n=== Network Initialization ===\n" [] ;;
  net_init ;;
  says [(GREEN, "Network stack initialized!\n"%string); (WHITE, "Next steps:\n"%string);
        (WHITE, "  1. Use 'ifconfig' to check interface\n"%string); (WHITE, "  2. Use 'dhcp' for automatic config\n"%string);
        (WHITE, "  3. Or use 'netconfig' for manual setup\n"%string)].

Definition cmd_ifconfig : Cmd unit :=
  cfg ← config;
  say CYAN "\n=== Network Interface ===\n" [] ;;
  say WHITE "MAC Address: " [] ;;
  net_print_mac cfg.(mac) ;;
  say WHITE "\n" [] ;;
  (if c_true cfg.(configured) then
     say GREEN "Status: Configured\n" [] ;; print_addresses "IP Address: " "\nNetmask: " "\nGateway: " cfg
   else says [(YELLOW, "Status: Not configured\n"%string); (WHITE, "Use 'dhcp' or 'netconfig' to configure\n"%string)]) ;;
  up ← link_up;
  if (up : bool) then say GREEN "Link: UP\n" [] else say YELLOW "Link: DOWN\n" [].

(** The three words of the argument, 31 characters each at most. *)
Definition netconfig_args (args : list Z) : list Z * list Z * list Z :=
  let '(a, rest) := word_of 31 (skip_spaces args) in
  let '(n, rest) := word_of 31 (skip_spaces rest) in
  let '(g, _) := word_of 31 (skip_spaces rest) in
  (a, n, g).
Definition cmd_netconfig (args : list Z) : Cmd unit :=
  let '(ip_str, netmask_str, gateway_str) := netconfig_args args in
  if (hd 0 ip_str =? 0) || (hd 0 netmask_str =? 0) || (hd 0 gateway_str =? 0) then
    says [(YELLOW, "Usage: netconfig <ip> <netmask> <gateway>\n"%string);
          (WHITE, "Example: netconfig 192.168.1.100 255.255.255.0 192.168.1.1\n"%string)]
  else
    on_net (Net.net_set_config (net_parse_ip ip_str) (net_parse_ip netmask_str) (net_parse_ip gateway_str)) ;;
    say GREEN "\nNetwork configured successfully!\n" [].

(** At most 30 rounds until the link is up. *)
Fixpoint wait_link (n : nat) : Cmd unit :=
  match n with
  | O => skip
  | S n => up ← link_up; if (up : bool) then skip else say WHITE "." [] ;; delay 10000000 ;; wait_link n
  end.
Definition dhcp_now : Cmd unit :=
  r ← on_net (Clients.dhcp_get_ip send irq);
  if r =? 0 then say GREEN "\n Network configured!\n" [] else say RED "\n DHCP failed\n" [].
Definition cmd_dhcp : Cmd unit :=
  say CYAN "\n=== DHCP ===\n" [] ;;
  cfg ← config;
  m0 ← of_outcome (aget cfg.(mac) 0);
  m1 ← of_outcome (aget cfg.(mac) 1);
  if (m0 =? 0) && (m1 =? 0) then say RED "Network card not initialized!\n" [] else
  up ← link_up;
  if (up : bool) then dhcp_now else
  say YELLOW "Link is DOWN. Waiting" [] ;;
  wait_link 30 ;;
  up ← link_up;
  if negb up then say RED " FAILED\n" [] else say GREEN " UP\n" [] ;; dhcp_now.

Definition webtest_resolve (label name good : string) (bad : string) : Cmd unit :=
  say WHITE label [] ;;
  r ← dns_resolve name;
  match r with
  | Some a => say GREEN good [] ;; net_print_ip a ;; say WHITE "\n" []
  | None => say YELLOW bad []
  end.
Definition cmd_webtest : Cmd unit :=
  say CYAN "\n=== Internet Connectivity Test (DNS) ===\n" [] ;;
  cfg ← config;
  if cfg.(configured) =? 0 then say RED "Network not configured!\n" [] else
  say WHITE "Testing DNS resolution (this proves internet works)...\n\n" [] ;;
  webtest_resolve "[1] Resolving google.com...\n" "google.com" "     SUCCESS: google.com = "
    "     DNS failed (may need to set DNS server)\n" ;;
  webtest_resolve "\n[2] Resolving cloudflare.com...\n" "cloudflare.com" "     SUCCESS: cloudflare.com = " "     DNS failed\n" ;;
  say WHITE "\n[3] Testing UDP to 8.8.8.8:53 (DNS)...\n" [] ;;
  r ← udp_send (net_parse_ip (txt "8.8.8.8")) 53 53 webtest_query;
  (if r =? 0 then
     says [(GREEN, "     UDP packet sent to 8.8.8.8\n"%string); (WHITE, "    (This proves routing through gateway works!)\n"%string)]
   else say RED "    Failed to send UDP\n" []) ;;
  says [(CYAN, "\n=== Summary ===\n"%string);
        (WHITE, "If DNS resolution worked, your internet is FULLY functional!\n"%string);
        (WHITE, "ICMP ping may be blocked by your router/ISP (this is normal).\n\n"%string); (WHITE, "Next steps:\n"%string);
        (WHITE, "  - Use 'dnstest google.com' to resolve domain names\n"%string);
        (WHITE, "  - Ping devices on your local network (192.168.1.x)\n"%string);
        (WHITE, "  - Build HTTP client to fetch web pages!\n"%string)].

Definition cmd_arp : Cmd unit := say CYAN "\n=== ARP Cache ===\n" [] ;; arp_print_cache.

Definition cmd_netstat : Cmd unit :=
  cfg ← config;
  says [(CYAN, "\n========================================\n"%string); (CYAN, "      NETWORK STATUS\n"%string);
        (CYAN, "========================================\n"%string); (YELLOW, "Hardware:\n"%string); (WHITE, "  MAC:  "%string)] ;;
  net_print_mac cfg.(mac) ;;
  says [(WHITE, "\n"%string); (WHITE, "  Link: "%string)] ;;
  up ← link_up;
  (if (up : bool) then say GREEN "UP\n" [] else say RED "DOWN\n" []) ;;
  says [(WHITE, "\n"%string); (YELLOW, "IPv4 Configuration:\n"%string)] ;;
  (if c_true cfg.(configured) then
     says [(WHITE, "  Status:  "%string); (GREEN, "CONFIGURED\n"%string)] ;;
     say WHITE "  IP:      " [] ;; net_print_ip cfg.(ip) ;; say WHITE "\n" [] ;;
     say WHITE "  Netmask: " [] ;; net_print_ip cfg.(netmask) ;; say WHITE "\n" [] ;;
     say WHITE "  Gateway: " [] ;; net_print_ip cfg.(gateway) ;; say WHITE "\n" []
   else says [(WHITE, "  Status:  "%string); (RED, "NOT CONFIGURED\n"%string); (YELLOW, "  Run 'dhcp' to configure\n"%string)]) ;;
  says [(WHITE, "\n"%string); (YELLOW, "ARP Cache:\n"%string)] ;;
  arp_print_cache ;;
  say CYAN "\n========================================\n\n" [].

Definition cmd_ping (target : list Z) : Cmd unit := on_net (Clients.cmd_ping send irq target) ;; skip.

(** ** wget (http.c): the download is stored only in a file it can create *)
(** http.c: sixteen bytes per line, in hexadecimal and as characters. *)
Definition dump_char (x : Z) : Cmd unit :=
  if (32 <=? x) && (x <=? 126) then say WHITE "%c" [Word x]
  else if x =? 13 then on_screen (PRINT MAGENTA BLACK [92; 114] [])
  else if x =? 10 then on_screen (PRINT MAGENTA BLACK [92; 110] [])
  else say YELLOW "." [].
Fixpoint dump_bytes (data : list Z) (i len : Z) (rest : list Z) : Cmd unit :=
  match rest with
  | [] => skip
  | x :: rest =>
    when (Z.rem i 16 =? 0) (say YELLOW "%llx: " [Word i]) ;;
    say WHITE "%llx " [Word x] ;;
    when ((Z.rem i 16 =? 15) || (i =? len - 1))
      (for_each (replicate (Z.to_nat (15 - Z.rem i 16)) ()) (fun _ => say WHITE "   " []) ;;
       say WHITE " | " [] ;;
       let start := i - Z.rem i 16 in
       for_each (take (Z.to_nat (i + 1 - start)) (drop (Z.to_nat start) data)) dump_char ;;
       say WHITE "\n" []) ;;
    dump_bytes data (i + 1) len rest
  end.
Definition hex_dump (label data : list Z) : Cmd unit :=
  let len := Z.of_nat (length data) in
  say CYAN "[DEBUG] %s (%d bytes):\n" [Str label; Word len] ;;
  dump_bytes data 0 len data.

Definition wget_store (path data : list Z) : Cmd unit :=
  say WHITE "Creating %s... " [Str path] ;;
  r ← on_files (f_create path (Z.lor FILE_READ FILE_WRITE));
  if negb (r =? 0) then say RED "FAILED (create)\n" [] else
  fd ← vfs_open path FILE_WRITE;
  if fd <? 0 then say RED "FAILED (open, fd=%d)\n" [Word fd] else
  written ← vfs_write fd data (Z.of_nat (length data));
  vfs_close fd ;;
  if 0 <? written then
    say GREEN "OK (%d bytes)\n" [Word written] ;;
    say GREEN "\nSaved to %s\n" [Str path] ;;
    say WHITE "Use: cat %s\n\n" [Str path]
  else say RED "FAILED (write=%d)\n" [Word written].
Definition wget_preview (data : list Z) : Cmd unit :=
  let size := Z.of_nat (length data) in
  say CYAN "\n--- PREVIEW ---\n" [] ;;
  for_each (take 400 data) (fun c => say WHITE "%c" [Word c]) ;;
  when (400 <? size) (say YELLOW "\n... (%d more)\n" [Word (size - 400)]) ;;
  say CYAN "\n---------------\n\n" [].
Definition cmd_wget (url : list Z) : Cmd unit :=
  if hd 0 url =? 0 then say CYAN "\nUsage: wget <url> [-o filename]\n" [] else
  cfg ← config;
  if cfg.(configured) =? 0 then say RED "\nNetwork not configured!\n" [] else
  let '(url_only, path) := Http.wget_args url in
  say CYAN "\nWGET: %s -> %s\n\n" [Str url_only; Str path] ;;
  r ← on_net (Http.http_get send irq url_only 8192);
  match r with
  | None | Some [] => say RED "Download failed\n" []
  | Some response =>
    say GREEN "Downloaded %d bytes\n" [Word (Z.of_nat (length response))] ;;
    let data := Http.http_body response in
    say WHITE "Content: %d bytes\n" [Word (Z.of_nat (length data))] ;;
    wget_store path data ;;
    wget_preview data
  end.
Definition cmd_curl (args : list Z) : Cmd unit := cmd_wget args.
Definition cmd_httptest : Cmd unit := cmd_wget (txt "http://example.com").
End Commands.
End ShellNet.

Module ShellAudio.
Import Asm Ata Console Shell.
Import Interrupts(GREEN, YELLOW, MAGENTA, BROWN).
Import Ac97(Waits, ac97_set_master_volume, ac97_get_master_volume, ac97_get_pcm_volume, audio_beep, playback_stream, running).
Import Piano(audio_play_piano_note, audio_play_piano_phrase, mk_phrase_note).
Local Open Scope Z_scope.
Local Open Scope outcome_scope.

(** The MIDI numbers of piano_synth.h. *)
Definition C2 : Z := 36.
Definition C3 : Z := 48.
Definition C4 : Z := 60.
Definition D4 : Z := 62.
Definition E4 : Z := 64.
Definition F4 : Z := 65.
Definition G4 : Z := 67.
Definition A4 : Z := 69.
Definition B4 : Z := 71.
Definition C5 : Z := 72.
Definition C6 : Z := 84.

(** The numbers of an argument string: a frequency and a duration, and so on. *)
Definition second_number (s : list Z) (default_ : Z) : Z * list Z :=
  if starts_number s then (parse_number s, skip_spaces (skip_digits s)) else (default_, s).

(** Two eighth notes, as printed before the song. *)
Definition notes_line : list Z :=
  [195; 162; 226; 132; 162; 194; 170; 32; 195; 162; 226; 132; 162; 194; 171; 32;
   195; 162; 226; 132; 162; 194; 170; 32; 195; 162; 226; 132; 162; 194; 171; 10].

Section Commands.
Context {W D H : Type} `{!PortIO D, !Pci.PciPorts D, !Waits (Interrupts.irqs D), !Sched.Image} (fuel : nat).
Context (busy : Z -> sys W D H -> sys W D H) (ac97_interrupt_address : Z).
Notation Cmd := (Sh (sys W D H)).

Definition delay (n : Z) : Cmd unit := modify (busy n).
Definition beep (frequency duration : Z) : Cmd Z := on_audio (audio_beep fuel frequency duration).
Definition volume (l r : Z) : Cmd unit := on_audio (ac97_set_master_volume l r).
Definition piano_note (n velocity duration : Z) : Cmd Z := on_audio (audio_play_piano_note fuel n velocity duration).
Definition sleep_ms (ms : Z) : Cmd unit := on_kernel (Jobs.sleep_ms fuel ms).

(** The guard every sound command starts with. *)
Definition with_audio (m : Cmd unit) : Cmd unit :=
  off ← on_audio Ac97.not_initialized;
  if (off : bool) then say YELLOW "Audio not initialized. Run 'audioinit' first.\n" [] else m.

(** AC97.c *)
Definition yes_no (v : Z) : va := Str (if c_true v then lit "Yes" else lit "No").
Definition ac97_print_info : Cmd unit :=
  off ← on_audio Ac97.not_initialized;
  if (off : bool) then say YELLOW "AC'97: Not initialized\n" [] else
  d ← on_audio Ac97.dev;
  say CYAN "\n=== AC'97 Audio Device Information ===\n" [] ;;
  say WHITE "Device: %s\n" [Str (lit (Ac97.ac97_get_device_name (Some d)))] ;;
  say WHITE "Vendor ID: 0x%04X\n" [Word d.(Ac97.vendor_id)] ;;
  say WHITE "Device ID: 0x%04X\n" [Word d.(Ac97.device_id)] ;;
  say WHITE "PCI Location: %02X:%02X.%X\n" [Word d.(Ac97.bus); Word d.(Ac97.device); Word d.(Ac97.function)] ;;
  say WHITE "IRQ: %u\n" [Word d.(Ac97.irq)] ;;
  say WHITE "NAM BAR: 0x%04X\n" [Word d.(Ac97.nam_bar)] ;;
  say WHITE "NABM BAR: 0x%04X\n" [Word d.(Ac97.nabm_bar)] ;;
  say WHITE "\nFeatures:\n" [] ;;
  say WHITE "  Variable Rate: %s\n" [yes_no d.(Ac97.has_variable_rate)] ;;
  say WHITE "  Surround: %s\n" [yes_no d.(Ac97.has_surround)] ;;
  say WHITE "  Max Sample Rate: %u Hz\n" [Word d.(Ac97.max_sample_rate)] ;;
  v ← on_audio ac97_get_master_volume;
  say WHITE "\nVolume:\n" [] ;;
  say WHITE "  Master: L=%u%% R=%u%%\n" [Word v.1; Word v.2] ;;
  v ← on_audio ac97_get_pcm_volume;
  say WHITE "  PCM: L=%u%% R=%u%%\n" [Word v.1; Word v.2] ;;
  d ← on_audio Ac97.dev;
  let p := d.(playback_stream) in
  say WHITE "\nPlayback Stream:\n" [] ;;
  say WHITE "  Status: %s\n" [Str (if c_true p.(running) then lit "Running" else lit "Stopped")] ;;
  say WHITE "  Format: %d-bit %s\n" [Word p.(Ac97.bits_per_sample); Str (if p.(Ac97.channels) =? 2 then lit "Stereo" else lit "Mono")] ;;
  say WHITE "  Sample Rate: %u Hz\n" [Word p.(Ac97.sample_rate)] ;;
  say WHITE "  Buffers: %d x %d bytes\n" [Word Ac97.AC97_BD_COUNT; Word Ac97.AC97_BUFFER_SIZE] ;;
  when (c_true p.(running))
    (pos ← on_audio Ac97.ac97_get_position;
     say WHITE "  Position: %d samples\n" [Word pos] ;;
     n ← on_audio Ac97.ac97_get_buffer_status;
     say WHITE "  Buffers Filled: %d\n" [Word n]) ;;
  say CYAN "======================================\n\n" [].

(** [print_unsigned] after a text, then more text. *)
Definition show_number (before : string) (v base : Z) (after : string) (args : list va) : Cmd unit :=
  say WHITE before [] ;; on_screen (print_unsigned v base) ;; say WHITE after args.
Definition flag (bit v : Z) (yes no : string) : va := Str (if c_true (Z.land v bit) then lit yes else lit no).

Definition dump_mixer : Cmd unit :=
  d ← on_audio Ac97.dev;
  show_number "\nMixer Registers (NAM BAR: 0x" d.(Ac97.nam_bar) 16 "):\n" [] ;;
  reset ← on_audio (Ac97.ac97_codec_read 0x00);
  master ← on_audio (Ac97.ac97_codec_read 0x02);
  pcm ← on_audio (Ac97.ac97_codec_read 0x18);
  ext_id ← on_audio (Ac97.ac97_codec_read 0x28);
  ext_stat ← on_audio (Ac97.ac97_codec_read 0x2A);
  pcm_rate ← on_audio (Ac97.ac97_codec_read 0x2C);
  show_number "  0x00 Reset:      0x" reset 16 "\n" [] ;;
  show_number "  0x02 Master Vol: 0x" master 16 " (Mute: %s)\n" [flag 0x8000 master "YES" "NO"] ;;
  show_number "  0x18 PCM Vol:    0x" pcm 16 " (Mute: %s)\n" [flag 0x8000 pcm "YES" "NO"] ;;
  show_number "  0x28 Ext Audio:  0x" ext_id 16 " (VRA: %s)\n" [flag 0x01 ext_id "YES" "NO"] ;;
  show_number "  0x2A Ext Status: 0x" ext_stat 16 " (VRA: %s)\n" [flag 0x01 ext_stat "Enabled" "Disabled"] ;;
  show_number "  0x2C PCM Rate:   " pcm_rate 10 " Hz\n" [].
Definition dump_global : Cmd unit :=
  d ← on_audio Ac97.dev;
  show_number "\nBus Master Registers (NABM BAR: 0x" d.(Ac97.nabm_bar) 16 "):\n" [] ;;
  glob_cnt ← on_audio (Ac97.bm_in32 0x2C);
  glob_sta ← on_audio (Ac97.bm_in32 0x30);
  show_number "  Global Control:  0x" glob_cnt 16 "\n" [] ;;
  say WHITE "    GIE (bit 0):   %s\n" [flag 0x01 glob_cnt "ON" "OFF"] ;;
  say WHITE "    Cold Reset:    %s\n" [flag 0x02 glob_cnt "ON" "OFF"] ;;
  show_number "  Global Status:   0x" glob_sta 16 "\n" [] ;;
  say WHITE "    Pri Codec Rdy: %s\n" [flag 0x100 glob_sta "YES" "NO"].
Definition dump_output : Cmd unit :=
  say WHITE "\nPCM Output Channel:\n" [] ;;
  bdbar ← on_audio (Ac97.bm_in32 Ac97.AC97_PO_BDBAR);
  civ ← on_audio (Ac97.bm_in8 Ac97.AC97_PO_CIV);
  lvi ← on_audio (Ac97.bm_in8 Ac97.AC97_PO_LVI);
  sr ← on_audio (Ac97.bm_in16 Ac97.AC97_PO_SR);
  picb ← on_audio (Ac97.bm_in16 Ac97.AC97_PO_PICB);
  cr ← on_audio (Ac97.bm_in8 Ac97.AC97_PO_CR);
  show_number "  BDBAR:    0x" bdbar 16 "\n" [] ;;
  show_number "  CIV:      " civ 10 " (current buffer)\n" [] ;;
  show_number "  LVI:      " lvi 10 " (last valid)\n" [] ;;
  show_number "  SR:       0x" sr 16 "\n" [] ;;
  say WHITE "    DCH:    %s (DMA halted)\n" [flag 0x01 sr "YES" "NO"] ;;
  say WHITE "    LVBCI:  %s (last valid buf)\n" [flag 0x04 sr "YES" "NO"] ;;
  say WHITE "    BCIS:   %s (buf complete)\n" [flag 0x08 sr "YES" "NO"] ;;
  say WHITE "    FIFOE:  %s (FIFO error)\n" [flag 0x10 sr "YES" "NO"] ;;
  show_number "  PICB:     " picb 10 " samples remaining\n" [] ;;
  show_number "  CR:       0x" cr 16 "\n" [] ;;
  say WHITE "    RPBM:   %s (run/pause)\n" [flag 0x01 cr "RUN" "PAUSE"] ;;
  say WHITE "    RR:     %s (reset)\n" [flag 0x02 cr "YES" "NO"] ;;
  say WHITE "    LVBIE:  %s (LVB int)\n" [flag 0x04 cr "ON" "OFF"] ;;
  say WHITE "    IOCE:   %s (IOC int)\n" [flag 0x08 cr "ON" "OFF"].
Definition ac97_dump_registers : Cmd unit :=
  none ← on_audio (Ac97.gets (fun a => match a.(Ac97.g_ac97_device) with None => true | Some _ => false end));
  if (none : bool) then skip else
  say CYAN "\n=== AC97 Register Dump ===\n" [] ;;
  dump_mixer ;; dump_global ;; dump_output ;;
  say CYAN "=========================\n\n" [].

(** The rest of [ac97_debug_playback] once both base addresses are set. *)
Definition debug_codec : Cmd unit :=
  glob_sta ← on_audio (Ac97.bm_in32 Ac97.AC97_GLOB_STA);
  show_number "Global Status: 0x" glob_sta 16 "\n" [] ;;
  say WHITE "Codec Ready: %s\n" [flag Ac97.AC97_GLOB_STA_PRI_READY glob_sta "YES" "NO"] ;;
  if negb (c_true (Z.land glob_sta Ac97.AC97_GLOB_STA_PRI_READY)) then say YELLOW "Codec not ready!\n" [] else
  master ← on_audio (Ac97.ac97_codec_read Ac97.AC97_NAM_MASTER_VOLUME);
  pcm ← on_audio (Ac97.ac97_codec_read Ac97.AC97_NAM_PCM_OUT_VOLUME);
  show_number "Master Volume: 0x" master 16 " (Muted: %s)\n" [flag 0x8000 master "YES" "NO"] ;;
  show_number "PCM Volume: 0x" pcm 16 " (Muted: %s)\n" [flag 0x8000 pcm "YES" "NO"] ;;
  when (c_true (Z.land master 0x8000) || c_true (Z.land pcm 0x8000)) (say YELLOW "Audio is MUTED!\n" []) ;;
  bdbar ← on_audio (Ac97.bm_in32 Ac97.AC97_PO_BDBAR);
  show_number "BDBAR: 0x" bdbar 16 "\n" [] ;;
  if bdbar =? 0 then say YELLOW "BDBAR not set!\n" [] else
  d ← on_audio Ac97.dev;
  first ← of_outcome (aget d.(playback_stream).(Ac97.buffers) 0);
  data ← peek_bytes first 100;
  say WHITE "Buffer has data: %s\n" [Str (if existsb (fun x => negb (x =? 0)) data then lit "YES" else lit "NO")] ;;
  say CYAN "===========================\n\n" [].
Definition ac97_debug_playback : Cmd unit :=
  say CYAN "\n=== AC97 Playback Debug ===\n" [] ;;
  none ← on_audio (Ac97.gets (fun a => match a.(Ac97.g_ac97_device) with None => true | Some _ => false end));
  if (none : bool) then say YELLOW "Device pointer is NULL!\n" [] else
  off ← on_audio Ac97.not_initialized;
  if (off : bool) then say YELLOW "Device not initialized!\n" [] else
  say MAGENTA "Device initialized: YES\n" [] ;;
  d ← on_audio Ac97.dev;
  show_number "NAM BAR: 0x" d.(Ac97.nam_bar) 16 "\n" [] ;;
  show_number "NABM BAR: 0x" d.(Ac97.nabm_bar) 16 "\n" [] ;;
  if (d.(Ac97.nam_bar) =? 0) || (d.(Ac97.nabm_bar) =? 0) then say YELLOW "BARs not set correctly!\n" [] else debug_codec.

Definition cmd_audioinit : Cmd unit :=
  say WHITE "Initializing AC'97 audio driver...\n" [] ;;
  off ← on_audio Ac97.not_initialized;
  if negb off then say WHITE "Audio already initialized.\n" [] ;; ac97_print_info else
  r ← on_audio (Ac97.ac97_init fuel ac97_interrupt_address);
  if r =? 0 then
    says [(GREEN, "\nAudio initialization successful!\n"%string); (WHITE, "Try these commands:\n"%string);
          (WHITE, "  audioinfo    - Display audio device information\n"%string);
          (WHITE, "  beep <freq>  - Play a beep tone (440Hz default)\n"%string);
          (WHITE, "  volume <L> <R> - Set master volume (0-100)\n"%string); (WHITE, "  audiotest    - Run audio test\n"%string)]
  else
    says [(YELLOW, "Audio initialization failed!\n"%string); (WHITE, "This might be because:\n"%string);
          (WHITE, "  - No AC'97 device present in system\n"%string); (WHITE, "  - Device not properly detected\n"%string);
          (WHITE, "  - Running in emulator without audio device\n"%string);
          (WHITE, "  - For QEMU: add -soundhw ac97 to command line\n"%string)].

Definition cmd_audioinfo : Cmd unit :=
  off ← on_audio Ac97.not_initialized;
  if (off : bool) then say YELLOW "Audio device not initialized. Run 'audioinit' first.\n" [] else ac97_print_info.

Definition scale_tones : list (string * Z) :=
  [("C4"%string, 262); ("D4"%string, 294); ("E4"%string, 330); ("F4"%string, 349); ("G4"%string, 392); ("A4"%string, 440);
   ("B4"%string, 494); ("C5"%string, 523)].
Definition test_sweep : Cmd unit :=
  say WHITE "Test 1: Playing frequency sweep...\n" [] ;;
  for_each scale_tones (fun e =>
    say WHITE "  %s (%u Hz)... " [Str (lit e.1); Word e.2] ;;
    beep e.2 300 ;;
    say GREEN "OK\n" [] ;;
    delay 10000000) ;;
  say GREEN "\nTest 1: Complete\n\n" [].
Definition test_volumes : Cmd unit :=
  say WHITE "Test 2: Volume control test...\n" [] ;;
  for_each [100; 75; 50; 25; 50; 75; 100] (fun v =>
    say WHITE "  Volume %u%%... " [Word v] ;;
    volume v v ;;
    beep 440 200 ;;
    say GREEN "OK\n" [] ;;
    delay 5000000) ;;
  say GREEN "\nTest 2: Complete\n\n" [].
Definition test_panning : Cmd unit :=
  let side (text : string) (l r : Z) : Cmd unit := say WHITE text [] ;; volume l r ;; beep 440 500 ;; say GREEN "OK\n" [] in
  say WHITE "Test 3: Stereo panning test...\n" [] ;;
  side "  Left channel... "%string 100 0 ;;
  delay 10000000 ;;
  side "  Right channel... "%string 0 100 ;;
  delay 10000000 ;;
  side "  Both channels... "%string 100 100 ;;
  say GREEN "\nTest 3: Complete\n\n" [].
Definition cmd_audiotest : Cmd unit := with_audio (
  say CYAN "\n=== Audio Test Suite ===\n\n" [] ;;
  test_sweep ;;
  test_volumes ;;
  test_panning ;;
  volume 75 75 ;;
  says [(CYAN, "=== All Tests Complete ===\n\n"%string); (GREEN, "Audio system is working correctly!\n"%string)]).

(** The frequency asked for, 440 without one; [None] when it is out of range. *)
Definition beep_frequency (args : option (list Z)) : option Z :=
  match args with
  | None => Some 440
  | Some args =>
    let args := skip_spaces args in
    if starts_number args then
      let f := parse_number args in if (f <? 20) || (20000 <? f) then None else Some f
    else Some 440
  end.
Definition cmd_beep (args : option (list Z)) : Cmd unit := with_audio (
  match beep_frequency args with
  | None => say YELLOW "Frequency must be between 20-20000 Hz\n" []
  | Some frequency =>
    say WHITE "Playing %u Hz beep...\n" [Word frequency] ;;
    r ← beep frequency 1;
    if r =? 0 then say GREEN "Beep complete!\n" [] else say YELLOW "Beep failed!\n" []
  end).

(** The levels to set: one number sets both, 100 is the most. *)
Definition volume_levels (args : list Z) : option (Z * Z) :=
  let p := skip_spaces args in
  if negb (starts_number p) then None else
  let left := parse_number p in
  let right := (second_number (skip_spaces (skip_digits p)) left).1 in
  Some (if 100 <? left then 100 else left, if 100 <? right then 100 else right).
Definition volume_show : Cmd unit :=
  v ← on_audio ac97_get_master_volume;
  say WHITE "Master Volume: L=%u%% R=%u%%\n" [Word v.1; Word v.2] ;;
  v ← on_audio ac97_get_pcm_volume;
  say WHITE "PCM Volume:    L=%u%% R=%u%%\n" [Word v.1; Word v.2].
Definition cmd_volume (args : option (list Z)) : Cmd unit := with_audio (
  match args with
  | None => volume_show
  | Some args =>
    if hd 0 args =? 0 then volume_show else
    match volume_levels args with
    | None =>
      says [(YELLOW, "Usage: volume <left> <right>\n"%string); (WHITE, "  Values: 0-100 (0 = mute, 100 = max)\n"%string)]
    | Some (l, r) => volume l r ;; say GREEN "Volume set: L=%u%% R=%u%%\n" [Word l; Word r]
    end
  end).

(** A beep of one millisecond per round; NULL is dereferenced. *)
Definition tone_args (p : list Z) : Z * Z :=
  let frequency := parse_number p in (frequency, (second_number (skip_spaces (skip_digits p)) 1000).1).
Definition cmd_playtone (args : option (list Z)) : Cmd unit := with_audio (
  match args with
  | None => crash
  | Some args =>
    let p := skip_spaces args in
    if negb (starts_number p) then
      says [(YELLOW, "Usage: playtone <frequency> <duration_ms>\n"%string); (WHITE, "  Example: playtone 440 1000\n"%string)]
    else
    let '(frequency, duration) := tone_args p in
    if (frequency <? 20) || (20000 <? frequency) then say YELLOW "Frequency must be between 20-20000 Hz\n" [] else
    when (10000 <? duration) (say YELLOW "Duration limited to 10 seconds\n" []) ;;
    let duration := if 10000 <? duration then 10000 else duration in
    say WHITE "Playing %u Hz for %u ms...\n" [Word frequency; Word duration] ;;
    for_each (seq 0 (Z.to_nat duration)) (fun _ => beep frequency 1 ;; skip) ;;
    say GREEN "Done!\n" []
  end).

Definition cmd_playsine : Cmd unit := with_audio (
  says [(WHITE, "Simple sine wave playback - use 'playtone' for now\n"%string); (WHITE, "Example: playtone 440 1000\n"%string)]).

Definition unmutes (args : option (list Z)) : bool :=
  match args with None => false | Some a => negb (hd 0 a =? 0) && (strncmp 3 (skip_spaces a) (lit "off") =? 0) end.
Definition cmd_audiomute (args : option (list Z)) : Cmd unit := with_audio (
  if unmutes args then on_audio (Ac97.ac97_mute_master 0) ;; say GREEN "Audio unmuted\n" []
  else on_audio (Ac97.ac97_mute_master 1) ;; say GREEN "Audio muted\n" []).

Definition cmd_ac97test : Cmd unit :=
  says [(YELLOW, "Comprehensive test suite not included in shell.\n"%string); (WHITE, "Use 'audiotest' for basic audio tests.\n"%string)].

(** ** Piano *)
Definition piano_usage : Cmd unit :=
  says [(YELLOW, "Usage: piano <note> [velocity] [duration_ms]\n"%string); (WHITE, "  note: MIDI note number (21-108)\n"%string);
        (WHITE, "        Or use note names: C4, A4, etc.\n"%string); (WHITE, "  velocity: 0-127 (default: 64)\n"%string);
        (WHITE, "  duration: milliseconds (default: 500)\n"%string); (WHITE, "\nExamples:\n"%string);
        (WHITE, "  piano 60        - Middle C, medium velocity\n"%string); (WHITE, "  piano 60 100    - Middle C, loud\n"%string);
        (WHITE, "  piano 60 40 300 - Middle C, soft, 300ms\n"%string)].
Definition piano_args (p : list Z) : Z * Z * Z :=
  let note := parse_number p in
  let '(velocity, p) := second_number (skip_spaces (skip_digits p)) 64 in
  (note, velocity, (second_number p 500).1).
Definition cmd_piano (args : option (list Z)) : Cmd unit := with_audio (
  match args with
  | None => crash
  | Some args =>
    let p := skip_spaces args in
    if negb (starts_number p) then piano_usage else
    let '(note, velocity, duration) := piano_args p in
    if (note <? 21) || (108 <? note) then say YELLOW "Note must be between 21-108 (A0-C8)\n" [] else
    let velocity := if 127 <? velocity then 127 else velocity in
    let duration := if 5000 <? duration then 5000 else duration in
    say WHITE "Playing MIDI note %u, velocity %u, duration %ums\n" [Word note; Word velocity; Word duration] ;;
    r ← piano_note note velocity duration;
    if r =? 0 then say GREEN "Complete!\n" [] else say YELLOW "Playback failed!\n" []
  end).

Definition cmd_pianoscale : Cmd unit := with_audio (
  says [(CYAN, "\n=== Piano Scale Demo ===\n"%string); (WHITE, "Playing C major scale...\n\n"%string)] ;;
  for_each [("C4"%string, C4); ("D4"%string, D4); ("E4"%string, E4); ("F4"%string, F4); ("G4"%string, G4); ("A4"%string, A4);
            ("B4"%string, B4); ("C5"%string, C5)] (fun e =>
    say WHITE "  %s... " [Str (lit e.1)] ;;
    piano_note e.2 80 400 ;;
    say GREEN "\n" [] ;;
    sleep_ms 100) ;;
  say GREEN "\nScale complete!\n" []).

Definition arpeggio : list Piano.piano_phrase_note_t :=
  [mk_phrase_note C4 85 350 0; mk_phrase_note E4 80 350 50; mk_phrase_note G4 75 350 50; mk_phrase_note C5 90 500 50].
Definition cmd_pianochord : Cmd unit := with_audio (
  says [(CYAN, "\n=== Piano Chord Arpeggio ===\n"%string); (WHITE, "Playing C major chord arpeggio...\n\n"%string)] ;;
  on_audio (audio_play_piano_phrase fuel arpeggio) ;;
  say GREEN "\nChord complete!\n" []).

Definition song : list Piano.piano_phrase_note_t :=
  [mk_phrase_note C4 70 400 0; mk_phrase_note C4 70 400 50; mk_phrase_note G4 75 400 50; mk_phrase_note G4 75 400 50;
   mk_phrase_note A4 80 400 50; mk_phrase_note A4 80 400 50; mk_phrase_note G4 75 800 50;
   mk_phrase_note F4 70 400 100; mk_phrase_note F4 70 400 50; mk_phrase_note E4 70 400 50; mk_phrase_note E4 70 400 50;
   mk_phrase_note D4 65 400 50; mk_phrase_note D4 65 400 50; mk_phrase_note C4 70 800 50].
(** Thirteen of the fourteen notes are played. *)
Definition cmd_pianosong : Cmd unit := with_audio (
  says [(CYAN, "\n=== Piano Song Demo ===\n"%string); (WHITE, "Playing Twinkle Twinkle Little Star...\n\n"%string)] ;;
  on_screen (PRINT WHITE BLACK notes_line []) ;;
  on_audio (audio_play_piano_phrase fuel (take 13 song)) ;;
  say GREEN "\nSong complete!\n" []).

Definition cmd_pianotest : Cmd unit := with_audio (
  says [(CYAN, "\n=== Piano Synthesis Test ===\n\n"%string); (WHITE, "Test 1: Velocity dynamics (soft to loud)\n"%string)] ;;
  for_each [30; 50; 70; 90; 110; 127] (fun v =>
    say WHITE "  Velocity %u... " [Word v] ;; piano_note C4 v 300 ;; say GREEN "\n" [] ;; sleep_ms 200) ;;
  says [(GREEN, "Test 1: Complete\n\n"%string); (WHITE, "Test 2: Pitch range (low to high)\n"%string)] ;;
  for_each [("C2"%string, C2); ("C3"%string, C3); ("C4"%string, C4); ("C5"%string, C5); ("C6"%string, C6)] (fun e =>
    say WHITE "  %s... " [Str (lit e.1)] ;; piano_note e.2 75 400 ;; say GREEN "\n" [] ;; sleep_ms 100) ;;
  says [(GREEN, "Test 2: Complete\n\n"%string); (WHITE, "Test 3: Note durations\n"%string)] ;;
  for_each [200; 400; 800; 1200] (fun d =>
    say WHITE "  %ums... " [Word d] ;; piano_note A4 70 d ;; say GREEN "\n" [] ;; sleep_ms 200) ;;
  says [(GREEN, "Test 3: Complete\n\n"%string); (CYAN, "=== Piano Tests Complete ===\n"%string)]).
End Commands.
End ShellAudio.
