(* ===== verification/ShellMain.v ===== *)
(** * The command interpreter (Shell/shell.c)

    [process_command]: the history, the ampersand, then the chain of
    comparisons as a table in the order of the source, searched from the top;
    entries that an earlier one hides are kept. [run_text_demo]: the shell's
    main loop, one round at a time. What is outside the repository's C code is
    a parameter: the status ResetSystem of the firmware returns, the function
    test_syscall_interface (declared, defined nowhere), addresses, the memory
    kmalloc gives the editor and the codes that arrive while a command waits
    for keys. *)
From Stdlib Require Import ZArith Lia String.
From stdpp Require Import base numbers list gmap.
From S2P Require Import Prelude CStr VfsTypes VFS Ata Memory Asm Scheduler Jobs Net E1000 Elf Console History Serial Keyboard Desk Interrupts Anthropic AC97 Shell ShellFiles ShellJobs ShellDevs.

Module ShellMain.
Import Asm Ata Console History Keyboard Files Shell ShellFiles ShellElf ShellJobs ShellNet ShellAudio.
Import Interrupts(GREEN, YELLOW, MAGENTA, BROWN).
Local Open Scope Z_scope.
Local Open Scope outcome_scope.

Definition CURSOR_BLINK_RATE : Z := 50000.

Definition help_text : list (Z * string) :=
  [(WHITE, "Available commands:\n"%string);
   (WHITE, "  hello - Say hello\n"%string);
   (WHITE, "  clear - Clear screen\n"%string);
   (WHITE, "  echo <text> - Echo text\n"%string);
   (WHITE, "  ls [path] - List directory\n"%string);
   (WHITE, "  cat <file> - Display file\n"%string);
   (WHITE, "  touch <file> - Create file\n"%string);
   (WHITE, "  mkdir <dir> - Create directory\n"%string);
   (WHITE, "  rm <file> - Remove file/dir\n"%string);
   (WHITE, "  write <file> - Write to file\n"%string);
   (WHITE, "  df - Filesystem stats\n"%string);
   (WHITE, "  memstats - Memory stats\n"%string);
   (YELLOW, "  format - Format disk (WARNING: DISK WILL BE WIPED!)\n"%string);
   (WHITE, "  cd <dir> - Change directory\n"%string);
   (WHITE, "  pwd - Print working directory\n"%string);
   (GREEN, "  ps - Show processes\n"%string);
   (GREEN, "  threads - Show threads\n"%string);
   (GREEN, "  jobs - List all jobs\n"%string);
   (GREEN, "  fg <job_id> - Bring to foreground\n"%string);
   (GREEN, "  bg <job_id> - Send to background\n"%string);
   (GREEN, "  sleep <sec> - Sleep for seconds\n"%string);
   (WHITE, "  command & - Run in background\n"%string);
   (GREEN, "  syscalltest - Test syscall interface\n"%string);
   (GREEN, "  testbg - Test background jobs\n"%string);
   (YELLOW, "  stum -r3 - switch to usermode (UnAvailable!)\n"%string);
   (CYAN, "\nAudio Commands:\n"%string);
   (WHITE, "  audioinit - Initialize AC'97 audio device\n"%string);
   (WHITE, "  audioinfo - Display audio device information\n"%string);
   (WHITE, "  audiotest - Run comprehensive audio test suite\n"%string);
   (WHITE, "  beep [freq] - Play beep tone (default 440Hz)\n"%string);
   (WHITE, "  volume [L] [R] - Set/display master volume (0-100)\n"%string);
   (WHITE, "  playtone <freq> <ms> - Play specific frequency\n"%string);
   (WHITE, "  audiomute [off] - Mute/unmute audio\n"%string);
   (BROWN, "RPS - Play Rock Paper Scissors with a Computer!\n"%string);
   (CYAN, "\nELF Commands:\n"%string);
   (WHITE, "  elfinfo <file>  - Display ELF file information\n"%string);
   (WHITE, "  elfload <file>  - Load and execute ELF executable\n"%string);
   (WHITE, "  elfcheck <file> - Quick ELF validation\n"%string);
   (WHITE, "  elftest         - Run ELF loader tests\n"%string);
   (CYAN, "\nAssembler Commands:\n"%string);
   (WHITE, "  ASM <output.elf> <assembly code>\n"%string);
   (BROWN, "    Assemble inline x86-64 code and create ELF executable\n"%string);
   (BROWN, "    Use semicolons (;) to separate instructions\n"%string);
   (BROWN, "    Example: ASM hello.elf mov rax, 72; ret\n"%string);
   (WHITE, "\n  asmfile <source.asm> <output.elf>\n"%string);
   (BROWN, "    Assemble code from a file\n"%string);
   (BROWN, "    Example: asmfile program.asm prog.elf\n"%string);
   (WHITE, "\n  Supported Instructions:\n"%string);
   (BROWN, "    mov reg, imm  - Move immediate to register\n"%string);
   (BROWN, "    add reg, imm  - Add immediate (-128 to 127)\n"%string);
   (BROWN, "    sub reg, imm  - Subtract immediate\n"%string);
   (BROWN, "    xor reg, reg  - XOR two registers\n"%string);
   (BROWN, "    ret           - Return from function\n"%string);
   (BROWN, "    nop           - No operation\n"%string);
   (WHITE, "\n  Available Registers:\n"%string);
   (BROWN, "    rax, rbx, rcx, rdx, rsi, rdi, rbp, rsp, r8-r15\n"%string);
   (CYAN, "\nText Editor:\n"%string);
   (WHITE, "  anthropic <file> - Open graphical text editor\n"%string);
   (BROWN, "    Ctrl+S to save, click X to close\n"%string);
   (CYAN, "\nPiano Commands:\n"%string);
   (WHITE, "  piano <note> [vel] [dur] - Play piano note\n"%string);
   (WHITE, "  pianoscale               - Play C major scale\n"%string);
   (WHITE, "  pianochord               - Play chord arpeggio\n"%string);
   (WHITE, "  pianosong                - Play demo song\n"%string);
   (WHITE, "  pianotest                - Test piano synthesis\n"%string);
   (CYAN, "\nNetwork Commands:\n"%string);
   (WHITE, "  netinit              - Initialize network stack\n"%string);
   (WHITE, "  ifconfig             - Show network interface info\n"%string);
   (WHITE, "  dhcp                 - Get IP via DHCP\n"%string);
   (WHITE, "  netconfig <ip> <nm> <gw> - Manual network config\n"%string);
   (WHITE, "  ping <ip>            - Send ICMP ping\n"%string);
   (WHITE, "  arp                  - Show ARP cache\n"%string);
   (WHITE, "  nettest              - Run network tests\n"%string);
   (WHITE, "  netverify            - Verify network connectivity\n"%string);
   (WHITE, "  netstatus            - Show detailed network status\n"%string);
   (WHITE, "  dnstest <domain>     - Test DNS resolution\n"%string);
   (CYAN, "\nHTTP Commands:\n"%string);
   (WHITE, "  wget <url>  - Fetch web page\n"%string);
   (WHITE, "  curl <url>  - Fetch web page (alias)\n"%string);
   (WHITE, "  httptest    - Test HTTP client\n"%string);
   (GREEN, "\nSystem Debug Commands:\n"%string);
   (WHITE, "  syscheck     - Comprehensive system health check\n"%string);
   (WHITE, "  schedinfo    - Show scheduler state\n"%string);
   (WHITE, "  threaddebug  - Detailed thread information\n"%string);
   (WHITE, "  schedtest    - Test scheduler with demo thread\n"%string);
   (WHITE, "  jobdebug     - Debug job system state\n"%string);
   (GREEN, "Shutdown commands: \n"%string);
   (WHITE, "  shutdown - Power off the system\n"%string);
   (WHITE, "  reboot   - Reboot the system\n"%string)].

(** A branch of the chain: [STRNCMP(cmd, name, len) == 0]. *)
Record branch (A : Type) := mk_branch { name : string; len : nat; action : list Z -> A }.
Arguments mk_branch {A} name len action.
Arguments name {A} b.
Arguments len {A} b.
Arguments action {A} b.
Definition takes {A} (cmd : list Z) (b : branch A) : bool := begins cmd b.(name) b.(len).
Fixpoint first_branch {A} (cmd : list Z) (l : list (branch A)) : option (branch A) :=
  match l with [] => None | b :: l => if takes cmd b then Some b else first_branch cmd l end.

Section Interpreter.
Context {W D H : Type} `{!PortIO D, !Pci.PciPorts D, !FileApi W, !DirApi W, !TreeApi W, !Net.Nic H, !Ac97.Waits (Interrupts.irqs D), !Sched.Image}.
Context (fuel spin depth : nat) (busy : Z -> sys W D H -> sys W D H).
Context (bg_command_thread_address gui_thread_entry_address elf_net_address ac97_interrupt_address rx_addr tx_addr : Z).
Context (ResetSystem : Z) (test_syscall_interface : Sh (sys W D H) unit) (asm_garbage : asm_context).
Context (editor_mem : option Anthropic.editor_state_t) (editor_kmalloc : bool) (arrivals : list (list Z)).
Notation Cmd := (Sh (sys W D H)).

(** *** The editor's view of the state *)
Definition editor_view (s : sys W D H) : Anthropic.world D W :=
  let k := s.(keys) in let m := s.(mouse) in
  Anthropic.mk_world s.(scr) k.(codes) s.(prt) s.(fls) m.(m_x) m.(m_y) m.(m_initialized) m.(m_packet) m.(m_packet_index)
    m.(m_button_state) k.(input_buffer) k.(input_pos) k.(input_ready).
Definition editor_back (g : Anthropic.world D W) (s : sys W D H) : sys W D H :=
  let k := set_codes g.(Anthropic.codes)
             (set_input g.(Anthropic.input_buffer) g.(Anthropic.input_pos) g.(Anthropic.input_ready) s.(keys)) in
  set_scr g.(Anthropic.con) (set_keys k (set_prt g.(Anthropic.ports) (set_fls g.(Anthropic.files)
    (set_mouse (mk_mouse g.(Anthropic.internal_cursor_x) g.(Anthropic.internal_cursor_y) g.(Anthropic.mouse_initialized)
       g.(Anthropic.packet) g.(Anthropic.packet_index) g.(Anthropic.mouse_button_state)) s)))).
Definition anthropic_editor (filename : list Z) : Cmd unit :=
  on editor_view editor_back (fun g => let* g := Anthropic.anthropic_editor fuel editor_mem editor_kmalloc filename arrivals g in Done ((), g)).

(** The unread scancodes and the input line are dropped first. *)
Definition drop_input (s : sys W D H) : sys W D H :=
  let k := s.(keys) in let r := k.(codes) in
  set_keys (set_codes (mk_ring r.(scancode_buffer) r.(scancode_write_pos) r.(scancode_write_pos)) (set_input k.(input_buffer) 0 0 k)) s.
Definition cmd_anthropic (arg : list Z) : Cmd unit :=
  let filename := skip_spaces arg in
  if hd 0 filename =? 0 then say YELLOW "Usage: anthropic <filename>\n" [] else
  modify drop_input ;;
  anthropic_editor filename ;;
  c ← cwd;
  say GREEN "\n%s> " [Str c].

(** print.c *)
Definition test_PRINT : Cmd unit :=
  on_screen (fun c => Done (SetCursorPos 0 0 (ClearScreen BLACK c))) ;;
  say WHITE "Testing PRINT:\n" [] ;;
  say WHITE "Integer: %d\n" [Word 42] ;;
  say WHITE "Hex: 0x%x\n" [Word 42] ;;
  say WHITE "Pointer: %p\n" [Word 0xDEADBEEF] ;;
  say WHITE "String: %s\n" [Str (lit "Hello")] ;;
  say WHITE "Char: %c\n" [Word 65] ;;
  say WHITE "Multiple: %d %s %p\n" [Word 123; Str (lit "test"); Word 0x1234].

(** *** Small commands *)
Definition cmd_clear : Cmd unit := on_screen (fun c => Done (SetCursorPos 0 0 (ClearScreen BLACK c))).
Definition cmd_shutdown : Cmd unit :=
  say WHITE "Shutting down...\n" [] ;; on_screen (fun c => let* (_, c) := Interrupts.system_shutdown ResetSystem c in Done c).
Definition cmd_reboot : Cmd unit :=
  say WHITE "Rebooting...\n" [] ;; on_screen (fun c => let* (_, c) := Interrupts.system_reboot ResetSystem c in Done c).
Definition cmd_history : Cmd unit := h ← gets (fun s => s.(keys).(history)); on_screen (history_list h).
Definition cmd_rps : Cmd unit :=
  say YELLOW "Pick: Rock, Paper, or Scissors? (you're going to lose btw)\n" [] ;; play_rps arrivals.
Definition cmd_testbg (process_command : list Z -> Cmd unit) : Cmd unit :=
  say GREEN "\n=== Testing Background Jobs ===\n" [] ;;
  say WHITE "Test 1: echo test &\n" [] ;;
  process_command (txt "echo Hello from background! &") ;;
  modify (busy 10000000) ;;
  say WHITE "Test 2: sleep 3 &\n" [] ;;
  process_command (txt "sleep 3 &") ;;
  say GREEN "\nCheck with 'jobs' command\n" [].
(** The branches hidden by earlier ones: a listing of the argument, a cat that creates, a pwd that goes to the root. *)
Definition ls_argument (path : list Z) : Cmd unit := p ← resolve path; vfs_list_directory p.
Definition cat_creates (filename : list Z) : Cmd unit :=
  path ← resolve filename;
  r ← on_files (f_create path (Z.lor FILE_READ FILE_WRITE));
  if r =? 0 then say GREEN "Created file: %s\n\n\n" [Str path] else say YELLOW "Failed to create file\n" [].

(** *** The chain *)
Definition arg (n : nat) (f : list Z -> Cmd unit) (cmd : list Z) : Cmd unit := f (drop n cmd).
Definition opt_arg (n : nat) (f : option (list Z) -> Cmd unit) (cmd : list Z) : Cmd unit := f (Some (drop n cmd)).
Definition no_arg (m : Cmd unit) (_ : list Z) : Cmd unit := m.
Definition usage (text : string) (_ : list Z) : Cmd unit := say YELLOW text [].
Notation cmd_beep := (ShellAudio.cmd_beep fuel).
Notation cmd_playtone := (ShellAudio.cmd_playtone fuel).
Notation cmd_piano := (ShellAudio.cmd_piano fuel).

(** From hello to testbg. *)
Definition basic_branches (process_command : list Z -> Cmd unit) : list (branch (Cmd unit)) := [
  mk_branch "hello" 5 (no_arg (say GREEN "hello :D\n" []));
  mk_branch "help" 4 (no_arg (says help_text));
  mk_branch "clear" 5 (no_arg cmd_clear);
  mk_branch "shutdown" 8 (no_arg cmd_shutdown);
  mk_branch "reboot" 6 (no_arg cmd_reboot);
  mk_branch "echo " 5 (arg 5 (fun t => say WHITE "%s\n" [Str t]));
  mk_branch "memstats" 8 (no_arg memory_stats);
  mk_branch "ps" 2 (no_arg print_process_table);
  mk_branch "threads" 7 (no_arg cmd_threads);
  mk_branch "jobs" 4 (no_arg list_jobs);
  mk_branch "fg " 3 (arg 3 cmd_fg);
  mk_branch "bg " 3 (arg 3 cmd_bg);
  mk_branch "sleep " 6 (cmd_sleep fuel);
  mk_branch "ls" 2 (no_arg cmd_ls);
  mk_branch "pwd" 3 (no_arg cmd_pwd);
  mk_branch "syscalltest" 11 (no_arg test_syscall_interface);
  mk_branch "testbg" 6 (no_arg (cmd_testbg process_command))].
(** From the second ls to rps. *)
Definition file_branches : list (branch (Cmd unit)) := [
  mk_branch "ls" 2 (arg 2 ls_argument);
  mk_branch "touch " 6 (arg 6 cmd_touch);
  mk_branch "cat " 4 (arg 4 cmd_cat);
  mk_branch "cat " 4 (arg 6 cat_creates);
  mk_branch "mkdir " 6 (arg 6 cmd_mkdir);
  mk_branch "rm " 3 (arg 3 cmd_rm);
  mk_branch "write " 6 (arg 6 cmd_write);
  mk_branch "statfs" 6 (no_arg cmd_statfs);
  mk_branch "wipe" 4 (no_arg cmd_wipe);
  mk_branch "pwd" 3 (no_arg (chdir_to (txt "/")));
  mk_branch "cd " 3 (arg 3 cmd_cd);
  mk_branch "help" 4 (no_arg skip);
  mk_branch "rps" 3 (no_arg cmd_rps)].
(** Programs, the assembler and the editor. *)
Definition program_branches : list (branch (Cmd unit)) := [
  mk_branch "elfinfo " 8 (arg 8 (shell_command_elfinfo fuel));
  mk_branch "elfinfo" 8 (usage "Usage: elfinfo <file>\n");
  mk_branch "elfload " 8 (arg 8 (shell_command_elfload fuel));
  mk_branch "elfload" 7 (usage "Usage: elfload <file>\n");
  mk_branch "elfcheck " 9 (arg 9 shell_command_elfcheck);
  mk_branch "elfcheck" 8 (usage "Usage: elfcheck <file>\n");
  mk_branch "elftest" 8 (no_arg shell_command_elftest);
  mk_branch "ASM " 4 (arg 4 (fun a => cmd_asm fuel a asm_garbage));
  mk_branch "mknetcall" 9 (no_arg (cmd_mknetcall fuel elf_net_address asm_garbage));
  mk_branch "gui" 3 (no_arg (cmd_gui fuel gui_thread_entry_address));
  mk_branch "asmfile " 8 (arg 8 (fun a => cmd_asmfile fuel a asm_garbage));
  mk_branch "anthropic " 10 (arg 10 cmd_anthropic);
  mk_branch "anthropic" 9 (usage "Usage: anthropic <filename>\n")].
(** Sound, network and the scheduler. *)
Definition device_branches : list (branch (Cmd unit)) := [
  mk_branch "audioinit" 9 (no_arg (cmd_audioinit fuel ac97_interrupt_address));
  mk_branch "audioinfo" 9 (no_arg cmd_audioinfo);
  mk_branch "audiotest" 9 (no_arg (cmd_audiotest fuel busy));
  mk_branch "beep " 5 (opt_arg 5 cmd_beep);
  mk_branch "beep" 4 (no_arg (cmd_beep None));
  mk_branch "volume " 7 (opt_arg 7 cmd_volume);
  mk_branch "volume" 6 (no_arg (cmd_volume None));
  mk_branch "playtone " 9 (opt_arg 9 cmd_playtone);
  mk_branch "playtone" 8 (no_arg (cmd_playtone None));
  mk_branch "audiomute " 10 (opt_arg 10 cmd_audiomute);
  mk_branch "audiomute" 9 (no_arg (cmd_audiomute None));
  mk_branch "piano " 6 (opt_arg 6 cmd_piano);
  mk_branch "piano" 5 (no_arg (cmd_piano None));
  mk_branch "pianoscale" 10 (no_arg (cmd_pianoscale fuel));
  mk_branch "pianochord" 10 (no_arg (cmd_pianochord fuel));
  mk_branch "pianosong" 9 (no_arg (cmd_pianosong fuel));
  mk_branch "pianotest" 9 (no_arg (cmd_pianotest fuel));
  mk_branch "netinit" 7 (no_arg (cmd_netinit fuel rx_addr tx_addr));
  mk_branch "ifconfig" 8 (no_arg cmd_ifconfig);
  mk_branch "netconfig " 10 (arg 10 cmd_netconfig);
  mk_branch "parseip " 8 (arg 8 cmd_parseip);
  mk_branch "dhcp" 4 (no_arg (cmd_dhcp spin depth busy));
  mk_branch "ping " 5 (arg 5 (cmd_ping spin depth));
  mk_branch "arp" 3 (no_arg cmd_arp);
  mk_branch "nettest" 7 (no_arg (cmd_nettest spin depth));
  mk_branch "netverify" 9 (no_arg (cmd_netverify spin depth busy));
  mk_branch "netstatus" 9 (no_arg cmd_netstatus);
  mk_branch "dnstest " 8 (arg 8 (cmd_dnstest spin depth busy));
  mk_branch "webtest" 7 (no_arg (cmd_webtest spin depth));
  mk_branch "wget " 5 (arg 5 (cmd_wget spin depth));
  mk_branch "curl " 5 (arg 5 (cmd_curl spin depth));
  mk_branch "httptest" 8 (no_arg (cmd_httptest spin depth));
  mk_branch "history" 8 (no_arg cmd_history);
  mk_branch "schedinfo" 9 (no_arg cmd_schedinfo);
  mk_branch "schedstart" 10 (no_arg (cmd_schedstart fuel));
  mk_branch "jobupdate" 9 (no_arg cmd_jobupdate);
  mk_branch "syscheck" 8 (no_arg (cmd_syscheck busy))].
Definition chain (process_command : list Z -> Cmd unit) : list (branch (Cmd unit)) :=
  basic_branches process_command ++ file_branches ++ program_branches ++ device_branches.

Definition unknown (cmd : list Z) : Cmd unit :=
  say YELLOW "Unknown command: %s\n" [Str cmd] ;;
  say YELLOW "Try 'help' for available commands\n" [].
Definition run_command (process_command : list Z -> Cmd unit) (cmd : list Z) : Cmd unit :=
  match first_branch cmd (chain process_command) with Some b => b.(action) cmd | None => unknown cmd end.

Definition is_background (cmd : list Z) : bool := match last cmd with Some c => c =? 38 | None => false end.
Definition remember (cmd : list Z) : Cmd unit := modify (fun s => set_keys (set_history (history_add cmd s.(keys).(history)) s.(keys)) s).

(** [calls]: how deep the function may call itself; testbg calls it with two background commands. *)
Fixpoint process_command (calls : nat) (cmd : list Z) : Cmd unit :=
  match calls with
  | O => fun s => (s, Cut)
  | S calls =>
    if hd 0 cmd =? 0 then skip else
    remember cmd ;;
    if is_background cmd then launch_background fuel bg_command_thread_address (background_text cmd)
    else run_command (process_command calls) cmd
  end.

(** ** The main loop *)
Record loop_vars := mk_vars { cursor_visible : Z; cursor_timer : Z; job_update_counter : Z }.

Definition show_prompt : Cmd unit := c ← cwd; say GREEN "%s> " [Str c].
Definition unmask_keyboard : Cmd unit :=
  on_ports (fun d => let '(mask, d) := inb 0x21 d in
    if c_true (Z.land mask 2) then ((), outb 0x21 (u8 (Z.land mask (Z.lnot 2))) d) else ((), d)).
Definition poll_keyboard : Cmd unit :=
  status ← on_ports (inb 0x64);
  when (c_true (Z.land status 1))
    (scancode ← on_ports (inb 0x60);
     modify (fun s => set_keys (set_codes (ring_put scancode s.(keys).(codes)) s.(keys)) s)).
Definition gui_active : Cmd bool := gets (fun s => c_true s.(gui_owns_input)).
Definition run_input : Cmd unit :=
  ready ← gets (fun s => input_available s.(keys));
  when (c_true ready)
    (input ← on_keys (fun k => Done (get_input_and_reset k));
     match input with
     | None => crash
     | Some b => process_command 2 (cstr b) ;; show_prompt
     end).

Definition shell_round (v : loop_vars) : Cmd loop_vars :=
  unmask_keyboard ;;
  g ← gui_active;
  when (negb g) poll_keyboard ;;
  let timer := s32 (v.(cursor_timer) + 1) in
  on_net (Net.poll spin depth) ;;
  g ← gui_active;
  when (negb g) (on_keys (fun k => let* k := process_keyboard_buffer k in Done ((), k))) ;;
  let jobs := s32 (v.(job_update_counter) + 1) in
  when (100 <=? jobs) (on_kernel Jobs.update_jobs) ;;
  let jobs := if 100 <=? jobs then 0 else jobs in
  g ← gui_active;
  when (negb g) run_input ;;
  let blink := CURSOR_BLINK_RATE <=? timer in
  let visible := if blink then (if c_true v.(cursor_visible) then 0 else 1) else v.(cursor_visible) in
  g ← gui_active;
  when (blink && negb g) (draw_cursor visible) ;;
  on_kernel (Sched.thread_yield fuel) ;;
  modify (busy 4000) ;;
  mret (mk_vars visible (if blink then 0 else timer) jobs).
Fixpoint shell_rounds (n : nat) (v : loop_vars) : Cmd loop_vars :=
  match n with O => mret v | S n => v ← shell_round v; shell_rounds n v end.

(** The first [n] rounds of the endless loop. *)
Definition run_text_demo (n : nat) : Cmd loop_vars :=
  says [(CYAN, "==========================================\n"%string); (CYAN, "    AMQ Operating System v2.8\n"%string);
        (CYAN, "==========================================\n"%string); (WHITE, "Welcome! Type 'help' for commands.\n\n"%string)] ;;
  show_prompt ;;
  shell_rounds n (mk_vars 1 0 0).
Definition init_shell (n : nat) : Cmd loop_vars :=
  on_screen (fun c => Done (auto_scroll_init (SetCursorPos 0 0 (ClearScreen BLACK c)))) ;;
  run_text_demo n.
Definition shell_thread_entry (n : nat) : Cmd loop_vars :=
  say GREEN "[SHELL] Starting as thread\n" [] ;;
  modify (fun s => set_krn (Sched.sti s.(krn)) s) ;;
  flags ← kernel_is (fun k => Sched.rflags (Sched.regs k));
  say WHITE "[SHELL] RFLAGS = 0x%llx (IF=%d)\n" [Word flags; Word (if c_true (Z.land flags 0x200) then 1 else 0)] ;;
  init_shell n.
End Interpreter.
End ShellMain.
