(* ===== verification/Boot.v ===== *)
(** * Starting up (bootloader.c and Shell/start.c)

    The boot loader: it looks for a file system, takes the first directory
    entry that begins with k as the kernel, reads and starts it. The kernel's
    efi_main: memory, processor tables, interrupts, disk, file system, threads
    and the scheduler, in the order of the source, over the models of these
    components. The firmware is a class, after the UEFI specification. *)
From Stdlib Require Import ZArith Lia String.
From stdpp Require Import base numbers list gmap.
From S2P Require Import Prelude VfsTypes VFS TinyFS Ata Memory Asm Scheduler Jobs E1000 Console Serial Keyboard Desk Tables Interrupts AC97 ConsoleFmt Shell ShellFiles.

Module Boot.
Import Asm Ata Console ConsoleFmt Messages Files Shell ShellFiles.
Import Interrupts(GREEN, YELLOW, MAGENTA, BROWN).
Local Open Scope Z_scope.
Local Open Scope outcome_scope.

(** ** The firmware *)

(** What GetMemoryMap leaves in the caller's variables and buffer. *)
Record efi_map := mk_efi_map { em_size : Z; em_key : Z; em_descriptor_size : Z; em_descriptor : nat -> Mem.memory_descriptor }.

(** [AllocatePool] gets the old value of the pointer and gives its value after
    the call. [Read] is the same call for files and directories. [GetInfo] and
    [Read] fill the buffer at an address; [FileName] and [FileSize] are the
    fields of the EFI_FILE_INFO there. *)
Class Uefi (F : Type) := {
  InitializeLib : F -> F;
  ConClear : F -> F;
  SetCursorPosition : Z -> Z -> F -> F;
  OutputString : list Z -> F -> F;
  GetMemoryMap : Z -> Z -> F -> efi_map * F;
  AllocatePool : Z -> Z -> F -> Z * Z * F;
  FreePool : Z -> F -> F;
  ExitBootServices : Z -> Z -> F -> Z * F;
  Graphics : F -> gmap Z Z * Z * Z * Z;
  LocateHandleBuffer : F -> Z * list Z * F;
  HandleProtocol : Z -> F -> Z * Z * F;
  OpenVolume : Z -> F -> Z * Z * F;
  Read : Z -> Z -> Z -> F -> Z * Z * F;
  SetPosition : Z -> Z -> F -> F;
  Open : Z -> list Z -> F -> Z * Z * F;
  GetInfo : Z -> Z -> Z -> F -> Z * F;
  Close : Z -> F -> F;
  LoadImage : Z -> Z -> Z -> F -> Z * Z * F;
  StartImage : Z -> F -> Z * F;
  FileName : Z -> F -> list Z;
  FileSize : Z -> F -> Z }.

(** [EFI_ERROR]: the highest bit. *)
Definition EFI_ERROR (status : Z) : bool := Z.testbit status 63.

(** ** The boot loader *)
Section Loader.
Context {F : Type} `{!Uefi F} (sizeof_file_info : Z).
Notation Cmd := (Sh F).

Definition call {A} (f : F -> A * F) : Cmd A := fun w => let '(a, w) := f w in (w, Finished a).
Definition call_ (f : F -> F) : Cmd unit := modify f.
Definition output (s : list Z) : Cmd unit := call_ (OutputString s).
(** An error message, then [while (1);]. *)
Definition fail_with {A} (s : list Z) : Cmd A := output s ;; hang.

Definition is_kernel (name : list Z) : bool := (hd 0 name =? 107) || (hd 0 name =? 75).

(** At most [n] entries; whether one was taken. Its name stays in the buffer. *)
Fixpoint find_kernel (n : nat) (Root ListFileInfo : Z) : Cmd bool :=
  match n with
  | O => mret false
  | S n =>
    r ← call (Read Root (sizeof_file_info + 200) ListFileInfo);
    let '(Status, Size) := r in
    if EFI_ERROR Status || (Size =? 0) then mret false else
    output (txt "  Found: ") ;;
    fn ← gets (FileName ListFileInfo);
    output fn ;;
    output (txt "\n") ;;
    if is_kernel fn then output (txt "  ^^ Using this as kernel!\n") ;; mret true
    else find_kernel n Root ListFileInfo
  end.

Definition open_root : Cmd Z :=
  output (txt "[1] Searching for filesystems...\n") ;;
  r ← call LocateHandleBuffer;
  let '(Status, Handles) := r in
  if EFI_ERROR Status then fail_with (txt "ERROR: No filesystems found\n") else
  match Handles with
  | [] => fail_with (txt "ERROR: No filesystems found\n")
  | handle :: _ =>
    output (txt "[1b] Found filesystem, getting protocol...\n") ;;
    r ← call (HandleProtocol handle);
    let '(Status, Volume) := r in
    if EFI_ERROR Status then fail_with (txt "ERROR: HandleProtocol failed\n") else
    output (txt "[2] Opening volume...\n") ;;
    r ← call (OpenVolume Volume);
    let '(Status, Root) := r in
    if EFI_ERROR Status then fail_with (txt "ERROR: OpenVolume failed\n") else mret Root
  end.

(** [garbage]: pointers before they are set. *)
Definition open_kernel (garbage Root : Z) : Cmd Z :=
  output (txt "[3] Listing root directory...\n") ;;
  r ← call (AllocatePool (sizeof_file_info + 200) garbage);
  let ListFileInfo := snd r in
  found ← find_kernel 10 Root ListFileInfo;
  if negb found then fail_with (txt "ERROR: kernel.efi not found in directory listing\n") else
  call_ (SetPosition Root 0) ;;
  output (txt "[3b] Opening kernel with exact filename...\n") ;;
  KernelFileName ← gets (FileName ListFileInfo);
  r ← call (Open Root KernelFileName);
  let '(Status, KernelFile) := r in
  if EFI_ERROR Status then fail_with (txt "ERROR: Cannot open kernel using found filename\n") else
  output (txt "[4] kernel.efi opened successfully\n") ;;
  mret KernelFile.

(** The buffers of the file information and of the kernel, and its size. *)
Definition read_kernel (garbage KernelFile : Z) : Cmd (Z * Z * Z) :=
  output (txt "[5] Getting file info...\n") ;;
  r ← call (AllocatePool (sizeof_file_info + 200) garbage);
  let FileInfo := snd r in
  call (GetInfo KernelFile (sizeof_file_info + 200) FileInfo) ;;
  size ← gets (FileSize FileInfo);
  output (txt "[6] Reading kernel into memory...\n") ;;
  r ← call (AllocatePool size garbage);
  let KernelBuffer := snd r in
  r ← call (Read KernelFile size KernelBuffer);
  call_ (Close KernelFile) ;;
  output (txt "[7] kernel.efi loaded into memory\n") ;;
  mret (FileInfo, KernelBuffer, snd r).

Definition start_kernel (ImageHandle FileInfo KernelBuffer size : Z) : Cmd Z :=
  output (txt "[8] Calling LoadImage...\n") ;;
  r ← call (LoadImage ImageHandle KernelBuffer size);
  let '(Status, KernelHandle) := r in
  if EFI_ERROR Status then fail_with (txt "ERROR: LoadImage failed\n") else
  output (txt "\n[9] Starting kernel...\n\n") ;;
  Status ← call (StartImage KernelHandle);
  if EFI_ERROR Status then fail_with (txt "\nERROR: StartImage failed\n") else
  call_ (FreePool FileInfo) ;;
  call_ (FreePool KernelBuffer) ;;
  hang.

Definition loader_main (ImageHandle garbage : Z) : Cmd Z :=
  call_ InitializeLib ;;
  call_ ConClear ;;
  output (txt "Welcome to AMQ Operating System, Superuser. Loading kernel, standby...\n") ;;
  Root ← open_root;
  KernelFile ← open_kernel garbage Root;
  k ← read_kernel garbage KernelFile;
  let '(FileInfo, KernelBuffer, size) := k in
  start_kernel ImageHandle FileInfo KernelBuffer size.

(** *** Which file is taken *)

(** The next reads of [Root] into [buffer] give the names [l], then the end of
    the directory; printing changes neither. *)
Inductive lists (Root buffer : Z) : list (list Z) -> F -> Prop :=
| lists_end w w' status size : Read Root (sizeof_file_info + 200) buffer w = (status, size, w') ->
    EFI_ERROR status || (size =? 0) = true -> lists Root buffer [] w
| lists_next w w1 size name l : Read Root (sizeof_file_info + 200) buffer w = (0, size, w1) -> size <> 0 -> FileName buffer w1 = name ->
    (forall texts, let w2 := foldl (fun w t => OutputString t w) w1 texts in FileName buffer w2 = name /\ lists Root buffer l w2) ->
    lists Root buffer (name :: l) w.

(** Of the first [n] entries the first one whose name begins with k or K. *)
Theorem find_kernel_first Root buffer l : forall n w, lists Root buffer l w ->
  exists w', find_kernel n Root buffer w = (w', Finished (existsb is_kernel (take n l))) /\
    forall name, find is_kernel (take n l) = Some name -> FileName buffer w' = name.
Proof.
  induction l as [|name l IH]; intros n w Hl.
  - destruct n as [|n]; [by exists w|]. inversion Hl as [? w' status size Er Ee|]; subst. exists w'. split; [|done].
    cbn [find_kernel]. unfold mbind, Sh_bind, call. rewrite Er. cbn [after]. by rewrite Ee.
  - destruct n as [|n]; [by exists w|]. inversion Hl as [|? w1 size ? ? Er Es En Hn]; subst.
    cbn [find_kernel take existsb find]. unfold mbind, Sh_bind, call. rewrite Er. cbn [after].
    destruct (Z.eqb_spec size 0) as [|_]; [done|]. cbn [EFI_ERROR Z.testbit orb]. unfold output, call_, gets, modify. cbn [after].
    destruct (Hn [txt "  Found: "]) as [En1 _]. cbn [foldl] in En1. rewrite En1.
    destruct (is_kernel (FileName buffer w1)) eqn:Ek; cbn [orb].
    + eexists. split; [reflexivity|]. intros nm [= <-].
      exact (proj1 (Hn [txt "  Found: "; FileName buffer w1; txt "\n"; txt "  ^^ Using this as kernel!\n"])).
    + destruct (Hn [txt "  Found: "; FileName buffer w1; txt "\n"]) as [_ Hl']. cbn [foldl] in Hl'.
      destruct (IH n _ Hl') as (w' & E & Hname). exists w'. split; [exact E|exact Hname].
Qed.
End Loader.

(** ** The kernel's start *)

(** What start.c uses of the file system beyond [TreeApi]. *)
Class StartFiles (W : Type) := {
  vfs_init : W -> W;
  tinyfs_create : W -> option Z * W;
  vfs_register_filesystem : option Z -> W -> Z * W }.

(** VFS.c and tinyfs.c themselves. *)
Definition vfs_start {HP D} `{Heap HP} : StartFiles (Vfs.vfs_state * world Tinyfs.tinyfs_data HP D) := {|
  vfs_init s := (Vfs.vfs_init (fst s), snd s);
  tinyfs_create s :=
    let w := snd s in
    let '(r, h) := Tinyfs.tinyfs_create (w_heap w) in
    match r with
    | Some (p, fs) => (Some p, (fst s, mk_world (w_nodes w) (<[p := fs]> (w_fs w)) h (w_disk w)))
    | None => (None, (fst s, mk_world (w_nodes w) (w_fs w) h (w_disk w)))
    end;
  vfs_register_filesystem fs s := let '(r, v) := Vfs.vfs_register_filesystem fs (fst s) in (r, (v, snd s)) |}.

(** The system, the processor's tables, the firmware, and [bg_thread_data]: job id and command of each entry. *)
Record machine (W D H F : Type) := mk_machine { os : sys W D H; tabs : Tables.tables; fw : F; bg_thread_data : list (Z * list Z) }.
Arguments mk_machine {W D H F} os tabs fw bg_thread_data.
Arguments os {W D H F} m.
Arguments tabs {W D H F} m.
Arguments fw {W D H F} m.
Arguments bg_thread_data {W D H F} m.

Section Start.
Context {W D H F : Type} `{!PortIO D, !FileApi W, !TreeApi W, !StartFiles W, !Uefi F, !Sched.Image, !Tables.Symbols, !Ac97.Waits (Interrupts.irqs D)}.
Context (fuel : nat) (busy : Z -> sys W D H -> sys W D H) (idle_thread_entry shell_thread_entry ImageHandle : Z).
Notation machine := (machine W D H F).
Notation Cmd := (Sh machine).

Definition set_os (s : sys W D H) (m : machine) : machine := mk_machine s m.(tabs) m.(fw) m.(bg_thread_data).
Definition set_tabs (t : Tables.tables) (m : machine) : machine := mk_machine m.(os) t m.(fw) m.(bg_thread_data).
Definition set_fw (f : F) (m : machine) : machine := mk_machine m.(os) m.(tabs) f m.(bg_thread_data).
Definition set_bg (l : list (Z * list Z)) (m : machine) : machine := mk_machine m.(os) m.(tabs) m.(fw) l.

(** A command of the system as one of the machine. *)
Fixpoint lift_run {A} (r : run (sys W D H) A) : run machine A :=
  match r with
  | Finished a => Finished a
  | Away k => Away (fun m => let '(s, r) := k m.(os) in (set_os s m, lift_run r))
  | Waiting k => Waiting (fun m => let '(s, r) := k m.(os) in (set_os s m, lift_run r))
  | Exited => Exited
  | Stopped => Stopped
  | Crashed => Crashed
  | Cut => Cut
  end.
Definition on_os {A} (f : Sh (sys W D H) A) : Cmd A := fun m => let '(s, r) := f m.(os) in (set_os s m, lift_run r).
Definition on_fw {A} (f : F -> A * F) : Cmd A := on fw set_fw (fun w => Done (f w)).
Definition fw_ (f : F -> F) : Cmd unit := modify (fun m => set_fw (f m.(fw)) m).
Definition on_tables (f : Tables.tables -> outcome Tables.tables) : Cmd unit :=
  on tabs set_tabs (fun t => let* t := f t in Done ((), t)).
Definition tell (fg : Z) (text : string) (args : list va) : Cmd unit := on_os (say fg text args).
Definition tells (l : list (Z * string)) : Cmd unit := on_os (says l).
Definition kernel_do (f : Sched.kernel -> Sched.kernel) : Cmd unit := modify (fun m => set_os (set_krn (f m.(os).(krn)) m.(os)) m).
Definition kernel_is {A} (f : Sched.kernel -> A) : Cmd A := gets (fun m => f m.(os).(krn)).

(** The interrupt state that irq.c keeps. *)
Definition on_irqs (f : Interrupts.irqs D -> outcome (Interrupts.irqs D)) : Sh (sys W D H) unit :=
  on_audio (fun a => let* i := f a.(Ac97.kern) in
    Done ((), Ac97.mk_audio a.(Ac97.g_ac97_device) a.(Ac97.dma_buffer_ptrs) a.(Ac97.dma_buffer_phys) a.(Ac97.buffers_allocated) a.(Ac97.memory) i)).

(** [or $0x3000] on the flags. *)
Definition enable_io_privilege (k : Sched.kernel) : Sched.kernel :=
  let c := Sched.regs k in
  Sched.set_regs (Sched.mk_cpu (Sched.rsp c) (Sched.rbp c) (Sched.rbx c) (Sched.r12 c) (Sched.r13 c) (Sched.r14 c) (Sched.r15 c)
    (Z.lor (Sched.rflags c) 0x3000) (Sched.rip c)) k.

Definition boot_failed {A} : Cmd A := tell YELLOW "\n=== BOOT FAILED ===\n" [] ;; hang.

(** [while (timer_ticks < target) hlt]. *)
Fixpoint wait_ticks (n : nat) (target : Z) (i : Interrupts.irqs D) : outcome (Interrupts.irqs D) :=
  if i.(Interrupts.timer_ticks) <? target then
    match n with O => OutOfFuel | S n => wait_ticks n target (Ac97.hlt i) end
  else Done i.

(** *** Memory and firmware *)

(** The key of the memory map. *)
Definition start_memory : Cmd (Z * Z * Z) :=
  fw_ InitializeLib ;; fw_ ConClear ;; fw_ (SetCursorPosition 0 0) ;;
  fw_ (OutputString (lit "AMQ OS - Booting..." ++ [13; 10])) ;;
  e ← on_fw (GetMemoryMap 0 0);
  let size := u64 (e.(em_size) + 2 * e.(em_descriptor_size)) in
  p ← on_fw (AllocatePool size 0);
  let memory_map := snd p in
  e ← on_fw (GetMemoryMap size memory_map);
  if e.(em_descriptor_size) =? 0 then crash else
  let desc_count := e.(em_size) / e.(em_descriptor_size) in
  kernel_do (fun k => Sched.set_kmm (Mem.init_kernel_heap
    (Mem.pmm_init (map e.(em_descriptor) (seq 0 (Z.to_nat desc_count))) (Sched.kmm k))) k) ;;
  r ← on_os (on_memory (fun m => Done (Mem.stackalloc 16 4096 m)));
  if negb (r =? 0) then
    fw_ (OutputString (lit "Failed to allocate kernel stack!" ++ [13; 10])) ;; boot_failed
  else mret (e.(em_size), memory_map, e.(em_key)).

Definition leave_firmware (size memory_map map_key : Z) : Cmd unit :=
  g ← gets (fun m => Graphics m.(fw));
  let '(base, hres, vres, scan) := g in
  on_os (on_screen (fun c => Done (init_graphics base hres vres scan c))) ;;
  status ← on_fw (ExitBootServices ImageHandle map_key);
  when (EFI_ERROR status)
    (e ← on_fw (GetMemoryMap size memory_map);
     status ← on_fw (ExitBootServices ImageHandle e.(em_key));
     when (EFI_ERROR status) hang).

(** *** Processor, interrupts, jobs *)
Definition start_cpu : Cmd unit :=
  on_os (on_screen (fun c => Done (SetCursorPos 0 0 (ClearScreen BLACK c)))) ;;
  tells [(WHITE, "AMQ OS Kernel v2.8\n"%string); (WHITE, "==================\n\n"%string)] ;;
  kernel_do enable_io_privilege ;;
  tell GREEN "[OK] I/O privileges enabled\n" [] ;;
  mm ← kernel_is Sched.kmm;
  tell GREEN "[OK] Stack: base=0x%llx, top=0x%llx\n" [Word (Mem.kernel_stack_base mm); Word (Mem.kernel_stack_top mm)] ;;
  on_tables Tables.gdt_init ;;
  tell GREEN "[OK] GDT initialized\n" [] ;;
  on_tables Tables.tss_init ;;
  tell GREEN "[OK] TSS initialized\n" [] ;;
  on_os (on_ports (fun d => ((), Interrupts.pic_remap d))) ;;
  tell GREEN "[OK] PIC remapped\n" [] ;;
  on (fun m => (m.(tabs), m.(os).(scr))) (fun '(t, c) m => set_tabs t (set_os (set_scr c m.(os)) m))
     (fun '(t, c) => let* (t, c) := Interrupts.idt_install t c in Done ((), (t, c))) ;;
  tell GREEN "[OK] IDT installed\n" [] ;;
  on_os (on_keys (fun k => Done ((), Keyboard.mk_kbd k.(Keyboard.codes) k.(Keyboard.interrupt_counter) k.(Keyboard.last_scancode)
    k.(Keyboard.shift_pressed) k.(Keyboard.input_buffer) k.(Keyboard.input_pos) k.(Keyboard.input_ready) k.(Keyboard.history)
    k.(Keyboard.con) (Serial.serial_init Serial.COM1 k.(Keyboard.ser))))) ;;
  tell GREEN "[OK] Serial initialized\n" [].

Definition start_jobs : Cmd unit :=
  tell WHITE "\n[INIT] Initializing job system...\n" [] ;;
  kernel_do Jobs.jobs_init ;;
  kernel_do (Jobs.jobs_set_active 0) ;;
  tells [(GREEN, "[OK] Job system initialized (INACTIVE)\n"%string); (WHITE, "\n[INIT] Enabling IRQ system...\n"%string)] ;;
  on_os (on_irqs Interrupts.irq_init) ;;
  tell GREEN "[OK] IRQ system enabled\n" [].

Definition test_timer : Cmd unit :=
  tell WHITE "\n[TEST] Testing timer for 3 seconds...\n" [] ;;
  start_ticks ← kernel_is Sched.timer_ticks;
  for_each [1; 2; 3] (fun sec =>
    on_os (on_irqs (wait_ticks fuel (u64 (start_ticks + sec * 1000)))) ;;
    now ← kernel_is Sched.timer_ticks;
    tell GREEN "[TEST] Second %d: timer_ticks=%llu\n" [Word sec; Word now]) ;;
  tell GREEN "[OK] Timer is working correctly!\n" [] ;;
  on_os (on_ports (fun d => ((), Interrupts.enable_keyboard d))) ;;
  tell GREEN "[OK] Keyboard enabled\n" [].

(** *** Disk and file system *)
Definition start_files : Cmd unit :=
  tell WHITE "\n[INIT] Initializing storage...\n" [] ;;
  on_os (on_ports (fun d => ((), ata_init d))) ;;
  tells [(GREEN, "[OK] ATA initialized\n"%string); (WHITE, "\n[INIT] Initializing filesystem...\n"%string)] ;;
  on_os (on_files (fun w => Done ((), vfs_init w))) ;;
  tinyfs ← on_os (on_files (fun w => Done (tinyfs_create w)));
  match tinyfs with
  | None => tell YELLOW "[ERROR] Failed to create TinyFS\n" [] ;; boot_failed
  | Some fs =>
    r ← on_os (on_files (fun w => Done (vfs_register_filesystem (Some fs) w)));
    if negb (r =? 0) then tell YELLOW "[ERROR] Failed to register TinyFS\n" [] ;; boot_failed else
    tell WHITE "[INIT] Formatting disk...\n" [] ;;
    r ← on_os (on_files (d_format (txt "ata0")));
    if negb (r =? 0) then tell YELLOW "[ERROR] Format failed\n" [] ;; boot_failed else
    tell GREEN "[OK] Disk formatted\n" [] ;;
    on_os (modify (busy 10000000)) ;;
    tell WHITE "[INIT] Mounting filesystem...\n" [] ;;
    r ← on_os (on_files (d_mount (txt "tinyfs") (txt "ata0") (txt "/")));
    if negb (r =? 0) then tell YELLOW "[ERROR] Mount failed\n" [] ;; boot_failed else
    tell GREEN "[OK] Filesystem mounted\n" []
  end.

(** *** Processes and threads *)
Definition start_threads : Cmd Z :=
  tell WHITE "\n[INIT] Initializing processes...\n" [] ;;
  kernel_do Sched.process_init ;;
  tells [(GREEN, "[OK] Process table initialized\n"%string); (WHITE, "\n[INIT] Initializing scheduler...\n"%string)] ;;
  kernel_do Sched.scheduler_init ;;
  tell GREEN "[OK] Scheduler initialized (DISABLED)\n" [] ;;
  modify (fun m => set_bg (map (fun '(_, command) => (0, <[0%nat := 0]> command)) m.(bg_thread_data)) m) ;;
  tell WHITE "\n[INIT] Creating kernel threads...\n" [] ;;
  on_os (on_kernel (Jobs.init_kernel_threads fuel idle_thread_entry)) ;;
  tells [(GREEN, "[OK] Kernel threads created\n"%string); (WHITE, "\n[INIT] Starting shell as thread...\n"%string)] ;;
  init_proc ← kernel_is (fun k => Sched.get_process 1 k ≫= fun p => Sched.process_table k !! p);
  match init_proc with
  | None => tell YELLOW "[ERROR] Init process not found!\n" [] ;; boot_failed
  | Some p =>
    shell_tid ← on_os (on_kernel (Sched.thread_create fuel (Sched.pid p) shell_thread_entry 131072 50000000 1000000000 1000000000));
    if shell_tid <? 0 then tell YELLOW "[ERROR] Failed to create shell thread\n" [] ;; boot_failed else mret shell_tid
  end.

Definition start_scheduler (shell_tid : Z) : Cmd unit :=
  tell WHITE "\n[INIT] Enabling scheduler...\n" [] ;;
  on_os (on_kernel (Sched.scheduler_enable fuel)) ;;
  tell GREEN "[OK] Scheduler ENABLED\n" [] ;;
  on_os (on_screen (fun c => Done (ClearScreen BLACK c))) ;;
  tell GREEN "=== Boot Complete ===\n" [] ;;
  kernel_do (Jobs.jobs_set_active 1) ;;
  tell GREEN "[OK] Job tracking ENABLED\n" [] ;;
  on_os (on_screen (fun c => Done (ClearScreen BLACK c))) ;;
  kernel_do Jobs.jobs_init ;;
  tell GREEN "[OK] Shell thread created (TID=%d)\n" [Word shell_tid] ;;
  tells [(GREEN, "\n=== Boot Complete ===\n"%string); (YELLOW, "[INIT] Starting first thread...\n"%string)] ;;
  on_os (on_kernel (Sched.schedule fuel)) ;;
  tell RED "[FATAL] Returned from schedule()!\n" [] ;;
  hang.

Definition efi_main : Cmd unit :=
  r ← start_memory;
  let '(size, memory_map, map_key) := r in
  leave_firmware size memory_map map_key ;;
  start_cpu ;;
  start_jobs ;;
  test_timer ;;
  start_files ;;
  shell_tid ← start_threads;
  start_scheduler shell_tid.

(** ** How the start ends *)

(** [Q] for the result of a command that finishes, [X] for the state in which
    the processor leaves it for good; it never gives the processor away to come back. *)
Definition ends {S A} (m : Sh S A) (X : S -> Prop) (Q : A -> S -> Prop) (s : S) : Prop :=
  match m s with
  | (s', Finished a) => Q a s'
  | (s', Exited) => X s'
  | (_, Away _) | (_, Waiting _) => False
  | _ => True
  end.

Lemma ends_bind {S A B} (m : Sh S A) (f : A -> Sh S B) X Q s : ends m X (fun a => ends (f a) X Q) s -> ends (m ≫= f) X Q s.
Proof. unfold ends, mbind, Sh_bind. by destruct (m s) as [s' []]. Qed.
Lemma ends_mono {S A} (m : Sh S A) (X : S -> Prop) (P Q : A -> S -> Prop) s : (forall a s', P a s' -> Q a s') -> ends m X P s -> ends m X Q s.
Proof. intros HPQ. unfold ends. destruct (m s) as [s' []]; auto. Qed.
Lemma ends_on {S P A} (view : S -> P) back f X (Q : A -> S -> Prop) s :
  (forall a p, f (view s) = Done (a, p) -> Q a (back p s)) -> ends (on view back f) X Q s.
Proof. intros HQ. unfold ends, on. destruct (f (view s)) as [[a p]| |]; auto. Qed.
Lemma ends_hang {S A} X (Q : A -> S -> Prop) s : ends hang X Q s.
Proof. done. Qed.
Lemma ends_on_os {A} (f : Sh (sys W D H) A) (X : machine -> Prop) (Q : A -> machine -> Prop) m :
  ends f (fun s => X (set_os s m)) (fun a s => Q a (set_os s m)) m.(os) -> ends (on_os f) X Q m.
Proof. unfold ends, on_os. by destruct (f m.(os)) as [s []]. Qed.

(** *** The scheduler before it is enabled *)
Definition jobs_off (k : Sched.kernel) : Prop := Sched.jobs_enabled k = 0.
Record quiet (k : Sched.kernel) : Prop := {
  quiet_jobs : jobs_off k;
  quiet_enabled : Sched.scheduler_enabled k = 0;
  quiet_current : Sched.current_thread k = None;
  quiet_lock : Sched.in_scheduler k = 0 }.

(** The same for operations of the scheduler. *)
Definition returns {A} (m : Sched.M A) (Q : A -> Sched.kernel -> Prop) (k : Sched.kernel) : Prop :=
  match m k with
  | (k', Sched.Ret a) => Q a k'
  | (_, Sched.Fault) | (_, Sched.Unfinished) => True
  | _ => False
  end.
Lemma returns_seq {A B} (m : Sched.M A) (f : A -> Sched.M B) Q k :
  returns m (fun a => returns (f a) Q) k -> returns (Sched.bind m f) Q k.
Proof. unfold returns, Sched.bind. by destruct (m k) as [k' []]. Qed.
Lemma returns_lift {A} (f : Mem.mm -> outcome (A * Mem.mm)) (Q : A -> Sched.kernel -> Prop) k :
  (forall a m, Q a (Sched.set_kmm m k)) -> returns (Sched.lift f) Q k.
Proof. intros HQ. unfold returns, Sched.lift. by destruct (f (Sched.kmm k)) as [[a m]| |]. Qed.
Lemma returns_deref i (Q : nat * Sched.thread -> Sched.kernel -> Prop) k : (forall t, Q (i, t) k) -> returns (Sched.deref (Some i)) Q k.
Proof. intros HQ. unfold returns, Sched.deref. by destruct (Sched.thread_table k !! i). Qed.

(** Assignments to other fields. *)
Ltac still := match goal with Hq : quiet _ |- quiet _ => destruct Hq; split; assumption end.

Lemma returns_queue_add i (Q : unit -> Sched.kernel -> Prop) k : quiet k ->
  (forall k', quiet k' -> Sched.ready_queue_head k' <> None -> Q () k') -> returns (Sched.ready_queue_add (Some i)) Q k.
Proof.
  intros Hq HQ. unfold returns, Sched.ready_queue_add. destruct (Sched.ready_queue_head (Sched.upd i (Sched.set_next None) k)) eqn:Eh.
  - unfold Sched.bind, Sched.deref. destruct (Sched.ready_queue_tail _) as [l|]; [|done].
    destruct (Sched.thread_table _ !! l); [|done]. cbn [Sched.after]. 
    destruct (Sched.ready_queue_tail (Sched.upd i (Sched.set_next None) k)) as [l'|]; [|done].
    apply HQ; [still|]. cbn in Eh |- *. congruence.
  - apply HQ; [still|]. done.
Qed.

(** A thread is queued, and nothing runs yet. *)
Lemma returns_thread_create pd entry size rt dl per (Q : Z -> Sched.kernel -> Prop) k : quiet k ->
  (forall t k', quiet k' -> 0 <= t -> Sched.ready_queue_head k' <> None -> Q t k') ->
  (forall t k', quiet k' -> t < 0 -> Q t k') -> returns (Sched.thread_create fuel pd entry size rt dl per) Q k.
Proof.
  intros Hq Hok Hneg. assert (forall t k', quiet k' -> Sched.ready_queue_head k' <> None -> Q t k') as HQ.
  { intros t k' Hk Hh. destruct (Z.lt_ge_cases t 0); auto. }
  assert (returns (Sched.ret (-1)) Q k) as Hfail by (apply Hneg; [done|lia]).
  unfold Sched.thread_create. unfold returns in *. destruct (entry =? 0); [exact Hfail|].
  destruct (Sched.get_process pd k) as [proc|]; [|exact Hfail]. destruct (Sched.process_table k !! proc) as [p|]; [|done].
  destruct (_ >=? _); [exact Hfail|]. destruct (Sched.find_free_thread_slot k) as [slot|]; [|exact Hfail].
  apply returns_seq, returns_lift. intros base mm. apply returns_seq. unfold returns at 1. cbn [Sched.modify].
  destruct (base =? 0); [apply Hneg; [still|lia]|].
  do 5 (apply returns_seq; unfold returns at 1; cbn [Sched.modify]).
  apply returns_seq, returns_queue_add.
  { unfold Sched.setup_thread_context. destruct (Sched.thread_table _ !! slot); [|still].
    destruct (foldl _ _ _) as [sp b]. still. }
  intros k' Hk' Hh. apply returns_seq. unfold returns at 1. rewrite (quiet_enabled _ Hk'). cbn [c_true negb Z.eqb andb].
  apply returns_seq, returns_deref. intros t. by apply HQ.
Qed.

Lemma returns_kernel_threads (Q : unit -> Sched.kernel -> Prop) k : quiet k -> (forall k', quiet k' -> Q () k') ->
  returns (Jobs.init_kernel_threads fuel idle_thread_entry) Q k.
Proof.
  intros Hq HQ. unfold returns, Jobs.init_kernel_threads. destruct (Sched.process_create _ _ k) as [pd k1] eqn:Ep.
  assert (quiet k1) as Hq1.
  { unfold Sched.process_create in Ep. destruct (Sched.find_free_process k); injection Ep as <- <-; [still|done]. }
  destruct (pd <? 0); [by apply HQ|]. apply returns_seq, returns_thread_create; [done|..]; intros; by apply HQ.
Qed.

(** Nothing runs and a thread is ready: the scheduler starts it and does not come back. *)
Lemma enable_leaves k k' r : quiet k -> Sched.ready_queue_head k <> None -> Sched.scheduler_enable fuel k = (k', r) ->
  r = Sched.Fault \/ r = Sched.Gone /\ jobs_off k' /\ Sched.current_thread k' = Sched.ready_queue_head k.
Proof.
  intros [Hj _ Hc Hl] Hh. unfold Sched.scheduler_enable. rewrite bool_decide_eq_true_2 by done.
  destruct fuel as [|fu]; cbn [Sched.schedule]; unfold Sched.bind, Sched.requeue;
    change (Sched.in_scheduler (Sched.set_enabled 1 k)) with (Sched.in_scheduler k); rewrite Hl;
    change (Sched.current_thread (Sched.set_in_scheduler 1 (Sched.set_enabled 1 k))) with (Sched.current_thread k); rewrite Hc;
    cbn [Sched.scheduler_enabled Sched.set_enabled Z.eqb c_true negb Sched.after];
    change (Sched.ready_queue_head (Sched.set_in_scheduler 1 (Sched.set_enabled 1 k))) with (Sched.ready_queue_head k);
    (destruct (Sched.ready_queue_head k) as [n|]; [|done]); unfold Sched.deref;
    (destruct (Sched.thread_table _ !! n) as [t|]; [|intros [= _ <-]; by left]); cbn [Sched.after];
    intros [= <- <-]; right; (split; [done|]); (split; [|done]); unfold jobs_off; cbn; unfold Sched.dequeue; by destruct (decide _).
Qed.

Lemma enable_no_fault k n t k' : Sched.current_thread k = None -> Sched.in_scheduler k = 0 -> Sched.ready_queue_head k = Some n ->
  Sched.thread_table k !! n = Some t -> Sched.scheduler_enable fuel k <> (k', Sched.Fault).
Proof.
  intros Hc Hl Hn Ht. unfold Sched.scheduler_enable. cbn [Sched.current_thread Sched.ready_queue_head Sched.set_enabled].
  rewrite bool_decide_eq_true_2 by (rewrite Hc, Hn; done).
  destruct fuel as [|fu]; cbn [Sched.schedule]; unfold Sched.bind, Sched.requeue, Sched.set_enabled, Sched.set_in_scheduler;
    cbn [Sched.in_scheduler Sched.scheduler_enabled Sched.current_thread Sched.ready_queue_head Sched.thread_table Z.eqb];
    rewrite Hl, Hc; cbn [c_true negb Z.eqb Sched.after Sched.ready_queue_head Sched.current_thread]; rewrite Hn; unfold Sched.deref;
    cbn [Sched.thread_table]; rewrite Ht; done.
Qed.

(** *** Commands that leave the kernel's state alone, or its job flag *)
Lemma krn_set_os (m : machine) (s : sys W D H) : (set_os s m).(os) = s.
Proof. done. Qed.

Definition kernel_of (m : machine) : Sched.kernel := m.(os).(krn).
Definition keeps {A} (P : Sched.kernel -> Prop) (c : Cmd A) : Prop :=
  forall m, P (kernel_of m) -> ends c (fun _ => False) (fun _ m' => P (kernel_of m')) m.

Lemma keeps_bind {A B} P (c : Cmd A) (f : A -> Cmd B) : keeps P c -> (forall a, keeps P (f a)) -> keeps P (c ≫= f).
Proof. intros Hc Hf m Hm. apply ends_bind. eapply ends_mono; [|by apply Hc]. intros a m' Hm'. by apply Hf. Qed.
Lemma keeps_ret {A} P (a : A) : keeps P (mret a).
Proof. by intros m. Qed.
Lemma keeps_gets {A} P (f : machine -> A) : keeps P (gets f).
Proof. by intros m. Qed.
Lemma keeps_stop {A} P : keeps P (hang (A := A)).
Proof. by intros m. Qed.
Lemma keeps_crash {A} P : keeps P (crash (A := A)).
Proof. by intros m. Qed.
Lemma keeps_when P b (c : Cmd unit) : keeps P c -> keeps P (when b c).
Proof. intros Hc. destruct b; [done|by intros m]. Qed.
Lemma keeps_each {B} P (l : list B) (f : B -> Cmd unit) : (forall x, keeps P (f x)) -> keeps P (for_each l f).
Proof. intros Hf. induction l as [|x l IH]; [by intros m|]. by apply keeps_bind. Qed.
Lemma keeps_on {X A} P (view : machine -> X) back (f : X -> outcome (A * X)) :
  (forall x m, P (kernel_of m) -> P (kernel_of (back x m))) -> keeps P (on view back f).
Proof. intros Hb m Hm. apply ends_on. auto. Qed.
Lemma keeps_on_os {X A} P (view : sys W D H -> X) back (f : X -> outcome (A * X)) :
  (forall x s, P s.(krn) -> P (back x s).(krn)) -> keeps P (on_os (on view back f)).
Proof. intros Hb m Hm. apply ends_on_os, ends_on. intros a x _. by apply Hb. Qed.
Lemma keeps_modify P f : (forall m, P (kernel_of m) -> P (kernel_of (f m))) -> keeps P (modify f).
Proof. intros Hf m Hm. by apply Hf. Qed.

Lemma keeps_tell P fg text args : keeps P (tell fg text args).
Proof. by apply keeps_on_os. Qed.
Lemma keeps_tells P l : keeps P (tells l).
Proof.
  intros m Hm. apply ends_on_os. unfold tells. revert m Hm. induction l as [|[fg text] l IH]; intros m Hm; [done|].
  cbn [says]. apply ends_bind, ends_on. intros a c _. apply (IH (set_os (set_scr c m.(os)) m)). done.
Qed.
Lemma keeps_failed {A} P : keeps P (boot_failed (A := A)).
Proof. apply keeps_bind; [apply keeps_tell|]. intros _. apply keeps_stop. Qed.

Definition any (k : Sched.kernel) : Prop := True.
Lemma keeps_memory {A} (f : Mem.mm -> outcome (A * Mem.mm)) : keeps any (on_os (on_memory f)).
Proof. intros m _. apply ends_on_os. unfold ends, on_memory, on_kernel, Sched.lift. by destruct (f _) as [[a mm]| |]. Qed.

Lemma keeps_fw_ P f : keeps P (fw_ f).
Proof. by apply keeps_modify. Qed.
Lemma keeps_on_fw {A} P (f : F -> A * F) : keeps P (on_fw f).
Proof. by apply keeps_on. Qed.
Lemma keeps_kernel_do (P : Sched.kernel -> Prop) f : (forall k, P k -> P (f k)) -> keeps P (kernel_do f).
Proof. intros Hf. apply keeps_modify. intros m Hm. by apply Hf. Qed.

(** The commands are told apart by their form, so that no message is unfolded. *)
Ltac kept := repeat lazymatch goal with
  | |- keeps _ (tell _ _ _) => apply keeps_tell
  | |- keeps _ (tells _) => apply keeps_tells
  | |- keeps _ boot_failed => apply keeps_failed
  | |- keeps _ hang => apply keeps_stop
  | |- keeps _ crash => apply keeps_crash
  | |- keeps _ (mret _) => apply keeps_ret
  | |- keeps _ (gets _) => apply keeps_gets
  | |- keeps _ (kernel_is _) => apply keeps_gets
  | |- keeps _ (fw_ _) => apply keeps_fw_
  | |- keeps _ (on_fw _) => apply keeps_on_fw
  | |- keeps _ (on_tables _) => apply keeps_on; by intros
  | |- keeps _ (on_os (on_memory _)) => apply keeps_memory
  | |- keeps _ (on_os (on_screen _)) => apply keeps_on_os; by intros
  | |- keeps _ (on_os (on_ports _)) => apply keeps_on_os; by intros
  | |- keeps _ (on_os (on_files _)) => apply keeps_on_os; by intros
  | |- keeps _ (on_os (on_keys _)) => apply keeps_on_os; by intros
  | |- keeps _ (on_os (on_irqs _)) => apply keeps_on_os; by intros
  | |- keeps _ (on _ _ _) => apply keeps_on; by intros [] ?
  | |- keeps _ (kernel_do _) => apply keeps_kernel_do; by intros
  | |- keeps _ (when _ _) => apply keeps_when
  | |- keeps _ (for_each _ _) => apply keeps_each; intros ?
  | |- keeps _ (_ ≫= _) => apply keeps_bind; [|intros ?]
  | |- keeps _ (if ?b then _ else _) => destruct b
  | |- keeps _ (match ?x with _ => _ end) => destruct x
  | |- keeps _ (let '_ := _ in _) => idtac
  end.

Lemma start_memory_keeps : keeps any start_memory.
Proof. unfold start_memory. kept. Qed.
Lemma leave_firmware_keeps size map key : keeps any (leave_firmware size map key).
Proof. unfold leave_firmware. kept. Qed.

Lemma ends_step {A B} P (c : Cmd A) (f : A -> Cmd B) X Q m : keeps P c -> P (kernel_of m) ->
  (forall a m', P (kernel_of m') -> ends (f a) X Q m') -> ends (c ≫= f) X Q m.
Proof.
  intros Hc Hm Hf. apply ends_bind. specialize (Hc m Hm). unfold ends in *. destruct (c m) as [m' []]; try done. by apply Hf.
Qed.

Lemma ends_kernel_do f X (Q : unit -> machine -> Prop) m : Q () (set_os (set_krn (f m.(os).(krn)) m.(os)) m) -> ends (kernel_do f) X Q m.
Proof. done. Qed.

Lemma start_cpu_keeps : keeps any start_cpu.
Proof. unfold start_cpu. kept. Qed.
Lemma start_jobs_off m : ends start_jobs (fun _ => False) (fun _ m' => jobs_off (kernel_of m')) m.
Proof.
  unfold start_jobs. apply (ends_step any); [apply keeps_tell|done|intros _ m1 _].
  apply (ends_step any); [by apply keeps_kernel_do|done|intros _ m2 _].
  apply ends_bind, ends_kernel_do.
  match goal with |- ends ?c _ _ ?m => assert (keeps jobs_off c) as Hk by kept; by apply (Hk m) end.
Qed.
Lemma test_timer_keeps : keeps jobs_off test_timer.
Proof. unfold test_timer. kept. Qed.

(** The delay loop of start_files: the interrupts that arrive meanwhile do not touch the job flag. *)
Hypothesis busy_jobs : forall n (s : sys W D H), Sched.jobs_enabled (busy n s).(krn) = Sched.jobs_enabled s.(krn).
Lemma keeps_busy n : keeps jobs_off (on_os (modify (busy n))).
Proof. intros m Hm. apply ends_on_os. unfold ends, jobs_off, kernel_of in *. cbn. by rewrite busy_jobs. Qed.
Lemma start_files_keeps : keeps jobs_off start_files.
Proof. unfold start_files. kept. apply keeps_busy. Qed.

Lemma ends_on_kernel {A} (f : Sched.M A) X (Q : A -> machine -> Prop) m :
  returns f (fun a k => Q a (set_os (set_krn k m.(os)) m)) (kernel_of m) -> ends (on_os (on_kernel f)) X Q m.
Proof.
  unfold returns, ends, on_os, on_kernel, kernel_of. by destruct (f m.(os).(krn)) as [k []].
Qed.

Definition ready (k : Sched.kernel) : Prop := quiet k /\ Sched.ready_queue_head k <> None.
Lemma ends_failed {A} fg text X (Q : A -> machine -> Prop) m : ends (tell fg text [] ;; boot_failed) X Q m.
Proof.
  apply (ends_step any); [kept|done|intros _ m1 _]. apply (ends_step any); [kept|done|intros _ m2 _]. apply ends_hang.
Qed.

Lemma start_threads_ready m : jobs_off (kernel_of m) ->
  ends start_threads (fun _ => False) (fun _ m' => ready (kernel_of m')) m.
Proof.
  intros Hm. unfold start_threads. apply (ends_step jobs_off); [kept|done|intros _ m1 E1].
  apply (ends_step jobs_off); [kept|done|intros _ m2 E2]. apply (ends_step jobs_off); [kept|done|intros _ m3 E3].
  apply ends_bind, ends_kernel_do. set (m4 := set_os _ _). assert (quiet (kernel_of m4)) as E4 by done. clearbody m4.
  apply (ends_step quiet); [kept|done|intros _ m5 E5]. apply (ends_step quiet); [by apply keeps_modify|done|intros _ m6 E6].
  apply (ends_step quiet); [kept|done|intros _ m7 E7]. apply ends_bind, ends_on_kernel, returns_kernel_threads; [done|].
  intros k8 E8. set (m8 := set_os _ _). assert (quiet (kernel_of m8)) as Em8 by done. clearbody m8.
  apply (ends_step quiet); [kept|done|intros _ m9 E9]. apply (ends_step quiet); [kept|done|intros init_proc m10 E10].
  destruct init_proc as [p|]; [|apply ends_failed]. apply ends_bind, ends_on_kernel, returns_thread_create; [done|..].
  - intros t k Hk Ht Hh. rewrite (proj2 (Z.ltb_ge t 0)) by lia. done.
  - intros t k Hk Ht. rewrite (proj2 (Z.ltb_lt t 0)) by lia. apply ends_failed.
Qed.

(** The scheduler starts the first ready thread and never comes back: the job flag is never set. *)
Definition left_off (m : machine) : Prop := jobs_off (kernel_of m) /\ Sched.current_thread (kernel_of m) <> None.
Lemma start_scheduler_leaves tid m : ready (kernel_of m) -> ends (start_scheduler tid) left_off (fun _ _ => False) m.
Proof.
  intros Hm. unfold start_scheduler. apply (ends_step ready); [kept|done|intros _ m1 E1]. destruct E1 as [Hq Hh].
  apply ends_bind, ends_on_os. unfold ends, on_kernel, kernel_of in *. destruct (Sched.scheduler_enable fuel m1.(os).(krn)) as [k r] eqn:Ee.
  destruct (enable_leaves _ _ _ Hq Hh Ee) as [->|(-> & Hj & Hc)]; [done|]. cbn [resume]. split; [done|].
  unfold kernel_of. cbn. by rewrite Hc.
Qed.

Lemma ends_then {A B} (c : Cmd A) (f : A -> Cmd B) (P : A -> machine -> Prop) X Q m : ends c (fun _ => False) P m ->
  (forall a m', P a m' -> ends (f a) X Q m') -> ends (c ≫= f) X Q m.
Proof. intros Hc Hf. apply ends_bind. unfold ends in *. destruct (c m) as [m' []]; try done. by apply Hf. Qed.

Lemma efi_main_ends m : ends efi_main left_off (fun _ _ => False) m.
Proof.
  unfold efi_main. apply (ends_step any); [apply start_memory_keeps|done|intros [[size map] key] m1 _].
  apply (ends_step any); [apply leave_firmware_keeps|done|intros _ m2 _]. apply (ends_step any); [apply start_cpu_keeps|done|intros _ m3 _].
  eapply ends_then; [apply start_jobs_off|intros u4 m4 E4]. apply (ends_step jobs_off); [apply test_timer_keeps|exact E4|intros _ m5 E5].
  apply (ends_step jobs_off); [apply start_files_keeps|exact E5|intros _ m6 E6].
  eapply ends_then; [apply (start_threads_ready m6 E6)|intros tid m7 E7]. apply start_scheduler_leaves. exact E7.
Qed.

(** The same spelt out. *)
Definition never_back (c : Cmd unit) (m : machine) : Prop :=
  let '(m', r) := c m in
  match r with
  | Finished _ | Away _ | Waiting _ => False
  | Exited => Sched.jobs_enabled m'.(os).(krn) = 0 /\ Sched.current_thread m'.(os).(krn) <> None /\
              Jobs.update_jobs m'.(os).(krn) = (m'.(os).(krn), Sched.Ret ())
  | Stopped | Crashed | Cut => True
  end.
Lemma ends_never_back c m : ends c left_off (fun _ _ => False) m -> never_back c m.
Proof.
  unfold ends, never_back. destruct (c m) as [m' []]; try done. intros [Hj Hc]. unfold jobs_off, kernel_of in *.
  split; [done|]. split; [done|]. unfold Jobs.update_jobs. by rewrite Hj.
Qed.

(** C17: how the kernel's start ends. Whatever the firmware and the devices do,
    efi_main never returns. If the processor leaves it for a thread, that
    happens inside scheduler_enable, before the lines that switch the job
    system on: in the state in which the first thread begins the job system is
    inactive, so update_jobs, which wakes the threads whose time has come,
    does nothing. *)
Theorem boot_leaves_jobs_off m : never_back efi_main m.
Proof. apply ends_never_back, efi_main_ends. Qed.

(** From a state with a thread ready the start does leave for it. *)
Lemma start_scheduler_exits tid m n t : ready (kernel_of m) -> Sched.ready_queue_head (kernel_of m) = Some n ->
  Sched.thread_table (kernel_of m) !! n = Some t -> exists m', start_scheduler tid m = (m', Exited) /\ Sched.current_thread (kernel_of m') = Some n.
Proof.
  intros [Hq Hh] Hn Ht. unfold start_scheduler, mbind, Sh_bind. unfold tell at 1, on_os at 1, say, on_screen, on.
  rewrite PRINT_text by (vm_compute; first [reflexivity | lia]). cbn [obind lift_run after].
  unfold on_os at 1, on_kernel. cbn [os krn set_os set_scr]. unfold kernel_of in *.
  destruct (Sched.scheduler_enable fuel m.(os).(krn)) as [k r] eqn:Ee.
  assert (r = Sched.Gone /\ Sched.current_thread k = Some n) as [-> Hc].
  { destruct (enable_leaves _ _ _ Hq Hh Ee) as [->|(-> & _ & Hc)]; [|by rewrite Hc]. exfalso. revert Ee. destruct Hq as [_ _ Hc Hl].
    apply (enable_no_fault _ n t); done. }
  eexists. split; [reflexivity|]. done.
Qed.
End Start.
End Boot.
