(* ===== verification/ShellProps.v ===== *)
(** * Properties of the shell

    A calculus for commands that finish ([gives]); the file commands against
    the interface of the VFS; which branches of the interpreter can be
    reached; the stack of a program; the ELF file of an assembled program; a
    concrete machine on which these theorems, and the one on the start of the
    kernel, are applied. *)
From Stdlib Require Import ZArith Lia String.
From stdpp Require Import base numbers list gmap.
From S2P Require Import Prelude CStr BlockDev VfsTypes TinyFS TinyFSDisk TinyFSBlocks VFS VfsTinyFS Ata Memory MemoryProps Asm AsmProps Scheduler SchedClaims Jobs NetPkt Net NetCard NetDemo E1000 Elf ElfProps ElfLoad Console ConsoleFmt History Serial Keyboard StrBuf Desk EditorFiles Interrupts Anthropic AC97 PianoSynth Shell ShellFiles ShellJobs ShellDevs ShellMain Tables Boot.

Module ShellProps.
Import Asm Ata Console ConsoleFmt Messages Files TinyfsFiles Shell ShellFiles.
Import Interrupts(GREEN, YELLOW, MAGENTA, BROWN).
Local Open Scope Z_scope.
Local Open Scope outcome_scope.

(** ** Commands that finish *)
Definition gives {S A} (m : Sh S A) (s : S) (a : A) (s' : S) : Prop := m s = (s', Finished a).

Lemma gives_bind {S A B} (m : Sh S A) (f : A -> Sh S B) s a s1 b s2 :
  gives m s a s1 -> gives (f a) s1 b s2 -> gives (m ≫= f) s b s2.
Proof. unfold gives. intros E1 E2. unfold mbind, Sh_bind. by rewrite E1. Qed.

Lemma gives_gets {S A} (f : S -> A) s : gives (gets f) s (f s) s.
Proof. done. Qed.
Lemma gives_ret {S A} (a : A) (s : S) : gives (mret a) s a s.
Proof. done. Qed.
Lemma gives_of_outcome {S A} (o : outcome A) (a : A) (s : S) : o = Done a -> gives (of_outcome o) s a s.
Proof. by intros ->. Qed.
Lemma gives_on {S P A} (view : S -> P) back f (a : A) p s : f (view s) = Done (a, p) -> gives (on view back f) s a (back p s).
Proof. intros E. unfold gives, on. by rewrite E. Qed.

#[export] Hint Resolve gives_gets gives_ret gives_of_outcome gives_on : shell.

Section Files.
Context {W D H : Type} `{!PortIO D, !FileApi W, !DirApi W, !TreeApi W, !FileLaws W}.
Notation Cmd := (Sh (sys W D H)).
Implicit Types (s : sys W D H).

(** A message without directives. *)
Lemma gives_say fg text s : forallb (fun x => negb (x =? 37)) (txt text) = true -> (length (txt text) <= 127)%nat ->
  gives (say fg text []) s () (set_scr (printed fg BLACK (txt text) s.(scr)) s).
Proof. intros Ht Hl. apply gives_on. by rewrite PRINT_text. Qed.

(** A message with directives prints its pieces. *)
Lemma gives_say_pieces fg text args s : let ps := pieces_of (txt text) args in
  mjoin (piece_format <$> ps) = txt text -> mjoin (piece_args <$> ps) = args -> forallb piece_okb ps = true -> (length (txt text) <= 127)%nat ->
  exists ss, Forall2 piece_shows ps ss /\ gives (say fg text args) s () (set_scr (printed fg BLACK (mjoin ss) s.(scr)) s).
Proof.
  intros ps E1 E2 Hok Hl. destruct (PRINT_shows fg BLACK (txt text) args s.(scr)) as (ss & Hss & E); [done..|].
  exists ss. split; [done|]. apply gives_on. by rewrite E.
Qed.

(** The messages of the file commands: what they show. *)
Lemma say_cat x s : gives (say WHITE "%s\n\n" [Str x]) s () (set_scr (printed WHITE BLACK (take 255 x ++ [10; 10]) s.(scr)) s).
Proof.
  destruct (gives_say_pieces WHITE "%s\n\n" [Str x] s) as (ss & Hss & E); [vm_compute; reflexivity..|apply (Nat.leb_le _ 127); vm_compute; reflexivity|].
  replace (pieces_of (txt "%s\n\n") [Str x]) with [ConsoleFmt.String (Some x); Text 10; Text 10] in Hss by (vm_compute; reflexivity).
  do 3 (apply Forall2_cons_inv_l in Hss as (? & ? & ? & Hss & ->)). apply Forall2_nil_inv_l in Hss as ->.
  cbn [piece_shows] in *. subst. done.
Qed.
Lemma say_wrote n x s : exists out, gives (say GREEN "Wrote %d bytes to %s\n" [Word n; Str x]) s () (set_scr out s).
Proof.
  destruct (gives_say_pieces GREEN "Wrote %d bytes to %s\n" [Word n; Str x] s) as (ss & Hss & E); [vm_compute; reflexivity..|apply (Nat.leb_le _ 127); vm_compute; reflexivity|]. eauto.
Qed.

(** ** cat and write *)
Definition shown (c : list Z) : list Z := take 255 (cstr (take 512 c)).

Lemma fullpath_absolute cwd name : (length name < 256)%nat -> fullpath cwd (47 :: name) = if (length name <? 255)%nat then Done (47 :: name) else OutOfBounds.
Proof. intros Hl. unfold fullpath, strcpy_local. cbn [hd Z.eqb Pos.eqb length]. destruct (Nat.ltb_spec (S (length name)) 256), (Nat.ltb_spec (length name) 255); done || lia. Qed.

Lemma resolve_absolute name s : (length name < 255)%nat -> gives (resolve (47 :: name)) s (47 :: name) s.
Proof.
  intros Hl. eapply gives_bind; [apply gives_gets|]. apply gives_of_outcome. rewrite fullpath_absolute by lia.
  by destruct (Nat.ltb_spec (length name) 255); [|lia].
Qed.

Lemma cat_gives k cap path c s : (length path < 255)%nat -> StrBuf.text path -> stored (S k) cap s.(fls) (47 :: path) c -> c <> [] ->
  exists s', gives (cmd_cat (47 :: path)) s () s' /\ stored k cap s'.(fls) (47 :: path) c /\
    s'.(scr) = printed WHITE BLACK (shown c ++ [10; 10]) s.(scr).
Proof.
  intros Hl Ht Hst Hc. assert (cstr (47 :: path) = 47 :: path) as Ep by (apply cstr_id; by constructor).
  rewrite <- Ep in Hst. destruct (open_stored _ _ _ _ FILE_READ _ Hst) as (fd & w1 & E1 & Hfd & Ho).
  assert (0 <= 512 <= Z.of_nat (length (replicate 513 0))) as Hn by (rewrite length_replicate; lia).
  destruct (read_opened _ _ _ _ _ _ (replicate 513 0) 512 Ho Hn ltac:(lia)) as (w2 & E2 & Ho2).
  set (m := Z.min 512 (Z.of_nat (length c))) in *.
  assert (0 < m) as Hm by (destruct c; [done|cbn in m; lia]).
  destruct (close_opened _ _ _ _ _ _ _ Ho2) as (w3 & E3 & Hst3). rewrite Ep in Hst3.
  eexists. split; [|split; [|]].
  - eapply gives_bind; [by apply resolve_absolute|].
    eapply gives_bind; [apply (gives_on fls set_fls (f_open (47 :: path) FILE_READ)); exact E1|].
    rewrite (proj2 (Z.leb_le 0 fd) Hfd).
    eapply gives_bind; [apply (gives_on fls set_fls (f_read fd (replicate 513 0) 512)); exact E2|].
    cbn [fst snd]. rewrite (proj2 (Z.ltb_lt 0 m) Hm).
    eapply gives_bind; [eapply gives_bind; [apply gives_of_outcome; apply aset_done|apply say_cat]|].
    { rewrite length_app, length_take, length_drop, length_replicate. lia. }
    apply (gives_on fls set_fls). cbn [fls set_scr set_fls]. rewrite E3. done.
  - done.
  - cbn [scr set_scr set_fls]. f_equal. f_equal. unfold shown. f_equal.
    assert (Et : take 512 c = take (Z.to_nat m) c).
    { unfold m. destruct (Z.min_spec 512 (Z.of_nat (length c))) as [[_ ->]|[? ->]]; [done|]. rewrite !take_ge by lia. done. }
    rewrite Et. assert (length (take (Z.to_nat m) c) = Z.to_nat m) as El by (rewrite length_take; lia).
    rewrite insert_app_r_alt by lia. rewrite El, Nat.sub_diag.
    destruct (drop (Z.to_nat m) (replicate 513 0)) as [|z rest] eqn:Ed.
    { apply (f_equal length) in Ed. rewrite length_drop, length_replicate in Ed. cbn in Ed. lia. }
    cbn [list_insert insert]. clear. induction (take (Z.to_nat m) c) as [|x l IH]; [done|].
    cbn [cstr app]. by rewrite IH.
Qed.

Lemma word_of_word n w rest : Forall (fun c => c <> 0 /\ c <> 32) w -> (length w <= n)%nat ->
  word_of n (w ++ 32 :: rest) = (w, 32 :: rest).
Proof.
  unfold word_of. intros Hw. revert n. induction Hw as [|c w [H0 H32] Hw IH]; intros n Hl.
  - destruct n; done.
  - destruct n as [|n]; [cbn in Hl; lia|]. cbn [app collect]. rewrite (proj2 (Z.eqb_neq c 0)), (proj2 (Z.eqb_neq c 32)) by done.
    cbn [orb]. rewrite IH by (cbn in Hl; lia). done.
Qed.

Lemma skip_spaces_text c l : c <> 32 -> skip_spaces (32 :: c :: l) = c :: l.
Proof. intros Hc. unfold skip_spaces. cbn [skip_while Z.eqb Pos.eqb]. by rewrite (proj2 (Z.eqb_neq c 32)). Qed.

Lemma write_gives k cap path x content c s :
  (length path < 255)%nat -> Forall (fun c => c <> 0 /\ c <> 32) path -> x <> 0 -> x <> 32 -> (length content <= 510)%nat ->
  stored (S k) cap s.(fls) (47 :: path) c -> Z.of_nat (length (x :: content)) <= cap ->
  exists s', gives (cmd_write ((47 :: path) ++ 32 :: x :: content)) s () s' /\
    stored k cap s'.(fls) (47 :: path) (overwrite c 0 (x :: content)).
Proof.
  intros Hl Hp Hx0 Hx Hc Hst Hcap.
  assert (cstr (47 :: path) = 47 :: path) as Ep.
  { apply cstr_id. constructor; [done|]. eapply Forall_impl; [exact Hp|]. by intros ? []. }
  rewrite <- Ep in Hst. destruct (open_stored _ _ _ _ FILE_WRITE _ Hst) as (fd & w1 & E1 & Hfd & Ho). rewrite Ep in *.
  set (n := Z.of_nat (length (x :: content))) in *.
  destruct (write_opened _ _ _ _ _ 0 c (x :: content) n Ho) as (w2 & E2 & Ho2); [lia|unfold n; lia|lia|].
  rewrite (take_ge (x :: content)) in Ho2 by (unfold n; lia).
  destruct (close_opened _ _ _ _ _ _ _ Ho2) as (w3 & E3 & Hst3).
  destruct (say_wrote n (47 :: path) (set_fls w3 (set_fls w2 (set_fls w1 s)))) as (out & Eo).
  eexists. split.
  - unfold cmd_write, write_args. rewrite word_of_word; [|by constructor|cbn; lia].
    rewrite skip_spaces_text by done. rewrite take_ge by (cbn [length]; lia). cbn [hd Z.eqb Pos.eqb orb].
    rewrite (proj2 (Z.eqb_neq x 0)) by done. cbn [orb].
    eapply gives_bind; [by apply resolve_absolute|].
    eapply gives_bind; [apply (gives_on fls set_fls (f_open (47 :: path) FILE_WRITE)); exact E1|].
    rewrite (proj2 (Z.leb_le 0 fd) Hfd).
    eapply gives_bind; [apply (gives_on fls set_fls (f_write fd (x :: content) n)); exact E2|].
    eapply gives_bind; [apply (gives_on fls set_fls (fun w => let* w := f_close fd w in Done ((), w)) () w3); cbn [fls set_fls]; by rewrite E3|].
    rewrite (proj2 (Z.ltb_lt 0 n)) by (unfold n; cbn [length]; lia). exact Eo.
  - done.
Qed.
End Files.

(** ** The commands from the input line *)
Section Line.
Import ShellMain.
Context {W D H : Type} `{!PortIO D, !Pci.PciPorts D, !FileApi W, !DirApi W, !TreeApi W, !Net.Nic H, !Ac97.Waits (Interrupts.irqs D), !Sched.Image, !FileLaws W}.
Context (fuel spin depth : nat) (busy : Z -> sys W D H -> sys W D H) (bg gui net_addr ac97 rx tx ResetSystem : Z)
  (syscalls : Sh (sys W D H) unit) (asm_mem : asm_context) (editor_mem : option Anthropic.editor_state_t) (editor_kmalloc : bool)
  (arrivals : list (list Z)).
Notation process_command := (ShellMain.process_command fuel spin depth busy bg gui net_addr ac97 rx tx ResetSystem syscalls asm_mem editor_mem editor_kmalloc arrivals).
Notation run_command := (ShellMain.run_command fuel spin depth busy gui net_addr ac97 rx tx ResetSystem syscalls asm_mem editor_mem editor_kmalloc arrivals).
Notation chain := (ShellMain.chain fuel spin depth busy gui net_addr ac97 rx tx ResetSystem syscalls asm_mem editor_mem editor_kmalloc arrivals).

Lemma gives_command calls cmd b s s' : hd 0 cmd <> 0 -> is_background cmd = false ->
  first_branch cmd (chain (process_command calls)) = Some b ->
  gives (b.(action) cmd) (set_keys (Keyboard.set_history (History.history_add cmd s.(keys).(Keyboard.history)) s.(keys)) s) () s' ->
  gives (process_command (S calls) cmd) s () s'.
Proof.
  intros Hne Hb Hf Hg. cbn [ShellMain.process_command]. rewrite (proj2 (Z.eqb_neq _ _) Hne).
  eapply gives_bind; [done|]. rewrite Hb. unfold ShellMain.run_command. by rewrite Hf.
Qed.

Lemma last_not_ampersand (l : list Z) x : last l = Some x -> x <> 38 -> is_background l = false.
Proof. intros E Hx. unfold is_background. rewrite E. by apply Z.eqb_neq. Qed.

Lemma write_cat_gives k cap calls path x content c s :
  (length path < 255)%nat -> Forall (fun c => c <> 0 /\ c <> 32) path -> last (47 :: path) <> Some 38 ->
  x <> 0 -> x <> 32 -> (length content <= 510)%nat -> last (x :: content) <> Some 38 ->
  stored (S (S k)) cap s.(fls) (47 :: path) c -> Z.of_nat (length (x :: content)) <= cap ->
  exists s1 s2, gives (process_command (S calls) (lit "write " ++ (47 :: path) ++ 32 :: x :: content)) s () s1 /\
    gives (process_command (S calls) (lit "cat " ++ 47 :: path)) s1 () s2 /\
    stored k cap s2.(fls) (47 :: path) (overwrite c 0 (x :: content)) /\
    s2.(scr) = printed WHITE BLACK (take 255 (cstr (take 512 (overwrite c 0 (x :: content)))) ++ [10; 10]) s1.(scr).
Proof.
  intros Hl Hp Hlast Hx0 Hx Hc Hlc Hst Hcap.
  assert (StrBuf.text path) as Ht by (eapply Forall_impl; [exact Hp|]; by intros ? []).
  set (cmd1 := lit "write " ++ (47 :: path) ++ 32 :: x :: content).
  destruct (write_gives (S k) cap path x content c (set_keys (Keyboard.set_history (History.history_add cmd1 s.(keys).(Keyboard.history)) s.(keys)) s))
    as (s1 & E1 & Hst1); [done..|].
  set (cmd2 := lit "cat " ++ 47 :: path).
  destruct (cat_gives k cap path (overwrite c 0 (x :: content))
    (set_keys (Keyboard.set_history (History.history_add cmd2 s1.(keys).(Keyboard.history)) s1.(keys)) s1)) as (s2 & E2 & Hst2 & Hscr);
    [done..|unfold overwrite; cbn [take app]; done|].
  exists s1, s2. split; [|split; [|by split]].
  - eapply gives_command; [done| |reflexivity|exact E1].
    destruct (last (x :: content)) as [y|] eqn:Ey; [|by apply last_None in Ey].
    apply (last_not_ampersand _ y); [|congruence]. unfold cmd1.
    replace (lit "write " ++ (47 :: path) ++ 32 :: x :: content) with ((lit "write " ++ (47 :: path) ++ [32]) ++ x :: content) by (rewrite <- !app_assoc; done).
    by rewrite last_app, Ey.
  - eapply gives_command; [done| |reflexivity|exact E2].
    destruct (last (47 :: path)) as [y|] eqn:Ey; [|by apply last_None in Ey].
    apply (last_not_ampersand _ y); [|congruence]. unfold cmd2. by rewrite last_app, Ey.
Qed.

End Line.

(** ** The commands on the VFS with a mounted TinyFS *)
Section OnTinyfs.
Context {HP BD D H : Type} `{!Heap HP} `{BlockDevLaws BD} `{!PortIO D, !Pci.PciPorts D, !Net.Nic H, !Ac97.Waits (Interrupts.irqs D), !Sched.Image}.
Notation W := (Vfs.vfs_state * world Tinyfs.tinyfs_data HP BD)%type.
Context `{!DirApi W, !TreeApi W} (garbage_node : vfs_node) (stack : list Z).
Let tinyfs_api : FileApi W := vfs_files (VfsTinyfs.tinyfs_vfs_ops garbage_node stack).
#[local] Existing Instance tinyfs_api.
Context (fuel spin depth : nat) (busy : Z -> sys W D H -> sys W D H) (bg gui net_addr ac97 rx tx ResetSystem : Z)
  (syscalls : Sh (sys W D H) unit) (asm_mem : asm_context) (editor_mem : option Anthropic.editor_state_t) (editor_kmalloc : bool)
  (arrivals : list (list Z)).
Notation process_command := (ShellMain.process_command fuel spin depth busy bg gui net_addr ac97 rx tx ResetSystem syscalls asm_mem editor_mem editor_kmalloc arrivals).

(** C15: writing and showing a file, on the VFS with a mounted TinyFS. For a file of the root directory (its name
    without spaces), with a free descriptor and memory for two more nodes, the line write /name text (a text of at most
    511 characters that fits in the file's room, starts with no space and, like the path, does not end in an ampersand) and then the line cat /name both finish; the
    file's contents are the old ones with the text over their beginning, and the second command prints them on the
    screen: those before a zero byte, of the first 512, and of these the first 255 characters, since %s prints no
    more. *)
Theorem shell_write_cat k cap calls path x content c s :
  1024 <= bd_sectors (D := BD) < 2 ^ 32 -> length (n_name garbage_node) = MAX_FILENAME -> length stack = 512%nat ->
  (length path < 255)%nat -> Forall (fun c => c <> 0 /\ c <> 32) path -> last (47 :: path) <> Some 38 ->
  x <> 0 -> x <> 32 -> (length content <= 510)%nat -> last (x :: content) <> Some 38 ->
  t_stored (S (S k)) cap s.(fls) (47 :: path) c -> Z.of_nat (length (x :: content)) <= cap ->
  exists s1 s2, gives (process_command (S calls) (lit "write " ++ (47 :: path) ++ 32 :: x :: content)) s () s1 /\
    gives (process_command (S calls) (lit "cat " ++ 47 :: path)) s1 () s2 /\
    t_stored k cap s2.(fls) (47 :: path) (overwrite c 0 (x :: content)) /\
    s2.(scr) = printed WHITE BLACK (take 255 (cstr (take 512 (overwrite c 0 (x :: content)))) ++ [10; 10]) s1.(scr).
Proof.
  intros Hsec Hg Hst. pose (L := tinyfs_laws Hsec garbage_node stack Hg Hst).
  exact (write_cat_gives (FileLaws0 := L) fuel spin depth busy bg gui net_addr ac97 rx tx ResetSystem syscalls asm_mem editor_mem editor_kmalloc
    arrivals k cap calls path x content c s).
Qed.
End OnTinyfs.

Section Depth.
Import ShellMain.
Context {W D H : Type} `{!PortIO D, !Pci.PciPorts D, !FileApi W, !DirApi W, !TreeApi W, !Net.Nic H, !Ac97.Waits (Interrupts.irqs D), !Sched.Image}.
Context (fuel spin depth : nat) (busy : Z -> sys W D H -> sys W D H) (bg gui net_addr ac97 rx tx ResetSystem : Z)
  (syscalls : Sh (sys W D H) unit) (asm_mem : asm_context) (editor_mem : option Anthropic.editor_state_t) (editor_kmalloc : bool)
  (arrivals : list (list Z)).
Notation process_command := (ShellMain.process_command fuel spin depth busy bg gui net_addr ac97 rx tx ResetSystem syscalls asm_mem editor_mem editor_kmalloc arrivals).
Notation run_command := (ShellMain.run_command fuel spin depth busy gui net_addr ac97 rx tx ResetSystem syscalls asm_mem editor_mem editor_kmalloc arrivals).
Notation chain := (ShellMain.chain fuel spin depth busy gui net_addr ac97 rx tx ResetSystem syscalls asm_mem editor_mem editor_kmalloc arrivals).

(** *** How deep the interpreter calls itself *)
Lemma background_command calls cmd : is_background cmd = true -> process_command (S calls) cmd = process_command 1 cmd.
Proof. intros Hb. cbn [ShellMain.process_command]. by rewrite Hb. Qed.

(** The chain uses the interpreter for the two lines of testbg alone. *)
Lemma chain_calls f g : (forall cmd, is_background cmd = true -> f cmd = g cmd) -> chain f = chain g.
Proof. intros Hfg. unfold ShellMain.chain, basic_branches, cmd_testbg. by rewrite !Hfg by reflexivity. Qed.

(** The two calls that [run_input] allows are enough: with any larger number
    a line does the same. *)
Theorem process_command_depth calls cmd : process_command (S (S calls)) cmd = process_command 2 cmd.
Proof.
  assert (run_command (process_command (S calls)) cmd = run_command (process_command 1) cmd) as E.
  { unfold ShellMain.run_command. by rewrite (chain_calls _ (process_command 1) (background_command calls)). }
  remember (S calls) as k eqn:Ek. clear Ek. remember 1%nat as one eqn:Eo. clear Eo.
  cbn [ShellMain.process_command]. by rewrite E.
Qed.

(** ** Which branches can run *)

(** The position of the branch that [first_branch] finds. *)
Fixpoint selected {A} (cmd : list Z) (l : list (branch A)) : option nat :=
  match l with [] => None | b :: l => if takes cmd b then Some 0%nat else S <$> selected cmd l end.

Lemma first_branch_selected {A} cmd (l : list (branch A)) : first_branch cmd l = selected cmd l ≫= fun i => l !! i.
Proof.
  induction l as [|b l IH]; [done|]. cbn [first_branch selected]. destruct (takes cmd b); [done|]. rewrite IH.
  by destruct (selected cmd l).
Qed.

(** The same on the literals alone. *)
Definition literal {A} (b : branch A) : string * nat := (b.(name), b.(len)).
Fixpoint chosen (cmd : list Z) (l : list (string * nat)) : option nat :=
  match l with [] => None | p :: l => if begins cmd p.1 p.2 then Some 0%nat else S <$> chosen cmd l end.
Lemma selected_chosen {A} cmd (l : list (branch A)) : selected cmd l = chosen cmd (literal <$> l).
Proof. induction l as [|b l IH]; [done|]. cbn. unfold takes. by rewrite IH. Qed.

Lemma chosen_spec cmd l i : chosen cmd l = Some i ->
  (exists p, l !! i = Some p /\ begins cmd p.1 p.2 = true) /\
  forall j p, (j < i)%nat -> l !! j = Some p -> begins cmd p.1 p.2 = false.
Proof.
  revert i. induction l as [|q l IH]; intros i; [done|]. cbn [chosen]. destruct (begins cmd q.1 q.2) eqn:E.
  - intros [= <-]. split; [by exists q|]. lia.
  - intros Hsel. apply fmap_Some in Hsel as (k & Hk & ->). destruct (IH _ Hk) as [Hp Hj]. split; [done|].
    intros [|j] p Hlt; cbn; [by intros [= <-]|]. apply Hj. lia.
Qed.

(** A longer comparison that succeeds makes a shorter one with the same characters succeed. *)
Lemma strncmp_shorter m n s l l' : (m <= n)%nat -> (forall i, (i < m)%nat -> nth i l 0 = nth i l' 0) ->
  strncmp n s l = 0 -> strncmp m s l' = 0.
Proof.
  revert n s l l'. induction m as [|m IH]; intros n s l l' Hmn Hl; [done|]. destruct n as [|n]; [lia|]. cbn [strncmp].
  assert (hd 0 l = hd 0 l') as Eh by (pose proof (Hl 0%nat ltac:(lia)) as Hh; by destruct l, l'). rewrite Eh.
  destruct (Z.eqb_spec (hd 0 s) (hd 0 l')) as [E|E]; cbn [negb].
  - destruct (hd 0 s =? 0); [done|]. apply IH; [lia|]. intros i Hi. specialize (Hl (S i) ltac:(lia)). by destruct l, l'; destruct i.
  - done.
Qed.

Definition covers (p q : string * nat) : bool :=
  (p.2 <=? q.2)%nat && forallb (fun i => nth i (take 127 (lit q.1)) 0 =? nth i (take 127 (lit p.1)) 0) (seq 0 p.2).
Lemma covers_begins p q cmd : covers p q = true -> begins cmd q.1 q.2 = true -> begins cmd p.1 p.2 = true.
Proof.
  unfold covers, begins. intros [Hl Hc]%andb_true_iff Hq. apply Nat.leb_le in Hl. apply Z.eqb_eq in Hq. apply Z.eqb_eq.
  rewrite forallb_forall in Hc. eapply strncmp_shorter; [exact Hl| |exact Hq]. intros i Hi. apply Z.eqb_eq, Hc, in_seq. lia.
Qed.

(** A branch after one whose literal is a prefix of its own is never chosen. *)
Lemma covered_never cmd l i j p q : (j < i)%nat -> l !! j = Some p -> l !! i = Some q -> covers p q = true -> chosen cmd l <> Some i.
Proof.
  intros Hji Hp Hq Hc Hs. destruct (chosen_spec _ _ _ Hs) as [(q' & Hq' & Hb) Hn]. simplify_eq.
  specialize (Hn j p Hji Hp). rewrite (covers_begins _ _ _ Hc Hb) in Hn. done.
Qed.

(** The second ls, cat, pwd and help; pianoscale, pianochord, pianosong and pianotest. *)
Definition hidden : list nat := [17; 20; 26; 28; 56; 57; 58; 59]%nat.
(** For each of them an earlier branch that takes the same lines. *)
Definition hidden_by : list (nat * nat) := [(17, 13); (20, 19); (26, 14); (28, 1); (56, 55); (57, 55); (58, 55); (59, 55)]%nat.

Definition literals : list (string * nat) :=
  [("hello", 5); ("help", 4); ("clear", 5); ("shutdown", 8); ("reboot", 6); ("echo ", 5); ("memstats", 8); ("ps", 2); ("threads", 7);
   ("jobs", 4); ("fg ", 3); ("bg ", 3); ("sleep ", 6); ("ls", 2); ("pwd", 3); ("syscalltest", 11); ("testbg", 6); ("ls", 2); ("touch ", 6);
   ("cat ", 4); ("cat ", 4); ("mkdir ", 6); ("rm ", 3); ("write ", 6); ("statfs", 6); ("wipe", 4); ("pwd", 3); ("cd ", 3);
   ("help", 4); ("rps", 3); ("elfinfo ", 8); ("elfinfo", 8); ("elfload ", 8); ("elfload", 7); ("elfcheck ", 9); ("elfcheck", 8);
   ("elftest", 8); ("ASM ", 4); ("mknetcall", 9); ("gui", 3); ("asmfile ", 8); ("anthropic ", 10); ("anthropic", 9); ("audioinit",
   9); ("audioinfo", 9); ("audiotest", 9); ("beep ", 5); ("beep", 4); ("volume ", 7); ("volume", 6); ("playtone ", 9); ("playtone",
   8); ("audiomute ", 10); ("audiomute", 9); ("piano ", 6); ("piano", 5); ("pianoscale", 10); ("pianochord", 10); ("pianosong", 9);
   ("pianotest", 9); ("netinit", 7); ("ifconfig", 8); ("netconfig ", 10); ("parseip ", 8); ("dhcp", 4); ("ping ", 5); ("arp", 3);
   ("nettest", 7); ("netverify", 9); ("netstatus", 9); ("dnstest ", 8); ("webtest", 7); ("wget ", 5); ("curl ", 5); ("httptest", 8);
   ("history", 8); ("schedinfo", 9); ("schedstart", 10); ("jobupdate", 9); ("syscheck", 8)]%string%nat.
Lemma chain_literals pc : literal <$> chain pc = literals.
Proof. reflexivity. Qed.

Lemma hidden_never cmd i : In i hidden -> chosen cmd literals <> Some i.
Proof.
  intros Hi.
  assert (forallb (fun i => existsb (fun '(i', j) => Nat.eqb i i' && (Nat.ltb j i) &&
    match literals !! j, literals !! i with Some p, Some q => covers p q | _, _ => false end) hidden_by) hidden = true) as Hall by (vm_compute; reflexivity).
  rewrite forallb_forall in Hall. specialize (Hall i Hi). apply existsb_exists in Hall as ([i' j] & _ & Hc).
  apply andb_true_iff in Hc as [[E Hlt]%andb_true_iff Hc]. apply Nat.ltb_lt in Hlt.
  destruct (literals !! j) as [p|] eqn:Ep; [|done]. destruct (literals !! i) as [q|] eqn:Eq; [|done]. by eapply covered_never.
Qed.

Lemma chosen_bound cmd l i : chosen cmd l = Some i -> (i < length l)%nat.
Proof. intros E. destruct (chosen_spec _ _ _ E) as [(p & Hp & _) _]. by apply lookup_lt_Some in Hp. Qed.

(** C27: the interpreter's chain of 80 comparisons. Exactly the branches that
    are not listed as hidden run for some command line (their own literal):
    the listing of a directory given by name, the second cat, pwd and help,
    and pianoscale, pianochord, pianosong and pianotest never run, whatever is
    typed, since an earlier comparison takes every line they would take. *)
Theorem branches_reachable pc i :
  (exists cmd, hd 0 cmd <> 0 /\ is_background cmd = false /\ selected cmd (chain pc) = Some i) <-> (i < 80)%nat /\ ~ In i hidden.
Proof.
  split.
  - intros (cmd & _ & _ & Hs). rewrite selected_chosen, chain_literals in Hs. split; [by apply chosen_bound in Hs|].
    intros Hi. by apply (hidden_never cmd i).
  - intros [Hlt Hi].
    assert (forallb (fun i => existsb (Nat.eqb i) hidden ||
      match literals !! i with
      | Some (t, _) => negb (hd 0 (lit t) =? 0) && negb (is_background (lit t)) && bool_decide (chosen (lit t) literals = Some i)
      | None => false
      end) (seq 0 80) = true) as Hall by (vm_compute; reflexivity).
    rewrite forallb_forall in Hall. specialize (Hall i ltac:(apply in_seq; lia)). apply orb_true_iff in Hall as [Hh|Hc].
    { apply existsb_exists in Hh as (j & Hj & E). apply Nat.eqb_eq in E as ->. done. }
    destruct (literals !! i) as [[t n]|]; [|done]. apply andb_true_iff in Hc as [[Hne Hbg]%andb_true_iff Hsel].
    exists (lit t). split; [by destruct (Z.eqb_spec (hd 0 (lit t)) 0)|]. split; [by apply negb_true_iff|].
    rewrite selected_chosen, chain_literals. by apply bool_decide_eq_true in Hsel.
Qed.
End Depth.

(** ** The stack of a new program *)
Section Stack.
Import Mem MemProps Elf ShellElf.

Lemma bytes_at_get b a l : (forall i, (i < length l)%nat -> Mem.peek b (a + Z.of_nat i) = Arrays.get l i) ->
  bytes_at b a (Z.of_nat (length l)) = l.
Proof.
  intros E. unfold bytes_at. rewrite Nat2Z.id. apply Arrays.list_eq_get; [by rewrite length_map, length_seq|].
  intros i Hi. rewrite length_map, length_seq in Hi. rewrite Arrays.get_map_seq by done. auto.
Qed.
Lemma bytes_at_store b a l n : Z.of_nat (length l) = n -> bytes_at (store b a l) a n = l.
Proof.
  intros <-. apply bytes_at_get. intros i Hi. rewrite peek_store. rewrite decide_True by lia. f_equal. lia.
Qed.
Lemma bytes_at_store_ne b a l x n : 0 <= n -> x + n <= a \/ a + Z.of_nat (length l) <= x -> bytes_at (store b a l) x n = bytes_at b x n.
Proof.
  intros Hn Hd. unfold bytes_at. apply map_ext_in. intros i Hi%in_seq. rewrite peek_store. by rewrite decide_False by lia.
Qed.
Lemma bytes_at_app b a n k : 0 <= n -> 0 <= k -> bytes_at b a (n + k) = bytes_at b a n ++ bytes_at b (a + n) k.
Proof.
  intros Hn Hk. unfold bytes_at. rewrite Z2Nat.inj_add, seq_app, map_app by lia. f_equal. cbn [Nat.add].
  pose proof (fmap_add_seq (Z.to_nat n) 0 (Z.to_nat k)) as E. rewrite Nat.add_0_r in E. rewrite <- E.
  change (Nat.add (Z.to_nat n) <$> seq 0 (Z.to_nat k)) with (map (Nat.add (Z.to_nat n)) (seq 0 (Z.to_nat k))).
  rewrite map_map. apply map_ext_in. intros i _. f_equal. lia.
Qed.

Lemma length_words l : length (words l) = (8 * length l)%nat.
Proof. induction l as [|x l IH]; [done|]. unfold words in *. cbn [flat_map]. rewrite length_app, length_le_bytes, IH. cbn [length]. lia. Qed.
Lemma words_app l k : words (l ++ k) = words l ++ words k.
Proof. apply flat_map_app. Qed.

Lemma align16_spec v : 0 <= v < 2 ^ 64 -> align16 v = 16 * (v / 16).
Proof. intros Hv. apply (land_align 64 4 v); lia. Qed.

(** Rounding the frame down to 16 bytes moves it by a word when [n] is even. *)
Lemma aligned_frame q n : let frame := 16 * q - 256 - 8 * (n + 3) in 16 * (frame / 16) = if Z.even n then frame - 8 else frame.
Proof.
  intros frame. unfold frame. destruct (Z.even n) eqn:Ev.
  - apply Z.even_spec in Ev as [k Hk]. rewrite Hk.
    replace (16 * q - 256 - 8 * (2 * k + 3)) with (8 + (q - 16 - k - 2) * 16) by lia.
    rewrite Z.div_add by lia. change (8 / 16) with 0. lia.
  - rewrite <- Z.negb_odd in Ev. apply negb_false_iff, Z.odd_spec in Ev as [k Hk]. rewrite Hk.
    replace (16 * q - 256 - 8 * (2 * k + 1 + 3)) with ((q - 16 - k - 2) * 16) by lia.
    rewrite Z.div_mul by lia. lia.
Qed.

(** C37: the stack for a new program. When kmalloc gives the two megabytes, the
    arguments' number, the argument pointers, the environment pointers (each
    list ended by a zero) and the auxiliary vector lie one after the other
    below the top of the stack, and the pointer returned is aligned to 16 and
    inside the stack. It points at the number of arguments only when arguments
    and environment strings together are odd in number: otherwise the last
    alignment moves it one word below, and the program would find a word that
    was never set. *)
Theorem user_stack_layout fuel argv envp info m base m1 :
  Mem.kmalloc fuel USER_STACK_SIZE m = Done (base, m1) -> 0 < base -> base + USER_STACK_SIZE < 2 ^ 64 ->
  let n := Z.of_nat (length argv + length envp) in
  8 * n + 512 <= USER_STACK_SIZE ->
  let top := 16 * ((base + USER_STACK_SIZE) / 16) in
  let frame := top - 256 - 8 * (n + 3) in
  exists sp m2, setup_user_stack fuel argv envp info m = Done (sp, m2) /\
    bytes_at (mem m2) frame (8 * (n + 3)) = words (Z.of_nat (length argv) :: argv ++ 0 :: envp ++ [0]) /\
    bytes_at (mem m2) (top - 256) 208 = setup_auxv info /\
    base <= sp /\ sp mod 16 = 0 /\ sp = if Z.even n then frame - 8 else frame.
Proof.
  intros Ek Hb Hend n Hn top frame. unfold setup_user_stack. rewrite Ek. cbn [obind].
  destruct (Z.eqb_spec base 0) as [|_]; [lia|].
  assert (USER_STACK_SIZE = 2097152) as Es by reflexivity. rewrite Es in *.
  rewrite (wrap_small 64 (base + 2097152)) by lia. rewrite (align16_spec (base + 2097152)) by lia.
  assert (top = 16 * ((base + 2097152) / 16)) as Et by reflexivity. rewrite <- Et.
  pose proof (Z.div_mod (base + 2097152) 16 ltac:(lia)) as Hdm. pose proof (Z.mod_pos_bound (base + 2097152) 16 ltac:(lia)) as Hmb.
  assert (base + 2097152 - 15 <= top <= base + 2097152) as Htop by lia.
  rewrite (wrap_small 64 (top - 256)) by lia.
  set (na := Z.of_nat (length argv)) in *. set (ne := Z.of_nat (length envp)) in *.
  assert (n = na + ne) as En by (unfold n, na, ne; lia). assert (0 <= na /\ 0 <= ne) as [Hna Hne] by (unfold na, ne; lia).
  rewrite (wrap_small 64 (top - 256 - 8 * (ne + 1))) by lia.
  rewrite (wrap_small 64 (top - 256 - 8 * (ne + 1) - 8 * (na + 1))) by lia.
  rewrite (wrap_small 64 (top - 256 - 8 * (ne + 1) - 8 * (na + 1) - 8)) by lia.
  replace (top - 256 - 8 * (ne + 1) - 8 * (na + 1) - 8) with frame by (unfold frame; lia).
  replace (top - 256 - 8 * (ne + 1) - 8 * (na + 1)) with (frame + 8) by (unfold frame; lia).
  replace (top - 256 - 8 * (ne + 1)) with (frame + 8 + 8 * (na + 1)) by (unfold frame; lia).
  eexists _, _. split; [reflexivity|]. cbn [mem put_at set_mem].
  assert (Z.of_nat (length (words (argv ++ [0]))) = 8 * (na + 1)) as La by (rewrite length_words, length_app; cbn [length]; lia).
  assert (Z.of_nat (length (words (envp ++ [0]))) = 8 * (ne + 1)) as Le by (rewrite length_words, length_app; cbn [length]; lia).
  assert (Z.of_nat (length (le_bytes 8 na)) = 8) as Lc by (by rewrite length_le_bytes).
  assert (Z.of_nat (length (setup_auxv info)) = 208) as Lx by (unfold setup_auxv; by rewrite length_words).
  split; [|split; [|split; [|split]]].
  - rewrite bytes_at_store_ne by lia.
    replace (8 * (n + 3)) with (8 + (8 * (na + 1) + 8 * (ne + 1))) by lia. rewrite !bytes_at_app by lia.
    change (na :: argv ++ 0 :: envp ++ [0]) with ([na] ++ argv ++ [0] ++ envp ++ [0]).
    rewrite (app_assoc argv), !words_app. rewrite words_app in La, Le. f_equal; [|f_equal].
    + rewrite bytes_at_store by done. unfold words. cbn [flat_map]. by rewrite app_nil_r.
    + rewrite bytes_at_store_ne by lia. by apply bytes_at_store.
    + rewrite !bytes_at_store_ne by lia. by apply bytes_at_store.
  - by apply bytes_at_store.
  - rewrite align16_spec by lia. pose proof (Z.div_mod frame 16 ltac:(lia)). pose proof (Z.mod_pos_bound frame 16 ltac:(lia)). lia.
  - rewrite align16_spec by lia. rewrite Z.mul_comm. apply Z.mod_mul. lia.
  - rewrite align16_spec by lia. apply (aligned_frame ((base + 2097152) / 16) n).
Qed.
End Stack.

(** ** The ELF file of an assembled program *)
Section AsmElf.
Import Pkt Mem MemProps AsmProps Elf ElfLoad ShellElf.

Lemma load_image_prefix l k off n : off + n <= zlen l -> load_bytes (l ++ k) off n = load_bytes l off n.
Proof.
  intros Hl. unfold load_bytes. destruct ((0 <=? off) && (0 <=? n)) eqn:E; cbn [andb]; [|done].
  apply andb_true_iff in E as [E1%Z.leb_le E2%Z.leb_le]. unfold zlen in *. rewrite length_app.
  rewrite (proj2 (Z.leb_le (off + n) (Z.of_nat (length l + length k)))) by lia. rewrite (proj2 (Z.leb_le (off + n) (Z.of_nat (length l)))) by lia.
  f_equal. rewrite drop_app_le by lia. rewrite take_app_le; [done|]. rewrite length_drop. lia.
Qed.

Lemma nth_replicate_zero n i : nth i (replicate n 0) 0 = 0.
Proof. revert i. induction n as [|n IH]; intros [|i]; cbn; auto. Qed.

Definition asm_header : Elf64_Ehdr :=
  mk_ehdr ([127; 69; 76; 70; 2; 1; 1] ++ replicate 9 0) ET_EXEC EM_X86_64 1 0x400000 64 0 0 64 56 1 0 0 0.
Lemma asm_elf_header code : read_ehdr (asm_elf code) = Done asm_header.
Proof.
  unfold asm_elf, read_ehdr, ld16, ld32, ld64. rewrite !(load_image_prefix asm_ehdr) by (vm_compute; discriminate). vm_compute. reflexivity.
Qed.

(** The program header's fields, at offset 64. *)
Lemma asm_field code off n bs : off + n <= 120 ->
  load_bytes (asm_ehdr ++ asm_phdr (Z.of_nat (length code))) off n = Done bs -> load_bytes (asm_elf code) off n = Done bs.
Proof.
  intros Hl E. unfold asm_elf. rewrite app_assoc. rewrite load_image_prefix; [done|]. unfold zlen. rewrite length_app.
  change (length asm_ehdr) with 64%nat. change (length (asm_phdr (Z.of_nat (length code)))) with 56%nat. lia.
Qed.

Lemma asm_elf_segments code : (length code <= 4096)%nat ->
  segments (asm_elf code) 64 1 0 = Done [mk_seg 0x400000 code (Z.of_nat (length code))].
Proof.
  intros Hl. set (n := Z.of_nat (length code)).
  assert (forall off v bs, off + 8 <= 120 -> load_bytes (asm_ehdr ++ asm_phdr n) off 8 = Done bs -> le_value bs = v -> ld64 (asm_elf code) off = Done v) as F64.
  { intros off v bs Ho Hb <-. unfold ld64. by rewrite (asm_field code off 8 bs). }
  assert (le_value (le_bytes 8 n) = n) as En.
  { rewrite le_value_bytes. apply Z.mod_small. unfold n. change (256 ^ Z.of_nat 8) with (2 ^ 64). lia. }
  cbn [segments]. change (64 + sizeof_phdr * 0) with 64. unfold p_type, ld32.
  rewrite (asm_field code 64 4 (le_bytes 4 1)) by (lia || reflexivity). cbn [obind].
  unfold read_segment, p_offset, p_vaddr, p_memsz, p_filesz, p_align.
  rewrite (F64 (64 + 8) 120 (le_bytes 8 120)) by (lia || reflexivity). cbn [obind].
  rewrite (F64 (64 + 16) 0x400000 (le_bytes 8 0x400000)) by (lia || reflexivity). cbn [obind].
  rewrite (F64 (64 + 40) n (le_bytes 8 n)) by (lia || reflexivity || exact En). cbn [obind].
  rewrite (F64 (64 + 48) 4096 (le_bytes 8 4096)) by (lia || reflexivity). cbn [obind].
  rewrite (F64 (64 + 32) n (le_bytes 8 n)) by (lia || reflexivity || exact En). cbn [obind].
  change (le_value (le_bytes 4 1) =? PT_LOAD) with true. cbn match.
  unfold asm_elf. rewrite (app_assoc asm_ehdr). rewrite PktProps.load_app; [|done|unfold zlen, n; lia].
  cbn [obind]. do 3 f_equal. unfold n. rewrite Nat2Z.id. by rewrite firstn_all.
Qed.

(** C35: the file of the assembler command. For every source text that
    assembles to some code, the image the shell writes is accepted by
    [elf_validate], and loading it (in a context of that image) puts exactly the
    machine code at the start of the next free page, zeros behind it, and
    leaves the rest of memory alone. The entry point reported is 0x400000, the
    address in the file, where nothing was loaded. *)
Theorem asm_elf_loads source garbage r ctx code n :
  asm_program source (asm_init garbage) = Done (r, ctx) -> 0 <= r -> asm_get_code ctx = (Some code, n) -> n <> 0 ->
  let machine_code := take (Z.to_nat n) code in
  let image := asm_elf machine_code in
  length machine_code = Z.to_nat n /\ elf_validate image (zlen image) = Done ELF_SUCCESS /\
  exists h, read_ehdr image = Done h /\ forall c m pg l, c.(elf_data) = image -> c.(ehdr) = h -> pmm_ok m (pg :: l) ->
    exists info m', elf_load_segments c zero_info m = Done (ELF_SUCCESS, set_load_bias 0 c, info, m') /\
      entry_point info = 0x400000 /\ bytes_at (mem m') pg 4096 = machine_code ++ replicate (4096 - length machine_code) 0 /\
      forall x, ~ in_page pg x -> Mem.peek (mem m') x = Mem.peek (mem m) x.
Proof.
  intros Ea Hr Eg Hn machine_code image.
  destruct (asm_program_result source (asm_init garbage) fresh_ctx_ok) as (x & Ex & He & _).
  rewrite Ea in Ex. injection Ex as <-. cbn [snd] in He. destruct He as [[Hlen Hsz Hby] _ _ _].
  unfold asm_get_code in Eg. destruct (c_true (Asm.error ctx)); [done|]. injection Eg as <- <-.
  assert (length machine_code = Z.to_nat (Asm.size ctx)) as Hm by (unfold machine_code; rewrite length_take; lia).
  assert (length machine_code <= 4096)%nat as Hm4 by lia.
  split; [done|]. split.
  { unfold elf_validate. rewrite (proj2 (Z.ltb_ge (zlen image) sizeof_ehdr)).
    - unfold image. rewrite asm_elf_header. reflexivity.
    - unfold image, zlen, asm_elf. rewrite length_app. change (length asm_ehdr) with 64%nat. unfold sizeof_ehdr. lia. }
  exists asm_header. split; [apply asm_elf_header|]. intros c m pg l Hd Hh Hok.
  destruct (load_one_page_segments c m [mk_seg 0x400000 machine_code (Z.of_nat (length machine_code))] [pg] l)
    as (info & m' & El & Een & _ & Hpage & Hrest).
  - by rewrite Hh.
  - rewrite Hd, Hh. by apply asm_elf_segments.
  - constructor; [|done]. unfold fits. cbn [seg_vaddr seg_memsz seg_bytes]. change (u64 (0x400000 + 0) mod 4096) with 0.
    unfold zlen. assert (0 < length machine_code)%nat by (rewrite Hm; lia). lia.
  - done.
  - done.
  - exists info, m'. split; [done|]. rewrite Hh in Een. split; [done|]. split.
    + replace 4096 with (Z.of_nat (length (machine_code ++ replicate (4096 - length machine_code) 0))) by
        (rewrite length_app, length_replicate; lia).
      apply bytes_at_get. intros i Hi. rewrite length_app, length_replicate in Hi.
      rewrite (Hpage 0%nat _ pg eq_refl eq_refl (Z.of_nat i)) by lia. rewrite Nat2Z.id.
      rewrite <- (Nat2Z.id i) at 1. rewrite get_image by lia. cbn [seg_vaddr seg_bytes].
      change (u64 (0x400000 + 0) mod 4096) with 0. rewrite Z.sub_0_r, Nat2Z.id. unfold zlen. case_decide.
      * by rewrite Arrays.get_app_l by lia.
      * rewrite Arrays.get_app_r by lia. symmetry. apply nth_replicate_zero.
    + intros x Hx. apply Hrest. by constructor.
Qed.

(** [mov rax, 42] and [ret], in a machine with the memory map of [MemProps]. *)
Definition two_line_source : list Z := txt "mov rax, 42\nret".
Definition two_line_ctx : asm_context :=
  match asm_program two_line_source (asm_init (mk_ctx [] 0 0 [])) with Done (_, ctx) => ctx | _ => mk_ctx [] 0 0 [] end.
Definition two_line_code : list Z := take (Z.to_nat (Asm.size two_line_ctx)) (code two_line_ctx).

Lemma asm_elf_loads_witness : exists info m',
  let c := Elf.mk_context (asm_elf two_line_code) asm_header None None None None None 0 0 None [] 0 0 in
  elf_load_segments c zero_info (pmm_init ex_map blank) = Done (ELF_SUCCESS, set_load_bias 0 c, info, m') /\
  bytes_at (mem m') 1077248 4096 = two_line_code ++ replicate (4096 - length two_line_code) 0 /\ length two_line_code <> 0%nat.
Proof.
  destruct (asm_elf_loads two_line_source (mk_ctx [] 0 0 []) 0 two_line_ctx (code two_line_ctx) (Asm.size two_line_ctx)) as (_ & _ & h & Eh & Hl).
  { vm_compute. reflexivity. } { lia. } { vm_compute. reflexivity. } { vm_compute. discriminate. }
  rewrite asm_elf_header in Eh. injection Eh as <-.
  destruct (Hl (Elf.mk_context (asm_elf two_line_code) asm_header None None None None None 0 0 None [] 0 0) (pmm_init ex_map blank) 1077248
    (tail (rev (all_pages ex_map))) eq_refl eq_refl ex_pmm_ok) as (info & m' & El & _ & Hb & _).
  exists info, m'. split; [exact El|]. split; [exact Hb|]. vm_compute. discriminate.
Defined.
End AsmElf.

(** ** The test for QEMU's user network *)
(** It holds for no address 10.0.2.x, whose first byte is the lowest of the
    word; it holds for 0.2.0.10. *)
Theorem nat_never_detected x : is_byte x ->
  ShellNet.looks_like_nat (le_value [10; 0; 2; x]) = false /\ ShellNet.looks_like_nat (le_value [0; 2; 0; 10]) = true.
Proof.
  intros Hx. split; [|reflexivity].
  assert (forallb (fun i => negb (ShellNet.looks_like_nat (le_value [10; 0; 2; Z.of_nat i]))) (seq 0 256) = true) as Hall by (vm_compute; reflexivity).
  rewrite forallb_forall in Hall. specialize (Hall (Z.to_nat x)). rewrite in_seq, Z2Nat.id in Hall by apply Hx.
  apply negb_true_iff, Hall. unfold is_byte in Hx. lia.
Qed.

(** ** The theorems on a concrete machine *)
Section Witnesses.
Import Mem MemProps Elf ShellElf EditorFiles.

(** A heap of one free block of three megabytes. *)
Definition large_heap : mm := new_header (mk_mm ∅ 0 0 0 0x200000 0x300000 0 0x200000 0 0 0 0 0 0 0) 0x200000 (0x300000 - 24) 0.

Lemma user_stack_layout_witness : exists sp m2, setup_user_stack 1 [0x7000; 0x7010] [] zero_info large_heap = Done (sp, m2) /\
  bytes_at (mem m2) (sp + 8) 40 = words [2; 0x7000; 0x7010; 0; 0] /\ sp mod 16 = 0.
Proof.
  destruct (kmalloc 1 USER_STACK_SIZE large_heap) as [[base m1]| |] eqn:E; try (vm_compute in E; discriminate).
  assert (base = 0x200018) as -> by (vm_compute in E; congruence).
  destruct (user_stack_layout 1 [0x7000; 0x7010] [] zero_info large_heap 0x200018 m1 E) as (sp & m2 & Es & Hf & _ & _ & Ha & Hsp);
    [vm_compute; reflexivity|vm_compute; reflexivity|vm_compute; discriminate|].
  exists sp, m2. split; [exact Es|]. split; [|exact Ha].
  cbn [length Nat.add Z.of_nat Pos.of_succ_nat Pos.succ Z.even] in Hsp, Hf. rewrite Hsp.
  replace (16 * ((0x200018 + USER_STACK_SIZE) / 16) - 256 - 8 * (2 + 3) - 8 + 8) with (16 * ((0x200018 + USER_STACK_SIZE) / 16) - 256 - 8 * (2 + 3)) by lia.
  exact Hf.
Defined.

(** A store of files without directories. *)
#[local] Instance mem_dirs : DirApi mem_files := {|
  v_resolve _ w := Done (None, w); v_node _ _ := OutOfBounds; v_readdir _ _ w := Done (None, w); v_kfree _ w := w;
  v_mkdir _ _ w := Done (-1, w); v_root _ := None |}.
#[local] Instance mem_tree : TreeApi mem_files := {|
  d_list _ w := Done (None, w); d_is_there path w := Done (bool_decide (is_Some (m_files w !! cstr path)), w);
  d_chdir _ w := Done (-1, w); d_statfs _ w := Done (-1, None, w); d_unmount_root w := Done w;
  d_format _ w := Done (0, mk_mem ∅ (m_fds w) (m_next w)); d_mount _ _ _ w := Done (0, w) |}.
#[local] Existing Instances SchedClaims.demo_image NetSim.sim_nic.

Definition demo_ports : AudioDemo.card := AudioDemo.mk_card 0 ∅ ∅.
Definition demo_keys : Keyboard.kbd AudioDemo.card :=
  Keyboard.mk_kbd (Keyboard.mk_ring (replicate 256 0) 0 0) 0 0 0 (replicate 256 0) 0 0 History.cmd_history small (Serial.mk_serial 1 0 demo_ports).
Definition demo_sys : sys mem_files AudioDemo.card NetSim.sim :=
  mk_sys small demo_keys one_file SchedClaims.demo_boot AudioDemo.boot_audio
    (NetDemo.demo (replicate 32 NetDemo.free_arp) (Net.mk_rx NetDemo.buffer0 0 0)) demo_ports 0 1 0 (mk_mouse 0 0 0 [0; 0; 0] 0 0).

(** A firmware with one region of memory, a screen and no files. *)
Definition one_region : Boot.efi_map := Boot.mk_efi_map 48 7 48 (fun _ => mk_desc EfiConventionalMemory 0x100000 600).
#[local] Instance small_firmware : Boot.Uefi unit := {|
  Boot.InitializeLib w := w; Boot.ConClear w := w; Boot.SetCursorPosition _ _ w := w; Boot.OutputString _ w := w;
  Boot.GetMemoryMap _ _ w := (one_region, w); Boot.AllocatePool _ _ w := (0, 0x9000, w); Boot.FreePool _ w := w;
  Boot.ExitBootServices _ _ w := (0, w); Boot.Graphics _ := (∅, 32, 24, 32); Boot.LocateHandleBuffer w := (2 ^ 63 + 14, [], w);
  Boot.HandleProtocol _ w := (2 ^ 63 + 3, 0, w); Boot.OpenVolume _ w := (2 ^ 63 + 3, 0, w); Boot.Read _ _ _ w := (2 ^ 63 + 3, 0, w);
  Boot.SetPosition _ _ w := w; Boot.Open _ _ w := (2 ^ 63 + 3, 0, w); Boot.GetInfo _ _ _ w := (2 ^ 63 + 3, w); Boot.Close _ w := w;
  Boot.LoadImage _ _ _ w := (2 ^ 63 + 3, 0, w); Boot.StartImage _ w := (2 ^ 63 + 3, w); Boot.FileName _ _ := []; Boot.FileSize _ _ := 0 |}.
#[local] Instance mem_start : Boot.StartFiles mem_files := {|
  Boot.vfs_init w := mk_mem (m_files w) ∅ 0; Boot.tinyfs_create w := (Some 0x8000, w); Boot.vfs_register_filesystem _ w := (0, w) |}.
#[local] Instance some_symbols : Tables.Symbols := {|
  Tables.addr_gdt := 0x1000; Tables.addr_tss := 0x2000; Tables.addr_idt := 0x3000; Tables.isr v := 0x10000 + 16 * v;
  Tables.generic_handler := 0x11000; Tables.timer_handler_asm := 0x12000; Tables.keyboard_handler := 0x13000 |}.
Definition blank_tables : Tables.tables :=
  Tables.mk_tables (replicate 7 (Tables.mk_gdt 0 0 0 0 0 0)) (Tables.mk_ptr 0 0) (replicate 104 0) (replicate 256 (Tables.mk_idt 0 0 0 0 0 0 0))
    (Tables.mk_ptr 0 0) (Tables.mk_cpu (Tables.mk_ptr 0 0) (Tables.mk_ptr 0 0) 0 0 0 0 0 0 0).
Definition blank_machine : Boot.machine mem_files AudioDemo.card NetSim.sim unit :=
  Boot.mk_machine demo_sys blank_tables () (replicate 32 (1, [120])).

Lemma boot_leaves_jobs_off_witness : Boot.never_back (Boot.efi_main 4000 (fun _ s => s) 0x500000 0x500100 1) blank_machine.
Proof. apply (Boot.boot_leaves_jobs_off 4000 (fun _ s => s) 0x500000 0x500100 1). reflexivity. Defined.

(** [write /a hi], then [cat /a], where the file of the RAM disk holds 700 zero bytes. *)
#[local] Existing Instances bump_heap disk_api.
#[local] Instance disk_dirs : DirApi (Vfs.vfs_state * world Tinyfs.tinyfs_data Z Ramdisk.ramdisk) := vfs_dirs disk_ops.
#[local] Instance disk_tree : TreeApi (Vfs.vfs_state * world Tinyfs.tinyfs_data Z Ramdisk.ramdisk) :=
  vfs_tree disk_ops (VfsTinyfs.tinyfs_fs_ops TinyfsBlocks.two_block_data VfsTinyfs.ex_garbage (replicate 512 0)) 257 (fun _ => Tinyfs.tinyfs_format).
Definition disk_sys : sys (Vfs.vfs_state * world Tinyfs.tinyfs_data Z Ramdisk.ramdisk) AudioDemo.card NetSim.sim :=
  mk_sys small demo_keys disk_state SchedClaims.demo_boot AudioDemo.boot_audio
    (NetDemo.demo (replicate 32 NetDemo.free_arp) (Net.mk_rx NetDemo.buffer0 0 0)) demo_ports 0 1 0 (mk_mouse 0 0 0 [0; 0; 0] 0 0).

Lemma shell_write_cat_witness : exists s1 s2,
  gives (ShellMain.process_command 1 1 1 (fun _ s => s) 0 0 0 0 0 0 0 skip AsmProps.fresh_ctx None true [] 1 (lit "write /a hi")) disk_sys () s1 /\
  gives (ShellMain.process_command 1 1 1 (fun _ s => s) 0 0 0 0 0 0 0 skip AsmProps.fresh_ctx None true [] 1 (lit "cat /a")) s1 () s2 /\
  t_stored 0 disk_room s2.(fls) [47; 97] (lit "hi" ++ replicate 698 0) /\ s2.(scr) = printed WHITE BLACK (txt "hi\n\n") s1.(scr).
Proof.
  destruct (shell_write_cat VfsTinyfs.ex_garbage (replicate 512 0) 1 1 1 (fun _ s => s) 0 0 0 0 0 0 0 skip AsmProps.fresh_ctx None true []
    0 disk_room 0 [97] 104 [105] disk_bytes disk_sys TinyfsDisk.ramdisk_sectors eq_refl eq_refl) as (s1 & s2 & E1 & E2 & Hst & Hscr).
  - cbn. lia.
  - by repeat constructor.
  - discriminate.
  - discriminate.
  - discriminate.
  - cbn. lia.
  - discriminate.
  - exact disk_stored.
  - vm_compute. discriminate.
  - exists s1, s2. split; [exact E1|]. split; [exact E2|]. split.
    + revert Hst. rewrite disk_bytes_zero. exact (fun h => h).
    + revert Hscr. rewrite disk_bytes_zero. exact (fun h => h).
Defined.
End Witnesses.
End ShellProps.
